(* ===== verification/_CoqProject ===== *)
-Q . S2P
Prelude.v
Codec.v
Messages.v
TaskprovMessages.v
Errors.v
Config.v
Pine.v
PineField.v
PineEncoding.v
PineFlp.v
PineFlpCorrect.v
PineWraparound.v
PineMsg.v
PineVdaf.v
PineVdafCorrect.v
PineBatch.v
Taskprov.v
AggShare.v
Hpke.v
Protocol.v
ProtocolCorrect.v
LeaderState.v
Roles.v
HelperCorrect.v
HandlersCorrect.v
Leader.v
LeaderCorrect.v
LeaderProcess.v
Auth.v
InMemory.v
InMemoryCorrect.v
System.v
DurableStore.v
DurableChunks.v
DurableStoreCorrect.v
DurableRun.v
DurableRequests.v
DurableRequestsCorrect.v
StorageProxy.v
StorageProxyCorrect.v
StateCleaner.v
Mastic.v
VdafDispatch.v
VdafDispatchCorrect.v
VdafDispatchPine.v
Kv.v
KvCorrect.v
Server.v
ServerCorrect.v
Router.v
RouterCorrect.v
Metrics.v
MetricsCorrect.v
ProxyRouter.v
ProxyRouterCorrect.v
ServerAdmin.v
ServerAdminCorrect.v
ServerApp.v
Dapf.v
DapfCorrect.v
Reference.v
PineReference.v
Witnesses.v
PineWitnesses.v
DurableReference.v
DurableWitnesses.v
ServerWitnesses.v
RouterWitnesses.v
MetricsWitnesses.v
ProxyWitnesses.v
JobTest.v
JobTestCorrect.v
Acceptance.v
AcceptanceCorrect.v
DapfMain.v
DapfWitnesses.v
VdafWitnesses.v
ProtocolTests.v
RolesTests.v
UnitTests.v
