(* ===== verification/Prelude.v ===== *)
(** * Daphne: a verification library

    Daphne implements the Distributed Aggregation Protocol (DAP, draft 09).  Clients split a
    measurement into two shares and upload them, encrypted, in a report; two Aggregators, the
    Leader and the Helper, verify and sum their shares without seeing a measurement; the
    Collector combines the two sums.  The crate [daphne] has the protocol and the VDAF PINE;
    [daphne-server] is an Aggregator as a service, whose state is in durable objects and a
    key-value store behind the storage proxy of [daphne-worker]; [daphne-service-utils] has
    what these two share; [dapf] is a command-line client.

    This library is a shallow embedding of the five crates in Rocq: functions that return
    [Result] are functions into [res] (a value, an error, or a panic), code that changes state
    is a function in the state monad [stm], and every definition can be evaluated.  No axiom
    is used.

    ** The program, and where its parts are modelled

    Foundations:
    - [Prelude]: outcomes, the state monad, unsigned 64-bit arithmetic with the overflow
      behaviour of the build profile ([BuildProfile]: a debug build panics, a release
      build wraps), bytes and big-endian integers; shared lemmas and tactics.
    - [Codec]: cursors and buffers, and the combinators of [prio::codec], a dependency:
      the class [PrioCodec] with the laws [PrioCodecLaws].  Readers and writers have a
      calculus ([CodecOk], [NoPanic], [NonEmpty]) whose instances the message files
      declare; [Codec.Reference] implements the interface.

    The protocol, [src/crates/daphne/src/]:
    - [Messages] ([messages/mod.rs]): all messages of the protocol, their encoders and
      decoders.  [TaskprovMessages] ([messages/taskprov.rs]): the task configuration that
      taskprov advertises, whose decoders know how many bytes are left.
    - [Errors] ([error/], [constants.rs]): errors, aborts and their problem documents,
      media types, versions.
    - [Config] ([lib.rs], [vdaf/mod.rs]): task configuration, queries, buckets, batch
      spans, time quantization, requests.
    - [Taskprov] ([taskprov.rs]): tasks that are provisioned in-band, in both directions.
    - [AggShare] ([lib.rs]): aggregate shares and spans.
    - [Hpke] ([hpke.rs]): encryption to a receiver configuration.
    - [Protocol] ([protocol/]): client, Leader, Helper and Collector; [ProtocolCorrect] has
      its theorems.
    - [LeaderState] ([roles/leader/in_memory_leader.rs]): the reports and jobs of a Leader.
    - [Roles] ([roles/mod.rs], [roles/aggregator.rs], [roles/helper.rs]): the traits of an
      Aggregator as the class [DapAggregator], and the handlers of the Helper, over a
      [World]: the implementer's state, the metrics and the audit log.
      [HelperCorrect] states the contract of the storage, the class [AggShareStorage], and
      proves the aggregation job of the Helper against it; [HandlersCorrect] has the
      theorems about whole handlers.
    - [Leader] ([roles/leader/mod.rs]): the trait [DapLeader], the Leader's handlers, its
      aggregation and collection jobs and its work queue; [LeaderCorrect] has its theorems,
      [LeaderProcess] those about the processing of the queue.
    - [Auth] ([auth.rs]): bearer tokens.
    - [InMemory] and [System] ([testing/mod.rs], feature [test-utils]): the in-memory
      Aggregator as an instance of the classes, and a Leader with its Helper as peer.
      [InMemoryCorrect] shows that its storage keeps the contract [AggShareStorage].

    PINE, [src/crates/daphne/src/pine/]:
    - [Pine] ([mod.rs]): [Pine::new], the parameters and the lengths derived from them.
      [PineEncoding]: a coordinate as a field element and back, in binary64 arithmetic from
      the Standard Library's [SpecFloat].
    - [PineField]: the field, the XOF and the gadgets of [prio] as classes.  [PineFlp]
      ([flp.rs]): the encoding of a gradient, the wraparound tests and the two validity
      circuits; [PineFlpCorrect] and [PineWraparound] have their theorems.
    - [PineMsg] ([msg.rs]): the messages.  [PineVdaf] ([vdaf.rs]): sharding, preparation,
      aggregation and unsharding; [PineVdafCorrect] follows an honest run through them and
      [PineBatch] a batch; the preparation of arbitrary messages is in [PineVdafCorrect].

    The dispatch to the VDAFs, [src/crates/daphne/src/vdaf/]:
    - [VdafDispatch] ([mod.rs], [prio2.rs], [prio3.rs], [pine.rs]): the functions that make the
      VDAF of a configuration, decode, run and encode, as an instance of the interface
      [VdafOps] of [Protocol]; Prio2 and Prio3 are the class [PrioVdafs].
      [VdafDispatchCorrect] and [VdafDispatchPine] have the theorems.
    - [Mastic] ([mastic.rs], feature [experimental]): the insecure stand-in for Mastic.
    - [JobTest] ([AggregationJobTest] of [testing/mod.rs]): the Clients, the Aggregators and
      the Collector of one task in one process; [JobTestCorrect] follows the
      flow from the measurements to the aggregate result.

    The storage, [src/crates/daphne-worker/src/] and [src/crates/daphne-service-utils/src/]:
    - [DurableStore] ([durable/aggregate_store.rs], [durable/mod.rs]): the durable object of
      a bucket, with its caches and the chunked layout of its storage, over the class
      [DurableStorage] of the platform, any call of which may fail before or after its
      effect.  [DurableChunks]: chunks and what is stored in them.  [DurableStoreCorrect]:
      the abstract bucket ([bucket], [spec_step]), the relation between an object and its
      bucket ([coherent]), and a program logic for the object ([wp]).  [DurableRun]: runs
      with failures and evictions.
    - [DurableRequests] ([durable_requests/]): the requests to the objects, their names and
      their encoding over the class [Capnp]; [DurableRequestsCorrect].
    - [StorageProxy] ([storage_proxy/]): the proxy with its retries, over the classes
      [KvStore] and [DurableNamespace]; [StorageProxyCorrect].
    - [ProxyRouter] ([storage_proxy/mod.rs], [middleware.rs]): the entry point of the proxy with its
      routes, layers and metrics; [ProxyRouterCorrect].
    - [StateCleaner] ([durable/test_state_cleaner.rs], feature [test-utils]): the object with which
      tests clear the storage of all others, with its theorems.

    The service, [src/crates/daphne-server/src/]:
    - [Kv] ([storage_proxy_connection/kv/]): the typed key-value client and its cache;
      [KvCorrect].
    - [Server] ([roles/], [storage_proxy_connection/mod.rs], [lib.rs] and the configuration of
      [daphne-service-utils]): [App] with the methods of the traits; [ServerCorrect] follows
      a put through the service, the proxy, the platform and the objects.
    - [Router] ([router/], [roles/leader.rs]): HTTP requests and responses, the routes and
      their handlers, the metrics of the service, and the HTTP client of the Leader, over the
      classes [Axum], [Signer] and [HttpClient]; [RouterCorrect].
    - [Metrics] ([metrics.rs] of [daphne], [daphne-service-utils] and [storage_proxy/]): the
      Prometheus collectors behind the calls of the metrics; [MetricsCorrect].
    - [ServerAdmin] ([roles/mod.rs], feature [test-utils]): the operations with which tests
      provision and clear a service; [ServerAdminCorrect].
    - [ServerApp] ([roles/], [router/test_routes.rs], [lib.rs]): [App] as an instance of the
      classes of the roles, behind the router and with the routes for tests.

    The client, [src/crates/dapf/src/]:
    - [Dapf] ([main.rs], [http_client.rs], [test_routes.rs], [lib.rs]): the commands;
      [DapfCorrect] runs them against the routes of the service.
    - [Acceptance] ([acceptance/], [test_durations.rs], and of [daphne] the parameters of a task
      and [testing/report_generator.rs]): the test that plays the Clients and the Leader of a
      task against a Helper, and the load test; [AcceptanceCorrect].
    - [DapfMain] ([main.rs], [http_client.rs], [acceptance/load_testing.rs]): the arguments, the
      dispatch to the commands, the identity of the client and the loops of the load test.

    The tests, which the kernel runs:
    - [ProtocolTests] ([protocol/mod.rs], module [test]): one aggregation job, on the harness of
      [JobTest].  [RolesTests] ([roles/mod.rs], module [test]): a Leader and its Helper in memory,
      through their handlers.  The tests are executable definitions over the classes of the
      dependencies; [RolesTests] ends with the deployment they are run in.
    - [UnitTests]: the unit tests of messages, taskprov, media types, HPKE, names of objects and
      VDAFs ([messages/], [taskprov.rs], [constants.rs], [hpke.rs], [vdaf/prio2.rs], [vdaf/prio3.rs]
      and [durable_requests/bindings/mod.rs]), with SHA-256 and HKDF.

    Instances: [Reference], [PineReference], [DurableReference] and [MetricsWitnesses] have concrete functions for
    every dependency, with their laws, and a deployment that is run from upload to collection
    ([session_time_interval], [session_fixed_size]).  In [Witnesses], [PineWitnesses],
    [VdafWitnesses], [DurableWitnesses], [ServerWitnesses], [RouterWitnesses],
    [MetricsWitnesses], [ProxyWitnesses] and [DapfWitnesses] every theorem with hypotheses is applied at a concrete input.

    ** What the theorems show

    - Messages: every message round-trips (C7) and has one encoding
      ([messages_canonical]).  A truncated report extension panics
      (C34).
    - Aggregate shares: the abstract specification of a share is the bag of reports it
      was computed from ([represents]), that of a span such a bag per bucket
      ([span_represents]).  Merging is bag union (C13).
    - Batches: the span of a batch selector holds the bucket of a report exactly if the
      report is in the batch (C17).
    - Aggregation: a report a client produces is consumed by both Aggregators
      ([report_reaches_aggregators]); the two agree on every bucket (C2).
      Against any storage that keeps its contract, the Helper aggregates exactly what it
      answers (C1) within its bound of three rounds
      (C14); whole handlers: C8, C9,
      C18.
    - Collection: a collection job comes behind the aggregation of its batch
      (C10), no report is lost (C12), jobs only
      move forward ([coll_job_monotone]); [process], which runs the aggregation jobs of a
      task together, has finished those queued before a collection job, and started none
      behind it, when it runs the collection job, in every interleaving
      (C31); the Helper releases a share only if it agrees with the Leader
      on the reports (C4); the Collector gets the Aggregators' shares
      ([collector_recovers_shares]).
    - Storage in memory: after any sequence of operations it releases exactly the reports it
      accepted (C32), and a collected batch is final
      ([collected_batch_final]).
    - Storage in durable objects: an object does what its abstract bucket does, whatever
      write fails, up to a restart (C6), and counts every report once
      (C11); what the cache gets wrong until a restart is
      C35.  Requests survive their encoding
      (C20) and reach the object of their bucket
      ([bucket_names_distinct]); the retries of the proxy do not merge twice
      ([proxied_merge_once]); a purge leaves nothing of registered objects behind
      ([purge_complete]); through all layers the service stores every report at most once, and
      what it acknowledges is stored unless a write failed on an object that stayed in memory
      (C5).
    - Service: whom it lets in (C19); what it reads from KV is at most five
      minutes old (C29), and its cache is never asked for a value of another type
      than it holds (C30).
    - HTTP: a request the Leader sends over HTTP is the call of the Helper's handler
      (C21); every response is counted, and a problem document says no more
      than the abort ([every_response_counted]), also on the routes for tests
      ([service_responses_counted]).
    - Metrics: every exported counter is the number of its events, under a label of its own
      (C25), and those of the service are the responses it gave
      (C24); a registry takes the metrics once ([registered_once]).
    - The proxy as a service: without the trusted token it does not reach the storage
      (C22); what it counts does not change what it does, and counts the requests
      it sends to objects (C23); requests are timed ([kv_requests_timed]).
    - Provisioning: a task that was added is served with the tokens of the command
      (C28), and an HPKE configuration that was added decrypts
      ([added_config_decrypts]); a command that fails late blocks the task
      ([failed_add_task_blocks]).
    - The client: it gets the HPKE configuration of a service, and accepts only one that is
      signed if it has a certificate (C27); a rotation keeps the IDs of
      configurations distinct ([rotation_keeps_ids]).  Its commands for a Leader ask for routes
      that do not exist ([leader_commands_unserved]).
    - Acceptance: an acceptance test that passes has seen the Helper release the share of all its
      reports (C26); the jobs are a partition of the batch
      ([jobs_partition_batch]), and the advertisement of the test resolves to its task
      ([advertised_parameters_resolve]).  In some combinations of the load test a job waits forever
      (C36); the command for one test ends ([aggregate_command_ends]).
    - Taskprov: a task is provisioned only under the hash of its advertisement
      (C15), and the Leader hands on the advertisement it received
      (C16).
    - PINE: the parameters (C33), coordinates ([coordinate_round_trip]),
      messages ([pine_messages_codec]), circuits ([encoded_gradient_valid],
      C40, [wr_tests_are_dot_products]); an honest report is prepared
      ([pine_report_prepared]) and the result of a batch is the sum of its gradients
      ([pine_batch_sum]).
    - Dispatch: what a VDAF does with an honest report, the functions the protocol calls do
      with its bytes (C38); no bytes of a Client or of the peer make the
      preparation panic (C39), for which the circuits of PINE are shown to return and
      to call their gadgets as often and with as many elements as they declare
      ([PineType_valid_safe]).  The stand-in for Mastic counts prefixes
      ([mastic_counts_prefixes]).
    - The whole flow: measurements whose reports the VDAF can prepare come out as the result
      of the VDAF, and no step fails (C3); with PINE, as the sum of the
      gradients (C37).

    - Tests: the 22 tests of the sub-protocol ([protocol_tests_pass]) and 26 of the 29 tests of the
      roles ([role_tests_pass]) pass for both versions, in a deployment with the fields of [prio] and
      with stand-ins for the proof systems and the cryptography.  The other three, a batch of a
      hundred windows and two tasks with PINE, take the kernel minutes and are left out.  The unit tests
      ([unit_tests_pass], [vdaf_tests_pass]) compare encodings, the salt of taskprov
      ([taskprov_salt]) and a verification key with known bytes.

    ** Dependencies

    Code that is not part of the repository is a class: [PrioCodec], [PrioAgg], [PrioVec],
    [PrioField], [Xof], [Gadget], [Flp] and [PrioVdafs] ([prio]), [HpkeCrypto] ([hpke_rs]),
    [Digest] (SHA-256), [Hkdf], [Base64], [HexCodec], [UrlParser], [UrlJoin],
    [UrlPath], [UrlSegments], [Capnp],
    [DurableStorage], [DurableNamespace], [KvStore] and [CleanerStorage] (the platform), [DoHttp], [KvHttp],
    [KvJson], [HttpClient], [ProxyHttp], [WebJson] and [TestJson] ([reqwest], [serde]), [Axum]
    ([axum], [http]), [Signer] ([p256]), [Webpki],
    [ProblemJson], [Wrangler], [HexDecode], [Prometheus], [ProxyAxum], [Rustls],
    [CliJson]. What the theorems assume of it is in the classes of
    laws next to it; the reference instances show that the laws can hold. Random bytes are
    arguments of the functions that draw them.

    ** Bounds and recursion

    Loops over lists are structural.  The Helper's loop counts down [RETRY_COUNT] and that of
    the proxy runs down [RETRY_DELAYS], which are the program's own bounds;
    C14 shows that the first is enough.  Loops over bytes have as much
    fuel as there are bytes ([Codec.Reference.decode_seq], [decode_elems], [insert_ids],
    [decode_chunks], [chunks]), and every step consumes some.  Lengths are at most
    [slice_max], the largest size of a Rust allocation, and sums of report counts are assumed
    to fit 64 bits where a theorem says so; a durable object runs on a 32-bit platform, and
    its theorems assume that its contents fit ([fits]).  The endless loops of the load test are
    run for a number of rounds, and the loops of [dapf] that look for a free ID get a list of draws
    ([None] when none of them is free).

    ** What is not modelled

    - The feature [experimental] is off: only [Mastic] models what it adds.
    - Concurrency: a handler runs to its end before the next one starts.  The aggregation jobs
      that [process] joins do interleave ([Leader], futures); the requests to the buckets of a
      span, which are to different objects, are made one after the other.  The contract of the
      storage makes each put atomic per bucket, as the trait documents.
    - The limits of an allocation, such as the capacity [dequeue_work] reserves.
    - Logging, tracing, serialization with serde, and memory accounting ([deepsize]).
    - In [ServerApp], what the lookup of an HPKE configuration for a decryption leaves in the
      cache of the service: the trait's decryption reads the state only.
    - Of [dapf], what [clap] makes of the arguments, and the output and the clock of the load test.
      Its jobs run together; here those that pass the barrier run one after the other.

    ** Plan

    Next are a Leader over HTTP, the end-to-end tests of the service, and the test vectors of PINE,
    which need the fields and the proof system of [prio] as executable definitions. *)

From Stdlib Require Strings.Byte.
From Stdlib Require Export NArith Lia.
From stdpp Require Export base tactics list gmap strings.
From stdpp Require Import countable.

Abbreviation byte := Byte.byte.

Open Scope N_scope.

(** ** Outcomes of a Rust call

    A call returns [Ok], returns [Err], or panics (an out-of-range slice, an
    [unwrap] of the wrong variant, a division by zero, a checked overflow). *)
Inductive res (E A : Type) : Type :=
| Ok (a : A)
| Err (e : E)
| Panic.
Arguments Ok {E A} a.
Arguments Err {E A} e.
Arguments Panic {E A}.

#[global] Instance res_ret {E} : MRet (res E) := fun A a => Ok a.
#[global] Instance res_bind {E} : MBind (res E) := fun A B f m =>
  match m with
  | Ok a => f a
  | Err e => Err e
  | Panic => Panic
  end.
#[global] Instance res_fmap {E} : FMap (res E) := fun A B f m =>
  match m with
  | Ok a => Ok (f a)
  | Err e => Err e
  | Panic => Panic
  end.

(** [Result::map_err] *)
Definition map_err {E E' A} (f : E -> E') (m : res E A) : res E' A :=
  match m with
  | Ok a => Ok a
  | Err e => Err (f e)
  | Panic => Panic
  end.

(** [Option::ok_or] *)
Definition ok_or {E A} (o : option A) (e : E) : res E A :=
  match o with Some a => Ok a | None => Err e end.

(** [Option::unwrap], [Option::expect] *)
Definition unwrap {E A} (o : option A) : res E A :=
  match o with Some a => Ok a | None => Panic end.

Definition is_ok {E A} (m : res E A) : bool :=
  match m with Ok _ => true | _ => false end.

Definition is_panic {E A} (m : res E A) : bool :=
  match m with Panic => true | _ => false end.

#[global] Instance res_eq_dec {E A} `{EqDecision E, EqDecision A} :
  EqDecision (res E A).
Proof. solve_decision. Defined.

Lemma Ok_inj {E A} (a b : A) : Ok (E:=E) a = Ok b -> a = b.
Proof. by intros [= ->]. Qed.

(** Inversion of a successful, or of a non-panicking, sequence of calls. *)
Lemma bind_Ok {E A B} (m : res E A) (f : A -> res E B) b :
  (m ≫= f) = Ok b <-> exists a, m = Ok a /\ f a = Ok b.
Proof. destruct m; simpl; naive_solver. Qed.

Lemma map_err_Ok {E E' A} (f : E -> E') (m : res E A) a :
  map_err f m = Ok a <-> m = Ok a.
Proof. destruct m; simpl; naive_solver. Qed.

Lemma map_err_Panic {E E' A} (f : E -> E') (m : res E A) :
  map_err f m = Panic <-> m = Panic.
Proof. destruct m; simpl; naive_solver. Qed.

Lemma ok_or_Ok {E A} (o : option A) (e : E) a :
  ok_or o e = Ok a <-> o = Some a.
Proof. destruct o; simpl; naive_solver. Qed.

Lemma bind_no_panic {E A B} (m : res E A) (f : A -> res E B) :
  m <> Panic -> (forall a, m = Ok a -> f a <> Panic) -> (m ≫= f) <> Panic.
Proof. destruct m; simpl; naive_solver. Qed.

(** ** Stateful calls

    A method on [&self] whose object has interior state: the state survives an
    error, because nothing rolls it back. *)
Definition stm (S E A : Type) : Type := S -> res E A * S.

#[global] Instance stm_ret {S E} : MRet (stm S E) := fun A a s => (Ok a, s).
#[global] Instance stm_bind {S E} : MBind (stm S E) := fun A B f m s =>
  match m s with
  | (Ok a, s') => f a s'
  | (Err e, s') => (Err e, s')
  | (Panic, s') => (Panic, s')
  end.

(** A call that does not touch the state. *)
Definition lift {S E A} (m : res E A) : stm S E A := fun s => (m, s).
Definition throw {S E A} (e : E) : stm S E A := fun s => (Err e, s).
Definition get_state {S E} : stm S E S := fun s => (Ok s, s).
Definition put_state {S E} (s : S) : stm S E unit := fun _ => (Ok tt, s).
Definition modify {S E} (f : S -> S) : stm S E unit := fun s => (Ok tt, f s).

Lemma stm_bind_Ok {S E A B} (m : stm S E A) (f : A -> stm S E B) s b s' :
  (m ≫= f) s = (Ok b, s') <-> exists a s1, m s = (Ok a, s1) /\ f a s1 = (Ok b, s').
Proof.
  unfold mbind, stm_bind. destruct (m s) as [[a|e|] s1]; naive_solver.
Qed.

(** Destruct every [match] scrutinee of the goal or of a hypothesis once. *)
Ltac case_goal :=
  match goal with
  | |- context [match ?x with _ => _ end] => destruct x eqn:?
  end.
Ltac case_hyp H :=
  match type of H with
  | context [match ?x with _ => _ end] => destruct x eqn:?
  end.

(** Split every [(m ≫= f) = Ok _] hypothesis into its two calls. *)
Ltac inv_binds :=
  repeat match goal with
  | H : (_ ≫= _) = Ok _ |- _ =>
      let a := fresh "a" in let H1 := fresh H in let H2 := fresh H in
      apply bind_Ok in H as (a & H1 & H2); cbn beta in H2
  | H : map_err _ _ = Ok _ |- _ => apply map_err_Ok in H
  | H : ok_or _ _ = Ok _ |- _ => apply ok_or_Ok in H
  | H : Ok _ = Ok _ |- _ => injection H as H
  | H : mret _ = Ok _ |- _ => injection H as H
  | p : (_ * _)%type |- _ => destruct p; cbn beta iota in *
  end.

(** ** Unsigned integers

    An unsigned Rust integer is an [N] below its width.  [usize] is 64 bits
    wide, the width of the native service.  Whether an overflowing [+], [-] or
    [*] panics or wraps is the [overflow-checks] flag of the build profile: on in
    the development profile, off in the [release] profile of [Cargo.toml].  The
    development is parametric in it. *)
Class BuildProfile := { overflow_checks : bool }.

Definition u8_max : N := 255.
Definition u16_max : N := 65535.
Definition u32_max : N := 4294967295.
Definition u64_max : N := 18446744073709551615.

(** [str::parse::<u64>], which is also that of [usize] on a 64-bit platform: a sign may come
    first, and there is at least one digit. *)
Fixpoint parse_digits (acc : N) (s : list Ascii.ascii) : option N :=
  match s with
  | [] => Some acc
  | c :: s =>
      let d := Ascii.N_of_ascii c in
      if (48 <=? d) && (d <=? 57) && (acc * 10 + (d - 48) <=? u64_max)
      then parse_digits (acc * 10 + (d - 48)) s
      else None
  end.

Definition parse_u64 (s : string) : option N :=
  match String.list_ascii_of_string s with
  | [] => None
  | c :: s =>
      if bool_decide (c = Ascii.ascii_of_N 43)
      then match s with [] => None | _ => parse_digits 0 s end
      else parse_digits 0 (c :: s)
  end.

Definition u64_add `{BuildProfile} {E} (a b : N) : res E N :=
  if a + b <=? u64_max then Ok (a + b)
  else if overflow_checks then Panic else Ok ((a + b) mod (u64_max + 1)).

Definition u64_sub `{BuildProfile} {E} (a b : N) : res E N :=
  if b <=? a then Ok (a - b)
  else if overflow_checks then Panic else Ok (u64_max + 1 + a - b).

Definition u64_mul `{BuildProfile} {E} (a b : N) : res E N :=
  if a * b <=? u64_max then Ok (a * b)
  else if overflow_checks then Panic else Ok ((a * b) mod (u64_max + 1)).

(** [%] and [/] panic on a zero divisor in every profile. *)
Definition u64_rem {E} (a b : N) : res E N :=
  if b =? 0 then Panic else Ok (a mod b).
Definition u64_div {E} (a b : N) : res E N :=
  if b =? 0 then Panic else Ok (a / b).

(** [u64::abs_diff] never overflows. *)
Definition u64_abs_diff (a b : N) : N := if a <? b then b - a else a - b.

(** [usize] of a length. *)
Definition len {A} (l : list A) : N := N.of_nat (length l).

Lemma len_app {A} (l k : list A) : len (l ++ k) = len l + len k.
Proof. unfold len. rewrite length_app. lia. Qed.

Lemma len_nil {A} : len (@nil A) = 0.
Proof. reflexivity. Qed.

Lemma len_cons {A} (x : A) l : len (x :: l) = 1 + len l.
Proof. unfold len. simpl length. lia. Qed.

Lemma u64_add_fits `{BuildProfile} {E} a b :
  a + b <= u64_max -> u64_add (E:=E) a b = Ok (a + b).
Proof. intros H1. unfold u64_add. by rewrite (proj2 (N.leb_le _ _) H1). Qed.

Lemma u64_sub_fits `{BuildProfile} {E} a b :
  b <= a -> u64_sub (E:=E) a b = Ok (a - b).
Proof. intros H1. unfold u64_sub. by rewrite (proj2 (N.leb_le _ _) H1). Qed.

Lemma u64_mul_fits `{BuildProfile} {E} a b :
  a * b <= u64_max -> u64_mul (E:=E) a b = Ok (a * b).
Proof. intros H1. unfold u64_mul. by rewrite (proj2 (N.leb_le _ _) H1). Qed.

(** Whatever the profile, the result of a [u64] operation is a [u64]. *)
Lemma u64_add_range `{BuildProfile} {E} a b c :
  u64_add (E:=E) a b = Ok c -> c <= u64_max.
Proof.
  unfold u64_add. destruct (N.leb_spec (a + b) u64_max); [naive_solver|].
  destruct overflow_checks; [naive_solver|]. intros [= <-].
  assert ((a + b) mod (u64_max + 1) < u64_max + 1) by (apply N.mod_lt; done). lia.
Qed.

Lemma u64_mul_range `{BuildProfile} {E} a b c :
  u64_mul (E:=E) a b = Ok c -> c <= u64_max.
Proof.
  unfold u64_mul. destruct (N.leb_spec (a * b) u64_max); [naive_solver|].
  destruct overflow_checks; [naive_solver|]. intros [= <-].
  assert ((a * b) mod (u64_max + 1) < u64_max + 1) by (apply N.mod_lt; done). lia.
Qed.

Lemma u64_sub_range `{BuildProfile} {E} a b c :
  a <= u64_max -> u64_sub (E:=E) a b = Ok c -> c <= u64_max.
Proof.
  intros Ha. unfold u64_sub. destruct (N.leb_spec b a); [intros [= <-]; lia|].
  destruct overflow_checks; [done|]. intros [= <-]. lia.
Qed.

(** ** Bytes *)
Definition byte_of_N (n : N) : byte := default Byte.x00 (Byte.of_N (n mod 256)).

Lemma byte_of_N_to_N b : byte_of_N (Byte.to_N b) = b.
Proof. by destruct b. Qed.

Lemma byte_to_N_lt b : Byte.to_N b < 256.
Proof. pose proof (Byte.to_N_bounded b). lia. Qed.

Lemma to_N_byte_of_N n : Byte.to_N (byte_of_N n) = n mod 256.
Proof.
  unfold byte_of_N. destruct (Byte.of_N (n mod 256)) as [b|] eqn:Hb; simpl.
  - by apply Byte.to_of_N in Hb.
  - apply Byte.of_N_None_iff in Hb.
    assert (n mod 256 < 256) by (apply N.mod_lt; done). lia.
Qed.

#[global] Instance byte_eq_dec : EqDecision byte := Byte.byte_eq_dec.
#[global] Instance byte_countable : Countable byte.
Proof.
  apply (inj_countable' Byte.to_N byte_of_N). intros b. apply byte_of_N_to_N.
Defined.
#[global] Instance byte_inhabited : Inhabited byte := populate Byte.x00.

Definition byte_xor (a b : byte) : byte :=
  byte_of_N (N.lxor (Byte.to_N a) (Byte.to_N b)).

Lemma to_N_byte_xor a b :
  Byte.to_N (byte_xor a b) = N.lxor (Byte.to_N a) (Byte.to_N b).
Proof.
  unfold byte_xor. rewrite to_N_byte_of_N. apply N.mod_small.
  destruct (N.eq_dec (N.lxor (Byte.to_N a) (Byte.to_N b)) 0) as [->|Hne]; [done|].
  change 256 with (2 ^ 8). apply N.log2_lt_pow2; [lia|].
  eapply N.le_lt_trans; [apply N.log2_lxor|].
  assert (forall c, N.log2 (Byte.to_N c) < 8) as Hl by (intros []; vm_compute; done).
  pose proof (Hl a). pose proof (Hl b). lia.
Qed.

Lemma byte_to_N_inj a b : Byte.to_N a = Byte.to_N b -> a = b.
Proof. intros H. by rewrite <-(byte_of_N_to_N a), H, byte_of_N_to_N. Qed.

Lemma byte_xor_eq_0 a b : Byte.to_N (byte_xor a b) = 0 <-> a = b.
Proof.
  rewrite to_N_byte_xor, N.lxor_eq_0_iff. split; [apply byte_to_N_inj|by intros ->].
Qed.

Lemma byte_xor_comm a b : byte_xor a b = byte_xor b a.
Proof. unfold byte_xor. by rewrite N.lxor_comm. Qed.

Lemma byte_xor_assoc a b c : byte_xor a (byte_xor b c) = byte_xor (byte_xor a b) c.
Proof. apply byte_to_N_inj. rewrite !to_N_byte_xor. by rewrite N.lxor_assoc. Qed.

Lemma byte_xor_0_l a : byte_xor Byte.x00 a = a.
Proof. apply byte_to_N_inj. by rewrite to_N_byte_xor. Qed.

(** Little- and big-endian encodings, [to_le_bytes] and [to_be_bytes] of the
    Rust integer types, and the values they denote. *)
Fixpoint le_bytes (n : nat) (v : N) : list byte :=
  match n with
  | O => []
  | S n => byte_of_N v :: le_bytes n (v / 256)
  end.

Fixpoint le_value (bs : list byte) : N :=
  match bs with
  | [] => 0
  | b :: bs => Byte.to_N b + 256 * le_value bs
  end.

Definition be_bytes (n : nat) (v : N) : list byte := reverse (le_bytes n v).
Definition be_value (bs : list byte) : N := le_value (reverse bs).

Lemma length_le_bytes n v : length (le_bytes n v) = n.
Proof. revert v; induction n; intros; simpl; auto. Qed.

Lemma length_be_bytes n v : length (be_bytes n v) = n.
Proof. unfold be_bytes. by rewrite length_reverse, length_le_bytes. Qed.

Lemma le_value_bytes n v : v < 256 ^ N.of_nat n -> le_value (le_bytes n v) = v.
Proof.
  revert v. induction n as [|n IH]; intros v Hv; simpl le_bytes; simpl le_value.
  - simpl in Hv. lia.
  - rewrite IH, to_N_byte_of_N.
    + pose proof (N.div_mod v 256 ltac:(lia)). lia.
    + apply N.Div0.div_lt_upper_bound.
      rewrite Nat2N.inj_succ, N.pow_succ_r' in Hv. lia.
Qed.

Lemma le_bytes_value bs : le_bytes (length bs) (le_value bs) = bs.
Proof.
  induction bs as [|b bs IH]; [done|]. simpl. f_equal.
  - assert ((Byte.to_N b + 256 * le_value bs) mod 256 = Byte.to_N b) as E.
    { rewrite (N.mul_comm 256), N.Div0.mod_add. apply N.mod_small, byte_to_N_lt. }
    unfold byte_of_N. rewrite E. by rewrite Byte.of_to_N.
  - assert ((Byte.to_N b + 256 * le_value bs) / 256 = le_value bs) as ->; [|done].
    rewrite (N.mul_comm 256), N.div_add by lia.
    rewrite N.div_small by apply byte_to_N_lt. lia.
Qed.

Lemma le_value_lt bs : le_value bs < 256 ^ N.of_nat (length bs).
Proof.
  induction bs as [|b bs IH]; simpl length; simpl le_value; [simpl; lia|].
  rewrite Nat2N.inj_succ, N.pow_succ_r'. pose proof (byte_to_N_lt b). lia.
Qed.

Lemma be_value_bytes n v : v < 256 ^ N.of_nat n -> be_value (be_bytes n v) = v.
Proof.
  intros. unfold be_value, be_bytes. rewrite reverse_involutive. by apply le_value_bytes.
Qed.

Lemma be_bytes_value bs : be_bytes (length bs) (be_value bs) = bs.
Proof.
  unfold be_value, be_bytes. rewrite <-length_reverse, le_bytes_value.
  apply reverse_involutive.
Qed.

Lemma be_value_lt bs : be_value bs < 256 ^ N.of_nat (length bs).
Proof. unfold be_value. rewrite <-length_reverse. apply le_value_lt. Qed.
