(* ===== verification/Codec.v ===== *)
(** * The codec layer

    [prio::codec] is a dependency, not part of the repository: its integer
    codecs, its length-prefixed vectors and its [get_encoded]/[get_decoded]
    entry points are the parameters of the class [PrioCodec], and what the
    repository relies on (network byte order, length prefixes in bytes, an error
    on trailing bytes) is the class of laws [PrioCodecLaws].  [prio_reference]
    instantiates both, so the laws can hold.  [std::io::Cursor] and
    [Read::read_exact] are standard library and are modelled here.

    The rest of the file is the calculus in which every message of the protocol
    is shown to round trip ([codec_complete]) and to have no second encoding
    ([codec_sound]). *)

From S2P Require Import Prelude.

(** The constructors of [prio::codec::CodecError] the repository names; [Io] is
    the conversion from [std::io::Error] used by [?] on [read_exact]. *)
Inductive CodecError : Type :=
| Io
| UnexpectedValue
| LengthPrefixTooBig (n : N)
| BytesLeftOver (n : N)
| Other (msg : string).

#[global] Instance CodecError_eq_dec : EqDecision CodecError.
Proof. solve_decision. Defined.

(** ** [std::io::Cursor<&[u8]>] *)
Record cursor : Type := Cursor { get_ref : list byte; position : nat }.

Definition cursor_new (bs : list byte) : cursor := Cursor bs 0.

Definition remaining (c : cursor) : list byte := drop (position c) (get_ref c).

Definition advance (c : cursor) (n : nat) : cursor :=
  Cursor (get_ref c) (position c + n).

Definition read_exact (n : N) (c : cursor) : res CodecError (list byte * cursor) :=
  if n <=? len (remaining c)
  then Ok (take (N.to_nat n) (remaining c), advance c (N.to_nat n))
  else Err Io.

(** A decoder reads from a cursor, an encoder appends to a buffer. *)
Definition reader (A : Type) : Type := cursor -> res CodecError (A * cursor).
Definition writer (A : Type) : Type := A -> list byte -> res CodecError (list byte).

#[global] Instance reader_ret : MRet reader := fun A a c => Ok (a, c).
#[global] Instance reader_bind : MBind reader := fun A B f m c =>
  match m c with
  | Ok (a, c') => f a c'
  | Err e => Err e
  | Panic => Panic
  end.

Definition read_fail {A} (e : CodecError) : reader A := fun _ => Err e.
Definition read_panic {A} : reader A := fun _ => Panic.

(** ** The interface of [prio::codec] *)
Inductive int_width : Type := W8 | W16 | W32 | W64.

Definition width_bytes (w : int_width) : nat :=
  match w with W8 => 1 | W16 => 2 | W32 => 4 | W64 => 8 end.

Definition width_max (w : int_width) : N :=
  match w with W8 => u8_max | W16 => u16_max | W32 => u32_max | W64 => u64_max end.

Class PrioCodec : Type := {
  (** [u8::encode], ..., [u64::encode] *)
  int_encode : int_width -> writer N;
  (** [u8::decode], ..., [u64::decode] *)
  int_decode : int_width -> reader N;
  (** [<()>::decode] *)
  unit_decode : reader unit;
  (** [encode_u8_items], [encode_u16_items], [encode_u32_items] *)
  encode_items : int_width -> forall {A}, writer A -> writer (list A);
  (** [decode_u8_items], [decode_u16_items], [decode_u32_items] *)
  decode_items : int_width -> forall {A}, reader A -> reader (list A);
  (** [Encode::get_encoded], [ParameterizedEncode::get_encoded_with_param] *)
  get_encoded : forall {A}, writer A -> A -> res CodecError (list byte);
  (** [Decode::get_decoded], [ParameterizedDecode::get_decoded_with_param] *)
  get_decoded : forall {A}, reader A -> list byte -> res CodecError A;
}.

Abbreviation u8_encode := (int_encode W8).
Abbreviation u16_encode := (int_encode W16).
Abbreviation u32_encode := (int_encode W32).
Abbreviation u64_encode := (int_encode W64).
Abbreviation u8_decode := (int_decode W8).
Abbreviation u16_decode := (int_decode W16).
Abbreviation u32_decode := (int_decode W32).
Abbreviation u64_decode := (int_decode W64).

(** ** Completeness and soundness of a codec *)

(** [g] appends exactly [bs], whatever the buffer holds. *)
Definition appends (g : list byte -> res CodecError (list byte)) (bs : list byte) : Prop :=
  forall buf, g buf = Ok (buf ++ bs).

(** [w] appends exactly [bs] for [x]. *)
Definition writes {A} (w : writer A) (x : A) (bs : list byte) : Prop := appends (w x) bs.

(** A Rust slice holds at most [isize::MAX] bytes. *)
Definition slice_max : N := 9223372036854775807.

(** [d] reads [x] off [bs] and stops behind it, whatever surrounds [bs]. *)
Definition decodes {A} (d : reader A) (x : A) (bs : list byte) : Prop :=
  forall pre post, len (pre ++ bs ++ post) <= slice_max ->
  d (Cursor (pre ++ bs ++ post) (length pre))
    = Ok (x, Cursor (pre ++ bs ++ post) (length pre + length bs)).

(** Going from [c] to [c'] reads exactly [bs]. *)
Definition consumed (c : cursor) (bs : list byte) (c' : cursor) : Prop :=
  take (length bs) (remaining c) = bs /\ c' = advance c (length bs).

Definition codec_complete {A} (wf : A -> Prop) (w : writer A) (d : reader A) : Prop :=
  forall x, wf x -> exists bs, writes w x bs /\ decodes d x bs.

Definition codec_sound {A} (wf : A -> Prop) (w : writer A) (d : reader A) : Prop :=
  forall c x c', d c = Ok (x, c') ->
    wf x /\ exists bs, consumed c bs c' /\ writes w x bs.

(** A successful read of [d] is a read of a piece of the input. *)
Definition reader_consumes {A} (d : reader A) : Prop :=
  forall c x c', d c = Ok (x, c') -> exists bs, consumed c bs c'.

(** Successive items read by [d]. *)
Inductive decodes_seq {A} (d : reader A) : cursor -> list A -> cursor -> Prop :=
| decodes_seq_nil c : decodes_seq d c [] c
| decodes_seq_cons c x c1 xs c2 :
    d c = Ok (x, c1) -> decodes_seq d c1 xs c2 -> decodes_seq d c (x :: xs) c2.

(** ** What the repository relies on *)
Class PrioCodecLaws (P : PrioCodec) : Prop := {
  (** Integers are written in network byte order; *)
  int_encode_be w v : v <= width_max w -> writes (int_encode w) v (be_bytes (width_bytes w) v);
  (** and read in the same order, failing when the input is too short. *)
  int_decode_be w c : int_decode w c =
    ('(bs, c') ← read_exact (N.of_nat (width_bytes w)) c; Ok (be_value bs, c'));
  (** The unit value is the empty string. *)
  unit_decode_spec c : unit_decode c = Ok (tt, c);
  (** A vector is the length in bytes of its items followed by the items; *)
  encode_items_writes w {A} (f : writer A) xs bss :
    Forall2 (writes f) xs bss -> len (mjoin bss) <= width_max w ->
    writes (encode_items w f) xs
      (be_bytes (width_bytes w) (len (mjoin bss)) ++ mjoin bss);
  (** a vector whose items do not fit the prefix is an error, *)
  encode_items_too_long w {A} (f : writer A) xs bss buf :
    Forall2 (writes f) xs bss -> width_max w < len (mjoin bss) ->
    exists e, encode_items w f xs buf = Err e;
  (** and decoding reads the prefix, then items until that many bytes are read. *)
  decode_items_decodes w {A} (d : reader A) xs bss :
    Forall2 (decodes d) xs bss -> Forall (fun bs => bs <> []) bss ->
    len (mjoin bss) <= width_max w ->
    decodes (decode_items w d) xs
      (be_bytes (width_bytes w) (len (mjoin bss)) ++ mjoin bss);
  decode_items_inv w {A} (d : reader A) c xs c' :
    reader_consumes d -> decode_items w d c = Ok (xs, c') ->
    exists n c1 cend, int_decode w c = Ok (n, c1) /\ n <= len (remaining c1) /\
      decodes_seq d (cursor_new (take (N.to_nat n) (remaining c1))) xs cend /\
      position cend = N.to_nat n /\ c' = advance c1 (N.to_nat n);
  decode_items_no_panic w {A} (d : reader A) :
    (forall c, d c <> Panic) -> forall c, decode_items w d c <> Panic;
  (** The entry points start from an empty buffer and reject trailing bytes. *)
  get_encoded_spec {A} (f : writer A) x : get_encoded f x = f x [];
  get_decoded_spec {A} (d : reader A) bs : get_decoded d bs =
    ('(x, c) ← d (cursor_new bs);
     if (position c <? length bs)%nat
     then Err (BytesLeftOver (len bs - N.of_nat (position c))) else Ok x);
}.

(** ** The calculus *)
Lemma width_bound w : width_max w + 1 = 256 ^ N.of_nat (width_bytes w).
Proof. by destruct w. Qed.

Lemma remaining_cursor pre bs post :
  remaining (Cursor (pre ++ bs ++ post) (length pre)) = bs ++ post.
Proof. unfold remaining. simpl. apply drop_app_length. Qed.

Lemma read_exact_decodes bs : decodes (read_exact (len bs)) bs bs.
Proof.
  intros pre post _. unfold read_exact. rewrite remaining_cursor, len_app.
  rewrite (proj2 (N.leb_le _ _)) by lia. unfold len. rewrite Nat2N.id.
  by rewrite take_app_length.
Qed.

Lemma read_exact_decodes' n bs : len bs = n -> decodes (read_exact n) bs bs.
Proof. intros <-. apply read_exact_decodes. Qed.

Lemma read_exact_consumed n c bs c' :
  read_exact n c = Ok (bs, c') -> len bs = n /\ consumed c bs c'.
Proof.
  unfold read_exact. destruct (N.leb_spec n (len (remaining c))) as [Hle|]; [|done].
  intros [= <- <-]. unfold len in *.
  assert (length (take (N.to_nat n) (remaining c)) = N.to_nat n) as E
    by (rewrite length_take; lia).
  split; [lia|]. unfold consumed. by rewrite E.
Qed.

Lemma read_exact_no_panic n c : read_exact n c <> Panic.
Proof. unfold read_exact. by case_match. Qed.

Lemma decodes_ret {A} (x : A) : decodes (mret x) x [].
Proof.
  intros pre post _. unfold mret, reader_ret. simpl. by rewrite Nat.add_0_r.
Qed.

Lemma decodes_bind {A B} (d : reader A) (k : A -> reader B) x y b1 b2 :
  decodes d x b1 -> decodes (k x) y b2 -> decodes (d ≫= k) y (b1 ++ b2).
Proof.
  intros H1 H2 pre post Hmax. unfold mbind, reader_bind.
  rewrite <-(app_assoc b1 b2 post) in *. rewrite (H1 pre (b2 ++ post)) by done.
  specialize (H2 (pre ++ b1) post). rewrite length_app, <-!app_assoc in H2.
  rewrite H2 by done. by rewrite length_app, Nat.add_assoc.
Qed.

Lemma decodes_bind_ret {A B} (d : reader A) (f : A -> B) x b :
  decodes d x b -> decodes (d ≫= (fun a => mret (f a))) (f x) b.
Proof.
  intros H. rewrite <-(app_nil_r b). eapply decodes_bind; [done|]. apply decodes_ret.
Qed.

Lemma consumed_ret c : consumed c [] c.
Proof. split; [done|]. destruct c. unfold advance. simpl. by rewrite Nat.add_0_r. Qed.

Lemma consumed_trans c b1 c1 b2 c2 :
  consumed c b1 c1 -> consumed c1 b2 c2 -> consumed c (b1 ++ b2) c2.
Proof.
  intros [H1 ->] [H2 ->]. unfold consumed, advance, remaining in *. simpl in *.
  rewrite length_app, Nat.add_assoc. split; [|done].
  rewrite <-drop_drop in H2. rewrite <-take_take_drop. by rewrite H1, H2.
Qed.

Lemma reader_bind_Ok {A B} (d : reader A) (k : A -> reader B) c y c' :
  (d ≫= k) c = Ok (y, c') <-> exists x c1, d c = Ok (x, c1) /\ k x c1 = Ok (y, c').
Proof.
  unfold mbind, reader_bind. destruct (d c) as [[x c1]|e|]; naive_solver.
Qed.

Lemma reader_bind_no_panic {A B} (d : reader A) (k : A -> reader B) c :
  d c <> Panic -> (forall x c1, d c = Ok (x, c1) -> k x c1 <> Panic) -> (d ≫= k) c <> Panic.
Proof.
  unfold mbind, reader_bind. destruct (d c) as [[x c1]|e|]; naive_solver.
Qed.

(** Bytes read are bytes of the input. *)
Lemma consumed_remaining c bs c' :
  consumed c bs c' -> remaining c = bs ++ remaining c'.
Proof.
  intros [H ->]. unfold advance, remaining in *. simpl.
  rewrite <-drop_drop.
  rewrite <-(take_drop (length bs) (drop (position c) (get_ref c))) at 1. by rewrite H.
Qed.

Lemma sound_consumes {A} (wf : A -> Prop) (f : writer A) (d : reader A) :
  codec_sound wf f d -> reader_consumes d.
Proof. intros H c x c' Hc. apply H in Hc as (_ & bs & Hbs & _). eauto. Qed.

Section Calculus.
Context `{PC : PrioCodec} {L : PrioCodecLaws PC}.

Lemma int_complete w : codec_complete (fun v => v <= width_max w) (int_encode w) (int_decode w).
Proof.
  intros v Hv. exists (be_bytes (width_bytes w) v). split; [by apply int_encode_be|].
  intros pre post Hmax. rewrite int_decode_be.
  rewrite read_exact_decodes' by (done || unfold len; by rewrite length_be_bytes). simpl.
  rewrite be_value_bytes; [done|]. rewrite <-width_bound. lia.
Qed.

Lemma int_sound w : codec_sound (fun v => v <= width_max w) (int_encode w) (int_decode w).
Proof.
  intros c v c'. rewrite int_decode_be. intros H.
  apply bind_Ok in H as ([bs c1] & H1 & [= <- <-]).
  apply read_exact_consumed in H1 as [Hlen Hc].
  assert (length bs = width_bytes w) as Hl by (unfold len in Hlen; lia).
  pose proof (be_value_lt bs) as Hlt. rewrite Hl, <-width_bound in Hlt.
  split; [lia|]. exists bs. split; [done|].
  rewrite <-(be_bytes_value bs) at 2. rewrite Hl. apply int_encode_be. lia.
Qed.

Lemma int_decode_no_panic w c : int_decode w c <> Panic.
Proof.
  rewrite int_decode_be. apply bind_no_panic; [apply read_exact_no_panic|].
  by intros [].
Qed.

(** An integer always occupies its width, so no item that starts with one is
    empty. *)
Lemma int_writes_length w v bs :
  v <= width_max w -> writes (int_encode w) v bs -> length bs = width_bytes w.
Proof.
  intros Hv H. specialize (H []). rewrite (int_encode_be w v Hv []) in H.
  injection H as <-. apply length_be_bytes.
Qed.

Lemma decodes_seq_consumed {A} (wf : A -> Prop) (f : writer A) (d : reader A) c xs c' :
  codec_sound wf f d -> decodes_seq d c xs c' ->
  Forall wf xs /\ exists bss, Forall2 (writes f) xs bss /\ consumed c (mjoin bss) c'.
Proof.
  intros Hd. induction 1 as [c|c x c1 xs c2 H1 H2 IH].
  - split; [done|]. exists []. split; [done|]. apply consumed_ret.
  - apply Hd in H1 as (Hx & b & Hc & Hw). destruct IH as (Hxs & bss & Hbs & Hcs).
    split; [by constructor|]. exists (b :: bss). split; [by constructor|].
    simpl. by eapply consumed_trans.
Qed.

Lemma items_complete {A} w (wf : A -> Prop) (f : writer A) (d : reader A) xs :
  codec_complete wf f d ->
  (forall x bs, wf x -> writes f x bs -> bs <> []) ->
  Forall wf xs ->
  exists bss, Forall2 (writes f) xs bss /\
    (len (mjoin bss) <= width_max w ->
     exists bs, writes (encode_items w f) xs bs /\ decodes (decode_items w d) xs bs).
Proof.
  intros Hc Hne Hxs.
  assert (exists bss, Forall2 (writes f) xs bss /\ Forall2 (decodes d) xs bss /\
            Forall (fun bs => bs <> []) bss) as (bss & Hw & Hd & Hn).
  { induction Hxs as [|x xs Hx _ IH]; [by exists []|].
    destruct IH as (bss & Hw & Hd & Hn). destruct (Hc x Hx) as (b & Hwb & Hdb).
    exists (b :: bss). split_and!; constructor; eauto. }
  exists bss. split; [done|]. intros Hle. eexists. split.
  - by apply encode_items_writes.
  - by apply decode_items_decodes.
Qed.

Lemma items_sound {A} w (wf : A -> Prop) (f : writer A) (d : reader A) :
  codec_sound wf f d ->
  codec_sound (Forall wf) (encode_items w f) (decode_items w d).
Proof.
  intros Hd c xs c' H.
  apply decode_items_inv in H as (n & c1 & cend & Hn & Hle & Hseq & Hpos & ->);
    [|by eapply sound_consumes].
  apply int_sound in Hn as (Hmax & bn & Hcn & Hwn).
  apply (decodes_seq_consumed wf f) in Hseq as (Hwf & bss & Hw & Hbs); [|done].
  split; [done|]. destruct Hbs as [Htk ->]. simpl in Hpos.
  unfold remaining, cursor_new in Htk. simpl in Htk. rewrite drop_0, take_take in Htk.
  rewrite Hpos, Nat.min_id in Htk.
  assert (len (mjoin bss) = n) as Hln by (unfold len; lia).
  exists (be_bytes (width_bytes w) (len (mjoin bss)) ++ mjoin bss). split.
  - eapply consumed_trans; [|split; [by rewrite Hpos|by rewrite Hpos]].
    rewrite Hln. pose proof (int_encode_be w n Hmax []) as Hb.
    rewrite (Hwn []) in Hb. injection Hb as <-. done.
  - apply encode_items_writes; [done|lia].
Qed.
End Calculus.

Create HintDb codec discriminated.

(** ** Codecs as an interface

    A message is shown to be [CodecOk] from the fact that its fields are: the
    encoder and the decoder agree on the set [wf] of values of the message, every
    such value is read back from its encoding, and nothing else is. *)
Class CodecOk {A} (wf : A -> Prop) (w : writer A) (d : reader A) : Prop := {
  codec_is_complete : codec_complete wf w d;
  codec_is_sound : codec_sound wf w d;
}.

(** A decoder that returns on every input, whatever it holds. *)
Class NoPanic {A} (d : reader A) : Prop := no_panic : forall c, d c <> Panic.

(** A decoder that needs at least one byte. *)
Class NonEmpty {A} (d : reader A) : Prop :=
  non_empty : forall x c, d (cursor_new []) <> Ok (x, c).

#[global] Hint Mode CodecOk ! - - ! : typeclass_instances.
#[global] Hint Mode NoPanic ! ! : typeclass_instances.
#[global] Hint Mode NonEmpty ! ! : typeclass_instances.

Lemma appends_bind (g k : list byte -> res CodecError (list byte)) b1 b2 :
  appends g b1 -> appends k b2 -> appends (fun buf => g buf ≫= k) (b1 ++ b2).
Proof.
  intros H1 H2 buf. rewrite (H1 buf). simpl. by rewrite (H2 (buf ++ b1)), app_assoc.
Qed.

Lemma appends_extend bs : appends (fun buf => Ok (buf ++ bs)) bs.
Proof. by intros buf. Qed.

(** Completeness of a message, field by field. *)
Lemma complete_bind {A B} (wf : A -> Prop) w d (a : A) g (k : A -> reader B) y :
  CodecOk wf w d -> wf a ->
  (exists bs, appends g bs /\ decodes (k a) y bs) ->
  exists bs, appends (fun buf => w a buf ≫= g) bs /\ decodes (d ≫= k) y bs.
Proof.
  intros C Ha (b2 & Hg & Hk). destruct (@codec_is_complete _ _ _ _ C a Ha) as (b1 & Hw & Hd).
  exists (b1 ++ b2). split; [by apply appends_bind|by eapply decodes_bind].
Qed.

Lemma complete_last {A B} (wf : A -> Prop) w d (a : A) (k : A -> reader B) y :
  CodecOk wf w d -> wf a -> k a = mret y ->
  exists bs, appends (fun buf => w a buf) bs /\ decodes (d ≫= k) y bs.
Proof.
  intros C Ha Hk. destruct (@codec_is_complete _ _ _ _ C a Ha) as (b & Hw & Hd).
  exists b. split; [done|]. rewrite <-(app_nil_r b). eapply decodes_bind; [done|].
  rewrite Hk. apply decodes_ret.
Qed.

(** Soundness of a message, field by field. *)
Lemma sound_bind {A B} (wf : A -> Prop) w d `{!CodecOk wf w d} (k : A -> reader B) c y c' :
  (d ≫= k) c = Ok (y, c') ->
  exists a c1 bs, wf a /\ consumed c bs c1 /\ appends (w a) bs /\ k a c1 = Ok (y, c').
Proof.
  intros H. apply reader_bind_Ok in H as (a & c1 & H & Hk).
  apply codec_is_sound in H as (Hwf & bs & Hc & Hw). eauto 10.
Qed.

(** Two messages with the same encoding are the same message. *)
Lemma codec_injective {A} (wf : A -> Prop) w d {C : CodecOk wf w d} x y bs :
  len bs <= slice_max -> wf x -> wf y -> writes w x bs -> writes w y bs -> x = y.
Proof.
  intros Hmax Hx Hy Wx Wy.
  destruct (@codec_is_complete _ _ _ _ C x Hx) as (b1 & W1 & D1).
  destruct (@codec_is_complete _ _ _ _ C y Hy) as (b2 & W2 & D2).
  specialize (Wx []). specialize (Wy []). rewrite (W1 []) in Wx. rewrite (W2 []) in Wy.
  simpl in *. assert (b1 = bs) as -> by congruence. assert (b2 = bs) as -> by congruence.
  specialize (D1 [] []). specialize (D2 [] []). rewrite !app_nil_r in *.
  rewrite D1 in D2 by done. naive_solver.
Qed.

#[global] Instance NoPanic_ret {A} (x : A) : NoPanic (mret x).
Proof. done. Qed.
#[global] Instance NoPanic_fail {A} e : NoPanic (read_fail (A:=A) e).
Proof. done. Qed.
#[global] Instance NoPanic_bind {A B} (d : reader A) (k : A -> reader B) :
  NoPanic d -> (forall x, NoPanic (k x)) -> NoPanic (d ≫= k).
Proof. intros Hd Hk c. apply reader_bind_no_panic; [apply Hd|intros; apply Hk]. Qed.
#[global] Instance NoPanic_read_exact n : NoPanic (read_exact n).
Proof. intros c. apply read_exact_no_panic. Qed.
#[global] Instance NonEmpty_bind {A B} (d : reader A) (k : A -> reader B) :
  NonEmpty d -> NonEmpty (d ≫= k).
Proof. intros Hd y c H. apply reader_bind_Ok in H as (x & c1 & H & _). by apply Hd in H. Qed.

(** The fixed-size arrays [[u8; N]]. *)
Definition array (n : N) (bs : list byte) : Prop := len bs = n.

(** [bytes.extend_from_slice(..)] *)
Definition extend_from_slice : writer (list byte) := fun bs buf => Ok (buf ++ bs).
#[global] Arguments extend_from_slice : simpl never.

#[global] Instance array_codec n : CodecOk (array n) extend_from_slice (read_exact n).
Proof.
  split.
  - intros bs Hbs. exists bs. split; [apply appends_extend|by apply read_exact_decodes'].
  - intros c bs c' H. apply read_exact_consumed in H as [Hl Hc]. split; [done|].
    exists bs. split; [done|apply appends_extend].
Qed.

Lemma read_exact_NonEmpty n : 0 < n -> NonEmpty (read_exact n).
Proof.
  intros Hn x c. unfold read_exact. change (len (remaining (cursor_new []))) with 0.
  by rewrite (proj2 (N.leb_gt _ _)).
Qed.
#[global] Hint Extern 1 (NonEmpty (read_exact _)) =>
  apply read_exact_NonEmpty; reflexivity : typeclass_instances.

(** A vector whose items fit the prefix. *)
Definition items_fit (w : int_width) {A} (f : writer A) (xs : list A) : Prop :=
  exists bss, Forall2 (writes f) xs bss /\ len (mjoin bss) <= width_max w.

Definition wf_items (w : int_width) {A} (wf : A -> Prop) (f : writer A) (xs : list A) : Prop :=
  Forall wf xs /\ items_fit w f xs.

Section Interface.
Context `{PC : PrioCodec} {L : PrioCodecLaws PC}.

#[global] Instance int_codec w :
  CodecOk (fun v => v <= width_max w) (int_encode w) (int_decode w).
Proof. split; [apply int_complete|apply int_sound]. Qed.

#[global] Instance NoPanic_int w : NoPanic (int_decode w).
Proof. intros c. apply int_decode_no_panic. Qed.

#[global] Instance NonEmpty_int w : NonEmpty (int_decode w).
Proof. intros x c. rewrite int_decode_be. by destruct w. Qed.

#[global] Instance NoPanic_items w {A} (d : reader A) :
  NoPanic d -> NoPanic (decode_items w d).
Proof. intros Hd c. by apply decode_items_no_panic. Qed.

Lemma NonEmpty_decodes {A} (d : reader A) `{!NonEmpty d} x bs : decodes d x bs -> bs <> [].
Proof. intros H ->. specialize (H [] [] ltac:(done)). by apply non_empty in H. Qed.

#[global] Instance items_codec w {A} (wf : A -> Prop) f d :
  CodecOk wf f d -> NonEmpty d ->
  CodecOk (wf_items w wf f) (encode_items w f) (decode_items w d).
Proof.
  intros C Hne. split.
  - intros xs [Hxs (bss & Hw & Hle)]. exists (be_bytes (width_bytes w) (len (mjoin bss)) ++ mjoin bss).
    split; [by apply encode_items_writes|].
    assert (Forall2 (decodes d) xs bss) as Hd.
    { clear Hle. induction Hw as [|x b xs bss Hx _ IH]; [done|].
      inversion Hxs as [|? ? Hwf Hxs']; subst. constructor; [|by apply IH].
      destruct (@codec_is_complete _ _ _ _ C x Hwf) as (b' & W' & D').
      specialize (Hx []). rewrite (W' []) in Hx. by injection Hx as <-. }
    apply decode_items_decodes; [done| |done].
    clear -Hd Hne. induction Hd; constructor; eauto using NonEmpty_decodes.
  - intros c xs c' H. pose proof (items_sound w wf f d codec_is_sound c xs c' H) as [Hwf Hbs].
    split; [|done]. split; [done|].
    apply decode_items_inv in H as (n & c1 & cend & Hn & Hle & Hseq & Hpos & ->);
      [|eapply sound_consumes, codec_is_sound].
    apply int_sound in Hn as (Hmax & _).
    apply (decodes_seq_consumed wf f) in Hseq as (_ & bss & Hw & [_ ->]);
      [|apply codec_is_sound].
    exists bss. split; [done|]. simpl in Hpos. unfold len. lia.
Qed.
End Interface.

(** ** Whole messages

    [get_encoded] and [get_decoded] of a message of the protocol. *)
Section Whole.
Context `{PC : PrioCodec} {L : PrioCodecLaws PC}.

(** Every value is encoded, and decoding its encoding gives it back. *)
Definition round_trips {A} (wf : A -> Prop) (w : writer A) (d : reader A) : Prop :=
  forall x, wf x -> exists bs, get_encoded w x = Ok bs /\
    (len bs <= slice_max -> get_decoded d bs = Ok x).

(** Nothing but the encoding of a value is decoded to it. *)
Definition canonical {A} (wf : A -> Prop) (w : writer A) (d : reader A) : Prop :=
  forall bs x, get_decoded d bs = Ok x -> wf x /\ get_encoded w x = Ok bs.

(** Decoding returns a value or an error, whatever the bytes. *)
Definition decoding_returns {A} (d : reader A) : Prop :=
  forall bs, get_decoded d bs <> Panic.

Lemma codec_round_trips {A} (wf : A -> Prop) w (d : reader A) :
  CodecOk wf w d -> round_trips wf w d.
Proof.
  intros C x Hx. destruct (@codec_is_complete _ _ _ _ C x Hx) as (bs & Hw & Hd).
  exists bs. rewrite get_encoded_spec. split; [apply (Hw [])|]. intros Hmax.
  specialize (Hd [] []). rewrite app_nil_r in Hd. simpl in Hd.
  rewrite get_decoded_spec. unfold cursor_new. rewrite Hd by done. simpl.
  by rewrite Nat.ltb_irrefl.
Qed.

Lemma codec_canonical {A} (wf : A -> Prop) w (d : reader A) :
  CodecOk wf w d -> canonical wf w d.
Proof.
  intros C bs x H. rewrite get_decoded_spec in H.
  apply bind_Ok in H as ([y c] & Hd & H).
  destruct (Nat.ltb_spec (position c) (length bs)); [done|]. injection H as ->.
  apply (@codec_is_sound _ _ _ _ C) in Hd as (Hwf & b & Hc & Hw).
  split; [done|]. rewrite get_encoded_spec, (Hw []). simpl. f_equal.
  destruct Hc as [Ht ->]. unfold remaining, cursor_new, advance in *. simpl in *.
  rewrite drop_0 in Ht. by rewrite take_ge in Ht.
Qed.

Lemma no_panic_returns {A} (d : reader A) : NoPanic d -> decoding_returns d.
Proof.
  intros H bs. rewrite get_decoded_spec. apply bind_no_panic; [apply H|].
  intros [x c] _. by case_match.
Qed.
End Whole.

#[export] Hint Resolve codec_round_trips codec_canonical no_panic_returns : codec.

(** ** Automation for messages that are sequences of fields *)

(** The value [x] of a record type is split into its fields, the encoder and the
    decoder are followed field by field. *)
#[export] Hint Extern 1 (_ <= width_max _) => (cbv; discriminate) : codec.

Ltac solve_field := first [eassumption|solve [cbn beta; eauto with codec]].

Ltac complete_fields :=
  repeat first
    [ eapply complete_last; [apply _|solve_field|reflexivity]
    | eapply complete_bind; [apply _|solve_field|cbn] ].

Ltac head_of t := match t with ?f _ => head_of f | _ => t end.
Ltac unfold_head_in t H := let h := head_of t in unfold h in H.
Ltac unfold_writes :=
  match goal with
  | |- context [writes ?w] => let h := head_of w in unfold writes, h
  end.
Ltac unfold_decodes :=
  match goal with
  | |- context [decodes ?d] => let h := head_of d in unfold h
  end.

Ltac solve_complete :=
  let x := fresh "x" in let Hx := fresh "Hx" in
  intros x Hx; destruct x;
  match type of Hx with ?wf _ => unfold_head_in wf Hx end;
  cbn in Hx; destruct_and?;
  repeat match goal with p : (_ * _)%type |- _ => destruct p end; cbn in *;
  unfold_writes; unfold_decodes; cbn; complete_fields.

(** One field of a successful read. *)
Ltac sound_field H :=
  match type of H with
  | mbind ?k ?d ?c = Ok (?y, ?c') =>
      let H' := fresh in
      pose proof (sound_bind _ _ d k c y c' H) as H'; clear H;
      destruct H' as (? & ? & ? & ? & ? & ? & H); cbn beta in H
  end.

Ltac sound_fields H :=
  repeat sound_field H;
  try (unfold mret, reader_ret in H; injection H as <- <-).

Ltac chain_consumed :=
  first [ eassumption | apply consumed_ret
        | eapply consumed_trans; [eassumption|chain_consumed] ].

Ltac chain_appends :=
  first [ eassumption | apply appends_extend | solve [eauto with codec]
        | eapply appends_bind;
          [first [eassumption|apply appends_extend|solve [eauto with codec]]|chain_appends] ].

Ltac close_sound :=
  eexists; split; [chain_consumed|unfold_writes; cbn; chain_appends].

Ltac solve_wf :=
  match goal with |- ?wf _ => let h := head_of wf in unfold h end;
  cbn; split_and?; first [assumption|solve [eauto with codec]].

(** A decoder that branches on a tag it has just read. *)
Ltac case_tag H :=
  match type of H with
  | (if (?a =? ?b) then _ else _) _ = _ => destruct (N.eqb_spec a b) as [->|]
  end.

Ltac solve_sound_tag :=
  let c := fresh "c" in let x := fresh "x" in let c' := fresh "c'" in
  let H := fresh "H" in
  intros c x c' H;
  match type of H with ?lhs = _ => unfold_head_in lhs H end;
  repeat first [sound_field H|case_tag H]; try discriminate H;
  try (unfold mret, reader_ret in H; injection H as <- <-);
  (split; [solve_wf|close_sound]).

Ltac solve_sound :=
  let c := fresh "c" in let x := fresh "x" in let c' := fresh "c'" in
  let H := fresh "H" in
  intros c x c' H;
  match type of H with ?lhs = _ => unfold_head_in lhs H end; sound_fields H;
  split; [solve_wf|close_sound].

(** A decoder built from decoders that return. *)
Ltac solve_no_panic :=
  match goal with |- NoPanic ?d => let h := head_of d in unfold h end;
  repeat first [ apply _ | case_match | apply NoPanic_bind; [apply _|intros] ].

Ltac solve_non_empty :=
  match goal with |- NonEmpty ?d => let h := head_of d in unfold h end; apply _.

(** ** A codec that satisfies the laws *)
Module Reference.
Fixpoint encode_seq {A} (f : writer A) (xs : list A) (buf : list byte) :
    res CodecError (list byte) :=
  match xs with
  | [] => Ok buf
  | x :: xs => f x buf ≫= encode_seq f xs
  end.

Fixpoint decode_seq {A} (fuel : nat) (d : reader A) (c : cursor) :
    res CodecError (list A) :=
  if (length (get_ref c) <=? position c)%nat then Ok []
  else match fuel with
       | O => Err (Other "no progress")
       | S fuel => '(x, c') ← d c; xs ← decode_seq fuel d c'; Ok (x :: xs)
       end.

Definition ref_int_decode (w : int_width) : reader N := fun c =>
  '(bs, c') ← read_exact (N.of_nat (width_bytes w)) c; Ok (be_value bs, c').

Definition ref_encode_items (w : int_width) {A} (f : writer A) : writer (list A) :=
  fun xs buf =>
    body ← encode_seq f xs [];
    if len body <=? width_max w
    then Ok (buf ++ be_bytes (width_bytes w) (len body) ++ body)
    else Err (Other "length prefix overflow").

Definition ref_decode_items (w : int_width) {A} (d : reader A) : reader (list A) :=
  fun c =>
    '(n, c1) ← ref_int_decode w c;
    if n <=? len (remaining c1) then
      let body := take (N.to_nat n) (remaining c1) in
      xs ← decode_seq (N.to_nat n) d (cursor_new body);
      Ok (xs, advance c1 (N.to_nat n))
    else Err (LengthPrefixTooBig n).

#[global] Instance prio_reference : PrioCodec := {
  int_encode := fun w v buf => Ok (buf ++ be_bytes (width_bytes w) v);
  int_decode := ref_int_decode;
  unit_decode := fun c => Ok (tt, c);
  encode_items := @ref_encode_items;
  decode_items := @ref_decode_items;
  get_encoded := fun A f x => f x [];
  get_decoded := fun A d bs =>
    '(x, c) ← d (cursor_new bs);
    if (position c <? length bs)%nat
    then Err (BytesLeftOver (len bs - N.of_nat (position c))) else Ok x;
}.

Lemma encode_seq_writes {A} (f : writer A) xs bss buf :
  Forall2 (writes f) xs bss -> encode_seq f xs buf = Ok (buf ++ mjoin bss).
Proof.
  intros H. revert buf. induction H as [|x b xs bss Hx _ IH]; intros buf; simpl.
  - by rewrite app_nil_r.
  - rewrite (Hx buf). simpl. by rewrite IH, app_assoc.
Qed.

Lemma decode_seq_decodes {A} (d : reader A) xs bss pre fuel :
  Forall2 (decodes d) xs bss -> Forall (fun bs => bs <> []) bss ->
  (length xs <= fuel)%nat -> len (pre ++ mjoin bss) <= slice_max ->
  decode_seq fuel d (Cursor (pre ++ mjoin bss) (length pre)) = Ok xs.
Proof.
  intros H. revert pre fuel. induction H as [|x b xs bss Hx _ IH]; intros pre fuel Hn Hf Hmax.
  - destruct fuel; simpl; rewrite app_nil_r, Nat.leb_refl; done.
  - inversion Hn as [|? ? Hb Hn']; subst. destruct fuel as [|fuel]; simpl in *; [lia|].
    rewrite (proj2 (Nat.leb_gt _ _)).
    2:{ rewrite !length_app. destruct b; [done|]. simpl. lia. }
    rewrite Hx by done. simpl. replace (length pre + length b)%nat with (length (pre ++ b))
      by (by rewrite length_app).
    rewrite app_assoc, IH; [done|done|lia|]. by rewrite <-app_assoc.
Qed.

Lemma items_at_most_bytes {A} (d : reader A) xs bss :
  Forall2 (decodes d) xs bss -> Forall (fun bs : list byte => bs <> []) bss ->
  (length xs <= length (mjoin bss))%nat.
Proof.
  intros H Hn. induction H as [|x b xs bss Hx _ IH]; simpl; [lia|].
  inversion Hn as [|? ? Hb Hn']; subst. rewrite length_app.
  destruct b; [done|]. simpl. specialize (IH Hn'). lia.
Qed.

(** When every step stays inside the buffer, the sequence ends at its end. *)
Lemma decode_seq_inv {A} (d : reader A) fuel c xs :
  decode_seq fuel d c = Ok xs ->
  exists cend, decodes_seq d c xs cend /\ (length (get_ref cend) <= position cend)%nat.
Proof.
  revert c xs. induction fuel as [|fuel IH]; intros c xs; simpl.
  - destruct (Nat.leb_spec (length (get_ref c)) (position c)); [|done].
    intros [= <-]. exists c. split; [constructor|done].
  - destruct (Nat.leb_spec (length (get_ref c)) (position c)) as [H|_].
    { intros [= <-]. exists c. split; [constructor|done]. }
    intros H. apply bind_Ok in H as ([x c1] & H1 & H).
    apply bind_Ok in H as (ys & H2 & [= <-]).
    apply IH in H2 as (cend & Hs & Hp). exists cend. split; [|done].
    by econstructor.
Qed.

Lemma decodes_seq_piece {A} (d : reader A) c xs c' :
  reader_consumes d -> decodes_seq d c xs c' -> exists bs, consumed c bs c'.
Proof.
  intros Hd. induction 1 as [c|c x c1 xs c2 H1 _ [bs IH]].
  - exists []. apply consumed_ret.
  - apply Hd in H1 as [b Hb]. exists (b ++ bs). by eapply consumed_trans.
Qed.

Lemma decode_seq_no_panic {A} (d : reader A) fuel c :
  (forall c, d c <> Panic) -> decode_seq fuel d c <> Panic.
Proof.
  intros Hd. revert c. induction fuel as [|fuel IH]; intros c; simpl; case_match; try done.
  apply bind_no_panic; [apply Hd|]. intros [x c1] _.
  apply bind_no_panic; [apply IH|done].
Qed.

#[global] Instance prio_reference_laws : PrioCodecLaws prio_reference.
Proof.
  split; simpl.
  - by intros w v Hv buf.
  - done.
  - done.
  - intros w A f xs bss H Hle buf. unfold ref_encode_items.
    rewrite (encode_seq_writes f xs bss [] H). simpl.
    by rewrite (proj2 (N.leb_le _ _)).
  - intros w A f xs bss buf H Hlt. unfold ref_encode_items.
    rewrite (encode_seq_writes f xs bss [] H). simpl.
    rewrite (proj2 (N.leb_gt _ _)) by done. eauto.
  - intros w A d xs bss H Hn Hle pre post Hmax. unfold ref_decode_items, ref_int_decode.
    rewrite <-app_assoc in *.
    rewrite read_exact_decodes' by (done || unfold len; by rewrite length_be_bytes). simpl.
    rewrite be_value_bytes by (rewrite <-width_bound; lia).
    unfold remaining at 1. simpl. rewrite app_assoc, <-length_app, drop_app_length.
    rewrite len_app, (proj2 (N.leb_le _ _)) by lia.
    unfold remaining. simpl. rewrite drop_app_length. unfold len. rewrite Nat2N.id.
    rewrite take_app_length.
    pose proof (items_at_most_bytes d xs bss H Hn).
    rewrite (decode_seq_decodes d xs bss [] _ H Hn)
      by (done || rewrite !len_app in Hmax; simpl app; lia). simpl.
    unfold advance. simpl. by rewrite !length_app, Nat.add_assoc, <-!app_assoc.
  - intros w A d c xs c' Hd H. unfold ref_decode_items in H.
    apply bind_Ok in H as ([n c1] & H1 & H).
    destruct (N.leb_spec n (len (remaining c1))) as [Hle|]; [|done].
    apply bind_Ok in H as (ys & H2 & [= <- <-]).
    apply decode_seq_inv in H2 as (cend & Hs & Hp).
    exists n, c1, cend. split_and!; try done.
    destruct (decodes_seq_piece d _ _ _ Hd Hs) as [bs [Hbs ->]].
    assert (length bs <= N.to_nat n)%nat.
    { rewrite <-Hbs. unfold remaining, cursor_new. simpl. rewrite drop_0, !length_take. lia. }
    unfold len in Hle. simpl in *. rewrite length_take in Hp. lia.
  - intros w A d Hd c. unfold ref_decode_items.
    apply bind_no_panic.
    { apply bind_no_panic; [apply read_exact_no_panic|]. by intros []. }
    intros [n c1] _. case_match; [|done].
    apply bind_no_panic; [by apply decode_seq_no_panic|done].
  - done.
  - done.
Qed.
End Reference.
