(* ===== verification/Messages.v ===== *)
(** * The messages of the DAP protocol

    [src/crates/daphne/src/messages/mod.rs]: the types of the messages with their
    encoders and decoders, the length-prefix helpers, [constant_time_eq] and the
    base64url identifiers.  The HPKE code points and [HpkeConfig] come from
    [hpke.rs], [DapVersion] from [lib.rs].

    For every message the file proves [CodecOk]: the values of the message are
    read back from their encoding and have exactly one encoding; and for every
    decoder but the one of report extensions that it never panics. *)

From S2P Require Import Prelude Codec.

(** ** Versions *)
Inductive DapVersion : Type := Draft09 | Latest.

#[global] Instance DapVersion_eq_dec : EqDecision DapVersion.
Proof. solve_decision. Defined.

(** ** Constants *)
Definition QUERY_TYPE_TIME_INTERVAL : N := 1.
Definition QUERY_TYPE_FIXED_SIZE : N := 2.
Definition FIXED_SIZE_QUERY_TYPE_BY_BATCH_ID : N := 0.
Definition FIXED_SIZE_QUERY_TYPE_CURRENT_BATCH : N := 1.
Definition EXTENSION_TASKPROV : N := 0xff00.

Definition KEM_ID_X25519_HKDF_SHA256 : N := 0x0020.
Definition KEM_ID_P256_HKDF_SHA256 : N := 0x0010.
Definition KDF_ID_HKDF_SHA256 : N := 0x0001.
Definition AEAD_ID_AES128GCM : N := 0x0001.

(** ** Data *)

(** The structs of [id_struct!] wrap an array of 16 or 32 bytes. *)
Definition AggregationJobId : Type := list byte.
Definition BatchId : Type := list byte.
Definition CollectionJobId : Type := list byte.
Definition ReportId : Type := list byte.
Definition TaskId : Type := list byte.

(** Seconds, as [u64]. *)
Abbreviation Duration := N (only parsing).
Abbreviation Time := N (only parsing).

Inductive Extension : Type :=
| Extension_Taskprov
| Extension_NotImplemented (typ : N) (payload : list byte).

Record ReportMetadata : Type := MkReportMetadata {
  ReportMetadata_id : ReportId;
  ReportMetadata_time : Time;
}.

Record HpkeCiphertext : Type := MkHpkeCiphertext {
  HpkeCiphertext_config_id : N;
  HpkeCiphertext_enc : list byte;
  HpkeCiphertext_payload : list byte;
}.

(** [encrypted_input_shares: [HpkeCiphertext; 2]] is a pair. *)
Record Report : Type := MkReport {
  Report_report_metadata : ReportMetadata;
  Report_public_share : list byte;
  Report_encrypted_input_shares : HpkeCiphertext * HpkeCiphertext;
}.

Record ReportShare : Type := MkReportShare {
  ReportShare_report_metadata : ReportMetadata;
  ReportShare_public_share : list byte;
  ReportShare_encrypted_input_share : HpkeCiphertext;
}.

Record Interval : Type := MkInterval {
  Interval_start : Time;
  Interval_duration : Duration;
}.

Inductive PartialBatchSelector : Type :=
| PBS_TimeInterval
| PBS_FixedSizeByBatchId (batch_id : BatchId).

Inductive BatchSelector : Type :=
| BS_TimeInterval (batch_interval : Interval)
| BS_FixedSizeByBatchId (batch_id : BatchId).

Inductive Query : Type :=
| Query_TimeInterval (batch_interval : Interval)
| Query_FixedSizeByBatchId (batch_id : BatchId)
| Query_FixedSizeCurrentBatch.

Record PrepareInit : Type := MkPrepareInit {
  PrepareInit_report_share : ReportShare;
  PrepareInit_payload : list byte;
}.

Record AggregationJobInitReq : Type := MkAggregationJobInitReq {
  AggregationJobInitReq_agg_param : list byte;
  AggregationJobInitReq_part_batch_sel : PartialBatchSelector;
  AggregationJobInitReq_prep_inits : list PrepareInit;
}.

Inductive TransitionFailure : Type :=
| BatchCollected | ReportReplayed | ReportDropped | HpkeUnknownConfigId
| HpkeDecryptError | VdafPrepError | BatchSaturated | TaskExpired
| InvalidMessage | ReportTooEarly.

Inductive TransitionVar : Type :=
| Continued (vdaf_message : list byte)
| Failed (err : TransitionFailure).

Record Transition : Type := MkTransition {
  Transition_report_id : ReportId;
  Transition_var : TransitionVar;
}.

Record AggregationJobResp : Type := MkAggregationJobResp {
  AggregationJobResp_transitions : list Transition;
}.

Record CollectionReq : Type := MkCollectionReq {
  CollectionReq_query : Query;
  CollectionReq_agg_param : list byte;
}.

Record Collection : Type := MkCollection {
  Collection_part_batch_sel : PartialBatchSelector;
  Collection_report_count : N;
  Collection_interval : Interval;
  Collection_encrypted_agg_shares : HpkeCiphertext * HpkeCiphertext;
}.

Record AggregateShareReq : Type := MkAggregateShareReq {
  AggregateShareReq_batch_sel : BatchSelector;
  AggregateShareReq_agg_param : list byte;
  AggregateShareReq_report_count : N;
  AggregateShareReq_checksum : list byte;
}.

Record AggregateShare : Type := MkAggregateShare {
  AggregateShare_encrypted_agg_share : HpkeCiphertext;
}.

Inductive HpkeKemId : Type :=
| P256HkdfSha256 | X25519HkdfSha256 | KemId_NotImplemented (x : N).
Inductive HpkeKdfId : Type := HkdfSha256 | KdfId_NotImplemented (x : N).
Inductive HpkeAeadId : Type := Aes128Gcm | AeadId_NotImplemented (x : N).

(** [HpkePublicKey] is a byte string. *)
Record HpkeConfig : Type := MkHpkeConfig {
  HpkeConfig_id : N;
  HpkeConfig_kem_id : HpkeKemId;
  HpkeConfig_kdf_id : HpkeKdfId;
  HpkeConfig_aead_id : HpkeAeadId;
  HpkeConfig_public_key : list byte;
}.

Record HpkeConfigList : Type := MkHpkeConfigList {
  HpkeConfigList_hpke_configs : list HpkeConfig;
}.

Record PlaintextInputShare : Type := MkPlaintextInputShare {
  PlaintextInputShare_extensions : list Extension;
  PlaintextInputShare_payload : list byte;
}.

#[global] Instance TransitionFailure_eq_dec : EqDecision TransitionFailure.
Proof. solve_decision. Defined.
#[global] Instance Extension_eq_dec : EqDecision Extension.
Proof. solve_decision. Defined.
#[global] Instance ReportMetadata_eq_dec : EqDecision ReportMetadata.
Proof. solve_decision. Defined.
#[global] Instance Interval_eq_dec : EqDecision Interval.
Proof. solve_decision. Defined.
#[global] Instance PartialBatchSelector_eq_dec : EqDecision PartialBatchSelector.
Proof. solve_decision. Defined.
#[global] Instance BatchSelector_eq_dec : EqDecision BatchSelector.
Proof. solve_decision. Defined.
#[global] Instance Query_eq_dec : EqDecision Query.
Proof. solve_decision. Defined.
#[global] Instance TransitionVar_eq_dec : EqDecision TransitionVar.
Proof. solve_decision. Defined.
#[global] Instance Transition_eq_dec : EqDecision Transition.
Proof. solve_decision. Defined.
#[global] Instance HpkeCiphertext_eq_dec : EqDecision HpkeCiphertext.
Proof. solve_decision. Defined.

(** ** Plain conversions *)
Definition Extension_type_code (e : Extension) : N :=
  match e with
  | Extension_Taskprov => EXTENSION_TASKPROV
  | Extension_NotImplemented typ _ => typ
  end.

Definition PartialBatchSelector_to_string (s : PartialBatchSelector) : string :=
  match s with
  | PBS_TimeInterval => "time_interval"
  | PBS_FixedSizeByBatchId _ => "fixed_size"
  end.

Definition PartialBatchSelector_from (s : BatchSelector) : PartialBatchSelector :=
  match s with
  | BS_TimeInterval _ => PBS_TimeInterval
  | BS_FixedSizeByBatchId batch_id => PBS_FixedSizeByBatchId batch_id
  end.

Definition Interval_default : Interval := MkInterval 0 0.
Definition BatchSelector_default : BatchSelector := BS_TimeInterval Interval_default.
Definition Query_default : Query := Query_TimeInterval Interval_default.

Definition Query_into_batch_sel (q : Query) : option BatchSelector :=
  match q with
  | Query_TimeInterval batch_interval => Some (BS_TimeInterval batch_interval)
  | Query_FixedSizeByBatchId batch_id => Some (BS_FixedSizeByBatchId batch_id)
  | Query_FixedSizeCurrentBatch => None
  end.

Definition Query_from (s : BatchSelector) : Query :=
  match s with
  | BS_TimeInterval batch_interval => Query_TimeInterval batch_interval
  | BS_FixedSizeByBatchId batch_id => Query_FixedSizeByBatchId batch_id
  end.

(** [self as u8] *)
Definition TransitionFailure_as_u8 (f : TransitionFailure) : N :=
  match f with
  | BatchCollected => 0 | ReportReplayed => 1 | ReportDropped => 2
  | HpkeUnknownConfigId => 3 | HpkeDecryptError => 4 | VdafPrepError => 5
  | BatchSaturated => 6 | TaskExpired => 7 | InvalidMessage => 8
  | ReportTooEarly => 9
  end.

Definition TransitionFailure_try_from (b : N) : res CodecError TransitionFailure :=
  if b =? TransitionFailure_as_u8 BatchCollected then Ok BatchCollected
  else if b =? TransitionFailure_as_u8 ReportReplayed then Ok ReportReplayed
  else if b =? TransitionFailure_as_u8 ReportDropped then Ok ReportDropped
  else if b =? TransitionFailure_as_u8 HpkeUnknownConfigId then Ok HpkeUnknownConfigId
  else if b =? TransitionFailure_as_u8 HpkeDecryptError then Ok HpkeDecryptError
  else if b =? TransitionFailure_as_u8 VdafPrepError then Ok VdafPrepError
  else if b =? TransitionFailure_as_u8 BatchSaturated then Ok BatchSaturated
  else if b =? TransitionFailure_as_u8 TaskExpired then Ok TaskExpired
  else if b =? TransitionFailure_as_u8 InvalidMessage then Ok InvalidMessage
  else if b =? TransitionFailure_as_u8 ReportTooEarly then Ok ReportTooEarly
  else Err UnexpectedValue.

Definition TransitionFailure_to_string (f : TransitionFailure) : string :=
  match f with
  | BatchCollected => "batch_collected"
  | ReportReplayed => "report_replayed"
  | ReportDropped => "report_dropped"
  | HpkeUnknownConfigId => "hpke_unknown_config_id"
  | HpkeDecryptError => "hpke_decrypt_error"
  | VdafPrepError => "vdaf_prep_error"
  | BatchSaturated => "batch_saturated"
  | TaskExpired => "task_expired"
  | InvalidMessage => "invalid_message"
  | ReportTooEarly => "report_too_early"
  end.

Definition u16_from_HpkeKemId (k : HpkeKemId) : N :=
  match k with
  | P256HkdfSha256 => KEM_ID_P256_HKDF_SHA256
  | X25519HkdfSha256 => KEM_ID_X25519_HKDF_SHA256
  | KemId_NotImplemented x => x
  end.

Definition HpkeKemId_from_u16 (v : N) : HpkeKemId :=
  if v =? KEM_ID_P256_HKDF_SHA256 then P256HkdfSha256
  else if v =? KEM_ID_X25519_HKDF_SHA256 then X25519HkdfSha256
  else KemId_NotImplemented v.

Definition u16_from_HpkeKdfId (k : HpkeKdfId) : N :=
  match k with
  | HkdfSha256 => KDF_ID_HKDF_SHA256
  | KdfId_NotImplemented x => x
  end.

Definition HpkeKdfId_from_u16 (v : N) : HpkeKdfId :=
  if v =? KDF_ID_HKDF_SHA256 then HkdfSha256 else KdfId_NotImplemented v.

Definition u16_from_HpkeAeadId (k : HpkeAeadId) : N :=
  match k with
  | Aes128Gcm => AEAD_ID_AES128GCM
  | AeadId_NotImplemented x => x
  end.

Definition HpkeAeadId_from_u16 (v : N) : HpkeAeadId :=
  if v =? AEAD_ID_AES128GCM then Aes128Gcm else AeadId_NotImplemented v.

(** The loop of [constant_time_eq]: [r |= x ^ y]. *)
Definition constant_time_eq (left right : list byte) : bool :=
  if negb (len left =? len right) then false
  else
    let r := foldl (fun r '(x, y) => N.lor r (Byte.to_N (byte_xor x y))) 0
               (zip left right) in
    r =? 0.

Section Encoding.
Context `{BP : BuildProfile} `{PC : PrioCodec}.

(** [Interval::end], which overflows as the build profile says. *)
Definition Interval_end {E} (i : Interval) : res E Time :=
  u64_add (Interval_start i) (Interval_duration i).

(** ** Length-prefixed byte strings *)
Definition encode_u16_bytes : writer (list byte) := fun input bytes =>
  n ← (if len input <=? u16_max then Ok (len input)
       else Err (LengthPrefixTooBig (len input)));
  bytes ← u16_encode n bytes;
  Ok (bytes ++ input).

Definition decode_u16_bytes : reader (list byte) :=
  n ← u16_decode; read_exact n.

Definition encode_u32_bytes : writer (list byte) := fun input bytes =>
  n ← (if len input <=? u32_max then Ok (len input)
       else Err (LengthPrefixTooBig (len input)));
  bytes ← u32_encode n bytes;
  Ok (bytes ++ input).

Definition decode_u32_bytes : reader (list byte) :=
  n ← u32_decode; read_exact n.

(** [bytes[start..end].copy_from_slice(src)], which panics out of range. *)
Definition copy_from_slice {E} (bytes : list byte) (start : N) (src : list byte) :
    res E (list byte) :=
  if start + len src <=? len bytes
  then Ok (take (N.to_nat start) bytes ++ src ++ drop (N.to_nat (start + len src)) bytes)
  else Panic.

(** [make_encode_len_prefixed!] at [u16] and [u32]: the prefix is reserved, the
    item is written, the prefix is filled in; [try_into().unwrap()] panics when
    the item is too long for the prefix. *)
Definition encode_len_prefixed (w : int_width) (version : DapVersion)
    (e : DapVersion -> list byte -> res CodecError (list byte)) (bytes : list byte) :
    res CodecError (list byte) :=
  let len_offset := len bytes in
  bytes ← int_encode w 0 bytes;
  bytes ← e version bytes;
  let len_bytes := N.of_nat (width_bytes w) in
  n ← u64_sub (len bytes) len_offset;
  n ← u64_sub n len_bytes;
  n ← (if n <=? width_max w then Ok n else Panic);
  copy_from_slice bytes len_offset (be_bytes (width_bytes w) n).

Definition encode_u16_prefixed := encode_len_prefixed W16.
Definition encode_u32_prefixed := encode_len_prefixed W32.

(** [&bytes.get_ref()[start..end]] panics when [end] is past the end. *)
Definition slice {E} (bytes : list byte) (start fin : N) : res E (list byte) :=
  if (start <=? fin) && (fin <=? len bytes)
  then Ok (take (N.to_nat (fin - start)) (drop (N.to_nat start) bytes))
  else Panic.

Definition decode_u16_prefixed {O} (version : DapVersion)
    (d : DapVersion -> option N -> reader O) : reader O := fun bytes =>
  '(n, bytes) ← u16_decode bytes;
  let item_start := N.of_nat (position bytes) in
  item_end ← (if item_start + n <=? u64_max then Ok (item_start + n)
              else Err (LengthPrefixTooBig n));
  item ← slice (get_ref bytes) item_start item_end;
  '(decoded, inner) ← d version (Some n) (cursor_new item);
  left ← u64_sub item_end item_start;
  num_bytes_left_over ← u64_sub left (N.of_nat (position inner));
  if 0 <? num_bytes_left_over then Err (BytesLeftOver num_bytes_left_over)
  else Ok (decoded, Cursor (get_ref bytes) (N.to_nat item_end)).

(** ** Identifiers *)
Definition id_encode : writer (list byte) := extend_from_slice.
#[global] Arguments id_encode : simpl never.

Definition AggregationJobId_decode : reader AggregationJobId := read_exact 16.
Definition BatchId_decode : reader BatchId := read_exact 32.
Definition CollectionJobId_decode : reader CollectionJobId := read_exact 16.
Definition ReportId_decode : reader ReportId := read_exact 16.
Definition TaskId_decode : reader TaskId := read_exact 32.

(** ** Encoders and decoders *)
Definition Extension_encode (version : DapVersion) : writer Extension := fun x bytes =>
  match x with
  | Extension_Taskprov =>
      bytes ← u16_encode EXTENSION_TASKPROV bytes;
      encode_u16_prefixed version (fun _ bytes => Ok bytes) bytes
  | Extension_NotImplemented typ payload =>
      bytes ← u16_encode typ bytes;
      encode_u16_bytes payload bytes
  end.

Definition Extension_decode (version : DapVersion) : reader Extension :=
  typ ← u16_decode;
  if typ =? EXTENSION_TASKPROV then
    _ ← decode_u16_prefixed version (fun _ _ => unit_decode);
    mret Extension_Taskprov
  else
    payload ← decode_u16_bytes;
    mret (Extension_NotImplemented typ payload).

Definition ReportMetadata_encode (version : DapVersion) : writer ReportMetadata :=
  fun x bytes =>
    bytes ← id_encode (ReportMetadata_id x) bytes;
    u64_encode (ReportMetadata_time x) bytes.

Definition ReportMetadata_decode (version : DapVersion) : reader ReportMetadata :=
  id ← ReportId_decode;
  time ← u64_decode;
  mret (MkReportMetadata id time).

Definition HpkeCiphertext_encode : writer HpkeCiphertext := fun x bytes =>
  bytes ← u8_encode (HpkeCiphertext_config_id x) bytes;
  bytes ← encode_u16_bytes (HpkeCiphertext_enc x) bytes;
  encode_u32_bytes (HpkeCiphertext_payload x) bytes.

Definition HpkeCiphertext_decode : reader HpkeCiphertext :=
  config_id ← u8_decode;
  enc ← decode_u16_bytes;
  payload ← decode_u32_bytes;
  mret (MkHpkeCiphertext config_id enc payload).

Definition Report_encode (version : DapVersion) : writer Report := fun x bytes =>
  bytes ← ReportMetadata_encode version (Report_report_metadata x) bytes;
  bytes ← encode_u32_bytes (Report_public_share x) bytes;
  bytes ← HpkeCiphertext_encode (Report_encrypted_input_shares x).1 bytes;
  HpkeCiphertext_encode (Report_encrypted_input_shares x).2 bytes.

Definition Report_decode (version : DapVersion) : reader Report :=
  report_metadata ← ReportMetadata_decode version;
  public_share ← decode_u32_bytes;
  share0 ← HpkeCiphertext_decode;
  share1 ← HpkeCiphertext_decode;
  mret (MkReport report_metadata public_share (share0, share1)).

Definition ReportShare_encode (version : DapVersion) : writer ReportShare := fun x bytes =>
  bytes ← ReportMetadata_encode version (ReportShare_report_metadata x) bytes;
  bytes ← encode_u32_bytes (ReportShare_public_share x) bytes;
  HpkeCiphertext_encode (ReportShare_encrypted_input_share x) bytes.

Definition ReportShare_decode (version : DapVersion) : reader ReportShare :=
  report_metadata ← ReportMetadata_decode version;
  public_share ← decode_u32_bytes;
  encrypted_input_share ← HpkeCiphertext_decode;
  mret (MkReportShare report_metadata public_share encrypted_input_share).

Definition Interval_encode : writer Interval := fun x bytes =>
  bytes ← u64_encode (Interval_start x) bytes;
  u64_encode (Interval_duration x) bytes.

Definition Interval_decode : reader Interval :=
  start ← u64_decode;
  duration ← u64_decode;
  mret (MkInterval start duration).

Definition PartialBatchSelector_encode : writer PartialBatchSelector := fun x bytes =>
  match x with
  | PBS_TimeInterval => u8_encode QUERY_TYPE_TIME_INTERVAL bytes
  | PBS_FixedSizeByBatchId batch_id =>
      bytes ← u8_encode QUERY_TYPE_FIXED_SIZE bytes;
      id_encode batch_id bytes
  end.

Definition PartialBatchSelector_decode : reader PartialBatchSelector :=
  typ ← u8_decode;
  if typ =? QUERY_TYPE_TIME_INTERVAL then mret PBS_TimeInterval
  else if typ =? QUERY_TYPE_FIXED_SIZE then
    batch_id ← BatchId_decode;
    mret (PBS_FixedSizeByBatchId batch_id)
  else read_fail UnexpectedValue.

Definition BatchSelector_encode : writer BatchSelector := fun x bytes =>
  match x with
  | BS_TimeInterval batch_interval =>
      bytes ← u8_encode QUERY_TYPE_TIME_INTERVAL bytes;
      Interval_encode batch_interval bytes
  | BS_FixedSizeByBatchId batch_id =>
      bytes ← u8_encode QUERY_TYPE_FIXED_SIZE bytes;
      id_encode batch_id bytes
  end.

Definition BatchSelector_decode : reader BatchSelector :=
  typ ← u8_decode;
  if typ =? QUERY_TYPE_TIME_INTERVAL then
    batch_interval ← Interval_decode;
    mret (BS_TimeInterval batch_interval)
  else if typ =? QUERY_TYPE_FIXED_SIZE then
    batch_id ← BatchId_decode;
    mret (BS_FixedSizeByBatchId batch_id)
  else read_fail UnexpectedValue.

Definition PrepareInit_encode (version : DapVersion) : writer PrepareInit := fun x bytes =>
  bytes ← ReportShare_encode version (PrepareInit_report_share x) bytes;
  encode_u32_bytes (PrepareInit_payload x) bytes.

Definition PrepareInit_decode (version : DapVersion) : reader PrepareInit :=
  report_share ← ReportShare_decode version;
  payload ← decode_u32_bytes;
  mret (MkPrepareInit report_share payload).

Definition AggregationJobInitReq_encode (version : DapVersion) :
    writer AggregationJobInitReq := fun x bytes =>
  bytes ← encode_u32_bytes (AggregationJobInitReq_agg_param x) bytes;
  bytes ← PartialBatchSelector_encode (AggregationJobInitReq_part_batch_sel x) bytes;
  encode_items W32 (PrepareInit_encode version) (AggregationJobInitReq_prep_inits x) bytes.

Definition AggregationJobInitReq_decode (version : DapVersion) :
    reader AggregationJobInitReq :=
  agg_param ← decode_u32_bytes;
  part_batch_sel ← PartialBatchSelector_decode;
  prep_inits ← decode_items W32 (PrepareInit_decode version);
  mret (MkAggregationJobInitReq agg_param part_batch_sel prep_inits).

Definition TransitionFailure_encode : writer TransitionFailure := fun x bytes =>
  u8_encode (TransitionFailure_as_u8 x) bytes.

Definition TransitionFailure_decode : reader TransitionFailure := fun bytes =>
  '(v, bytes) ← u8_decode bytes;
  f ← TransitionFailure_try_from v;
  Ok (f, bytes).

Definition TransitionVar_encode : writer TransitionVar := fun x bytes =>
  match x with
  | Continued vdaf_message =>
      bytes ← u8_encode 0 bytes;
      encode_u32_bytes vdaf_message bytes
  | Failed err =>
      bytes ← u8_encode 2 bytes;
      TransitionFailure_encode err bytes
  end.

Definition TransitionVar_decode : reader TransitionVar :=
  typ ← u8_decode;
  if typ =? 0 then (m ← decode_u32_bytes; mret (Continued m))
  else if typ =? 2 then (f ← TransitionFailure_decode; mret (Failed f))
  else read_fail UnexpectedValue.

Definition Transition_encode : writer Transition := fun x bytes =>
  bytes ← id_encode (Transition_report_id x) bytes;
  TransitionVar_encode (Transition_var x) bytes.

Definition Transition_decode : reader Transition :=
  report_id ← ReportId_decode;
  var ← TransitionVar_decode;
  mret (MkTransition report_id var).

Definition AggregationJobResp_encode : writer AggregationJobResp := fun x bytes =>
  encode_items W32 Transition_encode (AggregationJobResp_transitions x) bytes.

Definition AggregationJobResp_decode : reader AggregationJobResp :=
  transitions ← decode_items W32 Transition_decode;
  mret (MkAggregationJobResp transitions).

Definition Query_encode (version : DapVersion) : writer Query := fun x bytes =>
  match x with
  | Query_TimeInterval batch_interval =>
      bytes ← u8_encode QUERY_TYPE_TIME_INTERVAL bytes;
      Interval_encode batch_interval bytes
  | Query_FixedSizeByBatchId batch_id =>
      bytes ← u8_encode QUERY_TYPE_FIXED_SIZE bytes;
      bytes ← u8_encode FIXED_SIZE_QUERY_TYPE_BY_BATCH_ID bytes;
      id_encode batch_id bytes
  | Query_FixedSizeCurrentBatch =>
      bytes ← u8_encode QUERY_TYPE_FIXED_SIZE bytes;
      u8_encode FIXED_SIZE_QUERY_TYPE_CURRENT_BATCH bytes
  end.

Definition Query_decode (version : DapVersion) : reader Query :=
  typ ← u8_decode;
  if typ =? QUERY_TYPE_TIME_INTERVAL then
    batch_interval ← Interval_decode;
    mret (Query_TimeInterval batch_interval)
  else if typ =? QUERY_TYPE_FIXED_SIZE then
    subtype ← u8_decode;
    if subtype =? FIXED_SIZE_QUERY_TYPE_BY_BATCH_ID then
      batch_id ← BatchId_decode;
      mret (Query_FixedSizeByBatchId batch_id)
    else if subtype =? FIXED_SIZE_QUERY_TYPE_CURRENT_BATCH then
      mret Query_FixedSizeCurrentBatch
    else read_fail UnexpectedValue
  else read_fail UnexpectedValue.

Definition CollectionReq_encode (version : DapVersion) : writer CollectionReq := fun x bytes =>
  bytes ← Query_encode version (CollectionReq_query x) bytes;
  encode_u32_bytes (CollectionReq_agg_param x) bytes.

Definition CollectionReq_decode (version : DapVersion) : reader CollectionReq :=
  query ← Query_decode version;
  agg_param ← decode_u32_bytes;
  mret (MkCollectionReq query agg_param).

Definition Collection_encode (version : DapVersion) : writer Collection := fun x bytes =>
  bytes ← PartialBatchSelector_encode (Collection_part_batch_sel x) bytes;
  bytes ← u64_encode (Collection_report_count x) bytes;
  bytes ← Interval_encode (Collection_interval x) bytes;
  bytes ← HpkeCiphertext_encode (Collection_encrypted_agg_shares x).1 bytes;
  HpkeCiphertext_encode (Collection_encrypted_agg_shares x).2 bytes.

Definition Collection_decode (version : DapVersion) : reader Collection :=
  part_batch_sel ← PartialBatchSelector_decode;
  report_count ← u64_decode;
  interval ← Interval_decode;
  share0 ← HpkeCiphertext_decode;
  share1 ← HpkeCiphertext_decode;
  mret (MkCollection part_batch_sel report_count interval (share0, share1)).

Definition AggregateShareReq_encode (version : DapVersion) : writer AggregateShareReq :=
  fun x bytes =>
    bytes ← BatchSelector_encode (AggregateShareReq_batch_sel x) bytes;
    bytes ← encode_u32_bytes (AggregateShareReq_agg_param x) bytes;
    bytes ← u64_encode (AggregateShareReq_report_count x) bytes;
    extend_from_slice (AggregateShareReq_checksum x) bytes.

Definition AggregateShareReq_decode (version : DapVersion) : reader AggregateShareReq :=
  batch_sel ← BatchSelector_decode;
  agg_param ← decode_u32_bytes;
  report_count ← u64_decode;
  checksum ← read_exact 32;
  mret (MkAggregateShareReq batch_sel agg_param report_count checksum).

Definition AggregateShare_encode : writer AggregateShare := fun x bytes =>
  HpkeCiphertext_encode (AggregateShare_encrypted_agg_share x) bytes.

Definition AggregateShare_decode : reader AggregateShare :=
  encrypted_agg_share ← HpkeCiphertext_decode;
  mret (MkAggregateShare encrypted_agg_share).

Definition HpkeKemId_encode : writer HpkeKemId := fun x bytes =>
  u16_encode (u16_from_HpkeKemId x) bytes.
Definition HpkeKemId_decode : reader HpkeKemId :=
  v ← u16_decode; mret (HpkeKemId_from_u16 v).
Definition HpkeKdfId_encode : writer HpkeKdfId := fun x bytes =>
  u16_encode (u16_from_HpkeKdfId x) bytes.
Definition HpkeKdfId_decode : reader HpkeKdfId :=
  v ← u16_decode; mret (HpkeKdfId_from_u16 v).
Definition HpkeAeadId_encode : writer HpkeAeadId := fun x bytes =>
  u16_encode (u16_from_HpkeAeadId x) bytes.
Definition HpkeAeadId_decode : reader HpkeAeadId :=
  v ← u16_decode; mret (HpkeAeadId_from_u16 v).

Definition HpkeConfig_encode : writer HpkeConfig := fun x bytes =>
  bytes ← u8_encode (HpkeConfig_id x) bytes;
  bytes ← HpkeKemId_encode (HpkeConfig_kem_id x) bytes;
  bytes ← HpkeKdfId_encode (HpkeConfig_kdf_id x) bytes;
  bytes ← HpkeAeadId_encode (HpkeConfig_aead_id x) bytes;
  encode_u16_bytes (HpkeConfig_public_key x) bytes.

Definition HpkeConfig_decode : reader HpkeConfig :=
  id ← u8_decode;
  kem_id ← HpkeKemId_decode;
  kdf_id ← HpkeKdfId_decode;
  aead_id ← HpkeAeadId_decode;
  public_key ← decode_u16_bytes;
  mret (MkHpkeConfig id kem_id kdf_id aead_id public_key).

Definition HpkeConfigList_encode : writer HpkeConfigList := fun x bytes =>
  encode_items W16 HpkeConfig_encode (HpkeConfigList_hpke_configs x) bytes.

Definition HpkeConfigList_decode : reader HpkeConfigList :=
  hpke_configs ← decode_items W16 HpkeConfig_decode;
  mret (MkHpkeConfigList hpke_configs).

Definition PlaintextInputShare_encode (version : DapVersion) : writer PlaintextInputShare :=
  fun x bytes =>
    bytes ← encode_items W16 (Extension_encode version) (PlaintextInputShare_extensions x) bytes;
    encode_u32_bytes (PlaintextInputShare_payload x) bytes.

Definition PlaintextInputShare_decode (version : DapVersion) : reader PlaintextInputShare :=
  extensions ← decode_items W16 (Extension_decode version);
  payload ← decode_u32_bytes;
  mret (MkPlaintextInputShare extensions payload).

End Encoding.

(** ** Well-formed values

    The values a Rust program can hold in the types above (arrays of their length,
    integers of their width) whose byte strings fit their length prefix. *)
Definition u8_wf (v : N) : Prop := v <= u8_max.
Definition u16_wf (v : N) : Prop := v <= u16_max.
Definition u64_wf (v : N) : Prop := v <= u64_max.
Definition u16_bytes (bs : list byte) : Prop := len bs <= u16_max.
Definition u32_bytes (bs : list byte) : Prop := len bs <= u32_max.

(** An extension whose type is the one of [Taskprov] is always read as [Taskprov]. *)
Definition Extension_wf (x : Extension) : Prop :=
  match x with
  | Extension_Taskprov => True
  | Extension_NotImplemented typ payload =>
      typ <> EXTENSION_TASKPROV /\ u16_wf typ /\ u16_bytes payload
  end.

Definition ReportMetadata_wf (x : ReportMetadata) : Prop :=
  array 16 (ReportMetadata_id x) /\ u64_wf (ReportMetadata_time x).

Definition HpkeCiphertext_wf (x : HpkeCiphertext) : Prop :=
  u8_wf (HpkeCiphertext_config_id x) /\ u16_bytes (HpkeCiphertext_enc x) /\
  u32_bytes (HpkeCiphertext_payload x).

Definition Report_wf (x : Report) : Prop :=
  ReportMetadata_wf (Report_report_metadata x) /\ u32_bytes (Report_public_share x) /\
  HpkeCiphertext_wf (Report_encrypted_input_shares x).1 /\
  HpkeCiphertext_wf (Report_encrypted_input_shares x).2.

Definition ReportShare_wf (x : ReportShare) : Prop :=
  ReportMetadata_wf (ReportShare_report_metadata x) /\
  u32_bytes (ReportShare_public_share x) /\
  HpkeCiphertext_wf (ReportShare_encrypted_input_share x).

Definition Interval_wf (x : Interval) : Prop :=
  u64_wf (Interval_start x) /\ u64_wf (Interval_duration x).

Definition PartialBatchSelector_wf (x : PartialBatchSelector) : Prop :=
  match x with
  | PBS_TimeInterval => True
  | PBS_FixedSizeByBatchId batch_id => array 32 batch_id
  end.

Definition BatchSelector_wf (x : BatchSelector) : Prop :=
  match x with
  | BS_TimeInterval batch_interval => Interval_wf batch_interval
  | BS_FixedSizeByBatchId batch_id => array 32 batch_id
  end.

Definition Query_wf (x : Query) : Prop :=
  match x with
  | Query_TimeInterval batch_interval => Interval_wf batch_interval
  | Query_FixedSizeByBatchId batch_id => array 32 batch_id
  | Query_FixedSizeCurrentBatch => True
  end.

Definition PrepareInit_wf (x : PrepareInit) : Prop :=
  ReportShare_wf (PrepareInit_report_share x) /\ u32_bytes (PrepareInit_payload x).

Definition AggregationJobInitReq_wf `{PrioCodec} (version : DapVersion)
    (x : AggregationJobInitReq) : Prop :=
  u32_bytes (AggregationJobInitReq_agg_param x) /\
  PartialBatchSelector_wf (AggregationJobInitReq_part_batch_sel x) /\
  wf_items W32 PrepareInit_wf (PrepareInit_encode version)
    (AggregationJobInitReq_prep_inits x).

Definition TransitionVar_wf (x : TransitionVar) : Prop :=
  match x with
  | Continued vdaf_message => u32_bytes vdaf_message
  | Failed _ => True
  end.

Definition Transition_wf (x : Transition) : Prop :=
  array 16 (Transition_report_id x) /\ TransitionVar_wf (Transition_var x).

Definition AggregationJobResp_wf `{PrioCodec} (x : AggregationJobResp) : Prop :=
  wf_items W32 Transition_wf Transition_encode (AggregationJobResp_transitions x).

Definition CollectionReq_wf (x : CollectionReq) : Prop :=
  Query_wf (CollectionReq_query x) /\ u32_bytes (CollectionReq_agg_param x).

Definition Collection_wf (x : Collection) : Prop :=
  PartialBatchSelector_wf (Collection_part_batch_sel x) /\
  u64_wf (Collection_report_count x) /\ Interval_wf (Collection_interval x) /\
  HpkeCiphertext_wf (Collection_encrypted_agg_shares x).1 /\
  HpkeCiphertext_wf (Collection_encrypted_agg_shares x).2.

Definition AggregateShareReq_wf (x : AggregateShareReq) : Prop :=
  BatchSelector_wf (AggregateShareReq_batch_sel x) /\
  u32_bytes (AggregateShareReq_agg_param x) /\
  u64_wf (AggregateShareReq_report_count x) /\ array 32 (AggregateShareReq_checksum x).

Definition AggregateShare_wf (x : AggregateShare) : Prop :=
  HpkeCiphertext_wf (AggregateShare_encrypted_agg_share x).

(** A code point the program knows is never held as [NotImplemented]. *)
Definition HpkeKemId_wf (x : HpkeKemId) : Prop :=
  match x with
  | KemId_NotImplemented v =>
      v <> KEM_ID_P256_HKDF_SHA256 /\ v <> KEM_ID_X25519_HKDF_SHA256 /\ u16_wf v
  | _ => True
  end.
Definition HpkeKdfId_wf (x : HpkeKdfId) : Prop :=
  match x with
  | KdfId_NotImplemented v => v <> KDF_ID_HKDF_SHA256 /\ u16_wf v
  | _ => True
  end.
Definition HpkeAeadId_wf (x : HpkeAeadId) : Prop :=
  match x with
  | AeadId_NotImplemented v => v <> AEAD_ID_AES128GCM /\ u16_wf v
  | _ => True
  end.

Definition HpkeConfig_wf (x : HpkeConfig) : Prop :=
  u8_wf (HpkeConfig_id x) /\ HpkeKemId_wf (HpkeConfig_kem_id x) /\
  HpkeKdfId_wf (HpkeConfig_kdf_id x) /\ HpkeAeadId_wf (HpkeConfig_aead_id x) /\
  u16_bytes (HpkeConfig_public_key x).

Definition HpkeConfigList_wf `{PrioCodec} (x : HpkeConfigList) : Prop :=
  wf_items W16 HpkeConfig_wf HpkeConfig_encode (HpkeConfigList_hpke_configs x).

Definition PlaintextInputShare_wf `{BuildProfile, PrioCodec} (version : DapVersion)
    (x : PlaintextInputShare) : Prop :=
  wf_items W16 Extension_wf (Extension_encode version) (PlaintextInputShare_extensions x) /\
  u32_bytes (PlaintextInputShare_payload x).

(** ** Byte strings behind a length prefix *)
Section Codecs.
Context `{BP : BuildProfile} `{PC : PrioCodec} {L : PrioCodecLaws PC}.

Lemma int_writes_value w v bs :
  v <= width_max w -> writes (int_encode w) v bs -> bs = be_bytes (width_bytes w) v.
Proof.
  intros Hv H. specialize (H []). rewrite (int_encode_be w v Hv []) in H. by injection H.
Qed.

Lemma int_decodes w v :
  v <= width_max w -> decodes (int_decode w) v (be_bytes (width_bytes w) v).
Proof.
  intros Hv. destruct (int_complete w v Hv) as (bs & Hw & Hd).
  by rewrite <-(int_writes_value w v bs Hv Hw).
Qed.

(** [encode_u16_bytes] and [encode_u32_bytes] are one function of the width [w]
    and its largest value [m]. *)
Definition encode_bytes (w : int_width) (m : N) : writer (list byte) := fun input bytes =>
  n ← (if len input <=? m then Ok (len input)
       else Err (LengthPrefixTooBig (len input)));
  bytes ← int_encode w n bytes;
  Ok (bytes ++ input).

Lemma encode_bytes_writes w m bs :
  m = width_max w -> len bs <= m ->
  writes (encode_bytes w m) bs (be_bytes (width_bytes w) (len bs) ++ bs).
Proof.
  intros -> H buf. unfold encode_bytes. rewrite (proj2 (N.leb_le _ _) H). simpl.
  rewrite (int_encode_be w _ H buf). simpl. by rewrite <-app_assoc.
Qed.

Lemma bytes_codec w m :
  m = width_max w ->
  CodecOk (fun bs => len bs <= m) (encode_bytes w m) (n ← int_decode w; read_exact n).
Proof.
  intros Hm. split.
  - intros bs H. eexists. split; [by apply encode_bytes_writes|]. subst m.
    eapply decodes_bind; [by apply int_decodes|apply read_exact_decodes].
  - intros c bs c' H.
    apply (sound_bind _ _ (int_decode w)) in H as (n & c1 & b1 & Hn & Hc1 & Hw & H).
    apply read_exact_consumed in H as [Hl Hc]. rewrite <-Hl in *.
    split; [by subst|]. eexists. split; [by eapply consumed_trans|].
    rewrite (int_writes_value w _ _ Hn Hw). apply encode_bytes_writes; by subst.
Qed.

#[global] Instance u16_bytes_codec : CodecOk u16_bytes encode_u16_bytes decode_u16_bytes.
Proof. exact (bytes_codec W16 u16_max eq_refl). Qed.
#[global] Instance u32_bytes_codec : CodecOk u32_bytes encode_u32_bytes decode_u32_bytes.
Proof. exact (bytes_codec W32 u32_max eq_refl). Qed.
#[global] Instance decode_u16_bytes_no_panic : NoPanic decode_u16_bytes.
Proof. solve_no_panic. Qed.
#[global] Instance decode_u32_bytes_no_panic : NoPanic decode_u32_bytes.
Proof. solve_no_panic. Qed.

(** ** Items behind a length prefix *)
Lemma encode_len_prefixed_writes w version e bs :
  appends (e version) bs -> len bs <= width_max w ->
  appends (encode_len_prefixed w version e)
    (be_bytes (width_bytes w) (len bs) ++ bs).
Proof.
  intros He Hle buf. unfold encode_len_prefixed.
  rewrite (int_encode_be w 0 ltac:(lia) buf). cbn [mbind res_bind].
  rewrite (He _). cbn [mbind res_bind].
  assert (forall v, len (be_bytes (width_bytes w) v) = N.of_nat (width_bytes w)) as Hl
    by (intros; unfold len; by rewrite length_be_bytes).
  rewrite u64_sub_fits by (rewrite !len_app; lia). cbn [mbind res_bind].
  rewrite u64_sub_fits by (rewrite !len_app, Hl; lia). cbn [mbind res_bind].
  assert (len ((buf ++ be_bytes (width_bytes w) 0) ++ bs) - len buf
          - N.of_nat (width_bytes w) = len bs) as -> by (rewrite !len_app, Hl; lia).
  rewrite (proj2 (N.leb_le _ _) Hle). cbn [mbind res_bind]. unfold copy_from_slice.
  rewrite Hl, (proj2 (N.leb_le _ _)) by (rewrite !len_app, Hl; lia).
  f_equal. rewrite <-!app_assoc. f_equal.
  - unfold len. by rewrite Nat2N.id, take_app_length.
  - f_equal. rewrite app_assoc, drop_app_length'; [done|].
    rewrite length_app, length_be_bytes. unfold len. lia.
Qed.

Lemma encode_no_item version :
  appends (encode_u16_prefixed version (fun _ bytes => Ok bytes)) (be_bytes 2 0).
Proof.
  apply (encode_len_prefixed_writes W16 version (fun _ bytes => Ok bytes) []); [|done].
  intros buf. by rewrite app_nil_r.
Qed.

(** [try_into().unwrap()]: an item that does not fit its prefix panics. *)
Lemma encode_len_prefixed_too_long w version e bs buf :
  appends (e version) bs -> width_max w < len bs ->
  encode_len_prefixed w version e buf = Panic.
Proof.
  intros He Hlt. unfold encode_len_prefixed.
  rewrite (int_encode_be w 0 ltac:(lia) buf). cbn [mbind res_bind].
  rewrite (He _). cbn [mbind res_bind].
  assert (len (be_bytes (width_bytes w) 0) = N.of_nat (width_bytes w)) as Hl
    by (unfold len; by rewrite length_be_bytes).
  rewrite u64_sub_fits by (rewrite !len_app; lia). cbn [mbind res_bind].
  rewrite u64_sub_fits by (rewrite !len_app, Hl; lia). cbn [mbind res_bind].
  by rewrite (proj2 (N.leb_gt _ _)) by (rewrite !len_app, Hl; lia).
Qed.

(** An inner decoder that reads [item] whole makes [decode_u16_prefixed] read the
    prefix and the item. *)
Lemma decode_u16_prefixed_decodes {O} version (d : DapVersion -> option N -> reader O) x item :
  len item <= u16_max ->
  d version (Some (len item)) (cursor_new item) = Ok (x, Cursor item (length item)) ->
  decodes (decode_u16_prefixed version d) x (be_bytes 2 (len item) ++ item).
Proof.
  intros Hle Hd pre post Hmax. unfold decode_u16_prefixed.
  rewrite <-app_assoc in *. rewrite (int_decodes W16 _ Hle) by done.
  cbn [mbind res_bind position get_ref width_bytes]. rewrite length_be_bytes.
  assert (len (be_bytes 2 (len item)) = 2) as Hl by (unfold len; by rewrite length_be_bytes).
  rewrite !len_app, Hl in Hmax.
  rewrite (proj2 (N.leb_le _ _))
    by (unfold slice_max, u64_max in *; unfold len in *; lia).
  cbn [mbind res_bind]. unfold slice. rewrite !len_app, Hl.
  rewrite (proj2 (N.leb_le _ _)), (proj2 (N.leb_le _ _)) by (unfold len in *; lia).
  cbn [andb]. rewrite Nat2N.id.
  rewrite app_assoc, drop_app_length' by (by rewrite length_app, length_be_bytes).
  rewrite take_app_length' by (unfold len; lia). cbn [mbind res_bind]. rewrite Hd.
  cbn [mbind res_bind position]. rewrite u64_sub_fits by lia. cbn [mbind res_bind].
  rewrite u64_sub_fits by (unfold len; lia). cbn [mbind res_bind].
  rewrite (proj2 (N.ltb_ge _ _)) by (unfold len; lia).
  do 3 f_equal. rewrite length_app, length_be_bytes. unfold len. lia.
Qed.

(** Conversely, success means that the prefix counts the bytes of the item. *)
Lemma decode_u16_prefixed_inv {O} version (d : DapVersion -> option N -> reader O) c x c' :
  decode_u16_prefixed version d c = Ok (x, c') ->
  exists item inner, len item <= u16_max /\
    d version (Some (len item)) (cursor_new item) = Ok (x, inner) /\
    (overflow_checks = true \/ (position inner <= length item)%nat ->
     position inner = length item) /\
    consumed c (be_bytes 2 (len item) ++ item) c'.
Proof.
  unfold decode_u16_prefixed. intros H.
  apply bind_Ok in H as ([n c1] & Hn & H).
  apply int_sound in Hn as (Hmax & bs & Hc & Hw). simpl in Hmax.
  rewrite (int_writes_value W16 _ _ Hmax Hw) in Hc. simpl in Hc.
  case_hyp H; [|done]. simpl in H.
  apply bind_Ok in H as (item & Hs & H). unfold slice in Hs.
  destruct (_ && _) eqn:Hb in Hs; [|done]. injection Hs as <-.
  apply andb_true_iff in Hb as [_ Hend%N.leb_le].
  apply bind_Ok in H as ([y inner] & Hd & H). rewrite u64_sub_fits in H by lia. simpl in H.
  apply bind_Ok in H as (left & Hleft & H).
  destruct (N.ltb_spec 0 left); [done|]. injection H as <- <-.
  set (item := take _ _) in *.
  assert (len item = n) as Hlen.
  { unfold item, len. rewrite length_take, length_drop. unfold len in Hend. lia. }
  exists item, inner. rewrite Hlen. split_and!; [done|done| |].
  - unfold u64_sub in Hleft. unfold len in Hlen.
    destruct (N.leb_spec (N.of_nat (position inner))
      (N.of_nat (position c1) + n - N.of_nat (position c1))).
    + injection Hleft as <-. intros. lia.
    + intros [Hov|Hp]; [by rewrite Hov in Hleft|lia].
  - eapply consumed_trans; [done|]. split.
    + unfold remaining, item. f_equal; [|by rewrite Nat2N.id].
      rewrite length_take, length_drop, Nat2N.id. unfold len in Hend. lia.
    + unfold advance. f_equal. unfold len in Hlen. lia.
Qed.

(** The slice is taken without a bounds check: a prefix that promises more bytes
    than the input holds panics. *)
Lemma decode_u16_prefixed_truncated {O} version (d : DapVersion -> option N -> reader O)
    pre n rest :
  n <= u16_max -> len rest < n -> len (pre ++ be_bytes 2 n ++ rest) <= slice_max ->
  decode_u16_prefixed version d (Cursor (pre ++ be_bytes 2 n ++ rest) (length pre)) = Panic.
Proof.
  intros Hn Hlt Hmax. unfold decode_u16_prefixed.
  rewrite (int_decodes W16 n Hn) by done.
  cbn [mbind res_bind position get_ref width_bytes]. rewrite length_be_bytes.
  assert (len (be_bytes 2 n) = 2) as Hl by (unfold len; by rewrite length_be_bytes).
  rewrite !len_app, Hl in Hmax.
  rewrite (proj2 (N.leb_le _ _))
    by (unfold slice_max, u64_max, u16_max, len in *; lia).
  cbn [mbind res_bind]. unfold slice. rewrite !len_app, Hl.
  rewrite (proj2 (N.leb_gt (N.of_nat (length pre + 2) + n) _)) by (unfold len in *; lia).
  by rewrite andb_false_r.
Qed.

#[global] Instance id16_codec : CodecOk (array 16) id_encode ReportId_decode.
Proof. apply array_codec. Qed.
#[global] Instance id32_codec : CodecOk (array 32) id_encode BatchId_decode.
Proof. apply array_codec. Qed.
#[global] Instance ReportId_decode_no_panic : NoPanic ReportId_decode.
Proof. solve_no_panic. Qed.
#[global] Instance BatchId_decode_no_panic : NoPanic BatchId_decode.
Proof. solve_no_panic. Qed.
#[global] Instance ReportId_decode_non_empty : NonEmpty ReportId_decode.
Proof. solve_non_empty. Qed.

(** ** The messages *)

#[global] Instance Extension_codec version :
  CodecOk Extension_wf (Extension_encode version) (Extension_decode version).
Proof.
  split.
  - intros [|typ payload] Hx; unfold_writes; unfold_decodes; cbn.
    + eapply complete_bind; [apply _|solve_field|cbn]. exists (be_bytes 2 0). split.
      * apply encode_no_item.
      * apply (decodes_bind_ret _ (fun _ => Extension_Taskprov) tt).
        apply (decode_u16_prefixed_decodes version _ tt []);
          [done|apply unit_decode_spec].
    + destruct Hx as (Hne%N.eqb_neq & Ht & Hp).
      eapply complete_bind; [apply _|solve_field|]. rewrite Hne. complete_fields.
  - intros c x c' H. unfold Extension_decode in H. sound_field H. case_tag H.
    + apply reader_bind_Ok in H as ([] & c1 & H & [= <- <-]). split; [done|].
      apply decode_u16_prefixed_inv in H as (item & inner & Hle & Hd & Hpos & Hc).
      rewrite unit_decode_spec in Hd. injection Hd as <-. simpl in Hpos.
      assert (item = []) as -> by (destruct item; [done|simpl in Hpos; lia]).
      eexists. split; [chain_consumed|]. unfold_writes.
      eapply appends_bind; [done|apply encode_no_item].
    + sound_fields H. split; [by split_and!|close_sound].
Qed.

#[global] Instance Extension_decode_non_empty version : NonEmpty (Extension_decode version).
Proof. solve_non_empty. Qed.

#[global] Instance ReportMetadata_codec version :
  CodecOk ReportMetadata_wf (ReportMetadata_encode version) (ReportMetadata_decode version).
Proof. split; [solve_complete|solve_sound]. Qed.
#[global] Instance ReportMetadata_decode_no_panic version :
  NoPanic (ReportMetadata_decode version).
Proof. solve_no_panic. Qed.
#[global] Instance ReportMetadata_decode_non_empty version :
  NonEmpty (ReportMetadata_decode version).
Proof. solve_non_empty. Qed.

#[global] Instance HpkeCiphertext_codec :
  CodecOk HpkeCiphertext_wf HpkeCiphertext_encode HpkeCiphertext_decode.
Proof. split; [solve_complete|solve_sound]. Qed.
#[global] Instance HpkeCiphertext_decode_no_panic : NoPanic HpkeCiphertext_decode.
Proof. solve_no_panic. Qed.

#[global] Instance Report_codec version :
  CodecOk Report_wf (Report_encode version) (Report_decode version).
Proof. split; [solve_complete|solve_sound]. Qed.
#[global] Instance Report_decode_no_panic version : NoPanic (Report_decode version).
Proof. solve_no_panic. Qed.

#[global] Instance ReportShare_codec version :
  CodecOk ReportShare_wf (ReportShare_encode version) (ReportShare_decode version).
Proof. split; [solve_complete|solve_sound]. Qed.
#[global] Instance ReportShare_decode_no_panic version : NoPanic (ReportShare_decode version).
Proof. solve_no_panic. Qed.
#[global] Instance ReportShare_decode_non_empty version : NonEmpty (ReportShare_decode version).
Proof. solve_non_empty. Qed.

#[global] Instance Interval_codec : CodecOk Interval_wf Interval_encode Interval_decode.
Proof. split; [solve_complete|solve_sound]. Qed.
#[global] Instance Interval_decode_no_panic : NoPanic Interval_decode.
Proof. solve_no_panic. Qed.

#[global] Instance PartialBatchSelector_codec :
  CodecOk PartialBatchSelector_wf PartialBatchSelector_encode PartialBatchSelector_decode.
Proof. split; [solve_complete|solve_sound_tag]. Qed.
#[global] Instance PartialBatchSelector_decode_no_panic : NoPanic PartialBatchSelector_decode.
Proof. solve_no_panic. Qed.

#[global] Instance BatchSelector_codec :
  CodecOk BatchSelector_wf BatchSelector_encode BatchSelector_decode.
Proof. split; [solve_complete|solve_sound_tag]. Qed.
#[global] Instance BatchSelector_decode_no_panic : NoPanic BatchSelector_decode.
Proof. solve_no_panic. Qed.

#[global] Instance PrepareInit_codec version :
  CodecOk PrepareInit_wf (PrepareInit_encode version) (PrepareInit_decode version).
Proof. split; [solve_complete|solve_sound]. Qed.
#[global] Instance PrepareInit_decode_no_panic version : NoPanic (PrepareInit_decode version).
Proof. solve_no_panic. Qed.
#[global] Instance PrepareInit_decode_non_empty version : NonEmpty (PrepareInit_decode version).
Proof. solve_non_empty. Qed.

#[global] Instance AggregationJobInitReq_codec version :
  CodecOk (AggregationJobInitReq_wf version)
    (AggregationJobInitReq_encode version) (AggregationJobInitReq_decode version).
Proof. split; [solve_complete|solve_sound]. Qed.
#[global] Instance AggregationJobInitReq_decode_no_panic version :
  NoPanic (AggregationJobInitReq_decode version).
Proof. solve_no_panic. Qed.

Lemma TransitionFailure_try_from_as_u8 f :
  TransitionFailure_try_from (TransitionFailure_as_u8 f) = Ok f.
Proof. by destruct f. Qed.

Lemma TransitionFailure_try_from_Ok b f :
  TransitionFailure_try_from b = Ok f -> b = TransitionFailure_as_u8 f.
Proof.
  unfold TransitionFailure_try_from.
  repeat case_match; intros; simplify_eq; by apply N.eqb_eq.
Qed.

#[global] Instance TransitionFailure_codec :
  CodecOk (fun _ => True) TransitionFailure_encode TransitionFailure_decode.
Proof.
  split.
  - intros f _. destruct (int_complete W8 (TransitionFailure_as_u8 f)) as (bs & Hw & Hd).
    { destruct f; simpl; unfold u8_max; lia. }
    exists bs. split; [done|]. intros pre post Hmax. unfold TransitionFailure_decode.
    rewrite Hd by done. simpl. by rewrite TransitionFailure_try_from_as_u8.
  - intros c f c' H. unfold TransitionFailure_decode in H. split; [done|].
    apply bind_Ok in H as ([v c1] & Hv & H). apply bind_Ok in H as (g & Hg & [= <- <-]).
    apply TransitionFailure_try_from_Ok in Hg as ->.
    by apply int_sound in Hv as (_ & bs & Hc & Hw); eauto.
Qed.
#[global] Instance TransitionFailure_decode_no_panic : NoPanic TransitionFailure_decode.
Proof.
  intros c. apply bind_no_panic; [apply int_decode_no_panic|]. intros [v c1] _.
  apply bind_no_panic; [|done]. unfold TransitionFailure_try_from. by repeat case_match.
Qed.

#[global] Instance TransitionVar_codec :
  CodecOk TransitionVar_wf TransitionVar_encode TransitionVar_decode.
Proof. split; [solve_complete|solve_sound_tag]. Qed.
#[global] Instance TransitionVar_decode_no_panic : NoPanic TransitionVar_decode.
Proof. solve_no_panic. Qed.

#[global] Instance Transition_codec :
  CodecOk Transition_wf Transition_encode Transition_decode.
Proof. split; [solve_complete|solve_sound]. Qed.
#[global] Instance Transition_decode_no_panic : NoPanic Transition_decode.
Proof. solve_no_panic. Qed.
#[global] Instance Transition_decode_non_empty : NonEmpty Transition_decode.
Proof. solve_non_empty. Qed.

#[global] Instance AggregationJobResp_codec :
  CodecOk AggregationJobResp_wf AggregationJobResp_encode AggregationJobResp_decode.
Proof. split; [solve_complete|solve_sound]. Qed.
#[global] Instance AggregationJobResp_decode_no_panic : NoPanic AggregationJobResp_decode.
Proof. solve_no_panic. Qed.

#[global] Instance Query_codec version :
  CodecOk Query_wf (Query_encode version) (Query_decode version).
Proof. split; [solve_complete|solve_sound_tag]. Qed.
#[global] Instance Query_decode_no_panic version : NoPanic (Query_decode version).
Proof. solve_no_panic. Qed.

#[global] Instance CollectionReq_codec version :
  CodecOk CollectionReq_wf (CollectionReq_encode version) (CollectionReq_decode version).
Proof. split; [solve_complete|solve_sound]. Qed.
#[global] Instance CollectionReq_decode_no_panic version :
  NoPanic (CollectionReq_decode version).
Proof. solve_no_panic. Qed.

#[global] Instance Collection_codec version :
  CodecOk Collection_wf (Collection_encode version) (Collection_decode version).
Proof. split; [solve_complete|solve_sound]. Qed.
#[global] Instance Collection_decode_no_panic version : NoPanic (Collection_decode version).
Proof. solve_no_panic. Qed.

#[global] Instance AggregateShareReq_codec version :
  CodecOk AggregateShareReq_wf
    (AggregateShareReq_encode version) (AggregateShareReq_decode version).
Proof. split; [solve_complete|solve_sound]. Qed.
#[global] Instance AggregateShareReq_decode_no_panic version :
  NoPanic (AggregateShareReq_decode version).
Proof. solve_no_panic. Qed.

#[global] Instance AggregateShare_codec :
  CodecOk AggregateShare_wf AggregateShare_encode AggregateShare_decode.
Proof. split; [solve_complete|solve_sound]. Qed.
#[global] Instance AggregateShare_decode_no_panic : NoPanic AggregateShare_decode.
Proof. solve_no_panic. Qed.

#[global] Instance HpkeKemId_codec : CodecOk HpkeKemId_wf HpkeKemId_encode HpkeKemId_decode.
Proof.
  split.
  - intros [| |v] Hx; unfold_writes; unfold_decodes; cbn; try complete_fields.
    destruct Hx as (H1%N.eqb_neq & H2%N.eqb_neq & Hv).
    eapply complete_last; [apply _|solve_field|].
    unfold HpkeKemId_from_u16. by rewrite H1, H2.
  - intros c x c' H. unfold HpkeKemId_decode in H. sound_fields H.
    unfold HpkeKemId_from_u16. repeat case_match; simpl; (split; [|]).
    all: rewrite ?N.eqb_eq, ?N.eqb_neq in *; subst; try close_sound; try done.
Qed.
#[global] Instance HpkeKdfId_codec : CodecOk HpkeKdfId_wf HpkeKdfId_encode HpkeKdfId_decode.
Proof.
  split.
  - intros [|v] Hx; unfold_writes; unfold_decodes; cbn; try complete_fields.
    destruct Hx as (H1%N.eqb_neq & Hv).
    eapply complete_last; [apply _|solve_field|].
    unfold HpkeKdfId_from_u16. by rewrite H1.
  - intros c x c' H. unfold HpkeKdfId_decode in H. sound_fields H.
    unfold HpkeKdfId_from_u16. case_match; simpl; (split; [|]).
    all: rewrite ?N.eqb_eq, ?N.eqb_neq in *; subst; try close_sound; try done.
Qed.
#[global] Instance HpkeAeadId_codec : CodecOk HpkeAeadId_wf HpkeAeadId_encode HpkeAeadId_decode.
Proof.
  split.
  - intros [|v] Hx; unfold_writes; unfold_decodes; cbn; try complete_fields.
    destruct Hx as (H1%N.eqb_neq & Hv).
    eapply complete_last; [apply _|solve_field|].
    unfold HpkeAeadId_from_u16. by rewrite H1.
  - intros c x c' H. unfold HpkeAeadId_decode in H. sound_fields H.
    unfold HpkeAeadId_from_u16. case_match; simpl; (split; [|]).
    all: rewrite ?N.eqb_eq, ?N.eqb_neq in *; subst; try close_sound; try done.
Qed.
#[global] Instance HpkeKemId_decode_no_panic : NoPanic HpkeKemId_decode.
Proof. solve_no_panic. Qed.
#[global] Instance HpkeKdfId_decode_no_panic : NoPanic HpkeKdfId_decode.
Proof. solve_no_panic. Qed.
#[global] Instance HpkeAeadId_decode_no_panic : NoPanic HpkeAeadId_decode.
Proof. solve_no_panic. Qed.

#[global] Instance HpkeConfig_codec :
  CodecOk HpkeConfig_wf HpkeConfig_encode HpkeConfig_decode.
Proof. split; [solve_complete|solve_sound]. Qed.
#[global] Instance HpkeConfig_decode_no_panic : NoPanic HpkeConfig_decode.
Proof. solve_no_panic. Qed.
#[global] Instance HpkeConfig_decode_non_empty : NonEmpty HpkeConfig_decode.
Proof. solve_non_empty. Qed.

#[global] Instance HpkeConfigList_codec :
  CodecOk HpkeConfigList_wf HpkeConfigList_encode HpkeConfigList_decode.
Proof. split; [solve_complete|solve_sound]. Qed.
#[global] Instance HpkeConfigList_decode_no_panic : NoPanic HpkeConfigList_decode.
Proof. solve_no_panic. Qed.

#[global] Instance PlaintextInputShare_codec version :
  CodecOk (PlaintextInputShare_wf version)
    (PlaintextInputShare_encode version) (PlaintextInputShare_decode version).
Proof. split; [solve_complete|solve_sound]. Qed.
End Codecs.

(** ** Properties of the messages *)
Section Properties.
Context `{BP : BuildProfile} `{PC : PrioCodec} {L : PrioCodecLaws PC}.

(** C7: every message two parties of the protocol exchange is encoded, and decoding the encoding
    gives the message back: reports, aggregation job requests and responses,
    collection requests and collections, aggregate share requests and shares, HPKE
    configuration lists and plaintext input shares, in every version. *)
Theorem messages_round_trip version :
  round_trips Report_wf (Report_encode version) (Report_decode version) /\
  round_trips (AggregationJobInitReq_wf version)
    (AggregationJobInitReq_encode version) (AggregationJobInitReq_decode version) /\
  round_trips AggregationJobResp_wf AggregationJobResp_encode AggregationJobResp_decode /\
  round_trips CollectionReq_wf (CollectionReq_encode version) (CollectionReq_decode version) /\
  round_trips Collection_wf (Collection_encode version) (Collection_decode version) /\
  round_trips AggregateShareReq_wf
    (AggregateShareReq_encode version) (AggregateShareReq_decode version) /\
  round_trips AggregateShare_wf AggregateShare_encode AggregateShare_decode /\
  round_trips HpkeConfigList_wf HpkeConfigList_encode HpkeConfigList_decode /\
  round_trips (PlaintextInputShare_wf version)
    (PlaintextInputShare_encode version) (PlaintextInputShare_decode version).
Proof. split_and!; apply codec_round_trips; apply _. Qed.

(** A message has one encoding: when bytes are decoded to a message, the
    message is well formed and encoding it gives the same bytes. *)
Theorem messages_canonical version :
  canonical Report_wf (Report_encode version) (Report_decode version) /\
  canonical (AggregationJobInitReq_wf version)
    (AggregationJobInitReq_encode version) (AggregationJobInitReq_decode version) /\
  canonical AggregationJobResp_wf AggregationJobResp_encode AggregationJobResp_decode /\
  canonical CollectionReq_wf (CollectionReq_encode version) (CollectionReq_decode version) /\
  canonical Collection_wf (Collection_encode version) (Collection_decode version) /\
  canonical AggregateShareReq_wf
    (AggregateShareReq_encode version) (AggregateShareReq_decode version) /\
  canonical AggregateShare_wf AggregateShare_encode AggregateShare_decode /\
  canonical HpkeConfigList_wf HpkeConfigList_encode HpkeConfigList_decode /\
  canonical (PlaintextInputShare_wf version)
    (PlaintextInputShare_encode version) (PlaintextInputShare_decode version).
Proof. split_and!; apply codec_canonical; apply _. Qed.

(** Decoding a message that carries no report extension returns a message or
    an error on every input: no input makes the program panic. *)
Theorem messages_decoding_returns version :
  decoding_returns (Report_decode version) /\
  decoding_returns (AggregationJobInitReq_decode version) /\
  decoding_returns AggregationJobResp_decode /\
  decoding_returns (CollectionReq_decode version) /\
  decoding_returns (Collection_decode version) /\
  decoding_returns (AggregateShareReq_decode version) /\
  decoding_returns AggregateShare_decode /\
  decoding_returns HpkeConfigList_decode.
Proof. split_and!; apply no_panic_returns; apply _. Qed.

(** C34: decoding a [Taskprov] report extension whose length prefix promises more
    bytes than the input holds panics: [decode_u16_prefixed] slices the buffer
    without the bounds check its comment announces. *)
Theorem Extension_decode_truncated version pre n rest :
  n <= u16_max -> len rest < n ->
  len (pre ++ be_bytes 2 EXTENSION_TASKPROV ++ be_bytes 2 n ++ rest) <= slice_max ->
  Extension_decode version
    (Cursor (pre ++ be_bytes 2 EXTENSION_TASKPROV ++ be_bytes 2 n ++ rest) (length pre))
  = Panic.
Proof.
  intros Hn Hlt Hmax. unfold Extension_decode, mbind, reader_bind.
  rewrite (int_decodes W16 EXTENSION_TASKPROV ltac:(done)) by done.
  cbn [width_bytes N.eqb EXTENSION_TASKPROV Pos.eqb].
  rewrite app_assoc in *. rewrite <-length_app.
  by rewrite (decode_u16_prefixed_truncated version _ _ n rest).
Qed.
End Properties.

Lemma lor_fold_0 (l : list (byte * byte)) r :
  foldl (fun r '(x, y) => N.lor r (Byte.to_N (byte_xor x y))) r l = 0 <->
  r = 0 /\ Forall (fun '(x, y) => x = y) l.
Proof.
  revert r. induction l as [|[x y] l IH]; intros r; simpl.
  - naive_solver.
  - rewrite IH, N.lor_eq_0_iff, byte_xor_eq_0, Forall_cons. naive_solver.
Qed.

Lemma zip_all_equal (l k : list byte) :
  length l = length k -> (Forall (fun '(x, y) => x = y) (zip l k) <-> l = k).
Proof.
  revert k. induction l as [|x l IH]; intros [|y k]; simpl; [done|done|done|].
  intros [= H]. rewrite Forall_cons, (IH k H). naive_solver.
Qed.

Lemma constant_time_eq_iff left right :
  constant_time_eq left right = true <-> left = right.
Proof.
  unfold constant_time_eq, len. destruct (N.eqb_spec (N.of_nat (length left))
    (N.of_nat (length right))) as [Hl|Hl]; simpl.
  - rewrite N.eqb_eq, lor_fold_0, zip_all_equal by lia. naive_solver.
  - split; [done|]. by intros ->.
Qed.

(** [constant_time_eq] is equality of byte strings. *)
Theorem constant_time_eq_spec left right :
  constant_time_eq left right = true <-> left = right.
Proof. apply constant_time_eq_iff. Qed.
