(* ===== verification/TaskprovMessages.v ===== *)
(** * The messages of the taskprov extension

    [src/crates/daphne/src/messages/taskprov.rs]: the task configuration a client
    or a Leader advertises in band.  Several of its decoders take the number of
    bytes left in the enclosing item, to read the parameters of a variant they do
    not know; [TailCodec] is the interface of such a decoder, and
    [prefixed_codec] turns it into an ordinary codec behind a length prefix. *)

From S2P Require Import Prelude Codec Messages.

(** ** Constants *)
Definition VDAF_TYPE_PRIO2 : N := 0xFFFF0000.
Definition VDAF_TYPE_PRIO3_SUM_VEC_FIELD64_MULTIPROOF_HMAC_SHA256_AES128 : N := 0xFFFF1003.
Definition VDAF_TYPE_PINE_FIELD64_HMAC_SHA256_AES128 : N := 0xffff1004.
Definition VDAF_TYPE_PINE_FIELD32_HMAC_SHA256_AES128 : N := 0xffff1005.
Definition DP_MECHANISM_NONE : N := 1.

(** ** Data *)
Record PineParam : Type := MkPineParam {
  PineParam_norm_bound : N;
  PineParam_dimension : N;
  PineParam_frac_bits : N;
  PineParam_chunk_len : N;
  PineParam_chunk_len_sq_norm_equal : N;
  PineParam_num_proofs : N;
  PineParam_num_proofs_sq_norm_equal : N;
  PineParam_num_wr_tests : N;
  PineParam_num_wr_successes : N;
}.

Inductive VdafTypeVar : Type :=
| VdafTypeVar_Prio2 (dimension : N)
| VdafTypeVar_Prio3SumVecField64MultiproofHmacSha256Aes128
    (length bits chunk_length num_proofs : N)
| VdafTypeVar_Pine32HmacSha256Aes128 (param : PineParam)
| VdafTypeVar_Pine64HmacSha256Aes128 (param : PineParam)
| VdafTypeVar_NotImplemented (typ : N) (param : list byte).

Inductive DpConfig : Type :=
| DpConfig_None
| DpConfig_NotImplemented (typ : N) (param : list byte).

Record VdafConfig : Type := MkVdafConfig {
  VdafConfig_dp_config : DpConfig;
  VdafConfig_var : VdafTypeVar;
}.

Record UrlBytes : Type := MkUrlBytes { UrlBytes_bytes : list byte }.

Inductive QueryConfigVar : Type :=
| QueryConfigVar_TimeInterval
| QueryConfigVar_FixedSize (max_batch_size : N)
| QueryConfigVar_NotImplemented (typ : N) (param : list byte).

Record QueryConfig : Type := MkQueryConfig {
  QueryConfig_time_precision : Duration;
  QueryConfig_max_batch_query_count : N;
  QueryConfig_min_batch_size : N;
  QueryConfig_var : QueryConfigVar;
}.

Record TaskConfig : Type := MkTaskConfig {
  TaskConfig_task_info : list byte;
  TaskConfig_leader_url : UrlBytes;
  TaskConfig_helper_url : UrlBytes;
  TaskConfig_query_config : QueryConfig;
  TaskConfig_task_expiration : Time;
  TaskConfig_vdaf_config : VdafConfig;
}.

(** ** Encoders and decoders *)
Section Encoding.
Context `{BP : BuildProfile} `{PC : PrioCodec}.

(** [u32::try_from(v).map_err(|_| CodecError::UnexpectedValue)?.encode(bytes)] *)
Definition usize_as_u32_encode : writer N := fun v bytes =>
  if v <=? u32_max then u32_encode v bytes else Err UnexpectedValue.
Definition usize_as_u16_encode : writer N := fun v bytes =>
  if v <=? u16_max then u16_encode v bytes else Err UnexpectedValue.

(** [let mut v = vec![0; n]; bytes.read_exact(&mut v)], which panics when the
    vector cannot be allocated. *)
Definition read_vec (n : N) : reader (list byte) :=
  if n <=? slice_max then read_exact n else read_panic.

(** A byte of a [Vec<u8>] written by [encode_u8_items]. *)
Definition byte_encode : writer byte := fun b bytes => u8_encode (Byte.to_N b) bytes.
Definition byte_decode : reader byte := v ← u8_decode; mret (byte_of_N v).

Definition PineParam_encode : writer PineParam := fun x bytes =>
  bytes ← u64_encode (PineParam_norm_bound x) bytes;
  bytes ← usize_as_u32_encode (PineParam_frac_bits x) bytes;
  bytes ← usize_as_u32_encode (PineParam_dimension x) bytes;
  bytes ← usize_as_u32_encode (PineParam_chunk_len x) bytes;
  bytes ← usize_as_u32_encode (PineParam_chunk_len_sq_norm_equal x) bytes;
  bytes ← u8_encode (PineParam_num_proofs x) bytes;
  bytes ← u8_encode (PineParam_num_proofs_sq_norm_equal x) bytes;
  bytes ← usize_as_u16_encode (PineParam_num_wr_tests x) bytes;
  usize_as_u16_encode (PineParam_num_wr_successes x) bytes.

(** A [u32] always fits a [usize], which is 64 bits wide here. *)
Definition PineParam_decode : reader PineParam :=
  l2_norm_bound ← u64_decode;
  num_frac_bits ← u32_decode;
  length ← u32_decode;
  chunk_length ← u32_decode;
  chunk_length_norm_equality ← u32_decode;
  num_proofs ← u8_decode;
  num_proofs_sq_norm_equal ← u8_decode;
  num_wr_checks ← u16_decode;
  num_wr_successes ← u16_decode;
  mret (MkPineParam l2_norm_bound length num_frac_bits chunk_length
          chunk_length_norm_equality num_proofs num_proofs_sq_norm_equal
          num_wr_checks num_wr_successes).

Definition VdafTypeVar_encode (version : DapVersion) : writer VdafTypeVar := fun x bytes =>
  match x with
  | VdafTypeVar_Prio2 dimension =>
      bytes ← u32_encode VDAF_TYPE_PRIO2 bytes;
      u32_encode dimension bytes
  | VdafTypeVar_Prio3SumVecField64MultiproofHmacSha256Aes128
      length bits chunk_length num_proofs =>
      bytes ← u32_encode VDAF_TYPE_PRIO3_SUM_VEC_FIELD64_MULTIPROOF_HMAC_SHA256_AES128 bytes;
      bytes ← u32_encode length bytes;
      bytes ← u8_encode bits bytes;
      bytes ← u32_encode chunk_length bytes;
      u8_encode num_proofs bytes
  | VdafTypeVar_Pine32HmacSha256Aes128 param =>
      bytes ← u32_encode VDAF_TYPE_PINE_FIELD32_HMAC_SHA256_AES128 bytes;
      PineParam_encode param bytes
  | VdafTypeVar_Pine64HmacSha256Aes128 param =>
      bytes ← u32_encode VDAF_TYPE_PINE_FIELD64_HMAC_SHA256_AES128 bytes;
      PineParam_encode param bytes
  | VdafTypeVar_NotImplemented typ param =>
      bytes ← u32_encode typ bytes;
      extend_from_slice param bytes
  end.

(** [l - n] on an optional length, where an underflow panics or wraps. *)
Definition reader_sub (l n : N) : reader N := fun c => v ← u64_sub l n; Ok (v, c).

Definition VdafTypeVar_decode (version : DapVersion) (bytes_left : option N) :
    reader VdafTypeVar :=
  vdaf_type ← u32_decode;
  if vdaf_type =? VDAF_TYPE_PRIO2 then
    dimension ← u32_decode;
    mret (VdafTypeVar_Prio2 dimension)
  else if vdaf_type =? VDAF_TYPE_PRIO3_SUM_VEC_FIELD64_MULTIPROOF_HMAC_SHA256_AES128 then
    length ← u32_decode;
    bits ← u8_decode;
    chunk_length ← u32_decode;
    num_proofs ← u8_decode;
    mret (VdafTypeVar_Prio3SumVecField64MultiproofHmacSha256Aes128
            length bits chunk_length num_proofs)
  else if vdaf_type =? VDAF_TYPE_PINE_FIELD32_HMAC_SHA256_AES128 then
    param ← PineParam_decode;
    mret (VdafTypeVar_Pine32HmacSha256Aes128 param)
  else if vdaf_type =? VDAF_TYPE_PINE_FIELD64_HMAC_SHA256_AES128 then
    param ← PineParam_decode;
    mret (VdafTypeVar_Pine64HmacSha256Aes128 param)
  else
    match bytes_left with
    | Some bytes_left =>
        n ← reader_sub bytes_left 4;
        param ← read_vec n;
        mret (VdafTypeVar_NotImplemented vdaf_type param)
    | None => read_fail (Other
        "cannot decode VdafConfig variant without knowing the length of the remainder")
    end.

Definition DpConfig_encode : writer DpConfig := fun x bytes =>
  match x with
  | DpConfig_None => u8_encode DP_MECHANISM_NONE bytes
  | DpConfig_NotImplemented typ param =>
      bytes ← u8_encode typ bytes;
      extend_from_slice param bytes
  end.

Definition DpConfig_decode (version : DapVersion) (bytes_left : option N) : reader DpConfig :=
  dp_mechanism ← u8_decode;
  if dp_mechanism =? DP_MECHANISM_NONE then mret DpConfig_None
  else
    match bytes_left with
    | Some bytes_left =>
        n ← reader_sub bytes_left 1;
        param ← read_vec n;
        mret (DpConfig_NotImplemented dp_mechanism param)
    | None => read_fail (Other
        "cannot decode DpConfig variant without knowing the length of the remainder")
    end.

Definition VdafConfig_encode (version : DapVersion) : writer VdafConfig := fun x bytes =>
  bytes ← encode_u16_prefixed version (fun _ inner => DpConfig_encode (VdafConfig_dp_config x) inner) bytes;
  VdafTypeVar_encode version (VdafConfig_var x) bytes.

(** [bytes_left.map(|l| l - prefix_len)] *)
Definition option_sub {E} (l : option N) (n : N) : res E (option N) :=
  match l with
  | Some l => v ← u64_sub l n; Ok (Some v)
  | None => Ok None
  end.

Definition VdafConfig_decode (version : DapVersion) (bytes_left : option N) :
    reader VdafConfig := fun bytes =>
  let prefix_start := N.of_nat (position bytes) in
  '(dp_config, bytes) ←
     decode_u16_prefixed version (fun version bytes_left => DpConfig_decode version bytes_left) bytes;
  prefix_len ← u64_sub (N.of_nat (position bytes)) prefix_start;
  bytes_left ← option_sub bytes_left prefix_len;
  '(var, bytes) ← VdafTypeVar_decode version bytes_left bytes;
  Ok (MkVdafConfig dp_config var, bytes).

Definition UrlBytes_encode : writer UrlBytes := fun x bytes =>
  encode_u16_bytes (UrlBytes_bytes x) bytes.
Definition UrlBytes_decode : reader UrlBytes :=
  bytes ← decode_u16_bytes; mret (MkUrlBytes bytes).

Definition encode_query_type : writer QueryConfig := fun x bytes =>
  match QueryConfig_var x with
  | QueryConfigVar_TimeInterval => u8_encode QUERY_TYPE_TIME_INTERVAL bytes
  | QueryConfigVar_FixedSize _ => u8_encode QUERY_TYPE_FIXED_SIZE bytes
  | QueryConfigVar_NotImplemented typ _ => u8_encode typ bytes
  end.

Definition QueryConfig_encode (version : DapVersion) : writer QueryConfig := fun x bytes =>
  bytes ← u64_encode (QueryConfig_time_precision x) bytes;
  bytes ← u16_encode (QueryConfig_max_batch_query_count x) bytes;
  bytes ← u32_encode (QueryConfig_min_batch_size x) bytes;
  bytes ← encode_query_type x bytes;
  match QueryConfig_var x with
  | QueryConfigVar_TimeInterval => Ok bytes
  | QueryConfigVar_FixedSize max_batch_size => u32_encode max_batch_size bytes
  | QueryConfigVar_NotImplemented _ param => extend_from_slice param bytes
  end.

Definition QueryConfig_decode (version : DapVersion) (bytes_left : option N) :
    reader QueryConfig :=
  time_precision ← u64_decode;
  max_batch_query_count ← u16_decode;
  min_batch_size ← u32_decode;
  query_type ← u8_decode;
  var ← (if query_type =? QUERY_TYPE_TIME_INTERVAL then mret QueryConfigVar_TimeInterval
         else if query_type =? QUERY_TYPE_FIXED_SIZE then
           max_batch_size ← u32_decode;
           mret (QueryConfigVar_FixedSize max_batch_size)
         else
           match bytes_left with
           | Some bytes_left =>
               n ← reader_sub bytes_left 15;
               param ← read_vec n;
               mret (QueryConfigVar_NotImplemented query_type param)
           | None => read_fail (Other
               "cannot decode QueryConfig variant without knowing the length of the remainder")
           end);
  mret (MkQueryConfig time_precision max_batch_query_count min_batch_size var).

Definition TaskConfig_encode (version : DapVersion) : writer TaskConfig := fun x bytes =>
  bytes ← encode_items W8 byte_encode (TaskConfig_task_info x) bytes;
  bytes ← UrlBytes_encode (TaskConfig_leader_url x) bytes;
  bytes ← UrlBytes_encode (TaskConfig_helper_url x) bytes;
  bytes ← encode_u16_prefixed version
    (fun version inner => QueryConfig_encode version (TaskConfig_query_config x) inner) bytes;
  bytes ← u64_encode (TaskConfig_task_expiration x) bytes;
  encode_u16_prefixed version
    (fun version inner => VdafConfig_encode version (TaskConfig_vdaf_config x) inner) bytes.

Definition TaskConfig_decode (version : DapVersion) : reader TaskConfig :=
  task_info ← decode_items W8 byte_decode;
  leader_url ← UrlBytes_decode;
  helper_url ← UrlBytes_decode;
  query_config ← decode_u16_prefixed version
    (fun version bytes_left => QueryConfig_decode version bytes_left);
  task_expiration ← u64_decode;
  vdaf_config ← decode_u16_prefixed version
    (fun version bytes_left => VdafConfig_decode version bytes_left);
  mret (MkTaskConfig task_info leader_url helper_url query_config task_expiration vdaf_config).
End Encoding.

(** ** Well-formed values

    A variant the program knows is never held as [NotImplemented]. *)
Definition PineParam_wf (x : PineParam) : Prop :=
  u64_wf (PineParam_norm_bound x) /\ PineParam_frac_bits x <= u32_max /\
  PineParam_dimension x <= u32_max /\ PineParam_chunk_len x <= u32_max /\
  PineParam_chunk_len_sq_norm_equal x <= u32_max /\ u8_wf (PineParam_num_proofs x) /\
  u8_wf (PineParam_num_proofs_sq_norm_equal x) /\ u16_wf (PineParam_num_wr_tests x) /\
  u16_wf (PineParam_num_wr_successes x).

Definition VdafTypeVar_wf (x : VdafTypeVar) : Prop :=
  match x with
  | VdafTypeVar_Prio2 dimension => dimension <= u32_max
  | VdafTypeVar_Prio3SumVecField64MultiproofHmacSha256Aes128
      length bits chunk_length num_proofs =>
      length <= u32_max /\ u8_wf bits /\ chunk_length <= u32_max /\ u8_wf num_proofs
  | VdafTypeVar_Pine32HmacSha256Aes128 param
  | VdafTypeVar_Pine64HmacSha256Aes128 param => PineParam_wf param
  | VdafTypeVar_NotImplemented typ param =>
      typ <> VDAF_TYPE_PRIO2 /\
      typ <> VDAF_TYPE_PRIO3_SUM_VEC_FIELD64_MULTIPROOF_HMAC_SHA256_AES128 /\
      typ <> VDAF_TYPE_PINE_FIELD32_HMAC_SHA256_AES128 /\
      typ <> VDAF_TYPE_PINE_FIELD64_HMAC_SHA256_AES128 /\ typ <= u32_max
  end.

Definition DpConfig_wf (x : DpConfig) : Prop :=
  match x with
  | DpConfig_None => True
  | DpConfig_NotImplemented typ _ => typ <> DP_MECHANISM_NONE /\ u8_wf typ
  end.

(** The encoding of an item fits the 16 bits of its length prefix. *)
Definition fits_u16 {A} (w : writer A) (x : A) : Prop :=
  exists bs, writes w x bs /\ len bs <= u16_max.

Definition VdafConfig_wf `{PrioCodec} (x : VdafConfig) : Prop :=
  (DpConfig_wf (VdafConfig_dp_config x) /\ fits_u16 DpConfig_encode (VdafConfig_dp_config x)) /\
  VdafTypeVar_wf (VdafConfig_var x).

Definition UrlBytes_wf (x : UrlBytes) : Prop := u16_bytes (UrlBytes_bytes x).

Definition QueryConfigVar_wf (x : QueryConfigVar) : Prop :=
  match x with
  | QueryConfigVar_TimeInterval => True
  | QueryConfigVar_FixedSize max_batch_size => max_batch_size <= u32_max
  | QueryConfigVar_NotImplemented typ _ =>
      typ <> QUERY_TYPE_TIME_INTERVAL /\ typ <> QUERY_TYPE_FIXED_SIZE /\ u8_wf typ
  end.

Definition QueryConfig_wf (x : QueryConfig) : Prop :=
  u64_wf (QueryConfig_time_precision x) /\ u16_wf (QueryConfig_max_batch_query_count x) /\
  QueryConfig_min_batch_size x <= u32_max /\ QueryConfigVar_wf (QueryConfig_var x).

Definition TaskConfig_wf `{BuildProfile, PrioCodec} (version : DapVersion) (x : TaskConfig) : Prop :=
  wf_items W8 (fun _ => True) byte_encode (TaskConfig_task_info x) /\
  UrlBytes_wf (TaskConfig_leader_url x) /\ UrlBytes_wf (TaskConfig_helper_url x) /\
  (QueryConfig_wf (TaskConfig_query_config x) /\
   fits_u16 (QueryConfig_encode version) (TaskConfig_query_config x)) /\
  u64_wf (TaskConfig_task_expiration x) /\
  (VdafConfig_wf (TaskConfig_vdaf_config x) /\
   fits_u16 (VdafConfig_encode version) (TaskConfig_vdaf_config x)).

(** ** Decoders that know how many bytes are left *)
Definition tail_decodes {A} (d : option N -> reader A) (x : A) (bs : list byte) : Prop :=
  forall pre, len (pre ++ bs) <= slice_max ->
    d (Some (len bs)) (Cursor (pre ++ bs) (length pre))
    = Ok (x, Cursor (pre ++ bs) (length pre + length bs)).

Class TailCodec {A} (wf : A -> Prop) (w : writer A) (d : option N -> reader A) : Prop := {
  tail_complete x : wf x -> exists bs, writes w x bs /\ tail_decodes d x bs;
  tail_sound c x c' : d (Some (len (remaining c))) c = Ok (x, c') ->
    wf x /\ exists bs, consumed c bs c' /\ writes w x bs;
}.
#[global] Hint Mode TailCodec ! - - ! : typeclass_instances.

Lemma writes_det {A} (w : writer A) x b1 b2 : writes w x b1 -> writes w x b2 -> b1 = b2.
Proof. intros H1 H2. specialize (H1 []). rewrite (H2 []) in H1. by injection H1. Qed.

(** A decoder that ignores the length. *)
Lemma tail_of_decodes {A} (w : writer A) (d : option N -> reader A) x :
  (forall l, exists bs, writes w x bs /\ decodes (d l) x bs) ->
  exists bs, writes w x bs /\ tail_decodes d x bs.
Proof.
  intros H. destruct (H None) as (bs & Hw & _). exists bs. split; [done|].
  intros pre Hmax. destruct (H (Some (len bs))) as (bs' & Hw' & Hd).
  rewrite (writes_det w x _ _ Hw' Hw) in Hd. specialize (Hd pre []).
  rewrite app_nil_r in Hd. by apply Hd.
Qed.

Lemma tail_bind {A B} (d : reader A) (k : option N -> A -> reader B) x y b1 b2 :
  decodes d x b1 ->
  (forall pre, len (pre ++ b2) <= slice_max ->
     k (Some (len (b1 ++ b2))) x (Cursor (pre ++ b2) (length pre))
     = Ok (y, Cursor (pre ++ b2) (length pre + length b2))) ->
  tail_decodes (fun l => d ≫= k l) y (b1 ++ b2).
Proof.
  intros Hd Hk pre Hmax. unfold mbind, reader_bind. rewrite Hd by done.
  rewrite <-length_app, app_assoc in *. rewrite Hk by done.
  by rewrite !length_app, Nat.add_assoc.
Qed.

Lemma decodes_step {A B} (d : reader A) (k : A -> reader B) x b pre post :
  decodes d x b -> len (pre ++ b ++ post) <= slice_max ->
  (d ≫= k) (Cursor (pre ++ b ++ post) (length pre))
  = k x (Cursor ((pre ++ b) ++ post) (length (pre ++ b))).
Proof.
  intros Hd Hmax. unfold mbind, reader_bind. rewrite Hd by done.
  by rewrite length_app, app_assoc.
Qed.

Section Codecs.
Context `{BP : BuildProfile} `{PC : PrioCodec} {L : PrioCodecLaws PC}.

Lemma read_vec_exact n c : n <= slice_max -> read_vec n c = read_exact n c.
Proof. intros H. unfold read_vec. by rewrite (proj2 (N.leb_le _ _) H). Qed.

(** The rest of an item, read as the parameters of an unknown variant. *)
Lemma read_rest {B} k (f : list byte -> B) l param pre :
  l = k + len param -> len (pre ++ param) <= slice_max ->
  (n ← reader_sub l k; p ← read_vec n; mret (f p)) (Cursor (pre ++ param) (length pre))
  = Ok (f param, Cursor (pre ++ param) (length pre + length param)).
Proof.
  intros -> Hmax. unfold reader_sub, mbind, reader_bind.
  rewrite u64_sub_fits by lia. simpl. rewrite N.add_comm, N.add_sub.
  rewrite len_app in Hmax. rewrite read_vec_exact by lia.
  pose proof (read_exact_decodes param pre []) as Hd. rewrite app_nil_r in Hd.
  by rewrite Hd by (rewrite len_app; lia).
Qed.

Lemma read_rest_inv {B} k (f : list byte -> B) l c y c' :
  k <= l ->
  (n ← reader_sub l k; p ← read_vec n; mret (f p)) c = Ok (y, c') ->
  exists param, y = f param /\ consumed c param c'.
Proof.
  intros Hk H. apply reader_bind_Ok in H as (n & c1 & Hn & H).
  unfold reader_sub in Hn. rewrite u64_sub_fits in Hn by done. injection Hn as <- <-.
  apply reader_bind_Ok in H as (p & c2 & Hp & [= <- <-]).
  unfold read_vec in Hp. case_match; [|done].
  apply read_exact_consumed in Hp as [_ Hp]. eauto.
Qed.

Lemma read_rest_no_panic {B} k (f : list byte -> B) l c :
  k <= l -> l <= slice_max -> (n ← reader_sub l k; p ← read_vec n; mret (f p)) c <> Panic.
Proof.
  intros Hk Hl. apply reader_bind_no_panic.
  - unfold reader_sub. by rewrite u64_sub_fits.
  - intros n c1 Hn. unfold reader_sub in Hn. rewrite u64_sub_fits in Hn by done.
    injection Hn as <- <-. apply reader_bind_no_panic; [|done].
    rewrite read_vec_exact by lia. apply read_exact_no_panic.
Qed.

(** Reading an integer leaves that many bytes fewer. *)
Lemma consumed_int_remaining w v c bs c' :
  v <= width_max w -> consumed c bs c' -> appends (int_encode w v) bs ->
  len (remaining c) = N.of_nat (width_bytes w) + len (remaining c').
Proof.
  intros Hv Hc Hw. apply consumed_remaining in Hc. rewrite Hc, len_app.
  rewrite (int_writes_value w v bs Hv Hw). unfold len at 1. by rewrite length_be_bytes.
Qed.

Lemma int_decode_remaining w c v c' :
  int_decode w c = Ok (v, c') ->
  len (remaining c) = N.of_nat (width_bytes w) + len (remaining c').
Proof.
  intros H. apply int_sound in H as (Hv & bs & Hc & Hw). by eapply consumed_int_remaining.
Qed.

(** An item behind its length prefix. *)
Lemma prefixed_codec {A} (wf : A -> Prop) (w : writer A) version
    (d : DapVersion -> option N -> reader A) e :
  TailCodec wf w (d version) -> (forall x, e x version = w x) ->
  CodecOk (fun x => wf x /\ fits_u16 w x)
    (fun x bytes => encode_u16_prefixed version (e x) bytes)
    (decode_u16_prefixed version d).
Proof.
  intros T He. split.
  - intros x [Hx (bs & Hw & Hle)].
    destruct (@tail_complete _ _ _ _ T x Hx) as (bs' & Hw' & Hd).
    rewrite (writes_det w x _ _ Hw' Hw) in Hd.
    exists (be_bytes 2 (len bs) ++ bs). split.
    + apply (encode_len_prefixed_writes W16); [by rewrite He|done].
    + apply decode_u16_prefixed_decodes; [done|].
      apply (Hd []). unfold u16_max, slice_max in *. simpl. lia.
  - intros c x c' H.
    apply decode_u16_prefixed_inv in H as (item & inner & Hle & Hd & Hpos & Hc).
    apply (@tail_sound _ _ _ _ T (cursor_new item)) in Hd as (Hwf & bs & Hcs & Hw).
    destruct Hcs as [Ht ->]. unfold remaining, cursor_new in Ht. simpl in Ht.
    rewrite drop_0 in Ht. simpl in Hpos.
    assert (length bs <= length item)%nat as Hlen.
    { rewrite <-Ht, length_take. lia. }
    rewrite take_ge in Ht by (rewrite Hpos; [done|by right]). subst item.
    split; [split; [done|by exists bs]|]. eexists. split; [done|].
    apply (encode_len_prefixed_writes W16); [by rewrite He|done].
Qed.

Lemma usize_as_u32_appends v bs :
  v <= u32_max -> appends (u32_encode v) bs -> appends (usize_as_u32_encode v) bs.
Proof.
  intros Hv Hw buf. unfold usize_as_u32_encode. rewrite (proj2 (N.leb_le _ _) Hv). apply Hw.
Qed.
Lemma usize_as_u16_appends v bs :
  u16_wf v -> appends (u16_encode v) bs -> appends (usize_as_u16_encode v) bs.
Proof.
  intros Hv Hw buf. unfold usize_as_u16_encode. rewrite (proj2 (N.leb_le _ _) Hv). apply Hw.
Qed.

#[global] Instance usize_as_u32_codec :
  CodecOk (fun v => v <= u32_max) usize_as_u32_encode u32_decode | 100.
Proof.
  split.
  - intros v Hv. destruct (int_complete W32 v Hv) as (bs & Hw & Hd). exists bs.
    split; [by apply usize_as_u32_appends|done].
  - intros c v c' H. apply (int_sound W32) in H as (Hv & bs & Hc & Hw). split; [done|].
    exists bs. split; [done|by apply usize_as_u32_appends].
Qed.
#[global] Instance usize_as_u16_codec : CodecOk u16_wf usize_as_u16_encode u16_decode | 100.
Proof.
  split.
  - intros v Hv. destruct (int_complete W16 v Hv) as (bs & Hw & Hd). exists bs.
    split; [by apply usize_as_u16_appends|done].
  - intros c v c' H. apply (int_sound W16) in H as (Hv & bs & Hc & Hw). split; [done|].
    exists bs. split; [done|by apply usize_as_u16_appends].
Qed.

#[global] Instance byte_codec : CodecOk (fun _ => True) byte_encode byte_decode.
Proof.
  split.
  - intros b _. unfold_writes. unfold_decodes.
    eapply complete_last; [apply _| |by rewrite byte_of_N_to_N].
    pose proof (byte_to_N_lt b). simpl. unfold u8_max. lia.
  - intros c b c' H. split; [done|]. unfold byte_decode in H. sound_fields H.
    eexists. split; [done|]. unfold_writes.
    rewrite to_N_byte_of_N, N.mod_small; [done|]. simpl in *. unfold u8_max in *. lia.
Qed.
#[global] Instance byte_decode_non_empty : NonEmpty byte_decode.
Proof. solve_non_empty. Qed.

#[global] Instance UrlBytes_codec : CodecOk UrlBytes_wf UrlBytes_encode UrlBytes_decode.
Proof. split; [solve_complete|solve_sound]. Qed.

#[local] Hint Resolve usize_as_u32_appends usize_as_u16_appends : codec.

#[global] Instance PineParam_codec : CodecOk PineParam_wf PineParam_encode PineParam_decode.
Proof. split; [solve_complete|solve_sound]. Qed.

#[global] Instance DpConfig_tail version :
  TailCodec DpConfig_wf DpConfig_encode (DpConfig_decode version).
Proof.
  split.
  - intros [|typ param] Hx.
    + apply tail_of_decodes. intros l. unfold_writes. unfold_decodes. complete_fields.
    + destruct Hx as (Hne%N.eqb_neq & Ht).
      destruct (int_complete W8 typ Ht) as (b & Hw & Hd). exists (b ++ param). split.
      * unfold_writes. chain_appends.
      * unfold DpConfig_decode. eapply tail_bind; [done|]. intros pre Hmax. rewrite Hne.
        apply read_rest; [|done]. rewrite len_app. unfold len at 1.
        by rewrite (int_writes_length W8 typ b Ht Hw).
  - intros c x c' H. unfold DpConfig_decode in H.
    pose proof H as H0. apply reader_bind_Ok in H0 as (v0 & c0 & Hv0 & _).
    apply int_decode_remaining in Hv0. clear v0.
    sound_field H. case_tag H.
    + injection H as <- <-. split; [done|close_sound].
    + apply read_rest_inv in H as (param & -> & Hp); [|simpl in Hv0; lia].
      split; [done|close_sound].
Qed.

#[global] Instance VdafTypeVar_tail version :
  TailCodec VdafTypeVar_wf (VdafTypeVar_encode version) (VdafTypeVar_decode version).
Proof.
  split.
  - intros x Hx.
    destruct x as [dimension|length bits chunk_length num_proofs|param|param|typ param];
      try (apply tail_of_decodes; intros l; simpl in Hx; destruct_and?;
           unfold_writes; unfold_decodes; cbn; complete_fields; fail).
    destruct Hx as (H1%N.eqb_neq & H2%N.eqb_neq & H3%N.eqb_neq & H4%N.eqb_neq & Ht).
    destruct (int_complete W32 typ Ht) as (b & Hw & Hd). exists (b ++ param). split.
    + unfold_writes. chain_appends.
    + unfold VdafTypeVar_decode. eapply tail_bind; [done|]. intros pre Hmax.
      rewrite H1, H2, H3, H4. apply read_rest; [|done]. rewrite len_app. unfold len at 1.
      by rewrite (int_writes_length W32 typ b Ht Hw).
  - intros c x c' H. unfold VdafTypeVar_decode in H.
    pose proof H as H0. apply reader_bind_Ok in H0 as (v0 & c0 & Hv0 & _).
    apply int_decode_remaining in Hv0. clear v0.
    sound_field H. do 4 (case_tag H; [sound_fields H; split; [by split_and?|close_sound]|]).
    apply read_rest_inv in H as (param & -> & Hp); [|simpl in Hv0; lia].
    split; [done|close_sound].
Qed.

(** The type of a query and what follows it. *)
Lemma QueryConfig_var_complete tp qc mb var :
  QueryConfigVar_wf var ->
  exists t bt bv, u8_wf t /\ writes u8_encode t bt /\
    encode_query_type (MkQueryConfig tp qc mb var) = u8_encode t /\
    appends (match var with
             | QueryConfigVar_TimeInterval => fun bytes => Ok bytes
             | QueryConfigVar_FixedSize max_batch_size => u32_encode max_batch_size
             | QueryConfigVar_NotImplemented _ param => extend_from_slice param
             end) bv /\
    forall pre, len (pre ++ bv) <= slice_max ->
      (if t =? QUERY_TYPE_TIME_INTERVAL then mret QueryConfigVar_TimeInterval
       else if t =? QUERY_TYPE_FIXED_SIZE then
         max_batch_size ← u32_decode;
         mret (QueryConfigVar_FixedSize max_batch_size)
       else
         n ← reader_sub (15 + len bv) 15;
         param ← read_vec n;
         mret (QueryConfigVar_NotImplemented t param)) (Cursor (pre ++ bv) (length pre))
      = Ok (var, Cursor (pre ++ bv) (length pre + length bv)).
Proof.
  intros Hv. destruct var as [|m|t param]; simpl in Hv.
  - exists QUERY_TYPE_TIME_INTERVAL, (be_bytes 1 1), []. split_and!; try done.
    + by apply (int_encode_be W8).
    + intros buf. by rewrite app_nil_r.
    + intros pre _. simpl. by rewrite app_nil_r, Nat.add_0_r.
  - destruct (int_complete W32 m Hv) as (b & Hw & Hd).
    exists QUERY_TYPE_FIXED_SIZE, (be_bytes 1 2), b. split_and!; try done.
    + by apply (int_encode_be W8).
    + intros pre Hmax. simpl. pose proof (decodes_bind_ret _ QueryConfigVar_FixedSize _ _ Hd pre []) as E.
      rewrite app_nil_r in E. by apply E.
  - destruct Hv as (H1%N.eqb_neq & H2%N.eqb_neq & Ht).
    exists t, (be_bytes 1 t), param. split_and!; try done.
    + by apply (int_encode_be W8).
    + intros pre Hmax. rewrite H1, H2. by apply read_rest.
Qed.

Lemma QueryConfig_complete version x :
  QueryConfig_wf x ->
  exists bs, writes (QueryConfig_encode version) x bs /\ tail_decodes (QueryConfig_decode version) x bs.
Proof.
  revert x.
  intros [tp qc mb var] (Htp & Hqc & Hmb & Hvar). simpl in *.
  destruct (int_complete W64 tp Htp) as (b1 & W1 & D1).
  destruct (int_complete W16 qc Hqc) as (b2 & W2 & D2).
  destruct (int_complete W32 mb Hmb) as (b3 & W3 & D3).
  destruct (QueryConfig_var_complete tp qc mb var Hvar)
    as (t & b4 & bv & Ht & W4 & Het & Wv & Hd).
  destruct (int_complete W8 t Ht) as (b4' & W4' & D4).
  rewrite (writes_det _ _ _ _ W4' W4) in D4.
  exists (b1 ++ b2 ++ b3 ++ b4 ++ bv). split.
  - unfold_writes. cbn. rewrite Het.
    do 4 (eapply appends_bind; [done|]). by destruct var.
  - intros pre Hmax. unfold QueryConfig_decode.
    rewrite (decodes_step _ _ _ _ _ _ D1) by done.
    rewrite (decodes_step _ _ _ _ _ _ D2) by (by rewrite <-?app_assoc).
    rewrite (decodes_step _ _ _ _ _ _ D3) by (by rewrite <-?app_assoc).
    rewrite (decodes_step _ _ _ _ _ _ D4) by (by rewrite <-?app_assoc).
    assert (len (b1 ++ b2 ++ b3 ++ b4 ++ bv) = 15 + len bv) as ->.
    { rewrite !len_app. unfold len.
      rewrite (int_writes_length W64 tp b1), (int_writes_length W16 qc b2),
        (int_writes_length W32 mb b3), (int_writes_length W8 t b4) by done.
      simpl. lia. }
    unfold mbind, reader_bind. unfold mbind, reader_bind in Hd.
    rewrite Hd by (by rewrite <-?app_assoc).
    rewrite !length_app, <-!app_assoc. unfold mret, reader_ret. do 3 f_equal. lia.
Qed.

#[global] Instance QueryConfig_tail version :
  TailCodec QueryConfig_wf (QueryConfig_encode version) (QueryConfig_decode version).
Proof.
  split; [apply QueryConfig_complete|].
  intros c x c' H. unfold QueryConfig_decode in H.
  apply (sound_bind _ _ u64_decode) in H as (tp & c1 & b1 & V1 & C1 & W1 & H).
  apply (sound_bind _ _ u16_decode) in H as (qc & c2 & b2 & V2 & C2 & W2 & H).
  apply (sound_bind _ _ u32_decode) in H as (mb & c3 & b3 & V3 & C3 & W3 & H).
  apply (sound_bind _ _ u8_decode) in H as (t & c4 & b4 & V4 & C4 & W4 & H).
  assert (15 <= len (remaining c)) as Hlen.
  { rewrite (consumed_int_remaining W64 tp c b1 c1), (consumed_int_remaining W16 qc c1 b2 c2),
      (consumed_int_remaining W32 mb c2 b3 c3), (consumed_int_remaining W8 t c3 b4 c4) by done.
    simpl. lia. }
  apply reader_bind_Ok in H as (var & c5 & Hv & [= <- <-]).
  repeat case_tag Hv.
  - injection Hv as <- <-. split; [by split_and!|].
    exists (b1 ++ b2 ++ b3 ++ b4 ++ []). rewrite app_nil_r. split; [chain_consumed|].
    rewrite <-(app_nil_r b4). unfold_writes. cbn. do 4 (eapply appends_bind; [done|]).
    intros buf. by rewrite app_nil_r.
  - sound_fields Hv. split; [by split_and!|]. close_sound.
  - apply read_rest_inv in Hv as (param & -> & Hp); [|done].
    split; [by split_and!|]. close_sound.
Qed.

#[global] Instance DpConfig_prefixed version :
  CodecOk (fun x => DpConfig_wf x /\ fits_u16 DpConfig_encode x)
    (fun x bytes => encode_u16_prefixed version (fun _ inner => DpConfig_encode x inner) bytes)
    (decode_u16_prefixed version (fun version bytes_left => DpConfig_decode version bytes_left)).
Proof. apply (prefixed_codec _ _ version DpConfig_decode (fun x _ => DpConfig_encode x)); [apply _|done]. Qed.

#[global] Instance VdafConfig_tail version :
  TailCodec VdafConfig_wf (VdafConfig_encode version) (VdafConfig_decode version).
Proof.
  split.
  - intros [dp var] [Hdp Hvar]. cbn [VdafConfig_dp_config VdafConfig_var] in *.
    destruct (@codec_is_complete _ _ _ _ (DpConfig_prefixed version) dp Hdp) as (b1 & W1 & D1).
    destruct (@tail_complete _ _ _ _ (VdafTypeVar_tail version) var Hvar) as (b2 & W2 & D2).
    exists (b1 ++ b2). split.
    + unfold_writes. cbn. eapply appends_bind; [done|done].
    + intros pre Hmax. unfold VdafConfig_decode. rewrite D1 by done.
      cbn [mbind res_bind position]. rewrite u64_sub_fits by lia. cbn [mbind res_bind option_sub].
      rewrite u64_sub_fits by (rewrite len_app; unfold len; lia). cbn [mbind res_bind].
      assert (len (b1 ++ b2) - (N.of_nat (length pre + length b1) - N.of_nat (length pre))
        = len b2) as -> by (rewrite len_app; unfold len; lia).
      rewrite <-length_app, app_assoc in *. rewrite D2 by done. simpl.
      by rewrite !length_app, Nat.add_assoc.
  - intros c x c' H. unfold VdafConfig_decode in H.
    apply bind_Ok in H as ([dp c1] & H1 & H).
    apply (@codec_is_sound _ _ _ _ (DpConfig_prefixed version)) in H1 as (Hdp & b1 & C1 & W1).
    pose proof (consumed_remaining _ _ _ C1) as Hrem. destruct C1 as [Ht ->].
    cbn [position advance] in H. rewrite u64_sub_fits in H by lia. cbn [mbind res_bind] in H.
    unfold option_sub in H.
    rewrite u64_sub_fits in H by (rewrite Hrem, len_app; unfold len; lia).
    cbn [mbind res_bind] in H.
    replace (len (remaining c) - (N.of_nat (position c + length b1) - N.of_nat (position c)))
      with (len (remaining (advance c (length b1)))) in H
      by (rewrite Hrem, len_app; unfold len; lia).
    apply bind_Ok in H as ([var c2] & H2 & [= <- <-]).
    apply (@tail_sound _ _ _ _ (VdafTypeVar_tail version)) in H2 as (Hvar & b2 & C2 & W2).
    split; [done|]. exists (b1 ++ b2). split.
    + eapply consumed_trans; [by split|done].
    + unfold_writes. cbn. eapply appends_bind; [done|done].
Qed.

#[global] Instance QueryConfig_prefixed version :
  CodecOk (fun x => QueryConfig_wf x /\ fits_u16 (QueryConfig_encode version) x)
    (fun x bytes => encode_u16_prefixed version
       (fun version inner => QueryConfig_encode version x inner) bytes)
    (decode_u16_prefixed version
       (fun version bytes_left => QueryConfig_decode version bytes_left)).
Proof.
  apply (prefixed_codec _ _ version QueryConfig_decode (fun x v => QueryConfig_encode v x));
    [apply _|done].
Qed.

#[global] Instance VdafConfig_prefixed version :
  CodecOk (fun x => VdafConfig_wf x /\ fits_u16 (VdafConfig_encode version) x)
    (fun x bytes => encode_u16_prefixed version
       (fun version inner => VdafConfig_encode version x inner) bytes)
    (decode_u16_prefixed version
       (fun version bytes_left => VdafConfig_decode version bytes_left)).
Proof.
  apply (prefixed_codec _ _ version VdafConfig_decode (fun x v => VdafConfig_encode v x));
    [apply _|done].
Qed.

#[global] Instance TaskConfig_codec version :
  CodecOk (TaskConfig_wf version) (TaskConfig_encode version) (TaskConfig_decode version).
Proof.
  split.
  - intros [info leader helper query expiry vdaf] (H1 & H2 & H3 & H4 & H5 & H6).
    cbn [TaskConfig_task_info TaskConfig_leader_url TaskConfig_helper_url
         TaskConfig_query_config TaskConfig_task_expiration TaskConfig_vdaf_config] in *.
    unfold writes, TaskConfig_encode, TaskConfig_decode.
    do 3 (eapply complete_bind; [apply _|eassumption|]).
    cbn. refine (complete_bind _ _ _ query _ _ _ (QueryConfig_prefixed version) H4 _).
    eapply complete_bind; [apply _|eassumption|].
    refine (complete_last _ _ _ vdaf _ _ (VdafConfig_prefixed version) H6 _). reflexivity.
  - intros c x c' H. unfold TaskConfig_decode in H. sound_fields H.
    split; [|close_sound]. unfold TaskConfig_wf. cbn in *. by destruct_and?; split_and!.
Qed.
End Codecs.

(** ** Properties *)
Section Properties.
Context `{BP : BuildProfile} `{PC : PrioCodec} {L : PrioCodecLaws PC}.

(** Every task configuration whose items fit their length prefixes survives
    encoding and decoding, and bytes that decode to a task configuration are its
    only encoding; the task ID, a hash of these bytes, therefore determines the
    configuration up to hash collisions. *)
Theorem TaskConfig_one_encoding version :
  round_trips (TaskConfig_wf version) (TaskConfig_encode version) (TaskConfig_decode version) /\
  canonical (TaskConfig_wf version) (TaskConfig_encode version) (TaskConfig_decode version).
Proof. split; [apply codec_round_trips|apply codec_canonical]; apply _. Qed.

(** The subtractions [bytes_left - 1], [bytes_left - 4] and [bytes_left - 15] of
    the decoders of unknown variants cannot underflow, and the decoders do not
    panic, when they are told the number of bytes left in their item, as
    [decode_u16_prefixed] tells them. *)
Theorem unknown_variants_no_underflow version c :
  len (remaining c) <= slice_max ->
  DpConfig_decode version (Some (len (remaining c))) c <> Panic /\
  VdafTypeVar_decode version (Some (len (remaining c))) c <> Panic /\
  QueryConfig_decode version (Some (len (remaining c))) c <> Panic.
Proof.
  intros Hmax. split_and!.
  - apply reader_bind_no_panic; [apply no_panic|]. intros t c1 H1.
    apply int_decode_remaining in H1. simpl in H1. case_match; [done|].
    apply read_rest_no_panic; lia.
  - apply reader_bind_no_panic; [apply no_panic|]. intros t c1 H1.
    apply int_decode_remaining in H1. simpl in H1.
    repeat case_match; try apply no_panic. apply read_rest_no_panic; lia.
  - apply reader_bind_no_panic; [apply no_panic|]. intros tp c1 H1.
    apply reader_bind_no_panic; [apply no_panic|]. intros qc c2 H2.
    apply reader_bind_no_panic; [apply no_panic|]. intros mb c3 H3.
    apply reader_bind_no_panic; [apply no_panic|]. intros t c4 H4.
    apply int_decode_remaining in H1, H2, H3, H4. simpl in *.
    apply reader_bind_no_panic; [|done].
    repeat case_match; try apply no_panic. apply read_rest_no_panic; lia.
Qed.
End Properties.
