(* ===== verification/Errors.v ===== *)
(** * Errors, aborts and media types

    [src/crates/daphne/src/error/mod.rs], [error/aborts.rs] and [constants.rs]: the
    errors of the protocol and the problem documents they are reported as, the
    senders of requests and the media types of requests and responses. *)

From Stdlib Require Import Ascii.
From S2P Require Import Prelude Codec Messages.

(** ** Formatted messages

    A [format!] is kept as its format string and its arguments; the [Display] and
    [Debug] texts of third-party values are not part of the model. *)
Inductive arg : Type :=
| ArgStr (s : string)
| ArgNum (n : N)
| ArgBytes (b : list byte)
| ArgCodecError (e : CodecError)
| ArgVersion (v : DapVersion)
| ArgFailure (f : TransitionFailure)
| ArgOpaque.

Inductive detail : Type :=
| Text (s : string)
| Fmt (fmt : string) (args : list arg).

(** ** Senders and media types *)
Inductive DapSender : Type :=
| Sender_Client | Sender_Collector | Sender_Helper | Sender_Leader.

Inductive DapMediaType : Type :=
| MT_AggregationJobInitReq | MT_AggregationJobResp | MT_AggregateShareReq
| MT_AggregateShare | MT_CollectReq | MT_Collection | MT_HpkeConfigList | MT_Report.

#[global] Instance DapSender_eq_dec : EqDecision DapSender.
Proof. solve_decision. Defined.
#[global] Instance DapMediaType_eq_dec : EqDecision DapMediaType.
Proof. solve_decision. Defined.

Definition MEDIA_TYPE_AGG_JOB_INIT_REQ : string := "application/dap-aggregation-job-init-req".
Definition MEDIA_TYPE_AGG_JOB_RESP : string := "application/dap-aggregation-job-resp".
Definition MEDIA_TYPE_AGG_SHARE_REQ : string := "application/dap-aggregate-share-req".
Definition MEDIA_TYPE_AGG_SHARE : string := "application/dap-aggregate-share".
Definition MEDIA_TYPE_COLLECTION : string := "application/dap-collection".
Definition MEDIA_TYPE_COLLECT_REQ : string := "application/dap-collect-req".
Definition MEDIA_TYPE_HPKE_CONFIG_LIST : string := "application/dap-hpke-config-list".
Definition MEDIA_TYPE_REPORT : string := "application/dap-report".

Definition DapMediaType_sender (m : DapMediaType) : DapSender :=
  match m with
  | MT_AggregationJobInitReq | MT_AggregateShareReq | MT_Collection
  | MT_HpkeConfigList => Sender_Leader
  | MT_AggregationJobResp | MT_AggregateShare => Sender_Helper
  | MT_Report => Sender_Client
  | MT_CollectReq => Sender_Collector
  end.

(** [s.split_once(';').unwrap_or((s, ..)).0] *)
Fixpoint before_semicolon (s : string) : string :=
  match s with
  | EmptyString => EmptyString
  | String a s => if Ascii.eqb a ";"%char then EmptyString
                  else String a (before_semicolon s)
  end.

Definition from_str_for_version (version : DapVersion) (content_type : string) :
    option DapMediaType :=
  let content_type := before_semicolon content_type in
  if String.eqb content_type MEDIA_TYPE_AGG_JOB_INIT_REQ then Some MT_AggregationJobInitReq
  else if String.eqb content_type MEDIA_TYPE_AGG_JOB_RESP then Some MT_AggregationJobResp
  else if String.eqb content_type MEDIA_TYPE_AGG_SHARE then Some MT_AggregateShare
  else if String.eqb content_type MEDIA_TYPE_COLLECTION then Some MT_Collection
  else if String.eqb content_type MEDIA_TYPE_HPKE_CONFIG_LIST then Some MT_HpkeConfigList
  else if String.eqb content_type MEDIA_TYPE_AGG_SHARE_REQ then Some MT_AggregateShareReq
  else if String.eqb content_type MEDIA_TYPE_COLLECT_REQ then Some MT_CollectReq
  else if String.eqb content_type MEDIA_TYPE_REPORT then Some MT_Report
  else None.

Definition as_str_for_version (m : DapMediaType) (version : DapVersion) : option string :=
  match m with
  | MT_AggregationJobInitReq => Some MEDIA_TYPE_AGG_JOB_INIT_REQ
  | MT_AggregationJobResp => Some MEDIA_TYPE_AGG_JOB_RESP
  | MT_AggregateShareReq => Some MEDIA_TYPE_AGG_SHARE_REQ
  | MT_AggregateShare => Some MEDIA_TYPE_AGG_SHARE
  | MT_CollectReq => Some MEDIA_TYPE_COLLECT_REQ
  | MT_Collection => Some MEDIA_TYPE_COLLECTION
  | MT_HpkeConfigList => Some MEDIA_TYPE_HPKE_CONFIG_LIST
  | MT_Report => Some MEDIA_TYPE_REPORT
  end.

(** ** Aborts *)
Inductive DapAbort : Type :=
| BadRequest (d : detail)
| BatchInvalid (d : detail) (task_id : TaskId)
| BatchMismatch (d : detail) (task_id : TaskId)
| BatchOverlap (d : detail) (task_id : TaskId)
| InvalidBatchSize (d : detail) (task_id : TaskId)
| InvalidTask (d : detail) (task_id : TaskId)
| MissingTaskId
| QueryMismatch (d : detail) (task_id : TaskId)
| ReportRejected (d : detail)
| ReportTooLate (report_id : ReportId)
| RoundMismatch (d : detail) (task_id : TaskId) (agg_job_id : AggregationJobId)
| UnauthorizedRequest (d : detail) (task_id : TaskId)
| UnrecognizedAggregationJob (task_id : TaskId) (agg_job_id : AggregationJobId)
| Abort_InvalidMessage (d : detail) (task_id : TaskId)
| UnrecognizedTask (task_id : TaskId).

Inductive DapError : Type :=
| Fatal (d : detail)
| Abort_ (a : DapAbort)
| Transition_ (f : TransitionFailure).

Record ProblemDetails : Type := MkProblemDetails {
  ProblemDetails_title : string;
  ProblemDetails_typ : option string;
  ProblemDetails_task_id : option TaskId;
  ProblemDetails_agg_job_id : option AggregationJobId;
  ProblemDetails_instance : detail;
  ProblemDetails_detail : option detail;
}.

(** The [#[error("...")]] texts of the variants. *)
Definition DapAbort_to_string (a : DapAbort) : string :=
  match a with
  | BadRequest _ => "bad request"
  | BatchInvalid _ _ => "batchInvalid"
  | BatchMismatch _ _ => "batchMismatch"
  | BatchOverlap _ _ => "batchOverlap"
  | InvalidBatchSize _ _ => "invalidBatchSize"
  | InvalidTask _ _ => "invalidTask"
  | MissingTaskId => "missingTaskID"
  | QueryMismatch _ _ => "queryMismatch"
  | ReportRejected _ => "reportRejected"
  | ReportTooLate _ => "reportTooLate"
  | RoundMismatch _ _ _ => "roundMismatch"
  | UnauthorizedRequest _ _ => "unauthorizedRequest"
  | UnrecognizedAggregationJob _ _ => "unrecognizedAggregationJob"
  | Abort_InvalidMessage _ _ => "invalidMessage"
  | UnrecognizedTask _ => "unrecognizedTask"
  end.

Definition title_and_type (a : DapAbort) : string * option string :=
  let '(title, dap_abort_type) :=
    match a with
    | BatchInvalid _ _ => ("Batch boundary check failed", Some (DapAbort_to_string a))
    | BatchMismatch _ _ =>
        ("Aggregators disagree on the set of reports in the batch",
         Some (DapAbort_to_string a))
    | BatchOverlap _ _ =>
        ("The selected batch overlaps with a previous batch", Some (DapAbort_to_string a))
    | InvalidBatchSize _ _ => ("Batch size is invalid", Some (DapAbort_to_string a))
    | InvalidTask _ _ => ("Opted out of Taskprov task", Some (DapAbort_to_string a))
    | QueryMismatch _ _ =>
        ("Query type does not match the task", Some (DapAbort_to_string a))
    | RoundMismatch _ _ _ =>
        ("Aggregation round indicated by peer does not match host",
         Some (DapAbort_to_string a))
    | MissingTaskId =>
        ("Request for HPKE configuration with unspecified task",
         Some (DapAbort_to_string a))
    | ReportRejected _ => ("Report rejected", Some (DapAbort_to_string a))
    | ReportTooLate _ =>
        ("The requested task expires after report timestamp", Some (DapAbort_to_string a))
    | UnauthorizedRequest _ _ =>
        ("Request authorization failed", Some (DapAbort_to_string a))
    | UnrecognizedAggregationJob _ _ =>
        ("Unrecognized aggregation job", Some (DapAbort_to_string a))
    | Abort_InvalidMessage _ _ =>
        ("Malformed or invalid message", Some (DapAbort_to_string a))
    | UnrecognizedTask _ =>
        ("Task indicated by request is not recognized", Some (DapAbort_to_string a))
    | BadRequest _ => ("Bad request", None)
    end%string in
  (title, (fun t => String.append "urn:ietf:params:ppm:dap:error:" t) <$> dap_abort_type).

Definition DapAbort_into_problem_details (a : DapAbort) : ProblemDetails :=
  let '(title, typ) := title_and_type a in
  let to_instance params args :=
    Fmt (String.append "/problem-details/{}?" params)
      (ArgStr (default "badrequest"%string typ) :: args) in
  let '(task_id, d, agg_job_id, instance) :=
    match a with
    | BatchInvalid d task_id | InvalidTask d task_id | BatchMismatch d task_id
    | BatchOverlap d task_id | InvalidBatchSize d task_id | QueryMismatch d task_id
    | UnauthorizedRequest d task_id | Abort_InvalidMessage d task_id =>
        (Some task_id, Some d, None, to_instance "task_id={task_id}"%string [ArgBytes task_id])
    | MissingTaskId =>
        (None,
         Some (Text "A task ID must be specified in the query parameter of the request."),
         None, to_instance "task_id=none"%string [])
    | BadRequest d | ReportRejected d =>
        (None, Some d, None, to_instance "report_id=not-implemented"%string [])
    | RoundMismatch d task_id agg_job_id =>
        (Some task_id, Some d, Some agg_job_id,
         to_instance "task_id={task_id}&agg_job_id={agg_job_id}"%string
           [ArgBytes task_id; ArgBytes agg_job_id])
    | UnrecognizedAggregationJob task_id agg_job_id =>
        (Some task_id,
         Some (Text "The request indicates an aggregation job that does not exist."),
         Some agg_job_id, to_instance "agg_job_id={agg_job_id}"%string [ArgBytes agg_job_id])
    | ReportTooLate report_id =>
        (None, Some (Text "one of the reports' timestamp was too late"), None,
         to_instance "report_id={report_id}"%string [ArgBytes report_id])
    | UnrecognizedTask task_id =>
        (Some task_id, None, None, to_instance "task_id={task_id}"%string [ArgBytes task_id])
    end in
  MkProblemDetails title typ task_id agg_job_id instance d.

Definition DapError_into_problem_details (e : DapError) : ProblemDetails :=
  match e with
  | Abort_ a => DapAbort_into_problem_details a
  | _ =>
      MkProblemDetails "Internal server error" None None None
        (Text "/problem-details/internal-server-error") None
  end.

(** [fatal_error!(err = ?e, msg)]: the error carries the text of [e], an error of a
    dependency; [msg] goes to the log. *)
Definition fatal_logged (msg : string) : DapError := Fatal (Fmt "{error}" [ArgOpaque]).

(** [DapError::encoding] *)
Definition DapError_encoding (e : CodecError) : DapError :=
  Fatal (Fmt "encountered fatal error during encoding: {e}" [ArgCodecError e]).

(** The constructors of aborts. *)
Definition from_codec_error (e : CodecError) (task_id : TaskId) : DapAbort :=
  Abort_InvalidMessage (Fmt "codec error: {e}" [ArgCodecError e]) task_id.

Definition version_mismatch (indicated expected : DapVersion) : DapAbort :=
  BadRequest (Fmt "DAP version of request does not match task: got {indicated:?}; want {expected:?}"
    [ArgVersion indicated; ArgVersion expected]).

Definition version_unknown : DapAbort :=
  BadRequest (Text "DAP version of request is not recognized").

Definition batch_overlap (task_id : TaskId) (batch_sel : arg) : DapAbort :=
  BatchOverlap (Fmt "The batch indicated by the request: {batch_sel}" [batch_sel]) task_id.

Definition query_mismatch (task_id : TaskId) (query_type_for_task query_type_for_request : arg) :
    DapAbort :=
  QueryMismatch
    (Fmt "The task's query type is {query_type_for_task}, but the request indicates {query_type_for_request}."
       [query_type_for_task; query_type_for_request]) task_id.

(** The error side is the text of a [FatalDapError]. *)
Definition report_rejected (failure_reason : TransitionFailure) : res DapError DapAbort :=
  match failure_reason with
  | BatchCollected =>
      Ok (ReportRejected (Text "The report pertains to a batch that has already been collected."))
  | ReportReplayed =>
      Ok (ReportRejected (Text "A report with the same ID was uploaded previously."))
  | _ =>
      Err (Fatal (Text
        "Attempted to construct a reportRejected abort with unexpected transition failure"))
  end.

(** ** Versions *)
Definition DapVersion_from_str (version : string) : res DapAbort DapVersion :=
  if String.eqb version "v09" then Ok Draft09
  else if String.eqb version "v10" then Ok Latest
  else Err version_unknown.

Definition DapVersion_as_ref (v : DapVersion) : string :=
  match v with Draft09 => "v09" | Latest => "v10" end.

(** ** Properties *)

(** The media type of a request or response is read back from the
    content-type header it is written to, with or without parameters behind a
    semicolon, in every version; and distinct media types have distinct headers. *)
Theorem media_type_round_trip m version params :
  exists s, as_str_for_version m version = Some s /\
    from_str_for_version version s = Some m /\
    from_str_for_version version (String.append s (String ";" params)) = Some m.
Proof. destruct m; eexists; split_and!; reflexivity. Qed.

Lemma version_from_as_ref v : DapVersion_from_str (DapVersion_as_ref v) = Ok v.
Proof. by destruct v. Qed.

(** The problem document of an abort names the task and the aggregation job the
    abort is about, has no type exactly for [BadRequest], and errors that are not
    aborts disclose nothing but an internal server error. *)
Theorem problem_details_spec e :
  let p := DapError_into_problem_details e in
  match e with
  | Abort_ a =>
      (ProblemDetails_typ p = None <-> exists d, a = BadRequest d) /\
      (forall t, ProblemDetails_typ p = Some t ->
         t = String.append "urn:ietf:params:ppm:dap:error:" (DapAbort_to_string a)) /\
      ProblemDetails_task_id p =
        match a with
        | BatchInvalid _ t | BatchMismatch _ t | BatchOverlap _ t | InvalidBatchSize _ t
        | InvalidTask _ t | QueryMismatch _ t | RoundMismatch _ t _
        | UnauthorizedRequest _ t | UnrecognizedAggregationJob t _
        | Abort_InvalidMessage _ t | UnrecognizedTask t => Some t
        | _ => None
        end /\
      ProblemDetails_agg_job_id p =
        match a with
        | RoundMismatch _ _ j | UnrecognizedAggregationJob _ j => Some j
        | _ => None
        end
  | Fatal _ | Transition_ _ =>
      ProblemDetails_title p = "Internal server error"%string /\
      ProblemDetails_typ p = None /\ ProblemDetails_task_id p = None /\
      ProblemDetails_agg_job_id p = None /\ ProblemDetails_detail p = None
  end.
Proof. destruct e as [d|a|f]; [done| |done]. destruct a; simpl; naive_solver. Qed.
