(* ===== verification/Config.v ===== *)
(** * Task configuration, queries and buckets

    [src/crates/daphne/src/lib.rs] (configuration, buckets, requests) with the VDAF
    configurations of [vdaf/mod.rs] and [vdaf/pine.rs]: which bucket of the
    aggregate span a report belongs to, which buckets a batch selector covers, and
    the bounds of batch sizes.  The [experimental] feature, off by default, is not
    modelled. *)

From S2P Require Import Prelude Codec Messages TaskprovMessages Errors.

(** ** VDAF configurations *)
Inductive Prio3Config : Type :=
| Prio3_Count
| Prio3_Sum (bits : N)
| Prio3_Histogram (length chunk_length : N)
| Prio3_SumVec (bits length chunk_length : N)
| Prio3_SumVecField64MultiproofHmacSha256Aes128 (bits length chunk_length num_proofs : N).

Inductive PineConfig : Type :=
| Pine_Field32HmacSha256Aes128 (param : PineParam)
| Pine_Field64HmacSha256Aes128 (param : PineParam).

Module Vdaf.
Inductive VdafConfig : Type :=
| Prio3 (c : Prio3Config)
| Prio2 (dimension : N)
| Pine (c : PineConfig).
End Vdaf.

Inductive VdafVerifyKey : Type :=
| L16 (key : list byte)
| L32 (key : list byte).

(** ** Queries and buckets *)
Inductive DapQueryConfig : Type :=
| QC_TimeInterval
| QC_FixedSize (max_batch_size : option N).

Inductive DapBatchBucket : Type :=
| Bucket_FixedSize (batch_id : BatchId) (shard : N)
| Bucket_TimeInterval (batch_window : Time) (shard : N).

#[global] Instance DapBatchBucket_eq_dec : EqDecision DapBatchBucket.
Proof. solve_decision. Defined.
#[global] Instance DapBatchBucket_countable : Countable DapBatchBucket.
Proof.
  apply (inj_countable'
    (fun b => match b with
              | Bucket_FixedSize b s => inl (b, s)
              | Bucket_TimeInterval w s => inr (w, s)
              end)
    (fun x => match x with
              | inl (b, s) => Bucket_FixedSize b s
              | inr (w, s) => Bucket_TimeInterval w s
              end)).
  by intros [].
Defined.

(** A [Url] is held as its serialization. *)
Definition Url : Type := string.

Inductive DapTaskConfigMethod : Type :=
| Method_Taskprov (info : option (list byte))
| Method_Unknown.

Record DapTaskConfig : Type := MkDapTaskConfig {
  DapTaskConfig_version : DapVersion;
  DapTaskConfig_leader_url : Url;
  DapTaskConfig_helper_url : Url;
  DapTaskConfig_time_precision : Duration;
  DapTaskConfig_min_batch_size : N;
  DapTaskConfig_query : DapQueryConfig;
  DapTaskConfig_vdaf : Vdaf.VdafConfig;
  DapTaskConfig_not_before : Time;
  DapTaskConfig_not_after : Time;
  DapTaskConfig_vdaf_verify_key : VdafVerifyKey;
  DapTaskConfig_collector_hpke_config : HpkeConfig;
  DapTaskConfig_method : DapTaskConfigMethod;
  DapTaskConfig_num_agg_span_shards : N;
}.

Record DapGlobalConfig : Type := MkDapGlobalConfig {
  DapGlobalConfig_max_batch_duration : Duration;
  DapGlobalConfig_min_batch_interval_start : Duration;
  DapGlobalConfig_max_batch_interval_end : Duration;
  DapGlobalConfig_supported_hpke_kems : list HpkeKemId;
  DapGlobalConfig_allow_taskprov : bool;
  DapGlobalConfig_default_num_agg_span_shards : N;
}.

(** ** Requests and responses *)
Inductive DapResource : Type :=
| AggregationJob (id : AggregationJobId)
| CollectionJob (id : CollectionJobId)
| Undefined.

Record DapRequest (S : Type) : Type := MkDapRequest {
  DapRequest_version : DapVersion;
  DapRequest_media_type : option DapMediaType;
  DapRequest_task_id : option TaskId;
  DapRequest_resource : DapResource;
  DapRequest_payload : list byte;
  DapRequest_sender_auth : option S;
  DapRequest_taskprov : option string;
}.
Arguments MkDapRequest {S}.
Arguments DapRequest_version {S}.
Arguments DapRequest_media_type {S}.
Arguments DapRequest_task_id {S}.
Arguments DapRequest_resource {S}.
Arguments DapRequest_payload {S}.
Arguments DapRequest_sender_auth {S}.
Arguments DapRequest_taskprov {S}.

Record DapResponse : Type := MkDapResponse {
  DapResponse_version : DapVersion;
  DapResponse_media_type : DapMediaType;
  DapResponse_payload : list byte;
}.

Definition get_task_id {S} (req : DapRequest S) : res DapAbort TaskId :=
  match DapRequest_task_id req with
  | Some id => Ok id
  | None => Err (BadRequest (Text "missing or malformed task ID"))
  end.

Definition get_collection_job_id {S} (req : DapRequest S) : res DapAbort CollectionJobId :=
  match DapRequest_resource req with
  | CollectionJob id => Ok id
  | _ => Err (BadRequest (Text "missing or malformed collection job ID"))
  end.

Definition DapRequest_sender {S} (req : DapRequest S) : option DapSender :=
  DapMediaType_sender <$> DapRequest_media_type req.

(** [DapAbort::content_type]; the media types of the program are used in every
    version, so the [unreachable!]s are panics that cannot happen. *)
Definition content_type {S E} (req : DapRequest S) (expected : DapMediaType) : res E DapAbort :=
  want ← unwrap (as_str_for_version expected (DapRequest_version req));
  match DapRequest_media_type req with
  | None => Ok (BadRequest (Text "missing content-type"))
  | Some media_type =>
      got ← unwrap (as_str_for_version media_type (DapRequest_version req));
      Ok (BadRequest (Fmt "unexpected content-type: got {got_content_type}; want {want_content_type}"
            [ArgStr got; ArgStr want]))
  end.

(** ** Queries *)
Definition is_valid_part_batch_sel (q : DapQueryConfig) (s : PartialBatchSelector) : bool :=
  match q, s with
  | QC_TimeInterval, PBS_TimeInterval
  | QC_FixedSize _, PBS_FixedSizeByBatchId _ => true
  | _, _ => false
  end.

Definition is_valid_batch_sel (q : DapQueryConfig) (s : BatchSelector) : bool :=
  match q, s with
  | QC_TimeInterval, BS_TimeInterval _
  | QC_FixedSize _, BS_FixedSizeByBatchId _ => true
  | _, _ => false
  end.

Definition DapQueryConfig_to_string (q : DapQueryConfig) : string :=
  match q with
  | QC_TimeInterval => "time_interval"
  | QC_FixedSize _ => "fixed_size"
  end.

Definition bucket_shard (b : DapBatchBucket) : N :=
  match b with
  | Bucket_TimeInterval _ shard | Bucket_FixedSize _ shard => shard
  end.

(** [ring::digest]: SHA-256 of a byte string. *)
Class Digest : Type := sha256 : list byte -> list byte.

Class DigestLaws (D : Digest) : Prop := sha256_len bs : len (sha256 bs) = 32.

(** [ReportId::shard]: the first four bytes of the digest modulo the number of
    shards, which is not zero. *)
Definition ReportId_shard `{Digest} (id : ReportId) (num_shards : N) : N :=
  le_value (take 4 (sha256 id)) mod num_shards.

(** A [for i in start..start + n] loop with early exit. *)
Fixpoint for_range {E A} (n : nat) (start : N) (body : N -> A -> res E A) (a : A) : res E A :=
  match n with
  | O => Ok a
  | S n => a ← body start a; for_range n (start + 1) body a
  end.

Section Config.
Context `{BP : BuildProfile}.

Definition quantized_time_lower_bound {E} (c : DapTaskConfig) (time : Time) : res E Time :=
  r ← u64_rem time (DapTaskConfig_time_precision c);
  u64_sub time r.

Definition quantized_time_upper_bound {E} (c : DapTaskConfig) (time : Time) : res E Time :=
  l ← quantized_time_lower_bound c time;
  u64_add l (DapTaskConfig_time_precision c).

Definition query_for_current_batch_window {E} (c : DapTaskConfig) (now : Time) : res E Query :=
  start ← quantized_time_lower_bound c now;
  Ok (Query_TimeInterval (MkInterval start (DapTaskConfig_time_precision c))).

(** The bucket a report is added to: the [match] of [DapAggregateSpan::add_out_share]. *)
Definition bucket_for `{Digest} {E} (c : DapTaskConfig) (part_batch_sel : PartialBatchSelector)
    (report_id : ReportId) (time : Time) : res E DapBatchBucket :=
  let shard := ReportId_shard report_id (DapTaskConfig_num_agg_span_shards c) in
  match part_batch_sel with
  | PBS_TimeInterval =>
      batch_window ← quantized_time_lower_bound c time;
      Ok (Bucket_TimeInterval batch_window shard)
  | PBS_FixedSizeByBatchId batch_id => Ok (Bucket_FixedSize batch_id shard)
  end.

Definition batch_span_for_sel (c : DapTaskConfig) (batch_sel : BatchSelector) :
    res DapError (gset DapBatchBucket) :=
  if negb (is_valid_batch_sel (DapTaskConfig_query c) batch_sel) then
    Err (Fatal (Text "batch selector not compatible with task"))
  else
    let num_agg_span_shards := DapTaskConfig_num_agg_span_shards c in
    match batch_sel with
    | BS_TimeInterval (MkInterval start duration) =>
        windows ← u64_div duration (DapTaskConfig_time_precision c);
        _ ← u64_mul windows num_agg_span_shards;
        for_range (N.to_nat windows) 0 (fun i span =>
          for_range (N.to_nat num_agg_span_shards) 0 (fun shard span =>
            offset ← u64_mul i (DapTaskConfig_time_precision c);
            batch_window ← u64_add start offset;
            Ok (span ∪ {[Bucket_TimeInterval batch_window shard]})) span) ∅
    | BS_FixedSizeByBatchId batch_id =>
        for_range (N.to_nat num_agg_span_shards) 0 (fun shard span =>
          Ok (span ∪ {[Bucket_FixedSize batch_id shard]})) ∅
    end.

Definition is_report_count_compatible (c : DapTaskConfig) (task_id : TaskId)
    (report_count : N) : res DapAbort bool :=
  _ ← match DapTaskConfig_query c with
      | QC_FixedSize (Some max_batch_size) =>
          if max_batch_size <? report_count then
            Err (InvalidBatchSize
              (Fmt "Report count ({report_count}) exceeds maximum ({max_batch_size})"
                 [ArgNum report_count; ArgNum max_batch_size]) task_id)
          else Ok tt
      | QC_TimeInterval | QC_FixedSize None => Ok tt
      end;
  Ok (DapTaskConfig_min_batch_size c <=? report_count).

Definition method_is_taskprov (c : DapTaskConfig) : bool :=
  match DapTaskConfig_method c with
  | Method_Taskprov _ => true
  | Method_Unknown => false
  end.
End Config.

(** The configuration method of a stored task, where the flag that [method] replaced
    is still honoured: [TryFrom<ShadowDapTaskConfig>]. *)
Definition method_from_shadow (method : DapTaskConfigMethod) (deprecated_taskprov : bool) :
    DapTaskConfigMethod :=
  match method with
  | Method_Unknown => if deprecated_taskprov then Method_Taskprov None else Method_Unknown
  | method => method
  end.

(** ** Lemmas *)
Lemma for_range_invariant {E A} (P : N -> A -> Prop) (body : N -> A -> res E A) n start a :
  P start a ->
  (forall i a, start <= i < start + N.of_nat n -> P i a ->
     exists a', body i a = Ok a' /\ P (i + 1) a') ->
  exists a', for_range n start body a = Ok a' /\ P (start + N.of_nat n) a'.
Proof.
  revert start a. induction n as [|n IH]; intros start a H0 Hstep; simpl.
  - exists a. by rewrite N.add_0_r.
  - destruct (Hstep start a) as (a' & -> & H1); [lia|done|]. simpl.
    destruct (IH (start + 1) a') as (a'' & -> & H2); [done| |].
    + intros i b Hi Hb. apply Hstep; [lia|done].
    + exists a''. split; [done|].
      replace (start + N.of_nat (S n)) with (start + 1 + N.of_nat n) by lia. done.
Qed.

(** Configurations a program can hold and use. *)
Record DapTaskConfig_ok (c : DapTaskConfig) : Prop := {
  ok_time_precision : 0 < DapTaskConfig_time_precision c;
  ok_shards : 0 < DapTaskConfig_num_agg_span_shards c;
}.

Section Lemmas.
Context `{BP : BuildProfile}.

Lemma quantized_lower_eq {E} c time :
  0 < DapTaskConfig_time_precision c ->
  quantized_time_lower_bound (E:=E) c time
  = Ok (DapTaskConfig_time_precision c * (time / DapTaskConfig_time_precision c)).
Proof.
  intros Hp. unfold quantized_time_lower_bound, u64_rem.
  rewrite (proj2 (N.eqb_neq _ _)) by lia. cbn [mbind res_bind].
  rewrite u64_sub_fits by (apply N.Div0.mod_le). f_equal.
  set (p := DapTaskConfig_time_precision c) in *.
  rewrite (N.div_mod time p) at 1 by lia. apply N.add_sub.
Qed.

Lemma quantized_lower_bounds {E} c time :
  0 < DapTaskConfig_time_precision c ->
  exists l, quantized_time_lower_bound (E:=E) c time = Ok l /\
    l <= time < l + DapTaskConfig_time_precision c /\
    l mod DapTaskConfig_time_precision c = 0.
Proof.
  intros Hp. eexists. split; [by apply quantized_lower_eq|].
  set (p := DapTaskConfig_time_precision c) in *.
  assert (time = p * (time / p) + time mod p) as E1 by (apply N.div_mod; lia).
  assert (time mod p < p) as E2 by (apply N.mod_lt; lia).
  split; [|rewrite N.mul_comm; apply N.Div0.mod_mul].
  set (q := p * (time / p)) in *. set (r := time mod p) in *. clearbody q r. lia.
Qed.

Lemma ReportId_shard_lt `{Digest} id n : 0 < n -> ReportId_shard id n < n.
Proof. intros Hn. apply N.mod_lt. lia. Qed.

(** The loop over the shards of one window, and over the windows. *)
Lemma shard_loop (mk : N -> DapBatchBucket) n (body : N -> gset DapBatchBucket -> res DapError (gset DapBatchBucket)) span0 :
  (forall shard span, shard < n -> body shard span = Ok (span ∪ {[mk shard]})) ->
  exists span, for_range (N.to_nat n) 0 body span0 = Ok span /\
    forall b, b ∈ span <-> b ∈ span0 \/ exists shard, shard < n /\ b = mk shard.
Proof.
  intros Hbody.
  destruct (for_range_invariant
    (fun i span => forall b, b ∈ span <-> b ∈ span0 \/ exists shard, shard < i /\ b = mk shard)
    body (N.to_nat n) 0 span0) as (span & Hs & HP).
  - intros b. split; [by left|]. intros [?|(s & ? & ?)]; [done|lia].
  - intros i span Hi HP. exists (span ∪ {[mk i]}). split; [apply Hbody; lia|].
    intros b. rewrite elem_of_union, elem_of_singleton, HP. split.
    + intros [[?|(s & ? & ?)]| ->]; [by left|right; exists s; split; [lia|done]|].
      right. exists i. split; [lia|done].
    + intros [?|(s & Hs & ->)]; [by left; left|].
      destruct (N.eq_dec s i) as [->|]; [by right|]. left; right. exists s. split; [lia|done].
  - exists span. split; [done|]. by replace (0 + N.of_nat (N.to_nat n)) with n in HP by lia.
Qed.

Lemma window_loop c start windows :
  start + windows * DapTaskConfig_time_precision c <= u64_max ->
  exists span : gset DapBatchBucket,
    for_range (N.to_nat windows) 0 (fun i span =>
      for_range (N.to_nat (DapTaskConfig_num_agg_span_shards c)) 0 (fun shard span =>
        offset ← u64_mul i (DapTaskConfig_time_precision c);
        batch_window ← u64_add start offset;
        Ok (span ∪ {[Bucket_TimeInterval batch_window shard]})) span) ∅
    = Ok (E:=DapError) span /\
    forall b, b ∈ span <-> exists i shard, i < windows /\
      shard < DapTaskConfig_num_agg_span_shards c /\
      b = Bucket_TimeInterval (start + i * DapTaskConfig_time_precision c) shard.
Proof.
  intros Hmax. set (p := DapTaskConfig_time_precision c) in *.
  set (shards := DapTaskConfig_num_agg_span_shards c).
  edestruct (for_range_invariant (E:=DapError)
    (fun i (span : gset DapBatchBucket) => forall b, b ∈ span <-> exists j shard,
       j < i /\ shard < shards /\ b = Bucket_TimeInterval (start + j * p) shard))
    as (span & Hs & HP); [| |exists span; split; [exact Hs|]].
  - intros b. split; [by intros ?%not_elem_of_empty|]. intros (j & s & ? & _). lia.
  - intros i span Hi HP. rewrite N.add_0_l, N2Nat.id in Hi. destruct Hi as [_ Hi].
    assert (i * p <= windows * p) by (apply N.mul_le_mono_r; lia).
    destruct (shard_loop (fun s => Bucket_TimeInterval (start + i * p) s) shards
      (fun shard span =>
        offset ← u64_mul i p; batch_window ← u64_add start offset;
        Ok (span ∪ {[Bucket_TimeInterval batch_window shard]})) span) as (span' & Hs & HP').
    { intros s sp _. rewrite u64_mul_fits by lia. simpl. by rewrite u64_add_fits by lia. }
    exists span'. split; [exact Hs|]. intros b. rewrite HP', HP. split.
    + intros [(j & s & ? & ? & ->)|(s & ? & ->)]; [exists j, s|exists i, s];
        (split_and!; [lia|done|done]).
    + intros (j & s & Hj & Hsh & ->). destruct (N.eq_dec j i) as [->|]; [by right; exists s|].
      left. exists j, s. split_and!; [lia|done|done].
  - by rewrite N.add_0_l, N2Nat.id in HP.
Qed.

(** A window of the interval starts where some time of the interval is truncated to. *)
Lemma window_of_time p start duration t :
  0 < p -> start mod p = 0 -> duration mod p = 0 ->
  start <= t < start + duration <->
  exists i, i < duration / p /\ p * (t / p) = start + i * p.
Proof.
  intros Hp Hs Hd.
  apply N.Div0.mod_divides in Hs as [s ->]. apply N.Div0.mod_divides in Hd as [d ->].
  rewrite (N.mul_comm p d), N.div_mul by lia.
  assert (t = p * (t / p) + t mod p) as Et by (apply N.div_mod; lia).
  assert (t mod p < p) as Hm by (apply N.mod_lt; lia).
  set (q := t / p) in *. set (r := t mod p) in *. clearbody q r. subst t. split.
  - intros [H1 H2]. assert (s <= q) as Hsq by nia. assert (q < s + d) by nia.
    apply N.le_exists_sub in Hsq as (k & -> & _). exists k. split; [lia|]. nia.
  - intros (i & Hi & E). assert (q = s + i) as -> by nia. nia.
Qed.
End Lemmas.

(** ** Properties *)

(** What it means for a report with the given partial batch selector and time to be
    in the batch of a batch selector. *)
Definition report_matches (batch_sel : BatchSelector) (part : PartialBatchSelector)
    (time : Time) : Prop :=
  match batch_sel, part with
  | BS_TimeInterval i, PBS_TimeInterval =>
      Interval_start i <= time < Interval_start i + Interval_duration i
  | BS_FixedSizeByBatchId b, PBS_FixedSizeByBatchId b' => b = b'
  | _, _ => False
  end.

(** The batch selectors [check_batch] lets through: those of the task's query type, and
    among the intervals those on the boundaries of the time precision. *)
Definition batch_sel_ok (c : DapTaskConfig) (batch_sel : BatchSelector) : Prop :=
  is_valid_batch_sel (DapTaskConfig_query c) batch_sel = true /\
  match batch_sel with
  | BS_TimeInterval i =>
      Interval_start i mod DapTaskConfig_time_precision c = 0 /\
      Interval_duration i mod DapTaskConfig_time_precision c = 0 /\
      Interval_start i + Interval_duration i <= u64_max /\
      Interval_duration i / DapTaskConfig_time_precision c
        * DapTaskConfig_num_agg_span_shards c <= u64_max
  | BS_FixedSizeByBatchId _ => True
  end.

Section Properties.
Context `{BP : BuildProfile}.

(** The time quantization of a task returns, whatever the build profile, the
    multiple of the time precision at or below the time, and the one above it when
    that fits 64 bits. *)
Theorem quantized_time_spec c time :
  0 < DapTaskConfig_time_precision c ->
  exists l, quantized_time_lower_bound (E:=DapError) c time = Ok l /\
    l <= time < l + DapTaskConfig_time_precision c /\
    l mod DapTaskConfig_time_precision c = 0 /\
    (l + DapTaskConfig_time_precision c <= u64_max ->
     quantized_time_upper_bound (E:=DapError) c time
     = Ok (l + DapTaskConfig_time_precision c)).
Proof.
  intros Hp. destruct (quantized_lower_bounds (E:=DapError) c time Hp) as (l & Hl & Hb & Hm).
  exists l. split_and!; [done|lia|lia|done|]. intros Hmax.
  unfold quantized_time_upper_bound. rewrite Hl. simpl. by apply u64_add_fits.
Qed.

(** With a time precision of zero every quantization panics, in every build
    profile: nothing between the task configuration and the division excludes it. *)
Theorem quantized_time_zero_precision c time :
  DapTaskConfig_time_precision c = 0 ->
  quantized_time_lower_bound (E:=DapError) c time = Panic /\
  quantized_time_upper_bound (E:=DapError) c time = Panic.
Proof.
  intros H0. unfold quantized_time_upper_bound, quantized_time_lower_bound, u64_rem.
  by rewrite H0.
Qed.

(** The span of an interval holds every shard of every window of the interval. *)
Lemma batch_span_windows c i :
  DapTaskConfig_ok c -> batch_sel_ok c (BS_TimeInterval i) ->
  exists span, batch_span_for_sel c (BS_TimeInterval i) = Ok span /\
    forall time shard, shard < DapTaskConfig_num_agg_span_shards c ->
      Bucket_TimeInterval (DapTaskConfig_time_precision c
        * (time / DapTaskConfig_time_precision c)) shard ∈ span <->
      Interval_start i <= time < Interval_start i + Interval_duration i.
Proof.
  intros [Hp Hsh] [Hv Hsel]. destruct i as [start duration].
  unfold batch_span_for_sel. rewrite Hv. simpl negb. cbn match.
  destruct Hsel as (Hs & Hd & Hmax & Hcap). simpl in *. unfold u64_div.
  rewrite (proj2 (N.eqb_neq _ _)) by lia. cbn [mbind res_bind].
  rewrite u64_mul_fits by done. cbn [mbind res_bind].
  destruct (window_loop c start (duration / DapTaskConfig_time_precision c))
    as (span & -> & HP).
  { pose proof (N.Div0.mul_div_le duration (DapTaskConfig_time_precision c)). lia. }
  exists span. split; [done|]. intros time shard Hshard.
  rewrite HP, (window_of_time (DapTaskConfig_time_precision c)) by done. split.
  - intros (i & s & Hi & _ & [= E _]). by exists i.
  - intros (i & Hi & E). rewrite E. by exists i, shard.
Qed.

Lemma batch_span_spec `{D : Digest} c batch_sel :
  DapTaskConfig_ok c -> batch_sel_ok c batch_sel ->
  exists span, batch_span_for_sel c batch_sel = Ok span /\
    forall part id time,
      is_valid_part_batch_sel (DapTaskConfig_query c) part = true ->
      exists b, bucket_for (E:=DapError) c part id time = Ok b /\
        (b ∈ span <-> report_matches batch_sel part time).
Proof.
  intros [Hp Hsh] [Hv Hsel]. unfold batch_span_for_sel. rewrite Hv. simpl negb. cbn match.
  destruct batch_sel as [[start duration]|batch_id].
  - destruct (batch_span_windows c (MkInterval start duration)) as (span & Hspan & HP);
      [by split|by split|].
    unfold batch_span_for_sel in Hspan. rewrite Hv in Hspan. simpl negb in Hspan. cbn match in Hspan.
    exists span. split; [exact Hspan|]. intros part id time Hpart.
    unfold is_valid_batch_sel in Hv. destruct (DapTaskConfig_query c); [|done].
    destruct part; [|done]. simpl.
    rewrite quantized_lower_eq by done. simpl. eexists. split; [done|].
    apply HP. by apply ReportId_shard_lt.
  - destruct (shard_loop (fun s => Bucket_FixedSize batch_id s)
      (DapTaskConfig_num_agg_span_shards c)
      (fun shard span => Ok (span ∪ {[Bucket_FixedSize batch_id shard]})) ∅)
      as (span & -> & HP); [done|].
    exists span. split; [done|]. intros part id time Hpart.
    destruct (DapTaskConfig_query c); [done|]. destruct part as [|b']; [done|]. simpl.
    eexists. split; [done|]. rewrite HP. split.
    + intros [?%not_elem_of_empty|(s & _ & [= -> _])]; done.
    + intros <-. right. eexists. split; [|done]. by apply ReportId_shard_lt.
Qed.

(** C17: the span of a batch selector is exact: it holds the bucket of a report if and
    only if the report is in the batch. *)
Theorem batch_span_exact `{D : Digest} c batch_sel :
  DapTaskConfig_ok c -> batch_sel_ok c batch_sel ->
  exists span, batch_span_for_sel c batch_sel = Ok span /\
    forall part id time,
      is_valid_part_batch_sel (DapTaskConfig_query c) part = true ->
      exists b, bucket_for (E:=DapError) c part id time = Ok b /\
        (b ∈ span <-> report_matches batch_sel part time).
Proof. apply batch_span_spec. Qed.

Lemma count_compatible_cases c task_id n :
  match is_report_count_compatible c task_id n with
  | Ok b => (forall m, DapTaskConfig_query c = QC_FixedSize (Some m) -> n <= m) /\
            (b = true <-> DapTaskConfig_min_batch_size c <= n)
  | Err _ => exists m, DapTaskConfig_query c = QC_FixedSize (Some m) /\ m < n
  | Panic => False
  end.
Proof.
  unfold is_report_count_compatible.
  destruct (DapTaskConfig_query c) as [|[m|]]; simpl;
    [split; [done|apply N.leb_le]| |split; [naive_solver|apply N.leb_le]].
  destruct (N.ltb_spec m n); simpl; [by exists m|].
  split; [intros m' [= <-]; done|apply N.leb_le].
Qed.

(** The report count of a batch is rejected exactly when the task has a maximum
    batch size and the count exceeds it; otherwise the answer is whether the
    minimum batch size is reached. *)
Theorem report_count_compatible_spec c task_id n :
  match is_report_count_compatible c task_id n with
  | Ok b => (forall m, DapTaskConfig_query c = QC_FixedSize (Some m) -> n <= m) /\
            (b = true <-> DapTaskConfig_min_batch_size c <= n)
  | Err _ => exists m, DapTaskConfig_query c = QC_FixedSize (Some m) /\ m < n
  | Panic => False
  end.
Proof. apply count_compatible_cases. Qed.
End Properties.
