(* ===== verification/Pine.v ===== *)
(** * The parameters of the PINE VDAF

    [Pine::new] of [src/crates/daphne/src/pine/mod.rs]: which parameters are
    accepted, and the lengths of the encoded measurement that the circuits of
    [pine/flp.rs] are instantiated with.  The fields are those of the [prio] crate:
    a record of the modulus and the largest value of the integer type.  The one
    floating-point computation is in IEEE binary64, as [SpecFloat] specifies it. *)

From Stdlib Require Import ZArith.
From Stdlib Require Import SpecFloat.
From S2P Require Import Prelude Codec Messages TaskprovMessages Errors.

(** ** [f64] *)
Definition f64 : Type := spec_float.
Definition f64_of_u64 (n : N) : f64 := binary_normalize 53 1024 (Z.of_N n) 0%Z false.
Definition f64_mul (x y : f64) : f64 := SFmul 53 1024 x y.

(** [x.ceil() as u64]: the cast saturates, and sends NaN to zero. *)
Definition f64_ceil_as_u64 (x : f64) : N :=
  match x with
  | S754_finite false m e =>
      let v := if (0 <=? e)%Z then Z.shiftl (Zpos m) e
               else (- ((- Zpos m) / 2 ^ (- e)))%Z in
      N.min u64_max (Z.to_N v)
  | S754_infinity false => u64_max
  | _ => 0
  end.

(** 8.7, rounded to binary64. *)
Definition ALPHA : f64 := S754_finite false 0x11666666666666 (-49)%Z.

(** ** Fields: [F::modulus()] and the maximum of [F::Integer] *)
Record Field : Type := MkField {
  Field_modulus : N;
  Field_integer_max : N;
}.

(** ** Data *)
Record PineType : Type := MkPineType {
  PineType_dimension : N;
  PineType_frac_bits : N;
  PineType_chunk_len : N;
  PineType_num_wr_tests : N;
  PineType_num_wr_successes : N;
  PineType_sq_norm_bound : N;
  PineType_sq_norm_bits : N;
  PineType_wr_test_bound : N;
  PineType_wr_test_bits : N;
  PineType_bit_checked_len : N;
  PineType_input_len : N;
  PineType_gadget_calls : N;
  PineType_algorithm_id : N;
}.

Record PineTypeSquaredNormEqual : Type := MkPineTypeSquaredNormEqual {
  PineTypeSNE_dimension : N;
  PineTypeSNE_chunk_len : N;
  PineTypeSNE_sq_norm_bits : N;
  PineTypeSNE_input_len : N;
  PineTypeSNE_gadget_calls : N;
}.

Record Pine : Type := MkPine {
  Pine_flp : PineType;
  Pine_flp_sq_norm_equal : PineTypeSquaredNormEqual;
  Pine_num_proofs : N;
  Pine_num_proofs_sq_norm_equal : N;
  Pine_encoded_gradient_and_sq_norm_len : N;
  Pine_encoded_input_len : N;
  Pine_algorithm_id : N;
}.

(** ** Operations *)
Definition bits (x : N) : N :=
  if x =? 0 then 1 else N.log2 x + 1.

(** [u64::next_power_of_two], which overflows above [2^63]. *)
Definition next_power_of_two `{BuildProfile} {E} (x : N) : res E N :=
  let p := if x <=? 1 then 1 else 2 ^ N.log2_up x in
  if p <=? u64_max then Ok p
  else if overflow_checks then Panic else Ok 0.

Section Params.
Context `{BP : BuildProfile}.

Definition chunk_count {E} (chunk_length length : N) : res E N :=
  s ← u64_add length chunk_length;
  s ← u64_sub s 1;
  u64_div s chunk_length.

(** [F::Integer::try_from(usize::try_from(x)?)], where [usize] has 64 bits. *)
Definition field_integer (F : Field) (x : N) (msg : string) : res detail N :=
  if x <=? Field_integer_max F then Ok x else Err (Fmt msg [ArgOpaque]).

Definition Pine_new (F : Field) (param : PineParam) (algorithm_id : N) : res detail Pine :=
  if PineParam_num_wr_tests param <? PineParam_num_wr_successes param then
    Err (Text "init failed: num_wr_successes is larger than num_wr_tests")
  else
  norm_bound_bad ←
    (if PineParam_norm_bound param =? 0 then Ok true
     else
       n ← field_integer F (PineParam_norm_bound param)
             "init failed: error while converting norm bound to field integer: {e}";
       Ok (N.shiftr (Field_modulus F) 1 <? n));
  if norm_bound_bad : bool then Err (Text "init failed: norm bound must be positive")
  else if PineParam_dimension param =? 0 then
    Err (Text "init failed: 0-dimension inputs are invalid")
  else if 128 <=? PineParam_frac_bits param then
    Err (Text "init failed: number of fractional bits must not exceed 128")
  else
  sq_norm_bound_int ←
    (let sq := PineParam_norm_bound param * PineParam_norm_bound param in
     if sq <=? u64_max then Ok sq
     else Err (Text "init failed: squared norm is too large for u64"));
  let sq_norm_bits := bits sq_norm_bound_int in
  sq_norm_bound ← field_integer F sq_norm_bound_int
    "init failed: failed to convert squared norm bound to field integer: {e}";
  if Field_modulus F <=? sq_norm_bound then
    Err (Text "init failed: squared norm bound is too large for field")
  else
  wr_test_bound_int ←
    (c ← u64_add (f64_ceil_as_u64 (f64_mul (f64_of_u64 (PineParam_norm_bound param)) ALPHA)) 1;
     next_power_of_two c);
  wr_test_bits ← (d ← u64_mul 2 wr_test_bound_int; d ← u64_sub d 1; Ok (bits d));
  wr_test_bound ← field_integer F wr_test_bound_int
    "init failed: failed to convert wraparound test bound to field integer: {e}";
  if Field_modulus F <=? wr_test_bound then
    Err (Text "init failed: wraparound test bound is too large for field")
  else
  sq2 ← u64_mul 2 sq_norm_bits;
  encoded_gradient_and_sq_norm_len ← u64_add (PineParam_dimension param) sq2;
  wr1 ← u64_add 1 wr_test_bits;
  wr ← u64_mul wr1 (PineParam_num_wr_tests param);
  encoded_input_len ← u64_add encoded_gradient_and_sq_norm_len wr;
  bit_checked_len ← u64_add sq2 wr;
  input_len ← u64_add encoded_input_len (PineParam_num_wr_tests param);
  c1 ← chunk_count (PineParam_chunk_len param) bit_checked_len;
  c2 ← chunk_count (PineParam_chunk_len param) (PineParam_num_wr_tests param);
  gadget_calls ← u64_add c1 c2;
  gadget_calls_sq_norm_equal ←
    chunk_count (PineParam_chunk_len_sq_norm_equal param) (PineParam_dimension param);
  Ok (MkPine
    (MkPineType (PineParam_dimension param) (PineParam_frac_bits param)
       (PineParam_chunk_len param) (PineParam_num_wr_tests param)
       (PineParam_num_wr_successes param) sq_norm_bound sq_norm_bits wr_test_bound
       wr_test_bits bit_checked_len input_len gadget_calls algorithm_id)
    (MkPineTypeSquaredNormEqual (PineParam_dimension param)
       (PineParam_chunk_len_sq_norm_equal param) sq_norm_bits input_len
       gadget_calls_sq_norm_equal)
    (PineParam_num_proofs param) (PineParam_num_proofs_sq_norm_equal param)
    encoded_gradient_and_sq_norm_len encoded_input_len algorithm_id).
End Params.

(** The domain separation tag of an XOF. *)
Definition dst (algorithm_id usage : N) : list byte :=
  Byte.x01 :: be_bytes 4 algorithm_id ++ be_bytes 2 usage.

(** ** Lemmas *)
Lemma guard_ok {E A} (b : bool) (e : E) (m : res E A) a :
  (if b then Err e else m) = Ok a -> b = false /\ m = Ok a.
Proof. by destruct b. Qed.

Lemma bits_le_64 x : x <= u64_max -> 1 <= bits x <= 64.
Proof.
  intros Hx. unfold bits. destruct (N.eqb_spec x 0) as [->|H0]; [lia|].
  assert (N.log2 x <= N.log2 u64_max) as Hl by (by apply N.log2_le_mono).
  change (N.log2 u64_max) with 63 in Hl. lia.
Qed.

Lemma bits_bound x : x < 2 ^ bits x.
Proof.
  unfold bits. destruct (N.eqb_spec x 0) as [->|H0]; [done|].
  rewrite N.add_1_r. apply N.log2_spec. lia.
Qed.

Lemma chunk_count_eq `{BuildProfile} {E} k n :
  0 < k -> n + k <= u64_max ->
  exists c, chunk_count (E:=E) k n = Ok c /\ n <= c * k < n + k.
Proof.
  intros Hk Hmax. unfold chunk_count. rewrite u64_add_fits by done. cbn [mbind res_bind].
  rewrite u64_sub_fits by lia. cbn [mbind res_bind]. unfold u64_div.
  rewrite (proj2 (N.eqb_neq _ _)) by lia. eexists. split; [done|].
  pose proof (N.div_mod (n + k - 1) k ltac:(lia)).
  pose proof (N.mod_lt (n + k - 1) k ltac:(lia)).
  generalize dependent ((n + k - 1) / k). generalize dependent ((n + k - 1) mod k).
  intros r Hr q Hq. nia.
Qed.

Lemma chunk_count_zero `{BuildProfile} {E} n : chunk_count (E:=E) 0 n = Panic.
Proof.
  unfold chunk_count, u64_add, u64_sub, u64_div.
  by repeat (case_match; simpl in * ).
Qed.

Section Lemmas.
Context `{BP : BuildProfile}.
Lemma field_integer_eq F x msg n : field_integer F x msg = Ok n -> n = x.
Proof. unfold field_integer. case_match; [by intros [= ->]|done]. Qed.

Lemma chunk_count_pos {E} k n c : chunk_count (E:=E) k n = Ok c -> 0 < k.
Proof.
  destruct (N.eq_dec k 0) as [->|]; [|lia]. by rewrite chunk_count_zero.
Qed.

Lemma chunk_count_bound {E} k n c :
  chunk_count (E:=E) k n = Ok c -> n + k <= u64_max -> n <= c * k /\ c * k < n + k.
Proof.
  intros H Hmax. pose proof (chunk_count_pos _ _ _ H).
  destruct (chunk_count_eq (E:=E) k n) as (c' & H' & B); [done|done|].
  rewrite H' in H. by injection H as <-.
Qed.

Lemma wr_bits_le_64 {E} w b :
  (d ← u64_mul 2 w; d ← u64_sub d 1; Ok (bits d)) = Ok (E:=E) b -> b <= 64.
Proof.
  intros H. inv_binds. subst.
  apply bits_le_64. eapply u64_sub_range; [|done]. by eapply u64_mul_range.
Qed.
End Lemmas.

Definition with_chunk_len (param : PineParam) (chunk_len : N) : PineParam :=
  MkPineParam (PineParam_norm_bound param) (PineParam_dimension param)
    (PineParam_frac_bits param) chunk_len (PineParam_chunk_len_sq_norm_equal param)
    (PineParam_num_proofs param) (PineParam_num_proofs_sq_norm_equal param)
    (PineParam_num_wr_tests param) (PineParam_num_wr_successes param).

(** The parameters [Pine::new] accepts in a field, but for the bound of the
    wraparound test. *)
Record PineParam_accepted (F : Field) (param : PineParam) : Prop := {
  accepted_wr : PineParam_num_wr_successes param <= PineParam_num_wr_tests param;
  accepted_norm : 0 < PineParam_norm_bound param <= Field_modulus F / 2;
  accepted_sq_norm : PineParam_norm_bound param * PineParam_norm_bound param < Field_modulus F;
  accepted_sq_norm_u64 : PineParam_norm_bound param * PineParam_norm_bound param <= u64_max;
  accepted_dimension : 0 < PineParam_dimension param;
  accepted_frac_bits : PineParam_frac_bits param < 128;
  accepted_chunk_len : 0 < PineParam_chunk_len param;
  accepted_chunk_len_sq_norm_equal : 0 < PineParam_chunk_len_sq_norm_equal param;
}.

(** The lengths of an instance fit together. *)
Record Pine_lengths (param : PineParam) (p : Pine) : Prop := {
  lengths_sq_norm_bits :
    PineType_sq_norm_bits (Pine_flp p)
    = bits (PineParam_norm_bound param * PineParam_norm_bound param);
  lengths_bit_checked :
    PineType_bit_checked_len (Pine_flp p)
    = 2 * PineType_sq_norm_bits (Pine_flp p)
      + (1 + PineType_wr_test_bits (Pine_flp p)) * PineParam_num_wr_tests param;
  lengths_gradient :
    Pine_encoded_gradient_and_sq_norm_len p
    = PineParam_dimension param + 2 * PineType_sq_norm_bits (Pine_flp p);
  lengths_encoded :
    Pine_encoded_input_len p
    = PineParam_dimension param + PineType_bit_checked_len (Pine_flp p);
  lengths_input :
    PineType_input_len (Pine_flp p)
    = Pine_encoded_input_len p + PineParam_num_wr_tests param;
  lengths_same_input :
    PineTypeSNE_input_len (Pine_flp_sq_norm_equal p) = PineType_input_len (Pine_flp p);
  (** every bit-checked element and every wraparound test is in a chunk of the gadget *)
  lengths_gadget :
    PineType_bit_checked_len (Pine_flp p) + PineParam_num_wr_tests param
    <= PineType_gadget_calls (Pine_flp p) * PineParam_chunk_len param
    < PineType_bit_checked_len (Pine_flp p) + PineParam_num_wr_tests param
      + 2 * PineParam_chunk_len param;
  (** ... the two parts in chunks of their own *)
  lengths_gadget_parts : exists c1 c2,
    PineType_gadget_calls (Pine_flp p) = c1 + c2 /\
    PineType_bit_checked_len (Pine_flp p) <= c1 * PineParam_chunk_len param
      < PineType_bit_checked_len (Pine_flp p) + PineParam_chunk_len param /\
    PineParam_num_wr_tests param <= c2 * PineParam_chunk_len param
      < PineParam_num_wr_tests param + PineParam_chunk_len param;
  lengths_gadget_sq_norm :
    PineParam_dimension param
    <= PineTypeSNE_gadget_calls (Pine_flp_sq_norm_equal p)
         * PineParam_chunk_len_sq_norm_equal param
    < PineParam_dimension param + PineParam_chunk_len_sq_norm_equal param;
}.

(** An instance carries its parameters. *)
Record Pine_fields (F : Field) (param : PineParam) (id : N) (p : Pine) : Prop := {
  fields_dimension : PineType_dimension (Pine_flp p) = PineParam_dimension param;
  fields_frac_bits : PineType_frac_bits (Pine_flp p) = PineParam_frac_bits param;
  fields_chunk_len : PineType_chunk_len (Pine_flp p) = PineParam_chunk_len param;
  fields_num_wr_tests : PineType_num_wr_tests (Pine_flp p) = PineParam_num_wr_tests param;
  fields_num_wr_successes :
    PineType_num_wr_successes (Pine_flp p) = PineParam_num_wr_successes param;
  fields_sq_norm_bound : PineType_sq_norm_bound (Pine_flp p)
    = PineParam_norm_bound param * PineParam_norm_bound param;
  fields_wr_test_bound : PineType_wr_test_bound (Pine_flp p) < Field_modulus F;
  fields_wr_test_bits : PineType_wr_test_bits (Pine_flp p) <= 64;
  fields_sne : Pine_flp_sq_norm_equal p
    = MkPineTypeSquaredNormEqual (PineParam_dimension param)
        (PineParam_chunk_len_sq_norm_equal param) (PineType_sq_norm_bits (Pine_flp p))
        (PineType_input_len (Pine_flp p))
        (PineTypeSNE_gadget_calls (Pine_flp_sq_norm_equal p));
  fields_num_proofs : Pine_num_proofs p = PineParam_num_proofs param;
  fields_num_proofs_sne :
    Pine_num_proofs_sq_norm_equal p = PineParam_num_proofs_sq_norm_equal param;
  fields_algorithm_id : Pine_algorithm_id p = id /\ PineType_algorithm_id (Pine_flp p) = id;
}.

Section Properties.
Context `{BP : BuildProfile}.

(** The last part of [Pine::new], in which no sum exceeds 64 bits. *)
Lemma lengths_tail param id sqb wbd wb p :
  PineParam_dimension param <= u32_max -> PineParam_chunk_len param <= u32_max ->
  PineParam_chunk_len_sq_norm_equal param <= u32_max ->
  PineParam_num_wr_tests param <= u16_max -> wb <= 64 ->
  let b := bits (PineParam_norm_bound param * PineParam_norm_bound param) in
  1 <= b <= 64 ->
  (sq2 ← u64_mul 2 b;
   l1 ← u64_add (PineParam_dimension param) sq2;
   wr1 ← u64_add 1 wb;
   wr ← u64_mul wr1 (PineParam_num_wr_tests param);
   l2 ← u64_add l1 wr;
   l3 ← u64_add sq2 wr;
   l4 ← u64_add l2 (PineParam_num_wr_tests param);
   c1 ← chunk_count (PineParam_chunk_len param) l3;
   c2 ← chunk_count (PineParam_chunk_len param) (PineParam_num_wr_tests param);
   g ← u64_add c1 c2;
   ge ← chunk_count (PineParam_chunk_len_sq_norm_equal param) (PineParam_dimension param);
   Ok (MkPine
    (MkPineType (PineParam_dimension param) (PineParam_frac_bits param)
       (PineParam_chunk_len param) (PineParam_num_wr_tests param)
       (PineParam_num_wr_successes param) sqb b wbd wb l3 l4 g id)
    (MkPineTypeSquaredNormEqual (PineParam_dimension param)
       (PineParam_chunk_len_sq_norm_equal param) b l4 ge)
    (PineParam_num_proofs param) (PineParam_num_proofs_sq_norm_equal param) l1 l2 id))
  = Ok (E:=detail) p ->
  0 < PineParam_chunk_len param /\ 0 < PineParam_chunk_len_sq_norm_equal param /\
  Pine_lengths param p.
Proof.
  intros Wd Wc Wce Wt Hwb b Hb H.
  assert ((1 + wb) * PineParam_num_wr_tests param <= 65 * u16_max) as Hm
    by (apply N.mul_le_mono; lia).
  assert (u32_max = 4294967295) as E32 by done. assert (u16_max = 65535) as E16 by done.
  assert (u64_max = 18446744073709551615) as E64 by done.
  rewrite u64_mul_fits in H by lia. cbn [mbind res_bind] in H.
  do 2 (rewrite u64_add_fits in H by lia; cbn [mbind res_bind] in H).
  rewrite u64_mul_fits in H by lia. cbn [mbind res_bind] in H.
  do 3 (rewrite u64_add_fits in H by lia; cbn [mbind res_bind] in H).
  apply bind_Ok in H as (c1 & H1 & H). apply bind_Ok in H as (c2 & H2 & H).
  apply bind_Ok in H as (g & H3 & H). apply bind_Ok in H as (ge & H4 & H).
  pose proof (chunk_count_pos _ _ _ H1). pose proof (chunk_count_pos _ _ _ H4).
  split_and!; [done|done|].
  destruct (chunk_count_bound _ _ _ H1 ltac:(lia)) as [B1 C1].
  destruct (chunk_count_bound _ _ _ H2 ltac:(lia)) as [B2 C2].
  destruct (chunk_count_bound _ _ _ H4 ltac:(lia)) as [B4 C4].
  rewrite u64_add_fits in H3 by nia. injection H3 as <-. injection H as <-.
  constructor; cbn; first [reflexivity|lia|nia|exists c1, c2; split_and!; done || lia].
Qed.

(** What is known of an instance. *)
Lemma Pine_new_spec F param id p :
  PineParam_wf param -> Pine_new F param id = Ok p ->
  PineParam_accepted F param /\ Pine_lengths param p /\ Pine_fields F param id p.
Proof.
  intros (Wn & Wf & Wd & Wc & Wce & _ & _ & Wt & Ws) H. unfold Pine_new in H.
  apply guard_ok in H as [G1 H].
  apply bind_Ok in H as (bad & Hbad & H). destruct bad; [done|].
  apply guard_ok in H as [G2 H]. apply guard_ok in H as [G3 H].
  apply bind_Ok in H as (sq & Hsq & H). cbn beta in H.
  destruct (N.leb_spec (PineParam_norm_bound param * PineParam_norm_bound param) u64_max)
    as [Hs|]; [injection Hsq as <-|done].
  apply bind_Ok in H as (sqb & Hsqb & H). apply guard_ok in H as [G4 H].
  apply bind_Ok in H as (w & Hw & H). apply bind_Ok in H as (wb & Hwb & H).
  apply bind_Ok in H as (wbd & Hwbd & H). apply guard_ok in H as [G5 H].
  pose proof (bits_le_64 _ Hs) as Hb. apply wr_bits_le_64 in Hwb.
  pose proof H as Hf. apply lengths_tail in H; try done. destruct H as (Hc & Hce & Hl).
  destruct (N.eqb_spec (PineParam_norm_bound param) 0); [done|].
  apply bind_Ok in Hbad as (m & Hn & [= Hbad]).
  apply field_integer_eq in Hn as ->. apply field_integer_eq in Hsqb as ->.
  rewrite N.ltb_ge in *. rewrite N.leb_gt in *. rewrite N.eqb_neq in *.
  rewrite N.shiftr_div_pow2 in Hbad. change (2 ^ 1) with 2 in Hbad.
  split; [constructor; try done; lia|]. split; [exact Hl|].
  inv_binds. subst. constructor; cbn; done || lia.
Qed.

(** C33: whatever the build profile, parameters of the widths of the wire from which an
    instance of PINE is made have a positive norm bound whose square fits the field, and the
    lengths of the instance are sums without wrap-around.  The bit-checked part has twice the bits
    of the squared norm bound and, for every wraparound test, [1 + wr_test_bits] elements, so
    [(1 + wr_test_bits) * num_wr_tests] in all; the encoded measurement has the gradient and the
    bit-checked part; the input of both circuits has the test results too.  The chunks of the
    gadget calls cover the bit-checked part, the tests and, in the second circuit, the gradient,
    with no chunk that is empty. *)
Theorem Pine_new_lengths F param id p :
  PineParam_wf param -> Pine_new F param id = Ok p ->
  PineParam_accepted F param /\ Pine_lengths param p.
Proof. intros W H. by destruct (Pine_new_spec F param id p W H) as (? & ? & _). Qed.

(** A chunk length of zero is not rejected: parameters that make an instance with
    some other chunk length make [Pine::new] divide by zero, which panics in every
    build profile, when the chunk length is zero. *)
Theorem Pine_new_zero_chunk_len F param id p :
  Pine_new F param id = Ok p -> Pine_new F (with_chunk_len param 0) id = Panic.
Proof.
  intros H. unfold Pine_new in *. destruct param. cbn in *.
  repeat first
    [ apply guard_ok in H as [G H]; rewrite G; clear G
    | apply bind_Ok in H as (? & G & H); rewrite G; clear G; cbn [mbind res_bind] in *
    | progress case_match; [done|] ].
  rewrite !chunk_count_zero. reflexivity.
Qed.
End Properties.
