(* ===== verification/PineField.v ===== *)
(** * The field interface of PINE

    The circuits of [src/crates/daphne/src/pine/] are generic in a field of [prio]
    ([prio::field::FftFriendlyFieldElement]), which is a dependency: its operations are the
    class [PrioField], and what the circuits rely on, arithmetic modulo a prime and the
    documented behaviour of the bit vectors, is [PrioFieldLaws].  The rest of the file is
    the algebra the circuits need: sums, powers, polynomials with few roots, and the value
    of a bit vector. *)

From Stdlib Require Export Ring_theory Ring.
From S2P Require Import Prelude Codec Messages TaskprovMessages Errors Pine.

(** ** The interface of [prio::field] *)
Class PrioField : Type := {
  felem : Type;
  (** [F::modulus()] and the maximum of [F::Integer] *)
  felem_field : Field;
  (** [FieldError] *)
  FieldError : Type;
  f0 : felem;
  f1 : felem;
  fadd : felem -> felem -> felem;
  fsub : felem -> felem -> felem;
  fmul : felem -> felem -> felem;
  fopp : felem -> felem;
  (** [inv] *)
  finv : felem -> felem;
  (** [F::from(F::Integer)] and [F::Integer::from(F)] *)
  of_int : N -> felem;
  to_int : felem -> N;
  (** [F::encode_as_bitvector(input, bits)], [F::decode_bitvector(input)] *)
  encode_as_bitvector : N -> N -> res FieldError (list felem);
  decode_bitvector : list felem -> res FieldError felem;
  (** [F::ENCODED_SIZE], [F::encode], [F::decode] *)
  ENCODED_SIZE : N;
  felem_encode : writer felem;
  felem_decode : reader felem;
}.

Declare Scope felem_scope.
Delimit Scope felem_scope with F.
Bind Scope felem_scope with felem.
Notation "0" := f0 : felem_scope.
Notation "1" := f1 : felem_scope.
Infix "+" := fadd : felem_scope.
Infix "-" := fsub : felem_scope.
Infix "*" := fmul : felem_scope.
Notation "- x" := (fopp x) : felem_scope.

Abbreviation modulus := (Field_modulus felem_field).

(** [2^l - 1] is an element: what [prio] calls a valid bit length. *)
Definition valid_integer_bitlength `{PrioField} (l : N) : bool := 2 ^ l <=? modulus.

Section Bits.
Context `{PF : PrioField}.

(** The bits of an integer, the least significant one first. *)
Fixpoint bits_of (n : nat) (x : N) : list felem :=
  match n with
  | O => []
  | S n => (if N.odd x then f1 else f0) :: bits_of n (N.div2 x)
  end.

(** The value of a vector of bits, [sum(2^l * bits[l])]. *)
Fixpoint bits_value (l : list felem) : felem :=
  match l with
  | [] => f0
  | b :: l => (b + (bits_value l + bits_value l))%F
  end.

Definition is_bit (x : felem) : Prop := x = f0 \/ x = f1.
End Bits.

(** ** What the circuits rely on *)
Class PrioFieldLaws (P : PrioField) : Prop := {
  (** a field *)
  felem_ring : ring_theory f0 f1 fadd fmul fsub fopp eq;
  felem_domain x y : (x * y)%F = f0 -> x = f0 \/ y = f0;
  finv_mul x : x <> f0 -> (x * finv x)%F = f1;
  (** of integers modulo [F::modulus()], which are not the trivial ring, *)
  modulus_gt_2 : 2 < modulus;
  modulus_fits : modulus <= Field_integer_max felem_field;
  to_int_lt x : to_int x < modulus;
  to_int_0 : to_int f0 = 0;
  to_int_1 : to_int f1 = 1;
  of_to_int x : of_int (to_int x) = x;
  to_of_int n : n < modulus -> to_int (of_int n) = n;
  to_int_add x y : to_int (x + y)%F = (to_int x + to_int y) mod modulus;
  to_int_mul x y : to_int (x * y)%F = (to_int x * to_int y) mod modulus;
  (** with bit vectors, the least significant bit first, whose conversion fails if there
      are too many bits or too few. *)
  encode_as_bitvector_ok x l :
    valid_integer_bitlength l = true -> x < 2 ^ l ->
    encode_as_bitvector x l = Ok (bits_of (N.to_nat l) x);
  encode_as_bitvector_err x l :
    valid_integer_bitlength l = false \/ 2 ^ l <= x ->
    exists e, encode_as_bitvector x l = Err e;
  decode_bitvector_ok l :
    valid_integer_bitlength (len l) = true -> decode_bitvector l = Ok (bits_value l);
  decode_bitvector_err l :
    valid_integer_bitlength (len l) = false -> exists e, decode_bitvector l = Err e;
  (** Elements are encoded with a fixed size. *)
  felem_codec :: CodecOk (fun _ => True) felem_encode felem_decode;
  felem_size x bs : writes felem_encode x bs -> len bs = ENCODED_SIZE;
  felem_no_panic :: NoPanic felem_decode;
}.

Section Algebra.
Context `{PF : PrioField} {PL : PrioFieldLaws PF}.
Add Ring felem_ring_inst : (felem_ring).
Open Scope felem_scope.

Lemma f1_neq_f0 : f1 <> f0.
Proof.
  intros H. pose proof to_int_0 as H0. rewrite <-H, to_int_1 in H0. done.
Qed.

Lemma fsub_0_eq x y : x - y = 0 -> x = y.
Proof. intros H. transitivity (x - y + y); [ring|]. rewrite H. ring. Qed.

Lemma fsub_0_neq x y : x <> y -> x - y <> 0.
Proof. intros H E. by apply H, fsub_0_eq. Qed.

#[global] Instance felem_eq_dec : EqDecision felem.
Proof.
  intros x y. destruct (decide (to_int x = to_int y)) as [H|H].
  - left. by rewrite <-(of_to_int x), H, of_to_int.
  - right. by intros ->.
Defined.

Lemma to_int_inj x y : to_int x = to_int y -> x = y.
Proof. intros H. by rewrite <-(of_to_int x), H, of_to_int. Qed.

Lemma to_int_opp x : x <> 0 -> to_int (- x) = (modulus - to_int x)%N.
Proof.
  intros Hx. pose proof (to_int_add x (- x)) as H.
  replace (x + - x) with 0 in H by ring. rewrite to_int_0 in H. symmetry in H.
  apply N.Div0.mod_divides in H as [c Hc]. pose proof (to_int_lt x). pose proof (to_int_lt (- x)).
  assert (to_int x <> 0%N) by (intros E; apply Hx, to_int_inj; by rewrite to_int_0).
  assert (c = 1%N) as -> by nia. lia.
Qed.

Lemma of_int_0 : of_int 0 = 0.
Proof. by rewrite <-to_int_0, of_to_int. Qed.

Lemma of_int_1 : of_int 1 = 1.
Proof. by rewrite <-to_int_1, of_to_int. Qed.

Lemma of_int_add a b : (a + b < modulus)%N -> of_int (a + b) = of_int a + of_int b.
Proof.
  intros H. apply to_int_inj. rewrite to_int_add, !to_of_int by lia. by rewrite N.mod_small.
Qed.

Lemma finv_1 : finv (of_int 1) = 1.
Proof.
  pose proof (finv_mul (of_int 1)) as H. rewrite of_int_1 in *.
  specialize (H f1_neq_f0). transitivity (1 * finv 1); [ring|exact H].
Qed.

(** A bit vector that was encoded. *)
Lemma encode_as_bitvector_inv x l bs :
  encode_as_bitvector x l = Ok bs ->
  valid_integer_bitlength l = true /\ (x < 2 ^ l)%N /\ bs = bits_of (N.to_nat l) x.
Proof.
  intros H. destruct (valid_integer_bitlength l) eqn:Hv.
  2:{ destruct (encode_as_bitvector_err x l) as [e He]; [by left|]. by rewrite He in H. }
  destruct (N.ltb_spec x (2 ^ l)) as [Hx|Hx].
  - rewrite encode_as_bitvector_ok in H by done. by injection H as <-.
  - destruct (encode_as_bitvector_err x l) as [e He]; [by right|]. by rewrite He in H.
Qed.

(** *** Sums *)
Fixpoint fsum (l : list felem) : felem :=
  match l with
  | [] => 0
  | x :: l => x + fsum l
  end.

Lemma fsum_app l k : fsum (l ++ k) = fsum l + fsum k.
Proof. induction l as [|x l IH]; simpl; [ring|]. rewrite IH. ring. Qed.

Lemma fsum_zeros n : fsum (replicate n 0) = 0.
Proof. induction n as [|n IH]; simpl; [done|]. rewrite IH. ring. Qed.

Lemma fold_left_fadd l a : fold_left fadd l a = a + fsum l.
Proof. revert a. induction l as [|x l IH]; intros a; simpl; [ring|]. rewrite IH. ring. Qed.

(** *** Bits *)
Lemma length_bits_of n x : length (bits_of n x) = n.
Proof. revert x. induction n; intros; simpl; auto. Qed.

Lemma bits_of_bits n x : Forall is_bit (bits_of n x).
Proof.
  revert x. induction n; intros x; simpl; constructor; [|done].
  destruct (N.odd x); [by right|by left].
Qed.

Lemma bit_check x : x * (x - 1) = 0 <-> is_bit x.
Proof.
  split.
  - intros [->|H]%felem_domain; [by left|right]. by apply fsub_0_eq.
  - intros [->| ->]; ring.
Qed.

(** The integer a vector of bits denotes. *)
Fixpoint bits_int (l : list felem) : N :=
  match l with
  | [] => 0
  | b :: l => to_int b + 2 * bits_int l
  end%N.

Lemma bits_int_lt l : Forall is_bit l -> (bits_int l < 2 ^ len l)%N.
Proof.
  induction 1 as [|b l Hb _ IH]; [done|]. rewrite len_cons, N.add_1_l, N.pow_succ_r'.
  cbn [bits_int]. destruct Hb as [->| ->]; rewrite ?to_int_0, ?to_int_1; lia.
Qed.

Lemma bits_value_mod l : to_int (bits_value l) = (bits_int l mod modulus)%N.
Proof.
  pose proof modulus_gt_2. induction l as [|b l IH]; simpl.
  - rewrite to_int_0. by rewrite N.mod_small by lia.
  - rewrite !to_int_add, IH. rewrite <-N.Div0.add_mod, N.Div0.add_mod_idemp_r.
    f_equal. destruct (bits_int l); lia.
Qed.

(** A valid number of bits denotes its integer. *)
Lemma bits_value_int l :
  Forall is_bit l -> valid_integer_bitlength (len l) = true ->
  to_int (bits_value l) = bits_int l.
Proof.
  intros Hl Hv%N.leb_le. rewrite bits_value_mod. apply N.mod_small.
  pose proof (bits_int_lt l Hl). lia.
Qed.

Lemma bits_int_bits_of n x : (x < 2 ^ N.of_nat n)%N -> bits_int (bits_of n x) = x.
Proof.
  revert x. induction n as [|n IH]; intros x Hx; simpl.
  - simpl in Hx. lia.
  - rewrite IH.
    + rewrite (N.div2_odd x) at 3. destruct (N.odd x); rewrite ?to_int_0, ?to_int_1; simpl; lia.
    + rewrite Nat2N.inj_succ, N.pow_succ_r' in Hx. rewrite (N.div2_odd x) in Hx.
      destruct (N.odd x); simpl N.b2n in Hx; lia.
Qed.

Lemma bits_value_bits_of n x :
  (x < 2 ^ N.of_nat n)%N -> (x < modulus)%N -> bits_value (bits_of n x) = of_int x.
Proof.
  intros Hx Hm. apply to_int_inj.
  by rewrite bits_value_mod, bits_int_bits_of, to_of_int, N.mod_small by done.
Qed.

(** *** Polynomials

    The coefficients with the highest degree first, evaluated with an accumulator. *)
Fixpoint heval (x a : felem) (l : list felem) : felem :=
  match l with
  | [] => a
  | c :: l => heval x (a * x + c) l
  end.

(** The quotient of [a :: l] by [X - r]. *)
Fixpoint quot (r a : felem) (l : list felem) : list felem :=
  match l with
  | [] => []
  | c :: l => a :: quot r (a * r + c) l
  end.

Lemma length_quot r a l : length (quot r a l) = length l.
Proof. revert a. induction l; intros; simpl; auto. Qed.

Lemma heval_quot x r u w t l :
  u - w = (x - r) * t -> heval x u l - heval r w l = (x - r) * heval x t (quot r w l).
Proof.
  revert u w t. induction l as [|c l IH]; intros u w t H; simpl; [done|].
  apply IH. transitivity ((u - w) * x + w * (x - r)); [ring|]. rewrite H. ring.
Qed.

Lemma quot_zero r a l :
  Forall (.= 0) (quot r a l) -> heval r a l = 0 -> a = 0 /\ Forall (.= 0) l.
Proof.
  revert a. induction l as [|c l IH]; intros a; simpl; [by intros _ ->|].
  intros [-> Hq]%Forall_cons Hr. destruct (IH _ Hq Hr) as [Hc Hl].
  split; [done|]. constructor; [|done]. rewrite <-Hc. ring.
Qed.

Lemma heval_roots l a rs :
  NoDup rs -> (length l < length rs)%nat -> (forall r, r ∈ rs -> heval r a l = 0) ->
  a = 0 /\ Forall (.= 0) l.
Proof.
  intros Hnd. revert l a. induction Hnd as [|r rs Hr Hnd IH]; intros l a Hlen Hz;
    [simpl in Hlen; lia|].
  destruct l as [|c l].
  - split; [|done]. apply (Hz r). by left.
  - assert (heval r a (c :: l) = 0) as H0 by (apply Hz; by left).
    apply (quot_zero r); [|done].
    assert (forall y, y ∈ rs -> heval y a (quot r (a * r + c) l) = 0) as Hq.
    { intros y Hy. assert (heval y a (c :: l) = 0) as Hy0 by (apply Hz; by right).
      pose proof (heval_quot y r a a 0 (c :: l) ltac:(ring)) as E.
      rewrite Hy0, H0 in E. cbn [quot heval] in E.
      replace (0 * y + a) with a in E by ring.
      assert ((y - r) * heval y a (quot r (a * r + c) l) = 0) as E' by (rewrite <-E; ring).
      apply felem_domain in E' as [E'|E']; [|done].
      apply fsub_0_eq in E' as ->. done. }
    destruct (IH (quot r (a * r + c) l) a) as [-> Hl]; [|done|].
    + rewrite length_quot. simpl in Hlen. lia.
    + simpl. by constructor.
Qed.

(** The polynomial with the coefficients [l], the constant one first. *)
Fixpoint peval (r : felem) (l : list felem) : felem :=
  match l with
  | [] => 0
  | c :: l => c + r * peval r l
  end.

Lemma heval_app x a l c : heval x a (l ++ [c]) = heval x a l * x + c.
Proof. revert a. induction l; intros; simpl; auto. Qed.

Lemma peval_heval r l : peval r l = heval r 0 (reverse l).
Proof.
  induction l as [|c l IH]; [done|]. cbn [peval]. rewrite reverse_cons, heval_app, IH. ring.
Qed.

(** A polynomial that vanishes at as many points as it has coefficients is zero. *)
Lemma peval_roots l rs :
  NoDup rs -> (length l <= length rs)%nat -> (forall r, r ∈ rs -> peval r l = 0) ->
  Forall (.= 0) l.
Proof.
  intros Hnd Hlen Hz. apply Forall_reverse. destruct (reverse l) as [|c l'] eqn:E; [done|].
  assert (length l = S (length l')) as Hl by (by rewrite <-length_reverse, E).
  destruct (heval_roots l' c rs) as [-> H]; [done|lia| |by constructor].
  intros r Hr. rewrite <-(Hz r Hr), peval_heval, E. simpl. f_equal. ring.
Qed.

Lemma peval_app r l k : peval r (l ++ k) = peval r l + peval r (replicate (length l) 0 ++ k).
Proof. induction l as [|c l IH]; simpl; [ring|]. rewrite IH. ring. Qed.

Lemma peval_zeros r l : Forall (.= 0) l -> peval r l = 0.
Proof. induction 1 as [|c l -> _ IH]; simpl; [done|]. rewrite IH. ring. Qed.
End Algebra.
