(* ===== verification/PineEncoding.v ===== *)
(** * The coordinates of a gradient

    [f64_to_field] and [field_to_f64] of [src/crates/daphne/src/pine/mod.rs]: a coordinate is
    scaled by a power of two, rounded down and represented modulo the prime of the field.
    Floats are IEEE binary64, as [SpecFloat] specifies them; [floor] and the casts are those
    of the Rust standard library. *)

From Stdlib Require Import ZArith SpecFloat.
From S2P Require Import Prelude Codec Messages TaskprovMessages Errors Pine PineField.

(** ** Errors of [prio] that the code of PINE makes or passes on *)
Section Errors.
Context `{PF : PrioField}.

(** [FlpError]; [FlpError_Other] is an error made in [prio]. *)
Inductive FlpError : Type :=
| FlpError_Valid (d : detail)
| FlpError_Decode (d : detail)
| FlpError_Field (e : FieldError)
| FlpError_Other (d : detail).

(** [prio::vdaf::VdafError] *)
Inductive PrioVdafError : Type :=
| Uncategorized (d : detail)
| PrioVdafError_Codec (e : CodecError)
| PrioVdafError_Field (e : FieldError)
| PrioVdafError_Flp (e : FlpError).
End Errors.

(** ** [f64] *)

(** [x.is_normal()] *)
Definition f64_is_normal (x : f64) : bool :=
  match x with
  | S754_finite _ m _ => Z.eqb (Zpos (digits2_pos m)) 53
  | _ => false
  end.

Definition f64_zero : f64 := S754_zero false.
Definition f64_lt (x y : f64) : bool := SFltb x y.
Definition f64_eq (x y : f64) : bool := SFeqb x y.
Definition f64_neg (x : f64) : f64 := SFopp x.
Definition f64_div (x y : f64) : f64 := SFdiv 53 1024 x y.

(** [±m * 2^e] rounded down to an integer *)
Definition floor_scaled (s : bool) (m : positive) (e : Z) : Z :=
  let n := cond_Zopp s (Zpos m) in
  if (0 <=? e)%Z then (n * 2 ^ e)%Z else (n / 2 ^ (- e))%Z.

(** [x.floor()]; the integer has at most 53 bits, so the conversion back is exact. *)
Definition f64_floor (x : f64) : f64 :=
  match x with
  | S754_finite s m e =>
      if (0 <=? e)%Z then x else binary_normalize 53 1024 (floor_scaled s m e) 0 s
  | _ => x
  end.

(** [x as u64]: towards zero, saturating, and zero for NaN *)
Definition f64_as_u64 (x : f64) : N :=
  match x with
  | S754_finite false m e =>
      let v := if (0 <=? e)%Z then Z.shiftl (Zpos m) e else (Zpos m / 2 ^ (- e))%Z in
      N.min u64_max (Z.to_N v)
  | S754_infinity false => u64_max
  | _ => 0
  end.

(** ** Operations *)
Section Coordinates.
Context `{BP : BuildProfile} `{PF : PrioField}.

(** [f64::from(1 << frac_bits)]: the literal is an [i32], whose shift by 32 or more panics
    or uses the shift modulo 32. *)
Definition two_to_frac_bits {E} (frac_bits : N) : res E f64 :=
  k ← (if frac_bits <? 32 then Ok frac_bits
       else if overflow_checks then Panic else Ok (frac_bits mod 32));
  Ok (if k <? 31 then f64_of_u64 (2 ^ k) else f64_neg (f64_of_u64 (2 ^ 31))).

Definition f64_to_field (x two_to_frac_bits : f64) : res PrioVdafError felem :=
  let neg := f64_lt x f64_zero in
  if negb (f64_is_normal x) && negb (f64_eq x f64_zero) then
    Err (Uncategorized (Text "f64 encoding failed: input is subnormal"))
  else
  let out := f64_mul x two_to_frac_bits in
  let out := f64_floor out in
  let out := if neg then f64_neg out else out in
  let out := f64_as_u64 out in
  out ← map_err Uncategorized (field_integer felem_field out
    "f64 encoding failed: field too small for gradient coordinate: {e}");
  let out := of_int out in
  Ok (if neg then fopp out else out).

Definition field_to_f64 (x : felem) (two_to_frac_bits : f64) : res PrioVdafError f64 :=
  let out := to_int x in
  let neg := N.shiftr modulus 1 <? out in
  let out := if neg then modulus - out else out in
  out ← (if out <=? u64_max then Ok out
         else Err (Uncategorized (Fmt "f64 decoding failed: failed to convert to u64: {e}"
                                    [ArgOpaque])));
  let out := f64_of_u64 out in
  let out := if neg then f64_neg out else out in
  Ok (f64_div out two_to_frac_bits).

(** An integer modulo the prime. *)
Definition of_Z (v : Z) : felem :=
  match v with
  | Zneg p => fopp (of_int (Npos p))
  | _ => of_int (Z.to_N v)
  end.
End Coordinates.

(** ** Rounding that is exact *)
Section Float.
Open Scope Z_scope.

Lemma iter_pos_iter {A} (f : A -> A) n x : SpecFloat.iter_pos f n x = Pos.iter f x n.
Proof.
  revert x. induction n as [n IH|n IH|]; intros x; simpl; rewrite ?IH; try done.
  by rewrite <-!Pos.iter_swap.
Qed.

(** [m * 2^n] *)
Definition shl (m : positive) (n : N) : positive := N.iter n xO m.

Lemma shl_succ m n : shl m (N.succ n) = xO (shl m n).
Proof. apply N.iter_succ. Qed.

Lemma shl_Z m n : Zpos (shl m n) = Zpos m * 2 ^ Z.of_N n.
Proof.
  induction n as [|n IH] using N.peano_ind; [simpl; lia|].
  rewrite shl_succ, N2Z.inj_succ, Z.pow_succ_r by lia. lia.
Qed.

Lemma digits_shl m n : Zpos (digits2_pos (shl m n)) = Zpos (digits2_pos m) + Z.of_N n.
Proof.
  induction n as [|n IH] using N.peano_ind; [simpl; lia|].
  rewrite shl_succ. simpl digits2_pos. lia.
Qed.

(** Shifting an exact multiple of [2^n] to the right by [n]. *)
Lemma shr_exact m n e :
  shr (Build_shr_record (Zpos (shl m n)) false false) e (Z.of_N n)
  = (Build_shr_record (Zpos m) false false, e + Z.of_N n).
Proof.
  destruct n as [|n]; [simpl; f_equal; lia|].
  simpl. f_equal. rewrite iter_pos_iter. unfold shl. simpl.
  induction n as [|n IH] using Pos.peano_ind; [done|].
  rewrite Pos.iter_succ_r. rewrite Pos.iter_succ. simpl. exact IH.
Qed.

Lemma digits_log2 m : Zpos (digits2_pos m) = Z.log2 (Zpos m) + 1.
Proof.
  induction m as [m IH|m IH|]; [..|done]; simpl digits2_pos; rewrite Pos2Z.inj_succ, IH.
  - rewrite (Pos2Z.inj_xI m), Z.log2_succ_double by lia. lia.
  - rewrite (Pos2Z.inj_xO m), Z.log2_double by lia. lia.
Qed.

(** A result with 53 digits, shifted by some zeros, is exact. *)
Lemma round_exact s m n e :
  Zpos (digits2_pos m) = 53 -> -1074 <= e + Z.of_N n <= 971 ->
  binary_round_aux 53 1024 s (Zpos (shl m n)) e loc_Exact = S754_finite s m (e + Z.of_N n).
Proof.
  intros Hm He. unfold binary_round_aux, shr_fexp, shr_record_of_loc.
  assert (forall k, fexp 53 1024 (Zpos (digits2_pos (shl m k)) + (e + Z.of_N n - Z.of_N k))
    - (e + Z.of_N n - Z.of_N k) = Z.of_N k) as Hf.
  { intros k. rewrite digits_shl, Hm. unfold fexp, emin. lia. }
  pose proof (Hf n) as Hn. replace (e + Z.of_N n - Z.of_N n) with e in Hn by lia.
  unfold Zdigits2 at 1. rewrite Hn, shr_exact. cbn [shr_m loc_of_shr_record round_nearest_even].
  pose proof (Hf 0%N) as H0. cbn [shl N.iter Z.of_N] in H0. rewrite Z.sub_0_r in H0.
  unfold Zdigits2. rewrite H0. cbn [shr shr_m].
  by rewrite (proj2 (Z.leb_le _ _)) by lia.
Qed.

(** An integer of at most 53 digits as a float. *)
Definition norm_exp (v : positive) : N := Z.to_N (53 - Zpos (digits2_pos v)).

Lemma norm_digits v :
  Zpos (digits2_pos v) <= 53 -> Zpos (digits2_pos (shl v (norm_exp v))) = 53.
Proof. intros H. rewrite digits_shl. unfold norm_exp. lia. Qed.

Lemma normalize_exact s v e :
  Zpos (digits2_pos v) <= 53 -> -1074 <= e - Z.of_N (norm_exp v) <= 971 ->
  binary_round 53 1024 s v e = S754_finite s (shl v (norm_exp v)) (e - Z.of_N (norm_exp v)).
Proof.
  intros H He. pose proof (norm_digits v H) as Hd. unfold binary_round, shl_align.
  assert (fexp 53 1024 (Zpos (digits2_pos v) + e) - e = - Z.of_N (norm_exp v)) as ->.
  { unfold fexp, emin, norm_exp in *. lia. }
  assert (fexp 53 1024 (Zpos (digits2_pos v) + e) = e - Z.of_N (norm_exp v)) as Hf.
  { unfold fexp, emin, norm_exp in *. lia. }
  pose proof (round_exact s (shl v (norm_exp v)) 0 (e - Z.of_N (norm_exp v)) Hd) as Hr.
  cbn [shl N.iter Z.of_N] in Hr. rewrite Z.add_0_r in Hr. rewrite <-Hr by lia.
  destruct (norm_exp v) as [|n] eqn:E; simpl.
  - by rewrite Z.sub_0_r.
  - by rewrite Hf.
Qed.

(** Scaling by [2^k] only moves the exponent. *)
Definition pow2_f64 (k : N) : f64 := S754_finite false (shl 1 52) (Z.of_N k - 52).

Lemma f64_of_pow2 k : (k <= 52)%N -> f64_of_u64 (2 ^ k) = pow2_f64 k.
Proof.
  intros Hk. unfold f64_of_u64, pow2_f64.
  assert (Z.of_N (2 ^ k) = Zpos (shl 1 k)) as ->
    by (rewrite shl_Z, N2Z.inj_pow; lia).
  assert (norm_exp (shl 1 k) = 52 - k)%N as E.
  { unfold norm_exp. rewrite digits_shl. simpl digits2_pos. lia. }
  cbn [binary_normalize]. rewrite normalize_exact; rewrite ?E; [|rewrite digits_shl; cbn [digits2_pos]; lia|lia].
  f_equal; [|lia]. apply Pos2Z.inj. rewrite !shl_Z. rewrite <-Z.mul_assoc, <-Z.pow_add_r by lia.
  do 2 f_equal. lia.
Qed.

Lemma mul_pow2 s m e k :
  Zpos (digits2_pos m) = 53 -> -1074 <= e + Z.of_N k <= 971 ->
  f64_mul (S754_finite s m e) (pow2_f64 k) = S754_finite s m (e + Z.of_N k).
Proof.
  intros Hm He. unfold f64_mul, pow2_f64, SFmul.
  assert (m * shl 1 52 = shl m 52)%positive as -> by (apply Pos2Z.inj; rewrite Pos2Z.inj_mul, !shl_Z; lia).
  rewrite round_exact by (done || lia). rewrite xorb_false_r. f_equal. lia.
Qed.

Lemma div_pow2 s m e k :
  Zpos (digits2_pos m) = 53 -> -1000 <= e - Z.of_N k -> e - Z.of_N k <= 971 ->
  f64_div (S754_finite s m e) (pow2_f64 k) = S754_finite s m (e - Z.of_N k).
Proof.
  intros Hm He He'. unfold f64_div, pow2_f64, SFdiv, SFdiv_core_binary.
  unfold Zdigits2. rewrite Hm. change (Zpos (digits2_pos (shl 1 52))) with 53.
  replace (53 + e - (53 + (Z.of_N k - 52))) with (e - Z.of_N k + 52) by lia.
  assert (Z.min (fexp 53 1024 (e - Z.of_N k + 52)) (e - (Z.of_N k - 52))
    = e - Z.of_N k - 1) as -> by (unfold fexp, emin; lia).
  replace (e - (Z.of_N k - 52) - (e - Z.of_N k - 1)) with 53 by lia.
  rewrite Z.shiftl_mul_pow2 by lia.
  assert (Z.div_eucl (Zpos m * 2 ^ 53) (Zpos (shl 1 52)) = (Zpos (shl m 1), 0)) as ->.
  { pose proof (Z_div_mod (Zpos m * 2 ^ 53) (Zpos (shl 1 52)) ltac:(done)) as H.
    destruct (Z.div_eucl _ _) as [q r]. destruct H as [H Hr].
    change (Zpos (shl 1 52)) with (2 ^ 52) in *. change (2 ^ 53) with (2 * 2 ^ 52) in H.
    assert (2 ^ 52 * (2 * Zpos m - q) = r) as E by lia.
    assert (2 * Zpos m - q = 0) as Eq by nia. f_equal; [|nia].
    rewrite shl_Z. simpl. lia. }
  change (new_location (Zpos (shl 1 52)) 0) with loc_Exact. cbv iota beta zeta.
  rewrite round_exact by (done || lia). rewrite xorb_false_r. f_equal. lia.
Qed.

Lemma digits_53_lt m : Zpos (digits2_pos m) <= 53 <-> Zpos m < 2 ^ 53.
Proof. rewrite digits_log2, (Z.log2_lt_pow2 (Zpos m) 53) by lia. lia. Qed.

Lemma digits_53_ge m : Zpos (digits2_pos m) = 53 -> 2 ^ 52 <= Zpos m < 2 ^ 53.
Proof.
  intros H. split; [|apply digits_53_lt; lia].
  apply (Z.log2_le_pow2 (Zpos m) 52); [lia|]. rewrite digits_log2 in H. lia.
Qed.

(** The magnitude of the integer a float is rounded down to. *)
Lemma floor_as_u64 s m e :
  Zpos (digits2_pos m) = 53 ->
  f64_as_u64 (let o := f64_floor (S754_finite s m e) in if s then f64_neg o else o)
  = N.min u64_max (Z.abs_N (floor_scaled s m e)).
Proof.
  intros Hm. pose proof (digits_53_ge m Hm) as Hb. unfold f64_floor, floor_scaled.
  destruct (Z.leb_spec 0 e) as [He|He].
  - assert (f64_as_u64 (S754_finite false m e)
      = N.min u64_max (Z.abs_N (cond_Zopp s (Zpos m) * 2 ^ e))) as E.
    { unfold f64_as_u64. rewrite (proj2 (Z.leb_le 0 e) He), Z.shiftl_mul_pow2 by done.
      f_equal. pose proof (Z.pow_nonneg 2 e). destruct s; simpl cond_Zopp; lia. }
    by destruct s.
  - set (v := (cond_Zopp s (Zpos m) / 2 ^ (- e))).
    assert (2 <= 2 ^ (- e)) as H2.
    { change 2 with (2 ^ 1) at 1. apply Z.pow_le_mono_r; lia. }
    assert (forall b p, Zpos p <= 2 ^ 52 -> f64_as_u64 (let o := binary_round 53 1024 b p 0 in
      if b then f64_neg o else o) = N.min u64_max (Npos p)) as Hr.
    { intros b p Hp. rewrite normalize_exact; [|apply digits_53_lt; lia|unfold norm_exp; lia].
      assert (f64_as_u64 (S754_finite false (shl p (norm_exp p)) (0 - Z.of_N (norm_exp p)))
        = N.min u64_max (Npos p)) as E; [|by destruct b].
      unfold f64_as_u64. rewrite shl_Z. destruct (Z.leb_spec 0 (0 - Z.of_N (norm_exp p))).
      - assert (norm_exp p = 0%N) as -> by lia. simpl. rewrite Pos.mul_1_r. done.
      - rewrite Z.opp_sub_distr, Z.opp_0, Z.add_0_l, Z.div_mul by lia. done. }
    destruct s; simpl cond_Zopp in v.
    + assert (v < 0 /\ - 2 ^ 52 <= v) as [Hv Hv'].
      { split; [apply Z.div_lt_upper_bound; lia|]. apply Z.div_le_lower_bound; nia. }
      destruct v as [|p|p] eqn:Ev; [lia|lia|]. apply (Hr true). lia.
    + assert (0 <= v <= 2 ^ 52) as Hv.
      { split; [apply Z.div_pos; lia|]. apply Z.div_le_upper_bound; nia. }
      destruct v as [|p|p] eqn:Ev; [done| |lia]. apply (Hr false). lia.
Qed.
End Float.

(** ** Properties *)

(** [x * 2^k] is the integer [v]. *)
Definition scaled_is (x : f64) (k : N) (v : Z) : Prop :=
  match x with
  | S754_zero _ => v = 0%Z
  | S754_finite s m e =>
      (if (0 <=? e + Z.of_N k) then v = cond_Zopp s (Zpos m) * 2 ^ (e + Z.of_N k)
       else cond_Zopp s (Zpos m) = v * 2 ^ (- (e + Z.of_N k)))%Z
  | _ => False
  end.

Section Properties.
Context `{BP : BuildProfile} `{PF : PrioField} {PL : PrioFieldLaws PF}.
Add Ring felem_ring_enc : (felem_ring).

(** A normal float. *)
Definition normal_f64 (m : positive) (e : Z) : Prop :=
  Zpos (digits2_pos m) = 53%Z /\ (-1074 <= e <= 971)%Z.

Lemma f64_to_field_floor s m e k :
  let v := floor_scaled s m (e + Z.of_N k) in
  normal_f64 m e -> Z.abs_N v <= u64_max -> Z.abs_N v <= Field_integer_max felem_field ->
  f64_to_field (S754_finite s m e) (pow2_f64 k) = Ok (of_Z v).
Proof.
  intros v [Hm He] Hu Hi. pose proof (digits_53_ge m Hm) as Hb.
  assert (e + Z.of_N k <= 971)%Z as Hk.
  { destruct (Z.leb_spec (e + Z.of_N k) 971) as [|Hgt]; [done|exfalso].
    assert (2 ^ 20 <= 2 ^ (e + Z.of_N k))%Z as Hp by (apply Z.pow_le_mono_r; lia).
    unfold v, floor_scaled in Hu. rewrite (proj2 (Z.leb_le 0 _)) in Hu by lia.
    assert (Z.abs_N (cond_Zopp s (Zpos m) * 2 ^ (e + Z.of_N k)) = Z.to_N (Zpos m * 2 ^ (e + Z.of_N k)))
      as E by (destruct s; simpl cond_Zopp; lia).
    rewrite E in Hu. unfold u64_max in Hu. nia. }
  unfold f64_to_field. rewrite mul_pow2 by (done || lia).
  assert (f64_is_normal (S754_finite s m e) = true) as -> by (unfold f64_is_normal; by rewrite Hm).
  assert (f64_lt (S754_finite s m e) f64_zero = s) as -> by (by destruct s).
  cbv zeta. cbn [negb andb]. pose proof (floor_as_u64 s m (e + Z.of_N k) Hm) as Hf.
  cbv zeta in Hf. fold v in Hf. rewrite Hf, N.min_r by done.
  unfold field_integer. rewrite (proj2 (N.leb_le _ _)) by done. cbn [map_err mbind res_bind].
  f_equal. assert (if s then v < 0 else 0 <= v)%Z as Hs.
  { unfold v, floor_scaled. destruct (Z.leb_spec 0 (e + Z.of_N k)).
    - assert (0 < 2 ^ (e + Z.of_N k))%Z by lia. destruct s; simpl cond_Zopp; nia.
    - assert (0 < 2 ^ (- (e + Z.of_N k)))%Z by lia. destruct s; simpl cond_Zopp.
      + apply Z.div_lt_upper_bound; lia.
      + apply Z.div_pos; lia. }
  destruct s, v; simpl in *; try done; lia.
Qed.

(** The integer of a field element, between minus and plus half of the modulus. *)
Lemma field_to_f64_of_Z v k :
  (Z.abs v < 2 ^ 53)%Z -> (2 * Z.abs v < Z.of_N modulus)%Z -> k <= 52 ->
  field_to_f64 (of_Z v) (pow2_f64 k)
  = Ok match v with
       | Z0 => S754_zero false
       | Zpos p => S754_finite false (shl p (norm_exp p)) (- Z.of_N (norm_exp p) - Z.of_N k)
       | Zneg p => S754_finite true (shl p (norm_exp p)) (- Z.of_N (norm_exp p) - Z.of_N k)
       end.
Proof.
  intros Hv Hm Hk.
  assert (N.shiftr modulus 1 = modulus / 2) as Hs by apply N.shiftr_div_pow2.
  assert (forall p b, (Zpos p < 2 ^ 53)%Z ->
    f64_div (let o := f64_of_u64 (Npos p) in if b : bool then f64_neg o else o) (pow2_f64 k)
    = S754_finite b (shl p (norm_exp p)) (- Z.of_N (norm_exp p) - Z.of_N k)) as Hd.
  { intros p b Hp. apply digits_53_lt in Hp. unfold f64_of_u64. cbn [Z.of_N binary_normalize].
    rewrite normalize_exact by (done || (unfold norm_exp; lia)).
    assert ((0 - Z.of_N (norm_exp p)) = - Z.of_N (norm_exp p))%Z as -> by lia.
    assert (Z.of_N (norm_exp p) <= 53)%Z by (unfold norm_exp; lia).
    destruct b; cbn [f64_neg SFopp negb]; apply div_pow2; try lia; by apply norm_digits. }
  unfold field_to_f64. rewrite Hs. pose proof (N.div_mod modulus 2 ltac:(done)) as Hq.
  pose proof (N.mod_lt modulus 2 ltac:(done)). clear Hs.
  generalize dependent (modulus / 2). generalize dependent (modulus mod 2). intros r Hr q Hq.
  destruct v as [|p|p]; cbn [of_Z Z.to_N].
  - rewrite to_of_int by lia. rewrite (proj2 (N.ltb_ge _ _)) by lia. done.
  - rewrite to_of_int by lia. rewrite (proj2 (N.ltb_ge _ _)) by lia.
    rewrite (proj2 (N.leb_le _ _)) by (unfold u64_max; lia). cbn [mbind res_bind].
    f_equal. apply (Hd p false). lia.
  - cbn [Z.abs] in *. assert (of_int (Npos p) <> f0) as Hz.
    { intros E. apply (f_equal to_int) in E. rewrite to_of_int, to_int_0 in E by lia. done. }
    rewrite to_int_opp, to_of_int by (done || lia). rewrite (proj2 (N.ltb_lt _ _)) by lia.
    replace (modulus - (modulus - Npos p)) with (Npos p) by lia.
    rewrite (proj2 (N.leb_le _ _)) by (unfold u64_max; lia). cbn [mbind res_bind].
    f_equal. apply (Hd p true). lia.
Qed.

Lemma scaled_normal b p k :
  scaled_is (S754_finite b (shl p (norm_exp p)) (- Z.of_N (norm_exp p) - Z.of_N k)) k
    (cond_Zopp b (Zpos p)).
Proof.
  unfold scaled_is. rewrite shl_Z.
  replace (- Z.of_N (norm_exp p) - Z.of_N k + Z.of_N k)%Z with (- Z.of_N (norm_exp p))%Z by lia.
  rewrite Z.opp_involutive. destruct (Z.leb_spec 0 (- Z.of_N (norm_exp p))).
  - assert (norm_exp p = 0) as -> by lia. simpl Z.of_N. destruct b; simpl cond_Zopp; lia.
  - destruct b; simpl cond_Zopp; lia.
Qed.

(** Decoding is exact. *)
Lemma field_to_f64_scaled v k :
  (Z.abs v < 2 ^ 53)%Z -> (2 * Z.abs v < Z.of_N modulus)%Z -> k <= 52 ->
  exists y, field_to_f64 (of_Z v) (pow2_f64 k) = Ok y /\ scaled_is y k v.
Proof.
  intros Hv Hm Hk. rewrite field_to_f64_of_Z by done. eexists. split; [done|].
  destruct v as [|p|p]; [done|apply (scaled_normal false)|apply (scaled_normal true)].
Qed.

(** [x * 2^k], rounded down, is [v]; only zero and normal floats are encoded. *)
Definition fixed_point (k : N) (x : f64) (v : Z) : Prop :=
  match x with
  | S754_zero _ => v = 0%Z
  | S754_finite s m e => normal_f64 m e /\ v = floor_scaled s m (e + Z.of_N k)
  | _ => False
  end.

Lemma fixed_point_encoded k x v :
  fixed_point k x v -> (Z.abs v < 2 ^ 53)%Z -> (2 * Z.abs v < Z.of_N modulus)%Z ->
  f64_to_field x (pow2_f64 k) = Ok (of_Z v).
Proof.
  intros H Hv Hm. pose proof modulus_fits. destruct x as [b| | |s m e]; try done; simpl in H.
  - subst v. unfold f64_to_field, field_integer.
    destruct b; simpl f64_as_u64; rewrite (proj2 (N.leb_le 0 _)) by lia; done.
  - destruct H as [Hn ->]. apply f64_to_field_floor; [done|unfold u64_max; lia|lia].
Qed.

(** Sums of integers that do not wrap around. *)
Lemma of_Z_add a b :
  (Z.abs a + Z.abs b < Z.of_N modulus)%Z -> of_Z (a + b) = fadd (of_Z a) (of_Z b).
Proof.
  intros H.
  assert (forall n : N, of_Z (Z.of_N n) = of_int n) as Hp by (intros []; done).
  assert (forall n : N, of_Z (- Z.of_N n) = fopp (of_int n)) as Hn.
  { intros []; [|done]. simpl. rewrite of_int_0. ring. }
  assert (forall m n : N, (m + n < modulus)%N ->
    of_Z (Z.of_N m + - Z.of_N n) = fadd (of_int m) (fopp (of_int n))) as Hmix.
  { intros m n Hmn. destruct (N.le_ge_cases n m) as [Hle|Hle].
    - replace (Z.of_N m + - Z.of_N n)%Z with (Z.of_N (m - n)) by lia. rewrite Hp.
      replace m with ((m - n) + n)%N at 2 by lia. rewrite (of_int_add (m - n) n) by lia. ring.
    - replace (Z.of_N m + - Z.of_N n)%Z with (- Z.of_N (n - m))%Z by lia. rewrite Hn.
      replace n with ((n - m) + m)%N at 2 by lia. rewrite (of_int_add (n - m) m) by lia. ring. }
  destruct (Z.abs_spec a) as [[Ha Ea]|[Ha Ea]], (Z.abs_spec b) as [[Hb Eb]|[Hb Eb]];
    rewrite Ea, Eb in H.
  - rewrite <-(Z2N.id a), <-(Z2N.id b), <-N2Z.inj_add, !Hp by lia. apply of_int_add. lia.
  - replace b with (- Z.of_N (Z.to_N (- b)))%Z by lia. rewrite <-(Z2N.id a) by lia.
    rewrite Hp, Hn. apply Hmix. lia.
  - replace a with (- Z.of_N (Z.to_N (- a)))%Z by lia. rewrite <-(Z2N.id b) by lia.
    rewrite Hp, Hn, Z.add_comm, Hmix by lia. ring.
  - replace a with (- Z.of_N (Z.to_N (- a)))%Z by lia. replace b with (- Z.of_N (Z.to_N (- b)))%Z by lia.
    rewrite <-Z.opp_add_distr, <-N2Z.inj_add, !Hn, of_int_add by lia. ring.
Qed.

(** An integer below [2^53] has one representation as a normal float. *)
Lemma scaled_unique s m e k p :
  normal_f64 m e -> (Zpos p < 2 ^ 53)%Z -> scaled_is (S754_finite s m e) k (cond_Zopp s (Zpos p)) ->
  m = shl p (norm_exp p) /\ e = (- Z.of_N (norm_exp p) - Z.of_N k)%Z.
Proof.
  intros [Hm _] Hp H. pose proof (digits_53_ge m Hm). unfold scaled_is in H.
  assert (Zpos (digits2_pos p) <= 53)%Z as Hd by (by apply digits_53_lt).
  destruct (Z.leb_spec 0 (e + Z.of_N k)) as [He|He].
  - assert (Zpos p = Zpos m * 2 ^ (e + Z.of_N k))%Z as E by (destruct s; simpl in H; lia).
    assert (e + Z.of_N k = 0)%Z as E0.
    { destruct (Z.eq_dec (e + Z.of_N k)%Z 0%Z); [done|exfalso].
      assert (2 ^ 1 <= 2 ^ (e + Z.of_N k))%Z by (apply Z.pow_le_mono_r; lia). nia. }
    rewrite E0, Z.pow_0_r, Z.mul_1_r in E. injection E as ->.
    unfold norm_exp. rewrite Hm. split; [done|simpl; lia].
  - set (j := Z.to_N (- (e + Z.of_N k))).
    assert (m = shl p j) as Em.
    { apply Pos2Z.inj. rewrite shl_Z. unfold j. rewrite Z2N.id by lia.
      destruct s; simpl cond_Zopp in H; lia. }
    assert (norm_exp p = j) as ->; [|split; [done|unfold j; lia]].
    rewrite Em, digits_shl in Hm. unfold norm_exp. lia.
Qed.

(** Encoding a coordinate of a gradient and decoding it again: a normal float [x] is
    rounded down to the multiple of [2^-k] at or below it, exactly, and comes back
    unchanged if it is such a multiple; its magnitude times [2^k] has to be below [2^53]
    and below half of the modulus. *)
Theorem coordinate_round_trip s m e k :
  let v := floor_scaled s m (e + Z.of_N k) in
  normal_f64 m e -> (Z.abs v < 2 ^ 53)%Z -> (2 * Z.abs v < Z.of_N modulus)%Z -> k <= 52 ->
  exists y, (f ← f64_to_field (S754_finite s m e) (pow2_f64 k); field_to_f64 f (pow2_f64 k)) = Ok y /\
    scaled_is y k v /\
    (scaled_is (S754_finite s m e) k v -> y = S754_finite s m e).
Proof.
  intros v Hn Hv Hm Hk. pose proof modulus_fits. 
  rewrite f64_to_field_floor; [|done|unfold u64_max; lia|lia]. fold v. cbn [mbind res_bind].
  rewrite field_to_f64_of_Z by done. eexists. split; [done|].
  pose proof (fun b p => scaled_normal b p k) as Hs.
  assert (forall b p, (Zpos p < 2 ^ 53)%Z -> v = cond_Zopp b (Zpos p) ->
    scaled_is (S754_finite s m e) k v -> S754_finite b (shl p (norm_exp p))
      (- Z.of_N (norm_exp p) - Z.of_N k) = S754_finite s m e) as Hu.
  { intros b p Hp Ev Hx. assert (s = b) as ->.
    { rewrite Ev in Hx. unfold scaled_is in Hx.
      destruct (0 <=? e + Z.of_N k)%Z; destruct s, b; simpl cond_Zopp in Hx; try done; exfalso;
        try (pose proof (Z.pow_pos_nonneg 2 (e + Z.of_N k)));
        try (pose proof (Z.pow_nonneg 2 (e + Z.of_N k))); try (pose proof (Z.pow_nonneg 2 (- (e + Z.of_N k)))); nia. }
    rewrite Ev in Hx. destruct (scaled_unique b m e k p Hn Hp Hx) as [-> ->]. done. }
  destruct v as [|p|p] eqn:Ev.
  - split; [done|]. intros Hx. exfalso. destruct Hn as [Hd He]. pose proof (digits_53_ge m Hd).
    unfold scaled_is in Hx. destruct (Z.leb_spec 0 (e + Z.of_N k)).
    + pose proof (Z.pow_pos_nonneg 2 (e + Z.of_N k) ltac:(lia) ltac:(lia)).
      destruct s; simpl cond_Zopp in Hx; nia.
    + destruct s; simpl cond_Zopp in Hx; lia.
  - split; [by apply (Hs false)|by apply (Hu false)].
  - split; [by apply (Hs true)|by apply (Hu true)].
Qed.
End Properties.
