(* ===== verification/PineFlp.v ===== *)
(** * The circuits of PINE

    [src/crates/daphne/src/pine/flp.rs]: the encoding of a gradient with its squared norm
    and its wraparound tests ([PineType]), and the two validity circuits [PineType] and
    [PineTypeSquaredNormEqual].  A circuit calls gadgets of [prio], which evaluate an
    arithmetic sub-circuit, record its inputs when a proof is made, or look values up in a
    proof: the circuit is generic in what a call does ([Gadget]).  The XOF from which
    randomness is derived is the class [Xof].

    The [debug_assert] checks of lengths are left out: [PineFlpCorrect] has the lengths. *)

From Stdlib Require Import ZArith.
From S2P Require Import Prelude Codec Messages TaskprovMessages Errors Pine PineField.
From S2P Require Import PineEncoding.

(** ** Slices *)

(** [slice.split_at(mid)] *)
Definition split_at {E A} (mid : N) (l : list A) : res E (list A * list A) :=
  if mid <=? len l then Ok (take (N.to_nat mid) l, drop (N.to_nat mid) l) else Panic.

(** [&slice[..n]] *)
Definition slice_to {E A} (n : N) (l : list A) : res E (list A) :=
  if n <=? len l then Ok (take (N.to_nat n) l) else Panic.

Fixpoint chunks_fuel {A} (fuel k : nat) (l : list A) : list (list A) :=
  match fuel, l with
  | S fuel, _ :: _ => take k l :: chunks_fuel fuel k (drop k l)
  | _, _ => []
  end.

(** [slice.chunks(k)] *)
Definition chunks {E A} (k : N) (l : list A) : res E (list (list A)) :=
  if k =? 0 then Panic else Ok (chunks_fuel (length l) (N.to_nat k) l).

(** [slice.chunks_exact(k)] and its remainder *)
Definition chunks_exact {E A} (k : N) (l : list A) : res E (list (list A)) :=
  if k =? 0 then Panic
  else Ok (chunks_fuel (length l) (N.to_nat k)
             (take (length l / N.to_nat k * N.to_nat k)%nat l)).

Definition chunks_remainder {A} (k : N) (l : list A) : list A :=
  drop (length l / N.to_nat k * N.to_nat k)%nat l.

(** ** The interface of [prio::vdaf::xof] *)
Class Xof `{PrioField} : Type := {
  XofState : Type;
  SeedStream : Type;
  (** [X::init(seed, dst)], [update], [into_seed], [into_seed_stream] *)
  xof_init : list byte -> list byte -> XofState;
  xof_update : XofState -> list byte -> XofState;
  xof_into_seed : XofState -> list byte;
  xof_into_seed_stream : XofState -> SeedStream;
  (** [X::seed_stream(seed, dst, binder)] *)
  xof_seed_stream : list byte -> list byte -> list byte -> SeedStream;
  (** [fill], [into_field_vec] *)
  stream_fill : SeedStream -> N -> list byte;
  into_field_vec : SeedStream -> N -> list felem;
  SEED_SIZE : N;
  (** [Seed<SEED_SIZE>], an array of bytes *)
  Seed_encode : writer (list byte);
  Seed_decode : reader (list byte);
}.

Class XofLaws `{PF : PrioField} (X : Xof) : Prop := {
  xof_seed_size s : len (xof_into_seed s) = SEED_SIZE;
  stream_fill_len s n : len (stream_fill s n) = n;
  into_field_vec_len s n : len (into_field_vec s n) = n;
  Seed_codec :: CodecOk (array SEED_SIZE) Seed_encode Seed_decode;
  Seed_size s bs : writes Seed_encode s bs -> array SEED_SIZE s -> len bs = SEED_SIZE;
  Seed_no_panic :: NoPanic Seed_decode;
}.

(** [Box<dyn Gadget<F>>]: what [call] does with the state of the gadget. *)
Class Gadget `{PrioField} (G : Type) : Type :=
  gadget_call : list felem -> stm G FlpError felem.

Definition USAGE_WR_JOINT_RAND : N := 8.

Section Circuits.
Context `{BP : BuildProfile} `{PF : PrioField} `{PX : !Xof}.

Definition range_checked (x lower_bound upper_bound : felem) : bool * felem * felem :=
  let v := fsub x lower_bound in
  let u := fsub upper_bound x in
  let is_in_range := to_int v <=? to_int (fsub upper_bound lower_bound) in
  (is_in_range, v, u).

(** ** Encoding *)

(** The loop over the coordinates: the buffer, the squared norm and the length. *)
Fixpoint encode_coordinates (two_to_frac_bits : f64) (gradient : list f64) (meas : list felem)
    (sq_norm : felem) (gradient_len : N) : res PrioVdafError (list felem * felem * N) :=
  match gradient with
  | [] => Ok (meas, sq_norm, gradient_len)
  | x :: gradient =>
      encoded_x ← f64_to_field x two_to_frac_bits;
      encode_coordinates two_to_frac_bits gradient (meas ++ [encoded_x])
        (fadd sq_norm (fmul encoded_x encoded_x)) (gradient_len + 1)
  end.

Definition append_encoded_gradient (self : PineType) (meas : list felem) (gradient : list f64) :
    res PrioVdafError (list felem) :=
  two_to_frac_bits ← two_to_frac_bits (PineType_frac_bits self);
  '(meas, sq_norm, gradient_len) ← encode_coordinates two_to_frac_bits gradient meas f0 0;
  if negb (gradient_len =? PineType_dimension self) then
    Err (Uncategorized (Text "gradient encoding failed: gradient has unexpected dimension"))
  else
  let '(_, v, u) := range_checked sq_norm f0 (of_int (PineType_sq_norm_bound self)) in
  v_bits ← map_err PrioVdafError_Field (encode_as_bitvector (to_int v) (PineType_sq_norm_bits self));
  u_bits ← map_err PrioVdafError_Field (encode_as_bitvector (to_int u) (PineType_sq_norm_bits self));
  Ok (meas ++ v_bits ++ u_bits).

(** [match r & 3 { 0 => *acc -= *x, 3 => *acc += *x, _ => () }; r >>= 2] for each [x] *)
Fixpoint wr_test_chunk (acc : felem) (r : N) (xs : list felem) : felem :=
  match xs with
  | [] => acc
  | x :: xs =>
      let acc := match N.land r 3 with
                 | 0 => fsub acc x
                 | 3 => fadd acc x
                 | _ => acc
                 end in
      wr_test_chunk acc (N.shiftr r 2) xs
  end.

(** One wraparound test. *)
Definition wr_test {E} (gradient : list felem) (rand_per_test : list byte) : res E felem :=
  gradient_chunks ← chunks_exact 4 gradient;
  let acc := fold_left (fun acc '(chunk, r) => wr_test_chunk acc (Byte.to_N r) chunk)
               (zip gradient_chunks rand_per_test) f0 in
  r ← unwrap (last rand_per_test);
  Ok (wr_test_chunk acc (Byte.to_N r) (chunks_remainder 4 gradient)).

Fixpoint wr_tests {E} (gradient : list felem) (n : nat) (rand : list (list byte)) :
    res E (list felem) :=
  match n, rand with
  | S n, rand_per_test :: rand =>
      x ← wr_test gradient rand_per_test;
      xs ← wr_tests gradient n rand;
      Ok (x :: xs)
  | _, _ => Ok (replicate n f0)
  end.

Definition run_wr_tests {E} (self : PineType) (gradient : list felem)
    (wr_joint_rand_seed : list byte) : res E (list felem) :=
  let xof := xof_seed_stream wr_joint_rand_seed
               (dst (PineType_algorithm_id self) USAGE_WR_JOINT_RAND) [] in
  rand_len_per_test ← chunk_count 4 (PineType_dimension self);
  rand_len ← u64_mul rand_len_per_test (PineType_num_wr_tests self);
  rand_chunks ← chunks rand_len_per_test (stream_fill xof rand_len);
  wr_tests gradient (N.to_nat (PineType_num_wr_tests self)) rand_chunks.

(** The loop over the test results: the buffer and the number of successes. *)
Fixpoint append_results (self : PineType) (wr_test_results meas : list felem)
    (wr_success_count : N) : res PrioVdafError (list felem * N) :=
  match wr_test_results with
  | [] => Ok (meas, wr_success_count)
  | wr_test_result :: wr_test_results =>
      let wr_test_bound := of_int (PineType_wr_test_bound self) in
      let '(in_range, v, _) :=
        range_checked wr_test_result (fadd (fopp wr_test_bound) f1) wr_test_bound in
      v_bits ← map_err PrioVdafError_Field
                 (encode_as_bitvector (to_int v) (PineType_wr_test_bits self));
      if in_range && (wr_success_count <? PineType_num_wr_successes self) then
        append_results self wr_test_results (meas ++ v_bits ++ [f1]) (wr_success_count + 1)
      else
        append_results self wr_test_results (meas ++ v_bits ++ [f0]) wr_success_count
  end.

(** The new buffer and the test results. *)
Definition append_wr_test_results (self : PineType) (meas : list felem)
    (wr_joint_rand_seed : list byte) : res PrioVdafError (list felem * list felem) :=
  gradient ← slice_to (PineType_dimension self) meas;
  wr_test_results ← run_wr_tests self gradient wr_joint_rand_seed;
  '(meas, wr_success_count) ← append_results self wr_test_results meas 0;
  if negb (wr_success_count =? PineType_num_wr_successes self) then
    Err (Uncategorized (Text "append wraparound tests failed: insufficient number of successes"))
  else Ok (meas, wr_test_results).

Definition encode_with_wr_joint_rand (self : PineType) (gradient : list f64)
    (wr_joint_rand_seed : list byte) : res PrioVdafError (list felem * list felem) :=
  meas ← append_encoded_gradient self [] gradient;
  append_wr_test_results self meas wr_joint_rand_seed.

(** ** The main circuit *)
Section Valid.
Context `{GA : !Gadget G}.

(** [buf], filled with zeros up to its capacity. *)
Definition pad (capacity : N) (buf : list felem) : list felem :=
  buf ++ replicate (N.to_nat capacity - length buf) f0.

(** What a chunk of the bit checks puts into the buffer, and the next power. *)
Fixpoint bit_check_chunk (r_bit_check shares_inv r_power : felem) (chunk : list felem) :
    list felem * felem :=
  match chunk with
  | [] => ([], r_power)
  | x :: chunk =>
      let '(buf, r_power') :=
        bit_check_chunk r_bit_check shares_inv (fmul r_power r_bit_check) chunk in
      (fmul r_power x :: fsub x shares_inv :: buf, r_power')
  end.

Fixpoint bit_check_chunks (self : PineType) (r_bit_check shares_inv r_power acc : felem)
    (chunks : list (list felem)) : stm G FlpError felem :=
  match chunks with
  | [] => mret acc
  | chunk :: chunks =>
      let '(buf, r_power) := bit_check_chunk r_bit_check shares_inv r_power chunk in
      y ← gadget_call (pad (PineType_chunk_len self * 2) buf);
      bit_check_chunks self r_bit_check shares_inv r_power (fadd acc y) chunks
  end.

Definition eval_bit_checks (self : PineType) (bit_checked : list felem)
    (r_bit_check shares_inv : felem) : stm G FlpError felem :=
  chunks ← lift (chunks (PineType_chunk_len self) bit_checked);
  bit_check_chunks self r_bit_check shares_inv f1 f0 chunks.

(** The loop over the wraparound tests: the buffer, the sums and the next power. *)
Fixpoint wr_check_loop (self : PineType) (r_wr_test wr_test_bound : felem)
    (tests : list (list felem * felem)) (buf : list felem)
    (r_power wr_success_count wr_tests_result : felem) :
    stm G FlpError (list felem * felem * felem) :=
  match tests with
  | [] => mret (buf, wr_success_count, wr_tests_result)
  | (bits, wr_test_result) :: tests =>
      wr_test_v_bits ← lift (slice_to (PineType_wr_test_bits self) bits);
      wr_test_v ← lift (map_err FlpError_Field (decode_bitvector wr_test_v_bits));
      wr_test_g ← lift (unwrap (bits !! N.to_nat (PineType_wr_test_bits self)));
      let buf := buf ++ [fmul r_power (fadd (fsub wr_test_result wr_test_v) wr_test_bound); wr_test_g] in
      let wr_success_count := fadd wr_success_count wr_test_g in
      let r_power := fmul r_power r_wr_test in
      if len buf =? PineType_chunk_len self * 2 then
        y ← gadget_call buf;
        wr_check_loop self r_wr_test wr_test_bound tests [] r_power wr_success_count
          (fadd wr_tests_result y)
      else
        wr_check_loop self r_wr_test wr_test_bound tests buf r_power wr_success_count
          wr_tests_result
  end.

Definition eval_wr_checks (self : PineType) (wr_test_bits wr_test_results : list felem)
    (r_wr_test shares_inv : felem) : stm G FlpError (felem * felem) :=
  let wr_test_bound := fmul (fsub (of_int (PineType_wr_test_bound self)) f1) shares_inv in
  bits ← lift (chunks_exact (PineType_wr_test_bits self + 1) wr_test_bits);
  '(buf, wr_success_count, wr_tests_result) ←
    wr_check_loop self r_wr_test wr_test_bound (zip bits wr_test_results) [] f1 f0 f0;
  wr_tests_result ←
    match buf with
    | [] => mret wr_tests_result
    | _ => y ← gadget_call (pad (PineType_chunk_len self * 2) buf);
           mret (fadd wr_tests_result y)
    end;
  num_wr_successes ← lift (
    if PineType_num_wr_successes self <=? Field_integer_max felem_field
    then Ok (PineType_num_wr_successes self)
    else Err (FlpError_Valid (Text "num_wr_successes is too large for field")));
  mret (wr_tests_result, fsub wr_success_count (fmul (of_int num_wr_successes) shares_inv)).

Definition eval_norm_range_check (self : PineType) (sq_norm_v_bits sq_norm_u_bits : list felem)
    (shares_inv : felem) : stm G FlpError felem :=
  sq_norm_v ← lift (map_err FlpError_Field (decode_bitvector sq_norm_v_bits));
  sq_norm_u ← lift (map_err FlpError_Field (decode_bitvector sq_norm_u_bits));
  mret (fsub (fadd sq_norm_v sq_norm_u)
          (fmul (of_int (PineType_sq_norm_bound self)) shares_inv)).

(** [F::from(F::Integer::try_from(num_shares).unwrap()).inv()] *)
Definition shares_inv_of {E} (num_shares : N) : res E felem :=
  if num_shares <=? Field_integer_max felem_field then Ok (finv (of_int num_shares)) else Panic.

Definition PineType_valid (self : PineType) (meas joint_rand : list felem) (num_shares : N) :
    stm G FlpError felem :=
  shares_inv ← lift (shares_inv_of num_shares);
  '(_, rest) ← lift (split_at (PineType_dimension self) meas);
  '(bit_checked, rest) ← lift (split_at (PineType_bit_checked_len self) rest);
  '(wr_test_results, rest) ← lift (split_at (PineType_num_wr_tests self) rest);
  _ ← lift (match rest with [] => Ok tt | _ => Panic end);
  '(sq_norm_v_bits, rest) ← lift (split_at (PineType_sq_norm_bits self) bit_checked);
  '(sq_norm_u_bits, rest) ← lift (split_at (PineType_sq_norm_bits self) rest);
  '(wr_test_bits, rest) ←
    lift (split_at (PineType_num_wr_tests self * (PineType_wr_test_bits self + 1)) rest);
  _ ← lift (match rest with [] => Ok tt | _ => Panic end);
  '(r_bit_check, r_wr_test, r_final) ←
    lift (match joint_rand with [r1; r2; r3] => Ok (r1, r2, r3) | _ => Panic end);
  bit_check_result ← eval_bit_checks self bit_checked r_bit_check shares_inv;
  '(wr_tests_result, wr_success_count_check_result) ←
    eval_wr_checks self wr_test_bits wr_test_results r_wr_test shares_inv;
  sq_norm_range_check_result ←
    eval_norm_range_check self sq_norm_v_bits sq_norm_u_bits shares_inv;
  let result := bit_check_result in
  let r_power := r_final in
  let result := fadd result (fmul r_power sq_norm_range_check_result) in
  let r_power := fmul r_power r_final in
  let result := fadd result (fmul r_power wr_tests_result) in
  let r_power := fmul r_power r_final in
  let result := fadd result (fmul r_power wr_success_count_check_result) in
  mret result.

(** ** The circuit of the squared norm *)
Fixpoint sq_norm_chunks (self : PineTypeSquaredNormEqual) (acc : felem)
    (chunks : list (list felem)) : stm G FlpError felem :=
  match chunks with
  | [] => mret acc
  | chunk :: chunks =>
      y ← gadget_call (pad (PineTypeSNE_chunk_len self) chunk);
      sq_norm_chunks self (fadd acc y) chunks
  end.

Definition PineTypeSNE_valid (self : PineTypeSquaredNormEqual) (meas : list felem) :
    stm G FlpError felem :=
  '(encoded_gradient, rest) ← lift (split_at (PineTypeSNE_dimension self) meas);
  '(sq_norm_v_bits, _) ← lift (split_at (PineTypeSNE_sq_norm_bits self) rest);
  chunks ← lift (chunks (PineTypeSNE_chunk_len self) encoded_gradient);
  sq_norm ← sq_norm_chunks self f0 chunks;
  sq_norm_v ← lift (map_err FlpError_Field (decode_bitvector sq_norm_v_bits));
  mret (fsub sq_norm_v sq_norm).
End Valid.

(** ** The rest of the trait [Type] *)
Definition PineType_truncate (self : PineType) (input : list felem) : res FlpError (list felem) :=
  Ok (take (N.to_nat (PineType_dimension self)) input).

Fixpoint decode_all (two_to_frac_bits : f64) (data : list felem) : res PrioVdafError (list f64) :=
  match data with
  | [] => Ok []
  | encoded :: data =>
      x ← field_to_f64 encoded two_to_frac_bits;
      xs ← decode_all two_to_frac_bits data;
      Ok (x :: xs)
  end.

Definition PineType_decode_result (self : PineType) (data : list felem) : res FlpError (list f64) :=
  two_to_frac_bits ← two_to_frac_bits (PineType_frac_bits self);
  map_err (fun _ => FlpError_Decode (Fmt "{e}" [ArgOpaque])) (decode_all two_to_frac_bits data).

Definition gadget_proof_len {E} (arity chunk_len gadget_calls : N) : res E N :=
  a ← u64_mul arity chunk_len;
  g ← u64_add 1 gadget_calls;
  p ← next_power_of_two g;
  p ← u64_sub p 1;
  p ← u64_mul 2 p;
  s ← u64_add a p;
  u64_add s 1.

Definition PineType_proof_len {E} (self : PineType) : res E N :=
  gadget_proof_len 2 (PineType_chunk_len self) (PineType_gadget_calls self).
Definition PineType_verifier_len {E} (self : PineType) : res E N :=
  a ← u64_mul 2 (PineType_chunk_len self); u64_add a 2.
Definition PineType_output_len (self : PineType) : N := PineType_dimension self.
Definition PineType_joint_rand_len : N := 3.
Definition PineType_prove_rand_len {E} (self : PineType) : res E N :=
  u64_mul (PineType_chunk_len self) 2.
Definition PineType_query_rand_len : N := 1.

Definition PineTypeSNE_proof_len {E} (self : PineTypeSquaredNormEqual) : res E N :=
  gadget_proof_len 1 (PineTypeSNE_chunk_len self) (PineTypeSNE_gadget_calls self).
Definition PineTypeSNE_verifier_len {E} (self : PineTypeSquaredNormEqual) : res E N :=
  u64_add (PineTypeSNE_chunk_len self) 2.
Definition PineTypeSNE_joint_rand_len : N := 0.
Definition PineTypeSNE_prove_rand_len (self : PineTypeSquaredNormEqual) : N :=
  PineTypeSNE_chunk_len self.
Definition PineTypeSNE_query_rand_len : N := 1.
End Circuits.
