(* ===== verification/PineFlpCorrect.v ===== *)
(** * What the circuits of PINE compute

    With gadgets that evaluate their sub-circuit, the two circuits of [PineFlp] are sums of
    polynomials in the joint randomness ([PineType_valid_eq], [PineTypeSNE_valid_eq]).  From
    that follow completeness, for a measurement that [PineType] encodes, and soundness, for a
    measurement that is accepted with enough joint randomness. *)

From S2P Require Import Prelude Codec Messages TaskprovMessages Errors Pine PineField.
From S2P Require Import PineEncoding PineFlp.

(** ** Calls that return *)
Definition of_len {A} (n : N) (l : list A) : Prop := len l = n.

(** A call that returns; its value satisfies [P]. *)
Definition returns {E A} (P : A -> Prop) (r : res E A) : Prop :=
  match r with Ok a => P a | Err _ => True | Panic => False end.

Lemma returns_bind {E A B} (P : A -> Prop) (Q : B -> Prop) (m : res E A) (f : A -> res E B) :
  returns P m -> (forall a, P a -> returns Q (f a)) -> returns Q (m ≫= f).
Proof. destruct m as [a|e|]; [|done..]. intros Ha Hf. by apply Hf. Qed.

Lemma returns_ok {E A} (P : A -> Prop) (m : res E A) (a : A) : m = Ok a -> P a -> returns P m.
Proof. by intros ->. Qed.

Lemma returns_mono {E A} (P Q : A -> Prop) (m : res E A) :
  returns P m -> (forall a, P a -> Q a) -> returns Q m.
Proof. destruct m; cbn; auto. Qed.

Lemma returns_map_err {E E' A} (P : A -> Prop) (f : E -> E') (m : res E A) :
  returns P m -> returns P (map_err f m).
Proof. by destruct m. Qed.

Lemma no_panic_returns_any {E A} (m : res E A) : m <> Panic <-> returns (fun _ => True) m.
Proof. by destruct m. Qed.

Lemma chunks_exact_returns {E A} k (l : list A) :
  0 < k -> returns (E:=E) (fun _ => True) (chunks_exact k l).
Proof. intros Hk. unfold chunks_exact. by rewrite (proj2 (N.eqb_neq _ _)) by lia. Qed.

(** ** Slices *)
Lemma split_at_app {E A} n (l k : list A) : len l = n -> split_at (E:=E) n (l ++ k) = Ok (l, k).
Proof.
  intros <-. unfold split_at, len. rewrite length_app.
  rewrite (proj2 (N.leb_le _ _)) by lia. rewrite Nat2N.id.
  by rewrite take_app_length, drop_app_length.
Qed.

Lemma split_at_all {E A} n (l : list A) : len l = n -> split_at (E:=E) n l = Ok (l, []).
Proof. intros H. rewrite <-(app_nil_r l) at 1. by apply split_at_app. Qed.

Lemma split_at_Ok {E A} n (l a b : list A) :
  split_at (E:=E) n l = Ok (a, b) <-> l = a ++ b /\ len a = n.
Proof.
  split.
  - unfold split_at. destruct (N.leb_spec n (len l)) as [H|]; [|done]. intros [= <- <-].
    split; [by rewrite take_drop|]. unfold len in *. rewrite length_take. lia.
  - intros [-> H]. by apply split_at_app.
Qed.

Lemma slice_to_app {E A} n (l k : list A) : len l = n -> slice_to (E:=E) n (l ++ k) = Ok l.
Proof.
  intros <-. unfold slice_to, len. rewrite length_app, (proj2 (N.leb_le _ _)) by lia.
  by rewrite Nat2N.id, take_app_length.
Qed.

Lemma chunks_join {A} fuel k (l : list A) :
  (0 < k)%nat -> (length l <= fuel)%nat -> mjoin (chunks_fuel fuel k l) = l.
Proof.
  intros Hk. revert l. induction fuel as [|fuel IH]; intros [|x l] Hl; try done; [simpl in Hl; lia|].
  cbn [chunks_fuel]. change (mjoin (?a :: ?b)) with (a ++ mjoin b). rewrite IH.
  - by rewrite take_drop.
  - rewrite length_drop. simpl in *. lia.
Qed.

Lemma chunks_length {A} fuel k (l : list A) :
  Forall (fun c => length c <= k)%nat (chunks_fuel fuel k l).
Proof.
  revert l. induction fuel as [|fuel IH]; intros [|x l]; cbn [chunks_fuel]; try done.
  constructor; [|apply IH]. rewrite length_take. lia.
Qed.

(** Chunks of equal lengths are found again. *)
Lemma chunks_of_join {A} fuel k (ls : list (list A)) :
  (0 < k)%nat -> Forall (fun c => length c = k) ls -> (length (mjoin ls) <= fuel)%nat ->
  chunks_fuel fuel k (mjoin ls) = ls.
Proof.
  intros Hk H. revert fuel. induction H as [|c ls Hc H IH]; intros fuel Hf; [by destruct fuel|].
  change (mjoin (c :: ls)) with (c ++ mjoin ls) in *. rewrite length_app in Hf.
  destruct c as [|x c]; [simpl in Hc; lia|]. destruct fuel as [|fuel]; [simpl in Hf; lia|].
  cbn [app chunks_fuel]. rewrite app_comm_cons, take_app_length', drop_app_length' by done.
  f_equal. apply IH. simpl in Hf. lia.
Qed.

Lemma length_mjoin_const {A} k (ls : list (list A)) :
  Forall (fun c => length c = k) ls -> length (mjoin ls) = (length ls * k)%nat.
Proof.
  induction 1 as [|c ls Hc _ IH]; [done|]. change (mjoin (c :: ls)) with (c ++ mjoin ls).
  rewrite length_app, IH, Hc. simpl. lia.
Qed.

(** A list whose length is a multiple of [k] is cut into pieces of length [k]. *)
Lemma chunks_exact_length {A} fuel k (l : list A) n :
  (0 < k)%nat -> length l = (n * k)%nat -> (length l <= fuel)%nat ->
  Forall (fun c => length c = k) (chunks_fuel fuel k l) /\ length (chunks_fuel fuel k l) = n.
Proof.
  intros Hk. revert l n. induction fuel as [|fuel IH]; intros l n Hl Hf.
  - assert (n = 0)%nat as -> by nia. by destruct l.
  - destruct l as [|x l]; [assert (n = 0)%nat as -> by (simpl in Hl; nia); done|].
    destruct n as [|n]; [simpl in Hl; lia|]. cbn [chunks_fuel].
    destruct (IH (drop k (x :: l)) n) as [H1 H2].
    + rewrite length_drop, Hl. lia.
    + rewrite length_drop. simpl in *. lia.
    + split; [constructor; [rewrite length_take; lia|done]|]. cbn [length]. by rewrite H2.
Qed.

Lemma chunks_exact_Ok {E A} k n (l : list A) :
  0 < k -> len l = n * k ->
  exists cs, chunks_exact (E:=E) k l = Ok cs /\ mjoin cs = l /\
    Forall (fun c => len c = k) cs /\ len cs = n.
Proof.
  intros Hk Hl. unfold chunks_exact. rewrite (proj2 (N.eqb_neq _ _)) by lia.
  assert (length l = (N.to_nat n * N.to_nat k)%nat) as Hn by (unfold len in Hl; lia).
  assert (length l / N.to_nat k * N.to_nat k = length l)%nat as E0.
  { rewrite Hn at 1. rewrite Nat.div_mul by lia. lia. }
  rewrite E0, take_ge by lia. eexists. split; [done|].
  destruct (chunks_exact_length (length l) (N.to_nat k) l (N.to_nat n)) as [H1 H2]; try lia.
  split; [apply chunks_join; lia|]. split; [|unfold len; lia].
  eapply Forall_impl; [exact H1|]. unfold len. simpl. intros. lia.
Qed.

Lemma chunks_exact_unique {E A} k (cs : list (list A)) :
  0 < k -> Forall (fun c => len c = k) cs -> chunks_exact (E:=E) k (mjoin cs) = Ok cs.
Proof.
  intros Hk Hc.
  assert (Forall (fun c => length c = N.to_nat k) cs) as Hc'.
  { eapply Forall_impl; [exact Hc|]. unfold len. simpl. intros. lia. }
  pose proof (length_mjoin_const _ _ Hc') as Hl. unfold chunks_exact.
  rewrite (proj2 (N.eqb_neq _ _)) by lia. rewrite Hl at 2. rewrite Nat.div_mul by lia.
  rewrite take_ge by lia. f_equal. apply chunks_of_join; [lia|done|lia].
Qed.

(** ** The gadgets *)
Section Gadgets.
Context `{PF : PrioField} {PL : PrioFieldLaws PF}.
Add Ring felem_ring_flp : (felem_ring).
Open Scope felem_scope.

(** What [ParallelSum<Mul>] evaluates to. *)
Fixpoint sum_pairs (l : list felem) : felem :=
  match l with
  | x :: y :: l => x * y + sum_pairs l
  | _ => 0
  end.

(** What [ParallelSum<PolyEval>] of the square evaluates to. *)
Definition sum_squares (l : list felem) : felem := fsum ((fun x => x * x) <$> l).

(** A gadget that computes [f] on inputs of length [n]. *)
Definition evaluates {G} `{GA : !Gadget G} (f : list felem -> felem) (n : N) : Prop :=
  forall buf s, len buf = n -> exists s', gadget_call buf s = (Ok (f buf), s').

Fixpoint fpow (r : felem) (n : nat) : felem :=
  match n with O => 1 | S n => r * fpow r n end.

Lemma peval_app_pow r l k : peval r (l ++ k) = peval r l + fpow r (length l) * peval r k.
Proof. induction l as [|c l IH]; simpl; [ring|]. rewrite IH. ring. Qed.

Lemma sum_pairs_pad l n : Nat.even (length l) = true -> sum_pairs (l ++ replicate n 0) = sum_pairs l.
Proof.
  intros Hl. assert (forall m, sum_pairs (replicate m 0) = 0) as Hz.
  { fix IH 1. intros [|[|m]]; [done|done|]. simpl. rewrite IH. ring. }
  revert l Hl. fix IH 1. intros [|x [|y l]] Hl; [apply Hz|done|].
  simpl. f_equal. by apply IH.
Qed.

Lemma sum_pairs_app l k : Nat.even (length l) = true -> sum_pairs (l ++ k) = sum_pairs l + sum_pairs k.
Proof.
  revert l. fix IH 1. intros [|x [|y l]] Hl; [simpl; ring|done|].
  simpl. rewrite IH by done. ring.
Qed.

Lemma sum_squares_pad l n : sum_squares (l ++ replicate n 0) = sum_squares l.
Proof.
  unfold sum_squares. rewrite fmap_app, fsum_app, fmap_replicate.
  replace (0 * 0) with 0 by ring. rewrite fsum_zeros. ring.
Qed.

Lemma len_pad n l : len l <= n -> len (pad n l) = n.
Proof. unfold pad, len. rewrite length_app, length_replicate. lia. Qed.
End Gadgets.

(** ** The value of the circuits *)
Section Circuits.
Context `{BP : BuildProfile} `{PF : PrioField} {PL : PrioFieldLaws PF} `{PX : !Xof}.
Context {G : Type} `{GA : !Gadget G}.
Add Ring felem_ring_val : (felem_ring).
Open Scope felem_scope.

Definition bit_term (inv x : felem) : felem := x * (x - inv).

Lemma bit_check_chunk_eq r inv pw chunk buf pw' :
  bit_check_chunk r inv pw chunk = (buf, pw') ->
  sum_pairs buf = pw * peval r (bit_term inv <$> chunk) /\
  pw' = pw * fpow r (length chunk) /\ length buf = (2 * length chunk)%nat.
Proof.
  revert pw buf pw'. induction chunk as [|x chunk IH]; intros pw buf pw' H; simpl in H.
  - injection H as <- <-. split_and!; simpl; [ring|ring|done].
  - destruct (bit_check_chunk r inv (pw * r) chunk) as [buf1 pw1] eqn:E. injection H as <- <-.
    apply IH in E as (E1 & -> & E2). split_and!; [|cbn [length fpow]; ring|simpl; lia].
    rewrite fmap_cons. cbn [sum_pairs peval]. rewrite E1. unfold bit_term at 2. ring.
Qed.

Lemma even_double n : Nat.even (2 * n) = true.
Proof. apply Nat.even_spec. by exists n. Qed.

Lemma bit_check_chunks_eq self r inv cs :
  evaluates sum_pairs (PineType_chunk_len self * 2) ->
  Forall (fun c => len c <= PineType_chunk_len self) cs ->
  forall pw acc s, exists s', bit_check_chunks self r inv pw acc cs s
    = (Ok (acc + pw * peval r (bit_term inv <$> mjoin cs)), s').
Proof.
  intros HG. induction 1 as [|c cs Hc _ IH]; intros pw acc s; cbn [bit_check_chunks].
  - exists s. unfold mret, stm_ret. do 2 f_equal. simpl. ring.
  - destruct (bit_check_chunk r inv pw c) as [buf pw'] eqn:E.
    apply bit_check_chunk_eq in E as (E1 & -> & E2).
    destruct (HG (pad (PineType_chunk_len self * 2) buf) s) as [s1 H1].
    { apply len_pad. unfold len in *. lia. }
    destruct (IH (pw * fpow r (length c)) (acc + sum_pairs (pad (PineType_chunk_len self * 2) buf)) s1)
      as [s2 H2].
    exists s2. unfold mbind, stm_bind. rewrite H1, H2. do 2 f_equal.
    unfold pad. rewrite sum_pairs_pad by (rewrite E2; apply even_double). rewrite E1.
    change (mjoin (c :: cs)) with (c ++ mjoin cs). rewrite fmap_app, peval_app_pow, length_fmap. ring.
Qed.

Lemma eval_bit_checks_eq self bs r inv s :
  evaluates sum_pairs (PineType_chunk_len self * 2) -> 0 < PineType_chunk_len self ->
  exists s', eval_bit_checks self bs r inv s = (Ok (peval r (bit_term inv <$> bs)), s').
Proof.
  intros HG Hk. unfold eval_bit_checks, chunks. rewrite (proj2 (N.eqb_neq _ _)) by lia.
  destruct (bit_check_chunks_eq self r inv
    (chunks_fuel (length bs) (N.to_nat (PineType_chunk_len self)) bs) HG) with (pw := 1) (acc := 0) (s := s)
    as [s' H].
  { eapply Forall_impl; [apply chunks_length|]. unfold len. simpl. intros. lia. }
  exists s'. unfold mbind, stm_bind, lift. rewrite H, chunks_join by lia. do 2 f_equal. ring.
Qed.

(** A wraparound test: the bits of the reported value, the success bit and the result. *)
Definition wr_entry : Type := list felem * felem * felem.
Definition entry_v (t : wr_entry) : felem := bits_value t.1.1.
Definition entry_g (t : wr_entry) : felem := t.1.2.
Definition entry_x (t : wr_entry) : felem := t.2.
Definition entry_bits (t : wr_entry) : list felem := t.1.1 ++ [entry_g t].
Definition wr_term (bound : felem) (t : wr_entry) : felem :=
  (entry_x t - entry_v t + bound) * entry_g t.

Lemma wr_check_loop_eq self r bound ts :
  evaluates sum_pairs (PineType_chunk_len self * 2) -> 0 < PineType_chunk_len self ->
  valid_integer_bitlength (PineType_wr_test_bits self) = true ->
  Forall (fun t => len t.1.1 = PineType_wr_test_bits self) ts ->
  forall buf pw cnt res s,
    Nat.even (length buf) = true -> len buf < PineType_chunk_len self * 2 ->
    exists buf' res' s',
      wr_check_loop self r bound ((fun t => (entry_bits t, entry_x t)) <$> ts) buf pw cnt res s
      = (Ok (buf', cnt + fsum (entry_g <$> ts), res'), s') /\
      Nat.even (length buf') = true /\ len buf' < PineType_chunk_len self * 2 /\
      res' + sum_pairs buf' = res + sum_pairs buf + pw * peval r (wr_term bound <$> ts).
Proof.
  intros HG Hk Hv. induction 1 as [|[[vb g] x] ts Ht _ IH]; intros buf pw cnt res s He Hl.
  - exists buf, res, s. simpl. split_and!; [|done|done|ring].
    unfold mret, stm_ret. do 4 f_equal. ring.
  - cbn [fst] in Ht. rewrite fmap_cons. cbn [wr_check_loop].
    change (entry_bits (vb, g, x)) with (vb ++ [g]). change (entry_x (vb, g, x)) with x.
    unfold mbind at 1, stm_bind at 1, lift at 1. rewrite slice_to_app by done.
    unfold mbind at 1, stm_bind at 1, lift at 1. rewrite decode_bitvector_ok by (by rewrite Ht).
    cbn [map_err]. unfold mbind at 1, stm_bind at 1, lift at 1.
    assert ((vb ++ [g]) !! N.to_nat (PineType_wr_test_bits self) = Some g) as ->.
    { rewrite <-Ht. unfold len. rewrite Nat2N.id. by rewrite lookup_app_r, Nat.sub_diag by lia. }
    cbn [unwrap]. set (e := [pw * (x - bits_value vb + bound); g]).
    assert (Nat.even (length (buf ++ e)) = true) as He'.
    { rewrite length_app, Nat.even_add, He. done. }
    assert (sum_pairs (buf ++ e) = sum_pairs buf + pw * wr_term bound (vb, g, x)) as Hs.
    { rewrite sum_pairs_app by done. unfold e, wr_term, entry_x, entry_v, entry_g. simpl. ring. }
    rewrite !fmap_cons. cbn [peval fsum]. destruct (N.eqb_spec (len (buf ++ e)) (PineType_chunk_len self * 2)) as [Hf|Hf].
    + destruct (HG (buf ++ e) s Hf) as [s1 H1]. unfold mbind at 1, stm_bind at 1. rewrite H1.
      destruct (IH [] (pw * r) (cnt + g) (res + sum_pairs (buf ++ e)) s1) as (buf' & res' & s' & -> & B & C & D);
        [done|rewrite len_nil; lia|].
      exists buf', res', s'. split_and!; [|done|done|].
      * do 4 f_equal. unfold entry_g at 2. simpl. ring.
      * rewrite D, Hs. simpl. ring.
    + destruct (IH (buf ++ e) (pw * r) (cnt + g) res s) as (buf' & res' & s' & -> & B & C & D); [done| |].
      { assert (exists n, length (buf ++ e) = 2 * n)%nat as [n Hn] by (by apply Nat.even_spec).
        unfold len in *. rewrite length_app in *. cbn [e length] in *.
        apply Nat.even_spec in He as [m Hm]. lia. }
      exists buf', res', s'. split_and!; [|done|done|].
      * do 4 f_equal. unfold entry_g at 2. simpl. ring.
      * rewrite D, Hs. simpl. ring.
Qed.

Lemma eval_wr_checks_eq self ts r inv s :
  evaluates sum_pairs (PineType_chunk_len self * 2) -> 0 < PineType_chunk_len self ->
  valid_integer_bitlength (PineType_wr_test_bits self) = true ->
  PineType_num_wr_successes self <= Field_integer_max felem_field ->
  Forall (fun t => len t.1.1 = PineType_wr_test_bits self) ts ->
  let bound := (of_int (PineType_wr_test_bound self) - 1) * inv in
  exists s', eval_wr_checks self (mjoin (entry_bits <$> ts)) (entry_x <$> ts) r inv s
    = (Ok (peval r (wr_term bound <$> ts),
           fsum (entry_g <$> ts) - of_int (PineType_num_wr_successes self) * inv), s').
Proof.
  intros HG Hk Hv Hn Hts bound. unfold eval_wr_checks.
  rewrite chunks_exact_unique; [|lia|].
  2:{ apply Forall_fmap. eapply Forall_impl; [exact Hts|]. intros t Ht. unfold entry_bits. simpl.
      rewrite len_app, Ht, len_cons, len_nil. lia. }
  unfold mbind at 1, stm_bind at 1, lift at 1.
  assert (zip (entry_bits <$> ts) (entry_x <$> ts) = (fun t => (entry_bits t, entry_x t)) <$> ts) as ->.
  { clear. induction ts as [|t ts IH]; [done|]. rewrite !fmap_cons. simpl. by rewrite IH. }
  destruct (wr_check_loop_eq self r bound ts HG Hk Hv Hts [] 1 0 0 s)
    as (buf & res & s1 & H1 & He & Hl & Hr); [done|rewrite len_nil; lia|].
  unfold mbind, stm_bind, lift. fold bound. rewrite H1, (proj2 (N.leb_le _ _) Hn).
  assert (res + sum_pairs buf = peval r (wr_term bound <$> ts)) as Hr' by (rewrite Hr; simpl; ring).
  destruct buf as [|b buf].
  - exists s1. unfold mret, stm_ret. do 3 f_equal; [|ring]. rewrite <-Hr'. simpl. ring.
  - destruct (HG (pad (PineType_chunk_len self * 2) (b :: buf)) s1) as [s2 H2].
    { apply len_pad. lia. }
    exists s2. rewrite H2. unfold mret, stm_ret. do 3 f_equal; [|ring]. rewrite <-Hr'.
    unfold pad. by rewrite sum_pairs_pad.
Qed.

(** *** The whole circuits *)

(** The input of the circuits: the gradient, the bits of the squared norm and of its distance
    to the bound, the tests. *)
Definition pine_meas (grad vb ub : list felem) (ts : list wr_entry) : list felem :=
  grad ++ (vb ++ ub ++ mjoin (entry_bits <$> ts)) ++ (entry_x <$> ts).

Record meas_shape (self : PineType) (grad vb ub : list felem) (ts : list wr_entry) : Prop := {
  shape_grad : len grad = PineType_dimension self;
  shape_vb : len vb = PineType_sq_norm_bits self;
  shape_ub : len ub = PineType_sq_norm_bits self;
  shape_ts : len ts = PineType_num_wr_tests self;
  shape_entries : Forall (fun t => len t.1.1 = PineType_wr_test_bits self) ts;
}.

(** The parameters of an instance that can be used. *)
Record flp_ok (self : PineType) : Prop := {
  flp_chunk_len : (0 < PineType_chunk_len self)%N;
  flp_sq_norm_bits : valid_integer_bitlength (PineType_sq_norm_bits self) = true;
  flp_wr_test_bits : valid_integer_bitlength (PineType_wr_test_bits self) = true;
  flp_num_wr_successes : (PineType_num_wr_successes self < modulus)%N;
  flp_bit_checked_len : PineType_bit_checked_len self
    = (2 * PineType_sq_norm_bits self
       + (1 + PineType_wr_test_bits self) * PineType_num_wr_tests self)%N;
}.

Lemma entries_len self grad vb ub ts :
  meas_shape self grad vb ub ts ->
  len (mjoin (entry_bits <$> ts))
  = (PineType_num_wr_tests self * (PineType_wr_test_bits self + 1))%N.
Proof.
  intros Hs. unfold len. rewrite (length_mjoin_const (N.to_nat (PineType_wr_test_bits self + 1))).
  - rewrite length_fmap. pose proof (shape_ts _ _ _ _ _ Hs) as H. unfold len in H. lia.
  - apply Forall_fmap. eapply Forall_impl; [exact (shape_entries _ _ _ _ _ Hs)|].
    intros t Ht. unfold entry_bits, len in *. simpl. rewrite length_app. simpl. lia.
Qed.

(** Every input of the right length has that shape. *)
Lemma meas_shape_exists self meas :
  flp_ok self ->
  len meas = (PineType_dimension self + PineType_bit_checked_len self + PineType_num_wr_tests self)%N ->
  exists grad vb ub ts, meas = pine_meas grad vb ub ts /\ meas_shape self grad vb ub ts.
Proof.
  intros Hok Hlen. rewrite (flp_bit_checked_len _ Hok) in Hlen.
  set (d := PineType_dimension self) in *. set (b := PineType_sq_norm_bits self) in *.
  set (w := PineType_wr_test_bits self) in *. set (n := PineType_num_wr_tests self) in *.
  assert (forall k (l : list felem), k <= len l -> exists a c, l = a ++ c /\ len a = k)%N as Hsplit.
  { intros k l Hk. exists (take (N.to_nat k) l), (drop (N.to_nat k) l). split; [by rewrite take_drop|].
    unfold len in *. rewrite length_take. lia. }
  destruct (Hsplit d meas) as (grad & l1 & -> & Hg); [lia|]. rewrite len_app in Hlen.
  destruct (Hsplit b l1) as (vb & l2 & -> & Hv); [lia|]. rewrite len_app in Hlen.
  destruct (Hsplit b l2) as (ub & l3 & -> & Hu); [lia|]. rewrite len_app in Hlen.
  destruct (Hsplit ((1 + w) * n)%N l3) as (wb & xs & -> & Hw); [lia|]. rewrite len_app in Hlen.
  destruct (chunks_exact_Ok (E:=unit) (w + 1) n wb) as (cs & _ & <- & Hc & Hn); [lia|lia|].
  set (ts := zip_with (fun c x => (take (N.to_nat w) c, default 0 (c !! N.to_nat w), x)) cs xs).
  assert (length cs = length xs) as Hcx by (unfold len in *; lia).
  assert (entry_bits <$> ts = cs) as E1.
  { unfold ts. clear -Hc Hcx. revert xs Hcx. induction Hc as [|c cs Hc _ IH]; intros [|x xs] H; try done.
    simpl. rewrite IH by (simpl in H; lia). f_equal. unfold entry_bits, entry_g. simpl.
    unfold len in Hc. destruct (c !! N.to_nat w) as [g|] eqn:E; simpl.
    - rewrite <-(take_S_r _ _ g E), take_ge by lia. done.
    - apply lookup_ge_None in E. lia. }
  assert (entry_x <$> ts = xs) as E2.
  { unfold ts. clear -Hcx. revert xs Hcx. induction cs as [|c cs IH]; intros [|x xs] H; try done.
    simpl. rewrite IH by (simpl in H; lia). done. }
  exists grad, vb, ub, ts. split; [unfold pine_meas; by rewrite E1, E2, <-!app_assoc|].
  split; try done.
  - change (len ts = n). rewrite <-Hn. unfold ts, len. rewrite length_zip_with. lia.
  - unfold ts. clear -Hc. revert xs. induction Hc as [|c cs Hc _ IH]; intros [|x xs]; try constructor; [|apply IH].
    simpl. unfold len in *. rewrite length_take. lia.
Qed.

Lemma eval_norm_range_check_eq self vb ub inv s :
  valid_integer_bitlength (PineType_sq_norm_bits self) = true ->
  len vb = PineType_sq_norm_bits self -> len ub = PineType_sq_norm_bits self ->
  eval_norm_range_check (G:=G) self vb ub inv s
  = (Ok (bits_value vb + bits_value ub - of_int (PineType_sq_norm_bound self) * inv), s).
Proof.
  intros Hv H1 H2. unfold eval_norm_range_check. rewrite !decode_bitvector_ok by congruence. done.
Qed.

(** The value of the main circuit: a polynomial of degree three in [r_final] whose
    coefficients are the four checks. *)
Lemma PineType_valid_eq self grad vb ub ts r1 r2 r3 n s :
  evaluates sum_pairs (PineType_chunk_len self * 2) -> flp_ok self ->
  meas_shape self grad vb ub ts -> n <= Field_integer_max felem_field ->
  let inv := finv (of_int n) in
  let bound := (of_int (PineType_wr_test_bound self) - 1) * inv in
  exists s', PineType_valid self (pine_meas grad vb ub ts) [r1; r2; r3] n s
    = (Ok (peval r3
        [peval r1 (bit_term inv <$> (vb ++ ub ++ mjoin (entry_bits <$> ts)));
         bits_value vb + bits_value ub - of_int (PineType_sq_norm_bound self) * inv;
         peval r2 (wr_term bound <$> ts);
         fsum (entry_g <$> ts) - of_int (PineType_num_wr_successes self) * inv]), s').
Proof.
  intros HG Hok Hs Hn inv bound. pose proof Hs as [Hg Hv Hu Ht He]. destruct Hok as [Hk Hb Hw Hc Hl].
  pose proof modulus_fits as Hfit. assert (PineType_num_wr_successes self <= Field_integer_max felem_field)%N as Hc' by lia.
  pose proof (entries_len _ _ _ _ _ Hs) as Hel.
  unfold PineType_valid, pine_meas, shares_inv_of. rewrite (proj2 (N.leb_le _ _) Hn).
  unfold mbind, stm_bind, lift. fold inv.
  rewrite split_at_app by done.
  rewrite split_at_app by (rewrite !len_app; lia).
  rewrite split_at_all by (unfold len in *; by rewrite length_fmap).
  rewrite split_at_app by done. rewrite split_at_app by done.
  rewrite split_at_all by done.
  destruct (eval_bit_checks_eq self (vb ++ ub ++ mjoin (entry_bits <$> ts)) r1 inv s HG Hk) as [s1 ->].
  destruct (eval_wr_checks_eq self ts r2 inv s1 HG Hk Hw Hc' He) as [s2 ->]. fold bound.
  rewrite eval_norm_range_check_eq by done.
  exists s2. unfold mret, stm_ret. do 2 f_equal. cbn [peval]. ring.
Qed.

Lemma sq_norm_chunks_eq self cs :
  evaluates sum_squares (PineTypeSNE_chunk_len self) ->
  Forall (fun c => len c <= PineTypeSNE_chunk_len self) cs ->
  forall acc s, exists s', sq_norm_chunks self acc cs s = (Ok (acc + sum_squares (mjoin cs)), s').
Proof.
  intros HG. induction 1 as [|c cs Hc _ IH]; intros acc s; cbn [sq_norm_chunks].
  - exists s. unfold mret, stm_ret. do 2 f_equal. unfold sum_squares. simpl. ring.
  - destruct (HG (pad (PineTypeSNE_chunk_len self) c) s) as [s1 H1]; [by apply len_pad|].
    destruct (IH (acc + sum_squares (pad (PineTypeSNE_chunk_len self) c)) s1) as [s2 H2].
    exists s2. unfold mbind, stm_bind. rewrite H1, H2. do 2 f_equal. unfold pad.
    rewrite sum_squares_pad. change (mjoin (c :: cs)) with (c ++ mjoin cs).
    unfold sum_squares. rewrite fmap_app, fsum_app. ring.
Qed.

(** The value of the circuit of the squared norm. *)
Lemma PineTypeSNE_valid_eq self grad vb rest s :
  evaluates sum_squares (PineTypeSNE_chunk_len self) -> 0 < PineTypeSNE_chunk_len self ->
  valid_integer_bitlength (PineTypeSNE_sq_norm_bits self) = true ->
  len grad = PineTypeSNE_dimension self -> len vb = PineTypeSNE_sq_norm_bits self ->
  exists s', PineTypeSNE_valid self (grad ++ vb ++ rest) s
    = (Ok (bits_value vb - sum_squares grad), s').
Proof.
  intros HG Hk Hb Hg Hv. unfold PineTypeSNE_valid, chunks.
  rewrite (proj2 (N.eqb_neq _ _)) by lia. unfold mbind, stm_bind, lift.
  rewrite split_at_app by done. rewrite split_at_app by done.
  destruct (sq_norm_chunks_eq self (chunks_fuel (length grad) (N.to_nat (PineTypeSNE_chunk_len self)) grad)
    HG) with (acc := 0) (s := s) as [s' ->].
  { eapply Forall_impl; [apply chunks_length|]. unfold len. simpl. intros. lia. }
  rewrite decode_bitvector_ok by (by rewrite Hv). exists s'. cbn [map_err]. unfold mret, stm_ret.
  rewrite chunks_join by lia. do 2 f_equal. ring.
Qed.

(** ** Completeness *)
Lemma encode_coordinates_eq two gradient meas sq n meas' sq' n' :
  encode_coordinates two gradient meas sq n = Ok (meas', sq', n') ->
  exists es, meas' = meas ++ es /\ Forall2 (fun x e => f64_to_field x two = Ok e) gradient es /\
    sq' = sq + sum_squares es /\ n' = (n + len es)%N.
Proof.
  revert meas sq n. induction gradient as [|x gradient IH]; intros meas sq n H; cbn [encode_coordinates] in H.
  - injection H as <- <- <-. exists []. split_and!; [by rewrite app_nil_r|done| |unfold len; simpl; lia].
    unfold sum_squares. simpl. ring.
  - apply bind_Ok in H as (e & He & H). apply IH in H as (es & -> & Hf & -> & ->).
    exists (e :: es). split_and!; [by rewrite <-app_assoc|by constructor| |rewrite len_cons; lia].
    unfold sum_squares. rewrite fmap_cons. cbn [fsum]. ring.
Qed.

(** What [append_encoded_gradient] puts into an empty buffer. *)
Lemma append_encoded_gradient_eq self gradient meas :
  append_encoded_gradient self [] gradient = Ok meas ->
  exists two grad, let sq := sum_squares grad in
    let b := PineType_sq_norm_bits self in
    let u := of_int (PineType_sq_norm_bound self) - sq in
    two_to_frac_bits (E:=PrioVdafError) (PineType_frac_bits self) = Ok two /\
    Forall2 (fun x e => f64_to_field x two = Ok e) gradient grad /\
    len grad = PineType_dimension self /\ valid_integer_bitlength b = true /\
    (to_int sq < 2 ^ b)%N /\ (to_int u < 2 ^ b)%N /\
    meas = grad ++ bits_of (N.to_nat b) (to_int sq) ++ bits_of (N.to_nat b) (to_int u).
Proof.
  unfold append_encoded_gradient. intros H. apply bind_Ok in H as (two & Htwo & H).
  apply bind_Ok in H as ([[m sq] n] & He & H).
  apply encode_coordinates_eq in He as (grad & -> & Hf & -> & ->).
  apply guard_ok in H as [Hd H]. apply negb_false_iff, N.eqb_eq in Hd.
  cbn [range_checked] in H. apply bind_Ok in H as (vb & Hv & H). apply bind_Ok in H as (ub & Hu & H).
  apply map_err_Ok in Hv, Hu. injection H as <-.
  replace (0 + sum_squares grad - 0) with (sum_squares grad) in Hv by ring.
  replace (0 + sum_squares grad) with (sum_squares grad) in Hu by ring.
  apply encode_as_bitvector_inv in Hv as (Hval & Hlt & ->), Hu as (_ & Hlt' & ->).
  exists two, grad. by split_and!.
Qed.

(** The entry of an honest wraparound test. *)
Definition honest_entry (self : PineType) (t : wr_entry) : Prop :=
  let v := entry_x t - (- of_int (PineType_wr_test_bound self) + 1) in
  t.1.1 = bits_of (N.to_nat (PineType_wr_test_bits self)) (to_int v) /\
  (to_int v < 2 ^ PineType_wr_test_bits self)%N /\ is_bit (entry_g t).

Lemma append_results_eq self results meas cnt meas' cnt' :
  append_results self results meas cnt = Ok (meas', cnt') ->
  exists ts, meas' = meas ++ mjoin (entry_bits <$> ts) /\ entry_x <$> ts = results /\
    Forall (honest_entry self) ts /\ (cnt <= cnt')%N /\
    ((cnt' < modulus)%N -> of_int cnt + fsum (entry_g <$> ts) = of_int cnt').
Proof.
  revert meas cnt. induction results as [|x results IH]; intros meas cnt H; cbn [append_results] in H.
  - injection H as <- <-. exists []. split_and!; [by rewrite app_nil_r|done|done|done|]. intros _. simpl. ring.
  - cbn [range_checked] in H. apply bind_Ok in H as (vb & Hv & H). apply map_err_Ok in Hv.
    apply encode_as_bitvector_inv in Hv as (_ & Hlt & Hvb).
    destruct (_ && _).
    + apply IH in H as (ts & -> & <- & Hts & Hc & Hsum). exists ((vb, 1, x) :: ts). split_and!.
      * rewrite fmap_cons. change (mjoin (?a :: ?b)) with (a ++ mjoin b).
        unfold entry_bits at 2, entry_g. simpl. by rewrite <-!app_assoc.
      * done.
      * constructor; [|done]. split_and!; [done|done|by right].
      * lia.
      * intros Hm. rewrite <-Hsum by done. rewrite (of_int_add cnt 1), of_int_1 by lia.
        rewrite fmap_cons. unfold entry_g at 1. simpl. ring.
    + apply IH in H as (ts & -> & <- & Hts & Hc & Hsum). exists ((vb, 0, x) :: ts). split_and!.
      * rewrite fmap_cons. change (mjoin (?a :: ?b)) with (a ++ mjoin b).
        unfold entry_bits at 2, entry_g. simpl. by rewrite <-!app_assoc.
      * done.
      * constructor; [|done]. split_and!; [done|done|by left].
      * lia.
      * intros Hm. rewrite <-Hsum by done. rewrite fmap_cons. unfold entry_g at 1. simpl. ring.
Qed.

Lemma wr_tests_length {E} gradient n rand xs :
  wr_tests (E:=E) gradient n rand = Ok xs -> length xs = n.
Proof.
  revert rand xs. induction n as [|n IH]; intros [|r rand] xs H; cbn [wr_tests] in H;
    try (injection H as <-; simpl; by rewrite ?length_replicate).
  apply bind_Ok in H as (x & _ & H). apply bind_Ok in H as (xs' & H & [= <-]).
  cbn [length]. f_equal. by eapply IH.
Qed.

Lemma run_wr_tests_length {E} self gradient seed xs :
  run_wr_tests (E:=E) self gradient seed = Ok xs -> len xs = PineType_num_wr_tests self.
Proof.
  unfold run_wr_tests. intros H. inv_binds. unfold len.
  match goal with H : wr_tests _ _ _ = Ok _ |- _ => rewrite (wr_tests_length _ _ _ _ H) end. lia.
Qed.

(** An encoded measurement has the shape of the input of the circuits. *)
Lemma encoded_shape self gradient seed meas results :
  encode_with_wr_joint_rand self gradient seed = Ok (meas, results) ->
  (PineType_num_wr_successes self < modulus)%N ->
  exists grad vb ub ts, meas ++ results = pine_meas grad vb ub ts /\
    meas_shape self grad vb ub ts /\
    Forall is_bit (vb ++ ub) /\ Forall (honest_entry self) ts /\
    bits_value vb = sum_squares grad /\
    bits_value ub = of_int (PineType_sq_norm_bound self) - sum_squares grad /\
    fsum (entry_g <$> ts) = of_int (PineType_num_wr_successes self).
Proof.
  unfold encode_with_wr_joint_rand, append_wr_test_results. intros H Hm.
  apply bind_Ok in H as (m & He & H).
  apply append_encoded_gradient_eq in He as (two & grad & _ & _ & Hg & Hv & Hsq & Hu & ->).
  apply bind_Ok in H as (g' & _ & H). apply bind_Ok in H as (xs & Hxs & H).
  apply run_wr_tests_length in Hxs. apply bind_Ok in H as ([m cnt] & Hr & H).
  apply guard_ok in H as [Hc H]. apply negb_false_iff, N.eqb_eq in Hc. subst cnt. injection H as <- <-.
  apply append_results_eq in Hr as (ts & -> & <- & Hts & _ & Hsum). specialize (Hsum Hm).
  set (b := PineType_sq_norm_bits self) in *.
  assert (forall x, to_int x < 2 ^ b -> bits_value (bits_of (N.to_nat b) (to_int x)) = x)%N as Hbv.
  { intros x Hx. rewrite bits_value_bits_of; [apply of_to_int|by rewrite N2Nat.id|apply to_int_lt]. }
  exists grad, (bits_of (N.to_nat b) (to_int (sum_squares grad))),
    (bits_of (N.to_nat b) (to_int (of_int (PineType_sq_norm_bound self) - sum_squares grad))), ts.
  split_and!.
  - unfold pine_meas. by rewrite <-!app_assoc.
  - split.
    + done.
    + unfold len. rewrite length_bits_of. lia.
    + unfold len. rewrite length_bits_of. lia.
    + rewrite <-Hxs. unfold len. by rewrite length_fmap.
    + eapply Forall_impl; [exact Hts|]. intros t (-> & _). unfold len. rewrite length_bits_of. lia.
  - apply Forall_app. split; apply bits_of_bits.
  - done.
  - by apply Hbv.
  - by apply Hbv.
  - rewrite <-Hsum, of_int_0. ring.
Qed.
End Circuits.

(** ** Properties *)
Section Properties.
Context `{BP : BuildProfile} `{PF : PrioField} {PL : PrioFieldLaws PF} `{PX : !Xof}.
Context {G1 G2 : Type} `{GA1 : !Gadget G1} `{GA2 : !Gadget G2}.
Add Ring felem_ring_props : (felem_ring).
Open Scope felem_scope.

(** The two circuits of an instance of PINE, with gadgets that evaluate. *)
Record pine_circuits (flp : PineType) (sne : PineTypeSquaredNormEqual) : Prop := {
  circuits_ok : flp_ok flp;
  circuits_chunk_len : (0 < PineTypeSNE_chunk_len sne)%N;
  circuits_dimension : PineTypeSNE_dimension sne = PineType_dimension flp;
  circuits_sq_norm_bits : PineTypeSNE_sq_norm_bits sne = PineType_sq_norm_bits flp;
  circuits_gadget : evaluates (G:=G1) sum_pairs (PineType_chunk_len flp * 2);
  circuits_gadget_sne : evaluates (G:=G2) sum_squares (PineTypeSNE_chunk_len sne);
}.

Lemma entry_v_honest flp t :
  flp_ok flp -> honest_entry flp t ->
  entry_v t = entry_x t - (- of_int (PineType_wr_test_bound flp) + 1).
Proof.
  intros Hok (Hb & Hlt & _). unfold entry_v. rewrite Hb.
  rewrite bits_value_bits_of; [apply of_to_int|by rewrite N2Nat.id|apply to_int_lt].
Qed.

(** What the Client encodes is accepted. *)
Lemma encoded_valid flp sne gradient seed meas results :
  pine_circuits flp sne ->
  encode_with_wr_joint_rand flp gradient seed = Ok (meas, results) ->
  (forall r1 r2 r3 s1, exists s', PineType_valid (G:=G1) flp (meas ++ results) [r1; r2; r3] 1 s1 = (Ok 0, s')) /\
  (forall s2, exists s', PineTypeSNE_valid (G:=G2) sne (meas ++ results) s2 = (Ok 0, s')).
Proof.
  intros [Hok Hk Hd Hb HG1 HG2] H. pose proof Hok as [_ Hvb Hvw Hn _].
  destruct (encoded_shape _ _ _ _ _ H Hn) as (grad & vb & ub & ts & -> & Hs & Hbits & Hts & Hv & Hu & Hc).
  split.
  - intros r1 r2 r3 s1. pose proof modulus_fits. pose proof modulus_gt_2.
    destruct (PineType_valid_eq flp grad vb ub ts r1 r2 r3 1 s1 HG1 Hok Hs ltac:(lia)) as [s' ->].
    exists s'. do 2 f_equal. rewrite finv_1. apply peval_zeros. repeat constructor.
    + apply peval_zeros, Forall_fmap. rewrite app_assoc. apply Forall_app. split.
      * eapply Forall_impl; [exact Hbits|]. intros x Hx. by apply bit_check.
      * apply Forall_forall. intros x (c & Hx & Hc')%list_elem_of_join.
        apply list_elem_of_fmap in Hc' as (t & -> & Ht).
        rewrite Forall_forall in Hts. destruct (Hts t Ht) as (Hbt & _ & Hg).
        apply bit_check. unfold entry_bits in Hx. apply elem_of_app in Hx as [Hx|Hx].
        -- rewrite Hbt in Hx. pose proof (bits_of_bits (N.to_nat (PineType_wr_test_bits flp))
             (to_int (entry_x t - (- of_int (PineType_wr_test_bound flp) + 1)))) as Hall.
           rewrite Forall_forall in Hall. by apply Hall.
        -- apply list_elem_of_singleton in Hx as ->. done.
    + rewrite Hv, Hu. ring.
    + apply peval_zeros, Forall_fmap. eapply Forall_impl; [exact Hts|]. intros t Ht.
      unfold wr_term. simpl. rewrite (entry_v_honest _ _ Hok Ht). ring.
    + rewrite Hc. ring.
  - intros s2. destruct Hs as [Hg Hlv _ _ _]. unfold pine_meas. rewrite <-app_assoc.
    destruct (PineTypeSNE_valid_eq sne grad vb ((ub ++ mjoin (entry_bits <$> ts)) ++ (entry_x <$> ts)) s2 HG2 Hk)
      as [s' ->]; [by rewrite Hb|by rewrite Hd|by rewrite Hb|].
    exists s'. rewrite Hv. do 2 f_equal. ring.
Qed.

(** Completeness of the circuits of PINE: whatever gradient and seed, a measurement that
    the client encodes makes both circuits return zero, whatever the joint randomness. *)
Theorem encoded_gradient_valid flp sne gradient seed meas results r1 r2 r3 s1 s2 :
  pine_circuits flp sne ->
  encode_with_wr_joint_rand flp gradient seed = Ok (meas, results) ->
  (exists s', PineType_valid (G:=G1) flp (meas ++ results) [r1; r2; r3] 1 s1 = (Ok 0, s')) /\
  (exists s', PineTypeSNE_valid (G:=G2) sne (meas ++ results) s2 = (Ok 0, s')).
Proof. intros HC H. destruct (encoded_valid _ _ _ _ _ _ HC H) as [H1 H2]. auto. Qed.

(** ** Soundness *)

(** What the circuits are there to ensure: the tests are as claimed, and the claimed squared
    norm, which is that of the gradient, is in range. *)
Record valid_measurement (flp : PineType) (grad vb : list felem) (ts : list wr_entry) : Prop := {
  valid_bits : Forall is_bit vb;
  valid_norm : (bits_int vb <= PineType_sq_norm_bound flp)%N;
  valid_sq_norm : to_int (sum_squares grad) = bits_int vb;
  valid_tests : Forall (fun t => Forall is_bit (entry_bits t) /\
    (entry_g t = 1 -> entry_x t = of_int (bits_int t.1.1) - (of_int (PineType_wr_test_bound flp) - 1))) ts;
  valid_successes :
    length (filter (fun t => entry_g t = f1) ts) = N.to_nat (PineType_num_wr_successes flp);
}.

(** Bits that sum up to an integer below the modulus. *)
Lemma count_bits (ts : list wr_entry) n :
  Forall (fun t => is_bit (entry_g t)) ts -> (len ts < modulus)%N -> (n < modulus)%N ->
  fsum (entry_g <$> ts) = of_int n -> length (filter (fun t => entry_g t = f1) ts) = N.to_nat n.
Proof.
  intros Hb Hl Hn H.
  assert (forall ts, Forall (fun t => is_bit (entry_g t)) ts -> (len ts < modulus)%N ->
    fsum (entry_g <$> ts) = of_int (len (filter (fun t => entry_g t = f1) ts)) /\
    (len (filter (fun t => entry_g t = f1) ts) <= len ts)%N) as Hcount.
  { clear. induction ts as [|t ts IH]; intros Hb Hl.
    - split; [symmetry; apply of_int_0|done].
    - apply Forall_cons in Hb as [Ht Hb]. rewrite len_cons in *.
      destruct (IH Hb) as [IH1 IH2]; [lia|]. rewrite fmap_cons. cbn [fsum]. rewrite filter_cons, IH1.
      destruct (decide (entry_g t = 1)) as [E|E].
      + rewrite E, len_cons, of_int_add, of_int_1 by lia. split; [done|lia].
      + destruct Ht as [->|]; [|done]. split; [ring|lia]. }
  destruct (Hcount ts Hb Hl) as [H1 H2]. rewrite H1 in H. apply (f_equal to_int) in H.
  rewrite !to_of_int in H by lia. unfold len in H. lia.
Qed.

(** The range check: two vectors of [b] bits that sum up to a bound of [b] bits. *)
Lemma range_check_sound vb ub b bound :
  Forall is_bit vb -> Forall is_bit ub -> len vb = b -> len ub = b ->
  (bits bound = b)%N -> (0 < bound < modulus)%N -> (3 * 2 ^ b <= 2 * modulus)%N ->
  bits_value vb + bits_value ub = of_int bound -> (bits_int vb <= bound)%N.
Proof.
  intros Hv Hu Lv Lu Hb Hbound Hm H. pose proof (bits_int_lt vb Hv). pose proof (bits_int_lt ub Hu).
  rewrite Lv, Lu in *. apply (f_equal to_int) in H.
  rewrite to_int_add, !bits_value_mod, to_of_int, <-N.Div0.add_mod in H by lia.
  assert (2 ^ b <= 2 * bound)%N as Hlow.
  { rewrite <-Hb. unfold bits. rewrite (proj2 (N.eqb_neq _ _)) by lia.
    rewrite N.add_1_r, N.pow_succ_r'. destruct (N.log2_spec bound); [lia|]. lia. }
  pose proof (N.div_mod (bits_int vb + bits_int ub) modulus ltac:(lia)) as Hd. rewrite H in Hd.
  destruct ((bits_int vb + bits_int ub) / modulus)%N as [|q]; [lia|].
  assert (modulus <= modulus * N.pos q)%N by nia. lia.
Qed.

(** A combination of four checks that vanishes on a box. *)
Lemma box_coefficients b n w c R1 R2 R3 :
  NoDup R1 -> NoDup R2 -> NoDup R3 -> R1 <> [] -> R2 <> [] ->
  (length b <= length R1)%nat -> (length w <= length R2)%nat -> (4 <= length R3)%nat ->
  (forall r1 r2 r3, r1 ∈ R1 -> r2 ∈ R2 -> r3 ∈ R3 ->
    peval r3 [peval r1 b; n; peval r2 w; c] = 0) ->
  Forall (.= 0) b /\ n = 0 /\ Forall (.= 0) w /\ c = 0.
Proof.
  intros ND1 ND2 ND3 NE1 NE2 L1 L2 L3 H.
  assert (forall r1 r2, r1 ∈ R1 -> r2 ∈ R2 ->
    Forall (.= 0) [peval r1 b; n; peval r2 w; c]) as Hz.
  { intros r1 r2 H1 H2. apply (peval_roots _ R3); [done|done|]. intros r3 Hr3. by apply H. }
  destruct R1 as [|a1 R1]; [done|]. destruct R2 as [|a2 R2]; [done|].
  assert (a1 ∈ a1 :: R1) as Ha1 by left. assert (a2 ∈ a2 :: R2) as Ha2 by left.
  pose proof (Hz a1 a2 Ha1 Ha2) as Hc. rewrite !Forall_cons in Hc. destruct Hc as (_ & -> & _ & -> & _).
  split_and!; [|done| |done].
  - apply (peval_roots _ (a1 :: R1)); [done|done|]. intros r Hr.
    pose proof (Hz r a2 Hr Ha2) as Hc. by apply Forall_cons in Hc as [-> _].
  - apply (peval_roots _ (a2 :: R2)); [done|done|]. intros r Hr.
    pose proof (Hz a1 r Ha1 Hr) as Hc. rewrite !Forall_cons in Hc. by destruct Hc as (_ & _ & -> & _).
Qed.

(** The four checks ensure what they are there for. *)
Lemma checks_sound flp grad vb ub ts :
  flp_ok flp -> meas_shape flp grad vb ub ts ->
  PineType_sq_norm_bits flp = bits (PineType_sq_norm_bound flp) ->
  (0 < PineType_sq_norm_bound flp < modulus)%N -> (PineType_num_wr_tests flp < modulus)%N ->
  (3 * 2 ^ PineType_sq_norm_bits flp <= 2 * modulus)%N ->
  Forall is_bit (vb ++ ub ++ mjoin (entry_bits <$> ts)) ->
  bits_value vb + bits_value ub = of_int (PineType_sq_norm_bound flp) ->
  Forall (fun t => wr_term (of_int (PineType_wr_test_bound flp) - 1) t = 0) ts ->
  fsum (entry_g <$> ts) = of_int (PineType_num_wr_successes flp) ->
  bits_value vb = sum_squares grad ->
  valid_measurement flp grad vb ts.
Proof.
  intros Hok [Hg Hlv Hlu Hlt He] Hbits Hbound Hn H3 Hb Hrange Hw Hc Hsq.
  apply Forall_app in Hb as [Hv Hb]. apply Forall_app in Hb as [Hu Hb].
  assert (Forall (fun t => Forall is_bit (entry_bits t)) ts) as Hts.
  { apply Forall_forall. intros t Ht. apply Forall_forall. intros x Hx.
    rewrite Forall_forall in Hb. apply Hb, list_elem_of_join. exists (entry_bits t).
    split; [done|]. apply list_elem_of_fmap. by exists t. }
  pose proof (flp_sq_norm_bits _ Hok) as Hval. split.
  - done.
  - by apply (range_check_sound vb ub (PineType_sq_norm_bits flp)).
  - rewrite <-Hsq. apply bits_value_int; [done|by rewrite Hlv].
  - apply Forall_forall. intros t Ht. rewrite Forall_forall in Hts, Hw, He. split; [by apply Hts|].
    intros Hg1. specialize (Hw t Ht). unfold wr_term in Hw. rewrite Hg1 in Hw.
    pose proof (Hts t Ht) as Hbt. unfold entry_bits in Hbt. apply Forall_app in Hbt as [Hbt _].
    assert (entry_v t = of_int (bits_int t.1.1)) as <-.
    { unfold entry_v. rewrite <-bits_value_int, of_to_int; [done|done|].
      rewrite (He t Ht). apply (flp_wr_test_bits _ Hok). }
    apply fsub_0_eq. rewrite <-Hw. ring.
  - apply count_bits; [|by rewrite Hlt|apply (flp_num_wr_successes _ Hok)|done].
    eapply Forall_impl; [exact Hts|]. intros t Ht. unfold entry_bits in Ht. simpl in Ht.
    apply Forall_app in Ht as [_ Ht]. apply Forall_cons in Ht as [Ht _]. exact Ht.
Qed.

(** C40: soundness of the circuits of PINE: let a measurement of the right length make the
    circuit of the squared norm return zero, and the main circuit for all joint randomness
    in a box of as many values for [r_bit_check] as there are checked bits, for [r_wr_test]
    as there are tests, and four for [r_final].  Then the measurement is valid: bits are
    bits, the squared norm of the gradient is at most the bound, and the required number of
    wraparound tests succeeded.  A measurement that is not valid hence passes only for a
    small part of the joint randomness. *)
Theorem accepted_measurement_valid flp sne meas R1 R2 R3 s1 s2 s2' :
  pine_circuits flp sne ->
  len meas = (PineType_dimension flp + PineType_bit_checked_len flp + PineType_num_wr_tests flp)%N ->
  PineType_sq_norm_bits flp = bits (PineType_sq_norm_bound flp) ->
  (0 < PineType_sq_norm_bound flp < modulus)%N -> (PineType_num_wr_tests flp < modulus)%N ->
  (3 * 2 ^ PineType_sq_norm_bits flp <= 2 * modulus)%N ->
  NoDup R1 -> NoDup R2 -> NoDup R3 ->
  (PineType_bit_checked_len flp <= len R1)%N -> (1 <= PineType_num_wr_tests flp <= len R2)%N ->
  (4 <= len R3)%N ->
  (forall r1 r2 r3, r1 ∈ R1 -> r2 ∈ R2 -> r3 ∈ R3 ->
    exists s', PineType_valid (G:=G1) flp meas [r1; r2; r3] 1 s1 = (Ok 0, s')) ->
  PineTypeSNE_valid (G:=G2) sne meas s2 = (Ok 0, s2') ->
  exists grad vb ub ts, meas = pine_meas grad vb ub ts /\ meas_shape flp grad vb ub ts /\
    valid_measurement flp grad vb ts.
Proof.
  intros HC Hlen Hbits Hbound Hn H3 ND1 ND2 ND3 L1 L2 L3 Hvalid Hsne.
  destruct HC as [Hok Hk Hd Hb HG1 HG2]. pose proof Hok as [_ Hvb Hvw Hns Hbl].
  destruct (meas_shape_exists flp meas Hok Hlen) as (grad & vb & ub & ts & -> & Hs).
  exists grad, vb, ub, ts. split; [done|]. split; [done|].
  pose proof modulus_fits. pose proof modulus_gt_2.
  pose proof (entries_len _ _ _ _ _ Hs) as Hel. pose proof Hs as [Hg Hlv Hlu Hlt He].
  assert (1 <= PineType_sq_norm_bits flp)%N as Hpos.
  { rewrite Hbits. unfold bits. destruct (_ =? 0)%N; lia. }
  destruct (box_coefficients
    (bit_term (finv (of_int 1)) <$> (vb ++ ub ++ mjoin (entry_bits <$> ts)))
    (bits_value vb + bits_value ub - of_int (PineType_sq_norm_bound flp) * finv (of_int 1))
    (wr_term ((of_int (PineType_wr_test_bound flp) - 1) * finv (of_int 1)) <$> ts)
    (fsum (entry_g <$> ts) - of_int (PineType_num_wr_successes flp) * finv (of_int 1))
    R1 R2 R3) as (Eb & En & Ew & Ec); try done.
  - intros ->. rewrite len_nil in L1. lia.
  - intros ->. rewrite len_nil in L2. lia.
  - rewrite length_fmap, !length_app. unfold len in *. lia.
  - rewrite length_fmap. unfold len in *. lia.
  - unfold len in *. lia.
  - intros r1 r2 r3 I1 I2 I3. destruct (Hvalid r1 r2 r3 I1 I2 I3) as [s' Hv].
    destruct (PineType_valid_eq flp grad vb ub ts r1 r2 r3 1 s1 HG1 Hok Hs ltac:(lia)) as [s'' Hv'].
    rewrite Hv in Hv'. by injection Hv'.
  - rewrite finv_1 in *. rewrite Forall_fmap in Eb. rewrite Forall_fmap in Ew. apply (checks_sound flp grad vb ub ts); try done.
    + eapply Forall_impl; [exact Eb|]. intros x Hx. by apply bit_check.
    + apply fsub_0_eq. rewrite <-En. ring.
    + eapply Forall_impl; [exact Ew|]. intros t Ht. simpl in Ht. rewrite <-Ht. unfold wr_term. ring.
    + apply fsub_0_eq. rewrite <-Ec. ring.
    + unfold pine_meas in Hsne. rewrite <-app_assoc in Hsne.
      destruct (PineTypeSNE_valid_eq sne grad vb ((ub ++ mjoin (entry_bits <$> ts)) ++ (entry_x <$> ts))
        s2 HG2 Hk) as [s' Hv]; [by rewrite Hb|by rewrite Hd|by rewrite Hb|].
      rewrite Hsne in Hv. injection Hv as Hv _. apply fsub_0_eq. by symmetry.
Qed.
End Properties.

(** ** The circuits do not panic

    Whatever the input, a circuit calls its gadget with as many elements as the gadget takes, and
    not more often than it declares. *)
Section Safe.
Context `{PF : PrioField} {PL : PrioFieldLaws PF}.
Context {G : Type} `{GA : !Gadget G}.

(** [left] bounds the calls of the gadget that are left; on [arity] elements, a call returns and
    uses up one of them. *)
Definition callable (left : G -> N) (arity : N) : Prop :=
  forall inp s, len inp = arity -> 0 < left s ->
    match gadget_call inp s with
    | (Panic, _) => False
    | (_, s') => left s <= left s' + 1
    end.

(** A computation that returns if [n] calls are left, and uses up at most [n]. *)
Definition safe {A} (left : G -> N) (n : N) (P : A -> Prop) (m : stm G FlpError A) : Prop :=
  forall s, n <= left s ->
    match m s with
    | (Ok a, s') => P a /\ left s <= left s' + n
    | (Err _, _) => True
    | (Panic, _) => False
    end.

Context (left : G -> N).

Lemma safe_bind {A B} n1 n2 (P : A -> Prop) (Q : B -> Prop) m k :
  safe left n1 P m -> (forall a, P a -> safe left n2 Q (k a)) -> safe left (n1 + n2) Q (m ≫= k).
Proof.
  intros Hm Hk s Hs. unfold mbind, stm_bind. specialize (Hm s ltac:(lia)).
  destruct (m s) as [[a|e|] s1]; [|done..]. destruct Hm as [Ha H1].
  specialize (Hk a Ha s1 ltac:(lia)). destruct (k a s1) as [[b|e|] s2]; [|done..].
  destruct Hk as [Hb H2]. split; [done|lia].
Qed.

Lemma safe_lift {A B} n (P : A -> Prop) (Q : B -> Prop) r k :
  returns P r -> (forall a, P a -> safe left n Q (k a)) -> safe left n Q (lift r ≫= k).
Proof.
  intros Hr Hk s Hs. unfold mbind, stm_bind, lift. destruct r as [a|e|]; [|done..]. by apply Hk.
Qed.

Lemma safe_ret {A} (P : A -> Prop) (a : A) : P a -> safe left 0 P (mret a).
Proof. intros Ha s _. split; [done|lia]. Qed.

Lemma safe_mono {A} n n' (P Q : A -> Prop) m :
  safe left n P m -> n <= n' -> (forall a, P a -> Q a) -> safe left n' Q m.
Proof.
  intros Hm Hn HPQ s Hs. specialize (Hm s ltac:(lia)). destruct (m s) as [[a|e|] s1]; [|done..].
  destruct Hm. split; [auto|lia].
Qed.

Lemma safe_call arity inp :
  callable left arity -> len inp = arity -> safe left 1 (fun _ => True) (gadget_call inp).
Proof.
  intros Hc Hi s Hs. specialize (Hc inp s Hi ltac:(lia)). by destruct (gadget_call inp s) as [[a|e|] s1].
Qed.

Lemma decode_bitvector_returns (bits : list felem) :
  returns (E:=FlpError) (fun _ => True) (map_err FlpError_Field (decode_bitvector bits)).
Proof.
  destruct (valid_integer_bitlength (len bits)) eqn:H.
  - by rewrite (decode_bitvector_ok _ H).
  - by destruct (decode_bitvector_err _ H) as [e ->].
Qed.

Lemma split_at_returns {E A} n m (l : list A) :
  len l = n + m -> returns (E:=E) (fun r => len r.1 = n /\ len r.2 = m) (split_at n l).
Proof.
  intros Hl. unfold split_at. rewrite (proj2 (N.leb_le _ _)) by lia. cbn. unfold len in *.
  rewrite length_take, length_drop. lia.
Qed.

Lemma chunks_returns {E A} k (l : list A) :
  0 < k -> returns (E:=E) (fun cs => Forall (fun c => len c <= k) cs /\
    (len cs = 0 \/ (len cs - 1) * k < len l)) (chunks k l).
Proof.
  intros Hk. unfold chunks. rewrite (proj2 (N.eqb_neq _ _)) by lia. split.
  - eapply Forall_impl; [apply chunks_length|]. unfold len. cbn. intros c Hc. lia.
  - generalize (length l) as fuel. intros fuel. revert l. induction fuel as [|fuel IH]; intros [|x l]; [by left..|].
    right. cbn [chunks_fuel]. rewrite len_cons.
    destruct (IH (drop (N.to_nat k) (x :: l))) as [H|H]; unfold len in *; [cbn [length] in *; lia|].
    rewrite length_drop in H. nia.
Qed.

Section Main.
Context (self : PineType) (Hk : 0 < PineType_chunk_len self).
Context (Hc : callable left (PineType_chunk_len self * 2)).

Lemma bit_check_chunks_safe r inv cs :
  Forall (fun c => len c <= PineType_chunk_len self) cs ->
  forall pw acc, safe left (len cs) (fun _ => True) (bit_check_chunks self r inv pw acc cs).
Proof.
  induction 1 as [|c cs Hl _ IH]; intros pw acc; cbn [bit_check_chunks]; [by apply safe_ret|].
  destruct (bit_check_chunk r inv pw c) as [buf pw'] eqn:E. apply bit_check_chunk_eq in E as (_ & _ & E).
  rewrite len_cons. eapply safe_bind; [eapply safe_call; [exact Hc|]|intros y _; apply IH].
  apply len_pad. unfold len in *. lia.
Qed.

(** The tests of the loop, and the elements that wait in the buffer. *)
Lemma wr_check_loop_safe r bound ts :
  Forall (fun t => len t.1 = PineType_wr_test_bits self + 1) ts ->
  forall b buf pw cnt res, len buf = 2 * b -> b < PineType_chunk_len self ->
  safe left ((b + len ts) / PineType_chunk_len self)
    (fun x => len x.1.1 = 2 * ((b + len ts) mod PineType_chunk_len self))
    (wr_check_loop self r bound ts buf pw cnt res).
Proof.
  induction 1 as [|[bits x] ts Ht _ IH]; intros b buf pw cnt res Hb Hlt; cbn [wr_check_loop].
  - rewrite N.add_0_r, N.mod_small, N.div_small by done. by apply safe_ret.
  - cbn [fst] in Ht. rewrite len_cons. eapply (safe_lift _ (fun _ => True)).
    { unfold slice_to. by rewrite (proj2 (N.leb_le _ _)) by lia. }
    intros v _. eapply safe_lift; [apply decode_bitvector_returns|]. intros wv _.
    eapply (safe_lift _ (fun _ => True)).
    { destruct (lookup_lt_is_Some_2 bits (N.to_nat (PineType_wr_test_bits self))) as [g ->]; [unfold len in Ht; lia|done]. }
    intros g _. set (buf' := buf ++ _). assert (len buf' = 2 * (b + 1)) as Hb'.
    { unfold buf'. rewrite len_app, Hb. unfold len. cbn. lia. }
    rewrite N.add_assoc. destruct (N.eqb_spec (len buf') (PineType_chunk_len self * 2)) as [He|He].
    + assert (b + 1 = PineType_chunk_len self) as Hbk by lia. rewrite Hbk.
      replace ((PineType_chunk_len self + len ts) / PineType_chunk_len self)
        with (1 + (0 + len ts) / PineType_chunk_len self)
        by (rewrite N.add_0_l, <-(N.div_add_l 1) by lia; f_equal; lia).
      replace ((PineType_chunk_len self + len ts) mod PineType_chunk_len self)
        with ((0 + len ts) mod PineType_chunk_len self)
        by (rewrite N.add_0_l, <-(N.Div0.mod_add _ 1); f_equal; lia).
      eapply safe_bind; [by eapply safe_call|]. intros y _. by apply IH.
    + apply IH; [done|lia].
Qed.
Lemma ceil_tests n c :
  n <= c * PineType_chunk_len self ->
  n / PineType_chunk_len self + (if n mod PineType_chunk_len self =? 0 then 0 else 1) <= c.
Proof.
  intros Hn. pose proof (N.div_mod n (PineType_chunk_len self) ltac:(lia)) as Hd.
  revert Hd. generalize (n / PineType_chunk_len self) (n mod PineType_chunk_len self). intros q m Hd.
  destruct (N.eqb_spec m 0) as [E|E].
  - enough (q * PineType_chunk_len self <= c * PineType_chunk_len self) by nia. lia.
  - enough (q * PineType_chunk_len self < c * PineType_chunk_len self) by nia. lia.
Qed.

Lemma eval_wr_checks_safe bits results r inv c :
  len bits = PineType_num_wr_tests self * (PineType_wr_test_bits self + 1) ->
  len results = PineType_num_wr_tests self -> PineType_num_wr_tests self <= c * PineType_chunk_len self ->
  safe left c (fun _ => True) (eval_wr_checks self bits results r inv).
Proof.
  intros Hb Hr Hn. unfold eval_wr_checks.
  destruct (chunks_exact_Ok (E:=FlpError) (PineType_wr_test_bits self + 1) (PineType_num_wr_tests self) bits)
    as (cs & Hcs & _ & Hl & Hlen); [lia|done|].
  eapply (safe_lift _ (fun x => x = cs)); [by rewrite Hcs|]. intros ? ->.
  assert (Forall (fun t : list felem * felem => len t.1 = PineType_wr_test_bits self + 1) (zip cs results)) as Hz.
  { apply Forall_forall. intros [x y] Hxy. apply elem_of_zip_l in Hxy. by apply (proj1 (Forall_forall _ _) Hl). }
  assert (len (zip cs results) = PineType_num_wr_tests self) as Hzl.
  { unfold len in *. rewrite length_zip_with. lia. }
  pose proof (wr_check_loop_safe r (fmul (fsub (of_int (PineType_wr_test_bound self)) f1) inv) _ Hz 0 [] f1 f0 f0
    eq_refl Hk) as Hloop. rewrite Hzl, N.add_0_l in Hloop.
  eapply (safe_mono _ _ (fun _ => True)); [eapply safe_bind; [exact Hloop|]|by apply (ceil_tests _ c)|done].
  intros [[buf cnt] res] Hbuf. cbn [fst] in Hbuf.
  set (last := if _ =? 0 then _ else _). rewrite <-(N.add_0_r last). eapply (safe_bind _ _ (fun _ => True)); subst last.
  - destruct (N.eqb_spec (PineType_num_wr_tests self mod PineType_chunk_len self) 0) as [E|E].
    + rewrite E in Hbuf. destruct buf as [|b buf]; [by apply safe_ret|]. rewrite len_cons in Hbuf. lia.
    + destruct buf as [|b buf]; [change (len (@nil felem)) with 0 in Hbuf; lia|].
      eapply (safe_bind 1 0 (fun _ => True)); [eapply safe_call; [exact Hc|]|intros y _; by apply safe_ret].
      apply len_pad. rewrite Hbuf. pose proof (N.mod_lt (PineType_num_wr_tests self) (PineType_chunk_len self)). lia.
  - intros wr _. eapply (safe_lift _ (fun _ => True)); [by case_match|]. intros n _. by apply safe_ret.
Qed.

(** [PineType::valid] on an input and joint randomness of the lengths it declares, with gadget
    calls for its two parts. *)
Lemma PineType_valid_safe meas joint_rand num_shares c1 c2 :
  PineType_bit_checked_len self = 2 * PineType_sq_norm_bits self
    + (1 + PineType_wr_test_bits self) * PineType_num_wr_tests self ->
  len meas = PineType_dimension self + PineType_bit_checked_len self + PineType_num_wr_tests self ->
  len joint_rand = 3 -> num_shares <= Field_integer_max felem_field ->
  PineType_bit_checked_len self <= c1 * PineType_chunk_len self ->
  PineType_num_wr_tests self <= c2 * PineType_chunk_len self ->
  safe left (c1 + c2) (fun _ => True) (PineType_valid self meas joint_rand num_shares).
Proof.
  intros Hbc Hm Hj Hs H1 H2. unfold PineType_valid.
  eapply (safe_lift _ (fun _ => True)); [unfold shares_inv_of; by rewrite (proj2 (N.leb_le _ _) Hs)|]. intros inv _.
  eapply safe_lift; [apply (split_at_returns _ (PineType_bit_checked_len self + PineType_num_wr_tests self)); lia|].
  intros [grad rest] [_ L]. eapply safe_lift; [by apply split_at_returns|]. intros [bit_checked rest1] [Lb Lr]. cbn [fst snd] in *.
  eapply safe_lift; [apply (split_at_returns _ 0); lia|]. intros [results rest2] [Lres L2]. cbn [fst snd] in *.
  eapply (safe_lift _ (fun _ => True)); [by destruct rest2|]. intros _ _.
  set (q := PineType_num_wr_tests self * (PineType_wr_test_bits self + 1)).
  eapply safe_lift; [apply (split_at_returns _ (PineType_sq_norm_bits self + q)); subst q; lia|]. intros [vb rest3] [_ L3]. cbn [fst snd] in *.
  eapply safe_lift; [by apply split_at_returns|]. intros [ub rest4] [_ L4]. cbn [fst snd] in *.
  eapply safe_lift; [apply (split_at_returns _ 0); lia|]. intros [bits rest5] [Lbits L5]. cbn [fst snd] in *.
  eapply (safe_lift _ (fun _ => True)); [by destruct rest5|]. intros _ _.
  eapply (safe_lift _ (fun _ => True)); [unfold len in Hj; destruct joint_rand as [|a [|b [|d [|? ?]]]]; cbn in Hj; done || lia|]. intros [[r1 r2] r3] _.
  eapply (safe_bind _ _ (fun _ => True)).
  { unfold eval_bit_checks. eapply safe_lift; [by apply chunks_returns|]. intros cs [Hcs Hlen].
    eapply safe_mono; [by apply bit_check_chunks_safe| |done]. destruct Hlen; nia. }
  intros b _. rewrite <-(N.add_0_r c2). eapply (safe_bind _ _ (fun _ => True)); [by apply eval_wr_checks_safe|].
  intros [w n] _. rewrite <-(N.add_0_r 0). eapply (safe_bind _ _ (fun _ => True)); [|intros v _; by apply safe_ret].
  unfold eval_norm_range_check. eapply safe_lift; [apply decode_bitvector_returns|]. intros v _.
  eapply safe_lift; [apply decode_bitvector_returns|]. intros u _. by apply safe_ret.
Qed.
End Main.

(** [PineTypeSquaredNormEqual::valid] *)
Lemma PineTypeSNE_valid_safe self meas c :
  0 < PineTypeSNE_chunk_len self -> callable left (PineTypeSNE_chunk_len self) ->
  PineTypeSNE_dimension self + PineTypeSNE_sq_norm_bits self <= len meas ->
  PineTypeSNE_dimension self <= c * PineTypeSNE_chunk_len self ->
  safe left c (fun _ => True) (PineTypeSNE_valid self meas).
Proof.
  intros Hk Hc Hm Hd. unfold PineTypeSNE_valid.
  eapply safe_lift; [apply (split_at_returns _ (len meas - PineTypeSNE_dimension self)); lia|].
  intros [grad rest] [Lg Lr]. cbn [fst snd] in *.
  eapply safe_lift; [apply (split_at_returns _ (len rest - PineTypeSNE_sq_norm_bits self)); lia|]. intros [vb rest1] _.
  eapply safe_lift; [by apply chunks_returns|]. intros cs [Hcs Hlen].
  assert (forall acc, safe left (len cs) (fun _ => True) (sq_norm_chunks self acc cs)) as Hsq.
  { clear Hlen. induction Hcs as [|c' cs Hl _ IH]; intros acc; cbn [sq_norm_chunks]; [by apply safe_ret|].
    rewrite len_cons. eapply safe_bind; [eapply safe_call; [exact Hc|]|intros y _; apply IH]. by apply len_pad. }
  rewrite <-(N.add_0_r c). eapply (safe_bind _ _ (fun _ => True)).
  - eapply safe_mono; [apply Hsq| |done]. destruct Hlen; nia.
  - intros sq _. eapply safe_lift; [apply decode_bitvector_returns|]. intros v _. by apply safe_ret.
Qed.
End Safe.
