(* ===== verification/PineWraparound.v ===== *)
(** * The wraparound tests of PINE

    [run_wr_tests] walks over the gradient in chunks of four with a byte of randomness for
    each; the reference is the dot product of the gradient with a vector over [{-1, 0, 1}].
    It is linear in the gradient, so that tests run on shares are shares of the tests. *)

From S2P Require Import Prelude Codec Messages TaskprovMessages Errors Pine PineField.
From S2P Require Import PineEncoding PineFlp PineFlpCorrect.

Section Wraparound.
Context `{BP : BuildProfile} `{PF : PrioField} {PL : PrioFieldLaws PF} `{PX : !Xof}.
Add Ring felem_ring_wr : (felem_ring).
Open Scope felem_scope.

(** The dot product, up to the shorter of the two. *)
Definition dot (cs xs : list felem) : felem := fsum (zip_with fmul cs xs).

(** The coefficient in the two lowest bits. *)
Definition coefficient (r : N) : felem :=
  match N.land r 3 with
  | 0%N => - (1)
  | 3%N => 1
  | _ => 0
  end.

(** The four coefficients of a byte, the lowest bits first. *)
Definition byte_coefficients (b : byte) : list felem :=
  (fun i => coefficient (N.shiftr (Byte.to_N b) i)) <$> [0; 2; 4; 6]%N.

Definition coefficients (rand : list byte) : list felem := mjoin (byte_coefficients <$> rand).

Lemma coefficient_range r : coefficient r = - (1) \/ coefficient r = 0 \/ coefficient r = 1.
Proof. unfold coefficient. repeat case_match; auto. Qed.

Lemma dot_app cs cs' xs xs' :
  length cs = length xs -> dot (cs ++ cs') (xs ++ xs') = dot cs xs + dot cs' xs'.
Proof. intros H. unfold dot. rewrite zip_with_app by done. apply fsum_app. Qed.

Lemma dot_app_l cs cs' xs : length cs = length xs -> dot (cs ++ cs') xs = dot cs xs.
Proof.
  intros H. rewrite <-(app_nil_r xs) at 1. rewrite dot_app by done. unfold dot at 2.
  rewrite zip_with_nil_r. simpl. ring.
Qed.

Lemma wr_test_chunk_dot acc r xs :
  (length xs <= 4)%nat ->
  wr_test_chunk acc (Byte.to_N r) xs = acc + dot (byte_coefficients r) xs.
Proof.
  assert (forall n acc x k, wr_test_chunk acc n (x :: k)
    = wr_test_chunk (acc + coefficient n * x) (N.shiftr n 2) k) as Hstep.
  { intros n a x k. cbn [wr_test_chunk]. f_equal. unfold coefficient. repeat case_match; ring. }
  intros Hl. unfold dot, byte_coefficients. cbn [fmap list_fmap].
  destruct xs as [|x1 [|x2 [|x3 [|x4 [|]]]]]; try (simpl in Hl; lia);
    rewrite ?Hstep, ?N.shiftr_shiftr; cbn [wr_test_chunk zip_with fsum];
    rewrite ?N.shiftr_0_r; change (2 + 2 + 2)%N with 6%N; change (2 + 2)%N with 4%N; ring.
Qed.

Lemma wr_chunks_dot chunks rand acc :
  Forall (fun c => length c = 4%nat) chunks -> (length chunks <= length rand)%nat ->
  fold_left (fun acc '(chunk, r) => wr_test_chunk acc (Byte.to_N r) chunk) (zip chunks rand) acc
  = acc + dot (coefficients rand) (mjoin chunks).
Proof.
  intros Hc. revert rand acc. induction Hc as [|c chunks Hc _ IH]; intros rand acc Hl.
  - unfold dot. change (mjoin (@nil (list felem))) with (@nil felem).
    rewrite zip_with_nil_r. simpl. ring.
  - destruct rand as [|r rand]; [simpl in Hl; lia|]. cbn [zip zip_with fold_left].
    rewrite wr_test_chunk_dot, IH by (simpl in *; lia).
    change (mjoin (c :: chunks)) with (c ++ mjoin chunks). unfold coefficients at 2.
    rewrite fmap_cons. change (mjoin (?a :: ?b)) with (a ++ mjoin b).
    rewrite dot_app by (by rewrite Hc). fold (coefficients rand). ring.
Qed.

(** One test is a dot product. *)
Lemma wr_test_dot {E} gradient rand :
  gradient <> [] -> (length rand = (length gradient + 3) / 4)%nat ->
  wr_test (E:=E) gradient rand = Ok (dot (coefficients rand) gradient).
Proof.
  intros Hne Hl. unfold wr_test, chunks_exact, chunks_remainder.
  change (4 =? 0)%N with false. change (N.to_nat 4) with 4%nat. cbv iota.
  set (q := (length gradient / 4)%nat).
  assert (length gradient = 4 * q + length gradient mod 4)%nat as Hq by apply Nat.div_mod_eq.
  pose proof (Nat.mod_upper_bound (length gradient) 4 ltac:(done)) as Hm.
  set (k := (q * 4)%nat).
  assert (length (take k gradient) = k) as Hk by (rewrite length_take; unfold k; lia).
  destruct (chunks_exact_length (length gradient) 4 (take k gradient) q) as [Hc Hn];
    [lia|done|rewrite Hk; unfold k; lia|].
  cbn [mbind res_bind].
  assert ((q <= length rand)%nat) as Hqr.
  { rewrite Hl. apply Nat.Div0.div_le_mono; lia. }
  rewrite wr_chunks_dot by (done || by rewrite Hn). rewrite chunks_join by (rewrite ?Hk; unfold k; lia).
  destruct (last rand) as [r|] eqn:Hlast.
  2:{ apply last_None in Hlast as ->. exfalso. destruct gradient as [|x g]; [done|].
      assert (1 <= (length (x :: g) + 3) / 4)%nat as H1
        by (apply Nat.div_le_lower_bound; simpl; lia).
      rewrite <-Hl in H1. simpl in H1. lia. }
  cbn [unwrap mbind res_bind]. f_equal. apply last_Some in Hlast as [init ->].
  rewrite wr_test_chunk_dot by (rewrite length_drop; unfold k; lia).
  transitivity (dot (coefficients (init ++ [r])) (take k gradient ++ drop k gradient));
    [|by rewrite take_drop].
  destruct (Nat.eq_dec (length gradient mod 4)%nat 0%nat) as [Hz|Hz].
  - rewrite (drop_ge gradient k) by (unfold k; lia). rewrite app_nil_r.
    unfold dot at 2. rewrite zip_with_nil_r. simpl. ring.
  - assert ((length gradient + 3) / 4 = q + 1)%nat as E1.
    { symmetry. apply (Nat.div_unique _ _ _ (length gradient mod 4 - 1)%nat); lia. }
    rewrite length_app, E1 in Hl. cbn [length] in Hl.
    assert (length (coefficients init) = k) as Hi.
    { unfold coefficients. rewrite (length_mjoin_const 4); [rewrite length_fmap; unfold k; lia|].
      apply Forall_fmap, Forall_forall. done. }
    unfold coefficients. rewrite fmap_app, join_app. fold (coefficients init).
    change (mjoin (byte_coefficients <$> [r])) with (byte_coefficients r ++ []). rewrite app_nil_r.
    rewrite dot_app, dot_app_l by (by rewrite Hk). ring.
Qed.

(** ** All tests *)

(** The bytes of randomness of the tests. *)
Definition wr_rand (self : PineType) (seed : list byte) (n : N) : list (list byte) :=
  let xof := xof_seed_stream seed (dst (PineType_algorithm_id self) USAGE_WR_JOINT_RAND) [] in
  chunks_fuel (N.to_nat (n * PineType_num_wr_tests self)) (N.to_nat n)
    (stream_fill xof (n * PineType_num_wr_tests self)).

Lemma wr_tests_dot {E} gradient n rand :
  gradient <> [] ->
  Forall (fun r => length r = (length gradient + 3) / 4)%nat rand -> length rand = n ->
  wr_tests (E:=E) gradient n rand = Ok ((fun r => dot (coefficients r) gradient) <$> rand).
Proof.
  intros Hne Hr. revert n. induction Hr as [|r rand Hr _ IH]; intros [|n] Hn; try done.
  cbn [wr_tests]. rewrite wr_test_dot by done. cbn [mbind res_bind].
  rewrite IH by (simpl in Hn; lia). done.
Qed.

(** The bytes a test uses. *)
Definition rand_len_per_test (self : PineType) : N := (PineType_dimension self + 3) / 4.

(** The sizes for which the lengths of the randomness do not overflow. *)
Definition wr_sizes (self : PineType) : Prop :=
  (0 < PineType_dimension self)%N /\ (PineType_dimension self + 4 <= u64_max)%N /\
  ((PineType_dimension self + 3) * PineType_num_wr_tests self <= u64_max)%N.

Lemma rand_len_bound self :
  (PineType_dimension self <= 4 * rand_len_per_test self < PineType_dimension self + 4)%N.
Proof.
  unfold rand_len_per_test.
  pose proof (N.div_mod (PineType_dimension self + 3) 4 ltac:(done)) as H1.
  pose proof (N.mod_lt (PineType_dimension self + 3) 4 ltac:(done)) as H2.
  generalize dependent ((PineType_dimension self + 3) mod 4)%N.
  generalize dependent ((PineType_dimension self + 3) / 4)%N. lia.
Qed.

Lemma wr_rand_lengths {XL : XofLaws PX} self seed :
  (0 < PineType_dimension self)%N ->
  Forall (fun r => len r = rand_len_per_test self) (wr_rand self seed (rand_len_per_test self)) /\
  len (wr_rand self seed (rand_len_per_test self)) = PineType_num_wr_tests self.
Proof.
  intros Hpos. pose proof (rand_len_bound self) as Hb. set (n := rand_len_per_test self) in *.
  set (xof := xof_seed_stream seed (dst (PineType_algorithm_id self) USAGE_WR_JOINT_RAND) []).
  pose proof (stream_fill_len xof (n * PineType_num_wr_tests self)) as Hs.
  destruct (chunks_exact_length (N.to_nat (n * PineType_num_wr_tests self)) (N.to_nat n)
    (stream_fill xof (n * PineType_num_wr_tests self)) (N.to_nat (PineType_num_wr_tests self)))
    as [H1 H2]; [lia| |unfold len in Hs; lia|].
  { rewrite <-N2Nat.inj_mul, (N.mul_comm (PineType_num_wr_tests self)). unfold len in Hs. lia. }
  split; [|unfold len, wr_rand; fold xof; lia].
  eapply Forall_impl; [exact H1|]. intros r Hr. simpl in Hr. unfold len. lia.
Qed.

Lemma run_wr_tests_dot {XL : XofLaws PX} {E} self gradient seed :
  len gradient = PineType_dimension self -> wr_sizes self ->
  run_wr_tests (E:=E) self gradient seed
  = Ok ((fun r => dot (coefficients r) gradient) <$> wr_rand self seed (rand_len_per_test self)).
Proof.
  intros Hl (Hpos & Hfit & Hfit2). pose proof (rand_len_bound self) as Hb.
  destruct (wr_rand_lengths self seed Hpos) as [H1 H2].
  destruct (chunk_count_eq (E:=E) 4 (PineType_dimension self)) as (n' & Hn & Hb'); [done|done|].
  assert (n' = rand_len_per_test self) as -> by lia. set (n := rand_len_per_test self) in *.
  assert (n * PineType_num_wr_tests self <= u64_max)%N as Hm.
  { etransitivity; [|exact Hfit2]. apply N.mul_le_mono_r. lia. }
  unfold run_wr_tests. rewrite Hn. cbn [mbind res_bind]. rewrite u64_mul_fits by done.
  cbn [mbind res_bind]. set (xof := xof_seed_stream _ _ _).
  pose proof (stream_fill_len xof (n * PineType_num_wr_tests self)) as Hs.
  unfold chunks. rewrite (proj2 (N.eqb_neq _ _)) by lia. cbn [mbind res_bind].
  assert (chunks_fuel (length (stream_fill xof (n * PineType_num_wr_tests self))) (N.to_nat n)
    (stream_fill xof (n * PineType_num_wr_tests self)) = wr_rand self seed n) as ->.
  { unfold wr_rand. fold xof. f_equal. unfold len in Hs. lia. }
  apply wr_tests_dot; [|eapply Forall_impl; [exact H1|]|unfold len in H2; lia].
  - intros ->. rewrite len_nil in Hl. lia.
  - intros r Hr. unfold len in *. simpl in Hr.
    apply (Nat.div_unique _ _ _ (length gradient + 3 - 4 * length r)%nat); lia.
Qed.

(** Each wraparound test is the dot product of the gradient with a vector over
    [{-1, 0, 1}] that is read off the joint randomness, two bits for each coordinate: a zero
    is [-1], a three is [1], and the rest is [0]; there is such a vector for every test, with
    a coefficient for every coordinate. *)
Theorem wr_tests_are_dot_products {XL : XofLaws PX} self gradient seed :
  len gradient = PineType_dimension self -> wr_sizes self ->
  let rand := wr_rand self seed (rand_len_per_test self) in
  run_wr_tests (E:=PrioVdafError) self gradient seed
  = Ok ((fun r => dot (coefficients r) gradient) <$> rand) /\
  len rand = PineType_num_wr_tests self /\
  Forall (fun r => (len gradient <= len (coefficients r))%N /\
    Forall (fun c => c = - f1 \/ c = f0 \/ c = f1) (coefficients r)) rand.
Proof.
  intros Hl Hs rand. destruct (wr_rand_lengths self seed (proj1 Hs)) as [H1 H2].
  split; [by apply run_wr_tests_dot|]. split; [done|]. eapply Forall_impl; [exact H1|].
  intros r Hr. simpl in Hr. split.
  - pose proof (rand_len_bound self). rewrite Hl. unfold coefficients, len.
    rewrite (length_mjoin_const 4); [rewrite length_fmap; unfold len in Hr; lia|].
    apply Forall_fmap, Forall_forall. done.
  - apply Forall_forall. intros c (l & Hc & Hb)%list_elem_of_join.
    apply list_elem_of_fmap in Hb as (b & -> & _). unfold byte_coefficients in Hc.
    apply list_elem_of_fmap in Hc as (i & -> & _). apply coefficient_range.
Qed.

(** Shares *)
Definition add_shares (xs ys : list felem) : list felem := zip_with fadd xs ys.

Lemma dot_add cs xs ys : length xs = length ys -> dot cs (add_shares xs ys) = dot cs xs + dot cs ys.
Proof.
  unfold dot, add_shares. revert cs ys. induction xs as [|x xs IH]; intros [|c cs] [|y ys] H; try done;
    simpl; try ring.
  rewrite IH by (simpl in H; lia). ring.
Qed.

Lemma length_add_shares xs ys : length xs = length ys -> length (add_shares xs ys) = length xs.
Proof. intros H. unfold add_shares. rewrite length_zip_with. lia. Qed.

(** Tests run on shares of a gradient are shares of the tests. *)
Lemma run_wr_tests_add {XL : XofLaws PX} {E} self xs ys seed :
  len xs = PineType_dimension self -> len ys = PineType_dimension self -> wr_sizes self ->
  exists rx ry, run_wr_tests (E:=E) self xs seed = Ok rx /\ run_wr_tests (E:=E) self ys seed = Ok ry /\
    len rx = PineType_num_wr_tests self /\ len ry = PineType_num_wr_tests self /\
    run_wr_tests (E:=E) self (add_shares xs ys) seed = Ok (add_shares rx ry).
Proof.
  intros Hx Hy Hs. assert (length xs = length ys) as Hxy by (unfold len in *; lia).
  destruct (wr_rand_lengths self seed (proj1 Hs)) as [_ H2].
  eexists _, _. split; [by apply run_wr_tests_dot|]. split; [by apply run_wr_tests_dot|].
  split; [unfold len in *; by rewrite length_fmap|]. split; [unfold len in *; by rewrite length_fmap|].
  rewrite run_wr_tests_dot; [|unfold len in *; by rewrite length_add_shares|done]. f_equal.
  generalize (wr_rand self seed (rand_len_per_test self)) as rand.
  induction rand as [|r rand IH]; [done|]. rewrite !fmap_cons. cbn [add_shares zip_with].
  f_equal; [by apply dot_add|exact IH].
Qed.
End Wraparound.
