(* ===== verification/PineMsg.v ===== *)
(** * The messages of PINE

    [src/crates/daphne/src/pine/msg.rs]: the shares of a Client and the preparation messages
    of the Aggregators, with their encodings.  The number of field elements in a share is not
    on the wire: the decoder takes it from the instance of PINE or from the preparation state,
    so that a share of another length is a decoding error. *)

From S2P Require Import Prelude Codec Messages TaskprovMessages Errors Pine PineField.
From S2P Require Import PineEncoding PineFlp.

(** [for x in xs { x.encode(bytes)?; }] *)
Fixpoint encode_each {A} (f : writer A) (xs : list A) (bytes : list byte) :
    res CodecError (list byte) :=
  match xs with
  | [] => Ok bytes
  | x :: xs => bytes ← f x bytes; encode_each f xs bytes
  end.

(** [iter::repeat_with(|| d(bytes)).take(n).collect::<Result<Vec<_>, _>>()] *)
Fixpoint decode_take {A} (d : reader A) (n : nat) : reader (list A) :=
  match n with
  | O => mret []
  | S n => x ← d; xs ← decode_take d n; mret (x :: xs)
  end.

(** A length computed while decoding. *)
Definition read_len (r : res CodecError N) : reader N := fun c => n ← r; Ok (n, c).

Definition vec_len {A} (n : N) (xs : list A) : Prop := len xs = n.

Section PineMsg.
Context `{BP : BuildProfile} `{PF : PrioField} `{PX : !Xof}.

Record PublicShare : Type := MkPublicShare {
  PublicShare_wr_joint_rand_parts : list byte * list byte;
  PublicShare_vf_joint_rand_parts : list byte * list byte;
}.

Definition PublicShare_encode : writer PublicShare := fun self bytes =>
  bytes ← Seed_encode (PublicShare_wr_joint_rand_parts self).1 bytes;
  bytes ← Seed_encode (PublicShare_wr_joint_rand_parts self).2 bytes;
  bytes ← Seed_encode (PublicShare_vf_joint_rand_parts self).1 bytes;
  Seed_encode (PublicShare_vf_joint_rand_parts self).2 bytes.

Definition PublicShare_decode : reader PublicShare :=
  wr0 ← Seed_decode;
  wr1 ← Seed_decode;
  vf0 ← Seed_decode;
  vf1 ← Seed_decode;
  mret (MkPublicShare (wr0, wr1) (vf0, vf1)).

Inductive InputShare : Type :=
| InputShare_Leader (meas_share proofs_share : list felem) (wr_blind vf_blind : list byte)
| InputShare_Helper (meas_share proofs_share wr_blind vf_blind : list byte).

Definition InputShare_encode : writer InputShare := fun self bytes =>
  match self with
  | InputShare_Leader meas_share proofs_share wr_blind vf_blind =>
      bytes ← encode_each felem_encode meas_share bytes;
      bytes ← encode_each felem_encode proofs_share bytes;
      bytes ← Seed_encode wr_blind bytes;
      Seed_encode vf_blind bytes
  | InputShare_Helper meas_share proofs_share wr_blind vf_blind =>
      bytes ← Seed_encode meas_share bytes;
      bytes ← Seed_encode proofs_share bytes;
      bytes ← Seed_encode wr_blind bytes;
      Seed_encode vf_blind bytes
  end.

(** [flp_sq_norm_equal.proof_len() * num_proofs_sq_norm_equal + flp.proof_len() * num_proofs] *)
Definition proofs_len {E} (pine : Pine) : res E N :=
  a ← PineTypeSNE_proof_len (Pine_flp_sq_norm_equal pine);
  a ← u64_mul a (Pine_num_proofs_sq_norm_equal pine);
  b ← PineType_proof_len (Pine_flp pine);
  b ← u64_mul b (Pine_num_proofs pine);
  u64_add a b.

Definition InputShare_decode (pine : Pine) (agg_id : N) : reader InputShare :=
  match agg_id with
  | 0 =>
      meas_share ← decode_take felem_decode (N.to_nat (Pine_encoded_input_len pine));
      n ← read_len (proofs_len pine);
      proofs_share ← decode_take felem_decode (N.to_nat n);
      wr_blind ← Seed_decode;
      vf_blind ← Seed_decode;
      mret (InputShare_Leader meas_share proofs_share wr_blind vf_blind)
  | 1 =>
      meas_share ← Seed_decode;
      proofs_share ← Seed_decode;
      wr_blind ← Seed_decode;
      vf_blind ← Seed_decode;
      mret (InputShare_Helper meas_share proofs_share wr_blind vf_blind)
  | _ => read_fail (Other "unrecognized aggregator id {agg_id}")
  end.

Record PrepShare : Type := MkPrepShare {
  PrepShare_verifiers_share : list felem;
  PrepShare_wr_joint_rand_part : list byte;
  PrepShare_vf_joint_rand_part : list byte;
}.

Definition PrepShare_encode : writer PrepShare := fun self bytes =>
  bytes ← encode_each felem_encode (PrepShare_verifiers_share self) bytes;
  bytes ← Seed_encode (PrepShare_wr_joint_rand_part self) bytes;
  Seed_encode (PrepShare_vf_joint_rand_part self) bytes.

(** The decoder takes only [verifiers_len] from the state. *)
Definition PrepShare_decode (verifiers_len : N) : reader PrepShare :=
  verifiers_share ← decode_take felem_decode (N.to_nat verifiers_len);
  wr_joint_rand_part ← Seed_decode;
  vf_joint_rand_part ← Seed_decode;
  mret (MkPrepShare verifiers_share wr_joint_rand_part vf_joint_rand_part).

Record Prep : Type := MkPrep {
  Prep_wr_joint_rand_seed : list byte;
  Prep_vf_joint_rand_seed : list byte;
}.

Definition Prep_encode : writer Prep := fun self bytes =>
  bytes ← Seed_encode (Prep_wr_joint_rand_seed self) bytes;
  Seed_encode (Prep_vf_joint_rand_seed self) bytes.

Definition Prep_decode : reader Prep :=
  wr_joint_rand_seed ← Seed_decode;
  vf_joint_rand_seed ← Seed_decode;
  mret (MkPrep wr_joint_rand_seed vf_joint_rand_seed).

(** [encoded_len], where the arithmetic is that of [usize] *)
Definition PublicShare_encoded_len {E} (_ : PublicShare) : res E N := u64_mul SEED_SIZE 4.

Definition InputShare_encoded_len {E} (self : InputShare) : res E N :=
  match self with
  | InputShare_Leader meas_share proofs_share _ _ =>
      a ← u64_mul (len meas_share) ENCODED_SIZE;
      b ← u64_mul (len proofs_share) ENCODED_SIZE;
      s ← u64_mul SEED_SIZE 2;
      ab ← u64_add a b;
      u64_add ab s
  | InputShare_Helper _ _ _ _ => u64_mul SEED_SIZE 4
  end.

Definition PrepShare_encoded_len {E} (self : PrepShare) : res E N :=
  a ← u64_mul (len (PrepShare_verifiers_share self)) ENCODED_SIZE;
  s ← u64_mul SEED_SIZE 2;
  u64_add a s.

Definition Prep_encoded_len {E} (_ : Prep) : res E N := u64_mul SEED_SIZE 2.

(** ** [PineVec], the type of output and aggregate shares *)
Definition PineVec_encode : writer (list felem) := encode_each felem_encode.
Definition PineVec_decode (pine : Pine) : reader (list felem) :=
  decode_take felem_decode (N.to_nat (PineType_dimension (Pine_flp pine))).

(** ** Well-formed values *)
Abbreviation seed := (array SEED_SIZE).

Definition PublicShare_wf (x : PublicShare) : Prop :=
  (seed (PublicShare_wr_joint_rand_parts x).1 /\ seed (PublicShare_wr_joint_rand_parts x).2) /\
  seed (PublicShare_vf_joint_rand_parts x).1 /\ seed (PublicShare_vf_joint_rand_parts x).2.

(** The share of Aggregator [agg_id], where [n] is the length of the proofs. *)
Definition InputShare_wf (pine : Pine) (agg_id n : N) (x : InputShare) : Prop :=
  match x with
  | InputShare_Leader meas_share proofs_share wr_blind vf_blind =>
      agg_id = 0 /\ vec_len (Pine_encoded_input_len pine) meas_share /\
      vec_len n proofs_share /\ seed wr_blind /\ seed vf_blind
  | InputShare_Helper meas_share proofs_share wr_blind vf_blind =>
      agg_id = 1 /\ seed meas_share /\ seed proofs_share /\ seed wr_blind /\ seed vf_blind
  end.

Definition PrepShare_wf (verifiers_len : N) (x : PrepShare) : Prop :=
  vec_len verifiers_len (PrepShare_verifiers_share x) /\
  seed (PrepShare_wr_joint_rand_part x) /\ seed (PrepShare_vf_joint_rand_part x).

Definition Prep_wf (x : Prep) : Prop :=
  seed (Prep_wr_joint_rand_seed x) /\ seed (Prep_vf_joint_rand_seed x).

(** ** Lengths *)

(** The length of a proof with one gadget: its wire seeds and its polynomial. *)
Definition gadget_proof_size (arity chunk_len gadget_calls : N) : N :=
  arity * chunk_len + 2 * (2 ^ N.log2_up (1 + gadget_calls) - 1) + 1.

Definition main_proof_size (self : PineType) : N :=
  gadget_proof_size 2 (PineType_chunk_len self) (PineType_gadget_calls self).
Definition sne_proof_size (self : PineTypeSquaredNormEqual) : N :=
  gadget_proof_size 1 (PineTypeSNE_chunk_len self) (PineTypeSNE_gadget_calls self).

Lemma gadget_proof_len_ok {E} arity chunk_len gadget_calls :
  arity <= 2 -> chunk_len <= u32_max -> gadget_calls <= 2 ^ 33 ->
  let n := gadget_proof_size arity chunk_len gadget_calls in
  gadget_proof_len (E:=E) arity chunk_len gadget_calls = Ok n /\ 1 <= n <= 2 ^ 36.
Proof.
  unfold gadget_proof_size. intros Ha Hc Hg. assert (u32_max = 4294967295) as E32 by done.
  assert (u64_max = 18446744073709551615) as E64 by done.
  change (2 ^ 33) with 8589934592 in Hg.
  assert (2 ^ N.log2_up (1 + gadget_calls) <= 2 ^ 34) as Hp.
  { apply N.pow_le_mono_r; [done|]. change 34 with (N.log2_up (2 ^ 34)). apply N.log2_up_le_mono.
    change (2 ^ 34) with 17179869184. lia. }
  change (2 ^ 34) with 17179869184 in Hp.
  assert (1 <= 2 ^ N.log2_up (1 + gadget_calls)).
  { pose proof (N.pow_nonzero 2 (N.log2_up (1 + gadget_calls))). lia. }
  unfold gadget_proof_len. rewrite u64_mul_fits by nia. cbn [mbind res_bind].
  rewrite u64_add_fits by lia. cbn [mbind res_bind].
  unfold next_power_of_two.
  replace (if 1 + gadget_calls <=? 1 then 1 else 2 ^ N.log2_up (1 + gadget_calls))
    with (2 ^ N.log2_up (1 + gadget_calls)).
  2: { destruct (N.leb_spec (1 + gadget_calls) 1); [|done].
       by replace gadget_calls with 0 by lia. }
  set (p := 2 ^ N.log2_up (1 + gadget_calls)) in *.
  rewrite (proj2 (N.leb_le p u64_max)) by lia. cbn [mbind res_bind].
  rewrite u64_sub_fits by lia. cbn [mbind res_bind]. rewrite u64_mul_fits by lia. cbn [mbind res_bind].
  rewrite u64_add_fits by nia. cbn [mbind res_bind]. rewrite u64_add_fits by nia.
  split; [done|]. change (2 ^ 36) with 68719476736. nia.
Qed.

(** The lengths of the proofs of an instance made by [Pine::new]. *)
Lemma proof_lens_ok {E} F param id p :
  PineParam_wf param -> Pine_new F param id = Ok p ->
  let a := sne_proof_size (Pine_flp_sq_norm_equal p) in let b := main_proof_size (Pine_flp p) in
  PineTypeSNE_proof_len (E:=E) (Pine_flp_sq_norm_equal p) = Ok a /\
  PineType_proof_len (E:=E) (Pine_flp p) = Ok b /\ 1 <= a <= 2 ^ 36 /\ 1 <= b <= 2 ^ 36.
Proof.
  intros W H. destruct (Pine_new_spec F param id p W H) as (A & L & S).
  destruct W as (_ & _ & Wd & Wc & Wce & _ & _ & Wt & _).
  assert (u32_max = 4294967295) as E32 by done. assert (u16_max = 65535) as E16 by done.
  pose proof (accepted_chunk_len _ _ A). pose proof (accepted_chunk_len_sq_norm_equal _ _ A).
  pose proof (bits_le_64 _ (accepted_sq_norm_u64 _ _ A)) as Hb.
  rewrite <-(lengths_sq_norm_bits _ _ L) in Hb.
  assert (PineType_gadget_calls (Pine_flp p) <= 2 ^ 33) as Hg.
  { pose proof (lengths_gadget _ _ L) as Hg. rewrite (lengths_bit_checked _ _ L) in Hg.
    pose proof (fields_wr_test_bits _ _ _ _ S). change (2 ^ 33) with 8589934592.
    assert ((1 + PineType_wr_test_bits (Pine_flp p)) * PineParam_num_wr_tests param <= 65 * 65535)
      by (apply N.mul_le_mono; unfold u16_wf in Wt; lia).
    unfold u16_wf in Wt. nia. }
  assert (PineTypeSNE_gadget_calls (Pine_flp_sq_norm_equal p) <= 2 ^ 33) as Hge.
  { pose proof (lengths_gadget_sq_norm _ _ L) as Hge. change (2 ^ 33) with 8589934592. nia. }
  assert (PineTypeSNE_chunk_len (Pine_flp_sq_norm_equal p)
    = PineParam_chunk_len_sq_norm_equal param) as Hce by (by rewrite (fields_sne _ _ _ _ S)).
  destruct (gadget_proof_len_ok (E:=E) 1 (PineTypeSNE_chunk_len (Pine_flp_sq_norm_equal p))
    (PineTypeSNE_gadget_calls (Pine_flp_sq_norm_equal p))); [done|by rewrite Hce|done|].
  destruct (gadget_proof_len_ok (E:=E) 2 (PineType_chunk_len (Pine_flp p))
    (PineType_gadget_calls (Pine_flp p))); [done|by rewrite (fields_chunk_len _ _ _ _ S)|done|].
  intros a b. split; [done|]. split; [done|]. done.
Qed.

Definition proofs_size (p : Pine) : N :=
  sne_proof_size (Pine_flp_sq_norm_equal p) * Pine_num_proofs_sq_norm_equal p
  + main_proof_size (Pine_flp p) * Pine_num_proofs p.

Lemma proofs_len_ok {E} F param id p :
  PineParam_wf param -> Pine_new F param id = Ok p ->
  proofs_len (E:=E) p = Ok (proofs_size p) /\ proofs_size p <= u64_max.
Proof.
  intros W H. destruct (proof_lens_ok (E:=E) F param id p W H) as (Ha & Hb & Ba & Bb).
  destruct (Pine_new_spec F param id p W H) as (_ & _ & S).
  destruct W as (_ & _ & _ & _ & _ & Wp & Wpe & _ & _). unfold u8_wf in *.
  rewrite <-(fields_num_proofs _ _ _ _ S) in Wp. rewrite <-(fields_num_proofs_sne _ _ _ _ S) in Wpe.
  assert (u8_max = 255) as E8 by done. assert (u64_max = 18446744073709551615) as E64 by done.
  change (2 ^ 36) with 68719476736 in *. unfold proofs_size.
  assert (sne_proof_size (Pine_flp_sq_norm_equal p) * Pine_num_proofs_sq_norm_equal p
    <= 68719476736 * 255) by (apply N.mul_le_mono; lia).
  assert (main_proof_size (Pine_flp p) * Pine_num_proofs p
    <= 68719476736 * 255) by (apply N.mul_le_mono; lia).
  split; [|lia]. unfold proofs_len. rewrite Ha. cbn [mbind res_bind].
  rewrite u64_mul_fits by lia. cbn [mbind res_bind]. rewrite Hb. cbn [mbind res_bind].
  rewrite u64_mul_fits by lia. cbn [mbind res_bind]. apply u64_add_fits. lia.
Qed.
End PineMsg.

(** ** Codecs *)
Section Codecs.
Context `{BP : BuildProfile} `{PF : PrioField} {PL : PrioFieldLaws PF} `{PX : !Xof} {XL : XofLaws PX}.

#[global] Instance vec_codec {A} (w : writer A) (d : reader A) `{!CodecOk (fun _ => True) w d} n :
  CodecOk (vec_len (N.of_nat n)) (encode_each w) (decode_take d n).
Proof.
  induction n as [|n IH]; split.
  - intros [|x xs] Hx; [|by unfold vec_len, len in Hx; simpl in Hx; lia]. exists []. split.
    + intros buf. simpl. by rewrite app_nil_r.
    + apply decodes_ret.
  - intros c x c' H. injection H as <- <-. split; [done|]. exists []. split; [apply consumed_ret|].
    intros buf. simpl. by rewrite app_nil_r.
  - intros [|x xs] Hx; [by unfold vec_len, len in Hx; simpl in Hx; lia|].
    unfold writes. cbn [encode_each decode_take].
    eapply (complete_bind _ w d x); [apply _|done|].
    eapply (complete_last _ (encode_each w) (decode_take d n) xs); [apply _| |done].
    unfold vec_len, len in *. simpl in Hx. lia.
  - intros c x c' H. cbn [decode_take] in H. sound_fields H. split.
    + unfold vec_len, len in *. simpl. lia.
    + eexists. split; [chain_consumed|]. unfold writes. cbn [encode_each]. chain_appends.
Qed.

#[global] Instance vec_codec_N {A} (w : writer A) (d : reader A) `{!CodecOk (fun _ => True) w d} n :
  CodecOk (vec_len n) (encode_each w) (decode_take d (N.to_nat n)).
Proof. rewrite <-(N2Nat.id n) at 1. apply _. Qed.

#[global] Instance NoPanic_take {A} (d : reader A) `{!NoPanic d} n : NoPanic (decode_take d n).
Proof. induction n as [|n IH]; cbn [decode_take]; apply _. Qed.

#[global] Instance PublicShare_codec : CodecOk PublicShare_wf PublicShare_encode PublicShare_decode.
Proof. split; [solve_complete|solve_sound]. Qed.

#[global] Instance PrepShare_codec n : CodecOk (PrepShare_wf n) PrepShare_encode (PrepShare_decode n).
Proof. split; [solve_complete|solve_sound]. Qed.

#[global] Instance Prep_codec : CodecOk Prep_wf Prep_encode Prep_decode.
Proof. split; [solve_complete|solve_sound]. Qed.

#[global] Instance PineVec_codec pine :
  CodecOk (vec_len (PineType_dimension (Pine_flp pine))) PineVec_encode (PineVec_decode pine).
Proof. apply vec_codec_N. apply _. Qed.

Lemma decodes_ext {A} (d d' : reader A) x bs : (forall c, d c = d' c) -> decodes d x bs -> decodes d' x bs.
Proof. intros E H pre post Hm. rewrite <-E. by apply H. Qed.

(** The decoder of the Leader's share, with the length of the proofs computed. *)
Definition leader_share_decode (pine : Pine) (n : N) : reader InputShare :=
  meas_share ← decode_take felem_decode (N.to_nat (Pine_encoded_input_len pine));
  proofs_share ← decode_take felem_decode (N.to_nat n);
  wr_blind ← Seed_decode;
  vf_blind ← Seed_decode;
  mret (InputShare_Leader meas_share proofs_share wr_blind vf_blind).

Lemma leader_share_decode_eq pine n c :
  proofs_len (E:=CodecError) pine = Ok n -> InputShare_decode pine 0 c = leader_share_decode pine n c.
Proof.
  intros Hn. unfold InputShare_decode, leader_share_decode. unfold mbind at 1 6, reader_bind at 1 6.
  destruct (decode_take _ _ c) as [[ms c1]| |]; try done. by rewrite Hn.
Qed.

Lemma InputShare_codec pine agg_id n :
  proofs_len (E:=CodecError) pine = Ok n ->
  CodecOk (InputShare_wf pine agg_id n) InputShare_encode (InputShare_decode pine agg_id).
Proof.
  intros Hn. split.
  - intros [ms ps wr vf|ms ps wr vf] (-> & H1 & H2 & H3 & H4).
    + assert (exists bs, writes InputShare_encode (InputShare_Leader ms ps wr vf) bs /\
        decodes (leader_share_decode pine n) (InputShare_Leader ms ps wr vf) bs)
        as (bs & Hw & Hd).
      { unfold_writes. unfold_decodes. cbn. complete_fields. }
      exists bs. split; [done|]. eapply decodes_ext; [|done]. intros c. symmetry.
      by apply leader_share_decode_eq.
    + unfold_writes. unfold_decodes. cbn. complete_fields.
  - intros c x c' H. destruct agg_id as [|[a|a|]]; try done.
    + rewrite (leader_share_decode_eq _ n) in H by done. unfold leader_share_decode in H.
      sound_fields H. split; [by split_and!|close_sound].
    + unfold InputShare_decode in H. sound_fields H. split; [by split_and!|close_sound].
Qed.

Lemma InputShare_no_panic pine agg_id n :
  proofs_len (E:=CodecError) pine = Ok n -> NoPanic (InputShare_decode pine agg_id).
Proof.
  intros Hn. destruct agg_id as [|[a|a|]]; try (unfold InputShare_decode; apply _).
  intros c. rewrite (leader_share_decode_eq _ n) by done.
  assert (NoPanic (leader_share_decode pine n)) as Hp by solve_no_panic. apply Hp.
Qed.

Lemma appends_nil : appends Ok [].
Proof. intros buf. by rewrite app_nil_r. Qed.

(** ** [encoded_len] is the length of the encoding *)
Lemma writes_each_len {A} (w : writer A) k xs bs :
  (forall x, exists b, writes w x b) -> (forall x b, writes w x b -> len b = k) ->
  writes (encode_each w) xs bs -> len bs = len xs * k.
Proof.
  intros He Hk. revert bs. induction xs as [|x xs IH]; intros bs H.
  - specialize (H []). injection H as <-. done.
  - destruct (He x) as [b Hb].
    assert (exists b', writes (encode_each w) xs b') as [b' Hb'].
    { clear -He. induction xs as [|x xs [b' IH]]; [exists []; apply appends_nil|].
      destruct (He x) as [b Hb]. exists (b ++ b'). intros buf. cbn [encode_each]. rewrite Hb.
      cbn [mbind res_bind]. rewrite IH. by rewrite app_assoc. }
    specialize (H []). cbn [encode_each] in H. rewrite Hb in H. cbn [mbind res_bind] in H.
    rewrite Hb' in H. injection H as <-. rewrite len_app, (Hk _ _ Hb), (IH _ Hb'), len_cons. lia.
Qed.

Lemma felem_writes x : exists b, writes felem_encode x b.
Proof. destruct (codec_is_complete (d:=felem_decode) x I) as (b & Hb & _). eauto. Qed.

Lemma felems_write xs : exists b, writes (encode_each felem_encode) xs b /\ len b = len xs * ENCODED_SIZE.
Proof.
  destruct (codec_is_complete (wf:=vec_len (len xs)) (w:=encode_each felem_encode)
    (d:=decode_take felem_decode (N.to_nat (len xs))) xs eq_refl) as (b & Hb & _).
  exists b. split; [done|]. eapply writes_each_len; [apply felem_writes|apply felem_size|done].
Qed.

Lemma seed_writes s : array SEED_SIZE s -> exists b, writes Seed_encode s b /\ len b = SEED_SIZE.
Proof.
  intros Hs. destruct (codec_is_complete (d:=Seed_decode) s Hs) as (b & Hb & _). exists b. split; [done|].
  by eapply Seed_size.
Qed.

Lemma writes_unique {A} (w : writer A) x b b' : writes w x b -> writes w x b' -> b = b'.
Proof. intros H H'. specialize (H []). rewrite H' in H. by injection H. Qed.

(** The capacity reserved for an input share is the length of its encoding. *)
Lemma InputShare_encoded_len_exact {E} pine agg_id n x bs :
  InputShare_wf pine agg_id n x -> writes InputShare_encode x bs -> len bs <= u64_max ->
  InputShare_encoded_len (E:=E) x = Ok (len bs).
Proof.
  destruct x as [ms ps wr vf|ms ps wr vf]; intros (_ & H1 & H2 & H3 & H4) Hw Hb.
  - destruct (felems_write ms) as (b1 & W1 & L1). destruct (felems_write ps) as (b2 & W2 & L2).
    destruct (seed_writes wr H3) as (b3 & W3 & L3). destruct (seed_writes vf H4) as (b4 & W4 & L4).
    assert (bs = b1 ++ b2 ++ b3 ++ b4) as ->.
    { eapply writes_unique; [done|]. unfold_writes. chain_appends. }
    rewrite !len_app in *. unfold InputShare_encoded_len.
    repeat (first [rewrite u64_mul_fits by lia|rewrite u64_add_fits by lia]; cbn [mbind res_bind]).
    f_equal. lia.
  - destruct (seed_writes ms H1) as (b1 & W1 & L1). destruct (seed_writes ps H2) as (b2 & W2 & L2).
    destruct (seed_writes wr H3) as (b3 & W3 & L3). destruct (seed_writes vf H4) as (b4 & W4 & L4).
    assert (bs = b1 ++ b2 ++ b3 ++ b4) as ->.
    { eapply writes_unique; [done|]. unfold_writes. chain_appends. }
    rewrite !len_app in *. unfold InputShare_encoded_len. rewrite u64_mul_fits by lia. f_equal. lia.
Qed.

(** The messages of PINE for an instance made by [Pine::new]: every public share, input
    share of either Aggregator, preparation share, preparation message and aggregate share
    with the lengths of the instance is encoded and decoded to itself, has no other encoding,
    and decoding returns on every input; an input share is decoded for no other Aggregator
    than the Leader (0) and the Helper (1). *)
Theorem pine_messages_codec `{PC : PrioCodec} {L : PrioCodecLaws PC} param id pine verifiers_len :
  PineParam_wf param -> Pine_new felem_field param id = Ok pine ->
  (round_trips PublicShare_wf PublicShare_encode PublicShare_decode /\
   canonical PublicShare_wf PublicShare_encode PublicShare_decode /\
   decoding_returns PublicShare_decode) /\
  (forall agg_id, let n := proofs_size pine in
    round_trips (InputShare_wf pine agg_id n) InputShare_encode (InputShare_decode pine agg_id) /\
    canonical (InputShare_wf pine agg_id n) InputShare_encode (InputShare_decode pine agg_id) /\
    decoding_returns (InputShare_decode pine agg_id) /\
    (forall x, InputShare_wf pine agg_id n x -> agg_id = 0 \/ agg_id = 1)) /\
  (round_trips (PrepShare_wf verifiers_len) PrepShare_encode (PrepShare_decode verifiers_len) /\
   canonical (PrepShare_wf verifiers_len) PrepShare_encode (PrepShare_decode verifiers_len) /\
   decoding_returns (PrepShare_decode verifiers_len)) /\
  (round_trips Prep_wf Prep_encode Prep_decode /\
   canonical Prep_wf Prep_encode Prep_decode /\ decoding_returns Prep_decode) /\
  (round_trips (vec_len (PineType_dimension (Pine_flp pine))) PineVec_encode (PineVec_decode pine) /\
   canonical (vec_len (PineType_dimension (Pine_flp pine))) PineVec_encode (PineVec_decode pine) /\
   decoding_returns (PineVec_decode pine)).
Proof.
  intros W H. destruct (proofs_len_ok (E:=CodecError) _ _ _ _ W H) as [Hn _].
  split_and!; try (first [apply codec_round_trips|apply codec_canonical|apply no_panic_returns]; apply _ || solve_no_panic).
  intros agg_id n. pose proof (InputShare_codec pine agg_id _ Hn) as HC.
  pose proof (InputShare_no_panic pine agg_id _ Hn) as HP.
  split_and!; [by apply codec_round_trips|by apply codec_canonical|by apply no_panic_returns|].
  intros [] (-> & _); auto.
Qed.
End Codecs.
