(* ===== verification/PineVdaf.v ===== *)
(** * The VDAF of PINE

    [src/crates/daphne/src/pine/vdaf.rs]: the Client shards a gradient, the two Aggregators
    prepare their shares, aggregate, and the Collector puts the aggregate shares together.
    The proof system of [prio] ([flp::Type::prove], [query], [decide]) is a dependency, the
    class [Flp]; the randomness of [shard] is an argument ([ShardRand]). *)

From S2P Require Import Prelude Codec Messages TaskprovMessages Errors Pine PineField.
From S2P Require Import PineEncoding PineFlp PineMsg.

Definition USAGE_MEAS_SHARE : N := 1.
Definition USAGE_PROOF_SHARE : N := 2.
Definition USAGE_PROVE_RAND : N := 4.
Definition USAGE_QUERY_RAND : N := 5.
Definition USAGE_VF_JOINT_RAND : N := 3.
Definition USAGE_VF_JOINT_RAND_SEED : N := 6.
Definition USAGE_VF_JOINT_RAND_PART : N := 7.
Definition USAGE_WR_JOINT_RAND_SEED : N := 9.
Definition USAGE_WR_JOINT_RAND_PART : N := 10.

(** The proof system over a circuit [T]. *)
Class Flp `{PrioField} (T : Type) : Type := {
  (** [prove(input, prove_rand, joint_rand)] *)
  flp_prove : T -> list felem -> list felem -> list felem -> res FlpError (list felem);
  (** [query(input, proof, query_rand, joint_rand, num_shares)] *)
  flp_query : T -> list felem -> list felem -> list felem -> list felem -> N ->
    res FlpError (list felem);
  (** [decide(verifier)] *)
  flp_decide : T -> list felem -> res FlpError bool;
}.

(** [for (x, y) in xs.iter_mut().zip(ys.iter()) { f(x, y) }] *)
Fixpoint zip_assign {A} (f : A -> A -> A) (xs ys : list A) : list A :=
  match xs, ys with
  | x :: xs, y :: ys => f x y :: zip_assign f xs ys
  | xs, _ => xs
  end.

(** [&slice[n..]] *)
Definition slice_from {E A} (n : N) (l : list A) : res E (list A) :=
  if n <=? len l then Ok (drop (N.to_nat n) l) else Panic.

(** The seeds of [shard], in the order of the array. *)
Record ShardRand : Type := MkShardRand {
  rand_meas_share_seed_1 : list byte;
  rand_proofs_share_seed_1 : list byte;
  rand_wr_blind_1 : list byte;
  rand_vf_blind_1 : list byte;
  rand_wr_blind_0 : list byte;
  rand_vf_blind_0 : list byte;
  rand_prove_seed : list byte;
}.

Section PineVdaf.
Context `{BP : BuildProfile} `{PF : PrioField} `{PX : !Xof}.
Context `{FM : !Flp PineType} `{FS : !Flp PineTypeSquaredNormEqual}.

(** ** [PineVec] *)
Definition PineVec_merge (self agg_share : list felem) : res PrioVdafError (list felem) :=
  Ok (zip_assign fadd self agg_share).
Definition PineVec_accumulate (self out_share : list felem) : res PrioVdafError (list felem) :=
  Ok (zip_assign fadd self out_share).

(** ** Randomness *)
Fixpoint update_elements {E} (xof : XofState) (meas_share : list felem) : res E XofState :=
  match meas_share with
  | [] => Ok xof
  | x :: meas_share =>
      match felem_encode x [] with
      | Ok buf => update_elements (xof_update xof buf) meas_share
      | _ => Panic
      end
  end.

Definition joint_rand_part {E} (self : Pine) (agg_id : N) (blind nonce : list byte)
    (meas_share : list felem) (usage : N) : res E (list byte) :=
  let xof := xof_init blind (dst (Pine_algorithm_id self) usage) in
  let xof := xof_update xof [byte_of_N agg_id] in
  let xof := xof_update xof nonce in
  xof ← update_elements xof meas_share;
  Ok (xof_into_seed xof).

Definition joint_rand_seed (self : Pine) (joint_rand_parts : list byte * list byte) (usage : N) :
    list byte :=
  let xof := xof_init (replicate (N.to_nat SEED_SIZE) Byte.x00)
               (dst (Pine_algorithm_id self) usage) in
  let xof := xof_update xof joint_rand_parts.1 in
  let xof := xof_update xof joint_rand_parts.2 in
  xof_into_seed xof.

Definition helper_meas_share (self : Pine) (seed : list byte) : list felem :=
  let xof := xof_init seed (dst (Pine_algorithm_id self) USAGE_MEAS_SHARE) in
  let xof := xof_update xof [Byte.x01] in
  into_field_vec (xof_into_seed_stream xof) (Pine_encoded_input_len self).

Definition helper_proof_share {E} (self : Pine) (seed : list byte) : res E (list felem) :=
  let xof := xof_init seed (dst (Pine_algorithm_id self) USAGE_PROOF_SHARE) in
  let xof := xof_update xof [byte_of_N (Pine_num_proofs_sq_norm_equal self);
                             byte_of_N (Pine_num_proofs self); Byte.x01] in
  n ← proofs_len self;
  Ok (into_field_vec (xof_into_seed_stream xof) n).

(** The joint randomness of the main circuit, one part for each proof. *)
Definition vf_joint_rands {E} (self : Pine) (vf_joint_rand_seed : list byte) :
    res E (list (list felem)) :=
  n ← u64_mul PineType_joint_rand_len (Pine_num_proofs self);
  chunks_exact PineType_joint_rand_len (into_field_vec
    (xof_seed_stream vf_joint_rand_seed (dst (Pine_algorithm_id self) USAGE_VF_JOINT_RAND)
       [byte_of_N (Pine_num_proofs self)]) n).

(** ** Client *)
Definition prove_rands {E} (self : Pine) (prove_seed : list byte) :
    res E (list felem * list felem) :=
  let xof := xof_init prove_seed (dst (Pine_algorithm_id self) USAGE_PROVE_RAND) in
  let xof := xof_update xof [byte_of_N (Pine_num_proofs_sq_norm_equal self);
                             byte_of_N (Pine_num_proofs self)] in
  let prove_rand_len_sne := PineTypeSNE_prove_rand_len (Pine_flp_sq_norm_equal self) in
  a ← u64_mul prove_rand_len_sne (Pine_num_proofs_sq_norm_equal self);
  prove_rand_len ← PineType_prove_rand_len (Pine_flp self);
  b ← u64_mul prove_rand_len (Pine_num_proofs self);
  n ← u64_add a b;
  split_at a (into_field_vec (xof_into_seed_stream xof) n).

(** One loop over the proofs of a circuit. *)
Fixpoint prove_all `{!Flp T} (flp : T) (meas : list felem) (rands : list (list felem * list felem))
    (proofs : list felem) : res PrioVdafError (list felem) :=
  match rands with
  | [] => Ok proofs
  | (prove_rand, joint_rand) :: rands =>
      proof ← map_err PrioVdafError_Flp (flp_prove flp meas prove_rand joint_rand);
      prove_all flp meas rands (proofs ++ proof)
  end.

Definition leader_proofs_share (self : Pine) (meas : list felem)
    (vf_joint_rand_parts : list byte * list byte) (prove_seed proofs_share_seed_1 : list byte) :
    res PrioVdafError (list felem) :=
  let vf_joint_rand_seed := joint_rand_seed self vf_joint_rand_parts USAGE_VF_JOINT_RAND_SEED in
  joint_rands ← vf_joint_rands self vf_joint_rand_seed;
  '(pr_sq_norm_equal, pr) ← prove_rands self prove_seed;
  pr_sq_norm_equal ← chunks_exact (PineTypeSNE_prove_rand_len (Pine_flp_sq_norm_equal self))
                       pr_sq_norm_equal;
  proofs ← prove_all (Pine_flp_sq_norm_equal self) meas ((fun r => (r, [])) <$> pr_sq_norm_equal) [];
  prove_rand_len ← PineType_prove_rand_len (Pine_flp self);
  pr ← chunks_exact prove_rand_len pr;
  proofs ← prove_all (Pine_flp self) meas (zip pr joint_rands) proofs;
  share_1 ← helper_proof_share self proofs_share_seed_1;
  Ok (zip_assign fsub proofs share_1).

Definition shard_with_rand (self : Pine) (gradient : list f64) (nonce : list byte)
    (rand : ShardRand) : res PrioVdafError (PublicShare * list InputShare) :=
  meas ← append_encoded_gradient (Pine_flp self) [] gradient;
  let meas_share_1 := helper_meas_share self (rand_meas_share_seed_1 rand) in
  let meas_share_0 := zip_with fsub meas (take (length meas) meas_share_1) in
  wr_part_0 ← joint_rand_part self 0 (rand_wr_blind_0 rand) nonce meas_share_0
                USAGE_WR_JOINT_RAND_PART;
  grad_share_1 ← slice_to (Pine_encoded_gradient_and_sq_norm_len self) meas_share_1;
  wr_part_1 ← joint_rand_part self 1 (rand_wr_blind_1 rand) nonce grad_share_1
                USAGE_WR_JOINT_RAND_PART;
  let wr_joint_rand_parts := (wr_part_0, wr_part_1) in
  let wr_joint_rand_seed := joint_rand_seed self wr_joint_rand_parts USAGE_WR_JOINT_RAND_SEED in
  let i := len meas in
  '(meas, wr_test_results) ← append_wr_test_results (Pine_flp self) meas wr_joint_rand_seed;
  meas_i ← slice_from i meas;
  meas_share_1_i ← slice_from i meas_share_1;
  let meas_share_0 := meas_share_0 ++ zip_with fsub meas_i meas_share_1_i in
  let meas := meas ++ wr_test_results in
  vf_part_0 ← joint_rand_part self 0 (rand_vf_blind_0 rand) nonce meas_share_0
                USAGE_VF_JOINT_RAND_PART;
  vf_part_1 ← joint_rand_part self 1 (rand_vf_blind_1 rand) nonce meas_share_1
                USAGE_VF_JOINT_RAND_PART;
  let vf_joint_rand_parts := (vf_part_0, vf_part_1) in
  proofs_share_0 ← leader_proofs_share self meas vf_joint_rand_parts (rand_prove_seed rand)
                     (rand_proofs_share_seed_1 rand);
  Ok (MkPublicShare wr_joint_rand_parts vf_joint_rand_parts,
      [InputShare_Leader meas_share_0 proofs_share_0 (rand_wr_blind_0 rand) (rand_vf_blind_0 rand);
       InputShare_Helper (rand_meas_share_seed_1 rand) (rand_proofs_share_seed_1 rand)
         (rand_wr_blind_1 rand) (rand_vf_blind_1 rand)]).

(** ** Aggregator *)
Record PinePrepState : Type := MkPinePrepState {
  PinePrepState_gradient_share : list felem;
  PinePrepState_corrected_wr_joint_rand_seed : list byte;
  PinePrepState_corrected_vf_joint_rand_seed : list byte;
  PinePrepState_verifiers_len : N;
}.

(** The shares of the measurement and of the proofs, and the blinds. *)
Definition unpack_input_share (self : Pine) (agg_id : N) (input_share : InputShare) :
    res PrioVdafError (list felem * list felem * list byte * list byte) :=
  match agg_id, input_share with
  | 0, InputShare_Leader meas_share proofs_share wr_blind vf_blind =>
      Ok (meas_share, proofs_share, wr_blind, vf_blind)
  | 1, InputShare_Helper meas_share_seed proofs_share_seed wr_blind vf_blind =>
      proofs_share ← helper_proof_share self proofs_share_seed;
      Ok (helper_meas_share self meas_share_seed, proofs_share, wr_blind, vf_blind)
  | agg_id, _ =>
      if 2 <=? agg_id then
        Err (Uncategorized (Fmt "unrecognized aggregator id {agg_id}" [ArgOpaque]))
      else
        Err (Uncategorized (Fmt
          "unexpected message type for input share (agg_id={agg_id}): {input_share}"
          [ArgOpaque; ArgOpaque]))
  end.

(** [parts[agg_id] = part] on an array of two *)
Definition set_part {E} (parts : list byte * list byte) (agg_id : N) (part : list byte) :
    res E (list byte * list byte) :=
  match agg_id with
  | 0 => Ok (part, parts.2)
  | 1 => Ok (parts.1, part)
  | _ => Panic
  end.

Definition query_rands {E} (self : Pine) (verify_key nonce : list byte) :
    res E (list (list felem) * list (list felem)) :=
  let xof := xof_init verify_key (dst (Pine_algorithm_id self) USAGE_QUERY_RAND) in
  let xof := xof_update xof [byte_of_N (Pine_num_proofs_sq_norm_equal self);
                             byte_of_N (Pine_num_proofs self)] in
  let xof := xof_update xof nonce in
  a ← u64_mul PineTypeSNE_query_rand_len (Pine_num_proofs_sq_norm_equal self);
  b ← u64_mul PineType_query_rand_len (Pine_num_proofs self);
  n ← u64_add a b;
  '(qr_sq_norm_equal, qr) ← split_at a (into_field_vec (xof_into_seed_stream xof) n);
  qr_sq_norm_equal ← chunks_exact PineTypeSNE_query_rand_len qr_sq_norm_equal;
  qr ← chunks_exact PineType_query_rand_len qr;
  Ok (qr_sq_norm_equal, qr).

(** One loop over the proofs of a circuit: proof share, joint and query randomness. *)
Fixpoint query_all `{!Flp T} (flp : T) (meas_share : list felem)
    (proofs : list (list felem * (list felem * list felem))) (verifiers_share : list felem) :
    res PrioVdafError (list felem) :=
  match proofs with
  | [] => Ok verifiers_share
  | (proof_share, (joint_rand, query_rand)) :: proofs =>
      verifier ← map_err PrioVdafError_Flp
                   (flp_query flp meas_share proof_share query_rand joint_rand 2);
      query_all flp meas_share proofs (verifiers_share ++ verifier)
  end.

(** The queries, on the two parts of the proofs. *)
Definition query_proofs (self : Pine) (meas_share ps_sq_norm_equal ps : list felem)
    (verify_key nonce corrected_vf_joint_rand_seed : list byte) :
    res PrioVdafError (list felem) :=
  joint_rands ← vf_joint_rands self corrected_vf_joint_rand_seed;
  '(qr_sq_norm_equal, qr) ← query_rands self verify_key nonce;
  proof_len_sne ← PineTypeSNE_proof_len (Pine_flp_sq_norm_equal self);
  proofs_sne ← chunks_exact proof_len_sne ps_sq_norm_equal;
  verifiers_share ← query_all (Pine_flp_sq_norm_equal self) meas_share
    (zip proofs_sne ((fun r => ([], r)) <$> qr_sq_norm_equal)) [];
  proof_len ← PineType_proof_len (Pine_flp self);
  proofs ← chunks_exact proof_len ps;
  query_all (Pine_flp self) meas_share (zip proofs (zip joint_rands qr)) verifiers_share.

Definition prepare_init (self : Pine) (verify_key : list byte) (agg_id : N) (nonce : list byte)
    (public_share : PublicShare) (input_share : InputShare) :
    res PrioVdafError (PinePrepState * PrepShare) :=
  '(meas_share, proofs_share, wr_blind, vf_blind) ← unpack_input_share self agg_id input_share;
  proof_len_sne ← PineTypeSNE_proof_len (Pine_flp_sq_norm_equal self);
  k ← u64_mul proof_len_sne (Pine_num_proofs_sq_norm_equal self);
  '(ps_sq_norm_equal, ps) ← split_at k proofs_share;
  gradient_and_sq_norm ← slice_to (Pine_encoded_gradient_and_sq_norm_len self) meas_share;
  wr_joint_rand_part ← joint_rand_part self agg_id wr_blind nonce gradient_and_sq_norm
                         USAGE_WR_JOINT_RAND_PART;
  wr_parts ← set_part (PublicShare_wr_joint_rand_parts public_share) agg_id wr_joint_rand_part;
  let corrected_wr_joint_rand_seed := joint_rand_seed self wr_parts USAGE_WR_JOINT_RAND_SEED in
  gradient_share ← slice_to (PineType_dimension (Pine_flp self)) meas_share;
  wr_test_results ← run_wr_tests (Pine_flp self) gradient_share corrected_wr_joint_rand_seed;
  let meas_share := meas_share ++ wr_test_results in
  encoded_input ← slice_to (Pine_encoded_input_len self) meas_share;
  vf_joint_rand_part ← joint_rand_part self agg_id vf_blind nonce encoded_input
                         USAGE_VF_JOINT_RAND_PART;
  vf_parts ← set_part (PublicShare_vf_joint_rand_parts public_share) agg_id vf_joint_rand_part;
  let corrected_vf_joint_rand_seed := joint_rand_seed self vf_parts USAGE_VF_JOINT_RAND_SEED in
  verifiers_share ← query_proofs self meas_share ps_sq_norm_equal ps verify_key nonce
                      corrected_vf_joint_rand_seed;
  gradient_share ← map_err PrioVdafError_Flp (PineType_truncate (Pine_flp self) meas_share);
  Ok (MkPinePrepState gradient_share corrected_wr_joint_rand_seed corrected_vf_joint_rand_seed
        (len verifiers_share),
      MkPrepShare verifiers_share wr_joint_rand_part vf_joint_rand_part).

(** One loop over the verifiers of a circuit. *)
Fixpoint decide_all `{!Flp T} (flp : T) (msg : string) (verifiers : list (list felem)) :
    res PrioVdafError unit :=
  match verifiers with
  | [] => Ok tt
  | verifier :: verifiers =>
      ok ← map_err PrioVdafError_Flp (flp_decide flp verifier);
      if ok : bool then decide_all flp msg verifiers else Err (Uncategorized (Text msg))
  end.

Definition prepare_shares_to_prepare_message (self : Pine) (inputs : list PrepShare) :
    res PrioVdafError Prep :=
  match inputs with
  | [prep_share_0; prep_share_1] =>
      let verifiers := zip_assign fadd (PrepShare_verifiers_share prep_share_0)
                         (PrepShare_verifiers_share prep_share_1) in
      verifier_len_sne ← PineTypeSNE_verifier_len (Pine_flp_sq_norm_equal self);
      k ← u64_mul verifier_len_sne (Pine_num_proofs_sq_norm_equal self);
      '(v_sq_norm_equal, v) ← split_at k verifiers;
      v_sq_norm_equal ← chunks_exact verifier_len_sne v_sq_norm_equal;
      _ ← decide_all (Pine_flp_sq_norm_equal self) "squared norm equality proof check failed"
            v_sq_norm_equal;
      verifier_len ← PineType_verifier_len (Pine_flp self);
      v ← chunks_exact verifier_len v;
      _ ← decide_all (Pine_flp self) "main proof check failed" v;
      Ok (MkPrep
        (joint_rand_seed self (PrepShare_wr_joint_rand_part prep_share_0,
                               PrepShare_wr_joint_rand_part prep_share_1) USAGE_WR_JOINT_RAND_SEED)
        (joint_rand_seed self (PrepShare_vf_joint_rand_part prep_share_0,
                               PrepShare_vf_joint_rand_part prep_share_1) USAGE_VF_JOINT_RAND_SEED))
  | _ => Err (Uncategorized (Text "unexpected number of prep shares"))
  end.

(** The output share of [PrepareTransition::Finish]. *)
Definition prepare_next (state : PinePrepState) (input : Prep) : res PrioVdafError (list felem) :=
  if negb (bool_decide (PinePrepState_corrected_wr_joint_rand_seed state
                        = Prep_wr_joint_rand_seed input)) then
    Err (Uncategorized (Text "wraparound joint randomness check failed"))
  else if negb (bool_decide (PinePrepState_corrected_vf_joint_rand_seed state
                             = Prep_vf_joint_rand_seed input)) then
    Err (Uncategorized (Text "verification joint randomness check failed"))
  else Ok (PinePrepState_gradient_share state).

Fixpoint accumulate_all (agg_share : list felem) (out_shares : list (list felem)) :
    res PrioVdafError (list felem) :=
  match out_shares with
  | [] => Ok agg_share
  | out_share :: out_shares =>
      agg_share ← PineVec_accumulate agg_share out_share;
      accumulate_all agg_share out_shares
  end.

Definition aggregate (self : Pine) (out_shares : list (list felem)) : res PrioVdafError (list felem) :=
  accumulate_all (replicate (N.to_nat (PineType_dimension (Pine_flp self))) f0) out_shares.

(** ** Collector *)
Definition unshard (self : Pine) (agg_shares : list (list felem)) : res PrioVdafError (list f64) :=
  two_to_frac_bits ← two_to_frac_bits (PineType_frac_bits (Pine_flp self));
  match agg_shares with
  | [agg_result; agg_share_1] =>
      decode_all two_to_frac_bits (zip_assign fadd agg_result agg_share_1)
  | _ => Err (Uncategorized (Text "unexpected number of agg shares"))
  end.
End PineVdaf.
