(* ===== verification/PineVdafCorrect.v ===== *)
(** * An honest run of PINE

    What the proof system of [prio] promises for a circuit is the record [flp_laws]: proofs
    of accepted inputs, queries that are linear in shares of input and proof, and a decision
    that accepts the proof of an accepted input.  On top of it the file shows that the two
    Aggregators recover the joint randomness of the Client from their shares, agree on the
    preparation message, and end with shares of the encoded gradient; and that the Collector
    gets the sum of the gradients of a batch. *)

From Stdlib Require Import ZArith.
From S2P Require Import Prelude Codec Messages TaskprovMessages Errors Pine PineField.
From S2P Require Import PineEncoding PineFlp PineFlpCorrect PineWraparound PineMsg PineVdaf.

(** ** Lists in chunks *)
Lemma chunks_fuel_mjoin {A} fuel k (ls : list (list A)) :
  (0 < k)%nat -> Forall (fun c => length c = k) ls -> (length (mjoin ls) <= fuel)%nat ->
  chunks_fuel fuel k (mjoin ls) = ls.
Proof.
  intros Hk H. revert fuel. induction H as [|c ls Hc H IH]; intros fuel Hf.
  - by destruct fuel.
  - change (mjoin (c :: ls)) with (c ++ mjoin ls) in *. rewrite length_app in Hf.
    destruct fuel as [|fuel]; [lia|]. cbn [chunks_fuel].
    destruct c as [|x c]; [simpl in Hc; lia|]. cbn [app].
    change (x :: c ++ mjoin ls) with ((x :: c) ++ mjoin ls).
    rewrite take_app_le, take_ge, drop_app_ge, Hc, Nat.sub_diag, drop_0 by lia.
    rewrite IH by (simpl in Hf; lia). done.
Qed.

Lemma chunks_exact_mjoin {E A} k (ls : list (list A)) :
  0 < k -> Forall (of_len k) ls -> chunks_exact (E:=E) k (mjoin ls) = Ok ls.
Proof.
  intros Hk H. unfold chunks_exact. rewrite (proj2 (N.eqb_neq _ _)) by lia. f_equal.
  assert (Forall (fun c => length c = N.to_nat k) ls) as Hl.
  { eapply Forall_impl; [exact H|]. intros c Hc. unfold of_len, len in Hc. lia. }
  pose proof (length_mjoin_const _ _ Hl) as Hn.
  rewrite take_ge; [apply chunks_fuel_mjoin; [lia|done|done]|].
  rewrite Hn, Nat.div_mul by lia. done.
Qed.

(** A list of [n] chunks. *)
Lemma split_chunks {A} k n (l : list A) :
  len l = k * n -> exists ls, l = mjoin ls /\ Forall (of_len k) ls /\ len ls = n.
Proof.
  revert l. induction n as [|n IH] using N.peano_ind; intros l Hl.
  - exists []. split_and!; [|done|done]. destruct l; [done|]. rewrite len_cons in Hl. lia.
  - destruct (IH (drop (N.to_nat k) l)) as (ls & E & Hls & Hn).
    { unfold len in *. rewrite length_drop. lia. }
    exists (take (N.to_nat k) l :: ls). split_and!.
    + change (mjoin (?a :: ?b)) with (a ++ mjoin b). by rewrite <-E, take_drop.
    + constructor; [|done]. unfold of_len, len in *. rewrite length_take. lia.
    + rewrite len_cons, Hn. lia.
Qed.

Lemma len_mjoin {A} k (ls : list (list A)) : Forall (of_len k) ls -> len (mjoin ls) = k * len ls.
Proof.
  induction 1 as [|c ls Hc _ IH]; [by rewrite N.mul_0_r|].
  change (mjoin (c :: ls)) with (c ++ mjoin ls). rewrite len_app, len_cons, IH.
  unfold of_len in Hc. lia.
Qed.

Lemma slice_to_ok {E A} n (l : list A) : n <= len l -> slice_to (E:=E) n l = Ok (take (N.to_nat n) l).
Proof. intros H. unfold slice_to. by rewrite (proj2 (N.leb_le _ _)). Qed.

Lemma slice_from_app {E A} n (l l' : list A) : len l = n -> slice_from (E:=E) n (l ++ l') = Ok l'.
Proof.
  intros Hl. unfold slice_from. rewrite len_app, (proj2 (N.leb_le _ _)) by lia. unfold len in Hl.
  by rewrite drop_app_ge, <-Hl, Nat2N.id, Nat.sub_diag, drop_0 by lia.
Qed.

(** ** Shares *)
Section Shares.
Context `{PF : PrioField} {PL : PrioFieldLaws PF}.
Add Ring felem_ring_shares : (felem_ring).

Lemma zip_assign_add xs ys : length xs = length ys -> zip_assign fadd xs ys = add_shares xs ys.
Proof.
  revert ys. induction xs as [|x xs IH]; intros [|y ys] H; try done. simpl in *.
  unfold add_shares. simpl. f_equal. apply IH. lia.
Qed.

Lemma add_shares_sub xs ys : length xs = length ys -> add_shares (zip_assign fsub xs ys) ys = xs.
Proof.
  revert ys. induction xs as [|x xs IH]; intros [|y ys] H; try done. simpl in *.
  unfold add_shares in *. simpl. rewrite IH by lia. f_equal. ring.
Qed.

Lemma zip_with_sub xs ys : length xs = length ys -> zip_with fsub xs ys = zip_assign fsub xs ys.
Proof.
  revert ys. induction xs as [|x xs IH]; intros [|y ys] H; try done. simpl in *. f_equal. apply IH. lia.
Qed.

Lemma add_shares_app xs xs' ys ys' :
  length xs = length ys -> add_shares (xs ++ xs') (ys ++ ys') = add_shares xs ys ++ add_shares xs' ys'.
Proof. intros H. unfold add_shares. by apply zip_with_app. Qed.

Lemma take_add_shares n xs ys : take n (add_shares xs ys) = add_shares (take n xs) (take n ys).
Proof. unfold add_shares. apply zip_with_take. Qed.

Lemma length_zip_assign f (xs ys : list felem) : length (zip_assign f xs ys) = length xs.
Proof. revert ys. induction xs as [|x xs IH]; intros [|y ys]; simpl; auto. Qed.

Lemma len_add_shares n xs ys : of_len n xs -> of_len n ys -> of_len n (add_shares xs ys).
Proof. unfold of_len, len. intros Hx Hy. rewrite length_add_shares; lia. Qed.

(** Adding shares chunk by chunk. *)
Lemma add_shares_mjoin k (xs ys : list (list felem)) :
  Forall (of_len k) xs -> Forall (of_len k) ys -> length xs = length ys ->
  add_shares (mjoin xs) (mjoin ys) = mjoin (zip_with add_shares xs ys).
Proof.
  intros Hx. revert ys. induction Hx as [|x xs Hx _ IH]; intros [|y ys] Hy Hl; try done.
  apply Forall_cons in Hy as [Hy Hys]. change (mjoin (?a :: ?b)) with (a ++ mjoin b).
  cbn [zip_with]. change (mjoin (?a :: ?b)) with (a ++ mjoin b).
  rewrite add_shares_app by (unfold of_len, len in *; lia). rewrite IH; [done|done|simpl in Hl; lia].
Qed.

Lemma add_chunks_len k (xs ys : list (list felem)) :
  Forall (of_len k) xs -> Forall (of_len k) ys -> Forall (of_len k) (zip_with add_shares xs ys).
Proof.
  intros Hx. revert ys. induction Hx as [|x xs Hx _ IH]; intros [|y ys] Hy; try done.
  apply Forall_cons in Hy as [Hy Hys]. cbn [zip_with]. constructor; [by apply len_add_shares|by apply IH].
Qed.

Lemma mjoin_inj k (xs ys : list (list felem)) :
  0 < k -> Forall (of_len k) xs -> Forall (of_len k) ys -> mjoin xs = mjoin ys -> xs = ys.
Proof.
  intros Hk Hx Hy H. pose proof (chunks_exact_mjoin (E:=unit) k xs Hk Hx) as E.
  rewrite H, chunks_exact_mjoin in E by done. by injection E.
Qed.
End Shares.

(** ** The proof system *)

(** What [prio] documents of [prove], [query] and [decide] for a circuit [t] with the given
    lengths, for query randomness that is [good] (not a root of unity of the gadget's
    polynomial) and the inputs and joint randomness the circuit [accepts]. *)
Record flp_laws `{PF : PrioField} {T} (F : Flp T) (t : T)
    (input_len proof_len verifier_len prove_rand_len joint_rand_len : N)
    (good : list felem -> Prop) (accepts : list felem -> list felem -> Prop) : Prop := {
  laws_prove x pr jr :
    of_len input_len x -> of_len prove_rand_len pr -> of_len joint_rand_len jr -> accepts x jr ->
    exists p, flp_prove t x pr jr = Ok p /\ of_len proof_len p;
  laws_query x p qr jr n :
    of_len input_len x -> of_len proof_len p -> of_len 1 qr -> of_len joint_rand_len jr ->
    1 <= n <= 2 -> good qr -> exists v, flp_query t x p qr jr n = Ok v /\ of_len verifier_len v;
  laws_linear x0 x1 p0 p1 qr jr v0 v1 :
    of_len input_len x0 -> of_len input_len x1 -> of_len proof_len p0 -> of_len proof_len p1 ->
    flp_query t x0 p0 qr jr 2 = Ok v0 -> flp_query t x1 p1 qr jr 2 = Ok v1 ->
    flp_query t (add_shares x0 x1) (add_shares p0 p1) qr jr 1 = Ok (add_shares v0 v1);
  laws_complete x pr jr p qr v :
    accepts x jr -> flp_prove t x pr jr = Ok p -> flp_query t x p qr jr 1 = Ok v ->
    flp_decide t v = Ok true;
}.

Section Circuit.
Context `{PF : PrioField} {PL : PrioFieldLaws PF} {T : Type} `{F : !Flp T} (t : T).
Context (il pl vl prl jrl : N) (good : list felem -> Prop)
  (accepts : list felem -> list felem -> Prop).
Context (L : flp_laws F t il pl vl prl jrl good accepts).

(** The proofs of an accepted input. *)
Lemma prove_all_ok x prs jrs acc :
  of_len il x -> Forall (of_len prl) prs -> Forall (of_len jrl) jrs -> Forall (accepts x) jrs ->
  length prs = length jrs ->
  exists ps, prove_all t x (zip prs jrs) acc = Ok (acc ++ mjoin ps) /\ Forall (of_len pl) ps /\
    Forall2 (fun '(pr, jr) p => flp_prove t x pr jr = Ok p) (zip prs jrs) ps.
Proof.
  intros Hx Hprs. revert jrs acc. induction Hprs as [|pr prs Hpr _ IH]; intros [|jr jrs] acc Hj Ha Hl; try done.
  - exists []. split_and!; [by rewrite app_nil_r|done|constructor].
  - apply Forall_cons in Hj as [Hj Hjs]. apply Forall_cons in Ha as [Ha Has].
    destruct (laws_prove _ _ _ _ _ _ _ _ _ L x pr jr Hx Hpr Hj Ha) as (p & Hp & Hlp).
    destruct (IH jrs (acc ++ p) Hjs Has ltac:(simpl in Hl; lia)) as (ps & Hps & Hls & Hrel).
    exists (p :: ps). split_and!.
    + cbn [zip zip_with prove_all]. rewrite Hp. cbn [map_err mbind res_bind].
      rewrite Hps. change (mjoin (?a :: ?b)) with (a ++ mjoin b). by rewrite app_assoc.
    + by constructor.
    + by constructor.
Qed.

(** The queries of one Aggregator. *)
Lemma query_all_ok x cs jrs qrs acc :
  of_len il x -> Forall (of_len pl) cs -> Forall (of_len jrl) jrs ->
  Forall (of_len 1) qrs -> Forall good qrs -> length cs = length jrs -> length cs = length qrs ->
  exists vs, query_all t x (zip cs (zip jrs qrs)) acc = Ok (acc ++ mjoin vs) /\
    Forall (of_len vl) vs /\
    Forall2 (fun '(c, (jr, qr)) v => flp_query t x c qr jr 2 = Ok v) (zip cs (zip jrs qrs)) vs.
Proof.
  intros Hx Hcs. revert jrs qrs acc.
  induction Hcs as [|c cs Hc _ IH]; intros [|jr jrs] [|qr qrs] acc Hj Hq Hg Hl Hl'; try done.
  - exists []. split_and!; [by rewrite app_nil_r|done|constructor].
  - apply Forall_cons in Hj as [Hj Hjs]. apply Forall_cons in Hq as [Hq Hqs]. apply Forall_cons in Hg as [Hg Hgs].
    destruct (laws_query _ _ _ _ _ _ _ _ _ L x c qr jr 2 Hx Hc Hq Hj ltac:(lia) Hg) as (v & Hv & Hlv).
    destruct (IH jrs qrs (acc ++ v) Hjs Hqs Hgs) as (vs & Hvs & Hls & Hrel); [simpl in *; lia..|].
    exists (v :: vs). split_and!.
    + cbn [zip zip_with query_all]. rewrite Hv. cbn [map_err mbind res_bind].
      rewrite Hvs. change (mjoin (?a :: ?b)) with (a ++ mjoin b). by rewrite app_assoc.
    + by constructor.
    + by constructor.
Qed.

(** The sums of the verifiers of the two Aggregators are accepted. *)
Lemma decide_all_ok msg x0 x1 prs jrs qrs ps cs0 cs1 vs0 vs1 :
  of_len il x0 -> of_len il x1 -> Forall (accepts (add_shares x0 x1)) jrs ->
  Forall (of_len pl) cs0 -> Forall (of_len pl) cs1 -> zip_with add_shares cs0 cs1 = ps ->
  length cs0 = length cs1 -> length prs = length jrs ->
  Forall2 (fun '(pr, jr) p => flp_prove t (add_shares x0 x1) pr jr = Ok p) (zip prs jrs) ps ->
  Forall2 (fun '(c, (jr, qr)) v => flp_query t x0 c qr jr 2 = Ok v) (zip cs0 (zip jrs qrs)) vs0 ->
  Forall2 (fun '(c, (jr, qr)) v => flp_query t x1 c qr jr 2 = Ok v) (zip cs1 (zip jrs qrs)) vs1 ->
  decide_all t msg (zip_with add_shares vs0 vs1) = Ok tt.
Proof.
  intros Hx0 Hx1 Ha Hc0. revert jrs prs qrs ps cs1 vs0 vs1 Ha.
  induction Hc0 as [|c0 cs0 Hc0 _ IH]; intros jrs prs qrs ps cs1 vs0 vs1 Ha Hc1 Hps Hl Hpj HP H0 H1.
  { cbn in H0. apply Forall2_nil_inv_l in H0 as ->. done. }
  destruct cs1 as [|c1 cs1]; [done|]. apply Forall_cons in Hc1 as [Hc1 Hcs1].
  destruct jrs as [|jr jrs]; [cbn in H0; apply Forall2_nil_inv_l in H0 as ->; done|].
  destruct prs as [|pr prs]; [done|]. apply Forall_cons in Ha as [Ha Has].
  destruct qrs as [|qr qrs]; [cbn in H0; apply Forall2_nil_inv_l in H0 as ->; done|].
  cbn [zip zip_with] in *. subst ps.
  apply Forall2_cons_1 in HP as [HP HPs].
  apply Forall2_cons_inv_l in H0 as (v0 & vs0' & H0 & H0s & ->).
  apply Forall2_cons_inv_l in H1 as (v1 & vs1' & H1 & H1s & ->).
  cbn [zip_with decide_all].
  rewrite (laws_complete _ _ _ _ _ _ _ _ _ L (add_shares x0 x1) pr jr (add_shares c0 c1) qr); [|done|done|].
  - cbn [map_err mbind res_bind]. eapply (IH jrs prs qrs); [done|exact Hcs1|reflexivity|simpl in *; lia|simpl in *; lia|done|done|done].
  - by apply (laws_linear _ _ _ _ _ _ _ _ _ L).
Qed.

(** One circuit in a run: both Aggregators query, the sum is accepted. *)
Lemma circuit_run msg x0 x1 prs jrs qrs ps cs0 cs1 :
  of_len il x0 -> of_len il x1 -> Forall (accepts (add_shares x0 x1)) jrs ->
  Forall (of_len jrl) jrs -> Forall (of_len 1) qrs -> Forall good qrs ->
  Forall (of_len pl) cs0 -> Forall (of_len pl) cs1 -> zip_with add_shares cs0 cs1 = ps ->
  length cs0 = length jrs -> length cs1 = length jrs -> length prs = length jrs ->
  length qrs = length jrs ->
  Forall2 (fun '(pr, jr) p => flp_prove t (add_shares x0 x1) pr jr = Ok p) (zip prs jrs) ps ->
  exists vs0 vs1,
    (forall acc, query_all t x0 (zip cs0 (zip jrs qrs)) acc = Ok (acc ++ mjoin vs0)) /\
    (forall acc, query_all t x1 (zip cs1 (zip jrs qrs)) acc = Ok (acc ++ mjoin vs1)) /\
    Forall (of_len vl) vs0 /\ Forall (of_len vl) vs1 /\
    length vs0 = length jrs /\ length vs1 = length jrs /\
    decide_all t msg (zip_with add_shares vs0 vs1) = Ok tt.
Proof.
  intros Hx0 Hx1 Ha Hj Hq Hg H0 H1 Hps L0 L1 Lp Lq HP.
  assert (forall x cs vs, length cs = length jrs ->
    Forall2 (fun '(c, (jr, qr)) v => flp_query t x c qr jr 2 = Ok v) (zip cs (zip jrs qrs)) vs ->
    (forall acc, query_all t x (zip cs (zip jrs qrs)) acc = Ok (acc ++ mjoin vs)) /\
    length vs = length jrs) as Hrel.
  { intros x cs vs Hl H. split.
    - clear -H. induction H as [|[c [jr qr]] v l vs Hv _ IH]; intros acc; [by rewrite app_nil_r|].
      cbn [query_all]. rewrite Hv. cbn [map_err mbind res_bind]. rewrite IH.
      change (mjoin (?a :: ?b)) with (a ++ mjoin b). by rewrite app_assoc.
    - apply Forall2_length in H. rewrite !length_zip_with in H. lia. }
  destruct (query_all_ok x0 cs0 jrs qrs []) as (vs0 & _ & V0 & R0); try done; try lia.
  destruct (query_all_ok x1 cs1 jrs qrs []) as (vs1 & _ & V1 & R1); try done; try lia.
  destruct (Hrel _ _ _ L0 R0) as [Q0 M0]. destruct (Hrel _ _ _ L1 R1) as [Q1 M1].
  exists vs0, vs1. split_and!; try done.
  eapply (decide_all_ok msg x0 x1 prs jrs qrs ps cs0 cs1); try done. lia.
Qed.
End Circuit.

(** ** An instance *)
Section Instance.
Context `{BP : BuildProfile} `{PF : PrioField} {PL : PrioFieldLaws PF} `{PX : !Xof} {XL : XofLaws PX}.
Context `{FM : !Flp PineType} `{FS : !Flp PineTypeSquaredNormEqual}.
Context (param : PineParam) (id : N) (pine : Pine).
Context (W : PineParam_wf param) (Hnew : Pine_new felem_field param id = Ok pine).

Abbreviation flp := (Pine_flp pine).
Abbreviation sne := (Pine_flp_sq_norm_equal pine).

(** The sizes that occur, which are far from overflow. *)
Record sizes : Prop := {
  size_dimension : 0 < PineType_dimension flp <= u32_max;
  size_tests : PineType_num_wr_tests flp <= u16_max;
  size_chunk_len : 0 < PineType_chunk_len flp <= u32_max;
  size_chunk_len_sne : 0 < PineTypeSNE_chunk_len sne <= u32_max;
  size_proofs : Pine_num_proofs pine <= u8_max;
  size_proofs_sne : Pine_num_proofs_sq_norm_equal pine <= u8_max;
  size_gradient : Pine_encoded_gradient_and_sq_norm_len pine
    = PineType_dimension flp + 2 * PineType_sq_norm_bits flp;
  size_bit_checked : PineType_bit_checked_len flp = 2 * PineType_sq_norm_bits flp
    + (1 + PineType_wr_test_bits flp) * PineType_num_wr_tests flp;
  size_encoded : Pine_encoded_input_len pine
    = PineType_dimension flp + PineType_bit_checked_len flp;
  size_input : PineType_input_len flp = Pine_encoded_input_len pine + PineType_num_wr_tests flp;
  size_same_input : PineTypeSNE_input_len sne = PineType_input_len flp;
}.

Lemma sizes_ok : sizes.
Proof.
  destruct (Pine_new_spec _ _ _ _ W Hnew) as (A & L & S).
  destruct W as (_ & _ & Wd & Wc & Wce & Wp & Wpe & Wt & _).
  pose proof (accepted_dimension _ _ A). pose proof (accepted_chunk_len _ _ A).
  pose proof (accepted_chunk_len_sq_norm_equal _ _ A).
  split; rewrite ?(fields_dimension _ _ _ _ S), ?(fields_num_wr_tests _ _ _ _ S),
    ?(fields_chunk_len _ _ _ _ S), ?(fields_num_proofs _ _ _ _ S),
    ?(fields_num_proofs_sne _ _ _ _ S); try done.
  - by rewrite (fields_sne _ _ _ _ S).
  - apply L.
  - apply L.
  - apply L.
  - apply L.
  - apply L.
Qed.

Lemma wr_sizes_ok : wr_sizes flp.
Proof.
  pose proof sizes_ok as Z. pose proof (size_dimension Z). pose proof (size_tests Z).
  assert (u32_max = 4294967295) as E32 by done. assert (u16_max = 65535) as E16 by done.
  assert (u64_max = 18446744073709551615) as E64 by done.
  split_and!; [lia|lia|].
  assert ((PineType_dimension flp + 3) * PineType_num_wr_tests flp <= (4294967295 + 3) * 65535)
    by (apply N.mul_le_mono; lia). lia.
Qed.

Lemma helper_meas_share_len s : of_len (Pine_encoded_input_len pine) (helper_meas_share pine s).
Proof. apply into_field_vec_len. Qed.

Lemma helper_proof_share_ok {E} s :
  exists l, helper_proof_share (E:=E) pine s = Ok l /\ of_len (proofs_size pine) l.
Proof.
  unfold helper_proof_share. rewrite (proj1 (proofs_len_ok (E:=E) _ _ _ _ W Hnew)).
  cbn [mbind res_bind]. eexists. split; [done|]. apply into_field_vec_len.
Qed.

Lemma vf_joint_rands_ok {E} s :
  exists jrs, vf_joint_rands (E:=E) pine s = Ok jrs /\ Forall (of_len 3) jrs /\
    len jrs = Pine_num_proofs pine.
Proof.
  pose proof (size_proofs sizes_ok) as Hp. assert (u8_max = 255) as E8 by done.
  assert (u64_max = 18446744073709551615) as E64 by done.
  unfold vf_joint_rands, PineType_joint_rand_len. rewrite u64_mul_fits by lia. cbn [mbind res_bind].
  destruct (split_chunks 3 (Pine_num_proofs pine) (into_field_vec (xof_seed_stream s
    (dst (Pine_algorithm_id pine) USAGE_VF_JOINT_RAND) [byte_of_N (Pine_num_proofs pine)])
    (3 * Pine_num_proofs pine))) as (jrs & -> & Hjrs & Hn); [apply into_field_vec_len|].
  exists jrs. split; [by apply chunks_exact_mjoin|done].
Qed.

(** Randomness for the two circuits, as two lists of chunks. *)
Lemma two_parts {E} xof a na b nb :
  exists ls1 ls2, split_at (E:=E) (a * na) (into_field_vec xof (a * na + b * nb))
    = Ok (mjoin ls1, mjoin ls2) /\ Forall (of_len a) ls1 /\ len ls1 = na /\
    Forall (of_len b) ls2 /\ len ls2 = nb.
Proof.
  pose proof (into_field_vec_len xof (a * na + b * nb)) as Hl.
  set (l := into_field_vec xof _) in *.
  destruct (split_chunks a na (take (N.to_nat (a * na)) l)) as (l1 & E1 & H1 & N1).
  { unfold len in *. rewrite length_take. lia. }
  destruct (split_chunks b nb (drop (N.to_nat (a * na)) l)) as (l2 & E2 & H2 & N2).
  { unfold len in *. rewrite length_drop. lia. }
  exists l1, l2. split_and!; try done. rewrite <-E1, <-E2. unfold split_at.
  by rewrite (proj2 (N.leb_le _ _)) by lia.
Qed.

Lemma prove_rands_ok {E} s :
  exists ls1 ls2, prove_rands (E:=E) pine s = Ok (mjoin ls1, mjoin ls2) /\
    Forall (of_len (PineTypeSNE_chunk_len sne)) ls1 /\
    len ls1 = Pine_num_proofs_sq_norm_equal pine /\
    Forall (of_len (PineType_chunk_len flp * 2)) ls2 /\ len ls2 = Pine_num_proofs pine.
Proof.
  pose proof sizes_ok as Z. pose proof (size_chunk_len Z). pose proof (size_chunk_len_sne Z).
  pose proof (size_proofs Z). pose proof (size_proofs_sne Z).
  assert (u32_max = 4294967295) as E32 by done. assert (u8_max = 255) as E8 by done.
  assert (u64_max = 18446744073709551615) as E64 by done.
  assert (PineTypeSNE_chunk_len sne * Pine_num_proofs_sq_norm_equal pine <= 4294967295 * 255)
    by (apply N.mul_le_mono; lia).
  assert (PineType_chunk_len flp * 2 * Pine_num_proofs pine <= 4294967295 * 2 * 255)
    by (apply N.mul_le_mono; lia).
  unfold prove_rands, PineTypeSNE_prove_rand_len, PineType_prove_rand_len.
  rewrite u64_mul_fits by lia. cbn [mbind res_bind]. rewrite u64_mul_fits by lia. cbn [mbind res_bind].
  rewrite u64_mul_fits by lia. cbn [mbind res_bind]. rewrite u64_add_fits by lia. cbn [mbind res_bind].
  apply two_parts.
Qed.

Lemma query_rands_ok {E} vk nonce :
  exists ls1 ls2, query_rands (E:=E) pine vk nonce = Ok (ls1, ls2) /\
    Forall (of_len 1) ls1 /\ len ls1 = Pine_num_proofs_sq_norm_equal pine /\
    Forall (of_len 1) ls2 /\ len ls2 = Pine_num_proofs pine.
Proof.
  pose proof sizes_ok as Z. pose proof (size_proofs Z). pose proof (size_proofs_sne Z).
  assert (u8_max = 255) as E8 by done. assert (u64_max = 18446744073709551615) as E64 by done.
  unfold query_rands, PineTypeSNE_query_rand_len, PineType_query_rand_len.
  rewrite u64_mul_fits by lia. cbn [mbind res_bind]. rewrite u64_mul_fits by lia. cbn [mbind res_bind].
  rewrite u64_add_fits by lia. cbn [mbind res_bind].
  destruct (two_parts (E:=E) (xof_into_seed_stream (xof_update (xof_update (xof_init vk
    (dst (Pine_algorithm_id pine) USAGE_QUERY_RAND)) [byte_of_N (Pine_num_proofs_sq_norm_equal pine);
    byte_of_N (Pine_num_proofs pine)]) nonce)) 1 (Pine_num_proofs_sq_norm_equal pine) 1
    (Pine_num_proofs pine)) as (l1 & l2 & -> & H1 & N1 & H2 & N2). cbn [mbind res_bind].
  rewrite chunks_exact_mjoin by done. cbn [mbind res_bind].
  rewrite chunks_exact_mjoin by done. cbn [mbind res_bind]. eauto 10.
Qed.

(** What the wraparound tests append to the encoded gradient. *)
Lemma append_wr_tail meas seed meas' results :
  of_len (Pine_encoded_gradient_and_sq_norm_len pine) meas -> flp_ok flp ->
  append_wr_test_results flp meas seed = Ok (meas', results) ->
  exists tail, meas' = meas ++ tail /\ of_len (Pine_encoded_input_len pine) meas' /\
    of_len (PineType_num_wr_tests flp) results /\
    run_wr_tests (E:=PrioVdafError) flp (take (N.to_nat (PineType_dimension flp)) meas) seed = Ok results.
Proof.
  intros Hl Hok H. pose proof sizes_ok as Z. unfold append_wr_test_results in H.
  apply bind_Ok in H as (g & Hg & H). unfold slice_to in Hg.
  destruct (N.leb_spec (PineType_dimension flp) (len meas)) as [|]; [|done]. injection Hg as <-.
  apply bind_Ok in H as (xs & Hxs & H). apply bind_Ok in H as ([m cnt] & Hr & H).
  apply guard_ok in H as [_ [= <- <-]].
  pose proof (run_wr_tests_length _ _ _ _ Hxs) as Hlx.
  apply append_results_eq in Hr as (ts & -> & Ets & Hts & _).
  exists (mjoin (entry_bits <$> ts)). split_and!; [done| |done|done].
  unfold of_len in *. rewrite len_app, Hl, (size_gradient Z), (size_encoded Z), (size_bit_checked Z).
  rewrite (len_mjoin (PineType_wr_test_bits flp + 1)).
  - assert (len (entry_bits <$> ts) = PineType_num_wr_tests flp) as ->; [|lia].
    rewrite <-Hlx, <-Ets. unfold len. by rewrite !length_fmap.
  - apply Forall_fmap. eapply Forall_impl; [exact Hts|]. intros t (Ht & _). simpl.
    unfold of_len, entry_bits. rewrite len_app, Ht. unfold len. rewrite length_bits_of. simpl. lia.
Qed.

Lemma encoded_gradient_len gradient meas :
  append_encoded_gradient flp [] gradient = Ok meas ->
  of_len (Pine_encoded_gradient_and_sq_norm_len pine) meas.
Proof.
  intros H. apply append_encoded_gradient_eq in H as (two & grad & _ & _ & Hg & _ & _ & _ & ->).
  unfold of_len. rewrite !len_app, Hg, (size_gradient sizes_ok). unfold len. rewrite !length_bits_of. lia.
Qed.
End Instance.

(** ** An honest Client and two honest Aggregators *)
Section Honest.
Context `{BP : BuildProfile} `{PF : PrioField} {PL : PrioFieldLaws PF} `{PX : !Xof} {XL : XofLaws PX}.
Context `{FM : !Flp PineType} `{FS : !Flp PineTypeSquaredNormEqual}.
Context {G1 G2 : Type} `{GA1 : !Gadget G1} `{GA2 : !Gadget G2}.
Context (param : PineParam) (id : N) (pine : Pine).
Context (W : PineParam_wf param) (Hnew : Pine_new felem_field param id = Ok pine).

Abbreviation flp := (Pine_flp pine).
Abbreviation sne := (Pine_flp_sq_norm_equal pine).
Abbreviation dimension := (N.to_nat (PineType_dimension flp)).

(** A circuit accepts what it evaluates to zero. *)
Definition main_accepts (self : PineType) (x jr : list felem) : Prop :=
  forall s, exists s', PineType_valid (G:=G1) self x jr 1 s = (Ok f0, s').
Definition sne_accepts (self : PineTypeSquaredNormEqual) (x jr : list felem) : Prop :=
  forall s, exists s', PineTypeSNE_valid (G:=G2) self x s = (Ok f0, s').

(** The two proof systems, with the lengths of the trait. *)
Record pine_flps (p : Pine) (good : list felem -> Prop) : Prop := {
  flps_main : flp_laws FM (Pine_flp p) (PineType_input_len (Pine_flp p))
    (main_proof_size (Pine_flp p)) (2 * PineType_chunk_len (Pine_flp p) + 2)
    (PineType_chunk_len (Pine_flp p) * 2) 3 good (main_accepts (Pine_flp p));
  flps_sne : flp_laws FS (Pine_flp_sq_norm_equal p) (PineType_input_len (Pine_flp p))
    (sne_proof_size (Pine_flp_sq_norm_equal p)) (PineTypeSNE_chunk_len (Pine_flp_sq_norm_equal p) + 2)
    (PineTypeSNE_chunk_len (Pine_flp_sq_norm_equal p)) 0 good
    (sne_accepts (Pine_flp_sq_norm_equal p));
}.

Context (good : list felem -> Prop) (LF : pine_flps pine good).
Context (HC : pine_circuits (G1:=G1) (G2:=G2) flp sne).

(** The joint randomness of the circuit of the squared norm: none, for each proof. *)
Definition no_rands (n : N) : list (list felem) := replicate (N.to_nat n) [].

Lemma pair_no_rands (l : list (list felem)) :
  (fun r => (r, [])) <$> l = zip l (no_rands (len l)).
Proof.
  unfold no_rands, len. rewrite Nat2N.id. induction l as [|x l IH]; [done|].
  rewrite fmap_cons, IH. done.
Qed.

Lemma no_rands_pair (l : list (list felem)) :
  (fun r => ([], r)) <$> l = zip (no_rands (len l)) l.
Proof.
  unfold no_rands, len. rewrite Nat2N.id. induction l as [|x l IH]; [done|].
  rewrite fmap_cons, IH. done.
Qed.

Lemma no_rands_len n : Forall (of_len 0) (no_rands n) /\ len (no_rands n) = n.
Proof.
  unfold no_rands, len. rewrite length_replicate. split; [|lia]. by apply Forall_replicate.
Qed.

(** The Leader's share of the proofs of an accepted measurement. *)
Lemma leader_proofs_share_ok meas parts prove_seed seed1 :
  of_len (PineType_input_len flp) meas -> (forall jr, of_len 3 jr -> main_accepts flp meas jr) ->
  sne_accepts sne meas [] ->
  exists jrs ps_s ps prs_s prs share0 share1,
    vf_joint_rands (E:=PrioVdafError) pine (joint_rand_seed pine parts USAGE_VF_JOINT_RAND_SEED) = Ok jrs /\
    leader_proofs_share pine meas parts prove_seed seed1 = Ok share0 /\
    helper_proof_share (E:=PrioVdafError) pine seed1 = Ok share1 /\
    of_len (proofs_size pine) share0 /\ of_len (proofs_size pine) share1 /\
    add_shares share0 share1 = mjoin ps_s ++ mjoin ps /\
    Forall (of_len (sne_proof_size sne)) ps_s /\ Forall (of_len (main_proof_size flp)) ps /\
    len prs_s = Pine_num_proofs_sq_norm_equal pine /\ len prs = Pine_num_proofs pine /\
    Forall2 (fun '(pr, jr) p => flp_prove sne meas pr jr = Ok p)
      (zip prs_s (no_rands (Pine_num_proofs_sq_norm_equal pine))) ps_s /\
    Forall2 (fun '(pr, jr) p => flp_prove flp meas pr jr = Ok p) (zip prs jrs) ps.
Proof.
  intros Hm Ha Has. pose proof (sizes_ok _ _ _ W Hnew) as Z.
  destruct (vf_joint_rands_ok (E:=PrioVdafError) _ _ _ W Hnew
    (joint_rand_seed pine parts USAGE_VF_JOINT_RAND_SEED)) as (jrs & Hj & Hjl & Hjn).
  destruct (prove_rands_ok (E:=PrioVdafError) _ _ _ W Hnew prove_seed)
    as (prs_s & prs & Hp & H1 & N1 & H2 & N2).
  destruct (helper_proof_share_ok (E:=PrioVdafError) _ _ _ W Hnew seed1) as (share1 & Hs1 & Hl1).
  destruct (no_rands_len (Pine_num_proofs_sq_norm_equal pine)) as [Hn0 Hn].
  destruct (prove_all_ok sne _ _ _ _ _ _ _ (flps_sne _ _ LF) meas prs_s
    (no_rands (Pine_num_proofs_sq_norm_equal pine)) []) as (ps_s & P1 & L1 & R1); try done.
  { apply Forall_forall. intros jr _. exact Has. }
  { unfold len in *. lia. }
  change ([] ++ mjoin ps_s) with (mjoin ps_s) in P1.
  destruct (prove_all_ok flp _ _ _ _ _ _ _ (flps_main _ _ LF) meas prs jrs (mjoin ps_s))
    as (ps & P2 & L2 & R2); try done.
  { eapply Forall_impl; [exact Hjl|]. intros jr Hjr. by apply Ha. }
  { unfold len in *. lia. }
  assert (len (mjoin ps_s ++ mjoin ps) = proofs_size pine) as Hps.
  { rewrite len_app, (len_mjoin _ _ L1), (len_mjoin _ _ L2).
    apply Forall2_length in R1, R2. rewrite length_zip_with in R1, R2.
    unfold proofs_size, len in *. rewrite <-R1, <-R2. f_equal; f_equal; lia. }
  eexists jrs, ps_s, ps, prs_s, prs, _, share1. split; [done|]. split.
  { unfold leader_proofs_share. rewrite Hj. cbn [mbind res_bind]. rewrite Hp. cbn [mbind res_bind].
    unfold PineTypeSNE_prove_rand_len. rewrite chunks_exact_mjoin by (done || apply Z). cbn [mbind res_bind].
    rewrite pair_no_rands, N1, P1. cbn [mbind res_bind].
    pose proof (size_chunk_len _ Z). assert (u32_max = 4294967295) as E32 by done.
    assert (u64_max = 18446744073709551615) as E64 by done.
    unfold PineType_prove_rand_len. rewrite u64_mul_fits by lia. cbn [mbind res_bind].
    rewrite chunks_exact_mjoin by (done || lia). cbn [mbind res_bind]. rewrite P2. cbn [mbind res_bind].
    rewrite Hs1. cbn [mbind res_bind]. reflexivity. }
  split_and!; try done.
  - unfold of_len, len in *. by rewrite length_zip_assign.
  - apply add_shares_sub. unfold of_len, len in *. lia.
Qed.

(** What the Client sends. *)
Record sharded (gradient : list f64) (nonce : list byte) (rand : ShardRand) (pub : PublicShare)
    (shares : list InputShare) (meas results l h share0 : list felem) : Prop := {
  sharded_encoded : encode_with_wr_joint_rand flp gradient
    (joint_rand_seed pine (PublicShare_wr_joint_rand_parts pub) USAGE_WR_JOINT_RAND_SEED)
    = Ok (meas, results);
  sharded_gradient : exists enc, append_encoded_gradient flp [] gradient = Ok enc /\
    take dimension meas = take dimension enc;
  sharded_meas : of_len (Pine_encoded_input_len pine) meas;
  sharded_results_len : of_len (PineType_num_wr_tests flp) results;
  sharded_results : run_wr_tests (E:=PrioVdafError) flp (take dimension meas)
    (joint_rand_seed pine (PublicShare_wr_joint_rand_parts pub) USAGE_WR_JOINT_RAND_SEED) = Ok results;
  sharded_l : of_len (Pine_encoded_input_len pine) l;
  sharded_h : h = helper_meas_share pine (rand_meas_share_seed_1 rand);
  sharded_sum : add_shares l h = meas;
  sharded_wr_0 : joint_rand_part (E:=PrioVdafError) pine 0 (rand_wr_blind_0 rand) nonce
    (take (N.to_nat (Pine_encoded_gradient_and_sq_norm_len pine)) l) USAGE_WR_JOINT_RAND_PART
    = Ok (PublicShare_wr_joint_rand_parts pub).1;
  sharded_wr_1 : joint_rand_part (E:=PrioVdafError) pine 1 (rand_wr_blind_1 rand) nonce
    (take (N.to_nat (Pine_encoded_gradient_and_sq_norm_len pine)) h) USAGE_WR_JOINT_RAND_PART
    = Ok (PublicShare_wr_joint_rand_parts pub).2;
  sharded_vf_0 : joint_rand_part (E:=PrioVdafError) pine 0 (rand_vf_blind_0 rand) nonce l
    USAGE_VF_JOINT_RAND_PART = Ok (PublicShare_vf_joint_rand_parts pub).1;
  sharded_vf_1 : joint_rand_part (E:=PrioVdafError) pine 1 (rand_vf_blind_1 rand) nonce h
    USAGE_VF_JOINT_RAND_PART = Ok (PublicShare_vf_joint_rand_parts pub).2;
  sharded_proofs : leader_proofs_share pine (meas ++ results) (PublicShare_vf_joint_rand_parts pub)
    (rand_prove_seed rand) (rand_proofs_share_seed_1 rand) = Ok share0;
  sharded_shares : shares =
    [InputShare_Leader l share0 (rand_wr_blind_0 rand) (rand_vf_blind_0 rand);
     InputShare_Helper (rand_meas_share_seed_1 rand) (rand_proofs_share_seed_1 rand)
       (rand_wr_blind_1 rand) (rand_vf_blind_1 rand)];
}.

Lemma shard_inv gradient nonce rand pub shares :
  shard_with_rand pine gradient nonce rand = Ok (pub, shares) ->
  exists meas results l h share0, sharded gradient nonce rand pub shares meas results l h share0.
Proof.
  intros H. pose proof (sizes_ok _ _ _ W Hnew) as Z. unfold shard_with_rand in H.
  set (h := helper_meas_share pine (rand_meas_share_seed_1 rand)) in H.
  pose proof (helper_meas_share_len pine (rand_meas_share_seed_1 rand)) as Hh. fold h in Hh.
  apply bind_Ok in H as (enc & Henc & H).
  pose proof (encoded_gradient_len _ _ _ W Hnew _ _ Henc) as Hle.
  set (egl := Pine_encoded_gradient_and_sq_norm_len pine) in *.
  set (eil := Pine_encoded_input_len pine) in *.
  assert (egl <= eil) as Hge.
  { unfold egl, eil. rewrite (size_gradient _ Z), (size_encoded _ Z), (size_bit_checked _ Z). lia. }
  assert (PineType_dimension flp <= egl) as Hde by (unfold egl; rewrite (size_gradient _ Z); lia).
  assert (length enc = N.to_nat egl) as Hel by (unfold of_len, len in Hle; lia).
  rewrite Hel in H. apply bind_Ok in H as (wr0 & Hwr0 & H).
  apply bind_Ok in H as (h1 & Hh1 & H). unfold slice_to in Hh1.
  rewrite (proj2 (N.leb_le _ _)) in Hh1 by (unfold of_len in Hh; lia). injection Hh1 as <-.
  apply bind_Ok in H as (wr1 & Hwr1 & H). apply bind_Ok in H as ([meas results] & Hwr & H).
  destruct (append_wr_tail _ _ _ W Hnew _ _ _ _ Hle (circuits_ok _ _ HC) Hwr)
    as (tail & -> & Hlm & Hlr & Hrun).
  rewrite (slice_from_app (len enc)) in H by done. cbn [mbind res_bind] in H.
  rewrite <-(take_drop (N.to_nat egl) h) in H at 1.
  rewrite (slice_from_app (len enc)) in H
    by (unfold of_len, len in *; rewrite length_take; lia).
  cbn [mbind res_bind] in H. apply bind_Ok in H as (vf0 & Hvf0 & H). apply bind_Ok in H as (vf1 & Hvf1 & H).
  apply bind_Ok in H as (share0 & Hs0 & H). injection H as <- <-.
  unfold of_len, len in Hlm, Hh. rewrite length_app in Hlm.
  rewrite zip_with_sub in Hwr0, Hvf0 |- * by (rewrite length_take; lia).
  rewrite zip_with_sub in Hvf0 |- * by (rewrite length_drop; lia).
  exists (enc ++ tail), results, (zip_assign fsub enc (take (N.to_nat egl) h)
    ++ zip_assign fsub tail (drop (N.to_nat egl) h)), h, share0.
  split; cbn [PublicShare_wr_joint_rand_parts PublicShare_vf_joint_rand_parts fst snd]; try done.
  - unfold encode_with_wr_joint_rand. rewrite Henc. cbn [mbind res_bind]. done.
  - exists enc. split; [done|]. rewrite take_app_le; [done|]. lia.
  - unfold of_len, len. rewrite length_app. lia.
  - rewrite take_app_le by lia. done.
  - unfold of_len, len. rewrite length_app, !length_zip_assign. lia.
  - rewrite <-(take_drop (N.to_nat egl) h) at 3.
    rewrite add_shares_app by (rewrite length_zip_assign, length_take; lia).
    rewrite !add_shares_sub by (rewrite ?length_take, ?length_drop; lia). done.
  - rewrite take_app_le, take_ge by (rewrite length_zip_assign; lia). done.
Qed.

(** An Aggregator whose share of the joint randomness is the one of the Client. *)
Lemma prepare_init_eq vk agg_id nonce pub input ms cs_s cs wb vb wr vf r jrs qr_s qr v_s v :
  unpack_input_share pine agg_id input = Ok (ms, mjoin cs_s ++ mjoin cs, wb, vb) ->
  of_len (Pine_encoded_input_len pine) ms ->
  Forall (of_len (sne_proof_size sne)) cs_s -> len cs_s = Pine_num_proofs_sq_norm_equal pine ->
  Forall (of_len (main_proof_size flp)) cs ->
  joint_rand_part (E:=PrioVdafError) pine agg_id wb nonce
    (take (N.to_nat (Pine_encoded_gradient_and_sq_norm_len pine)) ms) USAGE_WR_JOINT_RAND_PART = Ok wr ->
  set_part (E:=PrioVdafError) (PublicShare_wr_joint_rand_parts pub) agg_id wr
    = Ok (PublicShare_wr_joint_rand_parts pub) ->
  run_wr_tests (E:=PrioVdafError) flp (take dimension ms)
    (joint_rand_seed pine (PublicShare_wr_joint_rand_parts pub) USAGE_WR_JOINT_RAND_SEED) = Ok r ->
  joint_rand_part (E:=PrioVdafError) pine agg_id vb nonce ms USAGE_VF_JOINT_RAND_PART = Ok vf ->
  set_part (E:=PrioVdafError) (PublicShare_vf_joint_rand_parts pub) agg_id vf
    = Ok (PublicShare_vf_joint_rand_parts pub) ->
  vf_joint_rands (E:=PrioVdafError) pine
    (joint_rand_seed pine (PublicShare_vf_joint_rand_parts pub) USAGE_VF_JOINT_RAND_SEED) = Ok jrs ->
  query_rands (E:=PrioVdafError) pine vk nonce = Ok (qr_s, qr) -> len qr_s = Pine_num_proofs_sq_norm_equal pine ->
  query_all sne (ms ++ r) (zip cs_s (zip (no_rands (Pine_num_proofs_sq_norm_equal pine)) qr_s)) []
    = Ok v_s ->
  query_all flp (ms ++ r) (zip cs (zip jrs qr)) v_s = Ok v ->
  prepare_init pine vk agg_id nonce pub input
  = Ok (MkPinePrepState (take dimension ms)
          (joint_rand_seed pine (PublicShare_wr_joint_rand_parts pub) USAGE_WR_JOINT_RAND_SEED)
          (joint_rand_seed pine (PublicShare_vf_joint_rand_parts pub) USAGE_VF_JOINT_RAND_SEED) (len v),
        MkPrepShare v wr vf).
Proof.
  intros Hu Hms Hcs_s Hncs Hcs Hwr Hset Hrun Hvf Hset' Hj Hq Hnq Hv_s Hv.
  pose proof (sizes_ok _ _ _ W Hnew) as Z.
  destruct (proof_lens_ok (E:=PrioVdafError) _ _ _ _ W Hnew) as (Ha & Hb & Ba & Bb).
  destruct (proofs_len_ok (E:=PrioVdafError) _ _ _ _ W Hnew) as [_ Hpl]. unfold proofs_size in Hpl.
  unfold of_len in Hms.
  assert (Pine_encoded_gradient_and_sq_norm_len pine <= len ms) as L1.
  { rewrite Hms, (size_gradient _ Z), (size_encoded _ Z), (size_bit_checked _ Z). lia. }
  assert (PineType_dimension flp <= len ms) as L2 by (rewrite Hms, (size_encoded _ Z); lia).
  unfold prepare_init. rewrite Hu. cbn [mbind res_bind]. rewrite Ha. cbn [mbind res_bind].
  rewrite u64_mul_fits by lia. cbn [mbind res_bind].
  rewrite split_at_app by (by rewrite (len_mjoin _ _ Hcs_s), Hncs). cbn [mbind res_bind].
  rewrite (slice_to_ok (Pine_encoded_gradient_and_sq_norm_len pine)) by done. cbn [mbind res_bind].
  rewrite Hwr. cbn [mbind res_bind]. rewrite Hset. cbn [mbind res_bind].
  rewrite slice_to_ok by done. cbn [mbind res_bind].
  rewrite Hrun. cbn [mbind res_bind]. rewrite slice_to_app by done. cbn [mbind res_bind].
  rewrite Hvf. cbn [mbind res_bind]. rewrite Hset'. cbn [mbind res_bind].
  unfold query_proofs. rewrite Hj. cbn [mbind res_bind]. rewrite Hq. cbn [mbind res_bind].
  rewrite Ha. cbn [mbind res_bind]. rewrite chunks_exact_mjoin by (done || lia). cbn [mbind res_bind].
  rewrite no_rands_pair, Hnq, Hv_s. cbn [mbind res_bind]. rewrite Hb. cbn [mbind res_bind].
  rewrite chunks_exact_mjoin by (done || lia). cbn [mbind res_bind]. rewrite Hv. cbn [mbind res_bind].
  unfold PineType_truncate. cbn [map_err mbind res_bind].
  rewrite take_app_le by (unfold len in L2; lia). done.
Qed.

(** Two Aggregators whose verifiers are accepted. *)
Lemma prepare_shares_eq v0s v0 v1s v1 wr0 wr1 vf0 vf1 :
  Forall (of_len (PineTypeSNE_chunk_len sne + 2)) v0s -> len v0s = Pine_num_proofs_sq_norm_equal pine ->
  Forall (of_len (PineTypeSNE_chunk_len sne + 2)) v1s -> len v1s = Pine_num_proofs_sq_norm_equal pine ->
  Forall (of_len (2 * PineType_chunk_len flp + 2)) v0 -> Forall (of_len (2 * PineType_chunk_len flp + 2)) v1 ->
  length v0 = length v1 ->
  decide_all sne "squared norm equality proof check failed" (zip_with add_shares v0s v1s) = Ok tt ->
  decide_all flp "main proof check failed" (zip_with add_shares v0 v1) = Ok tt ->
  prepare_shares_to_prepare_message pine
    [MkPrepShare (mjoin v0s ++ mjoin v0) wr0 vf0; MkPrepShare (mjoin v1s ++ mjoin v1) wr1 vf1]
  = Ok (MkPrep (joint_rand_seed pine (wr0, wr1) USAGE_WR_JOINT_RAND_SEED)
          (joint_rand_seed pine (vf0, vf1) USAGE_VF_JOINT_RAND_SEED)).
Proof.
  intros H0s N0s H1s N1s H0 H1 Hl Ds D. pose proof (sizes_ok _ _ _ W Hnew) as Z.
  pose proof (size_chunk_len _ Z). pose proof (size_chunk_len_sne _ Z). pose proof (size_proofs_sne _ Z).
  assert (u32_max = 4294967295) as E32 by done. assert (u8_max = 255) as E8 by done.
  assert (u64_max = 18446744073709551615) as E64 by done.
  pose proof (add_chunks_len _ _ _ H0s H1s) as Hs. pose proof (add_chunks_len _ _ _ H0 H1) as Hm.
  assert (length v0s = length v1s) as Hls by (unfold len in *; lia).
  pose proof (len_mjoin _ _ H0s) as J0. pose proof (len_mjoin _ _ H1s) as J1.
  pose proof (len_mjoin _ _ H0) as J2. pose proof (len_mjoin _ _ H1) as J3.
  unfold prepare_shares_to_prepare_message. cbn [PrepShare_verifiers_share].
  rewrite zip_assign_add.
  2: { rewrite !length_app. unfold len in *. rewrite Hls in J0. rewrite Hl in J2. lia. }
  rewrite add_shares_app by (unfold len in *; rewrite Hls in J0; lia).
  rewrite (add_shares_mjoin _ _ _ H0s H1s Hls), (add_shares_mjoin _ _ _ H0 H1 Hl).
  unfold PineTypeSNE_verifier_len. rewrite u64_add_fits by lia. cbn [mbind res_bind].
  rewrite u64_mul_fits.
  2: { transitivity ((4294967295 + 2) * 255); [apply N.mul_le_mono; lia|lia]. }
  cbn [mbind res_bind]. rewrite split_at_app.
  2: { rewrite (len_mjoin _ _ Hs). f_equal. unfold len in *. rewrite length_zip_with. lia. }
  cbn [mbind res_bind]. rewrite chunks_exact_mjoin by (done || lia). cbn [mbind res_bind].
  rewrite Ds. cbn [mbind res_bind]. unfold PineType_verifier_len. rewrite u64_mul_fits by lia.
  cbn [mbind res_bind]. rewrite u64_add_fits by lia. cbn [mbind res_bind].
  rewrite chunks_exact_mjoin by (done || lia). cbn [mbind res_bind]. by rewrite D.
Qed.

(** The preparation of a report, from the Client's shares to the output shares. *)
Definition prepared (vk nonce : list byte) (gradient : list f64) (rand : ShardRand)
    (o0 o1 : list felem) : Prop :=
  exists pub is0 is1 st0 ps0 st1 ps1 msg,
    shard_with_rand pine gradient nonce rand = Ok (pub, [is0; is1]) /\
    prepare_init pine vk 0 nonce pub is0 = Ok (st0, ps0) /\
    prepare_init pine vk 1 nonce pub is1 = Ok (st1, ps1) /\
    prepare_shares_to_prepare_message pine [ps0; ps1] = Ok msg /\
    prepare_next st0 msg = Ok o0 /\ prepare_next st1 msg = Ok o1.

Lemma prepare_next_ok o wr vf n :
  prepare_next (MkPinePrepState o wr vf n) (MkPrep wr vf) = Ok o.
Proof. unfold prepare_next. cbn. by rewrite !bool_decide_eq_true_2. Qed.

(** The proof shares of the two Aggregators, chunk by chunk. *)
Lemma proof_shares_chunks share0 share1 ps_s ps :
  of_len (proofs_size pine) share0 -> of_len (proofs_size pine) share1 ->
  Forall (of_len (sne_proof_size sne)) ps_s -> Forall (of_len (main_proof_size flp)) ps ->
  add_shares share0 share1 = mjoin ps_s ++ mjoin ps ->
  len ps_s = Pine_num_proofs_sq_norm_equal pine -> len ps = Pine_num_proofs pine ->
  exists c0s c0 c1s c1, share0 = mjoin c0s ++ mjoin c0 /\ share1 = mjoin c1s ++ mjoin c1 /\
    Forall (of_len (sne_proof_size sne)) c0s /\ Forall (of_len (sne_proof_size sne)) c1s /\
    Forall (of_len (main_proof_size flp)) c0 /\ Forall (of_len (main_proof_size flp)) c1 /\
    length c0s = length ps_s /\ length c1s = length ps_s /\
    length c0 = length ps /\ length c1 = length ps /\
    zip_with add_shares c0s c1s = ps_s /\ zip_with add_shares c0 c1 = ps.
Proof.
  intros H0 H1 Hps Hp Hadd Ns Nm.
  destruct (proof_lens_ok (E:=PrioVdafError) _ _ _ _ W Hnew) as (_ & _ & Ba & Bb).
  assert (forall share : list felem, of_len (proofs_size pine) share -> exists cs c, share = mjoin cs ++ mjoin c /\
    Forall (of_len (sne_proof_size sne)) cs /\ Forall (of_len (main_proof_size flp)) c /\
    length cs = length ps_s /\ length c = length ps) as Hsplit.
  { intros share Hs. unfold of_len, proofs_size in Hs. set (k := N.to_nat (sne_proof_size sne * Pine_num_proofs_sq_norm_equal pine)).
    destruct (split_chunks (sne_proof_size sne) (Pine_num_proofs_sq_norm_equal pine) (take k share))
      as (cs & E1 & F1 & L1). { unfold len, k in *. rewrite length_take. lia. }
    destruct (split_chunks (main_proof_size flp) (Pine_num_proofs pine) (drop k share))
      as (c & E2 & F2 & L2). { unfold len, k in *. rewrite length_drop. lia. }
    exists cs, c. rewrite <-E1, <-E2, take_drop. unfold len in *. split_and!; try done; lia. }
  destruct (Hsplit share0 H0) as (c0s & c0 & -> & F0s & F0 & L0s & L0).
  destruct (Hsplit share1 H1) as (c1s & c1 & -> & F1s & F1 & L1s & L1).
  rewrite add_shares_app in Hadd.
  2: { pose proof (len_mjoin _ _ F0s) as E0. pose proof (len_mjoin _ _ F1s) as E1. unfold len in *.
       rewrite L0s in E0. rewrite L1s in E1. lia. }
  rewrite (add_shares_mjoin _ _ _ F0s F1s), (add_shares_mjoin _ _ _ F0 F1) in Hadd by lia.
  apply app_inj_1 in Hadd as [A1 A2].
  2: { pose proof (len_mjoin _ _ (add_chunks_len _ _ _ F0s F1s)) as E0. pose proof (len_mjoin _ _ Hps) as E1.
       unfold len in *. rewrite length_zip_with in E0.
       replace (Nat.min (length c0s) (length c1s)) with (length ps_s) in E0 by lia. lia. }
  exists c0s, c0, c1s, c1. split_and!; try done; try lia.
  - apply (mjoin_inj (sne_proof_size sne)); [lia|by apply add_chunks_len|done|done].
  - apply (mjoin_inj (main_proof_size flp)); [lia|by apply add_chunks_len|done|done].
Qed.

(** What the Client sends is accepted by both circuits. *)
Lemma sharded_accepted gradient nonce rand pub shares meas results l h share0 :
  sharded gradient nonce rand pub shares meas results l h share0 ->
  of_len (PineType_input_len flp) (meas ++ results) /\
  (forall jr, of_len 3 jr -> main_accepts flp (meas ++ results) jr) /\
  sne_accepts sne (meas ++ results) [].
Proof.
  intros S. pose proof (sizes_ok _ _ _ W Hnew) as Z. split_and!.
  - unfold of_len. rewrite len_app, (sharded_meas _ _ _ _ _ _ _ _ _ _ S),
      (sharded_results_len _ _ _ _ _ _ _ _ _ _ S), (size_input _ Z). done.
  - intros [|r1 [|r2 [|r3 [|]]]] Hjr s; try (unfold of_len, len in Hjr; simpl in Hjr; lia).
    by apply (encoded_valid flp sne _ _ _ _ HC (sharded_encoded _ _ _ _ _ _ _ _ _ _ S)).
  - intros s. by apply (encoded_valid flp sne _ _ _ _ HC (sharded_encoded _ _ _ _ _ _ _ _ _ _ S)).
Qed.

(** The chunks of the proof shares, the results of the wraparound tests on the shares and the
    verifiers of the two Aggregators in a run of a report. *)
Record run_data (rand : ShardRand) (pub : PublicShare) (l h share0 : list felem)
    (qr_s qr jrs : list (list felem)) (r0 r1 : list felem)
    (c0s c0 c1s c1 v0s v0 v1s v1 : list (list felem)) : Prop := {
  run_share0 : share0 = mjoin c0s ++ mjoin c0;
  run_share1 : helper_proof_share (E:=PrioVdafError) pine (rand_proofs_share_seed_1 rand)
    = Ok (mjoin c1s ++ mjoin c1);
  run_chunks : Forall (of_len (sne_proof_size sne)) c0s /\ Forall (of_len (sne_proof_size sne)) c1s /\
    Forall (of_len (main_proof_size flp)) c0 /\ Forall (of_len (main_proof_size flp)) c1;
  run_chunks_len : len c0s = Pine_num_proofs_sq_norm_equal pine /\
    len c1s = Pine_num_proofs_sq_norm_equal pine;
  run_jrs : vf_joint_rands (E:=PrioVdafError) pine
    (joint_rand_seed pine (PublicShare_vf_joint_rand_parts pub) USAGE_VF_JOINT_RAND_SEED) = Ok jrs;
  run_tests : forall ms r, (ms = l /\ r = r0) \/ (ms = h /\ r = r1) ->
    run_wr_tests (E:=PrioVdafError) flp (take dimension ms)
      (joint_rand_seed pine (PublicShare_wr_joint_rand_parts pub) USAGE_WR_JOINT_RAND_SEED) = Ok r;
  run_query_0s : query_all sne (l ++ r0)
    (zip c0s (zip (no_rands (Pine_num_proofs_sq_norm_equal pine)) qr_s)) [] = Ok (mjoin v0s);
  run_query_1s : query_all sne (h ++ r1)
    (zip c1s (zip (no_rands (Pine_num_proofs_sq_norm_equal pine)) qr_s)) [] = Ok (mjoin v1s);
  run_query_0 : query_all flp (l ++ r0) (zip c0 (zip jrs qr)) (mjoin v0s) = Ok (mjoin v0s ++ mjoin v0);
  run_query_1 : query_all flp (h ++ r1) (zip c1 (zip jrs qr)) (mjoin v1s) = Ok (mjoin v1s ++ mjoin v1);
  run_verifiers : Forall (of_len (PineTypeSNE_chunk_len sne + 2)) v0s /\
    Forall (of_len (PineTypeSNE_chunk_len sne + 2)) v1s /\
    Forall (of_len (2 * PineType_chunk_len flp + 2)) v0 /\
    Forall (of_len (2 * PineType_chunk_len flp + 2)) v1;
  run_verifiers_len : len v0s = Pine_num_proofs_sq_norm_equal pine /\
    len v1s = Pine_num_proofs_sq_norm_equal pine /\ length v0 = length v1;
  run_decide_sne : decide_all sne "squared norm equality proof check failed"
    (zip_with add_shares v0s v1s) = Ok tt;
  run_decide : decide_all flp "main proof check failed" (zip_with add_shares v0 v1) = Ok tt;
}.

Lemma run_data_ok vk nonce gradient rand pub shares qr_s qr meas results l h share0 :
  sharded gradient nonce rand pub shares meas results l h share0 ->
  query_rands (E:=PrioVdafError) pine vk nonce = Ok (qr_s, qr) -> Forall good qr_s -> Forall good qr ->
  exists jrs r0 r1 c0s c0 c1s c1 v0s v0 v1s v1,
    run_data rand pub l h share0 qr_s qr jrs r0 r1 c0s c0 c1s c1 v0s v0 v1s v1.
Proof.
  intros S Hq Gs Gm. pose proof (sizes_ok _ _ _ W Hnew) as Z.
  destruct (sharded_accepted _ _ _ _ _ _ _ _ _ _ S) as (Hil & Ham & Has).
  destruct (leader_proofs_share_ok _ (PublicShare_vf_joint_rand_parts pub) (rand_prove_seed rand)
    (rand_proofs_share_seed_1 rand) Hil Ham Has)
    as (jrs & ps_s & ps & prs_s & prs & share0' & share1 & Hj & Hs0 & Hs1 & L0 & L1 & Hadd & F_s & F_m & N_s & N_m & R_s & R_m).
  rewrite (sharded_proofs _ _ _ _ _ _ _ _ _ _ S) in Hs0. injection Hs0 as <-.
  destruct (no_rands_len (Pine_num_proofs_sq_norm_equal pine)) as [Hn0 Hn].
  destruct (vf_joint_rands_ok (E:=PrioVdafError) _ _ _ W Hnew
    (joint_rand_seed pine (PublicShare_vf_joint_rand_parts pub) USAGE_VF_JOINT_RAND_SEED))
    as (jrs' & Hj' & Hjl & Hjn). rewrite Hj in Hj'. injection Hj' as <-.
  destruct (query_rands_ok (E:=PrioVdafError) _ _ _ W Hnew vk nonce) as (q_s & q & Hq' & Hq1 & Hq2 & Hq3 & Hq4).
  rewrite Hq in Hq'. injection Hq' as <- <-.
  pose proof (Forall2_length _ _ _ R_s) as N1. pose proof (Forall2_length _ _ _ R_m) as N2.
  rewrite length_zip_with in N1, N2. unfold len in *.
  destruct (proof_shares_chunks share0 share1 ps_s ps) as (c0s & c0 & c1s & c1 & -> & -> & F0s & F1s & F0 & F1 & M0s & M1s & M0 & M1 & A_s & A_m);
    [done|done|done|done|done|unfold len; lia|unfold len; lia|].
  pose proof (sharded_sum _ _ _ _ _ _ _ _ _ _ S) as Hsum.
  pose proof (sharded_l _ _ _ _ _ _ _ _ _ _ S) as Hl.
  assert (of_len (Pine_encoded_input_len pine) h) as Hh.
  { rewrite (sharded_h _ _ _ _ _ _ _ _ _ _ S). apply helper_meas_share_len. }
  assert (PineType_dimension flp <= Pine_encoded_input_len pine) as Hde by (rewrite (size_encoded _ Z); lia).
  unfold of_len, len in Hl, Hh.
  destruct (run_wr_tests_add (E:=PrioVdafError) flp (take dimension l) (take dimension h)
    (joint_rand_seed pine (PublicShare_wr_joint_rand_parts pub) USAGE_WR_JOINT_RAND_SEED))
    as (r0 & r1 & T0 & T1 & Lr0 & Lr1 & T); [unfold len; rewrite length_take; lia..|by apply (wr_sizes_ok _ _ _ W Hnew)|].
  rewrite <-take_add_shares, Hsum, (sharded_results _ _ _ _ _ _ _ _ _ _ S) in T. injection T as ->.
  assert (add_shares (l ++ r0) (h ++ r1) = meas ++ add_shares r0 r1) as Hx.
  { rewrite add_shares_app, Hsum by lia. done. }
  rewrite <-Hx in *.
  assert (of_len (PineType_input_len flp) (l ++ r0)) as Hx0.
  { unfold of_len, len in *. rewrite length_app, (size_input _ Z). lia. }
  assert (of_len (PineType_input_len flp) (h ++ r1)) as Hx1.
  { unfold of_len, len in *. rewrite length_app, (size_input _ Z). lia. }
  destruct (circuit_run sne _ _ _ _ _ _ _ (flps_sne _ _ LF) "squared norm equality proof check failed"
    (l ++ r0) (h ++ r1) prs_s (no_rands (Pine_num_proofs_sq_norm_equal pine)) qr_s ps_s c0s c1s)
    as (v0s & v1s & Q0s & Q1s & V0s & V1s & K0s & K1s & D_s); try done; try lia.
  { apply Forall_forall. intros jr _. exact Has. }
  destruct (circuit_run flp _ _ _ _ _ _ _ (flps_main _ _ LF) "main proof check failed"
    (l ++ r0) (h ++ r1) prs jrs qr ps c0 c1)
    as (v0 & v1 & Q0 & Q1 & V0 & V1 & K0 & K1 & D_m); try done; try lia.
  { eapply Forall_impl; [exact Hjl|]. intros jr Hjr. by apply Ham. }
  eexists jrs, r0, r1, c0s, c0, c1s, c1, v0s, v0, v1s, v1.
  split; try done; try (split_and!; done || (unfold len; lia)).
  by intros ms r [[-> ->]|[-> ->]].
Qed.

(** The run. *)
Lemma honest_run vk nonce gradient rand pub shares qr_s qr :
  shard_with_rand pine gradient nonce rand = Ok (pub, shares) ->
  query_rands (E:=PrioVdafError) pine vk nonce = Ok (qr_s, qr) -> Forall good qr_s -> Forall good qr ->
  exists o0 o1 enc, prepared vk nonce gradient rand o0 o1 /\
    append_encoded_gradient flp [] gradient = Ok enc /\
    of_len (PineType_dimension flp) o0 /\ of_len (PineType_dimension flp) o1 /\
    add_shares o0 o1 = take dimension enc.
Proof.
  intros Hshard Hq Gs Gm. pose proof (sizes_ok _ _ _ W Hnew) as Z.
  destruct (shard_inv _ _ _ _ _ Hshard) as (meas & results & l & h & share0 & S).
  destruct (run_data_ok _ _ _ _ _ _ _ _ _ _ _ _ _ S Hq Gs Gm)
    as (jrs & r0 & r1 & c0s & c0 & c1s & c1 & v0s & v0 & v1s & v1 & R).
  destruct (query_rands_ok (E:=PrioVdafError) _ _ _ W Hnew vk nonce) as (q_s & q & Hq' & _ & Nq & _ & _).
  rewrite Hq in Hq'. injection Hq' as <- <-.
  destruct R as [-> Hs1 (F0s & F1s & F0 & F1) [N0s N1s] Hj Ht Q0s Q1s Q0 Q1 (V0s & V1s & V0 & V1)
    (M0 & M1 & M) Ds Dm].
  destruct S as [_ (enc & Henc & Htake) _ _ _ Hl Hh Hsum Hwr0 Hwr1 Hvf0 Hvf1 _ Hshares].
  assert (of_len (Pine_encoded_input_len pine) h) as Hh'
    by (rewrite Hh; apply helper_meas_share_len).
  assert (PineType_dimension flp <= Pine_encoded_input_len pine) by (rewrite (size_encoded _ Z); lia).
  destruct pub as [[wr0 wr1] [vf0 vf1]].
  cbn [PublicShare_wr_joint_rand_parts PublicShare_vf_joint_rand_parts fst snd] in *.
  exists (take dimension l), (take dimension h), enc. split_and!.
  - rewrite Hshares in Hshard. eexists _, _, _, _, _, _, _, _. split; [exact Hshard|].
    split.
    { eapply (prepare_init_eq vk 0 nonce _ _ l c0s c0); try done. by apply Ht; left. }
    split.
    { eapply (prepare_init_eq vk 1 nonce _ _ h c1s c1); try done; [|by apply Ht; right].
      unfold unpack_input_share. rewrite Hs1. cbn [mbind res_bind]. by rewrite Hh. }
    split; [by apply prepare_shares_eq|]. split; apply prepare_next_ok.
  - done.
  - unfold of_len, len in *. rewrite length_take. lia.
  - unfold of_len, len in *. rewrite length_take. lia.
  - by rewrite <-take_add_shares, Hsum.
Qed.
End Honest.

(** ** Arbitrary messages *)

(** A circuit, over any gadget. *)
Abbreviation circuit_valid := (forall G, Gadget G -> list felem -> list felem -> N -> stm G FlpError felem).

(** A circuit that does not panic on inputs and joint randomness of its lengths: with a gadget that
    takes [arity] elements and can be called [calls] times, it returns. *)
Definition circuit_returns `{PF : PrioField} (valid : circuit_valid) (input_len joint_rand_len arity calls n : N) : Prop :=
  forall G (GA : Gadget G) (left : G -> N), callable left arity ->
  forall x jr, of_len input_len x -> of_len joint_rand_len jr ->
  safe left calls (fun _ => True) (valid G GA x jr n).

(** What [prio] documents of [query] and [decide] for a circuit: [query] checks the lengths of its
    arguments, and evaluates the circuit with gadgets that look their outputs up in the proof; if the
    circuit returns, so does [query], and the verifier has the length [verifier_len].  [decide]
    checks the length of the verifier, and evaluates the gadgets. *)
Record flp_total `{PF : PrioField} {T} (F : Flp T) (t : T) (valid : circuit_valid)
    (input_len joint_rand_len arity calls verifier_len : N) : Prop := {
  query_returns x p qr jr n :
    circuit_returns valid input_len joint_rand_len arity calls n ->
    returns (of_len verifier_len) (flp_query t x p qr jr n);
  decide_returns v : returns (fun _ => True) (flp_decide t v);
}.

Section Total.
Context `{PF : PrioField} {T : Type} `{F : !Flp T} (t : T) (valid : circuit_valid) (il jl ar calls vl : N).
Context (L : flp_total F t valid il jl ar calls vl) (HV : circuit_returns valid il jl ar calls 2).

Lemma query_all_returns x proofs acc :
  returns (of_len (len acc + vl * len proofs)) (query_all t x proofs acc).
Proof.
  revert acc. induction proofs as [|[p [jr qr]] proofs IH]; intros acc.
  { cbn. unfold of_len. change (len (@nil (list felem * (list felem * list felem)))) with 0. lia. }
  cbn [query_all]. eapply returns_bind; [apply returns_map_err; by apply (query_returns _ _ _ _ _ _ _ _ L)|].
  intros v Hv. eapply returns_mono; [apply IH|]. intros w Hw. unfold of_len in *.
  rewrite len_app in Hw. rewrite len_cons. lia.
Qed.

Lemma decide_all_returns msg vs : returns (fun _ => True) (decide_all t msg vs).
Proof.
  induction vs as [|v vs IH]; [done|]. cbn [decide_all].
  eapply returns_bind; [apply returns_map_err, (decide_returns _ _ _ _ _ _ _ _ L)|]. by intros [] _.
Qed.
End Total.

Section Returns.
Context `{BP : BuildProfile} `{PF : PrioField} {PL : PrioFieldLaws PF} `{PX : !Xof} {XL : XofLaws PX}.
Context `{FM : !Flp PineType} `{FS : !Flp PineTypeSquaredNormEqual}.
Context (param : PineParam) (id : N) (pine : Pine).
Context (W : PineParam_wf param) (Hnew : Pine_new felem_field param id = Ok pine).

Abbreviation flp := (Pine_flp pine).
Abbreviation sne := (Pine_flp_sq_norm_equal pine).

(** [prio] proves and verifies the two circuits of this instance as it documents. *)
Record pine_total : Prop := {
  total_main : flp_total FM flp (fun _ _ x jr n => PineType_valid flp x jr n)
    (PineType_input_len flp) PineType_joint_rand_len (PineType_chunk_len flp * 2) (PineType_gadget_calls flp)
    (2 * PineType_chunk_len flp + 2);
  total_sne : flp_total FS sne (fun _ _ x _ _ => PineTypeSNE_valid sne x)
    (PineTypeSNE_input_len sne) PineTypeSNE_joint_rand_len (PineTypeSNE_chunk_len sne) (PineTypeSNE_gadget_calls sne)
    (PineTypeSNE_chunk_len sne + 2);
}.
Context (HT : pine_total).

(** The circuits of this instance do not panic, for two shares. *)
Lemma main_circuit_returns :
  circuit_returns (fun _ _ x jr n => PineType_valid flp x jr n)
    (PineType_input_len flp) PineType_joint_rand_len (PineType_chunk_len flp * 2) (PineType_gadget_calls flp) 2.
Proof.
  intros G GA left Hc x jr Hx Hj. pose proof (sizes_ok _ _ _ W Hnew) as Z.
  destruct (Pine_new_spec _ _ _ _ W Hnew) as (_ & L & S).
  destruct (lengths_gadget_parts _ _ L) as (c1 & c2 & -> & [B1 _] & [B2 _]).
  rewrite <-(fields_chunk_len _ _ _ _ S) in *. rewrite <-(fields_num_wr_tests _ _ _ _ S) in *.
  pose proof modulus_gt_2. pose proof modulus_fits.
  apply PineType_valid_safe; try done.
  - apply (size_chunk_len _ Z).
  - apply (size_bit_checked _ Z).
  - rewrite Hx, (size_input _ Z), (size_encoded _ Z). done.
  - lia.
Qed.

Lemma sne_circuit_returns :
  circuit_returns (fun _ _ x _ _ => PineTypeSNE_valid sne x)
    (PineTypeSNE_input_len sne) PineTypeSNE_joint_rand_len (PineTypeSNE_chunk_len sne) (PineTypeSNE_gadget_calls sne) 2.
Proof.
  intros G GA left Hc x jr Hx _. pose proof (sizes_ok _ _ _ W Hnew) as Z.
  destruct (Pine_new_spec _ _ _ _ W Hnew) as (_ & L & S).
  pose proof (lengths_gadget_sq_norm _ _ L) as [Hg _].
  assert (PineTypeSNE_chunk_len sne = PineParam_chunk_len_sq_norm_equal param) as Ek by (by rewrite (fields_sne _ _ _ _ S)).
  assert (PineTypeSNE_dimension sne = PineType_dimension flp) as Ed.
  { rewrite (fields_sne _ _ _ _ S). by rewrite (fields_dimension _ _ _ _ S). }
  assert (PineTypeSNE_sq_norm_bits sne = PineType_sq_norm_bits flp) as Eb by (by rewrite (fields_sne _ _ _ _ S)).
  apply PineTypeSNE_valid_safe; [apply (size_chunk_len_sne _ Z)|done| |].
  - rewrite Hx, (size_same_input _ Z), (size_input _ Z), (size_encoded _ Z), (size_bit_checked _ Z), Ed, Eb. lia.
  - by rewrite Ed, Ek, (fields_dimension _ _ _ _ S).
Qed.

(** The verifiers of all proofs. *)
Definition verifiers_size : N :=
  (PineTypeSNE_chunk_len sne + 2) * Pine_num_proofs_sq_norm_equal pine
  + (2 * PineType_chunk_len flp + 2) * Pine_num_proofs pine.

Lemma update_elements_ok {E} xof xs : exists xof', update_elements (E:=E) xof xs = Ok xof'.
Proof.
  revert xof. induction xs as [|x xs IH]; intros xof; [by eexists|]. cbn [update_elements].
  destruct (felem_writes x) as (b & Hb). specialize (Hb []). rewrite Hb. apply IH.
Qed.

Lemma joint_rand_part_ok {E} agg_id blind nonce xs usage :
  exists s, joint_rand_part (E:=E) pine agg_id blind nonce xs usage = Ok s /\ array SEED_SIZE s.
Proof.
  unfold joint_rand_part.
  destruct (update_elements_ok (E:=E) (xof_update (xof_update (xof_init blind
    (dst (Pine_algorithm_id pine) usage)) [byte_of_N agg_id]) nonce) xs) as (xof & ->).
  eexists. split; [done|]. apply xof_seed_size.
Qed.

(** The shares in a decoded input share. *)
Lemma unpack_input_share_ok agg_id input :
  InputShare_wf pine agg_id (proofs_size pine) input ->
  exists ms ps wb vb, unpack_input_share pine agg_id input = Ok (ms, ps, wb, vb) /\
    of_len (Pine_encoded_input_len pine) ms /\ of_len (proofs_size pine) ps.
Proof.
  destruct input as [ms ps wb vb|ms ps wb vb]; intros (-> & H1 & H2 & _); cbn [unpack_input_share].
  - by exists ms, ps, wb, vb.
  - destruct (helper_proof_share_ok (E:=PrioVdafError) _ _ _ W Hnew ps) as (l & Hl & Hlen).
    rewrite Hl. eexists _, l, wb, vb. split; [done|]. split; [apply helper_meas_share_len|done].
Qed.

(** The queries, for proofs and randomness of the right lengths. *)
Lemma query_proofs_returns ms cs_s cs vk nonce seed :
  Forall (of_len (sne_proof_size sne)) cs_s -> len cs_s = Pine_num_proofs_sq_norm_equal pine ->
  Forall (of_len (main_proof_size flp)) cs -> len cs = Pine_num_proofs pine ->
  returns (of_len verifiers_size) (query_proofs pine ms (mjoin cs_s) (mjoin cs) vk nonce seed).
Proof.
  intros Hs Ns Hm Nm.
  destruct (proof_lens_ok (E:=PrioVdafError) _ _ _ _ W Hnew) as (Ha & Hb & Ba & Bb).
  unfold query_proofs.
  destruct (vf_joint_rands_ok (E:=PrioVdafError) _ _ _ W Hnew seed) as (jrs & -> & _ & Hj).
  cbn [mbind res_bind].
  destruct (query_rands_ok (E:=PrioVdafError) _ _ _ W Hnew vk nonce) as (q_s & q & -> & _ & Hqs & _ & Hq).
  cbn [mbind res_bind]. rewrite Ha. cbn [mbind res_bind].
  rewrite chunks_exact_mjoin by (done || lia). cbn [mbind res_bind].
  eapply returns_bind; [apply (query_all_returns _ _ _ _ _ _ _ (total_sne HT) sne_circuit_returns)|]. intros v Hv.
  rewrite Hb. cbn [mbind res_bind]. rewrite chunks_exact_mjoin by (done || lia). cbn [mbind res_bind].
  eapply returns_mono; [apply (query_all_returns _ _ _ _ _ _ _ (total_main HT) main_circuit_returns)|]. intros w Hw.
  unfold of_len, verifiers_size, len in *. rewrite !length_zip_with, ?length_fmap in *.
  cbn [length] in Hv. rewrite Hw, Hv. f_equal; [f_equal; lia|f_equal; lia].
Qed.

(** What an Aggregator keeps and sends. *)
Definition prep_wf (r : PinePrepState * PrepShare) : Prop :=
  PinePrepState_verifiers_len r.1 = verifiers_size /\ PrepShare_wf verifiers_size r.2 /\
  of_len (PineType_dimension flp) (PinePrepState_gradient_share r.1).

Lemma proofs_split (ps : list felem) :
  of_len (proofs_size pine) ps -> exists cs_s cs, ps = mjoin cs_s ++ mjoin cs /\
    Forall (of_len (sne_proof_size sne)) cs_s /\ len cs_s = Pine_num_proofs_sq_norm_equal pine /\
    Forall (of_len (main_proof_size flp)) cs /\ len cs = Pine_num_proofs pine.
Proof.
  intros Hps. unfold of_len, proofs_size in Hps.
  set (k := sne_proof_size sne * Pine_num_proofs_sq_norm_equal pine) in *.
  destruct (split_chunks (sne_proof_size sne) (Pine_num_proofs_sq_norm_equal pine) (take (N.to_nat k) ps))
    as (cs_s & H1 & F1 & N1). { unfold len in *. rewrite length_take. lia. }
  destruct (split_chunks (main_proof_size flp) (Pine_num_proofs pine) (drop (N.to_nat k) ps))
    as (cs & H2 & F2 & N2). { unfold len in *. rewrite length_drop. lia. }
  exists cs_s, cs. split_and!; try done. by rewrite <-H1, <-H2, take_drop.
Qed.

Lemma prepare_init_returns vk agg_id nonce pub input :
  InputShare_wf pine agg_id (proofs_size pine) input ->
  returns prep_wf (prepare_init pine vk agg_id nonce pub input).
Proof.
  intros Hi. pose proof (sizes_ok _ _ _ W Hnew) as Z.
  destruct (proof_lens_ok (E:=PrioVdafError) _ _ _ _ W Hnew) as (Ha & _ & Ba & _).
  destruct (proofs_len_ok (E:=PrioVdafError) _ _ _ _ W Hnew) as [_ Hpl]. unfold proofs_size in Hpl.
  assert (agg_id = 0 \/ agg_id = 1) as Hid by (destruct input; destruct Hi as [-> _]; auto).
  destruct (unpack_input_share_ok _ _ Hi) as (ms & ps & wb & vb & Hu & Hms & Hps).
  destruct (proofs_split _ Hps) as (cs_s & cs & -> & Fs & Ns & Fm & Nm).
  assert (Pine_encoded_gradient_and_sq_norm_len pine <= len ms) as L1.
  { rewrite Hms, (size_gradient _ Z), (size_encoded _ Z), (size_bit_checked _ Z). lia. }
  assert (PineType_dimension flp <= len ms) as L2 by (rewrite Hms, (size_encoded _ Z); lia).
  assert (forall (parts : list byte * list byte) part, exists parts',
    set_part (E:=PrioVdafError) parts agg_id part = Ok parts') as Hset.
  { intros parts part. destruct Hid as [-> | ->]; by eexists. }
  unfold prepare_init. rewrite Hu. cbn [mbind res_bind]. rewrite Ha. cbn [mbind res_bind].
  rewrite u64_mul_fits by lia. cbn [mbind res_bind].
  rewrite split_at_app by (by rewrite (len_mjoin _ _ Fs), Ns). cbn [mbind res_bind].
  rewrite (slice_to_ok (Pine_encoded_gradient_and_sq_norm_len pine)) by done. cbn [mbind res_bind].
  destruct (joint_rand_part_ok (E:=PrioVdafError) agg_id wb nonce
    (take (N.to_nat (Pine_encoded_gradient_and_sq_norm_len pine)) ms) USAGE_WR_JOINT_RAND_PART)
    as (wr & -> & Hwr). cbn [mbind res_bind].
  destruct (Hset (PublicShare_wr_joint_rand_parts pub) wr) as (wrs & ->). cbn [mbind res_bind].
  rewrite slice_to_ok by done. cbn [mbind res_bind].
  destruct (run_wr_tests_add (E:=PrioVdafError) flp (take (N.to_nat (PineType_dimension flp)) ms)
    (take (N.to_nat (PineType_dimension flp)) ms) (joint_rand_seed pine wrs USAGE_WR_JOINT_RAND_SEED))
    as (r & _ & -> & _ & _ & _ & _);
    [unfold len in *; rewrite length_take; lia..|by apply (wr_sizes_ok _ _ _ W Hnew)|].
  cbn [mbind res_bind]. rewrite slice_to_app by done. cbn [mbind res_bind].
  destruct (joint_rand_part_ok (E:=PrioVdafError) agg_id vb nonce ms USAGE_VF_JOINT_RAND_PART)
    as (vf & -> & Hvf). cbn [mbind res_bind].
  destruct (Hset (PublicShare_vf_joint_rand_parts pub) vf) as (vfs & ->). cbn [mbind res_bind].
  eapply returns_bind; [by apply query_proofs_returns|]. intros v Hv.
  unfold PineType_truncate. cbn [map_err mbind res_bind]. split; [exact Hv|]. split; [by split_and!|].
  cbn [fst PinePrepState_gradient_share]. rewrite take_app_le by (unfold len in L2; lia).
  unfold of_len, len in *. rewrite length_take. lia.
Qed.

(** The preparation message from two shares that were decoded. *)
Lemma prepare_shares_returns s0 s1 :
  PrepShare_wf verifiers_size s0 -> PrepShare_wf verifiers_size s1 ->
  returns Prep_wf (prepare_shares_to_prepare_message pine [s0; s1]).
Proof.
  intros [H0 _] [H1 _]. pose proof (sizes_ok _ _ _ W Hnew) as Z.
  pose proof (size_chunk_len _ Z). pose proof (size_chunk_len_sne _ Z). pose proof (size_proofs_sne _ Z).
  assert (u32_max = 4294967295) as E32 by done. assert (u8_max = 255) as E8 by done.
  assert (u64_max = 18446744073709551615) as E64 by done.
  unfold prepare_shares_to_prepare_message. unfold vec_len in H0, H1.
  set (vs := zip_assign fadd _ _).
  assert (len vs = verifiers_size) as Hvs.
  { unfold vs, len in *. by rewrite length_zip_assign. }
  unfold PineTypeSNE_verifier_len. rewrite u64_add_fits by lia. cbn [mbind res_bind].
  rewrite u64_mul_fits.
  2: { transitivity ((4294967295 + 2) * 255); [apply N.mul_le_mono; lia|lia]. }
  cbn [mbind res_bind]. unfold split_at. rewrite (proj2 (N.leb_le _ _)) by (rewrite Hvs; unfold verifiers_size; lia).
  cbn [mbind res_bind]. eapply returns_bind; [apply chunks_exact_returns; lia|]. intros v_s _.
  eapply returns_bind; [apply (decide_all_returns _ _ _ _ _ _ _ (total_sne HT))|]. intros _ _.
  unfold PineType_verifier_len. rewrite u64_mul_fits by lia. cbn [mbind res_bind].
  rewrite u64_add_fits by lia. cbn [mbind res_bind].
  eapply returns_bind; [apply chunks_exact_returns; lia|]. intros v _.
  eapply returns_bind; [apply (decide_all_returns _ _ _ _ _ _ _ (total_main HT))|]. intros _ _.
  split; apply xof_seed_size.
Qed.

Lemma prepare_next_returns state msg : returns (fun o => o = PinePrepState_gradient_share state) (prepare_next state msg).
Proof. unfold prepare_next. by repeat case_match. Qed.
End Returns.
