(* ===== verification/PineBatch.v ===== *)
(** * A batch of PINE

    The aggregation of output shares and their recombination by the Collector
    ([aggregate], [unshard] of [src/crates/daphne/src/pine/vdaf.rs]), and the two theorems
    about runs: a report of an honest Client is prepared by both Aggregators, and the result
    of a batch is the sum of its gradients. *)

From Stdlib Require Import ZArith.
From S2P Require Import Prelude Codec Messages TaskprovMessages Errors Pine PineField.
From S2P Require Import PineEncoding PineFlp PineFlpCorrect PineWraparound PineMsg PineVdaf.
From S2P Require Import PineVdafCorrect.

Section Vectors.
Context `{BP : BuildProfile} `{PF : PrioField} {PL : PrioFieldLaws PF} `{PX : !Xof}.
Add Ring felem_ring_batch : (felem_ring).

(** The sum of vectors of [d] integers, the reference of [aggregate]. *)
Definition sum_vectors (d : nat) (vs : list (list Z)) : list Z :=
  fold_left (zip_with Z.add) vs (replicate d 0%Z).

(** A vector of integers in the field. *)
Definition of_Zs (v : list Z) : list felem := map of_Z v.

Lemma accumulate_all_eq d acc outs :
  of_len d acc -> Forall (of_len d) outs ->
  accumulate_all acc outs = Ok (fold_left add_shares outs acc) /\
  of_len d (fold_left add_shares outs acc).
Proof.
  intros Ha Ho. revert acc Ha. induction Ho as [|o outs Ho _ IH]; intros acc Ha; [done|].
  cbn [accumulate_all fold_left]. unfold PineVec_accumulate. cbn [mbind res_bind].
  rewrite zip_assign_add by (unfold of_len, len in *; lia). apply IH. by apply len_add_shares.
Qed.

Lemma add_shares_swap a b c d :
  add_shares (add_shares a b) (add_shares c d) = add_shares (add_shares a c) (add_shares b d).
Proof.
  revert b c d. unfold add_shares.
  induction a as [|x a IH]; intros [|y b] [|z c] [|w d]; try done. cbn [zip_with].
  f_equal; [ring|apply IH].
Qed.

(** The sum of two sums of shares is the sum of what is shared. *)
Lemma fold_shares (outs : list (list felem * list felem)) acc0 acc1 :
  add_shares (fold_left add_shares outs.*1 acc0) (fold_left add_shares outs.*2 acc1)
  = fold_left add_shares ((fun o => add_shares o.1 o.2) <$> outs) (add_shares acc0 acc1).
Proof.
  revert acc0 acc1. induction outs as [|[o0 o1] outs IH]; intros acc0 acc1; [done|].
  cbn [fmap list_fmap fold_left fst snd]. rewrite IH. f_equal. apply add_shares_swap.
Qed.

(** Sums of encoded integers, as long as they do not wrap around. *)
Lemma fold_of_Z (B : Z) vs a (n : nat) :
  (0 <= B)%Z -> Forall (fun x => Z.abs x <= Z.of_nat n * B)%Z a ->
  Forall (fun v => length v = length a /\ Forall (fun x => Z.abs x <= B)%Z v) vs ->
  (Z.of_nat (n + length vs) * B < Z.of_N modulus)%Z ->
  fold_left add_shares (map of_Zs vs) (of_Zs a)
  = of_Zs (fold_left (zip_with Z.add) vs a) /\
  Forall (fun x => Z.abs x <= Z.of_nat (n + length vs) * B)%Z (fold_left (zip_with Z.add) vs a) /\
  length (fold_left (zip_with Z.add) vs a) = length a.
Proof.
  intros HB. revert a n. induction vs as [|v vs IH]; intros a n Ha Hv Hb.
  { cbn [map fold_left length] in *. by rewrite Nat.add_0_r in *. }
  apply Forall_cons in Hv as [[Hl Hv] Hvs]. cbn [map fold_left length] in *.
  assert (Forall (fun x => Z.abs x <= Z.of_nat (S n) * B)%Z (zip_with Z.add a v) /\
    add_shares (of_Zs a) (of_Zs v) = of_Zs (zip_with Z.add a v)) as [Ha' ->].
  { clear IH Hvs. revert v Hl Hv. induction Ha as [|x a Hx _ IHa]; intros [|y v] Hl Hv; try done.
    apply Forall_cons in Hv as [Hy Hv]. destruct (IHa v) as [IH1 IH2]; [simpl in Hl; lia|done|].
    split; cbn [zip_with].
    - constructor; [lia|done].
    - unfold add_shares, of_Zs in *. cbn [map zip_with]. rewrite IH2. f_equal. symmetry. apply of_Z_add. nia. }
  destruct (IH (zip_with Z.add a v) (S n)) as (I1 & I2 & I3); [done| |by replace (S n + length vs)%nat with (n + S (length vs))%nat by lia|].
  - eapply Forall_impl; [exact Hvs|]. intros w [Hw ?]. split; [|done]. rewrite length_zip_with. lia.
  - split_and!; [done| |].
    + by replace (n + S (length vs))%nat with (S n + length vs)%nat by lia.
    + rewrite I3, length_zip_with. lia.
Qed.

Lemma decode_all_scaled k vs :
  k <= 52 -> Forall (fun v => Z.abs v < 2 ^ 53 /\ 2 * Z.abs v < Z.of_N modulus)%Z vs ->
  exists ys, decode_all (pow2_f64 k) (of_Zs vs) = Ok ys /\ Forall2 (fun y v => scaled_is y k v) ys vs.
Proof.
  intros Hk. induction 1 as [|v vs [Hv Hm] _ (ys & IH & Hys)]; [by exists []|].
  destruct (field_to_f64_scaled v k Hv Hm Hk) as (y & Hy & Hs).
  exists (y :: ys). split; [|by constructor]. unfold of_Zs in *. cbn [map decode_all].
  rewrite Hy. cbn [mbind res_bind]. rewrite IH. done.
Qed.

Lemma two_to_frac_bits_ok {E} k : k < 31 -> two_to_frac_bits (E:=E) k = Ok (pow2_f64 k).
Proof.
  intros Hk. unfold two_to_frac_bits. rewrite (proj2 (N.ltb_lt _ _)) by lia. cbn [mbind res_bind].
  rewrite (proj2 (N.ltb_lt _ _)) by lia. f_equal. apply f64_of_pow2. lia.
Qed.

Lemma of_Zs_zeros n : of_Zs (replicate n 0%Z) = replicate n f0.
Proof. unfold of_Zs. induction n as [|n IH]; [done|]. cbn. by rewrite IH, of_int_0. Qed.

Lemma add_zeros n : add_shares (replicate n f0) (replicate n f0) = replicate n f0.
Proof.
  induction n as [|n IH]; [done|]. unfold add_shares in *. cbn. rewrite IH. f_equal. ring.
Qed.
End Vectors.

(** ** Runs *)

(** A report: its nonce, its gradient and the randomness of the Client. *)
Record pine_report : Type := MkPineReport {
  report_nonce : list byte;
  report_gradient : list f64;
  report_rand : ShardRand;
}.

Section Runs.
Context `{BP : BuildProfile} `{PF : PrioField} {PL : PrioFieldLaws PF} `{PX : !Xof} {XL : XofLaws PX}.
Context `{FM : !Flp PineType} `{FS : !Flp PineTypeSquaredNormEqual}.
Context {G1 G2 : Type} `{GA1 : !Gadget G1} `{GA2 : !Gadget G2}.

(** The Client sharded the gradient, and the query randomness is good. *)
Definition sharded_report (pine : Pine) (good : list felem -> Prop) (vk : list byte) (r : pine_report) : Prop :=
  (exists pub shares,
    shard_with_rand pine (report_gradient r) (report_nonce r) (report_rand r) = Ok (pub, shares)) /\
  exists qr_s qr, query_rands (E:=PrioVdafError) pine vk (report_nonce r) = Ok (qr_s, qr) /\
    Forall good qr_s /\ Forall good qr.

Definition report_prepared (pine : Pine) (vk : list byte) (r : pine_report) (o : list felem * list felem) : Prop :=
  prepared pine vk (report_nonce r) (report_gradient r) (report_rand r) o.1 o.2.

Lemma encoded_fixed_point self gradient enc v :
  PineType_frac_bits self < 31 -> append_encoded_gradient self [] gradient = Ok enc ->
  Forall2 (fixed_point (PineType_frac_bits self)) gradient v ->
  Forall (fun x => Z.abs x < 2 ^ 53 /\ 2 * Z.abs x < Z.of_N modulus)%Z v ->
  take (N.to_nat (PineType_dimension self)) enc = of_Zs v /\ len v = PineType_dimension self.
Proof.
  intros Hk Henc Hf Hb.
  apply append_encoded_gradient_eq in Henc as (two & grad & Htwo & Hg & Hl & _ & _ & _ & ->).
  rewrite two_to_frac_bits_ok in Htwo by done. injection Htwo as <-.
  rewrite take_app_le, take_ge by (unfold len in Hl; lia).
  assert (grad = of_Zs v) as ->.
  { clear Hl. revert v Hf Hb. induction Hg as [|x e gradient grad Hx _ IH]; intros v Hf Hb.
    - by apply Forall2_nil_inv_l in Hf as ->.
    - apply Forall2_cons_inv_l in Hf as (y & v' & Hy & Hf & ->). apply Forall_cons in Hb as [[Hb1 Hb2] Hb].
      rewrite (fixed_point_encoded _ _ _ Hy Hb1 Hb2) in Hx. injection Hx as <-.
      unfold of_Zs in *. cbn [map]. by rewrite (IH v'). }
  split; [done|]. unfold of_Zs, len in *. by rewrite length_map in Hl.
Qed.

(** An honest report of PINE: when the Client has sharded a gradient and the query
    randomness is good, both Aggregators prepare their shares, their preparation shares are
    combined to a preparation message that both accept, and their output shares have the
    length of the gradient and add up to the encoded gradient. *)
Theorem pine_report_prepared param id pine good vk r :
  PineParam_wf param -> Pine_new felem_field param id = Ok pine ->
  pine_flps (G1:=G1) (G2:=G2) pine good ->
  pine_circuits (G1:=G1) (G2:=G2) (Pine_flp pine) (Pine_flp_sq_norm_equal pine) ->
  sharded_report pine good vk r ->
  exists o enc, report_prepared pine vk r o /\
    append_encoded_gradient (Pine_flp pine) [] (report_gradient r) = Ok enc /\
    of_len (PineType_dimension (Pine_flp pine)) o.1 /\
    of_len (PineType_dimension (Pine_flp pine)) o.2 /\
    add_shares o.1 o.2 = take (N.to_nat (PineType_dimension (Pine_flp pine))) enc.
Proof.
  intros W Hnew LF HC [(pub & shares & Hs) (qr_s & qr & Hq & Gs & Gm)].
  destruct (honest_run param id pine W Hnew good LF HC vk _ _ _ _ _ _ _ Hs Hq Gs Gm)
    as (o0 & o1 & enc & H). by exists (o0, o1), enc.
Qed.

(** The output shares of a batch. *)
Lemma batch_prepared param id pine good vk B reports vss :
  PineParam_wf param -> Pine_new felem_field param id = Ok pine ->
  pine_flps (G1:=G1) (G2:=G2) pine good ->
  pine_circuits (G1:=G1) (G2:=G2) (Pine_flp pine) (Pine_flp_sq_norm_equal pine) ->
  PineType_frac_bits (Pine_flp pine) < 31 -> Forall (sharded_report pine good vk) reports ->
  (B < 2 ^ 53)%Z -> (2 * B < Z.of_N modulus)%Z ->
  Forall2 (fun r v => Forall2 (fixed_point (PineType_frac_bits (Pine_flp pine))) (report_gradient r) v /\
    Forall (fun x => Z.abs x <= B)%Z v) reports vss ->
  exists outs, Forall2 (report_prepared pine vk) reports outs /\
    Forall (of_len (PineType_dimension (Pine_flp pine))) outs.*1 /\
    Forall (of_len (PineType_dimension (Pine_flp pine))) outs.*2 /\
    ((fun o => add_shares o.1 o.2) <$> outs) = map of_Zs vss /\
    Forall (fun v => len v = PineType_dimension (Pine_flp pine)) vss.
Proof.
  intros W Hnew LF HC Hk Hr HB Hm Hv. revert Hr.
  induction Hv as [|r v reports vss [Hf Hb] _ IH]; intros Hr.
  { exists []. by repeat constructor. }
  apply Forall_cons in Hr as [[(pub & shares & Hs) (qr_s & qr & Hq & Gs & Gm)] Hr].
  destruct (honest_run param id pine W Hnew good LF HC vk _ _ _ _ _ _ _ Hs Hq Gs Gm)
    as (o0 & o1 & enc & Hp & Henc & L0 & L1 & Hadd).
  destruct (IH Hr) as (outs & I1 & I2 & I3 & I4 & I5).
  destruct (encoded_fixed_point _ _ _ _ Hk Henc Hf) as [E1 E2].
  { eapply Forall_impl; [exact Hb|]. intros x Hx. simpl in Hx. lia. }
  exists ((o0, o1) :: outs). split_and!.
  - by constructor.
  - by constructor.
  - by constructor.
  - rewrite fmap_cons. cbn [map fst snd]. rewrite I4, <-E1, Hadd. done.
  - by constructor.
Qed.

(** The sums of the output shares, starting from zero. *)
Definition zero_vector (pine : Pine) : list felem := replicate (N.to_nat (PineType_dimension (Pine_flp pine))) f0.

Lemma batch_unsharded param id pine good vk B reports vss :
  PineParam_wf param -> Pine_new felem_field param id = Ok pine ->
  pine_flps (G1:=G1) (G2:=G2) pine good ->
  pine_circuits (G1:=G1) (G2:=G2) (Pine_flp pine) (Pine_flp_sq_norm_equal pine) ->
  PineType_frac_bits (Pine_flp pine) < 31 -> Forall (sharded_report pine good vk) reports ->
  (0 <= B)%Z -> (Z.of_nat (S (length reports)) * B < 2 ^ 53)%Z ->
  (2 * (Z.of_nat (S (length reports)) * B) < Z.of_N modulus)%Z ->
  Forall2 (fun r v => Forall2 (fixed_point (PineType_frac_bits (Pine_flp pine))) (report_gradient r) v /\
    Forall (fun x => Z.abs x <= B)%Z v) reports vss ->
  exists outs ys, Forall2 (report_prepared pine vk) reports outs /\
    Forall (of_len (PineType_dimension (Pine_flp pine))) outs.*1 /\
    Forall (of_len (PineType_dimension (Pine_flp pine))) outs.*2 /\
    unshard pine [fold_left add_shares outs.*1 (zero_vector pine);
                  fold_left add_shares outs.*2 (zero_vector pine)] = Ok ys /\
    Forall2 (fun y v => scaled_is y (PineType_frac_bits (Pine_flp pine)) v) ys
      (sum_vectors (N.to_nat (PineType_dimension (Pine_flp pine))) vss).
Proof.
  intros W Hnew LF HC Hk Hr HB Hb Hm Hv.
  destruct (batch_prepared param id pine good vk B reports vss W Hnew LF HC Hk Hr)
    as (outs & Hp & L0 & L1 & Hsum & Hl); [nia|nia|done|].
  unfold zero_vector. set (d := PineType_dimension (Pine_flp pine)) in *.
  assert (of_len d (replicate (N.to_nat d) f0)) as Hz
    by (unfold of_len, len; rewrite length_replicate; lia).
  destruct (accumulate_all_eq d _ _ Hz L0) as [_ M0]. destruct (accumulate_all_eq d _ _ Hz L1) as [_ M1].
  pose proof (Forall2_length _ _ _ Hv) as Hn.
  assert (Forall (fun v => Forall (fun x => Z.abs x <= B)%Z v) vss) as Hvb.
  { clear -Hv. induction Hv as [|r v reports vss [_ H] _ IH]; by constructor. }
  destruct (fold_of_Z B vss (replicate (N.to_nat d) 0%Z) 0) as (F1 & F2 & F3); [done| | |nia|].
  { apply Forall_replicate. simpl. lia. }
  { apply Forall_forall. intros v Hin. rewrite Forall_forall in Hl, Hvb. rewrite length_replicate.
    split; [pose proof (Hl v Hin); unfold len in *; lia|by apply Hvb]. }
  destruct (decode_all_scaled (PineType_frac_bits (Pine_flp pine)) (sum_vectors (N.to_nat d) vss))
    as (ys & Hys & Hscaled); [lia| |].
  { eapply Forall_impl; [exact F2|]. intros x Hx. cbn beta in Hx. nia. }
  exists outs, ys. split_and!; [done|done|done| |done].
  unfold unshard. rewrite two_to_frac_bits_ok by done. cbn [mbind res_bind].
  rewrite zip_assign_add by (unfold of_len, len in *; lia). rewrite fold_shares, Hsum.
  rewrite add_zeros, <-Hys. f_equal. unfold sum_vectors. by rewrite <-F1, of_Zs_zeros.
Qed.

(** The result of a batch of PINE: for reports of honest Clients whose coordinates, in
    units of [2^-frac_bits], are at most [B] in magnitude, where [B] times the number of
    reports is below [2^53] and below half of the modulus, both Aggregators prepare every
    report and aggregate their output shares, and the Collector gets from the two aggregate
    shares, exactly, the sum of the gradients rounded down to the units. *)
Theorem pine_batch_sum param id pine good vk B reports vss :
  PineParam_wf param -> Pine_new felem_field param id = Ok pine ->
  pine_flps (G1:=G1) (G2:=G2) pine good ->
  pine_circuits (G1:=G1) (G2:=G2) (Pine_flp pine) (Pine_flp_sq_norm_equal pine) ->
  PineType_frac_bits (Pine_flp pine) < 31 -> Forall (sharded_report pine good vk) reports ->
  (0 <= B)%Z -> (Z.of_nat (S (length reports)) * B < 2 ^ 53)%Z ->
  (2 * (Z.of_nat (S (length reports)) * B) < Z.of_N modulus)%Z ->
  Forall2 (fun r v => Forall2 (fixed_point (PineType_frac_bits (Pine_flp pine))) (report_gradient r) v /\
    Forall (fun x => Z.abs x <= B)%Z v) reports vss ->
  exists outs a0 a1 ys, Forall2 (report_prepared pine vk) reports outs /\
    aggregate pine outs.*1 = Ok a0 /\ aggregate pine outs.*2 = Ok a1 /\
    unshard pine [a0; a1] = Ok ys /\
    Forall2 (fun y v => scaled_is y (PineType_frac_bits (Pine_flp pine)) v) ys
      (sum_vectors (N.to_nat (PineType_dimension (Pine_flp pine))) vss).
Proof.
  intros W Hnew LF HC Hk Hr HB Hb Hm Hv.
  destruct (batch_unsharded param id pine good vk B reports vss W Hnew LF HC Hk Hr HB Hb Hm Hv)
    as (outs & ys & Hp & L0 & L1 & Hu & Hs).
  assert (of_len (PineType_dimension (Pine_flp pine)) (zero_vector pine)) as Hz
    by (unfold of_len, len, zero_vector; rewrite length_replicate; lia).
  eexists outs, _, _, ys. split_and!; [done| | |exact Hu|done].
  - exact (proj1 (accumulate_all_eq _ _ _ Hz L0)).
  - exact (proj1 (accumulate_all_eq _ _ _ Hz L1)).
Qed.
End Runs.
