(* ===== verification/Taskprov.v ===== *)
(** * In-band task provisioning

    [src/crates/daphne/src/taskprov.rs] with the base64url helpers of
    [messages/mod.rs], [VdafConfig::uninitialized_verify_key] and
    [get_decoded_verify_key] of [vdaf/mod.rs] and
    [DapTaskConfig::resolve_taskprove_advertisement] of [lib.rs]: from the header of a
    request to a task configuration, and from a task configuration back to the header
    the Leader sends to the Helper.

    HKDF ([ring]), base64 ([base64]) and URL parsing ([url]) are dependencies: the
    classes [Hkdf], [Base64] and [UrlParser] with the laws the code relies on. *)

From Stdlib Require Import Ascii.
From S2P Require Import Prelude Codec Messages TaskprovMessages Errors Config Pine.

(** ** Dependencies *)
Class Hkdf : Type := {
  (** [Salt::new(HKDF_SHA256, salt).extract(secret)] *)
  hkdf_extract : list byte -> list byte -> list byte;
  (** [prk.expand(info, len)] followed by [okm.fill(out)] *)
  hkdf_expand : list byte -> list byte -> N -> option (list byte);
}.

(** RFC 5869: any output of at most 255 blocks can be asked for. *)
Class HkdfLaws (H : Hkdf) : Prop :=
  hkdf_expand_len prk info n :
    n <= 255 * 32 -> exists okm, hkdf_expand prk info n = Some okm /\ len okm = n.

Class Base64 : Type := {
  URL_SAFE_NO_PAD_encode : list byte -> string;
  URL_SAFE_NO_PAD_decode : string -> option (list byte);
}.

Class Base64Laws (B : Base64) : Prop :=
  base64_round_trip bs : URL_SAFE_NO_PAD_decode (URL_SAFE_NO_PAD_encode bs) = Some bs.

(** [Url::parse], with a [Url] held as its serialization. *)
Class UrlParser : Type := url_parse : string -> option Url.

(** The fields PINE is instantiated with. *)
Class PineFields : Type := {
  FieldPrio2 : Field;
  Field64 : Field;
}.

(** ** [str::from_utf8]: well-formed UTF-8, as the Unicode standard tables it *)
Definition is_cont (b : byte) : bool := (0x80 <=? Byte.to_N b) && (Byte.to_N b <=? 0xBF).
Definition byte_in (lo hi : N) (b : byte) : bool :=
  (lo <=? Byte.to_N b) && (Byte.to_N b <=? hi).

Fixpoint utf8_valid (bs : list byte) : bool :=
  match bs with
  | [] => true
  | b0 :: r0 =>
      if Byte.to_N b0 <? 0x80 then utf8_valid r0
      else
        match r0 with
        | [] => false
        | b1 :: r1 =>
            if byte_in 0xC2 0xDF b0 then is_cont b1 && utf8_valid r1
            else
              match r1 with
              | [] => false
              | b2 :: r2 =>
                  if byte_in 0xE0 0xEF b0 then
                    byte_in (if Byte.to_N b0 =? 0xE0 then 0xA0 else 0x80)
                            (if Byte.to_N b0 =? 0xED then 0x9F else 0xBF) b1
                    && is_cont b2 && utf8_valid r2
                  else
                    match r2 with
                    | [] => false
                    | b3 :: r3 =>
                        byte_in 0xF0 0xF4 b0
                        && byte_in (if Byte.to_N b0 =? 0xF0 then 0x90 else 0x80)
                                   (if Byte.to_N b0 =? 0xF4 then 0x8F else 0xBF) b1
                        && is_cont b2 && is_cont b3 && utf8_valid r3
                    end
              end
        end
  end.

Definition from_utf8 (bs : list byte) : option string :=
  if utf8_valid bs then Some (String.string_of_list_byte bs) else None.

Definition quoted (s : string) : string :=
  let q := String (Ascii.ascii_of_N 34) EmptyString in String.append q (String.append s q).

(** ** base64url *)
Section Base64url.
Context `{B64 : Base64}.

Definition encode_base64url (input : list byte) : string := URL_SAFE_NO_PAD_encode input.

Definition decode_base64url (out_len : N) (input : string) : option (list byte) :=
  match URL_SAFE_NO_PAD_decode input with
  | Some vec => if negb (len vec =? out_len) then None else Some vec
  | None => None
  end.

Definition decode_base64url_vec (input : string) : option (list byte) :=
  URL_SAFE_NO_PAD_decode input.
End Base64url.

(** ** Verify keys *)
Definition VdafVerifyKey_len (k : VdafVerifyKey) : N :=
  match k with L16 b | L32 b => len b end.

(** [as_mut()] of a key, filled with bytes of the same length. *)
Definition VdafVerifyKey_fill (k : VdafVerifyKey) (bs : list byte) : VdafVerifyKey :=
  match k with L16 _ => L16 bs | L32 _ => L32 bs end.

Definition uninitialized_verify_key (v : Vdaf.VdafConfig) : VdafVerifyKey :=
  match v with
  | Vdaf.Prio3 (Prio3_SumVecField64MultiproofHmacSha256Aes128 _ _ _ _)
  | Vdaf.Prio2 _ => L32 (replicate 32 Byte.x00)
  | Vdaf.Prio3 _ => L16 (replicate 16 Byte.x00)
  | Vdaf.Pine _ => L32 (replicate 32 Byte.x00)
  end.

(** [<[u8; N]>::try_from(bytes)] *)
Definition array_try_from (n : N) (bytes : list byte) : res CodecError (list byte) :=
  if len bytes =? n then Ok bytes else Err (Other "could not convert slice to array").

Definition get_decoded_verify_key (v : Vdaf.VdafConfig) (bytes : list byte) :
    res CodecError VdafVerifyKey :=
  match v with
  | Vdaf.Prio3 (Prio3_SumVecField64MultiproofHmacSha256Aes128 _ _ _ _)
  | Vdaf.Prio2 _ => b ← array_try_from 32 bytes; Ok (L32 b)
  | Vdaf.Prio3 _ => b ← array_try_from 16 bytes; Ok (L16 b)
  | Vdaf.Pine _ => b ← array_try_from 32 bytes; Ok (L32 b)
  end.

(** SHA-256 of "dap-taskprov" *)
Definition TASKPROV_SALT : list byte := map byte_of_N
  [ 0x28; 0xb9; 0xbb; 0x4f; 0x62; 0x4f; 0x67; 0x9a; 0xc1; 0x98; 0xd9; 0x68; 0xf4; 0xb0; 0x9e; 0xec;
    0x74; 0x01; 0x7a; 0x52; 0xcb; 0x4c; 0xf6; 0x39; 0xfb; 0x83; 0xe0; 0x47; 0x72; 0x3a; 0x0f; 0xfe ].

(** ** Conversions from the advertisement *)
Record OptInParam : Type := MkOptInParam {
  OptInParam_not_before : Time;
  OptInParam_num_agg_span_shards : N;
}.

Record DapTaskConfigNeedsOptIn : Type := MkDapTaskConfigNeedsOptIn {
  NeedsOptIn_version : DapVersion;
  NeedsOptIn_leader_url : Url;
  NeedsOptIn_helper_url : Url;
  NeedsOptIn_time_precision : Duration;
  NeedsOptIn_min_batch_size : N;
  NeedsOptIn_query : DapQueryConfig;
  NeedsOptIn_vdaf : Vdaf.VdafConfig;
  NeedsOptIn_vdaf_verify_key : VdafVerifyKey;
  NeedsOptIn_collector_hpke_config : HpkeConfig;
  NeedsOptIn_method : DapTaskConfigMethod;
  NeedsOptIn_task_expiration : Time;
}.

Definition malformed_task_config (task_id : TaskId) (d : detail) : DapAbort :=
  InvalidTask d task_id.

Definition DapQueryConfig_try_from_taskprov (task_id : TaskId) (var : QueryConfigVar) :
    res DapAbort DapQueryConfig :=
  match var with
  | QueryConfigVar_FixedSize 0 => Ok (QC_FixedSize None)
  | QueryConfigVar_FixedSize max_batch_size => Ok (QC_FixedSize (Some max_batch_size))
  | QueryConfigVar_TimeInterval => Ok QC_TimeInterval
  | QueryConfigVar_NotImplemented typ _ =>
      Err (InvalidTask (Fmt "unimplemented query type ({typ})" [ArgNum typ]) task_id)
  end.

Definition PineParam_opt_out_reason (self : PineParam) (min_proofs : N) : option detail :=
  let MAX_DIM := 300000 in
  let MAX_PROOFS := 8 in
  let MIN_WR_SUCCESSES := 30 in
  let MAX_WR_TESTS := 165 in
  if MAX_DIM <? PineParam_dimension self then
    Some (Fmt "dimension must not exceed {MAX_DIM}" [ArgNum MAX_DIM])
  else if PineParam_num_wr_successes self <? MIN_WR_SUCCESSES then
    Some (Fmt "number of wraparound test successes must be at least {MIN_WR_SUCCESSES}"
      [ArgNum MIN_WR_SUCCESSES])
  else if MAX_WR_TESTS <? PineParam_num_wr_tests self then
    Some (Fmt "number of wraparound tests must not exceed {MAX_WR_TESTS}" [ArgNum MAX_WR_TESTS])
  else if negb ((min_proofs <=? PineParam_num_proofs self)
                && (PineParam_num_proofs self <=? MAX_PROOFS)) then
    Some (Fmt "number of proofs must be in range {min_proofs}..{MAX_PROOFS} inclusive"
      [ArgNum min_proofs; ArgNum MAX_PROOFS])
  else if negb ((1 <=? PineParam_num_proofs_sq_norm_equal self)
                && (PineParam_num_proofs_sq_norm_equal self <=? MAX_PROOFS)) then
    Some (Fmt "number of proofs for the squared norm equality check must be in range 1..{MAX_PROOFS} inclusive"
      [ArgNum MAX_PROOFS])
  else None.

Section Taskprov.
Context `{BP : BuildProfile} `{PC : PrioCodec} `{Dg : Digest} `{HK : Hkdf} `{B64 : Base64}
  `{UP : UrlParser} `{PF : PineFields}.

Definition compute_task_id (serialized : list byte) : TaskId := take 32 (sha256 serialized).

Definition extract_prk_from_verify_key_init (version : DapVersion)
    (verify_key_init : list byte) : list byte :=
  hkdf_extract TASKPROV_SALT verify_key_init.

(** The [unwrap]s panic when HKDF refuses the length. *)
Definition expand_into_taskprov_verify_key {E} (v : Vdaf.VdafConfig) (prk : list byte)
    (task_id : TaskId) : res E VdafVerifyKey :=
  let verify_key := uninitialized_verify_key v in
  okm ← unwrap (hkdf_expand prk task_id (VdafVerifyKey_len verify_key));
  Ok (VdafVerifyKey_fill verify_key okm).

Definition compute_vdaf_verify_key {E} (version : DapVersion) (verify_key_init : list byte)
    (task_id : TaskId) (v : Vdaf.VdafConfig) : res E VdafVerifyKey :=
  expand_into_taskprov_verify_key v
    (extract_prk_from_verify_key_init version verify_key_init) task_id.

Definition pine32_hmac_sha256_aes128 (param : PineParam) : res detail Pine :=
  Pine_new FieldPrio2 param VDAF_TYPE_PINE_FIELD32_HMAC_SHA256_AES128.
Definition pine64_hmac_sha256_aes128 (param : PineParam) : res detail Pine :=
  Pine_new Field64 param VDAF_TYPE_PINE_FIELD64_HMAC_SHA256_AES128.

(** The two PINE arms: [if let Err(e) = .. {} else if let Some(reason) = .. {} else {}]. *)
Definition pine_from_taskprov (task_id : TaskId) (invalid unsupported : string)
    (pine : PineParam -> res detail Pine) (min_proofs : N) (mk : PineParam -> PineConfig)
    (param : PineParam) : res DapAbort Vdaf.VdafConfig :=
  match pine param with
  | Panic => Panic
  | Err e => Err (InvalidTask (Fmt invalid [ArgOpaque]) task_id)
  | Ok _ =>
      match PineParam_opt_out_reason param min_proofs with
      | Some reason => Err (InvalidTask (Fmt unsupported [ArgOpaque]) task_id)
      | None => Ok (Vdaf.Pine (mk param))
      end
  end.

(** A [u32] converts to a 64-bit [usize] without error. *)
Definition VdafConfig_try_from_taskprov (task_id : TaskId) (version : DapVersion)
    (var : VdafTypeVar) : res DapAbort Vdaf.VdafConfig :=
  let PRIO3_MAX_PROOFS := 3 in
  match var with
  | VdafTypeVar_Prio2 dimension => Ok (Vdaf.Prio2 dimension)
  | VdafTypeVar_Prio3SumVecField64MultiproofHmacSha256Aes128
      length bits chunk_length num_proofs =>
      if negb ((1 <=? num_proofs) && (num_proofs <=? PRIO3_MAX_PROOFS)) then
        Err (InvalidTask (Fmt "number of proofs must be in range 1..{PRIO3_MAX_PROOFS} inclusive"
          [ArgNum PRIO3_MAX_PROOFS]) task_id)
      else
        Ok (Vdaf.Prio3 (Prio3_SumVecField64MultiproofHmacSha256Aes128
          bits length chunk_length num_proofs))
  | VdafTypeVar_Pine32HmacSha256Aes128 param =>
      pine_from_taskprov task_id "invalid parameters for Pine32: {e}"
        "unsupported parameters for Pine32: {reason}" pine32_hmac_sha256_aes128 5
        Pine_Field32HmacSha256Aes128 param
  | VdafTypeVar_Pine64HmacSha256Aes128 param =>
      pine_from_taskprov task_id "invalid parameters for Pine64: {e}"
        "unsupported parameters for Pine64: {reason}" pine64_hmac_sha256_aes128 2
        Pine_Field64HmacSha256Aes128 param
  | VdafTypeVar_NotImplemented typ _ =>
      Err (InvalidTask (Fmt "unimplemented VDAF type ({typ})" [ArgNum typ]) task_id)
  end.

Definition url_from_bytes (task_id : TaskId) (url_bytes : list byte) : res DapAbort Url :=
  url_string ← ok_or (from_utf8 url_bytes)
    (malformed_task_config task_id
       (Fmt "Encountered error while parsing URL bytes as string: {e}" [ArgOpaque]));
  ok_or (url_parse url_string)
    (malformed_task_config task_id
       (Fmt "Encountered error while parsing URL string: {e}" [ArgOpaque])).

Definition DapTaskConfigNeedsOptIn_try_from_taskprov (version : DapVersion) (task_id : TaskId)
    (task_config : TaskConfig) (vdaf_verify_key_init : list byte)
    (collector_hpke_config : HpkeConfig) : res DapAbort DapTaskConfigNeedsOptIn :=
  let query_config := TaskConfig_query_config task_config in
  if negb (QueryConfig_max_batch_query_count query_config =? 1) then
    Err (InvalidTask (Fmt "unsupported max batch query count {}"
      [ArgNum (QueryConfig_max_batch_query_count query_config)]) task_id)
  else
    vdaf ← VdafConfig_try_from_taskprov task_id version
             (VdafConfig_var (TaskConfig_vdaf_config task_config));
    vdaf_verify_key ← compute_vdaf_verify_key version vdaf_verify_key_init task_id vdaf;
    leader_url ← url_from_bytes task_id (UrlBytes_bytes (TaskConfig_leader_url task_config));
    helper_url ← url_from_bytes task_id (UrlBytes_bytes (TaskConfig_helper_url task_config));
    query ← DapQueryConfig_try_from_taskprov task_id (QueryConfig_var query_config);
    Ok (MkDapTaskConfigNeedsOptIn version leader_url helper_url
          (QueryConfig_time_precision query_config) (QueryConfig_min_batch_size query_config)
          query vdaf vdaf_verify_key collector_hpke_config
          (Method_Taskprov (Some (TaskConfig_task_info task_config)))
          (TaskConfig_task_expiration task_config)).

Definition into_opted_in (self : DapTaskConfigNeedsOptIn) (param : OptInParam) : DapTaskConfig :=
  {| DapTaskConfig_version := NeedsOptIn_version self;
     DapTaskConfig_leader_url := NeedsOptIn_leader_url self;
     DapTaskConfig_helper_url := NeedsOptIn_helper_url self;
     DapTaskConfig_time_precision := NeedsOptIn_time_precision self;
     DapTaskConfig_min_batch_size := NeedsOptIn_min_batch_size self;
     DapTaskConfig_query := NeedsOptIn_query self;
     DapTaskConfig_vdaf := NeedsOptIn_vdaf self;
     DapTaskConfig_not_before := OptInParam_not_before param;
     DapTaskConfig_not_after := NeedsOptIn_task_expiration self;
     DapTaskConfig_vdaf_verify_key := NeedsOptIn_vdaf_verify_key self;
     DapTaskConfig_collector_hpke_config := NeedsOptIn_collector_hpke_config self;
     DapTaskConfig_method := NeedsOptIn_method self;
     DapTaskConfig_num_agg_span_shards := OptInParam_num_agg_span_shards param |}.

Definition get_taskprov_task_config {S} (req : DapRequest S) (task_id : TaskId) :
    res DapAbort (option TaskConfig) :=
  match DapRequest_taskprov req with
  | None => Ok None
  | Some taskprov_base64url =>
      taskprov_data ← ok_or (decode_base64url_vec taskprov_base64url)
        (BadRequest (Text (String.append "Invalid advertisement in "
           (String.append (quoted "dap-taskprov") " header: base64url parsing failed"))));
      if negb (bool_decide (compute_task_id taskprov_data = task_id)) then
        Err (UnrecognizedTask task_id)
      else
        task_config ←
          map_err (fun e => from_codec_error e task_id)
            (get_decoded (TaskConfig_decode (DapRequest_version req)) taskprov_data);
        Ok (Some task_config)
  end.

Definition resolve_advertised_task_config {S} (req : DapRequest S)
    (verify_key_init : list byte) (collector_hpke_config : HpkeConfig) (task_id : TaskId) :
    res DapAbort (option DapTaskConfigNeedsOptIn) :=
  o ← get_taskprov_task_config req task_id;
  match o with
  | Some task_config_msg =>
      c ← DapTaskConfigNeedsOptIn_try_from_taskprov (DapRequest_version req) task_id
            task_config_msg verify_key_init collector_hpke_config;
      Ok (Some c)
  | None => Ok None
  end.

(** ** Conversions to the advertisement *)

(** [u32::try_from] and [u8::try_from] of a wider integer. *)
Definition narrow (max v : N) (err : detail) : res DapError N :=
  if v <=? max then Ok v else Err (Fatal err).

Definition QueryConfigVar_try_from (q : DapQueryConfig) : res DapError QueryConfigVar :=
  match q with
  | QC_TimeInterval => Ok QueryConfigVar_TimeInterval
  | QC_FixedSize max_batch_size =>
      n ← narrow u32_max (default 0 max_batch_size)
            (Text "task max batch size is too large for taskprov");
      Ok (QueryConfigVar_FixedSize n)
  end.

Definition VdafTypeVar_try_from (v : Vdaf.VdafConfig) : res DapError VdafTypeVar :=
  match v with
  | Vdaf.Prio2 dimension =>
      n ← narrow u32_max dimension (Text "{vdaf_config}: dimension is too large for taskprov");
      Ok (VdafTypeVar_Prio2 n)
  | Vdaf.Prio3 (Prio3_SumVecField64MultiproofHmacSha256Aes128
                  bits length chunk_length num_proofs) =>
      let too_large := Fmt "{vdaf_config}: bits is too large for taskprov" [ArgOpaque] in
      bits ← narrow u8_max bits too_large;
      length ← narrow u32_max length too_large;
      chunk_length ← narrow u32_max chunk_length too_large;
      Ok (VdafTypeVar_Prio3SumVecField64MultiproofHmacSha256Aes128
            length bits chunk_length num_proofs)
  | Vdaf.Prio3 _ =>
      Err (Fatal (Fmt "{vdaf_config} is not currently supported for taskprov" [ArgOpaque]))
  | Vdaf.Pine (Pine_Field32HmacSha256Aes128 param) =>
      Ok (VdafTypeVar_Pine32HmacSha256Aes128 param)
  | Vdaf.Pine (Pine_Field64HmacSha256Aes128 param) =>
      Ok (VdafTypeVar_Pine64HmacSha256Aes128 param)
  end.

Definition TaskConfig_try_from (c : DapTaskConfig) : res DapError TaskConfig :=
  match DapTaskConfig_method c with
  | Method_Taskprov (Some task_info) =>
      min_batch_size ← narrow u32_max (DapTaskConfig_min_batch_size c)
        (Text "task min batch size is too large for taskprov");
      query_var ← QueryConfigVar_try_from (DapTaskConfig_query c);
      vdaf_var ← VdafTypeVar_try_from (DapTaskConfig_vdaf c);
      Ok (MkTaskConfig task_info
            (MkUrlBytes (String.list_byte_of_string (DapTaskConfig_leader_url c)))
            (MkUrlBytes (String.list_byte_of_string (DapTaskConfig_helper_url c)))
            (MkQueryConfig (DapTaskConfig_time_precision c) 1 min_batch_size query_var)
            (DapTaskConfig_not_after c)
            (MkVdafConfig DpConfig_None vdaf_var))
  | _ => Err (Fatal (Text "task was not configured by taskprov"))
  end.

Definition resolve_taskprove_advertisement (c : DapTaskConfig) : res DapError (option string) :=
  match DapTaskConfig_method c with
  | Method_Taskprov info =>
      match info with
      | None => Err (Fatal (Text "not enough information to resolve taskprov advertisement"))
      | Some _ =>
          task_config ← TaskConfig_try_from c;
          encoded_taskprov_config ←
            map_err DapError_encoding
              (get_encoded (TaskConfig_encode (DapTaskConfig_version c)) task_config);
          Ok (Some (encode_base64url encoded_taskprov_config))
      end
  | Method_Unknown => Ok None
  end.
End Taskprov.

(** ** Lemmas *)

(** A URL that parsing leaves as it is. *)
Definition url_normal `{UrlParser} (u : UrlBytes) : Prop :=
  exists s, from_utf8 (UrlBytes_bytes u) = Some s /\ url_parse s = Some s.

Definition with_dp_config (msg : TaskConfig) (dp : DpConfig) : TaskConfig :=
  MkTaskConfig (TaskConfig_task_info msg) (TaskConfig_leader_url msg)
    (TaskConfig_helper_url msg) (TaskConfig_query_config msg) (TaskConfig_task_expiration msg)
    (MkVdafConfig dp (VdafConfig_var (TaskConfig_vdaf_config msg))).

Definition with_time_precision (msg : TaskConfig) (time_precision : Duration) : TaskConfig :=
  let q := TaskConfig_query_config msg in
  MkTaskConfig (TaskConfig_task_info msg) (TaskConfig_leader_url msg)
    (TaskConfig_helper_url msg)
    (MkQueryConfig time_precision (QueryConfig_max_batch_query_count q)
       (QueryConfig_min_batch_size q) (QueryConfig_var q))
    (TaskConfig_task_expiration msg) (TaskConfig_vdaf_config msg).

(** A key of the kind and length the VDAF expects. *)
Definition verify_key_ok (v : Vdaf.VdafConfig) (k : VdafVerifyKey) : Prop :=
  match uninitialized_verify_key v, k with
  | L16 _, L16 b => len b = 16
  | L32 _, L32 b => len b = 32
  | _, _ => False
  end.

Lemma verify_key_ok_decoded v k :
  verify_key_ok v k ->
  get_decoded_verify_key v (match k with L16 b | L32 b => b end) = Ok k.
Proof.
  unfold verify_key_ok, get_decoded_verify_key, array_try_from.
  destruct v as [[]| |], k; simpl; try done; by intros ->.
Qed.

Lemma narrow_fits max v err : v <= max -> narrow max v err = Ok v.
Proof. intros H. unfold narrow. by rewrite (proj2 (N.leb_le _ _) H). Qed.

Lemma from_utf8_bytes bs s : from_utf8 bs = Some s -> String.list_byte_of_string s = bs.
Proof.
  unfold from_utf8. case_match; [|done]. intros [= <-].
  apply String.list_byte_of_string_of_list_byte.
Qed.

Lemma query_config_back task_id var q :
  QueryConfigVar_wf var -> DapQueryConfig_try_from_taskprov task_id var = Ok q ->
  QueryConfigVar_try_from q = Ok var.
Proof.
  destruct var as [|n|]; simpl; [by intros _ [= <-]| |done].
  intros Hn H. destruct n; injection H as <-; [done|].
  unfold QueryConfigVar_try_from. simpl. by rewrite narrow_fits.
Qed.

Section Lemmas.
Context `{BP : BuildProfile} `{PC : PrioCodec} {L : PrioCodecLaws PC} `{Dg : Digest}
  `{HK : Hkdf} {HL : HkdfLaws HK} `{B64 : Base64} {BL : Base64Laws B64}
  `{UP : UrlParser} `{PF : PineFields}.

Lemma vdaf_config_back task_id version var v :
  VdafTypeVar_wf var -> VdafConfig_try_from_taskprov task_id version var = Ok v ->
  VdafTypeVar_try_from v = Ok var.
Proof.
  destruct var as [n|n b c k|param|param|]; simpl; [| | | |done].
  - intros Hn [= <-]. simpl. by rewrite narrow_fits.
  - intros (H1 & H2 & H3 & H4) H. case_match; [done|]. injection H as <-. simpl.
    by rewrite !narrow_fits.
  - intros _ H. unfold pine_from_taskprov in H. repeat (case_match; try done).
    by injection H as <-.
  - intros _ H. unfold pine_from_taskprov in H. repeat (case_match; try done).
    by injection H as <-.
Qed.

Lemma compute_verify_key_ok {E} version init task_id v :
  exists k, compute_vdaf_verify_key (E:=E) version init task_id v = Ok k /\ verify_key_ok v k.
Proof.
  unfold compute_vdaf_verify_key, expand_into_taskprov_verify_key.
  set (prk := extract_prk_from_verify_key_init version init).
  assert (VdafVerifyKey_len (uninitialized_verify_key v) <= 255 * 32) as Hl
    by (destruct v as [[]| |]; vm_compute; done).
  destruct (hkdf_expand_len prk task_id _ Hl) as (okm & -> & Hlen). simpl.
  eexists. split; [done|]. unfold verify_key_ok.
  by destruct v as [[]| |]; simpl in *.
Qed.

Lemma url_normal_bytes task_id u url :
  url_normal u -> url_from_bytes task_id (UrlBytes_bytes u) = Ok url ->
  MkUrlBytes (String.list_byte_of_string url) = u.
Proof.
  intros (s & Hs & Hp). unfold url_from_bytes. rewrite Hs. simpl. rewrite Hp. simpl.
  intros [= <-]. rewrite (from_utf8_bytes _ _ Hs). by destruct u.
Qed.

(** The Leader's view of a task it opted into is the message it opted into. *)
Lemma task_config_back version task_id msg init coll n param :
  TaskConfig_wf version msg ->
  url_normal (TaskConfig_leader_url msg) -> url_normal (TaskConfig_helper_url msg) ->
  DapTaskConfigNeedsOptIn_try_from_taskprov version task_id msg init coll = Ok n ->
  TaskConfig_try_from (into_opted_in n param)
  = Ok (MkTaskConfig (TaskConfig_task_info msg) (TaskConfig_leader_url msg)
          (TaskConfig_helper_url msg) (TaskConfig_query_config msg)
          (TaskConfig_task_expiration msg)
          (MkVdafConfig DpConfig_None (VdafConfig_var (TaskConfig_vdaf_config msg)))).
Proof.
  intros (_ & _ & _ & [(_ & _ & Hmin & Hq) _] & _ & [[_ Hv] _]) Ul Uh H.
  unfold DapTaskConfigNeedsOptIn_try_from_taskprov in H. case_match eqn:Hc; [done|].
  apply negb_false_iff, N.eqb_eq in Hc.
  apply bind_Ok in H as (v & Ev & H). apply bind_Ok in H as (k & Ek & H).
  apply bind_Ok in H as (lu & El & H). apply bind_Ok in H as (hu & Eh & H).
  apply bind_Ok in H as (q & Eq & [= <-]).
  unfold TaskConfig_try_from, into_opted_in. cbn -[String.list_byte_of_string].
  rewrite narrow_fits by done. cbn [mbind res_bind].
  rewrite (query_config_back _ _ _ Hq Eq). cbn [mbind res_bind].
  rewrite (vdaf_config_back _ _ _ _ Hv Ev). cbn [mbind res_bind].
  rewrite (url_normal_bytes _ _ _ Ul El), (url_normal_bytes _ _ _ Uh Eh).
  destruct (TaskConfig_query_config msg). cbn in *. by subst.
Qed.

Lemma get_taskprov_inv {S} (req : DapRequest S) task_id msg :
  get_taskprov_task_config req task_id = Ok (Some msg) ->
  exists header bytes, DapRequest_taskprov req = Some header /\
    decode_base64url_vec header = Some bytes /\ compute_task_id bytes = task_id /\
    get_decoded (TaskConfig_decode (DapRequest_version req)) bytes = Ok msg.
Proof.
  unfold get_taskprov_task_config. intros H.
  destruct (DapRequest_taskprov req) as [header|]; [|done].
  apply bind_Ok in H as (bytes & Hb & H). apply ok_or_Ok in Hb.
  case_bool_decide as Hid; [|done]. simpl in H.
  apply bind_Ok in H as (m & Hm & [= ->]). apply map_err_Ok in Hm.
  by exists header, bytes.
Qed.

Lemma resolve_inv {S} (req : DapRequest S) init coll task_id n :
  resolve_advertised_task_config req init coll task_id = Ok (Some n) ->
  exists msg, get_taskprov_task_config req task_id = Ok (Some msg) /\
    DapTaskConfigNeedsOptIn_try_from_taskprov (DapRequest_version req) task_id msg init coll
    = Ok n.
Proof.
  unfold resolve_advertised_task_config. intros H.
  apply bind_Ok in H as ([msg|] & Hm & H); [|done].
  apply bind_Ok in H as (n' & Hn & [= ->]). by exists msg.
Qed.
End Lemmas.

(** ** Properties *)
Section Properties.
Context `{BP : BuildProfile} `{PC : PrioCodec} {L : PrioCodecLaws PC} `{Dg : Digest}
  `{HK : Hkdf} {HL : HkdfLaws HK} `{B64 : Base64} {BL : Base64Laws B64}
  `{UP : UrlParser} `{PF : PineFields}.

(** C15: a task is provisioned from a request only under the hash of the advertisement
    in its header; the advertisement is the encoding of a task configuration that
    allows one query per batch, and the task has the version of the request, the
    parameters of that configuration, the Leader's and the Helper's URL among them, and
    the verify key derived from the secret and the task ID, which has the length the
    VDAF needs. *)
Theorem advertised_task_sound {S} (req : DapRequest S) init coll task_id n :
  resolve_advertised_task_config req init coll task_id = Ok (Some n) ->
  exists header bytes msg,
    DapRequest_taskprov req = Some header /\ decode_base64url_vec header = Some bytes /\
    task_id = take 32 (sha256 bytes) /\
    get_encoded (TaskConfig_encode (DapRequest_version req)) msg = Ok bytes /\
    QueryConfig_max_batch_query_count (TaskConfig_query_config msg) = 1 /\
    NeedsOptIn_version n = DapRequest_version req /\
    NeedsOptIn_collector_hpke_config n = coll /\
    url_from_bytes task_id (UrlBytes_bytes (TaskConfig_leader_url msg))
    = Ok (NeedsOptIn_leader_url n) /\
    url_from_bytes task_id (UrlBytes_bytes (TaskConfig_helper_url msg))
    = Ok (NeedsOptIn_helper_url n) /\
    NeedsOptIn_time_precision n = QueryConfig_time_precision (TaskConfig_query_config msg) /\
    NeedsOptIn_min_batch_size n = QueryConfig_min_batch_size (TaskConfig_query_config msg) /\
    NeedsOptIn_task_expiration n = TaskConfig_task_expiration msg /\
    NeedsOptIn_method n = Method_Taskprov (Some (TaskConfig_task_info msg)) /\
    QueryConfigVar_try_from (NeedsOptIn_query n)
    = Ok (QueryConfig_var (TaskConfig_query_config msg)) /\
    VdafTypeVar_try_from (NeedsOptIn_vdaf n)
    = Ok (VdafConfig_var (TaskConfig_vdaf_config msg)) /\
    compute_vdaf_verify_key (E:=DapAbort) (DapRequest_version req) init task_id
      (NeedsOptIn_vdaf n) = Ok (NeedsOptIn_vdaf_verify_key n) /\
    verify_key_ok (NeedsOptIn_vdaf n) (NeedsOptIn_vdaf_verify_key n).
Proof.
  intros H. apply resolve_inv in H as (msg & Hm & H).
  apply get_taskprov_inv in Hm as (header & bytes & Hh & Hb & Hid & Hd).
  exists header, bytes, msg.
  destruct (codec_canonical _ _ _ (TaskConfig_codec (DapRequest_version req)) _ _ Hd)
    as [(_ & _ & _ & [(_ & _ & _ & Hq) _] & _ & [[_ Hv] _]) He].
  unfold DapTaskConfigNeedsOptIn_try_from_taskprov in H. case_match eqn:Hc; [done|].
  apply negb_false_iff, N.eqb_eq in Hc.
  apply bind_Ok in H as (v & Ev & H). apply bind_Ok in H as (k & Ek & H).
  apply bind_Ok in H as (lu & Hlu & H). apply bind_Ok in H as (hu & Hhu & H).
  apply bind_Ok in H as (q & Eq & [= <-]). cbn.
  rewrite (query_config_back _ _ _ Hq Eq), (vdaf_config_back _ _ _ _ Hv Ev).
  destruct (compute_verify_key_ok (E:=DapAbort) (DapRequest_version req) init task_id v)
    as (k' & Ek' & Hk). pose proof Ek as Hkey. rewrite Ek' in Ek. injection Ek as <-.
  by split_and!.
Qed.

(** C16: the Leader hands on the task it opted into, where the advertisement has no
    differential-privacy mechanism and its URLs are as parsing leaves them: the header it
    derives from its task configuration carries the advertisement it received, and a Helper with the same
    verify-key secret and Collector configuration that receives it in a request for
    that task provisions the same task, with the same verify key. *)
Theorem advertisement_round_trip {S S'} (req : DapRequest S) (req' : DapRequest S')
    init coll task_id msg n param :
  get_taskprov_task_config req task_id = Ok (Some msg) ->
  resolve_advertised_task_config req init coll task_id = Ok (Some n) ->
  url_normal (TaskConfig_leader_url msg) -> url_normal (TaskConfig_helper_url msg) ->
  VdafConfig_dp_config (TaskConfig_vdaf_config msg) = DpConfig_None ->
  DapRequest_version req' = DapRequest_version req ->
  (exists header, resolve_taskprove_advertisement (into_opted_in n param) = Ok (Some header)) /\
  (resolve_taskprove_advertisement (into_opted_in n param) = Ok (DapRequest_taskprov req') ->
   resolve_advertised_task_config req' init coll task_id = Ok (Some n)).
Proof.
  intros Hget Hres Ul Uh Hdp Hv. pose proof Hres as Hres0.
  apply resolve_inv in Hres as (msg' & Hm & Hn). rewrite Hget in Hm. injection Hm as <-.
  apply get_taskprov_inv in Hget as (header & bytes & Hh & Hb & Hid & Hd).
  destruct (codec_canonical _ _ _ (TaskConfig_codec (DapRequest_version req)) _ _ Hd)
    as [Hwf He].
  assert (resolve_taskprove_advertisement (into_opted_in n param)
          = Ok (Some (encode_base64url bytes))) as Hadv.
  { unfold resolve_taskprove_advertisement.
    rewrite (task_config_back _ _ _ _ _ _ param Hwf Ul Uh Hn).
    rewrite <-Hdp. destruct msg as [i l h q e []]. cbn in *.
    unfold DapTaskConfigNeedsOptIn_try_from_taskprov in Hn. case_match; [done|].
    inv_binds. subst n. cbn in *. by rewrite He. }
  split; [by eexists|]. rewrite Hadv. intros [= Hreq].
  unfold resolve_advertised_task_config, get_taskprov_task_config. rewrite <-Hreq, Hv.
  unfold decode_base64url_vec, encode_base64url. rewrite base64_round_trip. simpl.
  rewrite bool_decide_true by done. simpl. rewrite Hd. simpl. by rewrite Hn.
Qed.

(** The differential-privacy mechanism of an advertisement is not looked at: one
    the program does not implement is accepted wherever no mechanism is, and what the
    Leader advertises to the Helper is then not the message it received. *)
Theorem dp_config_dropped version task_id msg typ dp_param init coll n param :
  TaskConfig_wf version msg ->
  url_normal (TaskConfig_leader_url msg) -> url_normal (TaskConfig_helper_url msg) ->
  DapTaskConfigNeedsOptIn_try_from_taskprov version task_id msg init coll = Ok n ->
  let msg' := with_dp_config msg (DpConfig_NotImplemented typ dp_param) in
  DapTaskConfigNeedsOptIn_try_from_taskprov version task_id msg' init coll = Ok n /\
  exists adv, TaskConfig_try_from (into_opted_in n param) = Ok adv /\ adv <> msg'.
Proof.
  intros Hwf Ul Uh H msg'. split.
  - destruct msg. exact H.
  - rewrite (task_config_back _ _ _ _ _ _ param Hwf Ul Uh H). eexists. split; [done|].
    by destruct msg.
Qed.

(** A time precision of zero is accepted with an advertisement, although every
    quantization of a time of the task then divides by zero. *)
Theorem zero_time_precision_accepted version task_id msg init coll n param time :
  DapTaskConfigNeedsOptIn_try_from_taskprov version task_id msg init coll = Ok n ->
  exists n', DapTaskConfigNeedsOptIn_try_from_taskprov version task_id
      (with_time_precision msg 0) init coll = Ok n' /\
    quantized_time_lower_bound (E:=DapError) (into_opted_in n' param) time = Panic.
Proof.
  destruct msg as [i l h [tp mq mb var] e v]. unfold DapTaskConfigNeedsOptIn_try_from_taskprov.
  cbn. intros H. case_match; [done|]. inv_binds.
  do 5 match goal with E : _ = Ok _ |- _ => rewrite E; clear E; cbn [mbind res_bind] end.
  by eexists.
Qed.
End Properties.
