(* ===== verification/AggShare.v ===== *)
(** * Aggregate shares and aggregate spans

    [DapAggregateShare] and [DapAggregateSpan] of [src/crates/daphne/src/lib.rs].
    The vectors of field elements and their sum are [prio::vdaf::AggregateShare], a
    dependency: they are the class [PrioAgg] with the laws [PrioAggLaws].

    The abstract specification of an aggregate share is the bag of reports it was
    computed from ([represents]): a share holds the number of reports, the least and
    the greatest of their times, the XOR of the digests of their IDs and the sum of
    their output shares.  [merge] implements bag union, so the order and the grouping
    in which reports are aggregated do not matter. *)

From S2P Require Import Prelude Codec Messages TaskprovMessages Errors Config.

(** ** The output shares of [prio] *)
Inductive field_kind : Type := FieldPrio2 | Field64 | Field128.

Class PrioAgg : Type := {
  (** [prio::vdaf::AggregateShare<F>] *)
  prio_agg_share : field_kind -> Type;
  (** [Aggregatable::merge]; an error leaves the share as it was. *)
  prio_merge : forall {f}, prio_agg_share f -> prio_agg_share f -> option (prio_agg_share f);
}.

(** The sum is that of a partial commutative semigroup: it fails when the lengths
    differ, and neither order nor grouping matters. *)
Class PrioAggLaws (P : PrioAgg) : Prop := {
  prio_merge_comm f (a b : prio_agg_share f) : prio_merge a b = prio_merge b a;
  prio_merge_assoc f (a b c : prio_agg_share f) :
    (prio_merge a b ≫= fun ab => prio_merge ab c) = (prio_merge b c ≫= fun bc => prio_merge a bc);
}.

(** ** Data *)
Section Data.
Context `{PA : PrioAgg}.

Inductive VdafAggregateShare : Type :=
| VAS_Field32 (s : prio_agg_share FieldPrio2)
| VAS_Field64 (s : prio_agg_share Field64)
| VAS_Field128 (s : prio_agg_share Field128).

Record DapAggregateShare : Type := MkDapAggregateShare {
  DapAggregateShare_report_count : N;
  DapAggregateShare_min_time : Time;
  DapAggregateShare_max_time : Time;
  DapAggregateShare_checksum : list byte;
  DapAggregateShare_data : option VdafAggregateShare;
}.
End Data.

Definition zero_checksum : list byte := replicate 32 Byte.x00.

(** A set of values related to reports in the same bucket. *)
Abbreviation DapAggregateSpan T :=
  (gmap DapBatchBucket (T * list (ReportId * Time))).

Section AggShare.
Context `{BP : BuildProfile} `{PA : PrioAgg} `{D : Digest}.

(** ** Operations of [DapAggregateShare] *)
Definition DapAggregateShare_default : DapAggregateShare :=
  MkDapAggregateShare 0 0 0 zero_checksum None.

(** The update of [self.data] in [merge]. *)
Definition merge_data (self other : option VdafAggregateShare) :
    res DapError (option VdafAggregateShare) :=
  match self, other with
  | self, None => Ok self
  | None, Some data => Ok (Some data)
  | Some (VAS_Field64 self), Some (VAS_Field64 other) =>
      s ← ok_or (prio_merge self other)
            (fatal_logged "failed to merge 64bit wide vdaf shares");
      Ok (Some (VAS_Field64 s))
  | Some (VAS_Field128 self), Some (VAS_Field128 other) =>
      s ← ok_or (prio_merge self other)
            (fatal_logged "failed to merge 128bit wide vdaf shares");
      Ok (Some (VAS_Field128 s))
  | Some (VAS_Field32 self), Some (VAS_Field32 other) =>
      s ← ok_or (prio_merge self other)
            (fatal_logged "failed to merge prio2 vdaf shares");
      Ok (Some (VAS_Field32 s))
  | _, _ => Err (Fatal (Text "invalid aggregate share merge"))
  end.

Definition DapAggregateShare_merge (self other : DapAggregateShare) :
    res DapError DapAggregateShare :=
  data ← merge_data (DapAggregateShare_data self) (DapAggregateShare_data other);
  let '(min_time, max_time) :=
    if DapAggregateShare_report_count self =? 0 then
      (DapAggregateShare_min_time other, DapAggregateShare_max_time other)
    else if 0 <? DapAggregateShare_report_count other then
      (N.min (DapAggregateShare_min_time self) (DapAggregateShare_min_time other),
       N.max (DapAggregateShare_max_time self) (DapAggregateShare_max_time other))
    else (DapAggregateShare_min_time self, DapAggregateShare_max_time self) in
  report_count ← u64_add (DapAggregateShare_report_count self)
                   (DapAggregateShare_report_count other);
  Ok (MkDapAggregateShare report_count min_time max_time
        (zip_with byte_xor (DapAggregateShare_checksum self) (DapAggregateShare_checksum other))
        data).

Definition DapAggregateShare_empty (self : DapAggregateShare) : bool :=
  DapAggregateShare_report_count self =? 0.

Definition DapAggregateShare_reset (self : DapAggregateShare) : DapAggregateShare :=
  MkDapAggregateShare 0 0 0 zero_checksum None.

Definition DapAggregateShare_add_out_share (self : DapAggregateShare) (report_id : ReportId)
    (time : Time) (data : VdafAggregateShare) : res DapError DapAggregateShare :=
  let checksum := sha256 report_id in
  DapAggregateShare_merge self (MkDapAggregateShare 1 time time checksum (Some data)).

(** ** Operations of [DapAggregateSpan] *)

(** [self.span.entry(bucket).or_default()] *)
Definition span_entry (span : DapAggregateSpan DapAggregateShare) (bucket : DapBatchBucket) :
    DapAggregateShare * list (ReportId * Time) :=
  default (DapAggregateShare_default, []) (span !! bucket).

Definition DapAggregateSpan_add_out_share (span : DapAggregateSpan DapAggregateShare)
    (task_config : DapTaskConfig) (part_batch_sel : PartialBatchSelector)
    (report_id : ReportId) (time : Time) (data : VdafAggregateShare) :
    res DapError (DapAggregateSpan DapAggregateShare) :=
  if negb (is_valid_part_batch_sel (DapTaskConfig_query task_config) part_batch_sel) then
    Err (Fatal (Text "partial batch selector not compatible with task"))
  else
    bucket ← bucket_for task_config part_batch_sel report_id time;
    let '(agg_share, reports) := span_entry span bucket in
    agg_share ← DapAggregateShare_add_out_share agg_share report_id time data;
    Ok (<[bucket := (agg_share, reports ++ [(report_id, time)])]> span).

Definition span_merge_bucket (span : DapAggregateSpan DapAggregateShare)
    (entry : DapBatchBucket * (DapAggregateShare * list (ReportId * Time))) :
    res DapError (DapAggregateSpan DapAggregateShare) :=
  let '(bucket, (other_agg_share, other_reports)) := entry in
  let '(agg_share, reports) := span_entry span bucket in
  agg_share ← DapAggregateShare_merge agg_share other_agg_share;
  Ok (<[bucket := (agg_share, reports ++ other_reports)]> span).

Fixpoint span_merge_entries (span : DapAggregateSpan DapAggregateShare)
    (entries : list (DapBatchBucket * (DapAggregateShare * list (ReportId * Time)))) :
    res DapError (DapAggregateSpan DapAggregateShare) :=
  match entries with
  | [] => Ok span
  | e :: entries => span ← span_merge_bucket span e; span_merge_entries span entries
  end.

(** A [HashMap] is iterated in an order the program does not choose; here it is
    that of [map_to_list]. *)
Definition DapAggregateSpan_merge (span other : DapAggregateSpan DapAggregateShare) :
    res DapError (DapAggregateSpan DapAggregateShare) :=
  span_merge_entries span (map_to_list other).

(** [collapsed]: [reduce] with [merge(..).unwrap()], then [unwrap_or_default]. *)
Fixpoint merge_all (acc : DapAggregateShare) (shares : list DapAggregateShare) :
    res DapError DapAggregateShare :=
  match shares with
  | [] => Ok acc
  | s :: shares => acc ← DapAggregateShare_merge acc s; merge_all acc shares
  end.

Definition DapAggregateSpan_collapsed (span : DapAggregateSpan DapAggregateShare) :
    res DapError DapAggregateShare :=
  match (fun e => e.2.1) <$> map_to_list span with
  | [] => Ok DapAggregateShare_default
  | s :: shares =>
      match merge_all s shares with
      | Ok s => Ok s
      | _ => Panic
      end
  end.
End AggShare.

(** [DapAggregateSpan<()>] collected from pairs, and the number of reports of a span. *)
Definition unit_span_extend (span : DapAggregateSpan unit)
    (items : list (DapBatchBucket * (ReportId * Time))) : DapAggregateSpan unit :=
  foldl (fun span '(k, v) =>
    <[k := (tt, (default (tt, []) (span !! k)).2 ++ [v])]> span) span items.

Definition unit_span_from_iter (items : list (DapBatchBucket * (ReportId * Time))) :
    DapAggregateSpan unit := unit_span_extend ∅ items.

Definition DapAggregateSpan_report_count {T} (span : DapAggregateSpan T) : N :=
  foldr N.add 0 ((fun e => len e.2.2) <$> map_to_list span).

(** ** The abstract specification *)

(** A prepared report: its ID, its time and its output share. *)
Abbreviation out_share := (ReportId * Time * VdafAggregateShare)%type.

Section Spec.
Context `{BP : BuildProfile} `{PA : PrioAgg} `{D : Digest}.

Definition out_id (o : out_share) : ReportId := o.1.1.
Definition out_time (o : out_share) : Time := o.1.2.
Definition out_data (o : out_share) : VdafAggregateShare := o.2.

(** The sum of output shares, which is defined when they are of one kind and length. *)
Fixpoint data_sum (ds : list VdafAggregateShare) : res DapError (option VdafAggregateShare) :=
  match ds with
  | [] => Ok None
  | d :: ds => s ← data_sum ds; merge_data (Some d) s
  end.

(** The XOR of the digests of the report IDs. *)
Definition checksum_of (ids : list ReportId) : list byte :=
  foldr (fun id => zip_with byte_xor (sha256 id)) zero_checksum ids.

(** [lo] and [hi] are the least and the greatest of [ts], or zero. *)
Definition time_range (lo hi : Time) (ts : list Time) : Prop :=
  match ts with
  | [] => lo = 0 /\ hi = 0
  | _ => lo ∈ ts /\ hi ∈ ts /\ Forall (fun t => lo <= t <= hi) ts
  end.

Record represents (s : DapAggregateShare) (l : list out_share) : Prop := {
  rep_count : DapAggregateShare_report_count s = len l;
  rep_times : time_range (DapAggregateShare_min_time s) (DapAggregateShare_max_time s)
                (out_time <$> l);
  rep_checksum : DapAggregateShare_checksum s = checksum_of (out_id <$> l);
  rep_data : data_sum (out_data <$> l) = Ok (DapAggregateShare_data s);
}.

(** The reports of [l] can be summed. *)
Definition summable (l : list out_share) : Prop := exists s, data_sum (out_data <$> l) = Ok s.

(** ** Lemmas *)
Context {PL : PrioAggLaws PA} {DL : DigestLaws D}.

Lemma merge_data_None_l d : merge_data None d = Ok d.
Proof. by destruct d. Qed.

Lemma merge_data_None_r d : merge_data d None = Ok d.
Proof. by destruct d as [[]|]. Qed.

Lemma merge_data_comm a b c : merge_data a b = Ok c -> merge_data b a = Ok c.
Proof.
  destruct a as [[a|a|a]|], b as [[b|b|b]|]; simpl; try done;
    rewrite (prio_merge_comm _ a b); done.
Qed.

Lemma merge_data_assoc a b c d :
  (ab ← merge_data a b; merge_data ab c) = Ok d ->
  (bc ← merge_data b c; merge_data a bc) = Ok d.
Proof.
  destruct a as [a|].
  2:{ rewrite merge_data_None_l. cbn [mbind res_bind]. intros ->. apply merge_data_None_l. }
  destruct c as [c|].
  2:{ rewrite merge_data_None_r. intros H. apply bind_Ok in H as (ab & H & Hd).
      rewrite merge_data_None_r in Hd. by injection Hd as ->. }
  destruct b as [b|].
  2:{ by rewrite merge_data_None_r, merge_data_None_l. }
  destruct a as [a|a|a], b as [b|b|b], c as [c|c|c]; simpl; try done;
    try (destruct (prio_merge a b); done); try (destruct (prio_merge b c); done).
  all: pose proof (prio_merge_assoc _ a b c) as Ha.
  all: destruct (prio_merge a b), (prio_merge b c); simpl in *; try done; rewrite Ha; done.
Qed.

#[local] Arguments merge_data : simpl never.

Lemma merge_data_assoc_rev a b c d :
  (bc ← merge_data b c; merge_data a bc) = Ok d ->
  (ab ← merge_data a b; merge_data ab c) = Ok d.
Proof.
  intros H. apply bind_Ok in H as (bc & H1%merge_data_comm & H2%merge_data_comm).
  assert ((cb ← merge_data c b; merge_data cb a) = Ok d) as H by (by rewrite H1).
  apply merge_data_assoc, bind_Ok in H as (ba & H3%merge_data_comm & H4%merge_data_comm).
  by rewrite H3.
Qed.

Lemma data_sum_app l k d :
  data_sum (l ++ k) = Ok d <-> exists a b, data_sum l = Ok a /\ data_sum k = Ok b /\
    merge_data a b = Ok d.
Proof.
  revert d. induction l as [|x l IH]; intros d; simpl.
  - split.
    + intros H. exists None, d. by rewrite merge_data_None_l.
    + intros (a & b & [= <-] & Hk & Hd). rewrite merge_data_None_l in Hd. congruence.
  - split.
    + intros H. apply bind_Ok in H as (s & (a & b & Ha & Hb & Hs)%IH & Hd).
      assert ((ab ← merge_data (Some x) a; merge_data ab b) = Ok d) as E.
      { apply merge_data_assoc_rev. by rewrite Hs. }
      apply bind_Ok in E as (xa & E1 & E2). exists xa, b. by rewrite Ha.
    + intros (xa & b & H & Hb & Hd). apply bind_Ok in H as (a & Ha & Hx).
      assert ((ab ← merge_data a b; merge_data (Some x) ab) = Ok d) as E.
      { apply merge_data_assoc. by rewrite Hx. }
      apply bind_Ok in E as (ab & E1 & E2).
      assert (data_sum (l ++ k) = Ok ab) as -> by (apply IH; eauto). done.
Qed.

Lemma data_sum_perm l k d : l ≡ₚ k -> data_sum l = Ok d -> data_sum k = Ok d.
Proof.
  intros H. revert d. induction H as [|x l k _ IH|x y l|l m k _ IH1 _ IH2]; intros d.
  - done.
  - simpl. intros H. apply bind_Ok in H as (s & Hs & Hd). by rewrite (IH s Hs).
  - simpl. intros H. apply bind_Ok in H as (s & H & Hd). apply bind_Ok in H as (t & Ht & Hs).
    rewrite Ht. simpl.
    assert ((yx ← merge_data (Some y) (Some x); merge_data yx t) = Ok d) as E.
    { apply merge_data_assoc_rev. by rewrite Hs. }
    apply bind_Ok in E as (yx & E1%merge_data_comm & E2).
    apply merge_data_assoc. by rewrite E1.
  - intros Hd. by apply IH2, IH1.
Qed.

Lemma checksum_len ids : length (checksum_of ids) = 32%nat.
Proof.
  induction ids as [|id ids IH]; [done|]. simpl. rewrite length_zip_with, IH.
  pose proof (sha256_len id) as H. unfold len in H. lia.
Qed.

Lemma zip_xor_assoc (a b c : list byte) :
  zip_with byte_xor a (zip_with byte_xor b c) = zip_with byte_xor (zip_with byte_xor a b) c.
Proof.
  revert b c. induction a as [|x a IH]; intros [|y b] [|z c]; simpl; try done.
  by rewrite byte_xor_assoc, IH.
Qed.

Lemma zip_xor_comm (a b : list byte) : zip_with byte_xor a b = zip_with byte_xor b a.
Proof.
  revert b. induction a as [|x a IH]; intros [|y b]; simpl; try done.
  by rewrite byte_xor_comm, IH.
Qed.

Lemma zip_xor_zero (a : list byte) :
  length a = 32%nat -> zip_with byte_xor zero_checksum a = a.
Proof.
  unfold zero_checksum. intros H. rewrite <-H. clear H. induction a as [|x a IH]; [done|].
  simpl. by rewrite byte_xor_0_l, IH.
Qed.

Lemma checksum_app ids ids' :
  checksum_of (ids ++ ids') = zip_with byte_xor (checksum_of ids) (checksum_of ids').
Proof.
  induction ids as [|id ids IH].
  - symmetry. apply zip_xor_zero, checksum_len.
  - simpl. by rewrite IH, zip_xor_assoc.
Qed.

Lemma checksum_perm ids ids' : ids ≡ₚ ids' -> checksum_of ids = checksum_of ids'.
Proof.
  induction 1 as [|x l k _ IH|x y l|l m k _ IH1 _ IH2]; simpl; [done| | |congruence].
  - by rewrite IH.
  - rewrite !zip_xor_assoc. f_equal. apply zip_xor_comm.
Qed.

Lemma time_range_perm lo hi ts ts' : ts ≡ₚ ts' -> time_range lo hi ts -> time_range lo hi ts'.
Proof.
  intros Hp. destruct ts as [|t ts], ts' as [|t' ts']; simpl.
  - done.
  - by apply Permutation_nil_cons in Hp.
  - symmetry in Hp. by apply Permutation_nil_cons in Hp.
  - by rewrite !Hp.
Qed.

Lemma time_range_unique lo hi lo' hi' ts :
  time_range lo hi ts -> time_range lo' hi' ts -> lo = lo' /\ hi = hi'.
Proof.
  destruct ts as [|t ts]; simpl; [lia|]. rewrite !Forall_forall.
  intros (H1 & H2 & H3) (H1' & H2' & H3').
  pose proof (H3 _ H1'). pose proof (H3 _ H2'). pose proof (H3' _ H1). pose proof (H3' _ H2). lia.
Qed.

Lemma time_range_app lo hi lo' hi' ts ts' :
  ts <> [] -> ts' <> [] -> time_range lo hi ts -> time_range lo' hi' ts' ->
  time_range (N.min lo lo') (N.max hi hi') (ts ++ ts').
Proof.
  intros Hn Hn'. destruct ts as [|t ts]; [done|]. destruct ts' as [|t' ts']; [done|].
  intros (H1 & H2 & H3) (H1' & H2' & H3'). change (time_range ?a ?b ?c) with
    (a ∈ c /\ b ∈ c /\ Forall (fun t => a <= t <= b) c).
  rewrite !elem_of_app, Forall_app. split_and!.
  - destruct (N.min_spec lo lo') as [[_ ->]|[_ ->]]; auto.
  - destruct (N.max_spec hi hi') as [[_ ->]|[_ ->]]; auto.
  - eapply Forall_impl; [exact H3|]. simpl. lia.
  - eapply Forall_impl; [exact H3'|]. simpl. lia.
Qed.

(** *** Refinement: a share is the bag of its reports *)
Lemma represents_perm s l k : l ≡ₚ k -> represents s l -> represents s k.
Proof.
  intros Hp [H1 H2 H3 H4]. split.
  - rewrite H1. unfold len. by rewrite Hp.
  - eapply time_range_perm; [|done]. by rewrite Hp.
  - rewrite H3. apply checksum_perm. by rewrite Hp.
  - eapply data_sum_perm; [|done]. by rewrite Hp.
Qed.

Lemma represents_unique s s' l : represents s l -> represents s' l -> s = s'.
Proof.
  intros [H1 H2 H3 H4] [H1' H2' H3' H4'].
  destruct (time_range_unique _ _ _ _ _ H2 H2') as [Ha Hb].
  destruct s, s'. simpl in *. congruence.
Qed.

Lemma represents_default : represents DapAggregateShare_default [].
Proof. by split. Qed.

Lemma represents_one id time data :
  represents (MkDapAggregateShare 1 time time (sha256 id) (Some data)) [(id, time, data)].
Proof.
  split; [done| | |apply merge_data_None_r].
  - cbn. split_and!; [constructor|constructor|]. rewrite Forall_singleton.
    unfold out_time. simpl. lia.
  - unfold out_id. simpl. rewrite zip_xor_comm, zip_xor_zero; [done|].
    pose proof (sha256_len id) as H. unfold len in H. lia.
Qed.

Lemma merge_represents a b l k :
  represents a l -> represents b k -> len l + len k <= u64_max -> summable (l ++ k) ->
  exists c, DapAggregateShare_merge a b = Ok c /\ represents c (l ++ k).
Proof.
  intros [A1 A2 A3 A4] [B1 B2 B3 B4] Hmax [d Hd]. unfold summable in *.
  rewrite fmap_app in Hd. apply data_sum_app in Hd as (da & db & Ha & Hb & Hd).
  rewrite A4 in Ha. injection Ha as <-. rewrite B4 in Hb. injection Hb as <-.
  unfold DapAggregateShare_merge. rewrite Hd, A1, B1. cbn [mbind res_bind].
  rewrite u64_add_fits by done.
  destruct l as [|o l].
  - simpl in A2. destruct A2 as [A2 A2']. simpl. eexists. split; [done|]. split; simpl.
    + by rewrite len_nil.
    + done.
    + rewrite A3, B3. apply zip_xor_zero, checksum_len.
    + rewrite B4. simpl in A4. injection A4 as A4. rewrite <-A4, merge_data_None_l in Hd. done.
  - rewrite (proj2 (N.eqb_neq (len (o :: l)) 0)) by (rewrite len_cons; lia).
    destruct k as [|o' k].
    + cbn [mbind res_bind]. eexists. split; [done|]. rewrite app_nil_r.
      split; cbn [DapAggregateShare_report_count DapAggregateShare_min_time
        DapAggregateShare_max_time DapAggregateShare_checksum DapAggregateShare_data].
      * rewrite len_nil. lia.
      * done.
      * rewrite A3, B3, zip_xor_comm. apply zip_xor_zero, checksum_len.
      * rewrite A4. simpl in B4. injection B4 as B4.
        rewrite <-B4, merge_data_None_r in Hd. done.
    + rewrite (proj2 (N.ltb_lt 0 _)) by (rewrite len_cons; lia). cbn [mbind res_bind].
      eexists. split; [done|]. split.
      * cbn [DapAggregateShare_report_count]. by rewrite len_app.
      * rewrite fmap_app. by apply time_range_app.
      * cbn [DapAggregateShare_checksum]. by rewrite A3, B3, fmap_app, checksum_app.
      * rewrite fmap_app. apply data_sum_app. eauto 10.
Qed.

(** When the output shares cannot be summed, [merge] returns an error. *)
Lemma merge_data_no_panic a b : merge_data a b <> Panic.
Proof.
  destruct a as [[a|a|a]|], b as [[b|b|b]|]; unfold merge_data; try done;
    destruct (prio_merge a b); done.
Qed.

Lemma merge_not_summable a b l k :
  represents a l -> represents b k -> ~ summable (l ++ k) ->
  exists e, DapAggregateShare_merge a b = Err e.
Proof.
  intros [_ _ _ A4] [_ _ _ B4] Hn. unfold DapAggregateShare_merge.
  destruct (merge_data (DapAggregateShare_data a) (DapAggregateShare_data b)) as [d|e|] eqn:E.
  - destruct Hn. exists d. rewrite fmap_app. apply data_sum_app. eauto.
  - by exists e.
  - by apply merge_data_no_panic in E.
Qed.

Lemma merge_Ok_represents a b l k c :
  represents a l -> represents b k -> len l + len k <= u64_max ->
  DapAggregateShare_merge a b = Ok c -> represents c (l ++ k).
Proof.
  intros Ha Hb Hmax Hc. destruct (merge_represents a b l k) as (c' & Hc' & Hr); try done.
  - unfold DapAggregateShare_merge in Hc. apply bind_Ok in Hc as (d & Hd & _).
    exists d. rewrite fmap_app. apply data_sum_app.
    destruct Ha as [_ _ _ Ha], Hb as [_ _ _ Hb]. eauto.
  - rewrite Hc in Hc'. by injection Hc' as ->.
Qed.

Lemma add_out_share_represents s l id time data :
  represents s l -> len l + 1 <= u64_max -> summable (l ++ [(id, time, data)]) ->
  exists s', DapAggregateShare_add_out_share s id time data = Ok s' /\
    represents s' (l ++ [(id, time, data)]).
Proof. intros Hs Hmax Hsum. apply merge_represents; [done|apply represents_one|done|done]. Qed.

Lemma summable_perm l k : l ≡ₚ k -> summable l -> summable k.
Proof. intros Hp [d Hd]. exists d. eapply data_sum_perm; [|done]. by rewrite Hp. Qed.

Lemma summable_app_l l k : summable (l ++ k) -> summable l.
Proof.
  intros [d Hd]. rewrite fmap_app in Hd. apply data_sum_app in Hd as (a & _ & Ha & _).
  by exists a.
Qed.

Lemma summable_app_r l k : summable (l ++ k) -> summable k.
Proof. intros H. eapply summable_app_l, summable_perm; [|done]. apply Permutation_app_comm. Qed.

Lemma add_out_share_summable s l id time data s' :
  represents s l -> DapAggregateShare_add_out_share s id time data = Ok s' ->
  summable (l ++ [(id, time, data)]).
Proof.
  intros [_ _ _ Hd] H. unfold DapAggregateShare_add_out_share, DapAggregateShare_merge in H.
  apply bind_Ok in H as (d & H & _). exists d. rewrite fmap_app. apply data_sum_app.
  exists (DapAggregateShare_data s), (Some data).
  split_and!; [done|apply merge_data_None_r|done].
Qed.

(** Aggregating a sequence of reports one by one. *)
Fixpoint aggregate (s : DapAggregateShare) (l : list out_share) : res DapError DapAggregateShare :=
  match l with
  | [] => Ok s
  | o :: l =>
      s ← DapAggregateShare_add_out_share s (out_id o) (out_time o) (out_data o);
      aggregate s l
  end.

Lemma aggregate_represents s l0 l :
  represents s l0 -> len (l0 ++ l) <= u64_max -> summable (l0 ++ l) ->
  exists s', aggregate s l = Ok s' /\ represents s' (l0 ++ l).
Proof.
  revert s l0. induction l as [|[[id t] d] l IH]; intros s l0 Hs Hmax Hsum; simpl.
  - exists s. by rewrite app_nil_r.
  - rewrite (cons_middle (id, t, d) l0 l), app_assoc in *.
    destruct (add_out_share_represents s l0 id t d) as (s' & E & Hs'); [done| | |].
    + unfold len in *. rewrite !length_app in Hmax. simpl in Hmax. lia.
    + eapply summable_app_l. exact Hsum.
    + unfold out_id, out_time, out_data. simpl. rewrite E. simpl. by apply IH.
Qed.

Lemma aggregate_Ok_represents s l0 l s' :
  represents s l0 -> len (l0 ++ l) <= u64_max -> aggregate s l = Ok s' ->
  represents s' (l0 ++ l).
Proof.
  revert s l0. induction l as [|[[id t] d] l IH]; intros s l0 Hs Hmax Hagg; simpl in Hagg.
  - injection Hagg as <-. by rewrite app_nil_r.
  - rewrite (cons_middle (id, t, d) l0 l), app_assoc in *.
    apply bind_Ok in Hagg as (s1 & H1 & Hagg). eapply IH; [|done|done].
    unfold out_id, out_time, out_data in H1. simpl in H1.
    pose proof (add_out_share_summable _ _ _ _ _ _ Hs H1) as Hsum.
    destruct (add_out_share_represents s l0 id t d) as (s1' & E & Hs1); [done| |done|congruence].
    unfold len in *. rewrite !length_app in Hmax. simpl in Hmax. lia.
Qed.

(** *** Refinement: a span is a bag of reports per bucket *)
Definition items_of (b : DapBatchBucket) (items : list (DapBatchBucket * out_share)) :
    list out_share := (filter (fun i => i.1 = b) items).*2.

Definition span_represents (span : DapAggregateSpan DapAggregateShare)
    (items : list (DapBatchBucket * out_share)) : Prop :=
  forall b, match span !! b with
            | Some (s, reports) =>
                items_of b items <> [] /\ represents s (items_of b items) /\
                reports = (fun o => (out_id o, out_time o)) <$> items_of b items
            | None => items_of b items = []
            end.

Lemma items_of_app b l k : items_of b (l ++ k) = items_of b l ++ items_of b k.
Proof. unfold items_of. by rewrite filter_app, fmap_app. Qed.

Lemma items_of_one b b' o : items_of b [(b', o)] = if decide (b' = b) then [o] else [].
Proof. unfold items_of. simpl. unfold filter, list_filter. simpl. by case_decide. Qed.

Lemma elem_of_items_of b o items : o ∈ items_of b items <-> (b, o) ∈ items.
Proof.
  unfold items_of. rewrite list_elem_of_fmap. split.
  - intros ([b' o'] & -> & [E H]%list_elem_of_filter). simpl in *. by subst.
  - intros H. exists (b, o). split; [done|]. by apply list_elem_of_filter.
Qed.

Lemma items_of_filter_all b items (P : DapBatchBucket * out_share -> bool) :
  (forall o, (b, o) ∈ items -> P (b, o) = true) ->
  items_of b (filter P items) = items_of b items.
Proof.
  unfold items_of. induction items as [|[b' o] items IH]; intros H; [done|].
  rewrite filter_cons. specialize (IH ltac:(intros o' Ho'; apply H; by right)).
  destruct (P (b', o)) eqn:E.
  - rewrite decide_True by done. rewrite !filter_cons. cbn.
    destruct (decide (b' = b)); cbn; by rewrite IH.
  - rewrite decide_False by (intros []). rewrite filter_cons, IH. cbn.
    destruct (decide (b' = b)) as [->|]; [|done].
    rewrite H in E; [done|]. by left.
Qed.

Lemma items_of_filter_none b items (P : DapBatchBucket * out_share -> bool) :
  (forall o, (b, o) ∈ items -> P (b, o) = false) -> items_of b (filter P items) = [].
Proof.
  intros H. destruct (items_of b (filter P items)) as [|o l] eqn:E; [done|].
  assert (o ∈ items_of b (filter P items)) as Ho by (rewrite E; by left).
  apply elem_of_items_of, list_elem_of_filter in Ho as [HP Ho]. by rewrite H in HP.
Qed.

Lemma items_of_le b items : len (items_of b items) <= len items.
Proof. unfold items_of, len. rewrite length_fmap. pose proof (length_filter (fun i => i.1 = b) items). lia. Qed.

Lemma span_represents_empty : span_represents ∅ [].
Proof. intros b. by rewrite lookup_empty. Qed.

(** What [entry(bucket).or_default()] finds. *)
Lemma span_entry_represents span items b :
  span_represents span items ->
  represents (span_entry span b).1 (items_of b items) /\
  (span_entry span b).2 = (fun o => (out_id o, out_time o)) <$> items_of b items.
Proof.
  intros H. specialize (H b). unfold span_entry.
  destruct (span !! b) as [[s reports]|] eqn:E; simpl; [by destruct H as (_ & ? & ->)|].
  rewrite H. split; [apply represents_default|done].
Qed.

Lemma span_insert_represents span items b s l :
  span_represents span items -> l <> [] -> represents s (items_of b items ++ l) ->
  span_represents
    (<[b := (s, ((fun o => (out_id o, out_time o)) <$> items_of b items) ++
                ((fun o => (out_id o, out_time o)) <$> l))]> span)
    (items ++ ((fun o => (b, o)) <$> l)).
Proof.
  intros H Hl Hs b'. rewrite items_of_app.
  assert (items_of b' ((fun o => (b, o)) <$> l) = if decide (b = b') then l else []) as ->.
  { clear. induction l as [|o l IH]; [by case_decide|].
    change ((fun o => (b, o)) <$> o :: l) with ([(b, o)] ++ ((fun o => (b, o)) <$> l)).
    rewrite items_of_app, IH, items_of_one. by case_decide. }
  case_decide as Hb.
  - subst b'. rewrite lookup_insert_eq. rewrite fmap_app. split_and!; [|done|done].
    by destruct (items_of b items), l.
  - rewrite lookup_insert_ne by done. rewrite app_nil_r. apply H.
Qed.

Lemma span_add_represents c part span items id time data b :
  span_represents span items ->
  is_valid_part_batch_sel (DapTaskConfig_query c) part = true ->
  bucket_for (E:=DapError) c part id time = Ok b ->
  len items + 1 <= u64_max -> summable (items_of b items ++ [(id, time, data)]) ->
  exists span', DapAggregateSpan_add_out_share span c part id time data = Ok span' /\
    span_represents span' (items ++ [(b, (id, time, data))]).
Proof.
  intros Hs Hv Hb Hmax Hsum. unfold DapAggregateSpan_add_out_share. rewrite Hv, Hb.
  cbn [negb mbind res_bind].
  destruct (span_entry_represents span items b Hs) as [Hr Hids].
  destruct (span_entry span b) as [s reports]. simpl in Hr, Hids. subst reports.
  destruct (add_out_share_represents s (items_of b items) id time data) as (s' & -> & Hs').
  - done.
  - pose proof (items_of_le b items). lia.
  - done.
  - simpl. eexists. split; [done|].
    by apply (span_insert_represents span items b s' [(id, time, data)]).
Qed.

(** Whenever [add_out_share] succeeds, it has added the report to its bucket. *)
Lemma span_add_Ok c part span items id time data span' :
  span_represents span items -> len items + 1 <= u64_max ->
  DapAggregateSpan_add_out_share span c part id time data = Ok span' ->
  exists b, is_valid_part_batch_sel (DapTaskConfig_query c) part = true /\
    bucket_for (E:=DapError) c part id time = Ok b /\
    span_represents span' (items ++ [(b, (id, time, data))]).
Proof.
  intros Hs Hmax H. pose proof H as H0. unfold DapAggregateSpan_add_out_share in H.
  destruct (is_valid_part_batch_sel (DapTaskConfig_query c) part) eqn:Hv; [|done].
  cbn [negb] in H. apply bind_Ok in H as (b & Hb & H). exists b. split_and!; [done|done|].
  destruct (span_entry_represents span items b Hs) as [Hr _].
  destruct (span_entry span b) as [s reports]. simpl in Hr.
  apply bind_Ok in H as (s' & Hadd & _).
  pose proof (add_out_share_summable _ _ _ _ _ _ Hr Hadd) as Hsum.
  destruct (span_add_represents c part span items id time data b) as (span'' & E & Hs');
    [done..|]. rewrite H0 in E. by injection E as ->.
Qed.
End Spec.

(** ** Merging spans *)
Section Merge.
Context `{BP : BuildProfile} `{PA : PrioAgg} `{D : Digest}.
Context {PL : PrioAggLaws PA} {DL : DigestLaws D}.

(** The reports of the entries of a span, bucket by bucket. *)
Definition entry_items (items : list (DapBatchBucket * out_share)) (b : DapBatchBucket) :
    list (DapBatchBucket * out_share) := (fun o => (b, o)) <$> items_of b items.

Lemma items_of_entry items b b' :
  items_of b (entry_items items b') = if decide (b' = b) then items_of b items else [].
Proof.
  unfold entry_items. case_decide as Hb.
  - subst b'. induction (items_of b items) as [|o l IH]; [done|].
    change ((fun o => (b, o)) <$> o :: l) with ([(b, o)] ++ ((fun o => (b, o)) <$> l)).
    rewrite items_of_app, IH, items_of_one. by case_decide.
  - induction (items_of b' items) as [|o l IH]; [done|].
    change ((fun o => (b', o)) <$> o :: l) with ([(b', o)] ++ ((fun o => (b', o)) <$> l)).
    rewrite items_of_app, IH, items_of_one. by case_decide.
Qed.

Lemma items_of_entries items b bs :
  NoDup bs ->
  items_of b (bs ≫= entry_items items) = if decide (b ∈ bs) then items_of b items else [].
Proof.
  induction 1 as [|b' bs Hb _ IH]; [done|]. cbn [mbind list_bind].
  rewrite items_of_app, IH, items_of_entry.
  destruct (decide (b' = b)) as [->|].
  - rewrite (decide_False (P:=b ∈ bs)), app_nil_r by done. by rewrite decide_True by left.
  - destruct (decide (b ∈ bs)).
    + by rewrite decide_True by (by right).
    + by rewrite decide_False by (by inversion 1).
Qed.

Lemma span_represents_ext span items items' :
  (forall b, items_of b items = items_of b items') ->
  span_represents span items -> span_represents span items'.
Proof. intros E H b. specialize (H b). by rewrite E in H. Qed.

Lemma span_merge_entries_represents span items other items' es :
  span_represents span items ->
  span_represents other items' ->
  es ⊆ map_to_list other -> NoDup es.*1 ->
  (forall b, b ∈ es.*1 -> len (items_of b items) + len (items_of b items') <= u64_max /\
                           summable (items_of b items ++ items_of b items')) ->
  exists span', span_merge_entries span es = Ok span' /\
    span_represents span' (items ++ (es.*1 ≫= entry_items items')).
Proof.
  intros Hs Ho. revert span items Hs.
  induction es as [|[b [s' reports']] es IH]; intros span items Hs Hsub Hnd Hsum.
  - exists span. simpl. by rewrite app_nil_r.
  - inversion Hnd as [|? ? Hb Hnd']; subst.
    assert (other !! b = Some (s', reports')) as Hlook.
    { apply elem_of_map_to_list, Hsub. left. }
    pose proof (Ho b) as Hob. rewrite Hlook in Hob. destruct Hob as (Hne & Hr' & ->).
    destruct (span_entry_represents span items b Hs) as [Hr Hids].
    destruct (Hsum b ltac:(left)) as [Hle Hsb].
    destruct (merge_represents _ _ _ _ Hr Hr' Hle Hsb) as (s1 & Hm & Hs1).
    cbn [span_merge_entries span_merge_bucket]. unfold span_merge_bucket.
    destruct (span_entry span b) as [s reports]. simpl in Hids, Hm. subst reports.
    rewrite Hm. cbn [mbind res_bind].
    destruct (IH _ (items ++ entry_items items' b)
      (span_insert_represents span items b s1 _ Hs Hne Hs1)) as (span' & Hspan & Hrep).
    + intros e He. apply Hsub. by right.
    + done.
    + intros b' Hb'. rewrite items_of_app, items_of_entry.
      rewrite decide_False by (by intros ->). rewrite app_nil_r. apply Hsum. by right.
    + exists span'. split; [done|]. cbn. by rewrite app_assoc.
Qed.

(** Merging spans is the union of their reports, bucket by bucket. *)
Lemma span_merge_represents span items other items' :
  span_represents span items -> span_represents other items' ->
  len items + len items' <= u64_max ->
  (forall b, summable (items_of b items ++ items_of b items')) ->
  exists span', DapAggregateSpan_merge span other = Ok span' /\
    span_represents span' (items ++ items').
Proof.
  intros Hs Ho Hmax Hsum. unfold DapAggregateSpan_merge.
  destruct (span_merge_entries_represents span items other items' (map_to_list other))
    as (span' & Hm & Hr); [done|done|done|apply NoDup_fst_map_to_list| |].
  - intros b _. split; [|apply Hsum].
    pose proof (items_of_le b items). pose proof (items_of_le b items'). lia.
  - exists span'. split; [done|]. eapply span_represents_ext; [|exact Hr].
    intros b. rewrite !items_of_app, items_of_entries by apply NoDup_fst_map_to_list.
    f_equal. case_decide as Hin; [done|]. pose proof (Ho b) as Hob.
    destruct (other !! b) as [x|] eqn:E; [|done]. destruct Hin.
    apply list_elem_of_fmap. exists (b, x). split; [done|]. by apply elem_of_map_to_list.
Qed.
End Merge.

(** ** Properties *)
Section Properties.
Context `{BP : BuildProfile} `{PA : PrioAgg} `{D : Digest}.
Context {PL : PrioAggLaws PA} {DL : DigestLaws D}.

(** C13: [merge] implements the union of bags of reports. When the share [a] holds the
    reports [l] and the share [b] the reports [k], merging them gives the share of
    the reports of both, and it fails exactly when their output shares cannot be
    summed. *)
Theorem share_merge_refines_union a b l k :
  represents a l -> represents b k -> len l + len k <= u64_max ->
  (summable (l ++ k) ->
     exists c, DapAggregateShare_merge a b = Ok c /\ represents c (l ++ k)) /\
  (~ summable (l ++ k) -> exists e, DapAggregateShare_merge a b = Err e).
Proof.
  intros Ha Hb Hmax. split; intros Hs; [by apply merge_represents|].
  by eapply merge_not_summable.
Qed.

(** The order in which reports are aggregated does not matter: two Aggregators
    that aggregate the same reports in different orders hold the same share, with
    the same checksum, report count and interval. *)
Theorem aggregate_order_irrelevant l k s :
  l ≡ₚ k -> len l <= u64_max ->
  aggregate DapAggregateShare_default l = Ok s ->
  aggregate DapAggregateShare_default k = Ok s.
Proof.
  intros Hp Hmax Hl.
  pose proof (aggregate_Ok_represents _ [] l s represents_default Hmax Hl) as Hs.
  destruct (aggregate_represents _ [] k represents_default) as (s' & Hk & Hs').
  - unfold len in *. simpl. by rewrite <-Hp.
  - eapply summable_perm; [exact Hp|]. exists (DapAggregateShare_data s). apply Hs.
  - rewrite Hk. f_equal. eapply represents_unique; [exact Hs'|]. by eapply represents_perm.
Qed.

(** Adding a report to an aggregate span adds it to the bucket of its time, or of
    its batch, and to no other: from a span that holds the given reports per bucket
    it makes the span that holds them and the new one. *)
Theorem span_add_refines c part span items id time data b :
  span_represents span items ->
  is_valid_part_batch_sel (DapTaskConfig_query c) part = true ->
  bucket_for (E:=DapError) c part id time = Ok b ->
  len items + 1 <= u64_max -> summable (items_of b items ++ [(id, time, data)]) ->
  exists span', DapAggregateSpan_add_out_share span c part id time data = Ok span' /\
    span_represents span' (items ++ [(b, (id, time, data))]).
Proof. apply span_add_represents. Qed.

(** Merging two spans is the union of their reports, bucket by bucket. *)
Theorem span_merge_refines span items other items' :
  span_represents span items -> span_represents other items' ->
  len items + len items' <= u64_max ->
  (forall b, summable (items_of b items ++ items_of b items')) ->
  exists span', DapAggregateSpan_merge span other = Ok span' /\
    span_represents span' (items ++ items').
Proof. apply span_merge_represents. Qed.
End Properties.

(** ** An instance of the sums and digests: vectors of residues, and the identity
    padded to 32 bytes. *)
Module AggReference.
Definition modulus (f : field_kind) : N :=
  match f with
  | FieldPrio2 => 4293918721
  | Field64 => 18446744069414584321
  | Field128 => 340282366920938462946865773367900766209
  end.

#[global] Instance prio_agg_reference : PrioAgg := {
  prio_agg_share := fun _ => list N;
  prio_merge := fun f a b =>
    if (length a =? length b)%nat
    then Some (zip_with (fun x y => (x + y) mod modulus f) a b) else None;
}.

Lemma zip_add_assoc m a b c :
  m <> 0 ->
  zip_with (fun x y => (x + y) mod m) (zip_with (fun x y => (x + y) mod m) a b) c
  = zip_with (fun x y => (x + y) mod m) a (zip_with (fun x y => (x + y) mod m) b c).
Proof.
  intros Hm. revert b c. induction a as [|x a IH]; intros [|y b] [|z c]; simpl; try done.
  rewrite IH. f_equal. rewrite N.Div0.add_mod_idemp_l, N.Div0.add_mod_idemp_r. by rewrite N.add_assoc.
Qed.

Lemma zip_add_comm m a b :
  zip_with (fun x y => (x + y) mod m) a b = zip_with (fun x y => (x + y) mod m) b a.
Proof.
  revert b. induction a as [|x a IH]; intros [|y b]; simpl; try done.
  by rewrite IH, N.add_comm.
Qed.

#[global] Instance prio_agg_reference_laws : PrioAggLaws prio_agg_reference.
Proof.
  split; simpl.
  - intros f a b. rewrite Nat.eqb_sym. case_match; [|done]. by rewrite zip_add_comm.
  - intros f a b c.
    destruct (Nat.eqb_spec (length a) (length b)) as [E1|E1],
      (Nat.eqb_spec (length b) (length c)) as [E2|E2]; simpl;
      rewrite ?length_zip_with.
    + rewrite (proj2 (Nat.eqb_eq _ _)), (proj2 (Nat.eqb_eq _ _)) by lia.
      by rewrite zip_add_assoc by (destruct f; done).
    + by rewrite (proj2 (Nat.eqb_neq _ _)) by lia.
    + by rewrite (proj2 (Nat.eqb_neq _ _)) by lia.
    + done.
Qed.

#[global] Instance digest_reference : Digest :=
  fun bs => take 32 (bs ++ replicate 32 Byte.x00).

#[global] Instance digest_reference_laws : DigestLaws digest_reference.
Proof.
  intros bs. unfold sha256, digest_reference, len. rewrite length_take, length_app, length_replicate.
  lia.
Qed.
End AggReference.
