(* ===== verification/Hpke.v ===== *)
(** * Hybrid public-key encryption

    [src/crates/daphne/src/hpke.rs] and [DapGlobalConfig::gen_hpke_receiver_config_list]
    of [lib.rs].  The cryptography is [hpke_rs], a dependency: the class [HpkeCrypto]
    with the laws [HpkeCryptoLaws] (the code points of RFC 9180, and that the holder
    of the private key opens what was sealed to the public key).  The randomness a
    call draws is an argument of the call. *)

From S2P Require Import Prelude Codec Messages TaskprovMessages Errors Config.

(** The algorithms the program names, and the others [hpke_rs] knows. *)
Inductive KemAlgorithm : Type := DhKemP256 | DhKem25519 | KemOther (x : N).
Inductive KdfAlgorithm : Type := Kdf_HkdfSha256 | KdfOther (x : N).
Inductive AeadAlgorithm : Type := Aead_Aes128Gcm | AeadOther (x : N).

Class HpkeCrypto : Type := {
  kem_try_from : N -> option KemAlgorithm;
  kdf_try_from : N -> option KdfAlgorithm;
  aead_try_from : N -> option AeadAlgorithm;
  (** [Hpke::setup_sender] followed by [seal]: encapsulated key and ciphertext. *)
  hpke_seal : KemAlgorithm -> list byte -> list byte -> list byte -> list byte -> list byte ->
    option (list byte * list byte);
  (** [Hpke::setup_receiver] followed by [open]. *)
  hpke_open : KemAlgorithm -> list byte -> list byte -> list byte -> list byte -> list byte ->
    option (list byte);
  (** [Hpke::generate_key_pair]: private and public key. *)
  generate_key_pair : KemAlgorithm -> list byte -> option (list byte * list byte);
  (** [kem_derive_base]: the public key of a private key. *)
  kem_derive_base : KemAlgorithm -> list byte -> option (list byte);
}.

Class HpkeCryptoLaws (H : HpkeCrypto) : Prop := {
  kem_p256 : kem_try_from KEM_ID_P256_HKDF_SHA256 = Some DhKemP256;
  kem_x25519 : kem_try_from KEM_ID_X25519_HKDF_SHA256 = Some DhKem25519;
  kdf_sha256 : kdf_try_from KDF_ID_HKDF_SHA256 = Some Kdf_HkdfSha256;
  aead_aes128gcm : aead_try_from AEAD_ID_AES128GCM = Some Aead_Aes128Gcm;
  (** A generated key pair belongs together. *)
  generate_derive kem seed sk pk :
    generate_key_pair kem seed = Some (sk, pk) -> kem_derive_base kem sk = Some pk;
  (** What is sealed to a public key is opened with its private key. *)
  open_seal kem sk pk seed info aad pt enc ct :
    kem_derive_base kem sk = Some pk ->
    hpke_seal kem pk seed info aad pt = Some (enc, ct) ->
    hpke_open kem sk enc info aad ct = Some pt;
}.

Record HpkeReceiverConfig : Type := MkHpkeReceiverConfig {
  HpkeReceiverConfig_config : HpkeConfig;
  HpkeReceiverConfig_private_key : list byte;
}.

Section Hpke.
Context `{HC : HpkeCrypto}.

(** [check_suite] returns the ciphersuite, of which only the KEM varies. *)
Definition check_suite (kem_id : HpkeKemId) (kdf_id : HpkeKdfId) (aead_id : HpkeAeadId) :
    res DapError KemAlgorithm :=
  let s := Fmt "HPKE ciphersuite not implemented ({}, {}, {})"
    [ArgNum (u16_from_HpkeKemId kem_id); ArgNum (u16_from_HpkeKdfId kdf_id);
     ArgNum (u16_from_HpkeAeadId aead_id)] in
  kem ← ok_or (kem_try_from (u16_from_HpkeKemId kem_id)) (Fatal s);
  kdf ← ok_or (kdf_try_from (u16_from_HpkeKdfId kdf_id)) (Fatal s);
  aead ← ok_or (aead_try_from (u16_from_HpkeAeadId aead_id)) (Fatal s);
  match kem, kdf, aead with
  | (DhKemP256 | DhKem25519) as kem, Kdf_HkdfSha256, Aead_Aes128Gcm => Ok kem
  | _, _, _ => Err (Fatal s)
  end.

Definition HpkeConfig_encrypt (seed : list byte) (self : HpkeConfig)
    (info aad plaintext : list byte) : res DapError HpkeCiphertext :=
  sender ← check_suite (HpkeConfig_kem_id self) (HpkeConfig_kdf_id self) (HpkeConfig_aead_id self);
  '(enc, ciphertext) ←
     ok_or (hpke_seal sender (HpkeConfig_public_key self) seed info aad plaintext)
       (Transition_ HpkeDecryptError);
  Ok (MkHpkeCiphertext (HpkeConfig_id self) enc ciphertext).

Definition HpkeConfig_decrypt (self : HpkeConfig) (private_key info aad : list byte)
    (ciphertext : HpkeCiphertext) : res DapError (list byte) :=
  if negb (HpkeConfig_id self =? HpkeCiphertext_config_id ciphertext) then
    Err (Transition_ HpkeUnknownConfigId)
  else
    receiver ← check_suite (HpkeConfig_kem_id self) (HpkeConfig_kdf_id self)
                 (HpkeConfig_aead_id self);
    ok_or (hpke_open receiver private_key (HpkeCiphertext_enc ciphertext) info aad
             (HpkeCiphertext_payload ciphertext))
      (Transition_ HpkeDecryptError).

Definition HpkeReceiverConfig_decrypt (self : HpkeReceiverConfig) (info aad : list byte)
    (ciphertext : HpkeCiphertext) : res DapError (list byte) :=
  HpkeConfig_decrypt (HpkeReceiverConfig_config self) (HpkeReceiverConfig_private_key self)
    info aad ciphertext.

Definition HpkeReceiverConfig_gen (seed : list byte) (id : N) (kem_id : HpkeKemId) :
    res DapError HpkeReceiverConfig :=
  kem ← match kem_id with
        | P256HkdfSha256 => Ok DhKemP256
        | X25519HkdfSha256 => Ok DhKem25519
        | KemId_NotImplemented x => Err (Fatal (Text "Unsupported KEM"))
        end;
  '(private_key, public_key) ←
     ok_or (generate_key_pair kem seed) (Fatal (Fmt "{e:?}" [ArgOpaque]));
  Ok (MkHpkeReceiverConfig (MkHpkeConfig id kem_id HkdfSha256 Aes128Gcm public_key) private_key).

(** [TryFrom<(HpkeConfig, HpkePrivateKey)>]; a code point [hpke_rs] does not know
    panics. *)
Definition HpkeReceiverConfig_try_from (config : HpkeConfig) (private_key : list byte) :
    res DapError HpkeReceiverConfig :=
  kem_id ← unwrap (kem_try_from (u16_from_HpkeKemId (HpkeConfig_kem_id config)));
  public_key ← ok_or (kem_derive_base kem_id private_key) (Transition_ HpkeDecryptError);
  if bool_decide (public_key = HpkeConfig_public_key config)
  then Ok (MkHpkeReceiverConfig config private_key)
  else Err (Fatal (Text "public key does not match private key")).

(** The iteration over the supported KEMs: the [i]-th configuration has the ID
    [first_config_id + i] modulo 256. *)
Fixpoint gen_receiver_configs (seeds : N -> list byte) (first_config_id i : N)
    (kems : list HpkeKemId) : res DapError (list HpkeReceiverConfig) :=
  match kems with
  | [] => Ok []
  | kem_id :: kems =>
      c ← HpkeReceiverConfig_gen (seeds i) ((first_config_id + i) mod 256) kem_id;
      cs ← gen_receiver_configs seeds first_config_id (i + 1) kems;
      Ok (c :: cs)
  end.

Definition gen_hpke_receiver_config_list (seeds : N -> list byte) (self : DapGlobalConfig)
    (first_config_id : N) : res DapError (list HpkeReceiverConfig) :=
  if u8_max <? len (DapGlobalConfig_supported_hpke_kems self) then
    Err (Fatal (Fmt "maximum config list length is 256: got {}"
      [ArgNum (len (DapGlobalConfig_supported_hpke_kems self))]))
  else gen_receiver_configs seeds first_config_id 0 (DapGlobalConfig_supported_hpke_kems self).

(** A receiver configuration whose keys belong together. *)
Definition receiver_ok (c : HpkeReceiverConfig) : Prop :=
  exists kem, check_suite (HpkeConfig_kem_id (HpkeReceiverConfig_config c))
                (HpkeConfig_kdf_id (HpkeReceiverConfig_config c))
                (HpkeConfig_aead_id (HpkeReceiverConfig_config c)) = Ok kem /\
    kem_derive_base kem (HpkeReceiverConfig_private_key c)
    = Some (HpkeConfig_public_key (HpkeReceiverConfig_config c)).

Context {HL : HpkeCryptoLaws HC}.

Lemma decrypt_encrypt c seed info aad pt ct :
  receiver_ok c ->
  HpkeConfig_encrypt seed (HpkeReceiverConfig_config c) info aad pt = Ok ct ->
  HpkeReceiverConfig_decrypt c info aad ct = Ok pt.
Proof.
  intros (kem & Hs & Hk) H. unfold HpkeConfig_encrypt in H. rewrite Hs in H.
  cbn [mbind res_bind] in H. apply bind_Ok in H as ([enc payload] & H & [= <-]).
  apply ok_or_Ok in H. unfold HpkeReceiverConfig_decrypt, HpkeConfig_decrypt. simpl.
  rewrite N.eqb_refl. simpl. rewrite Hs. simpl. apply ok_or_Ok. by eapply open_seal.
Qed.

Lemma gen_ok seed id kem_id c :
  HpkeReceiverConfig_gen seed id kem_id = Ok c ->
  receiver_ok c /\ HpkeConfig_id (HpkeReceiverConfig_config c) = id.
Proof.
  intros H. unfold HpkeReceiverConfig_gen in H.
  apply bind_Ok in H as (kem & Hk & H). apply bind_Ok in H as ([sk pk] & H & [= <-]).
  apply ok_or_Ok, generate_derive in H. split; [|done]. exists kem. simpl. split; [|done].
  unfold check_suite. destruct kem_id; [| |done]; injection Hk as <-;
    cbn [u16_from_HpkeKemId u16_from_HpkeKdfId u16_from_HpkeAeadId].
  - by rewrite kem_p256, kdf_sha256, aead_aes128gcm.
  - by rewrite kem_x25519, kdf_sha256, aead_aes128gcm.
Qed.

Lemma gen_receiver_configs_ids seeds first i kems cs :
  gen_receiver_configs seeds first i kems = Ok cs ->
  Forall receiver_ok cs /\
  (fun c => HpkeConfig_id (HpkeReceiverConfig_config c)) <$> cs
  = (fun j => (first + (i + N.of_nat j)) mod 256) <$> seq 0 (length kems).
Proof.
  revert i cs. induction kems as [|kem kems IH]; intros i cs H; simpl in H.
  - by injection H as <-.
  - apply bind_Ok in H as (c & Hc & H). apply bind_Ok in H as (cs' & Hcs & [= <-]).
    apply gen_ok in Hc as [Hok Hid]. apply IH in Hcs as [Hoks Hids].
    split; [by constructor|]. cbn [fmap list_fmap length seq]. f_equal.
    + rewrite Hid. f_equal. lia.
    + change (list_fmap _ _ ?f cs') with (f <$> cs'). rewrite Hids, <-seq_shift.
      rewrite <-list_fmap_compose. apply list_fmap_ext. intros n j _. simpl. f_equal. lia.
Qed.
End Hpke.

(** ** Properties *)
Section Properties.
Context `{HC : HpkeCrypto} {HL : HpkeCryptoLaws HC}.

(** The receiver configurations an Aggregator generates all decrypt what is
    encrypted to them, and have pairwise distinct IDs, counted from the first ID
    modulo 256. *)
Theorem receiver_config_list_spec seeds g first cs :
  first <= u8_max ->
  gen_hpke_receiver_config_list seeds g first = Ok cs ->
  length cs = length (DapGlobalConfig_supported_hpke_kems g) /\
  NoDup ((fun c => HpkeConfig_id (HpkeReceiverConfig_config c)) <$> cs) /\
  forall c seed info aad pt ct, c ∈ cs ->
    HpkeConfig_encrypt seed (HpkeReceiverConfig_config c) info aad pt = Ok ct ->
    HpkeReceiverConfig_decrypt c info aad ct = Ok pt.
Proof.
  intros Hf H. unfold gen_hpke_receiver_config_list in H.
  destruct (N.ltb_spec u8_max (len (DapGlobalConfig_supported_hpke_kems g))) as [|Hle]; [done|].
  apply gen_receiver_configs_ids in H as [Hok Hids]. split_and!.
  - apply (f_equal length) in Hids. by rewrite !length_fmap, length_seq in Hids.
  - rewrite Hids. apply NoDup_fmap_2_strong; [|apply NoDup_seq].
    unfold len, u8_max in *. intros x y Hx%elem_of_seq Hy%elem_of_seq E.
    rewrite !N.add_0_l in E.
    destruct (N.lt_ge_cases (first + N.of_nat x) 256), (N.lt_ge_cases (first + N.of_nat y) 256).
    + rewrite !N.mod_small in E by lia. lia.
    + rewrite (N.mod_small (first + N.of_nat x)) in E by lia.
      rewrite <-(N.mod_unique (first + N.of_nat y) 256 1 (first + N.of_nat y - 256)) in E by lia. lia.
    + rewrite (N.mod_small (first + N.of_nat y)) in E by lia.
      rewrite <-(N.mod_unique (first + N.of_nat x) 256 1 (first + N.of_nat x - 256)) in E by lia. lia.
    + rewrite <-(N.mod_unique (first + N.of_nat x) 256 1 (first + N.of_nat x - 256)) in E by lia.
      rewrite <-(N.mod_unique (first + N.of_nat y) 256 1 (first + N.of_nat y - 256)) in E by lia. lia.
  - intros c seed info aad pt ct Hc He. eapply decrypt_encrypt; [|done].
    by eapply Forall_forall in Hok.
Qed.
End Properties.
