(* ===== verification/Protocol.v ===== *)
(** * The aggregation sub-protocol

    [src/crates/daphne/src/protocol/]: [client.rs] (producing a report),
    [aggregator.rs] (consuming report shares, the aggregation job request and
    response, encrypting aggregate shares) and [collector.rs] (consuming them), with
    the counters of [metrics.rs].

    The VDAFs are behind the interface [VdafOps]: the dispatch functions of
    [vdaf/prio2.rs], [vdaf/prio3.rs] and [vdaf/pine.rs].  Decryption
    ([HpkeDecrypter]) and VDAF initialization of a sequence of reports
    ([DapReportInitializer]) are traits of the program and arguments here. *)

From S2P Require Import Prelude Codec Messages TaskprovMessages Errors Config AggShare Hpke.

(** ** Contexts of HPKE *)
Definition CTX_INPUT_SHARE_DRAFT09 : list byte := String.list_byte_of_string "dap-09 input share".
Definition CTX_AGG_SHARE_DRAFT09 : list byte := String.list_byte_of_string "dap-09 aggregate share".
Definition CTX_ROLE_COLLECTOR : byte := Byte.x00.
Definition CTX_ROLE_CLIENT : byte := Byte.x01.
Definition CTX_ROLE_LEADER : byte := Byte.x02.
Definition CTX_ROLE_HELPER : byte := Byte.x03.

(** ** Metrics: the calls on [DaphneMetrics], in order *)
Inductive ReportStatus : Type :=
| RS_Rejected (f : TransitionFailure)
| RS_Aggregated
| RS_Collected.

Inductive DaphneRequestType : Type := RT_HpkeConfig | RT_Upload | RT_Aggregate | RT_Collect.

Inductive metric_event : Type :=
| inbound_req_inc (request_type : DaphneRequestType)
| report_inc_by (status : ReportStatus) (val : N)
| agg_job_observe_batch_size (val : N)
| agg_job_started_inc
| agg_job_completed_inc
| agg_job_put_span_retry_inc.

Abbreviation metrics := (list metric_event).

Definition ReportStatus_to_string (s : ReportStatus) : string :=
  match s with
  | RS_Aggregated => "aggregated"
  | RS_Collected => "collected"
  | RS_Rejected failure => String.append "rejected_" (TransitionFailure_to_string failure)
  end.

(** A call of a metric. *)
Definition observe {E} (e : metric_event) : stm metrics E unit := modify (fun m => m ++ [e]).

(** ** VDAFs *)
Inductive VdafError : Type :=
| VdafError_Codec (e : CodecError)
| VdafError_Vdaf (d : detail)
| VdafError_Dap (e : DapError).

Definition DapError_from_vdaf (e : VdafError) : DapError :=
  match e with
  | VdafError_Codec _ | VdafError_Vdaf _ => Transition_ VdafPrepError
  | VdafError_Dap e => e
  end.

Class VdafOps `{PrioAgg} : Type := {
  VdafPrepState : Type;
  VdafPrepShare : Type;
  DapMeasurement : Type;
  DapAggregateResult : Type;
  VdafPrepShare_encode : writer VdafPrepShare;
  VdafAggregateShare_encode : writer VdafAggregateShare;
  (** [prio3_shard], [prio2_shard], [pine.shard], with the randomness they draw *)
  vdaf_shard : list byte -> Vdaf.VdafConfig -> DapMeasurement -> list byte ->
    res VdafError (list byte * (list byte * list byte));
  (** [prio3_prep_init], [prio2_prep_init], [pine.prep_init] *)
  vdaf_prep_init : Vdaf.VdafConfig -> VdafVerifyKey -> N -> list byte -> list byte -> list byte ->
    res VdafError (VdafPrepState * VdafPrepShare);
  (** [prio3_prep_finish_from_shares], ... *)
  vdaf_prep_finish_from_shares : Vdaf.VdafConfig -> N -> VdafPrepState -> VdafPrepShare ->
    list byte -> res VdafError (VdafAggregateShare * list byte);
  (** [prio3_prep_finish], ... *)
  vdaf_prep_finish : Vdaf.VdafConfig -> VdafPrepState -> list byte ->
    res VdafError VdafAggregateShare;
  (** [prio3_unshard], ... *)
  vdaf_unshard : Vdaf.VdafConfig -> N -> list (list byte) -> res VdafError DapAggregateResult;
}.

(** Without the experimental feature there is one aggregation parameter, which is
    encoded as the empty string. *)
Inductive DapAggregationParam : Type := AggParam_Empty.

Definition DapAggregationParam_encode : writer DapAggregationParam := fun _ bytes => Ok bytes.
Definition DapAggregationParam_decode (vdaf : Vdaf.VdafConfig) : reader DapAggregationParam :=
  mret AggParam_Empty.

Definition is_valid_agg_param (vdaf : Vdaf.VdafConfig) (agg_param : list byte) : bool :=
  match vdaf with
  | Vdaf.Prio3 _ | Vdaf.Prio2 _ => len agg_param =? 0
  | Vdaf.Pine _ => len agg_param =? 0
  end.

(** ** Report states *)
Inductive PingPongMessageType : Type := PingPong_Initialize | PingPong_Finish.

Definition PingPongMessageType_as_u8 (t : PingPongMessageType) : N :=
  match t with PingPong_Initialize => 0 | PingPong_Finish => 2 end.

Inductive EarlyReportStateConsumed : Type :=
| Consumed_Ready (metadata : ReportMetadata) (public_share input_share : list byte)
    (peer_prep_share : option (list byte))
| Consumed_Rejected (metadata : ReportMetadata) (failure : TransitionFailure).

Definition Consumed_metadata (s : EarlyReportStateConsumed) : ReportMetadata :=
  match s with
  | Consumed_Ready metadata _ _ _ | Consumed_Rejected metadata _ => metadata
  end.

Definition Consumed_is_ready (s : EarlyReportStateConsumed) : bool :=
  match s with Consumed_Ready _ _ _ _ => true | Consumed_Rejected _ _ => false end.

Section States.
Context `{PA : PrioAgg} `{VO : !VdafOps}.

Inductive EarlyReportStateInitialized : Type :=
| Initialized_Ready (metadata : ReportMetadata) (public_share : list byte)
    (peer_prep_share : option (list byte)) (prep_share : VdafPrepShare)
    (prep_state : VdafPrepState)
| Initialized_Rejected (metadata : ReportMetadata) (failure : TransitionFailure).

Definition Initialized_metadata (s : EarlyReportStateInitialized) : ReportMetadata :=
  match s with
  | Initialized_Ready metadata _ _ _ _ | Initialized_Rejected metadata _ => metadata
  end.

Definition Initialized_is_ready (s : EarlyReportStateInitialized) : bool :=
  match s with Initialized_Ready _ _ _ _ _ => true | Initialized_Rejected _ _ => false end.

Record AggregationJobReportState : Type := MkAggregationJobReportState {
  AJRS_prep_state : VdafPrepState;
  AJRS_time : Time;
  AJRS_report_id : ReportId;
}.

Record DapAggregationJobState : Type := MkDapAggregationJobState {
  DapAggregationJobState_seq : list AggregationJobReportState;
  DapAggregationJobState_part_batch_sel : PartialBatchSelector;
}.

Definition DapAggregationJobState_report_count (s : DapAggregationJobState) : N :=
  len (DapAggregationJobState_seq s).
End States.

Inductive ReportProcessedStatus : Type :=
| Processed_Aggregated
| Processed_Rejected (f : TransitionFailure).

Inductive ReplayProtection : Type := ReplayProtection_Enabled | ReplayProtection_InsecureDisabled.

Definition ReplayProtection_enabled (r : ReplayProtection) : bool :=
  match r with ReplayProtection_Enabled => true | _ => false end.

(** ** Traits of the program *)

(** [HpkeDecrypter::hpke_decrypt]: task, info, associated data, ciphertext. *)
Definition HpkeDecrypter : Type :=
  TaskId -> list byte -> list byte -> HpkeCiphertext -> res DapError (list byte).

Section Protocol.
Context `{BP : BuildProfile} `{PC : PrioCodec} `{PA : PrioAgg} `{VO : !VdafOps}
  `{D : Digest} `{HC : HpkeCrypto}.

(** [DapReportInitializer]: the range of report times that are valid, and the VDAF
    initialization of a sequence of reports. *)
Record DapReportInitializer : Type := MkDapReportInitializer {
  valid_report_time_range : Time * Time;
  initialize_reports : bool -> DapTaskConfig -> DapAggregationParam ->
    list EarlyReportStateConsumed -> res DapError (list EarlyReportStateInitialized);
}.

(** ** Framing *)
Definition decode_ping_pong_framed (bytes : list byte) (expected_type : PingPongMessageType) :
    res CodecError (list byte) :=
  '(message_type, r) ← u8_decode (cursor_new bytes);
  if negb (message_type =? PingPongMessageType_as_u8 expected_type) then Err UnexpectedValue
  else
    '(message_len, r) ← u32_decode r;
    let message_start := N.of_nat (position r) in
    left ← u64_sub (len bytes) message_start;
    if left <? message_len then Err (LengthPrefixTooBig message_len)
    else if message_len <? left then Err (BytesLeftOver message_len)
    else slice bytes message_start (len bytes).

(** The info string and the associated data of an input share. *)
Definition input_share_info (receiver : byte) : list byte :=
  CTX_INPUT_SHARE_DRAFT09 ++ [CTX_ROLE_CLIENT; receiver].

Definition input_share_aad (version : DapVersion) (task_id : TaskId)
    (metadata : ReportMetadata) (public_share : list byte) : res DapError (list byte) :=
  aad ← map_err DapError_encoding (id_encode task_id []);
  aad ← map_err DapError_encoding (ReportMetadata_encode version metadata aad);
  map_err DapError_encoding (encode_u32_bytes public_share aad).

(** ** Client *)

(** [produce_report_with_extensions_for_shares]; [seeds] is the randomness of the two
    encryptions. *)
Definition produce_report_with_extensions_for_shares (seeds : list byte * list byte)
    (public_share : list byte) (input_shares : list byte * list byte)
    (hpke_configs : HpkeConfig * HpkeConfig) (time : Time) (task_id : TaskId)
    (report_id : ReportId) (extensions : list Extension) (version : DapVersion) :
    res DapError Report :=
  let metadata := MkReportMetadata report_id time in
  aad ← input_share_aad version task_id metadata public_share;
  encoded ← map_err DapError_encoding
    (get_encoded (PlaintextInputShare_encode version)
       (MkPlaintextInputShare extensions input_shares.1));
  leader ← HpkeConfig_encrypt seeds.1 hpke_configs.1
    (input_share_info CTX_ROLE_LEADER) aad encoded;
  encoded ← map_err DapError_encoding
    (get_encoded (PlaintextInputShare_encode version)
       (MkPlaintextInputShare extensions input_shares.2));
  helper ← HpkeConfig_encrypt seeds.2 hpke_configs.2
    (input_share_info CTX_ROLE_HELPER) aad encoded;
  Ok (MkReport metadata public_share (leader, helper)).

Definition produce_input_shares (seed : list byte) (self : Vdaf.VdafConfig)
    (measurement : DapMeasurement) (nonce : list byte) :
    res VdafError (list byte * (list byte * list byte)) :=
  vdaf_shard seed self measurement nonce.

(** [report_id] is the randomness [rng.gen()]. *)
Definition produce_report_with_extensions (report_id : ReportId) (seed : list byte)
    (seeds : list byte * list byte) (self : Vdaf.VdafConfig)
    (hpke_config_list : HpkeConfig * HpkeConfig) (time : Time) (task_id : TaskId)
    (measurement : DapMeasurement) (extensions : list Extension) (version : DapVersion) :
    res DapError Report :=
  '(public_share, input_shares) ←
     map_err DapError_from_vdaf (produce_input_shares seed self measurement report_id);
  produce_report_with_extensions_for_shares seeds public_share input_shares hpke_config_list
    time task_id report_id extensions version.

Definition produce_report (report_id : ReportId) (seed : list byte)
    (seeds : list byte * list byte) (self : Vdaf.VdafConfig)
    (hpke_config_list : HpkeConfig * HpkeConfig) (time : Time) (task_id : TaskId)
    (measurement : DapMeasurement) (version : DapVersion) : res DapError Report :=
  produce_report_with_extensions report_id seed seeds self hpke_config_list time task_id
    measurement [] version.

(** ** Consuming a report share *)

(** The loop over the extensions: [None] when the report is rejected, else whether
    taskprov was indicated. *)
Fixpoint check_extensions (task_config : DapTaskConfig) (seen : gset N)
    (taskprov_indicated : bool) (extensions : list Extension) : option bool :=
  match extensions with
  | [] => Some taskprov_indicated
  | extension :: extensions =>
      if decide (Extension_type_code extension ∈ seen) then None
      else
        let seen := {[Extension_type_code extension]} ∪ seen in
        match extension with
        | Extension_Taskprov =>
            if method_is_taskprov task_config
            then check_extensions task_config seen true extensions
            else None
        | Extension_NotImplemented _ _ => None
        end
  end.

Definition EarlyReportStateConsumed_consume (decrypter : HpkeDecrypter)
    (initializer : DapReportInitializer) (is_leader : bool) (task_id : TaskId)
    (task_config : DapTaskConfig) (report_share : ReportShare)
    (prep_init_payload : option (list byte)) : res DapError EarlyReportStateConsumed :=
  let metadata := ReportShare_report_metadata report_share in
  let time := ReportMetadata_time metadata in
  let rejected failure := Ok (Consumed_Rejected metadata failure) in
  if DapTaskConfig_not_after task_config <=? time then rejected TaskExpired
  else if time <? (valid_report_time_range initializer).1 then rejected ReportDropped
  else if (valid_report_time_range initializer).2 <? time then rejected ReportTooEarly
  else
    let info := input_share_info (if is_leader then CTX_ROLE_LEADER else CTX_ROLE_HELPER) in
    aad ← input_share_aad (DapTaskConfig_version task_config) task_id metadata
            (ReportShare_public_share report_share);
    match decrypter task_id info aad (ReportShare_encrypted_input_share report_share) with
    | Err (Transition_ failure) => rejected failure
    | Err e => Err e
    | Panic => Panic
    | Ok encoded_input_share =>
        match get_decoded (PlaintextInputShare_decode (DapTaskConfig_version task_config))
                encoded_input_share with
        | Panic => Panic
        | Err _ => rejected InvalidMessage
        | Ok (MkPlaintextInputShare extensions input_share) =>
            match check_extensions task_config ∅ false extensions with
            | None => rejected InvalidMessage
            | Some taskprov_indicated =>
                if method_is_taskprov task_config && negb taskprov_indicated
                then rejected InvalidMessage
                else
                  match prep_init_payload with
                  | None =>
                      Ok (Consumed_Ready metadata (ReportShare_public_share report_share)
                            input_share None)
                  | Some payload =>
                      match decode_ping_pong_framed payload PingPong_Initialize with
                      | Ok bytes =>
                          Ok (Consumed_Ready metadata (ReportShare_public_share report_share)
                                input_share (Some bytes))
                      | Err _ => rejected VdafPrepError
                      | Panic => Panic
                      end
                  end
            end
        end
    end.

Definition EarlyReportStateInitialized_initialize (is_leader : bool)
    (vdaf_verify_key : VdafVerifyKey) (vdaf_config : Vdaf.VdafConfig)
    (agg_param : DapAggregationParam) (consumed : EarlyReportStateConsumed) :
    res DapError EarlyReportStateInitialized :=
  match consumed with
  | Consumed_Rejected metadata failure => Ok (Initialized_Rejected metadata failure)
  | Consumed_Ready metadata public_share input_share peer_prep_share =>
      let agg_id := if is_leader then 0 else 1 in
      match vdaf_prep_init vdaf_config vdaf_verify_key agg_id (ReportMetadata_id metadata)
              public_share input_share with
      | Ok (prep_state, prep_share) =>
          Ok (Initialized_Ready metadata public_share peer_prep_share prep_share prep_state)
      | Err _ => Ok (Initialized_Rejected metadata VdafPrepError)
      | Panic => Panic
      end
  end.

(** ** Leader: the aggregation job request *)

(** The first loop of [produce_agg_job_req_impl]. *)
Fixpoint consume_reports (decrypter : HpkeDecrypter) (initializer : DapReportInitializer)
    (task_id : TaskId) (self : DapTaskConfig) (replay_protection : ReplayProtection)
    (processed : gset ReportId) (reports : list Report) :
    res DapError (list (EarlyReportStateConsumed * HpkeCiphertext)) :=
  match reports with
  | [] => Ok []
  | report :: reports =>
      let id := ReportMetadata_id (Report_report_metadata report) in
      if ReplayProtection_enabled replay_protection && bool_decide (id ∈ processed) then
        Err (Fatal (Text "tried to process report sequence with non-unique report IDs"))
      else
        let processed := {[id]} ∪ processed in
        let '(leader_share, helper_share) := Report_encrypted_input_shares report in
        consumed ← EarlyReportStateConsumed_consume decrypter initializer true task_id self
          (MkReportShare (Report_report_metadata report) (Report_public_share report) leader_share)
          None;
        rest ← consume_reports decrypter initializer task_id self replay_protection processed
                 reports;
        Ok ((consumed, helper_share) :: rest)
  end.

(** The ping-pong "initialize" message around the Leader's prep share. *)
Definition initialize_payload (prep_share : VdafPrepShare) : res DapError (list byte) :=
  map_err DapError_encoding
    (encode_items W32 VdafPrepShare_encode [prep_share]
       [byte_of_N (PingPongMessageType_as_u8 PingPong_Initialize)]).

(** The second loop of [produce_agg_job_req_impl]: the state kept and the message sent
    for every report that is ready. *)
Fixpoint prepare_reports
    (initialized : list (EarlyReportStateInitialized * HpkeCiphertext)) :
    stm metrics DapError (list (AggregationJobReportState * PrepareInit)) :=
  match initialized with
  | [] => mret []
  | (Initialized_Ready metadata public_share _ prep_share prep_state, helper_share) :: rest =>
      payload ← lift (initialize_payload prep_share);
      out ← prepare_reports rest;
      mret ((MkAggregationJobReportState prep_state (ReportMetadata_time metadata)
               (ReportMetadata_id metadata),
             MkPrepareInit (MkReportShare metadata public_share helper_share) payload) :: out)
  | (Initialized_Rejected _ failure, _) :: rest =>
      _ ← observe (report_inc_by (RS_Rejected failure) 1);
      prepare_reports rest
  end.

Definition produce_agg_job_req_impl (self : DapTaskConfig) (decrypter : HpkeDecrypter)
    (initializer : DapReportInitializer) (task_id : TaskId)
    (part_batch_sel : PartialBatchSelector) (agg_param : DapAggregationParam)
    (reports : list Report) (replay_protection : ReplayProtection) :
    stm metrics DapError (DapAggregationJobState * AggregationJobInitReq) :=
  consumed ← lift (consume_reports decrypter initializer task_id self replay_protection ∅ reports);
  initialized_reports ← lift (initialize_reports initializer true self agg_param consumed.*1);
  let helper_shares := consumed.*2 in
  _ ← lift (if len initialized_reports =? len helper_shares then Ok tt else Panic);
  prepared ← prepare_reports (zip initialized_reports helper_shares);
  agg_param ← lift (map_err DapError_encoding (get_encoded DapAggregationParam_encode agg_param));
  mret (MkDapAggregationJobState prepared.*1 part_batch_sel,
        MkAggregationJobInitReq agg_param part_batch_sel prepared.*2).

Definition produce_agg_job_req (self : DapTaskConfig) (decrypter : HpkeDecrypter)
    (initializer : DapReportInitializer) (task_id : TaskId)
    (part_batch_sel : PartialBatchSelector) (agg_param : DapAggregationParam)
    (reports : list Report) :
    stm metrics DapError (DapAggregationJobState * AggregationJobInitReq) :=
  produce_agg_job_req_impl self decrypter initializer task_id part_batch_sel agg_param reports
    ReplayProtection_Enabled.

(** ** Helper: the aggregation job request *)
Fixpoint consume_prep_inits (decrypter : HpkeDecrypter) (initializer : DapReportInitializer)
    (task_id : TaskId) (self : DapTaskConfig) (replay_protection : ReplayProtection)
    (processed : gset ReportId) (prep_inits : list PrepareInit) :
    res DapError (list EarlyReportStateConsumed) :=
  match prep_inits with
  | [] => Ok []
  | prep_init :: prep_inits =>
      let id := ReportMetadata_id (ReportShare_report_metadata (PrepareInit_report_share prep_init)) in
      if ReplayProtection_enabled replay_protection && bool_decide (id ∈ processed) then
        Err (Abort_ (Abort_InvalidMessage
          (Fmt "report ID {} appears twice in the same aggregation job" [ArgBytes id]) task_id))
      else
        let processed := {[id]} ∪ processed in
        consumed ← EarlyReportStateConsumed_consume decrypter initializer false task_id self
          (PrepareInit_report_share prep_init) (Some (PrepareInit_payload prep_init));
        rest ← consume_prep_inits decrypter initializer task_id self replay_protection processed
                 prep_inits;
        Ok (consumed :: rest)
  end.

Definition consume_agg_job_req (self : DapTaskConfig) (decrypter : HpkeDecrypter)
    (initializer : DapReportInitializer) (task_id : TaskId) (req : AggregationJobInitReq)
    (replay_protection : ReplayProtection) : res DapError (list EarlyReportStateInitialized) :=
  consumed_reports ← consume_prep_inits decrypter initializer task_id self replay_protection ∅
    (AggregationJobInitReq_prep_inits req);
  agg_param ← map_err (fun e => Abort_ (from_codec_error e task_id))
    (get_decoded (DapAggregationParam_decode (DapTaskConfig_vdaf self))
       (AggregationJobInitReq_agg_param req));
  initialize_reports initializer false self agg_param consumed_reports.

(** ** Helper: the aggregation job response *)

(** The ping-pong "finish" message around the prep message. *)
Definition finish_payload (prep_msg : list byte) : res DapError (list byte) :=
  map_err DapError_encoding
    (encode_u32_bytes prep_msg [byte_of_N (PingPongMessageType_as_u8 PingPong_Finish)]).

(** One iteration of the loop of [produce_agg_job_resp]: the variant of the report's
    transition, and the span with the report's output share. *)
Definition finish_report (self : DapTaskConfig)
    (report_status : gmap ReportId ReportProcessedStatus) (part_batch_sel : PartialBatchSelector)
    (agg_span : DapAggregateSpan DapAggregateShare) (report : EarlyReportStateInitialized) :
    res DapError (DapAggregateSpan DapAggregateShare * TransitionVar) :=
  let status := report_status !! ReportMetadata_id (Initialized_metadata report) in
  match status with
  | Some (Processed_Rejected failure) => Ok (agg_span, Failed failure)
  | Some Processed_Aggregated | None =>
      match report with
      | Initialized_Ready metadata _ (Some leader_prep_share) helper_prep_share helper_prep_state =>
          match vdaf_prep_finish_from_shares (DapTaskConfig_vdaf self) 1 helper_prep_state
                  helper_prep_share leader_prep_share with
          | Ok (data, prep_msg) =>
              agg_span ←
                match status with
                | None =>
                    DapAggregateSpan_add_out_share agg_span self part_batch_sel
                      (ReportMetadata_id metadata) (ReportMetadata_time metadata) data
                | Some _ => Ok agg_span
                end;
              outbound ← finish_payload prep_msg;
              Ok (agg_span, Continued outbound)
          | Err (VdafError_Codec _ | VdafError_Vdaf _) => Ok (agg_span, Failed VdafPrepError)
          | Err (VdafError_Dap e) => Err e
          | Panic => Panic
          end
      | Initialized_Ready _ _ None _ _ =>
          Err (Fatal (Text "expected leader prep share, got none"))
      | Initialized_Rejected _ failure => Ok (agg_span, Failed failure)
      end
  end.

Fixpoint finish_reports (self : DapTaskConfig)
    (report_status : gmap ReportId ReportProcessedStatus) (part_batch_sel : PartialBatchSelector)
    (agg_span : DapAggregateSpan DapAggregateShare)
    (initialized_reports : list EarlyReportStateInitialized) :
    res DapError (DapAggregateSpan DapAggregateShare * list Transition) :=
  match initialized_reports with
  | [] => Ok (agg_span, [])
  | report :: reports =>
      '(agg_span, var) ← finish_report self report_status part_batch_sel agg_span report;
      '(agg_span, transitions) ← finish_reports self report_status part_batch_sel agg_span reports;
      Ok (agg_span,
          MkTransition (ReportMetadata_id (Initialized_metadata report)) var :: transitions)
  end.

Definition produce_agg_job_resp (self : DapTaskConfig)
    (report_status : gmap ReportId ReportProcessedStatus) (part_batch_sel : PartialBatchSelector)
    (initialized_reports : list EarlyReportStateInitialized) :
    res DapError (DapAggregateSpan DapAggregateShare * AggregationJobResp) :=
  '(agg_span, transitions) ← finish_reports self report_status part_batch_sel ∅ initialized_reports;
  Ok (agg_span, MkAggregationJobResp transitions).

(** ** Leader: the aggregation job response *)
Fixpoint consume_transitions (self : DapTaskConfig) (task_id : TaskId)
    (part_batch_sel : PartialBatchSelector) (agg_span : DapAggregateSpan DapAggregateShare)
    (pairs : list (Transition * AggregationJobReportState)) :
    stm metrics DapError (DapAggregateSpan DapAggregateShare) :=
  match pairs with
  | [] => mret agg_span
  | (helper, leader) :: pairs =>
      if negb (bool_decide (Transition_report_id helper = AJRS_report_id leader)) then
        throw (Abort_ (Abort_InvalidMessage
          (Fmt "report ID {} appears out of order in aggregation job response"
             [ArgBytes (Transition_report_id helper)]) task_id))
      else
        match Transition_var helper with
        | Continued inbound =>
            match decode_ping_pong_framed inbound PingPong_Finish with
            | Ok prep_msg =>
                match vdaf_prep_finish (DapTaskConfig_vdaf self) (AJRS_prep_state leader) prep_msg with
                | Ok data =>
                    agg_span ← lift (DapAggregateSpan_add_out_share agg_span self part_batch_sel
                                       (AJRS_report_id leader) (AJRS_time leader) data);
                    consume_transitions self task_id part_batch_sel agg_span pairs
                | Err (VdafError_Codec _ | VdafError_Vdaf _) =>
                    _ ← observe (report_inc_by (RS_Rejected VdafPrepError) 1);
                    consume_transitions self task_id part_batch_sel agg_span pairs
                | Err (VdafError_Dap e) => throw e
                | Panic => lift Panic
                end
            | Err _ =>
                throw (Abort_ (Abort_InvalidMessage (Text
                  "The Helper's AggregationJobResp is invalid, but it may have already committed its state change. A batch mismatch is inevitable.")
                  task_id))
            | Panic => lift Panic
            end
        | Failed failure =>
            _ ← observe (report_inc_by (RS_Rejected failure) 1);
            consume_transitions self task_id part_batch_sel agg_span pairs
        end
  end.

Definition consume_agg_job_resp (self : DapTaskConfig) (task_id : TaskId)
    (state : DapAggregationJobState) (agg_job_resp : AggregationJobResp) :
    stm metrics DapError (DapAggregateSpan DapAggregateShare) :=
  let transitions := AggregationJobResp_transitions agg_job_resp in
  let seq := DapAggregationJobState_seq state in
  if negb (len transitions =? len seq) then
    throw (Abort_ (Abort_InvalidMessage
      (Fmt "aggregation job response has {} reports; expected {}"
         [ArgNum (len transitions); ArgNum (len seq)]) task_id))
  else
    consume_transitions self task_id (DapAggregationJobState_part_batch_sel state) ∅
      (zip transitions seq).

(** ** Aggregate shares *)
Definition agg_share_info (sender : byte) : list byte :=
  CTX_AGG_SHARE_DRAFT09 ++ [sender; CTX_ROLE_COLLECTOR].

Definition agg_share_aad (version : DapVersion) (task_id : TaskId)
    (agg_param : DapAggregationParam) (batch_sel : BatchSelector) : res DapError (list byte) :=
  aad ← map_err DapError_encoding (id_encode task_id []);
  aad ← map_err DapError_encoding
    (encode_u32_prefixed version (fun _ bytes => DapAggregationParam_encode agg_param bytes) aad);
  map_err DapError_encoding (BatchSelector_encode batch_sel aad).

Definition produce_encrypted_agg_share (seed : list byte) (is_leader : bool)
    (hpke_config : HpkeConfig) (task_id : TaskId) (batch_sel : BatchSelector)
    (agg_param : DapAggregationParam) (agg_share : DapAggregateShare) (version : DapVersion) :
    res DapError HpkeCiphertext :=
  data ← ok_or (DapAggregateShare_data agg_share) (Fatal (Text "empty aggregate share"));
  agg_share_data ← map_err DapError_encoding (get_encoded VdafAggregateShare_encode data);
  let info := agg_share_info (if is_leader then CTX_ROLE_LEADER else CTX_ROLE_HELPER) in
  aad ← agg_share_aad version task_id agg_param batch_sel;
  HpkeConfig_encrypt seed hpke_config info aad agg_share_data.

Definition produce_leader_encrypted_agg_share (seed : list byte) (self : DapTaskConfig) :=
  produce_encrypted_agg_share seed true.
Definition produce_helper_encrypted_agg_share (seed : list byte) (self : DapTaskConfig) :=
  produce_encrypted_agg_share seed false.

(** ** Collector *)
Fixpoint decrypt_agg_shares (decrypter : HpkeDecrypter) (task_id : TaskId) (aad : list byte)
    (i : N) (shares : list HpkeCiphertext) : res DapError (list (list byte)) :=
  match shares with
  | [] => Ok []
  | share :: shares =>
      let info := agg_share_info (if i =? 0 then CTX_ROLE_LEADER else CTX_ROLE_HELPER) in
      data ← decrypter task_id info aad share;
      rest ← decrypt_agg_shares decrypter task_id aad (i + 1) shares;
      Ok (data :: rest)
  end.

Definition consume_encrypted_agg_shares (self : Vdaf.VdafConfig) (decrypter : HpkeDecrypter)
    (task_id : TaskId) (batch_sel : BatchSelector) (report_count : N)
    (agg_param : DapAggregationParam) (encrypted_agg_shares : list HpkeCiphertext)
    (version : DapVersion) : res DapError DapAggregateResult :=
  if negb (len encrypted_agg_shares =? 2) then
    Err (Fatal (Text "unexpected number of encrypted aggregate shares"))
  else
    aad ← agg_share_aad version task_id agg_param batch_sel;
    agg_shares ← decrypt_agg_shares decrypter task_id aad 0 encrypted_agg_shares;
    if negb (len agg_shares =? len encrypted_agg_shares) then
      Err (Fatal (Text "one or more HPKE ciphertexts with unrecognized config ID"))
    else
      map_err (fun _ => fatal_logged "failed to unshard agg_shares")
        (vdaf_unshard self report_count agg_shares).
End Protocol.
