(* ===== verification/ProtocolCorrect.v ===== *)
(** * Correctness of the aggregation sub-protocol

    Theorems about the definitions of [Protocol]: the framing of VDAF messages, what
    happens to a report between the client that produces it and the Aggregator that
    consumes it, and that Leader and Helper end an aggregation job with spans over
    the same reports. *)

From S2P Require Import Prelude Codec Messages TaskprovMessages Errors Config AggShare Hpke Protocol.

(** ** Framing *)
Section Framing.
Context `{BP : BuildProfile} `{PC : PrioCodec} {L : PrioCodecLaws PC}.

Definition frame (t : PingPongMessageType) (message : list byte) : list byte :=
  byte_of_N (PingPongMessageType_as_u8 t) :: be_bytes 4 (len message) ++ message.

Lemma frame_app t message :
  frame t message = be_bytes 1 (PingPongMessageType_as_u8 t) ++ be_bytes 4 (len message) ++ message.
Proof. by destruct t. Qed.

Lemma decode_frame t message :
  len message <= u32_max ->
  decode_ping_pong_framed (frame t message) t = Ok message.
Proof.
  intros Hle. unfold decode_ping_pong_framed. rewrite frame_app.
  set (t8 := PingPongMessageType_as_u8 t).
  assert (t8 <= u8_max) as Ht by (unfold t8; by destruct t).
  assert (len (be_bytes 1 t8) = 1) as Hl1 by (unfold len; by rewrite length_be_bytes).
  assert (len (be_bytes 4 (len message)) = 4) as Hl4 by (unfold len; by rewrite length_be_bytes).
  assert (len (be_bytes 1 t8 ++ be_bytes 4 (len message) ++ message) <= slice_max) as Hmax.
  { rewrite !len_app, Hl1, Hl4. unfold u32_max, slice_max in *. lia. }
  assert (u8_decode (cursor_new (be_bytes 1 t8 ++ be_bytes 4 (len message) ++ message))
    = Ok (t8, Cursor (be_bytes 1 t8 ++ be_bytes 4 (len message) ++ message) 1)) as ->
    by exact (int_decodes W8 t8 Ht [] _ Hmax).
  cbn [mbind res_bind]. rewrite N.eqb_refl. cbn [negb].
  assert (u32_decode (Cursor (be_bytes 1 t8 ++ be_bytes 4 (len message) ++ message) 1)
    = Ok (len message, Cursor (be_bytes 1 t8 ++ be_bytes 4 (len message) ++ message) 5)) as ->
    by exact (int_decodes W32 (len message) Hle (be_bytes 1 t8) message Hmax).
  cbn [mbind res_bind position].
  rewrite u64_sub_fits by (rewrite !len_app, Hl1, Hl4; lia). cbn [mbind res_bind].
  rewrite !len_app, Hl1, Hl4.
  rewrite (proj2 (N.ltb_ge _ _)), (proj2 (N.ltb_ge _ _)) by lia.
  unfold slice. rewrite !len_app, Hl1, Hl4.
  rewrite (proj2 (N.leb_le _ _)), (proj2 (N.leb_le _ _)) by lia. cbn [andb]. f_equal.
  rewrite app_assoc, drop_app_length' by (rewrite length_app, !length_be_bytes; lia).
  apply take_ge. unfold len. lia.
Qed.

Lemma decode_ping_pong_Ok bytes t message :
  decode_ping_pong_framed bytes t = Ok message ->
  bytes = frame t message /\ len message <= u32_max.
Proof.
  unfold decode_ping_pong_framed. intros H.
  apply bind_Ok in H as ([t' c1] & H1 & H).
  apply (int_sound W8) in H1 as (Ht & b1 & C1 & W1). apply int_writes_value in W1; [|done].
  destruct (N.eqb_spec t' (PingPongMessageType_as_u8 t)) as [->|]; [|done].
  cbn [negb] in H. apply bind_Ok in H as ([n c2] & H2 & H).
  apply (int_sound W32) in H2 as (Hn & b2 & C2 & W2). apply int_writes_value in W2; [|done].
  pose proof (consumed_remaining _ _ _ C1) as E1. pose proof (consumed_remaining _ _ _ C2) as E2.
  destruct C1 as [_ ->]. destruct C2 as [_ ->]. subst b1 b2.
  unfold cursor_new, remaining in E1. simpl in E1. rewrite drop_0 in E1.
  unfold remaining, advance in E2. simpl in E2. unfold advance in E1. simpl in E1.
  rewrite E2 in E1. cbn [position advance] in H. rewrite !length_be_bytes in *.
  simpl in E1, H. remember (drop 5 bytes) as rest eqn:Hrest.
  assert (len bytes = 5 + len rest) as Hlen.
  { rewrite E1, !len_cons. lia. }
  change (N.of_nat 5) with 5 in H.
  rewrite u64_sub_fits in H by lia. cbn [mbind res_bind] in H.
  rewrite Hlen in H. destruct (N.ltb_spec (5 + len rest - 5) n); [done|].
  destruct (N.ltb_spec n (5 + len rest - 5)); [done|].
  assert (n = len rest) as -> by lia.
  unfold slice in H. rewrite Hlen in H.
  rewrite (proj2 (N.leb_le _ _)), (proj2 (N.leb_le _ _)) in H by lia. cbn [andb] in H.
  change (N.to_nat 5) with 5%nat in H. rewrite <-Hrest, take_ge in H by (unfold len; lia).
  injection H as <-.
  split; [|done]. rewrite frame_app. exact E1.
Qed.

Lemma decode_ping_pong_no_panic bytes t : decode_ping_pong_framed bytes t <> Panic.
Proof.
  unfold decode_ping_pong_framed. apply bind_no_panic; [apply int_decode_no_panic|].
  intros [t' c1] H1. case_match; [done|]. apply bind_no_panic; [apply int_decode_no_panic|].
  intros [n c2] H2.
  apply (int_sound W8) in H1 as (Ht & b1 & C1 & W1).
  apply (int_sound W32) in H2 as (Hn & b2 & C2 & W2).
  pose proof (consumed_trans _ _ _ _ _ C1 C2) as [Ht12 ->].
  assert (N.of_nat (length (b1 ++ b2)) <= len bytes) as Hle.
  { unfold remaining, cursor_new in Ht12. simpl in Ht12. rewrite drop_0 in Ht12.
    apply (f_equal length) in Ht12. rewrite length_take in Ht12. unfold len. lia. }
  cbn [position advance cursor_new Nat.add]. rewrite u64_sub_fits by done. cbn [mbind res_bind].
  do 2 (case_match; [done|]). unfold slice.
  by rewrite (proj2 (N.leb_le _ _)), N.leb_refl.
Qed.
End Framing.

(** ** Report extensions *)

(** The extensions a report must carry. *)
Definition required_extensions (c : DapTaskConfig) : list Extension :=
  if method_is_taskprov c then [Extension_Taskprov] else [].

Definition extensions_accepted (c : DapTaskConfig) (exts : list Extension) : bool :=
  match check_extensions c ∅ false exts with
  | Some taskprov_indicated => negb (method_is_taskprov c && negb taskprov_indicated)
  | None => false
  end.

Lemma extensions_accepted_iff c exts :
  extensions_accepted c exts = true <-> exts = required_extensions c.
Proof.
  unfold extensions_accepted, required_extensions.
  destruct exts as [|e exts]; cbn [check_extensions].
  - by destruct (method_is_taskprov c).
  - rewrite decide_False by set_solver.
    destruct e as [|typ payload]; [|by destruct (method_is_taskprov c)].
    destruct (method_is_taskprov c) eqn:Hm; [|done].
    destruct exts as [|e' exts]; [done|]. cbn [check_extensions].
    split; [|done]. case_decide as Hin; [done|].
    destruct e' as [|typ' payload']; [|done]. exfalso. apply Hin. simpl. set_solver.
Qed.

(** ** From the client to the Aggregators *)
Section Report.
Context `{BP : BuildProfile} `{PC : PrioCodec} `{PA : PrioAgg} `{VO : !VdafOps}
  `{D : Digest} `{HC : HpkeCrypto}.
Context {L : PrioCodecLaws PC} {HL : HpkeCryptoLaws HC}.

(** The range of report times in which an Aggregator accepts reports for a task. *)
Definition time_accepted (i : DapReportInitializer) (c : DapTaskConfig) (time : Time) : Prop :=
  time < DapTaskConfig_not_after c /\
  (valid_report_time_range i).1 <= time <= (valid_report_time_range i).2.

(** What [consume] does with a report share that decrypts to an input share. *)
Lemma consume_decrypted decrypter i is_leader tid c share payload aad exts input :
  time_accepted i c (ReportMetadata_time (ReportShare_report_metadata share)) ->
  input_share_aad (DapTaskConfig_version c) tid (ReportShare_report_metadata share)
    (ReportShare_public_share share) = Ok aad ->
  (plain ← decrypter tid
     (input_share_info (if is_leader : bool then CTX_ROLE_LEADER else CTX_ROLE_HELPER)) aad
     (ReportShare_encrypted_input_share share);
   map_err DapError_encoding
     (get_decoded (PlaintextInputShare_decode (DapTaskConfig_version c)) plain))
  = Ok (MkPlaintextInputShare exts input) ->
  extensions_accepted c exts = true ->
  EarlyReportStateConsumed_consume decrypter i is_leader tid c share payload =
    match payload with
    | None =>
        Ok (Consumed_Ready (ReportShare_report_metadata share)
              (ReportShare_public_share share) input None)
    | Some p =>
        match decode_ping_pong_framed p PingPong_Initialize with
        | Ok bytes =>
            Ok (Consumed_Ready (ReportShare_report_metadata share)
                  (ReportShare_public_share share) input (Some bytes))
        | _ => Ok (Consumed_Rejected (ReportShare_report_metadata share) VdafPrepError)
        end
    end.
Proof.
  intros (H1 & H2 & H3) Haad Hdec Hext. unfold EarlyReportStateConsumed_consume.
  rewrite (proj2 (N.leb_gt _ _)), (proj2 (N.ltb_ge _ _)), (proj2 (N.ltb_ge _ _)) by done.
  rewrite Haad. cbn [mbind res_bind].
  apply bind_Ok in Hdec as (plain & -> & Hdec). apply map_err_Ok in Hdec as ->.
  unfold extensions_accepted in Hext.
  destruct (check_extensions c ∅ false exts) as [ind|]; [|done].
  apply negb_true_iff in Hext as ->. destruct payload as [p|]; [|done].
  pose proof (decode_ping_pong_no_panic p PingPong_Initialize).
  by destruct (decode_ping_pong_framed p PingPong_Initialize).
Qed.

(** A receiver configuration used as a decrypter. *)
Definition receiver_decrypter (r : HpkeReceiverConfig) : HpkeDecrypter :=
  fun _ info aad ct => HpkeReceiverConfig_decrypt r info aad ct.

Lemma encrypted_share_decrypts version exts input encoded r seed info aad ct :
  PlaintextInputShare_wf version (MkPlaintextInputShare exts input) ->
  get_encoded (PlaintextInputShare_encode version) (MkPlaintextInputShare exts input) = Ok encoded ->
  len encoded <= slice_max -> receiver_ok r ->
  HpkeConfig_encrypt seed (HpkeReceiverConfig_config r) info aad encoded = Ok ct ->
  (plain ← HpkeReceiverConfig_decrypt r info aad ct;
   map_err DapError_encoding (get_decoded (PlaintextInputShare_decode version) plain))
  = Ok (MkPlaintextInputShare exts input).
Proof.
  intros Hwf Henc Hmax Hr Hct. rewrite (decrypt_encrypt r seed info aad encoded ct Hr Hct).
  cbn [mbind res_bind]. apply map_err_Ok.
  destruct (codec_round_trips _ _ _ (PlaintextInputShare_codec version) _ Hwf) as (bs & E & Hd).
  rewrite E in Henc. injection Henc as ->. by apply Hd.
Qed.

(** Input shares are far below the largest slice. *)
Lemma PlaintextInputShare_encoded_len version x encoded :
  PlaintextInputShare_wf version x ->
  get_encoded (PlaintextInputShare_encode version) x = Ok encoded -> len encoded <= slice_max.
Proof.
  intros [[_ (bss & Hw & Hle)] Hp] E. rewrite get_encoded_spec in E.
  unfold PlaintextInputShare_encode in E.
  rewrite (encode_items_writes W16 _ _ bss Hw Hle []) in E. cbn [mbind res_bind] in E.
  rewrite (encode_bytes_writes W32 u32_max _ eq_refl Hp _ : encode_u32_bytes _ _ = _) in E.
  apply Ok_inj in E as <-. rewrite !len_app.
  assert (forall n v, len (be_bytes n v) = N.of_nat n) as Hb
    by (intros; unfold len; by rewrite length_be_bytes).
  rewrite !Hb, len_nil. unfold u32_bytes in Hp. simpl in *.
  unfold u16_max, u32_max, slice_max in *. lia.
Qed.

(** A report reaches both Aggregators. When a client produces a report with the
    extensions the task requires, encrypted to the Aggregators' receiver
    configurations, and its time is acceptable, then the Leader and the Helper each
    consume their share of it to the input share the client computed for them, the
    Helper also with the Leader's prep share in the frame that comes with it. *)
Theorem report_reaches_aggregators seeds pub s0 s1 rl rh time tid id il ih c report prep :
  receiver_ok rl -> receiver_ok rh -> time_accepted il c time -> time_accepted ih c time ->
  PlaintextInputShare_wf (DapTaskConfig_version c)
    (MkPlaintextInputShare (required_extensions c) s0) ->
  PlaintextInputShare_wf (DapTaskConfig_version c)
    (MkPlaintextInputShare (required_extensions c) s1) ->
  len prep <= u32_max ->
  produce_report_with_extensions_for_shares seeds pub (s0, s1)
    (HpkeReceiverConfig_config rl, HpkeReceiverConfig_config rh) time tid id
    (required_extensions c) (DapTaskConfig_version c) = Ok report ->
  let share ct := MkReportShare (Report_report_metadata report) (Report_public_share report) ct in
  EarlyReportStateConsumed_consume (receiver_decrypter rl) il true tid c
    (share (Report_encrypted_input_shares report).1) None
  = Ok (Consumed_Ready (MkReportMetadata id time) pub s0 None) /\
  EarlyReportStateConsumed_consume (receiver_decrypter rh) ih false tid c
    (share (Report_encrypted_input_shares report).2) (Some (frame PingPong_Initialize prep))
  = Ok (Consumed_Ready (MkReportMetadata id time) pub s1 (Some prep)).
Proof.
  intros Hrl Hrh Htl Hth Hwl Hwh Hprep H share.
  unfold produce_report_with_extensions_for_shares in H.
  apply bind_Ok in H as (aad & Haad & H). simpl in H.
  apply bind_Ok in H as (e0 & He0 & H). apply map_err_Ok in He0.
  apply bind_Ok in H as (ct0 & Hct0 & H).
  apply bind_Ok in H as (e1 & He1 & H). apply map_err_Ok in He1.
  apply bind_Ok in H as (ct1 & Hct1 & [= <-]).
  assert (extensions_accepted c (required_extensions c) = true) as Hext
    by (by apply extensions_accepted_iff).
  pose proof (PlaintextInputShare_encoded_len _ _ _ Hwl He0).
  pose proof (PlaintextInputShare_encoded_len _ _ _ Hwh He1).
  split.
  - by rewrite (consume_decrypted _ _ _ _ _ _ _ aad (required_extensions c) s0);
      [|done|done|eapply encrypted_share_decrypts|].
  - rewrite (consume_decrypted _ _ _ _ _ _ _ aad (required_extensions c) s1);
      [|done|done|by eapply encrypted_share_decrypts|done].
    by rewrite decode_frame.
Qed.

(** An Aggregator accepts a report's extensions if and only if they are exactly
    the ones the task requires: [Taskprov] alone for a task configured by taskprov,
    none otherwise; every other list of extensions rejects the report as an invalid
    message. *)
Theorem extensions_exact decrypter i is_leader tid c share payload aad plain exts input s :
  time_accepted i c (ReportMetadata_time (ReportShare_report_metadata share)) ->
  input_share_aad (DapTaskConfig_version c) tid (ReportShare_report_metadata share)
    (ReportShare_public_share share) = Ok aad ->
  decrypter tid
     (input_share_info (if is_leader : bool then CTX_ROLE_LEADER else CTX_ROLE_HELPER)) aad
     (ReportShare_encrypted_input_share share) = Ok plain ->
  get_decoded (PlaintextInputShare_decode (DapTaskConfig_version c)) plain
  = Ok (MkPlaintextInputShare exts input) ->
  EarlyReportStateConsumed_consume decrypter i is_leader tid c share payload = Ok s ->
  (exts = required_extensions c /\ s <> Consumed_Rejected (ReportShare_report_metadata share) InvalidMessage) \/
  (exts <> required_extensions c /\ s = Consumed_Rejected (ReportShare_report_metadata share) InvalidMessage).
Proof.
  intros (H1 & H2 & H3) Haad Hdec Hplain H.
  rewrite <-extensions_accepted_iff.
  destruct (extensions_accepted c exts) eqn:Hext.
  - left. split; [done|].
    rewrite (consume_decrypted _ _ _ _ _ _ _ aad exts input) in H; [|done|done| |done].
    + destruct payload as [p|]; [|by injection H as <-].
      destruct (decode_ping_pong_framed p PingPong_Initialize); by injection H as <-.
    + rewrite Hdec. simpl. by rewrite Hplain.
  - right. split; [done|]. unfold EarlyReportStateConsumed_consume in H.
    rewrite (proj2 (N.leb_gt _ _)), (proj2 (N.ltb_ge _ _)), (proj2 (N.ltb_ge _ _)) in H by done.
    rewrite Haad in H. cbn [mbind res_bind] in H. rewrite Hdec, Hplain in H.
    unfold extensions_accepted in Hext.
    destruct (check_extensions c ∅ false exts) as [ind|]; [|by injection H as <-].
    apply negb_false_iff in Hext. rewrite Hext in H. by injection H as <-.
Qed.
End Report.

(** ** The aggregation job *)
Section Job.
Context `{BP : BuildProfile} `{PC : PrioCodec} `{PA : PrioAgg} `{VO : !VdafOps}
  `{D : Digest}.
Context {PL : PrioAggLaws PA} {DL : DigestLaws D}.

(** The ID and the time of an aggregated report. *)
Definition item_key (i : DapBatchBucket * out_share) : ReportId * Time :=
  (out_id i.2, out_time i.2).

(** The reports were added to the buckets they belong to. *)
Definition well_bucketed (c : DapTaskConfig) (part : PartialBatchSelector)
    (items : list (DapBatchBucket * out_share)) : Prop :=
  Forall (fun i => bucket_for (E:=DapError) c part (item_key i).1 (item_key i).2 = Ok i.1) items.

Definition report_key (r : EarlyReportStateInitialized) : ReportId * Time :=
  (ReportMetadata_id (Initialized_metadata r), ReportMetadata_time (Initialized_metadata r)).

(** The reports the Helper aggregates: those it has not processed before and for
    which it tells the Leader to continue. *)
Definition helper_counted (report_status : gmap ReportId ReportProcessedStatus)
    (l : list (EarlyReportStateInitialized * Transition)) : list (ReportId * Time) :=
  omap (fun '(r, t) =>
    match report_status !! (report_key r).1, Transition_var t with
    | None, Continued _ => Some (report_key r)
    | _, _ => None
    end) l.

(** The output share the Leader computes for a report the Helper tells it to continue. *)
Definition leader_output (c : DapTaskConfig) (p : Transition * AggregationJobReportState) :
    option VdafAggregateShare :=
  match Transition_var p.1 with
  | Continued inbound =>
      match decode_ping_pong_framed inbound PingPong_Finish with
      | Ok prep_msg =>
          match vdaf_prep_finish (DapTaskConfig_vdaf c) (AJRS_prep_state p.2) prep_msg with
          | Ok data => Some data
          | _ => None
          end
      | _ => None
      end
  | Failed _ => None
  end.

(** The item is one of the reports of the job, with its ID and time, and with the output
    share the Leader computed for it. *)
Definition leader_computed_from (c : DapTaskConfig)
    (pairs : list (Transition * AggregationJobReportState))
    (i : DapBatchBucket * out_share) : Prop :=
  exists p, p ∈ pairs /\ (AJRS_report_id p.2, AJRS_time p.2) = item_key i /\
    leader_output c p = Some (out_data i.2).

Lemma leader_computed_cons c p pairs l :
  Forall (leader_computed_from c pairs) l -> Forall (leader_computed_from c (p :: pairs)) l.
Proof.
  intros Hl. eapply Forall_impl; [exact Hl|].
  intros i (q & Hq & E). exists q. split; [by right|done].
Qed.

(** The reports the Leader aggregates: those the Helper tells it to continue and for
    which it computes an output share. *)
Definition leader_counted (c : DapTaskConfig)
    (l : list (Transition * AggregationJobReportState)) : list (ReportId * Time) :=
  omap (fun '(t, s) =>
    match Transition_var t with
    | Continued inbound =>
        match decode_ping_pong_framed inbound PingPong_Finish with
        | Ok prep_msg =>
            match vdaf_prep_finish (DapTaskConfig_vdaf c) (AJRS_prep_state s) prep_msg with
            | Ok _ => Some (AJRS_report_id s, AJRS_time s)
            | _ => None
            end
        | _ => None
        end
    | Failed _ => None
    end) l.

(** The output share the Helper computes for a report. *)
Definition output_of (c : DapTaskConfig) (r : EarlyReportStateInitialized) :
    option VdafAggregateShare :=
  match r with
  | Initialized_Ready _ _ (Some leader_prep_share) prep_share prep_state =>
      match vdaf_prep_finish_from_shares (DapTaskConfig_vdaf c) 1 prep_state prep_share
              leader_prep_share with
      | Ok (data, _) => Some data
      | _ => None
      end
  | _ => None
  end.

(** The item is one of the reports, with its ID and time, and with the output share
    computed for it. *)
Definition computed_from (c : DapTaskConfig) (reports : list EarlyReportStateInitialized)
    (i : DapBatchBucket * out_share) : Prop :=
  exists r, r ∈ reports /\ report_key r = item_key i /\ output_of c r = Some (out_data i.2).

Lemma computed_from_mono c reports reports' l :
  (forall r, r ∈ reports -> r ∈ reports') ->
  Forall (computed_from c reports) l -> Forall (computed_from c reports') l.
Proof.
  intros H Hl. eapply Forall_impl; [exact Hl|].
  intros i (r & Hr & E). exists r. split; [by apply H|done].
Qed.

(** One report of the Helper's loop. *)
Lemma finish_report_spec c status part span items r span' var :
  span_represents span items -> len items + 1 <= u64_max ->
  finish_report c status part span r = Ok (span', var) ->
  exists new, span_represents span' (items ++ new) /\ well_bucketed c part new /\
    item_key <$> new = helper_counted status [(r, MkTransition (report_key r).1 var)] /\
    Forall (computed_from c [r]) new.
Proof.
  intros Hs Hmax H. unfold finish_report in H. unfold helper_counted. cbn [omap list_omap].
  change (ReportMetadata_id (Initialized_metadata r)) with (report_key r).1 in H.
  assert (forall x : res DapError (DapAggregateSpan DapAggregateShare * TransitionVar),
    x = Ok (span', var) -> (exists f, x = Ok (span, Failed f)) ->
    exists new, span_represents span' (items ++ new) /\ well_bucketed c part new /\
      item_key <$> new = match status !! (report_key r).1, var with
                         | None, Continued _ => [report_key r] | _, _ => [] end /\
      Forall (computed_from c [r]) new) as Hfail.
  { intros x -> [f [= -> ->]]. exists []. rewrite app_nil_r.
    split_and!; [done|by constructor| |by constructor]. by destruct (status !! _). }
  cbn [Transition_var]. replace (match _ with Some y => y :: [] | None => [] end) with
    (match status !! (report_key r).1, var with None, Continued _ => [report_key r] | _, _ => [] end)
    by (destruct (status !! (report_key r).1), var; done).
  destruct (status !! (report_key r).1) as [[|f]|] eqn:Hst.
  - destruct r as [md pub [lps|] ps pst|md f]; [|done|by eapply Hfail; [exact H|eauto]].
    destruct (vdaf_prep_finish_from_shares _ _ _ _ _) as [[data msg]|[| |]|];
      try done; try (by eapply Hfail; [exact H|eauto]).
    cbn [mbind res_bind] in H. apply bind_Ok in H as (out & _ & [= <- <-]).
    exists []. rewrite app_nil_r. split_and!; [done|by constructor|done|by constructor].
  - by eapply Hfail; [exact H|eauto].
  - destruct r as [md pub [lps|] ps pst|md f]; [|done|by eapply Hfail; [exact H|eauto]].
    destruct (vdaf_prep_finish_from_shares _ _ _ _ _) as [[data msg]|[| |]|] eqn:Hv;
      try done; try (by eapply Hfail; [exact H|eauto]).
    apply bind_Ok in H as (span1 & H1 & H). apply bind_Ok in H as (out & _ & [= <- <-]).
    destruct (span_add_Ok _ _ _ _ _ _ _ _ Hs Hmax H1) as (b & _ & Hb & Hs1).
    eexists. split_and!; [exact Hs1|by constructor|done|].
    constructor; [|done]. eexists. split_and!; [by left|done|]. simpl. by rewrite Hv.
Qed.

Lemma omap_cons_app {A B} (f : A -> option B) x l : omap f (x :: l) = omap f [x] ++ omap f l.
Proof. simpl. by destruct (f x). Qed.

Lemma helper_counted_cons status x l :
  helper_counted status (x :: l) = helper_counted status [x] ++ helper_counted status l.
Proof. apply omap_cons_app. Qed.

Lemma helper_counted_le status r t : (length (helper_counted status [(r, t)]) <= 1)%nat.
Proof. unfold helper_counted. simpl. repeat case_match; simpl; lia. Qed.

(** The Helper's loop: every report has its transition, in order, and the span holds
    exactly the reports counted. *)
Lemma finish_reports_spec c status part reports span items span' trs :
  span_represents span items -> len items + len reports <= u64_max ->
  finish_reports c status part span reports = Ok (span', trs) ->
  Transition_report_id <$> trs = (fun r => (report_key r).1) <$> reports /\
  exists new, span_represents span' (items ++ new) /\ well_bucketed c part new /\
    item_key <$> new = helper_counted status (zip reports trs) /\
    Forall (computed_from c reports) new.
Proof.
  revert span items trs. induction reports as [|r reports IH]; intros span items trs Hs Hmax H;
    cbn [finish_reports] in H.
  - injection H as <- <-. split; [done|]. exists []. rewrite app_nil_r.
    split_and!; [done|by constructor|done|by constructor].
  - apply bind_Ok in H as ([span1 var] & H1 & H).
    apply bind_Ok in H as ([span2 trs'] & H2 & [= <- <-]).
    rewrite len_cons in Hmax.
    destruct (finish_report_spec _ _ _ _ _ _ _ _ Hs ltac:(lia) H1) as (n1 & Hs1 & Hb1 & Hk1 & Hc1).
    assert (len n1 <= 1) as Hn1.
    { apply (f_equal length) in Hk1. rewrite length_fmap in Hk1.
      pose proof (helper_counted_le status r (MkTransition (report_key r).1 var)).
      unfold len. lia. }
    destruct (IH span1 (items ++ n1) trs' Hs1) as (Hids & n2 & Hs2 & Hb2 & Hk2 & Hc2);
      [rewrite len_app; lia|done|].
    split; [simpl; by f_equal|]. exists (n1 ++ n2). rewrite app_assoc.
    split_and!; [done|by apply Forall_app| |].
    + cbn [zip zip_with]. rewrite helper_counted_cons, fmap_app, Hk1. f_equal. exact Hk2.
    + apply Forall_app. split; eapply computed_from_mono; [|exact Hc1| |exact Hc2];
        intros r'; rewrite ?list_elem_of_singleton, elem_of_cons; tauto.
Qed.

Lemma leader_counted_cons c x l :
  leader_counted c (x :: l) = leader_counted c [x] ++ leader_counted c l.
Proof. apply omap_cons_app. Qed.

(** The Leader's loop. *)
Lemma consume_transitions_spec c tid part pairs span items m span' m' :
  span_represents span items -> len items + len pairs <= u64_max ->
  consume_transitions c tid part span pairs m = (Ok span', m') ->
  Forall (fun '(t, s) => Transition_report_id t = AJRS_report_id s) pairs /\
  exists new, span_represents span' (items ++ new) /\ well_bucketed c part new /\
    item_key <$> new = leader_counted c pairs /\ Forall (leader_computed_from c pairs) new.
Proof.
  revert span items m. induction pairs as [|[t s] pairs IH]; intros span items m Hs Hmax H.
  - injection H as <- <-. split; [done|]. exists []. rewrite app_nil_r.
    split_and!; [done|by constructor|done|by constructor].
  - rewrite len_cons in Hmax. cbn [consume_transitions] in H.
    destruct (bool_decide (Transition_report_id t = AJRS_report_id s)) eqn:Hid; [|done].
    apply bool_decide_eq_true in Hid. cbn [negb] in H.
    assert (forall m1, consume_transitions c tid part span pairs m1 = (Ok span', m') ->
      leader_counted c [(t, s)] = [] ->
      Forall (fun '(t, s) => Transition_report_id t = AJRS_report_id s) ((t, s) :: pairs) /\
      exists new, span_represents span' (items ++ new) /\ well_bucketed c part new /\
        item_key <$> new = leader_counted c ((t, s) :: pairs) /\
        Forall (leader_computed_from c ((t, s) :: pairs)) new) as Hskip.
    { intros m1 H1 E.
      destruct (IH span items m1 Hs ltac:(lia) H1) as (Hids & new & Hs' & Hb & Hk & Hc).
      split; [by constructor|]. exists new. rewrite leader_counted_cons, E.
      split_and!; try done. by apply leader_computed_cons. }
    destruct (Transition_var t) as [inbound|f] eqn:Hvar.
    + destruct (decode_ping_pong_framed inbound PingPong_Finish) as [msg| |] eqn:Hdec; try done.
      destruct (vdaf_prep_finish (DapTaskConfig_vdaf c) (AJRS_prep_state s) msg)
        as [data|[| |]|] eqn:Hf; try done.
      * apply stm_bind_Ok in H as (span1 & m1 & [= H1 <-] & H).
        destruct (span_add_Ok _ _ _ _ _ _ _ _ Hs ltac:(lia) H1) as (b & _ & Hb & Hs1).
        destruct (IH span1 _ m Hs1) as (Hids & n2 & Hs2 & Hb2 & Hk2 & Hc2); [|done|].
        { rewrite len_app. unfold len at 2. simpl. lia. }
        split; [by constructor|]. eexists (_ :: n2). rewrite cons_middle, app_assoc.
        split_and!; [exact Hs2|by constructor| |].
        -- rewrite leader_counted_cons, fmap_cons, Hk2. unfold leader_counted at 2. simpl.
           by rewrite Hvar, Hdec, Hf.
        -- constructor; [|by apply leader_computed_cons].
           exists (t, s). split_and!; [by left|done|]. unfold leader_output. simpl.
           by rewrite Hvar, Hdec, Hf.
      * apply stm_bind_Ok in H as ([] & m1 & _ & H). eapply Hskip; [exact H|].
        unfold leader_counted. simpl. by rewrite Hvar, Hdec, Hf.
      * apply stm_bind_Ok in H as ([] & m1 & _ & H). eapply Hskip; [exact H|].
        unfold leader_counted. simpl. by rewrite Hvar, Hdec, Hf.
    + apply stm_bind_Ok in H as ([] & m1 & _ & H). eapply Hskip; [exact H|].
      unfold leader_counted. simpl. by rewrite Hvar.
Qed.

(** ** Agreement of the Aggregators *)

(** Two aggregate shares for the same reports: everything but the output shares. *)
Definition entries_agree (x y : option (DapAggregateShare * list (ReportId * Time))) : Prop :=
  match x, y with
  | Some (s, reports), Some (s', reports') =>
      reports = reports' /\
      DapAggregateShare_report_count s = DapAggregateShare_report_count s' /\
      DapAggregateShare_min_time s = DapAggregateShare_min_time s' /\
      DapAggregateShare_max_time s = DapAggregateShare_max_time s' /\
      DapAggregateShare_checksum s = DapAggregateShare_checksum s'
  | None, None => True
  | _, _ => False
  end.

Lemma same_keys_same_items c part l k :
  well_bucketed c part l -> well_bucketed c part k -> item_key <$> l = item_key <$> k ->
  forall b, (fun o => (out_id o, out_time o)) <$> items_of b l
            = (fun o => (out_id o, out_time o)) <$> items_of b k.
Proof.
  intros Hl. revert k. induction Hl as [|[b1 o1] l Hb1 _ IH]; intros k Hk E b.
  - destruct k; [done|]. simpl in E. done.
  - destruct Hk as [|[b2 o2] k Hb2 Hk]; [done|]. rewrite !fmap_cons in E.
    injection E as E1 E2 E. simpl in *.
    unfold item_key in Hb1, Hb2. simpl in Hb1, Hb2. rewrite E1, E2 in Hb1.
    rewrite Hb1 in Hb2. injection Hb2 as ->.
    change ((b2, o1) :: l) with ([(b2, o1)] ++ l). change ((b2, o2) :: k) with ([(b2, o2)] ++ k).
    rewrite !items_of_app, !fmap_app, !items_of_one. f_equal; [|by apply IH].
    case_decide; simpl; [|done]. by rewrite E1, E2.
Qed.

Lemma spans_agree s1 s2 i1 i2 :
  span_represents s1 i1 -> span_represents s2 i2 ->
  (forall b, (fun o => (out_id o, out_time o)) <$> items_of b i1
             = (fun o => (out_id o, out_time o)) <$> items_of b i2) ->
  forall b, entries_agree (s1 !! b) (s2 !! b).
Proof.
  intros H1 H2 E b. specialize (H1 b). specialize (H2 b). specialize (E b).
  assert (out_id <$> items_of b i1 = out_id <$> items_of b i2) as Eid.
  { apply (f_equal (fmap fst)) in E. by rewrite <-!list_fmap_compose in E. }
  assert (out_time <$> items_of b i1 = out_time <$> items_of b i2) as Et.
  { apply (f_equal (fmap snd)) in E. by rewrite <-!list_fmap_compose in E. }
  assert (length (items_of b i1) = length (items_of b i2)) as El.
  { apply (f_equal length) in E. by rewrite !length_fmap in E. }
  destruct (s1 !! b) as [[x r]|], (s2 !! b) as [[y r']|]; simpl.
  - destruct H1 as (_ & [C1 T1 K1 _] & ->), H2 as (_ & [C2 T2 K2 _] & ->).
    rewrite Et in T1. destruct (time_range_unique _ _ _ _ _ T1 T2) as [-> ->].
    split_and!; [done| |done|done|].
    + rewrite C1, C2. unfold len. by rewrite El.
    + by rewrite K1, K2, Eid.
  - destruct H1 as (Hne & _). rewrite H2 in El. by destruct (items_of b i1).
  - destruct H2 as (Hne & _). rewrite H1 in El. by destruct (items_of b i2).
  - done.
Qed.

Lemma zip_ids trs seq :
  length trs = length seq ->
  Forall (fun '(t, s) => Transition_report_id t = AJRS_report_id s) (zip trs seq) ->
  Transition_report_id <$> trs = AJRS_report_id <$> seq.
Proof.
  revert seq. induction trs as [|t trs IH]; intros [|s seq] E Hids; try done.
  inversion Hids; subst. rewrite !fmap_cons. f_equal; [done|]. apply IH; [by injection E|done].
Qed.

(** The Leader computes an output share for every report the Helper tells it to
    continue. *)
Definition leader_finishes (c : DapTaskConfig)
    (pairs : list (Transition * AggregationJobReportState)) : Prop :=
  Forall (fun '(t, s) =>
    forall inbound, Transition_var t = Continued inbound ->
    exists prep_msg data, decode_ping_pong_framed inbound PingPong_Finish = Ok prep_msg /\
      vdaf_prep_finish (DapTaskConfig_vdaf c) (AJRS_prep_state s) prep_msg = Ok data) pairs.

Lemma counted_agree c reports trs seq :
  (fun s => (AJRS_report_id s, AJRS_time s)) <$> seq = report_key <$> reports ->
  length trs = length seq -> leader_finishes c (zip trs seq) ->
  leader_counted c (zip trs seq) = helper_counted ∅ (zip reports trs).
Proof.
  revert reports trs. induction seq as [|s seq IH]; intros [|r reports] [|t trs] E Hl Hf;
    try done.
  rewrite !fmap_cons in E. injection E as E1 E2 E. cbn [zip zip_with] in *.
  inversion Hf as [|? ? Hf1 Hf2]; subst. rewrite leader_counted_cons, helper_counted_cons.
  f_equal; [|apply IH; [done|by injection Hl|done]].
  unfold leader_counted, helper_counted. cbn [omap list_omap]. rewrite lookup_empty.
  destruct (Transition_var t) as [inbound|f] eqn:Hv; [|done].
  destruct (Hf1 inbound eq_refl) as (msg & data & -> & ->).
  unfold report_key in *. by rewrite E1, E2.
Qed.
End Job.

(** ** Properties *)
Section Properties.
Context `{BP : BuildProfile} `{PC : PrioCodec} `{PA : PrioAgg} `{VO : !VdafOps}
  `{D : Digest}.
Context {PL : PrioAggLaws PA} {DL : DigestLaws D}.

(** The response of the Helper has one transition per report of the request, in the
    order of the request, and the span it commits holds each report that is neither
    rejected nor already processed once, in the bucket it belongs to, and no other
    report. *)
Theorem agg_job_resp_counts_once c status part reports span resp :
  len reports <= u64_max ->
  produce_agg_job_resp c status part reports = Ok (span, resp) ->
  Transition_report_id <$> AggregationJobResp_transitions resp
  = (fun r => ReportMetadata_id (Initialized_metadata r)) <$> reports /\
  exists items, span_represents span items /\ well_bucketed c part items /\
    item_key <$> items
    = helper_counted status (zip reports (AggregationJobResp_transitions resp)).
Proof.
  intros Hmax H. unfold produce_agg_job_resp in H.
  apply bind_Ok in H as ([span' trs] & H & [= <- <-]).
  destruct (finish_reports_spec _ _ _ _ _ [] _ _ span_represents_empty Hmax H)
    as (Hids & items & Hs & Hb & Hk & _).
  split; [done|]. exists items. by split_and!.
Qed.

Lemma consume_agg_job_resp_spec c tid state resp m span m' :
  len (DapAggregationJobState_seq state) <= u64_max ->
  consume_agg_job_resp c tid state resp m = (Ok span, m') ->
  Transition_report_id <$> AggregationJobResp_transitions resp
  = AJRS_report_id <$> DapAggregationJobState_seq state /\
  exists items, span_represents span items /\
    well_bucketed c (DapAggregationJobState_part_batch_sel state) items /\
    item_key <$> items
    = leader_counted c (zip (AggregationJobResp_transitions resp) (DapAggregationJobState_seq state)) /\
    Forall (leader_computed_from c (zip (AggregationJobResp_transitions resp)
                                      (DapAggregationJobState_seq state))) items.
Proof.
  intros Hmax H. unfold consume_agg_job_resp in H.
  destruct (N.eqb_spec (len (AggregationJobResp_transitions resp))
    (len (DapAggregationJobState_seq state))) as [El|]; [|done]. cbn [negb] in H.
  apply (consume_transitions_spec _ _ _ _ _ []) in H as (Hids & items & Hs & Hb & Hk & Hc).
  - split; [|exists items; by split_and!].
    apply zip_ids; [unfold len in El; lia|done].
  - apply span_represents_empty.
  - rewrite len_nil. unfold len in *. rewrite length_zip_with. lia.
Qed.

(** The Leader accepts a response only if its transitions are for the reports of the
    job, in the order of the job, and none is missing or added; otherwise it aborts
    and aggregates nothing. *)
Theorem agg_job_resp_matches_state c tid state resp m span m' :
  len (DapAggregationJobState_seq state) <= u64_max ->
  consume_agg_job_resp c tid state resp m = (Ok span, m') ->
  Transition_report_id <$> AggregationJobResp_transitions resp
  = AJRS_report_id <$> DapAggregationJobState_seq state /\
  exists items, span_represents span items /\
    well_bucketed c (DapAggregationJobState_part_batch_sel state) items /\
    item_key <$> items
    = leader_counted c (zip (AggregationJobResp_transitions resp) (DapAggregationJobState_seq state)).
Proof.
  intros Hmax H. destruct (consume_agg_job_resp_spec _ _ _ _ _ _ _ Hmax H)
    as (Hids & items & Hs & Hb & Hk & _).
  split; [done|]. exists items. by split_and!.
Qed.

(** C2: the Aggregators agree on the batch. When Leader and Helper run an aggregation job
    over the same reports, the Helper having processed none of them before, and the
    Leader can finish every report it is told to continue, then both commit, in every
    bucket, aggregate shares over the same reports: with equal report counts,
    intervals and checksums. *)
Theorem aggregators_agree c part tid state reports hspan resp m lspan m' :
  DapAggregationJobState_part_batch_sel state = part ->
  (fun s => (AJRS_report_id s, AJRS_time s)) <$> DapAggregationJobState_seq state
  = (fun r => (ReportMetadata_id (Initialized_metadata r),
               ReportMetadata_time (Initialized_metadata r))) <$> reports ->
  len reports <= u64_max ->
  produce_agg_job_resp c ∅ part reports = Ok (hspan, resp) ->
  consume_agg_job_resp c tid state resp m = (Ok lspan, m') ->
  leader_finishes c (zip (AggregationJobResp_transitions resp) (DapAggregationJobState_seq state)) ->
  forall b, entries_agree (lspan !! b) (hspan !! b).
Proof.
  intros <- E Hmax Hh Hl Hf b.
  assert (length (DapAggregationJobState_seq state) = length reports) as El.
  { apply (f_equal length) in E. by rewrite !length_fmap in E. }
  unfold produce_agg_job_resp in Hh. apply bind_Ok in Hh as ([span' trs] & Hh & [= <- <-]).
  destruct (finish_reports_spec _ _ _ _ _ [] _ _ span_represents_empty Hmax Hh)
    as (Hids & items & Hs & Hb & Hk & _).
  unfold consume_agg_job_resp in Hl. cbn [AggregationJobResp_transitions] in *.
  destruct (N.eqb_spec (len trs) (len (DapAggregationJobState_seq state))) as [Et|]; [|done].
  cbn [negb] in Hl.
  apply (consume_transitions_spec _ _ _ _ _ []) in Hl as (_ & litems & Hls & Hlb & Hlk & _).
  - eapply spans_agree; [exact Hls|exact Hs|]. eapply same_keys_same_items; [done|done|].
    cbn [app]. rewrite Hk, Hlk. apply counted_agree; [exact E|unfold len in Et; lia|done].
  - apply span_represents_empty.
  - rewrite len_nil. unfold len in *. rewrite length_zip_with. lia.
Qed.
End Properties.

Section Duplicates.
Context `{BP : BuildProfile} `{PC : PrioCodec} `{PA : PrioAgg} `{VO : !VdafOps}.

Lemma consume_prep_inits_NoDup decrypter i tid c processed inits l :
  consume_prep_inits decrypter i tid c ReplayProtection_Enabled processed inits = Ok l ->
  let ids := (fun p => ReportMetadata_id (ReportShare_report_metadata (PrepareInit_report_share p)))
    <$> inits in
  NoDup ids /\ (forall id, id ∈ ids -> id ∉ processed) /\ length l = length inits.
Proof.
  revert processed l. induction inits as [|p inits IH]; intros processed l H ids;
    cbn [consume_prep_inits] in H.
  - injection H as <-. split_and!; [constructor|by intros id ?%not_elem_of_nil|done].
  - case_match eqn:Hin; [done|]. simpl in Hin. apply bool_decide_eq_false in Hin.
    apply bind_Ok in H as (s & _ & H). apply bind_Ok in H as (rest & H & [= <-]).
    apply IH in H as (Hnd & Hnot & Hlen). unfold ids. rewrite fmap_cons. split_and!.
    + constructor; [|done]. intros Hin'. apply Hnot in Hin'. set_solver.
    + intros id [->|Hid]%elem_of_cons; [done|]. apply Hnot in Hid. set_solver.
    + simpl. by rewrite Hlen.
Qed.

End Duplicates.

Section MoreProperties.
Context `{BP : BuildProfile} `{PC : PrioCodec} `{PA : PrioAgg} `{VO : !VdafOps}
  `{D : Digest} `{HC : HpkeCrypto}.
Context {L : PrioCodecLaws PC} {HL : HpkeCryptoLaws HC}.

(** The Helper aborts an aggregation job in which a report ID appears twice: whenever
    it goes on, the IDs of the request are pairwise distinct. *)
Theorem agg_job_req_no_duplicates decrypter i tid c req l :
  consume_agg_job_req c decrypter i tid req ReplayProtection_Enabled = Ok l ->
  NoDup ((fun p => ReportMetadata_id (ReportShare_report_metadata (PrepareInit_report_share p)))
    <$> AggregationJobInitReq_prep_inits req).
Proof.
  intros H. unfold consume_agg_job_req in H. apply bind_Ok in H as (consumed & H & _).
  by apply consume_prep_inits_NoDup in H as [H _].
Qed.

(** The framing of VDAF messages: the bytes around a message are accepted if and only
    if they are its type and its length, the Helper frames its prep message so that
    the Leader accepts it, and no input makes the decoder panic. *)
Theorem ping_pong_framing :
  (forall bytes t message, decode_ping_pong_framed bytes t = Ok message <->
     bytes = frame t message /\ len message <= u32_max) /\
  (forall bytes t, decode_ping_pong_framed bytes t <> Panic) /\
  (forall prep_msg, len prep_msg <= u32_max ->
     finish_payload prep_msg = Ok (frame PingPong_Finish prep_msg)).
Proof.
  split_and!.
  - intros bytes t message. split; [apply decode_ping_pong_Ok|].
    intros [-> Hle]. by apply decode_frame.
  - intros bytes t. apply decode_ping_pong_no_panic.
  - intros prep_msg Hle. unfold finish_payload. apply map_err_Ok.
    exact (encode_bytes_writes W32 u32_max prep_msg eq_refl Hle
      [byte_of_N (PingPongMessageType_as_u8 PingPong_Finish)]).
Qed.

(** The Collector recovers the Aggregators' aggregate shares: decrypting what the
    Leader and the Helper encrypted for the same task, batch and parameter gives the
    encodings of their aggregate shares, in that order, to the VDAF. *)
Theorem collector_recovers_shares c seed0 seed1 collector tid batch_sel agg_param
    share0 share1 d0 d1 e0 e1 version n ct0 ct1 :
  receiver_ok collector ->
  DapAggregateShare_data share0 = Some d0 -> DapAggregateShare_data share1 = Some d1 ->
  get_encoded VdafAggregateShare_encode d0 = Ok e0 ->
  get_encoded VdafAggregateShare_encode d1 = Ok e1 ->
  produce_leader_encrypted_agg_share seed0 c (HpkeReceiverConfig_config collector) tid batch_sel
    agg_param share0 version = Ok ct0 ->
  produce_helper_encrypted_agg_share seed1 c (HpkeReceiverConfig_config collector) tid batch_sel
    agg_param share1 version = Ok ct1 ->
  consume_encrypted_agg_shares (DapTaskConfig_vdaf c) (receiver_decrypter collector) tid batch_sel
    n agg_param [ct0; ct1] version
  = map_err (fun _ => fatal_logged "failed to unshard agg_shares")
      (vdaf_unshard (DapTaskConfig_vdaf c) n [e0; e1]).
Proof.
  intros Hr Hd0 Hd1 He0 He1 H0 H1.
  unfold produce_leader_encrypted_agg_share, produce_helper_encrypted_agg_share,
    produce_encrypted_agg_share in *. rewrite Hd0 in H0. rewrite Hd1 in H1.
  cbn [ok_or mbind res_bind] in *. rewrite He0 in H0. rewrite He1 in H1.
  cbn [map_err mbind res_bind] in *.
  apply bind_Ok in H0 as (aad & Haad & H0). rewrite Haad in H1. cbn [mbind res_bind] in H1.
  unfold consume_encrypted_agg_shares. simpl negb. cbn match. rewrite Haad.
  cbn [mbind res_bind decrypt_agg_shares]. unfold receiver_decrypter.
  change (0 =? 0) with true. change (0 + 1 =? 0) with false. cbn match.
  rewrite (decrypt_encrypt _ _ _ _ _ _ Hr H0). cbn [mbind res_bind].
  rewrite (decrypt_encrypt _ _ _ _ _ _ Hr H1). done.
Qed.
End MoreProperties.
