(* ===== verification/LeaderState.v ===== *)
(** * The state of an in-memory Leader

    [src/crates/daphne/src/roles/leader/in_memory_leader.rs] with [WorkItem] of
    [roles/leader/mod.rs] and [DapCollectionJob] of [lib.rs]: reports wait in buckets
    until a collection job is created for them, jobs wait in a work queue.  The batch
    ID that [assign_report_to_bucket] draws is an argument; [Url::join] is a class. *)

From S2P Require Import Prelude Codec Messages TaskprovMessages Errors Config AggShare Hpke.
From S2P Require Import Protocol Pine Taskprov.

(** ** Data *)
Inductive WorkItem : Type :=
| WI_AggregationJob (task_id : TaskId) (part_batch_sel : PartialBatchSelector)
    (agg_param : DapAggregationParam) (reports : list Report)
| WI_CollectionJob (task_id : TaskId) (coll_job_id : CollectionJobId) (batch_sel : BatchSelector)
    (agg_param : DapAggregationParam).

Definition WorkItem_task_id (w : WorkItem) : TaskId :=
  match w with WI_AggregationJob t _ _ _ | WI_CollectionJob t _ _ _ => t end.

Inductive DapCollectionJob : Type :=
| CJ_Done (c : Collection)
| CJ_Pending
| CJ_Unknown.

Record MockLeaderMemoryPerTask : Type := MkPerTask {
  pending_reports : gmap DapBatchBucket (list Report);
  coll_jobs : gmap CollectionJobId DapCollectionJob;
  batch_queue : list (BatchId * N);
}.

Definition PerTask_default : MockLeaderMemoryPerTask := MkPerTask ∅ ∅ [].

Record InMemoryLeaderState : Type := MkInMemoryLeaderState {
  work_queue : list WorkItem;
  per_task : gmap TaskId MockLeaderMemoryPerTask;
}.

Definition InMemoryLeaderState_default : InMemoryLeaderState := MkInMemoryLeaderState [] ∅.

(** [Url::join] *)
Class UrlJoin : Type := url_join : Url -> string -> option Url.

(** ** Operations *)

(** [self.per_task.entry(task_id).or_default()] *)
Definition per_task_entry (s : InMemoryLeaderState) (task_id : TaskId) : MockLeaderMemoryPerTask :=
  default PerTask_default (per_task s !! task_id).

Definition set_per_task (s : InMemoryLeaderState) (task_id : TaskId)
    (p : MockLeaderMemoryPerTask) : InMemoryLeaderState :=
  MkInMemoryLeaderState (work_queue s) (<[task_id := p]> (per_task s)).

Definition contains_queued_task_of_batch (s : InMemoryLeaderState) (task_id : TaskId)
    (batch_id : BatchId) : bool :=
  match (fun leader_state =>
           existsb (fun '(queued_batch_id, _) => bool_decide (queued_batch_id = batch_id))
             (batch_queue leader_state)) <$> per_task s !! task_id with
  | Some _ => true
  | None => false
  end.

Definition delete_all (s : InMemoryLeaderState) : InMemoryLeaderState :=
  InMemoryLeaderState_default.

(** The search for the first unsaturated batch; [None] when there is none. *)
Fixpoint assign_to_batch (min_batch_size : N) (queue : list (BatchId * N)) :
    option (BatchId * list (BatchId * N)) :=
  match queue with
  | [] => None
  | (batch_id, report_count) :: queue =>
      if report_count <? min_batch_size then
        Some (batch_id, (batch_id, report_count + 1) :: queue)
      else
        '(b, queue) ← assign_to_batch min_batch_size queue;
        Some (b, (batch_id, report_count) :: queue)
  end.

Section Operations.
Context `{BP : BuildProfile} `{Dg : Digest} `{UJ : UrlJoin} `{B64 : Base64}.

Definition assign_report_to_bucket (new_batch_id : BatchId) (self : MockLeaderMemoryPerTask)
    (task_config : DapTaskConfig) (report : Report) :
    res DapError (DapBatchBucket * MockLeaderMemoryPerTask) :=
  let metadata := Report_report_metadata report in
  let shard := ReportId_shard (ReportMetadata_id metadata) 1 in
  match DapTaskConfig_query task_config with
  | QC_FixedSize _ =>
      let '(batch_id, queue) :=
        match assign_to_batch (DapTaskConfig_min_batch_size task_config) (batch_queue self) with
        | Some (batch_id, queue) => (batch_id, queue)
        | None => (new_batch_id, batch_queue self ++ [(new_batch_id, 1)])
        end in
      Ok (Bucket_FixedSize batch_id shard,
          MkPerTask (pending_reports self) (coll_jobs self) queue)
  | QC_TimeInterval =>
      batch_window ← quantized_time_lower_bound task_config (ReportMetadata_time metadata);
      Ok (Bucket_TimeInterval batch_window shard, self)
  end.

Definition put_report (new_batch_id : BatchId) (task_id : TaskId) (task_config : DapTaskConfig)
    (report : Report) : stm InMemoryLeaderState DapError unit := fun s =>
  let p := per_task_entry s task_id in
  match assign_report_to_bucket new_batch_id p task_config report with
  | Ok (bucket, p) =>
      let pending := default [] (pending_reports p !! bucket) in
      (Ok tt, set_per_task s task_id
        (MkPerTask (<[bucket := pending ++ [report]]> (pending_reports p)) (coll_jobs p)
           (batch_queue p)))
  | Err e => (Err e, set_per_task s task_id p)
  | Panic => (Panic, set_per_task s task_id p)
  end.

Definition current_batch (s : InMemoryLeaderState) (task_id : TaskId)
    (task_config : DapTaskConfig) : res DapError BatchId :=
  match DapTaskConfig_query task_config with
  | QC_FixedSize _ =>
      match per_task s !! task_id with
      | None => Err (Abort_ (UnrecognizedTask task_id))
      | Some p =>
          match batch_queue p with
          | (batch_id, _) :: _ => Ok batch_id
          | [] => Err (Abort_ (BadRequest (Text "empty batch queue")))
          end
      end
  | QC_TimeInterval =>
      Err (Abort_ (BadRequest (Text "tried to get current batch from non fixed-size task")))
  end.

Definition enqueue_work (work_items : list WorkItem) : stm InMemoryLeaderState DapError unit :=
  modify (fun s => MkInMemoryLeaderState (work_queue s ++ work_items) (per_task s)).

Definition dequeue_work (num_items : N) : stm InMemoryLeaderState DapError (list WorkItem) := fun s =>
  let n := Nat.min (length (work_queue s)) (N.to_nat num_items) in
  (Ok (take n (work_queue s)), MkInMemoryLeaderState (drop n (work_queue s)) (per_task s)).

(** The loop of [init_collect_job] over the buckets of the batch. *)
Fixpoint queue_agg_jobs (task_id : TaskId) (batch_sel : BatchSelector)
    (agg_param : DapAggregationParam) (buckets : list DapBatchBucket)
    (queue : list WorkItem) (p : MockLeaderMemoryPerTask) :
    list WorkItem * MockLeaderMemoryPerTask :=
  match buckets with
  | [] => (queue, p)
  | bucket :: buckets =>
      let '(queue, pending) :=
        match pending_reports p !! bucket with
        | Some reports =>
            (queue ++ [WI_AggregationJob task_id (PartialBatchSelector_from batch_sel) agg_param
                         reports],
             delete bucket (pending_reports p))
        | None => (queue, pending_reports p)
        end in
      let batches :=
        match bucket with
        | Bucket_FixedSize batch_id _ =>
            filter (fun q : BatchId * N => batch_id <> q.1) (batch_queue p)
        | Bucket_TimeInterval _ _ => batch_queue p
        end in
      queue_agg_jobs task_id batch_sel agg_param buckets queue
        (MkPerTask pending (coll_jobs p) batches)
  end.

Definition coll_job_path (task_id : TaskId) (coll_job_id : CollectionJobId) : string :=
  String.append "collect/task/" (String.append (encode_base64url task_id)
    (String.append "/req/" (encode_base64url coll_job_id))).

Definition init_collect_job (task_id : TaskId) (task_config : DapTaskConfig)
    (coll_job_id : CollectionJobId) (batch_sel : BatchSelector)
    (agg_param : DapAggregationParam) : stm InMemoryLeaderState DapError Url := fun s =>
  let p := per_task_entry s task_id in
  let s := set_per_task s task_id p in
  match url_join (DapTaskConfig_leader_url task_config) (coll_job_path task_id coll_job_id) with
  | None => (Err (fatal_logged "failed to calculate coll_job_uri"), s)
  | Some coll_job_uri =>
      match coll_jobs p !! coll_job_id with
      | Some _ =>
          (Err (Abort_ (BadRequest (Fmt "tried to overwrite collection job {}"
             [ArgBytes coll_job_id]))), s)
      | None =>
          let p := MkPerTask (pending_reports p) (<[coll_job_id := CJ_Pending]> (coll_jobs p))
                     (batch_queue p) in
          match batch_span_for_sel task_config batch_sel with
          | Ok span =>
              let '(queue, p) :=
                queue_agg_jobs task_id batch_sel agg_param (elements span) (work_queue s) p in
              (Ok coll_job_uri,
               set_per_task
                 (MkInMemoryLeaderState
                    (queue ++ [WI_CollectionJob task_id coll_job_id batch_sel agg_param])
                    (per_task s)) task_id p)
          | Err e => (Err e, set_per_task s task_id p)
          | Panic => (Panic, set_per_task s task_id p)
          end
      end
  end.

Definition poll_collect_job (s : InMemoryLeaderState) (task_id : TaskId)
    (coll_job_id : CollectionJobId) : res DapError DapCollectionJob :=
  match per_task s !! task_id with
  | Some p => Ok (default CJ_Unknown (coll_jobs p !! coll_job_id))
  | None => Err (Abort_ (UnrecognizedTask task_id))
  end.

Definition finish_collect_job (task_id : TaskId) (coll_job_id : CollectionJobId)
    (collection : Collection) : stm InMemoryLeaderState DapError unit := fun s =>
  match per_task s !! task_id with
  | None => (Err (Fatal (Text "collect job not found for task_id")), s)
  | Some p =>
      match coll_jobs p !! coll_job_id with
      | None => (Err (Fatal (Text "collect job not found for collect_id")), s)
      | Some CJ_Pending =>
          (Ok tt, set_per_task s task_id
            (MkPerTask (pending_reports p) (<[coll_job_id := CJ_Done collection]> (coll_jobs p))
               (batch_queue p)))
      | Some (CJ_Done _) =>
          (Err (Fatal (Text "tried to overwrite completed collection job")), s)
      | Some CJ_Unknown =>
          (Err (Fatal (Text "tried to overwrite collection job in unkonwn state")), s)
      end
  end.
End Operations.

(** ** The reports a Leader holds *)
Definition work_reports (task_id : TaskId) (w : WorkItem) : list Report :=
  match w with
  | WI_AggregationJob t _ _ reports => if decide (t = task_id) then reports else []
  | WI_CollectionJob _ _ _ _ => []
  end.

Definition queued_reports (task_id : TaskId) (queue : list WorkItem) : list Report :=
  queue ≫= work_reports task_id.

Definition waiting_reports (p : MockLeaderMemoryPerTask) : list Report :=
  (map_to_list (pending_reports p)).*2 ≫= id.

(** The reports of a task that wait in a bucket or in the work queue. *)
Definition task_reports (s : InMemoryLeaderState) (task_id : TaskId) : list Report :=
  waiting_reports (per_task_entry s task_id) ++ queued_reports task_id (work_queue s).

(** ** Lemmas *)
Lemma queued_reports_app task_id l k :
  queued_reports task_id (l ++ k) = queued_reports task_id l ++ queued_reports task_id k.
Proof. unfold queued_reports. apply bind_app. Qed.

Lemma waiting_reports_insert p b rs :
  pending_reports p !! b = None ->
  waiting_reports (MkPerTask (<[b := rs]> (pending_reports p)) (coll_jobs p) (batch_queue p))
  ≡ₚ rs ++ waiting_reports p.
Proof.
  intros H. unfold waiting_reports. simpl. rewrite map_to_list_insert by done. done.
Qed.

Lemma waiting_reports_delete p b rs cj bq :
  pending_reports p !! b = Some rs ->
  waiting_reports p ≡ₚ rs ++ waiting_reports (MkPerTask (delete b (pending_reports p)) cj bq).
Proof.
  intros H. unfold waiting_reports. simpl.
  rewrite <-(map_to_list_delete (pending_reports p) b rs H). done.
Qed.

Lemma waiting_reports_push p b rs r cj bq :
  default [] (pending_reports p !! b) = rs ->
  waiting_reports (MkPerTask (<[b := rs ++ [r]]> (pending_reports p)) cj bq)
  ≡ₚ r :: waiting_reports p.
Proof.
  intros H. destruct (pending_reports p !! b) as [rs'|] eqn:E; simpl in H; subst rs.
  - rewrite (waiting_reports_delete p b rs' (coll_jobs p) (batch_queue p) E).
    rewrite <-insert_delete_eq.
    assert (pending_reports (MkPerTask (delete b (pending_reports p)) cj bq) !! b = None)
      as Hn by (simpl; apply lookup_delete_eq).
    pose proof (waiting_reports_insert _ _ (rs' ++ [r]) Hn) as ->. simpl.
    rewrite <-app_assoc. simpl. by rewrite <-Permutation_middle.
  - assert (pending_reports p !! b = None) as Hn by done.
    pose proof (waiting_reports_insert p b [r] Hn) as H. simpl in H. exact H.
Qed.

Lemma per_task_entry_set s task_id p : per_task_entry (set_per_task s task_id p) task_id = p.
Proof. unfold per_task_entry, set_per_task. simpl. by rewrite lookup_insert_eq. Qed.

Lemma per_task_entry_set_ne s task_id task_id' p :
  task_id <> task_id' -> per_task_entry (set_per_task s task_id p) task_id'
  = per_task_entry s task_id'.
Proof. intros H. unfold per_task_entry, set_per_task. simpl. by rewrite lookup_insert_ne. Qed.

Lemma task_reports_set s task_id p task_id' :
  task_reports (set_per_task s task_id p) task_id'
  = (if decide (task_id = task_id') then waiting_reports p
     else waiting_reports (per_task_entry s task_id'))
    ++ queued_reports task_id' (work_queue s).
Proof.
  unfold task_reports. case_decide as H.
  - subst. by rewrite per_task_entry_set.
  - by rewrite per_task_entry_set_ne.
Qed.

(** The loop moves reports from the buckets to the queue. *)
Lemma queue_agg_jobs_spec tid sel ap buckets queue p queue' p' :
  queue_agg_jobs tid sel ap buckets queue p = (queue', p') ->
  coll_jobs p' = coll_jobs p /\
  (forall b, b ∈ buckets -> pending_reports p' !! b = None) /\
  (forall b rs, pending_reports p' !! b = Some rs -> pending_reports p !! b = Some rs) /\
  exists jobs, queue' = queue ++ jobs /\
    Forall (fun j => exists rs, j = WI_AggregationJob tid (PartialBatchSelector_from sel) ap rs) jobs /\
    waiting_reports p ≡ₚ waiting_reports p' ++ queued_reports tid jobs /\
    (forall b rs, b ∈ buckets -> pending_reports p !! b = Some rs ->
       WI_AggregationJob tid (PartialBatchSelector_from sel) ap rs ∈ jobs).
Proof.
  revert queue p. induction buckets as [|b buckets IH]; intros queue p H.
  - injection H as <- <-. split_and!; [done|by intros b ?%not_elem_of_nil|done|].
    exists []. rewrite !app_nil_r. split_and!; [done|constructor|done|].
    by intros b rs ?%not_elem_of_nil.
  - cbn [queue_agg_jobs] in H.
    set (bq := match b with
               | Bucket_FixedSize batch_id _ => filter (fun q => batch_id <> q.1) (batch_queue p)
               | _ => batch_queue p end) in *. clearbody bq.
    destruct (pending_reports p !! b) as [rs|] eqn:E; cbn zeta in H.
    + apply IH in H as (Hc & Hn & Hsub & jobs & -> & Hj & Hp & Hin). simpl in *.
      split_and!; [done| | |].
      * intros b' [->|Hb]%elem_of_cons; [|by apply Hn].
        destruct (pending_reports p' !! b) eqn:E'; [|done].
        apply Hsub in E'. by rewrite lookup_delete_eq in E'.
      * intros b' rs' H'%Hsub. by apply lookup_delete_Some in H' as [_ ?].
      * rewrite <-app_assoc. eexists. split; [done|]. split_and!.
        { constructor; [by eexists|done]. }
        { rewrite (waiting_reports_delete p b rs (coll_jobs p) bq E), Hp.
          cbn. rewrite decide_True by done. fold (queued_reports tid jobs).
          rewrite !app_assoc. f_equiv. apply Permutation_app_comm. }
        { intros b' rs' [->|Hb]%elem_of_cons E'.
          - rewrite E in E'. injection E' as <-. by left.
          - destruct (decide (b = b')) as [<-|Hne].
            + rewrite E in E'. injection E' as <-. by left.
            + right. apply (Hin b'); [done|]. by rewrite lookup_delete_ne. }
    + apply IH in H as (Hc & Hn & Hsub & jobs & -> & Hj & Hp & Hin). simpl in *.
      split_and!; [done| |done|].
      * intros b' [->|Hb]%elem_of_cons; [|by apply Hn].
        destruct (pending_reports p' !! b) eqn:E'; [|done]. apply Hsub in E'. congruence.
      * eexists. split; [done|]. split_and!; [done|exact Hp|].
        intros b' rs' [->|Hb]%elem_of_cons E'; [congruence|by apply (Hin b')].
Qed.

(** ** Runs of a Leader *)
Inductive leader_event : Type :=
| Ev_put_report (new_batch_id : BatchId) (task_id : TaskId) (task_config : DapTaskConfig)
    (report : Report)
| Ev_init_collect_job (task_id : TaskId) (task_config : DapTaskConfig)
    (coll_job_id : CollectionJobId) (batch_sel : BatchSelector) (agg_param : DapAggregationParam)
| Ev_enqueue_work (work_items : list WorkItem)
| Ev_dequeue_work (num_items : N)
| Ev_finish_collect_job (task_id : TaskId) (coll_job_id : CollectionJobId)
    (collection : Collection).

Section Runs.
Context `{BP : BuildProfile} `{Dg : Digest} `{UJ : UrlJoin} `{B64 : Base64}.

(** The outcome of an event (the work items, for [dequeue_work]) and the state after. *)
Definition leader_exec (e : leader_event) (s : InMemoryLeaderState) :
    res DapError (list WorkItem) * InMemoryLeaderState :=
  match e with
  | Ev_put_report b t c r => let '(o, s) := put_report b t c r s in ((fun _ => []) <$> o, s)
  | Ev_init_collect_job t c j b a =>
      let '(o, s) := init_collect_job t c j b a s in ((fun _ => []) <$> o, s)
  | Ev_enqueue_work items => let '(o, s) := enqueue_work items s in ((fun _ => []) <$> o, s)
  | Ev_dequeue_work n => dequeue_work n s
  | Ev_finish_collect_job t j c =>
      let '(o, s) := finish_collect_job t j c s in ((fun _ => []) <$> o, s)
  end.

(** The reports of a task that an event hands to the Leader, and gets from it. *)
Definition reports_in (tid : TaskId) (e : leader_event) (o : res DapError (list WorkItem)) :
    list Report :=
  match e, o with
  | Ev_put_report _ t _ r, Ok _ => if decide (t = tid) then [r] else []
  | Ev_enqueue_work items, Ok _ => queued_reports tid items
  | _, _ => []
  end.

Definition reports_out (tid : TaskId) (o : res DapError (list WorkItem)) : list Report :=
  match o with Ok items => queued_reports tid items | _ => [] end.

(** A run, with the reports of the task handed in and got out. *)
Inductive leader_run (tid : TaskId) :
    InMemoryLeaderState -> list Report -> list Report -> InMemoryLeaderState -> Prop :=
| run_nil s : leader_run tid s [] [] s
| run_step s e o s1 ins outs s2 :
    leader_exec e s = (o, s1) -> leader_run tid s1 ins outs s2 ->
    leader_run tid s (reports_in tid e o ++ ins) (reports_out tid o ++ outs) s2.

Lemma put_report_reports b t c r s o s' tid :
  put_report b t c r s = (o, s') ->
  task_reports s' tid ≡ₚ
  (match o with Ok _ => if decide (t = tid) then [r] else [] | _ => [] end) ++ task_reports s tid.
Proof.
  unfold put_report. destruct (assign_report_to_bucket b (per_task_entry s t) c r)
    as [[bucket p]|e|] eqn:Ha.
  - intros [= <- <-]. rewrite task_reports_set.
    assert (pending_reports p = pending_reports (per_task_entry s t)) as Hp.
    { unfold assign_report_to_bucket in Ha. destruct (DapTaskConfig_query c).
      - apply bind_Ok in Ha as (w & _ & [= <- <-]). done.
      - by destruct (assign_to_batch _ _) as [[]|]; injection Ha as <- <-. }
    case_decide as Ht; [subst t|done]. unfold task_reports.
    rewrite (waiting_reports_push p bucket _ r _ _ eq_refl). simpl.
    unfold waiting_reports. by rewrite Hp.
  - intros [= <- <-]. rewrite task_reports_set. simpl. unfold task_reports.
    case_decide; [by subst|done].
  - intros [= <- <-]. rewrite task_reports_set. simpl. unfold task_reports.
    case_decide; [by subst|done].
Qed.

Lemma init_collect_job_reports t c j sel ap s o s' tid :
  init_collect_job t c j sel ap s = (o, s') -> task_reports s' tid ≡ₚ task_reports s tid.
Proof.
  unfold init_collect_job. intros H.
  assert (forall p', pending_reports p' = pending_reports (per_task_entry s t) ->
    task_reports (set_per_task s t p') tid = task_reports s tid) as Hsame.
  { intros p' Hp. rewrite task_reports_set. unfold task_reports, waiting_reports.
    case_decide; [subst; by rewrite Hp|done]. }
  assert (forall p p', set_per_task (set_per_task s t p) t p' = set_per_task s t p') as Hset.
  { intros p p'. unfold set_per_task. simpl. by rewrite insert_insert_eq. }
  destruct (url_join _ _); [|by injection H as <- <-; rewrite Hsame].
  destruct (coll_jobs (per_task_entry s t) !! j); [by injection H as <- <-; rewrite Hsame|].
  destruct (batch_span_for_sel c sel) as [span|e|];
    [|by injection H as <- <-; rewrite Hset, Hsame|by injection H as <- <-; rewrite Hset, Hsame].
  destruct (queue_agg_jobs _ _ _ _ _ _) as [queue p] eqn:Hq. injection H as <- <-.
  apply queue_agg_jobs_spec in Hq as (_ & _ & _ & jobs & -> & Hj & Hp & _).
  unfold task_reports. simpl. rewrite !queued_reports_app. simpl.
  unfold per_task_entry, set_per_task. simpl. rewrite insert_insert_eq.
  rewrite ?app_nil_r.
  destruct (decide (t = tid)) as [->|Hne].
  - rewrite lookup_insert_eq. simpl.
    change (waiting_reports (default PerTask_default (per_task s !! tid)))
      with (waiting_reports (MkPerTask (pending_reports (per_task_entry s tid))
        (<[j := CJ_Pending]> (coll_jobs (per_task_entry s tid)))
        (batch_queue (per_task_entry s tid)))).
    rewrite Hp, <-!app_assoc. f_equiv. apply Permutation_app_comm.
  - rewrite lookup_insert_ne by done.
    assert (queued_reports tid jobs = []) as ->; [|by rewrite app_nil_r].
    unfold queued_reports. clear -Hj Hne. induction Hj as [|x jobs [rs ->] _ IH]; [done|].
    cbn. rewrite decide_False by done. exact IH.
Qed.

Lemma exec_reports e s o s' tid :
  leader_exec e s = (o, s') ->
  task_reports s tid ++ reports_in tid e o ≡ₚ reports_out tid o ++ task_reports s' tid.
Proof.
  unfold leader_exec. destruct e as [b t c r|t c j sel ap|items|n|t j coll].
  - destruct (put_report b t c r s) as [r' s1] eqn:H. intros [= <- <-].
    rewrite (put_report_reports _ _ _ _ _ _ _ tid H), Permutation_app_comm.
    by destruct r'.
  - destruct (init_collect_job t c j sel ap s) as [r' s1] eqn:H. intros [= <- <-].
    rewrite (init_collect_job_reports _ _ _ _ _ _ _ _ tid H). simpl. rewrite app_nil_r.
    by destruct r'.
  - intros [= <- <-]. simpl. unfold task_reports. simpl.
    rewrite queued_reports_app, app_assoc. done.
  - intros [= <- <-]. simpl. rewrite app_nil_r. unfold task_reports. simpl.
    set (n' := Nat.min (length (work_queue s)) (N.to_nat n)).
    rewrite <-(take_drop n' (work_queue s)) at 1. rewrite queued_reports_app.
    unfold per_task_entry. simpl. rewrite !app_assoc. f_equiv. apply Permutation_app_comm.
  - unfold finish_collect_job. intros H.
    destruct (per_task s !! t) as [p|] eqn:Ep; [|by injection H as <- <-; rewrite app_nil_r].
    destruct (coll_jobs p !! j) as [[| |]|];
      try (by injection H as <- <-; simpl; rewrite app_nil_r).
    injection H as <- <-. simpl. rewrite app_nil_r, task_reports_set.
    unfold task_reports, per_task_entry, waiting_reports. case_decide; [subst; by rewrite Ep|done].
Qed.

(** C12: a Leader neither loses nor duplicates a report: after any run, the reports it was
    handed are those it held at the start and those it was given, without those it
    handed out as work. *)
Theorem reports_conserved tid s ins outs s' :
  leader_run tid s ins outs s' ->
  task_reports s tid ++ ins ≡ₚ outs ++ task_reports s' tid.
Proof.
  induction 1 as [s|s e o s1 ins outs s2 He _ IH].
  - by rewrite app_nil_r.
  - apply (exec_reports _ _ _ _ tid) in He. rewrite app_assoc, He, <-!app_assoc. by f_equiv.
Qed.

(** The state of a collection job. *)
Definition coll_job_state (s : InMemoryLeaderState) (tid : TaskId) (j : CollectionJobId) :
    option DapCollectionJob := coll_jobs (per_task_entry s tid) !! j.

Lemma coll_job_state_set s t p tid j :
  coll_job_state (set_per_task s t p) tid j
  = if decide (t = tid) then coll_jobs p !! j else coll_job_state s tid j.
Proof.
  unfold coll_job_state. case_decide; [subst; by rewrite per_task_entry_set|].
  by rewrite per_task_entry_set_ne.
Qed.

Lemma coll_job_state_set_ne s t p tid j :
  t <> tid -> coll_job_state (set_per_task s t p) tid j = coll_job_state s tid j.
Proof. intros H. rewrite coll_job_state_set. by rewrite decide_False. Qed.

(** What an event can do to a collection job. *)
Lemma exec_coll_job e s o s' tid j :
  leader_exec e s = (o, s') ->
  coll_job_state s' tid j = coll_job_state s tid j \/
  (coll_job_state s tid j = None /\ coll_job_state s' tid j = Some CJ_Pending /\
   exists c sel ap, e = Ev_init_collect_job tid c j sel ap) \/
  (coll_job_state s tid j = Some CJ_Pending /\
   exists coll, coll_job_state s' tid j = Some (CJ_Done coll) /\
     e = Ev_finish_collect_job tid j coll /\ o = Ok []).
Proof.
  unfold leader_exec. destruct e as [b t c r|t c j' sel ap|items|n|t j' coll].
  - destruct (put_report b t c r s) as [r' s1] eqn:H. intros [= <- <-]. left.
    unfold put_report in H.
    destruct (assign_report_to_bucket b (per_task_entry s t) c r) as [[bucket p]|e|] eqn:Ha;
      injection H as <- <-; rewrite coll_job_state_set; (case_decide; [subst t|done]); try done.
    unfold assign_report_to_bucket in Ha. destruct (DapTaskConfig_query c).
    + by apply bind_Ok in Ha as (w & _ & [= <- <-]).
    + by destruct (assign_to_batch _ _) as [[]|]; injection Ha as <- <-.
  - destruct (init_collect_job t c j' sel ap s) as [r' s1] eqn:H. intros [= <- <-].
    unfold init_collect_job in H.
    destruct (url_join _ _); [|injection H as <- <-; left; rewrite coll_job_state_set;
      case_decide; [by subst|done]].
    destruct (coll_jobs (per_task_entry s t) !! j') eqn:Hj.
    { injection H as <- <-. left. rewrite coll_job_state_set. case_decide; [by subst|done]. }
    assert (coll_job_state s1 tid j =
      if decide (t = tid) then <[j' := CJ_Pending]> (coll_jobs (per_task_entry s t)) !! j
      else coll_job_state s tid j) as Hs1.
    { destruct (batch_span_for_sel c sel) as [span|e|].
      - destruct (queue_agg_jobs _ _ _ _ _ _) as [queue p] eqn:Hq. injection H as <- <-.
        apply queue_agg_jobs_spec in Hq as (Hc & _). rewrite coll_job_state_set, Hc.
        case_decide; [done|]. by rewrite <-(coll_job_state_set_ne s t (per_task_entry s t)).
      - injection H as <- <-. rewrite !coll_job_state_set. by case_decide.
      - injection H as <- <-. rewrite !coll_job_state_set. by case_decide. }
    rewrite Hs1. case_decide as Ht; [subst t|by left].
    destruct (decide (j' = j)) as [->|Hne]; [|left; by rewrite lookup_insert_ne].
    right; left. rewrite lookup_insert_eq. unfold coll_job_state. eauto 10.
  - intros [= <- <-]. by left.
  - intros [= <- <-]. by left.
  - unfold finish_collect_job. intros H.
    destruct (per_task s !! t) as [p|] eqn:Ep; [|by injection H as <- <-; left].
    destruct (coll_jobs p !! j') as [[| |]|] eqn:Ej; try (by injection H as <- <-; left).
    injection H as <- <-. rewrite coll_job_state_set. case_decide; [subst t|by left]. simpl.
    destruct (decide (j' = j)) as [->|Hne].
    + right; right. rewrite lookup_insert_eq. unfold coll_job_state, per_task_entry.
      rewrite Ep. simpl. eauto 10.
    + left. rewrite lookup_insert_ne by done. unfold coll_job_state, per_task_entry. by rewrite Ep.
Qed.

(** The life of a collection job is a state machine: in any run a job that is done
    keeps its collection, and a job that is pending stays pending or is done; no job is
    forgotten or replaced. *)
Theorem coll_job_monotone t tid j s ins outs s' :
  leader_run t s ins outs s' ->
  (forall coll, coll_job_state s tid j = Some (CJ_Done coll) ->
     coll_job_state s' tid j = Some (CJ_Done coll)) /\
  (coll_job_state s tid j = Some CJ_Pending ->
     coll_job_state s' tid j = Some CJ_Pending \/
     exists coll, coll_job_state s' tid j = Some (CJ_Done coll)).
Proof.
  induction 1 as [s|s e o s1 ins outs s2 He _ [IHd IHp]]; [by split; [|left]|].
  apply (exec_coll_job _ _ _ _ tid j) in He
    as [He|[(H0 & _)|(H0 & coll & H1 & _)]].
  - by rewrite <-He.
  - rewrite H0. by split.
  - rewrite H0. split; [done|]. intros _. right. exists coll. by apply IHd.
Qed.

(** ** The reports of a batch are aggregated before it is collected *)

(** The states of a Leader that uses the configuration [c] for the task [tid]. *)
Definition uses_config (tid : TaskId) (c : DapTaskConfig) (e : leader_event) : Prop :=
  match e with
  | Ev_put_report _ t c' _ | Ev_init_collect_job t c' _ _ _ => t = tid -> c' = c
  | _ => True
  end.

Inductive reachable (tid : TaskId) (c : DapTaskConfig) : InMemoryLeaderState -> Prop :=
| reachable_start : reachable tid c InMemoryLeaderState_default
| reachable_step s e o s' :
    reachable tid c s -> uses_config tid c e -> leader_exec e s = (o, s') -> reachable tid c s'.

(** A report waits in the bucket of its time, or of some batch. *)
Definition bucket_of_report (c : DapTaskConfig) (b : DapBatchBucket) (r : Report) : Prop :=
  match DapTaskConfig_query c with
  | QC_TimeInterval =>
      exists w, quantized_time_lower_bound (E:=DapError) c
        (ReportMetadata_time (Report_report_metadata r)) = Ok w /\ b = Bucket_TimeInterval w 0
  | QC_FixedSize _ => exists batch_id, b = Bucket_FixedSize batch_id 0
  end.

Definition pending_ok (c : DapTaskConfig) (p : MockLeaderMemoryPerTask) : Prop :=
  forall b rs r, pending_reports p !! b = Some rs -> r ∈ rs -> bucket_of_report c b r.

Lemma assign_bucket nb p c r b p' :
  assign_report_to_bucket nb p c r = Ok (b, p') ->
  bucket_of_report c b r /\ pending_reports p' = pending_reports p.
Proof.
  unfold assign_report_to_bucket, bucket_of_report, ReportId_shard.
  rewrite N.mod_1_r. destruct (DapTaskConfig_query c).
  - intros H. apply bind_Ok in H as (w & Hw & [= <- <-]). eauto.
  - destruct (assign_to_batch _ _) as [[]|]; intros [= <- <-]; eauto.
Qed.

Lemma put_report_pending_ok nb tid c t c' r s r' s1 :
  (t = tid -> c' = c) -> put_report nb t c' r s = (r', s1) ->
  pending_ok c (per_task_entry s tid) -> pending_ok c (per_task_entry s1 tid).
Proof.
  intros Hu H Hok. unfold put_report in H. destruct (decide (t = tid)) as [Ht|Hne].
  2:{ destruct (assign_report_to_bucket _ _ _ _) as [[]|e|]; injection H as <- <-;
      by rewrite per_task_entry_set_ne. }
  rewrite (Hu Ht) in *. subst t.
  destruct (assign_report_to_bucket nb (per_task_entry s tid) c r) as [[b p]|e|] eqn:Ha;
    injection H as <- <-; rewrite per_task_entry_set; [|done|done].
  apply assign_bucket in Ha as [Hb Hp]. intros b' rs r0 Hl Hr. simpl in Hl. rewrite Hp in Hl.
  destruct (decide (b = b')) as [<-|Hne].
  - rewrite lookup_insert_eq in Hl. injection Hl as <-.
    apply elem_of_app in Hr as [Hr|[->|[]%not_elem_of_nil]%elem_of_cons]; [|done].
    destruct (pending_reports (per_task_entry s tid) !! b) as [rs'|] eqn:E;
      [by eapply Hok|by apply not_elem_of_nil in Hr].
  - rewrite lookup_insert_ne in Hl by done. by eapply Hok.
Qed.

(** A collection job takes pending reports, it adds none. *)
Lemma init_collect_job_pending tid t c' j sel ap s r' s1 b rs :
  init_collect_job t c' j sel ap s = (r', s1) ->
  pending_reports (per_task_entry s1 tid) !! b = Some rs ->
  pending_reports (per_task_entry s tid) !! b = Some rs.
Proof.
  unfold init_collect_job. intros H. destruct (decide (t = tid)) as [->|Hne].
  - destruct (url_join _ _); [|injection H as <- <-; by rewrite per_task_entry_set].
    destruct (coll_jobs _ !! j); [injection H as <- <-; by rewrite per_task_entry_set|].
    destruct (batch_span_for_sel c' sel); [|injection H as <- <-; by rewrite per_task_entry_set..].
    destruct (queue_agg_jobs _ _ _ _ _ _) as [q p] eqn:Hq. injection H as <- <-.
    rewrite per_task_entry_set. apply queue_agg_jobs_spec in Hq as (_ & _ & Hsub & _). apply Hsub.
  - destruct (url_join _ _); [|injection H as <- <-; by rewrite per_task_entry_set_ne].
    destruct (coll_jobs _ !! j); [injection H as <- <-; by rewrite per_task_entry_set_ne|].
    destruct (batch_span_for_sel c' sel); [|injection H as <- <-; by rewrite !per_task_entry_set_ne..].
    destruct (queue_agg_jobs _ _ _ _ _ _) as [q p] eqn:Hq. injection H as <- <-.
    rewrite per_task_entry_set_ne by done.
    change (per_task_entry (MkInMemoryLeaderState ?q (per_task ?s)) tid) with (per_task_entry s tid).
    by rewrite <-(per_task_entry_set_ne s t tid (per_task_entry s t)).
Qed.

Lemma exec_pending_ok tid c e s o s' :
  uses_config tid c e -> leader_exec e s = (o, s') ->
  pending_ok c (per_task_entry s tid) -> pending_ok c (per_task_entry s' tid).
Proof.
  intros Hu He Hok. unfold leader_exec in He. destruct e as [nb t c' r|t c' j sel ap|items|n|t j coll].
  - destruct (put_report nb t c' r s) as [r' s1] eqn:H. injection He as <- <-.
    by eapply put_report_pending_ok.
  - destruct (init_collect_job t c' j sel ap s) as [r' s1] eqn:H. injection He as <- <-.
    intros b rs r Hl. by eapply Hok, init_collect_job_pending.
  - by injection He as <- <-.
  - by injection He as <- <-.
  - unfold finish_collect_job in He.
    destruct (per_task s !! t) as [p|] eqn:Ep; [|by injection He as <- <-].
    destruct (coll_jobs p !! j) as [[| |]|]; try (by injection He as <- <-).
    injection He as <- <-. destruct (decide (t = tid)) as [->|Hne].
    + rewrite per_task_entry_set. intros b rs r Hl. simpl in Hl. apply Hok.
      unfold per_task_entry. by rewrite Ep.
    + by rewrite per_task_entry_set_ne.
Qed.

Lemma reachable_pending_ok tid c s : reachable tid c s -> pending_ok c (per_task_entry s tid).
Proof.
  induction 1 as [|s e o s' _ IH Hu He].
  - intros b rs r H. unfold per_task_entry in H. simpl in H. by rewrite lookup_empty in H.
  - by eapply exec_pending_ok.
Qed.

Lemma waiting_elem p r :
  r ∈ waiting_reports p <-> exists b rs, pending_reports p !! b = Some rs /\ r ∈ rs.
Proof.
  unfold waiting_reports. rewrite list_elem_of_bind. split.
  - intros (rs & Hr & ([b rs'] & -> & Hb%elem_of_map_to_list)%list_elem_of_fmap). eauto.
  - intros (b & rs & Hb & Hr). exists rs. split; [done|]. apply list_elem_of_fmap.
    exists (b, rs). split; [done|]. by apply elem_of_map_to_list.
Qed.

(** C10: a collection job of a time-interval task comes behind the aggregation of its
    batch: when it is created, every report of the batch that waits, in whatever way the
    Leader came to hold it, is moved to aggregation jobs that precede the collection
    job in the work queue. *)
Theorem batch_queued_before_collection tid c j i ap s uri s' :
  reachable tid c s -> DapTaskConfig_ok c -> batch_sel_ok c (BS_TimeInterval i) ->
  init_collect_job tid c j (BS_TimeInterval i) ap s = (Ok uri, s') ->
  exists jobs,
    work_queue s' = work_queue s ++ jobs ++ [WI_CollectionJob tid j (BS_TimeInterval i) ap] /\
    Forall (fun w => exists rs, w = WI_AggregationJob tid PBS_TimeInterval ap rs) jobs /\
    forall r, r ∈ waiting_reports (per_task_entry s tid) ->
      Interval_start i <= ReportMetadata_time (Report_report_metadata r)
        < Interval_start i + Interval_duration i ->
      r ∈ queued_reports tid jobs /\ r ∉ waiting_reports (per_task_entry s' tid).
Proof.
  intros Hreach Hc Hsel H. pose proof (reachable_pending_ok _ _ _ Hreach) as Hok.
  unfold init_collect_job in H. destruct (url_join _ _) as [uri'|]; [|done].
  destruct (coll_jobs (per_task_entry s tid) !! j); [done|].
  destruct (batch_span_windows c i Hc Hsel) as (span & Hspan & Hexact).
  rewrite Hspan in H. destruct (queue_agg_jobs _ _ _ _ _ _) as [q p] eqn:Hq.
  injection H as -> <-.
  apply queue_agg_jobs_spec in Hq as (_ & Hn & Hsub & jobs & -> & Hj & _ & Hin). simpl in *.
  assert (forall b rs r, pending_reports (per_task_entry s tid) !! b = Some rs -> r ∈ rs ->
    Interval_start i <= ReportMetadata_time (Report_report_metadata r)
      < Interval_start i + Interval_duration i -> b ∈ elements span) as Hspan'.
  { intros b rs r Hb Hr Ht. specialize (Hok b rs r Hb Hr). unfold bucket_of_report in Hok.
    destruct Hsel as [Hv _]. unfold is_valid_batch_sel in Hv.
    destruct (DapTaskConfig_query c); [|done]. destruct Hok as (w & Hw & ->).
    rewrite quantized_lower_eq in Hw by apply Hc. injection Hw as <-.
    apply elem_of_elements, Hexact; [apply Hc|done]. }
  exists jobs. split_and!; [by rewrite <-app_assoc|done|].
  intros r (b & rs & Hb & Hr)%waiting_elem Ht. split.
  - apply list_elem_of_bind. eexists. split; [|by eapply Hin; [eapply Hspan'|]].
    simpl. by rewrite decide_True.
  - rewrite per_task_entry_set. intros (b' & rs' & Hb' & Hr')%waiting_elem.
    rewrite (Hn b') in Hb'; [done|]. by eapply Hspan'; [apply Hsub|..].
Qed.
End Runs.
