(* ===== verification/Roles.v ===== *)
(** * Aggregators: the common checks and the Helper

    [src/crates/daphne/src/roles/aggregator.rs], [roles/mod.rs] and
    [roles/helper.rs]: the trait [DapAggregator] as a class over the state of its
    implementer, and the handlers of requests for the HPKE configuration, for
    aggregation jobs and for aggregate shares.  A handler runs in a world of the
    implementer's state, the calls of its metrics and its audit log, in order. *)

From S2P Require Import Prelude Codec Messages TaskprovMessages Errors Config AggShare Hpke.
From S2P Require Import Protocol Pine Taskprov.

(** ** The trait *)
Inductive MergeAggShareError : Type :=
| AlreadyCollected
| ReplaysDetected (replays : gset ReportId)
| MergeOther (e : DapError).

(** The calls of [AuditLog]. *)
Inductive audit_event : Type :=
| on_aggregation_job (task_id : TaskId) (task_config : DapTaskConfig) (report_count vdaf_step : N).

Section Trait.
Context `{BP : BuildProfile} `{PC : PrioCodec} `{PA : PrioAgg} `{VO : !VdafOps}.

(** [DapAggregator<S>] with its supertraits [HpkeProvider] and [DapReportInitializer];
    [St] is the state of the implementer. *)
Class DapAggregator (S St : Type) : Type := {
  get_hpke_config_for : DapVersion -> option TaskId -> stm St DapError HpkeConfig;
  can_hpke_decrypt : TaskId -> N -> stm St DapError bool;
  hpke_decrypt : St -> HpkeDecrypter;
  report_initializer : St -> DapReportInitializer;
  unauthorized_reason : DapTaskConfig -> DapRequest S -> stm St DapError (option detail);
  get_global_config : stm St DapError DapGlobalConfig;
  taskprov_vdaf_verify_key_init : St -> option (list byte);
  taskprov_collector_hpke_config : St -> option HpkeConfig;
  taskprov_opt_in : TaskId -> DapTaskConfigNeedsOptIn -> DapGlobalConfig ->
    stm St DapError DapTaskConfig;
  taskprov_put : DapRequest S -> DapTaskConfig -> stm St DapError unit;
  get_task_config_for : TaskId -> stm St DapError (option DapTaskConfig);
  get_current_time : St -> Time;
  is_batch_overlapping : TaskId -> BatchSelector -> stm St DapError bool;
  batch_exists : TaskId -> BatchId -> stm St DapError bool;
  (** infallible but for panics *)
  try_put_agg_share_span : TaskId -> DapTaskConfig -> DapAggregateSpan DapAggregateShare ->
    stm St DapError (DapAggregateSpan (option MergeAggShareError));
  get_agg_share : TaskId -> BatchSelector -> stm St DapError DapAggregateShare;
  mark_collected : TaskId -> BatchSelector -> stm St DapError unit;
}.
End Trait.

Record World (St : Type) : Type := MkWorld {
  w_store : St;
  w_metrics : metrics;
  w_audit : list audit_event;
}.
Arguments MkWorld {St}.
Arguments w_store {St}.
Arguments w_metrics {St}.
Arguments w_audit {St}.

Section World.
Context {St : Type}.

(** A method of the implementer. *)
Definition call {E A} (m : stm St E A) : stm (World St) E A := fun w =>
  let '(r, s) := m (w_store w) in (r, MkWorld s (w_metrics w) (w_audit w)).

(** A function of the protocol that counts reports. *)
Definition with_metrics {E A} (m : stm metrics E A) : stm (World St) E A := fun w =>
  let '(r, ms) := m (w_metrics w) in (r, MkWorld (w_store w) ms (w_audit w)).

Definition inc {E} (e : metric_event) : stm (World St) E unit := with_metrics (observe e).
Definition audit {E} (e : audit_event) : stm (World St) E unit := fun w =>
  (Ok tt, MkWorld (w_store w) (w_metrics w) (w_audit w ++ [e])).

(** A read of the implementer's state. *)
Definition read {E A} (f : St -> A) : stm (World St) E A := fun w => (Ok (f (w_store w)), w).
End World.

(** [map_err(DapError::Abort)], the conversion of [?]. *)
Definition abort {S A} (m : res DapAbort A) : stm S DapError A := lift (map_err Abort_ m).
Definition fail_abort {S A} (a : DapAbort) : stm S DapError A := throw (Abort_ a).

(** The [report_status] of the Helper's loop. *)
Abbreviation report_statuses := (gmap ReportId ReportProcessedStatus).

(** ** Common checks: [roles/mod.rs] *)
Section Common.
Context `{BP : BuildProfile} `{PC : PrioCodec} `{PA : PrioAgg} `{VO : !VdafOps} `{Dg : Digest}
  `{HC : HpkeCrypto} `{HK : Hkdf} `{B64 : Base64} `{UP : UrlParser} `{PF : PineFields}.
Context {S St : Type} `{DA : !DapAggregator S St}.

Definition check_batch (task_config : DapTaskConfig) (task_id : TaskId) (query : Query)
    (agg_param : list byte) (now : Time) (global_config : DapGlobalConfig) :
    stm (World St) DapError unit :=
  if negb (is_valid_agg_param (DapTaskConfig_vdaf task_config) agg_param) then
    fail_abort (Abort_InvalidMessage (Text "invalid aggregation parameter") task_id)
  else
  _ ← match DapTaskConfig_query task_config, query with
      | QC_TimeInterval, Query_TimeInterval batch_interval =>
          let start := Interval_start batch_interval in
          let duration := Interval_duration batch_interval in
          let time_precision := DapTaskConfig_time_precision task_config in
          r1 ← lift (u64_rem start time_precision);
          bad ← (if negb (r1 =? 0) then mret true
                 else
                   r2 ← lift (u64_rem duration time_precision);
                   mret (negb (r2 =? 0) || (duration <? time_precision)));
          if bad : bool then
            fail_abort (BatchInvalid (Fmt
              "The queried batch interval ({batch_interval:?}) is too small or its boundaries are misaligned. The time precision for this task is {}s."
              [ArgOpaque; ArgNum time_precision]) task_id)
          else if DapGlobalConfig_max_batch_duration global_config <? duration then
            fail_abort (BadRequest (Text "batch interval too large"))
          else if DapGlobalConfig_min_batch_interval_start global_config
                  <? u64_abs_diff now start then
            fail_abort (BadRequest (Text "batch interval too far into past"))
          else
            end_ ← lift (Interval_end batch_interval);
            if DapGlobalConfig_max_batch_interval_end global_config <? u64_abs_diff now end_ then
              fail_abort (BadRequest (Text "batch interval too far into future"))
            else mret tt
      | QC_FixedSize _, Query_FixedSizeCurrentBatch => mret tt
      | QC_FixedSize _, Query_FixedSizeByBatchId batch_id =>
          b ← call (batch_exists task_id batch_id);
          if negb b then
            fail_abort (BatchInvalid (Fmt "The queried batch ({}) does not exist."
              [ArgBytes batch_id]) task_id)
          else mret tt
      | _, _ =>
          fail_abort (query_mismatch task_id
            (ArgStr (DapQueryConfig_to_string (DapTaskConfig_query task_config))) ArgOpaque)
      end;
  match Query_into_batch_sel query with
  | Some batch_sel =>
      b ← call (is_batch_overlapping task_id batch_sel);
      if b : bool then fail_abort (batch_overlap task_id ArgOpaque) else mret tt
  | None => mret tt
  end.

Definition check_request_content_type (req : DapRequest S) (expected : DapMediaType) :
    res DapAbort unit :=
  if bool_decide (DapRequest_media_type req = Some expected) then Ok tt
  else a ← content_type req expected; Err a.

Definition resolve_taskprov (task_id : TaskId) (req : DapRequest S)
    (global_config : DapGlobalConfig) : stm (World St) DapError unit :=
  o ← call (get_task_config_for task_id);
  match o with
  | Some _ => mret tt
  | None =>
      verify_key_init ← read taskprov_vdaf_verify_key_init;
      match verify_key_init with
      | None => mret tt
      | Some vdaf_verify_key_init =>
          collector ← read taskprov_collector_hpke_config;
          match collector with
          | None => mret tt
          | Some collector_hpke_config =>
              o ← abort (resolve_advertised_task_config req vdaf_verify_key_init
                           collector_hpke_config task_id);
              match o with
              | None => mret tt
              | Some task_config =>
                  task_config ← call (taskprov_opt_in task_id task_config global_config);
                  call (taskprov_put req task_config)
              end
          end
      end
  end.

(** [roles/aggregator.rs] *)
Definition handle_hpke_config_req (req : DapRequest S) (task_id : option TaskId) :
    stm (World St) DapError DapResponse :=
  hpke_config ← call (get_hpke_config_for (DapRequest_version req) task_id);
  _ ← match task_id with
      | Some task_id =>
          o ← call (get_task_config_for task_id);
          task_config ← lift (ok_or o (Abort_ (UnrecognizedTask task_id)));
          if bool_decide (DapTaskConfig_version task_config = DapRequest_version req) then mret tt
          else fail_abort (version_mismatch (DapRequest_version req)
                             (DapTaskConfig_version task_config))
      | None => mret tt
      end;
  payload ← lift (map_err DapError_encoding
    (get_encoded HpkeConfigList_encode (MkHpkeConfigList [hpke_config])));
  _ ← inc (inbound_req_inc RT_HpkeConfig);
  mret (MkDapResponse (DapRequest_version req) MT_HpkeConfigList payload).

(** The configuration of the task a request is for, if the request is authorized. *)
Definition get_authorized_task_config (task_id : TaskId) (req : DapRequest S) :
    stm (World St) DapError DapTaskConfig :=
  o ← call (get_task_config_for task_id);
  task_config ← lift (ok_or o (Abort_ (UnrecognizedTask task_id)));
  reason ← call (unauthorized_reason task_config req);
  match reason with
  | Some reason => fail_abort (UnauthorizedRequest reason task_id)
  | None => mret task_config
  end.

Definition check_version (task_config : DapTaskConfig) (req : DapRequest S) :
    stm (World St) DapError unit :=
  if bool_decide (DapTaskConfig_version task_config = DapRequest_version req) then mret tt
  else fail_abort (version_mismatch (DapRequest_version req) (DapTaskConfig_version task_config)).

(** ** The Helper: [roles/helper.rs] *)
Definition check_part_batch (task_id : TaskId) (task_config : DapTaskConfig)
    (part_batch_sel : PartialBatchSelector) (agg_param : list byte) : res DapAbort unit :=
  if negb (is_valid_part_batch_sel (DapTaskConfig_query task_config) part_batch_sel) then
    Err (query_mismatch task_id
      (ArgStr (DapQueryConfig_to_string (DapTaskConfig_query task_config))) ArgOpaque)
  else if negb (is_valid_agg_param (DapTaskConfig_vdaf task_config) agg_param) then
    Err (Abort_InvalidMessage (Text "invalid aggregation parameter") task_id)
  else Ok tt.

(** [report_status.extend(ids.map(|id| (id, status)))] *)
Definition extend_status (report_status : report_statuses) (ids : list ReportId)
    (status : ReportProcessedStatus) : report_statuses :=
  foldl (fun m id => <[id := status]> m) report_status ids.

(** [inc_restart_metric.call_once(|| metrics.agg_job_put_span_retry_inc())] *)
Definition call_once (completed : bool) : stm (World St) DapError bool :=
  if completed then mret true
  else _ ← inc agg_job_put_span_retry_inc; mret true.

(** The loop over the results of [try_put_agg_share_span]; the [Once] is the flag. *)
Fixpoint process_put_results (report_status : report_statuses) (restart : bool)
    (results : list (DapBatchBucket * (option MergeAggShareError * list (ReportId * Time)))) :
    stm (World St) DapError (report_statuses * bool) :=
  match results with
  | [] => mret (report_status, restart)
  | (_, (None, reports)) :: results =>
      process_put_results (extend_status report_status reports.*1 Processed_Aggregated) restart
        results
  | (_, (Some (ReplaysDetected replays), _)) :: results =>
      restart ← call_once restart;
      process_put_results
        (extend_status report_status (elements replays) (Processed_Rejected ReportReplayed))
        restart results
  | (_, (Some AlreadyCollected, reports)) :: results =>
      restart ← call_once restart;
      process_put_results
        (extend_status report_status reports.*1 (Processed_Rejected BatchCollected))
        restart results
  | (_, (Some (MergeOther other), _)) :: _ => throw other
  end.

(** [metrics.report_inc_by(ReportStatus::Rejected(failure), 1)] for every failure. *)
Fixpoint count_failures (transitions : list Transition) : stm (World St) DapError unit :=
  match transitions with
  | [] => mret tt
  | t :: transitions =>
      _ ← match Transition_var t with
          | Failed failure => inc (report_inc_by (RS_Rejected failure) 1)
          | Continued _ => mret tt
          end;
      count_failures transitions
  end.

Definition is_continued (t : Transition) : bool :=
  match Transition_var t with Continued _ => true | Failed _ => false end.

Definition RETRY_COUNT : nat := 3.

Fixpoint finish_agg_job_loop (tries : nat) (task_id : TaskId) (task_config : DapTaskConfig)
    (part_batch_sel : PartialBatchSelector)
    (initialized_reports : list EarlyReportStateInitialized) (report_status : report_statuses) :
    stm (World St) DapError AggregationJobResp :=
  match tries with
  | O => fail_abort (BadRequest (Text "aggregation job contained too many replays"))
  | Datatypes.S tries =>
      '(agg_span, agg_job_resp) ←
        lift (produce_agg_job_resp task_config report_status part_batch_sel initialized_reports);
      put_shares_result ← call (try_put_agg_share_span task_id task_config agg_span);
      '(report_status, restart) ←
        process_put_results report_status false (map_to_list put_shares_result);
      if negb restart then
        let transitions := AggregationJobResp_transitions agg_job_resp in
        _ ← inc (report_inc_by RS_Aggregated (len (filter is_continued transitions)));
        _ ← count_failures transitions;
        mret agg_job_resp
      else
        finish_agg_job_loop tries task_id task_config part_batch_sel initialized_reports
          report_status
  end.

Definition finish_agg_job_and_aggregate (task_id : TaskId) (task_config : DapTaskConfig)
    (part_batch_sel : PartialBatchSelector)
    (initialized_reports : list EarlyReportStateInitialized) :
    stm (World St) DapError AggregationJobResp :=
  finish_agg_job_loop RETRY_COUNT task_id task_config part_batch_sel initialized_reports ∅.

Definition handle_agg_job_init_req (req : DapRequest S) (replay_protection : ReplayProtection) :
    stm (World St) DapError DapResponse :=
  global_config ← call get_global_config;
  task_id ← abort (get_task_id req);
  agg_job_init_req ← abort (map_err (fun e => from_codec_error e task_id)
    (get_decoded (AggregationJobInitReq_decode (DapRequest_version req)) (DapRequest_payload req)));
  _ ← inc (agg_job_observe_batch_size (len (AggregationJobInitReq_prep_inits agg_job_init_req)));
  _ ← (if DapGlobalConfig_allow_taskprov global_config
       then resolve_taskprov task_id req global_config else mret tt);
  task_config ← get_authorized_task_config task_id req;
  _ ← match DapRequest_resource req with
      | AggregationJob _ => mret tt
      | _ => fail_abort (BadRequest (Text "missing aggregation job ID"))
      end;
  _ ← check_version task_config req;
  _ ← abort (check_part_batch task_id task_config
               (AggregationJobInitReq_part_batch_sel agg_job_init_req)
               (AggregationJobInitReq_agg_param agg_job_init_req));
  decrypter ← read hpke_decrypt;
  initializer ← read report_initializer;
  initialized_reports ← lift (consume_agg_job_req task_config decrypter initializer task_id
                                agg_job_init_req replay_protection);
  agg_job_resp ← finish_agg_job_and_aggregate task_id task_config
    (AggregationJobInitReq_part_batch_sel agg_job_init_req) initialized_reports;
  _ ← inc agg_job_started_inc;
  _ ← inc agg_job_completed_inc;
  _ ← audit (on_aggregation_job task_id task_config
               (len (AggregationJobResp_transitions agg_job_resp)) 0);
  _ ← inc (inbound_req_inc RT_Aggregate);
  payload ← lift (map_err DapError_encoding (get_encoded AggregationJobResp_encode agg_job_resp));
  mret (MkDapResponse (DapRequest_version req) MT_AggregationJobResp payload).

Definition handle_agg_job_req (req : DapRequest S) (replay_protection : ReplayProtection) :
    stm (World St) DapError DapResponse :=
  match DapRequest_media_type req with
  | Some MT_AggregationJobInitReq => handle_agg_job_init_req req replay_protection
  | _ => fail_abort (BadRequest (Text "unexpected media type"))
  end.

(** [is_report_count_compatible(..).unwrap_or(false)] *)
Definition report_count_compatible_or_false (task_config : DapTaskConfig) (task_id : TaskId)
    (report_count : N) : bool :=
  match is_report_count_compatible task_config task_id report_count with
  | Ok b => b
  | _ => false
  end.

(** [seed] is the randomness of the encryption to the Collector. *)
Definition handle_agg_share_req (seed : list byte) (req : DapRequest S) :
    stm (World St) DapError DapResponse :=
  global_config ← call get_global_config;
  now ← read get_current_time;
  task_id ← abort (get_task_id req);
  _ ← abort (check_request_content_type req MT_AggregateShareReq);
  _ ← (if DapGlobalConfig_allow_taskprov global_config
       then resolve_taskprov task_id req global_config else mret tt);
  task_config ← get_authorized_task_config task_id req;
  _ ← check_version task_config req;
  agg_share_req ← abort (map_err (fun e => from_codec_error e task_id)
    (get_decoded (AggregateShareReq_decode (DapRequest_version req)) (DapRequest_payload req)));
  agg_param ← abort (map_err (fun e => from_codec_error e task_id)
    (get_decoded (DapAggregationParam_decode (DapTaskConfig_vdaf task_config))
       (AggregateShareReq_agg_param agg_share_req)));
  let batch_sel := AggregateShareReq_batch_sel agg_share_req in
  _ ← check_batch task_config task_id (Query_from batch_sel)
        (AggregateShareReq_agg_param agg_share_req) now global_config;
  agg_share ← call (get_agg_share task_id batch_sel);
  let report_count := DapAggregateShare_report_count agg_share in
  if negb (AggregateShareReq_report_count agg_share_req =? report_count)
     || negb (constant_time_eq (AggregateShareReq_checksum agg_share_req)
                (DapAggregateShare_checksum agg_share)) then
    fail_abort (BatchMismatch (Fmt
      "Either the report count or checksum does not match: the Leader computed {} and {}; the Helper computed {} and {}."
      [ArgNum (AggregateShareReq_report_count agg_share_req);
       ArgBytes (AggregateShareReq_checksum agg_share_req);
       ArgNum report_count; ArgBytes (DapAggregateShare_checksum agg_share)]) task_id)
  else if negb (report_count_compatible_or_false task_config task_id report_count) then
    fail_abort (InvalidBatchSize (Fmt "Report count ({}) is less than minimum ({})"
      [ArgNum report_count; ArgNum (DapTaskConfig_min_batch_size task_config)]) task_id)
  else
  _ ← call (mark_collected task_id batch_sel);
  encrypted_agg_share ← lift (produce_helper_encrypted_agg_share seed task_config
    (DapTaskConfig_collector_hpke_config task_config) task_id batch_sel agg_param agg_share
    (DapTaskConfig_version task_config));
  _ ← inc (report_inc_by RS_Collected (AggregateShareReq_report_count agg_share_req));
  _ ← inc (inbound_req_inc RT_Collect);
  payload ← lift (map_err DapError_encoding
    (get_encoded AggregateShare_encode (MkAggregateShare encrypted_agg_share)));
  mret (MkDapResponse (DapRequest_version req) MT_AggregateShare payload).
End Common.
