(* ===== verification/HelperCorrect.v ===== *)
(** * The Helper aggregates what it answers

    The contract between the Helper and the storage of aggregate shares, as the
    class [AggShareStorage], and what the handlers of [Roles] guarantee against it: the
    reports the Helper tells the Leader to continue are in its aggregate exactly once,
    the loop over retries ends with an answer, a batch is released only when both
    Aggregators hold the same reports. *)

From S2P Require Import Prelude Codec Messages TaskprovMessages Errors Config AggShare Hpke.
From S2P Require Import Protocol ProtocolCorrect Pine Taskprov Roles.

(** ** The storage of aggregate shares

    What [try_put_agg_share_span] promises, bucket by bucket. *)
Section Interface.
Context `{BP : BuildProfile} `{PC : PrioCodec} `{PA : PrioAgg} `{VO : !VdafOps}.

Record bucket_state : Type := MkBucketState {
  bs_share : DapAggregateShare;
  bs_reports : gset ReportId;
  bs_collected : bool;
}.

(** What a bucket goes through when a share with the given reports is put. *)
Inductive put_outcome (share : DapAggregateShare) (ids : list ReportId) (s s' : bucket_state) :
    option MergeAggShareError -> Prop :=
| put_merged :
    bs_collected s = false -> (forall id, id ∈ ids -> id ∉ bs_reports s) ->
    DapAggregateShare_merge (bs_share s) share = Ok (bs_share s') ->
    bs_reports s' = bs_reports s ∪ list_to_set ids ->
    put_outcome share ids s s' None
| put_retried :
    (** every report was aggregated before: a job that is run again *)
    bs_collected s = false -> (forall id, id ∈ ids -> id ∈ bs_reports s) -> s' = s ->
    put_outcome share ids s s' None
| put_replayed replays :
    replays <> ∅ -> (forall id, id ∈ replays <-> id ∈ ids /\ id ∈ bs_reports s) -> s' = s ->
    put_outcome share ids s s' (Some (ReplaysDetected replays))
| put_collected :
    bs_collected s = true -> bs_share s' = bs_share s ->
    bs_reports s ⊆ bs_reports s' -> bs_reports s' ⊆ bs_reports s ∪ list_to_set ids ->
    put_outcome share ids s s' (Some AlreadyCollected)
| put_failed e :
    bs_share s' = bs_share s ->
    bs_reports s ⊆ bs_reports s' -> bs_reports s' ⊆ bs_reports s ∪ list_to_set ids ->
    put_outcome share ids s s' (Some (MergeOther e)).

Class AggShareStorage {S St} (DA : DapAggregator S St) : Type := {
  bucket : St -> TaskId -> DapBatchBucket -> bucket_state;
  (** every bucket of the span has a result with its reports, and nothing else changes *)
  put_results tid c span s res s' :
    try_put_agg_share_span tid c span s = (Ok res, s') ->
    forall b, match span !! b with
              | Some (share, reports) =>
                  exists r, res !! b = Some (r, reports) /\
                    put_outcome share reports.*1 (bucket s tid b) (bucket s' tid b) r
              | None => res !! b = None /\ bucket s' tid b = bucket s tid b
              end;
  put_other_tasks tid c span s res s' :
    try_put_agg_share_span tid c span s = (Ok res, s') ->
    forall tid' b, tid' <> tid -> bucket s' tid' b = bucket s tid' b;
  put_keeps_collected tid c span s res s' :
    try_put_agg_share_span tid c span s = (Ok res, s') ->
    forall b, bs_collected (bucket s' tid b) = bs_collected (bucket s tid b);
}.
End Interface.

(** ** Results of a put *)

(** The reports an entry of the result decides, and what it decides. *)
Definition entry_ids (e : option MergeAggShareError * list (ReportId * Time)) : list ReportId :=
  match e with
  | (None, reports) | (Some AlreadyCollected, reports) => reports.*1
  | (Some (ReplaysDetected replays), _) => elements replays
  | (Some (MergeOther _), _) => []
  end.

Definition entry_status (e : option MergeAggShareError * list (ReportId * Time)) :
    ReportProcessedStatus :=
  match e with
  | (None, _) => Processed_Aggregated
  | (Some AlreadyCollected, _) => Processed_Rejected BatchCollected
  | (Some _, _) => Processed_Rejected ReportReplayed
  end.

Definition entry_restarts (e : option MergeAggShareError * list (ReportId * Time)) : bool :=
  match e.1 with None => false | Some _ => true end.

Definition is_other (e : option MergeAggShareError * list (ReportId * Time)) : bool :=
  match e.1 with Some (MergeOther _) => true | _ => false end.

Definition update_statuses (σ : report_statuses)
    (l : list (DapBatchBucket * (option MergeAggShareError * list (ReportId * Time)))) :
    report_statuses :=
  foldl (fun σ e => extend_status σ (entry_ids e.2) (entry_status e.2)) σ l.

Lemma extend_status_lookup σ ids st id :
  extend_status σ ids st !! id = if decide (id ∈ ids) then Some st else σ !! id.
Proof.
  unfold extend_status. revert σ. induction ids as [|i ids IH]; intros σ.
  - rewrite decide_False; [done|]. apply not_elem_of_nil.
  - simpl. rewrite IH. destruct (decide (id ∈ ids)) as [H|H].
    + rewrite decide_True; [done|]. by right.
    + destruct (decide (i = id)) as [->|Hne].
      * rewrite lookup_insert_eq, decide_True; [done|]. by left.
      * rewrite lookup_insert_ne by done. rewrite decide_False; [done|].
        by intros [->|?]%elem_of_cons.
Qed.

Lemma update_statuses_out σ l id :
  (forall e, e ∈ l -> id ∉ entry_ids e.2) -> update_statuses σ l !! id = σ !! id.
Proof.
  unfold update_statuses. revert σ. induction l as [|e l IH]; intros σ H; [done|]. simpl.
  rewrite IH by (intros e' He'; apply H; by right).
  rewrite extend_status_lookup, decide_False; [done|]. apply H. by left.
Qed.

Lemma update_statuses_in σ l e id :
  e ∈ l -> id ∈ entry_ids e.2 ->
  (forall e', e' ∈ l -> id ∈ entry_ids e'.2 -> e' = e) ->
  update_statuses σ l !! id = Some (entry_status e.2).
Proof.
  revert σ. induction l as [|e0 l IH]; intros σ He Hid Huniq; [by apply not_elem_of_nil in He|].
  change (update_statuses (extend_status σ (entry_ids e0.2) (entry_status e0.2)) l !! id
          = Some (entry_status e.2)).
  destruct (decide (Exists (fun e' => id ∈ entry_ids e'.2) l)) as [Hl|Hl].
  - apply Exists_exists in Hl as (e' & He' & Hid').
    rewrite (Huniq e') in He' by (done || by right).
    apply IH; [done|done|]. intros e'' He''. apply Huniq. by right.
  - assert (forall e', e' ∈ l -> id ∉ entry_ids e'.2) as Hout.
    { intros e' He' Hid'. apply Hl, Exists_exists. by exists e'. }
    apply elem_of_cons in He as [<-|He]; [|by apply Hout in He].
    rewrite update_statuses_out by done. by rewrite extend_status_lookup, decide_True.
Qed.

Section Process.
Context {St : Type}.

Lemma call_once_spec b (w : World St) r w' :
  call_once b w = (r, w') -> r = Ok true /\ w_store w' = w_store w.
Proof.
  unfold call_once. destruct b; [by intros [= <- <-]|]. cbn.
  unfold mbind, stm_bind, inc, with_metrics, observe, modify. simpl. by intros [= <- <-].
Qed.

Lemma process_spec σ restart l (w : World St) σ' restart' w' :
  process_put_results σ restart l w = (Ok (σ', restart'), w') ->
  w_store w' = w_store w /\ (forall e, e ∈ l -> is_other e.2 = false) /\
  σ' = update_statuses σ l /\ restart' = restart || existsb (fun e => entry_restarts e.2) l.
Proof.
  revert σ restart w. induction l as [|[b [[[|R|err]|] reps]] l IH]; intros σ restart w H.
  - injection H as <- <- <-. rewrite orb_false_r. split_and!; [done| |done|done].
    by intros e ?%not_elem_of_nil.
  - cbn [process_put_results] in H. apply stm_bind_Ok in H as (r & w1 & H1 & H).
    apply call_once_spec in H1 as [[= ->] Hw]. apply IH in H as (Hw' & Ho & -> & ->).
    split_and!; [congruence| |done|by destruct restart].
    by intros e [->|He]%elem_of_cons; [|apply Ho].
  - cbn [process_put_results] in H. apply stm_bind_Ok in H as (r & w1 & H1 & H).
    apply call_once_spec in H1 as [[= ->] Hw]. apply IH in H as (Hw' & Ho & -> & ->).
    split_and!; [congruence| |done|by destruct restart].
    by intros e [->|He]%elem_of_cons; [|apply Ho].
  - done.
  - cbn [process_put_results] in H. apply IH in H as (Hw' & Ho & -> & ->).
    split_and!; [done| |done|done]. by intros e [->|He]%elem_of_cons; [|apply Ho].
Qed.

(** Without storage errors the loop over the results goes through. *)
Lemma process_total σ restart l (w : World St) :
  (forall e, e ∈ l -> is_other e.2 = false) ->
  exists σ' restart' w', process_put_results σ restart l w = (Ok (σ', restart'), w').
Proof.
  revert σ restart w. induction l as [|[b [[[|R|err]|] reps]] l IH]; intros σ restart w Ho.
  - by repeat eexists.
  - cbn [process_put_results]. unfold mbind at 1, stm_bind at 1.
    destruct (call_once restart w) as [r w1] eqn:H1. apply call_once_spec in H1 as [-> _].
    apply IH. intros e He. apply Ho. by right.
  - cbn [process_put_results]. unfold mbind at 1, stm_bind at 1.
    destruct (call_once restart w) as [r w1] eqn:H1. apply call_once_spec in H1 as [-> _].
    apply IH. intros e He. apply Ho. by right.
  - specialize (Ho (b, (Some (MergeOther err), reps)) ltac:(by left)). done.
  - cbn [process_put_results]. apply IH. intros e He. apply Ho. by right.
Qed.

Lemma process_other σ restart l (w : World St) :
  Exists (fun e => is_other e.2 = true) l ->
  exists e w', process_put_results σ restart l w = (Err e, w').
Proof.
  revert σ restart w. induction l as [|[b [[[|R|err]|] reps]] l IH]; intros σ restart w He.
  - by apply Exists_nil in He.
  - apply Exists_cons in He as [?|He]; [done|]. cbn [process_put_results].
    unfold mbind at 1, stm_bind at 1.
    destruct (call_once restart w) as [r w1] eqn:H1. apply call_once_spec in H1 as [-> _].
    by apply IH.
  - apply Exists_cons in He as [?|He]; [done|]. cbn [process_put_results].
    unfold mbind at 1, stm_bind at 1.
    destruct (call_once restart w) as [r w1] eqn:H1. apply call_once_spec in H1 as [-> _].
    by apply IH.
  - cbn. by repeat eexists.
  - apply Exists_cons in He as [?|He]; [done|]. by apply IH.
Qed.

Lemma count_failures_ok trs (w : World St) :
  exists w', count_failures trs w = (Ok tt, w') /\ w_store w' = w_store w.
Proof.
  revert w. induction trs as [|t trs IH]; intros w; [by eexists|].
  cbn [count_failures]. unfold mbind, stm_bind. destruct (Transition_var t).
  - destruct (IH w) as (w' & E & Hw). exists w'. by split.
  - unfold inc, with_metrics, observe, modify. simpl.
    match goal with |- context [count_failures trs ?w1] => destruct (IH w1) as (w' & E & Hw) end.
    exists w'. by split.
Qed.
End Process.

(** ** One round of the loop *)
Section Round.
Context `{BP : BuildProfile} `{PC : PrioCodec} `{PA : PrioAgg} `{VO : !VdafOps} `{Dg : Digest}.
Context {PL : PrioAggLaws PA} {DL : DigestLaws Dg}.
Context (c : DapTaskConfig) (part : PartialBatchSelector).

(** The Helper has an output share for the report. *)
Definition finishes (r : EarlyReportStateInitialized) : bool :=
  match r with
  | Initialized_Ready _ _ (Some leader_prep_share) prep_share prep_state =>
      is_ok (vdaf_prep_finish_from_shares (DapTaskConfig_vdaf c) 1 prep_state prep_share
               leader_prep_share)
  | _ => false
  end.

Definition not_rejected (σ : report_statuses) (r : EarlyReportStateInitialized) : bool :=
  match σ !! (report_key r).1 with Some (Processed_Rejected _) => false | _ => true end.

Definition undecided (σ : report_statuses) (r : EarlyReportStateInitialized) : bool :=
  match σ !! (report_key r).1 with None => true | _ => false end.

(** The reports put in a round. *)
Definition fresh (σ : report_statuses) (reports : list EarlyReportStateInitialized) :
    list (ReportId * Time) :=
  report_key <$> filter (fun r => undecided σ r && finishes r) reports.

Lemma finish_report_var σ span r span' var :
  finish_report c σ part span r = Ok (span', var) ->
  match var with Continued _ => true | Failed _ => false end = not_rejected σ r && finishes r.
Proof.
  unfold finish_report, not_rejected, finishes.
  change (ReportMetadata_id (Initialized_metadata r)) with (report_key r).1.
  intros H. destruct (σ !! (report_key r).1) as [[|f]|]; [| |].
  - destruct r as [md pub [lps|] ps pst|md f]; [|done|by injection H as <- <-].
    destruct (vdaf_prep_finish_from_shares _ _ _ _ _) as [[data msg]|[| |]|];
      try done; try (by injection H as <- <-).
    cbn [mbind res_bind] in H. by apply bind_Ok in H as (out & _ & [= <- <-]).
  - by injection H as <- <-.
  - destruct r as [md pub [lps|] ps pst|md f]; [|done|by injection H as <- <-].
    destruct (vdaf_prep_finish_from_shares _ _ _ _ _) as [[data msg]|[| |]|];
      try done; try (by injection H as <- <-).
    apply bind_Ok in H as (span1 & _ & H). by apply bind_Ok in H as (out & _ & [= <- <-]).
Qed.

Lemma finish_reports_vars σ span reports span' trs :
  finish_reports c σ part span reports = Ok (span', trs) ->
  is_continued <$> trs = (fun r => not_rejected σ r && finishes r) <$> reports.
Proof.
  revert span trs. induction reports as [|r reports IH]; intros span trs H.
  - by injection H as <- <-.
  - cbn [finish_reports] in H. apply bind_Ok in H as ([span1 var] & H1 & H).
    apply bind_Ok in H as ([span2 trs'] & H2 & [= <- <-]).
    rewrite !fmap_cons. f_equal; [|by eapply IH]. by apply finish_report_var in H1.
Qed.

Lemma helper_counted_fresh σ reports trs :
  is_continued <$> trs = (fun r => not_rejected σ r && finishes r) <$> reports ->
  helper_counted σ (zip reports trs) = fresh σ reports.
Proof.
  unfold fresh. revert trs. induction reports as [|r reports IH]; intros [|t trs] H; try done.
  rewrite !fmap_cons in H. injection H as Ht H.
  cbn [zip zip_with]. rewrite helper_counted_cons, (IH trs H).
  unfold helper_counted. cbn [omap list_omap]. unfold is_continued in Ht.
  rewrite filter_cons. unfold not_rejected, undecided in *.
  destruct (σ !! (report_key r).1) as [[|]|] eqn:Hσ; cbn [andb] in *.
  - by rewrite decide_False by (intros []).
  - by rewrite decide_False by (intros []).
  - destruct (Transition_var t), (finishes r); try done.
Qed.

(** What a round puts, and what it answers. *)
Lemma produce_spec σ reports span resp :
  len reports <= u64_max ->
  produce_agg_job_resp c σ part reports = Ok (span, resp) ->
  is_continued <$> AggregationJobResp_transitions resp
  = (fun r => not_rejected σ r && finishes r) <$> reports /\
  exists items, span_represents span items /\ well_bucketed c part items /\
    item_key <$> items = fresh σ reports /\ Forall (computed_from c reports) items.
Proof.
  intros Hmax H. unfold produce_agg_job_resp in H.
  apply bind_Ok in H as ([span' trs] & H & [= <- <-]).
  pose proof (finish_reports_vars _ _ _ _ _ H) as Hv. split; [done|].
  destruct (finish_reports_spec _ _ _ _ _ [] _ _ span_represents_empty Hmax H)
    as (_ & items & Hs & Hb & Hk & Hc).
  exists items. split_and!; [done|done| |done]. by rewrite Hk, helper_counted_fresh.
Qed.
End Round.

(** ** The invariant of the loop *)
Lemma NoDup_fmap_filter {A B} (f : A -> B) (P : A -> bool) l :
  NoDup (f <$> l) -> NoDup (f <$> filter P l).
Proof.
  induction l as [|x l IH]; [done|]. rewrite fmap_cons, NoDup_cons, filter_cons.
  intros [Hx Hl]. case_decide; [|by apply IH]. rewrite fmap_cons, NoDup_cons.
  split; [|by apply IH]. intros (y & E & [_ Hy]%list_elem_of_filter)%list_elem_of_fmap.
  apply Hx, list_elem_of_fmap. by exists y.
Qed.

Lemma NoDup_fmap_eq {A B} (f : A -> B) l x y :
  NoDup (f <$> l) -> x ∈ l -> y ∈ l -> f x = f y -> x = y.
Proof.
  induction l as [|z l IH]; [by intros _ ?%not_elem_of_nil|].
  rewrite fmap_cons, NoDup_cons. intros [Hz Hl] Hx Hy E.
  apply elem_of_cons in Hx as [->|Hx], Hy as [->|Hy]; [done| | |by apply IH].
  - destruct Hz. rewrite E. apply list_elem_of_fmap. by exists y.
  - destruct Hz. rewrite <-E. apply list_elem_of_fmap. by exists x.
Qed.

Section Loop.
Context `{BP : BuildProfile} `{PC : PrioCodec} `{PA : PrioAgg} `{VO : !VdafOps} `{Dg : Digest}.
Context {PL : PrioAggLaws PA} {DL : DigestLaws Dg}.
Context {S St : Type} {DA : DapAggregator S St} {AS : AggShareStorage DA}.
Context (tid : TaskId) (c : DapTaskConfig) (part : PartialBatchSelector)
  (reports : list EarlyReportStateInitialized).

Definition item_id (i : DapBatchBucket * out_share) : ReportId := out_id i.2.
Definition report_ids : list ReportId := (fun r => (report_key r).1) <$> reports.

Record loop_inv (s0 s : St) (σ : report_statuses) (C : list (DapBatchBucket * out_share)) :
    Prop := {
  inv_shares b l0 :
    represents (bs_share (bucket s0 tid b)) l0 -> len l0 + len reports <= u64_max ->
    represents (bs_share (bucket s tid b)) (l0 ++ items_of b C);
  inv_buckets : well_bucketed c part C;
  inv_computed : Forall (computed_from c reports) C;
  inv_nodup : NoDup (item_id <$> C);
  inv_items i : i ∈ C ->
    σ !! item_id i = Some Processed_Aggregated /\
    (item_id i ∉ bs_reports (bucket s0 tid i.1)) /\
    (item_id i ∈ bs_reports (bucket s tid i.1)) /\
    exists r, r ∈ reports /\ report_key r = item_key i /\ finishes c r = true;
  inv_aggregated id : σ !! id = Some Processed_Aggregated ->
    (exists i, i ∈ C /\ item_id i = id) \/
    exists r b, r ∈ reports /\ (report_key r).1 = id /\ finishes c r = true /\
      bucket_for (E:=DapError) c part id (report_key r).2 = Ok b /\
      id ∈ bs_reports (bucket s0 tid b);
  inv_reports b id : id ∈ bs_reports (bucket s tid b) ->
    id ∈ bs_reports (bucket s0 tid b) \/ is_Some (σ !! id);
  inv_reports_mono b : bs_reports (bucket s0 tid b) ⊆ bs_reports (bucket s tid b);
  inv_collected b : bs_collected (bucket s tid b) = bs_collected (bucket s0 tid b);
}.

Lemma loop_inv_start s0 : loop_inv s0 s0 ∅ [].
Proof.
  split; try done.
  - intros b l0 H _. by rewrite app_nil_r.
  - constructor.
  - constructor.
  - by intros i ?%not_elem_of_nil.
  - intros b id H. by left.
Qed.

(** One round: what is put, and what the storage answers. *)
Section Step.
Context (σ : report_statuses) (span : DapAggregateSpan DapAggregateShare)
  (items : list (DapBatchBucket * out_share)) (s s' : St)
  (res : DapAggregateSpan (option MergeAggShareError)).
Hypothesis Hnodup : NoDup report_ids.
Hypothesis Hspan : span_represents span items.
Hypothesis Hitems : item_key <$> items = fresh c σ reports.
Hypothesis Hput : try_put_agg_share_span tid c span s = (Ok res, s').
Let σ' := update_statuses σ (map_to_list res).

Lemma item_report i :
  i ∈ items -> exists r, r ∈ reports /\ report_key r = item_key i /\
    σ !! item_id i = None /\ finishes c r = true.
Proof.
  intros Hi. assert (item_key i ∈ fresh c σ reports) as H
    by (rewrite <-Hitems; apply list_elem_of_fmap; eauto).
  apply list_elem_of_fmap in H as (r & E & [[Hu Hf]%Is_true_true%andb_prop Hr]%list_elem_of_filter).
  exists r. split_and!; [done|done| |done]. unfold undecided in Hu.
  change (item_id i) with (item_key i).1. rewrite E. by destruct (σ !! (report_key r).1).
Qed.

Lemma report_item r :
  r ∈ reports -> σ !! (report_key r).1 = None -> finishes c r = true ->
  exists i, i ∈ items /\ item_key i = report_key r.
Proof.
  intros Hr Hu Hf. assert (report_key r ∈ item_key <$> items) as H.
  { rewrite Hitems. apply list_elem_of_fmap. exists r. split; [done|].
    apply list_elem_of_filter. unfold undecided. by rewrite Hu, Hf. }
  apply list_elem_of_fmap in H as (i & E & Hi). by exists i.
Qed.

Lemma items_NoDup : NoDup (item_id <$> items).
Proof.
  assert (item_id <$> items = fst <$> fresh c σ reports) as ->
    by (rewrite <-Hitems, <-list_fmap_compose; done).
  unfold fresh. rewrite <-list_fmap_compose. by apply NoDup_fmap_filter.
Qed.

Lemma span_items b share reps :
  span !! b = Some (share, reps) ->
  represents share (items_of b items) /\ reps.*1 = out_id <$> items_of b items.
Proof.
  intros H. specialize (Hspan b). rewrite H in Hspan. destruct Hspan as (_ & Hr & ->).
  split; [done|]. by rewrite <-list_fmap_compose.
Qed.

(** The result for the bucket of an item that was put. *)
Lemma item_result b o :
  (b, o) ∈ items -> exists share reps r,
    span !! b = Some (share, reps) /\ res !! b = Some (r, reps) /\ out_id o ∈ reps.*1 /\
    put_outcome share reps.*1 (bucket s tid b) (bucket s' tid b) r.
Proof.
  intros Hi. apply elem_of_items_of in Hi.
  pose proof (put_results _ _ _ _ _ _ Hput b) as Hb.
  destruct (span !! b) as [[share reps]|] eqn:E.
  - destruct Hb as (r & Hres & Ho). exists share, reps, r. split_and!; [done|done| |done].
    destruct (span_items _ _ _ E) as [_ ->]. apply list_elem_of_fmap. by exists o.
  - specialize (Hspan b). rewrite E in Hspan. rewrite Hspan in Hi. by apply not_elem_of_nil in Hi.
Qed.

Lemma entry_item e id :
  e ∈ map_to_list res -> id ∈ entry_ids e.2 -> exists o, (e.1, o) ∈ items /\ out_id o = id.
Proof.
  destruct e as [b [r reps]]. intros He%elem_of_map_to_list Hid. simpl in *.
  pose proof (put_results _ _ _ _ _ _ Hput b) as Hb.
  destruct (span !! b) as [[share reps']|] eqn:E; [|destruct Hb as [Hb _]; congruence].
  destruct Hb as (r' & Hres & Ho). rewrite He in Hres. injection Hres as <- <-.
  assert (id ∈ reps.*1) as Hin.
  { destruct Ho as [| |R _ HR _| |]; simpl in Hid; try done;
      [by apply elem_of_elements, HR in Hid as []|by apply not_elem_of_nil in Hid]. }
  destruct (span_items _ _ _ E) as [_ Hreps]. rewrite Hreps in Hin.
  apply list_elem_of_fmap in Hin as (o & -> & Ho'). exists o.
  split; [by apply elem_of_items_of|done].
Qed.

(** What becomes of the status of an item, and of any other report. *)
Lemma item_status b o r reps :
  (b, o) ∈ items -> res !! b = Some (r, reps) ->
  σ' !! out_id o = if decide (out_id o ∈ entry_ids (r, reps))
                   then Some (entry_status (r, reps)) else None.
Proof.
  intros Hi Hres. unfold σ'.
  assert (forall e, e ∈ map_to_list res -> out_id o ∈ entry_ids e.2 -> e = (b, (r, reps))) as Huniq.
  { intros [b' e'] He Hid. destruct (entry_item _ _ He Hid) as (o' & Ho' & E). simpl in *.
    assert ((b', o') = (b, o)) as [= -> ->] by (by eapply NoDup_fmap_eq; [apply items_NoDup|..]).
    apply elem_of_map_to_list in He. rewrite Hres in He. by injection He as <-. }
  case_decide as Hid.
  - apply (update_statuses_in _ _ (b, (r, reps))); [by apply elem_of_map_to_list|done|].
    intros e' He' Hid'. by apply Huniq.
  - rewrite update_statuses_out.
    + by destruct (item_report _ Hi) as (_ & _ & _ & ? & _).
    + intros e He Hid'. rewrite (Huniq e He Hid') in Hid'. done.
Qed.

Lemma other_status id : (forall i, i ∈ items -> item_id i <> id) -> σ' !! id = σ !! id.
Proof.
  intros H. apply update_statuses_out. intros e He Hid.
  destruct (entry_item _ _ He Hid) as (o & Ho & E). by apply (H _ Ho).
Qed.

Lemma status_grows id : is_Some (σ !! id) -> σ' !! id = σ !! id.
Proof.
  intros [st H]. apply other_status. intros i Hi E.
  destruct (item_report _ Hi) as (_ & _ & _ & Hn & _). rewrite E in Hn. congruence.
Qed.
End Step.

(** The items of a round that the storage merged. *)
Definition merged_item (s : St) (res : DapAggregateSpan (option MergeAggShareError))
    (i : DapBatchBucket * out_share) : bool :=
  match res !! i.1 with
  | Some (None, _) => bool_decide (item_id i ∉ bs_reports (bucket s tid i.1))
  | _ => false
  end.

Definition committed (s : St) (res : DapAggregateSpan (option MergeAggShareError))
    (items : list (DapBatchBucket * out_share)) : list (DapBatchBucket * out_share) :=
  filter (merged_item s res) items.

Section Preserved.
Context (s0 : St) (σ : report_statuses) (span : DapAggregateSpan DapAggregateShare)
  (items C : list (DapBatchBucket * out_share)) (s s' : St)
  (res : DapAggregateSpan (option MergeAggShareError)).
Hypothesis Hnodup : NoDup report_ids.
Hypothesis Hspan : span_represents span items.
Hypothesis Hitems : item_key <$> items = fresh c σ reports.
Hypothesis Hput : try_put_agg_share_span tid c span s = (Ok res, s').
Hypothesis Hno : forall e, e ∈ map_to_list res -> is_other e.2 = false.
Hypothesis Hinv : loop_inv s0 s σ C.
Let σ' := update_statuses σ (map_to_list res).

Lemma committed_spec b o :
  (b, o) ∈ committed s res items <->
  (b, o) ∈ items /\ (out_id o ∉ bs_reports (bucket s tid b)) /\ exists reps, res !! b = Some (None, reps).
Proof.
  unfold committed. rewrite list_elem_of_filter. unfold merged_item. cbn.
  destruct (res !! b) as [[[e|] reps]|].
  - split; [by intros [[] _]|]. by intros (_ & _ & reps' & [=]).
  - rewrite bool_decide_spec. split; [intros [? ?]; eauto|]. by intros (? & ? & _).
  - split; [by intros [[] _]|]. by intros (_ & _ & reps' & [=]).
Qed.

(** The shares of the buckets. *)
Lemma shares_step b l :
  represents (bs_share (bucket s tid b)) l -> len l + len (items_of b items) <= u64_max ->
  represents (bs_share (bucket s' tid b)) (l ++ items_of b (committed s res items)).
Proof.
  intros Hl Hmax. pose proof (put_results _ _ _ _ _ _ Hput b) as Hb.
  destruct (span !! b) as [[share reps]|] eqn:E.
  - destruct Hb as (r & Hres & Ho). destruct (span_items _ _ Hspan _ _ _ E) as [Hr Hreps].
    assert (forall o, (b, o) ∈ items -> out_id o ∈ reps.*1) as Hin.
    { intros o Hi%elem_of_items_of. rewrite Hreps. apply list_elem_of_fmap. by exists o. }
    destruct Ho as [_ Hfresh Hm _|_ Hold Hs|R _ _ Hs|_ Hs _ _|e Hs _ _].
    + unfold committed. rewrite items_of_filter_all.
      * by eapply merge_Ok_represents.
      * intros o Hi. unfold merged_item. cbn. rewrite Hres. apply bool_decide_true. by apply Hfresh, Hin.
    + unfold committed. rewrite items_of_filter_none; [by rewrite app_nil_r, Hs|].
      intros o Hi. unfold merged_item. cbn. rewrite Hres. apply bool_decide_false. intros H. by apply H, Hold, Hin.
    + unfold committed. rewrite items_of_filter_none; [by rewrite app_nil_r, Hs|].
      intros o Hi. unfold merged_item. cbn. by rewrite Hres.
    + unfold committed. rewrite items_of_filter_none; [by rewrite app_nil_r, Hs|].
      intros o Hi. unfold merged_item. cbn. by rewrite Hres.
    + unfold committed. rewrite items_of_filter_none; [by rewrite app_nil_r, Hs|].
      intros o Hi. unfold merged_item. cbn. by rewrite Hres.
  - destruct Hb as [Hres ->]. unfold committed.
    rewrite items_of_filter_none; [by rewrite app_nil_r|].
    intros o Hi. unfold merged_item. cbn. by rewrite Hres.
Qed.

(** The reports a bucket remembers. *)
Lemma reports_step b id :
  id ∈ bs_reports (bucket s' tid b) ->
  id ∈ bs_reports (bucket s tid b) \/ is_Some (σ' !! id).
Proof.
  intros Hid. pose proof (put_results _ _ _ _ _ _ Hput b) as Hb.
  destruct (span !! b) as [[share reps]|] eqn:E; [|destruct Hb as [_ <-]; by left].
  destruct Hb as (r & Hres & Ho). destruct (span_items _ _ Hspan _ _ _ E) as [_ Hreps].
  assert (forall o, (b, o) ∈ items -> entry_ids (r, reps) = reps.*1 ->
    id = out_id o -> is_Some (σ' !! id)) as Hsome.
  { intros o Hi He ->. unfold σ'. rewrite (item_status _ _ _ _ _ _ Hnodup Hspan Hitems Hput
      b o r reps Hi Hres), He, decide_True; [done|].
    rewrite Hreps. apply list_elem_of_fmap. exists o. split; [done|]. by apply elem_of_items_of. }
  assert (id ∈ reps.*1 -> exists o, (b, o) ∈ items /\ id = out_id o) as Hin.
  { rewrite Hreps. intros (o & -> & Ho'%elem_of_items_of)%list_elem_of_fmap. by exists o. }
  destruct Ho as [_ _ _ Hs|_ _ Hs|R _ _ Hs|_ _ _ Hs|e _ _ Hs].
  - rewrite Hs, elem_of_union, elem_of_list_to_set in Hid. destruct Hid as [?|Hid]; [by left|].
    right. destruct (Hin Hid) as (o & Hi & ->). by eapply Hsome.
  - rewrite Hs in Hid. by left.
  - rewrite Hs in Hid. by left.
  - apply Hs in Hid. rewrite elem_of_union, elem_of_list_to_set in Hid.
    destruct Hid as [?|Hid]; [by left|].
    right. destruct (Hin Hid) as (o & Hi & ->). by eapply Hsome.
  - exfalso. specialize (Hno (b, (Some (MergeOther e), reps))). simpl in Hno.
    rewrite elem_of_map_to_list in Hno. by specialize (Hno Hres).
Qed.

Lemma reports_mono b : bs_reports (bucket s tid b) ⊆ bs_reports (bucket s' tid b).
Proof.
  pose proof (put_results _ _ _ _ _ _ Hput b) as Hb.
  destruct (span !! b) as [[share reps]|] eqn:E; [|by destruct Hb as [_ ->]].
  destruct Hb as (r & Hres & Ho). destruct Ho as [_ _ _ Hs|_ _ Hs|R _ _ Hs|_ _ Hs _|e _ Hs _];
    try done; rewrite Hs; set_solver.
Qed.

Lemma committed_reports b o :
  (b, o) ∈ committed s res items -> out_id o ∈ bs_reports (bucket s' tid b).
Proof.
  intros (Hi & Hn & reps' & Hres')%committed_spec.
  destruct (item_result _ _ _ _ _ Hspan Hput b o Hi) as (share & reps & r & E & Hres & Hid & Ho).
  rewrite Hres' in Hres. injection Hres as <- ->.
  inversion Ho as [_ _ _ Hs|_ Hold _| | |]; [|by apply Hold in Hid].
  rewrite Hs. apply elem_of_union_r, elem_of_list_to_set. done.
Qed.

Lemma old_items_decided i : i ∈ C -> σ' !! item_id i = Some Processed_Aggregated.
Proof.
  intros Hi. destruct (inv_items _ _ _ _ Hinv i Hi) as (Hσ & _). unfold σ'.
  rewrite (status_grows _ _ _ _ _ _ Hspan Hitems Hput) by by rewrite Hσ. done.
Qed.

Lemma committed_decided i : i ∈ committed s res items -> σ' !! item_id i = Some Processed_Aggregated.
Proof.
  destruct i as [b o]. intros (Hi & Hn & reps' & Hres')%committed_spec.
  destruct (item_result _ _ _ _ _ Hspan Hput b o Hi) as (share & reps & r & E & Hres & Hid & Ho).
  rewrite Hres' in Hres. injection Hres as <- ->. unfold σ', item_id. simpl.
  rewrite (item_status _ _ _ _ _ _ Hnodup Hspan Hitems Hput b o _ _ Hi Hres').
  by rewrite decide_True.
Qed.

Lemma old_new_NoDup : NoDup (item_id <$> (C ++ items)).
Proof.
  rewrite fmap_app. apply NoDup_app. split_and!.
  - apply (inv_nodup _ _ _ _ Hinv).
  - intros id (i & -> & Hi)%list_elem_of_fmap (j & E & Hj)%list_elem_of_fmap.
    destruct (inv_items _ _ _ _ Hinv i Hi) as (Hσ & _).
    destruct (item_report _ _ Hitems j Hj) as (_ & _ & _ & Hn & _). congruence.
  - apply (items_NoDup _ _ Hnodup Hitems).
Qed.

Lemma old_new_len : len C + len items <= len reports.
Proof.
  assert (length (item_id <$> (C ++ items)) <= length report_ids)%nat as H.
  { apply submseteq_length, NoDup_submseteq; [apply old_new_NoDup|].
    intros id (i & -> & [Hi|Hi]%elem_of_app)%list_elem_of_fmap; apply list_elem_of_fmap.
    - destruct (inv_items _ _ _ _ Hinv i Hi) as (_ & _ & _ & r & Hr & E & _).
      exists r. by rewrite E.
    - destruct (item_report _ _ Hitems i Hi) as (r & Hr & E & _). exists r. by rewrite E. }
  unfold report_ids in H. rewrite !length_fmap, length_app in H. unfold len. lia.
Qed.

Lemma bucketed_items b o :
  well_bucketed c part items -> (b, o) ∈ items ->
  bucket_for (E:=DapError) c part (out_id o) (out_time o) = Ok b.
Proof. intros H Hi. unfold well_bucketed in H. rewrite Forall_forall in H. apply (H _ Hi). Qed.

(** A status of an item that says "aggregated" is of an item that was committed, or of
    one the bucket already had. *)
Lemma item_aggregated b o :
  (b, o) ∈ items -> σ' !! out_id o = Some Processed_Aggregated ->
  (b, o) ∈ committed s res items \/ out_id o ∈ bs_reports (bucket s tid b).
Proof.
  intros Hi Hst.
  destruct (item_result _ _ _ _ _ Hspan Hput b o Hi) as (share & reps & r & E & Hres & Hid & Ho).
  unfold σ' in Hst.
  rewrite (item_status _ _ _ _ _ _ Hnodup Hspan Hitems Hput b o r reps Hi Hres) in Hst.
  case_decide; [|done]. injection Hst as Hst.
  destruct Ho as [_ Hfresh _ _|_ Hold _|R _ _ _| |e]; try done.
  - left. apply committed_spec. split_and!; [done|by apply Hfresh|by eexists].
  - right. by apply Hold.
Qed.

(** What is aggregated after the round was committed, in it or earlier, or was in the storage
    from the start. *)
Lemma aggregated_step id :
  well_bucketed c part items -> σ' !! id = Some Processed_Aggregated ->
  (exists i, i ∈ C ++ committed s res items /\ item_id i = id) \/
  exists r b, r ∈ reports /\ (report_key r).1 = id /\ finishes c r = true /\
    bucket_for (E:=DapError) c part id (report_key r).2 = Ok b /\
    id ∈ bs_reports (bucket s0 tid b).
Proof.
  intros Hwb Hst. destruct (decide (is_Some (σ !! id))) as [Hs|Hs].
  - unfold σ' in Hst. rewrite (status_grows _ _ _ _ _ _ Hspan Hitems Hput) in Hst by done.
    destruct (inv_aggregated _ _ _ _ Hinv id Hst) as [(i & Hi & E)|H]; [left|by right].
    exists i. split; [|done]. apply elem_of_app. by left.
  - destruct (decide (id ∈ item_id <$> items)) as [([b o] & -> & Hi)%list_elem_of_fmap|Hout].
    + destruct (item_aggregated b o Hi Hst) as [Hc|Hold].
      { left. exists (b, o). split; [|done]. apply elem_of_app. by right. }
      destruct (inv_reports _ _ _ _ Hinv b _ Hold) as [H0|[]%Hs].
      right. destruct (item_report _ _ Hitems _ Hi) as (r & Hr & E & _ & Hf).
      exists r, b. rewrite E. split_and!; [done|done|done| |done]. by apply bucketed_items.
    + unfold σ' in Hst. rewrite (other_status _ _ _ _ _ _ Hspan Hput) in Hst.
      { rewrite Hst in Hs. by destruct Hs. }
      intros i Hi E. apply Hout, list_elem_of_fmap. by exists i.
Qed.

Lemma loop_inv_step :
  well_bucketed c part items -> Forall (computed_from c reports) items ->
  loop_inv s0 s' σ' (C ++ committed s res items).
Proof.
  intros Hwb Hcomp. split.
  - intros b l0 Hl Hmax. rewrite items_of_app, app_assoc.
    apply shares_step; [by apply (inv_shares _ _ _ _ Hinv)|].
    rewrite len_app. pose proof old_new_len. pose proof (items_of_le b C).
    pose proof (items_of_le b items). lia.
  - apply Forall_app. split; [apply (inv_buckets _ _ _ _ Hinv)|].
    unfold well_bucketed in Hwb. rewrite Forall_forall in *. intros i Hi. apply Hwb.
    unfold committed in Hi. by apply list_elem_of_filter in Hi as [_ ?].
  - apply Forall_app. split; [apply (inv_computed _ _ _ _ Hinv)|].
    rewrite Forall_forall in *. intros i Hi. apply Hcomp.
    unfold committed in Hi. by apply list_elem_of_filter in Hi as [_ ?].
  - pose proof old_new_NoDup as H. rewrite fmap_app in *.
    apply NoDup_app in H as (H1 & H2 & H3). apply NoDup_app. split_and!; [done| |].
    + intros id Hid (i & -> & Hi)%list_elem_of_fmap. apply (H2 _ Hid).
      apply list_elem_of_fmap. exists i. split; [done|].
      unfold committed in Hi. by apply list_elem_of_filter in Hi as [_ ?].
    + by apply NoDup_fmap_filter.
  - intros i [Hi|Hi]%elem_of_app.
    + destruct (inv_items _ _ _ _ Hinv i Hi) as (Hσ & Hn & Hin & Hr).
      split_and!; [by apply old_items_decided|done|by apply reports_mono|done].
    + split; [by apply committed_decided|]. destruct i as [b o].
      pose proof (committed_reports _ _ Hi) as Hin.
      apply committed_spec in Hi as (Hi & Hn & _). split_and!.
      * intros H. by apply Hn, (inv_reports_mono _ _ _ _ Hinv).
      * done.
      * destruct (item_report _ _ Hitems _ Hi) as (r & ? & ? & _ & ?). by exists r.
  - intros id. by apply aggregated_step.
  - intros b id Hid. destruct (reports_step b id Hid) as [H|H]; [|by right].
    destruct (inv_reports _ _ _ _ Hinv b id H) as [?|Hs]; [by left|right].
    unfold σ'. by rewrite (status_grows _ _ _ _ _ _ Hspan Hitems Hput).
  - intros b id Hid. by apply reports_mono, (inv_reports_mono _ _ _ _ Hinv).
  - intros b. rewrite (put_keeps_collected _ _ _ _ _ _ Hput).
    apply (inv_collected _ _ _ _ Hinv).
Qed.

(** After a round in which every bucket was merged, the reports to continue are those
    that are aggregated. *)
Lemma continued_aggregated r :
  (forall e, e ∈ map_to_list res -> entry_restarts e.2 = false) -> r ∈ reports ->
  not_rejected σ r && finishes c r = true <->
  σ' !! (report_key r).1 = Some Processed_Aggregated.
Proof.
  intros Hall Hr. unfold not_rejected. split.
  - intros [H1 Hf]%andb_prop. destruct (σ !! (report_key r).1) as [[|]|] eqn:Hσ; [|done|].
    + unfold σ'. by rewrite (status_grows _ _ _ _ _ _ Hspan Hitems Hput), Hσ by by rewrite Hσ.
    + destruct (report_item _ _ Hitems r Hr Hσ Hf) as ([b o] & Hi & E).
      destruct (item_result _ _ _ _ _ Hspan Hput b o Hi) as (share & reps & r' & _ & Hres & Hid & _).
      rewrite <-E. unfold σ'. simpl.
      rewrite (item_status _ _ _ _ _ _ Hnodup Hspan Hitems Hput b o r' reps Hi Hres).
      specialize (Hall (b, (r', reps)) ltac:(by apply elem_of_map_to_list)).
      destruct r'; [done|]. by rewrite decide_True.
  - intros Hst. apply andb_true_intro.
    assert (forall r', r' ∈ reports -> (report_key r').1 = (report_key r).1 -> r' = r) as Huniq.
    { intros r' Hr' E. by eapply (NoDup_fmap_eq (fun r => (report_key r).1)). }
    destruct (decide (is_Some (σ !! (report_key r).1))) as [Hs|Hs].
    + unfold σ' in Hst. rewrite (status_grows _ _ _ _ _ _ Hspan Hitems Hput) in Hst by done.
      rewrite Hst. split; [done|].
      destruct (inv_aggregated _ _ _ _ Hinv _ Hst) as [(i & Hi & E)|(r' & b & Hr' & E & Hf & _)].
      * destruct (inv_items _ _ _ _ Hinv i Hi) as (_ & _ & _ & r' & Hr' & E' & Hf).
        rewrite <-(Huniq r'); [done|done|]. rewrite E'. exact E.
      * by rewrite <-(Huniq r').
    + destruct (σ !! (report_key r).1) eqn:Hσ; [by destruct Hs|]. split; [done|].
      destruct (decide ((report_key r).1 ∈ item_id <$> items))
        as [(i & E & Hi)%list_elem_of_fmap|Hout].
      * destruct (item_report _ _ Hitems _ Hi) as (r' & Hr' & E' & _ & Hf).
        rewrite <-(Huniq r'); [done|done|]. rewrite E'. by rewrite E.
      * unfold σ' in Hst. rewrite (other_status _ _ _ _ _ _ Hspan Hput) in Hst; [congruence|].
        intros i Hi E. apply Hout, list_elem_of_fmap. by exists i.
Qed.

(** After a round, the buckets of the reports left to put have none of them; and if they
    had none before, nothing is left to put. *)
Definition no_replays (σ : report_statuses) (s : St) : Prop :=
  forall r b, r ∈ reports -> σ !! (report_key r).1 = None -> finishes c r = true ->
    bucket_for (E:=DapError) c part (report_key r).1 (report_key r).2 = Ok b ->
    (report_key r).1 ∉ bs_reports (bucket s tid b).

Definition all_decided (σ : report_statuses) : Prop :=
  forall r, r ∈ reports -> finishes c r = true -> is_Some (σ !! (report_key r).1).

Lemma undecided_item r :
  r ∈ reports -> σ' !! (report_key r).1 = None -> finishes c r = true ->
  exists b o share reps replays, (b, o) ∈ items /\ item_key (b, o) = report_key r /\
    span !! b = Some (share, reps) /\
    res !! b = Some (Some (ReplaysDetected replays), reps) /\ (out_id o ∉ replays) /\
    put_outcome share reps.*1 (bucket s tid b) (bucket s' tid b) (Some (ReplaysDetected replays)).
Proof.
  intros Hr Hu Hf. assert (σ !! (report_key r).1 = None) as Hσ.
  { destruct (σ !! (report_key r).1) eqn:E; [|done]. unfold σ' in Hu.
    rewrite (status_grows _ _ _ _ _ _ Hspan Hitems Hput) in Hu by by rewrite E. congruence. }
  destruct (report_item _ _ Hitems r Hr Hσ Hf) as ([b o] & Hi & E).
  destruct (item_result _ _ _ _ _ Hspan Hput b o Hi) as (share & reps & r' & Hsp & Hres & Hid & Ho).
  rewrite <-E in Hu. unfold σ' in Hu. simpl in Hu.
  rewrite (item_status _ _ _ _ _ _ Hnodup Hspan Hitems Hput b o r' reps Hi Hres) in Hu.
  case_decide as Hent; [done|].
  destruct r' as [[|R|e]|]; [by destruct Hent| | |by destruct Hent].
  - exists b, o, share, reps, R. split_and!; try done.
    intros H. apply Hent. simpl. by apply elem_of_elements.
  - specialize (Hno (b, (Some (MergeOther e), reps)) ltac:(by apply elem_of_map_to_list)). done.
Qed.

Lemma no_replays_step : well_bucketed c part items -> no_replays σ' s'.
Proof.
  intros Hwb r b Hr Hu Hf Hb.
  destruct (undecided_item r Hr Hu Hf) as (b' & o & share & reps & R & Hi & E & _ & Hres & HR & Ho).
  rewrite <-E in *. pose proof (bucketed_items _ _ Hwb Hi) as Hb'. simpl in *.
  rewrite Hb in Hb'. injection Hb' as <-.
  inversion Ho as [| |R' _ HR' Hs| |]; subst. rewrite Hs. intros Hin. apply HR, HR'. split; [|done].
  destruct (item_result _ _ _ _ _ Hspan Hput b o Hi) as (? & ? & ? & _ & Hres' & Hid & _).
  rewrite Hres in Hres'. by injection Hres' as <- <-.
Qed.

Lemma all_decided_step : well_bucketed c part items -> no_replays σ s -> all_decided σ'.
Proof.
  intros Hwb Hnr r Hr Hf. destruct (σ' !! (report_key r).1) eqn:Hu; [done|exfalso].
  destruct (undecided_item r Hr Hu Hf)
    as (b & o & share & reps & R & Hi & E & Hsp & Hres & HR & Ho).
  inversion Ho as [| |R' Hne HR' Hs| |]; subst.
  apply set_choose_L in Hne as [id [Hid Hold]%HR'].
  destruct (span_items _ _ Hspan _ _ _ Hsp) as [_ Hreps]. rewrite Hreps in Hid.
  apply list_elem_of_fmap in Hid as (o' & -> & Hi'%elem_of_items_of).
  destruct (item_report _ _ Hitems _ Hi') as (r' & Hr' & E' & Hn' & Hf').
  apply (Hnr r' b); rewrite ?E'; try done. by apply bucketed_items.
Qed.
End Preserved.

Lemma existsb_false {A} (f : A -> bool) l : existsb f l = false -> forall x, x ∈ l -> f x = false.
Proof.
  induction l as [|y l IH]; simpl; [by intros _ x ?%not_elem_of_nil|].
  intros [Hy Hl]%orb_false_elim x [->|Hx]%elem_of_cons; [done|by apply IH].
Qed.

Lemma fmap_eq_Forall2 {A B X} (f : A -> X) (g : B -> X) (P : A -> B -> Prop) l k :
  f <$> l = g <$> k -> (forall x y, x ∈ l -> f x = g y -> P x y) -> Forall2 P l k.
Proof.
  revert k. induction l as [|x l IH]; intros [|y k] H HP; try done.
  rewrite !fmap_cons in H. injection H as E H. constructor.
  - apply HP; [by left|done].
  - apply IH; [done|]. intros x' y' Hx'. apply HP. by right.
Qed.

(** One round, from the result of the loop: it fails with the protocol or the storage, or
    it ends, or it goes on with the statuses of its results. *)
Definition put_fails (s : St) (span : DapAggregateSpan DapAggregateShare) : Prop :=
  forall res s', try_put_agg_share_span tid c span s = (Ok res, s') ->
    exists b r, res !! b = Some r /\ is_other r = true.

Lemma loop_round tries σ (w : World St) r w' :
  finish_agg_job_loop (Datatypes.S tries) tid c part reports σ w = (r, w') ->
  ((forall x, r <> Ok x) /\
   forall span resp, produce_agg_job_resp c σ part reports = Ok (span, resp) ->
     put_fails (w_store w) span) \/
  exists span resp res s', produce_agg_job_resp c σ part reports = Ok (span, resp) /\
    try_put_agg_share_span tid c span (w_store w) = (Ok res, s') /\
    (forall e, e ∈ map_to_list res -> is_other e.2 = false) /\
    ((forall e, e ∈ map_to_list res -> entry_restarts e.2 = false) /\
      r = Ok resp /\ w_store w' = s' \/
     exists w1, w_store w1 = s' /\
      (exists e, e ∈ map_to_list res /\ entry_restarts e.2 = true) /\
      finish_agg_job_loop tries tid c part reports (update_statuses σ (map_to_list res)) w1
      = (r, w')).
Proof.
  intros H. cbn [finish_agg_job_loop] in H. unfold mbind at 1, stm_bind at 1, lift at 1 in H.
  destruct (produce_agg_job_resp c σ part reports) as [[span resp]|e|]; cbn in H;
    [|injection H as <- <-; left; by split|injection H as <- <-; left; by split].
  unfold mbind at 1, stm_bind at 1, call at 1 in H. unfold put_fails.
  destruct (try_put_agg_share_span tid c span (w_store w)) as [[res|e|] s'] eqn:Hput; cbn in H;
    [|injection H as <- <-; left; split; [done|]; intros ? ? [= <- <-] res s''; by rewrite Hput..].
  destruct (decide (Exists (fun e => is_other e.2 = true) (map_to_list res))) as [He|He].
  { left. unfold mbind at 1, stm_bind at 1 in H.
    match type of H with context [process_put_results σ false _ ?w1] =>
      destruct (process_other σ false _ w1 He) as (err & w2 & E) end.
    rewrite E in H. injection H as <- <-. split; [done|]. intros ? ? [= <- <-] res' s''.
    rewrite Hput. intros [= <- <-].
    apply Exists_exists in He as ([b r] & Hin%elem_of_map_to_list & Ho). by exists b, r. }
  right. exists span, resp, res, s'. split_and!; [done|done| |].
  { intros e Hin. destruct (is_other e.2) eqn:Eo; [|done].
    destruct He. apply Exists_exists. by exists e. }
  assert (forall e, e ∈ map_to_list res -> is_other e.2 = false) as Hno.
  { intros e Hin. destruct (is_other e.2) eqn:Eo; [|done].
    destruct He. apply Exists_exists. by exists e. }
  unfold mbind at 1, stm_bind at 1 in H.
  set (w1 := MkWorld s' (w_metrics w) (w_audit w)) in *.
  destruct (process_total σ false (map_to_list res) w1 Hno) as (σ' & restart & w2 & Hp).
  rewrite Hp in H. cbn in H. apply process_spec in Hp as (Hw & _ & -> & ->). simpl in Hw, H.
  destruct (existsb _ (map_to_list res)) eqn:Ere; cbn [negb] in H.
  - right. exists w2. split_and!; [done| |done].
    apply existsb_exists in Ere as (e & Hin%list_elem_of_In & E). by exists e.
  - left. split; [by apply existsb_false|]. unfold mbind, stm_bind in H. cbn in H.
    match type of H with context [count_failures ?t ?w3] =>
      destruct (count_failures_ok t w3) as (w4 & E4 & Hw4) end.
    rewrite E4 in H. injection H as <- <-. split; [done|]. by rewrite Hw4.
Qed.

(** The answer of the loop agrees with the statuses, which agree with the storage. *)
Lemma loop_sound tries s0 σ C (w : World St) resp w' :
  NoDup report_ids -> len reports <= u64_max ->
  loop_inv s0 (w_store w) σ C ->
  finish_agg_job_loop tries tid c part reports σ w = (Ok resp, w') ->
  exists σ' C', loop_inv s0 (w_store w') σ' C' /\
    Transition_report_id <$> AggregationJobResp_transitions resp = report_ids /\
    Forall2 (fun r t => is_continued t = true <->
      σ' !! (report_key r).1 = Some Processed_Aggregated)
      reports (AggregationJobResp_transitions resp).
Proof.
  intros Hnd Hmax. revert σ C w. induction tries as [|tries IH]; intros σ C w Hinv H; [done|].
  apply loop_round in H as [[Hr _]|(span & rsp & res & s' & Hp & Hput & Hno & H)];
    [by destruct (Hr resp)|].
  destruct (produce_spec _ _ _ _ _ _ Hmax Hp) as (Hvars & items & Hspan & Hwb & Hitems & Hcomp).
  pose proof (loop_inv_step _ _ _ _ _ _ _ _ Hnd Hspan Hitems Hput Hno Hinv Hwb Hcomp) as Hinv'.
  destruct H as [(Hall & [= <-] & <-)|(w1 & <- & _ & H)]; [|by eapply IH].
  eexists _, _. split_and!; [exact Hinv'| |].
  - unfold produce_agg_job_resp in Hp. apply bind_Ok in Hp as ([sp trs] & Hp & [= <- <-]).
    by destruct (finish_reports_spec _ _ _ _ _ [] _ _ span_represents_empty Hmax Hp).
  - eapply fmap_eq_Forall2; [symmetry; exact Hvars|]. intros r t Hr E. cbn in E. rewrite <-E.
    by eapply continued_aggregated.
Qed.

(** The storage, in the states [I], takes every span the job can produce. *)
Definition takes_job (I : St -> Prop) : Prop :=
  forall σ span resp s, I s -> produce_agg_job_resp c σ part reports = Ok (span, resp) ->
    exists res s', try_put_agg_share_span tid c span s = (Ok res, s') /\ I s' /\
      forall b r, res !! b = Some r -> is_other r = false.

(** Three rounds are enough when nobody else writes to the storage: the first may find
    replays, the second a bucket that was collected. *)
Lemma loop_complete (I : St -> Prop) tries s0 σ C (w : World St) :
  NoDup report_ids -> len reports <= u64_max -> loop_inv s0 (w_store w) σ C ->
  (forall σ, exists x, produce_agg_job_resp c σ part reports = Ok x) ->
  takes_job I -> I (w_store w) ->
  all_decided σ /\ (1 <= tries)%nat \/
  no_replays σ (w_store w) /\ (2 <= tries)%nat \/ (3 <= tries)%nat ->
  exists resp w', finish_agg_job_loop tries tid c part reports σ w = (Ok resp, w').
Proof.
  intros Hnd Hmax Hinv Hp Hs. revert σ C w Hinv.
  induction tries as [|tries IH]; intros σ C w Hinv HI Hph; [lia|].
  destruct (finish_agg_job_loop (Datatypes.S tries) tid c part reports σ w) as [r w'] eqn:H.
  apply loop_round in H as [[_ Hf]|(span & rsp & res & s' & He & Hput & Hno & H)].
  { destruct (Hp σ) as [[span resp] Hok].
    destruct (Hs σ span resp (w_store w) HI Hok) as (res & s' & Hput & _ & Hn).
    destruct (Hf span resp Hok res s' Hput) as (b & r' & Hb & Ho). by rewrite (Hn b r' Hb) in Ho. }
  destruct (produce_spec _ _ _ _ _ _ Hmax He) as (_ & items & Hspan & Hwb & Hitems & Hcomp).
  destruct H as [(_ & -> & _)|(w1 & <- & (e & Hin & Hre) & H)]; [by repeat eexists|].
  pose proof (loop_inv_step _ _ _ _ _ _ _ _ Hnd Hspan Hitems Hput Hno Hinv Hwb Hcomp) as Hinv'.
  rewrite <-H. apply (IH _ _ _ Hinv').
  { destruct (Hs _ _ _ _ HI He) as (res' & s'' & Hput' & HI' & _). rewrite Hput in Hput'.
    by injection Hput' as <- <-. }
  destruct Hph as [[Hd _]|[[Hnr ?]|?]].
  - exfalso. destruct e as [b [r' reps]]. apply elem_of_map_to_list in Hin. cbn in Hre.
    pose proof (put_results _ _ _ _ _ _ Hput b) as Hb. pose proof (Hspan b) as Hsb.
    destruct (span !! b) as [[share reps']|]; [|destruct Hb; congruence].
    destruct Hsb as (Hne & _). destruct (items_of b items) as [|o l] eqn:El; [done|].
    assert ((b, o) ∈ items) as Hi by (apply elem_of_items_of; rewrite El; by left).
    destruct (item_report _ _ Hitems _ Hi) as (r0 & Hr0 & E0 & Hn0 & Hf0).
    destruct (Hd r0 Hr0 Hf0) as [st Hst]. change (item_id (b, o)) with (item_key (b, o)).1 in Hn0.
    rewrite <-E0 in Hn0. congruence.
  - left. split; [|lia]. by eapply all_decided_step.
  - right; left. split; [|lia]. by eapply no_replays_step.
Qed.
End Loop.

(** ** Properties of the aggregation job *)
Section Properties.
Context `{BP : BuildProfile} `{PC : PrioCodec} `{PA : PrioAgg} `{VO : !VdafOps} `{Dg : Digest}.
Context {PL : PrioAggLaws PA} {DL : DigestLaws Dg}.
Context {S St : Type} {DA : DapAggregator S St} {AS : AggShareStorage DA}.

(** C1: the Helper aggregates what it answers, on a storage that keeps the contract of its trait.
    After an aggregation job over reports with distinct IDs, the aggregate share of every bucket is that of the reports it held
    before and of reports [C] of the job, each added once, to the bucket it belongs
    to, and with the output share the preparation computed for it ([computed_from]); the
    bucket had seen none of them; every report of [C] is answered with "continue", and
    every report answered with "continue" is in [C] or had been aggregated into its
    bucket before. *)
Theorem helper_aggregates_what_it_answers tid c part reports (w : World St) resp w' :
  NoDup (report_ids reports) -> len reports <= u64_max ->
  finish_agg_job_and_aggregate tid c part reports w = (Ok resp, w') ->
  Transition_report_id <$> AggregationJobResp_transitions resp = report_ids reports /\
  exists C, well_bucketed c part C /\ Forall (computed_from c reports) C /\
    NoDup (item_id <$> C) /\
    (forall b l0, represents (bs_share (bucket (w_store w) tid b)) l0 ->
       len l0 + len reports <= u64_max ->
       represents (bs_share (bucket (w_store w') tid b)) (l0 ++ items_of b C)) /\
    (forall i, i ∈ C -> (item_id i ∉ bs_reports (bucket (w_store w) tid i.1)) /\
       item_id i ∈ bs_reports (bucket (w_store w') tid i.1)) /\
    Forall2 (fun r t =>
      (report_key r ∈ item_key <$> C -> is_continued t = true) /\
      (is_continued t = true -> report_key r ∈ item_key <$> C \/
         exists b, bucket_for (E:=DapError) c part (report_key r).1 (report_key r).2 = Ok b /\
           (report_key r).1 ∈ bs_reports (bucket (w_store w) tid b)))
      reports (AggregationJobResp_transitions resp).
Proof.
  intros Hnd Hmax H. unfold finish_agg_job_and_aggregate in H.
  apply (loop_sound _ _ _ _ _ _ _ [] w resp w' Hnd Hmax (loop_inv_start _ _ _ _ _))
    in H as (σ & C & Hinv & Hids & Hall).
  split; [done|]. exists C. split_and!.
  - apply (inv_buckets _ _ _ _ _ _ _ _ Hinv).
  - apply (inv_computed _ _ _ _ _ _ _ _ Hinv).
  - apply (inv_nodup _ _ _ _ _ _ _ _ Hinv).
  - apply (inv_shares _ _ _ _ _ _ _ _ Hinv).
  - intros i Hi. by destruct (inv_items _ _ _ _ _ _ _ _ Hinv i Hi) as (_ & ? & ? & _).
  - assert (forall r, r ∈ reports -> forall i, i ∈ C -> item_id i = (report_key r).1 ->
      report_key r = item_key i) as Hkey.
    { intros r Hr i Hi E.
      destruct (inv_items _ _ _ _ _ _ _ _ Hinv i Hi) as (_ & _ & _ & r' & Hr' & E' & _).
      rewrite <-E'. f_equal. eapply (NoDup_fmap_eq (fun r => (report_key r).1)); try done.
      by rewrite E', <-E. }
    apply Forall2_same_length_lookup. split; [by eapply Forall2_length|].
    intros k r t Hr Ht. pose proof (Forall2_lookup_lr _ _ _ _ _ _ Hall Hr Ht) as Hc.
    apply list_elem_of_lookup_2 in Hr. rewrite Hc. split.
    + intros (i & E & Hi)%list_elem_of_fmap.
      destruct (inv_items _ _ _ _ _ _ _ _ Hinv i Hi) as (Hσ & _). by rewrite E.
    + intros Hσ. destruct (inv_aggregated _ _ _ _ _ _ _ _ Hinv _ Hσ)
        as [(i & Hi & E)|(r' & b & Hr' & E & _ & Hb & Hin)].
      * left. apply list_elem_of_fmap. exists i. split; [|done]. by apply Hkey.
      * right. exists b. split; [|done]. rewrite <-Hb. f_equal.
        by rewrite (NoDup_fmap_eq (fun r => (report_key r).1) reports r' r).
Qed.

(** C14: three rounds are enough. Against a storage that takes the spans of the job without
    an error, in some set of states closed under these puts, the Helper answers every
    aggregation job whose reports it can process: the limit on the number of rounds is
    not reached, although one round may find replays and a second one batches that were
    collected. *)
Theorem helper_retries_suffice (I : St -> Prop) tid c part reports (w : World St) :
  NoDup (report_ids reports) -> len reports <= u64_max ->
  (forall σ, exists x, produce_agg_job_resp c σ part reports = Ok x) ->
  takes_job tid c part reports I -> I (w_store w) ->
  exists resp w', finish_agg_job_and_aggregate tid c part reports w = (Ok resp, w').
Proof.
  intros Hnd Hmax Hp Hs HI.
  eapply (loop_complete _ _ _ _ I RETRY_COUNT (w_store w) ∅ []); try done.
  - apply loop_inv_start.
  - right; right. done.
Qed.
End Properties.
