(* ===== verification/HandlersCorrect.v ===== *)
(** * The handlers of the Helper

    What a successful request to the Helper implies: the checks of [check_batch], the
    aggregation job from the bytes of the request to the bytes of the response, and
    the release of an aggregate share. *)

From S2P Require Import Prelude Codec Messages TaskprovMessages Errors Config AggShare Hpke.
From S2P Require Import Protocol ProtocolCorrect Pine Taskprov Roles HelperCorrect.

(** ** Inversion of handlers *)
Lemma abort_Ok {S A} (m : res DapAbort A) (s : S) a s' :
  abort m s = (Ok a, s') <-> m = Ok a /\ s' = s.
Proof. unfold abort, lift. destruct m; simpl; naive_solver. Qed.

Lemma lift_Ok {S E A} (m : res E A) (s : S) a s' :
  lift m s = (Ok a, s') <-> m = Ok a /\ s' = s.
Proof. unfold lift. naive_solver. Qed.

Lemma call_Ok {St E A} (m : stm St E A) (w : World St) a w' :
  call m w = (Ok a, w') <->
  exists s, m (w_store w) = (Ok a, s) /\ w' = MkWorld s (w_metrics w) (w_audit w).
Proof.
  unfold call. destruct (m (w_store w)) as [r s]. split.
  - intros [= -> <-]. by exists s.
  - by intros (s' & [= -> ->] & ->).
Qed.

Lemma read_Ok {St E A} (f : St -> A) (w : World St) (a : A) w' :
  read (E:=E) f w = (Ok a, w') <-> a = f (w_store w) /\ w' = w.
Proof. unfold read. naive_solver. Qed.

Lemma inc_Ok {St E} e (w : World St) u w' :
  inc (E:=E) e w = (Ok u, w') -> w_store w' = w_store w.
Proof. unfold inc, with_metrics, observe, modify. by intros [= _ <-]. Qed.

(** Invert one call of a handler that returned. *)
Ltac inv_call H x w1 Hx := apply stm_bind_Ok in H as (x & w1 & Hx & H).

Section CheckBatch.
Context `{BP : BuildProfile} `{PC : PrioCodec} `{PA : PrioAgg} `{VO : !VdafOps}.
Context {S St : Type} {DA : DapAggregator S St}.

(** The bounds of the global configuration, near the current time, leave room in 64 bits. *)
Definition global_config_sane (g : DapGlobalConfig) (c : DapTaskConfig) (now : Time) : Prop :=
  now + DapGlobalConfig_min_batch_interval_start g + DapGlobalConfig_max_batch_duration g
  <= u64_max /\
  DapGlobalConfig_max_batch_duration g * DapTaskConfig_num_agg_span_shards c <= u64_max.

Lemma interval_checked g c now start duration :
  global_config_sane g c now ->
  duration <= DapGlobalConfig_max_batch_duration g ->
  u64_abs_diff now start <= DapGlobalConfig_min_batch_interval_start g ->
  start + duration <= u64_max /\
  duration / DapTaskConfig_time_precision c * DapTaskConfig_num_agg_span_shards c <= u64_max.
Proof.
  intros [H1 H2] Hd Hs. unfold u64_abs_diff in Hs. split.
  - destruct (N.ltb_spec now start); lia.
  - etransitivity; [|exact H2]. apply N.mul_le_mono_r. etransitivity; [|exact Hd].
    destruct (N.eq_dec (DapTaskConfig_time_precision c) 0) as [->|E]; [rewrite N.div_0_r; lia|].
    apply N.Div0.div_le_upper_bound. nia.
Qed.

(** The time bounds on the interval of a batch. *)
Definition interval_ok (g : DapGlobalConfig) (c : DapTaskConfig) (now : Time) (i : Interval) :
    Prop :=
  0 < DapTaskConfig_time_precision c <= Interval_duration i /\
  Interval_duration i <= DapGlobalConfig_max_batch_duration g /\
  u64_abs_diff now (Interval_start i) <= DapGlobalConfig_min_batch_interval_start g /\
  u64_abs_diff now (Interval_start i + Interval_duration i)
  <= DapGlobalConfig_max_batch_interval_end g.

Lemma overlap_checked tid sel (w : World St) u w' :
  (b ← call (is_batch_overlapping tid sel);
   if b : bool then fail_abort (batch_overlap tid ArgOpaque) else mret tt) w = (Ok u, w') ->
  exists s, is_batch_overlapping tid sel (w_store w) = (Ok false, s) /\ w_store w' = s.
Proof.
  intros H. inv_call H b w1 Hb. apply call_Ok in Hb as (s & Hb & ->).
  destruct b; [done|]. injection H as _ <-. by exists s.
Qed.

Lemma check_batch_inv g c tid sel agg_param now (w : World St) u w' :
  global_config_sane g c now ->
  check_batch c tid (Query_from sel) agg_param now g w = (Ok u, w') ->
  is_valid_agg_param (DapTaskConfig_vdaf c) agg_param = true /\ batch_sel_ok c sel /\
  match sel with
  | BS_TimeInterval i =>
      interval_ok g c now i /\
      is_batch_overlapping tid sel (w_store w) = (Ok false, w_store w')
  | BS_FixedSizeByBatchId b =>
      exists s, batch_exists tid b (w_store w) = (Ok true, s) /\
        is_batch_overlapping tid sel s = (Ok false, w_store w')
  end.
Proof.
  intros Hg H. unfold check_batch in H.
  destruct (is_valid_agg_param (DapTaskConfig_vdaf c) agg_param); [|done]. cbn [negb] in H.
  split; [done|]. inv_call H x w1 Hc. destruct sel as [[start duration]|b]; cbn in Hc, H.
  - destruct (DapTaskConfig_query c) eqn:Eq; [|done].
    inv_call Hc r1 w2 H1. apply lift_Ok in H1 as [H1 ->]. inv_call Hc bad w3 Hbad.
    unfold u64_rem in *. destruct (N.eqb_spec (DapTaskConfig_time_precision c) 0); [done|].
    injection H1 as <-.
    destruct (N.eqb_spec (start mod DapTaskConfig_time_precision c) 0) as [Hs|Hs]; cbn in Hbad;
      [|by injection Hbad as <- <-].
    unfold mbind, stm_bind, lift in Hbad. cbn in Hbad. injection Hbad as <- <-.
    destruct (negb _ || _) eqn:Hb in Hc; [done|]. apply orb_false_elim in Hb as [Hd Hp].
    apply negb_false_iff, N.eqb_eq in Hd. apply N.ltb_ge in Hp.
    destruct (N.ltb_spec (DapGlobalConfig_max_batch_duration g) duration); [done|].
    destruct (N.ltb_spec (DapGlobalConfig_min_batch_interval_start g) (u64_abs_diff now start));
      [done|].
    destruct (interval_checked g c now start duration Hg) as [Hend Hsh]; [done..|].
    inv_call Hc end_ w4 He. apply lift_Ok in He as [He ->]. unfold Interval_end in He. cbn in He.
    rewrite u64_add_fits in He by done. injection He as <-.
    destruct (N.ltb_spec (DapGlobalConfig_max_batch_interval_end g)
      (u64_abs_diff now (start + duration))); [done|]. injection Hc as _ <-.
    split; [by split; [unfold is_valid_batch_sel; rewrite Eq|]|].
    apply overlap_checked in H as (s & H & <-). split; [|done].
    unfold interval_ok. cbn. split_and!; try done. lia.
  - destruct (DapTaskConfig_query c) eqn:Eq; [done|].
    inv_call Hc b' w2 Hb. apply call_Ok in Hb as (s & Hb & ->).
    destruct b'; [|done]. injection Hc as _ <-.
    split; [by split; [unfold is_valid_batch_sel; rewrite Eq|]|].
    apply overlap_checked in H as (s' & H & <-). by exists s.
Qed.
End CheckBatch.

(** ** Properties *)
Section Properties.
Context `{BP : BuildProfile} `{PC : PrioCodec} `{PA : PrioAgg} `{VO : !VdafOps} `{Dg : Digest}
  `{HC : HpkeCrypto} `{HK : Hkdf} `{B64 : Base64} `{UP : UrlParser} `{PF : PineFields}.
Context {S St : Type} {DA : DapAggregator S St}.

Lemma count_compatible c tid n :
  report_count_compatible_or_false c tid n = true ->
  DapTaskConfig_min_batch_size c <= n /\
  forall m, DapTaskConfig_query c = QC_FixedSize (Some m) -> n <= m.
Proof.
  unfold report_count_compatible_or_false. pose proof (count_compatible_cases c tid n) as H.
  destruct (is_report_count_compatible c tid n); [|done|done]. destruct H as [H1 H2].
  intros ->. split; [by apply H2|done].
Qed.

Lemma authorized_inv tid (req : DapRequest S) (w : World St) c w' :
  get_authorized_task_config tid req w = (Ok c, w') ->
  exists s, get_task_config_for tid (w_store w) = (Ok (Some c), s) /\
    unauthorized_reason c req s = (Ok None, w_store w').
Proof.
  unfold get_authorized_task_config. intros H. inv_call H o w1 H1.
  apply call_Ok in H1 as (s & H1 & ->). inv_call H c' w2 H2. apply lift_Ok in H2 as [H2 ->].
  apply ok_or_Ok in H2 as ->. inv_call H reason w3 H3. apply call_Ok in H3 as (s3 & H3 & ->).
  destruct reason; [done|]. injection H as <- <-. by exists s.
Qed.

(** The configuration of the task of a request, looked up in its run from [w]: the global
    configuration is read, a task the request advertises is resolved where that
    configuration allows it, and [c] is what the storage then has for the task. *)
Definition looked_up (tid : TaskId) (req : DapRequest S) (w : World St) (g : DapGlobalConfig)
    (now : Time) (c : DapTaskConfig) (s : St) : Prop :=
  exists w0 w1,
    get_global_config (w_store w) = (Ok g, w_store w0) /\
    now = get_current_time (w_store w0) /\
    (if DapGlobalConfig_allow_taskprov g then resolve_taskprov tid req g else mret tt) w0
    = (Ok tt, w1) /\
    get_task_config_for tid (w_store w1) = (Ok (Some c), s).

(** The aggregate share of a batch, read in the run of a request from [w]: the request is
    authorized for the task that was looked up, the batch passes [check_batch], and
    [share] is what the storage then has for it. *)
Definition share_read (req : DapRequest S) (w : World St) (tid : TaskId) (sel : BatchSelector)
    (share : DapAggregateShare) (s : St) : Prop :=
  exists g now c agg_param s0 wa wb,
    looked_up tid req w g now c s0 /\
    unauthorized_reason c req s0 = (Ok None, w_store wa) /\
    check_batch c tid (Query_from sel) agg_param now g wa = (Ok tt, wb) /\
    get_agg_share tid sel (w_store wb) = (Ok share, s).

Lemma get_task_id_Ok (req : DapRequest S) tid :
  get_task_id req = Ok tid -> DapRequest_task_id req = Some tid.
Proof. unfold get_task_id. destruct (DapRequest_task_id req); [by intros [= ->]|done]. Qed.

Lemma check_version_inv c (req : DapRequest S) (w : World St) u w' :
  check_version c req w = (Ok u, w') ->
  DapTaskConfig_version c = DapRequest_version req /\ w' = w.
Proof. unfold check_version. case_bool_decide; [by intros [= _ <-]|done]. Qed.

(** A batch that passes [check_batch] is one the task can have: of the query type of
    the task, on the boundaries of the time precision, of a duration and at a time
    within the bounds of the configuration, known if it is given by its ID, and not
    overlapping with one that was collected; and the arithmetic on it does not
    overflow. *)
Theorem check_batch_sound g c tid sel agg_param now (w : World St) u w' :
  global_config_sane g c now -> DapTaskConfig_ok c ->
  check_batch c tid (Query_from sel) agg_param now g w = (Ok u, w') ->
  (exists span, batch_span_for_sel c sel = Ok span /\
     forall part id time,
       is_valid_part_batch_sel (DapTaskConfig_query c) part = true ->
       exists b, bucket_for (E:=DapError) c part id time = Ok b /\
         (b ∈ span <-> report_matches sel part time)) /\
  match sel with
  | BS_TimeInterval i =>
      interval_ok g c now i /\
      is_batch_overlapping tid sel (w_store w) = (Ok false, w_store w')
  | BS_FixedSizeByBatchId b =>
      exists s, batch_exists tid b (w_store w) = (Ok true, s) /\
        is_batch_overlapping tid sel s = (Ok false, w_store w')
  end.
Proof.
  intros Hg Hc H. destruct (check_batch_inv _ _ _ _ _ _ _ _ _ Hg H) as (_ & Hsel & Hm).
  split; [|done]. by apply batch_span_spec.
Qed.

(** What a request for an aggregate share that succeeds has found and done. *)
Lemma agg_share_req_inv seed (req : DapRequest S) (w : World St) resp w' :
  handle_agg_share_req seed req w = (Ok resp, w') ->
  exists tid g now c areq share ct s0 s1 s2 s3 wa wb,
    DapRequest_task_id req = Some tid /\
    looked_up tid req w g now c s0 /\
    DapTaskConfig_version c = DapRequest_version req /\
    unauthorized_reason c req s0 = (Ok None, s1) /\
    get_decoded (AggregateShareReq_decode (DapRequest_version req)) (DapRequest_payload req)
    = Ok areq /\
    let sel := AggregateShareReq_batch_sel areq in
    check_batch c tid (Query_from sel) (AggregateShareReq_agg_param areq) now g wa
    = (Ok tt, wb) /\ w_store wa = s1 /\ w_store wb = s2 /\
    get_agg_share tid sel s2 = (Ok share, s3) /\
    AggregateShareReq_report_count areq = DapAggregateShare_report_count share /\
    AggregateShareReq_checksum areq = DapAggregateShare_checksum share /\
    DapTaskConfig_min_batch_size c <= DapAggregateShare_report_count share /\
    (forall m, DapTaskConfig_query c = QC_FixedSize (Some m) ->
       DapAggregateShare_report_count share <= m) /\
    mark_collected tid sel s3 = (Ok tt, w_store w') /\
    produce_helper_encrypted_agg_share seed c (DapTaskConfig_collector_hpke_config c) tid
      sel AggParam_Empty share (DapTaskConfig_version c) = Ok ct /\
    get_encoded AggregateShare_encode (MkAggregateShare ct) = Ok (DapResponse_payload resp) /\
    DapResponse_media_type resp = MT_AggregateShare.
Proof.
  unfold handle_agg_share_req. intros H.
  inv_call H g w1 H1. apply call_Ok in H1 as (s1 & H1 & E1). inv_call H now w2 H2.
  apply read_Ok in H2 as [-> ->]. inv_call H tid w3 H3.
  apply abort_Ok in H3 as [H3%get_task_id_Ok ->]. inv_call H u4 w4 H4.
  apply abort_Ok in H4 as [_ ->]. inv_call H u5 w5 H5. destruct u5.
  inv_call H c w6 H6. apply authorized_inv in H6 as (s0 & Hlook & Hauth).
  inv_call H u7 w7 H7. apply check_version_inv in H7 as [Hv ->].
  inv_call H areq w8 H8. apply abort_Ok in H8 as [H8 ->]. apply map_err_Ok in H8.
  inv_call H agg_param w9 H9. apply abort_Ok in H9 as [_ ->].
  inv_call H u10 w10 H10. inv_call H share w11 H11. apply call_Ok in H11 as (s11 & H11 & ->).
  destruct (N.eqb_spec (AggregateShareReq_report_count areq) (DapAggregateShare_report_count share))
    as [Hcount|]; [|done].
  destruct (constant_time_eq _ _) eqn:Hsum; [|done]. apply constant_time_eq_iff in Hsum.
  cbn [negb orb] in H. destruct (report_count_compatible_or_false c tid _) eqn:Hcmp; [|done].
  cbn [negb] in H. inv_call H u12 w12 H12. apply call_Ok in H12 as (s12 & H12 & ->).
  inv_call H ct w13 H13. apply lift_Ok in H13 as [H13 ->].
  inv_call H u14 w14 H14. apply inc_Ok in H14. inv_call H u15 w15 H15. apply inc_Ok in H15.
  inv_call H payload w16 H16. apply lift_Ok in H16 as [H16 ->]. apply map_err_Ok in H16.
  injection H as <- <-. destruct u10, u12, agg_param.
  exists tid, g, (get_current_time (w_store w1)), c, areq, share, ct, s0, (w_store w6),
    (w_store w10), s11, w6, w10. cbn zeta.
  apply count_compatible in Hcmp as [Hmin Hmax].
  split_and!; try done; [|by rewrite H15, H14].
  exists w1, w5. split_and!; try done. by rewrite H1, E1.
Qed.

(** C4: the Helper releases its aggregate share only for a batch that it and the Leader
    hold the same reports of. The configuration is the one the storage has for the task
    of the request at that point of the run; the request is authorized and of the
    version of the task; the batch, in the state the authorization left, passes
    [check_batch]; the share is what the storage then has for the batch, with the report
    count and the checksum of the request and a count within the bounds of the task; the
    batch is then marked as collected, which is the last change of the storage; and what
    is answered is that share, encrypted to the Collector of the task. *)
Theorem agg_share_released seed (req : DapRequest S) (w : World St) resp w' :
  handle_agg_share_req seed req w = (Ok resp, w') ->
  exists tid g now c areq share ct s0 s1 s2 s3 wa wb,
    DapRequest_task_id req = Some tid /\
    looked_up tid req w g now c s0 /\
    DapTaskConfig_version c = DapRequest_version req /\
    unauthorized_reason c req s0 = (Ok None, s1) /\
    get_decoded (AggregateShareReq_decode (DapRequest_version req)) (DapRequest_payload req)
    = Ok areq /\
    let sel := AggregateShareReq_batch_sel areq in
    check_batch c tid (Query_from sel) (AggregateShareReq_agg_param areq) now g wa
    = (Ok tt, wb) /\ w_store wa = s1 /\ w_store wb = s2 /\
    get_agg_share tid sel s2 = (Ok share, s3) /\
    AggregateShareReq_report_count areq = DapAggregateShare_report_count share /\
    AggregateShareReq_checksum areq = DapAggregateShare_checksum share /\
    DapTaskConfig_min_batch_size c <= DapAggregateShare_report_count share /\
    (forall m, DapTaskConfig_query c = QC_FixedSize (Some m) ->
       DapAggregateShare_report_count share <= m) /\
    mark_collected tid sel s3 = (Ok tt, w_store w') /\
    produce_helper_encrypted_agg_share seed c (DapTaskConfig_collector_hpke_config c) tid
      sel AggParam_Empty share (DapTaskConfig_version c) = Ok ct /\
    get_encoded AggregateShare_encode (MkAggregateShare ct) = Ok (DapResponse_payload resp) /\
    DapResponse_media_type resp = MT_AggregateShare.
Proof. apply agg_share_req_inv. Qed.

Lemma consume_metadata decrypter i is_leader tid c share payload st :
  EarlyReportStateConsumed_consume decrypter i is_leader tid c share payload = Ok st ->
  Consumed_metadata st = ReportShare_report_metadata share.
Proof.
  unfold EarlyReportStateConsumed_consume. intros H. cbv zeta in H.
  destruct (_ <=? _) in H; [by injection H as <-|].
  do 2 (destruct (_ <? _) in H; [by injection H as <-|]).
  apply bind_Ok in H as (aad & _ & H).
  repeat first [discriminate H | by injection H as <- | case_hyp H].
Qed.

(** A report initializer keeps the reports it is given, in their order. *)
Definition initializer_keeps_reports (i : DapReportInitializer) : Prop :=
  forall is_leader c agg_param consumed l,
    initialize_reports i is_leader c agg_param consumed = Ok l ->
    Initialized_metadata <$> l = Consumed_metadata <$> consumed.

Lemma consume_prep_inits_metadata decrypter i tid c rp processed inits l :
  consume_prep_inits decrypter i tid c rp processed inits = Ok l ->
  Consumed_metadata <$> l
  = (fun p => ReportShare_report_metadata (PrepareInit_report_share p)) <$> inits.
Proof.
  revert processed l. induction inits as [|p inits IH]; intros processed l H;
    cbn [consume_prep_inits] in H.
  - by injection H as <-.
  - case_match; [done|]. apply bind_Ok in H as (s & Hs & H).
    apply bind_Ok in H as (rest & H & [= <-]). rewrite !fmap_cons. f_equal; [|by eapply IH].
    by eapply consume_metadata.
Qed.

Definition prep_init_id (p : PrepareInit) : ReportId :=
  ReportMetadata_id (ReportShare_report_metadata (PrepareInit_report_share p)).

(** A transition for every report, in order, whatever the storage answers. *)
Lemma finish_reports_ids c status part span reports span' trs :
  finish_reports c status part span reports = Ok (span', trs) ->
  Transition_report_id <$> trs = report_ids reports.
Proof.
  revert span trs. induction reports as [|r reports IH]; intros span trs H;
    cbn [finish_reports] in H; [by injection H as <- <-|].
  apply bind_Ok in H as ([span1 var] & _ & H).
  apply bind_Ok in H as ([span2 trs'] & H & [= <- <-]).
  unfold report_ids. rewrite !fmap_cons. f_equal. by eapply IH.
Qed.

Lemma finish_agg_job_ids tries tid c part reports status (w : World St) resp w' :
  finish_agg_job_loop tries tid c part reports status w = (Ok resp, w') ->
  Transition_report_id <$> AggregationJobResp_transitions resp = report_ids reports.
Proof.
  revert status w. induction tries as [|tries IH]; intros status w H; [done|].
  cbn [finish_agg_job_loop] in H. inv_call H p w1 Hp. destruct p as [span r].
  apply lift_Ok in Hp as [Hp ->]. inv_call H put w2 H2. inv_call H q w3 H3.
  destruct q as [status' restart]. destruct restart; cbn [negb] in H; [by eapply IH|].
  inv_call H u4 w4 H4. inv_call H u5 w5 H5. injection H as <- <-.
  unfold produce_agg_job_resp in Hp. apply bind_Ok in Hp as ([sp trs] & Hp & [= _ <-]).
  by eapply finish_reports_ids.
Qed.

End Properties.
