(* ===== verification/Leader.v ===== *)
(** * The Leader

    [src/crates/daphne/src/roles/leader/mod.rs]: the trait [DapLeader] as a class over
    the state of its implementer, uploads, collection requests, and the processing of
    the work queue.  The identifiers and the encryption randomness a job draws are
    arguments. *)

From S2P Require Import Prelude Codec Messages TaskprovMessages Errors Config AggShare Hpke.
From S2P Require Import Protocol Pine Taskprov LeaderState Roles.

(** ** The trait *)
Section Trait.
Context `{BP : BuildProfile} `{PC : PrioCodec} `{PA : PrioAgg} `{VO : !VdafOps}.

Class DapLeader (S St : Type) : Type := {
  authorize : TaskId -> DapTaskConfig -> DapMediaType -> list byte -> stm St DapError S;
  DapLeader_put_report : Report -> TaskId -> stm St DapError unit;
  DapLeader_current_batch : TaskId -> stm St DapError BatchId;
  DapLeader_init_collect_job : TaskId -> CollectionJobId -> BatchSelector ->
    DapAggregationParam -> stm St DapError Url;
  DapLeader_poll_collect_job : TaskId -> CollectionJobId -> stm St DapError DapCollectionJob;
  DapLeader_dequeue_work : N -> stm St DapError (list WorkItem);
  DapLeader_enqueue_work : list WorkItem -> stm St DapError unit;
  DapLeader_finish_collect_job : TaskId -> CollectionJobId -> Collection -> stm St DapError unit;
  send_http_post : DapRequest S -> Url -> stm St DapError DapResponse;
  send_http_put : DapRequest S -> Url -> stm St DapError DapResponse;
}.
End Trait.

Inductive LeaderHttpRequestMethod : Type := Method_Post | Method_Put.

Record LeaderHttpRequestOptions : Type := MkLeaderHttpRequestOptions {
  opts_path : string;
  opts_req_media_type : DapMediaType;
  opts_resp_media_type : DapMediaType;
  opts_resource : DapResource;
  opts_req_data : list byte;
  opts_method : LeaderHttpRequestMethod;
  opts_taskprov : option string;
}.

Record DapLeaderProcessTelemetry : Type := MkTelemetry {
  reports_collected : N;
  reports_aggregated : N;
  reports_processed : N;
}.

Section Leader.
Context `{BP : BuildProfile} `{PC : PrioCodec} `{PA : PrioAgg} `{VO : !VdafOps} `{Dg : Digest}
  `{HC : HpkeCrypto} `{HK : Hkdf} `{B64 : Base64} `{UP : UrlParser} `{UJ : UrlJoin}
  `{PF : PineFields}.
Context {S St : Type} `{DA : !DapAggregator S St} `{DL : !DapLeader S St}.

Definition check_response_content_type (resp : DapResponse) (expected : DapMediaType) :
    res DapError unit :=
  if bool_decide (DapResponse_media_type resp = expected) then Ok tt
  else Err (Fatal (Text "response from peer has unexpected content-type")).

Definition leader_send_http_request (task_id : TaskId) (task_config : DapTaskConfig)
    (opts : LeaderHttpRequestOptions) : stm (World St) DapError DapResponse :=
  url ← lift (ok_or (url_join (DapTaskConfig_helper_url task_config) (opts_path opts))
                (fatal_logged "failed to helper url {:?} with {path:?}"));
  auth ← call (authorize task_id task_config (opts_req_media_type opts) (opts_req_data opts));
  let req := MkDapRequest (DapTaskConfig_version task_config) (Some (opts_req_media_type opts))
    (Some task_id) (opts_resource opts) (opts_req_data opts) (Some auth) (opts_taskprov opts) in
  resp ← match opts_method opts with
         | Method_Put => call (send_http_put req url)
         | Method_Post => call (send_http_post req url)
         end;
  _ ← lift (check_response_content_type resp (opts_resp_media_type opts));
  mret resp.

(** A report has exactly two input shares, by its type. *)
Definition handle_upload_req (req : DapRequest S) : stm (World St) DapError unit :=
  global_config ← call get_global_config;
  task_id ← abort (get_task_id req);
  _ ← abort (check_request_content_type req MT_Report);
  report ← abort (map_err (fun e => from_codec_error e task_id)
    (get_decoded (Report_decode (DapRequest_version req)) (DapRequest_payload req)));
  _ ← (if DapGlobalConfig_allow_taskprov global_config
       then resolve_taskprov task_id req global_config else mret tt);
  o ← call (get_task_config_for task_id);
  task_config ← lift (ok_or o (Abort_ (UnrecognizedTask task_id)));
  _ ← check_version task_config req;
  can ← call (can_hpke_decrypt task_id
                (HpkeCiphertext_config_id (Report_encrypted_input_shares report).1));
  if negb can then
    fail_abort (ReportRejected (Text "No current HPKE configuration matches the indicated ID."))
  else
  let metadata := Report_report_metadata report in
  if DapTaskConfig_not_after task_config <=? ReportMetadata_time metadata then
    fail_abort (ReportTooLate (ReportMetadata_id metadata))
  else
  earliest ← lift (u64_sub (DapTaskConfig_not_before task_config)
                     (DapTaskConfig_time_precision task_config));
  if ReportMetadata_time metadata <? earliest then
    fail_abort (ReportRejected
      (Text "The timestamp preceeds the start of the task's validity window"))
  else
  _ ← call (DapLeader_put_report report task_id);
  inc (inbound_req_inc RT_Upload).

Definition handle_coll_job_req (req : DapRequest S) : stm (World St) DapError Url :=
  global_config ← call get_global_config;
  now ← read get_current_time;
  task_id ← abort (get_task_id req);
  _ ← abort (check_request_content_type req MT_CollectReq);
  _ ← (if DapGlobalConfig_allow_taskprov global_config
       then resolve_taskprov task_id req global_config else mret tt);
  task_config ← get_authorized_task_config task_id req;
  coll_job_req ← abort (map_err (fun e => from_codec_error e task_id)
    (get_decoded (CollectionReq_decode (DapRequest_version req)) (DapRequest_payload req)));
  agg_param ← abort (map_err (fun e => from_codec_error e task_id)
    (get_decoded (DapAggregationParam_decode (DapTaskConfig_vdaf task_config))
       (CollectionReq_agg_param coll_job_req)));
  _ ← check_version task_config req;
  _ ← check_batch task_config task_id (CollectionReq_query coll_job_req)
        (CollectionReq_agg_param coll_job_req) now global_config;
  coll_job_id ← match DapRequest_resource req with
                | CollectionJob id => mret id
                | _ => fail_abort (BadRequest (Text "missing collection ID"))
                end;
  batch_sel ← match CollectionReq_query coll_job_req with
              | Query_TimeInterval batch_interval => mret (BS_TimeInterval batch_interval)
              | Query_FixedSizeByBatchId batch_id => mret (BS_FixedSizeByBatchId batch_id)
              | Query_FixedSizeCurrentBatch =>
                  batch_id ← call (DapLeader_current_batch task_id);
                  mret (BS_FixedSizeByBatchId batch_id)
              end;
  collect_job_uri ← call (DapLeader_init_collect_job task_id coll_job_id batch_sel agg_param);
  _ ← inc (inbound_req_inc RT_Collect);
  mret collect_job_uri.

(** ** Aggregation jobs *)

(** The fold over the results of [try_put_agg_share_span], whose sums are only logged. *)
Fixpoint check_put_results
    (results : list (DapBatchBucket * (option MergeAggShareError * list (ReportId * Time)))) :
    res DapError unit :=
  match results with
  | [] => Ok tt
  | (_, (Some (MergeOther e), _)) :: _ => Err e
  | _ :: results => check_put_results results
  end.

Definition run_agg_job (agg_job_id : AggregationJobId) (task_id : TaskId)
    (task_config : DapTaskConfig) (part_batch_sel : PartialBatchSelector)
    (agg_param : DapAggregationParam) (reports : list Report) : stm (World St) DapError N :=
  taskprov ← lift (resolve_taskprove_advertisement task_config);
  decrypter ← read hpke_decrypt;
  initializer ← read report_initializer;
  '(agg_job_state, agg_job_init_req) ←
    with_metrics (produce_agg_job_req task_config decrypter initializer task_id part_batch_sel
                    agg_param reports);
  if DapAggregationJobState_report_count agg_job_state =? 0 then mret 0
  else
  let url_path := String.append "tasks/" (String.append (encode_base64url task_id)
    (String.append "/aggregation_jobs/" (encode_base64url agg_job_id))) in
  req_data ← lift (map_err DapError_encoding
    (get_encoded (AggregationJobInitReq_encode (DapTaskConfig_version task_config))
       agg_job_init_req));
  resp ← leader_send_http_request task_id task_config
    (MkLeaderHttpRequestOptions url_path MT_AggregationJobInitReq MT_AggregationJobResp
       (AggregationJob agg_job_id) req_data Method_Put taskprov);
  agg_job_resp ← abort (map_err (fun e => from_codec_error e task_id)
    (get_decoded AggregationJobResp_decode (DapResponse_payload resp)));
  agg_span ← with_metrics (consume_agg_job_resp task_config task_id agg_job_state agg_job_resp);
  let out_shares_count := DapAggregateSpan_report_count agg_span in
  if out_shares_count =? 0 then mret 0
  else
  results ← call (try_put_agg_share_span task_id task_config agg_span);
  _ ← lift (check_put_results (map_to_list results));
  _ ← inc (report_inc_by RS_Aggregated out_shares_count);
  mret out_shares_count.

(** ** Collection jobs *)

(** The smallest interval of whole time precisions around the reports. *)
Definition collection_interval (task_config : DapTaskConfig) (min_time max_time : Time) :
    res DapError Interval :=
  low ← quantized_time_lower_bound task_config min_time;
  high ← quantized_time_upper_bound task_config max_time;
  Ok (MkInterval low (if low <? high then high - low
                      else DapTaskConfig_time_precision task_config)).

Definition run_coll_job (seed : list byte) (task_id : TaskId) (task_config : DapTaskConfig)
    (coll_job_id : CollectionJobId) (batch_sel : BatchSelector)
    (agg_param : DapAggregationParam) : stm (World St) DapError N :=
  leader_agg_share ← call (get_agg_share task_id batch_sel);
  taskprov ← lift (resolve_taskprove_advertisement task_config);
  let report_count := DapAggregateShare_report_count leader_agg_share in
  compatible ← abort (is_report_count_compatible task_config task_id report_count);
  if negb compatible then mret 0
  else
  leader_enc_agg_share ← lift (produce_leader_encrypted_agg_share seed task_config
    (DapTaskConfig_collector_hpke_config task_config) task_id batch_sel agg_param
    leader_agg_share (DapTaskConfig_version task_config));
  encoded_agg_param ← lift (map_err (fun _ => fatal_logged "failed to decode agg param")
    (get_encoded DapAggregationParam_encode agg_param));
  let agg_share_req := MkAggregateShareReq batch_sel encoded_agg_param report_count
    (DapAggregateShare_checksum leader_agg_share) in
  let url_path := String.append "tasks/" (String.append (encode_base64url task_id)
    "/aggregate_shares") in
  req_data ← lift (map_err DapError_encoding
    (get_encoded (AggregateShareReq_encode (DapTaskConfig_version task_config)) agg_share_req));
  resp ← leader_send_http_request task_id task_config
    (MkLeaderHttpRequestOptions url_path MT_AggregateShareReq MT_AggregateShare Undefined
       req_data Method_Post taskprov);
  agg_share_resp ← abort (map_err (fun e => from_codec_error e task_id)
    (get_decoded AggregateShare_decode (DapResponse_payload resp)));
  interval ← lift (collection_interval task_config (DapAggregateShare_min_time leader_agg_share)
                     (DapAggregateShare_max_time leader_agg_share));
  let collection := MkCollection (PartialBatchSelector_from batch_sel) report_count interval
    (leader_enc_agg_share, AggregateShare_encrypted_agg_share agg_share_resp) in
  _ ← call (DapLeader_finish_collect_job task_id coll_job_id collection);
  _ ← call (mark_collected task_id batch_sel);
  _ ← inc (report_inc_by RS_Collected report_count);
  mret report_count.

(** ** The work queue *)

(** The aggregation job of a work item: its task, and the rest. *)
Record agg_job : Type := MkAggJob {
  job_agg_job_id : AggregationJobId;
  job_part_batch_sel : PartialBatchSelector;
  job_agg_param : DapAggregationParam;
  job_reports : list Report;
}.

(** *** Futures

    The aggregation jobs of a task are futures that run together: at every [await] of one the
    others may go on.  A future is ready, or is polled for one step of the state.  Every step of
    the state is followed by a point of suspension, also where the code does not wait: the
    interleavings are those of the code and more. *)
#[warnings="-register-all"]
Inductive future (A : Type) : Type :=
| Fut_ready (r : res DapError A)
| Fut_pending (poll : World St -> future A * World St).
Arguments Fut_ready {A}.
Arguments Fut_pending {A}.

Definition await {A} (m : stm (World St) DapError A) : future A :=
  Fut_pending (fun w => let '(r, w) := m w in (Fut_ready r, w)).

#[global] Instance future_ret : MRet future := fun A a => Fut_ready (Ok a).
#[global] Instance future_bind : MBind future := fun A B k =>
  fix bind f :=
    match f with
    | Fut_ready (Ok a) => k a
    | Fut_ready (Err e) => Fut_ready (Err e)
    | Fut_ready Panic => Fut_ready Panic
    | Fut_pending poll => Fut_pending (fun w => let '(f, w) := poll w in (bind f, w))
    end.

(** The future alone. *)
Fixpoint run_future {A} (f : future A) : stm (World St) DapError A := fun w =>
  match f with
  | Fut_ready r => (r, w)
  | Fut_pending poll => let '(f, w) := poll w in run_future f w
  end.

(** [leader_send_http_request] as a future *)
Definition send_future (task_id : TaskId) (task_config : DapTaskConfig) (opts : LeaderHttpRequestOptions) :
    future DapResponse :=
  url ← Fut_ready (ok_or (url_join (DapTaskConfig_helper_url task_config) (opts_path opts))
                     (fatal_logged "failed to helper url {:?} with {path:?}"));
  auth ← await (call (authorize task_id task_config (opts_req_media_type opts) (opts_req_data opts)));
  let req := MkDapRequest (DapTaskConfig_version task_config) (Some (opts_req_media_type opts))
    (Some task_id) (opts_resource opts) (opts_req_data opts) (Some auth) (opts_taskprov opts) in
  resp ← match opts_method opts with
         | Method_Put => await (call (send_http_put req url))
         | Method_Post => await (call (send_http_post req url))
         end;
  _ ← Fut_ready (check_response_content_type resp (opts_resp_media_type opts));
  mret resp.

(** [run_agg_job] as a future *)
Definition agg_job_future (agg_job_id : AggregationJobId) (task_id : TaskId)
    (task_config : DapTaskConfig) (part_batch_sel : PartialBatchSelector)
    (agg_param : DapAggregationParam) (reports : list Report) : future N :=
  taskprov ← Fut_ready (resolve_taskprove_advertisement task_config);
  decrypter ← await (read hpke_decrypt);
  initializer ← await (read report_initializer);
  '(agg_job_state, agg_job_init_req) ←
    await (with_metrics (produce_agg_job_req task_config decrypter initializer task_id part_batch_sel
                           agg_param reports));
  if DapAggregationJobState_report_count agg_job_state =? 0 then mret 0
  else
  let url_path := String.append "tasks/" (String.append (encode_base64url task_id)
    (String.append "/aggregation_jobs/" (encode_base64url agg_job_id))) in
  req_data ← Fut_ready (map_err DapError_encoding
    (get_encoded (AggregationJobInitReq_encode (DapTaskConfig_version task_config))
       agg_job_init_req));
  resp ← send_future task_id task_config
    (MkLeaderHttpRequestOptions url_path MT_AggregationJobInitReq MT_AggregationJobResp
       (AggregationJob agg_job_id) req_data Method_Put taskprov);
  agg_job_resp ← Fut_ready (map_err Abort_ (map_err (fun e => from_codec_error e task_id)
    (get_decoded AggregationJobResp_decode (DapResponse_payload resp))));
  agg_span ← await (with_metrics (consume_agg_job_resp task_config task_id agg_job_state agg_job_resp));
  let out_shares_count := DapAggregateSpan_report_count agg_span in
  if out_shares_count =? 0 then mret 0
  else
  results ← await (call (try_put_agg_share_span task_id task_config agg_span));
  _ ← Fut_ready (check_put_results (map_to_list results));
  _ ← await (inc (report_inc_by RS_Aggregated out_shares_count));
  mret out_shares_count.

(** The future of an aggregation job in the queue. *)
Definition queued_job_future (task_id : TaskId) (j : agg_job) : future N :=
  o ← await (call (get_task_config_for task_id));
  task_config ← Fut_ready (ok_or o (Abort_ (UnrecognizedTask task_id)));
  if len (job_reports j) =? 0 then mret 0
  else agg_job_future (job_agg_job_id j) task_id task_config (job_part_batch_sel j)
         (job_agg_param j) (job_reports j).

Fixpoint finish_all {A} (futures : list (future A)) : stm (World St) DapError (list A) :=
  match futures with
  | [] => mret []
  | f :: futures => a ← run_future f; l ← finish_all futures; mret (a :: l)
  end.

(** [try_join_all(..).await]: the futures are polled in the order of [polls], then what is left of
    them one after the other; the first error ends it.  Every interleaving is that of some
    [polls]. *)
Fixpoint try_join_all {A} (polls : list nat) (futures : list (future A)) :
    stm (World St) DapError (list A) := fun w =>
  match polls with
  | [] => finish_all futures w
  | i :: polls =>
      match futures !! i with
      | Some (Fut_pending poll) =>
          match poll w with
          | (Fut_ready (Err e), w) => (Err e, w)
          | (Fut_ready Panic, w) => (Panic, w)
          | (f, w) => try_join_all polls (<[i := f]> futures) w
          end
      | _ => try_join_all polls futures w
      end
  end.

(** [.into_iter().sum::<u64>()] *)
Definition sum_u64 {E} (ns : list N) : res E N :=
  foldl (fun sum n => s ← sum; u64_add s n) (Ok 0) ns.

Definition join_all (polls : list nat) (task_id : TaskId) (jobs : list agg_job) :
    stm (World St) DapError N :=
  ns ← try_join_all polls (queued_job_future task_id <$> jobs);
  lift (sum_u64 ns).

(** The loop over the dequeued items; [ids] and [seeds] are the randomness of the [i]-th item,
    [polls] the order in which the jobs that are joined there are polled. *)
Fixpoint process_items (polls : N -> list nat) (ids : N -> AggregationJobId) (seeds : N -> list byte) (i : N)
    (items : list WorkItem) (agg_jobs : gmap TaskId (list agg_job))
    (pending_coll_jobs : list WorkItem) (telem : DapLeaderProcessTelemetry) :
    stm (World St) DapError
      (gmap TaskId (list agg_job) * list WorkItem * DapLeaderProcessTelemetry) :=
  match items with
  | [] => mret (agg_jobs, pending_coll_jobs, telem)
  | WI_AggregationJob task_id part_batch_sel agg_param reports :: items =>
      processed ← lift (u64_add (reports_processed telem) (len reports));
      let job := MkAggJob (ids i) part_batch_sel agg_param reports in
      process_items polls ids seeds (i + 1) items
        (<[task_id := default [] (agg_jobs !! task_id) ++ [job]]> agg_jobs) pending_coll_jobs
        (MkTelemetry (reports_collected telem) (reports_aggregated telem) processed)
  | WI_CollectionJob task_id coll_job_id batch_sel agg_param :: items =>
      aggregated ← match agg_jobs !! task_id with
                   | Some jobs =>
                       n ← join_all (polls i) task_id jobs; lift (u64_add (reports_aggregated telem) n)
                   | None => mret (reports_aggregated telem)
                   end;
      let agg_jobs := match agg_jobs !! task_id with
                      | Some _ => <[task_id := []]> agg_jobs
                      | None => agg_jobs
                      end in
      o ← call (get_task_config_for task_id);
      task_config ← lift (ok_or o (Abort_ (UnrecognizedTask task_id)));
      collected ← run_coll_job (seeds i) task_id task_config coll_job_id batch_sel agg_param;
      if 0 <? collected then
        total ← lift (u64_add (reports_collected telem) collected);
        process_items polls ids seeds (i + 1) items agg_jobs pending_coll_jobs
          (MkTelemetry total aggregated (reports_processed telem))
      else
        process_items polls ids seeds (i + 1) items agg_jobs
          (pending_coll_jobs ++ [WI_CollectionJob task_id coll_job_id batch_sel agg_param])
          (MkTelemetry (reports_collected telem) aggregated (reports_processed telem))
  end.

(** The loop over the jobs that are left. *)
Fixpoint join_rest (polls : N -> list nat) (i : N) (jobs : list (TaskId * list agg_job)) (aggregated : N) :
    stm (World St) DapError N :=
  match jobs with
  | [] => mret aggregated
  | (task_id, js) :: jobs =>
      n ← join_all (polls i) task_id js;
      aggregated ← lift (u64_add aggregated n);
      join_rest polls (i + 1) jobs aggregated
  end.

Definition process (polls : N -> list nat) (ids : N -> AggregationJobId) (seeds : N -> list byte) (num_items : N) :
    stm (World St) DapError DapLeaderProcessTelemetry :=
  items ← call (DapLeader_dequeue_work num_items);
  '(agg_jobs, pending_coll_jobs, telem) ←
    process_items polls ids seeds 0 items ∅ [] (MkTelemetry 0 0 0);
  aggregated ← join_rest polls (len items) (map_to_list agg_jobs) (reports_aggregated telem);
  _ ← call (DapLeader_enqueue_work pending_coll_jobs);
  mret (MkTelemetry (reports_collected telem) aggregated (reports_processed telem)).
End Leader.
Arguments Fut_ready {St A}.
Arguments Fut_pending {St A}.
