(* ===== verification/LeaderCorrect.v ===== *)
(** * The handlers and jobs of the Leader

    What a successful upload, aggregation job and collection job of [Leader] implies. *)

From S2P Require Import Prelude Codec Messages TaskprovMessages Errors Config AggShare Hpke.
From S2P Require Import Protocol ProtocolCorrect Pine Taskprov LeaderState Roles.
From S2P Require Import HelperCorrect HandlersCorrect Leader.

(** ** Counting the reports of a span *)
Section Count.
Context `{BP : BuildProfile} `{PA : PrioAgg} `{D : Digest}.

Lemma items_count_buckets (items : list (DapBatchBucket * out_share)) (bs : list DapBatchBucket) :
  NoDup bs -> (forall i, i ∈ items -> i.1 ∈ bs) ->
  foldr N.add 0 ((fun b => len (items_of b items)) <$> bs) = len items.
Proof.
  intros Hnd. induction items as [|[b0 o] items IH]; intros Hin.
  - clear. induction bs as [|b bs IH]; [done|]. rewrite fmap_cons. cbn [foldr].
    by rewrite IH.
  - rewrite len_cons, <-IH by (intros i Hi; apply Hin; by right).
    assert (b0 ∈ bs) as Hb0 by (apply (Hin (b0, o)); by left).
    assert (forall b, len (items_of b ((b0, o) :: items))
      = (if decide (b0 = b) then 1 else 0) + len (items_of b items)) as Hcons.
    { intros b. change ((b0, o) :: items) with ([(b0, o)] ++ items).
      rewrite items_of_app, items_of_one, len_app. by case_decide. }
    clear IH Hin. induction bs as [|b bs IH]; [by apply not_elem_of_nil in Hb0|].
    apply NoDup_cons in Hnd as [Hb Hnd]. rewrite !fmap_cons. cbn [foldr]. rewrite Hcons.
    destruct (decide (b0 = b)) as [->|Hne].
    + assert (foldr N.add 0 ((fun b1 => len (items_of b1 ((b, o) :: items))) <$> bs)
        = foldr N.add 0 ((fun b1 => len (items_of b1 items)) <$> bs)) as ->; [|lia].
      f_equal. apply list_fmap_ext. intros k b1 Hk%list_elem_of_lookup_2. rewrite Hcons.
      rewrite decide_False; [lia|]. by intros ->.
    + rewrite IH; [lia|done|]. by apply elem_of_cons in Hb0 as [?|?].
Qed.

Lemma span_report_count span items :
  span_represents span items -> DapAggregateSpan_report_count span = len items.
Proof.
  intros H. unfold DapAggregateSpan_report_count.
  rewrite <-(items_count_buckets items (map_to_list span).*1).
  - f_equal. rewrite <-list_fmap_compose. apply list_fmap_ext.
    intros k [b [s rs]] Hk%list_elem_of_lookup_2%elem_of_map_to_list. simpl.
    specialize (H b). rewrite Hk in H. destruct H as (_ & _ & ->). unfold len.
    by rewrite length_fmap.
  - apply NoDup_fst_map_to_list.
  - intros [b o] Hi. apply list_elem_of_fmap. specialize (H b). simpl.
    destruct (span !! b) as [[s rs]|] eqn:E.
    + exists (b, (s, rs)). split; [done|]. by apply elem_of_map_to_list.
    + apply elem_of_items_of in Hi. rewrite H in Hi. by apply not_elem_of_nil in Hi.
Qed.
End Count.

Section Properties.
Context `{BP : BuildProfile} `{PC : PrioCodec} `{PA : PrioAgg} `{VO : !VdafOps} `{Dg : Digest}
  `{HC : HpkeCrypto} `{HK : Hkdf} `{B64 : Base64} `{UP : UrlParser} `{UJ : UrlJoin}
  `{PF : PineFields}.
Context {PL : PrioAggLaws PA} {DgL : DigestLaws Dg}.
Context {S St : Type} {DA : DapAggregator S St} {DL : DapLeader S St}.

(** C18: the Leader stores a report of an upload only if it is of the version of the task,
    is encrypted to a configuration the Leader has, and its time is in the validity
    window of the task. The task's configuration is the one the storage has for the task
    of the request at that point of the run, and the states of the HPKE lookup and of
    the put are those that follow. When the task starts less than one time precision after the
    epoch, the lower end of the window underflows: the program panics, or, where
    overflow is not checked, no report with a time before the last time precision of
    the 64-bit range is stored. *)
Theorem upload_accepted (req : DapRequest S) (w : World St) u w' :
  handle_upload_req req w = (Ok u, w') ->
  exists tid g now c report s0 s1,
    DapRequest_task_id req = Some tid /\
    looked_up tid req w g now c s0 /\
    get_decoded (Report_decode (DapRequest_version req)) (DapRequest_payload req) = Ok report /\
    DapTaskConfig_version c = DapRequest_version req /\
    can_hpke_decrypt tid (HpkeCiphertext_config_id (Report_encrypted_input_shares report).1) s0
    = (Ok true, s1) /\
    DapLeader_put_report report tid s1 = (Ok tt, w_store w') /\
    let time := ReportMetadata_time (Report_report_metadata report) in
    let p := DapTaskConfig_time_precision c in
    let start := DapTaskConfig_not_before c in
    time < DapTaskConfig_not_after c /\
    (p <= start -> start - p <= time) /\
    (start < p -> overflow_checks = false /\ u64_max + 1 + start - p <= time).
Proof.
  unfold handle_upload_req. intros H.
  inv_call H g w1 H1. apply call_Ok in H1 as (s1 & H1 & E1).
  inv_call H tid w2 H2. apply abort_Ok in H2 as [H2%get_task_id_Ok ->].
  inv_call H u3 w3 H3. apply abort_Ok in H3 as [_ ->].
  inv_call H report w4 H4. apply abort_Ok in H4 as [H4 ->]. apply map_err_Ok in H4.
  inv_call H u5 w5 H5. destruct u5. inv_call H o w6 H6. apply call_Ok in H6 as (s6 & H6 & ->).
  inv_call H c w7 H7. apply lift_Ok in H7 as [H7 ->]. apply ok_or_Ok in H7 as ->.
  inv_call H u8 w8 H8. apply check_version_inv in H8 as [Hv ->].
  inv_call H can w9 H9. apply call_Ok in H9 as (s9 & H9 & ->). destruct can; [|done].
  cbn [negb] in H. destruct (N.leb_spec (DapTaskConfig_not_after c)
    (ReportMetadata_time (Report_report_metadata report))); [done|].
  inv_call H earliest w10 H10. apply lift_Ok in H10 as [H10 ->].
  destruct (N.ltb_spec (ReportMetadata_time (Report_report_metadata report)) earliest); [done|].
  inv_call H u11 w11 H11. apply call_Ok in H11 as (s11 & H11 & ->). apply inc_Ok in H.
  destruct u11. exists tid, g, (get_current_time (w_store w1)), c, report, s6, s9.
  assert (looked_up tid req w g (get_current_time (w_store w1)) c s6)
    by (exists w1, w5; split_and!; try done; by rewrite H1, E1).
  split_and!; try done; [by rewrite H|..]; unfold u64_sub in H10.
  - intros Hp. rewrite (proj2 (N.leb_le _ _) Hp) in H10. injection H10 as <-. lia.
  - intros Hp. rewrite (proj2 (N.leb_gt _ _) Hp) in H10.
    destruct overflow_checks; [done|]. injection H10 as <-. split; [done|lia].
Qed.

(** The interval of a collection covers the reports of the batch, on the boundaries of
    the time precision, and exceeds their times by less than one time precision at
    either end. *)
Theorem collection_interval_covers c lo hi :
  0 < DapTaskConfig_time_precision c -> lo <= hi ->
  hi + DapTaskConfig_time_precision c <= u64_max ->
  exists i, collection_interval c lo hi = Ok i /\
    Interval_start i mod DapTaskConfig_time_precision c = 0 /\
    Interval_duration i mod DapTaskConfig_time_precision c = 0 /\
    Interval_start i <= lo < Interval_start i + DapTaskConfig_time_precision c /\
    hi < Interval_start i + Interval_duration i <= hi + DapTaskConfig_time_precision c.
Proof.
  intros Hp Hle Hmax. unfold collection_interval, quantized_time_upper_bound.
  destruct (quantized_lower_bounds (E:=DapError) c lo Hp) as (l & -> & Hl & Ml).
  destruct (quantized_lower_bounds (E:=DapError) c hi Hp) as (h & -> & Hh & Mh).
  cbn [mbind res_bind]. rewrite u64_add_fits by lia. cbn [mbind res_bind].
  set (p := DapTaskConfig_time_precision c) in *.
  apply N.Div0.mod_divides in Ml as [a ->]. apply N.Div0.mod_divides in Mh as [b ->].
  assert (a <= b) as Hab by nia.
  rewrite (proj2 (N.ltb_lt _ _)) by nia. eexists. split; [done|]. simpl. split_and!.
  - rewrite N.mul_comm. apply N.Div0.mod_mul.
  - replace (p * b + p - p * a) with ((b + 1 - a) * p) by nia. apply N.Div0.mod_mul.
  - lia.
  - lia.
  - nia.
  - nia.
Qed.

Lemma with_metrics_Ok {E A} (m : stm metrics E A) (w : World St) a w' :
  with_metrics m w = (Ok a, w') ->
  exists ms, m (w_metrics w) = (Ok a, ms) /\ w' = MkWorld (w_store w) ms (w_audit w).
Proof.
  unfold with_metrics. destruct (m (w_metrics w)) as [r ms]. intros [= -> <-]. by exists ms.
Qed.

Lemma consume_reports_len dec ini tid c rp processed reports l :
  consume_reports dec ini tid c rp processed reports = Ok l -> length l = length reports.
Proof.
  revert processed l. induction reports as [|r reports IH]; intros processed l H;
    cbn [consume_reports] in H; [by injection H as <-|].
  case_match; [done|]. destruct (Report_encrypted_input_shares r).
  apply bind_Ok in H as (x & _ & H). apply bind_Ok in H as (rest & H & [= <-]).
  simpl. f_equal. by eapply IH.
Qed.

Lemma prepare_reports_len l m out m' :
  prepare_reports l m = (Ok out, m') -> (length out <= length l)%nat.
Proof.
  revert m out. induction l as [|[[]] l IH]; intros m out H; cbn [prepare_reports] in H.
  - by injection H as <- <-.
  - inv_call H x m1 H1. inv_call H rest m2 H2. injection H as <- <-. apply IH in H2.
    simpl. lia.
  - inv_call H x m1 H1. apply IH in H. simpl. lia.
Qed.

Lemma agg_job_state_len c dec ini tid part ap reports rp m state req m' :
  produce_agg_job_req_impl c dec ini tid part ap reports rp m = (Ok (state, req), m') ->
  len (DapAggregationJobState_seq state) <= len reports /\
  DapAggregationJobState_part_batch_sel state = part.
Proof.
  unfold produce_agg_job_req_impl. intros H.
  inv_call H cs m1 H1. apply lift_Ok in H1 as [H1 ->]. apply consume_reports_len in H1.
  inv_call H l m2 H2. inv_call H u3 m3 H3. inv_call H prepared m4 H4. inv_call H ap' m5 H5.
  injection H as <- <- <-. apply prepare_reports_len in H4. simpl.
  rewrite length_zip_with, !length_fmap in H4. unfold len. rewrite length_fmap.
  split; [lia|done].
Qed.

Lemma check_put_ok l :
  check_put_results l = Ok tt -> forall x, x ∈ l -> forall e, x.2.1 <> Some (MergeOther e).
Proof.
  induction l as [|[b [[[|R|err]|] rs]] l IH]; intros H x Hx e.
  - by apply not_elem_of_nil in Hx.
  - apply elem_of_cons in Hx as [->|Hx]; [done|by apply IH].
  - apply elem_of_cons in Hx as [->|Hx]; [done|by apply IH].
  - done.
  - apply elem_of_cons in Hx as [->|Hx]; [done|by apply IH].
Qed.

Lemma consume_reports_metadata dec ini tid c rp processed reports l :
  consume_reports dec ini tid c rp processed reports = Ok l ->
  Consumed_metadata <$> l.*1 = Report_report_metadata <$> reports.
Proof.
  revert processed l. induction reports as [|r reports IH]; intros processed l H;
    cbn [consume_reports] in H; [by injection H as <-|].
  case_match; [done|]. destruct (Report_encrypted_input_shares r).
  apply bind_Ok in H as (x & Hx & H). apply bind_Ok in H as (rest & H & [= <-]).
  rewrite !fmap_cons. f_equal; [|by eapply IH]. by apply consume_metadata in Hx.
Qed.

Lemma prepare_reports_sublist l m out m' :
  prepare_reports l m = (Ok out, m') ->
  AJRS_report_id <$> out.*1
  `sublist_of` ((fun p => ReportMetadata_id (Initialized_metadata p)) <$> l.*1).
Proof.
  revert m out. induction l as [|[[]] l IH]; intros m out H; cbn [prepare_reports] in H.
  - by injection H as <- <-.
  - inv_call H x m1 H1. inv_call H rest m2 H2. injection H as <- <-. apply IH in H2.
    rewrite !fmap_cons. by constructor.
  - inv_call H x m1 H1. apply IH in H. rewrite !fmap_cons. by constructor.
Qed.

(** The reports of a job are among those it was started with, in their order. *)
Lemma agg_job_state_sublist c dec ini tid part ap reports rp m state req m' :
  initializer_keeps_reports ini ->
  produce_agg_job_req_impl c dec ini tid part ap reports rp m = (Ok (state, req), m') ->
  AJRS_report_id <$> DapAggregationJobState_seq state
  `sublist_of` ((fun r => ReportMetadata_id (Report_report_metadata r)) <$> reports).
Proof.
  unfold produce_agg_job_req_impl. intros Hk H.
  inv_call H cs m1 H1. apply lift_Ok in H1 as [H1 ->]. apply consume_reports_metadata in H1.
  inv_call H l m2 H2. apply lift_Ok in H2 as [H2 ->]. apply Hk in H2.
  inv_call H u3 m3 H3. apply lift_Ok in H3 as [H3 ->].
  destruct (N.eqb_spec (len l) (len cs.*2)) as [El|]; [|done].
  inv_call H prepared m4 H4. inv_call H ap' m5 H5. injection H as <- <- <-.
  apply prepare_reports_sublist in H4. rewrite fst_zip in H4 by (unfold len in El; lia).
  cbn. change (fun r => ReportMetadata_id (Report_report_metadata r))
    with (ReportMetadata_id ∘ Report_report_metadata).
  rewrite (list_fmap_compose _ _ reports), <-H1, <-H2, <-(list_fmap_compose _ _ l). exact H4.
Qed.

Lemma prepare_reports_ids l m out m' :
  prepare_reports l m = (Ok out, m') ->
  prep_init_id <$> out.*2 = AJRS_report_id <$> out.*1.
Proof.
  revert m out. induction l as [|[[]] l IH]; intros m out H; cbn [prepare_reports] in H.
  - by injection H as <- <-.
  - inv_call H x m1 H1. inv_call H rest m2 H2. injection H as <- <-. apply IH in H2.
    rewrite !fmap_cons. by f_equal.
  - inv_call H x m1 H1. by apply IH in H.
Qed.

Lemma agg_job_state_ids c dec ini tid part ap reports rp m state req m' :
  produce_agg_job_req_impl c dec ini tid part ap reports rp m = (Ok (state, req), m') ->
  prep_init_id <$> AggregationJobInitReq_prep_inits req
  = AJRS_report_id <$> DapAggregationJobState_seq state.
Proof.
  unfold produce_agg_job_req_impl. intros H.
  inv_call H cs m1 H1. inv_call H l m2 H2. inv_call H u3 m3 H3. inv_call H prepared m4 H4.
  inv_call H ap' m5 H5. injection H as <- <- <-. by eapply prepare_reports_ids.
Qed.

Context {AS : AggShareStorage DA}.

(** The storage did not take the item: its bucket was collected or had reports of the
    same put, or, of a put that was acknowledged, the item itself. *)
Definition refused (tid : TaskId) (s : St) (put : DapAggregateSpan (option MergeAggShareError))
    (i : DapBatchBucket * out_share) : Prop :=
  (exists reps, put !! i.1 = Some (Some AlreadyCollected, reps)) \/
  (exists replays reps, put !! i.1 = Some (Some (ReplaysDetected replays), reps)) \/
  item_id i ∈ bs_reports (bucket s tid i.1).

Lemma committed_or_refused tid c span items (s s' : St) put :
  span_represents span items -> try_put_agg_share_span tid c span s = (Ok put, s') ->
  check_put_results (map_to_list put) = Ok tt ->
  forall i, i ∈ items -> i ∈ committed tid s put items \/ refused tid s put i.
Proof.
  intros Hs Hput Hok [b o] Hi.
  destruct (item_result _ _ _ _ _ _ _ Hs Hput b o Hi) as (share & reps & r & _ & Hr & _ & _).
  destruct r as [[|R|e]|].
  - right; left. by exists reps.
  - right; right; left. by exists R, reps.
  - exfalso. eapply (check_put_ok _ Hok (b, (Some (MergeOther e), reps)));
      [by apply elem_of_map_to_list|done].
  - destruct (decide (item_id (b, o) ∈ bs_reports (bucket s tid b))) as [H|H];
      [by right; right; right|left].
    apply committed_spec. split_and!; [done|done|by exists reps].
Qed.

(** C9: an aggregation job of the Leader that returns a positive count [n]. The job sends
    the reports it could prepare, in the run's state, and decodes the answer to that
    request; [n] is the number of reports the Helper answered with "continue" and the
    Leader could finish, each with the output share it computed and in its bucket. The
    storage is then as the put of these reports left it: the share of every bucket has
    grown by exactly those of them the storage took, and every other one is in a bucket
    that answered with a collected batch or with replays, or had been aggregated there
    before; [n] counts these too. *)
Theorem run_agg_job_commits id tid c part agg_param reports (w : World St) n w' :
  len reports <= u64_max ->
  run_agg_job id tid c part agg_param reports w = (Ok n, w') -> 0 < n ->
  exists taskprov state areq m1 data hresp w1 resp span items put,
    produce_agg_job_req c (hpke_decrypt (w_store w)) (report_initializer (w_store w)) tid part
      agg_param reports (w_metrics w) = (Ok (state, areq), m1) /\
    prep_init_id <$> AggregationJobInitReq_prep_inits areq
    = AJRS_report_id <$> DapAggregationJobState_seq state /\
    get_encoded (AggregationJobInitReq_encode (DapTaskConfig_version c)) areq = Ok data /\
    leader_send_http_request tid c
      (MkLeaderHttpRequestOptions
         (String.append "tasks/" (String.append (encode_base64url tid)
            (String.append "/aggregation_jobs/" (encode_base64url id))))
         MT_AggregationJobInitReq MT_AggregationJobResp (AggregationJob id) data Method_Put
         taskprov) (MkWorld (w_store w) m1 (w_audit w)) = (Ok hresp, w1) /\
    get_decoded AggregationJobResp_decode (DapResponse_payload hresp) = Ok resp /\
    Transition_report_id <$> AggregationJobResp_transitions resp
    = AJRS_report_id <$> DapAggregationJobState_seq state /\
    let answered := zip (AggregationJobResp_transitions resp) (DapAggregationJobState_seq state) in
    span_represents span items /\ well_bucketed c part items /\
    item_key <$> items = leader_counted c answered /\
    Forall (leader_computed_from c answered) items /\
    n = len items /\
    try_put_agg_share_span tid c span (w_store w1) = (Ok put, w_store w') /\
    (forall b l0, represents (bs_share (bucket (w_store w1) tid b)) l0 ->
       len l0 + len items <= u64_max ->
       represents (bs_share (bucket (w_store w') tid b))
         (l0 ++ items_of b (committed tid (w_store w1) put items))) /\
    (forall i, i ∈ items -> i ∈ committed tid (w_store w1) put items \/
       refused tid (w_store w1) put i).
Proof.
  intros Hmax H Hn. unfold run_agg_job in H.
  inv_call H tp w1 H1. apply lift_Ok in H1 as [_ ->].
  inv_call H dec w2 H2. apply read_Ok in H2 as [-> ->].
  inv_call H ini w3 H3. apply read_Ok in H3 as [-> ->].
  inv_call H st w4 H4. destruct st as [state req]. cbn beta iota in H.
  apply with_metrics_Ok in H4 as (m4 & H4 & ->).
  destruct (agg_job_state_len _ _ _ _ _ _ _ _ _ _ _ _ H4) as [Hlen Hpart].
  destruct (N.eqb_spec (DapAggregationJobState_report_count state) 0);
    [by injection H as <- <-; lia|].
  inv_call H data w5 H5. apply lift_Ok in H5 as [H5 ->]. apply map_err_Ok in H5.
  inv_call H hresp w6 H6. inv_call H msg w7 H7. apply abort_Ok in H7 as [H7 ->].
  apply map_err_Ok in H7. inv_call H span w8 H8.
  apply with_metrics_Ok in H8 as (m8 & H8 & ->).
  destruct (N.eqb_spec (DapAggregateSpan_report_count span) 0); [by injection H as <- <-; lia|].
  inv_call H put w9 H9. apply call_Ok in H9 as (s9 & H9 & ->).
  inv_call H u10 w10 H10. apply lift_Ok in H10 as [H10 ->].
  inv_call H u11 w11 H11. apply inc_Ok in H11. injection H as <- <-. cbn in H9, H11. destruct u10.
  apply consume_agg_job_resp_spec in H8 as (Hids & items & Hs & Hb & Hk & Hc); [|lia].
  rewrite Hpart in Hb.
  exists tp, state, req, m4, data, hresp, w6, msg, span, items, put. cbn zeta.
  split_and!; try done.
  - by eapply agg_job_state_ids.
  - by apply span_report_count.
  - by rewrite H11.
  - intros b l0 Hl Hm. rewrite H11. eapply shares_step; [exact Hs|exact H9|done|].
    pose proof (items_of_le b items). lia.
  - by eapply committed_or_refused.
Qed.
End Properties.
