(* ===== verification/LeaderProcess.v ===== *)
(** * How the Leader processes its queue

    [process] of [src/crates/daphne/src/roles/leader/mod.rs] holds back the aggregation jobs of a
    task, and runs them together before the next collection job of the task, or at the end.  Here
    its run is that of a sequence of phases, each of which joins the jobs of a task or runs a
    collection job; the phases are in the order the doc comment of [process] promises, however the
    futures that are joined interleave. *)

From S2P Require Import Prelude Codec Messages TaskprovMessages Errors Config Pine Taskprov.
From S2P Require Import AggShare Hpke Protocol LeaderState Roles HandlersCorrect Leader.

Section Process.
Context `{BP : BuildProfile} `{PC : PrioCodec} `{PA : PrioAgg} `{VO : !VdafOps} `{Dg : Digest}
  `{HC : HpkeCrypto} `{HK : Hkdf} `{B64 : Base64} `{UP : UrlParser} `{PF : PineFields}
  `{UJ : UrlJoin}.
Context {S St : Type} {DA : DapAggregator S St} {DL : DapLeader S St}.

(** ** A future that runs alone *)
Lemma run_future_bind {A B} (f : future (St:=St) A) (k : A -> future B) :
  forall w, run_future (f ≫= k) w = (run_future f ≫= fun a => run_future (k a)) w.
Proof.
  revert f. fix IH 1. intros [[a|e|]|poll] w; try reflexivity.
  cbn [run_future]. unfold mbind, stm_bind in *. cbn. destruct (poll w) as [f w'].
  exact (IH f w').
Qed.

(** The future, alone, does what the function does. *)
Definition alone {A} (f : future A) (m : stm (World St) DapError A) : Prop :=
  forall w, run_future f w = m w.

Lemma alone_bind {A B} (f : future A) m (k : A -> future B) k' :
  alone f m -> (forall a, alone (k a) (k' a)) -> alone (f ≫= k) (m ≫= k').
Proof.
  intros Hf Hk w. rewrite run_future_bind. unfold mbind, stm_bind. rewrite (Hf w).
  destruct (m w) as [[a|e|] w']; [apply Hk|done|done].
Qed.

Lemma alone_await {A} (m : stm (World St) DapError A) : alone (await m) m.
Proof. intros w. unfold await. cbn. by destruct (m w). Qed.

Lemma alone_ready {A} (r : res DapError A) : alone (Fut_ready r) (lift r).
Proof. done. Qed.

Lemma alone_ret {A} (a : A) : alone (mret a) (mret a).
Proof. done. Qed.

Ltac solve_alone := repeat first
  [ apply alone_await | apply alone_ready | apply alone_ret
  | apply alone_bind; [|intros ?]
  | match goal with |- alone match ?x with _ => _ end _ => destruct x end ].

Lemma send_future_alone task_id task_config opts :
  alone (send_future task_id task_config opts) (leader_send_http_request task_id task_config opts).
Proof. unfold send_future, leader_send_http_request. solve_alone. Qed.

Lemma agg_job_future_alone agg_job_id task_id task_config part_batch_sel agg_param reports :
  alone (agg_job_future agg_job_id task_id task_config part_batch_sel agg_param reports)
    (run_agg_job agg_job_id task_id task_config part_batch_sel agg_param reports).
Proof.
  unfold agg_job_future, run_agg_job. solve_alone.
Qed.

(** ** Phases *)
Inductive phase : Type :=
| Ph_join (polls : list nat) (task_id : TaskId) (jobs : list agg_job)
| Ph_collect (i : N) (task_id : TaskId) (coll_job_id : CollectionJobId) (batch_sel : BatchSelector)
    (agg_param : DapAggregationParam).

(** The collection jobs that are still pending, and the counts of collected and aggregated
    reports. *)
Abbreviation progress := (list WorkItem * N * N)%type.

Definition run_phase (seeds : N -> list byte) (ph : phase) (st : progress) :
    stm (World St) DapError progress :=
  let '(pending, collected, aggregated) := st in
  match ph with
  | Ph_join polls task_id jobs =>
      n ← join_all polls task_id jobs;
      aggregated ← lift (u64_add aggregated n);
      mret (pending, collected, aggregated)
  | Ph_collect i task_id coll_job_id batch_sel agg_param =>
      o ← call (get_task_config_for task_id);
      task_config ← lift (ok_or o (Abort_ (UnrecognizedTask task_id)));
      n ← run_coll_job (seeds i) task_id task_config coll_job_id batch_sel agg_param;
      if 0 <? n then
        total ← lift (u64_add collected n);
        mret (pending, total, aggregated)
      else mret (pending ++ [WI_CollectionJob task_id coll_job_id batch_sel agg_param], collected, aggregated)
  end.

Fixpoint run_phases (seeds : N -> list byte) (phs : list phase) (st : progress) :
    stm (World St) DapError progress :=
  match phs with
  | [] => mret st
  | ph :: phs => st ← run_phase seeds ph st; run_phases seeds phs st
  end.

(** The jobs of a task that are joined in some phases, those of some items of the queue, and the
    collection jobs of both. *)
Definition joined (task_id : TaskId) (phs : list phase) : list agg_job :=
  concat ((fun ph => match ph with
                     | Ph_join _ t js => if decide (t = task_id) then js else []
                     | Ph_collect _ _ _ _ _ => []
                     end) <$> phs).

Fixpoint queued_jobs (ids : N -> AggregationJobId) (i : N) (task_id : TaskId) (items : list WorkItem) :
    list agg_job :=
  match items with
  | [] => []
  | WI_AggregationJob t sel ap reports :: items =>
      (if decide (t = task_id) then [MkAggJob (ids i) sel ap reports] else []) ++
      queued_jobs ids (i + 1) task_id items
  | WI_CollectionJob _ _ _ _ :: items => queued_jobs ids (i + 1) task_id items
  end.

Definition collections (phs : list phase) : list WorkItem :=
  concat ((fun ph => match ph with
                     | Ph_join _ _ _ => []
                     | Ph_collect _ t j sel ap => [WI_CollectionJob t j sel ap]
                     end) <$> phs).

Definition is_collection (w : WorkItem) : bool :=
  match w with WI_CollectionJob _ _ _ _ => true | WI_AggregationJob _ _ _ _ => false end.

Definition total_reports (items : list WorkItem) : N :=
  foldr (fun w n => match w with WI_AggregationJob _ _ _ rs => len rs + n | _ => n end) 0 items.

(** ** The phases of [process] *)
Fixpoint join_phases (polls : N -> list nat) (i : N) (jobs : list (TaskId * list agg_job)) : list phase :=
  match jobs with
  | [] => []
  | (t, js) :: jobs => Ph_join (polls i) t js :: join_phases polls (i + 1) jobs
  end.

Fixpoint phases (polls : N -> list nat) (ids : N -> AggregationJobId) (i : N) (items : list WorkItem)
    (m : gmap TaskId (list agg_job)) : list phase :=
  match items with
  | [] => join_phases polls i (map_to_list m)
  | WI_AggregationJob t sel ap reports :: items =>
      phases polls ids (i + 1) items (<[t := default [] (m !! t) ++ [MkAggJob (ids i) sel ap reports]]> m)
  | WI_CollectionJob t j sel ap :: items =>
      match m !! t with Some js => [Ph_join (polls i) t js] | None => [] end ++
      Ph_collect i t j sel ap ::
      phases polls ids (i + 1) items (match m !! t with Some _ => <[t := []]> m | None => m end)
  end.

Lemma joined_app t phs1 phs2 : joined t (phs1 ++ phs2) = joined t phs1 ++ joined t phs2.
Proof. unfold joined. by rewrite fmap_app, concat_app. Qed.

Lemma joined_rest polls t : forall l i, NoDup l.*1 ->
  joined t (join_phases polls i l) = default [] (list_to_map (M:=gmap TaskId (list agg_job)) l !! t).
Proof.
  induction l as [|[t' js] l IH]; intros i Hl; [cbn; by rewrite lookup_empty|]. cbn in Hl. apply NoDup_cons in Hl as [Ht Hl].
  change (joined t (join_phases polls i ((t', js) :: l)))
    with ((if decide (t' = t) then js else []) ++ joined t (join_phases polls (i + 1) l)).
  rewrite IH by done. cbn [list_to_map foldr uncurry]. destruct (decide (t' = t)) as [->|Hne].
  - rewrite lookup_insert_eq. rewrite (not_elem_of_list_to_map_1 l t) by done. apply app_nil_r.
  - by rewrite lookup_insert_ne.
Qed.

Lemma joined_phases polls ids t : forall items i m,
  joined t (phases polls ids i items m) = default [] (m !! t) ++ queued_jobs ids i t items.
Proof.
  induction items as [|[t' sel ap rs|t' j sel ap] items IH]; intros i m; cbn [phases queued_jobs].
  - rewrite joined_rest by apply NoDup_fst_map_to_list. by rewrite list_to_map_to_list, app_nil_r.
  - rewrite IH. destruct (decide (t' = t)) as [->|Hne].
    + rewrite lookup_insert_eq. cbn [default from_option id]. by rewrite <-app_assoc.
    + by rewrite lookup_insert_ne.
  - rewrite joined_app. change (joined t (Ph_collect i t' j sel ap :: ?x)) with (joined t x).
    unfold joined at 1. rewrite IH.
    destruct (m !! t') as [js|] eqn:Hm; cbn; [|done]. rewrite app_nil_r.
    destruct (decide (t' = t)) as [->|Hne]; [by rewrite lookup_insert_eq, Hm|by rewrite lookup_insert_ne].
Qed.

(** What was joined before a collection job. *)
Lemma joined_before polls ids : forall items i m k t j sel ap before after,
  phases polls ids i items m = before ++ Ph_collect k t j sel ap :: after ->
  i <= k /\ items !! N.to_nat (k - i) = Some (WI_CollectionJob t j sel ap) /\
  joined t before = default [] (m !! t) ++ queued_jobs ids i t (take (N.to_nat (k - i)) items).
Proof.
  induction items as [|[t' sel' ap' rs|t' j' sel' ap'] items IH]; intros i m k t j sel ap before after;
    cbn [phases].
  - intros H. exfalso. assert (Ph_collect k t j sel ap ∈ join_phases polls i (map_to_list m)) as Hin
      by (rewrite H; set_solver). clear H. revert i Hin.
    induction (map_to_list m) as [|[t' js] l IH]; intros i; cbn [join_phases]; [set_solver|].
    intros [?|Hin]%elem_of_cons; [done|]. by eapply IH.
  - intros H. apply IH in H as (Hk & Hi & Hj). replace (N.to_nat (k - i)) with (1 + N.to_nat (k - (i + 1)))%nat by lia.
    split; [lia|]. split; [done|]. rewrite Hj. cbn [take Nat.add queued_jobs]. destruct (decide (t' = t)) as [->|Hne].
    + rewrite lookup_insert_eq. cbn [default from_option id]. by rewrite <-app_assoc.
    + by rewrite lookup_insert_ne.
  - set (pre := match m !! t' with Some js => [Ph_join (polls i) t' js] | None => [] end).
    assert (joined t pre = if decide (t' = t) then default [] (m !! t) else []) as Hpre.
    { subst pre. destruct (decide (t' = t)) as [->|Hne].
      - destruct (m !! t); cbn; [by rewrite decide_True, app_nil_r|done].
      - destruct (m !! t'); cbn; [by rewrite decide_False|done]. }
    assert (forall before, Ph_collect i t' j' sel' ap' ::
        phases polls ids (i + 1) items (match m !! t' with Some _ => <[t' := []]> m | None => m end)
        = before ++ Ph_collect k t j sel ap :: after ->
      i <= k /\ (WI_CollectionJob t' j' sel' ap' :: items) !! N.to_nat (k - i) = Some (WI_CollectionJob t j sel ap) /\
      joined t pre ++ joined t before = default [] (m !! t) ++
        queued_jobs ids i t (take (N.to_nat (k - i)) (WI_CollectionJob t' j' sel' ap' :: items))) as Hc.
    { clear before. intros [|ph before] H; injection H as; subst.
      - rewrite N.sub_diag, Hpre, decide_True by done. done.
      - apply IH in H0 as (Hk & Hi & Hj). replace (N.to_nat (k - i)) with (1 + N.to_nat (k - (i + 1)))%nat by lia.
        split; [lia|]. split; [done|]. rewrite Hpre. change (joined t (Ph_collect i t' j' sel' ap' :: before)) with (joined t before).
        rewrite Hj. cbn [take Nat.add queued_jobs]. destruct (decide (t' = t)) as [->|Hne].
        + destruct (m !! t) eqn:Hm; [by rewrite lookup_insert_eq|by rewrite Hm].
        + destruct (m !! t'); [by rewrite lookup_insert_ne|done]. }
    subst pre. destruct (m !! t') as [js|]; [|by apply Hc].
    destruct before as [|ph before]; intros H; injection H as; subst; [done|].
    apply Hc in H0. cbn [app] in *. destruct H0 as (H1 & H2 & H3). split_and!; [done|done|]. rewrite <-H3.
    by rewrite <-joined_app.
Qed.

Lemma collections_app phs1 phs2 : collections (phs1 ++ phs2) = collections phs1 ++ collections phs2.
Proof. unfold collections. by rewrite fmap_app, concat_app. Qed.

(** The collection jobs keep their order. *)
Lemma collections_phases polls ids : forall items i m,
  collections (phases polls ids i items m) = filter is_collection items.
Proof.
  induction items as [|[t sel ap rs|t j sel ap] items IH]; intros i m; cbn [phases].
  - revert i. induction (map_to_list m) as [|[t js] l IH]; intros i; [done|apply IH].
  - apply IH.
  - rewrite collections_app. change (collections (Ph_collect i t j sel ap :: ?x)) with (WI_CollectionJob t j sel ap :: collections x).
    by destruct (m !! t); cbn -[collections phases]; rewrite IH.
Qed.
(** ** The run of [process] *)
Lemma join_rest_phases {B} polls seeds (k : list WorkItem -> N -> N -> stm (World St) DapError B) pending c :
  forall l i a w,
  (a' ← join_rest polls i l a; k pending c a') w
  = ('(pending, c, a) ← run_phases seeds (join_phases polls i l) (pending, c, a); k pending c a) w.
Proof.
  induction l as [|[t js] l IH]; intros i a w; [done|].
  cbn [join_rest join_phases run_phases run_phase]. unfold mbind, stm_bind in *.
  destruct (join_all (polls i) t js w) as [[n|e|] w1]; [|done|done]. unfold lift.
  destruct (u64_add a n) as [a'|e|]; [apply IH|done|done].
Qed.

Lemma process_items_phases {B} polls ids seeds
    (k : list WorkItem -> DapLeaderProcessTelemetry -> stm (World St) DapError B) :
  forall items i m pending c a p w, p + total_reports items <= u64_max ->
  ('(m, pending, telem) ← process_items polls ids seeds i items m pending (MkTelemetry c a p);
   aggregated ← join_rest polls (i + len items) (map_to_list m) (reports_aggregated telem);
   k pending (MkTelemetry (reports_collected telem) aggregated (reports_processed telem))) w
  = ('(pending, c, a) ← run_phases seeds (phases polls ids i items m) (pending, c, a);
     k pending (MkTelemetry c a (p + total_reports items))) w.
Proof.
  induction items as [|[t sel ap rs|t j sel ap] items IH]; intros i m pending c a p w Hp; cbn [total_reports foldr] in Hp.
  - cbn [total_reports foldr phases]. rewrite N.add_0_r. change (len (@nil WorkItem)) with 0. rewrite N.add_0_r.
    apply (join_rest_phases polls seeds (fun pending c a => k pending (MkTelemetry c a p))).
  - fold (total_reports items) in Hp. cbn [phases process_items reports_processed reports_collected reports_aggregated].
    specialize (IH (i + 1) (<[t := default [] (m !! t) ++ [MkAggJob (ids i) sel ap rs]]> m) pending c a (p + len rs) w).
    change (total_reports (WI_AggregationJob t sel ap rs :: items)) with (len rs + total_reports items).
    rewrite N.add_assoc, <-IH by lia. unfold mbind, stm_bind, lift. rewrite u64_add_fits by lia.
    by rewrite len_cons, N.add_assoc.
  - fold (total_reports items) in Hp. change (total_reports (WI_CollectionJob t j sel ap :: items)) with (total_reports items).
    set (m' := match m !! t with Some _ => <[t := []]> m | None => m end) in *.
    cbn [phases process_items reports_processed reports_collected reports_aggregated]. fold m'.
    rewrite len_cons, N.add_assoc.
    assert (forall a w, (
      '(m, pending, telem) ←
         (o ← call (get_task_config_for t);
          task_config ← lift (ok_or o (Abort_ (UnrecognizedTask t)));
          collected ← run_coll_job (seeds i) t task_config j sel ap;
          if 0 <? collected then
            total ← lift (u64_add c collected);
            process_items polls ids seeds (i + 1) items m' pending (MkTelemetry total a p)
          else process_items polls ids seeds (i + 1) items m'
                 (pending ++ [WI_CollectionJob t j sel ap]) (MkTelemetry c a p));
       aggregated ← join_rest polls (i + 1 + len items) (map_to_list m) (reports_aggregated telem);
       k pending (MkTelemetry (reports_collected telem) aggregated (reports_processed telem))) w
      = ('(pending, c, a) ← run_phases seeds (Ph_collect i t j sel ap :: phases polls ids (i + 1) items m') (pending, c, a);
         k pending (MkTelemetry c a (p + total_reports items))) w) as Hc.
    { clear a w. intros a w. cbn [run_phases run_phase]. unfold mbind, stm_bind, lift in *.
      destruct (call (get_task_config_for t) w) as [[o|e|] w1]; [|done|done].
      destruct (ok_or o _) as [task_config|e|]; [|done|done].
      destruct (run_coll_job (seeds i) t task_config j sel ap w1) as [[n|e|] w2]; [|done|done].
      destruct (0 <? n); [|by apply IH]. destruct (u64_add c n) as [total|e|]; [by apply IH|done|done]. }
    subst m'. destruct (m !! t) as [js|]; [|apply Hc]. cbn [app].
    cbn [run_phases run_phase] in *. unfold mbind, stm_bind, lift in *.
    destruct (join_all (polls i) t js w) as [[n|e|] w1]; [|done|done].
    destruct (u64_add a n) as [a'|e|]; [apply Hc|done|done].
Qed.

(** C31: [process] runs its items in phases.  On any queue whose reports can be counted, and
    however the aggregation jobs that are joined interleave, a run of [process], successful or
    not, is the run of a sequence of phases followed by the enqueuing of the collection jobs that
    are still pending.  A phase joins aggregation jobs of one task, or runs a collection job.
    Every aggregation job is in one phase, those of a task in the order of the queue; the
    collection jobs are run in the order of the queue; and when a collection job is run, the jobs
    of its task that were joined are exactly those before it in the queue: all of them have
    finished, and none of those behind it has started. *)
Theorem process_phases polls ids seeds num_items w items w1 :
  call (DapLeader_dequeue_work num_items) w = (Ok items, w1) -> total_reports items <= u64_max ->
  exists phs,
    process polls ids seeds num_items w
    = ('(pending, collected, aggregated) ← run_phases seeds phs ([], 0, 0);
       _ ← call (DapLeader_enqueue_work pending);
       mret (MkTelemetry collected aggregated (total_reports items))) w1 /\
    collections phs = filter is_collection items /\
    (forall task_id, joined task_id phs = queued_jobs ids 0 task_id items) /\
    (forall before i task_id coll_job_id batch_sel agg_param after,
       phs = before ++ Ph_collect i task_id coll_job_id batch_sel agg_param :: after ->
       items !! N.to_nat i = Some (WI_CollectionJob task_id coll_job_id batch_sel agg_param) /\
       joined task_id before = queued_jobs ids 0 task_id (take (N.to_nat i) items)).
Proof.
  intros Hq Hn. exists (phases polls ids 0 items ∅). split_and!.
  - unfold process, mbind at 1, stm_bind at 1. rewrite Hq.
    apply (process_items_phases polls ids seeds
      (fun pending telem => _ ← call (DapLeader_enqueue_work pending); mret telem)). lia.
  - apply collections_phases.
  - intros t. rewrite joined_phases. by rewrite lookup_empty.
  - intros before i t j sel ap after H. apply joined_before in H as (_ & H1 & H2).
    rewrite N.sub_0_r in *. by rewrite lookup_empty in H2.
Qed.
End Process.
