(* ===== verification/Auth.v ===== *)
(** * Authorization by bearer tokens

    [src/crates/daphne/src/auth.rs]: the trait [BearerTokenProvider] as a class, with
    its provided methods. *)

From S2P Require Import Prelude Codec Messages TaskprovMessages Errors Config.

Record BearerToken : Type := MkBearerToken { BearerToken_raw : string }.

(** [PartialEq] of tokens, in constant time. *)
Definition BearerToken_eq (a b : BearerToken) : bool :=
  constant_time_eq (String.list_byte_of_string (BearerToken_raw a))
    (String.list_byte_of_string (BearerToken_raw b)).

Class BearerTokenProvider (St : Type) : Type := {
  get_leader_bearer_token_for : TaskId -> DapTaskConfig -> stm St DapError (option BearerToken);
  get_collector_bearer_token_for : TaskId -> DapTaskConfig -> stm St DapError (option BearerToken);
}.

Section Auth.
Context {St : Type} `{BTP : BearerTokenProvider St}.

Definition authorize_with_bearer_token (task_id : TaskId) (task_config : DapTaskConfig)
    (media_type : DapMediaType) : stm St DapError BearerToken :=
  match DapMediaType_sender media_type with
  | Sender_Leader =>
      o ← get_leader_bearer_token_for task_id task_config;
      lift (ok_or o (Fatal (Text "attempted to authorize request with unknown task ID")))
  | _ => throw (Fatal (Text "attempted to authorize request of type"))
  end.

(** One of the two blocks of [bearer_token_authorized]: [None] when it does not return. *)
Definition check_token (sender : DapSender)
    (get_token : stm St DapError (option BearerToken)) (reason : string)
    (req : DapRequest BearerToken) : stm St DapError (option (option detail)) :=
  if bool_decide (DapRequest_sender req = Some sender) then
    match DapRequest_sender_auth req with
    | Some got =>
        expected ← get_token;
        match expected with
        | Some expected =>
            mret (Some (if BearerToken_eq got expected then None else Some (Text reason)))
        | None => mret None
        end
    | None => mret None
    end
  else mret None.

Definition bearer_token_authorized (task_config : DapTaskConfig) (req : DapRequest BearerToken) :
    stm St DapError (option detail) :=
  match DapRequest_task_id req with
  | None => mret (Some (Text "Cannot authorize request with missing task ID."))
  | Some task_id =>
      r ← check_token Sender_Leader (get_leader_bearer_token_for task_id task_config)
            "The indicated bearer token is incorrect for the Leader." req;
      match r with
      | Some answer => mret answer
      | None =>
          r ← check_token Sender_Collector (get_collector_bearer_token_for task_id task_config)
                "The indicated bearer token is incorrect for the Collector." req;
          match r with
          | Some answer => mret answer
          | None =>
              mret (Some (Fmt "Cannot resolve sender due to unexpected media type ({:?})."
                [ArgOpaque]))
          end
      end
  end.
End Auth.

Lemma BearerToken_eq_iff a b : BearerToken_eq a b = true <-> a = b.
Proof.
  unfold BearerToken_eq. rewrite constant_time_eq_iff. split; [|by intros ->].
  intros H%(f_equal String.string_of_list_byte).
  rewrite !String.string_of_list_byte_of_string in H. destruct a, b. simpl in H. by subst.
Qed.

Section Properties.
Context {St : Type} {BTP : BearerTokenProvider St}.

Lemma check_token_authorizes sender get_token reason req s s' :
  check_token (St:=St) sender get_token reason req s = (Ok (Some None), s') ->
  DapRequest_sender req = Some sender /\
  exists token, DapRequest_sender_auth req = Some token /\ get_token s = (Ok (Some token), s').
Proof.
  unfold check_token. case_bool_decide as Hs; [|done]. split; [done|].
  destruct (DapRequest_sender_auth req) as [got|]; [|done].
  apply stm_bind_Ok in H as (o & s1 & Ho & H). destruct o as [expected|]; [|done].
  injection H as H <-. destruct (BearerToken_eq got expected) eqn:E; [|done].
  apply BearerToken_eq_iff in E as ->. by exists expected.
Qed.

(** A request is authorized only if it names a task, its media type is one the Leader or the
    Collector sends, and it carries the token of that sender for the task. *)
Lemma authorized_token c (req : DapRequest BearerToken) (s s' : St) :
  bearer_token_authorized c req s = (Ok None, s') ->
  exists tid token, DapRequest_task_id req = Some tid /\
    DapRequest_sender_auth req = Some token /\
    (DapRequest_sender req = Some Sender_Leader /\
       get_leader_bearer_token_for tid c s = (Ok (Some token), s') \/
     DapRequest_sender req = Some Sender_Collector /\
       get_collector_bearer_token_for tid c s = (Ok (Some token), s')).
Proof.
  unfold bearer_token_authorized. destruct (DapRequest_task_id req) as [tid|]; [|done].
  intros H. apply stm_bind_Ok in H as (r & s1 & H1 & H). destruct r as [answer|].
  - injection H as -> <-. apply check_token_authorizes in H1 as (Hs & token & Ht & Hg).
    exists tid, token. eauto 10.
  - apply stm_bind_Ok in H as (r & s2 & H2 & H). destruct r as [answer|]; [|done].
    injection H as -> <-. apply check_token_authorizes in H2 as (Hs & token & Ht & Hg).
    assert (s1 = s) as ->.
    { unfold check_token in H1. rewrite Hs in H1. by injection H1 as <-. }
    exists tid, token. eauto 10.
Qed.
End Properties.
