(* ===== verification/InMemory.v ===== *)
(** * The in-memory Aggregator

    [src/crates/daphne/src/testing/mod.rs], built with the feature [test-utils]: the
    storage of aggregate shares ([AggregateStore], [InMemoryAggregateStore]) and
    [InMemoryAggregator], which implements the traits of an Aggregator over it.  It is
    an instance of [DapAggregator], and its storage satisfies the contract
    [AggShareStorage] the Helper relies on.

    A bucket is found by the text [{task_id}/{bucket}], which determines both; the map
    here has the pair as its key.  Locks are not modelled: a method holds the lock of a
    field while it works on it, and no lock is poisoned.  The wall clock is a field. *)

From S2P Require Import Prelude Codec Messages TaskprovMessages Errors Config AggShare Hpke.
From S2P Require Import Protocol ProtocolCorrect Pine Taskprov LeaderState Roles HelperCorrect.
From S2P Require Import Auth.

Section Entry.
Context `{BP : BuildProfile} `{PC : PrioCodec} `{PA : PrioAgg} `{VO : !VdafOps} `{Dg : Digest}
  `{HC : HpkeCrypto}.

(** ** The storage of aggregate shares *)
Record AggregateStore : Type := MkAggregateStore {
  AggregateStore_agg_share : DapAggregateShare;
  AggregateStore_collected : bool;
  AggregateStore_reports : gset ReportId;
}.

Definition AggregateStore_new : AggregateStore :=
  MkAggregateStore DapAggregateShare_default false ∅.

End Entry.

Abbreviation InMemoryAggregateStore := (gmap (TaskId * DapBatchBucket) AggregateStore).

Section InMemory.
Context `{BP : BuildProfile} `{PC : PrioCodec} `{PA : PrioAgg} `{VO : !VdafOps} `{Dg : Digest}
  `{HC : HpkeCrypto}.

(** [entry(key).or_insert(..)]: the entry and the map with it. *)
Definition for_bucket (m : InMemoryAggregateStore) (task_id : TaskId) (bucket : DapBatchBucket) :
    AggregateStore * InMemoryAggregateStore :=
  match m !! (task_id, bucket) with
  | Some a => (a, m)
  | None => (AggregateStore_new, <[(task_id, bucket) := AggregateStore_new]> m)
  end.

(** One bucket of [try_put_agg_share_span]. *)
Definition put_bucket (a : AggregateStore) (agg_share_delta : DapAggregateShare)
    (report_metadatas : list (ReportId * Time)) :
    res DapError (option MergeAggShareError) * AggregateStore :=
  let replayed : gset ReportId :=
    list_to_set (filter (fun id => id ∈ AggregateStore_reports a) report_metadatas.*1) in
  if bool_decide (replayed = ∅) then
    let reports := AggregateStore_reports a ∪ list_to_set report_metadatas.*1 in
    if AggregateStore_collected a then
      (Ok (Some AlreadyCollected),
       MkAggregateStore (AggregateStore_agg_share a) true reports)
    else
      match DapAggregateShare_merge (AggregateStore_agg_share a) agg_share_delta with
      | Ok s => (Ok None, MkAggregateStore s false reports)
      | Err e =>
          (Ok (Some (MergeOther e)), MkAggregateStore (AggregateStore_agg_share a) false reports)
      | Panic => (Panic, MkAggregateStore (AggregateStore_agg_share a) false reports)
      end
  else (Ok (Some (ReplaysDetected replayed)), a).

(** The iterator over the buckets of the span. *)
Fixpoint put_buckets (task_id : TaskId)
    (entries : list (DapBatchBucket * (DapAggregateShare * list (ReportId * Time)))) :
    stm InMemoryAggregateStore DapError
      (list (DapBatchBucket * (option MergeAggShareError * list (ReportId * Time)))) := fun m =>
  match entries with
  | [] => (Ok [], m)
  | (bucket, (agg_share_delta, report_metadatas)) :: entries =>
      let '(a, m) := for_bucket m task_id bucket in
      let '(r, a) := put_bucket a agg_share_delta report_metadatas in
      let m := <[(task_id, bucket) := a]> m in
      match r with
      | Ok result =>
          let '(rest, m) := put_buckets task_id entries m in
          ((fun rest => (bucket, (result, report_metadatas)) :: rest) <$> rest, m)
      | Err e => (Err e, m)
      | Panic => (Panic, m)
      end
  end.

Definition store_try_put (task_id : TaskId) (agg_span : DapAggregateSpan DapAggregateShare) :
    stm InMemoryAggregateStore DapError (DapAggregateSpan (option MergeAggShareError)) := fun m =>
  let '(r, m) := put_buckets task_id (map_to_list agg_span) m in
  (list_to_map <$> r, m).

(** The loop of [is_batch_overlapping]. *)
Fixpoint any_collected (task_id : TaskId) (buckets : list DapBatchBucket)
    (m : InMemoryAggregateStore) : bool * InMemoryAggregateStore :=
  match buckets with
  | [] => (false, m)
  | bucket :: buckets =>
      let '(a, m) := for_bucket m task_id bucket in
      if AggregateStore_collected a then (true, m) else any_collected task_id buckets m
  end.

(** The loop of [batch_exists]. *)
Fixpoint any_aggregated (task_id : TaskId) (buckets : list DapBatchBucket)
    (m : InMemoryAggregateStore) : bool * InMemoryAggregateStore :=
  match buckets with
  | [] => (false, m)
  | bucket :: buckets =>
      let '(a, m) := for_bucket m task_id bucket in
      if negb (DapAggregateShare_empty (AggregateStore_agg_share a)) then (true, m)
      else any_aggregated task_id buckets m
  end.

(** The loop of [get_agg_share]. *)
Fixpoint merge_buckets (task_id : TaskId) (buckets : list DapBatchBucket)
    (agg_share : DapAggregateShare) : stm InMemoryAggregateStore DapError DapAggregateShare :=
  fun m =>
  match buckets with
  | [] => (Ok agg_share, m)
  | bucket :: buckets =>
      let '(a, m) := for_bucket m task_id bucket in
      if AggregateStore_collected a then (Err (Abort_ (batch_overlap task_id ArgOpaque)), m)
      else
        match DapAggregateShare_merge agg_share (AggregateStore_agg_share a) with
        | Ok agg_share => merge_buckets task_id buckets agg_share m
        | Err e => (Err e, m)
        | Panic => (Panic, m)
        end
  end.

(** The loop of [mark_collected]. *)
Fixpoint mark_buckets (task_id : TaskId) (buckets : list DapBatchBucket)
    (m : InMemoryAggregateStore) : InMemoryAggregateStore :=
  match buckets with
  | [] => m
  | bucket :: buckets =>
      let '(a, m) := for_bucket m task_id bucket in
      mark_buckets task_id buckets
        (<[(task_id, bucket) := MkAggregateStore (AggregateStore_agg_share a) true
                                  (AggregateStore_reports a)]> m)
  end.

(** ** The Aggregator *)
Record InMemoryAggregator : Type := MkInMemoryAggregator {
  ima_global_config : DapGlobalConfig;
  ima_tasks : gmap TaskId DapTaskConfig;
  ima_hpke_receiver_config_list : list HpkeReceiverConfig;
  ima_leader_token : BearerToken;
  ima_collector_token : option BearerToken;
  ima_collector_hpke_config : HpkeConfig;
  ima_leader_state_store : InMemoryLeaderState;
  ima_agg_store : InMemoryAggregateStore;
  ima_taskprov_vdaf_verify_key_init : list byte;
  ima_taskprov_leader_token : BearerToken;
  ima_taskprov_collector_token : option BearerToken;
  (** [self.peer.is_some()] *)
  ima_is_leader : bool;
  (** the wall clock *)
  ima_now : Time;
}.

Definition set_agg_store (s : InMemoryAggregator) (m : InMemoryAggregateStore) :
    InMemoryAggregator :=
  MkInMemoryAggregator (ima_global_config s) (ima_tasks s) (ima_hpke_receiver_config_list s)
    (ima_leader_token s) (ima_collector_token s) (ima_collector_hpke_config s)
    (ima_leader_state_store s) m (ima_taskprov_vdaf_verify_key_init s)
    (ima_taskprov_leader_token s) (ima_taskprov_collector_token s) (ima_is_leader s) (ima_now s).

Definition set_tasks (s : InMemoryAggregator) (tasks : gmap TaskId DapTaskConfig) :
    InMemoryAggregator :=
  MkInMemoryAggregator (ima_global_config s) tasks (ima_hpke_receiver_config_list s)
    (ima_leader_token s) (ima_collector_token s) (ima_collector_hpke_config s)
    (ima_leader_state_store s) (ima_agg_store s) (ima_taskprov_vdaf_verify_key_init s)
    (ima_taskprov_leader_token s) (ima_taskprov_collector_token s) (ima_is_leader s) (ima_now s).

Definition set_leader_state (s : InMemoryAggregator) (l : InMemoryLeaderState) :
    InMemoryAggregator :=
  MkInMemoryAggregator (ima_global_config s) (ima_tasks s) (ima_hpke_receiver_config_list s)
    (ima_leader_token s) (ima_collector_token s) (ima_collector_hpke_config s)
    l (ima_agg_store s) (ima_taskprov_vdaf_verify_key_init s)
    (ima_taskprov_leader_token s) (ima_taskprov_collector_token s) (ima_is_leader s) (ima_now s).

(** Collecting into a [HashMap]: of two entries with the same key the later one stays. *)
Definition collect_tasks (tasks : list (TaskId * DapTaskConfig)) : gmap TaskId DapTaskConfig :=
  list_to_map (rev tasks).

Definition new_helper (now : Time) (tasks : list (TaskId * DapTaskConfig))
    (hpke_receiver_config_list : list HpkeReceiverConfig) (global_config : DapGlobalConfig)
    (leader_token : BearerToken) (collector_hpke_config : HpkeConfig)
    (taskprov_vdaf_verify_key_init : list byte) (taskprov_leader_token : BearerToken) :
    InMemoryAggregator :=
  MkInMemoryAggregator global_config (collect_tasks tasks) hpke_receiver_config_list leader_token
    None collector_hpke_config InMemoryLeaderState_default ∅ taskprov_vdaf_verify_key_init
    taskprov_leader_token None false now.

Definition new_leader (now : Time) (tasks : list (TaskId * DapTaskConfig))
    (hpke_receiver_config_list : list HpkeReceiverConfig) (global_config : DapGlobalConfig)
    (leader_token : BearerToken) (collector_token : option BearerToken)
    (collector_hpke_config : HpkeConfig) (taskprov_vdaf_verify_key_init : list byte)
    (taskprov_leader_token : BearerToken) (taskprov_collector_token : option BearerToken) :
    InMemoryAggregator :=
  MkInMemoryAggregator global_config (collect_tasks tasks) hpke_receiver_config_list leader_token
    collector_token collector_hpke_config InMemoryLeaderState_default ∅
    taskprov_vdaf_verify_key_init taskprov_leader_token taskprov_collector_token true now.

Definition clear_storage (s : InMemoryAggregator) : InMemoryAggregator :=
  set_agg_store (set_leader_state s (delete_all (ima_leader_state_store s))) ∅.

(** A method that holds the lock of [agg_store]. *)
Definition on_agg_store {A} (f : stm InMemoryAggregateStore DapError A) :
    stm InMemoryAggregator DapError A := fun s =>
  let '(r, m) := f (ima_agg_store s) in (r, set_agg_store s m).

(** [BearerTokenProvider] *)
#[global] Instance in_memory_tokens : BearerTokenProvider InMemoryAggregator := {
  get_leader_bearer_token_for _ task_config s :=
    (Ok (Some (if method_is_taskprov task_config then ima_taskprov_leader_token s
               else ima_leader_token s)), s);
  get_collector_bearer_token_for _ task_config s :=
    (match (if method_is_taskprov task_config then ima_taskprov_collector_token s
            else ima_collector_token s) with
     | Some t => Ok (Some t)
     | None => Panic
     end, s);
}.

Definition get_hpke_receiver_config_for (s : InMemoryAggregator) (hpke_config_id : N) :
    option HpkeReceiverConfig :=
  List.find (fun c => hpke_config_id =? HpkeConfig_id (HpkeReceiverConfig_config c))
    (ima_hpke_receiver_config_list s).

Definition in_memory_hpke_decrypt (s : InMemoryAggregator) : HpkeDecrypter :=
  fun _ info aad ciphertext =>
  match get_hpke_receiver_config_for s (HpkeCiphertext_config_id ciphertext) with
  | Some c => HpkeReceiverConfig_decrypt c info aad ciphertext
  | None => Err (Transition_ HpkeUnknownConfigId)
  end.

(** [initialize_reports] without the feature [test]: in order, until an error. *)
Fixpoint initialize_all (is_leader : bool) (task_config : DapTaskConfig)
    (agg_param : DapAggregationParam) (consumed : list EarlyReportStateConsumed) :
    res DapError (list EarlyReportStateInitialized) :=
  match consumed with
  | [] => Ok []
  | x :: rest =>
      i ← EarlyReportStateInitialized_initialize is_leader
            (DapTaskConfig_vdaf_verify_key task_config) (DapTaskConfig_vdaf task_config)
            agg_param x;
      l ← initialize_all is_leader task_config agg_param rest;
      Ok (i :: l)
  end.

Definition in_memory_initializer (s : InMemoryAggregator) : DapReportInitializer :=
  MkDapReportInitializer (0, u64_max) initialize_all.

Definition in_memory_task_config (task_id : TaskId) :
    stm InMemoryAggregator DapError (option DapTaskConfig) := fun s =>
  (Ok (ima_tasks s !! task_id), s).

(** [self.get_task_config_for(task_id).await.unwrap().expect(..)] *)
Definition unchecked_get_task_config (task_id : TaskId) :
    stm InMemoryAggregator DapError DapTaskConfig :=
  o ← in_memory_task_config task_id; lift (unwrap o).

(** [..ok_or(DapAbort::UnrecognizedTask)?] *)
Definition get_task_config_or_abort (task_id : TaskId) :
    stm InMemoryAggregator DapError DapTaskConfig :=
  o ← in_memory_task_config task_id; lift (ok_or o (Abort_ (UnrecognizedTask task_id))).

#[global] Instance in_memory_aggregator : DapAggregator BearerToken InMemoryAggregator := {
  get_hpke_config_for _ task_id s :=
    (match ima_hpke_receiver_config_list s with
     | [] => Err (Fatal (Text "empty HPKE receiver config list"))
     | c :: _ =>
         match task_id with
         | None => Err (Abort_ MissingTaskId)
         | Some _ => Ok (HpkeReceiverConfig_config c)
         end
     end, s);
  can_hpke_decrypt _ config_id s :=
    (Ok (match get_hpke_receiver_config_for s config_id with Some _ => true | None => false end), s);
  hpke_decrypt := in_memory_hpke_decrypt;
  report_initializer := in_memory_initializer;
  unauthorized_reason task_config req := bearer_token_authorized task_config req;
  get_global_config s := (Ok (ima_global_config s), s);
  taskprov_vdaf_verify_key_init s := Some (ima_taskprov_vdaf_verify_key_init s);
  taskprov_collector_hpke_config s := Some (ima_collector_hpke_config s);
  taskprov_opt_in _ task_config _ s :=
    (Ok (into_opted_in task_config (MkOptInParam (ima_now s) 4)), s);
  taskprov_put req task_config s :=
    match get_task_id req with
    | Ok task_id => (Ok tt, set_tasks s (<[task_id := task_config]> (ima_tasks s)))
    | Err e => (Err (Abort_ e), s)
    | Panic => (Panic, s)
    end;
  get_task_config_for := in_memory_task_config;
  get_current_time := ima_now;
  is_batch_overlapping task_id batch_sel :=
    task_config ← get_task_config_or_abort task_id;
    span ← lift (batch_span_for_sel task_config batch_sel);
    on_agg_store (fun m => let '(b, m) := any_collected task_id (elements span) m in (Ok b, m));
  batch_exists task_id batch_id :=
    task_config ← get_task_config_or_abort task_id;
    span ← lift (batch_span_for_sel task_config (BS_FixedSizeByBatchId batch_id));
    aggregated ← on_agg_store (fun m =>
      let '(b, m) := any_aggregated task_id (elements span) m in (Ok b, m));
    s ← get_state;
    let uploaded := ima_is_leader s
      && contains_queued_task_of_batch (ima_leader_state_store s) task_id batch_id in
    mret (aggregated || uploaded);
  try_put_agg_share_span task_id _ agg_span := on_agg_store (store_try_put task_id agg_span);
  get_agg_share task_id batch_sel :=
    task_config ← unchecked_get_task_config task_id;
    span ← lift (batch_span_for_sel task_config batch_sel);
    on_agg_store (merge_buckets task_id (elements span) DapAggregateShare_default);
  mark_collected task_id batch_sel :=
    task_config ← unchecked_get_task_config task_id;
    span ← lift (batch_span_for_sel task_config batch_sel);
    on_agg_store (fun m => (Ok tt, mark_buckets task_id (elements span) m));
}.
End InMemory.
