(* ===== verification/InMemoryCorrect.v ===== *)
(** * The in-memory Aggregator keeps the contract of the storage

    The storage of [InMemory] is an instance of [AggShareStorage]; a batch that was
    collected is neither released again nor changed. *)

From S2P Require Import Prelude Codec Messages TaskprovMessages Errors Config AggShare Hpke.
From S2P Require Import Protocol ProtocolCorrect Pine Taskprov LeaderState Roles HelperCorrect.
From S2P Require Import Auth InMemory.

Section Store.
Context `{BP : BuildProfile} `{PC : PrioCodec} `{PA : PrioAgg} `{VO : !VdafOps} `{Dg : Digest}
  `{HC : HpkeCrypto}.

(** [initialize_reports] keeps the reports it is given, in their order. *)
Lemma initialize_all_keeps is_leader c agg_param consumed l :
  initialize_all is_leader c agg_param consumed = Ok l ->
  Initialized_metadata <$> l = Consumed_metadata <$> consumed.
Proof.
  revert l. induction consumed as [|x rest IH]; intros l H; simpl in H.
  - by injection H as <-.
  - apply bind_Ok in H as (i & Hi & H). apply bind_Ok in H as (l' & Hl & [= <-]).
    rewrite !fmap_cons, (IH _ Hl). f_equal.
    unfold EarlyReportStateInitialized_initialize in Hi.
    repeat first [discriminate Hi | by injection Hi as <- | case_hyp Hi].
Qed.

(** The contents of a bucket, whether or not its entry exists. *)
Definition store_at (m : InMemoryAggregateStore) (tid : TaskId) (b : DapBatchBucket) :
    AggregateStore := default AggregateStore_new (m !! (tid, b)).

Lemma for_bucket_spec m tid b a m' :
  for_bucket m tid b = (a, m') ->
  a = store_at m tid b /\ forall tid' b', store_at m' tid' b' = store_at m tid' b'.
Proof.
  unfold for_bucket, store_at. destruct (m !! (tid, b)) as [a'|] eqn:E; intros [= <- <-]; [done|].
  split; [done|]. intros tid' b'. destruct (decide ((tid, b) = (tid', b'))) as [[= <- <-]|Hne].
  - by rewrite lookup_insert_eq, E.
  - by rewrite lookup_insert_ne.
Qed.

Lemma store_at_insert m tid b a tid' b' :
  store_at (<[(tid, b) := a]> m) tid' b'
  = if decide ((tid, b) = (tid', b')) then a else store_at m tid' b'.
Proof.
  unfold store_at. case_decide as E; [rewrite <-E; by rewrite lookup_insert_eq|].
  by rewrite lookup_insert_ne.
Qed.

Definition bucket_view (a : AggregateStore) : bucket_state :=
  MkBucketState (AggregateStore_agg_share a) (AggregateStore_reports a)
    (AggregateStore_collected a).

(** One bucket meets the contract, and its flag stays. *)
Lemma put_bucket_spec a delta rs r a' :
  put_bucket a delta rs = (Ok r, a') ->
  put_outcome delta rs.*1 (bucket_view a) (bucket_view a') r /\
  AggregateStore_collected a' = AggregateStore_collected a.
Proof.
  unfold put_bucket. set (replayed := (list_to_set (filter _ _) : gset ReportId)).
  assert (forall id, id ∈ replayed <-> id ∈ rs.*1 /\ id ∈ AggregateStore_reports a) as Hr.
  { intros id. unfold replayed. rewrite elem_of_list_to_set, list_elem_of_filter. naive_solver. }
  case_bool_decide as He.
  - assert (forall id, id ∈ rs.*1 -> id ∉ AggregateStore_reports a) as Hfresh.
    { intros id H1 H2. assert (id ∈ replayed) as Hin by by apply Hr.
      rewrite He in Hin. by apply not_elem_of_empty in Hin. }
    destruct (AggregateStore_collected a) eqn:Hc.
    + intros [= <- <-]. split; [|done]. apply put_collected; simpl; [done|done|set_solver..].
    + destruct (DapAggregateShare_merge (AggregateStore_agg_share a) delta) as [s|e|] eqn:Hm;
        intros [= <- <-]; (split; [|done]).
      * by apply put_merged.
      * apply put_failed; simpl; [done|set_solver..].
  - intros [= <- <-]. split; [|done]. by apply put_replayed.
Qed.

Lemma put_buckets_spec tid entries m out m' :
  NoDup entries.*1 -> put_buckets tid entries m = (Ok out, m') ->
  out.*1 = entries.*1 /\
  (forall b, b ∉ entries.*1 -> store_at m' tid b = store_at m tid b) /\
  (forall tid' b, tid' <> tid -> store_at m' tid' b = store_at m tid' b) /\
  (forall b delta rs, (b, (delta, rs)) ∈ entries ->
     exists r, (b, (r, rs)) ∈ out /\
       put_bucket (store_at m tid b) delta rs = (Ok r, store_at m' tid b)).
Proof.
  revert m out. induction entries as [|[b0 [delta0 rs0]] entries IH]; intros m out Hnd H.
  - injection H as <- <-. split_and!; try done. by intros b delta rs ?%not_elem_of_nil.
  - cbn [put_buckets] in H. destruct (for_bucket m tid b0) as [a m1] eqn:Hf.
    apply for_bucket_spec in Hf as [-> Hm1].
    destruct (put_bucket (store_at m tid b0) delta0 rs0) as [[r0|e|] a'] eqn:Hp; [|done|done].
    destruct (put_buckets tid entries _) as [[rest|e|] m2] eqn:Hrest; [|done|done].
    injection H as <- <-. rewrite fmap_cons, NoDup_cons in Hnd. destruct Hnd as [Hb0 Hnd].
    apply IH in Hrest as (Hout & Hsame & Hother & Hin); [|done].
    assert (store_at m2 tid b0 = a') as Hb0'.
    { rewrite Hsame by done. rewrite store_at_insert. by rewrite decide_True. }
    split_and!.
    + rewrite !fmap_cons. by rewrite Hout.
    + intros b Hb. rewrite fmap_cons, not_elem_of_cons in Hb. destruct Hb as [Hne Hb].
      rewrite Hsame by done. rewrite store_at_insert, decide_False by (intros [= E]; simpl in Hne; congruence).
      apply Hm1.
    + intros tid' b Hne. rewrite Hother by done. rewrite store_at_insert, decide_False by congruence.
      apply Hm1.
    + intros b delta rs [[= -> -> ->]|Hb]%elem_of_cons.
      * exists r0. split; [by left|by rewrite Hb0'].
      * destruct (Hin b delta rs Hb) as (r & Hr & Ho'). exists r.
        assert (b0 <> b) as Hne.
        { intros ->. apply Hb0, list_elem_of_fmap. by exists (b, (delta, rs)). }
        rewrite store_at_insert, decide_False, Hm1 in Ho' by congruence.
        split; [by right|done].
Qed.

Lemma store_try_put_spec tid span m res m' :
  store_try_put tid span m = (Ok res, m') ->
  (forall b, match span !! b with
             | Some (share, reports) =>
                 exists r, res !! b = Some (r, reports) /\
                   put_bucket (store_at m tid b) share reports = (Ok r, store_at m' tid b)
             | None => res !! b = None /\ store_at m' tid b = store_at m tid b
             end) /\
  (forall tid' b, tid' <> tid -> store_at m' tid' b = store_at m tid' b).
Proof.
  unfold store_try_put. destruct (put_buckets tid (map_to_list span) m) as [[out|e|] m1] eqn:H;
    [|done|done]. intros [= <- <-].
  pose proof (NoDup_fst_map_to_list span) as Hnd.
  apply put_buckets_spec in H as (Hout & Hsame & Hother & Hin); [|done].
  assert (NoDup out.*1) as Hnd' by by rewrite Hout.
  assert (forall b, span !! b = None -> b ∉ (map_to_list span).*1) as Hnone.
  { intros b Hb ([b' x] & -> & Hx%elem_of_map_to_list)%list_elem_of_fmap. simpl in *. congruence. }
  split; [|done].
  - intros b. destruct (span !! b) as [[share reports]|] eqn:E.
    + destruct (Hin b share reports) as (r & Hr & Ho); [by apply elem_of_map_to_list|].
      exists r. split; [|done]. by apply elem_of_list_to_map_1.
    + split; [|by apply Hsame, Hnone]. apply not_elem_of_list_to_map_1. rewrite Hout. by apply Hnone.
Qed.

Lemma store_try_put_collected tid span m res m' :
  store_try_put tid span m = (Ok res, m') ->
  forall tid' b, AggregateStore_collected (store_at m' tid' b)
                 = AggregateStore_collected (store_at m tid' b) /\
    (AggregateStore_collected (store_at m tid' b) = true ->
     AggregateStore_agg_share (store_at m' tid' b) = AggregateStore_agg_share (store_at m tid' b)).
Proof.
  intros [Hput Hother]%store_try_put_spec tid' b.
  destruct (decide (tid' = tid)) as [->|Hne]; [|by rewrite Hother].
  specialize (Hput b). destruct (span !! b) as [[share reports]|]; [|by destruct Hput as [_ ->]].
  destruct Hput as (r & _ & [Ho Hc]%put_bucket_spec). split; [done|]. intros E.
  inversion Ho; unfold bucket_view in *; simpl in *; simplify_eq; congruence.
Qed.

Lemma on_agg_store_Ok {A} (f : stm InMemoryAggregateStore DapError A) s (a : A) s' :
  on_agg_store f s = (Ok a, s') ->
  exists m, f (ima_agg_store s) = (Ok a, m) /\ s' = set_agg_store s m.
Proof.
  unfold on_agg_store. destruct (f (ima_agg_store s)) as [r m]. intros [= -> <-]. by exists m.
Qed.

#[global] Program Instance in_memory_storage : AggShareStorage in_memory_aggregator := {
  bucket s tid b := bucket_view (store_at (ima_agg_store s) tid b);
}.
Next Obligation.
  intros tid c span s res s' H b. apply on_agg_store_Ok in H as (m & H & ->). simpl.
  apply store_try_put_spec in H as [H _]. specialize (H b).
  destruct (span !! b) as [[share reports]|]; [|by destruct H as [? ->]].
  destruct H as (r & Hr & [Ho _]%put_bucket_spec). by exists r.
Qed.
Next Obligation.
  intros tid c span s res s' H tid' b Hne. apply on_agg_store_Ok in H as (m & H & ->). simpl.
  apply store_try_put_spec in H as [_ H]. by rewrite H.
Qed.
Next Obligation.
  intros tid c span s res s' H b. apply on_agg_store_Ok in H as (m & H & ->). simpl.
  by apply (store_try_put_collected _ _ _ _ _ H tid b).
Qed.

(** ** The loops over the buckets of a batch *)

(** Two stores that agree on the contents of every bucket. *)
Definition same_buckets (m m' : InMemoryAggregateStore) : Prop :=
  forall tid b, store_at m' tid b = store_at m tid b.

Lemma any_collected_spec tid buckets m r m' :
  any_collected tid buckets m = (r, m') ->
  same_buckets m m' /\
  (r = true <-> exists b, b ∈ buckets /\ AggregateStore_collected (store_at m tid b) = true).
Proof.
  revert m. induction buckets as [|b buckets IH]; intros m H; cbn [any_collected] in H.
  - injection H as <- <-. split; [done|]. split; [done|]. by intros (b & ?%not_elem_of_nil & _).
  - destruct (for_bucket m tid b) as [a m1] eqn:Hf. apply for_bucket_spec in Hf as [-> Hm1].
    destruct (AggregateStore_collected (store_at m tid b)) eqn:Hc.
    + injection H as <- <-. split; [exact Hm1|]. split; [|done]. intros _. exists b.
      split; [left|done].
    + apply IH in H as [Hs Hr]. split; [intros t' b'; by rewrite Hs, Hm1|]. rewrite Hr.
      split; intros (b' & Hb' & Hc').
      * exists b'. rewrite Hm1 in Hc'. split; [by right|done].
      * apply elem_of_cons in Hb' as [->|Hb']; [congruence|]. exists b'. by rewrite Hm1.
Qed.

Lemma any_aggregated_spec tid buckets m r m' :
  any_aggregated tid buckets m = (r, m') -> same_buckets m m'.
Proof.
  revert m. induction buckets as [|b buckets IH]; intros m H; cbn [any_aggregated] in H.
  - by injection H as <- <-.
  - destruct (for_bucket m tid b) as [a m1] eqn:Hf. apply for_bucket_spec in Hf as [-> Hm1].
    destruct (negb _); [injection H as <- <-; exact Hm1|].
    apply IH in H. intros t' b'. by rewrite H, Hm1.
Qed.

Lemma merge_buckets_same tid buckets acc m r m' :
  merge_buckets tid buckets acc m = (r, m') -> same_buckets m m'.
Proof.
  revert acc m. induction buckets as [|b buckets IH]; intros acc m H; cbn [merge_buckets] in H.
  - by injection H as <- <-.
  - destruct (for_bucket m tid b) as [a m1] eqn:Hf. apply for_bucket_spec in Hf as [-> Hm1].
    destruct (AggregateStore_collected _); [injection H as <- <-; exact Hm1|].
    destruct (DapAggregateShare_merge _ _) as [acc'|e|]; [|by injection H as <- <-..].
    apply IH in H. intros t' b'. by rewrite H, Hm1.
Qed.

Lemma merge_buckets_uncollected tid buckets acc m share m' :
  merge_buckets tid buckets acc m = (Ok share, m') ->
  forall b, b ∈ buckets -> AggregateStore_collected (store_at m tid b) = false.
Proof.
  revert acc m. induction buckets as [|b0 buckets IH]; intros acc m H b Hb;
    [by apply not_elem_of_nil in Hb|]. cbn [merge_buckets] in H.
  destruct (for_bucket m tid b0) as [a m1] eqn:Hf. apply for_bucket_spec in Hf as [-> Hm1].
  destruct (AggregateStore_collected (store_at m tid b0)) eqn:Hc; [done|].
  destruct (DapAggregateShare_merge _ _) as [acc'|e|]; [|done|done].
  apply elem_of_cons in Hb as [->|Hb]; [done|]. rewrite <-(Hm1 tid b). by eapply IH.
Qed.

Lemma mark_buckets_spec tid buckets m :
  forall tid' b, store_at (mark_buckets tid buckets m) tid' b
  = MkAggregateStore (AggregateStore_agg_share (store_at m tid' b))
      (AggregateStore_collected (store_at m tid' b) || bool_decide (tid' = tid /\ b ∈ buckets))
      (AggregateStore_reports (store_at m tid' b)).
Proof.
  revert m. induction buckets as [|b0 buckets IH]; intros m tid' b; cbn [mark_buckets].
  - rewrite bool_decide_false by (intros [_ ?%not_elem_of_nil]; done). rewrite orb_false_r.
    by destruct (store_at m tid' b).
  - destruct (for_bucket m tid b0) as [a m1] eqn:Hf. apply for_bucket_spec in Hf as [-> Hm1].
    rewrite IH, store_at_insert. case_decide as E.
    + injection E as -> ->. simpl. f_equal. rewrite (bool_decide_true (tid' = tid' /\ _)); [|split; [done|left]].
      by rewrite orb_true_r.
    + rewrite Hm1. f_equal. f_equal. apply bool_decide_ext. rewrite elem_of_cons. clear -E.
      split; [tauto|]. intros [-> [->|Hb]]; [done|done].
Qed.

End Store.

(** ** Runs of the storage *)
Section Runs.
Context `{BP : BuildProfile} `{PC : PrioCodec} `{PA : PrioAgg} `{VO : !VdafOps} `{Dg : Digest}
  `{HC : HpkeCrypto}.
Context {PL : PrioAggLaws PA} {DL : DigestLaws Dg}.

Lemma merge_buckets_represents tid buckets acc m share m' (g : DapBatchBucket -> list out_share) l :
  (forall b, b ∈ buckets -> represents (AggregateStore_agg_share (store_at m tid b)) (g b)) ->
  represents acc l -> len (l ++ (buckets ≫= g)) <= u64_max ->
  merge_buckets tid buckets acc m = (Ok share, m') ->
  represents share (l ++ (buckets ≫= g)).
Proof.
  revert acc m l. induction buckets as [|b0 buckets IH]; intros acc m l Hg Hacc Hmax H;
    cbn [merge_buckets] in H; cbn [mbind list_bind].
  - injection H as <- <-. by rewrite app_nil_r.
  - destruct (for_bucket m tid b0) as [a m1] eqn:Hf. apply for_bucket_spec in Hf as [-> Hm1].
    destruct (AggregateStore_collected _); [done|].
    destruct (DapAggregateShare_merge _ _) as [acc'|e|] eqn:Hm; [|done|done].
    cbn [mbind list_bind] in Hmax. rewrite app_assoc in *. apply (IH acc' m1); [| |done|done].
    + intros b Hb. rewrite Hm1. apply Hg. by right.
    + eapply merge_Ok_represents; [exact Hacc| | |exact Hm]; [apply Hg; left|].
      unfold len in *. rewrite !length_app in Hmax. lia.
Qed.


(** What a span puts into a bucket: its share is that of the listed reports. *)
Definition span_of_reports (span : DapAggregateSpan DapAggregateShare)
    (items : DapBatchBucket -> list out_share) : Prop :=
  forall b, match span !! b with
            | Some (share, reports) =>
                represents share (items b) /\ reports.*1 = out_id <$> items b /\ NoDup reports.*1
            | None => items b = []
            end.

Definition accepted (res : DapAggregateSpan (option MergeAggShareError)) (b : DapBatchBucket) :
    bool :=
  match res !! b with Some (None, _) => true | _ => false end.

(** The storage after a sequence of operations, with the reports each bucket has accepted. *)
Inductive store_run : InMemoryAggregateStore -> (TaskId -> DapBatchBucket -> list out_share) ->
    Prop :=
| run_new : store_run ∅ (fun _ _ => [])
| run_put m g tid span items res m' :
    store_run m g -> span_of_reports span items ->
    (forall b, len (g tid b ++ items b) <= u64_max) ->
    store_try_put tid span m = (Ok res, m') ->
    store_run m' (fun tid' b =>
      if bool_decide (tid' = tid) && accepted res b then g tid b ++ items b else g tid' b)
| run_overlapping m g tid buckets r m' :
    store_run m g -> any_collected tid buckets m = (r, m') -> store_run m' g
| run_exists m g tid buckets r m' :
    store_run m g -> any_aggregated tid buckets m = (r, m') -> store_run m' g
| run_get m g tid buckets r m' :
    store_run m g -> merge_buckets tid buckets DapAggregateShare_default m = (r, m') ->
    store_run m' g
| run_mark m g tid buckets :
    store_run m g -> store_run (mark_buckets tid buckets m) g.

(** A bucket holds the share of the reports it accepted, each of them once. *)
Definition bucket_inv (a : AggregateStore) (l : list out_share) : Prop :=
  represents (AggregateStore_agg_share a) l /\ NoDup (out_id <$> l) /\
  forall o, o ∈ l -> out_id o ∈ AggregateStore_reports a.

Lemma bucket_inv_put a a' delta rs r items l :
  bucket_inv a l -> represents delta items -> rs.*1 = out_id <$> items -> NoDup rs.*1 ->
  len (l ++ items) <= u64_max -> put_bucket a delta rs = (Ok r, a') ->
  bucket_inv a' (if r is None then l ++ items else l).
Proof.
  intros (Hl & Hnd & Hin) Hd Hrs Hndr Hmax. unfold put_bucket.
  set (replayed := (list_to_set (filter _ _) : gset ReportId)). case_bool_decide as He.
  2: { by intros [= <- <-]. }
  assert (forall id, id ∈ rs.*1 -> id ∉ AggregateStore_reports a) as Hfresh.
  { intros id H1 H2. assert (id ∈ replayed) as Hin'; [|rewrite He in Hin'; by apply not_elem_of_empty in Hin'].
    unfold replayed. rewrite elem_of_list_to_set, list_elem_of_filter. done. }
  destruct (AggregateStore_collected a);
    [|destruct (DapAggregateShare_merge _ _) as [s|e|] eqn:Hm]; intros [= <- <-].
  - split_and!; [done|done|]. intros o Ho. simpl. apply elem_of_union_l. by apply Hin.
  - unfold len in *. rewrite length_app in Hmax. split_and!.
    + eapply merge_Ok_represents; [exact Hl|exact Hd| |exact Hm]. unfold len. lia.
    + rewrite fmap_app. apply NoDup_app. split_and!; [done| |by rewrite <-Hrs].
      intros id (o & -> & Ho)%list_elem_of_fmap Hid. rewrite <-Hrs in Hid.
      by apply (Hfresh _ Hid), Hin.
    + intros o [Ho|Ho]%elem_of_app; simpl; [apply elem_of_union_l; by apply Hin|].
      apply elem_of_union_r, elem_of_list_to_set. rewrite Hrs. apply list_elem_of_fmap. by exists o.
  - split_and!; [done|done|]. intros o Ho. simpl. apply elem_of_union_l. by apply Hin.
Qed.

Lemma store_run_inv m g :
  store_run m g -> forall tid b, bucket_inv (store_at m tid b) (g tid b).
Proof.
  induction 1 as [|m g tid span items res m' _ IH Hspan Hmax Hput|m g tid bs r m' _ IH H
                 |m g tid bs r m' _ IH H|m g tid bs r m' _ IH H|m g tid bs _ IH]; intros tid' b.
  - unfold store_at. rewrite lookup_empty. simpl. split_and!; [apply represents_default|constructor|].
    by intros o ?%not_elem_of_nil.
  - apply store_try_put_spec in Hput as [Hput Hother]. case_bool_decide as E; simpl; [subst|by rewrite Hother].
    specialize (Hput b). specialize (Hspan b). unfold accepted.
    destruct (span !! b) as [[share reports]|].
    + destruct Hspan as (Hd & Hrs & Hnd). destruct Hput as (r & -> & Hput).
      eapply bucket_inv_put in Hput; [|apply IH|done|done|done|done]. by destruct r.
    + destruct Hput as [-> ->]. apply IH.
  - apply any_collected_spec in H as [H _]. by rewrite H.
  - apply any_aggregated_spec in H. by rewrite H.
  - apply merge_buckets_same in H. by rewrite H.
  - rewrite mark_buckets_spec. apply IH.
Qed.

(** C32: The in-memory storage releases exactly what it accepted.  After any sequence of
    operations on an empty storage, the share [get_agg_share] returns for a batch is the
    aggregate of the reports of the spans whose put succeeded, over the buckets of the
    batch: their number, times, checksum and sum; and none of these reports is counted
    twice in a bucket. *)
Theorem released_share_exact (s : InMemoryAggregator) g tid c sel span share s' :
  store_run (ima_agg_store s) g ->
  ima_tasks s !! tid = Some c -> batch_span_for_sel c sel = Ok span ->
  len (elements span ≫= g tid) <= u64_max ->
  get_agg_share tid sel s = (Ok share, s') ->
  represents share (elements span ≫= g tid) /\
  (forall b, NoDup (out_id <$> g tid b)) /\
  store_run (ima_agg_store s') g.
Proof.
  intros Hrun Hc Hspan Hmax H. pose proof (store_run_inv _ _ Hrun tid) as Hinv.
  cbn [get_agg_share in_memory_aggregator] in H.
  unfold unchecked_get_task_config, in_memory_task_config in H.
  apply stm_bind_Ok in H as (c' & s1 & H1 & H). apply stm_bind_Ok in H1 as (o & s2 & [= <- <-] & H1).
  rewrite Hc in H1. injection H1 as <- <-.
  apply stm_bind_Ok in H as (sp & s2 & [= Hs <-] & H). rewrite Hspan in Hs. injection Hs as <-.
  apply on_agg_store_Ok in H as (m & H & ->). split_and!.
  - rewrite <-(app_nil_l (_ ≫= _)). eapply merge_buckets_represents; [|apply represents_default|done|done].
    intros b _. apply Hinv.
  - intros b. apply Hinv.
  - simpl. by eapply run_get.
Qed.
End Runs.

(** ** A collected batch is final *)
Section Collected.
Context `{BP : BuildProfile} `{PC : PrioCodec} `{PA : PrioAgg} `{VO : !VdafOps} `{Dg : Digest}
  `{HC : HpkeCrypto}.

(** A call of one of the methods that use the storage, whatever it answers. *)
Inductive storage_call (s : InMemoryAggregator) : InMemoryAggregator -> Prop :=
| call_put tid c span res s' :
    try_put_agg_share_span tid c span s = (Ok res, s') -> storage_call s s'
| call_overlapping tid sel r s' : is_batch_overlapping tid sel s = (r, s') -> storage_call s s'
| call_exists tid id r s' : batch_exists tid id s = (r, s') -> storage_call s s'
| call_get tid sel r s' : get_agg_share tid sel s = (r, s') -> storage_call s s'
| call_mark tid sel r s' : mark_collected tid sel s = (r, s') -> storage_call s s'.

(** What a call keeps of a bucket. *)
Definition keeps_collected (s s' : InMemoryAggregator) : Prop :=
  ima_tasks s' = ima_tasks s /\
  forall tid b, AggregateStore_collected (store_at (ima_agg_store s) tid b) = true ->
    AggregateStore_collected (store_at (ima_agg_store s') tid b) = true /\
    AggregateStore_agg_share (store_at (ima_agg_store s') tid b)
    = AggregateStore_agg_share (store_at (ima_agg_store s) tid b).

#[local] Instance keeps_collected_preorder : PreOrder keeps_collected.
Proof.
  split; [done|]. intros s1 s2 s3 [T1 H1] [T2 H2]. split; [congruence|].
  intros tid b Hc. destruct (H1 tid b Hc) as [Hc' E]. destruct (H2 tid b Hc') as [Hc'' E'].
  split; congruence.
Qed.

Lemma keeps_same s m : same_buckets (ima_agg_store s) m -> keeps_collected s (set_agg_store s m).
Proof. intros H. split; [done|]. intros tid b Hc. simpl. by rewrite H. Qed.

(** Two calls in sequence, the second one reached or not. *)
Lemma keeps_bind {A B} (f : stm InMemoryAggregator DapError A)
    (k : A -> stm InMemoryAggregator DapError B) s r s' :
  (forall r s1, f s = (r, s1) -> keeps_collected s s1) ->
  (forall a s1 r s2, k a s1 = (r, s2) -> keeps_collected s1 s2) ->
  (f ≫= k) s = (r, s') -> keeps_collected s s'.
Proof.
  intros Hf Hk. unfold mbind, stm_bind. destruct (f s) as [[a|e|] s1] eqn:E.
  - intros H. etransitivity; [by eapply Hf|by eapply Hk].
  - intros [= <- <-]. by eapply Hf.
  - intros [= <- <-]. by eapply Hf.
Qed.

Lemma keeps_lift {A} (x : res DapError A) s r s' :
  lift x s = (r, s') -> keeps_collected s s'.
Proof. by intros [= <- <-]. Qed.

Lemma keeps_on_agg_store {A} (f : stm InMemoryAggregateStore DapError A) s r s' :
  (forall m r m', f m = (r, m') -> same_buckets m m') ->
  on_agg_store f s = (r, s') -> keeps_collected s s'.
Proof.
  intros Hf. unfold on_agg_store. destruct (f (ima_agg_store s)) as [r' m] eqn:E.
  intros [= <- <-]. apply keeps_same. by eapply Hf.
Qed.

Lemma keeps_task_config {A} tid (f : option DapTaskConfig -> res DapError A) s r s' :
  (o ← in_memory_task_config tid; lift (f o)) s = (r, s') -> keeps_collected s s'.
Proof. by intros [= <- <-]. Qed.

Lemma storage_call_keeps s s' : storage_call s s' -> keeps_collected s s'.
Proof.
  intros [tid c span res s1 H|tid sel r s1 H|tid id r s1 H|tid sel r s1 H|tid sel r s1 H].
  - apply on_agg_store_Ok in H as (m & H & ->). split; [done|]. intros tid' b Hc. simpl.
    destruct (store_try_put_collected _ _ _ _ _ H tid' b) as [-> E]. auto.
  - eapply keeps_bind; [apply keeps_task_config| |exact H]. intros c s2 r2 s3 H2.
    eapply keeps_bind; [apply keeps_lift| |exact H2]. intros sp s4 r4 s5.
    apply keeps_on_agg_store. intros m r' m'.
    destruct (any_collected _ _ m) as [x mx] eqn:E. intros [= <- <-]. by eapply any_collected_spec.
  - eapply keeps_bind; [apply keeps_task_config| |exact H]. intros c s2 r2 s3 H2.
    eapply keeps_bind; [apply keeps_lift| |exact H2]. intros sp s4 r4 s5 H4.
    eapply keeps_bind; [| |exact H4]; [|by intros a s6 r6 s7 [= <- <-]]. intros r6 s6.
    apply keeps_on_agg_store. intros m r' m'.
    destruct (any_aggregated _ _ m) as [x mx] eqn:E. intros [= <- <-]. by eapply any_aggregated_spec.
  - eapply keeps_bind; [apply keeps_task_config| |exact H]. intros c s2 r2 s3 H2.
    eapply keeps_bind; [apply keeps_lift| |exact H2]. intros sp s4 r4 s5.
    apply keeps_on_agg_store. intros m r' m'. apply merge_buckets_same.
  - eapply keeps_bind; [apply keeps_task_config| |exact H]. intros c s2 r2 s3 H2.
    eapply keeps_bind; [apply keeps_lift| |exact H2]. intros sp s4 r4 s5 [= <- <-].
    split; [done|]. intros tid' b Hc. simpl. rewrite mark_buckets_spec. simpl. by rewrite Hc.
Qed.

Lemma storage_calls_keep s s' : rtc storage_call s s' -> keeps_collected s s'.
Proof. induction 1; [done|]. etransitivity; [by apply storage_call_keeps|done]. Qed.

(** A batch the in-memory Aggregator marked as collected is final.  Whatever calls of
    the storage follow, any batch that shares a bucket with it is reported as overlapping,
    its aggregate share is refused, and the shares of the collected buckets do not
    change. *)
Theorem collected_batch_final (s s1 s2 : InMemoryAggregator) tid c sel span sel' span' b :
  ima_tasks s !! tid = Some c ->
  batch_span_for_sel c sel = Ok span -> batch_span_for_sel c sel' = Ok span' ->
  b ∈ span -> b ∈ span' ->
  mark_collected tid sel s = (Ok tt, s1) -> rtc storage_call s1 s2 ->
  (is_batch_overlapping tid sel' s2).1 = Ok true /\
  (forall share, (get_agg_share tid sel' s2).1 <> Ok share) /\
  AggregateStore_agg_share (store_at (ima_agg_store s2) tid b)
  = AggregateStore_agg_share (store_at (ima_agg_store s) tid b).
Proof.
  intros Hc Hsp Hsp' Hb Hb' Hmark Hcalls.
  assert (s1 = set_agg_store s (mark_buckets tid (elements span) (ima_agg_store s))) as ->.
  { cbn [mark_collected in_memory_aggregator] in Hmark.
    unfold unchecked_get_task_config, in_memory_task_config, mbind, stm_bind, lift, on_agg_store in Hmark.
    rewrite Hc in Hmark. simpl in Hmark. rewrite Hsp in Hmark. by injection Hmark as <-. }
  destruct (storage_calls_keep _ _ Hcalls) as [Ht Hk]. simpl in Ht.
  destruct (Hk tid b) as [Hcol Hsh]; simpl in *; rewrite mark_buckets_spec in *.
  { simpl. rewrite bool_decide_true; [apply orb_true_r|]. by rewrite elem_of_elements. }
  simpl in Hsh.
  cbn [is_batch_overlapping get_agg_share in_memory_aggregator].
  unfold get_task_config_or_abort, unchecked_get_task_config, in_memory_task_config, mbind, stm_bind,
    lift, on_agg_store. rewrite Ht, Hc. simpl. rewrite Hsp'. split_and!; [| |done].
  - destruct (any_collected tid (elements span') (ima_agg_store s2)) as [x m] eqn:E.
    apply any_collected_spec in E as [_ E]. simpl. f_equal. apply E. exists b.
    by rewrite elem_of_elements.
  - intros share H. destruct (merge_buckets _ _ _ _) as [x m] eqn:E. simpl in H. subst x.
    eapply merge_buckets_uncollected in E; [|by apply elem_of_elements]. congruence.
Qed.
End Collected.
