(* ===== verification/System.v ===== *)
(** * The Leader and its peer in memory

    [impl DapLeader for InMemoryAggregator] of [src/crates/daphne/src/testing/mod.rs].  The
    Leader's [peer] is a Helper of the same type, and the HTTP requests of the Leader are
    calls of the Helper's handlers.  The state is the Leader, the world of the Helper (its
    state, metrics and audit log) and the random bytes still to be drawn. *)

From S2P Require Import Prelude Codec Messages TaskprovMessages Errors Config AggShare Hpke.
From S2P Require Import Protocol ProtocolCorrect Pine Taskprov LeaderState Roles HelperCorrect.
From S2P Require Import Leader Auth InMemory.

Section System.
Context `{BP : BuildProfile} `{PC : PrioCodec} `{PA : PrioAgg} `{VO : !VdafOps} `{Dg : Digest}
  `{HC : HpkeCrypto} `{HK : Hkdf} `{B64 : Base64} `{UP : UrlParser} `{PF : PineFields}
  `{UJ : UrlJoin}.

Record InMemorySystem : Type := MkInMemorySystem {
  sys_leader : InMemoryAggregator;
  sys_peer : World InMemoryAggregator;
  sys_rng : list (list byte);
}.

(** A method of the Leader. *)
Definition on_leader {A} (m : stm InMemoryAggregator DapError A) :
    stm InMemorySystem DapError A := fun s =>
  let '(r, l) := m (sys_leader s) in (r, MkInMemorySystem l (sys_peer s) (sys_rng s)).

(** A draw of randomness; zeros when the list of draws is used up. *)
Definition draw : stm InMemorySystem DapError (list byte) := fun s =>
  match sys_rng s with
  | bs :: rng => (Ok bs, MkInMemorySystem (sys_leader s) (sys_peer s) rng)
  | [] => (Ok (replicate 32 Byte.x00), s)
  end.

#[global] Instance system_aggregator : DapAggregator BearerToken InMemorySystem := {
  get_hpke_config_for version task_id := on_leader (get_hpke_config_for version task_id);
  can_hpke_decrypt task_id config_id := on_leader (can_hpke_decrypt task_id config_id);
  hpke_decrypt s := hpke_decrypt (sys_leader s);
  report_initializer s := report_initializer (sys_leader s);
  unauthorized_reason task_config req := on_leader (unauthorized_reason task_config req);
  get_global_config := on_leader get_global_config;
  taskprov_vdaf_verify_key_init s := taskprov_vdaf_verify_key_init (sys_leader s);
  taskprov_collector_hpke_config s := taskprov_collector_hpke_config (sys_leader s);
  taskprov_opt_in task_id task_config g := on_leader (taskprov_opt_in task_id task_config g);
  taskprov_put req task_config := on_leader (taskprov_put req task_config);
  get_task_config_for task_id := on_leader (get_task_config_for task_id);
  get_current_time s := get_current_time (sys_leader s);
  is_batch_overlapping task_id batch_sel := on_leader (is_batch_overlapping task_id batch_sel);
  batch_exists task_id batch_id := on_leader (batch_exists task_id batch_id);
  try_put_agg_share_span task_id task_config span :=
    on_leader (try_put_agg_share_span task_id task_config span);
  get_agg_share task_id batch_sel := on_leader (get_agg_share task_id batch_sel);
  mark_collected task_id batch_sel := on_leader (mark_collected task_id batch_sel);
}.

(** The task of a method of [DapLeader]. *)
Definition leader_task (task_id : TaskId) : stm InMemorySystem DapError DapTaskConfig :=
  o ← get_task_config_for task_id; lift (ok_or o (Fatal (Text "task not found"))).

(** A method that holds the lock of [leader_state_store]. *)
Definition on_leader_state {A} (f : stm InMemoryLeaderState DapError A) :
    stm InMemorySystem DapError A :=
  on_leader (fun s =>
    let '(r, l) := f (ima_leader_state_store s) in (r, set_leader_state s l)).

(** A handler of the peer; [.expect("peer aborted unexpectedly")]. *)
Definition call_peer {A} (m : stm (World InMemoryAggregator) DapError A) :
    stm InMemorySystem DapError A := fun s =>
  let '(r, peer) := m (sys_peer s) in
  (match r with Ok a => Ok a | Err _ | Panic => Panic end,
   MkInMemorySystem (sys_leader s) peer (sys_rng s)).

Definition system_send_http_post (req : DapRequest BearerToken) (_ : Url) :
    stm InMemorySystem DapError DapResponse :=
  match DapRequest_media_type req with
  | Some MT_AggregationJobInitReq =>
      call_peer (handle_agg_job_req req ReplayProtection_Enabled)
  | Some MT_AggregateShareReq =>
      seed ← draw; call_peer (handle_agg_share_req seed req)
  | _ => lift Panic
  end.

Definition system_send_http_put (req : DapRequest BearerToken) (_ : Url) :
    stm InMemorySystem DapError DapResponse :=
  match DapRequest_media_type req with
  | Some MT_AggregationJobInitReq =>
      call_peer (handle_agg_job_req req ReplayProtection_Enabled)
  | _ => lift Panic
  end.

#[global] Instance system_leader : DapLeader BearerToken InMemorySystem := {
  authorize task_id task_config media_type _ :=
    on_leader (authorize_with_bearer_token task_id task_config media_type);
  DapLeader_put_report report task_id :=
    task_config ← leader_task task_id;
    new_batch_id ← draw;
    on_leader_state (put_report new_batch_id task_id task_config report);
  DapLeader_current_batch task_id :=
    task_config ← leader_task task_id;
    on_leader_state (fun l => (current_batch l task_id task_config, l));
  DapLeader_init_collect_job task_id coll_job_id batch_sel agg_param :=
    task_config ← leader_task task_id;
    on_leader_state (init_collect_job task_id task_config coll_job_id batch_sel agg_param);
  DapLeader_poll_collect_job task_id coll_job_id :=
    on_leader_state (fun l => (poll_collect_job l task_id coll_job_id, l));
  DapLeader_dequeue_work num_items := on_leader_state (dequeue_work num_items);
  DapLeader_enqueue_work work_items := on_leader_state (enqueue_work work_items);
  DapLeader_finish_collect_job task_id coll_job_id collection :=
    on_leader_state (finish_collect_job task_id coll_job_id collection);
  send_http_post := system_send_http_post;
  send_http_put := system_send_http_put;
}.
End System.
