(* ===== verification/DurableStore.v ===== *)
(** * The durable object of a bucket

    [src/crates/daphne-worker/src/durable/aggregate_store.rs] and the helpers of
    [durable/mod.rs]: the object that stores the aggregate share of a bucket, the IDs of the
    reports in it and whether it was collected.  It keeps what it has read in memory and
    writes through to the storage of the object.

    The storage and the conversion of values to JavaScript belong to the [worker] and
    [serde_wasm_bindgen] crates: they are the class [DurableStorage].  A call may fail; what
    the object relies on is [DurableStorageLaws]: reading does not change anything, a write
    that succeeds has taken place, and one that fails has taken place entirely or not at
    all.  The elements of an aggregate share are those of [prio] ([PrioVec]). *)

From S2P Require Import Prelude Codec Messages TaskprovMessages Errors Config AggShare.

(** ** Errors of [worker] *)
Inductive WorkerError : Type :=
| RustError (msg : string)
| BadEncoding
| Internal (msg : string)
| JsError (msg : string)
| WorkerOther.

#[global] Instance WorkerError_eq_dec : EqDecision WorkerError.
Proof. solve_decision. Defined.

(** [int_err] *)
Definition int_err : WorkerError := RustError "internalError".

(** ** Elements of aggregate shares *)
Class PrioVec `{PA : PrioAgg} : Type := {
  prio_elem : field_kind -> Type;
  (** [AggregateShare::as_ref], [AggregateShare::from(Vec<F>)] *)
  agg_to_vec : forall {f}, prio_agg_share f -> list (prio_elem f);
  agg_from_vec : forall {f}, list (prio_elem f) -> prio_agg_share f;
  (** [F::encode], [F::decode], [F::ENCODED_SIZE] *)
  elem_encode : forall f, writer (prio_elem f);
  elem_decode : forall f, reader (prio_elem f);
  elem_size : field_kind -> N;
  (** [AggregateShare::encode] *)
  agg_encode : forall f, writer (prio_agg_share f);
}.

Class PrioVecLaws `{PA : PrioAgg} (V : PrioVec) : Prop := {
  agg_from_to_vec f (s : prio_agg_share f) : agg_from_vec (agg_to_vec s) = s;
  agg_to_from_vec f (l : list (prio_elem f)) : agg_to_vec (agg_from_vec (f:=f) l) = l;
  elem_codec f :: CodecOk (fun _ => True) (elem_encode f) (elem_decode f);
  elem_size_spec f x bs : writes (elem_encode f) x bs -> len bs = elem_size f;
  (** [ENCODED_SIZE] of [FieldPrio2], [Field64] and [Field128] *)
  elem_size_eq f : elem_size f = match f with FieldPrio2 => 4 | Field64 => 8 | Field128 => 16 end;
  agg_encode_writes f (s : prio_agg_share f) bss :
    Forall2 (writes (elem_encode f)) (agg_to_vec s) bss -> writes (agg_encode f) s (mjoin bss);
  (** shares are added element by element *)
  prio_merge_length f (a b c : prio_agg_share f) :
    prio_merge a b = Some c -> length (agg_to_vec c) = length (agg_to_vec a);
}.

(** ** Metadata *)
Inductive VdafKind : Type := VdafKind_Field32 | VdafKind_Field64 | VdafKind_Field128.

Record DapAggregateShareMetadata : Type := MkMetadata {
  meta_report_count : N;
  meta_min_time : N;
  meta_max_time : N;
  meta_checksum : list byte;
  meta_kind : option VdafKind;
}.

(** Integers a JavaScript number represents exactly. *)
Definition max_safe_integer : N := 9007199254740991.

Definition meta_safe (m : DapAggregateShareMetadata) : Prop :=
  meta_report_count m <= max_safe_integer /\ meta_min_time m <= max_safe_integer /\
  meta_max_time m <= max_safe_integer /\ len (meta_checksum m) = 32.

(** ** Storage *)
Class DurableStorage : Type := {
  JsValue : Type;
  storage : Type;
  (** [Uint8Array], [serde_wasm_bindgen::from_value::<Vec<u8>>] *)
  js_bytes : list byte -> JsValue;
  js_to_bytes : JsValue -> option (list byte);
  (** the serde forms of [bool], [u8] and of the metadata *)
  js_bool : bool -> JsValue;
  js_to_bool : JsValue -> option bool;
  js_u8 : N -> JsValue;
  js_to_u8 : JsValue -> option N;
  js_meta : DapAggregateShareMetadata -> option JsValue;
  js_to_meta : JsValue -> option DapAggregateShareMetadata;
  (** [storage().get], [get_multiple], [put], [put_multiple_raw], [delete_all], [set_alarm] *)
  storage_get : string -> stm storage WorkerError JsValue;
  storage_get_multiple : list string -> stm storage WorkerError (gmap string JsValue);
  storage_put : string -> JsValue -> stm storage WorkerError unit;
  storage_put_multiple : gmap string JsValue -> stm storage WorkerError unit;
  storage_delete_all : stm storage WorkerError unit;
  storage_set_alarm : stm storage WorkerError unit;
}.

Definition ERR_NO_VALUE : string := "No such value in storage.".

(** The result of reading [k] from [m]. *)
Definition get_result `{DurableStorage} (m : gmap string JsValue) (k : string) :
    res WorkerError JsValue :=
  match m !! k with Some v => Ok v | None => Err (JsError ERR_NO_VALUE) end.

(** A write that turns [m] into [m']. *)
Definition write_result {S} (r : res WorkerError unit) (contents : S -> Prop) (contents' : S -> Prop)
    (s : S) : Prop :=
  match r with
  | Ok _ => contents' s
  | Err _ => contents s \/ contents' s
  | Panic => False
  end.

Class DurableStorageLaws (D : DurableStorage) : Type := {
  contents : storage -> gmap string JsValue;
  js_bytes_to bs : js_to_bytes (js_bytes bs) = Some bs;
  js_bool_to b : js_to_bool (js_bool b) = Some b;
  js_u8_to n : n <= u8_max -> js_to_u8 (js_u8 n) = Some n;
  js_meta_to m v : js_meta m = Some v -> js_to_meta v = Some m;
  js_meta_safe m : meta_safe m -> is_Some (js_meta m);
  storage_get_law k s r s' :
    storage_get k s = (r, s') -> contents s' = contents s /\
    (r = get_result (contents s) k \/ exists e, r = Err e /\ e <> JsError ERR_NO_VALUE);
  storage_get_multiple_law ks s r s' :
    storage_get_multiple ks s = (r, s') -> contents s' = contents s /\
    (r = Ok (filter (fun kv => kv.1 ∈ ks) (contents s)) \/ exists e, r = Err e);
  storage_put_law k v s r s' :
    storage_put k v s = (r, s') ->
    write_result r (fun t => contents t = contents s) (fun t => contents t = <[k := v]> (contents s)) s';
  storage_put_multiple_law m s r s' :
    storage_put_multiple m s = (r, s') ->
    write_result r (fun t => contents t = contents s) (fun t => contents t = m ∪ contents s) s';
  storage_delete_all_law s r s' :
    storage_delete_all s = (r, s') ->
    write_result r (fun t => contents t = contents s) (fun t => contents t = ∅) s';
  storage_set_alarm_law s r s' :
    storage_set_alarm s = (r, s') -> contents s' = contents s /\ r <> Panic;
}.

(** ** Constants *)
Definition MAX_AGG_SHARE_CHUNK_KEY_COUNT : N := 8.
Definition DEFAULT_REPORT_ID_CHUNK_KEY_COUNT : N := 5.
Definition MAX_CHUNK_SIZE : N := 128000.
Definition METADATA_KEY : string := "meta".
Definition COLLECTED_KEY : string := "collected".
Definition CHUNK_COUNT_KEY : string := "report_id_chunk_key_count".

Definition agg_share_shard_keys : list string :=
  ["chunk_v2_000"; "chunk_v2_001"; "chunk_v2_002"; "chunk_v2_003";
   "chunk_v2_004"; "chunk_v2_005"; "chunk_v2_006"; "chunk_v2_007"].

(** [{n:03}] *)
Definition digit (n : N) : Ascii.ascii := Ascii.ascii_of_N (48 + n mod 10).
Definition fmt_03 (n : N) : string :=
  String (digit (n / 100)) (String (digit (n / 10)) (String (digit n) EmptyString)).

Definition report_keys (key_count : N) : list string :=
  (fun n => String.append "aggregated_report_ids_" (fmt_03 (N.of_nat n))) <$> seq 0 (N.to_nat key_count).

(** ** Requests and responses *)
Section Store.
Context `{BP : BuildProfile} `{PC : PrioCodec} `{PA : PrioAgg} `{PV : !PrioVec} `{DS : DurableStorage}.

Record AggregateStoreMergeReq : Type := MkMergeReq {
  merge_contained_reports : list ReportId;
  merge_agg_share_delta : DapAggregateShare;
  merge_skip_replay_protection : bool;
}.

Inductive AggregateStoreMergeResp : Type :=
| MergeResp_Ok
| MergeResp_ReplaysDetected (ids : gset ReportId)
| MergeResp_AlreadyCollected.

(** [bindings::AggregateStore], with the body of the request *)
Inductive store_request : Type :=
| GetMerged
| Get
| Merge (req : AggregateStoreMergeReq)
| MarkCollected
| CheckCollected.

(** The value of which the JSON form is the response. *)
Inductive store_response : Type :=
| Resp_ReportIds (ids : gset ReportId)
| Resp_Merge (r : AggregateStoreMergeResp)
| Resp_AggShare (s : DapAggregateShare)
| Resp_Unit
| Resp_Bool (b : bool).

(** ** State *)
Record AggregateStoreDO : Type := MkStore {
  do_state : storage;
  do_report_ids : option (gset ReportId);
  do_agg_share : option DapAggregateShare;
  do_collected : option bool;
  do_report_id_chunk_key_count : option N;
}.

Abbreviation store A := (stm AggregateStoreDO WorkerError A).

(** A call on [self.state.storage()]. *)
Definition on_storage {A} (m : stm storage WorkerError A) : store A := fun self =>
  let '(r, s) := m (do_state self) in
  (r, MkStore s (do_report_ids self) (do_agg_share self) (do_collected self)
        (do_report_id_chunk_key_count self)).

Definition set_report_ids (ids : option (gset ReportId)) : store unit := modify (fun self =>
  MkStore (do_state self) ids (do_agg_share self) (do_collected self) (do_report_id_chunk_key_count self)).
Definition set_agg_share (s : option DapAggregateShare) : store unit := modify (fun self =>
  MkStore (do_state self) (do_report_ids self) s (do_collected self) (do_report_id_chunk_key_count self)).
Definition set_collected (b : option bool) : store unit := modify (fun self =>
  MkStore (do_state self) (do_report_ids self) (do_agg_share self) b (do_report_id_chunk_key_count self)).
Definition set_chunk_key_count (n : option N) : store unit := modify (fun self =>
  MkStore (do_state self) (do_report_ids self) (do_agg_share self) (do_collected self) n).

(** [with_state_and_env] *)
Definition with_state (s : storage) : AggregateStoreDO := MkStore s None None None None.

(** ** [state_get], [state_get_or_default] *)
Definition state_get {T} (of_js : JsValue -> option T) (key : string) : stm storage WorkerError (option T) :=
  fun s =>
    match storage_get key s with
    | (Ok v, s) => (match of_js v with Some t => Ok (Some t) | None => Err WorkerOther end, s)
    | (Err e, s) => if decide (e = JsError ERR_NO_VALUE) then (Ok None, s) else (Err e, s)
    | (Panic, s) => (Panic, s)
    end.

Definition state_get_or_default {T} (of_js : JsValue -> option T) (default : T) (key : string) :
    stm storage WorkerError T :=
  fun s =>
    match storage_get key s with
    | (Ok v, s) => (match of_js v with Some t => Ok t | None => Err WorkerOther end, s)
    | (Err e, s) => if decide (e = JsError ERR_NO_VALUE) then (Ok default, s) else (Err e, s)
    | (Panic, s) => (Panic, s)
    end.

(** ** Metadata and aggregate shares *)
Definition from_agg_share (share : DapAggregateShare) : DapAggregateShareMetadata :=
  MkMetadata (DapAggregateShare_report_count share) (DapAggregateShare_min_time share)
    (DapAggregateShare_max_time share) (DapAggregateShare_checksum share)
    (match DapAggregateShare_data share with
     | Some (VAS_Field32 _) => Some VdafKind_Field32
     | Some (VAS_Field64 _) => Some VdafKind_Field64
     | Some (VAS_Field128 _) => Some VdafKind_Field128
     | None => None
     end).

Definition into_agg_share_without_data (self : DapAggregateShareMetadata) : DapAggregateShare :=
  MkDapAggregateShare (meta_report_count self) (meta_min_time self) (meta_max_time self)
    (meta_checksum self) None.

Definition into_agg_share_with_data (self : DapAggregateShareMetadata) (data : VdafAggregateShare) :
    DapAggregateShare :=
  MkDapAggregateShare (meta_report_count self) (meta_min_time self) (meta_max_time self)
    (meta_checksum self) (Some data).

(** [VdafAggregateShare::encode] *)
Definition agg_share_encode : writer VdafAggregateShare := fun self =>
  match self with
  | VAS_Field32 s => agg_encode FieldPrio2 s
  | VAS_Field64 s => agg_encode Field64 s
  | VAS_Field128 s => agg_encode Field128 s
  end.

(** ** Chunks *)

(** The chunks under the keys that are there. *)
Fixpoint js_map_to_chunks {E} (keys : list string) (m : gmap string JsValue) :
    res E (list (list byte)) :=
  match keys with
  | [] => Ok []
  | k :: keys =>
      match m !! k with
      | None => js_map_to_chunks keys m
      | Some v =>
          chunk ← unwrap (js_to_bytes v);
          chunks ← js_map_to_chunks keys m;
          Ok (chunk :: chunks)
      end
  end.

Definition div_ceil (lhs rhs : N) : N :=
  let d := lhs / rhs in
  let r := lhs mod rhs in
  if (0 <? r) && (0 <? rhs) then d + 1 else d.

Definition number_of_chunks_needed_for {E} (bytes : list byte) : res E N :=
  let n := div_ceil (len bytes) MAX_CHUNK_SIZE in
  if n <=? u8_max then Ok n else Panic.

(** The loop over the keys; the rest of the bytes stands for [&bytes[base_idx..]]. *)
Fixpoint fill_chunks (keys : list string) (rest : list byte) (obj : gmap string JsValue) :
    gmap string JsValue :=
  match keys with
  | [] => obj
  | key :: keys =>
      let chunk := take (N.to_nat MAX_CHUNK_SIZE) rest in
      fill_chunks keys (drop (N.to_nat MAX_CHUNK_SIZE) rest) (<[key := js_bytes chunk]> obj)
  end.

Definition shard_bytes_to_object {E} (keys : list string) (bytes : list byte)
    (object_to_fill : gmap string JsValue) : res E (gmap string JsValue) :=
  num_chunks ← number_of_chunks_needed_for bytes;
  if len keys <? num_chunks then Panic
  else Ok (fill_chunks (take (N.to_nat num_chunks) keys) bytes object_to_fill).

(** ** Report IDs *)
Definition aggregated_reports_keys : store (list string) :=
  self ← get_state;
  key_count ←
    match do_report_id_chunk_key_count self with
    | Some key_count => mret key_count
    | None =>
        v ← on_storage (state_get js_to_u8 CHUNK_COUNT_KEY);
        let key_count := default DEFAULT_REPORT_ID_CHUNK_KEY_COUNT v in
        _ ← set_chunk_key_count (Some key_count);
        mret key_count
    end;
  mret (report_keys key_count).

Definition set_report_id_chunk_key_count (count : N) : store unit :=
  self ← get_state;
  if decide (Some count = do_report_id_chunk_key_count self) then mret tt
  else
    _ ← on_storage (storage_put CHUNK_COUNT_KEY (js_u8 count));
    set_chunk_key_count (Some count).

(** [chunk.chunks_exact(16)], inserted into the set *)
Fixpoint insert_ids (fuel : nat) (chunk : list byte) (ids : gset ReportId) :
    res WorkerError (gset ReportId) :=
  match fuel with
  | O => Ok ids
  | S fuel =>
      if (length chunk <? 16)%nat then Ok ids
      else
        match get_decoded ReportId_decode (take 16 chunk) with
        | Ok id => insert_ids fuel (drop 16 chunk) ({[ id ]} ∪ ids)
        | Err _ => Err BadEncoding
        | Panic => Panic
        end
  end.

Fixpoint insert_chunks (chunks : list (list byte)) (ids : gset ReportId) :
    res WorkerError (gset ReportId) :=
  match chunks with
  | [] => Ok ids
  | chunk :: chunks => ids ← insert_ids (length chunk) chunk ids; insert_chunks chunks ids
  end.

(** The IDs in what was read. *)
Definition parse_report_ids (keys : list string) (chunks_map : gmap string JsValue) :
    res WorkerError (gset ReportId) :=
  chunks ← js_map_to_chunks keys chunks_map;
  insert_chunks chunks ∅.

Definition cold_load_aggregated_report_ids : store (gset ReportId) :=
  keys ← aggregated_reports_keys;
  chunks_map ← on_storage (storage_get_multiple keys);
  ids ← lift (parse_report_ids keys chunks_map);
  _ ← set_report_ids (Some ids);
  mret ids.

Definition load_aggregated_report_ids : store (gset ReportId) :=
  self ← get_state;
  match do_report_ids self with
  | Some ids => mret ids
  | None => cold_load_aggregated_report_ids
  end.

(** ** The aggregate share *)

(** [while bytes.position() < len { share.push(F::decode(&mut bytes)?) }] *)
Fixpoint decode_elems (f : field_kind) (fuel : nat) (c : cursor) :
    res WorkerError (list (prio_elem f)) :=
  if (length (get_ref c) <=? position c)%nat then Ok []
  else
    match fuel with
    | O => Err WorkerOther
    | S fuel =>
        match elem_decode f c with
        | Ok (x, c) => xs ← decode_elems f fuel c; Ok (x :: xs)
        | Err _ => Err (Internal "failed to decode aggregate share: {e}")
        | Panic => Panic
        end
    end.

Fixpoint from_slices (f : field_kind) (chunks : list (list byte)) :
    res WorkerError (list (prio_elem f)) :=
  match chunks with
  | [] => Ok []
  | chunk :: chunks =>
      xs ← decode_elems f (length chunk) (cursor_new chunk);
      rest ← from_slices f chunks;
      Ok (xs ++ rest)
  end.

(** The share in what was read. *)
Definition parse_agg_share (values : gmap string JsValue) : res WorkerError DapAggregateShare :=
  if decide (values = ∅) then Ok (MkDapAggregateShare 0 0 0 zero_checksum None)
  else
    meta ← unwrap (values !! METADATA_KEY ≫= js_to_meta);
    chunks ← js_map_to_chunks agg_share_shard_keys values;
    match chunks with
    | [] => Ok (into_agg_share_without_data meta)
    | _ =>
        kind ← unwrap (meta_kind meta);
        data ←
          match kind with
          | VdafKind_Field32 => xs ← from_slices FieldPrio2 chunks; Ok (VAS_Field32 (agg_from_vec xs))
          | VdafKind_Field64 => xs ← from_slices Field64 chunks; Ok (VAS_Field64 (agg_from_vec xs))
          | VdafKind_Field128 => xs ← from_slices Field128 chunks; Ok (VAS_Field128 (agg_from_vec xs))
          end;
        Ok (into_agg_share_with_data meta data)
    end.

(** [self.agg_share.take()] leaves nothing behind when the read fails. *)
Definition get_agg_share : store DapAggregateShare :=
  self ← get_state;
  agg_share ←
    match do_agg_share self with
    | Some agg_share => mret agg_share
    | None =>
        values ← on_storage (storage_get_multiple (agg_share_shard_keys ++ [METADATA_KEY]));
        lift (parse_agg_share values)
    end;
  _ ← set_agg_share (Some agg_share);
  mret agg_share.

Definition is_collected : store bool :=
  self ← get_state;
  match do_collected self with
  | Some collected => mret collected
  | None =>
      collected ← on_storage (state_get_or_default js_to_bool false COLLECTED_KEY);
      _ ← set_collected (Some collected);
      mret collected
  end.

(** ** Requests *)

(** The IDs of the request that are in the store. *)
Definition repeat_ids (contained_reports : list ReportId) (merged : gset ReportId) : gset ReportId :=
  list_to_set (filter (fun id => id ∈ merged) contained_reports).

(** [id.encode(&mut as_bytes)] for each ID, in the order the set is iterated in *)
Definition ids_bytes (ids : gset ReportId) : list byte := mjoin (elements ids).

(** The replay check: an answer, or the object to which the report IDs are added.  The
    program is built for [wasm32], where [usize] has 32 bits. *)
Definition check_replays (contained_reports : list ReportId) (report_count : N) :
    store (AggregateStoreMergeResp + gmap string JsValue) :=
  merged ← load_aggregated_report_ids;
  let repeats := repeat_ids contained_reports merged in
  if decide (repeats = ∅) then
    let merged := merged ∪ list_to_set contained_reports in
    _ ← set_report_ids (Some merged);
    let as_bytes := ids_bytes merged in
    count ← lift (number_of_chunks_needed_for as_bytes);
    _ ← set_report_id_chunk_key_count count;
    keys ← aggregated_reports_keys;
    chunks_map ← lift (shard_bytes_to_object keys as_bytes ∅);
    mret (inr chunks_map)
  else if u32_max <? report_count then lift Panic
  else if N.of_nat (size repeats) =? report_count then mret (inl MergeResp_Ok)
  else mret (inl (MergeResp_ReplaysDetected repeats)).

(** The chunks of the share, if it has data. *)
Definition write_object (s : DapAggregateShare) (obj : gmap string JsValue) :
    res WorkerError (gmap string JsValue) :=
  match DapAggregateShare_data s with
  | Some data =>
      as_bytes ← map_err (fun _ => RustError "failed to encode agg share: {e}")
                   (get_encoded agg_share_encode data);
      shard_bytes_to_object agg_share_shard_keys as_bytes obj
  | None => Ok obj
  end.

(** The share and its metadata are added to the object, which is then written. *)
Definition merge_and_write (agg_share_delta : DapAggregateShare) (chunks_map : gmap string JsValue) :
    store unit :=
  agg_share ← get_agg_share;
  agg_share ← lift (map_err (fun _ => int_err) (DapAggregateShare_merge agg_share agg_share_delta));
  _ ← set_agg_share (Some agg_share);
  let meta := from_agg_share agg_share in
  chunks_map ← lift (write_object agg_share chunks_map);
  v ← lift (unwrap (js_meta meta));
  on_storage (storage_put_multiple (<[METADATA_KEY := v]> chunks_map)).

Definition handle_merge (req : AggregateStoreMergeReq) : store AggregateStoreMergeResp :=
  collected ← is_collected;
  if collected : bool then mret MergeResp_AlreadyCollected
  else
    r ← (if negb (merge_skip_replay_protection req)
         then check_replays (merge_contained_reports req)
                (DapAggregateShare_report_count (merge_agg_share_delta req))
         else mret (inr ∅));
    match r with
    | inl resp => mret resp
    | inr chunks_map =>
        _ ← merge_and_write (merge_agg_share_delta req) chunks_map;
        mret MergeResp_Ok
    end.

Definition handle (req : store_request) : store store_response :=
  match req with
  | GetMerged => ids ← load_aggregated_report_ids; mret (Resp_ReportIds ids)
  | Merge req => r ← handle_merge req; mret (Resp_Merge r)
  | Get => s ← get_agg_share; mret (Resp_AggShare s)
  | MarkCollected =>
      _ ← on_storage (storage_put COLLECTED_KEY (js_bool true));
      _ ← set_collected (Some true);
      mret Resp_Unit
  | CheckCollected => b ← is_collected; mret (Resp_Bool b)
  end.

(** [fetch] of [mk_durable_object!]; [should_cleanup_at] always gives a time. *)
Definition fetch (req : store_request) : store store_response :=
  _ ← on_storage storage_set_alarm;
  handle req.

(** [alarm] *)
Definition alarm : store unit := on_storage storage_delete_all.
End Store.



