(* ===== verification/DurableChunks.v ===== *)
(** * Values in chunks

    The storage of a durable object limits the size of a value, so that the report IDs and
    the aggregate share of a bucket are cut into chunks under consecutive keys
    ([shard_bytes_to_object], [js_map_to_chunks]).  What is written is read back: an element
    and a report ID are never cut, since their sizes divide that of a chunk. *)

From S2P Require Import Prelude Codec Messages TaskprovMessages Errors Config AggShare DurableStore.

(** ** Lists in groups *)

(** [n] groups of [k], the last ones shorter or empty. *)
Fixpoint groups {A} (k n : nat) (l : list A) : list (list A) :=
  match n with
  | O => []
  | S n => take k l :: groups k n (drop k l)
  end.

Lemma groups_length {A} k n (l : list A) : length (groups k n l) = n.
Proof. revert l. induction n as [|n IH]; intros l; simpl; [done|]. by rewrite IH. Qed.

Lemma groups_join {A} k n (l : list A) : (length l <= n * k)%nat -> mjoin (groups k n l) = l.
Proof.
  revert l. induction n as [|n IH]; intros l Hl.
  - destruct l; [done|simpl in Hl; lia].
  - cbn [groups]. change (mjoin (?a :: ?b)) with (a ++ mjoin b).
    rewrite IH by (rewrite length_drop; simpl in Hl; lia). apply take_drop.
Qed.

Lemma in_take {A} n (l : list A) x : x ∈ take n l -> x ∈ l.
Proof. intros H. rewrite <-(take_drop n l). apply elem_of_app. by left. Qed.

Lemma in_drop {A} n (l : list A) x : x ∈ drop n l -> x ∈ l.
Proof. intros H. rewrite <-(take_drop n l). apply elem_of_app. by right. Qed.

(** Items of one size. *)
Definition sized (sz : nat) (bss : list (list byte)) : Prop := Forall (fun b => length b = sz) bss.

Lemma take_mjoin sz k bss : sized sz bss -> take (k * sz) (mjoin bss) = mjoin (take k bss).
Proof.
  intros H. revert k. induction H as [|b bss Hb _ IH]; intros k; [simpl; by rewrite !take_nil|].
  destruct k as [|k]; [done|]. change (mjoin (b :: bss)) with (b ++ mjoin bss).
  cbn [take]. change (mjoin (?a :: ?b)) with (a ++ mjoin b).
  rewrite take_app_ge by (rewrite Hb; simpl; lia). f_equal. rewrite Hb, <-IH. f_equal. simpl. lia.
Qed.

Lemma drop_mjoin sz k bss : sized sz bss -> drop (k * sz) (mjoin bss) = mjoin (drop k bss).
Proof.
  intros H. revert k. induction H as [|b bss Hb _ IH]; intros k; [simpl; by rewrite !drop_nil|].
  destruct k as [|k]; [done|]. change (mjoin (b :: bss)) with (b ++ mjoin bss).
  cbn [drop]. rewrite drop_app_ge by (rewrite Hb; simpl; lia). rewrite Hb, <-IH. f_equal. simpl. lia.
Qed.

Lemma sized_take sz k bss : sized sz bss -> sized sz (take k bss).
Proof. apply Forall_take. Qed.

Lemma sized_drop sz k bss : sized sz bss -> sized sz (drop k bss).
Proof. apply Forall_drop. Qed.

(** Groups of whole items. *)
Lemma groups_mjoin sz k n bss :
  sized sz bss ->
  groups (k * sz) n (mjoin bss : list byte) = (mjoin : list (list byte) -> list byte) <$> groups k n bss.
Proof.
  revert bss. induction n as [|n IH]; intros bss H; [done|]. cbn [groups]. rewrite fmap_cons.
  rewrite (take_mjoin _ _ _ H), (drop_mjoin _ _ _ H). f_equal. apply IH. by apply sized_drop.
Qed.

Lemma sized_length sz bss : sized sz bss -> length (mjoin bss) = (length bss * sz)%nat.
Proof.
  induction 1 as [|b bss Hb _ IH]; [done|]. change (mjoin (b :: bss)) with (b ++ mjoin bss).
  rewrite length_app, IH, Hb. simpl. lia.
Qed.

Lemma div_ceil_spec n k : 0 < k -> n <= div_ceil n k * k /\ div_ceil n k * k < n + k.
Proof.
  intros Hk. unfold div_ceil. pose proof (N.div_mod n k ltac:(lia)) as H.
  pose proof (N.mod_lt n k ltac:(lia)). rewrite (proj2 (N.ltb_lt 0 k)), andb_true_r by done.
  generalize dependent (n / k). generalize dependent (n mod k). intros r Hr q Hq.
  destruct (N.ltb_spec 0 r); nia.
Qed.

Lemma div_ceil_le n m k : 0 < k -> n <= m -> div_ceil n k <= div_ceil m k.
Proof.
  intros Hk H. destruct (div_ceil_spec n k Hk), (div_ceil_spec m k Hk).
  destruct (N.le_gt_cases (div_ceil n k) (div_ceil m k)) as [|Hlt]; [done|exfalso].
  assert (div_ceil m k + 1 <= div_ceil n k) by lia. nia.
Qed.

#[global] Opaque MAX_CHUNK_SIZE.

Lemma max_chunk_pos : (0 < N.to_nat MAX_CHUNK_SIZE)%nat.
Proof. Transparent MAX_CHUNK_SIZE. unfold MAX_CHUNK_SIZE. lia. Qed.

(** The sizes of items that divide a chunk. *)
Lemma chunk_items sz k : sz * k = 128000 -> N.to_nat MAX_CHUNK_SIZE = (N.to_nat k * N.to_nat sz)%nat.
Proof. intros H. change MAX_CHUNK_SIZE with 128000. lia. Qed.
#[global] Opaque MAX_CHUNK_SIZE.

(** ** Keys *)
Definition all_report_keys : list string := report_keys 255.

Lemma keys_distinct :
  NoDup (all_report_keys ++ agg_share_shard_keys ++ [METADATA_KEY; COLLECTED_KEY; CHUNK_COUNT_KEY]).
Proof. apply (bool_decide_unpack _). vm_compute. exact I. Qed.

Lemma report_keys_take n : n <= 255 -> report_keys n = take (N.to_nat n) all_report_keys.
Proof.
  intros Hn. unfold all_report_keys, report_keys. rewrite <-fmap_take, take_seq.
  do 2 f_equal. lia.
Qed.

(** ** Chunks in a map *)
Section Chunks.
Context `{DS : DurableStorage} {DL : DurableStorageLaws DS}.

(** The chunks of [bytes] are under the first keys of [keys], and nothing under the others. *)
Definition chunked (keys : list string) (bytes : list byte) (m : gmap string JsValue) : Prop :=
  let n := N.to_nat (div_ceil (len bytes) MAX_CHUNK_SIZE) in
  (n <= length keys)%nat /\
  Forall2 (fun k c => m !! k = Some (js_bytes c)) (take n keys)
    (groups (N.to_nat MAX_CHUNK_SIZE) n bytes) /\
  Forall (fun k => m !! k = None) (drop n keys).

Lemma under_ext ks cs (m m' : gmap string JsValue) :
  (forall k, k ∈ ks -> m' !! k = m !! k) ->
  Forall2 (fun k c => m !! k = Some (js_bytes c)) ks cs ->
  Forall2 (fun k c => m' !! k = Some (js_bytes c)) ks cs.
Proof.
  intros Hm H. induction H as [|k c ks cs Hk _ IH]; constructor.
  - rewrite Hm by (left; done). done.
  - apply IH. intros k' Hk'. apply Hm. by right.
Qed.

Lemma chunked_ext keys bytes m m' :
  (forall k, k ∈ keys -> m' !! k = m !! k) -> chunked keys bytes m -> chunked keys bytes m'.
Proof.
  intros Hm (Hn & H1 & H2). split; [done|]. split.
  - eapply under_ext; [|exact H1]. intros k Hk.
    apply Hm. by eapply in_take.
  - apply Forall_forall. intros k Hk. rewrite Forall_forall in H2. rewrite Hm; [by apply H2|].
    by eapply in_drop.
Qed.

(** Reading the chunks of more keys than there are chunks. *)
Lemma chunked_take keys bytes m n' :
  chunked keys bytes m -> (N.to_nat (div_ceil (len bytes) MAX_CHUNK_SIZE) <= n')%nat ->
  (n' <= length keys)%nat -> chunked (take n' keys) bytes m.
Proof.
  intros (Hn & H1 & H2) Hle Hl. split; [rewrite length_take; lia|].
  rewrite take_take, Nat.min_l by lia. split; [done|].
  rewrite skipn_firstn_comm. by apply Forall_take.
Qed.

Lemma js_map_to_chunks_app {E} ks ks' m cs :
  Forall2 (fun k c => m !! k = Some (js_bytes c)) ks cs -> Forall (fun k => m !! k = None) ks' ->
  js_map_to_chunks (E:=E) (ks ++ ks') m = Ok cs.
Proof.
  intros H H'. induction H as [|k c ks cs Hk _ IH].
  - induction H' as [|k ks' Hk _ IH]; [done|]. cbn [app js_map_to_chunks]. by rewrite Hk.
  - cbn [app js_map_to_chunks]. rewrite Hk, js_bytes_to. cbn [unwrap mbind res_bind]. by rewrite IH.
Qed.

Lemma chunked_read {E} keys bytes m :
  chunked keys bytes m -> js_map_to_chunks (E:=E) keys m
  = Ok (groups (N.to_nat MAX_CHUNK_SIZE) (N.to_nat (div_ceil (len bytes) MAX_CHUNK_SIZE)) bytes).
Proof.
  intros (Hn & H1 & H2). set (n := N.to_nat (div_ceil (len bytes) MAX_CHUNK_SIZE)) in *.
  rewrite <-(take_drop n keys). by apply js_map_to_chunks_app.
Qed.

(** Writing chunks. *)
Lemma fill_chunks_lookup ks rest obj :
  NoDup ks ->
  Forall2 (fun k c => fill_chunks ks rest obj !! k = Some (js_bytes c)) ks
    (groups (N.to_nat MAX_CHUNK_SIZE) (length ks) rest) /\
  (forall k, k ∉ ks -> fill_chunks ks rest obj !! k = obj !! k).
Proof.
  intros H. revert rest obj. induction H as [|k ks Hk _ IH]; intros rest obj; [by split|].
  cbn [fill_chunks length groups].
  destruct (IH (drop (N.to_nat MAX_CHUNK_SIZE) rest)
    (<[k := js_bytes (take (N.to_nat MAX_CHUNK_SIZE) rest)]> obj)) as [I1 I2].
  split.
  - constructor; [|done]. rewrite I2 by done. by rewrite lookup_insert_eq.
  - intros k' Hk'. apply not_elem_of_cons in Hk' as [Hne Hk']. rewrite I2 by done.
    by rewrite lookup_insert_ne.
Qed.

Lemma shard_bytes_ok {E} keys bytes obj :
  NoDup keys -> div_ceil (len bytes) MAX_CHUNK_SIZE <= len keys -> len keys <= u8_max ->
  exists obj', shard_bytes_to_object (E:=E) keys bytes obj = Ok obj' /\
    Forall2 (fun k c => obj' !! k = Some (js_bytes c))
      (take (N.to_nat (div_ceil (len bytes) MAX_CHUNK_SIZE)) keys)
      (groups (N.to_nat MAX_CHUNK_SIZE) (N.to_nat (div_ceil (len bytes) MAX_CHUNK_SIZE)) bytes) /\
    (forall k, k ∉ take (N.to_nat (div_ceil (len bytes) MAX_CHUNK_SIZE)) keys -> obj' !! k = obj !! k).
Proof.
  intros Hnd Hle Hk. unfold shard_bytes_to_object, number_of_chunks_needed_for.
  rewrite (proj2 (N.leb_le _ _)) by lia. cbn [mbind res_bind].
  rewrite (proj2 (N.ltb_ge _ _)) by done. eexists. split; [done|].
  set (n := N.to_nat (div_ceil (len bytes) MAX_CHUNK_SIZE)).
  destruct (fill_chunks_lookup (take n keys) bytes obj) as [H1 H2].
  { by apply (sublist_NoDup _ keys); [|apply sublist_take]. }
  rewrite length_take, Nat.min_l in H1 by (unfold n, len in *; lia). done.
Qed.
End Chunks.

(** ** Report IDs in chunks *)
Section Ids.
Context `{PC : PrioCodec} {PL : PrioCodecLaws PC}.

Lemma get_decoded_id id : length id = 16%nat -> get_decoded ReportId_decode id = Ok id.
Proof.
  intros H. rewrite get_decoded_spec. unfold ReportId_decode, read_exact, cursor_new, remaining.
  cbn [get_ref position drop advance]. rewrite (proj2 (N.leb_le _ _)) by (unfold len; rewrite drop_0; lia).
  rewrite drop_0.
  rewrite take_ge by (change (N.to_nat 16) with 16%nat; lia). cbn [mbind res_bind].
  by rewrite (proj2 (Nat.ltb_ge _ _)) by (simpl; lia).
Qed.

Lemma insert_ids_ok fuel l ids :
  sized 16 l -> (length l <= fuel)%nat ->
  insert_ids fuel (mjoin l) ids = Ok (list_to_set l ∪ ids).
Proof.
  intros H. revert fuel ids. induction H as [|x l Hx H IH]; intros fuel ids Hf.
  - destruct fuel; simpl; do 2 f_equal; set_solver.
  - destruct fuel as [|fuel]; [simpl in Hf; lia|]. cbn [insert_ids].
    change (mjoin (x :: l)) with (x ++ mjoin l).
    rewrite (proj2 (Nat.ltb_ge _ _)) by (rewrite length_app, Hx; lia).
    rewrite <-Hx, take_app_length, drop_app_length, get_decoded_id by done.
    rewrite IH by (simpl in Hf; lia). f_equal. set_solver.
Qed.

Lemma insert_chunks_ok gs ids :
  Forall (sized 16) gs ->
  insert_chunks ((mjoin : list (list byte) -> list byte) <$> gs) ids
  = Ok (list_to_set (mjoin gs) ∪ ids).
Proof.
  intros H. revert ids. induction H as [|g gs Hg _ IH]; intros ids.
  - simpl. f_equal. set_solver.
  - rewrite fmap_cons. cbn [insert_chunks]. rewrite insert_ids_ok; [|done|].
    2:{ rewrite (sized_length 16) by done. lia. }
    cbn [mbind res_bind]. rewrite IH. f_equal.
    change (mjoin (g :: gs)) with (g ++ mjoin gs). set_solver.
Qed.

Lemma groups_sized sz k n bss : sized sz bss -> Forall (sized sz) (groups k n bss).
Proof.
  revert bss. induction n as [|n IH]; intros bss H; constructor; [by apply sized_take|].
  apply IH. by apply sized_drop.
Qed.

(** [size_of::<ReportId>()] divides the size of a chunk: no ID is cut. *)
Lemma ids_groups ids n :
  sized 16 (elements ids) -> (length (ids_bytes ids) <= n * N.to_nat MAX_CHUNK_SIZE)%nat ->
  insert_chunks (groups (N.to_nat MAX_CHUNK_SIZE) n (ids_bytes ids)) ∅ = Ok ids.
Proof.
  intros Hs Hn. unfold ids_bytes in *. rewrite (sized_length _ _ Hs) in Hn.
  rewrite (chunk_items 16 8000 eq_refl) in *.
  generalize dependent (N.to_nat 8000). intros k Hn. change (N.to_nat 16) with 16%nat in *.
  rewrite groups_mjoin, insert_chunks_ok by (try apply groups_sized; done).
  rewrite groups_join by nia.
  f_equal. rewrite list_to_set_elements_L. set_solver.
Qed.
End Ids.

(** ** Aggregate shares in chunks *)
Section Elems.
Context `{PA : PrioAgg} `{PV : !PrioVec} {VL : PrioVecLaws PV}.

Lemma decode_elems_ok f sz xs bss pre fuel :
  Forall2 (decodes (elem_decode f)) xs bss -> sized (S sz) bss ->
  len (pre ++ mjoin bss) <= slice_max -> (length xs <= fuel)%nat ->
  decode_elems f fuel (Cursor (pre ++ mjoin bss) (length pre)) = Ok xs.
Proof.
  intros H. revert pre fuel. induction H as [|x b xs bss Hx _ IH]; intros pre fuel Hs Hm Hf.
  - destruct fuel; simpl; rewrite length_app; simpl;
      by rewrite (proj2 (Nat.leb_le _ _)) by lia.
  - apply Forall_cons in Hs as [Hb Hs]. destruct fuel as [|fuel]; [simpl in Hf; lia|].
    change (mjoin (b :: bss)) with (b ++ mjoin bss) in *. cbn [decode_elems get_ref position].
    rewrite (proj2 (Nat.leb_gt _ _)) by (rewrite !length_app; lia).
    rewrite Hx by done. rewrite app_assoc in Hm |- *. rewrite <-length_app, IH;
      [done|done|done|simpl in Hf; lia].
Qed.

Lemma from_slices_ok f sz k n xs bss :
  Forall2 (decodes (elem_decode f)) xs bss -> sized (S sz) bss ->
  N.of_nat (k * S sz) <= slice_max -> (length xs <= n * k)%nat ->
  from_slices f ((mjoin : list (list byte) -> list byte) <$> groups k n bss) = Ok xs.
Proof.
  revert xs bss. induction n as [|n IH]; intros xs bss H Hs Hm Hl.
  - destruct xs; [done|simpl in Hl; lia].
  - cbn [groups]. rewrite fmap_cons. cbn [from_slices]. unfold cursor_new.
    rewrite (decode_elems_ok f sz (take k xs) (take k bss) []).
    + cbn [mbind res_bind]. rewrite (IH (drop k xs) (drop k bss)).
      * cbn [mbind res_bind]. by rewrite take_drop.
      * by apply Forall2_drop.
      * by apply sized_drop.
      * done.
      * rewrite length_drop. simpl in Hl. lia.
    + by apply Forall2_take.
    + by apply sized_take.
    + rewrite app_nil_l. unfold len. rewrite (sized_length _ _ (sized_take _ k _ Hs)), length_take.
      nia.
    + rewrite (sized_length _ _ (sized_take _ k _ Hs)), !length_take.
      rewrite (Forall2_length _ _ _ H). nia.
Qed.

(** The elements of a share and their encodings. *)
Lemma elems_encoded f (xs : list (prio_elem f)) :
  exists bss, Forall2 (writes (elem_encode f)) xs bss /\ Forall2 (decodes (elem_decode f)) xs bss /\
    sized (N.to_nat (elem_size f)) bss.
Proof.
  induction xs as [|x xs (bss & H1 & H2 & H3)]; [by exists []; repeat split; constructor|].
  destruct (codec_is_complete (CodecOk:=elem_codec f) x I) as (b & Hw & Hd).
  exists (b :: bss). repeat split; constructor; try done.
  pose proof (elem_size_spec f x b Hw) as H. unfold len in H. lia.
Qed.
End Elems.
