(* ===== verification/DurableStoreCorrect.v ===== *)
(** * The durable object of a bucket implements a bucket

    The specification of the object is [bucket_spec] with [spec_step]: a set of report IDs,
    an aggregate share and a flag.  The object is [coherent] with a bucket when its storage
    holds the bucket ([stored], in chunks) and what it keeps in memory agrees.  A request
    then does what the specification says or fails; and whatever the object is in the middle
    of when it fails, after a restart it holds the bucket before or after the request. *)

From S2P Require Import Prelude Codec Messages TaskprovMessages Errors Config AggShare DurableStore DurableChunks.

(** ** Calls that may fail

    [wp m Q E]: the call [m] either succeeds with [Q] or fails with [E]; it does not panic. *)
Definition wp {S Er A} (m : stm S Er A) (Q : A -> S -> Prop) (E : S -> Prop) (s : S) : Prop :=
  match m s with
  | (Ok a, s') => Q a s'
  | (Err _, s') => E s'
  | (Panic, _) => False
  end.

Section WP.
Context {S Er : Type}.

Lemma wp_bind {A B} (m : stm S Er A) (f : A -> stm S Er B) Q E s :
  wp m (fun a => wp (f a) Q E) E s -> wp (m ≫= f) Q E s.
Proof. unfold wp, mbind, stm_bind. by destruct (m s) as [[] ?]. Qed.

Lemma wp_mono {A} (m : stm S Er A) (Q Q' : A -> S -> Prop) (E E' : S -> Prop) s :
  wp m Q E s -> (forall a t, Q a t -> Q' a t) -> (forall t, E t -> E' t) -> wp m Q' E' s.
Proof. unfold wp. destruct (m s) as [[] ?]; eauto. Qed.

(** Two calls in sequence. *)
Lemma wp_seq {A B} (m : stm S Er A) (f : A -> stm S Er B) (R : A -> S -> Prop) Q (E E' : S -> Prop) s :
  wp m R E' s -> (forall t, E' t -> E t) -> (forall a t, R a t -> wp (f a) Q E t) ->
  wp (m ≫= f) Q E s.
Proof. intros H HE Hf. apply wp_bind. eapply wp_mono; eauto. Qed.

Lemma wp_ret {A} (a : A) (Q : A -> S -> Prop) (E : S -> Prop) s : Q a s -> wp (Er:=Er) (mret a) Q E s.
Proof. done. Qed.

Lemma wp_get {B} (f : S -> stm S Er B) Q E s : wp (f s) Q E s -> wp (get_state ≫= f) Q E s.
Proof. done. Qed.

Lemma wp_set {B} g (f : unit -> stm S Er B) Q E s : wp (f tt) Q E (g s) -> wp (modify g ≫= f) Q E s.
Proof. done. Qed.

Lemma wp_lift {A B} (r : res Er A) a (f : A -> stm S Er B) Q E s :
  r = Ok a -> wp (f a) Q E s -> wp (lift r ≫= f) Q E s.
Proof. by intros ->. Qed.
End WP.

(** ** The specification *)
Section Bucket.
Context `{BP : BuildProfile} `{PC : PrioCodec} {PL : PrioCodecLaws PC}.
Context `{PA : PrioAgg} `{PV : !PrioVec} {VL : PrioVecLaws PV}.
Context `{DS : DurableStorage} {DL : DurableStorageLaws DS}.

Record bucket : Type := MkBucket {
  b_ids : gset ReportId;
  b_share : DapAggregateShare;
  b_collected : bool;
}.

Definition empty_bucket : bucket := MkBucket ∅ DapAggregateShare_default false.

Definition merge_ids (req : AggregateStoreMergeReq) (ids : gset ReportId) : gset ReportId :=
  if merge_skip_replay_protection req then ids else ids ∪ list_to_set (merge_contained_reports req).

Definition spec_merge (a : bucket) (req : AggregateStoreMergeReq) :
    option (AggregateStoreMergeResp * bucket) :=
  let repeats := repeat_ids (merge_contained_reports req) (b_ids a) in
  if b_collected a then Some (MergeResp_AlreadyCollected, a)
  else if merge_skip_replay_protection req || bool_decide (repeats = ∅) then
    match DapAggregateShare_merge (b_share a) (merge_agg_share_delta req) with
    | Ok s => Some (MergeResp_Ok, MkBucket (merge_ids req (b_ids a)) s false)
    | _ => None
    end
  else if N.of_nat (size repeats) =? DapAggregateShare_report_count (merge_agg_share_delta req)
  then Some (MergeResp_Ok, a)
  else Some (MergeResp_ReplaysDetected repeats, a).

Definition spec_step (a : bucket) (req : store_request) : option (store_response * bucket) :=
  match req with
  | GetMerged => Some (Resp_ReportIds (b_ids a), a)
  | Get => Some (Resp_AggShare (b_share a), a)
  | Merge req => '(r, a') ← spec_merge a req; Some (Resp_Merge r, a')
  | MarkCollected => Some (Resp_Unit, MkBucket (b_ids a) (b_share a) true)
  | CheckCollected => Some (Resp_Bool (b_collected a), a)
  end.

(** ** What the storage holds *)
Definition num_chunks (bs : list byte) : N := div_ceil (len bs) MAX_CHUNK_SIZE.

(** [n] keys are read for the report IDs. *)
Definition stored_count (m : gmap string JsValue) (n : N) : Prop :=
  n <= u8_max /\
  (m !! CHUNK_COUNT_KEY = Some (js_u8 n) \/
   m !! CHUNK_COUNT_KEY = None /\ n = DEFAULT_REPORT_ID_CHUNK_KEY_COUNT).

Definition stored_ids (m : gmap string JsValue) (n : N) (ids : gset ReportId) : Prop :=
  stored_count m n /\ sized 16 (elements ids) /\
  chunked all_report_keys (ids_bytes ids) m /\ num_chunks (ids_bytes ids) <= n.

Definition data_vec (d : VdafAggregateShare) : { f & list (prio_elem f) } :=
  match d with
  | VAS_Field32 s => existT FieldPrio2 (agg_to_vec s)
  | VAS_Field64 s => existT Field64 (agg_to_vec s)
  | VAS_Field128 s => existT Field128 (agg_to_vec s)
  end.

Definition data_len (d : VdafAggregateShare) : nat := length (projT2 (data_vec d)).

(** The bytes a share is stored as. *)
Definition data_size (d : VdafAggregateShare) : N :=
  N.of_nat (data_len d) * elem_size (projT1 (data_vec d)).

Definition stored_data (m : gmap string JsValue) (d : option VdafAggregateShare) : Prop :=
  match d with
  | None => Forall (fun k => m !! k = None) agg_share_shard_keys
  | Some d => (0 < data_len d)%nat /\
      exists bs, writes agg_share_encode d bs /\ chunked agg_share_shard_keys bs m
  end.

Definition stored_share (m : gmap string JsValue) (s : DapAggregateShare) : Prop :=
  stored_data m (DapAggregateShare_data s) /\
  (m !! METADATA_KEY = None /\ s = DapAggregateShare_default \/
   exists v, js_meta (from_agg_share s) = Some v /\ m !! METADATA_KEY = Some v).

Definition stored_collected (m : gmap string JsValue) (b : bool) : Prop :=
  m !! COLLECTED_KEY = None /\ b = false \/ m !! COLLECTED_KEY = Some (js_bool b).

Record stored (m : gmap string JsValue) (n : N) (a : bucket) : Prop := {
  st_ids : stored_ids m n (b_ids a);
  st_share : stored_share m (b_share a);
  st_collected : stored_collected m (b_collected a);
}.

(** A value in memory is that of the bucket. *)
Definition caches {A} (cache : option A) (v : A) : Prop := forall w, cache = Some w -> w = v.

(** The object implements the bucket. *)
Definition coherent (st : AggregateStoreDO) (a : bucket) : Prop :=
  exists n, stored (contents (do_state st)) n a /\
    caches (do_report_ids st) (b_ids a) /\ caches (do_agg_share st) (b_share a) /\
    caches (do_collected st) (b_collected a) /\ caches (do_report_id_chunk_key_count st) n.

(** What a new instance of the object finds. *)
Definition restart (st : AggregateStoreDO) : AggregateStoreDO := with_state (do_state st).

Definition recoverable (st : AggregateStoreDO) (a : bucket) : Prop :=
  exists n, stored (contents (do_state st)) n a.

Lemma recoverable_restart st a : recoverable st a -> coherent (restart st) a.
Proof. intros [n H]. exists n. split; [done|]. repeat split; intros w; discriminate. Qed.

Lemma coherent_recoverable st a : coherent st a -> recoverable st a.
Proof. intros (n & H & _). by exists n. Qed.

(** ** Keys are apart *)
Lemma keys_apart :
  NoDup all_report_keys /\ NoDup agg_share_shard_keys /\
  (forall k, k ∈ all_report_keys ->
     (k ∉ agg_share_shard_keys) /\ k <> METADATA_KEY /\ k <> COLLECTED_KEY /\ k <> CHUNK_COUNT_KEY) /\
  (forall k, k ∈ agg_share_shard_keys ->
     k <> METADATA_KEY /\ k <> COLLECTED_KEY /\ k <> CHUNK_COUNT_KEY).
Proof.
  pose proof keys_distinct as H.
  apply NoDup_app in H as (H1 & H2 & H). apply NoDup_app in H as (H3 & H4 & _).
  split; [done|]. split; [done|]. split.
  - intros k Hk. specialize (H2 k Hk). set_solver.
  - intros k Hk. specialize (H4 k Hk). set_solver.
Qed.

(** What is stored depends on the keys of its part only. *)
Lemma stored_ids_ext m m' n ids :
  (forall k, k ∈ all_report_keys -> m' !! k = m !! k) ->
  m' !! CHUNK_COUNT_KEY = m !! CHUNK_COUNT_KEY -> stored_ids m n ids -> stored_ids m' n ids.
Proof.
  intros Hk Hc ([Hn H] & H2 & H3 & H4). split; [split; [done|by rewrite Hc]|].
  split; [done|]. split; [by apply (chunked_ext _ _ m)|done].
Qed.

Lemma stored_data_ext m m' d :
  (forall k, k ∈ agg_share_shard_keys -> m' !! k = m !! k) -> stored_data m d -> stored_data m' d.
Proof.
  intros Hk H. destruct d as [d|].
  - destruct H as (Hl & bs & Hw & Hc). split; [done|]. exists bs.
    split; [done|]. by apply (chunked_ext _ _ m).
  - unfold stored_data in *. rewrite Forall_forall in *. intros k Hi. rewrite Hk by done. by apply H.
Qed.

Lemma stored_share_ext m m' s :
  (forall k, k ∈ agg_share_shard_keys -> m' !! k = m !! k) ->
  m' !! METADATA_KEY = m !! METADATA_KEY -> stored_share m s -> stored_share m' s.
Proof. intros Hk Hm [H1 H2]. split; [by apply (stored_data_ext m)|]. by rewrite Hm. Qed.

(** ** Reading *)
Lemma filter_keys (m : gmap string JsValue) (ks : list string) k :
  k ∈ ks -> filter (fun kv => kv.1 ∈ ks) m !! k = m !! k.
Proof.
  intros Hk. destruct (m !! k) as [v|] eqn:Hm.
  - by apply map_lookup_filter_Some.
  - apply map_lookup_filter_None. by left.
Qed.

Lemma parse_report_ids_ok m n ids :
  stored_ids m n ids ->
  parse_report_ids (report_keys n) (filter (fun kv => kv.1 ∈ report_keys n) m) = Ok ids.
Proof.
  intros ([Hn _] & Hs & Hc & Hle). unfold parse_report_ids, num_chunks in *.
  assert (chunked (report_keys n) (ids_bytes ids) (filter (fun kv => kv.1 ∈ report_keys n) m)) as Hc'.
  { apply (chunked_ext _ _ m); [intros k; apply filter_keys|].
    rewrite report_keys_take by done. apply chunked_take; [done|lia|].
    unfold all_report_keys, report_keys. rewrite length_fmap, length_seq. unfold u8_max in Hn. lia. }
  rewrite (chunked_read _ _ _ Hc'). cbn [mbind res_bind]. apply ids_groups; [done|].
  destruct (div_ceil_spec (len (ids_bytes ids)) MAX_CHUNK_SIZE) as [H _]; [|unfold len in *; nia].
  pose proof max_chunk_pos. lia.
Qed.

(** The elements of a share, from its chunks. *)
Lemma from_slices_data f (s : prio_agg_share f) bs m :
  writes (agg_encode f) s bs -> chunked agg_share_shard_keys bs m ->
  from_slices f (groups (N.to_nat MAX_CHUNK_SIZE) (N.to_nat (num_chunks bs)) bs) = Ok (agg_to_vec s).
Proof.
  intros Hw Hc. destruct (elems_encoded f (agg_to_vec s)) as (bss & H1 & H2 & H3).
  rewrite (writes_det _ _ _ _ Hw (agg_encode_writes f s bss H1)) in *. clear Hw bs Hc H1.
  assert (exists sz k, N.to_nat (elem_size f) = S sz /\ N.to_nat MAX_CHUNK_SIZE = (k * S sz)%nat)
    as (sz & k & Hsz & Hk).
  { destruct f; rewrite elem_size_eq;
      [exists 3%nat, (N.to_nat 32000)|exists 7%nat, (N.to_nat 16000)|exists 15%nat, (N.to_nat 8000)];
      (split; [done|]); [apply (chunk_items 4)|apply (chunk_items 8)|apply (chunk_items 16)]; done. }
  rewrite Hsz in H3.
  destruct (div_ceil_spec (len (mjoin bss)) MAX_CHUNK_SIZE) as [H _]; [pose proof max_chunk_pos; lia|].
  fold (num_chunks (mjoin bss)) in H. unfold len in H. rewrite (sized_length _ _ H3) in H.
  rewrite Hk, groups_mjoin by done. eapply from_slices_ok; [done|done|..].
  - rewrite <-Hk. change (N.of_nat (N.to_nat 128000) <= slice_max). rewrite N2Nat.id. by vm_compute.
  - rewrite (Forall2_length _ _ _ H2). nia.
Qed.

Definition share_keys : list string := agg_share_shard_keys ++ [METADATA_KEY].

Lemma data_size_len d bs : writes agg_share_encode d bs -> len bs = data_size d.
Proof.
  assert (forall f (s : prio_agg_share f), writes (agg_encode f) s bs ->
    len bs = N.of_nat (length (agg_to_vec s)) * elem_size f) as H.
  { intros f s Hw. destruct (elems_encoded f (agg_to_vec s)) as (bss & H1 & H2 & H3).
    rewrite (writes_det _ _ _ _ Hw (agg_encode_writes f s bss H1)).
    unfold len. rewrite (sized_length _ _ H3), (Forall2_length _ _ _ H2). lia. }
  destruct d as [s|s|s]; apply H.
Qed.

Lemma data_encoded d : exists bs, writes agg_share_encode d bs.
Proof.
  assert (forall f (s : prio_agg_share f), exists bs, writes (agg_encode f) s bs) as H.
  { intros f s. destruct (elems_encoded f (agg_to_vec s)) as (bss & H1 & _ & _).
    exists (mjoin bss). by apply agg_encode_writes. }
  destruct d as [s|s|s]; apply H.
Qed.

Lemma data_size_pos d : (0 < data_len d)%nat -> 0 < data_size d.
Proof.
  unfold data_size. rewrite elem_size_eq. intros H. destruct (projT1 (data_vec d)); lia.
Qed.

Lemma num_chunks_pos bs : 0 < len bs -> 0 < num_chunks bs.
Proof.
  intros H. destruct (div_ceil_spec (len bs) MAX_CHUNK_SIZE) as [H' _]; [pose proof max_chunk_pos; lia|].
  fold (num_chunks bs) in H'. nia.
Qed.

(** The chunks of a share give back its data. *)
Lemma stored_data_read m d :
  stored_data m (Some d) -> exists c cs,
    js_map_to_chunks (E:=WorkerError) agg_share_shard_keys m = Ok (c :: cs) /\
    (kind ← unwrap (meta_kind (from_agg_share (MkDapAggregateShare 0 0 0 [] (Some d))));
     match kind with
     | VdafKind_Field32 => xs ← from_slices FieldPrio2 (c :: cs); Ok (VAS_Field32 (agg_from_vec xs))
     | VdafKind_Field64 => xs ← from_slices Field64 (c :: cs); Ok (VAS_Field64 (agg_from_vec xs))
     | VdafKind_Field128 => xs ← from_slices Field128 (c :: cs); Ok (VAS_Field128 (agg_from_vec xs))
     end) = Ok d.
Proof.
  intros (Hl & bs & Hw & Hc). pose proof (chunked_read (E:=WorkerError) _ _ _ Hc) as Hr.
  fold (num_chunks bs) in Hr.
  assert (0 < num_chunks bs) as Hpos.
  { apply num_chunks_pos. rewrite (data_size_len _ _ Hw). by apply data_size_pos. }
  destruct (groups (N.to_nat MAX_CHUNK_SIZE) (N.to_nat (num_chunks bs)) bs) as [|c cs] eqn:Hg.
  { apply (f_equal length) in Hg. rewrite groups_length in Hg. simpl in Hg. lia. }
  exists c, cs. split; [done|].
  destruct d as [s|s|s]; cbn [from_agg_share meta_kind DapAggregateShare_data unwrap mbind res_bind];
    rewrite <-Hg, (from_slices_data _ _ _ m Hw Hc); cbn [mbind res_bind]; by rewrite agg_from_to_vec.
Qed.

Lemma parse_agg_share_ok m s :
  stored_share m s -> parse_agg_share (filter (fun kv => kv.1 ∈ share_keys) m) = Ok s.
Proof.
  intros Hs. assert (stored_share (filter (fun kv => kv.1 ∈ share_keys) m) s) as H.
  { apply (stored_share_ext m); [| |done]; intros; apply filter_keys; unfold share_keys; set_solver. }
  clear Hs. unfold parse_agg_share.
  assert (forall k, k ∉ share_keys -> filter (fun kv => kv.1 ∈ share_keys) m !! k = None) as Hout.
  { intros k Hk. apply map_lookup_filter_None. right. intros v _. done. }
  destruct H as [Hd [[Hm ->]|(v & Hv & Hm)]].
  - rewrite decide_True; [done|]. apply map_eq. intros k. rewrite lookup_empty.
    destruct (decide (k ∈ share_keys)) as [Hk|Hk]; [|by apply Hout].
    apply elem_of_app in Hk as [Hk|Hk]; [|by apply list_elem_of_singleton in Hk as ->].
    simpl in Hd. rewrite Forall_forall in Hd. by apply Hd.
  - rewrite decide_False by (intros E; rewrite E in Hm; discriminate).
    rewrite Hm. cbn [mbind option_bind]. rewrite (js_meta_to _ _ Hv). cbn [unwrap mbind res_bind].
    destruct s as [cnt mn mx cs [d|]].
    + destruct (stored_data_read _ _ Hd) as (c & chunks & -> & H). cbn [mbind res_bind].
      apply bind_Ok in H as (kind & Hk & H).
      change (meta_kind (from_agg_share (MkDapAggregateShare cnt mn mx cs (Some d))))
        with (meta_kind (from_agg_share (MkDapAggregateShare 0 0 0 [] (Some d)))).
      rewrite Hk. cbn [mbind res_bind]. rewrite H. done.
    + simpl in Hd. rewrite <-(app_nil_l agg_share_shard_keys).
      by rewrite (js_map_to_chunks_app [] _ _ []).
Qed.

(** ** Reading the object *)
Definition with_storage (st : AggregateStoreDO) (s : storage) : AggregateStoreDO :=
  MkStore s (do_report_ids st) (do_agg_share st) (do_collected st) (do_report_id_chunk_key_count st).

Lemma wp_on_storage {A} (m : stm storage WorkerError A) Q E st :
  wp m (fun a s => Q a (with_storage st s)) (fun s => E (with_storage st s)) (do_state st) ->
  wp (on_storage m) Q E st.
Proof. unfold wp, on_storage. by destruct (m (do_state st)) as [[] ?]. Qed.

Lemma coherent_storage st s a :
  contents s = contents (do_state st) -> coherent st a -> coherent (with_storage st s) a.
Proof. intros H (n & H' & C). exists n. simpl. by rewrite H. Qed.

(** A read leaves the storage as it was. *)
Definition same (s0 s : storage) : Prop := contents s = contents s0.

Lemma storage_get_wp k s :
  match storage_get k s with
  | (Ok v, s') => same s s' /\ contents s !! k = Some v
  | (Err e, s') => same s s' /\ (e = JsError ERR_NO_VALUE -> contents s !! k = None)
  | (Panic, _) => False
  end.
Proof.
  destruct (storage_get k s) as [r s'] eqn:H. apply storage_get_law in H as [H1 H2].
  unfold get_result in H2. destruct (contents s !! k) as [v|];
    destruct H2 as [->|(e & -> & Hne)]; naive_solver.
Qed.

Lemma get_multiple_wp ks s :
  wp (storage_get_multiple ks)
    (fun m s' => same s s' /\ m = filter (fun kv => kv.1 ∈ ks) (contents s)) (same s) s.
Proof.
  unfold wp. destruct (storage_get_multiple ks s) as [r s'] eqn:H.
  apply storage_get_multiple_law in H as [H1 [->|[e ->]]]; [by split|done].
Qed.

Lemma is_collected_wp st a :
  coherent st a ->
  wp is_collected (fun b t => b = b_collected a /\ coherent t a) (fun t => coherent t a) st.
Proof.
  intros H. unfold is_collected. apply wp_get.
  destruct (do_collected st) as [b|] eqn:Hb.
  { apply wp_ret. split; [|done]. destruct H as (n & _ & _ & _ & Hc & _). by apply Hc. }
  eapply wp_seq with (R := fun b t => b = b_collected a /\ coherent t a); [|exact (fun _ x => x)|].
  - apply wp_on_storage. unfold wp, state_get_or_default.
    pose proof (storage_get_wp COLLECTED_KEY (do_state st)) as Hg.
    destruct (storage_get COLLECTED_KEY (do_state st)) as [[v|e|] s']; [| |done].
    + destruct Hg as [Hs Hv]. destruct H as (n & Hst & C).
      destruct (st_collected _ _ _ Hst) as [[Hn _]|Hn]; rewrite Hv in Hn; [discriminate|].
      injection Hn as ->. rewrite js_bool_to. split; [done|]. apply coherent_storage; [done|].
      by exists n.
    + destruct Hg as [Hs Hv]. case_decide as He.
      * split; [|by apply coherent_storage]. destruct H as (n & Hst & C).
        destruct (st_collected _ _ _ Hst) as [[_ ->]|Hn]; [done|]. by rewrite (Hv He) in Hn.
      * by apply coherent_storage.
  - intros b t [-> (n & Hst & C1 & C2 & C3 & C4)]. apply wp_set, wp_ret.
    split; [done|]. exists n. repeat split; try apply Hst; try done. intros w [= <-]. done.
Qed.

(** Everything but the share, or but the number of keys, is as it was. *)
Definition share_frame (st t : AggregateStoreDO) : Prop :=
  same (do_state st) (do_state t) /\ do_report_ids t = do_report_ids st /\
  do_collected t = do_collected st /\
  do_report_id_chunk_key_count t = do_report_id_chunk_key_count st.

Definition count_frame (st t : AggregateStoreDO) : Prop :=
  same (do_state st) (do_state t) /\ do_report_ids t = do_report_ids st /\
  do_collected t = do_collected st /\ do_agg_share t = do_agg_share st.

Lemma get_agg_share_wp st s :
  stored_share (contents (do_state st)) s -> caches (do_agg_share st) s ->
  wp get_agg_share (fun s' t => s' = s /\ share_frame st t /\ caches (do_agg_share t) s)
    (fun t => share_frame st t /\ caches (do_agg_share t) s) st.
Proof.
  intros Hst Hc. unfold get_agg_share. apply wp_get.
  eapply wp_seq with (R := fun s' t => s' = s /\ share_frame st t); [|exact (fun _ x => x)|].
  - destruct (do_agg_share st) as [s'|] eqn:Hs; [apply wp_ret; by split; [apply Hc|]|].
    eapply wp_seq with (R := fun m t => m = filter (fun kv => kv.1 ∈ share_keys) (contents (do_state st)) /\
      share_frame st t); [apply wp_on_storage|exact (fun _ x => x)|].
    + eapply wp_mono; [apply get_multiple_wp| |]; [intros m t [Hsame ->]; by repeat split|].
      intros t Hsame. split; [by repeat split|]. intros w Hw. simpl in Hw. congruence.
    + intros m t [-> Ht]. unfold wp, lift. by rewrite (parse_agg_share_ok _ _ Hst).
  - intros s' t [-> Ht]. apply wp_set, wp_ret. split; [done|]. split; [done|]. by intros w [= <-].
Qed.

Lemma reports_keys_wp st n :
  stored_count (contents (do_state st)) n -> caches (do_report_id_chunk_key_count st) n ->
  wp aggregated_reports_keys
    (fun ks t => ks = report_keys n /\ count_frame st t /\ caches (do_report_id_chunk_key_count t) n)
    (fun t => count_frame st t /\ caches (do_report_id_chunk_key_count t) n) st.
Proof.
  intros [Hn Hst] Hc. unfold aggregated_reports_keys. apply wp_get.
  eapply wp_seq with (R := fun k t => k = n /\ count_frame st t /\ caches (do_report_id_chunk_key_count t) n);
    [|exact (fun _ x => x)|by intros k t [-> H]].
  destruct (do_report_id_chunk_key_count st) as [k|] eqn:Hk.
  { apply wp_ret. split; [by apply Hc|]. split; [by repeat split|by rewrite Hk]. }
  eapply wp_seq with (R := fun v t => default DEFAULT_REPORT_ID_CHUNK_KEY_COUNT v = n /\ count_frame st t);
    [apply wp_on_storage|exact (fun _ x => x)|].
  - unfold wp, state_get. pose proof (storage_get_wp CHUNK_COUNT_KEY (do_state st)) as Hg.
    assert (forall s', caches (do_report_id_chunk_key_count (with_storage st s')) n) as Hcs.
    { intros s' w Hw. simpl in Hw. congruence. }
    destruct (storage_get CHUNK_COUNT_KEY (do_state st)) as [[v|e|] s']; [| |done];
      destruct Hg as [Hs Hv].
    + rewrite Hv in Hst. destruct Hst as [[= ->]|[[=] _]]. by rewrite js_u8_to.
    + case_decide as He; [|by split]. rewrite (Hv He) in Hst. destruct Hst as [[=]|[_ ->]]. done.
  - intros v t [Hv Ht]. apply wp_set, wp_ret. split; [done|]. split; [done|]. by intros w [= <-].
Qed.

Lemma coherent_count st t a n :
  count_frame st t -> stored (contents (do_state st)) n a -> caches (do_report_id_chunk_key_count t) n ->
  caches (do_report_ids st) (b_ids a) -> caches (do_agg_share st) (b_share a) ->
  caches (do_collected st) (b_collected a) -> coherent t a.
Proof.
  intros (F1 & F2 & F3 & F4) Hst Hc C1 C2 C3. exists n. unfold same in F1.
  by rewrite F1, F2, F3, F4.
Qed.

Lemma load_ids_wp st a :
  coherent st a ->
  wp load_aggregated_report_ids (fun ids t => ids = b_ids a /\ coherent t a) (fun t => coherent t a) st.
Proof.
  intros H. unfold load_aggregated_report_ids. apply wp_get.
  destruct (do_report_ids st) as [ids|] eqn:Hids.
  { apply wp_ret. split; [|done]. destruct H as (n & _ & Hc & _). by apply Hc. }
  destruct H as (n & Hst & C1 & C2 & C3 & C4). unfold cold_load_aggregated_report_ids.
  pose proof (st_ids _ _ _ Hst) as Hsi.
  eapply wp_seq; [apply (reports_keys_wp st n); [apply Hsi|done]| |].
  { intros t [Ht Hc]. by eapply coherent_count. }
  intros ks t (-> & Ht & Hc). pose proof (coherent_count _ _ _ _ Ht Hst Hc C1 C2 C3) as Hco.
  eapply wp_seq with (R := fun m t => m = filter (fun kv => kv.1 ∈ report_keys n) (contents (do_state st)) /\
      coherent t a); [apply wp_on_storage|exact (fun _ x => x)|].
  { destruct Ht as (F1 & _). unfold same in F1.
    eapply wp_mono; [apply get_multiple_wp| |].
    - intros m s [Hs ->]. split; [by rewrite F1|by apply coherent_storage].
    - intros s Hs. by apply coherent_storage. }
  intros m t' [-> (n' & Hst' & C1' & C2' & C3' & C4')].
  eapply wp_lift; [by apply parse_report_ids_ok|]. apply wp_set, wp_ret. split; [done|].
  exists n'. repeat split; try apply Hst'; try done. by intros w [= <-].
Qed.

(** Loading the IDs keeps the flag in memory. *)
Definition keeps_flag {A} (m : stm AggregateStoreDO WorkerError A) : Prop :=
  forall st, do_collected (m st).2 = do_collected st.

Lemma keeps_memory_bind {A B} (m : stm AggregateStoreDO WorkerError A) (f : A -> stm AggregateStoreDO WorkerError B) :
  keeps_flag m -> (forall a, keeps_flag (f a)) -> keeps_flag (m ≫= f).
Proof.
  intros Hm Hf st. specialize (Hm st). unfold mbind, stm_bind.
  destruct (m st) as [[a|e|] t]; cbn in Hm; [|done..]. by rewrite Hf.
Qed.

Lemma keeps_on_storage {A} (m : stm storage WorkerError A) : keeps_flag (on_storage m).
Proof. intros st. unfold on_storage. by destruct (m (do_state st)). Qed.

Lemma load_ids_collected : keeps_flag load_aggregated_report_ids.
Proof.
  assert (keeps_flag aggregated_reports_keys) as Hk.
  { intros st. unfold aggregated_reports_keys. revert st.
    apply (keeps_memory_bind get_state); [done|]. intros self. apply keeps_memory_bind; [|done].
    destruct (do_report_id_chunk_key_count self); [done|].
    apply keeps_memory_bind; [apply keeps_on_storage|]. intros v. by apply keeps_memory_bind. }
  apply (keeps_memory_bind get_state); [done|]. intros self. destruct (do_report_ids self); [done|].
  apply keeps_memory_bind; [done|]. intros keys. apply keeps_memory_bind; [apply keeps_on_storage|].
  intros m. apply keeps_memory_bind; [done|]. intros ids. by apply keeps_memory_bind.
Qed.

Lemma load_ids_memory st a :
  coherent st a ->
  wp load_aggregated_report_ids
    (fun ids t => (ids = b_ids a /\ coherent t a) /\ do_collected t = do_collected st)
    (fun t => coherent t a /\ do_collected t = do_collected st) st.
Proof.
  intros H. pose proof (load_ids_wp st a H) as Hw. unfold wp in *.
  pose proof (load_ids_collected st) as E.
  destruct (load_aggregated_report_ids st) as [r t]. by destruct r.
Qed.

(** ** Recording report IDs *)

(** Only the number of keys has changed in the storage. *)
Definition count_changed (m m' : gmap string JsValue) : Prop :=
  forall k, k <> CHUNK_COUNT_KEY -> m' !! k = m !! k.

Lemma stored_count_changed m m' n n' a :
  count_changed m m' -> stored_count m' n' -> num_chunks (ids_bytes (b_ids a)) <= n' ->
  stored m n a -> stored m' n' a.
Proof.
  intros Hm Hn Hle [(_ & H2 & H3 & _) Hs Hc].
  destruct keys_apart as (_ & _ & K1 & K2). split.
  - split; [done|]. split; [done|]. split; [|done].
    apply (chunked_ext _ _ m); [|done]. intros k Hk. apply Hm. naive_solver.
  - apply (stored_share_ext m); [intros k Hk; apply Hm; naive_solver|by apply Hm|done].
  - unfold stored_collected in *. by rewrite Hm.
Qed.

(** The IDs and the flag the object has in memory are as they were. *)
Definition keeps_memory (st t : AggregateStoreDO) : Prop :=
  do_report_ids t = do_report_ids st /\ do_collected t = do_collected st.

Lemma set_count_wp st n k :
  stored_count (contents (do_state st)) n -> caches (do_report_id_chunk_key_count st) n -> k <= u8_max ->
  wp (set_report_id_chunk_key_count k)
    (fun _ t => count_changed (contents (do_state st)) (contents (do_state t)) /\
       stored_count (contents (do_state t)) k /\ do_report_id_chunk_key_count t = Some k /\
       do_report_ids t = do_report_ids st /\ do_agg_share t = do_agg_share st /\
       do_collected t = do_collected st)
    (fun t => (count_changed (contents (do_state st)) (contents (do_state t)) /\
       (stored_count (contents (do_state t)) n \/ stored_count (contents (do_state t)) k)) /\
       keeps_memory st t) st.
Proof.
  intros Hn Hc Hk. unfold set_report_id_chunk_key_count. apply wp_get.
  case_decide as Heq.
  { apply wp_ret. assert (k = n) as -> by (by apply Hc). by repeat split; try apply Hn. }
  assert (forall m, count_changed m (<[CHUNK_COUNT_KEY := js_u8 k]> m)) as Hch.
  { intros m key Hne. by rewrite lookup_insert_ne. }
  assert (forall m, stored_count (<[CHUNK_COUNT_KEY := js_u8 k]> m) k) as Hst.
  { intros m. split; [done|]. left. apply lookup_insert_eq. }
  eapply wp_seq with (R := fun _ t => contents (do_state t)
      = <[CHUNK_COUNT_KEY := js_u8 k]> (contents (do_state st)) /\
      do_report_ids t = do_report_ids st /\ do_agg_share t = do_agg_share st /\
      do_collected t = do_collected st); [apply wp_on_storage|exact (fun _ x => x)|].
  - unfold wp. destruct (storage_put _ _ _) as [r s'] eqn:E. apply storage_put_law in E.
    destruct r as [u|e|]; simpl in E; [done| |done].
    unfold with_storage. simpl. split; [|done]. destruct E as [E|E]; rewrite E; [|by auto].
    split; [by intros ??|by left].
  - intros _ t (Ht & H1 & H2 & H3). unfold wp, set_chunk_key_count, modify. cbn.
    rewrite Ht, H1, H2, H3. split; [apply Hch|]. by split; [apply Hst|].
Qed.

(** IDs of the right size. *)
Lemma ids_sized (ids ids' : list ReportId) :
  sized 16 ids -> sized 16 ids' -> sized 16 (elements (list_to_set ids ∪ list_to_set ids' : gset ReportId)).
Proof.
  unfold sized. rewrite !Forall_forall. intros H H' id. rewrite elem_of_elements. set_solver.
Qed.

(** More IDs do not take fewer chunks. *)
Lemma num_chunks_ids (ids ids' : gset ReportId) :
  sized 16 (elements ids') -> ids ⊆ ids' -> num_chunks (ids_bytes ids) <= num_chunks (ids_bytes ids').
Proof.
  intros Hs Hsub. assert (sized 16 (elements ids)) as Hs1.
  { unfold sized in *. rewrite Forall_forall in *. intros id. rewrite elem_of_elements.
    intros Hid. apply Hs. apply elem_of_elements. set_solver. }
  unfold num_chunks. apply div_ceil_le; [pose proof max_chunk_pos; lia|].
  unfold len, ids_bytes. rewrite !(sized_length 16) by done.
  pose proof (subseteq_size _ _ Hsub) as H.
  change (length (elements ids) <= length (elements ids'))%nat in H. unfold ReportId in *. lia.
Qed.

(** The object with the IDs [ids'] in it, added to what is stored. *)
Definition ids_object (obj m : gmap string JsValue) (n : N) (ids' : gset ReportId) : Prop :=
  stored_ids (obj ∪ m) n ids' /\ (forall k, k ∉ all_report_keys -> obj !! k = None).

Lemma ids_object_new {E} m n ids ids' :
  stored_ids m n ids -> sized 16 (elements ids') -> ids ⊆ ids' -> n = num_chunks (ids_bytes ids') ->
  exists obj, shard_bytes_to_object (E:=E) (report_keys n) (ids_bytes ids') ∅ = Ok obj /\
    ids_object obj m n ids'.
Proof.
  intros ([Hn Hst] & Hs & Hc & Hle) Hs' Hsub Heq.
  destruct keys_apart as (K0 & _ & K1 & _). pose proof Hn as Hn'. unfold u8_max in Hn'.
  assert (N.to_nat n <= length all_report_keys)%nat as Hlen.
  { unfold all_report_keys, report_keys. rewrite length_fmap, length_seq. lia. }
  destruct (shard_bytes_ok (E:=E) (report_keys n) (ids_bytes ids') ∅) as (obj & Ho & H1 & H2).
  { rewrite report_keys_take by done. by apply (sublist_NoDup _ all_report_keys); [|apply sublist_take]. }
  { unfold report_keys, len. rewrite length_fmap, length_seq. fold (len (ids_bytes ids')).
    fold (num_chunks (ids_bytes ids')). lia. }
  { unfold report_keys, len. rewrite length_fmap, length_seq. lia. }
  fold (num_chunks (ids_bytes ids')) in H1, H2. rewrite <-Heq in H1, H2.
  rewrite report_keys_take, take_take, Nat.min_id in H1, H2 by done.
  assert (forall k, k ∉ take (N.to_nat n) all_report_keys -> obj !! k = None) as Hout.
  { intros k Hk. by rewrite H2, lookup_empty. }
  exists obj. split; [done|]. split; [|intros k Hk; apply Hout; intros Hi; apply Hk; by eapply in_take].
  split; [split; [done|]|split; [done|split; [|lia]]].
  - rewrite lookup_union_r; [done|]. apply Hout. intros Hi%in_take. naive_solver.
  - unfold chunked. fold (num_chunks (ids_bytes ids')). rewrite <-Heq. split; [done|]. split.
    + clear -H1. induction H1 as [|k c ks cs Hk _ IH]; constructor; [by apply lookup_union_Some_l|done].
    + destruct Hc as (_ & _ & Hc). fold (num_chunks (ids_bytes ids)) in Hc.
      assert (NoDup (take (N.to_nat n) all_report_keys ++ drop (N.to_nat n) all_report_keys)) as Hnd
        by by rewrite take_drop.
      apply NoDup_app in Hnd as (_ & Hnd & _). rewrite Forall_forall in *. intros k Hk.
      rewrite lookup_union_r by (apply Hout; intros Hi; by apply (Hnd k)).
      apply Hc. clear -Hk Hle. rewrite <-(Nat.sub_add (N.to_nat (num_chunks (ids_bytes ids))) (N.to_nat n)) in Hk by lia.
      rewrite Nat.add_comm, <-drop_drop in Hk. by eapply in_drop.
Qed.

(** Between the replay check and the write: the bucket is stored, the IDs [ids'] are in memory. *)
Definition between (st : AggregateStoreDO) (n : N) (a : bucket) (ids' : gset ReportId) : Prop :=
  stored (contents (do_state st)) n a /\ caches (do_report_ids st) ids' /\
  caches (do_agg_share st) (b_share a) /\ caches (do_collected st) (b_collected a) /\
  caches (do_report_id_chunk_key_count st) n.

(** The answer of the replay check. *)
Definition replay_answer (repeats : gset ReportId) (report_count : N) : AggregateStoreMergeResp :=
  if N.of_nat (size repeats) =? report_count then MergeResp_Ok else MergeResp_ReplaysDetected repeats.

Lemma check_replays_wp st a reports count :
  coherent st a -> sized 16 reports -> count <= u32_max ->
  (repeat_ids reports (b_ids a) = ∅ ->
   num_chunks (ids_bytes (b_ids a ∪ list_to_set reports)) <= u8_max) ->
  wp (check_replays reports count)
    (fun r t => match r with
      | inl resp => repeat_ids reports (b_ids a) <> ∅ /\
          resp = replay_answer (repeat_ids reports (b_ids a)) count /\ coherent t a
      | inr obj => repeat_ids reports (b_ids a) = ∅ /\ do_collected t = do_collected st /\ exists n,
          between t n a (b_ids a ∪ list_to_set reports) /\
          do_report_ids t = Some (b_ids a ∪ list_to_set reports) /\
          ids_object obj (contents (do_state t)) n (b_ids a ∪ list_to_set reports)
      end)
    (fun t => coherent t a \/ repeat_ids reports (b_ids a) = ∅ /\ recoverable t a /\
       do_report_ids t = Some (b_ids a ∪ list_to_set reports) /\ do_collected t = do_collected st) st.
Proof.
  intros Hco Hr Hcnt Hfit. unfold check_replays.
  eapply wp_seq; [by apply load_ids_memory|intros u [Hu _]; by left|].
  intros ids t [[-> Ht] Hcol]. case_decide as Hrep.
  2:{ rewrite (proj2 (N.ltb_ge _ _)) by done. unfold replay_answer.
      by destruct (_ =? count); apply wp_ret. }
  specialize (Hfit Hrep).
  destruct Ht as (n & Hst & C1 & C2 & C3 & C4). set (ids' := b_ids a ∪ list_to_set reports) in *.
  pose proof (st_ids _ _ _ Hst) as (Hcount & Hs & _ & _).
  assert (sized 16 (elements ids')) as Hs'.
  { unfold ids'. rewrite <-(list_to_set_elements_L (b_ids a)). by apply ids_sized. }
  assert (num_chunks (ids_bytes (b_ids a)) <= num_chunks (ids_bytes ids')) as Hle.
  { apply num_chunks_ids; [done|set_solver]. }
  apply wp_set. eapply wp_lift.
  { unfold number_of_chunks_needed_for. fold (num_chunks (ids_bytes ids')).
    by rewrite (proj2 (N.leb_le _ _)) by done. }
  eapply wp_seq; [by eapply set_count_wp| |].
  { cbn [do_state]. intros u [[Hch Hn] [M1 M2]]. right. split; [done|]. split; [|by rewrite M1, M2].
    destruct Hn as [Hn|Hk].
    - exists n. eapply stored_count_changed; [done|done| |done]. apply Hst.
    - eexists. by eapply stored_count_changed. }
  cbn [do_state do_report_ids do_agg_share do_collected].
  intros [] u (Hch & Hk & Hu & Hui & Hus & Huc).
  assert (stored (contents (do_state u)) (num_chunks (ids_bytes ids')) a) as Hsu
    by by eapply stored_count_changed.
  eapply wp_seq; [eapply reports_keys_wp; [done|rewrite Hu; by intros w [= <-]]| |].
  { intros v [(F & F2 & F3 & _) _]. right. split; [done|].
    split; [exists (num_chunks (ids_bytes ids')); by rewrite F|].
    by rewrite F2, F3, Hui, Huc. }
  intros ks v (-> & (F1 & F2 & F3 & F4) & Hv). unfold same in F1. rewrite <-F1 in Hsu.
  destruct (ids_object_new (E:=WorkerError) _ _ _ ids' (st_ids _ _ _ Hsu) Hs') as (obj & Ho & Hobj);
    [set_solver|done|].
  eapply wp_lift; [done|]. apply wp_ret. split; [done|]. split; [by rewrite F3, Huc|].
  exists (num_chunks (ids_bytes ids')). split; [|split; [by rewrite F2, Hui|done]]. unfold between. rewrite F2, F3, F4, Hui, Hus, Huc.
  split; [done|]. split; [by intros w [= <-]|done].
Qed.

(** ** Merging aggregate shares *)

(** The shape of the data of a bucket does not change. *)
Lemma merge_data_shape d0 y d :
  merge_data (Some d0) y = Ok d ->
  exists d', d = Some d' /\ data_len d' = data_len d0 /\ data_size d' = data_size d0.
Proof.
  intros H. unfold data_size, data_len. destruct y as [y|].
  2:{ destruct d0; injection H as <-; eauto. }
  destruct d0 as [s|s|s], y as [y|y|y]; try discriminate; cbn in H;
    destruct (prio_merge s y) as [z|] eqn:Hz; try discriminate; injection H as <-;
    eexists; (split; [done|]); cbn; by rewrite (prio_merge_length _ _ _ _ Hz).
Qed.

Lemma merge_share_data x y s :
  DapAggregateShare_merge x y = Ok s ->
  merge_data (DapAggregateShare_data x) (DapAggregateShare_data y) = Ok (DapAggregateShare_data s).
Proof.
  unfold DapAggregateShare_merge. intros H. apply bind_Ok in H as (d & Hd & H). rewrite Hd.
  destruct (if _ : bool then _ else _) as [mn mx]. apply bind_Ok in H as (c & _ & [= <-]). done.
Qed.

(** A share the object can store. *)
Definition share_fits (s : DapAggregateShare) : Prop :=
  meta_safe (from_agg_share s) /\
  match DapAggregateShare_data s with
  | Some d => (0 < data_len d)%nat /\ data_size d <= MAX_AGG_SHARE_CHUNK_KEY_COUNT * MAX_CHUNK_SIZE
  | None => True
  end.

(** The chunks of the new share replace those of the old one. *)
Lemma data_object m obj s s' y d :
  stored_share m s -> DapAggregateShare_merge s y = Ok s' -> share_fits s' ->
  (forall k, k ∉ all_report_keys -> obj !! k = None) -> DapAggregateShare_data s' = Some d ->
  exists bs obj', get_encoded agg_share_encode d = Ok bs /\
    shard_bytes_to_object (E:=WorkerError) agg_share_shard_keys bs obj = Ok obj' /\
    stored_data (obj' ∪ m) (Some d) /\
    (forall k, k ∉ agg_share_shard_keys -> obj' !! k = obj !! k).
Proof.
  intros [Hst _] Hm [_ Hfit] Hobj Hd. rewrite Hd in Hfit. destruct Hfit as [Hpos Hsize].
  destruct keys_apart as (_ & K2 & K1 & _).
  destruct (data_encoded d) as [bs Hw]. exists bs. pose proof (data_size_len _ _ Hw) as Hlen.
  assert (div_ceil (len bs) MAX_CHUNK_SIZE <= 8) as Hn.
  { pose proof max_chunk_pos. destruct (div_ceil_spec (len bs) MAX_CHUNK_SIZE) as [_ H']; [lia|].
    unfold MAX_AGG_SHARE_CHUNK_KEY_COUNT in Hsize. rewrite <-Hlen in Hsize. nia. }
  destruct (shard_bytes_ok (E:=WorkerError) agg_share_shard_keys bs obj K2) as (obj' & Ho & H1 & H2);
    [done|by vm_compute|].
  fold (num_chunks bs) in *.
  assert (forall k, k ∈ agg_share_shard_keys -> obj !! k = None) as Hnone.
  { intros k Hk. apply Hobj. intros Hi. by destruct (K1 k Hi). }
  exists obj'. split; [by rewrite get_encoded_spec, (Hw [])|]. split; [done|].
  split; [|intros k Hk; apply H2; intros Hi; apply Hk; by eapply in_take].
  split; [done|]. exists bs. split; [done|]. unfold chunked. fold (num_chunks bs).
  split; [change (length agg_share_shard_keys) with 8%nat; lia|]. split.
  { clear -H1. induction H1 as [|k c ks cs Hk _ IH]; constructor; [by apply lookup_union_Some_l|done]. }
  (* the keys behind the chunks *)
  assert (forall k, k ∈ drop (N.to_nat (num_chunks bs)) agg_share_shard_keys -> m !! k = None) as Hold.
  { apply merge_share_data in Hm. rewrite Hd in Hm.
    destruct (DapAggregateShare_data s) as [d0|]; simpl in Hst.
    - destruct Hst as (_ & bs0 & Hw0 & _ & _ & Hc). destruct (merge_data_shape _ _ _ Hm) as (d' & [= <-] & _ & Hsz).
      rewrite Forall_forall in Hc. unfold num_chunks. rewrite Hlen, Hsz, <-(data_size_len _ _ Hw0). done.
    - rewrite Forall_forall in Hst. intros k Hk. apply Hst. by eapply in_drop. }
  assert (NoDup (take (N.to_nat (num_chunks bs)) agg_share_shard_keys
    ++ drop (N.to_nat (num_chunks bs)) agg_share_shard_keys)) as Hnd by by rewrite take_drop.
  apply NoDup_app in Hnd as (_ & Hnd & _). apply Forall_forall. intros k Hk.
  rewrite lookup_union_r; [by apply Hold|]. rewrite H2 by (intros Hi; by apply (Hnd k)).
  apply Hnone. by eapply in_drop.
Qed.

(** The object a merge writes. *)
Lemma write_object_ok m n a obj ids' y s' :
  stored m n a -> DapAggregateShare_merge (b_share a) y = Ok s' -> share_fits s' ->
  ids_object obj m n ids' ->
  exists obj' v, write_object s' obj = Ok obj' /\ js_meta (from_agg_share s') = Some v /\
    stored (<[METADATA_KEY := v]> obj' ∪ m) n (MkBucket ids' s' (b_collected a)).
Proof.
  intros [_ Hsh Hcol] Hm Hfit [Hids Hobj]. destruct keys_apart as (_ & _ & K1 & K2).
  assert (exists obj', write_object s' obj = Ok obj' /\
    stored_data (obj' ∪ m) (DapAggregateShare_data s') /\
    (forall k, k ∉ agg_share_shard_keys -> obj' !! k = obj !! k)) as (obj' & Ho & Hdata & Hout).
  { unfold write_object. destruct (DapAggregateShare_data s') as [d|] eqn:Hd.
    - destruct (data_object _ _ _ _ _ _ Hsh Hm Hfit Hobj Hd) as (bs & obj' & -> & Ho & Hdata & Hout).
      by exists obj'.
    - exists obj. split; [done|]. split; [|done]. apply merge_share_data in Hm. rewrite Hd in Hm.
      destruct Hsh as [Hsd _]. destruct (DapAggregateShare_data (b_share a)) as [d0|].
      { by destruct (merge_data_shape _ _ _ Hm) as (? & ? & _). }
      simpl in *. rewrite Forall_forall in *. intros k Hk. rewrite lookup_union_r; [by apply Hsd|].
      apply Hobj. intros Hi. by destruct (K1 k Hi). }
  destruct (js_meta_safe _ (proj1 Hfit)) as [v Hv]. exists obj', v. split; [done|]. split; [done|].
  assert (forall k, k <> METADATA_KEY -> k ∉ agg_share_shard_keys ->
    (<[METADATA_KEY := v]> obj' ∪ m) !! k = (obj ∪ m) !! k) as Hsame.
  { intros k Hk Hk'. rewrite !lookup_union, lookup_insert_ne by done. by rewrite Hout. }
  split.
  - cbn [b_ids]. eapply stored_ids_ext; [| |exact Hids].
    + intros k Hk. destruct (K1 k Hk) as (? & ? & _). by apply Hsame.
    + apply Hsame; [done|]. intros Hi. by destruct (K2 _ Hi) as (_ & _ & ?).
  - cbn [b_share]. split; [|right; exists v; split; [done|]].
    + eapply stored_data_ext; [|exact Hdata]. intros k Hk.
      rewrite !lookup_union, lookup_insert_ne; [done|]. intros <-. by destruct (K2 _ Hk).
    + rewrite lookup_union, lookup_insert_eq. by destruct (m !! METADATA_KEY).
  - cbn [b_collected]. unfold stored_collected in *. rewrite Hsame.
    + rewrite lookup_union_r; [done|]. apply Hobj. intros Hi. by destruct (K1 _ Hi) as (_ & _ & ? & _).
    + done.
    + intros Hi. by destruct (K2 _ Hi) as (_ & ? & _).
Qed.

(** The request is neither refused nor a repetition. *)
Definition merges (a : bucket) (req : AggregateStoreMergeReq) : Prop :=
  b_collected a = false /\
  (merge_skip_replay_protection req = true \/
   repeat_ids (merge_contained_reports req) (b_ids a) = ∅).

Definition merge_fits (a : bucket) (req : AggregateStoreMergeReq) : Prop :=
  sized 16 (merge_contained_reports req) /\
  DapAggregateShare_report_count (merge_agg_share_delta req) <= u32_max /\
  (merges a req -> num_chunks (ids_bytes (merge_ids req (b_ids a))) <= u8_max /\
     match DapAggregateShare_merge (b_share a) (merge_agg_share_delta req) with
     | Ok s => share_fits s
     | Err _ => True
     | Panic => False
     end).

(** The request stays within what the object has keys for. *)
Definition fits (a : bucket) (req : store_request) : Prop :=
  match req with Merge req => merge_fits a req | _ => True end.

Lemma put_multiple_wp m s (Q : unit -> storage -> Prop) (E : storage -> Prop) :
  (forall s', contents s' = contents s -> E s') ->
  (forall s', contents s' = m ∪ contents s -> Q tt s' /\ E s') ->
  wp (storage_put_multiple m) Q E s.
Proof.
  intros H1 H2. unfold wp. destruct (storage_put_multiple m s) as [r s'] eqn:H.
  apply storage_put_multiple_law in H. destruct r as [[]|e|]; simpl in H; [by apply H2| |done].
  destruct H as [H|H]; [by apply H1|by apply H2].
Qed.

Lemma merge_and_write_wp st n a ids' delta obj :
  between st n a ids' -> b_collected a = false -> ids_object obj (contents (do_state st)) n ids' ->
  match DapAggregateShare_merge (b_share a) delta with
  | Ok s => share_fits s | Err _ => True | Panic => False end ->
  wp (merge_and_write delta obj)
    (fun _ t => exists s, DapAggregateShare_merge (b_share a) delta = Ok s /\
       coherent t (MkBucket ids' s false))
    (fun t => (recoverable t a \/ exists s, DapAggregateShare_merge (b_share a) delta = Ok s /\
       recoverable t (MkBucket ids' s false)) /\ keeps_memory st t) st.
Proof.
  intros (Hst & C1 & C2 & C3 & C4) Hcol Hobj Hfit. unfold merge_and_write.
  eapply wp_seq; [by apply get_agg_share_wp; [apply Hst|]| |].
  { intros t [(F & F2 & F3 & _) _]. split; [|done]. left. exists n. by rewrite F. }
  intros s t (-> & (F1 & F2 & F3 & F4) & C2'). unfold same in F1. rewrite <-F1 in Hst, Hobj.
  destruct (DapAggregateShare_merge (b_share a) delta) as [s'|e|] eqn:Hm; [| |done].
  2:{ unfold wp, lift, mbind, stm_bind. cbn [map_err]. split; [|done]. left. by exists n. }
  eapply wp_lift; [done|]. apply wp_set.
  destruct (write_object_ok _ _ _ _ _ _ _ Hst Hm Hfit Hobj) as (obj' & v & Ho & Hv & Hnew).
  rewrite Hcol in Hnew. eapply wp_lift; [done|]. eapply wp_lift; [by rewrite Hv|].
  apply wp_on_storage. cbn [do_state]. apply put_multiple_wp.
  - intros s1 Hs1. split; [|done]. left. exists n. simpl. by rewrite Hs1.
  - intros s1 Hs1. split.
    + exists s'. split; [done|]. exists n. cbn. rewrite Hs1. split; [done|].
      rewrite F2, F3, F4. rewrite <-Hcol. split; [done|]. split; [by intros w [= <-]|done].
    + split; [|done]. right. exists s'. split; [done|]. exists n. simpl. by rewrite Hs1.
Qed.

(** The object that skips the replay check adds no IDs. *)
Lemma ids_object_empty m n ids : stored_ids m n ids -> ids_object ∅ m n ids.
Proof. intros H. split; [by rewrite map_empty_union|]. intros k _. apply lookup_empty. Qed.

(** What a request may leave behind when it fails. *)
Definition undecided (a : bucket) (req : store_request) (t : AggregateStoreDO) : Prop :=
  recoverable t a \/ exists resp a', spec_step a req = Some (resp, a') /\ recoverable t a'.

Lemma handle_merge_wp st a req :
  coherent st a -> merge_fits a req ->
  wp (handle_merge req)
    (fun r t => exists a', spec_merge a req = Some (r, a') /\ coherent t a')
    (undecided a (Merge req)) st.
Proof.
  intros Hco (Hs & Hcnt & Hfit). unfold handle_merge, undecided, spec_step, spec_merge.
  eapply wp_seq; [by apply is_collected_wp| |].
  { intros t Ht. left. by apply coherent_recoverable. }
  intros b t [-> Ht]. unfold merges in Hfit. destruct (b_collected a) eqn:Hcol; [apply wp_ret; by exists a|].
  unfold merge_ids in *. destruct (merge_skip_replay_protection req); cbn [negb orb].
  - apply wp_bind, wp_ret. destruct Ht as (n & Hst & C).
    destruct Hfit as [_ Hfit]; [by split; [|left]|].
    eapply wp_seq; [eapply merge_and_write_wp; [by split|done|by apply ids_object_empty, Hst|done]| |].
    + intros u [[Hu|(s & -> & Hu)] _]; [by left|right]. eauto.
    + intros [] u (s & -> & Hu). apply wp_ret. eauto.
  - eapply wp_seq; [apply check_replays_wp; [done|done|done|]| |].
    2:{ intros u [Hu|(_ & Hu & _)]; left; [by apply coherent_recoverable|done]. }
    { intros He. by apply Hfit; split; [|right]. }
    intros [resp|obj] u.
    + intros (Hne & -> & Hu). apply wp_ret. rewrite bool_decide_false by done. unfold replay_answer.
      destruct (_ =? _); eauto.
    + intros (He & _ & n & Hb & _ & Hobj). rewrite bool_decide_true by done.
      destruct Hfit as [_ Hfit]; [by split; [|right]|].
      eapply wp_seq; [by eapply merge_and_write_wp| |].
      * intros v [[Hv|(s & -> & Hv)] _]; [by left|right]. eauto.
      * intros [] v (s & -> & Hv). apply wp_ret. eauto.
Qed.

(** A merge has failed, and the object is still in memory: it knows the IDs of the request, and
    its storage has the bucket as it was or as it was to be. *)
Definition unsaved (a : bucket) (req : AggregateStoreMergeReq) (t : AggregateStoreDO) : Prop :=
  undecided a (Merge req) t /\ do_collected t = Some false /\
  do_report_ids t = Some (b_ids a ∪ list_to_set (merge_contained_reports req)).

Lemma is_collected_sets st b t : is_collected st = (Ok b, t) -> do_collected t = Some b.
Proof.
  unfold is_collected, mbind, stm_bind, get_state. cbn [fst snd].
  destruct (do_collected st) eqn:E; [by intros [= <- <-]|].
  destruct (on_storage _ st) as [[v|e|] t']; [|done..]. by intros [= <- <-].
Qed.

(** What a failed merge with replay protection leaves in memory. *)
Lemma handle_merge_failed st a req :
  coherent st a -> merge_fits a req -> merge_skip_replay_protection req = false -> b_collected a = false ->
  wp (handle_merge req) (fun _ _ => True)
    (fun t => coherent t a \/
       repeat_ids (merge_contained_reports req) (b_ids a) = ∅ /\ unsaved a req t) st.
Proof.
  intros Hco (Hs & Hcnt & Hfit) Hskip Hcol. unfold handle_merge.
  eapply wp_seq with (R := fun b t => (b = b_collected a /\ coherent t a) /\ do_collected t = Some b).
  { pose proof (is_collected_wp st a Hco) as H. unfold wp in *.
    destruct (is_collected st) as [[b|e|] t] eqn:E; [|exact H|done].
    split; [done|]. by apply is_collected_sets in E. }
  { by left. }
  intros b t [[-> Ht] Hflag]. rewrite Hcol in *. rewrite Hskip. cbn [negb].
  assert (repeat_ids (merge_contained_reports req) (b_ids a) = ∅ -> merges a req) as Hm by (by split; [|right]).
  unfold merge_ids in Hfit. rewrite Hskip in Hfit.
  eapply wp_seq; [apply check_replays_wp; [done|done|done|]| |].
  { intros He. by apply Hfit, Hm. }
  { intros u [Hu|(He & Hu & Hi & Hf)]; [by left|right]. split; [done|]. split; [by left|].
    by rewrite Hf, Hflag. }
  intros [resp|obj] u; [by intros _; apply wp_ret|].
  intros (He & Hf & n & Hb & Hi & Hobj).
  eapply wp_seq; [eapply merge_and_write_wp; [done|done|done|by apply Hfit, Hm]| |by intros [] v _; apply wp_ret].
  intros v [Hv [M1 M2]]. right. split; [done|]. split; [|by rewrite M1, M2, Hi, Hf, Hflag].
  destruct Hv as [Hv|(s & Hs' & Hv)]; [by left|right].
  exists (Resp_Merge MergeResp_Ok), (MkBucket (b_ids a ∪ list_to_set (merge_contained_reports req)) s false).
  split; [|done]. cbn [spec_step]. unfold spec_merge, merge_ids.
  by rewrite Hcol, Hskip, Hs', bool_decide_true by done.
Qed.

(** The merge again, on that object: it is acknowledged, and nothing is written. *)
Lemma handle_merge_unsaved a req t :
  unsaved a req t -> merge_skip_replay_protection req = false ->
  merge_contained_reports req <> [] -> NoDup (merge_contained_reports req) ->
  DapAggregateShare_report_count (merge_agg_share_delta req) = len (merge_contained_reports req) ->
  len (merge_contained_reports req) <= u32_max ->
  handle_merge req t = (Ok MergeResp_Ok, t).
Proof.
  intros (_ & Hf & Hi) Hskip Hne Hnd Hcnt Hmax.
  set (ids := merge_contained_reports req) in *.
  assert (repeat_ids ids (b_ids a ∪ list_to_set ids) = list_to_set ids) as Hrep.
  { apply set_eq. intros id. unfold repeat_ids.
    rewrite !elem_of_list_to_set, list_elem_of_filter, elem_of_union, elem_of_list_to_set. tauto. }
  unfold handle_merge, is_collected, check_replays, load_aggregated_report_ids, mbind, stm_bind, get_state.
  cbn [fst snd]. rewrite Hf. cbn. rewrite Hskip. cbn [negb]. rewrite Hi. cbn.
  fold ids. rewrite Hrep, Hcnt. rewrite decide_False.
  2:{ destruct ids as [|id ids']; [done|]. intros H. assert (id ∈ (∅ : gset ReportId)) as []%not_elem_of_empty.
      rewrite <-H. set_solver. }
  rewrite (proj2 (N.ltb_ge _ _)) by done. rewrite size_list_to_set by done. unfold len.
  by rewrite N.eqb_refl.
Qed.

Lemma unsaved_storage a req t s :
  contents s = contents (do_state t) -> unsaved a req t -> unsaved a req (with_storage t s).
Proof.
  intros Hs (Hu & H). split; [|done]. unfold undecided, recoverable in *. cbn. by rewrite Hs.
Qed.

(** ** Every request *)
Lemma put_wp k v s (Q : unit -> storage -> Prop) (E : storage -> Prop) :
  (forall s', contents s' = contents s -> E s') ->
  (forall s', contents s' = <[k := v]> (contents s) -> Q tt s' /\ E s') ->
  wp (storage_put k v) Q E s.
Proof.
  intros H1 H2. unfold wp. destruct (storage_put k v s) as [r s'] eqn:H.
  apply storage_put_law in H. destruct r as [[]|e|]; simpl in H; [by apply H2| |done].
  destruct H as [H|H]; [by apply H1|by apply H2].
Qed.

Lemma stored_mark m n a :
  stored m n a ->
  stored (<[COLLECTED_KEY := js_bool true]> m) n (MkBucket (b_ids a) (b_share a) true).
Proof.
  intros [Hi Hs _]. destruct keys_apart as (_ & _ & K1 & K2).
  assert (forall k, k <> COLLECTED_KEY -> <[COLLECTED_KEY := js_bool true]> m !! k = m !! k) as Hk.
  { intros k Hk. by rewrite lookup_insert_ne. }
  split; cbn [b_ids b_share b_collected].
  - apply (stored_ids_ext m); [intros k H; apply Hk; naive_solver|by apply Hk|done].
  - apply (stored_share_ext m); [intros k H; apply Hk; naive_solver|by apply Hk|done].
  - right. apply lookup_insert_eq.
Qed.

Lemma handle_wp st a req :
  coherent st a -> fits a req ->
  wp (handle req) (fun resp t => exists a', spec_step a req = Some (resp, a') /\ coherent t a')
    (undecided a req) st.
Proof.
  intros Hco Hfit. unfold handle, spec_step. destruct req as [| |req| |].
  - eapply wp_seq; [by apply load_ids_wp|intros t Ht; left; by apply coherent_recoverable|].
    intros ids t [-> Ht]. apply wp_ret. eauto.
  - pose proof Hco as (n & Hst & C1 & C2 & C3 & C4).
    eapply wp_seq; [by apply get_agg_share_wp; [apply Hst|]| |].
    + intros t [(F & _) _]. left. exists n. by rewrite F.
    + intros s t (-> & (F1 & F2 & F3 & F4) & Hc). apply wp_ret. exists a. split; [done|].
      exists n. unfold same in F1. by rewrite F1, F2, F3, F4.
  - eapply wp_seq; [by apply handle_merge_wp|done|].
    intros r t (a' & Ha & Ht). apply wp_ret. exists a'. by rewrite Ha.
  - destruct Hco as (n & Hst & C1 & C2 & C3 & C4).
    eapply wp_seq with (R := fun _ t => contents (do_state t)
        = <[COLLECTED_KEY := js_bool true]> (contents (do_state st)) /\
        do_report_ids t = do_report_ids st /\ do_agg_share t = do_agg_share st /\
        do_report_id_chunk_key_count t = do_report_id_chunk_key_count st);
      [apply wp_on_storage, put_wp|exact (fun _ x => x)|].
    + intros s' Hs. left. exists n. simpl. by rewrite Hs.
    + intros s' Hs. split; [by rewrite <-Hs|]. right. do 2 eexists. split; [done|].
      exists n. simpl. rewrite Hs. by apply stored_mark.
    + intros [] t (Ht & H1 & H2 & H3). apply wp_set, wp_ret. eexists. split; [done|].
      exists n. cbn. rewrite Ht, H1, H2, H3. split; [by apply stored_mark|].
      repeat split; try done. by intros w [= <-].
  - eapply wp_seq; [by apply is_collected_wp|intros t Ht; left; by apply coherent_recoverable|].
    intros b t [-> Ht]. apply wp_ret. eauto.
Qed.

Lemma fetch_wp st a req :
  coherent st a -> fits a req ->
  wp (fetch req) (fun resp t => exists a', spec_step a req = Some (resp, a') /\ coherent t a')
    (undecided a req) st.
Proof.
  intros Hco Hfit. unfold fetch.
  eapply wp_seq with (R := fun _ t => coherent t a) (E' := fun t => coherent t a);
    [apply wp_on_storage|intros t Ht; left; by apply coherent_recoverable|by intros _ t Ht; apply handle_wp].
  unfold wp. destruct (storage_set_alarm (do_state st)) as [r s'] eqn:H.
  apply storage_set_alarm_law in H as [H Hp]. destruct r; [| |done]; by apply coherent_storage.
Qed.

(** A new object finds an empty bucket. *)
Lemma empty_coherent s : contents s = ∅ -> coherent (with_state s) empty_bucket.
Proof.
  intros H. apply (recoverable_restart (with_state s)). exists DEFAULT_REPORT_ID_CHUNK_KEY_COUNT.
  simpl. rewrite H. split.
  - split; [by split; [|right]|]. split; [constructor|]. split; [|by vm_compute].
    split; [vm_compute; lia|]. split; [constructor|].
    apply Forall_forall. intros k _. apply lookup_empty.
  - split; [apply Forall_forall; intros k _; apply lookup_empty|left; by rewrite lookup_empty].
  - left. by rewrite lookup_empty.
Qed.

(** The bucket an object implements is determined by its storage. *)
Lemma stored_count_unique m n n' : stored_count m n -> stored_count m n' -> n = n'.
Proof.
  intros [Hn H] [Hn' H']. destruct H as [H|[H ->]], H' as [H'|[H' ->]]; rewrite H in H'; try done.
  injection H' as H'. apply (f_equal js_to_u8) in H'. rewrite !js_u8_to in H' by done. by injection H'.
Qed.

Lemma coherent_unique st a b : coherent st a -> coherent st b -> a = b.
Proof.
  intros (n & [(Hn & Ha) Hs Hc] & _) (n' & [(Hn' & Ha') Hs' Hc'] & _).
  pose proof (stored_count_unique _ _ _ Hn Hn') as <-.
  pose proof (parse_report_ids_ok _ _ _ (conj Hn Ha)) as H1.
  rewrite (parse_report_ids_ok _ _ _ (conj Hn' Ha')) in H1. injection H1 as H1.
  apply parse_agg_share_ok in Hs. rewrite (parse_agg_share_ok _ _ Hs') in Hs. injection Hs as H2.
  assert (b_collected a = b_collected b) as H3.
  { destruct Hc as [[Hc ->]|Hc], Hc' as [[Hc' ->]|Hc']; rewrite Hc in Hc'; try done.
    injection Hc' as Hc'. apply (f_equal js_to_bool) in Hc'. rewrite !js_bool_to in Hc'. by injection Hc'. }
  destruct a, b. cbn in *. congruence.
Qed.
End Bucket.
