(* ===== verification/DurableRun.v ===== *)
(** * Runs of the durable object of a bucket

    What the object guarantees to the service: each request does what the bucket does
    ([durable_object_refines]); over a life with failures, evictions and restarts the bucket
    counts every report once ([object_counts_once]); and what goes wrong when a request is
    repeated on an object that failed and was not restarted ([failed_write_acknowledged]). *)

From S2P Require Import Prelude Codec Messages TaskprovMessages Errors Config AggShare.
From S2P Require Import DurableStore DurableChunks DurableStoreCorrect.

Section Runs.
Context `{BP : BuildProfile} `{PC : PrioCodec} {PL : PrioCodecLaws PC}.
Context `{PA : PrioAgg} {PAL : PrioAggLaws PA} `{PV : !PrioVec} {VL : PrioVecLaws PV}.
Context `{DS : DurableStorage} {DL : DurableStorageLaws DS} `{Dg : Digest} {DgL : DigestLaws Dg}.

(** C6: The durable object of a bucket implements the bucket.  When it is in step with a
    bucket and a request fits its keys, then [fetch] does not panic; if it answers, the
    answer and the state are those of the bucket; if it fails, an instance of the object
    started on the storage it left behind is in step with the bucket as it was before the
    request or as it is after it, and with nothing in between. *)
Theorem durable_object_refines (st : AggregateStoreDO) (a : bucket) (req : store_request) :
  coherent st a -> fits a req ->
  match fetch req st with
  | (Ok resp, st') => exists a', spec_step a req = Some (resp, a') /\ coherent st' a'
  | (Err _, st') =>
      coherent (restart st') a \/
      exists resp a', spec_step a req = Some (resp, a') /\ coherent (restart st') a'
  | (Panic, _) => False
  end.
Proof.
  intros Hco Hfit. pose proof (fetch_wp st a req Hco Hfit) as H. unfold wp in H.
  destruct (fetch req st) as [[resp|e|] st']; [done| |done].
  destruct H as [H|(resp & a' & Ha & H)]; [left|right; exists resp, a'; split; [done|]];
    by apply recoverable_restart.
Qed.

(** ** Every report once *)

(** The request to merge the output shares [items]. *)
Definition merge_of (items : list out_share) (req : store_request) : Prop :=
  match req with
  | Merge req =>
      represents (merge_agg_share_delta req) items /\
      merge_contained_reports req = out_id <$> items /\
      NoDup (out_id <$> items) /\ merge_skip_replay_protection req = false
  | _ => items = []
  end.

(** The bucket holds the share of [l], each report of it once. *)
Definition holds (a : bucket) (l : list out_share) : Prop :=
  represents (b_share a) l /\ NoDup (out_id <$> l) /\ b_ids a = list_to_set (out_id <$> l).

(** The IDs whose merge was acknowledged. *)
Definition acknowledges (resp : store_response) (items : list out_share) : list ReportId :=
  match resp with Resp_Merge MergeResp_Ok => out_id <$> items | _ => [] end.

(** The life of an object: requests that are answered, requests that fail, after which
    the object is started anew, and evictions.  [sub] are the output shares submitted so far,
    [ack] the IDs of the reports whose merge was acknowledged. *)
Inductive object_run : AggregateStoreDO -> list out_share -> list ReportId -> Prop :=
| run_start s : contents s = ∅ -> object_run (with_state s) [] []
| run_answered st sub ack req items resp st' :
    object_run st sub ack -> merge_of items req ->
    len (sub ++ items) <= u64_max -> (forall a, coherent st a -> fits a req) ->
    fetch req st = (Ok resp, st') ->
    object_run st' (sub ++ items) (ack ++ acknowledges resp items)
| run_failed st sub ack req items e st' :
    object_run st sub ack -> merge_of items req ->
    len (sub ++ items) <= u64_max -> (forall a, coherent st a -> fits a req) ->
    fetch req st = (Err e, st') -> object_run (restart st') (sub ++ items) ack
| run_evicted st sub ack : object_run st sub ack -> object_run (restart st) sub ack.

Lemma repeat_ids_spec (ids : list ReportId) (merged : gset ReportId) id :
  id ∈ repeat_ids ids merged <-> id ∈ ids /\ id ∈ merged.
Proof. unfold repeat_ids. rewrite elem_of_list_to_set, list_elem_of_filter. tauto. Qed.

(** A repetition of as many IDs as the request has is one of all of them. *)
Lemma all_repeated (ids : list ReportId) (merged : gset ReportId) :
  NoDup ids -> N.of_nat (size (repeat_ids ids merged)) = len ids -> forall id, id ∈ ids -> id ∈ merged.
Proof.
  intros Hnd Hsz id Hid.
  assert (repeat_ids ids merged ≡ list_to_set ids) as Heq.
  { apply set_subseteq_size_equiv.
    - intros x [Hx _]%repeat_ids_spec. by apply elem_of_list_to_set.
    - rewrite size_list_to_set by done. unfold len in Hsz. lia. }
  assert (id ∈ repeat_ids ids merged) as [_ H]%repeat_ids_spec; [|done].
  rewrite Heq. by apply elem_of_list_to_set.
Qed.

(** A step of the bucket keeps its reports and may add those of the request. *)
Lemma step_holds a req items resp a' l :
  merge_of items req -> holds a l -> len (l ++ items) <= u64_max ->
  spec_step a req = Some (resp, a') ->
  exists l', holds a' l' /\ (l' = l \/ l' = l ++ items) /\
    forall id, id ∈ acknowledges resp items -> id ∈ out_id <$> l'.
Proof.
  intros Hm (H1 & H2 & H3) Hmax. destruct req as [| |req| |]; cbn [spec_step];
    try (intros [= <- <-]; exists l; split_and!; [done..|by left|by intros id ?%not_elem_of_nil]).
  destruct Hm as (Hd & Hids & Hnd & Hskip). unfold spec_merge. rewrite Hskip. cbn [orb].
  destruct (b_collected a) eqn:Hcol.
  { intros [= <- <-]. exists l. split_and!; [done..|by left|by intros id ?%not_elem_of_nil]. }
  case_bool_decide as Hrep.
  - destruct (DapAggregateShare_merge _ _) as [s| |] eqn:Hs; [|done..]. intros [= <- <-].
    exists (l ++ items). unfold len in Hmax. rewrite length_app in Hmax. split; [|split; [by right|]].
    + split; [|split].
      * eapply merge_Ok_represents; [exact H1|exact Hd| |exact Hs]. unfold len. lia.
      * rewrite fmap_app. apply NoDup_app. split; [done|]. split; [|done]. intros id Hl Hi.
        assert (id ∈ (∅ : gset ReportId)) as []%not_elem_of_empty.
        rewrite <-Hrep. apply repeat_ids_spec. rewrite Hids, H3. split; [done|].
        by apply elem_of_list_to_set.
      * cbn [b_ids]. unfold merge_ids. by rewrite Hskip, H3, Hids, fmap_app, list_to_set_app_L.
    + intros id Hid. rewrite fmap_app. apply elem_of_app. by right.
  - destruct (N.eqb_spec (N.of_nat (size (repeat_ids (merge_contained_reports req) (b_ids a))))
      (DapAggregateShare_report_count (merge_agg_share_delta req))) as [Hsz|_];
      intros [= <- <-]; exists l; (split; [done|]); (split; [by left|]); [|by intros id ?%not_elem_of_nil].
    intros id Hid. cbn [acknowledges] in Hid. rewrite Hids, (rep_count _ _ Hd) in Hsz.
    assert (id ∈ b_ids a) as Hin.
    { apply (all_repeated (out_id <$> items)); [done| |done]. rewrite Hsz. unfold len.
      by rewrite length_fmap. }
    rewrite H3 in Hin. by apply elem_of_list_to_set in Hin.
Qed.

(** What is true of an object after a run. *)
Definition run_inv (st : AggregateStoreDO) (sub : list out_share) (ack : list ReportId) : Prop :=
  exists a l, coherent st a /\ holds a l /\ l `sublist_of` sub /\
    forall id, id ∈ ack -> id ∈ out_id <$> l.

Lemma run_inv_step sub ack req items a l resp a' st' :
  merge_of items req -> len (sub ++ items) <= u64_max ->
  holds a l -> l `sublist_of` sub -> (forall id, id ∈ ack -> id ∈ out_id <$> l) ->
  spec_step a req = Some (resp, a') -> coherent st' a' ->
  run_inv st' (sub ++ items) (ack ++ acknowledges resp items).
Proof.
  intros Hm Hmax Hh Hsub Hack Hstep Hco.
  destruct (step_holds a req items resp a' l Hm Hh) as (l' & Hh' & Hl' & Hack'); [|done|].
  { apply sublist_length in Hsub. unfold len in *. rewrite length_app in *. lia. }
  exists a', l'. split; [done|]. split; [done|]. split.
  - destruct Hl' as [->| ->]; [by apply sublist_inserts_r|by apply sublist_app].
  - intros id [Hid|Hid]%elem_of_app; [|by apply Hack']. specialize (Hack id Hid).
    destruct Hl' as [->| ->]; [done|]. rewrite fmap_app. apply elem_of_app. by left.
Qed.

Lemma run_inv_same st sub ack items a l :
  coherent st a -> holds a l -> l `sublist_of` sub ->
  (forall id, id ∈ ack -> id ∈ out_id <$> l) -> run_inv st (sub ++ items) ack.
Proof. intros Hco Hh Hsub Hack. exists a, l. split_and!; [done..|by apply sublist_inserts_r|done]. Qed.

Lemma run_inv_ack st sub ack ack' : run_inv st sub (ack ++ ack') -> run_inv st sub ack.
Proof.
  intros (a & l & H1 & H2 & H3 & H4). exists a, l. split_and!; [done..|].
  intros id Hid. apply H4, elem_of_app. by left.
Qed.

(** C11: The durable object counts every report once.  Start it on an empty storage, with
    replay protection; let requests be answered or fail, the object being started anew
    after a failure, and let it be evicted at any time.  Then it is in step with a bucket
    whose share is the aggregate of a selection of the submitted output shares, each taken
    at most once, with no two of the same report ID; the report IDs of the bucket are
    exactly those of the selection; and every report whose merge was acknowledged is among
    them. *)
Theorem object_counts_once st sub ack :
  object_run st sub ack ->
  exists a l, coherent st a /\ represents (b_share a) l /\ NoDup (out_id <$> l) /\
    b_ids a = list_to_set (out_id <$> l) /\ l `sublist_of` sub /\
    (forall id, id ∈ ack -> id ∈ out_id <$> l).
Proof.
  intros H. assert (run_inv st sub ack) as (a & l & H1 & (H2 & H3 & H4) & H5 & H6);
    [|by exists a, l].
  induction H as [s Hs|st sub ack req items resp st' _ (a & l & Hco & Hh & Hsub & Hack) Hm Hmax Hfit Hf
    |st sub ack req items e st' _ (a & l & Hco & Hh & Hsub & Hack) Hm Hmax Hfit Hf
    |st sub ack _ (a & l & Hco & Hh & Hsub & Hack)].
  - exists empty_bucket, []. split; [by apply empty_coherent|].
    split; [split; [apply represents_default|split; [constructor|done]]|].
    split; [done|by intros id ?%not_elem_of_nil].
  - pose proof (fetch_wp st a req Hco (Hfit a Hco)) as H. unfold wp in H. rewrite Hf in H.
    destruct H as (a' & Ha & Hco'). by eapply run_inv_step.
  - pose proof (fetch_wp st a req Hco (Hfit a Hco)) as H. unfold wp in H. rewrite Hf in H.
    destruct H as [H|(resp & a' & Ha & H)]; apply recoverable_restart in H.
    + by eapply run_inv_same.
    + eapply run_inv_ack, run_inv_step; eauto.
  - exists a, l. split; [|done]. by apply recoverable_restart, coherent_recoverable.
Qed.

(** ** A failure without a restart *)

(** Everything the object needs is in memory. *)
Definition warm (st : AggregateStoreDO) (a : bucket) (n : N) : Prop :=
  st = MkStore (do_state st) (Some (b_ids a)) (Some (b_share a)) (Some (b_collected a)) (Some n).

(** The next write of chunks fails and leaves the storage as it is. *)
Definition write_fails (s : storage) : Prop :=
  forall m, exists e s', storage_put_multiple m s = (Err e, s') /\ contents s' = contents s.

Lemma bind_step {S E A B} (m : stm S E A) (f : A -> stm S E B) s x s' :
  m s = (Ok x, s') -> (m ≫= f) s = f x s'.
Proof. unfold mbind, stm_bind. by intros ->. Qed.

(** The replay check of a warm object does not touch the storage. *)
Lemma check_replays_warm (s : storage) (ids : gset ReportId) sh col n (reports : list ReportId) count obj :
  repeat_ids reports ids = ∅ -> num_chunks (ids_bytes (ids ∪ list_to_set reports)) = n -> n <= u8_max ->
  shard_bytes_to_object (E:=WorkerError) (report_keys n) (ids_bytes (ids ∪ list_to_set reports)) ∅ = Ok obj ->
  check_replays reports count (MkStore s (Some ids) sh col (Some n))
  = (Ok (inr obj), MkStore s (Some (ids ∪ list_to_set reports)) sh col (Some n)).
Proof.
  intros Hrep Hn Hle Ho. unfold check_replays. erewrite bind_step by reflexivity. cbv beta zeta.
  rewrite decide_True by done. erewrite bind_step by reflexivity.
  erewrite bind_step.
  2:{ unfold lift, number_of_chunks_needed_for. fold (num_chunks (ids_bytes (ids ∪ list_to_set reports))).
      rewrite Hn, (proj2 (N.leb_le _ _)) by done. reflexivity. }
  erewrite bind_step.
  2:{ unfold set_report_id_chunk_key_count. erewrite bind_step by reflexivity. cbn.
      rewrite decide_True by done. reflexivity. }
  erewrite bind_step by reflexivity. erewrite bind_step; [reflexivity|]. unfold lift. by rewrite Ho.
Qed.

(** The same request again: all its reports are there. *)
Lemma check_replays_again (s : storage) (ids : gset ReportId) sh col cnt (reports : list ReportId) :
  reports <> [] -> NoDup reports -> len reports <= u32_max ->
  check_replays reports (len reports) (MkStore s (Some (ids ∪ list_to_set reports)) sh col cnt)
  = (Ok (inl MergeResp_Ok), MkStore s (Some (ids ∪ list_to_set reports)) sh col cnt).
Proof.
  intros Hne Hnd Hle. unfold check_replays. erewrite bind_step by reflexivity. cbv beta zeta.
  assert (repeat_ids reports (ids ∪ list_to_set reports) = list_to_set reports) as ->.
  { apply set_eq. intros id. rewrite repeat_ids_spec, elem_of_union, elem_of_list_to_set. tauto. }
  rewrite decide_False.
  2:{ destruct reports as [|id l]; [done|]. intros H.
      assert (id ∈ (∅ : gset ReportId)) as []%not_elem_of_empty. rewrite <-H. set_solver. }
  rewrite (proj2 (N.ltb_ge _ _)) by done. rewrite size_list_to_set by done.
  unfold len. by rewrite N.eqb_refl.
Qed.

(** C35: A merge whose write fails is acknowledged when it is repeated.  Take an object that
    has everything in memory, a request with new reports that fits it, and a storage that
    fails to write the chunks.  The object answers with an error, but keeps the report IDs
    in memory: the same request is then answered with [Ok], nothing is written, and the
    storage still holds the bucket without the reports. *)
Theorem failed_write_acknowledged st a req share :
  coherent st a -> merges a req -> merge_fits a req -> merge_skip_replay_protection req = false ->
  merge_contained_reports req <> [] -> NoDup (merge_contained_reports req) ->
  DapAggregateShare_report_count (merge_agg_share_delta req) = len (merge_contained_reports req) ->
  DapAggregateShare_merge (b_share a) (merge_agg_share_delta req) = Ok share ->
  warm st a (num_chunks (ids_bytes (merge_ids req (b_ids a)))) -> write_fails (do_state st) ->
  exists e st', handle_merge req st = (Err e, st') /\
    handle_merge req st' = (Ok MergeResp_Ok, st') /\
    contents (do_state st') = contents (do_state st) /\ coherent (restart st') a.
Proof.
  intros Hco Hmg (Hs & Hcnt & Hfit) Hskip Hne Hnd Hlen Hm Hw Hfail.
  destruct (Hfit Hmg) as [Hk Hsh]. rewrite Hm in Hsh. destruct Hmg as [Hcol [Hx|Hrep]]; [congruence|].
  destruct Hco as (n & Hst & _ & _ & _ & Hc). unfold merge_ids in *. rewrite Hskip in *.
  set (ids' := b_ids a ∪ list_to_set (merge_contained_reports req)) in *.
  unfold warm in Hw. rewrite Hw in Hc. cbn in Hc. specialize (Hc _ eq_refl). subst n.
  pose proof (st_ids _ _ _ Hst) as (Hcount & Hsi & _ & _).
  assert (sized 16 (elements ids')) as Hs'.
  { unfold ids'. rewrite <-(list_to_set_elements_L (b_ids a)). by apply ids_sized. }
  destruct (ids_object_new (E:=WorkerError) _ _ _ ids' (st_ids _ _ _ Hst) Hs') as (obj & Ho & Hobj);
    [set_solver|done|].
  destruct (write_object_ok _ _ _ _ _ _ _ Hst Hm Hsh Hobj) as (obj' & v & Hob & Hv & _).
  destruct (Hfail (<[METADATA_KEY := v]> obj')) as (e & s' & Hput & Hs0).
  set (n := num_chunks (ids_bytes ids')) in *.
  exists e, (MkStore s' (Some ids') (Some share) (Some false) (Some n)).
  rewrite Hw, Hcol. unfold handle_merge. split; [|split; [|split]].
  - erewrite bind_step by reflexivity. cbv iota. rewrite Hskip. cbn [negb].
    erewrite bind_step by by apply check_replays_warm. cbv iota.
    unfold merge_and_write. unfold mbind at 1, stm_bind at 1. erewrite bind_step by reflexivity.
    unfold lift at 1. rewrite Hm. erewrite bind_step by reflexivity. cbn [map_err].
    erewrite bind_step by reflexivity. erewrite bind_step by (unfold lift; by rewrite Hob).
    erewrite bind_step by (unfold lift; by rewrite Hv). unfold on_storage. cbn [do_state]. by rewrite Hput.
  - erewrite bind_step by reflexivity. cbv iota. rewrite Hskip. cbn [negb]. rewrite Hlen.
    rewrite (bind_step _ _ _ (inl MergeResp_Ok)
      (MkStore s' (Some ids') (Some share) (Some false) (Some n))); [reflexivity|].
    apply check_replays_again; [done|done|]. by rewrite <-Hlen.
  - done.
  - apply recoverable_restart. exists n. cbn. by rewrite Hs0.
Qed.
End Runs.
