(* ===== verification/DurableRequests.v ===== *)
(** * Requests to durable objects

    [src/crates/daphne-service-utils/src/durable_requests/]: how the service names a durable
    object, the envelope of a request ([DurableRequest]) and the body of a merge
    ([AggregateStoreMergeReq]).

    Both are messages of Cap'n Proto.  The library and the accessors generated from
    [durable_request.capnp] are the class [Capnp]: a message is the record of its fields, a
    reader gives back each field or an error.  [hex::encode] is the class [HexCodec], and the
    conversion of field elements to bytes [PrioElemBytes]. *)

From stdpp Require Import pretty.
From S2P Require Import Prelude Codec Messages TaskprovMessages Errors Config AggShare DurableStore.

(** ** Libraries *)
Class HexCodec : Type := hex_encode : list byte -> string.

Definition slash : Ascii.ascii := Ascii.ascii_of_N 47.

Definition no_slash (s : string) : Prop :=
  Forall (fun c => c <> slash) (String.list_ascii_of_string s).

(** Two characters for a byte, [0-9a-f]. *)
Class HexLaws (H : HexCodec) : Prop := {
  hex_inj bs bs' : hex_encode bs = hex_encode bs' -> bs = bs';
  hex_len bs : String.length (hex_encode bs) = (2 * length bs)%nat;
  hex_no_slash bs : no_slash (hex_encode bs);
}.

Section Elems.
Context `{PA : PrioAgg} `{PV : !PrioVec}.

(** [Into<[u8; ENCODED_SIZE]>] and [TryFrom<&[u8]>] of the fields *)
Class PrioElemBytes : Type := {
  elem_into : forall f, prio_elem f -> list byte;
  elem_try_from : forall f, list byte -> option (prio_elem f);
}.

Class PrioElemBytesLaws (P : PrioElemBytes) : Prop := {
  elem_into_len f x : len (elem_into f x) = elem_size f;
  elem_try_into f x : elem_try_from f (elem_into f x) = Some x;
}.
End Elems.

Inductive CapnpError : Type :=
| CapnpFailed (extra : string)
| CapnpOther.

(** [ObjectIdFrom] *)
Inductive ObjectIdFrom : Type :=
| ObjectIdFrom_Name (name : string)
| ObjectIdFrom_Hex (hex : string).

#[global] Instance ObjectIdFrom_eq_dec : EqDecision ObjectIdFrom.
Proof. solve_decision. Defined.

(** *** Fields of the messages of [durable_request.capnp] *)
Record durable_request_msg : Type := MkDurableRequestMsg {
  drm_binding : string;
  drm_id : ObjectIdFrom;
  drm_retry : bool;
}.

Inductive msg_data : Type :=
| Data_field64 (bytes : list byte)
| Data_field128 (bytes : list byte)
| Data_fieldPrio2 (bytes : list byte)
| Data_none.

Record share_msg : Type := MkShareMsg {
  sm_report_count : N;
  sm_min_time : N;
  sm_max_time : N;
  sm_checksum : list byte;
  sm_data : msg_data;
}.

Record merge_req_msg : Type := MkMergeReqMsg {
  mm_contained_reports : list (N * N);
  mm_agg_share_delta : share_msg;
  mm_skip_replay_protection : bool;
}.

(** *** What the generated readers give *)
Section Readers.
Context {text : Type}.

Inductive id_which : Type :=
| Which_Name (name : res CapnpError text)
| Which_Hex (hex : res CapnpError text).

Record durable_request_reader : Type := MkDurableRequestReader {
  get_binding : res CapnpError text;
  get_id_which : res CapnpError id_which;
  get_retry : bool;
}.
End Readers.
Arguments id_which : clear implicits.
Arguments durable_request_reader : clear implicits.

Inductive data_which : Type :=
| Which_Field64 (bytes : res CapnpError (list byte))
| Which_Field128 (bytes : res CapnpError (list byte))
| Which_FieldPrio2 (bytes : res CapnpError (list byte))
| Which_None.

Record share_reader : Type := MkShareReader {
  get_report_count : N;
  get_min_time : N;
  get_max_time : N;
  get_checksum : res CapnpError (list byte);
  get_data_which : res CapnpError data_which;
}.

Record merge_req_reader : Type := MkMergeReqReader {
  get_contained_reports : res CapnpError (list (N * N));
  get_agg_share_delta : res CapnpError share_reader;
  get_options : res CapnpError bool;
}.

(** The reader of a message that was written. *)
Definition data_reader (d : msg_data) : data_which :=
  match d with
  | Data_field64 bs => Which_Field64 (Ok bs)
  | Data_field128 bs => Which_Field128 (Ok bs)
  | Data_fieldPrio2 bs => Which_FieldPrio2 (Ok bs)
  | Data_none => Which_None
  end.

Definition share_msg_reader (m : share_msg) : share_reader :=
  MkShareReader (sm_report_count m) (sm_min_time m) (sm_max_time m) (Ok (sm_checksum m))
    (Ok (data_reader (sm_data m))).

Definition merge_msg_reader (m : merge_req_msg) : merge_req_reader :=
  MkMergeReqReader (Ok (mm_contained_reports m)) (Ok (share_msg_reader (mm_agg_share_delta m)))
    (Ok (mm_skip_replay_protection m)).

Definition data_bytes (d : msg_data) : list byte :=
  match d with
  | Data_field64 bs | Data_field128 bs | Data_fieldPrio2 bs => bs
  | Data_none => []
  end.

(** The fields fit their types, and the message the default limit of a reader of eight
    million words, less the structs and pointers of the message. *)
Definition merge_msg_ok (m : merge_req_msg) : Prop :=
  Forall (fun r => r.1 <= u64_max /\ r.2 <= u64_max) (mm_contained_reports m) /\
  sm_report_count (mm_agg_share_delta m) <= u64_max /\
  sm_min_time (mm_agg_share_delta m) <= u64_max /\ sm_max_time (mm_agg_share_delta m) <= u64_max /\
  2 * len (mm_contained_reports m)
  + len (data_bytes (sm_data (mm_agg_share_delta m))) / 8
  + len (sm_checksum (mm_agg_share_delta m)) / 8 + 64 <= 8388608.

Class Capnp : Type := {
  capnp_text : Type;
  (** [text::Reader::to_string] *)
  text_to_string : capnp_text -> res CapnpError string;
  (** [serialize_packed::write_message] to a [Vec] *)
  write_durable_request : durable_request_msg -> list byte;
  write_merge_req : merge_req_msg -> res CapnpError (list byte);
  (** [serialize_packed::read_message] and [get_root] *)
  read_durable_request : cursor -> res CapnpError (durable_request_reader capnp_text * cursor);
  read_merge_req : cursor -> res CapnpError (merge_req_reader * cursor);
}.

(** The reader reads the text [s]. *)
Definition reads_text `{Capnp} (r : res CapnpError capnp_text) (s : string) : Prop :=
  exists t, r = Ok t /\ text_to_string t = Ok s.

Definition reads_id `{Capnp} (w : id_which capnp_text) (id : ObjectIdFrom) : Prop :=
  match w, id with
  | Which_Name r, ObjectIdFrom_Name s | Which_Hex r, ObjectIdFrom_Hex s => reads_text r s
  | _, _ => False
  end.

(** A message that is read was written as such, whatever follows it. *)
Class CapnpLaws (C : Capnp) : Prop := {
  durable_request_read m post :
    exists rd w, read_durable_request (cursor_new (write_durable_request m ++ post))
      = Ok (rd, Cursor (write_durable_request m ++ post) (length (write_durable_request m))) /\
    reads_text (get_binding rd) (drm_binding m) /\
    get_id_which rd = Ok w /\ reads_id w (drm_id m) /\ get_retry rd = drm_retry m;
  merge_req_read m :
    merge_msg_ok m -> exists bs c, write_merge_req m = Ok bs /\
      read_merge_req (cursor_new bs) = Ok (merge_msg_reader m, c);
}.

(** ** Paths *)
Definition KV_PATH_PREFIX : string := "/v1/kv".
Definition DO_PATH_PREFIX : string := "/v1/do".

(** ** Methods of durable objects *)
Class DurableMethod (B : Type) : Type := {
  BINDING : string;
  NameParameters : Type;
  try_from_uri : string -> option B;
  to_uri : B -> string;
  name : NameParameters -> ObjectIdFrom;
}.
Arguments BINDING B {_}.
Arguments NameParameters B {_}.
Arguments name B {_}.

(** [bindings::AggregateStore] *)
Inductive AggregateStoreMethod : Type :=
| M_GetMerged | M_Get | M_Merge | M_MarkCollected | M_CheckCollected.

#[global] Instance AggregateStoreMethod_eq_dec : EqDecision AggregateStoreMethod.
Proof. solve_decision. Defined.

Definition AggregateStore_try_from_uri (s : string) : option AggregateStoreMethod :=
  if decide (s = "/internal/do/aggregate_store/get_merged") then Some M_GetMerged
  else if decide (s = "/internal/do/aggregate_store/get") then Some M_Get
  else if decide (s = "/internal/do/aggregate_store/merge") then Some M_Merge
  else if decide (s = "/internal/do/aggregate_store/mark_collected") then Some M_MarkCollected
  else if decide (s = "/internal/do/aggregate_store/check_collected") then Some M_CheckCollected
  else None.

Definition AggregateStore_to_uri (m : AggregateStoreMethod) : string :=
  match m with
  | M_GetMerged => "/internal/do/aggregate_store/get_merged"
  | M_Get => "/internal/do/aggregate_store/get"
  | M_Merge => "/internal/do/aggregate_store/merge"
  | M_MarkCollected => "/internal/do/aggregate_store/mark_collected"
  | M_CheckCollected => "/internal/do/aggregate_store/check_collected"
  end.

Section Names.
Context `{HX : HexCodec}.

(** [Display] of [DapBatchBucket] *)
Definition DapBatchBucket_to_string (b : DapBatchBucket) : string :=
  String.append
    match b with
    | Bucket_TimeInterval batch_window _ => String.append "window/" (pretty batch_window)
    | Bucket_FixedSize batch_id _ => String.append "batch/" (hex_encode batch_id)
    end
    (if 0 <? bucket_shard b then String.append "/shard/" (pretty (bucket_shard b)) else "").

Definition durable_name_task (version : DapVersion) (task_id_hex : string) : string :=
  String.append (DapVersion_as_ref version) (String.append "/task/" task_id_hex).

Definition AggregateStore_name (params : DapVersion * string * DapBatchBucket) : ObjectIdFrom :=
  let '(version, task_id_hex, bucket) := params in
  ObjectIdFrom_Name (String.append (durable_name_task version task_id_hex)
    (String.append "/" (DapBatchBucket_to_string bucket))).

#[global] Instance AggregateStore_method : DurableMethod AggregateStoreMethod := {
  BINDING := "DAP_AGGREGATE_STORE";
  NameParameters := DapVersion * string * DapBatchBucket;
  try_from_uri := AggregateStore_try_from_uri;
  to_uri := AggregateStore_to_uri;
  name := AggregateStore_name;
}.
End Names.

(** ** The envelope *)
Record DurableRequest (P : Type) : Type := MkDurableRequest {
  dr_binding : string;
  dr_id : ObjectIdFrom;
  dr_retry : bool;
  dr_body : P;
}.
Arguments MkDurableRequest {P}.
Arguments dr_binding {P}.
Arguments dr_id {P}.
Arguments dr_retry {P}.
Arguments dr_body {P}.

Definition unwrap_from_name {E} (self : ObjectIdFrom) : res E string :=
  match self with ObjectIdFrom_Name name => Ok name | _ => Panic end.
Definition unwrap_from_hex {E} (self : ObjectIdFrom) : res E string :=
  match self with ObjectIdFrom_Hex name => Ok name | _ => Panic end.

Section Envelope.
Context `{CP : Capnp}.

Definition DurableRequest_eq (self other : DurableRequest (list byte)) : bool :=
  bool_decide (dr_binding self = dr_binding other) && bool_decide (dr_id self = dr_id other) &&
  bool_decide (dr_retry self = dr_retry other) &&
  constant_time_eq (dr_body self) (dr_body other).

Definition DurableRequest_new {B} `{DurableMethod B} (durable_method : B) (params : NameParameters B) :
    DurableRequest (list byte) * string :=
  (MkDurableRequest (BINDING B) (name B params) false [], to_uri durable_method).

Definition DurableRequest_new_with_id {B} `{DurableMethod B} (durable_method : B)
    (obj_id_from : ObjectIdFrom) : DurableRequest (list byte) * string :=
  (MkDurableRequest (BINDING B) obj_id_from false [], to_uri durable_method).

Definition with_body {P T} (self : DurableRequest P) (body : T) : DurableRequest T :=
  MkDurableRequest (dr_binding self) (dr_id self) (dr_retry self) body.

Definition with_retry {P} (self : DurableRequest P) : DurableRequest P :=
  MkDurableRequest (dr_binding self) (dr_id self) true (dr_body self).

(** [name?.to_string()?] *)
Definition text (r : res CapnpError capnp_text) : res CapnpError string := t ← r; text_to_string t.

Definition DurableRequest_try_from (bytes : list byte) : res CapnpError (DurableRequest (list byte)) :=
  '(request, c) ← read_durable_request (cursor_new bytes);
  binding ← text (get_binding request);
  w ← get_id_which request;
  id ← match w with
       | Which_Name name => s ← text name; Ok (ObjectIdFrom_Name s)
       | Which_Hex hex => s ← text hex; Ok (ObjectIdFrom_Hex s)
       end;
  Ok (MkDurableRequest binding id (get_retry request) (drop (position c) bytes)).

Definition into_bytes (self : DurableRequest (list byte)) : list byte :=
  write_durable_request (MkDurableRequestMsg (dr_binding self) (dr_id self) (dr_retry self))
  ++ dr_body self.

(** [std::mem::take(&mut self.body)] *)
Definition take_body (self : DurableRequest (list byte)) : list byte * DurableRequest (list byte) :=
  (dr_body self, with_body self []).
End Envelope.

(** ** The body of a merge *)
Section Payload.
Context `{PA : PrioAgg} `{PV : !PrioVec} `{PE : !PrioElemBytes} `{CP : Capnp}.

Definition encode_report_id (r : ReportId) : N * N := (le_value (take 8 r), le_value (drop 8 r)).

(** [encode(field, |len| ..)] *)
Definition encode_elems {E} (f : field_kind) (field : prio_agg_share f) : res E (list byte) :=
  if u32_max <? elem_size f * len (agg_to_vec field) then Panic
  else Ok (mjoin (elem_into f <$> agg_to_vec field)).

Definition encode_data {E} (data : option VdafAggregateShare) : res E msg_data :=
  match data with
  | Some (VAS_Field64 field) => bs ← encode_elems Field64 field; Ok (Data_field64 bs)
  | Some (VAS_Field128 field) => bs ← encode_elems Field128 field; Ok (Data_field128 bs)
  | Some (VAS_Field32 field) => bs ← encode_elems FieldPrio2 field; Ok (Data_fieldPrio2 bs)
  | None => Ok Data_none
  end.

Definition encode_to_builder {E} (self : AggregateStoreMergeReq) : res E merge_req_msg :=
  if u32_max <? len (merge_contained_reports self) then Panic
  else
    let share := merge_agg_share_delta self in
    data ← encode_data (DapAggregateShare_data share);
    Ok (MkMergeReqMsg (encode_report_id <$> merge_contained_reports self)
          (MkShareMsg (DapAggregateShare_report_count share) (DapAggregateShare_min_time share)
             (DapAggregateShare_max_time share) (DapAggregateShare_checksum share) data)
          (merge_skip_replay_protection self)).

(** [fields.chunks_exact(F::ENCODED_SIZE)], each converted *)
Fixpoint decode_chunks (f : field_kind) (fuel : nat) (fields : list byte) :
    res CapnpError (list (prio_elem f)) :=
  match fuel with
  | O => Ok []
  | S fuel =>
      if len fields <? elem_size f then Ok []
      else
        x ← unwrap (elem_try_from f (take (N.to_nat (elem_size f)) fields));
        xs ← decode_chunks f fuel (drop (N.to_nat (elem_size f)) fields);
        Ok (x :: xs)
  end.

Definition decode_share (f : field_kind) (fields : list byte) : res CapnpError (prio_agg_share f) :=
  if 1 <=? len fields mod elem_size f then
    Err (CapnpFailed "leftover bytes still present in buffer: {length}")
  else
    xs ← decode_chunks f (length fields) fields;
    Ok (agg_from_vec xs).

Definition decode_data (w : data_which) : res CapnpError (option VdafAggregateShare) :=
  match w with
  | Which_Field64 field => bs ← field; s ← decode_share Field64 bs; Ok (Some (VAS_Field64 s))
  | Which_Field128 field => bs ← field; s ← decode_share Field128 bs; Ok (Some (VAS_Field128 s))
  | Which_FieldPrio2 field => bs ← field; s ← decode_share FieldPrio2 bs; Ok (Some (VAS_Field32 s))
  | Which_None => Ok None
  end.

Definition decode_report_id (r : N * N) : ReportId := le_bytes 8 r.1 ++ le_bytes 8 r.2.

Definition decode_from_reader (request : merge_req_reader) : res CapnpError AggregateStoreMergeReq :=
  share ← get_agg_share_delta request;
  w ← get_data_which share;
  data ← decode_data w;
  checksum ← get_checksum share;
  if len checksum =? 32 then
    reports ← get_contained_reports request;
    skip ← get_options request;
    Ok (MkMergeReq (decode_report_id <$> reports)
          (MkDapAggregateShare (get_report_count share) (get_min_time share) (get_max_time share)
             checksum data)
          skip)
  else Err (CapnpFailed "checksum had unexpected size").

Definition encode_to_bytes (self : AggregateStoreMergeReq) : res CapnpError (list byte) :=
  message ← encode_to_builder self;
  write_merge_req message.

Definition decode_from_bytes (bytes : list byte) : res CapnpError AggregateStoreMergeReq :=
  '(reader, _) ← read_merge_req (cursor_new bytes);
  decode_from_reader reader.
End Payload.
