(* ===== verification/DurableRequestsCorrect.v ===== *)
(** * Requests to durable objects reach the object they are meant for

    A request that is sent is read back as it was, envelope and body
    ([merge_request_round_trip]); a method is found from its path; and two buckets of tasks
    never share an object ([bucket_names_distinct]). *)

From stdpp Require Import pretty.
From S2P Require Import Prelude Codec Messages TaskprovMessages Errors Config AggShare.
From S2P Require Import DurableStore DurableChunks DurableStoreCorrect DurableRequests.

(** ** Envelope *)
Section Envelope.
Context `{CP : Capnp} {CL : CapnpLaws CP}.

Lemma text_reads r s : reads_text r s -> text r = Ok s.
Proof. by intros (t & -> & H). Qed.

Lemma durable_request_try_from_bytes (r : DurableRequest (list byte)) :
  DurableRequest_try_from (into_bytes r) = Ok r.
Proof.
  unfold DurableRequest_try_from, into_bytes.
  set (m := MkDurableRequestMsg (dr_binding r) (dr_id r) (dr_retry r)).
  destruct (durable_request_read m (dr_body r)) as (rd & w & -> & Hb & Hw & Hid & Hr).
  cbn [mbind res_bind]. rewrite (text_reads _ _ Hb), Hw, Hr. cbn [mbind res_bind position].
  rewrite drop_app_length. unfold m in *. cbn in *.
  destruct r as [b id retry body]. cbn in *.
  destruct w as [n|h], id as [n'|h']; try done; cbn in Hid; rewrite (text_reads _ _ Hid); done.
Qed.
End Envelope.

(** ** Body of a merge *)
Section Payload.
Context `{PA : PrioAgg} `{PV : !PrioVec} {VL : PrioVecLaws PV}.
Context `{PE : !PrioElemBytes} {EL : PrioElemBytesLaws PE} `{CP : Capnp} {CL : CapnpLaws CP}.

Lemma report_id_round_trip (r : ReportId) : length r = 16%nat -> decode_report_id (encode_report_id r) = r.
Proof.
  intros Hr. unfold decode_report_id, encode_report_id. cbn [fst snd].
  rewrite <-(take_drop 8 r) at 3. f_equal.
  - rewrite <-(le_bytes_value (take 8 r)) at 2. f_equal. rewrite length_take. lia.
  - rewrite <-(le_bytes_value (drop 8 r)) at 2. f_equal. rewrite length_drop. lia.
Qed.

Lemma encoded_id_fits (r : ReportId) :
  length r = 16%nat -> (encode_report_id r).1 <= u64_max /\ (encode_report_id r).2 <= u64_max.
Proof.
  intros Hr. unfold encode_report_id. cbn [fst snd].
  pose proof (le_value_lt (take 8 r)) as H1. pose proof (le_value_lt (drop 8 r)) as H2.
  rewrite length_take in H1. rewrite length_drop in H2. rewrite Hr in H1, H2.
  change (256 ^ N.of_nat (8 `min` 16)) with (u64_max + 1) in H1.
  change (256 ^ N.of_nat (16 - 8)) with (u64_max + 1) in H2. lia.
Qed.

Lemma elem_size_pos f : 0 < elem_size f.
Proof. rewrite elem_size_eq. by destruct f. Qed.

Lemma decode_chunks_ok f (xs : list (prio_elem f)) fuel :
  (length xs <= fuel)%nat -> decode_chunks f fuel (mjoin (elem_into f <$> xs)) = Ok xs.
Proof.
  revert fuel. induction xs as [|x xs IH]; intros fuel Hf; simpl in Hf.
  - destruct fuel; [done|]. cbn [decode_chunks]. rewrite (proj2 (N.ltb_lt _ _)); [done|].
    change (len (mjoin (elem_into f <$> []))) with 0. apply elem_size_pos.
  - destruct fuel as [|fuel]; [lia|]. cbn [decode_chunks].
    rewrite fmap_cons. change (mjoin (elem_into f x :: (elem_into f <$> xs))) with
      (elem_into f x ++ mjoin (elem_into f <$> xs)).
    rewrite (proj2 (N.ltb_ge _ _)) by (rewrite len_app, elem_into_len; lia).
    assert (N.to_nat (elem_size f) = length (elem_into f x)) as Hl.
    { rewrite <-(elem_into_len f x). unfold len. lia. }
    rewrite Hl, take_app_length, drop_app_length, elem_try_into. cbn [unwrap mbind res_bind].
    by rewrite IH by lia.
Qed.

Lemma elems_sized f (xs : list (prio_elem f)) :
  length (mjoin (elem_into f <$> xs)) = (length xs * N.to_nat (elem_size f))%nat.
Proof.
  rewrite (sized_length (N.to_nat (elem_size f))), length_fmap; [done|].
  apply Forall_fmap, Forall_true. intros x. cbn. pose proof (elem_into_len f x) as H. unfold len in H. lia.
Qed.

Lemma decode_share_ok f (s : prio_agg_share f) :
  decode_share f (mjoin (elem_into f <$> agg_to_vec s)) = Ok s.
Proof.
  unfold decode_share. pose proof (elem_size_pos f) as Hp.
  assert (len (mjoin (elem_into f <$> agg_to_vec s)) mod elem_size f = 0) as ->.
  { unfold len. rewrite elems_sized, Nat2N.inj_mul, N2Nat.id. apply N.Div0.mod_mul. }
  cbn [N.leb N.compare]. rewrite decode_chunks_ok by (rewrite elems_sized; nia).
  cbn [mbind res_bind]. by rewrite agg_from_to_vec.
Qed.

Lemma encode_data_ok {E} (d : option VdafAggregateShare) :
  (forall x, d = Some x -> data_size x <= u32_max) ->
  exists m, encode_data (E:=E) d = Ok m /\ decode_data (data_reader m) = Ok d /\
    len (data_bytes m) = default 0 (data_size <$> d).
Proof.
  assert (forall f (s : prio_agg_share f), elem_size f * len (agg_to_vec s) <= u32_max ->
    encode_elems (E:=E) f s = Ok (mjoin (elem_into f <$> agg_to_vec s)) /\
    len (mjoin (elem_into f <$> agg_to_vec s)) = len (agg_to_vec s) * elem_size f) as Henc.
  { intros f s H. unfold encode_elems. rewrite (proj2 (N.ltb_ge _ _)) by done. split; [done|].
    unfold len. rewrite elems_sized. lia. }
  intros Hd. destruct d as [d|]; [|by exists Data_none]. specialize (Hd d eq_refl).
  unfold data_size, data_len in *.
  destruct d as [s|s|s]; cbn [data_vec projT1 projT2] in Hd; rewrite N.mul_comm in Hd;
    destruct (Henc _ s Hd) as [He Hl]; cbn [encode_data]; rewrite He; cbn [mbind res_bind];
    eexists; (split; [done|]); cbn [data_reader decode_data]; cbn [mbind res_bind];
    rewrite decode_share_ok; (split; [done|]); exact Hl.
Qed.

(** A merge request that can be sent. *)
Definition sendable (req : AggregateStoreMergeReq) : Prop :=
  let share := merge_agg_share_delta req in
  sized 16 (merge_contained_reports req) /\
  DapAggregateShare_report_count share <= u64_max /\ DapAggregateShare_min_time share <= u64_max /\
  DapAggregateShare_max_time share <= u64_max /\ len (DapAggregateShare_checksum share) = 32 /\
  2 * len (merge_contained_reports req)
  + default 0 (data_size <$> DapAggregateShare_data share) / 8 + 68 <= 8388608.

Lemma merge_payload_round_trip req :
  sendable req -> exists bs, encode_to_bytes req = Ok bs /\ decode_from_bytes bs = Ok req.
Proof.
  intros (Hids & Hc & Hmin & Hmax & Hsum & Hsz). destruct req as [reports [cnt mn mx sum d] skip].
  cbn in *. unfold encode_to_bytes, encode_to_builder. cbn.
  rewrite (proj2 (N.ltb_ge _ _)).
  2:{ clear -Hsz. unfold u32_max. generalize dependent (default 0 (data_size <$> d) / 8).
      intros q Hq. lia. }
  destruct (encode_data_ok (E:=CapnpError) d) as (md & Hmd & Hdec & Hlen).
  { intros x ->. cbn in Hsz. unfold u32_max. pose proof (N.div_mod (data_size x) 8 ltac:(done)).
    pose proof (N.mod_lt (data_size x) 8 ltac:(done)). lia. }
  rewrite Hmd. cbn [mbind res_bind].
  set (m := MkMergeReqMsg _ _ _). destruct (merge_req_read m) as (bs & c & Hw & Hr).
  { split; [|split; [|split; [|split]]]; try done; cbn.
    - apply Forall_fmap. eapply Forall_impl; [exact Hids|]. intros r Hr. cbn. by apply encoded_id_fits.
    - unfold len in *. rewrite length_fmap, Hlen. change (N.of_nat (length sum)) with (len sum). unfold len.
      rewrite Hsum. change (32 / 8) with 4. lia. }
  exists bs. split; [done|]. unfold decode_from_bytes. rewrite Hr. cbn [mbind res_bind].
  unfold decode_from_reader, m. cbn. rewrite Hdec. cbn [mbind res_bind]. rewrite Hsum. cbn.
  do 2 f_equal. rewrite <-list_fmap_compose. rewrite <-(list_fmap_id reports) at 2.
  apply list_fmap_ext. intros i r Hi. cbn. apply report_id_round_trip.
  unfold sized in Hids. rewrite Forall_lookup in Hids. by eapply Hids.
Qed.

(** C20: A merge request arrives as it was sent.  For a request with report IDs of 16 bytes,
    a checksum of 32 bytes and a size below the limits of the message format, [encode_to_bytes]
    succeeds, and in an envelope of any binding, object ID and retry flag the object finds
    the same binding, ID, flag and request. *)
Theorem merge_request_round_trip {P} (env : DurableRequest P) (req : AggregateStoreMergeReq) :
  sendable req ->
  exists bs, encode_to_bytes req = Ok bs /\
    DurableRequest_try_from (into_bytes (with_body env bs)) = Ok (with_body env bs) /\
    decode_from_bytes (dr_body (with_body env bs)) = Ok req.
Proof.
  intros H. destruct (merge_payload_round_trip req H) as (bs & He & Hd). exists bs.
  split; [done|]. split; [apply durable_request_try_from_bytes|done].
Qed.
End Payload.

(** ** Names *)
Section Names.
Context `{HX : HexCodec} {HL : HexLaws HX}.

Lemma method_from_uri (m : AggregateStoreMethod) :
  AggregateStore_try_from_uri (AggregateStore_to_uri m) = Some m.
Proof. by destruct m. Qed.

Lemma append_inj a b c d : String.length a = String.length b ->
  String.append a c = String.append b d -> a = b /\ c = d.
Proof.
  revert b. induction a as [|x a IH]; intros [|y b]; simpl; try lia; [done|].
  intros Hl [= -> H]. apply IH in H as [-> ->]; [done|lia].
Qed.

Lemma append_inj_r a c d : String.append a c = String.append a d -> c = d.
Proof. intros H. by apply append_inj in H as [_ H]. Qed.

(** What is in front of the first slash. *)
Lemma split_slash a b c d :
  no_slash a -> no_slash b ->
  String.append a (String slash c) = String.append b (String slash d) -> a = b /\ c = d.
Proof.
  unfold no_slash. revert b. induction a as [|x a IH]; intros [|y b] Ha Hb; simpl in *.
  - intros [= ->]. done.
  - intros [= <- _]. by apply Forall_cons in Hb as [? _].
  - intros [= -> _]. by apply Forall_cons in Ha as [? _].
  - intros [= -> H]. apply Forall_cons in Ha as [_ Ha]. apply Forall_cons in Hb as [_ Hb].
    by destruct (IH b Ha Hb H) as [-> ->].
Qed.

Lemma no_slash_append a b c : no_slash a -> a <> String.append b (String slash c).
Proof.
  unfold no_slash. revert b. induction a as [|x a IH]; intros b Ha; destruct b as [|y b]; simpl in *; try done.
  - intros [= -> _]. by apply Forall_cons in Ha as [? _].
  - intros [= -> H]. apply Forall_cons in Ha as [_ Ha]. by eapply IH.
Qed.

Lemma pretty_no_slash (n : N) : no_slash (pretty n).
Proof.
  assert (forall x s, no_slash s -> no_slash (pretty_N_go x s)) as H.
  { induction x as [x IH] using (well_founded_induction N.lt_wf_0). intros s Hs.
    destruct (N.eq_0_gt_0_cases x) as [->|Hx]; [by rewrite pretty_N_go_0|].
    rewrite pretty_N_go_step by done. apply IH; [apply N.div_lt; lia|].
    constructor; [|done]. unfold pretty_N_char. by repeat case_match. }
  unfold pretty, pretty_N. case_decide; [by repeat constructor|]. apply H. constructor.
Qed.

(** The shard of a bucket, behind a name without slashes. *)
Lemma shard_suffix_inj a b (n m : N) :
  no_slash a -> no_slash b ->
  String.append a (if 0 <? n then String.append "/shard/" (pretty n) else "")
  = String.append b (if 0 <? m then String.append "/shard/" (pretty m) else "") ->
  a = b /\ n = m.
Proof.
  assert (forall s, String.append s "" = s) as Hnil.
  { induction s as [|x s IH]; [done|]. change (String x (String.append s "") = String x s). by rewrite IH. }
  intros Ha Hb. destruct (N.ltb_spec 0 n) as [Hn|Hn], (N.ltb_spec 0 m) as [Hm|Hm]; rewrite ?Hnil.
  - intros H. apply split_slash in H as [-> H]; [|done..]. split; [done|].
    injection H as H. by apply (inj pretty) in H.
  - intros H. symmetry in H. by apply no_slash_append in H.
  - intros H. by apply no_slash_append in H.
  - intros ->. split; [done|lia].
Qed.

Lemma bucket_to_string_inj b b' : DapBatchBucket_to_string b = DapBatchBucket_to_string b' -> b = b'.
Proof.
  unfold DapBatchBucket_to_string. destruct b as [id n|w n], b' as [id' n'|w' n'];
    cbn [bucket_shard]; intros H; try discriminate.
  - change (String.append (String.append "batch/" ?x) ?y) with (String.append "batch/" (String.append x y)) in H.
    apply append_inj_r in H.
    apply shard_suffix_inj in H as [H ->]; [|apply hex_no_slash..]. by apply hex_inj in H as ->.
  - change (String.append (String.append "window/" ?x) ?y) with (String.append "window/" (String.append x y)) in H.
    apply append_inj_r in H.
    apply shard_suffix_inj in H as [H ->]; [|apply pretty_no_slash..]. by apply (inj pretty) in H as ->.
Qed.

Lemma bucket_name_inj (v v' : DapVersion) (t t' : TaskId) (b b' : DapBatchBucket) :
  AggregateStore_name (v, hex_encode t, b) = AggregateStore_name (v', hex_encode t', b') ->
  v = v' /\ t = t' /\ b = b'.
Proof.
  unfold AggregateStore_name, durable_name_task. intros H. injection H as H.
  assert (forall v t r, String.append (String.append (DapVersion_as_ref v) (String.append "/task/" t)) r
    = String.append (DapVersion_as_ref v) (String.append "/task/" (String.append t r))) as Hassoc.
  { by intros [] ??. }
  rewrite !Hassoc in H. apply append_inj in H as [Hv H]; [|by destruct v, v'].
  apply append_inj_r in H. apply split_slash in H as [Ht H]; [|apply hex_no_slash..].
  split; [by destruct v, v'|]. split; [by apply hex_inj|]. by apply bucket_to_string_inj.
Qed.

(** Every bucket has its own durable object.  The names of the objects of two buckets
    are equal only if the version, the task and the bucket, with its shard, are the same;
    so that a request for one bucket never reads or changes another. *)
Theorem bucket_names_distinct (v v' : DapVersion) (t t' : TaskId) (b b' : DapBatchBucket) :
  AggregateStore_name (v, hex_encode t, b) = AggregateStore_name (v', hex_encode t', b') ->
  v = v' /\ t = t' /\ b = b'.
Proof. apply bucket_name_inj. Qed.
End Names.
