(* ===== verification/StorageProxy.v ===== *)
(** * The storage proxy

    [src/crates/daphne-worker/src/storage_proxy/]: the Worker through which the service
    reaches its storage.  It checks the bearer token of the service, answers requests for
    keys of KV and forwards requests to durable objects, repeating what fails.

    KV ([worker::kv]) is the class [KvStore].  The delivery of a request to a durable object
    belongs to the platform: it is the class [DurableNamespace]. *)

From stdpp Require Import pretty.
From S2P Require Import Prelude Codec Messages TaskprovMessages Errors Config AggShare.
From S2P Require Import DurableStore DurableRequests.

(** ** Responses *)
Inductive StatusCode : Type :=
| OK | NOT_FOUND | CONFLICT | UNAUTHORIZED | INTERNAL_SERVER_ERROR.

#[global] Instance StatusCode_eq_dec : EqDecision StatusCode.
Proof. solve_decision. Defined.

Inductive HttpMethod : Type := GET | HEAD | POST | PUT | DELETE | OTHER.

(** ** Repeating *)

(** [RETRY_DELAYS.len() + 1] attempts *)
Definition RETRY_DELAYS : list N := [100; 500; 1000; 3000].

Section Retry.
Context {S E T : Type}.

(** The loop; [delays] are those still to come. *)
Fixpoint retry_loop (f : N -> stm S E T) (attempt : N) (delays : list N) : stm S E T := fun s =>
  match f attempt s with
  | (Ok ok, s) => (Ok ok, s)
  | (Err error, s) =>
      match delays with
      | _ :: delays => retry_loop f (attempt + 1) delays s
      | [] => (Err error, s)
      end
  | (Panic, s) => (Panic, s)
  end.

Definition retry (f : N -> stm S E T) : stm S E T := retry_loop f 1 RETRY_DELAYS.
End Retry.

(** ** The expiration of a key *)
Definition ExpirationHeader_encode (t : Time) : string := pretty t.

(** The header values, [None] for one that is not text. *)
Definition ExpirationHeader_decode (values : list (option string)) : option Time :=
  match values with
  | Some v :: _ => parse_u64 v
  | _ => None
  end.

(** [Date::now().as_millis()] is [now_millis]. *)
Definition at_least_60s_from_now `{BuildProfile} {E} (now_millis : N) (t : Time) : res E Time :=
  now_plus_65_seconds ← u64_add (now_millis / 1000) 65;
  Ok (N.max t now_plus_65_seconds).

(** ** Access to the proxy *)

(** [trusted_token] is the variable [DAPHNE_SERVER_AUTH_TOKEN]. *)
Definition bearer_auth {S A} (trusted_token : option string) (bearer : string)
    (refuse : StatusCode -> string -> A) (next : S -> A * S) : S -> A * S := fun s =>
  match trusted_token with
  | None =>
      (refuse INTERNAL_SERVER_ERROR "Authorization token for storage proxy is not configured", s)
  | Some trusted_token =>
      if negb (constant_time_eq (String.list_byte_of_string bearer)
                 (String.list_byte_of_string trusted_token))
      then (refuse UNAUTHORIZED "Incorrect authorization token", s)
      else next s
  end.

(** ** KV *)
Class KvStore (K : Type) : Type := {
  (** [env.kv(..)] *)
  kv_binding : res WorkerError unit;
  (** [get(key).bytes()], [list().prefix(key).execute()], [delete(key)] *)
  kv_bytes : string -> stm K WorkerError (option (list byte));
  kv_list : string -> stm K WorkerError (list string);
  kv_del : string -> stm K WorkerError unit;
  (** [put_bytes(key, body)], then [expiration] and [execute] *)
  kv_put_bytes : string -> list byte -> res WorkerError unit;
  kv_execute : string -> list byte -> option Time -> stm K WorkerError unit;
}.

Record kv_response : Type := MkKvResponse { kv_status : StatusCode; kv_body : list byte }.

Section Kv.
Context `{BP : BuildProfile} {K : Type} `{KV : KvStore K} (now_millis : N).

Definition string_bytes (s : string) : list byte := String.list_byte_of_string s.

Definition kv_get (key : string) : stm K WorkerError kv_response :=
  _ ← lift kv_binding;
  o ← retry (fun _ => kv_bytes key);
  match o with
  | Some bytes => mret (MkKvResponse OK bytes)
  | None => mret (MkKvResponse NOT_FOUND (string_bytes "value not found"))
  end.

(** [put.expiration(..)] *)
Definition put_expiration (expiration : option Time) : res WorkerError (option Time) :=
  match expiration with
  | Some t => t ← at_least_60s_from_now now_millis t; Ok (Some t)
  | None => Ok None
  end.

(** [if let Err(error) = .. { warn!(..) }] *)
Definition swallow (m : stm K WorkerError unit) : stm K WorkerError unit := fun s =>
  match m s with
  | (Panic, s) => (Panic, s)
  | (_, s) => (Ok tt, s)
  end.

(** The put both handlers make; its errors are swallowed. *)
Definition put_swallowing (key : string) (body : list byte) (expiration : option Time) :
    stm K WorkerError unit :=
  match kv_put_bytes (K:=K) key body with
  | Ok _ =>
      expiration ← lift (put_expiration expiration);
      swallow (retry (fun _ => kv_execute key body expiration))
  | Err _ => mret tt
  | Panic => lift Panic
  end.

Definition kv_put (expiration : option Time) (key : string) (body : list byte) :
    stm K WorkerError kv_response :=
  _ ← lift kv_binding;
  _ ← put_swallowing key body expiration;
  mret (MkKvResponse OK []).

Definition kv_put_if_not_exists (expiration : option Time) (key : string) (body : list byte) :
    stm K WorkerError kv_response :=
  _ ← lift kv_binding;
  keys ← retry (fun _ => kv_list key);
  if bool_decide (key ∈ keys) then mret (MkKvResponse CONFLICT [])
  else
    _ ← put_swallowing key body expiration;
    mret (MkKvResponse OK []).

Definition kv_delete (key : string) : stm K WorkerError kv_response :=
  _ ← lift kv_binding;
  _ ← retry (fun _ => kv_del key);
  mret (MkKvResponse OK []).

(** The routes under [KV_PATH_PREFIX]; [routing::get] serves HEAD too.  A handler's error becomes
    a response. *)
Definition kv_route (method : HttpMethod) (expiration : option Time) (key : string)
    (body : list byte) : option (stm K WorkerError kv_response) :=
  match method with
  | GET | HEAD => Some (kv_get key)
  | POST => Some (kv_put expiration key body)
  | PUT => Some (kv_put_if_not_exists expiration key body)
  | DELETE => Some (kv_delete key)
  | OTHER => None
  end.
End Kv.

(** ** Durable objects *)
Section Objects.
Context `{BP : BuildProfile} `{PC : PrioCodec} `{PA : PrioAgg} `{PV : !PrioVec} `{PE : !PrioElemBytes}.
Context `{DS : DurableStorage} `{CP : Capnp}.

(** [req_parse] *)
Definition req_parse (body : list byte) : res WorkerError AggregateStoreMergeReq :=
  map_err (fun _ => RustError "{e}") (decode_from_bytes body).

(** The [match] of [handle] on the path of the request. *)
Definition parse_store_request (path : string) (body : list byte) : res WorkerError store_request :=
  match AggregateStore_try_from_uri path with
  | Some M_GetMerged => Ok GetMerged
  | Some M_Merge => req ← req_parse body; Ok (Merge req)
  | Some M_Get => Ok Get
  | Some M_MarkCollected => Ok MarkCollected
  | Some M_CheckCollected => Ok CheckCollected
  | None => Err int_err
  end.

(** [fetch] of the object, from the path and the body of the HTTP request *)
Definition http_fetch (path : string) (body : list byte) : stm AggregateStoreDO WorkerError store_response :=
  _ ← on_storage storage_set_alarm;
  req ← lift (parse_store_request path body);
  handle req.

(** *** The platform *)
Class DurableNamespace (W : Type) : Type := {
  (** [Request::new_with_init], with the path of the URL and the body *)
  request_new : string -> list byte -> res WorkerError unit;
  (** [env.durable_object(binding)] with [id_from_name] or [id_from_string] *)
  locate : string -> ObjectIdFrom -> res WorkerError unit;
  (** [get_stub] and [http_request.clone()] *)
  get_stub : string -> ObjectIdFrom -> stm W WorkerError unit;
  (** [fetch_with_request], with the conversion of the response *)
  stub_fetch : string -> ObjectIdFrom -> string -> list byte -> stm W WorkerError store_response;
}.

(** The closure that is repeated: a stub of the object, and the request to it *)
Definition do_attempt {W} `{DN : DurableNamespace W} (binding : string) (id : ObjectIdFrom) (uri : string)
    (body : list byte) : stm W WorkerError store_response :=
  _ ← get_stub binding id;
  stub_fetch binding id uri body.

(** [uri] is the path of the URL the request is sent to. *)
Definition handle_do_request {W} `{DN : DurableNamespace W} (uri : string) (body : list byte) :
    stm W WorkerError store_response :=
  durable_request ← lift (map_err (fun _ => RustError "invalid format: {e:?}")
                            (DurableRequest_try_from body));
  if u32_max <? len (dr_body durable_request) then throw (RustError "buffer is too long {}")
  else
    _ ← lift (request_new (W:=W) uri (dr_body durable_request));
    _ ← lift (locate (W:=W) (dr_binding durable_request) (dr_id durable_request));
    retry (fun _ => do_attempt (dr_binding durable_request) (dr_id durable_request) uri
                      (dr_body durable_request)).
End Objects.
