(* ===== verification/StorageProxyCorrect.v ===== *)
(** * A merge through the storage proxy happens at most once

    The proxy repeats a request until a durable object answers, at most five times; requests
    and answers may get lost, objects may be evicted, storage may fail, and an object whose
    request failed may be started anew or stay in memory ([DurableNamespaceLaws]).  With
    replay protection a merge still takes place at most once, and exactly once when it is
    acknowledged, unless it failed on an object that stayed in memory ([proxied_merge_once]). *)

From S2P Require Import Prelude Codec Messages TaskprovMessages Errors Config AggShare.
From S2P Require Import DurableStore DurableChunks DurableStoreCorrect DurableRun.
From S2P Require Import DurableRequests DurableRequestsCorrect StorageProxy.

(** ** Repeating *)
Section Retry.
Context {S E T : Type}.

(** An invariant of failed attempts is one of [retry]. *)
Lemma retry_wp (f : N -> stm S E T) (Q : T -> S -> Prop) (I : S -> Prop) s :
  (forall k s, I s -> wp (f k) Q I s) -> I s -> wp (retry f) Q I s.
Proof.
  intros Hf. unfold retry. generalize 1. generalize RETRY_DELAYS as delays. intros delays k.
  revert s k. induction delays as [|d delays IH]; intros s k Hs; unfold wp; cbn [retry_loop];
    specialize (Hf k s Hs); unfold wp in Hf; destruct (f k s) as [[x|e|] s'];
    [done|done|done|done| |done].
  by apply IH.
Qed.
End Retry.

Section Proxy.
Context `{BP : BuildProfile} `{PC : PrioCodec} {PL : PrioCodecLaws PC}.
Context `{PA : PrioAgg} `{PV : !PrioVec} {VL : PrioVecLaws PV}.
Context `{PE : !PrioElemBytes} {EL : PrioElemBytesLaws PE}.
Context `{DS : DurableStorage} {DL : DurableStorageLaws DS} `{CP : Capnp} {CL : CapnpLaws CP}.

(** ** Delivery of a request *)

(** An object may be evicted while it is not in use. *)
Definition same_or_restarted (st st' : AggregateStoreDO) : Prop := st' = st \/ st' = restart st.

(** What may become of a request to an object: it is lost; it is answered; or it is handled, with
    whatever outcome, and no answer arrives. *)
Inductive delivery (path : string) (body : list byte) (st : AggregateStoreDO) :
    res WorkerError store_response -> AggregateStoreDO -> Prop :=
| delivery_lost e st' : same_or_restarted st st' -> delivery path body st (Err e) st'
| delivery_answered st0 resp st1 :
    same_or_restarted st st0 -> http_fetch path body st0 = (Ok resp, st1) ->
    delivery path body st (Ok resp) st1
| delivery_unanswered st0 r st1 st' e :
    same_or_restarted st st0 -> http_fetch path body st0 = (r, st1) ->
    same_or_restarted st1 st' -> delivery path body st (Err e) st'.

Class DurableNamespaceLaws {W} (DN : DurableNamespace W) : Type := {
  object_at : W -> ObjectIdFrom -> AggregateStoreDO;
  get_stub_law b id w r w' :
    get_stub b id w = (r, w') -> r <> Panic /\
    same_or_restarted (object_at w id) (object_at w' id) /\
    (forall id', id' <> id -> object_at w' id' = object_at w id');
  stub_fetch_law b id path body w r w' :
    stub_fetch b id path body w = (r, w') ->
    delivery path body (object_at w id) r (object_at w' id) /\
    (forall id', id' <> id -> object_at w' id' = object_at w id');
}.

Lemma http_fetch_eq path body req st :
  parse_store_request path body = Ok req -> http_fetch path body st = fetch req st.
Proof.
  intros Hp. unfold http_fetch, fetch, mbind, stm_bind, lift.
  destruct (on_storage storage_set_alarm st) as [[u|e|] st1]; [|done..]. by rewrite Hp.
Qed.

(** *** A merge with replay protection *)

(** The reports of the request are new to the bucket and can be merged into it. *)
Definition fresh_merge (a : bucket) (req : AggregateStoreMergeReq) (share : DapAggregateShare) : Prop :=
  merge_skip_replay_protection req = false /\ b_collected a = false /\
  merge_contained_reports req <> [] /\ NoDup (merge_contained_reports req) /\
  DapAggregateShare_report_count (merge_agg_share_delta req) = len (merge_contained_reports req) /\
  repeat_ids (merge_contained_reports req) (b_ids a) = ∅ /\
  DapAggregateShare_merge (b_share a) (merge_agg_share_delta req) = Ok share.

Definition merged (a : bucket) (req : AggregateStoreMergeReq) (share : DapAggregateShare) : bucket :=
  MkBucket (b_ids a ∪ list_to_set (merge_contained_reports req)) share false.

Lemma repeat_all (ids : list ReportId) (old : gset ReportId) :
  repeat_ids ids (old ∪ list_to_set ids) = list_to_set ids.
Proof. apply set_eq. intros id. rewrite repeat_ids_spec, elem_of_union, elem_of_list_to_set. tauto. Qed.

Lemma list_to_set_nonempty (ids : list ReportId) : ids <> [] -> (list_to_set ids : gset ReportId) <> ∅.
Proof.
  destruct ids as [|id ids]; [done|]. intros _ H.
  assert (id ∈ (∅ : gset ReportId)) as []%not_elem_of_empty. rewrite <-H. set_solver.
Qed.

Lemma fresh_merge_step a req share :
  fresh_merge a req share ->
  spec_step a (Merge req) = Some (Resp_Merge MergeResp_Ok, merged a req share) /\
  spec_step (merged a req share) (Merge req) = Some (Resp_Merge MergeResp_Ok, merged a req share).
Proof.
  intros (Hskip & Hcol & Hne & Hnd & Hcnt & Hrep & Hm). cbn [spec_step]. split.
  - unfold spec_merge. rewrite Hcol, Hskip, Hm, bool_decide_true by done. cbn. unfold merge_ids. by rewrite Hskip.
  - unfold spec_merge, merged. cbn [b_collected b_ids b_share]. rewrite Hskip, repeat_all.
    rewrite bool_decide_false by by apply list_to_set_nonempty. cbn [orb].
    rewrite size_list_to_set, Hcnt by done. unfold len. by rewrite N.eqb_refl.
Qed.

Lemma fresh_merge_fits a req share :
  fresh_merge a req share -> merge_fits a req -> merge_fits (merged a req share) req.
Proof.
  intros (Hskip & Hcol & Hne & Hnd & Hcnt & Hrep & Hm) (H1 & H2 & _). split; [done|]. split; [done|].
  intros [_ [H|H]]; [congruence|]. unfold merged in H. cbn [b_ids] in H. rewrite repeat_all in H.
  by apply list_to_set_nonempty in H.
Qed.

(** The merge failed on an instance of the object that is still in memory. *)
Definition kept (a : bucket) (req : AggregateStoreMergeReq) (st : AggregateStoreDO) : Prop :=
  unsaved a req st /\ exists st0 e st1, coherent st0 a /\ fetch (Merge req) st0 = (Err e, st1).

(** Before the merge, after it, or after one that failed *)
Definition one_of (a : bucket) (req : AggregateStoreMergeReq) (share : DapAggregateShare)
    (st : AggregateStoreDO) : Prop :=
  coherent st a \/ kept a req st \/ coherent st (merged a req share).

Section Once.
Context (a : bucket) (req : AggregateStoreMergeReq) (share : DapAggregateShare).
Hypothesis Hfresh : fresh_merge a req share.
Hypothesis Hfits : merge_fits a req.

(** What the storage of such an object has: the reports at most once. *)
Lemma kept_restart st : kept a req st -> coherent (restart st) a \/ coherent (restart st) (merged a req share).
Proof.
  intros [[[Hu|(resp & b & Hb & Hu)] _] _]; [left; by apply recoverable_restart|right].
  destruct (fresh_merge_step _ _ _ Hfresh) as [Hs _]. rewrite Hs in Hb. injection Hb as _ <-.
  by apply recoverable_restart.
Qed.

Lemma one_of_restarted st st' : one_of a req share st -> same_or_restarted st st' -> one_of a req share st'.
Proof.
  intros H [->| ->]; [done|]. destruct H as [H|[H|H]].
  - left. by apply recoverable_restart, coherent_recoverable.
  - destruct (kept_restart _ H) as [H'|H']; [by left|by right; right].
  - right; right. by apply recoverable_restart, coherent_recoverable.
Qed.

(** The alarm leaves the rest of the object. *)
Lemma fetch_split st r st' :
  fetch (Merge req) st = (r, st') ->
  exists s, contents s = contents (do_state st) /\
    ((exists e, r = Err e) /\ st' = with_storage st s \/
     handle (Merge req) (with_storage st s) = (r, st')).
Proof.
  unfold fetch, mbind, stm_bind, on_storage.
  destruct (storage_set_alarm (do_state st)) as [[u|e|] s] eqn:E; apply storage_set_alarm_law in E as [Hs Hp];
    [| |done]; intros H; exists s; (split; [done|]); [by right|left].
  injection H as <- <-. by split; [eexists|].
Qed.

(** The request at an object in one of these states. *)
Lemma fetch_merge_once st r st' :
  one_of a req share st -> fetch (Merge req) st = (r, st') ->
  match r with
  | Ok resp => resp = Resp_Merge MergeResp_Ok /\ (coherent st' (merged a req share) \/ kept a req st')
  | Err _ => one_of a req share st'
  | Panic => False
  end.
Proof.
  intros Hst Hf. destruct (fresh_merge_step _ _ _ Hfresh) as [Hs Hs'].
  pose proof (fresh_merge_fits _ _ _ Hfresh Hfits) as Hfits'.
  pose proof Hfresh as (Hskip & Hcol & Hne & Hnd & Hcnt & Hrep & Hm).
  destruct Hst as [Hco|[Hk|Hco]].
  - pose proof (fetch_wp st a (Merge req) Hco Hfits) as Hw. unfold wp in Hw. rewrite Hf in Hw.
    destruct r as [resp|e|]; [|clear Hw|done].
    { destruct Hw as (b & Hb & Hw). rewrite Hs in Hb. injection Hb as <- <-. split; [done|by left]. }
    assert (exists st0 e st1, coherent st0 a /\ fetch (Merge req) st0 = (Err e, st1)) as Hex by eauto.
    destruct (fetch_split _ _ _ Hf) as (s & Hsame & [[_ ->]|Hh]); [left; by apply coherent_storage|].
    cbn [handle] in Hh. unfold mbind, stm_bind in Hh.
    pose proof (handle_merge_failed (with_storage st s) a req (coherent_storage _ _ _ Hsame Hco) Hfits Hskip Hcol)
      as Hw. unfold wp in Hw. destruct (handle_merge req (with_storage st s)) as [[v|e'|] t]; [done| |done].
    injection Hh as _ ->. destruct Hw as [Hw|[_ Hw]]; [by left|right; left]. by split.
  - destruct Hk as [Hu Hex]. destruct (fetch_split _ _ _ Hf) as (s & Hsame & [[[e ->] ->]|Hh]).
    { right; left. split; [by apply unsaved_storage|done]. }
    cbn [handle] in Hh. unfold mbind, stm_bind in Hh.
    rewrite (handle_merge_unsaved a) in Hh; try done; [|by apply unsaved_storage|].
    { injection Hh as <- <-. split; [done|right]. split; [by apply unsaved_storage|done]. }
    rewrite <-Hcnt. apply Hfits.
  - pose proof (fetch_wp st _ (Merge req) Hco Hfits') as Hw. unfold wp in Hw. rewrite Hf in Hw.
    destruct r as [resp|e|]; [|clear Hw|done].
    { destruct Hw as (b & Hb & Hw). rewrite Hs' in Hb. injection Hb as <- <-. split; [done|by left]. }
    right; right. destruct (fetch_split _ _ _ Hf) as (s & Hsame & [[_ ->]|Hh]); [by apply coherent_storage|].
    cbn [handle] in Hh. unfold mbind, stm_bind in Hh.
    pose proof (handle_merge_failed (with_storage st s) _ req (coherent_storage _ _ _ Hsame Hco) Hfits' Hskip eq_refl)
      as Hw. unfold wp in Hw. destruct (handle_merge req (with_storage st s)) as [[v|e'|] t]; [done| |done].
    injection Hh as _ ->. destruct Hw as [Hw|[He _]]; [done|]. unfold merged in He. cbn [b_ids] in He.
    rewrite repeat_all in He. by apply list_to_set_nonempty in He.
Qed.

Lemma delivery_once path body st r st' :
  parse_store_request path body = Ok (Merge req) -> one_of a req share st -> delivery path body st r st' ->
  match r with
  | Ok resp => resp = Resp_Merge MergeResp_Ok /\ (coherent st' (merged a req share) \/ kept a req st')
  | Err _ => one_of a req share st'
  | Panic => False
  end.
Proof.
  intros Hp Hst Hd. destruct Hd as [e st' H|st0 resp st1 H0 H|st0 r st1 st' e H0 H H1].
  - by eapply one_of_restarted.
  - rewrite (http_fetch_eq _ _ _ _ Hp) in H. eapply (fetch_merge_once st0 (Ok resp)); [|done].
    by eapply one_of_restarted.
  - rewrite (http_fetch_eq _ _ _ _ Hp) in H. eapply one_of_restarted; [|exact H1].
    eapply fetch_merge_once in H; [|by eapply one_of_restarted]. unfold one_of.
    destruct r as [resp|e'|]; [destruct H as [_ [H|H]]; auto|done|done].
Qed.
End Once.

Section Merge.
Context {W : Type} {DN : DurableNamespace W} {DNL : DurableNamespaceLaws DN}.

(** The answer of the proxy to a merge with new reports. *)
Lemma handle_merge_request (env : DurableRequest (list byte)) (req : AggregateStoreMergeReq)
    (a : bucket) (share : DapAggregateShare) (bs : list byte) (w : W) :
  coherent (object_at w (dr_id env)) a -> fresh_merge a req share -> merge_fits a req ->
  sendable req -> encode_to_bytes req = Ok bs -> len bs <= u32_max ->
  request_new (W:=W) (AggregateStore_to_uri M_Merge) bs <> Panic ->
  locate (W:=W) (dr_binding env) (dr_id env) <> Panic ->
  let '(r, w') := handle_do_request (AggregateStore_to_uri M_Merge)
                    (into_bytes (with_body env bs)) w in
  match r with
  | Ok resp => resp = Resp_Merge MergeResp_Ok /\
      (coherent (object_at w' (dr_id env)) (merged a req share) \/ kept a req (object_at w' (dr_id env)))
  | Err _ => one_of a req share (object_at w' (dr_id env))
  | Panic => False
  end /\ (forall id, id <> dr_id env -> object_at w' id = object_at w id).
Proof.
  intros Hco Hfresh Hfit Hsend Henc Hlen Hnew Hloc.
  destruct (merge_payload_round_trip req Hsend) as (bs' & Henc' & Hdec).
  rewrite Henc in Henc'. injection Henc' as <-. unfold handle_do_request.
  erewrite bind_step by (unfold lift; by rewrite durable_request_try_from_bytes).
  cbn [with_body dr_body dr_binding dr_id]. rewrite (proj2 (N.ltb_ge _ _)) by done.
  set (path := AggregateStore_to_uri M_Merge) in *. unfold mbind, stm_bind, lift.
  destruct (request_new (W:=W) path bs) as [[]|e|]; [|split; [by left|done]|done].
  destruct (locate (W:=W) (dr_binding env) (dr_id env)) as [[]|e|]; [|split; [by left|done]|done].
  set (I := fun v => one_of a req share (object_at v (dr_id env)) /\
    (forall id, id <> dr_id env -> object_at v id = object_at w id)).
  set (Q := fun resp v => (resp = Resp_Merge MergeResp_Ok /\
      (coherent (object_at v (dr_id env)) (merged a req share) \/ kept a req (object_at v (dr_id env)))) /\
    (forall id, id <> dr_id env -> object_at v id = object_at w id)).
  assert (wp (retry (fun _ => do_attempt (dr_binding env) (dr_id env) path bs)) Q I w) as H.
  { apply retry_wp; [|by split; [left|]]. intros _ v [Hv Hoth]. unfold wp, do_attempt, mbind, stm_bind.
    destruct (get_stub _ _ v) as [r0 v0] eqn:Hg. apply get_stub_law in Hg as (Hr0 & Hv0 & Hother0).
    assert (I v0) as [Hone Hoth0].
    { split; [by eapply one_of_restarted|]. intros id Hid. rewrite Hother0 by done. by apply Hoth. }
    destruct r0 as [[]|e|]; [|done|done].
    destruct (stub_fetch _ _ _ bs v0) as [r v'] eqn:Hf. apply stub_fetch_law in Hf as [Hd Hother].
    assert (forall id, id <> dr_id env -> object_at v' id = object_at w id) as Hoth'.
    { intros id Hid. rewrite Hother by done. by apply Hoth0. }
    eapply delivery_once in Hd; [|exact Hfresh|exact Hfit| |exact Hone].
    - by destruct r.
    - unfold parse_store_request, req_parse, path. rewrite method_from_uri, Hdec. done. }
  unfold wp in H. destruct (retry _ w) as [[resp|e|] w']; by destruct H.
Qed.

(** Merging through the storage proxy is at most once.  A merge with new reports and
    replay protection is sent to the proxy in its envelope; the proxy attempts it up to five
    times, while requests and answers may be lost, the object evicted or kept, its storage
    fail at any write.  If the proxy answers, the answer is [Ok] and the bucket has the reports
    merged once, or the merge failed on an instance of the object that is still in memory; if
    it fails, the bucket is as before, has them merged once, or the same holds.  No other
    object has changed. *)
Theorem proxied_merge_once (env : DurableRequest (list byte)) (req : AggregateStoreMergeReq)
    (a : bucket) (share : DapAggregateShare) (bs : list byte) (w : W) :
  coherent (object_at w (dr_id env)) a -> fresh_merge a req share -> merge_fits a req ->
  sendable req -> encode_to_bytes req = Ok bs -> len bs <= u32_max ->
  request_new (W:=W) (AggregateStore_to_uri M_Merge) bs <> Panic ->
  locate (W:=W) (dr_binding env) (dr_id env) <> Panic ->
  let '(r, w') := handle_do_request (AggregateStore_to_uri M_Merge)
                    (into_bytes (with_body env bs)) w in
  match r with
  | Ok resp => resp = Resp_Merge MergeResp_Ok /\
      (coherent (object_at w' (dr_id env)) (merged a req share) \/ kept a req (object_at w' (dr_id env)))
  | Err _ => one_of a req share (object_at w' (dr_id env))
  | Panic => False
  end /\ (forall id, id <> dr_id env -> object_at w' id = object_at w id).
Proof. apply handle_merge_request. Qed.
End Merge.
End Proxy.
