(* ===== verification/StateCleaner.v ===== *)
(** * The cleaner of the storage, for tests

    [src/crates/daphne-worker/src/durable/test_state_cleaner.rs] and what [durable/mod.rs] and
    [storage_proxy/mod.rs] have for it with the feature [test-utils]: a durable object that
    keeps a queue of references to all other objects, with which tests clear the storage.
    An object registers itself at its first request, and deletes its storage when the cleaner
    asks it to.

    The state is that of all objects of a deployment: the objects of buckets, whose storage is
    that of [DurableStore], the queue of the cleaner over the class [CleanerStorage], and the
    failures of the calls between objects that are to come ([call_fault]). *)

From Stdlib Require Import Ascii.
From S2P Require Import Prelude Codec Messages TaskprovMessages Errors Config AggShare.
From S2P Require Import DurableStore DurableRequests StorageProxy.

(** ** [bindings::TestStateCleaner] *)
Inductive TestStateCleaner : Type := TestStateCleaner_Put | TestStateCleaner_DeleteAll.

Definition TestStateCleaner_to_uri (m : TestStateCleaner) : string :=
  match m with
  | TestStateCleaner_Put => "/internal/do/test_state_cleaner/put"
  | TestStateCleaner_DeleteAll => "/internal/do/delete_all"
  end.

Definition TestStateCleaner_try_from_uri (s : string) : option TestStateCleaner :=
  if String.eqb s (TestStateCleaner_to_uri TestStateCleaner_Put) then Some TestStateCleaner_Put
  else if String.eqb s (TestStateCleaner_to_uri TestStateCleaner_DeleteAll) then Some TestStateCleaner_DeleteAll
  else None.

Definition TestStateCleaner_BINDING : string := "DAP_TEST_STATE_CLEANER".
Definition NAME_STR : string := "test_do_cleaner".

(** Reference to an object; [binding] is its class. *)
Record DurableReference : Type := MkDurableReference {
  ref_binding : string;
  ref_id_hex : string;
  ref_task_id : option TaskId;
}.

(** ** Keys of the queue *)

(** [{:020}] of a number of at most twenty digits *)
Definition decimal_digit (n : N) : Ascii.ascii := Ascii.ascii_of_N (48 + n mod 10).

Fixpoint zero_pad (width : nat) (n : N) : string :=
  match width with
  | O => EmptyString
  | S width => String (decimal_digit (n / 10 ^ N.of_nat width)) (zero_pad width n)
  end.

Record DurableOrdered (T : Type) : Type := MkDurableOrdered {
  ord_item : T;
  ord_prefix : string;
  ord_ordinal : string;
}.
Arguments MkDurableOrdered {T}. Arguments ord_item {T}. Arguments ord_prefix {T}. Arguments ord_ordinal {T}.

Section Keys.
Context `{HX : HexCodec}.

(** [time] is the clock in seconds and [nonce] random. *)
Definition new_roughly_ordered {T} (time : N) (nonce : list byte) (item : T) (prefix : string) : DurableOrdered T :=
  MkDurableOrdered item prefix ("time/" ++ zero_pad 20 time ++ "/nonce/" ++ hex_encode nonce)%string.

Definition DurableOrdered_key {T} (self : DurableOrdered T) : string :=
  (ord_prefix self ++ "/item/" ++ ord_ordinal self)%string.
End Keys.

(** ** The storage of the cleaner *)
Class CleanerStorage (Q : Type) : Type := {
  queue_put : string -> DurableReference -> stm Q WorkerError unit;
  (** [list_with_options]: the entries of a prefix, at most as many as the limit *)
  queue_list : string -> option N -> stm Q WorkerError (list (string * DurableReference));
  queue_delete_all : stm Q WorkerError unit;
}.

Class CleanerStorageLaws {Q} (C : CleanerStorage Q) : Type := {
  queue : Q -> gmap string DurableReference;
  queue_put_law k r q res q' :
    queue_put k r q = (res, q') ->
    write_result res (fun t => queue t = queue q) (fun t => queue t = <[k := r]> (queue q)) q';
  queue_list_law prefix q l q' :
    queue_list prefix None q = (Ok l, q') -> queue q' = queue q /\
    forall k r, In (k, r) l <-> queue q !! k = Some r /\ String.prefix prefix k = true;
  queue_list_fails prefix limit q e q' :
    queue_list prefix limit q = (e, q') -> queue q' = queue q;
  queue_delete_all_law q res q' :
    queue_delete_all q = (res, q') ->
    write_result res (fun t => queue t = queue q) (fun t => queue t = ∅) q';
}.

(** What happens to a call from one object to another: it is made, it does not arrive, or its
    response does not. *)
Inductive call_fault : Type := Call_Fine | Call_Refused | Call_Late.

Section Cleaner.
Context `{BP : BuildProfile} `{PC : PrioCodec} `{PA : PrioAgg} `{PV : !PrioVec} `{PE : !PrioElemBytes}
  `{DS : DurableStorage} `{CP : Capnp} `{HX : HexCodec}.
Context {Q : Type} `{CS : !CleanerStorage Q} (empty_storage : storage).

Record fleet : Type := MkFleet {
  fl_objects : gmap string AggregateStoreDO;
  fl_queue : Q;
  fl_faults : list call_fault;
}.

Abbreviation fleetm A := (stm fleet WorkerError A).

(** An object that is not in memory *)
Definition new_object (s : storage) : AggregateStoreDO := MkStore s None None None None.

Definition object_of (fl : fleet) (id : string) : AggregateStoreDO :=
  default (new_object empty_storage) (fl_objects fl !! id).

Definition on_object {A} (id : string) (m : stm AggregateStoreDO WorkerError A) : fleetm A := fun fl =>
  let '(r, o) := m (object_of fl id) in (r, MkFleet (<[id := o]> (fl_objects fl)) (fl_queue fl) (fl_faults fl)).

Definition on_queue {A} (m : stm Q WorkerError A) : fleetm A := fun fl =>
  let '(r, q) := m (fl_queue fl) in (r, MkFleet (fl_objects fl) q (fl_faults fl)).

(** [durable_request]: a call to another object *)
Definition remote {A} (m : fleetm A) : fleetm A := fun fl =>
  let run fl := let '(r, fl) := m fl in (match r with Panic => Err WorkerOther | r => r end, fl) in
  match fl_faults fl with
  | [] => run fl
  | Call_Fine :: fs => run (MkFleet (fl_objects fl) (fl_queue fl) fs)
  | Call_Refused :: fs => (Err WorkerOther, MkFleet (fl_objects fl) (fl_queue fl) fs)
  | Call_Late :: fs => (Err WorkerOther, (m (MkFleet (fl_objects fl) (fl_queue fl) fs)).2)
  end.

(** *** [durable/mod.rs] *)
Definition state_set_if_not_exists {T} (of_js : JsValue -> option T) (to_js : T -> JsValue) (key : string) (val : T) :
    stm storage WorkerError (option T) :=
  curr_val ← state_get of_js key;
  match curr_val with
  | Some _ => mret curr_val
  | None => _ ← storage_put key (to_js val); mret None
  end.

(** *** The cleaner: [Put] *)

(** [draw] is the time and the nonce of the key; [None] is a body that is no reference. *)
Definition cleaner_put (draw : N * list byte) (body : option DurableReference) : fleetm unit :=
  durable_ref ← lift (unwrap body);
  if negb (String.eqb (ref_binding durable_ref) (BINDING AggregateStoreMethod)) then throw int_err
  else
    let queued := new_roughly_ordered draw.1 draw.2 durable_ref "object" in
    on_queue (queue_put (DurableOrdered_key queued) (ord_item queued)).

(** *** The objects *)
Definition DELETE_ALL_IS_SETUP : string := "delete_all_is_setup".

(** [setup_and_handle_test_cleaner_requests] of the object [id]; whether the request was
    handled *)
Definition setup_and_handle (draw : N * list byte) (id : string) (path : string) : fleetm bool :=
  match TestStateCleaner_try_from_uri path with
  | Some TestStateCleaner_DeleteAll =>
      _ ← on_object id (on_storage storage_delete_all);
      _ ← on_object id (on_storage (storage_put DELETE_ALL_IS_SETUP (js_bool false)));
      mret true
  | _ =>
      o ← on_object id (on_storage (state_set_if_not_exists js_to_bool js_bool DELETE_ALL_IS_SETUP true));
      _ ← if negb (default false o)
          then remote (cleaner_put draw (Some (MkDurableReference (BINDING AggregateStoreMethod) id None)))
          else mret tt;
      mret false
  end.

(** [fetch] of [mk_durable_object!] with the feature; [None] is the response to a request of the
    cleaner. *)
Definition test_fetch (draw : N * list byte) (id : string) (path : string) (body : list byte) :
    fleetm (option store_response) :=
  handled ← setup_and_handle draw id path;
  if handled : bool then mret None else resp ← on_object id (http_fetch path body); mret (Some resp).

(** *** The cleaner: [DeleteAll] *)
Definition MAX_KEYS : N := 128.

(** The loop of [get_front] *)
Fixpoint read_entries (prefix key_prefix : string) (l : list (string * DurableReference)) :
    res WorkerError (list (DurableOrdered DurableReference)) :=
  match l with
  | [] => Ok []
  | (key, item) :: l =>
      if negb (String.prefix key_prefix key) then Err int_err
      else
        rest ← read_entries prefix key_prefix l;
        Ok (MkDurableOrdered item prefix
              (String.substring (String.length key_prefix) (String.length key - String.length key_prefix) key) :: rest)
  end.

Definition get_front (prefix : string) (limit : option N) : fleetm (list (DurableOrdered DurableReference)) :=
  let key_prefix := (prefix ++ "/item/")%string in
  l ← on_queue (queue_list key_prefix (N.min MAX_KEYS <$> limit));
  lift (read_entries prefix key_prefix l).

Definition get_all (prefix : string) : fleetm (list (DurableOrdered DurableReference)) := get_front prefix None.

(** [post_by_id_hex] of [DeleteAll] to every object in the queue *)
Fixpoint delete_objects (refs : list (DurableOrdered DurableReference)) : fleetm unit :=
  match refs with
  | [] => mret tt
  | r :: refs =>
      _ ← remote (test_fetch (0, []) (ref_id_hex (ord_item r)) (TestStateCleaner_to_uri TestStateCleaner_DeleteAll) []);
      delete_objects refs
  end.

Definition cleaner_delete_all : fleetm unit :=
  queued ← get_all "object";
  _ ← delete_objects queued;
  on_queue queue_delete_all.

(** [TestStateCleaner::handle] *)
Definition cleaner_handle (draw : N * list byte) (path : string) (body : option DurableReference) : fleetm unit :=
  match TestStateCleaner_try_from_uri path with
  | Some TestStateCleaner_Put => cleaner_put draw body
  | Some TestStateCleaner_DeleteAll => cleaner_delete_all
  | None => throw int_err
  end.

(** *** [storage_purge] of the proxy *)
Fixpoint kv_delete_keys {K} `{KvStore K} (keys : list string) : stm K WorkerError unit :=
  match keys with
  | [] => mret tt
  | key :: keys => _ ← kv_del key; kv_delete_keys keys
  end.

Definition kv_delete_all {K} `{KvStore K} : stm K WorkerError unit :=
  _ ← lift kv_binding;
  keys ← kv_list EmptyString;
  kv_delete_keys keys.

(** The two parts, which the code runs together; the result is the status of the response. *)
Definition storage_purge {K} `{KvStore K} : stm (K * fleet) Empty_set N := fun '(kv, fl) =>
  let '(r1, kv) := kv_delete_all kv in
  let '(r2, fl) := remote (cleaner_handle (0, []) (TestStateCleaner_to_uri TestStateCleaner_DeleteAll) None) fl in
  (match r1, r2 with
   | Panic, _ | _, Panic => Panic
   | Ok _, Ok _ => Ok 200
   | _, _ => Ok 500
   end, (kv, fl)).
End Cleaner.

(** ** Properties *)

(** ** Order of the keys *)

(** The order of JavaScript strings, by character *)
Fixpoint string_lt (a b : string) : Prop :=
  match a, b with
  | String x a, String y b => N_of_ascii x < N_of_ascii y \/ x = y /\ string_lt a b
  | EmptyString, String _ _ => True
  | _, EmptyString => False
  end.

Lemma decimal_digit_value n : N_of_ascii (decimal_digit n) = 48 + n mod 10.
Proof.
  unfold decimal_digit. apply N_ascii_embedding. pose proof (N.mod_lt n 10 ltac:(done)). lia.
Qed.

(** Padded numbers are ordered as the numbers are. *)
Lemma zero_pad_order width a b : a < 10 ^ N.of_nat width -> b < 10 ^ N.of_nat width -> a < b ->
  string_lt (zero_pad width a) (zero_pad width b).
Proof.
  assert (forall width a b, a mod 10 ^ N.of_nat width < b mod 10 ^ N.of_nat width ->
    string_lt (zero_pad width a) (zero_pad width b)) as H.
  { clear. induction width as [|w IH]; intros a b H; [rewrite !N.mod_1_r in H; lia|]. cbn [zero_pad string_lt].
    rewrite Nat2N.inj_succ, N.pow_succ_r', N.mul_comm in H. rewrite !N.Div0.mod_mul_r in H.
    rewrite !decimal_digit_value. set (p := 10 ^ N.of_nat w) in *.
    assert (p <> 0) as Hp by (apply N.pow_nonzero; done).
    pose proof (N.mod_lt a p Hp). pose proof (N.mod_lt b p Hp).
    destruct (N.lt_trichotomy ((a / p) mod 10) ((b / p) mod 10)) as [Hlt|[Heq|Hgt]].
    - left. lia.
    - right. split; [unfold decimal_digit; by rewrite Heq|]. apply IH. rewrite Heq in H. by apply N.add_lt_mono_r in H.
    - exfalso. assert (p * ((b / p) mod 10) + p <= p * ((a / p) mod 10)) as Hle
        by (rewrite <-N.mul_succ_r; apply N.mul_le_mono_l; by apply N.le_succ_l).
      revert H H0 H1 Hle. generalize (p * ((b / p) mod 10)) (p * ((a / p) mod 10)) (a mod p) (b mod p). intros. lia. }
  intros Ha Hb Hlt. apply H. by rewrite !N.mod_small.
Qed.

Section Correct.
Context `{BP : BuildProfile} `{PC : PrioCodec} `{PA : PrioAgg} `{PV : !PrioVec} `{PE : !PrioElemBytes}
  `{DS : DurableStorage} {DL : DurableStorageLaws DS} `{CP : Capnp} `{HX : HexCodec}.
Context {Q : Type} `{CS : !CleanerStorage Q} {CL : CleanerStorageLaws CS} (empty_storage : storage).
Context (empty_contents : contents empty_storage = ∅).

Abbreviation objects := (fleet (Q:=Q)).
Abbreviation flag := DELETE_ALL_IS_SETUP.

(** ** The invariant *)
Definition object_contents (fl : objects) (id : string) : gmap string JsValue :=
  contents (do_state (object_of empty_storage fl id)).

(** Nothing but that a purge has been here *)
Definition object_clean (fl : objects) (id : string) : Prop :=
  object_contents fl id = ∅ \/ object_contents fl id = {[flag := js_bool false]}.

Definition tracked (fl : objects) (id : string) : Prop :=
  exists k, queue (fl_queue fl) !! k = Some (MkDurableReference (BINDING AggregateStoreMethod) id None) /\
    String.prefix "object/item/" k = true.

Definition cleaner_invariant (fl : objects) : Prop := forall id, object_clean fl id \/ tracked fl id.

Definition draw_key (draw : N * list byte) : string :=
  DurableOrdered_key (new_roughly_ordered draw.1 draw.2 tt "object").

Lemma draw_key_prefix draw : String.prefix "object/item/" (draw_key draw) = true.
Proof. reflexivity. Qed.

(** ** Steps of the fleet *)
Lemma on_object_eq {A} id (m : stm AggregateStoreDO WorkerError A) (fl : objects) r fl' :
  on_object empty_storage id m fl = (r, fl') ->
  exists o, m (object_of empty_storage fl id) = (r, o) /\ object_of empty_storage fl' id = o /\
    (forall id', id' <> id -> object_of empty_storage fl' id' = object_of empty_storage fl id') /\
    fl_queue fl' = fl_queue fl.
Proof.
  unfold on_object. destruct (m (object_of empty_storage fl id)) as [r' o]. intros [= -> <-].
  exists o. split; [done|]. unfold object_of. cbn. rewrite lookup_insert_eq. split_and!; [done| |done].
  intros id' Hne. by rewrite lookup_insert_ne.
Qed.

(** A call on the storage of an object *)
Lemma on_object_storage {A} id (m : stm storage WorkerError A) (fl : objects) r fl' :
  on_object empty_storage id (on_storage m) fl = (r, fl') ->
  exists s, m (do_state (object_of empty_storage fl id)) = (r, s) /\ object_contents fl' id = contents s /\
    (forall id', id' <> id -> object_contents fl' id' = object_contents fl id') /\ fl_queue fl' = fl_queue fl.
Proof.
  intros (o & Hm & Ho & Hne & Hq)%on_object_eq. unfold on_storage in Hm.
  destruct (m (do_state (object_of empty_storage fl id))) as [r' s] eqn:E. injection Hm as -> <-.
  exists s. unfold object_contents. rewrite Ho. split_and!; [done|done| |done].
  intros id' H. by rewrite Hne.
Qed.

Lemma remote_Ok {A} (m : stm objects WorkerError A) (fl : objects) a fl' :
  remote m fl = (Ok a, fl') -> exists fs, m (MkFleet (fl_objects fl) (fl_queue fl) fs) = (Ok a, fl').
Proof.
  destruct fl as [objs q fs]. unfold remote. cbn [fl_faults fl_objects fl_queue].
  destruct fs as [|[] fs]; cbn; try done;
    (destruct (m _) as [[x|e|] fl1] eqn:E; [|done|done]); intros [= -> ->]; by eexists.
Qed.

Lemma cleaner_put_Ok draw id (fl fl' : objects) :
  cleaner_put draw (Some (MkDurableReference (BINDING AggregateStoreMethod) id None)) fl = (Ok tt, fl') ->
  fl_objects fl' = fl_objects fl /\
  queue (fl_queue fl') = <[draw_key draw := MkDurableReference (BINDING AggregateStoreMethod) id None]> (queue (fl_queue fl)).
Proof.
  unfold cleaner_put. intros (r & s1 & Hr & H)%stm_bind_Ok. unfold lift, unwrap in Hr. injection Hr as <- <-.
  cbn [ref_binding] in H. rewrite String.eqb_refl in H. cbn [negb] in H. unfold on_queue in H. destruct (queue_put _ _ (fl_queue fl)) as [r q] eqn:E. injection H as -> <-.
  apply queue_put_law in E. done.
Qed.

Lemma state_set_if_not_exists_Ok (s : storage) val o s' :
  state_set_if_not_exists js_to_bool js_bool flag val s = (Ok o, s') ->
  match o with
  | Some b => contents s' = contents s /\ (contents s !! flag) ≫= js_to_bool = Some b
  | None => contents s !! flag = None /\ contents s' = <[flag := js_bool val]> (contents s)
  end.
Proof.
  unfold state_set_if_not_exists. intros (c & s1 & Hg & H)%stm_bind_Ok. unfold state_get in Hg.
  destruct (storage_get flag s) as [r s2] eqn:E. apply storage_get_law in E as [Ec Er].
  assert (contents s1 = contents s /\ (contents s !! flag ≫= js_to_bool) = c /\ (c = None -> contents s !! flag = None))
    as (Hc & Hb & Hn).
  { unfold get_result in Er. destruct Er as [->|(e & -> & Hne)].
    - destruct (contents s !! flag) as [v|]; cbn.
      + destruct (js_to_bool v) as [b|]; [|done]. by injection Hg as <- <-.
      + rewrite decide_True in Hg by done. by injection Hg as <- <-.
    - rewrite decide_False in Hg by done. done. }
  destruct c as [b|].
  - injection H as <- <-. by rewrite Hc.
  - apply stm_bind_Ok in H as (u & s3 & Hp & [= <- <-]). apply storage_put_law in Hp. cbn in Hp.
    split; [by apply Hn|]. by rewrite Hp, Hc.
Qed.

Lemma tracked_mono (fl fl' : objects) k r id :
  queue (fl_queue fl) !! k = None -> queue (fl_queue fl') = <[k := r]> (queue (fl_queue fl)) ->
  tracked fl id -> tracked fl' id.
Proof.
  intros Hk Hq (k' & Hl & Hp). exists k'. rewrite Hq. split; [|done].
  rewrite lookup_insert_ne; [done|]. intros ->. congruence.
Qed.

Lemma clean_no_flag (fl : objects) id : object_clean fl id -> object_contents fl id !! flag ≫= js_to_bool <> Some true.
Proof. intros [-> | ->]; [done|]. rewrite lookup_singleton_eq. cbn. by rewrite js_bool_to. Qed.

Lemma setup_inv draw id path (fl fl' : objects) o :
  TestStateCleaner_try_from_uri path <> Some TestStateCleaner_DeleteAll ->
  setup_and_handle empty_storage draw id path fl = (Ok o, fl') ->
  exists b fl1, on_object empty_storage id (on_storage (state_set_if_not_exists js_to_bool js_bool flag true)) fl
      = (Ok b, fl1) /\
    (if negb (default false b)
     then remote (cleaner_put draw (Some (MkDurableReference (BINDING AggregateStoreMethod) id None)))
     else mret tt) fl1 = (Ok tt, fl').
Proof.
  intros Hp H. unfold setup_and_handle in H.
  destruct (TestStateCleaner_try_from_uri path) as [[]|]; [|done|];
    apply stm_bind_Ok in H as (b & fl1 & Hs & ([] & fl2 & Hr & [= _ <-])%stm_bind_Ok); by exists b, fl1.
Qed.

(** A request that is let through belongs to a registered object. *)
Lemma setup_tracks draw id path (fl fl' : objects) :
  cleaner_invariant fl -> TestStateCleaner_try_from_uri path <> Some TestStateCleaner_DeleteAll ->
  queue (fl_queue fl) !! draw_key draw = None ->
  setup_and_handle empty_storage draw id path fl = (Ok false, fl') ->
  tracked fl' id /\ (forall id', id' <> id -> object_clean fl' id' \/ tracked fl' id').
Proof.
  intros Hinv Hpath Hfresh H. apply setup_inv in H as (o & fl1 & Hs & Hr); [|done].
  apply on_object_storage in Hs as (s & Hs & Hc & Hne & Hq).
  apply state_set_if_not_exists_Ok in Hs.
  assert (forall id', id' <> id -> object_clean fl1 id' \/ tracked fl1 id') as Hothers.
  { intros id' Hid. destruct (Hinv id') as [Hcl|(k & Ht)]; [left|right; exists k; by rewrite Hq].
    unfold object_clean. by rewrite Hne. }
  destruct o as [[]|]; cbn [default negb] in Hr.
  { injection Hr as <-. destruct Hs as [_ Hb]. split; [|done].
    destruct (Hinv id) as [Hcl|(k & Ht)]; [by apply clean_no_flag in Hcl|exists k; by rewrite Hq]. }
  all: apply remote_Ok in Hr as (fs & Hr); apply cleaner_put_Ok in Hr as [Ho Hqq]; cbn [fl_objects fl_queue] in Ho, Hqq;
    (split; [exists (draw_key draw); rewrite Hqq, lookup_insert_eq; by split|]);
    intros id' Hid; destruct (Hothers id' Hid) as [Hcl|Ht];
    [left; unfold object_clean, object_contents, object_of in *; by rewrite Ho
    |right; eapply (tracked_mono fl1); [by rewrite Hq|exact Hqq|done]].
Qed.

(** ** Purges *)
Lemma delete_one draw id body (fl fl' : objects) o :
  test_fetch empty_storage draw id (TestStateCleaner_to_uri TestStateCleaner_DeleteAll) body fl = (Ok o, fl') ->
  object_contents fl' id = {[flag := js_bool false]} /\
  (forall id', id' <> id -> object_contents fl' id' = object_contents fl id') /\ fl_queue fl' = fl_queue fl.
Proof.
  unfold test_fetch. intros (h & fl1 & H & Hr)%stm_bind_Ok. unfold setup_and_handle in H.
  change (TestStateCleaner_try_from_uri (TestStateCleaner_to_uri TestStateCleaner_DeleteAll))
    with (Some TestStateCleaner_DeleteAll) in H. cbn iota in H.
  apply stm_bind_Ok in H as (u & fl2 & H1 & (u' & fl3 & H2 & [= <- <-])%stm_bind_Ok).
  injection Hr as _ <-. apply on_object_storage in H1 as (s1 & E1 & C1 & N1 & Q1).
  apply on_object_storage in H2 as (s2 & E2 & C2 & N2 & Q2).
  apply storage_delete_all_law in E1. apply storage_put_law in E2. cbn in E1, E2. split_and!.
  - rewrite C2, E2. fold (object_contents fl2 id). by rewrite C1, E1.
  - intros id' Hid. by rewrite N2, N1.
  - congruence.
Qed.

Lemma delete_objects_Ok refs (fl fl' : objects) :
  delete_objects empty_storage refs fl = (Ok tt, fl') ->
  fl_queue fl' = fl_queue fl /\
  forall id, (id ∈ (ref_id_hex ∘ ord_item <$> refs) -> object_contents fl' id = {[flag := js_bool false]}) /\
    (id ∉ (ref_id_hex ∘ ord_item <$> refs) -> object_contents fl' id = object_contents fl id).
Proof.
  revert fl. induction refs as [|r refs IH]; intros fl; cbn [delete_objects].
  - intros [= <-]. split; [done|]. intros id. by split; [intros ?%not_elem_of_nil|].
  - intros (o & fl1 & Hr & H)%stm_bind_Ok. apply remote_Ok in Hr as (fs & Hr).
    apply delete_one in Hr as (C1 & N1 & Q1). apply IH in H as [HQ H]. cbn [fl_queue] in Q1.
    split; [congruence|]. intros id. rewrite fmap_cons. destruct (H id) as [Hin Hout].
    assert (forall id', object_contents (MkFleet (fl_objects fl) (fl_queue fl) fs) id' = object_contents fl id') as E by done.
    destruct (decide (id ∈ (ref_id_hex ∘ ord_item <$> refs))) as [Hi|Hi].
    + split; [by intros _; apply Hin|]. intros Hn. destruct Hn. by right.
    + rewrite (Hout Hi). split.
      * intros [->|?]%elem_of_cons; [done|by destruct Hi].
      * intros [Hne _]%not_elem_of_cons. by rewrite N1, E.
Qed.

Lemma read_entries_items prefix key_prefix l out :
  read_entries prefix key_prefix l = Ok out -> ord_item <$> out = l.*2.
Proof.
  revert out. induction l as [|[k r] l IH]; intros out; cbn [read_entries]; [by intros [= <-]|].
  destruct (negb _); [done|]. intros (rest & H & [= <-])%bind_Ok. rewrite !fmap_cons. cbn. f_equal. by apply IH.
Qed.

(** What a purge that succeeds has deleted: the objects in the queue, and it has emptied it. *)
Lemma cleaner_delete_all_Ok (fl fl' : objects) :
  cleaner_delete_all empty_storage fl = (Ok tt, fl') ->
  queue (fl_queue fl') = ∅ /\
  forall id, (tracked fl id -> object_contents fl' id = {[flag := js_bool false]}) /\
    (object_contents fl' id = {[flag := js_bool false]} \/ object_contents fl' id = object_contents fl id) /\
    ((forall k r, queue (fl_queue fl) !! k = Some r -> ref_id_hex r <> id) ->
     object_contents fl' id = object_contents fl id).
Proof.
  unfold cleaner_delete_all, get_all, get_front.
  intros (refs & fl1 & (l & fl0 & Hl & [= Hr <-])%stm_bind_Ok & ([] & fl2 & Hd & Hq)%stm_bind_Ok)%stm_bind_Ok.
  unfold on_queue in Hl. destruct (queue_list _ _ (fl_queue fl)) as [rl q1] eqn:El. injection Hl as -> <-.
  apply queue_list_law in El as [Hq1 Hin]. apply read_entries_items in Hr.
  apply delete_objects_Ok in Hd as [HQ Hd]. cbn [fl_queue] in HQ.
  unfold on_queue in Hq. destruct (queue_delete_all (fl_queue fl2)) as [rq q2] eqn:Eq. injection Hq as -> <-.
  apply queue_delete_all_law in Eq. cbn in Eq. split; [done|]. intros id.
  assert (forall f, object_contents (MkFleet (fl_objects fl2) q2 f) id = object_contents fl2 id) as -> by done.
  assert (ref_id_hex ∘ ord_item <$> refs = ref_id_hex <$> l.*2) as E by (rewrite <-Hr; by rewrite list_fmap_compose).
  destruct (Hd id) as [H1 H2]. rewrite E in H1, H2. split_and!.
  - intros (k & Hk & Hp). apply H1. apply list_elem_of_fmap.
    exists (MkDurableReference (BINDING AggregateStoreMethod) id None). split; [done|].
    apply list_elem_of_fmap. exists (k, MkDurableReference (BINDING AggregateStoreMethod) id None). split; [done|].
    apply list_elem_of_In, Hin. by split.
  - destruct (decide (id ∈ (ref_id_hex <$> l.*2))); [left; by apply H1|right; by rewrite H2].
  - intros Hno. rewrite H2; [done|]. intros (r & -> & ([k r'] & -> & Hkr%list_elem_of_In%Hin)%list_elem_of_fmap)%list_elem_of_fmap.
    destruct Hkr as [Hkr _]. by apply (Hno k r' Hkr).
Qed.

(** ** Runs *)
Inductive cleaner_step (fl fl' : objects) : Prop :=
| step_request draw id path body fl1 r :
    TestStateCleaner_try_from_uri path <> Some TestStateCleaner_DeleteAll ->
    queue (fl_queue fl) !! draw_key draw = None ->
    setup_and_handle empty_storage draw id path fl = (Ok false, fl1) ->
    on_object empty_storage id (http_fetch path body) fl1 = (r, fl') -> cleaner_step fl fl'
| step_evict id :
    fl' = MkFleet (<[id := new_object (do_state (object_of empty_storage fl id))]> (fl_objects fl)) (fl_queue fl) (fl_faults fl) ->
    cleaner_step fl fl'
| step_purge : cleaner_delete_all empty_storage fl = (Ok tt, fl') -> cleaner_step fl fl'.

Lemma cleaner_step_invariant fl fl' : cleaner_invariant fl -> cleaner_step fl fl' -> cleaner_invariant fl'.
Proof.
  intros Hinv [draw id path body fl1 r Hp Hf Hs Hh|id ->|H].
  - apply setup_tracks in Hs as [Ht Ho]; [|done..]. apply on_object_eq in Hh as (o & _ & _ & Hne & Hq).
    intros id'. destruct (decide (id' = id)) as [->|Hid].
    + right. destruct Ht as (k & Ht). exists k. by rewrite Hq.
    + destruct (Ho id' Hid) as [Hc|(k & Ht')]; [left|right; exists k; by rewrite Hq].
      unfold object_clean, object_contents in *. by rewrite Hne.
  - intros id'. destruct (Hinv id') as [Hc|Ht]; [left|right; exact Ht].
    unfold object_clean, object_contents, object_of in *. cbn.
    destruct (decide (id = id')) as [->|Hid]; [by rewrite lookup_insert_eq|by rewrite lookup_insert_ne].
  - apply cleaner_delete_all_Ok in H as [_ H]. intros id. left. destruct (H id) as (H1 & [H2|H2] & _); [by right|].
    destruct (Hinv id) as [Hc|Ht]; [|right; by apply H1]. unfold object_clean. by rewrite H2.
Qed.

(** The fleet before the first request *)
Definition fleet_empty (fl : objects) : Prop := fl_objects fl = ∅ /\ queue (fl_queue fl) = ∅.

(** No object escapes a purge.  After any run in which no registration failed, a purge that
    succeeds leaves no object with anything in its storage, but for the mark of the purge, and
    nothing in the queue. *)
Theorem purge_complete (fl0 fl fl' : objects) :
  fleet_empty fl0 -> rtc cleaner_step fl0 fl -> cleaner_delete_all empty_storage fl = (Ok tt, fl') ->
  queue (fl_queue fl') = ∅ /\ forall id, object_clean fl' id.
Proof.
  intros [Ho _] Hrun H. assert (cleaner_invariant fl) as Hinv.
  { clear H. revert fl Hrun. apply rtc_ind_r; [|intros fl1 fl2 _ Hstep IH; by eapply cleaner_step_invariant].
    intros id. left. left. unfold object_contents, object_of. by rewrite Ho, lookup_empty. }
  apply cleaner_delete_all_Ok in H as [Hq H]. split; [done|]. intros id.
  destruct (H id) as (H1 & [H2|H2] & _); [by right|].
  destruct (Hinv id) as [Hc|Ht]; [|right; by apply H1]. unfold object_clean. by rewrite H2.
Qed.

(** An object that is not in the queue survives every purge. *)
Lemma untracked_survives id (fl fl' : objects) :
  (forall k r, queue (fl_queue fl) !! k = Some r -> ref_id_hex r <> id) ->
  cleaner_delete_all empty_storage fl = (Ok tt, fl') -> object_contents fl' id = object_contents fl id.
Proof. intros Hno H. apply cleaner_delete_all_Ok in H as [_ H]. by apply H. Qed.

(** An object that believes to be registered does not register again: if it is not in the queue,
    because its registration failed, its requests do not bring it there. *)
Lemma unregistered_stays draw id path (fl fl' : objects) o :
  object_contents fl id !! flag = Some (js_bool true) ->
  TestStateCleaner_try_from_uri path <> Some TestStateCleaner_DeleteAll ->
  setup_and_handle empty_storage draw id path fl = (Ok o, fl') ->
  fl_queue fl' = fl_queue fl /\ object_contents fl' id = object_contents fl id.
Proof.
  intros Hf Hp H. apply setup_inv in H as (b & fl1 & Hs & Hr); [|done].
  apply on_object_storage in Hs as (s & Hs & Hc & _ & Hq). apply state_set_if_not_exists_Ok in Hs.
  fold (object_contents fl id) in Hs. rewrite Hf in Hs. destruct b as [b|]; [|by destruct Hs].
  destruct Hs as [Hc' Hb]. cbn in Hb. rewrite js_bool_to in Hb. injection Hb as <-. injection Hr as <-.
  split; [done|]. by rewrite Hc, Hc'.
Qed.

(** After a purge an object registers at every request, as the mark of the purge is not
    replaced. *)
Lemma purged_registers_again draw id path (fl fl' : objects) :
  object_contents fl id = {[flag := js_bool false]} ->
  TestStateCleaner_try_from_uri path <> Some TestStateCleaner_DeleteAll ->
  setup_and_handle empty_storage draw id path fl = (Ok false, fl') ->
  queue (fl_queue fl') = <[draw_key draw := MkDurableReference (BINDING AggregateStoreMethod) id None]> (queue (fl_queue fl)) /\
  object_contents fl' id = {[flag := js_bool false]}.
Proof.
  intros Hf Hp H. apply setup_inv in H as (b & fl1 & Hs & Hr); [|done].
  apply on_object_storage in Hs as (s & Hs & Hc & _ & Hq). apply state_set_if_not_exists_Ok in Hs.
  fold (object_contents fl id) in Hs. rewrite Hf, lookup_singleton_eq in Hs. destruct b as [b|]; [|by destruct Hs].
  destruct Hs as [Hc' Hb]. cbn in Hb. rewrite js_bool_to in Hb. injection Hb as <-. cbn [default negb] in Hr.
  apply remote_Ok in Hr as (fs & Hr). apply cleaner_put_Ok in Hr as [Ho Hqq]. cbn [fl_objects fl_queue] in Ho, Hqq.
  rewrite Hqq, Hq. split; [done|]. unfold object_contents, object_of in *. by rewrite Ho, Hc, Hc'.
Qed.
End Correct.
