(* ===== verification/Mastic.v ===== *)
(** * Mastic, the stand-in

    [src/crates/daphne/src/vdaf/mastic.rs] (feature [experimental]) with [decode_field_vec] of
    [vdaf/mod.rs]: an insecure simulation of the VDAF Mastic, in which a report carries its
    input and its weight in the clear.  The result has for each prefix of the aggregation
    parameter the number of inputs with weight one that start with it
    ([mastic_counts_prefixes]).

    The field is [Field64] of [prio], an instance of [PrioField].  The other variants of the
    program's types are one constructor each; a prefix is given by its bytes
    ([IdpfInput::to_bytes]). *)

From S2P Require Import Prelude Codec Messages TaskprovMessages Errors Config Pine Taskprov AggShare.
From S2P Require Import Protocol PineField PineMsg.

Inductive MasticWeightConfig : Type := WC_Count.

Inductive MasticWeight : Type := Weight_Bool (b : bool).

Inductive mastic_measurement : Type :=
| Measurement_Mastic (input : list byte) (weight : MasticWeight)
| Measurement_other.

Inductive mastic_agg_param : Type :=
| Param_Mastic (prefixes : list (list byte))
| Param_other.

Section Mastic.
Context `{PC : PrioCodec} `{PF : PrioField}.

Inductive mastic_prep_state : Type :=
| State_Mastic (out_share : list felem)
| State_other.

Inductive mastic_prep_share : Type :=
| Share_Mastic (weight : felem)
| Share_other.

(** [u8::from(counter)] *)
Definition weight_byte (counter : bool) : byte := if counter then Byte.x01 else Byte.x00.

Definition mastic_shard (input_size : N) (weight_config : MasticWeightConfig) (measurement : mastic_measurement) :
    res VdafError (list byte * (list byte * list byte)) :=
  match weight_config, measurement with
  | WC_Count, Measurement_Mastic input (Weight_Bool counter) =>
      if len input =? input_size then Ok (input, ([weight_byte counter], [weight_byte counter]))
      else Err (VdafError_Dap (Fatal (Text "mastic: unexpected measurement type")))
  | _, _ => Err (VdafError_Dap (Fatal (Text "mastic: unexpected measurement type")))
  end.

(** [prefix_bytes == public_share_bytes[..prefix_bytes.len()]] *)
Definition starts_with (prefix input : list byte) : bool :=
  bool_decide (prefix = take (length prefix) input).

(** [value / Field64::from(2)] *)
Definition half (x : felem) : felem := fmul x (finv (of_int 2)).

Definition prefix_value (weight : felem) (input prefix : list byte) : felem :=
  half (if starts_with prefix input then weight else f0).

Fixpoint mastic_out_share (input_size : N) (weight : felem) (public_share : list byte)
    (prefixes : list (list byte)) : res VdafError (list felem) :=
  match prefixes with
  | [] => Ok []
  | prefix :: prefixes =>
      x ← (if input_size <? len prefix
           then Err (VdafError_Codec (Other "mastic: malformed agg param: path with invalid length"))
           else Ok (prefix_value weight public_share prefix));
      xs ← mastic_out_share input_size weight public_share prefixes;
      Ok (x :: xs)
  end.

Definition mastic_prep_init (input_size : N) (weight_config : MasticWeightConfig) (verify_key : VdafVerifyKey)
    (agg_param : mastic_agg_param) (public_share_bytes input_share_bytes : list byte) :
    res VdafError (mastic_prep_state * mastic_prep_share) :=
  match verify_key with
  | L16 _ =>
      match weight_config, agg_param with
      | WC_Count, Param_Mastic prefixes =>
          if negb (len public_share_bytes =? input_size)
          then Err (VdafError_Codec (Other "mastic: malformed public share"))
          else
            match input_share_bytes with
            | [b] =>
                let weight := of_int (Byte.to_N b) in
                out_share ← mastic_out_share input_size weight public_share_bytes prefixes;
                Ok (State_Mastic out_share, Share_Mastic weight)
            | _ => Err (VdafError_Codec (Other "mastic: malformed input share"))
            end
      | _, _ => Err (VdafError_Dap (Fatal (Text "mastic: unexpected agg param type")))
      end
  | L32 _ => Err (VdafError_Dap (Fatal (Text "mastic: unexpected verify key type")))
  end.

(** [PartialEq] of elements *)
Definition felem_eqb (x y : felem) : bool := to_int x =? to_int y.

Definition mastic_prep_finish_from_shares (weight_config : MasticWeightConfig) (host_state : mastic_prep_state)
    (host_share : mastic_prep_share) (peer_share_bytes : list byte) : res VdafError (list felem * list byte) :=
  match weight_config, host_state, host_share with
  | WC_Count, State_Mastic out_share, Share_Mastic host_weight =>
      peer_weight ← map_err VdafError_Codec (get_decoded felem_decode peer_share_bytes);
      if negb (felem_eqb peer_weight host_weight)
      then Err (VdafError_Vdaf (Text "mastic: weights do not match"))
      else if negb (felem_eqb peer_weight f1) && negb (felem_eqb peer_weight f0)
      then Err (VdafError_Vdaf (Text "mastic: weight is out of range"))
      else Ok (out_share, [])
  | _, _, _ => Err (VdafError_Dap (Fatal (Text "mastic: unexpected prep state")))
  end.

Definition mastic_prep_finish (host_state : mastic_prep_state) (peer_message_bytes : list byte) :
    res VdafError (list felem) :=
  match host_state with
  | State_Mastic out_share =>
      match peer_message_bytes with
      | [] => Ok out_share
      | _ => Err (VdafError_Vdaf (Text "mastic: invalid prep message"))
      end
  | State_other => Err (VdafError_Dap (Fatal (Text "mastic: unexpected prep state")))
  end.

(** [read_exact] and [get_decoded], once per element *)
Fixpoint decode_field_vec (n : nat) (bytes : list byte) : res CodecError (list felem) :=
  match n with
  | O => Ok []
  | S n =>
      if ENCODED_SIZE <=? len bytes then
        x ← get_decoded felem_decode (take (N.to_nat ENCODED_SIZE) bytes);
        xs ← decode_field_vec n (drop (N.to_nat ENCODED_SIZE) bytes);
        Ok (x :: xs)
      else Err Io
  end.

(** [for (x, y) in agg.iter_mut().zip(..) { *x += y }] *)
Fixpoint add_assign (agg share : list felem) : list felem :=
  match agg, share with
  | x :: agg, y :: share => fadd x y :: add_assign agg share
  | _, _ => agg
  end.

(** The closure of [reduce] *)
Definition reduce_shares (r agg_share : res CodecError (list felem)) : res CodecError (list felem) :=
  agg ← r;
  share ← agg_share;
  Ok (add_assign agg share).

Definition mastic_unshard (weight_config : MasticWeightConfig) (agg_param : mastic_agg_param)
    (agg_share_bytes : list (list byte)) : res VdafError (list N) :=
  match weight_config, agg_param with
  | WC_Count, Param_Mastic prefixes =>
      match map (decode_field_vec (length prefixes)) agg_share_bytes with
      | [] => Err (VdafError_Dap (Fatal (Text "mastic: unexpected number of agg shares")))
      | r :: rest =>
          agg ← map_err VdafError_Codec (fold_left reduce_shares rest r);
          Ok (map to_int agg)
      end
  | _, _ => Err (VdafError_Dap (Fatal (Text "mastic: unexpected agg param type")))
  end.

(** ** A batch *)

(** One report: the Client shards, both Aggregators prepare, the Helper finishes with the
    prepare share of the Leader and the Leader with the Helper's message.  The output shares
    of the Leader and the Helper. *)
Definition mastic_report (input_size : N) (key : VdafVerifyKey) (param : mastic_agg_param)
    (measurement : mastic_measurement) : res VdafError (list felem * list felem) :=
  '(public, (leader_input, helper_input)) ← mastic_shard input_size WC_Count measurement;
  '(leader_state, leader_share) ← mastic_prep_init input_size WC_Count key param public leader_input;
  '(helper_state, helper_share) ← mastic_prep_init input_size WC_Count key param public helper_input;
  sent ← match leader_share with
         | Share_Mastic w => map_err VdafError_Codec (get_encoded felem_encode w)
         | Share_other => Ok []
         end;
  '(helper_out, message) ← mastic_prep_finish_from_shares WC_Count helper_state helper_share sent;
  leader_out ← mastic_prep_finish leader_state message;
  Ok (leader_out, helper_out).

Fixpoint mastic_reports (input_size : N) (key : VdafVerifyKey) (param : mastic_agg_param)
    (ms : list (list byte * bool)) : res VdafError (list (list felem * list felem)) :=
  match ms with
  | [] => Ok []
  | (input, counter) :: ms =>
      x ← mastic_report input_size key param (Measurement_Mastic input (Weight_Bool counter));
      xs ← mastic_reports input_size key param ms;
      Ok (x :: xs)
  end.

(** The aggregate share of some output shares of length [n] *)
Definition aggregate_shares (n : nat) (outs : list (list felem)) : list felem :=
  foldr add_assign (replicate n f0) outs.

(** The number of inputs of weight one that start with the prefix *)
Definition prefix_count (ms : list (list byte * bool)) (prefix : list byte) : N :=
  len (filter (fun m => m.2 && starts_with prefix m.1) ms).
End Mastic.

Section Correct.
Context `{PC : PrioCodec} {CL : PrioCodecLaws PC} `{PF : PrioField} {PL : PrioFieldLaws PF}.
Add Ring felem_ring_mastic : (felem_ring).

Lemma felem_eqb_refl x : felem_eqb x x = true.
Proof. apply N.eqb_refl. Qed.

Lemma half_add x : fadd (half x) (half x) = x.
Proof.
  unfold half. assert (of_int 2 <> f0) as H2.
  { intros E%(f_equal to_int). rewrite to_of_int, to_int_0 in E by apply modulus_gt_2. done. }
  transitivity (fmul x (fmul (of_int 2) (finv (of_int 2)))).
  - assert (of_int 2 = fadd f1 f1) as -> by (rewrite <-of_int_1; apply (of_int_add 1 1 modulus_gt_2)). ring.
  - rewrite finv_mul by done. ring.
Qed.

Abbreviation weight_of c := (of_int (Byte.to_N (weight_byte c))).

Lemma weight_of_eq c : weight_of c = if c : bool then f1 else f0.
Proof. destruct c; [apply of_int_1|apply of_int_0]. Qed.

Lemma mastic_out_share_Ok input_size w input prefixes :
  Forall (fun p => len p <= input_size) prefixes ->
  mastic_out_share input_size w input prefixes = Ok (prefix_value w input <$> prefixes).
Proof.
  induction 1 as [|p prefixes Hp _ IH]; [done|]. cbn. rewrite (proj2 (N.ltb_ge _ _)) by done. by rewrite IH.
Qed.

Lemma felem_sent w : ENCODED_SIZE < 64 -> exists bs, writes felem_encode w bs /\ get_encoded felem_encode w = Ok bs /\
  get_decoded felem_decode bs = Ok w /\ len bs = ENCODED_SIZE.
Proof.
  intros Hsz. destruct (codec_is_complete (d:=felem_decode) w I) as (bs & Hw & _). exists bs.
  assert (get_encoded felem_encode w = Ok bs) as He by (rewrite get_encoded_spec; apply (Hw [])).
  pose proof (felem_size _ _ Hw) as L. split_and!; [done..| |done].
  destruct (codec_round_trips _ _ _ felem_codec w I) as (bs' & He' & Hd). rewrite He in He'. injection He' as <-.
  apply Hd. rewrite L. unfold slice_max. lia.
Qed.

(** What one report becomes *)
Lemma mastic_report_Ok input_size k prefixes input c :
  ENCODED_SIZE < 64 -> len input = input_size -> Forall (fun p => len p <= input_size) prefixes ->
  mastic_report input_size (L16 k) (Param_Mastic prefixes) (Measurement_Mastic input (Weight_Bool c))
  = Ok (prefix_value (weight_of c) input <$> prefixes, prefix_value (weight_of c) input <$> prefixes).
Proof.
  intros Hsz Hin Hp. unfold mastic_report, mastic_shard. rewrite Hin, N.eqb_refl. cbn [mbind res_bind].
  unfold mastic_prep_init. rewrite Hin, N.eqb_refl. cbn [negb]. rewrite mastic_out_share_Ok by done. cbn [mbind res_bind].
  destruct (felem_sent (weight_of c) Hsz) as (bs & _ & -> & Hd & _). cbn [map_err mbind res_bind].
  unfold mastic_prep_finish_from_shares. rewrite Hd. cbn [map_err mbind res_bind]. rewrite felem_eqb_refl. cbn [negb].
  assert (felem_eqb (weight_of c) f1 || felem_eqb (weight_of c) f0 = true) as Hw.
  { rewrite weight_of_eq. destruct c; rewrite felem_eqb_refl; [done|apply orb_true_r]. }
  rewrite <-negb_orb, Hw. done.
Qed.

Lemma mastic_reports_Ok input_size k prefixes ms :
  ENCODED_SIZE < 64 -> Forall (fun m => len m.1 = input_size) ms -> Forall (fun p => len p <= input_size) prefixes ->
  let outs := (fun m => prefix_value (weight_of m.2) m.1 <$> prefixes) <$> ms in
  mastic_reports input_size (L16 k) (Param_Mastic prefixes) ms = Ok (zip outs outs).
Proof.
  intros Hsz Hms Hp. induction Hms as [|[input c] ms Hm _ IH]; [done|]. cbv zeta in *. cbn [mastic_reports].
  rewrite mastic_report_Ok by done. cbn [mbind res_bind]. by rewrite IH.
Qed.

(** A sum of vectors, column by column *)
Definition total {A} (f : A -> felem) (l : list A) : felem := foldr (fun a acc => fadd (f a) acc) f0 l.

Lemma total_cons {A} (f : A -> felem) a l : total f (a :: l) = fadd (f a) (total f l).
Proof. done. Qed.

Lemma add_assign_fmap {A} (f g : A -> felem) l :
  add_assign (f <$> l) (g <$> l) = (fun a => fadd (f a) (g a)) <$> l.
Proof. induction l as [|a l IH]; [done|]. cbn. by rewrite IH. Qed.

Lemma aggregate_columns {A B} (f : A -> B -> felem) (l : list A) (columns : list B) :
  aggregate_shares (length columns) ((fun a => f a <$> columns) <$> l)
  = (fun b => total (fun a => f a b) l) <$> columns.
Proof.
  unfold aggregate_shares. induction l as [|a l IH]; cbn.
  - induction columns as [|b columns IHc]; [done|]. cbn. by rewrite IHc.
  - rewrite IH. apply (add_assign_fmap (f a) (fun b => total (fun a => f a b) l)).
Qed.

Lemma total_doubles (ms : list (list byte * bool)) p :
  len ms < modulus ->
  to_int (fadd (total (fun m => prefix_value (weight_of m.2) m.1 p) ms)
               (total (fun m => prefix_value (weight_of m.2) m.1 p) ms)) = prefix_count ms p.
Proof.
  intros Hlen. assert (fadd (total (fun m => prefix_value (weight_of m.2) m.1 p) ms)
    (total (fun m => prefix_value (weight_of m.2) m.1 p) ms) = of_int (prefix_count ms p) /\
    prefix_count ms p <= len ms) as [-> Hle]; [|by apply to_of_int; lia].
  induction ms as [|[input c] ms IH]; [split; [|done]; cbn; rewrite of_int_0; ring|].
  rewrite len_cons in Hlen. destruct IH as [IH Hle]; [lia|]. rewrite total_cons.
  unfold prefix_count in *. rewrite filter_cons. cbn [fst snd].
  set (S := total (fun m => prefix_value (weight_of m.2) m.1 p) ms) in *. set (v := prefix_value (weight_of c) input p).
  assert (fadd (fadd v S) (fadd v S) = fadd (fadd v v) (fadd S S)) as -> by ring.
  unfold v, prefix_value. rewrite half_add, IH, weight_of_eq. rewrite len_cons.
  destruct c, (starts_with p input); cbn [andb]; case_decide; try done.
  - rewrite len_cons. split; [|lia]. rewrite <-of_int_1, <-of_int_add by lia. done.
  - split; [ring|lia].
  - split; [ring|lia].
  - split; [ring|lia].
Qed.

Lemma decode_field_vec_written xs bs :
  ENCODED_SIZE < 64 -> writes (encode_each felem_encode) xs bs -> decode_field_vec (length xs) bs = Ok xs.
Proof.
  intros Hsz. revert bs. induction xs as [|x xs IH]; intros bs Hw; [done|].
  destruct (felem_sent x Hsz) as (b & Hb & _ & Hd & Hl). destruct (felems_write xs) as (bs' & Hbs' & _).
  assert (bs = b ++ bs') as ->.
  { specialize (Hw []). cbn in Hw. rewrite (Hb []) in Hw. cbn in Hw. rewrite (Hbs' b) in Hw. by injection Hw as <-. }
  cbn [length decode_field_vec]. rewrite len_app, Hl, (proj2 (N.leb_le _ _)) by lia.
  assert (length b = N.to_nat ENCODED_SIZE) as Hlb by (unfold len in Hl; lia).
  rewrite <-Hlb, take_app_length, drop_app_length, Hd. cbn. by rewrite IH.
Qed.

(** The result of the stand-in for Mastic.  For inputs of the configured length, prefixes that
    are not longer, and fewer reports than the modulus of the field: every report is prepared
    by both Aggregators, and the result that is computed from the encodings of their two
    aggregate shares has for every prefix of the aggregation parameter the number of inputs of
    weight one that start with it. *)
Theorem mastic_counts_prefixes input_size k prefixes ms :
  ENCODED_SIZE < 64 -> Forall (fun m => len m.1 = input_size) ms ->
  Forall (fun p => len p <= input_size) prefixes -> len ms < modulus ->
  exists outs leader helper,
    mastic_reports input_size (L16 k) (Param_Mastic prefixes) ms = Ok outs /\
    get_encoded (encode_each felem_encode) (aggregate_shares (length prefixes) outs.*1) = Ok leader /\
    get_encoded (encode_each felem_encode) (aggregate_shares (length prefixes) outs.*2) = Ok helper /\
    mastic_unshard WC_Count (Param_Mastic prefixes) [leader; helper] = Ok (prefix_count ms <$> prefixes).
Proof.
  intros Hsz Hms Hp Hlen.
  set (outs := (fun m => prefix_value (weight_of m.2) m.1 <$> prefixes) <$> ms).
  set (agg := (fun p => total (fun m => prefix_value (weight_of m.2) m.1 p) ms) <$> prefixes).
  assert (aggregate_shares (length prefixes) outs = agg) as Hagg by apply aggregate_columns.
  destruct (felems_write agg) as (bs & Hw & _). exists (zip outs outs), bs, bs.
  rewrite fst_zip, snd_zip, Hagg by done. split_and!.
  - by apply mastic_reports_Ok.
  - rewrite get_encoded_spec. apply (Hw []).
  - rewrite get_encoded_spec. apply (Hw []).
  - unfold mastic_unshard, reduce_shares. cbn [map fold_left].
    assert (length prefixes = length agg) as -> by (unfold agg; by rewrite length_fmap).
    rewrite (decode_field_vec_written agg bs Hsz Hw). cbn [mbind res_bind map_err].
    unfold agg. rewrite add_assign_fmap, <-list_fmap_compose. f_equal. apply list_fmap_ext. intros i p _.
    by apply total_doubles.
Qed.
End Correct.
