(* ===== verification/VdafDispatch.v ===== *)
(** * The dispatch to the VDAFs

    [src/crates/daphne/src/vdaf/]: the functions that pick the VDAF of a task's configuration,
    decode what comes from the network, run the VDAF and encode what goes to the network:
    [mod.rs] (what they share), [prio3.rs], [prio2.rs] and [pine.rs].  Prio2 and Prio3 are
    dependencies ([prio::vdaf]); PINE is the one of [PineVdaf].

    A VDAF of [prio] is a value of [vdaf]: the functions of the traits [Client], [Aggregator]
    and [Collector].  What its messages are and how they are encoded depends on its field and
    seed size only, the record [vdaf_kind].  The dispatch is an instance of the interface
    [VdafOps] of the protocol. *)

From S2P Require Import Prelude Codec Messages TaskprovMessages Errors Config Pine Taskprov AggShare.
From S2P Require Import PineField PineEncoding PineFlp PineMsg PineVdaf Protocol DurableStore.

(** ** The interface of [prio::vdaf] *)

(** The messages of a VDAF and their encodings. *)
Record vdaf_kind : Type := MkVdafKind {
  k_PublicShare : Type;
  k_InputShare : Type;
  k_PrepareState : Type;
  k_PrepareShare : Type;
  k_PrepareMessage : Type;
  k_OutputShare : Type;
  k_AggregateShare : Type;
  public_encode : writer k_PublicShare;
  input_encode : writer k_InputShare;
  share_encode : writer k_PrepareShare;
  share_decode : k_PrepareState -> reader k_PrepareShare;
  message_encode : writer k_PrepareMessage;
  message_decode : k_PrepareState -> reader k_PrepareMessage;
}.

Inductive PrepareTransition (O : Type) : Type :=
| Transition_Continue
| Transition_Finish (out_share : O).
Arguments Transition_Continue {O}.
Arguments Transition_Finish {O}.

(** A VDAF with measurements [M] and aggregate results [R].  Its errors are
    [prio::vdaf::VdafError], as text; the first argument of [v_shard] is the randomness it
    draws. *)
Record vdaf (K : vdaf_kind) (M R : Type) : Type := MkVdaf {
  v_shard : list byte -> M -> list byte -> res detail (k_PublicShare K * list (k_InputShare K));
  v_public_decode : reader (k_PublicShare K);
  v_input_decode : N -> reader (k_InputShare K);
  v_prepare_init : list byte -> N -> list byte -> k_PublicShare K -> k_InputShare K ->
    res detail (k_PrepareState K * k_PrepareShare K);
  v_prepare_shares_to_prepare_message : list (k_PrepareShare K) -> res detail (k_PrepareMessage K);
  v_prepare_next : k_PrepareState K -> k_PrepareMessage K ->
    res detail (PrepareTransition (k_OutputShare K));
  v_aggregate : list (k_OutputShare K) -> res detail (k_AggregateShare K);
  v_aggregate_decode : reader (k_AggregateShare K);
  v_unshard : list (k_AggregateShare K) -> N -> res detail R;
}.
Arguments v_shard {K M R}.
Arguments v_public_decode {K M R}.
Arguments v_input_decode {K M R}.
Arguments v_prepare_init {K M R}.
Arguments v_prepare_shares_to_prepare_message {K M R}.
Arguments v_prepare_next {K M R}.
Arguments v_aggregate {K M R}.
Arguments v_aggregate_decode {K M R}.
Arguments v_unshard {K M R}.

(** ** Measurements and results *)
Inductive Measurement : Type :=
| Meas_U64 (x : N)
| Meas_U32Vec (xs : list N)
| Meas_U64Vec (xs : list N)
| Meas_U128Vec (xs : list N)
| Meas_F64Vec (xs : list f64).

Inductive AggregateResult : Type :=
| Result_U32Vec (xs : list N)
| Result_U64 (x : N)
| Result_U64Vec (xs : list N)
| Result_U128 (x : N)
| Result_U128Vec (xs : list N)
| Result_F64Vec (xs : list f64).

(** ** What the VDAFs share: [mod.rs] *)

(** [VdafError::Dap(fatal_error!(err = msg))] *)
Definition fatal {A} (msg : string) : res VdafError A := Err (VdafError_Dap (Fatal (Text msg))).

(** [..map_err(|e| VdafError::Dap(fatal_error!(err = ?e, msg)))?]; the text of the log is the one
    of the first place where a VDAF is made. *)
Definition or_fatal {E A} (msg : string) (r : res E A) : res VdafError A :=
  map_err (fun _ => VdafError_Dap (fatal_logged msg)) r.

(** The conversions of [?] *)
Definition or_vdaf {A} (r : res detail A) : res VdafError A := map_err VdafError_Vdaf r.
Definition or_codec {A} (r : res CodecError A) : res VdafError A := map_err VdafError_Codec r.

Section Shared.
Context `{PC : PrioCodec}.

(** [iter().map(|x| x.get_encoded()).collect::<Result<Vec<_>, _>>()] *)
Fixpoint encode_list {A} (w : writer A) (xs : list A) : res CodecError (list (list byte)) :=
  match xs with
  | [] => Ok []
  | x :: xs => b ← get_encoded w x; bs ← encode_list w xs; Ok (b :: bs)
  end.

(** [..try_into()] to an array of two *)
Definition two_shares (shares : list (list byte)) : res VdafError (list byte * list byte) :=
  match shares with
  | [a; b] => Ok (a, b)
  | _ => Err (VdafError_Dap (Fatal (Fmt "expected 2 input shares got {}" [ArgNum (len shares)])))
  end.

Context {K : vdaf_kind} {M R : Type}.

Definition shard_then_encode (vdaf : vdaf K M R) (rand : list byte) (measurement : M)
    (nonce : list byte) : res VdafError (list byte * (list byte * list byte)) :=
  '(public_share, input_shares) ← or_vdaf (v_shard vdaf rand measurement nonce);
  public_share ← or_codec (get_encoded (public_encode K) public_share);
  input_shares ← or_codec (encode_list (input_encode K) input_shares);
  input_shares ← two_shares input_shares;
  Ok (public_share, input_shares).

(** [prep_init] of [prio3.rs] and of [pine.rs] *)
Definition prep_init (vdaf : vdaf K M R) (verify_key : list byte) (agg_id : N) (nonce : list byte)
    (public_share_data input_share_data : list byte) :
    res VdafError (k_PrepareState K * k_PrepareShare K) :=
  public_share ← or_codec (get_decoded (v_public_decode vdaf) public_share_data);
  input_share ← or_codec (get_decoded (v_input_decode vdaf agg_id) input_share_data);
  or_vdaf (v_prepare_init vdaf verify_key agg_id nonce public_share input_share).

Definition prep_finish_from_shares (vdaf : vdaf K M R) (agg_id : N) (host_state : k_PrepareState K)
    (host_share : k_PrepareShare K) (peer_share_data : list byte) :
    res VdafError (k_OutputShare K * list byte) :=
  peer_share ← or_codec (get_decoded (share_decode K host_state) peer_share_data);
  message ← or_vdaf (v_prepare_shares_to_prepare_message vdaf
              (if agg_id =? 0 then [host_share; peer_share] else [peer_share; host_share]));
  message_data ← or_codec (get_encoded (message_encode K) message);
  t ← or_vdaf (v_prepare_next vdaf host_state message);
  match t with
  | Transition_Continue => fatal "prep_finish_from_shares: unexpected transition"
  | Transition_Finish out_share => Ok (out_share, message_data)
  end.

Definition prep_finish (vdaf : vdaf K M R) (host_state : k_PrepareState K)
    (peer_message_data : list byte) : res VdafError (k_OutputShare K) :=
  peer_message ← or_codec (get_decoded (message_decode K host_state) peer_message_data);
  t ← or_vdaf (v_prepare_next vdaf host_state peer_message);
  match t with
  | Transition_Continue => fatal "prep_finish: unexpected transition"
  | Transition_Finish out_share => Ok out_share
  end.

(** The loop of [unshard]. *)
Fixpoint decode_agg_shares (vdaf : vdaf K M R) (agg_shares : list (list byte)) :
    res VdafError (list (k_AggregateShare K)) :=
  match agg_shares with
  | [] => Ok []
  | data :: agg_shares =>
      agg_share ← or_codec (get_decoded (v_aggregate_decode vdaf) data);
      rest ← decode_agg_shares vdaf agg_shares;
      Ok (agg_share :: rest)
  end.

Definition unshard_encoded (vdaf : vdaf K M R) (num_measurements : N) (agg_shares : list (list byte)) :
    res VdafError R :=
  agg_shares ← decode_agg_shares vdaf agg_shares;
  or_vdaf (v_unshard vdaf agg_shares num_measurements).
End Shared.

(** ** Prio2 and Prio3: what [prio] provides *)
Inductive prio3_kind : Type :=
| P3_Field64_16 | P3_Field64_32 | P3_Field128_16.

Definition prio3_field (k : prio3_kind) : field_kind :=
  match k with P3_Field64_16 | P3_Field64_32 => Field64 | P3_Field128_16 => Field128 end.

Class PrioVdafs `{PC : PrioCodec} `{PA : PrioAgg} : Type := {
  (** [Prio3PrepareState<F, SEED_SIZE>] and the like *)
  prio3_public : prio3_kind -> Type;
  prio3_input : prio3_kind -> Type;
  prio3_state : prio3_kind -> Type;
  prio3_share : prio3_kind -> Type;
  prio3_message : prio3_kind -> Type;
  prio3_output : prio3_kind -> Type;
  prio3_public_encode : forall k, writer (prio3_public k);
  prio3_input_encode : forall k, writer (prio3_input k);
  prio3_share_encode : forall k, writer (prio3_share k);
  prio3_share_decode : forall k, prio3_state k -> reader (prio3_share k);
  prio3_message_encode : forall k, writer (prio3_message k);
  prio3_message_decode : forall k, prio3_state k -> reader (prio3_message k);
  prio2_input : Type;
  prio2_state : Type;
  prio2_share : Type;
  prio2_output : Type;
  prio2_input_encode : writer prio2_input;
  prio2_share_encode : writer prio2_share;
  prio2_share_decode : prio2_state -> reader prio2_share;
  (** [<()>::encode] *)
  unit_encode : writer unit;
  (** [flp::types::SumVec<Field64, ..>] *)
  sum_vec : Type;
  SumVec_new : N -> N -> N -> res detail sum_vec;
  Prio3 (k : prio3_kind) : vdaf_kind :=
    MkVdafKind (prio3_public k) (prio3_input k) (prio3_state k) (prio3_share k) (prio3_message k)
      (prio3_output k) (prio_agg_share (prio3_field k)) (prio3_public_encode k) (prio3_input_encode k)
      (prio3_share_encode k) (prio3_share_decode k) (prio3_message_encode k) (prio3_message_decode k);
  Prio2 : vdaf_kind :=
    MkVdafKind unit prio2_input prio2_state prio2_share unit prio2_output (prio_agg_share FieldPrio2)
      unit_encode prio2_input_encode prio2_share_encode prio2_share_decode unit_encode
      (fun _ => unit_decode);
  (** [Prio3::new_count(num_aggregators)], ... *)
  Prio3_new_count : N -> res detail (vdaf (Prio3 P3_Field64_16) bool N);
  Prio3_new_histogram : N -> N -> N -> res detail (vdaf (Prio3 P3_Field128_16) N (list N));
  Prio3_new_sum : N -> N -> res detail (vdaf (Prio3 P3_Field128_16) N N);
  Prio3_new_sum_vec : N -> N -> N -> N -> res detail (vdaf (Prio3 P3_Field128_16) (list N) (list N));
  (** [Prio3::new(num_aggregators, num_proofs, algorithm_id, typ)] *)
  Prio3_new : N -> N -> N -> sum_vec -> res detail (vdaf (Prio3 P3_Field64_32) (list N) (list N));
  (** [Prio2::new(input_len)] *)
  Prio2_new : N -> res detail (vdaf Prio2 (list N) (list N));
}.

(** ** PINE *)
Section PineVdafs.
Context `{BP : BuildProfile} `{PC : PrioCodec} `{PF : PrioField} `{PX : !Xof}.
Context `{FM : !Flp PineType} `{FS : !Flp PineTypeSquaredNormEqual}.

Definition PineKind : vdaf_kind :=
  MkVdafKind PublicShare InputShare PinePrepState PrepShare Prep (list felem) (list felem)
    PublicShare_encode InputShare_encode PrepShare_encode
    (fun state => PrepShare_decode (PinePrepState_verifiers_len state)) Prep_encode (fun _ => Prep_decode).

(** A seed of the array that [shard] fills. *)
Definition seed_at (rand : list byte) (i : nat) : list byte :=
  take (N.to_nat SEED_SIZE) (drop (i * N.to_nat SEED_SIZE) rand).

Definition shard_rand (rand : list byte) : ShardRand :=
  MkShardRand (seed_at rand 0) (seed_at rand 1) (seed_at rand 2) (seed_at rand 3) (seed_at rand 4)
    (seed_at rand 5) (seed_at rand 6).

(** [Display] of [prio::vdaf::VdafError] *)
Definition vdaf_error_text (e : PrioVdafError) : detail :=
  match e with Uncategorized d => d | _ => Fmt "{0}" [ArgOpaque] end.

Definition pine_vdaf (pine : Pine) : vdaf PineKind (list f64) (list f64) :=
  MkVdaf PineKind (list f64) (list f64)
    (fun rand gradient nonce =>
       map_err vdaf_error_text (shard_with_rand pine gradient nonce (shard_rand rand)))
    PublicShare_decode (InputShare_decode pine)
    (fun verify_key agg_id nonce public_share input_share =>
       map_err vdaf_error_text (prepare_init pine verify_key agg_id nonce public_share input_share))
    (fun inputs => map_err vdaf_error_text (prepare_shares_to_prepare_message pine inputs))
    (fun state input =>
       out_share ← map_err vdaf_error_text (prepare_next state input);
       Ok (Transition_Finish out_share))
    (fun out_shares => map_err vdaf_error_text (aggregate pine out_shares))
    (PineVec_decode pine)
    (fun agg_shares _ => map_err vdaf_error_text (unshard pine agg_shares)).

(** [Pine::new(param, algorithm_id)], or a fatal error *)
Definition pine_instance (algorithm_id : N) (param : PineParam) : res VdafError Pine :=
  or_fatal "invalid pine parameters" (Pine_new felem_field param algorithm_id).
End PineVdafs.

(** A field of [prio] with what PINE needs of it, and the conversion of a vector to the
    aggregate share of one output share, [AggregateShare::from(OutputShare::from(v))]. *)
Class PineBackend `{PA : PrioAgg} (f : field_kind) : Type := {
  pb_field :: PrioField;
  pb_xof :: Xof;
  pb_flp :: Flp PineType;
  pb_flp_sne :: Flp PineTypeSquaredNormEqual;
  agg_share_from : list felem -> prio_agg_share f;
}.

(** ** Preparation states and shares *)
Section Dispatch.
Context `{BP : BuildProfile} `{PC : PrioCodec} `{PA : PrioAgg} `{PV : !PrioVec} `{VS : !PrioVdafs}.
Context `{P32 : !PineBackend FieldPrio2} `{P64 : !PineBackend Field64}.

Inductive PrepState : Type :=
| PrepState_Prio2 (state : prio2_state)
| PrepState_Prio3Field64 (state : prio3_state P3_Field64_16)
| PrepState_Prio3Field64HmacSha256Aes128 (state : prio3_state P3_Field64_32)
| PrepState_Prio3Field128 (state : prio3_state P3_Field128_16)
| PrepState_Pine64HmacSha256Aes128 (state : @PinePrepState (pb_field (f:=Field64)))
| PrepState_Pine32HmacSha256Aes128 (state : @PinePrepState (pb_field (f:=FieldPrio2))).

Inductive PrepareShare : Type :=
| PrepareShare_Prio2 (share : prio2_share)
| PrepareShare_Prio3Field64 (share : prio3_share P3_Field64_16)
| PrepareShare_Prio3Field64HmacSha256Aes128 (share : prio3_share P3_Field64_32)
| PrepareShare_Prio3Field128 (share : prio3_share P3_Field128_16)
| PrepareShare_Pine64HmacSha256Aes128 (share : @PrepShare (pb_field (f:=Field64)))
| PrepareShare_Pine32HmacSha256Aes128 (share : @PrepShare (pb_field (f:=FieldPrio2))).

Definition PrepareShare_encode : writer PrepareShare := fun self =>
  match self with
  | PrepareShare_Prio3Field64 share => prio3_share_encode _ share
  | PrepareShare_Prio3Field64HmacSha256Aes128 share => prio3_share_encode _ share
  | PrepareShare_Prio3Field128 share => prio3_share_encode _ share
  | PrepareShare_Prio2 share => prio2_share_encode share
  | PrepareShare_Pine64HmacSha256Aes128 share => PrepShare_encode share
  | PrepareShare_Pine32HmacSha256Aes128 share => PrepShare_encode share
  end.

Definition PrepareShare_decode (state : PrepState) : reader PrepareShare :=
  match state with
  | PrepState_Prio3Field64 state =>
      x ← prio3_share_decode _ state; mret (PrepareShare_Prio3Field64 x)
  | PrepState_Prio3Field64HmacSha256Aes128 state =>
      x ← prio3_share_decode _ state; mret (PrepareShare_Prio3Field64HmacSha256Aes128 x)
  | PrepState_Prio3Field128 state =>
      x ← prio3_share_decode _ state; mret (PrepareShare_Prio3Field128 x)
  | PrepState_Prio2 state => x ← prio2_share_decode state; mret (PrepareShare_Prio2 x)
  | PrepState_Pine64HmacSha256Aes128 state =>
      x ← PrepShare_decode (PinePrepState_verifiers_len state);
      mret (PrepareShare_Pine64HmacSha256Aes128 x)
  | PrepState_Pine32HmacSha256Aes128 state =>
      x ← PrepShare_decode (PinePrepState_verifiers_len state);
      mret (PrepareShare_Pine32HmacSha256Aes128 x)
  end.

(** ** Prio3: [prio3.rs] *)
Definition ERR_FIELD_TYPE : string := "unexpected field type for step or message".

Definition new_count : res VdafError (vdaf (Prio3 P3_Field64_16) bool N) :=
  or_fatal "failed to create prio3 count from num_aggregators(2)" (Prio3_new_count 2).

Definition new_histogram (length chunk_length : N) :
    res VdafError (vdaf (Prio3 P3_Field128_16) N (list N)) :=
  or_fatal "failed to create prio3 histogram from num_aggregators(2), length({length}), chunk_length({chunk_length})"
    (Prio3_new_histogram 2 length chunk_length).

Definition new_sum (bits : N) : res VdafError (vdaf (Prio3 P3_Field128_16) N N) :=
  or_fatal "failed to create prio3 sum from num_aggregators(2), bits({bits})" (Prio3_new_sum 2 bits).

Definition new_sum_vec (bits length chunk_length : N) :
    res VdafError (vdaf (Prio3 P3_Field128_16) (list N) (list N)) :=
  or_fatal "failed to create prio3 sum vec from num_aggregators(2), bits({bits}), length({length}), chunk_length({chunk_length})"
    (Prio3_new_sum_vec 2 bits length chunk_length).

Definition new_prio3_sum_vec_field64_multiproof_hmac_sha256_aes128
    (bits length chunk_length num_proofs : N) :
    res VdafError (vdaf (Prio3 P3_Field64_32) (list N) (list N)) :=
  typ ← or_fatal "failed to create sum vec from bits({bits}), length({length}), chunk_length({chunk_length})"
          (SumVec_new bits length chunk_length);
  or_fatal "failed to create prio3"
    (Prio3_new 2 num_proofs VDAF_TYPE_PRIO3_SUM_VEC_FIELD64_MULTIPROOF_HMAC_SHA256_AES128 typ).

(** [vdaf.aggregate(&(), [out_share])?] *)
Definition aggregate_one {K M R} (vdaf : vdaf K M R) (out_share : k_OutputShare K) :
    res VdafError (k_AggregateShare K) :=
  or_vdaf (v_aggregate vdaf [out_share]).

(** The branches of the functions below differ in the VDAF they make and in the variants they
    wrap its values in. *)
Section Branches.
Context {K : vdaf_kind} {M R : Type} (new : res VdafError (vdaf K M R)).

Definition branch_shard (rand : list byte) (measurement : M) (nonce : list byte) :
    res VdafError (list byte * (list byte * list byte)) :=
  vdaf ← new;
  shard_then_encode vdaf rand measurement nonce.

Definition branch_prep_init (as_state : k_PrepareState K -> PrepState)
    (as_share : k_PrepareShare K -> PrepareShare) (verify_key : list byte) (agg_id : N)
    (nonce public_share_data input_share_data : list byte) : res VdafError (PrepState * PrepareShare) :=
  vdaf ← new;
  '(state, share) ← prep_init vdaf verify_key agg_id nonce public_share_data input_share_data;
  Ok (as_state state, as_share share).

Definition branch_finish_from_shares (as_agg_share : k_AggregateShare K -> VdafAggregateShare)
    (agg_id : N) (state : k_PrepareState K) (share : k_PrepareShare K) (peer_share_data : list byte) :
    res VdafError (VdafAggregateShare * list byte) :=
  vdaf ← new;
  '(out_share, outbound) ← prep_finish_from_shares vdaf agg_id state share peer_share_data;
  agg_share ← aggregate_one vdaf out_share;
  Ok (as_agg_share agg_share, outbound).

Definition branch_finish (as_agg_share : k_AggregateShare K -> VdafAggregateShare)
    (state : k_PrepareState K) (peer_message_data : list byte) : res VdafError VdafAggregateShare :=
  vdaf ← new;
  out_share ← prep_finish vdaf state peer_message_data;
  agg_share ← aggregate_one vdaf out_share;
  Ok (as_agg_share agg_share).

Definition branch_unshard (as_result : R -> AggregateResult) (num_measurements : N)
    (agg_shares : list (list byte)) : res VdafError AggregateResult :=
  vdaf ← new;
  agg_res ← unshard_encoded vdaf num_measurements agg_shares;
  Ok (as_result agg_res).
End Branches.

Definition prio3_shard (rand : list byte) (config : Prio3Config) (measurement : Measurement)
    (nonce : list byte) : res VdafError (list byte * (list byte * list byte)) :=
  match config, measurement with
  | Prio3_Count, Meas_U64 measurement =>
      vdaf ← new_count;
      measurement ← match measurement with
                    | 0 => Ok false
                    | 1 => Ok true
                    | _ => fatal "cannot represent measurement as a 0 or 1"
                    end;
      shard_then_encode vdaf rand measurement nonce
  | Prio3_Histogram length chunk_length, Meas_U64 measurement =>
      branch_shard (new_histogram length chunk_length) rand measurement nonce
  | Prio3_Sum bits, Meas_U64 measurement =>
      branch_shard (new_sum bits) rand measurement nonce
  | Prio3_SumVec bits length chunk_length, Meas_U128Vec measurement =>
      branch_shard (new_sum_vec bits length chunk_length) rand measurement nonce
  | Prio3_SumVecField64MultiproofHmacSha256Aes128 bits length chunk_length num_proofs,
    Meas_U64Vec measurement =>
      branch_shard (new_prio3_sum_vec_field64_multiproof_hmac_sha256_aes128 bits length chunk_length num_proofs) rand measurement nonce
  | _, _ => Err (VdafError_Dap (Fatal (Fmt "prio3_shard: unexpected VDAF config {config:?}" [ArgOpaque])))
  end.

Definition prio3_prep_init (config : Prio3Config) (verify_key : VdafVerifyKey) (agg_id : N)
    (nonce public_share_data input_share_data : list byte) : res VdafError (PrepState * PrepareShare) :=
  match config, verify_key with
  | Prio3_Count, L16 verify_key =>
      branch_prep_init new_count PrepState_Prio3Field64 PrepareShare_Prio3Field64
        verify_key agg_id nonce public_share_data input_share_data
  | Prio3_Histogram length chunk_length, L16 verify_key =>
      branch_prep_init (new_histogram length chunk_length) PrepState_Prio3Field128 PrepareShare_Prio3Field128
        verify_key agg_id nonce public_share_data input_share_data
  | Prio3_Sum bits, L16 verify_key =>
      branch_prep_init (new_sum bits) PrepState_Prio3Field128 PrepareShare_Prio3Field128
        verify_key agg_id nonce public_share_data input_share_data
  | Prio3_SumVec bits length chunk_length, L16 verify_key =>
      branch_prep_init (new_sum_vec bits length chunk_length) PrepState_Prio3Field128 PrepareShare_Prio3Field128
        verify_key agg_id nonce public_share_data input_share_data
  | Prio3_SumVecField64MultiproofHmacSha256Aes128 bits length chunk_length num_proofs, L32 verify_key =>
      branch_prep_init (new_prio3_sum_vec_field64_multiproof_hmac_sha256_aes128 bits length chunk_length num_proofs) PrepState_Prio3Field64HmacSha256Aes128 PrepareShare_Prio3Field64HmacSha256Aes128
        verify_key agg_id nonce public_share_data input_share_data
  | _, _ => fatal "unhandled config and verify key combination"
  end.

Definition prio3_prep_finish_from_shares (config : Prio3Config) (agg_id : N) (host_state : PrepState)
    (host_share : PrepareShare) (peer_share_data : list byte) :
    res VdafError (VdafAggregateShare * list byte) :=
  match config, host_state, host_share with
  | Prio3_Count, PrepState_Prio3Field64 state, PrepareShare_Prio3Field64 share =>
      branch_finish_from_shares new_count VAS_Field64
        agg_id state share peer_share_data
  | Prio3_Histogram length chunk_length, PrepState_Prio3Field128 state, PrepareShare_Prio3Field128 share =>
      branch_finish_from_shares (new_histogram length chunk_length) VAS_Field128
        agg_id state share peer_share_data
  | Prio3_Sum bits, PrepState_Prio3Field128 state, PrepareShare_Prio3Field128 share =>
      branch_finish_from_shares (new_sum bits) VAS_Field128
        agg_id state share peer_share_data
  | Prio3_SumVec bits length chunk_length, PrepState_Prio3Field128 state, PrepareShare_Prio3Field128 share =>
      branch_finish_from_shares (new_sum_vec bits length chunk_length) VAS_Field128
        agg_id state share peer_share_data
  | Prio3_SumVecField64MultiproofHmacSha256Aes128 bits length chunk_length num_proofs,
    PrepState_Prio3Field64HmacSha256Aes128 state, PrepareShare_Prio3Field64HmacSha256Aes128 share =>
      branch_finish_from_shares (new_prio3_sum_vec_field64_multiproof_hmac_sha256_aes128 bits length chunk_length num_proofs) VAS_Field64
        agg_id state share peer_share_data
  | _, _, _ => fatal (String.append "prio3_prep_finish_from_shares: " ERR_FIELD_TYPE)
  end.

Definition prio3_prep_finish (config : Prio3Config) (host_state : PrepState)
    (peer_message_data : list byte) : res VdafError VdafAggregateShare :=
  match config, host_state with
  | Prio3_Count, PrepState_Prio3Field64 state =>
      branch_finish new_count VAS_Field64 state peer_message_data
  | Prio3_Histogram length chunk_length, PrepState_Prio3Field128 state =>
      branch_finish (new_histogram length chunk_length) VAS_Field128 state peer_message_data
  | Prio3_Sum bits, PrepState_Prio3Field128 state =>
      branch_finish (new_sum bits) VAS_Field128 state peer_message_data
  | Prio3_SumVec bits length chunk_length, PrepState_Prio3Field128 state =>
      branch_finish (new_sum_vec bits length chunk_length) VAS_Field128 state peer_message_data
  | Prio3_SumVecField64MultiproofHmacSha256Aes128 bits length chunk_length num_proofs,
    PrepState_Prio3Field64HmacSha256Aes128 state =>
      branch_finish (new_prio3_sum_vec_field64_multiproof_hmac_sha256_aes128 bits length chunk_length num_proofs) VAS_Field64 state peer_message_data
  | _, _ => fatal (String.append "prio3_prep_finish: " ERR_FIELD_TYPE)
  end.

Definition prio3_unshard (config : Prio3Config) (num_measurements : N) (agg_shares : list (list byte)) :
    res VdafError AggregateResult :=
  match config with
  | Prio3_Count =>
      branch_unshard new_count Result_U64 num_measurements agg_shares
  | Prio3_Histogram length chunk_length =>
      branch_unshard (new_histogram length chunk_length) Result_U128Vec num_measurements agg_shares
  | Prio3_Sum bits =>
      branch_unshard (new_sum bits) Result_U128 num_measurements agg_shares
  | Prio3_SumVec bits length chunk_length =>
      branch_unshard (new_sum_vec bits length chunk_length) Result_U128Vec num_measurements agg_shares
  | Prio3_SumVecField64MultiproofHmacSha256Aes128 bits length chunk_length num_proofs =>
      branch_unshard (new_prio3_sum_vec_field64_multiproof_hmac_sha256_aes128 bits length chunk_length num_proofs) Result_U64Vec num_measurements agg_shares
  end.

(** ** Prio2: [prio2.rs] *)
Abbreviation prio2_vdaf := (vdaf Prio2 (list N) (list N)).

Definition new_prio2 (dimension : N) : res VdafError prio2_vdaf :=
  or_fatal "failed to create prio2 from {dimension}" (Prio2_new dimension).

Definition prio2_shard (rand : list byte) (dimension : N) (measurement : Measurement)
    (nonce : list byte) : res VdafError (list byte * (list byte * list byte)) :=
  new_prio2 dimension ≫= fun vdaf : prio2_vdaf =>
  '(public_share, input_shares) ←
    (match measurement with
     | Meas_U32Vec data => or_vdaf (v_shard vdaf rand data nonce)
     | _ => fatal "prio2_shard: unexpected measurement type"
     end : res VdafError (unit * list prio2_input));
  public_share ← or_codec (get_encoded unit_encode public_share);
  input_shares ← or_codec (encode_list prio2_input_encode input_shares);
  input_shares ← two_shares input_shares;
  Ok (public_share, input_shares).

Definition prio2_prep_init (dimension : N) (verify_key : VdafVerifyKey) (agg_id : N)
    (nonce public_share_data input_share_data : list byte) : res VdafError (PrepState * PrepareShare) :=
  match verify_key with
  | L32 verify_key =>
      new_prio2 dimension ≫= fun vdaf : prio2_vdaf =>
      _ ← or_codec (get_decoded (v_public_decode vdaf) public_share_data);
      input_share ← or_codec (get_decoded (v_input_decode vdaf agg_id) input_share_data);
      '(state, share) ← or_vdaf (v_prepare_init vdaf verify_key agg_id nonce tt input_share);
      Ok (PrepState_Prio2 state, PrepareShare_Prio2 share)
  | _ => fatal "unhandled verify key type"
  end.

Definition prio2_prep_finish_from_shares (dimension : N) (host_state : PrepState)
    (host_share : PrepareShare) (peer_share_data : list byte) :
    res VdafError (VdafAggregateShare * list byte) :=
  new_prio2 dimension ≫= fun vdaf : prio2_vdaf =>
  '(out_share, outbound) ←
    match host_state, host_share with
    | PrepState_Prio2 state, PrepareShare_Prio2 share =>
        peer_share ← or_codec (get_decoded (prio2_share_decode state) peer_share_data);
        _ ← or_vdaf (v_prepare_shares_to_prepare_message vdaf [share; peer_share]);
        t ← or_vdaf (v_prepare_next vdaf state tt);
        match t with
        | Transition_Continue => fatal "prio2_prep_finish_from_shares: unexpected transition (continued)"
        | Transition_Finish out_share => Ok (out_share, [])
        end
    | _, _ => fatal "prio2_prep_finish_from_shares: host state does not match share"
    end;
  agg_share ← aggregate_one vdaf out_share;
  Ok (VAS_Field32 agg_share, outbound).

Definition prio2_prep_finish (dimension : N) (host_state : PrepState) (peer_message_data : list byte) :
    res VdafError VdafAggregateShare :=
  new_prio2 dimension ≫= fun vdaf : prio2_vdaf =>
  _ ← or_codec (get_decoded unit_decode peer_message_data);
  out_share ←
    match host_state with
    | PrepState_Prio2 state =>
        t ← or_vdaf (v_prepare_next vdaf state tt);
        match t with
        | Transition_Continue => fatal "prio2_prep_finish: unexpected transition (continued)"
        | Transition_Finish out_share => Ok out_share
        end
    | _ => fatal "prio2_prep_finish: unexpected state type"
    end;
  agg_share ← aggregate_one vdaf out_share;
  Ok (VAS_Field32 agg_share).

Definition prio2_unshard (dimension num_measurements : N) (encoded_agg_shares : list (list byte)) :
    res VdafError AggregateResult :=
  branch_unshard (new_prio2 dimension) Result_U32Vec num_measurements encoded_agg_shares.

(** ** PINE: [pine.rs] *)
Definition pine32_hmac_sha256_aes128 (param : PineParam) : res VdafError Pine :=
  pine_instance (PF:=pb_field (f:=FieldPrio2)) VDAF_TYPE_PINE_FIELD32_HMAC_SHA256_AES128 param.
Definition pine64_hmac_sha256_aes128 (param : PineParam) : res VdafError Pine :=
  pine_instance (PF:=pb_field (f:=Field64)) VDAF_TYPE_PINE_FIELD64_HMAC_SHA256_AES128 param.

(** The instance of PINE over a field. *)
Definition pine_over (f : field_kind) `{!PineBackend f} (pine : Pine) :
    vdaf (PineKind (PF:=pb_field (f:=f))) (list f64) (list f64) := pine_vdaf pine.

Definition pine_shard (rand : list byte) (self : PineConfig) (measurement : Measurement)
    (nonce : list byte) : res VdafError (list byte * (list byte * list byte)) :=
  match measurement with
  | Meas_F64Vec gradient =>
      match self with
      | Pine_Field32HmacSha256Aes128 param =>
          vdaf ← pine32_hmac_sha256_aes128 param;
          shard_then_encode (pine_over FieldPrio2 vdaf) rand gradient nonce
      | Pine_Field64HmacSha256Aes128 param =>
          vdaf ← pine64_hmac_sha256_aes128 param;
          shard_then_encode (pine_over Field64 vdaf) rand gradient nonce
      end
  | _ => fatal "unexpected measurement type"
  end.

Definition pine_prep_init (self : PineConfig) (verify_key : VdafVerifyKey) (agg_id : N)
    (nonce public_share_data input_share_data : list byte) : res VdafError (PrepState * PrepareShare) :=
  match self, verify_key with
  | Pine_Field32HmacSha256Aes128 param, L32 verify_key =>
      vdaf ← pine32_hmac_sha256_aes128 param;
      '(state, share) ← prep_init (pine_over FieldPrio2 vdaf) verify_key agg_id nonce
                          public_share_data input_share_data;
      Ok (PrepState_Pine32HmacSha256Aes128 state, PrepareShare_Pine32HmacSha256Aes128 share)
  | Pine_Field64HmacSha256Aes128 param, L32 verify_key =>
      vdaf ← pine64_hmac_sha256_aes128 param;
      '(state, share) ← prep_init (pine_over Field64 vdaf) verify_key agg_id nonce
                          public_share_data input_share_data;
      Ok (PrepState_Pine64HmacSha256Aes128 state, PrepareShare_Pine64HmacSha256Aes128 share)
  | _, _ => fatal "unhandled config and verify key combination"
  end.

Definition pine_prep_finish_from_shares (self : PineConfig) (agg_id : N) (host_state : PrepState)
    (host_share : PrepareShare) (peer_share_data : list byte) :
    res VdafError (VdafAggregateShare * list byte) :=
  match self, host_state, host_share with
  | Pine_Field32HmacSha256Aes128 param, PrepState_Pine32HmacSha256Aes128 state,
    PrepareShare_Pine32HmacSha256Aes128 share =>
      vdaf ← pine32_hmac_sha256_aes128 param;
      '(out_share, outbound) ←
        prep_finish_from_shares (pine_over FieldPrio2 vdaf) agg_id state share peer_share_data;
      Ok (VAS_Field32 (agg_share_from out_share), outbound)
  | Pine_Field64HmacSha256Aes128 param, PrepState_Pine64HmacSha256Aes128 state,
    PrepareShare_Pine64HmacSha256Aes128 share =>
      vdaf ← pine64_hmac_sha256_aes128 param;
      '(out_share, outbound) ←
        prep_finish_from_shares (pine_over Field64 vdaf) agg_id state share peer_share_data;
      Ok (VAS_Field64 (agg_share_from out_share), outbound)
  | _, _, _ => fatal "pine_prep_finish_from_shares: unexpected host state or share"
  end.

Definition pine_prep_finish (self : PineConfig) (host_state : PrepState)
    (peer_message_data : list byte) : res VdafError VdafAggregateShare :=
  match self, host_state with
  | Pine_Field32HmacSha256Aes128 param, PrepState_Pine32HmacSha256Aes128 state =>
      vdaf ← pine32_hmac_sha256_aes128 param;
      out_share ← prep_finish (pine_over FieldPrio2 vdaf) state peer_message_data;
      Ok (VAS_Field32 (agg_share_from out_share))
  | Pine_Field64HmacSha256Aes128 param, PrepState_Pine64HmacSha256Aes128 state =>
      vdaf ← pine64_hmac_sha256_aes128 param;
      out_share ← prep_finish (pine_over Field64 vdaf) state peer_message_data;
      Ok (VAS_Field64 (agg_share_from out_share))
  | _, _ => fatal "pine_prep_finish: unexpected host state"
  end.

Definition pine_unshard (self : PineConfig) (num_measurements : N) (agg_shares : list (list byte)) :
    res VdafError AggregateResult :=
  match self with
  | Pine_Field32HmacSha256Aes128 param =>
      vdaf ← pine32_hmac_sha256_aes128 param;
      agg_res ← unshard_encoded (pine_over FieldPrio2 vdaf) num_measurements agg_shares;
      Ok (Result_F64Vec agg_res)
  | Pine_Field64HmacSha256Aes128 param =>
      vdaf ← pine64_hmac_sha256_aes128 param;
      agg_res ← unshard_encoded (pine_over Field64 vdaf) num_measurements agg_shares;
      Ok (Result_F64Vec agg_res)
  end.

(** ** The matches on the configuration, in [protocol/] *)
#[global] Instance dispatch : VdafOps := {
  VdafPrepState := PrepState;
  VdafPrepShare := PrepareShare;
  DapMeasurement := Measurement;
  DapAggregateResult := AggregateResult;
  VdafPrepShare_encode := PrepareShare_encode;
  Protocol.VdafAggregateShare_encode := agg_share_encode;
  vdaf_shard rand config measurement nonce :=
    match config with
    | Vdaf.Prio3 prio3_config => prio3_shard rand prio3_config measurement nonce
    | Vdaf.Prio2 dimension => prio2_shard rand dimension measurement nonce
    | Vdaf.Pine pine => pine_shard rand pine measurement nonce
    end;
  vdaf_prep_init config verify_key agg_id nonce public_share input_share :=
    match config with
    | Vdaf.Prio3 prio3_config =>
        prio3_prep_init prio3_config verify_key agg_id nonce public_share input_share
    | Vdaf.Prio2 dimension => prio2_prep_init dimension verify_key agg_id nonce public_share input_share
    | Vdaf.Pine pine => pine_prep_init pine verify_key agg_id nonce public_share input_share
    end;
  vdaf_prep_finish_from_shares config agg_id state share peer_share :=
    match config with
    | Vdaf.Prio3 prio3_config => prio3_prep_finish_from_shares prio3_config agg_id state share peer_share
    | Vdaf.Prio2 dimension => prio2_prep_finish_from_shares dimension state share peer_share
    | Vdaf.Pine pine => pine_prep_finish_from_shares pine agg_id state share peer_share
    end;
  vdaf_prep_finish config state prep_msg :=
    match config with
    | Vdaf.Prio3 prio3_config => prio3_prep_finish prio3_config state prep_msg
    | Vdaf.Prio2 dimension => prio2_prep_finish dimension state prep_msg
    | Vdaf.Pine pine => pine_prep_finish pine state prep_msg
    end;
  vdaf_unshard config num_measurements agg_shares :=
    match config with
    | Vdaf.Prio3 prio3_config => prio3_unshard prio3_config num_measurements agg_shares
    | Vdaf.Prio2 dimension => prio2_unshard dimension num_measurements agg_shares
    | Vdaf.Pine pine => pine_unshard pine num_measurements agg_shares
    end;
}.
End Dispatch.
