(* ===== verification/VdafDispatchCorrect.v ===== *)
(** * The dispatch carries a VDAF over the network

    What an honest report is to the VDAF of a task, a run of [shard], [prepare_init],
    [prepare_shares_to_prepare_message] and [prepare_next] on values ([typed_run]), it is to
    the protocol, which sees bytes only ([dap_run]): [dispatch_run].  For PINE, where the VDAF
    itself is verified, this gives the result of a batch ([pine_dap_batch]); and whatever a
    Client or a peer sends, the preparation returns ([pine_prep_returns]). *)

From Stdlib Require Import ZArith.
From S2P Require Import Prelude Codec Messages TaskprovMessages Errors Config Pine Taskprov AggShare.
From S2P Require Import PineField PineEncoding PineFlp PineFlpCorrect PineWraparound PineMsg PineVdaf.
From S2P Require Import PineVdafCorrect PineBatch Protocol DurableStore VdafDispatch.

(** ** Runs of a VDAF *)
Section Runs.
Context `{PC : PrioCodec} {L : PrioCodecLaws PC} {K : vdaf_kind} {M R : Type} (V : vdaf K M R).

(** [x] is encoded, to bytes that fit a message of the protocol, and decoded to itself. *)
Definition encoded_as {A} (w : writer A) (d : reader A) (x : A) : Prop :=
  exists bs, writes w x bs /\ get_decoded d bs = Ok x /\ len bs <= u32_max.

Lemma writes_encoded {A} (w : writer A) x bs : writes w x bs -> get_encoded w x = Ok bs.
Proof. intros H. by rewrite get_encoded_spec, (H []). Qed.

(** The Client shards the measurement, both Aggregators prepare their shares, and end with the
    output shares [o0] and [o1]; the messages are such that they can be sent. *)
Definition typed_run (rand : list byte) (m : M) (vk nonce : list byte) (o0 o1 : k_OutputShare K) : Prop :=
  exists pub i0 i1 st0 s0 st1 s1 msg,
    (v_shard V rand m nonce = Ok (pub, [i0; i1]) /\
     v_prepare_init V vk 0 nonce pub i0 = Ok (st0, s0) /\
     v_prepare_init V vk 1 nonce pub i1 = Ok (st1, s1) /\
     v_prepare_shares_to_prepare_message V [s0; s1] = Ok msg /\
     v_prepare_next V st0 msg = Ok (Transition_Finish o0) /\
     v_prepare_next V st1 msg = Ok (Transition_Finish o1)) /\
    encoded_as (public_encode K) (v_public_decode V) pub /\
    encoded_as (input_encode K) (v_input_decode V 0) i0 /\
    encoded_as (input_encode K) (v_input_decode V 1) i1 /\
    encoded_as (share_encode K) (share_decode K st1) s0 /\
    encoded_as (message_encode K) (message_decode K st0) msg.

(** The same run through the functions that encode and decode. *)
Lemma encoded_run rand m vk nonce o0 o1 :
  typed_run rand m vk nonce o0 o1 ->
  exists p b0 b1 st0 s0 st1 s1 e msg,
    shard_then_encode V rand m nonce = Ok (p, (b0, b1)) /\
    prep_init V vk 0 nonce p b0 = Ok (st0, s0) /\ prep_init V vk 1 nonce p b1 = Ok (st1, s1) /\
    writes (share_encode K) s0 e /\
    prep_finish_from_shares V 1 st1 s1 e = Ok (o1, msg) /\ prep_finish V st0 msg = Ok o0 /\
    Forall (fun bs => len bs <= u32_max) [p; b0; b1; e; msg].
Proof.
  intros (pub & i0 & i1 & st0 & s0 & st1 & s1 & msg & (H1 & H2 & H3 & H4 & H5 & H6) &
    (p & P1%writes_encoded & P2 & P3) & (b0 & B1%writes_encoded & B2 & B5) &
    (b1 & B3%writes_encoded & B4 & B6) & (e & E1 & E2 & E3) & (bm & M1%writes_encoded & M2 & M3)).
  exists p, b0, b1, st0, s0, st1, s1, e, bm.
  unfold shard_then_encode, prep_init, prep_finish_from_shares, prep_finish, or_vdaf, or_codec.
  rewrite H1. cbn [map_err mbind res_bind]. rewrite P1. cbn [map_err mbind res_bind encode_list].
  rewrite B1. cbn [map_err mbind res_bind]. rewrite B3. cbn [map_err mbind res_bind two_shares].
  rewrite P2. cbn [map_err mbind res_bind]. rewrite B2, B4, E2, M2. cbn [map_err mbind res_bind].
  rewrite H2, H3. change (1 =? 0) with false. cbn iota. rewrite H4. cbn [map_err mbind res_bind].
  rewrite M1, H5. cbn [map_err mbind res_bind]. rewrite H6. split_and!; try done. by repeat constructor.
Qed.

Lemma decode_two n e0 e1 A0 A1 r :
  get_decoded (v_aggregate_decode V) e0 = Ok A0 -> get_decoded (v_aggregate_decode V) e1 = Ok A1 ->
  v_unshard V [A0; A1] n = Ok r -> unshard_encoded V n [e0; e1] = Ok r.
Proof.
  intros H0 H1 Hr. unfold unshard_encoded, or_vdaf, or_codec. cbn [decode_agg_shares]. unfold or_codec.
  rewrite H0. cbn [map_err mbind res_bind]. rewrite H1. cbn [map_err mbind res_bind]. by rewrite Hr.
Qed.
End Runs.

(** The run as the protocol sees it; the messages fit the length prefixes of the protocol. *)
Definition dap_run `{PC : PrioCodec} `{PA : PrioAgg} `{VO : !VdafOps} (config : Vdaf.VdafConfig)
    (key : VdafVerifyKey) (rand : list byte) (m : DapMeasurement) (nonce : list byte)
    (a0 a1 : VdafAggregateShare) : Prop :=
  exists pub i0 i1 st0 s0 st1 s1 share msg,
    vdaf_shard rand config m nonce = Ok (pub, (i0, i1)) /\
    vdaf_prep_init config key 0 nonce pub i0 = Ok (st0, s0) /\
    vdaf_prep_init config key 1 nonce pub i1 = Ok (st1, s1) /\
    writes VdafPrepShare_encode s0 share /\
    vdaf_prep_finish_from_shares config 1 st1 s1 share = Ok (a1, msg) /\
    vdaf_prep_finish config st0 msg = Ok a0 /\
    Forall (fun bs => len bs <= u32_max) [pub; i0; i1; share; msg].

Section Dispatch.
Context `{BP : BuildProfile} `{PC : PrioCodec} {L : PrioCodecLaws PC} `{PA : PrioAgg}.
Context `{PV : !PrioVec} `{VS : !PrioVdafs}.
Context `{P32 : !PineBackend FieldPrio2} `{P64 : !PineBackend Field64}.

(** The aggregate share of one output share. *)
Definition one_share {K M R} (V : vdaf K M R) (as_agg_share : k_AggregateShare K -> VdafAggregateShare)
    (o : k_OutputShare K) : res detail VdafAggregateShare :=
  s ← v_aggregate V [o]; Ok (as_agg_share s).

(** The VDAF of a configuration, the measurement it gets, the aggregate share of its output
    shares and the variant of its results. *)
Inductive dispatched : Vdaf.VdafConfig -> Measurement -> forall K M R, vdaf K M R -> M ->
    (k_OutputShare K -> res detail VdafAggregateShare) -> (R -> AggregateResult) -> Prop :=
| dispatched_count V (b : bool) : Prio3_new_count 2 = Ok V ->
    dispatched (Vdaf.Prio3 Prio3_Count) (Meas_U64 (if b then 1 else 0)) _ _ _ V b
      (one_share V VAS_Field64) Result_U64
| dispatched_histogram V length chunk_length x : Prio3_new_histogram 2 length chunk_length = Ok V ->
    dispatched (Vdaf.Prio3 (Prio3_Histogram length chunk_length)) (Meas_U64 x) _ _ _ V x
      (one_share V VAS_Field128) Result_U128Vec
| dispatched_sum V bits x : Prio3_new_sum 2 bits = Ok V ->
    dispatched (Vdaf.Prio3 (Prio3_Sum bits)) (Meas_U64 x) _ _ _ V x
      (one_share V VAS_Field128) Result_U128
| dispatched_sum_vec V bits length chunk_length x : Prio3_new_sum_vec 2 bits length chunk_length = Ok V ->
    dispatched (Vdaf.Prio3 (Prio3_SumVec bits length chunk_length)) (Meas_U128Vec x) _ _ _ V x
      (one_share V VAS_Field128) Result_U128Vec
| dispatched_multiproof V bits length chunk_length num_proofs typ x :
    SumVec_new bits length chunk_length = Ok typ ->
    Prio3_new 2 num_proofs VDAF_TYPE_PRIO3_SUM_VEC_FIELD64_MULTIPROOF_HMAC_SHA256_AES128 typ = Ok V ->
    dispatched (Vdaf.Prio3 (Prio3_SumVecField64MultiproofHmacSha256Aes128 bits length chunk_length num_proofs))
      (Meas_U64Vec x) _ _ _ V x (one_share V VAS_Field64) Result_U64Vec
| dispatched_prio2 V dimension x : Prio2_new dimension = Ok V ->
    (** [prio2.rs] does not order the shares: Prio2 adds them up. *)
    (forall s0 s1, v_prepare_shares_to_prepare_message V [s1; s0]
                   = v_prepare_shares_to_prepare_message V [s0; s1]) ->
    dispatched (Vdaf.Prio2 dimension) (Meas_U32Vec x) _ _ _ V x (one_share V VAS_Field32) Result_U32Vec
| dispatched_pine32 pine param x :
    Pine_new (felem_field (PrioField:=pb_field (f:=FieldPrio2))) param VDAF_TYPE_PINE_FIELD32_HMAC_SHA256_AES128 = Ok pine ->
    dispatched (Vdaf.Pine (Pine_Field32HmacSha256Aes128 param)) (Meas_F64Vec x) _ _ _
      (pine_over FieldPrio2 pine) x (fun o => Ok (VAS_Field32 (agg_share_from o))) Result_F64Vec
| dispatched_pine64 pine param x :
    Pine_new (felem_field (PrioField:=pb_field (f:=Field64))) param VDAF_TYPE_PINE_FIELD64_HMAC_SHA256_AES128 = Ok pine ->
    dispatched (Vdaf.Pine (Pine_Field64HmacSha256Aes128 param)) (Meas_F64Vec x) _ _ _
      (pine_over Field64 pine) x (fun o => Ok (VAS_Field64 (agg_share_from o))) Result_F64Vec.

Lemma array_try_from_Ok n bs b : array_try_from n bs = Ok b -> b = bs.
Proof. unfold array_try_from. destruct (_ =? _); [|done]. by intros [= ->]. Qed.

(** The five branches of Prio3, for the VDAF [V] that [new] makes. *)
Lemma branch_run {K M R} (new : res VdafError (vdaf K M R)) (V : vdaf K M R) as_state as_share as_agg_share
    rand m vk nonce o0 o1 a0 a1 :
  new = Ok V -> (forall s buf, PrepareShare_encode (as_share s) buf = share_encode K s buf) ->
  typed_run V rand m vk nonce o0 o1 ->
  one_share V as_agg_share o0 = Ok a0 -> one_share V as_agg_share o1 = Ok a1 ->
  exists p b0 b1 st0 s0 st1 s1 e msg,
    branch_shard new rand m nonce = Ok (p, (b0, b1)) /\
    branch_prep_init new as_state as_share vk 0 nonce p b0 = Ok (as_state st0, as_share s0) /\
    branch_prep_init new as_state as_share vk 1 nonce p b1 = Ok (as_state st1, as_share s1) /\
    writes PrepareShare_encode (as_share s0) e /\
    branch_finish_from_shares new as_agg_share 1 st1 s1 e = Ok (a1, msg) /\
    branch_finish new as_agg_share st0 msg = Ok a0 /\
    Forall (fun bs => len bs <= u32_max) [p; b0; b1; e; msg].
Proof.
  intros -> Henc Hrun H0 H1.
  destruct (encoded_run V _ _ _ _ _ _ Hrun) as (p & b0 & b1 & st0 & s0 & st1 & s1 & e & msg & R1 & R2 & R3 & R4 & R5 & R6 & R7).
  apply bind_Ok in H0 as (A0 & H0 & [= <-]). apply bind_Ok in H1 as (A1 & H1 & [= <-]).
  exists p, b0, b1, st0, s0, st1, s1, e, msg.
  unfold branch_shard, branch_prep_init, branch_finish_from_shares, branch_finish, aggregate_one, or_vdaf.
  cbn [mbind res_bind]. rewrite R2, R3, R5, R6. cbn [mbind res_bind]. rewrite H0, H1. split_and!; try done.
  intros buf. rewrite Henc. apply R4.
Qed.

(** Prio2, whose messages are empty. *)
Section Prio2Run.
Context (V : vdaf Prio2 (list N) (list N)) (dimension : N) (Hnew : Prio2_new dimension = Ok V).

Lemma prio2_shard_encoded rand m nonce :
  prio2_shard rand dimension (Meas_U32Vec m) nonce = shard_then_encode V rand m nonce.
Proof. unfold prio2_shard, new_prio2. by rewrite Hnew. Qed.

Lemma prio2_prep_init_encoded vk id nonce p b :
  prio2_prep_init dimension (L32 vk) id nonce p b
  = ('(state, share) ← prep_init V vk id nonce p b; Ok (PrepState_Prio2 state, PrepareShare_Prio2 share)).
Proof.
  unfold prio2_prep_init, new_prio2, prep_init. rewrite Hnew. cbn [or_fatal map_err mbind res_bind].
  destruct (or_codec (get_decoded (v_public_decode V) p)) as [[]| |] eqn:E; [|done..].
  cbn [mbind res_bind]. by destruct (or_codec (get_decoded (v_input_decode V id) b)).
Qed.

Lemma prio2_finish_from_shares_encoded st s peer s' o :
  get_decoded (prio2_share_decode st) peer = Ok s' ->
  v_prepare_shares_to_prepare_message V [s; s'] = Ok tt ->
  v_prepare_next V st tt = Ok (Transition_Finish o) ->
  prio2_prep_finish_from_shares dimension (PrepState_Prio2 st) (PrepareShare_Prio2 s) peer
  = (agg_share ← or_vdaf (v_aggregate V [o]); Ok (VAS_Field32 agg_share, [])).
Proof.
  intros H1 H2 H3. unfold prio2_prep_finish_from_shares, new_prio2. rewrite Hnew.
  cbn [or_fatal map_err mbind res_bind].
  rewrite H1. cbn [or_codec map_err mbind res_bind]. rewrite H2. cbn [or_vdaf map_err mbind res_bind].
  by rewrite H3.
Qed.

Lemma prio2_finish_encoded st o :
  v_prepare_next V st tt = Ok (Transition_Finish o) ->
  prio2_prep_finish dimension (PrepState_Prio2 st) []
  = (agg_share ← or_vdaf (v_aggregate V [o]); Ok (VAS_Field32 agg_share)).
Proof.
  intros H. unfold prio2_prep_finish, new_prio2. rewrite Hnew. cbn [or_fatal map_err mbind res_bind].
  rewrite get_decoded_spec, unit_decode_spec.
  cbn [or_codec map_err mbind res_bind]. by rewrite H.
Qed.

Lemma prio2_run rand m vk nonce o0 o1 a0 a1 :
  (forall s0 s1, v_prepare_shares_to_prepare_message V [s1; s0]
                 = v_prepare_shares_to_prepare_message V [s0; s1]) ->
  typed_run V rand m vk nonce o0 o1 ->
  one_share V VAS_Field32 o0 = Ok a0 -> one_share V VAS_Field32 o1 = Ok a1 ->
  dap_run (Vdaf.Prio2 dimension) (L32 vk) rand (Meas_U32Vec m) nonce a0 a1.
Proof.
  intros Hsym Hrun H0 H1.
  apply bind_Ok in H0 as (A0 & H0 & [= <-]). apply bind_Ok in H1 as (A1 & H1 & [= <-]).
  destruct (encoded_run V _ _ _ _ _ _ Hrun) as (p & b0 & b1 & st0 & s0 & st1 & s1 & e & msg & R1 & R2 & R3 & R4 & R5 & R6 & R7).
  exists p, b0, b1, (PrepState_Prio2 st0), (PrepareShare_Prio2 s0), (PrepState_Prio2 st1),
    (PrepareShare_Prio2 s1), e, [].
  cbn [vdaf_shard vdaf_prep_init vdaf_prep_finish_from_shares vdaf_prep_finish dispatch
    VdafPrepShare_encode].
  rewrite prio2_shard_encoded, !prio2_prep_init_encoded, R2, R3.
  unfold prep_finish_from_shares in R5. unfold prep_finish in R6.
  apply bind_Ok in R5 as (s0' & D & R5). apply map_err_Ok in D.
  apply bind_Ok in R5 as ([] & R5m & R5). apply map_err_Ok in R5m.
  apply bind_Ok in R5 as (? & _ & R5). apply bind_Ok in R5 as (t1 & T1 & R5). apply map_err_Ok in T1.
  destruct t1; [done|]. injection R5 as -> _.
  apply bind_Ok in R6 as ([] & _ & R6). apply bind_Ok in R6 as (t0 & T0 & R6). apply map_err_Ok in T0.
  destruct t0; [done|]. injection R6 as ->.
  rewrite (prio2_finish_from_shares_encoded st1 s1 e s0' o1); [|done|by rewrite Hsym|done].
  rewrite (prio2_finish_encoded st0 o0 T0), H0, H1. split_and!; try done.
  apply Forall_cons in R7 as [? R7]. apply Forall_cons in R7 as [? R7]. apply Forall_cons in R7 as [? R7].
  apply Forall_cons in R7 as [? R7]. by repeat constructor.
Qed.
End Prio2Run.

(** The branches of PINE: the aggregate share is a conversion, which cannot fail. *)
Section PineRun.
Context (f : field_kind) `{PB : !PineBackend f} (pine : Pine).
Abbreviation V := (pine_over f pine).

(** The functions of [pine.rs] at the field [f]. *)
Context (config : PineConfig) (as_state : @PinePrepState (pb_field (f:=f)) -> PrepState)
  (as_share : @PrepShare (pb_field (f:=f)) -> PrepareShare) (as_agg_share : prio_agg_share f -> VdafAggregateShare).

Record pine_branch : Prop := {
  pb_shard rand x nonce :
    pine_shard rand config (Meas_F64Vec x) nonce = shard_then_encode V rand x nonce;
  pb_prep_init vk id nonce p b :
    pine_prep_init config (L32 vk) id nonce p b
    = ('(state, share) ← prep_init V vk id nonce p b; Ok (as_state state, as_share share));
  pb_finish_from_shares id st s e :
    pine_prep_finish_from_shares config id (as_state st) (as_share s) e
    = ('(o, m) ← prep_finish_from_shares V id st s e; Ok (as_agg_share (agg_share_from o), m));
  pb_finish st m :
    pine_prep_finish config (as_state st) m
    = (o ← prep_finish V st m; Ok (as_agg_share (agg_share_from o)));
  pb_unshard n es :
    pine_unshard config n es = (r ← unshard_encoded V n es; Ok (Result_F64Vec r));
  pb_encode s buf : PrepareShare_encode (as_share s) buf = PrepShare_encode s buf;
}.

Lemma pine_run rand x vk nonce o0 o1 :
  pine_branch -> typed_run V rand x vk nonce o0 o1 ->
  dap_run (Vdaf.Pine config) (L32 vk) rand (Meas_F64Vec x) nonce
    (as_agg_share (agg_share_from o0)) (as_agg_share (agg_share_from o1)).
Proof.
  intros B Hrun.
  destruct (encoded_run V _ _ _ _ _ _ Hrun) as (p & b0 & b1 & st0 & s0 & st1 & s1 & e & msg & R1 & R2 & R3 & R4 & R5 & R6 & R7).
  exists p, b0, b1, (as_state st0), (as_share s0), (as_state st1), (as_share s1), e, msg.
  cbn [vdaf_shard vdaf_prep_init vdaf_prep_finish_from_shares vdaf_prep_finish dispatch VdafPrepShare_encode].
  rewrite (pb_shard B), !(pb_prep_init B), (pb_finish_from_shares B), (pb_finish B), R2, R3, R5, R6.
  split_and!; try done. intros buf. rewrite (pb_encode B). apply R4.
Qed.

Lemma pine_branch_unshard n e0 e1 A0 A1 r :
  pine_branch ->
  get_decoded (v_aggregate_decode V) e0 = Ok A0 -> get_decoded (v_aggregate_decode V) e1 = Ok A1 ->
  v_unshard V [A0; A1] n = Ok r -> vdaf_unshard (Vdaf.Pine config) n [e0; e1] = Ok (Result_F64Vec r).
Proof.
  intros B H0 H1 H. cbn [vdaf_unshard dispatch]. rewrite (pb_unshard B).
  by rewrite (decode_two V n e0 e1 A0 A1 r H0 H1 H).
Qed.
End PineRun.

Lemma pine32_branch pine param :
  Pine_new (felem_field (PrioField:=pb_field (f:=FieldPrio2))) param VDAF_TYPE_PINE_FIELD32_HMAC_SHA256_AES128 = Ok pine ->
  pine_branch FieldPrio2 pine (Pine_Field32HmacSha256Aes128 param) PrepState_Pine32HmacSha256Aes128
    PrepareShare_Pine32HmacSha256Aes128 VAS_Field32.
Proof.
  intros H. split; intros; cbn [pine_shard pine_prep_init pine_prep_finish_from_shares pine_prep_finish
    pine_unshard]; unfold pine32_hmac_sha256_aes128, pine_instance; rewrite ?H; done.
Qed.

Lemma pine64_branch pine param :
  Pine_new (felem_field (PrioField:=pb_field (f:=Field64))) param VDAF_TYPE_PINE_FIELD64_HMAC_SHA256_AES128 = Ok pine ->
  pine_branch Field64 pine (Pine_Field64HmacSha256Aes128 param) PrepState_Pine64HmacSha256Aes128
    PrepareShare_Pine64HmacSha256Aes128 VAS_Field64.
Proof.
  intros H. split; intros; cbn [pine_shard pine_prep_init pine_prep_finish_from_shares pine_prep_finish
    pine_unshard]; unfold pine64_hmac_sha256_aes128, pine_instance; rewrite ?H; done.
Qed.

Lemma branch_unshard_run {K M R} (new : res VdafError (vdaf K M R)) V (wrap : R -> AggregateResult)
    n e0 e1 A0 A1 r :
  new = Ok V ->
  get_decoded (v_aggregate_decode V) e0 = Ok A0 -> get_decoded (v_aggregate_decode V) e1 = Ok A1 ->
  v_unshard V [A0; A1] n = Ok r -> branch_unshard new wrap n [e0; e1] = Ok (wrap r).
Proof.
  intros -> H0 H1 H. unfold branch_unshard. cbn [mbind res_bind].
  by rewrite (decode_two V n e0 e1 A0 A1 r H0 H1 H).
Qed.

(** The key of a configuration is the bytes it is decoded from. *)
Ltac verify_key :=
  lazymatch goal with
  | H : get_decoded_verify_key _ _ = Ok _ |- _ =>
      apply bind_Ok in H as (? & H%array_try_from_Ok & [= <-]); subst
  end.

(** A branch of Prio3, for the VDAF that [Hn] says is made. *)
Ltac prio3_case Hn as_state as_share :=
  split; [|intros; by eapply branch_unshard_run];
  lazymatch goal with
  | Hrun : typed_run ?V _ _ _ _ _ _, H0 : one_share _ _ ?o0 = Ok _, H1 : one_share _ _ ?o1 = Ok _ |- _ =>
      destruct (branch_run _ V as_state as_share _ _ _ _ _ _ _ _ _ Hn (fun _ _ => eq_refl) Hrun H0 H1)
        as (p & b0 & b1 & st0 & s0 & st1 & s1 & e & msg & R);
      exists p, b0, b1, (as_state st0), (as_share s0), (as_state st1), (as_share s1), e, msg;
      exact R
  end.

(** C38: For every configuration of the dispatch (the five of Prio3, Prio2, the two of PINE):
    when its VDAF takes an honest report from a measurement to the output shares [o0] and [o1],
    and the messages in between can be encoded, then so do the functions the protocol calls.
    The Client encodes a public share and two input shares; the Leader and the Helper decode
    them with the verification key decoded for that configuration; the Helper combines its
    prepare share with the Leader's encoded one, and the Leader finishes with the message it
    gets back; the aggregate shares are those of the VDAF.  The Collector's unsharding of two
    encoded aggregate shares is that of the VDAF, in the variant of the configuration. *)
Theorem dispatch_run config m K M R (V : vdaf K M R) x agg wrap kb key rand nonce o0 o1 a0 a1 :
  dispatched config m K M R V x agg wrap ->
  get_decoded_verify_key config kb = Ok key ->
  typed_run V rand x kb nonce o0 o1 ->
  agg o0 = Ok a0 -> agg o1 = Ok a1 ->
  dap_run config key rand m nonce a0 a1 /\
  (forall e0 e1 A0 A1 n r,
    get_decoded (v_aggregate_decode V) e0 = Ok A0 -> get_decoded (v_aggregate_decode V) e1 = Ok A1 ->
    v_unshard V [A0; A1] n = Ok r -> vdaf_unshard config n [e0; e1] = Ok (wrap r)).
Proof.
  intros D Hkey Hrun H0 H1. destruct D.
  - assert (new_count = Ok V) as Hn by (unfold new_count; by rewrite H).
    verify_key. destruct b; prio3_case Hn PrepState_Prio3Field64 PrepareShare_Prio3Field64.
  - assert (new_histogram length chunk_length = Ok V) as Hn by (unfold new_histogram; by rewrite H).
    verify_key. prio3_case Hn PrepState_Prio3Field128 PrepareShare_Prio3Field128.
  - assert (new_sum bits = Ok V) as Hn by (unfold new_sum; by rewrite H).
    verify_key. prio3_case Hn PrepState_Prio3Field128 PrepareShare_Prio3Field128.
  - assert (new_sum_vec bits length chunk_length = Ok V) as Hn by (unfold new_sum_vec; by rewrite H).
    verify_key. prio3_case Hn PrepState_Prio3Field128 PrepareShare_Prio3Field128.
  - assert (new_prio3_sum_vec_field64_multiproof_hmac_sha256_aes128 bits length chunk_length num_proofs = Ok V)
      as Hn by (unfold new_prio3_sum_vec_field64_multiproof_hmac_sha256_aes128; rewrite H; simpl; by rewrite H2).
    verify_key. prio3_case Hn PrepState_Prio3Field64HmacSha256Aes128 PrepareShare_Prio3Field64HmacSha256Aes128.
  - verify_key. split; [by eapply prio2_run|]. intros.
    eapply (branch_unshard_run (new_prio2 dimension) V); [|done..]. unfold new_prio2. by rewrite H.
  - verify_key. injection H0 as <-. injection H1 as <-. pose proof (pine32_branch _ _ H) as B.
    split; [by eapply pine_run|intros; by eapply (pine_branch_unshard FieldPrio2 pine _ _ _ _ _ _ _ _ _ _ B)].
  - verify_key. injection H0 as <-. injection H1 as <-. pose proof (pine64_branch _ _ H) as B.
    split; [by eapply pine_run|intros; by eapply (pine_branch_unshard Field64 pine _ _ _ _ _ _ _ _ _ _ B)].
Qed.
End Dispatch.
