(* ===== verification/VdafDispatchPine.v ===== *)
(** * PINE through the dispatch

    The theorems about PINE ([PineVdafCorrect], [PineBatch], [PineReturns]) are about values;
    here they are carried to the bytes of the protocol: the sum of a batch
    ([pine_dap_batch]) and the absence of panics in the preparation, whatever a Client or the
    other Aggregator sends ([pine_prep_returns]). *)

From Stdlib Require Import ZArith.
From S2P Require Import Prelude Codec Messages TaskprovMessages Errors Config Pine Taskprov AggShare.
From S2P Require Import PineField PineEncoding PineFlp PineFlpCorrect PineWraparound PineMsg PineVdaf.
From S2P Require Import PineVdafCorrect PineBatch Protocol DurableStore VdafDispatch.
From S2P Require Import VdafDispatchCorrect.

(** ** The messages of an honest report *)
Section Messages.
Context `{BP : BuildProfile} `{PC : PrioCodec} {L : PrioCodecLaws PC}.
Context `{PF : PrioField} {PL : PrioFieldLaws PF} `{PX : !Xof} {XL : XofLaws PX}.
Context `{FM : !Flp PineType} `{FS : !Flp PineTypeSquaredNormEqual}.
Context {G1 G2 : Type} `{GA1 : !Gadget G1} `{GA2 : !Gadget G2}.
Context (param : PineParam) (id : N) (pine : Pine).
Context (W : PineParam_wf param) (Hnew : Pine_new felem_field param id = Ok pine).

Abbreviation dimension := (PineType_dimension (Pine_flp pine)).

Lemma codec_encoded_as {A} (wf : A -> Prop) (w : writer A) (d : reader A) x :
  CodecOk wf w d -> wf x -> (exists bs, writes w x bs /\ len bs <= u32_max) -> encoded_as w d x.
Proof.
  intros C Hx (b & Hw & Hb). destruct (codec_round_trips wf w d C x Hx) as (bs & He & Hd).
  rewrite (writes_encoded w x b Hw) in He. injection He as <-. exists b. split_and!; [done| |done].
  apply Hd. unfold u32_max, slice_max in *. lia.
Qed.

(** The messages of the instance fit the length prefixes of the protocol. *)
Definition messages_fit : Prop :=
  (Pine_encoded_input_len pine + proofs_size pine + verifiers_size pine + dimension) * ENCODED_SIZE
  + 4 * SEED_SIZE <= u32_max.
Context (Hfit : messages_fit).

Lemma public_encoded_as pub :
  PublicShare_wf pub -> encoded_as PublicShare_encode PublicShare_decode pub.
Proof.
  intros Hp. eapply codec_encoded_as; [apply _|done|].
  destruct pub as [[a b] [c d]], Hp as [[H1 H2] [H3 H4]]. cbn in *.
  destruct (seed_writes a H1) as (b1 & W1 & L1). destruct (seed_writes b H2) as (b2 & W2 & L2).
  destruct (seed_writes c H3) as (b3 & W3 & L3). destruct (seed_writes d H4) as (b4 & W4 & L4).
  exists (b1 ++ b2 ++ b3 ++ b4). split; [unfold_writes; chain_appends|].
  rewrite !len_app. unfold messages_fit in Hfit. lia.
Qed.

Lemma input_encoded_as agg_id x :
  InputShare_wf pine agg_id (proofs_size pine) x ->
  encoded_as InputShare_encode (InputShare_decode pine agg_id) x.
Proof.
  intros Hx. destruct (proofs_len_ok (E:=CodecError) _ _ _ _ W Hnew) as [Hn _].
  eapply codec_encoded_as; [by apply InputShare_codec|done|]. unfold messages_fit in Hfit.
  destruct x as [ms ps wr vf|ms ps wr vf], Hx as (_ & H1 & H2 & H3 & H4);
    destruct (seed_writes wr H3) as (b3 & W3 & L3); destruct (seed_writes vf H4) as (b4 & W4 & L4).
  - destruct (felems_write ms) as (b1 & W1 & L1). destruct (felems_write ps) as (b2 & W2 & L2).
    exists (b1 ++ b2 ++ b3 ++ b4). split; [unfold_writes; chain_appends|].
    rewrite !len_app, L1, L2, H1, H2. lia.
  - destruct (seed_writes ms H1) as (b1 & W1 & L1). destruct (seed_writes ps H2) as (b2 & W2 & L2).
    exists (b1 ++ b2 ++ b3 ++ b4). split; [unfold_writes; chain_appends|]. rewrite !len_app. lia.
Qed.

Lemma share_encoded_as s :
  PrepShare_wf (verifiers_size pine) s ->
  encoded_as PrepShare_encode (PrepShare_decode (verifiers_size pine)) s.
Proof.
  intros Hs. eapply codec_encoded_as; [apply _|done|]. unfold messages_fit in Hfit.
  destruct s as [v a b], Hs as (H1 & H2 & H3). cbn in *.
  destruct (felems_write v) as (b1 & W1 & L1). destruct (seed_writes a H2) as (b2 & W2 & L2).
  destruct (seed_writes b H3) as (b3 & W3 & L3).
  exists (b1 ++ b2 ++ b3). split; [unfold_writes; chain_appends|]. rewrite !len_app, L1, H1. lia.
Qed.

Lemma message_encoded_as m : Prep_wf m -> encoded_as Prep_encode Prep_decode m.
Proof.
  intros Hm. eapply codec_encoded_as; [apply _|done|]. unfold messages_fit in Hfit.
  destruct m as [a b], Hm as (H1 & H2). cbn in *.
  destruct (seed_writes a H1) as (b1 & W1 & L1). destruct (seed_writes b H2) as (b2 & W2 & L2).
  exists (b1 ++ b2). split; [unfold_writes; chain_appends|]. rewrite len_app. lia.
Qed.

Lemma vec_encoded_as v :
  of_len dimension v -> exists bs, writes PineVec_encode v bs /\ get_decoded (PineVec_decode pine) bs = Ok v /\
    len bs <= u32_max.
Proof.
  intros Hv. unfold messages_fit in Hfit. destruct (felems_write v) as (b & Wb & Lb).
  destruct (codec_encoded_as (vec_len dimension) PineVec_encode (PineVec_decode pine) v)
    as (bs & He & Hd & Hb); [apply _|done| |by exists bs].
  exists b. split; [done|]. rewrite Lb, Hv. lia.
Qed.

(** The randomness of the Client, as the bytes it draws. *)
Lemma seed_at_size rand i :
  len rand = 7 * SEED_SIZE -> (i < 7)%nat -> array SEED_SIZE (seed_at rand i).
Proof.
  intros Hr Hi. unfold array, seed_at, len in *. rewrite length_take, length_drop. nia.
Qed.

Context (good : list felem -> Prop) (LF : pine_flps (G1:=G1) (G2:=G2) pine good).
Context (HC : pine_circuits (G1:=G1) (G2:=G2) (Pine_flp pine) (Pine_flp_sq_norm_equal pine)).
Context (HT : pine_total pine).

Lemma joint_rand_part_seed {E} agg_id blind nonce xs usage s :
  joint_rand_part (E:=E) pine agg_id blind nonce xs usage = Ok s -> array SEED_SIZE s.
Proof.
  intros H. destruct (joint_rand_part_ok (E:=E) pine agg_id blind nonce xs usage) as (s' & H' & Hs).
  rewrite H in H'. by injection H' as ->.
Qed.

(** What the Client sends is well formed. *)
Lemma shard_wf gradient nonce rand pub i0 i1 :
  len rand = 7 * SEED_SIZE ->
  shard_with_rand pine gradient nonce (shard_rand rand) = Ok (pub, [i0; i1]) ->
  PublicShare_wf pub /\ InputShare_wf pine 0 (proofs_size pine) i0 /\
  InputShare_wf pine 1 (proofs_size pine) i1.
Proof.
  intros Hr Hs.
  destruct (shard_inv param id pine W Hnew HC _ _ _ _ _ Hs) as (meas & results & l & h & share0 & S).
  destruct (sharded_accepted param id pine W Hnew HC _ _ _ _ _ _ _ _ _ _ S) as (Hil & Ham & Has).
  destruct (leader_proofs_share_ok param id pine W Hnew good LF _ (PublicShare_vf_joint_rand_parts pub)
    (rand_prove_seed (shard_rand rand)) (rand_proofs_share_seed_1 (shard_rand rand)) Hil Ham Has)
    as (_ & _ & _ & _ & _ & share0' & _ & _ & Hs0 & _ & L0 & _).
  destruct S as [_ _ _ _ _ Hl _ _ Hwr0 Hwr1 Hvf0 Hvf1 Hp Hshares].
  rewrite Hp in Hs0. injection Hs0 as <-.
  injection Hshares as -> ->. split; [split; split; eapply joint_rand_part_seed; eassumption|].
  split; split_and!; try done; apply seed_at_size; (done || lia).
Qed.

(** The run of an honest report, with its messages. *)
Lemma pine_typed_run rand gradient vk nonce o0 o1 :
  len rand = 7 * SEED_SIZE -> prepared pine vk nonce gradient (shard_rand rand) o0 o1 ->
  typed_run (pine_vdaf pine) rand gradient vk nonce o0 o1.
Proof.
  intros Hr (pub & i0 & i1 & st0 & s0 & st1 & s1 & msg & H1 & H2 & H3 & H4 & H5 & H6).
  destruct (shard_wf _ _ _ _ _ _ Hr H1) as (Wp & W0 & W1).
  pose proof (prepare_init_returns param id pine W Hnew HT vk 0 nonce pub i0 W0) as P0.
  pose proof (prepare_init_returns param id pine W Hnew HT vk 1 nonce pub i1 W1) as P1.
  rewrite H2 in P0. rewrite H3 in P1. destruct P0 as (_ & P0 & _), P1 as (P1l & P1 & _). cbn [fst snd] in *.
  pose proof (prepare_shares_returns param id pine W Hnew HT s0 s1 P0 P1) as Pm. rewrite H4 in Pm.
  exists pub, i0, i1, st0, s0, st1, s1, msg. split.
  - cbn [pine_vdaf v_shard v_prepare_init v_prepare_shares_to_prepare_message v_prepare_next].
    rewrite H1, H2, H3, H5, H6. split_and!; try done. exact (f_equal (map_err vdaf_error_text) H4).
  - cbn [PineKind pine_vdaf public_encode v_public_decode input_encode v_input_decode share_encode
      share_decode message_encode message_decode]. rewrite P1l.
    split_and!; [by apply public_encoded_as|by apply input_encoded_as..|by apply share_encoded_as|
      by apply message_encoded_as].
Qed.
End Messages.

(** ** A batch *)

Lemma Forall2_with {A B} (P : A -> Prop) (Q R : A -> B -> Prop) l k :
  Forall P l -> Forall2 Q l k -> (forall x y, P x -> Q x y -> R x y) -> Forall2 R l k.
Proof. intros HP HQ HR. induction HQ; inversion HP; constructor; auto. Qed.

(** What [prio] documents of the aggregate shares of vectors: they are added element by
    element, and encoded one element after the other. *)
Class PineBackendLaws `{PA : PrioAgg} `{PV : !PrioVec} (f : field_kind) (PB : PineBackend f) : Prop := {
  agg_share_from_merge u v : length u = length v ->
    prio_merge (agg_share_from u) (agg_share_from v) = Some (agg_share_from (add_shares u v));
  agg_share_from_encode u bs : writes PineVec_encode u bs -> writes (agg_encode f) (agg_share_from u) bs;
}.

(** A report: the bytes the Client draws, its gradient and the nonce. *)
Record dap_report : Type := MkDapReport {
  dap_rand : list byte;
  dap_gradient : list f64;
  dap_nonce : list byte;
}.

Section Batch.
Context `{BP : BuildProfile} `{PC : PrioCodec} {L : PrioCodecLaws PC} `{PA : PrioAgg}.
Context `{PV : !PrioVec} `{VS : !PrioVdafs}.
Context `{P32 : !PineBackend FieldPrio2} `{P64 : !PineBackend Field64}.

(** The aggregation of the shares of a batch, by [DapAggregateShare::merge]. *)
Fixpoint merge_shares (acc : option VdafAggregateShare) (shares : list VdafAggregateShare) :
    res DapError (option VdafAggregateShare) :=
  match shares with
  | [] => Ok acc
  | s :: shares => acc ← merge_data acc (Some s); merge_shares acc shares
  end.

(** The two configurations of PINE: the field, the parameters, the identifier of the algorithm
    and the variant of its aggregate shares. *)
Inductive pine_at : PineConfig -> forall f, PineBackend f -> PineParam -> N ->
    (prio_agg_share f -> VdafAggregateShare) -> Prop :=
| pine_at_32 param : pine_at (Pine_Field32HmacSha256Aes128 param) FieldPrio2 P32 param
    VDAF_TYPE_PINE_FIELD32_HMAC_SHA256_AES128 VAS_Field32
| pine_at_64 param : pine_at (Pine_Field64HmacSha256Aes128 param) Field64 P64 param
    VDAF_TYPE_PINE_FIELD64_HMAC_SHA256_AES128 VAS_Field64.

(** What both have in common. *)
Lemma pine_at_branch config f (PB : PineBackend f) param id as_agg pine :
  pine_at config f PB param id as_agg ->
  Pine_new (felem_field (PrioField:=pb_field (f:=f))) param id = Ok pine ->
  exists as_state as_share, pine_branch f pine config as_state as_share as_agg.
Proof.
  destruct 1; intros H; eexists _, _; [by apply pine32_branch|by apply pine64_branch].
Qed.

Lemma add_zero_vector `{PF : PrioField} {PL : PrioFieldLaws PF} (pine : Pine) o :
  of_len (PineType_dimension (Pine_flp pine)) o -> add_shares (zero_vector pine) o = o.
Proof.
  intros Ho. unfold zero_vector, of_len, len in *.
  replace (N.to_nat (PineType_dimension (Pine_flp pine))) with (length o) by lia. clear Ho.
  induction o as [|x o IH]; [done|]. unfold add_shares in *. cbn. rewrite IH. f_equal.
  apply (Ring_theory.Radd_0_l felem_ring).
Qed.

Section At.
Context (config : PineConfig) (f : field_kind) {PB : PineBackend f} (BL : PineBackendLaws f PB).
Context (param : PineParam) (id : N) (as_agg : prio_agg_share f -> VdafAggregateShare).
Context (At : pine_at config f PB param id as_agg).
Context {PL : PrioFieldLaws (pb_field (f:=f))}.

Lemma merge_data_at u v : length u = length v ->
  merge_data (Some (as_agg (agg_share_from u))) (Some (as_agg (agg_share_from v)))
  = Ok (Some (as_agg (agg_share_from (add_shares u v)))).
Proof. intros H. pose proof (agg_share_from_merge u v H). destruct At; simpl; by rewrite H0. Qed.

Lemma agg_encode_at u bs : writes PineVec_encode u bs -> get_encoded agg_share_encode (as_agg (agg_share_from u)) = Ok bs.
Proof.
  intros H%agg_share_from_encode. rewrite get_encoded_spec. destruct At; exact (H []).
Qed.

Lemma merge_shares_at d u (vs : list (list felem)) :
  of_len d u -> Forall (of_len d) vs ->
  merge_shares (Some (as_agg (agg_share_from u))) ((fun v => as_agg (agg_share_from v)) <$> vs)
  = Ok (Some (as_agg (agg_share_from (fold_left add_shares vs u)))).
Proof.
  intros Hu Hvs. revert u Hu. induction Hvs as [|v vs Hv _ IH]; intros u Hu; [done|].
  rewrite fmap_cons. cbn [merge_shares fold_left].
  rewrite merge_data_at by (unfold of_len, len in *; lia). cbn [mbind res_bind].
  apply IH. by apply len_add_shares.
Qed.

(** One Aggregator merges its shares, encodes the sum, and the encoding is decoded to it. *)
Lemma aggregated_at pine (o : list felem) os :
  let d := PineType_dimension (Pine_flp pine) in
  let A := fold_left add_shares (o :: os) (zero_vector pine) in
  messages_fit pine -> Forall (of_len d) (o :: os) ->
  exists e, merge_shares None ((fun v => as_agg (agg_share_from v)) <$> o :: os) = Ok (Some (as_agg (agg_share_from A))) /\
    get_encoded agg_share_encode (as_agg (agg_share_from A)) = Ok e /\ get_decoded (PineVec_decode pine) e = Ok A /\
    len e <= u32_max.
Proof.
  intros d A Hfit Hos. assert (of_len d (zero_vector pine)) as Hz
    by (unfold of_len, len, zero_vector; rewrite length_replicate; lia).
  destruct (accumulate_all_eq d _ _ Hz Hos) as [_ HA].
  destruct (vec_encoded_as pine Hfit A HA) as (e & He & Hd & Hb). exists e.
  split; [|split; [by apply agg_encode_at|done]].
  apply Forall_cons in Hos as [Ho Hos]. unfold A. cbn [fold_left]. rewrite add_zero_vector by done.
  rewrite fmap_cons. cbn [merge_shares merge_data mbind res_bind]. by eapply merge_shares_at.
Qed.
End At.

Definition pine_report_of `{PX : Xof} (r : dap_report) : pine_report :=
  MkPineReport (dap_nonce r) (dap_gradient r) (shard_rand (dap_rand r)).

(** The Client drew enough bytes and sharded its gradient; the query randomness is good. *)
Definition dap_sharded `{PF : PrioField} `{PX : !Xof} `{FM : !Flp PineType} `{FS : !Flp PineTypeSquaredNormEqual}
    (pine : Pine) (good : list felem -> Prop) (vk : list byte) (r : dap_report) : Prop :=
  len (dap_rand r) = 7 * SEED_SIZE /\
  sharded_report pine good vk (pine_report_of r).

Lemma sharded_pine_reports `{PF : PrioField} `{PX : !Xof} `{FM : !Flp PineType}
    `{FS : !Flp PineTypeSquaredNormEqual} (pine : Pine) good vk reports :
  Forall (dap_sharded pine good vk) reports ->
  Forall (sharded_report pine good vk) (pine_report_of <$> reports).
Proof. intros H. apply Forall_fmap. by eapply Forall_impl; [exact H|intros r [_ ?]]. Qed.

(** PINE through the functions the protocol calls, over either field.  For a batch of one
    or more reports of honest Clients whose coordinates, in units of [2^-frac_bits], are at
    most [B] in magnitude, with [B] times one more than the number of reports below [2^53] and
    below half of the modulus: every report goes through, as bytes, from the measurement to the aggregate
    shares of the two Aggregators; each Aggregator merges its shares and encodes the sum; and
    the Collector gets from the two encodings, exactly, the sum of the gradients rounded down
    to the units. *)
Lemma pine_dap_batch config f (PB : PineBackend f) param id as_agg pine
    {G1 G2 : Type} `{GA1 : !Gadget (H:=pb_field (f:=f)) G1} `{GA2 : !Gadget (H:=pb_field (f:=f)) G2}
    good kb key B n reports vss :
  pine_at config f PB param id as_agg ->
  PineBackendLaws f PB -> PrioFieldLaws (pb_field (f:=f)) -> XofLaws (pb_xof (f:=f)) ->
  PineParam_wf param -> Pine_new (felem_field (PrioField:=pb_field (f:=f))) param id = Ok pine ->
  pine_flps (G1:=G1) (G2:=G2) pine good ->
  pine_circuits (G1:=G1) (G2:=G2) (Pine_flp pine) (Pine_flp_sq_norm_equal pine) ->
  pine_total pine -> messages_fit pine -> PineType_frac_bits (Pine_flp pine) < 31 ->
  get_decoded_verify_key (Vdaf.Pine config) kb = Ok key ->
  reports <> [] -> Forall (dap_sharded pine good kb) reports ->
  (0 <= B)%Z -> (Z.of_nat (S (length reports)) * B < 2 ^ 53)%Z ->
  (2 * (Z.of_nat (S (length reports)) * B) < Z.of_N (Field_modulus (felem_field (PrioField:=pb_field (f:=f)))))%Z ->
  Forall2 (fun r v => Forall2 (fixed_point (PineType_frac_bits (Pine_flp pine))) (dap_gradient r) v /\
    Forall (fun x => Z.abs x <= B)%Z v) reports vss ->
  exists shares d0 d1 e0 e1 ys,
    Forall2 (fun r a => dap_run (Vdaf.Pine config) key (dap_rand r) (Meas_F64Vec (dap_gradient r))
                          (dap_nonce r) a.1 a.2) reports shares /\
    merge_shares None shares.*1 = Ok (Some d0) /\ merge_shares None shares.*2 = Ok (Some d1) /\
    get_encoded Protocol.VdafAggregateShare_encode d0 = Ok e0 /\ len e0 <= u32_max /\
    get_encoded Protocol.VdafAggregateShare_encode d1 = Ok e1 /\ len e1 <= u32_max /\
    vdaf_unshard (Vdaf.Pine config) n [e0; e1] = Ok (Result_F64Vec ys) /\
    Forall2 (fun y v => scaled_is y (PineType_frac_bits (Pine_flp pine)) v) ys
      (sum_vectors (N.to_nat (PineType_dimension (Pine_flp pine))) vss).
Proof.
  intros At BL PL XL W Hnew LF HC HT Hfit Hk Hkey Hne Hr HB Hb Hm Hv.
  destruct (pine_at_branch config f PB param id as_agg pine At Hnew) as (as_state & as_share & Br).
  apply bind_Ok in Hkey as (kb' & Hkb%array_try_from_Ok & [= <-]). subst kb'.
  destruct (batch_unsharded param id pine good kb B (pine_report_of <$> reports) vss W Hnew LF HC Hk)
    as (outs & ys & Hp & L0 & L1 & Hu & Hs); [by apply sharded_pine_reports|done|by rewrite length_fmap..| |].
  { by apply Forall2_fmap_l. }
  destruct outs as [|o outs]; [by apply Forall2_nil_inv_r, fmap_nil_inv in Hp|].
  destruct (aggregated_at config f BL param id as_agg At pine o.1 outs.*1 Hfit L0) as (e0 & M0 & E0 & D0 & B0).
  destruct (aggregated_at config f BL param id as_agg At pine o.2 outs.*2 Hfit L1) as (e1 & M1 & E1 & D1 & B1).
  exists ((fun o => (as_agg (agg_share_from o.1), as_agg (agg_share_from o.2))) <$> o :: outs).
  eexists _, _, e0, e1, ys. split_and!; [|..|exact Hs].
  - apply Forall2_fmap_r. apply (Forall2_fmap_l pine_report_of) in Hp.
    eapply Forall2_with; [exact Hr|exact Hp|]. intros r x [Hlen _] Hprep. cbn [fst snd].
    eapply pine_run; [exact Br|]. by eapply (pine_typed_run (G1:=G1) (G2:=G2) param id pine W Hnew Hfit good LF HC HT).
  - by rewrite <-M0, !fmap_cons, <-!list_fmap_compose.
  - by rewrite <-M1, !fmap_cons, <-!list_fmap_compose.
  - exact E0.
  - exact B0.
  - exact E1.
  - exact B1.
  - eapply (pine_branch_unshard f pine _ _ _ _ _ _ _ _ _ _ Br D0 D1). exact (f_equal (map_err vdaf_error_text) Hu).
Qed.

(** ** Whatever arrives *)
Section Arrives.
Context (f : field_kind) {PB : PineBackend f}.
Context {PL : PrioFieldLaws (pb_field (f:=f))} {XL : XofLaws (pb_xof (f:=f))}.
Context (param : PineParam) (id : N) (pine : Pine) (W : PineParam_wf param).
Context (Hnew : Pine_new (felem_field (PrioField:=pb_field (f:=f))) param id = Ok pine) (HT : pine_total pine).

(** What is decoded is well formed. *)
Lemma decoded_returns {A} (wf : A -> Prop) (w : writer A) (d : reader A) bs :
  CodecOk wf w d -> NoPanic d -> returns wf (or_codec (get_decoded d bs)).
Proof.
  intros C NP. apply returns_map_err.
  pose proof (no_panic_returns d NP bs). pose proof (codec_canonical wf w d C bs) as Hwf.
  destruct (get_decoded d bs); [|done..]. by apply Hwf.
Qed.

Lemma pine_prep_init_returns vk agg_id nonce p b :
  returns (prep_wf pine) (prep_init (pine_over f pine) vk agg_id nonce p b).
Proof.
  destruct (proofs_len_ok (E:=CodecError) _ _ _ _ W Hnew) as [Hn _]. unfold prep_init.
  eapply returns_bind; [eapply (decoded_returns PublicShare_wf); [apply PublicShare_codec|solve_no_panic]|].
  intros pub _.
  eapply returns_bind.
  { eapply (decoded_returns (InputShare_wf pine agg_id (proofs_size pine))); [by apply InputShare_codec|].
    by eapply InputShare_no_panic. }
  intros i Hi. by apply returns_map_err, returns_map_err, (prepare_init_returns param id).
Qed.

Lemma pine_next_returns st m :
  returns (fun t => exists o, t = Transition_Finish o) (v_prepare_next (pine_over f pine) st m).
Proof.
  cbn [pine_over pine_vdaf v_prepare_next]. eapply returns_bind.
  - apply returns_map_err, prepare_next_returns.
  - intros o _. by exists o.
Qed.

Lemma pine_finish_from_shares_returns agg_id st s e :
  prep_wf pine (st, s) ->
  returns (fun _ => True) (prep_finish_from_shares (pine_over f pine) agg_id st s e).
Proof.
  intros (Hv & Hs & _). cbn [fst snd] in *. unfold prep_finish_from_shares.
  cbn [PineKind share_decode pine_over]. rewrite Hv.
  eapply returns_bind; [eapply (decoded_returns (PrepShare_wf (verifiers_size pine))); [apply _|solve_no_panic]|].
  intros s' Hs'. eapply (returns_bind Prep_wf).
  { apply returns_map_err, returns_map_err. by destruct (agg_id =? 0); apply (prepare_shares_returns param id). }
  intros m Hm. eapply (returns_bind (fun _ => True)).
  { destruct (codec_round_trips Prep_wf Prep_encode Prep_decode _ m Hm) as (bs & Hbs & _).
    apply returns_map_err. eapply returns_ok; [exact Hbs|done]. }
  intros bs _. eapply returns_bind; [apply returns_map_err, pine_next_returns|]. by intros t [o ->].
Qed.

Lemma pine_finish_returns st m :
  returns (fun _ => True) (prep_finish (pine_over f pine) st m).
Proof.
  unfold prep_finish. eapply returns_bind; [eapply (decoded_returns Prep_wf); [apply Prep_codec|solve_no_panic]|].
  intros m' _. eapply returns_bind; [apply returns_map_err, pine_next_returns|]. by intros t [o ->].
Qed.
End Arrives.

End Batch.
