(* ===== verification/Kv.v ===== *)
(** * The key-value client of the service and its cache

    [src/crates/daphne-server/src/storage_proxy_connection/kv/]: keys are kept under the prefix
    of their kind, values are of the type of the prefix, and what was read from or written to
    KV is cached for five minutes.

    The cache holds values of any type ([dyn Any]): a value here is a dependent pair of its
    type and the value.  HTTP requests to the storage proxy are the class [KvHttp], the JSON
    forms of the values the class [KvJson].  Every operation is given the reading of the
    monotonic clock ([Instant::now()]) in nanoseconds. *)

From S2P Require Import Prelude Codec Messages TaskprovMessages Errors Config Pine Taskprov AggShare Hpke Auth.
From S2P Require Import DurableStore DurableRequests.

(** ** Values *)
Inductive value_type : Type :=
| T_bool | T_NonZeroUsize | T_DapTaskConfig | T_OptInParam | T_HpkeRecieverConfigList | T_BearerToken.

#[global] Instance value_type_eq_dec : EqDecision value_type.
Proof. solve_decision. Defined.

Definition value_of (t : value_type) : Type :=
  match t with
  | T_bool => bool
  | T_NonZeroUsize => N
  | T_DapTaskConfig => DapTaskConfig
  | T_OptInParam => OptInParam
  | T_HpkeRecieverConfigList => list HpkeReceiverConfig
  | T_BearerToken => BearerToken
  end.

(** [Marc<dyn Any>] *)
Definition any : Type := { t : value_type & value_of t }.

Definition to_any {t} (v : value_of t) : any := existT t v.

(** [downcast_ref::<P::Value>()] *)
Definition downcast_ref (t : value_type) (a : any) : option (value_of t) :=
  match decide (projT1 a = t) with
  | left e => Some (eq_rect _ value_of (projT2 a) _ e)
  | right _ => None
  end.

(** ** Prefixes *)
Record KvPrefix : Type := MkKvPrefix { PREFIX : string; PValue : value_type }.

Definition GlobalConfigOverride (v : value_type) : KvPrefix := MkKvPrefix "global_config/override" v.
Definition TaskConfigPrefix : KvPrefix := MkKvPrefix "config/task" T_DapTaskConfig.
Definition TaskprovOptInParamPrefix : KvPrefix := MkKvPrefix "taskprov/opt_in_param" T_OptInParam.
Definition HpkeReceiverConfigSet : KvPrefix :=
  MkKvPrefix "hpke_receiver_config_set" T_HpkeRecieverConfigList.
Definition LeaderBearerToken : KvPrefix := MkKvPrefix "bearer_token/leader/task" T_BearerToken.
Definition CollectorBearerToken : KvPrefix := MkKvPrefix "bearer_token/collector/task" T_BearerToken.

Inductive GlobalOverrides : Type := SkipReplayProtection | DefaultNumAggSpanShards.

Definition GlobalOverrides_to_string (o : GlobalOverrides) : string :=
  match o with
  | SkipReplayProtection => "skip_replay_protection"
  | DefaultNumAggSpanShards => "default_num_agg_span_shards"
  end.

(** The key of a prefix, displayed. *)
Definition to_key (P : KvPrefix) (key : string) : string :=
  String.append KV_PATH_PREFIX (String.append "/" (String.append (PREFIX P) (String.append "/" key))).

(** ** The cache *)
Definition CACHE_VALUE_LIFETIME : N := 300000000000.

Record CacheLine : Type := MkCacheLine { cl_ts : N; cl_entry : option any }.

Abbreviation Cache := (gmap string (gmap string CacheLine)).

Inductive CacheResult (t : value_type) : Type :=
| Hit (v : option (value_of t))
| Miss
| MismatchedType.
Arguments Hit {t}.
Arguments Miss {t}.
Arguments MismatchedType {t}.

(** The entry as a value of the type that is asked for. *)
Definition typed_entry (t : value_type) (entry : option any) : CacheResult t :=
  match entry with
  | None => Hit None
  | Some a =>
      match downcast_ref t a with
      | Some v => Hit (Some v)
      | None => MismatchedType
      end
  end.

(** [ts.elapsed()] is zero for a time stamp that is ahead of the clock. *)
Definition Cache_get (P : KvPrefix) (now : N) (self : Cache) (key : string) : CacheResult (PValue P) :=
  match self !! PREFIX P with
  | Some cache =>
      match cache !! key with
      | Some line =>
          if now - cl_ts line <? CACHE_VALUE_LIFETIME then typed_entry (PValue P) (cl_entry line)
          else Miss
      | None => Miss
      end
  | None => Miss
  end.

Definition Cache_put (P : KvPrefix) (now : N) (self : Cache) (key : string)
    (entry : option (value_of (PValue P))) : Cache :=
  <[PREFIX P := <[key := MkCacheLine now (to_any <$> entry)]> (default ∅ (self !! PREFIX P))]> self.

Definition Cache_delete (P : KvPrefix) (self : Cache) (key : string) : CacheResult (PValue P) * Cache :=
  match self !! PREFIX P with
  | Some cache =>
      match cache !! key with
      | Some line =>
          (typed_entry (PValue P) (cl_entry line), <[PREFIX P := delete key cache]> self)
      | None => (Miss, self)
      end
  | None => (Miss, self)
  end.

(** ** Requests to the storage proxy *)

(** [storage_proxy_connection::Error] *)
Inductive ProxyError : Type :=
| ProxySerde
| ProxyReqwest
| ProxyHttp (status : N).

Class KvJson : Type := {
  (** [serde_json::to_vec], [Response::json] *)
  json_to_vec : forall t, value_of t -> list byte;
  json_of : forall t, list byte -> option (value_of t);
}.

Record http_response : Type := MkHttpResponse { hr_status : N; hr_body : list byte }.

(** A request with the bearer token of the proxy; [None] is an error of [reqwest]. *)
Class KvHttp (W : Type) : Type := {
  http_get : string -> W -> option http_response * W;
  http_post : string -> list byte -> option Time -> W -> option http_response * W;
  http_put : string -> list byte -> option Time -> W -> option http_response * W;
}.

Record KvGetOptions : Type := MkKvGetOptions { cache_not_found : bool }.
Definition KvGetOptions_default : KvGetOptions := MkKvGetOptions false.

Section Kv.
Context {W : Type} `{KH : KvHttp W} `{KJ : KvJson}.

(** The service sees the cache and the network. *)
Record kv_state : Type := MkKvState { kv_cache : Cache; kv_world : W; kv_clock : N }.

Abbreviation kv A := (stm kv_state ProxyError A).

Definition cache_put (P : KvPrefix) (key : string) (entry : option (value_of (PValue P))) : kv unit :=
  modify (fun s => MkKvState (Cache_put P (kv_clock s) (kv_cache s) key entry) (kv_world s) (kv_clock s)).

(** [.send().await?] *)
Definition send (f : W -> option http_response * W) : kv http_response := fun s =>
  let '(r, w) := f (kv_world s) in
  (match r with Some resp => Ok resp | None => Err ProxyReqwest end,
   MkKvState (kv_cache s) w (kv_clock s)).

(** [error_for_status()?]: client and server errors *)
Definition error_for_status (resp : http_response) : res ProxyError http_response :=
  if (400 <=? hr_status resp) && (hr_status resp <? 600) then Err ProxyReqwest else Ok resp.

(** The request for a key that is not cached. *)
Definition uncached_get (P : KvPrefix) {R} (key : string) (opt : KvGetOptions)
    (mapper : value_of (PValue P) -> R) : kv (option R) :=
  resp ← send (http_get key);
  if hr_status resp =? 404 then
    _ ← (if cache_not_found opt then cache_put P key None else mret tt);
    mret None
  else
    resp ← lift (error_for_status resp);
    t ← lift (ok_or (json_of (PValue P) (hr_body resp)) ProxyReqwest);
    let r := mapper t in
    _ ← cache_put P key (Some t);
    mret (Some r).

Definition get_impl (P : KvPrefix) {R} (key : string) (opt : KvGetOptions)
    (mapper : value_of (PValue P) -> R) : kv (option R) :=
  let key := to_key P key in
  s ← get_state;
  match Cache_get P (kv_clock s) (kv_cache s) key with
  | Hit t => mret (mapper <$> t)
  | Miss | MismatchedType => uncached_get P key opt mapper
  end.

Definition get_mapped (P : KvPrefix) {R} (key : string) (opt : KvGetOptions)
    (mapper : value_of (PValue P) -> option R) : kv (option R) :=
  o ← get_impl P key opt mapper;
  mret (mjoin o).

Definition Kv_get (P : KvPrefix) (key : string) (opt : KvGetOptions) : kv (option (value_of (PValue P))) :=
  get_mapped P key opt (fun t => Some t).

Definition get_cloned (P : KvPrefix) (key : string) (opt : KvGetOptions) :
    kv (option (value_of (PValue P))) :=
  Kv_get P key opt.

Definition peek (P : KvPrefix) {R} (key : string) (opt : KvGetOptions)
    (peeker : value_of (PValue P) -> R) : kv (option R) :=
  get_impl P key opt peeker.

Definition put_internal (P : KvPrefix) (key : string) (value : value_of (PValue P))
    (expiration : option Time) : kv unit :=
  let key := to_key P key in
  resp ← send (http_post key (json_to_vec (PValue P) value) expiration);
  _ ← lift (error_for_status resp);
  cache_put P key (Some value).

Definition put_with_expiration (P : KvPrefix) (key : string) (value : value_of (PValue P))
    (expiration : Time) : kv unit :=
  put_internal P key value (Some expiration).

Definition put (P : KvPrefix) (key : string) (value : value_of (PValue P)) : kv unit :=
  put_internal P key value None.

(** [Some value] when the key is taken. *)
Definition put_if_not_exists_internal (P : KvPrefix) (key : string) (value : value_of (PValue P))
    (expiration : option Time) : kv (option (value_of (PValue P))) :=
  let key := to_key P key in
  response ← send (http_put key (json_to_vec (PValue P) value) expiration);
  if hr_status response =? 409 then mret (Some value)
  else
    _ ← lift (error_for_status response);
    _ ← cache_put P key (Some value);
    mret None.

Definition put_if_not_exists_with_expiration (P : KvPrefix) (key : string)
    (value : value_of (PValue P)) (expiration : Time) : kv (option (value_of (PValue P))) :=
  put_if_not_exists_internal P key value (Some expiration).

Definition put_if_not_exists (P : KvPrefix) (key : string) (value : value_of (PValue P)) :
    kv (option (value_of (PValue P))) :=
  put_if_not_exists_internal P key value None.

Definition only_cache_put (P : KvPrefix) (key : string) (value : value_of (PValue P)) : kv unit :=
  cache_put P (to_key P key) (Some value).
End Kv.
Arguments kv_state : clear implicits.
