(* ===== verification/KvCorrect.v ===== *)
(** * The cache of the key-value client

    Runs of the operations of [Kv] from an empty cache: a value of one type is never found
    where another is expected ([kv_cache_typed]), and what a read returns was answered by the
    storage proxy, or written by this service, less than five minutes ago
    ([kv_reads_recent]). *)

From S2P Require Import Prelude Codec Messages TaskprovMessages Errors Config Pine Taskprov AggShare Hpke Auth.
From S2P Require Import DurableStore DurableRequests Kv.

Section KvRuns.
Context {W : Type} `{KH : KvHttp W} `{KJ : KvJson}.

(** ** Operations and their runs *)
Inductive kv_op : Type :=
| Op_get (P : KvPrefix) (key : string) (opt : KvGetOptions)
| Op_put (P : KvPrefix) (key : string) (value : value_of (PValue P)) (expiration : option Time)
| Op_put_if_not_exists (P : KvPrefix) (key : string) (value : value_of (PValue P)) (expiration : option Time)
| Op_only_cache_put (P : KvPrefix) (key : string) (value : value_of (PValue P))
| Op_delete (P : KvPrefix) (key : string)
| Op_tick (n : N).

Definition op_exec (op : kv_op) (s : (kv_state W)) : (kv_state W) :=
  match op with
  | Op_get P key opt => (Kv_get P key opt s).2
  | Op_put P key v e => (put_internal P key v e s).2
  | Op_put_if_not_exists P key v e => (put_if_not_exists_internal P key v e s).2
  | Op_only_cache_put P key v => (only_cache_put P key v s).2
  | Op_delete P key =>
      MkKvState (Cache_delete P (kv_cache s) (to_key P key)).2 (kv_world s) (kv_clock s)
  | Op_tick n => MkKvState (kv_cache s) (kv_world s) (kv_clock s + n)
  end.

(** What is known of a key at a time: its value, or that it has none. *)
Record fact : Type := MkFact { f_prefix : string; f_key : string; f_time : N; f_value : option any }.

(** The facts an operation establishes: an answer of the proxy, a write the proxy accepted, a
    local write. *)
Definition op_facts (op : kv_op) (s : (kv_state W)) : list fact :=
  match op with
  | Op_get P key opt =>
      match Cache_get P (kv_clock s) (kv_cache s) (to_key P key) with
      | Hit _ => []
      | _ =>
          match (http_get (to_key P key) (kv_world s)).1 with
          | Some resp =>
              if hr_status resp =? 404 then [MkFact (PREFIX P) (to_key P key) (kv_clock s) None]
              else match error_for_status resp, json_of (PValue P) (hr_body resp) with
                   | Ok _, Some t => [MkFact (PREFIX P) (to_key P key) (kv_clock s) (Some (to_any t))]
                   | _, _ => []
                   end
          | None => []
          end
      end
  | Op_put P key v e =>
      match (put_internal P key v e s).1 with
      | Ok _ => [MkFact (PREFIX P) (to_key P key) (kv_clock s) (Some (to_any v))]
      | _ => []
      end
  | Op_put_if_not_exists P key v e =>
      match (put_if_not_exists_internal P key v e s).1 with
      | Ok None => [MkFact (PREFIX P) (to_key P key) (kv_clock s) (Some (to_any v))]
      | _ => []
      end
  | Op_only_cache_put P key v => [MkFact (PREFIX P) (to_key P key) (kv_clock s) (Some (to_any v))]
  | Op_delete _ _ | Op_tick _ => []
  end.

Fixpoint run (ops : list kv_op) (s : (kv_state W)) : (kv_state W) :=
  match ops with [] => s | op :: ops => run ops (op_exec op s) end.

Fixpoint facts (ops : list kv_op) (s : (kv_state W)) : list fact :=
  match ops with [] => [] | op :: ops => op_facts op s ++ facts ops (op_exec op s) end.

(** ** The lines of the cache *)
Definition line_at (c : Cache) (p k : string) : option CacheLine := c !! p ≫= (.!! k).

(** Every line of the cache states a fact of [fs]. *)
Definition lines_in (c : Cache) (fs : list fact) : Prop :=
  forall p k line, line_at c p k = Some line -> MkFact p k (cl_ts line) (cl_entry line) ∈ fs.

Lemma line_at_put P now c key entry p k :
  line_at (Cache_put P now c key entry) p k
  = if decide (p = PREFIX P /\ k = key) then Some (MkCacheLine now (to_any <$> entry)) else line_at c p k.
Proof.
  unfold line_at, Cache_put. destruct (decide (p = PREFIX P)) as [->|Hp].
  - rewrite lookup_insert_eq. cbn. destruct (decide (k = key)) as [->|Hk].
    + by rewrite lookup_insert_eq, decide_True.
    + rewrite lookup_insert_ne, decide_False by naive_solver. by destruct (c !! PREFIX P).
  - by rewrite lookup_insert_ne, decide_False by naive_solver.
Qed.

Lemma line_at_delete P c key p k line :
  line_at (Cache_delete P c key).2 p k = Some line -> line_at c p k = Some line.
Proof.
  unfold line_at, Cache_delete. destruct (c !! PREFIX P) as [m|] eqn:Hm; [|done].
  destruct (m !! key) as [l|]; [|done]. cbn.
  destruct (decide (p = PREFIX P)) as [->|Hp]; [rewrite lookup_insert_eq|by rewrite lookup_insert_ne].
  cbn. intros H. apply lookup_delete_Some in H as [_ H]. by rewrite Hm.
Qed.

Lemma lines_in_mono c fs fs' : lines_in c fs -> (forall f, f ∈ fs -> f ∈ fs') -> lines_in c fs'.
Proof. intros H Hs p k line Hl. by apply Hs, H. Qed.

Lemma lines_in_put P now c key entry fs :
  lines_in c fs -> lines_in (Cache_put P now c key entry)
    (fs ++ [MkFact (PREFIX P) key now (to_any <$> entry)]).
Proof.
  intros H p k line. rewrite line_at_put. case_decide as Hd.
  - destruct Hd as [-> ->]. intros [= <-]. apply elem_of_app. right. by apply list_elem_of_singleton.
  - intros Hl. apply elem_of_app. left. by apply H.
Qed.

(** What a read does, in terms of the cache and the answer of the proxy. *)
Inductive get_outcome (P : KvPrefix) (key : string) (opt : KvGetOptions) (s : (kv_state W)) :
    res ProxyError (option (value_of (PValue P))) -> (kv_state W) -> Prop :=
| got_cached line v :
    line_at (kv_cache s) (PREFIX P) (to_key P key) = Some line ->
    kv_clock s - cl_ts line < CACHE_VALUE_LIFETIME -> cl_entry line = to_any <$> v ->
    op_facts (Op_get P key opt) s = [] ->
    get_outcome P key opt s (Ok v) s
| got_answer v s' :
    op_facts (Op_get P key opt) s = [MkFact (PREFIX P) (to_key P key) (kv_clock s) (to_any <$> v)] ->
    (kv_cache s' = kv_cache s \/
     kv_cache s' = Cache_put P (kv_clock s) (kv_cache s) (to_key P key) v) ->
    kv_clock s' = kv_clock s -> get_outcome P key opt s (Ok v) s'
| got_error e s' :
    op_facts (Op_get P key opt) s = [] -> kv_cache s' = kv_cache s -> kv_clock s' = kv_clock s ->
    get_outcome P key opt s (Err e) s'.

Lemma downcast_to_any t (a : any) v : downcast_ref t a = Some v -> a = to_any v.
Proof.
  unfold downcast_ref, to_any. destruct a as [t' x]. cbn. destruct (decide (t' = t)) as [<-|]; [|done].
  cbn. by intros [= ->].
Qed.

Lemma to_any_downcast {t} (v : value_of t) : downcast_ref t (to_any v) = Some v.
Proof.
  unfold downcast_ref, to_any. cbn. destruct (decide (t = t)) as [e|]; [|done].
  by rewrite (proof_irrel e eq_refl).
Qed.

Lemma cache_get_hit P now c key v :
  Cache_get P now c key = Hit v -> exists line, line_at c (PREFIX P) key = Some line /\
    now - cl_ts line < CACHE_VALUE_LIFETIME /\ cl_entry line = to_any <$> v.
Proof.
  unfold Cache_get, line_at. destruct (c !! PREFIX P) as [m|]; [|done]. cbn.
  destruct (m !! key) as [line|]; [|done]. destruct (N.ltb_spec (now - cl_ts line) CACHE_VALUE_LIFETIME); [|done].
  unfold typed_entry. destruct (cl_entry line) as [a|] eqn:He.
  - destruct (downcast_ref (PValue P) a) as [x|] eqn:Hd; [|done]. intros [= <-].
    apply downcast_to_any in Hd as ->. by exists line.
  - intros [= <-]. by exists line.
Qed.

(** The answer of the proxy. *)
Definition answer_facts (P : KvPrefix) (key : string) (s : (kv_state W)) : list fact :=
  match (http_get key (kv_world s)).1 with
  | Some resp =>
      if hr_status resp =? 404 then [MkFact (PREFIX P) key (kv_clock s) None]
      else match error_for_status resp, json_of (PValue P) (hr_body resp) with
           | Ok _, Some t => [MkFact (PREFIX P) key (kv_clock s) (Some (to_any t))]
           | _, _ => []
           end
  | None => []
  end.

Lemma uncached_get_outcome P key opt s :
  let '(r, s') := uncached_get P key opt (fun t => Some t) s in
  kv_clock s' = kv_clock s /\
  match r with
  | Ok v => answer_facts P key s = [MkFact (PREFIX P) key (kv_clock s) (to_any <$> mjoin v)] /\
      (kv_cache s' = kv_cache s \/ kv_cache s' = Cache_put P (kv_clock s) (kv_cache s) key (mjoin v))
  | Err _ => answer_facts P key s = [] /\ kv_cache s' = kv_cache s
  | Panic => False
  end.
Proof.
  unfold uncached_get, answer_facts, send, mbind, stm_bind.
  destruct (http_get key (kv_world s)) as [[resp|] w]; [|done]. cbn [fst].
  destruct (hr_status resp =? 404); [destruct (cache_not_found opt); cbn; auto|].
  unfold error_for_status. destruct (_ && _); cbn; [done|].
  destruct (json_of (PValue P) (hr_body resp)) as [t|]; cbn; auto.
Qed.

Lemma kv_get_outcome P key opt s :
  get_outcome P key opt s (Kv_get P key opt s).1 (Kv_get P key opt s).2.
Proof.
  unfold Kv_get, get_mapped, get_impl, mbind, stm_bind, get_state.
  pose proof (uncached_get_outcome P (to_key P key) opt s) as H.
  assert (forall c, Cache_get P (kv_clock s) (kv_cache s) (to_key P key) = c ->
    (match c with Hit _ => false | _ => true end) = true ->
    op_facts (Op_get P key opt) s = answer_facts P (to_key P key) s) as Hf.
  { intros c Hc. unfold op_facts, answer_facts. rewrite Hc. by destruct c. }
  destruct (Cache_get P (kv_clock s) (kv_cache s) (to_key P key)) as [v| |] eqn:Hc.
  { destruct (cache_get_hit _ _ _ _ _ Hc) as (line & H1 & H2 & H3). cbn.
    replace (mjoin ((fun t => Some t) <$> v)) with v by (by destruct v).
    eapply got_cached; [done|done|done|]. unfold op_facts. by rewrite Hc. }
  all: specialize (Hf _ eq_refl eq_refl);
    destruct (uncached_get P (to_key P key) opt (fun t => Some t) s) as [[v|e|] s'];
    destruct H as [Hk H]; [|destruct H; eapply got_error; by rewrite ?Hf|done];
    destruct H as [H1 H2]; eapply got_answer; by rewrite ?Hf.
Qed.

(** A write leaves the cache or adds what was written to it. *)
Definition write_outcome (P : KvPrefix) (key : string) (v : value_of (PValue P)) (s s' : (kv_state W))
    (fs : list fact) : Prop :=
  kv_cache s' = kv_cache s /\ fs = [] \/
  kv_cache s' = Cache_put P (kv_clock s) (kv_cache s) (to_key P key) (Some v) /\
  fs = [MkFact (PREFIX P) (to_key P key) (kv_clock s) (Some (to_any v))].

Lemma put_outcome_cache P key v e s :
  write_outcome P key v s (put_internal P key v e s).2 (op_facts (Op_put P key v e) s).
Proof.
  unfold write_outcome, op_facts, put_internal, send, mbind, stm_bind.
  destruct (http_post _ _ _ _) as [[resp|] w]; cbn; [|by auto].
  unfold error_for_status. destruct (_ && _); cbn; auto.
Qed.

Lemma put_if_outcome P key v e s :
  write_outcome P key v s (put_if_not_exists_internal P key v e s).2
    (op_facts (Op_put_if_not_exists P key v e) s).
Proof.
  unfold write_outcome, op_facts, put_if_not_exists_internal, send, mbind, stm_bind.
  destruct (http_put _ _ _ _) as [[resp|] w]; cbn; [|by auto].
  destruct (hr_status resp =? 409); cbn; [by auto|].
  unfold error_for_status. destruct (_ && _); cbn; auto.
Qed.

(** ** The cache states facts *)
Lemma lines_in_app c fs fs' : lines_in c fs -> lines_in c (fs ++ fs').
Proof. intros H. eapply lines_in_mono; [exact H|]. intros f Hf. apply elem_of_app. by left. Qed.

Lemma lines_in_write P key v s s' fs fs' :
  write_outcome P key v s s' fs' -> lines_in (kv_cache s) fs -> lines_in (kv_cache s') (fs ++ fs').
Proof.
  intros [[-> ->]|[-> ->]] H; [by apply lines_in_app|]. by apply (lines_in_put P _ _ _ (Some v)).
Qed.

Lemma lines_in_exec op s fs :
  lines_in (kv_cache s) fs -> lines_in (kv_cache (op_exec op s)) (fs ++ op_facts op s).
Proof.
  intros H. destruct op as [P key opt|P key v e|P key v e|P key v|P key|n]; cbn [op_exec].
  - destruct (kv_get_outcome P key opt s) as [line v _ _ _ ->|v s' -> [->| ->] _|e s' -> -> _];
      [by apply lines_in_app|by apply lines_in_app|by apply lines_in_put|by apply lines_in_app].
  - eapply lines_in_write; [apply put_outcome_cache|done].
  - eapply lines_in_write; [apply put_if_outcome|done].
  - apply (lines_in_write P key v s); [|done]. by right.
  - cbn. rewrite app_nil_r. intros p k line Hl. by apply H, (line_at_delete P _ (to_key P key)).
  - cbn. by rewrite app_nil_r.
Qed.

Lemma lines_in_run ops s fs :
  lines_in (kv_cache s) fs -> lines_in (kv_cache (run ops s)) (fs ++ facts ops s).
Proof.
  revert s fs. induction ops as [|op ops IH]; intros s fs H; cbn; [by apply lines_in_app|].
  rewrite app_assoc. by apply IH, lines_in_exec.
Qed.

(** C29: What the service reads from KV is at most five minutes old.  After any sequence of
    operations from an empty cache, a read that succeeds returns a value, or the absence of
    one, that the storage proxy answered for this key, or that this service stored under it,
    less than [CACHE_VALUE_LIFETIME] before the read. *)
Theorem kv_reads_recent (ops : list kv_op) (s : (kv_state W)) P key opt v s' :
  kv_cache s = ∅ -> get_cloned P key opt (run ops s) = (Ok v, s') ->
  exists f, f ∈ facts (ops ++ [Op_get P key opt]) s /\
    f_prefix f = PREFIX P /\ f_key f = to_key P key /\ f_value f = to_any <$> v /\
    kv_clock (run ops s) - f_time f < CACHE_VALUE_LIFETIME.
Proof.
  intros Hs Hg. assert (lines_in (kv_cache (run ops s)) (facts ops s)) as Hl.
  { apply (lines_in_run ops s []). intros p k line H. by rewrite Hs in H. }
  assert (facts (ops ++ [Op_get P key opt]) s = facts ops s ++ op_facts (Op_get P key opt) (run ops s)) as ->.
  { clear. revert s. induction ops as [|op ops IH]; intros s; cbn; [by rewrite app_nil_r|].
    by rewrite IH, app_assoc. }
  pose proof (kv_get_outcome P key opt (run ops s)) as H. unfold get_cloned in Hg. rewrite Hg in H. cbn in H.
  inversion H as [line v' H1 H2 H3 H4|v' s'' H1 H2 H3|]; subst.
  - eexists. split; [apply elem_of_app; left; by apply Hl|]. by rewrite <-H3.
  - eexists. split; [apply elem_of_app; right; rewrite H1; by apply list_elem_of_singleton|].
    split_and!; try done. cbn. rewrite N.sub_diag. by vm_compute.
Qed.

(** ** Types *)

(** The prefixes and keys the service uses, at the types it uses them: [roles/mod.rs] reads one
    override and [roles/aggregator.rs] the other; the other prefixes have a key per task or
    version. *)
Inductive service_use : KvPrefix -> string -> Prop :=
| use_skip_replay :
    service_use (GlobalConfigOverride T_bool) (GlobalOverrides_to_string SkipReplayProtection)
| use_num_shards :
    service_use (GlobalConfigOverride T_NonZeroUsize) (GlobalOverrides_to_string DefaultNumAggSpanShards)
| use_task_config key : service_use TaskConfigPrefix key
| use_opt_in_param key : service_use TaskprovOptInParamPrefix key
| use_hpke_configs key : service_use HpkeReceiverConfigSet key
| use_leader_token key : service_use LeaderBearerToken key
| use_collector_token key : service_use CollectorBearerToken key.

(** Two uses of one line of the cache are at one type. *)
Lemma service_use_type P1 k1 P2 k2 :
  service_use P1 k1 -> service_use P2 k2 -> PREFIX P1 = PREFIX P2 -> to_key P1 k1 = to_key P2 k2 ->
  PValue P1 = PValue P2.
Proof. intros [] [] Hp Hk; first [reflexivity|discriminate Hp|discriminate Hk]. Qed.

Definition op_used (op : kv_op) : Prop :=
  match op with
  | Op_get P key _ | Op_put P key _ _ | Op_put_if_not_exists P key _ _ | Op_only_cache_put P key _
  | Op_delete P key => service_use P key
  | Op_tick _ => True
  end.

(** Every value was stored by a use of its line, at the type of that use. *)
Definition cache_typed (c : Cache) : Prop :=
  forall p k line a, line_at c p k = Some line -> cl_entry line = Some a ->
    exists P key, service_use P key /\ PREFIX P = p /\ to_key P key = k /\ PValue P = projT1 a.

Lemma cache_typed_put P now c key entry :
  cache_typed c -> service_use P key -> cache_typed (Cache_put P now c (to_key P key) entry).
Proof.
  intros H Hu p k line a. rewrite line_at_put. case_decide as Hd; [|by apply H].
  destruct Hd as [-> ->]. intros [= <-]. cbn. destruct entry as [v|]; [|done]. intros [= <-].
  by exists P, key.
Qed.

Lemma cache_typed_exec op s :
  cache_typed (kv_cache s) -> op_used op -> cache_typed (kv_cache (op_exec op s)).
Proof.
  intros H Hu. destruct op as [P key opt|P key v e|P key v e|P key v|P key|n]; cbn [op_exec op_used] in *.
  - destruct (kv_get_outcome P key opt s) as [line v _ _ _ _|v s' _ [->| ->] _|e s' _ -> _]; try done.
    by apply cache_typed_put.
  - destruct (put_outcome_cache P key v e s) as [[-> _]|[-> _]]; [done|by apply cache_typed_put].
  - destruct (put_if_outcome P key v e s) as [[-> _]|[-> _]]; [done|by apply cache_typed_put].
  - by apply cache_typed_put.
  - intros p k line a Hl. cbn in Hl. apply line_at_delete in Hl. by apply H.
  - done.
Qed.

Lemma cache_typed_get P key now c :
  cache_typed c -> service_use P key -> Cache_get P now c (to_key P key) <> MismatchedType.
Proof.
  intros H Hu. unfold Cache_get. destruct (c !! PREFIX P) as [m|] eqn:Hm; [|done].
  destruct (m !! to_key P key) as [line|] eqn:Hl; [|done]. destruct (_ <? _); [|done].
  unfold typed_entry. destruct (cl_entry line) as [a|] eqn:Ha; [|done].
  assert (projT1 a = PValue P) as Ht.
  { specialize (H (PREFIX P) (to_key P key) line a). unfold line_at in H. rewrite Hm in H. cbn in H.
    destruct (H Hl Ha) as (P' & key' & Hu' & Hp & Hk & <-). by eapply service_use_type. }
  unfold downcast_ref. destruct (decide (projT1 a = PValue P)); done.
Qed.

(** C30: The cache is well typed.  It holds values of any type under strings, and two overrides of
    different types share a prefix.  After any sequence of operations at the keys and types at which
    the service uses KV, from an empty cache, no read of the service finds a value of another type:
    the prefixes and the keys of the overrides tell the types apart.  So a line that is not stale is
    a hit, with what the line holds. *)
Theorem kv_cache_typed (ops : list kv_op) (s : (kv_state W)) P key now line :
  kv_cache s = ∅ -> Forall op_used ops -> service_use P key ->
  line_at (kv_cache (run ops s)) (PREFIX P) (to_key P key) = Some line ->
  now - cl_ts line < CACHE_VALUE_LIFETIME ->
  exists v, Cache_get P now (kv_cache (run ops s)) (to_key P key) = Hit v /\ cl_entry line = to_any <$> v.
Proof.
  intros Hs Hops Hu Hl Hnow. assert (cache_typed (kv_cache (run ops s))) as H.
  { assert (cache_typed (kv_cache s)) as H by (intros p k l a Hl'; by rewrite Hs in Hl'). clear Hs Hl.
    revert s H. induction Hops as [|op ops Hop _ IH]; intros s H; [done|]. cbn.
    by apply IH, cache_typed_exec. }
  pose proof (cache_typed_get P key now _ H Hu) as Hm.
  destruct (Cache_get P now (kv_cache (run ops s)) (to_key P key)) as [v| |] eqn:Hg; [|exfalso|done].
  - exists v. split; [done|]. apply cache_get_hit in Hg as (line' & Hl' & _ & He). congruence.
  - unfold Cache_get, line_at in Hg, Hl. destruct (kv_cache (run ops s) !! PREFIX P) as [m|]; [|done]. cbn in Hl.
    rewrite Hl in Hg. replace (_ <? _) with true in Hg by (symmetry; by apply N.ltb_lt).
    unfold typed_entry in Hg. destruct (cl_entry line) as [x|]; [|done]. by destruct (downcast_ref _ x).
Qed.
End KvRuns.
