(* ===== verification/Server.v ===== *)
(** * The service

    [src/crates/daphne-server/src/]: the Aggregator that keeps its buckets in durable objects
    and its configuration in KV, both behind the storage proxy: [App] with the methods of
    [DapAggregator], [DapReportInitializer], [HpkeProvider], [HpkeDecrypter],
    [BearerTokenProvider] and [DapLeader] ([roles/]), the requests to durable objects
    ([storage_proxy_connection/mod.rs]) and the configuration and authorization types of
    [daphne-service-utils].

    A request to a durable object is an HTTP request to the proxy (class [DoHttp]); the value
    of which the JSON form is the body stands for the body.  Requests the code makes
    concurrently are made one after the other, up to the first error where the code stops
    there. *)

From S2P Require Import Prelude Codec Messages TaskprovMessages Errors Config Pine Taskprov AggShare.
From S2P Require Import Hpke Protocol Auth LeaderState Roles Leader DurableStore DurableRequests Kv.

(** ** Configuration: [daphne-service-utils] *)
Inductive DapRole : Type := Role_Leader | Role_Helper.

#[global] Instance DapRole_eq_dec : EqDecision DapRole.
Proof. solve_decision. Defined.

Definition is_leader (r : DapRole) : bool := bool_decide (r = Role_Leader).
Definition is_helper (r : DapRole) : bool := bool_decide (r = Role_Helper).

Definition DapRole_from_str (s : string) : res string DapRole :=
  if decide (s = "leader") then Ok Role_Leader
  else if decide (s = "helper") then Ok Role_Helper
  else Err s.

Record TlsClientAuth : Type := MkTlsClientAuth { tls_verified : string }.

Record DaphneAuth : Type := MkDaphneAuth {
  auth_bearer_token : option BearerToken;
  auth_cf_tls_client_auth : option TlsClientAuth;
}.

Record DaphneWorkerAuthMethod : Type := MkAuthMethod { method_bearer_token : option BearerToken }.

Record TaskprovConfig : Type := MkTaskprovConfig {
  tp_hpke_collector_config : HpkeConfig;
  tp_vdaf_verify_key_init : list byte;
  tp_leader_auth : DaphneWorkerAuthMethod;
  tp_collector_auth : option DaphneWorkerAuthMethod;
}.

Record DaphneServiceConfig : Type := MkDaphneServiceConfig {
  sc_role : DapRole;
  sc_global : DapGlobalConfig;
  sc_base_url : option Url;
  sc_taskprov : option TaskprovConfig;
  sc_default_version : DapVersion;
  sc_report_storage_epoch_duration : Duration;
  sc_report_storage_max_future_time_skew : Duration;
}.

Definition default_report_storage_max_future_time_skew : Duration := 300.

(** ** Requests to durable objects *)
Section Server.
Context `{BP : BuildProfile} `{PC : PrioCodec} `{PA : PrioAgg} `{VO : !VdafOps} `{Dg : Digest} `{HC : HpkeCrypto}.
Context `{PV : !PrioVec} `{PE : !PrioElemBytes} `{CP : Capnp} `{HX : HexCodec}.

(** A response with the status of success and its value, or another status. *)
Inductive do_reply : Type :=
| Reply_ok (value : store_response)
| Reply_status (status : N).

(** [http.post(url).body(..).bearer_auth(..).send()]; [None] is an error of [reqwest]. *)
Class DoHttp (W : Type) : Type := do_post : string -> list byte -> W -> option do_reply * W.

Context {W : Type} `{DH : DoHttp W} `{KH : KvHttp W} `{KJ : KvJson}.

(** ** State *)
Record App : Type := MkApp {
  app_kv : kv_state W;
  app_service_config : DaphneServiceConfig;
  app_test_leader_state : InMemoryLeaderState;
  (** [SystemTime::now()] in seconds *)
  app_now : Time;
}.

Abbreviation app A := (stm App DapError A).

Definition set_kv (s : App) (k : kv_state W) : App :=
  MkApp k (app_service_config s) (app_test_leader_state s) (app_now s).

(** An operation of [self.kv()], with its error as it is. *)
Definition try_kv {A} (m : stm (kv_state W) ProxyError A) : app (res ProxyError A) := fun s =>
  let '(r, k) := m (app_kv s) in (Ok r, set_kv s k).

(** [.await.map_err(|e| fatal_error!(err = ?e, msg))] *)
Definition on_kv {A} (msg : string) (m : stm (kv_state W) ProxyError A) : app A :=
  r ← try_kv m; lift (map_err (fun _ => fatal_logged msg) r).

(** [self.test_leader_state.lock().await] *)
Definition on_leader_state {A} (f : stm InMemoryLeaderState DapError A) : app A := fun s =>
  let '(r, l) := f (app_test_leader_state s) in
  (r, MkApp (app_kv s) (app_service_config s) l (app_now s)).

(** [RequestBuilder::send]; [of_json] reads the value as the type that is asked for. *)
Definition do_send {R} (of_json : store_response -> option R) (path : AggregateStoreMethod)
    (request : DurableRequest (list byte)) : app (res ProxyError R) := fun s =>
  let k := app_kv s in
  let '(r, w) := do_post (String.append DO_PATH_PREFIX (AggregateStore_to_uri path))
                   (into_bytes request) (kv_world k) in
  (Ok match r with
      | Some (Reply_ok v) => ok_or (of_json v) ProxyReqwest
      | Some (Reply_status status) => Err (ProxyHttp status)
      | None => Err ProxyReqwest
      end, set_kv s (MkKvState (kv_cache k) w (kv_clock k))).

Definition as_merge (v : store_response) : option AggregateStoreMergeResp :=
  match v with Resp_Merge r => Some r | _ => None end.
Definition as_share (v : store_response) : option DapAggregateShare :=
  match v with Resp_AggShare s => Some s | _ => None end.
Definition as_unit (v : store_response) : option unit :=
  match v with Resp_Unit => Some tt | _ => None end.
Definition as_bool (v : store_response) : option bool :=
  match v with Resp_Bool b => Some b | _ => None end.

(** [durable.request(path, (version, &task_id_hex, &bucket))]; the retry flag of [Do] is off. *)
Definition do_request (path : AggregateStoreMethod) (version : DapVersion) (task_id : TaskId)
    (bucket : DapBatchBucket) : DurableRequest (list byte) :=
  (DurableRequest_new path (version, hex_encode task_id, bucket)).1.

(** ** Tasks *)
Definition app_get_task_config_for (task_id : TaskId) : app (option DapTaskConfig) :=
  on_kv "failed to get a task config from kv: {task_id}"
    (get_cloned TaskConfigPrefix (hex_encode task_id) KvGetOptions_default).

(** [..await?.ok_or(DapError::Abort(DapAbort::UnrecognizedTask))?] *)
Definition app_task (task_id : TaskId) : app DapTaskConfig :=
  o ← app_get_task_config_for task_id;
  lift (ok_or o (Abort_ (UnrecognizedTask task_id))).

(** ** Aggregate shares *)

(** An error, and a value that is missing, count as [false]. *)
Definition fetch_replay_protection_override : app ReplayProtection :=
  r ← try_kv (get_cloned (GlobalConfigOverride T_bool)
                (GlobalOverrides_to_string SkipReplayProtection) (MkKvGetOptions true));
  match r with
  | Ok (Some true) => mret ReplayProtection_InsecureDisabled
  | Panic => lift Panic
  | _ => mret ReplayProtection_Enabled
  end.

Definition put_error (msg : string) (r : res ProxyError AggregateStoreMergeResp) :
    res DapError (option MergeAggShareError) :=
  match r with
  | Ok MergeResp_Ok => Ok None
  | Ok MergeResp_AlreadyCollected => Ok (Some AlreadyCollected)
  | Ok (MergeResp_ReplaysDetected replays) => Ok (Some (ReplaysDetected replays))
  | Err _ => Ok (Some (MergeOther (fatal_logged msg)))
  | Panic => Panic
  end.

(** The future of a bucket. *)
Definition app_put_bucket (task_id : TaskId) (task_config : DapTaskConfig) (disabled : bool)
    (entry : DapBatchBucket * (DapAggregateShare * list (ReportId * Time))) :
    app (DapBatchBucket * (option MergeAggShareError * list (ReportId * Time))) :=
  let '(bucket, (agg_share, report_metadatas)) := entry in
  body ← lift match encode_to_bytes (MkMergeReq report_metadatas.*1 agg_share disabled) with
              | Ok bs => Ok bs
              | _ => Panic
              end;
  r ← do_send as_merge M_Merge
        (with_body (do_request M_Merge (DapTaskConfig_version task_config) task_id bucket) body);
  result ← lift (put_error "failed to merge aggregate share" r);
  mret (bucket, (result, report_metadatas)).

Fixpoint app_put_buckets (task_id : TaskId) (task_config : DapTaskConfig) (disabled : bool)
    (entries : list (DapBatchBucket * (DapAggregateShare * list (ReportId * Time)))) :
    app (list (DapBatchBucket * (option MergeAggShareError * list (ReportId * Time)))) :=
  match entries with
  | [] => mret []
  | entry :: entries =>
      r ← app_put_bucket task_id task_config disabled entry;
      rest ← app_put_buckets task_id task_config disabled entries;
      mret (r :: rest)
  end.

Definition app_try_put_agg_share_span (task_id : TaskId) (task_config : DapTaskConfig)
    (agg_share_span : DapAggregateSpan DapAggregateShare) :
    app (DapAggregateSpan (option MergeAggShareError)) :=
  replay_protection ← fetch_replay_protection_override;
  l ← app_put_buckets task_id task_config
        (negb (ReplayProtection_enabled replay_protection)) (map_to_list agg_share_span);
  mret (list_to_map l).

(** [try_join_all(requests).await.map_err(..)] for a request to each bucket *)
Fixpoint do_send_all {R} (of_json : store_response -> option R) (path : AggregateStoreMethod)
    (version : DapVersion) (task_id : TaskId) (msg : string) (buckets : list DapBatchBucket) :
    app (list R) :=
  match buckets with
  | [] => mret []
  | bucket :: buckets =>
      r ← do_send of_json path (do_request path version task_id bucket);
      x ← lift (map_err (fun _ => fatal_logged msg) r);
      xs ← do_send_all of_json path version task_id msg buckets;
      mret (x :: xs)
  end.

Definition app_get_agg_share (task_id : TaskId) (batch_sel : BatchSelector) : app DapAggregateShare :=
  task_config ← app_task task_id;
  span ← lift (batch_span_for_sel task_config batch_sel);
  responses ← do_send_all as_share M_Get (DapTaskConfig_version task_config) task_id
                "failed to get agg shares from durable objects" (elements span);
  lift (merge_all DapAggregateShare_default responses).

Definition app_mark_collected (task_id : TaskId) (batch_sel : BatchSelector) : app unit :=
  task_config ← app_task task_id;
  span ← lift (batch_span_for_sel task_config batch_sel);
  _ ← do_send_all as_unit M_MarkCollected (DapTaskConfig_version task_config) task_id
        "failed to mark agg shares as collected" (elements span);
  mret tt.

(** [buffer_unordered(..).try_any(ready)] *)
Fixpoint do_try_any (version : DapVersion) (task_id : TaskId) (msg : string)
    (buckets : list DapBatchBucket) : app bool :=
  match buckets with
  | [] => mret false
  | bucket :: buckets =>
      r ← do_send as_bool M_CheckCollected (do_request M_CheckCollected version task_id bucket);
      b ← lift (map_err (fun _ => fatal_logged msg) r);
      if b : bool then mret true else do_try_any version task_id msg buckets
  end.

Definition app_is_batch_overlapping (task_id : TaskId) (batch_sel : BatchSelector) : app bool :=
  task_config ← app_task task_id;
  span ← lift (batch_span_for_sel task_config batch_sel);
  do_try_any (DapTaskConfig_version task_config) task_id
    "failed to check if agg shares are collected" (elements span).

(** All requests are made; their results are [collect]ed. *)
Fixpoint do_exist (version : DapVersion) (task_id : TaskId) (buckets : list DapBatchBucket) :
    app (list (res DapError bool)) :=
  match buckets with
  | [] => mret []
  | bucket :: buckets =>
      r ← do_send as_share M_Get (do_request M_Get version task_id bucket);
      rest ← do_exist version task_id buckets;
      mret (match r with
            | Ok share => Ok (negb (DapAggregateShare_empty share))
            | Err _ => Err (fatal_logged "failed to get an agg share")
            | Panic => Panic
            end :: rest)
  end.

(** [reduce(|a, b| Ok(a? || b?)).unwrap_or(Ok(false))] *)
Definition reduce_or (results : list (res DapError bool)) : res DapError bool :=
  match results with
  | [] => Ok false
  | r :: rest =>
      fold_left (fun a b => x ← a; if x : bool then Ok true else b) rest r
  end.

Definition app_batch_exists (task_id : TaskId) (batch_id : BatchId) : app bool :=
  task_config ← app_task task_id;
  agg_span ← lift (batch_span_for_sel task_config (BS_FixedSizeByBatchId batch_id));
  results ← do_exist (DapTaskConfig_version task_config) task_id (elements agg_span);
  lift (reduce_or results).

(** ** Bearer tokens *)
Definition taskprov_token (s : App) (task_config : DapTaskConfig)
    (token : TaskprovConfig -> res DapError (option BearerToken)) : res DapError (option BearerToken) :=
  if DapGlobalConfig_allow_taskprov (sc_global (app_service_config s)) && method_is_taskprov task_config
  then match sc_taskprov (app_service_config s) with Some c => token c | None => Ok None end
  else Ok None.

#[global] Instance app_tokens : BearerTokenProvider App := {
  get_leader_bearer_token_for task_id task_config :=
    s ← get_state;
    o ← lift (taskprov_token s task_config (fun c => Ok (method_bearer_token (tp_leader_auth c))));
    match o with
    | Some bearer_token => mret (Some bearer_token)
    | None =>
        on_kv "failed to get the leader bearer token"
          (get_cloned LeaderBearerToken (hex_encode task_id) KvGetOptions_default)
    end;
  get_collector_bearer_token_for task_id task_config :=
    s ← get_state;
    o ← lift (taskprov_token s task_config (fun c =>
           auth ← unwrap (tp_collector_auth c); Ok (method_bearer_token auth)));
    match o with
    | Some bearer_token => mret (Some bearer_token)
    | None =>
        on_kv "failed to get the collector bearer token"
          (get_cloned CollectorBearerToken (hex_encode task_id) KvGetOptions_default)
    end;
}.

(** The request with the token [AsRef::as_ref] gives; it is asked for when there is one. *)
Definition with_token (req : DapRequest DaphneAuth) (token : option BearerToken) : DapRequest BearerToken :=
  MkDapRequest (DapRequest_version req) (DapRequest_media_type req) (DapRequest_task_id req)
    (DapRequest_resource req) (DapRequest_payload req) token (DapRequest_taskprov req).

(** [None] when the certificate is fine. *)
Definition tls_unauthorized (s : App) (tls : TlsClientAuth) : option detail :=
  match sc_taskprov (app_service_config s) with
  | None => Some (Text "TLS client authentication is currently only supported with Taskprov.")
  | Some _ =>
      if decide (tls_verified tls = "SUCCESS") then None
      else Some (Fmt "Invalid TLS certificate ({})." [ArgOpaque])
  end.

(** The reason the presented token is refused; [None] when there is none. *)
Definition token_unauthorized (task_config : DapTaskConfig) (req : DapRequest DaphneAuth)
    (auth : DaphneAuth) : app (option detail) :=
  match auth_bearer_token auth with
  | Some token => bearer_token_authorized task_config (with_token req (Some token))
  | None => mret None
  end.

Definition app_unauthorized_reason (task_config : DapTaskConfig) (req : DapRequest DaphneAuth) :
    app (option detail) :=
  match DapRequest_sender_auth req with
  | None => mret (Some (Text "Missing authorization."))
  | Some auth =>
      r ← token_unauthorized task_config req auth;
      match r with
      | Some reason => mret (Some reason)
      | None =>
          s ← get_state;
          match auth_cf_tls_client_auth auth with
          | Some tls => mret (tls_unauthorized s tls)
          | None =>
              mret match auth_bearer_token auth with
                   | Some _ => None
                   | None => Some (Text "No suitable authorization method was found.")
                   end
          end
      end
  end.

(** [authorize] of the Leader *)
Definition app_authorize (task_id : TaskId) (task_config : DapTaskConfig) (media_type : DapMediaType) :
    app DaphneAuth :=
  token ← authorize_with_bearer_token task_id task_config media_type;
  mret (MkDaphneAuth (Some token) None).

(** ** Global configuration and Taskprov *)
Definition set_default_num_agg_span_shards (c : DapGlobalConfig) (n : N) : DapGlobalConfig :=
  MkDapGlobalConfig (DapGlobalConfig_max_batch_duration c) (DapGlobalConfig_min_batch_interval_start c)
    (DapGlobalConfig_max_batch_interval_end c) (DapGlobalConfig_supported_hpke_kems c)
    (DapGlobalConfig_allow_taskprov c) n.

Definition app_get_global_config : app DapGlobalConfig :=
  s ← get_state;
  let global_config := sc_global (app_service_config s) in
  o ← on_kv "failed to get global override for the default_num_agg_span_shards"
        (get_cloned (GlobalConfigOverride T_NonZeroUsize)
           (GlobalOverrides_to_string DefaultNumAggSpanShards) (MkKvGetOptions true));
  match o with
  | Some n => mret (set_default_num_agg_span_shards global_config n)
  | None => mret global_config
  end.

Definition app_taskprov_vdaf_verify_key_init (s : App) : option (list byte) :=
  tp_vdaf_verify_key_init <$> sc_taskprov (app_service_config s).

Definition app_taskprov_collector_hpke_config (s : App) : option HpkeConfig :=
  tp_hpke_collector_config <$> sc_taskprov (app_service_config s).

Definition app_get_current_time (s : App) : Time := app_now s.

Definition app_taskprov_opt_in (task_id : TaskId) (task_config : DapTaskConfigNeedsOptIn)
    (global_config : DapGlobalConfig) : app DapTaskConfig :=
  o ← on_kv "failed to get TaskprovOptInParam from kv"
        (get_cloned TaskprovOptInParamPrefix (hex_encode task_id) KvGetOptions_default);
  match o with
  | Some param => mret (into_opted_in task_config param)
  | None =>
      s ← get_state;
      let param := MkOptInParam (app_get_current_time s)
                     (DapGlobalConfig_default_num_agg_span_shards global_config) in
      let task_config := into_opted_in task_config param in
      let expiration_time := DapTaskConfig_not_after task_config in
      r ← try_kv (put_with_expiration TaskprovOptInParamPrefix (hex_encode task_id) param expiration_time);
      match r with
      | Panic => lift Panic
      | _ => mret task_config
      end
  end.

Definition app_taskprov_put (req : DapRequest DaphneAuth) (task_config : DapTaskConfig) : app unit :=
  task_id ← lift (map_err Abort_ (get_task_id req));
  let expiration_time := DapTaskConfig_not_after task_config in
  s ← get_state;
  if is_leader (sc_role (app_service_config s)) || bool_decide (DapRequest_taskprov req = None) then
    on_kv "failed to put the a task config in kv"
      (put_with_expiration TaskConfigPrefix (hex_encode task_id) task_config expiration_time)
  else
    _ ← try_kv (only_cache_put TaskConfigPrefix (hex_encode task_id) task_config);
    mret tt.

(** ** Reports *)
Definition app_valid_report_time_range (s : App) : Time * Time :=
  (app_now s - sc_report_storage_epoch_duration (app_service_config s),
   N.min u64_max (app_now s + sc_report_storage_max_future_time_skew (app_service_config s))).

(** [into_par_iter()..collect::<Result<Vec<_>, _>>()]; a panic becomes an error. *)
Fixpoint initialize_each (is_leader : bool) (task_config : DapTaskConfig)
    (agg_param : DapAggregationParam) (consumed : list EarlyReportStateConsumed) :
    res DapError (list EarlyReportStateInitialized) :=
  match consumed with
  | [] => Ok []
  | x :: rest =>
      i ← EarlyReportStateInitialized_initialize is_leader
            (DapTaskConfig_vdaf_verify_key task_config) (DapTaskConfig_vdaf task_config) agg_param x;
      l ← initialize_each is_leader task_config agg_param rest;
      Ok (i :: l)
  end.

Definition app_initialize_reports (is_leader : bool) (task_config : DapTaskConfig)
    (agg_param : DapAggregationParam) (consumed : list EarlyReportStateConsumed) :
    res DapError (list EarlyReportStateInitialized) :=
  match initialize_each is_leader task_config agg_param consumed with
  | Panic => Err (fatal_logged "initialzing reports panicked")
  | r => r
  end.

Definition app_initializer (s : App) : DapReportInitializer :=
  MkDapReportInitializer (app_valid_report_time_range s) app_initialize_reports.

(** ** HPKE *)
Definition app_get_hpke_config_for (version : DapVersion) (task_id : option TaskId) : app HpkeConfig :=
  o ← on_kv "failed to get the hpke config"
        (get_mapped HpkeReceiverConfigSet (DapVersion_as_ref version) KvGetOptions_default
           (fun config_list => HpkeReceiverConfig_config <$> head config_list));
  lift (ok_or o (Fatal (Text "there are no hpke configs in kv!!"))).

Definition app_can_hpke_decrypt (task_id : TaskId) (config_id : N) : app bool :=
  task_config ← app_task task_id;
  o ← on_kv "failed to get at the hpke config"
        (peek HpkeReceiverConfigSet (DapVersion_as_ref (DapTaskConfig_version task_config))
           KvGetOptions_default
           (fun config_list =>
              existsb (fun r => HpkeConfig_id (HpkeReceiverConfig_config r) =? config_id) config_list));
  mret (default false o).

Definition app_hpke_decrypt (task_id : TaskId) (info aad : list byte) (ciphertext : HpkeCiphertext) :
    app (list byte) :=
  task_config ← app_task task_id;
  o ← on_kv "failed to get the hpke config"
        (peek HpkeReceiverConfigSet (DapVersion_as_ref (DapTaskConfig_version task_config))
           KvGetOptions_default
           (fun config_list =>
              (fun receiver => HpkeReceiverConfig_decrypt receiver info aad ciphertext) <$>
              List.find (fun receiver => HpkeConfig_id (HpkeReceiverConfig_config receiver)
                                         =? HpkeCiphertext_config_id ciphertext) config_list));
  r ← lift (ok_or (mjoin o) (Transition_ HpkeUnknownConfigId));
  lift r.

(** ** The Leader: volatile state *)
Definition app_put_report (new_batch_id : BatchId) (report : Report) (task_id : TaskId) : app unit :=
  task_config ← app_task task_id;
  on_leader_state (put_report new_batch_id task_id task_config report).

Definition app_current_batch (task_id : TaskId) : app BatchId :=
  task_config ← app_task task_id;
  on_leader_state (fun l => (current_batch l task_id task_config, l)).

Definition app_init_collect_job `{UJ : UrlJoin} `{B64 : Base64} (task_id : TaskId) (coll_job_id : CollectionJobId)
    (batch_sel : BatchSelector) (agg_param : DapAggregationParam) : app Url :=
  task_config ← app_task task_id;
  on_leader_state (init_collect_job task_id task_config coll_job_id batch_sel agg_param).

Definition app_poll_collect_job (task_id : TaskId) (coll_job_id : CollectionJobId) : app DapCollectionJob :=
  on_leader_state (fun l => (poll_collect_job l task_id coll_job_id, l)).

Definition app_finish_collect_job (task_id : TaskId) (coll_job_id : CollectionJobId)
    (collection : Collection) : app unit :=
  on_leader_state (finish_collect_job task_id coll_job_id collection).

Definition app_dequeue_work (num_items : N) : app (list WorkItem) := on_leader_state (dequeue_work num_items).
Definition app_enqueue_work (items : list WorkItem) : app unit := on_leader_state (enqueue_work items).
End Server.
