(* ===== verification/ServerCorrect.v ===== *)
(** * The service stores every report at most once

    The put of the service through all layers: the HTTP request, the storage proxy, the
    platform and the durable objects ([server_put_at_most_once]); and who is let in
    ([server_authorization]). *)

From S2P Require Import Prelude Codec Messages TaskprovMessages Errors Config Pine Taskprov AggShare.
From S2P Require Import Hpke Protocol Auth LeaderState Roles Leader.
From S2P Require Import DurableStore DurableChunks DurableStoreCorrect DurableRun DurableRequests.
From S2P Require Import DurableRequestsCorrect StorageProxy StorageProxyCorrect Kv KvCorrect Server.

Section Put.
Context `{BP : BuildProfile} `{PC : PrioCodec} {PL : PrioCodecLaws PC}.
Context `{PA : PrioAgg} `{VO : !VdafOps} `{PV : !PrioVec} {VL : PrioVecLaws PV}.
Context `{PE : !PrioElemBytes} {EL : PrioElemBytesLaws PE} `{DS : DurableStorage} {DL : DurableStorageLaws DS}.
Context `{CP : Capnp} {CL : CapnpLaws CP} `{HX : HexCodec} {HL : HexLaws HX}.
Context {W : Type} {DN : DurableNamespace W} {DNL : DurableNamespaceLaws DN}.
Context `{DH : !DoHttp W} `{KH : !KvHttp W} `{KJ : KvJson}.

(** ** The connection to the proxy *)
Definition same_objects (w w' : W) : Prop := forall id, object_at w' id = object_at w id.

(** What may become of a request to the proxy. *)
Inductive proxied (uri : string) (body : list byte) (w : W) : option do_reply -> W -> Prop :=
| proxied_lost w' : same_objects w w' -> proxied uri body w None w'
| proxied_refused status w' : same_objects w w' -> proxied uri body w (Some (Reply_status status)) w'
| proxied_answered v w1 w' :
    handle_do_request uri body w = (Ok v, w1) -> same_objects w1 w' ->
    proxied uri body w (Some (Reply_ok v)) w'
| proxied_failed r status w1 w' :
    handle_do_request uri body w = (r, w1) -> (forall v, r <> Ok v) -> same_objects w1 w' ->
    proxied uri body w (Some (Reply_status status)) w'
| proxied_answer_lost r w1 w' :
    handle_do_request uri body w = (r, w1) -> same_objects w1 w' -> proxied uri body w None w'.

Class ProxyLaws : Prop := {
  do_post_law uri body w :
    proxied uri body w (do_post (String.append DO_PATH_PREFIX uri) body w).1
      (do_post (String.append DO_PATH_PREFIX uri) body w).2;
  http_get_law key w : same_objects w (http_get key w).2;
}.
Context {XL : ProxyLaws}.

(** ** A bucket *)
Definition world (s : App) : W := kv_world (app_kv s).

Definition bucket_object (c : DapTaskConfig) (tid : TaskId) (b : DapBatchBucket) : ObjectIdFrom :=
  AggregateStore_name (DapTaskConfig_version c, hex_encode tid, b).

Definition put_request (e : DapAggregateShare * list (ReportId * Time)) : AggregateStoreMergeReq :=
  MkMergeReq e.2.*1 e.1 false.

(** The reports of the entry are new to the bucket [a], can be merged into it to give the
    share [sh], and fit the object and the messages. *)
Definition ready (a : bucket) (e : DapAggregateShare * list (ReportId * Time)) (sh : DapAggregateShare) : Prop :=
  fresh_merge a (put_request e) sh /\ merge_fits a (put_request e) /\ sendable (put_request e) /\
  (forall bs, encode_to_bytes (put_request e) = Ok bs -> len bs <= u32_max).

(** What the service answers for the entry, and what became of the bucket; a new instance of its
    object finds the reports at most once. *)
Definition put_once (a : bucket) (e : DapAggregateShare * list (ReportId * Time)) (sh : DapAggregateShare)
    (result : option MergeAggShareError) (st : AggregateStoreDO) : Prop :=
  (result = None /\ (coherent st (merged a (put_request e) sh) \/ kept a (put_request e) st) \/
   (exists err, result = Some (MergeOther err)) /\ one_of a (put_request e) sh st) /\
  (coherent (restart st) a \/ coherent (restart st) (merged a (put_request e) sh)).

Definition with_world (s : App) (w : W) : App :=
  set_kv s (MkKvState (kv_cache (app_kv s)) w (kv_clock (app_kv s))).

Lemma do_send_eq {R} (of_json : store_response -> option R) path request s r w :
  do_post (String.append DO_PATH_PREFIX (AggregateStore_to_uri path)) (into_bytes request) (world s) = (r, w) ->
  do_send of_json path request s
  = (Ok match r with
        | Some (Reply_ok v) => ok_or (of_json v) ProxyReqwest
        | Some (Reply_status status) => Err (ProxyHttp status)
        | None => Err ProxyReqwest
        end, with_world s w).
Proof. intros H. unfold do_send. unfold world in H. by rewrite H. Qed.

Hypothesis located : forall id, locate (W:=W) "DAP_AGGREGATE_STORE" id <> Panic.
Hypothesis requested : forall path body, request_new (W:=W) path body <> Panic.

Lemma one_of_restart a e sh st :
  ready a e sh -> one_of a (put_request e) sh st ->
  coherent (restart st) a \/ coherent (restart st) (merged a (put_request e) sh).
Proof.
  intros [Hf _] [H|[H|H]].
  - left. by apply recoverable_restart, coherent_recoverable.
  - by eapply kept_restart.
  - right. by apply recoverable_restart, coherent_recoverable.
Qed.

(** The two parts of [put_once] *)
Lemma put_once_err a e sh err st :
  ready a e sh -> one_of a (put_request e) sh st -> put_once a e sh (Some (MergeOther err)) st.
Proof. intros Hr H. split; [right; split; [by eexists|done]|]. by eapply one_of_restart. Qed.

Lemma put_once_ok a e sh st :
  ready a e sh -> coherent st (merged a (put_request e) sh) \/ kept a (put_request e) st ->
  put_once a e sh None st.
Proof.
  intros Hr H. split; [by left|]. apply (one_of_restart a e sh); [done|]. unfold one_of. tauto.
Qed.

Lemma put_bucket_once c tid b e a sh s :
  coherent (object_at (world s) (bucket_object c tid b)) a -> ready a e sh ->
  exists result s', app_put_bucket tid c false (b, e) s = (Ok (b, (result, e.2)), s') /\
    put_once a e sh result (object_at (world s') (bucket_object c tid b)) /\
    (forall id, id <> bucket_object c tid b -> object_at (world s') id = object_at (world s) id).
Proof.
  intros Hco Hready. pose proof Hready as (Hfresh & Hfit & Hsend & Hlen). destruct e as [share reports].
  destruct (merge_payload_round_trip _ Hsend) as (bs & Henc & _). specialize (Hlen bs Henc).
  unfold app_put_bucket. cbn [fst snd] in *. unfold put_request in Henc. cbn [fst snd] in Henc.
  erewrite bind_step by (unfold lift; by rewrite Henc).
  set (env := do_request M_Merge (DapTaskConfig_version c) tid b).
  pose proof (handle_merge_request env _ a sh bs (world s) Hco Hfresh Hfit Hsend Henc Hlen
    (requested _ _) (located (dr_id env))) as Hp.
  pose proof (do_post_law (AggregateStore_to_uri M_Merge) (into_bytes (with_body env bs)) (world s)) as Hd.
  destruct (do_post _ (into_bytes (with_body env bs)) (world s)) as [r w'] eqn:Hpost. cbn [fst snd] in Hd.
  erewrite bind_step by (apply do_send_eq; exact Hpost).
  destruct (handle_do_request _ (into_bytes (with_body env bs)) (world s)) as [x w1] eqn:Hx.
  unfold mbind, stm_bind, lift. change (dr_id env) with (bucket_object c tid b) in *.
  assert (forall st, (match x with Ok resp => resp = Resp_Merge MergeResp_Ok /\ (coherent st (merged a (put_request (share, reports)) sh)
      \/ kept a (put_request (share, reports)) st) | Err _ => one_of a (put_request (share, reports)) sh st | Panic => False end)
    -> one_of a (put_request (share, reports)) sh st) as Hany by (unfold one_of; destruct x; tauto).
  inversion Hd as [w'' Hs|st w'' Hs|v w1' w'' Hh Hs|r' st w1' w'' Hh Hr Hs|r' w1' w'' Hh Hs]; subst;
    try (rewrite Hx in Hh; injection Hh as -> ->; destruct Hp as [Hp Ho]); try destruct Hp as [-> Hp];
    (eexists _, _; split; [done|]).
  - split; [|exact (fun id _ => Hs id)]. apply put_once_err; [done|]. left. cbn. by rewrite Hs.
  - split; [|exact (fun id _ => Hs id)]. apply put_once_err; [done|]. left. cbn. by rewrite Hs.
  - split; [|intros id Hid; cbn; by rewrite Hs, Ho].
    apply put_once_ok; [done|]. cbn. by rewrite Hs.
  - split; [|intros id Hid; cbn; by rewrite Hs, Ho]. apply put_once_err; [done|]. cbn. rewrite Hs. by apply Hany.
  - split; [|intros id Hid; cbn; by rewrite Hs, Ho]. apply put_once_err; [done|]. cbn. rewrite Hs. by apply Hany.
Qed.

(** Objects of the buckets of a list. *)
Definition other_object (c : DapTaskConfig) (tid : TaskId) (bs : list DapBatchBucket) (id : ObjectIdFrom) : Prop :=
  forall b, b ∈ bs -> id <> bucket_object c tid b.

Lemma put_buckets_once c tid pre post entries s :
  NoDup entries.*1 ->
  (forall b e, (b, e) ∈ entries ->
     coherent (object_at (world s) (bucket_object c tid b)) (pre b) /\ ready (pre b) e (post b)) ->
  exists l s', app_put_buckets tid c false entries s = (Ok l, s') /\ l.*1 = entries.*1 /\
    (forall b e, (b, e) ∈ entries -> exists result, (b, (result, e.2)) ∈ l /\
       put_once (pre b) e (post b) result (object_at (world s') (bucket_object c tid b))) /\
    (forall id, other_object c tid entries.*1 id -> object_at (world s') id = object_at (world s) id).
Proof.
  revert s. induction entries as [|[b e] entries IH]; intros s Hnd Hr.
  { exists [], s. split; [done|]. split; [done|]. split; [|done]. by intros b e ?%not_elem_of_nil. }
  apply NoDup_cons in Hnd as [Hb Hnd].
  destruct (Hr b e) as [Hco Hready]; [by left|].
  destruct (put_bucket_once c tid b e (pre b) (post b) s Hco Hready) as (result & s1 & H1 & Hput & Hoth).
  assert (forall b', b' ∈ entries.*1 -> bucket_object c tid b' <> bucket_object c tid b) as Hne.
  { intros b' Hb' H. unfold bucket_object in H. apply bucket_name_inj in H as (_ & _ & ->). done. }
  destruct (IH s1 Hnd) as (l & s2 & H2 & Hfst & Hall & Hrest).
  { intros b' e' Hin. destruct (Hr b' e') as [Hco' Hready']; [by right|]. split; [|done].
    rewrite Hoth; [done|]. apply Hne. apply list_elem_of_fmap. by exists (b', e'). }
  exists ((b, (result, e.2)) :: l), s2. cbn [app_put_buckets].
  split; [by erewrite bind_step, bind_step by eassumption|]. split; [cbn; by rewrite Hfst|]. split.
  - intros b' e' [[= -> ->]|Hin]%elem_of_cons.
    + exists result. split; [by left|]. rewrite Hrest; [done|]. intros b2 Hb2 H. by apply (Hne b2).
    + destruct (Hall b' e' Hin) as (r & Hl & Hp). exists r. split; [by right|done].
  - intros id Hid. rewrite Hrest, Hoth; [done| |].
    + apply Hid. by left.
    + intros b2 Hb2. apply Hid. by right.
Qed.

(** The read of the override does not touch the objects. *)
Lemma get_objects P key opt (k : kv_state W) :
  same_objects (kv_world k) (kv_world (Kv_get P key opt k).2).
Proof.
  unfold Kv_get, get_mapped, get_impl, mbind, stm_bind, get_state.
  assert (forall R (f : value_of (PValue P) -> R) key,
    same_objects (kv_world k) (kv_world (uncached_get P key opt f k).2)) as H.
  { intros R f key'. unfold uncached_get, send, mbind, stm_bind.
    pose proof (http_get_law key' (kv_world k)) as H. destruct (http_get key' (kv_world k)) as [[resp|] w]; [|done].
    cbn [snd] in H. destruct (hr_status resp =? 404); [by destruct (cache_not_found opt)|].
    destruct (error_for_status resp); [|done..]. cbn.
    by destruct (json_of (PValue P) (hr_body a)). }
  specialize (H _ (fun t => Some t) (to_key P key)).
  destruct (Cache_get P (kv_clock k) (kv_cache k) (to_key P key)); [done|..];
    by destruct (uncached_get P (to_key P key) opt (fun t => Some t) k) as [[] ?].
Qed.

Lemma replay_override_objects s r s1 :
  fetch_replay_protection_override s = (r, s1) -> same_objects (world s) (world s1).
Proof.
  unfold fetch_replay_protection_override, try_kv, mbind, stm_bind, get_cloned.
  pose proof (get_objects (GlobalConfigOverride T_bool) (GlobalOverrides_to_string SkipReplayProtection)
    (MkKvGetOptions true) (app_kv s)) as H.
  destruct (Kv_get _ _ _ (app_kv s)) as [[[[]|]|e|] k]; cbn [snd] in H; by intros [= <- <-].
Qed.

(** C5: The service stores every report of a span at most once.  Let the buckets of the span be
    in durable objects in step with their storage, with reports that are new to them and fit,
    let replay protection be on, and let the platform's lookups not panic.  Whatever gets lost
    between the service, the proxy and the objects, whichever write fails, and whether an
    object is evicted or stays in memory, the put answers for every bucket, with its reports.
    [Ok]: the bucket has the reports merged exactly once, or an attempt failed on an instance
    of its object that is still in memory.  An error: the bucket is as before, has them merged
    once, or the same holds.  In every case a new instance of the object finds the reports in
    its storage once or not at all.  The objects of other buckets and tasks are untouched. *)
Theorem server_put_at_most_once c tid (span : DapAggregateSpan DapAggregateShare) s s1 pre post :
  fetch_replay_protection_override s = (Ok ReplayProtection_Enabled, s1) ->
  (forall b e, span !! b = Some e ->
     coherent (object_at (world s) (bucket_object c tid b)) (pre b) /\ ready (pre b) e (post b)) ->
  exists res s', app_try_put_agg_share_span tid c span s = (Ok res, s') /\
    (forall b, match span !! b with
               | Some e => exists result, res !! b = Some (result, e.2) /\
                   put_once (pre b) e (post b) result (object_at (world s') (bucket_object c tid b))
               | None => res !! b = None
               end) /\
    (forall id, (forall b, is_Some (span !! b) -> id <> bucket_object c tid b) ->
       object_at (world s') id = object_at (world s) id).
Proof.
  intros Hrp Hr. pose proof (replay_override_objects _ _ _ Hrp) as Ho.
  destruct (put_buckets_once c tid pre post (map_to_list span) s1) as (l & s' & Hp & Hfst & Hall & Hrest).
  { apply NoDup_fst_map_to_list. }
  { intros b e Hin%elem_of_map_to_list. rewrite Ho. by apply Hr. }
  exists (list_to_map l), s'. split.
  { unfold app_try_put_agg_share_span. erewrite bind_step by exact Hrp. cbn [ReplayProtection_enabled negb].
    by erewrite bind_step by exact Hp. }
  assert (NoDup l.*1) as Hnd by (rewrite Hfst; apply NoDup_fst_map_to_list). split.
  - intros b. destruct (span !! b) as [e|] eqn:Hb.
    + destruct (Hall b e) as (r & Hin & Hpo); [by apply elem_of_map_to_list|]. exists r.
      split; [|done]. by apply elem_of_list_to_map_1.
    + apply not_elem_of_list_to_map_1. rewrite Hfst. intros ((b' & e') & -> & Hin)%list_elem_of_fmap.
      apply elem_of_map_to_list in Hin. cbn in *. congruence.
  - intros id Hid. rewrite Hrest, Ho; [done|]. intros b ((b' & e') & -> & Hin)%list_elem_of_fmap.
    apply Hid. apply elem_of_map_to_list in Hin. by eexists.
Qed.
End Put.

(** ** Authorization *)
Section Authorization.
Context `{BP : BuildProfile} `{PA : PrioAgg} `{VO : !VdafOps} `{HX : HexCodec}.
Context {W : Type} `{DH : !DoHttp W} `{KH : !KvHttp W} `{KJ : KvJson}.

(** C19: Whom the service lets in.  A request is authorized only if it carries a bearer token
    or a TLS client certificate; each of them that it carries has to be good.  A token: the
    request names a task, its media type is one the Leader or the Collector sends, and the
    token is the one the service has for the sender in the task, read in the state the request
    finds.  A certificate: Taskprov is configured, and the
    verification ended with [SUCCESS]. *)
Theorem server_authorization c (req : DapRequest DaphneAuth) (s s' : App) :
  app_unauthorized_reason c req s = (Ok None, s') ->
  exists auth, DapRequest_sender_auth req = Some auth /\
    (is_Some (auth_bearer_token auth) \/ is_Some (auth_cf_tls_client_auth auth)) /\
    (forall token, auth_bearer_token auth = Some token -> exists tid,
       DapRequest_task_id req = Some tid /\
       (DapRequest_sender (with_token req (Some token)) = Some Sender_Leader /\
          get_leader_bearer_token_for tid c s = (Ok (Some token), s') \/
        DapRequest_sender (with_token req (Some token)) = Some Sender_Collector /\
          get_collector_bearer_token_for tid c s = (Ok (Some token), s'))) /\
    (forall tls, auth_cf_tls_client_auth auth = Some tls ->
       tls_verified tls = "SUCCESS" /\ is_Some (sc_taskprov (app_service_config s'))).
Proof.
  unfold app_unauthorized_reason. destruct (DapRequest_sender_auth req) as [auth|]; [|done].
  intros H. apply stm_bind_Ok in H as (r & s1 & Hr & H). destruct r as [reason|]; [done|].
  exists auth. split; [done|]. split; [|split].
  - destruct (auth_cf_tls_client_auth auth); [by right; eexists|].
    destruct (auth_bearer_token auth); [by left; eexists|done].
  - intros token Ht. unfold token_unauthorized in Hr. rewrite Ht in Hr.
    apply authorized_token in Hr as (tid & token' & Htid & Htok & Hg). injection Htok as <-.
    assert (s1 = s') as ->.
    { destruct (auth_cf_tls_client_auth auth); cbn in H; [by injection H as _ <-|].
      rewrite Ht in H. by injection H as <-. }
    exists tid. split; [done|]. by destruct Hg as [[Hs Hg]|[Hs Hg]]; [left|right].
  - intros tls Htls. rewrite Htls in H. unfold mbind, stm_bind, get_state in H.
    injection H as H <-. unfold tls_unauthorized in H.
    destruct (sc_taskprov (app_service_config s1)); [|done]. by case_decide.
Qed.
End Authorization.
