(* ===== verification/Router.v ===== *)
(** * The HTTP interface of the service

    [src/crates/daphne-server/src/router/]: how an HTTP request becomes a [DapRequest], which
    handler a route has, and how the result of a handler becomes an HTTP response; and the
    other end, [App::send_http] of [roles/leader.rs], with which the Leader sends a request to
    the Helper and reads the response.

    The handlers are those of [Roles] and [Leader], for any implementer of the traits.  Routing
    ([axum]), header values ([http]) and signatures ([p256]) are the classes [Axum] and
    [Signer].  A body that is JSON is kept as the value.  The state is the world of the handlers
    with the calls of [DaphneServiceMetrics]; a handler returns a response or panics. *)

From S2P Require Import Prelude Codec Messages TaskprovMessages Errors Config AggShare Hpke.
From S2P Require Import Protocol Pine Taskprov LeaderState Roles Leader Auth Server.

(** ** HTTP *)
Inductive http_method : Type := GET | POST | PUT | DELETE.

#[global] Instance http_method_eq_dec : EqDecision http_method.
Proof. solve_decision. Defined.

(** Header names are compared without case; they are in lower case here. *)
Abbreviation HeaderMap := (list (string * list byte)).

(** [HeaderMap::get]: the first value of the name. *)
Definition header_get (name : string) (headers : HeaderMap) : option (list byte) :=
  snd <$> List.find (fun h => bool_decide (h.1 = name)) headers.

Definition header_get_all (name : string) (headers : HeaderMap) : list (list byte) :=
  (filter (fun h => h.1 = name) headers).*2.

(** [HeaderMap::insert]: in place of all values of the name. *)
Definition header_insert (name : string) (value : list byte) (headers : HeaderMap) : HeaderMap :=
  filter (fun h => h.1 <> name) headers ++ [(name, value)].

Definition CONTENT_TYPE : string := "content-type".
Definition HPKE_SIGNATURE : string := "x-hpke-config-signature".
Definition DAP_AUTH_TOKEN : string := "dap-auth-token".
Definition DAP_TASKPROV : string := "dap-taskprov".
Definition X_CLIENT_CERT_VERIFIED : string := "x-client-cert-verified".

(** A body that cannot be read is [None]. *)
Record web_request : Type := MkWebRequest {
  wr_method : http_method;
  wr_path : string;
  wr_query : string;
  wr_headers : HeaderMap;
  wr_body : option (list byte);
}.

(** What the routes for tests answer with. *)
Inductive json_value : Type :=
| Json_success
| Json_endpoint (path : string)
| Json_telemetry (t : DapLeaderProcessTelemetry).

Inductive web_body : Type :=
| Body_empty
| Body_text (d : detail)
| Body_bytes (bs : list byte)
| Body_problem (p : ProblemDetails)
| Body_url (u : Url)
| Body_json (v : json_value).

Record web_response : Type := MkWebResponse {
  ws_status : N;
  ws_headers : HeaderMap;
  ws_body : web_body;
}.

(** ** Dependencies *)
Class Axum : Type := {
  (** The parameters of a path under a route; [None] when the route does not match. *)
  match_path : string -> string -> option (list (string * string));
  (** [Query] for one optional key: the value if there is one; an error is [None]. *)
  query_param : string -> string -> option (option string);
  (** [HeaderValue::from_str] and [HeaderValue::to_str] *)
  header_from_str : string -> option (list byte);
  header_to_str : list byte -> option string;
}.

(** [Url::path] and [Url::query], where there is none empty *)
Class UrlPath : Type := { url_path : Url -> string; url_query : Url -> string }.

(** [p256]: the DER form of an ECDSA signature. *)
Class Signer : Type := { SigningKey : Type; sign_to_der : SigningKey -> list byte -> list byte }.

(** ** Metrics of the service *)
Inductive AuthMethod : Type := AuthMethod_BearerToken | AuthMethod_TlsClientAuth.

Inductive service_event : Type :=
| abort_count_inc (label : string)
| count_http_status_code (status_code : N)
| auth_method_inc (method : AuthMethod).

(** The label of the Prometheus counter of [auth_method_inc]. *)
Definition auth_method_label (method : AuthMethod) : string :=
  match method with
  | AuthMethod_TlsClientAuth => "mutual_tls"
  | AuthMethod_BearerToken => "tls_client_auth"
  end.

Record service (St : Type) : Type := MkService {
  sv_world : World St;
  sv_metrics : list service_event;
}.
Arguments MkService {St}.
Arguments sv_world {St}.
Arguments sv_metrics {St}.

Section Service.
Context {St : Type}.
Abbreviation web A := (stm (service St) Empty_set A).

Definition count (e : service_event) : web unit := modify (fun s => MkService (sv_world s) (sv_metrics s ++ [e])).

(** A handler of the protocol, with its result. *)
Definition attempt {E A} (m : stm (World St) E A) : web (res E A) := fun s =>
  let '(r, w) := m (sv_world s) in
  (match r with Panic => Panic | r => Ok r end, MkService w (sv_metrics s)).
End Service.

(** [DaphneService::signing_key] *)
Class DaphneService `{SG : Signer} (St : Type) : Type := signing_key : St -> option SigningKey.

(** ** Responses *)
Section Responses.
Context `{AX : Axum} {St : Type}.
Abbreviation web A := (stm (service St) Empty_set A).

Definition status_only (status : N) : web_response := MkWebResponse status [] Body_empty.

Definition text_response (status : N) (text : detail) : web_response :=
  MkWebResponse status [(CONTENT_TYPE, String.list_byte_of_string "text/plain; charset=utf-8")] (Body_text text).

(** The abort or the fatal error a response is about: transition failures become aborts. *)
Definition abort_or_fatal (e : DapError) : res DapError DapAbort :=
  match e with
  | Transition_ failure => report_rejected failure
  | Fatal d => Err (Fatal d)
  | Abort_ abort => Ok abort
  end.

Definition new_error (error : DapError) : web web_response :=
  let error := abort_or_fatal error in
  let status := match error with Err _ => 500 | _ => 400 end in
  problem_details ← match error with
                    | Ok abort => mret (DapAbort_into_problem_details abort)
                    | Err e => mret (DapError_into_problem_details e)
                    | Panic => lift Panic
                    end;
  _ ← count (abort_count_inc (ProblemDetails_title problem_details));
  mret (MkWebResponse status [(CONTENT_TYPE, String.list_byte_of_string "application/problem+json")]
          (Body_problem problem_details)).

Definition new_success_with_code (response : DapResponse) (status_code : N) : web web_response :=
  match as_str_for_version (DapResponse_media_type response) (DapResponse_version response) with
  | None => new_error (Fatal (Text "invalid content-type for DAP version"))
  | Some media_type =>
      match header_from_str media_type with
      | None => new_error (fatal_logged "content-type contained invalid bytes {media_type:?}")
      | Some media_type =>
          mret (MkWebResponse status_code [(CONTENT_TYPE, media_type)]
                  (Body_bytes (DapResponse_payload response)))
      end
  end.

Definition new_success (response : DapResponse) : web web_response := new_success_with_code response 200.

Definition from_result_with_success_code (result : res DapError DapResponse) (status_code : N) :
    web web_response :=
  match result with
  | Ok o => new_success_with_code o status_code
  | Err e => new_error e
  | Panic => lift Panic
  end.

Definition from_result (result : res DapError DapResponse) : web web_response :=
  from_result_with_success_code result 200.
End Responses.

(** ** Requests *)
Section Requests.
Context `{AX : Axum} `{B64 : Base64} {St : Type}.
Abbreviation web A := (stm (service St) Empty_set A).

(** A rejection: status and text. *)
Abbreviation rejection := (N * detail)%type.

Record PathParams : Type := MkPathParams {
  pp_version : DapVersion;
  pp_task_id : option TaskId;
  pp_agg_job_id : option AggregationJobId;
  pp_collect_job_id : option CollectionJobId;
}.

Definition path_get (key : string) (params : list (string * string)) : option string :=
  snd <$> List.find (fun p => bool_decide (p.1 = key)) params.

(** [base64url_option::deserialize]: the key may be missing. *)
Definition id_option_deserialize (n : N) (value : option string) : res detail (option (list byte)) :=
  match value with
  | None => Ok None
  | Some s => match decode_base64url n s with Some id => Ok (Some id) | None => Err (Text "invalid") end
  end.

(** [Deserialize for PathParams], with [deny_unknown_fields]. *)
Definition path_params (params : list (string * string)) : res detail PathParams :=
  if negb (forallb (fun p => bool_decide (p.1 ∈ ["version"; "task_id"; "agg_job_id"; "collect_job_id"]%string))
             params)
  then Err (Fmt "unknown field" [ArgOpaque])
  else
  version ← ok_or (path_get "version" params) (Text "missing field `version`");
  version ← match DapVersion_from_str version with
            | Ok v => Ok v
            | _ => Err (Fmt "unknown variant" [ArgStr version])
            end;
  task_id ← id_option_deserialize 32 (path_get "task_id" params);
  agg_job_id ← id_option_deserialize 16 (path_get "agg_job_id" params);
  collect_job_id ← id_option_deserialize 16 (path_get "collect_job_id" params);
  Ok (MkPathParams version task_id agg_job_id collect_job_id).

Definition extract_header_as_string (headers : HeaderMap) (header : string) : option string :=
  header_get header headers ≫= header_to_str.

(** The media type of the request, if it has one. *)
Definition extract_media_type (version : DapVersion) (headers : HeaderMap) :
    res rejection (option DapMediaType) :=
  match header_get CONTENT_TYPE headers with
  | None => Ok None
  | Some content_type =>
      content_type ← ok_or (header_to_str content_type)
        (400, Text "header value contains non ascii or invisible characters");
      mt ← ok_or (from_str_for_version version content_type) (400, Text "invalid media type");
      Ok (Some mt)
  end.

Definition extract_resource (media_type : option DapMediaType) (agg_job_id : option AggregationJobId)
    (collect_job_id : option CollectionJobId) : DapResource :=
  match media_type with
  | Some MT_AggregationJobInitReq =>
      match agg_job_id with Some id => AggregationJob id | None => Undefined end
  | Some MT_CollectReq =>
      match collect_job_id with Some id => CollectionJob id | None => Undefined end
  | _ => Undefined
  end.

(** [FromRequest for DapRequestExtractor] *)
Definition from_request (params : list (string * string)) (req : web_request) :
    web (res rejection (DapRequest DaphneAuth)) :=
  match path_params params with
  | Err e => mret (Err (400, e))
  | Panic => lift Panic
  | Ok (MkPathParams version task_id agg_job_id collect_job_id) =>
      let headers := wr_headers req in
      let bearer_token := MkBearerToken <$> extract_header_as_string headers DAP_AUTH_TOKEN in
      let tls := MkTlsClientAuth <$> extract_header_as_string headers X_CLIENT_CERT_VERIFIED in
      _ ← match bearer_token with Some _ => count (auth_method_inc AuthMethod_BearerToken) | None => mret tt end;
      _ ← match tls with Some _ => count (auth_method_inc AuthMethod_TlsClientAuth) | None => mret tt end;
      match extract_media_type version headers with
      | Err e => mret (Err e)
      | Panic => lift Panic
      | Ok media_type =>
          let taskprov := extract_header_as_string headers DAP_TASKPROV in
          match wr_body req with
          | None => mret (Err (500, Text "failed to get payload"))
          | Some payload =>
              mret (Ok (MkDapRequest version media_type task_id
                          (extract_resource media_type agg_job_id collect_job_id) payload
                          (Some (MkDaphneAuth bearer_token tls)) taskprov))
          end
      end
  end.
End Requests.

(** ** Routes *)
Section Routes.
Context `{BP : BuildProfile} `{PC : PrioCodec} `{PA : PrioAgg} `{VO : !VdafOps} `{Dg : Digest}
  `{HC : HpkeCrypto} `{HK : Hkdf} `{B64 : Base64} `{UP : UrlParser} `{UJ : UrlJoin} `{PF : PineFields}.
Context `{AX : Axum} `{SG : Signer} {St : Type}.
Context `{DA : !DapAggregator DaphneAuth St} `{DL : !DapLeader DaphneAuth St} `{DS : !DaphneService St}.
Abbreviation web A := (stm (service St) Empty_set A).

(** The parameters of the path and the request. *)
Abbreviation handler := (list (string * string) -> web_request -> web web_response).

(** The argument [DapRequestExtractor(req)] of a handler; a rejection is the response. *)
Definition with_request (f : DapRequest DaphneAuth -> web web_response) : handler := fun params req =>
  r ← from_request params req;
  match r with
  | Ok req => f req
  | Err (status, text) => mret (text_response status text)
  | Panic => lift Panic
  end.

(** *** [aggregator.rs] *)
Definition sign_dap_response (key : SigningKey) (resp : DapResponse) : res DapError string :=
  match DapResponse_media_type resp with
  | MT_HpkeConfigList => Ok (encode_base64url (sign_to_der key (DapResponse_payload resp)))
  | _ => Err (Fatal (Text "tried to sign invalid response"))
  end.

(** [AppendHeaders([(name, value)])] in front of a response; a value that is no header value
    makes it an error of the server. *)
Definition append_header (name value : string) (resp : web_response) : web_response :=
  match header_from_str value with
  | Some v => MkWebResponse (ws_status resp) (ws_headers resp ++ [(name, v)]) (ws_body resp)
  | None => text_response 500 (Fmt "{e}" [ArgOpaque])
  end.

Definition hpke_config : handler := fun params req =>
  match query_param "task_id" (wr_query req) with
  | None => mret (text_response 400 (Fmt "{e}" [ArgOpaque]))
  | Some value =>
      match id_option_deserialize 32 value with
      | Ok task_id =>
          with_request (fun req =>
            r ← attempt (handle_hpke_config_req req task_id);
            s ← get_state;
            let key := signing_key (w_store (sv_world s)) in
            match r with
            | Ok resp =>
                match (fun k => sign_dap_response k resp) <$> key with
                | None => new_success resp
                | Some (Ok signed) => resp ← new_success resp; mret (append_header HPKE_SIGNATURE signed resp)
                | Some (Err e) => new_error e
                | Some Panic => lift Panic
                end
            | Err e => new_error e
            | Panic => lift Panic
            end) params req
      | _ => mret (text_response 400 (Fmt "{e}" [ArgOpaque]))
      end
  end.

Definition aggregator_routes : list (string * (http_method * handler)) :=
  [("/:version/hpke_config"%string, (GET, hpke_config))].

(** *** [helper.rs] *)

(** [replay_protection] is [fetch_replay_protection_override]. *)
Definition agg_job (replay_protection : stm St DapError ReplayProtection) : handler :=
  with_request (fun req =>
    match DapRequest_media_type req with
    | Some MT_AggregationJobInitReq =>
        r ← attempt (rp ← call replay_protection; handle_agg_job_init_req req rp);
        from_result_with_success_code r 201
    | _ => new_error (Abort_ (BadRequest (Fmt "unexpected media type: {m:?}" [ArgOpaque])))
    end).

(** [seed] is the randomness of the encryption. *)
Definition agg_share (seed : list byte) : handler :=
  with_request (fun req => r ← attempt (handle_agg_share_req seed req); from_result r).

Definition helper_routes (replay_protection : stm St DapError ReplayProtection) (seed : list byte) :
    list (string * (http_method * handler)) :=
  [("/:version/tasks/:task_id/aggregation_jobs/:agg_job_id"%string, (PUT, agg_job replay_protection));
   ("/:version/tasks/:task_id/aggregate_shares"%string, (POST, agg_share seed))].

(** *** [leader.rs] *)
Definition upload : handler := with_request (fun req =>
  r ← attempt (handle_upload_req req);
  match r with
  | Ok _ => mret (status_only 200)
  | Err e => new_error e
  | Panic => lift Panic
  end).

Definition get_collect_uri : handler := with_request (fun req =>
  r ← attempt (handle_coll_job_req req);
  match r with
  | Ok collect_uri =>
      mret (MkWebResponse 201 [(CONTENT_TYPE, String.list_byte_of_string "application/json")]
              (Body_url collect_uri))
  | Err e => new_error e
  | Panic => lift Panic
  end).

Definition collect : handler := with_request (fun req =>
  match get_task_id req with
  | Err e => new_error (Abort_ e)
  | Panic => lift Panic
  | Ok task_id =>
      match get_collection_job_id req with
      | Err e => new_error (Abort_ e)
      | Panic => lift Panic
      | Ok collect_id =>
          r ← attempt (call (DapLeader_poll_collect_job task_id collect_id));
          match r with
          | Ok (CJ_Done collect_resp) =>
              match get_encoded (Collection_encode (DapRequest_version req)) collect_resp with
              | Ok payload => new_success (MkDapResponse (DapRequest_version req) MT_Collection payload)
              | Err e => new_error (DapError_encoding e)
              | Panic => lift Panic
              end
          | Ok CJ_Pending => mret (status_only 202)
          | Ok CJ_Unknown => new_error (Abort_ (BadRequest (Text "unknown collection job id")))
          | Err e => new_error e
          | Panic => lift Panic
          end
      end
  end).

Definition leader_routes : list (string * (http_method * handler)) :=
  [("/:version/collect/task/:task_id/req/:collect_job_id"%string, (POST, collect));
   ("/:version/tasks/:task_id/reports"%string, (PUT, upload));
   ("/:version/tasks/:task_id/collection_jobs/:collect_job_id"%string, (PUT, get_collect_uri))].

(** *** [mod.rs] *)

(** [axum]: the handler of the route and the method; a path without a route is not found, and
    a route without the method does not allow it. *)
Fixpoint find_route (routes : list (string * (http_method * handler))) (req : web_request) :
    bool * option (web web_response) :=
  match routes with
  | [] => (false, None)
  | (pattern, (method, h)) :: routes =>
      match match_path pattern (wr_path req) with
      | Some params =>
          if decide (method = wr_method req) then (true, Some (h params req))
          else (true, (find_route routes req).2)
      | None => find_route routes req
      end
  end.

Definition route (routes : list (string * (http_method * handler))) (req : web_request) : web web_response :=
  match find_route routes req with
  | (_, Some m) => m
  | (true, None) => mret (status_only 405)
  | (false, None) => mret (status_only 404)
  end.

(** The layer around all routes *)
Definition request_metrics (next : web web_response) : web web_response :=
  resp ← next;
  _ ← count (count_http_status_code (ws_status resp));
  mret resp.

(** [router::new]; without the feature [test-utils] there are no [test_routes]. *)
Definition router_new (role : DapRole) (replay_protection : stm St DapError ReplayProtection)
    (seed : list byte) (test_routes : list (string * (http_method * handler))) (req : web_request) :
    web web_response :=
  let routes := aggregator_routes ++
    match role with Role_Leader => leader_routes | Role_Helper => helper_routes replay_protection seed end ++
    test_routes in
  request_metrics (route routes req).
End Routes.

(** ** The Leader's client: [roles/leader.rs] *)

(** A response as [reqwest] sees it. *)
Record web_reply : Type := MkWebReply {
  rp_status : N;
  rp_headers : HeaderMap;
  rp_body : option (list byte);
}.

(** [http.request(method, url).body(..).headers(..).send()]; [None] is an error of [reqwest]. *)
Class HttpClient (W : Type) : Type :=
  http_send : http_method -> Url -> HeaderMap -> list byte -> W -> option web_reply * W.

Section Client.
Context `{AX : Axum} {W : Type} `{HT : HttpClient W}.

(** The header of an optional value. *)
Definition insert_header (name : string) (value : option string) (msg : string) (headers : HeaderMap) :
    res DapError HeaderMap :=
  match value with
  | None => Ok headers
  | Some s => v ← ok_or (header_from_str s) (fatal_logged msg); Ok (header_insert name v headers)
  end.

Definition send_http_headers (req : DapRequest DaphneAuth) : res DapError HeaderMap :=
  content_type ← ok_or (DapRequest_media_type req ≫= fun mt => as_str_for_version mt (DapRequest_version req))
    (Fatal (Text "failed to construct content-type"));
  headers ← insert_header CONTENT_TYPE (Some content_type) "failed to construct content-type header" [];
  headers ← insert_header DAP_AUTH_TOKEN
    (BearerToken_raw <$> (DapRequest_sender_auth req ≫= auth_bearer_token)) "failed to construct {} header" headers;
  insert_header DAP_TASKPROV (DapRequest_taskprov req) "failed to construct dap-taskprov header" headers.

(** [status.is_success()] *)
Definition is_success (status : N) : bool := (200 <=? status) && (status <? 300).

Definition response_media_type (version : DapVersion) (headers : HeaderMap) : option DapMediaType :=
  head (omap (from_str_for_version version) (omap header_to_str (header_get_all CONTENT_TYPE headers))).

Definition read_reply (version : DapVersion) (reply : web_reply) : res DapError DapResponse :=
  if is_success (rp_status reply) then
    media_type ← ok_or (response_media_type version (rp_headers reply))
      (Fatal (Text "peer response is missing media type"));
    payload ← ok_or (rp_body reply) (fatal_logged "failed to read body of helper response");
    Ok (MkDapResponse version media_type payload)
  else
    _ ← (if (rp_status reply =? 400)
            && bool_decide (header_get CONTENT_TYPE (rp_headers reply)
                            = Some (String.list_byte_of_string "application/problem+json"))
         then _ ← ok_or (rp_body reply) (fatal_logged "failed to read body of helper error response"); Ok tt
         else Ok tt);
    Err (Fatal (Text "request aborted by peer")).

(** [req_builder.send().await.map_err(..)] *)
Definition send_request (method : http_method) (url : Url) (headers : HeaderMap) (payload : list byte) :
    stm W DapError web_reply := fun w =>
  let '(r, w) := http_send method url headers payload w in
  (ok_or r (fatal_logged "failed to send request to the helper"), w).

Definition send_http (req : DapRequest DaphneAuth) (method : http_method) (url : Url) :
    stm W DapError DapResponse :=
  headers ← lift (send_http_headers req);
  reply ← send_request method url headers (DapRequest_payload req);
  lift (read_reply (DapRequest_version req) reply).

Definition app_send_http_post (req : DapRequest DaphneAuth) (url : Url) : stm W DapError DapResponse :=
  send_http req POST url.
Definition app_send_http_put (req : DapRequest DaphneAuth) (url : Url) : stm W DapError DapResponse :=
  send_http req PUT url.
End Client.
