(* ===== verification/RouterCorrect.v ===== *)
(** * The HTTP interface carries the protocol

    Every response of the service is accounted for in its metrics and says what became of the
    request ([every_response_counted]); and a request the Leader sends over HTTP is the call
    of the Helper's handler with that request, as the in-memory peer of [System] makes it
    ([peer_over_http]). *)

From Stdlib Require Import Ascii.
From S2P Require Import Prelude Codec Messages TaskprovMessages Errors Config AggShare Hpke.
From S2P Require Import Protocol Pine Taskprov LeaderState Roles Leader Auth Server Router.

(** ** What [axum] and [http] document *)

(** A segment of a route: a literal or a parameter. *)
Inductive segment : Type := Static (s : string) | Param (name : string).

Definition segment_text (g : segment) : string :=
  match g with Static s => s | Param name => String ":" name end.

Definition path_of (parts : list string) : string :=
  foldr (fun p rest => String "/" (String.append p rest)) EmptyString parts.

Definition pattern_of (gs : list segment) : string := path_of (segment_text <$> gs).

(** The characters of which no URL encoding is needed. *)
Definition unreserved (c : ascii) : bool :=
  let n := N_of_ascii c in
  ((48 <=? n) && (n <=? 57)) || ((65 <=? n) && (n <=? 90)) || ((97 <=? n) && (n <=? 122))
  || (n =? 45) || (n =? 95).

Definition plain (s : string) : bool :=
  negb (bool_decide (s = EmptyString)) && forallb unreserved (String.list_ascii_of_string s).

Definition visible (s : string) : bool :=
  forallb (fun c => (32 <=? N_of_ascii c) && (N_of_ascii c <? 127)) (String.list_ascii_of_string s).

(** A literal matches itself, a parameter one segment. *)
Fixpoint match_segments (gs : list segment) (parts : list string) : option (list (string * string)) :=
  match gs, parts with
  | [], [] => Some []
  | Static s :: gs, p :: parts => if String.eqb s p then match_segments gs parts else None
  | Param name :: gs, p :: parts => ((name, p) ::.) <$> match_segments gs parts
  | _, _ => None
  end.

(** A pattern of plain names. *)
Definition segment_plain (g : segment) : bool := match g with Static s | Param s => plain s end.

Definition pattern_plain (gs : list segment) : bool :=
  match gs with [] => false | _ => forallb segment_plain gs end.

Class AxumLaws (AX : Axum) : Prop := {
  match_path_plain gs parts :
    pattern_plain gs = true -> forallb plain parts = true ->
    match_path (pattern_of gs) (path_of parts) = match_segments gs parts;
  header_round_trip s v : header_from_str s = Some v -> header_to_str v = Some s;
  header_bytes s v : header_from_str s = Some v -> v = String.list_byte_of_string s;
  header_visible s : visible s = true -> is_Some (header_from_str s);
  query_param_none key : query_param key "" = Some None;
}.

(** The alphabet of base64url. *)
Class Base64Plain (B : Base64) : Prop :=
  base64_plain bs : bs <> [] -> plain (URL_SAFE_NO_PAD_encode bs) = true.

Lemma header_str `{AX : Axum} {AL : AxumLaws AX} s :
  visible s = true -> exists v, header_from_str s = Some v /\ header_to_str v = Some s.
Proof. intros [v H]%header_visible. exists v. split; [done|]. by apply header_round_trip. Qed.

(** ** Responses *)
Section Responses.
Context `{AX : Axum} {AL : AxumLaws AX} {St : Type}.

Definition problem_json : HeaderMap := [(CONTENT_TYPE, String.list_byte_of_string "application/problem+json")].

(** The response of an error: an abort is the fault of the request, anything else the
    server's, of which nothing is disclosed. *)
Definition error_response (e : DapError) : web_response :=
  match abort_or_fatal e with
  | Ok a => MkWebResponse 400 problem_json (Body_problem (DapAbort_into_problem_details a))
  | _ => MkWebResponse 500 problem_json
           (Body_problem (MkProblemDetails "Internal server error" None None None
              (Text "/problem-details/internal-server-error") None))
  end.

Definition body_problems (b : web_body) : list service_event :=
  match b with Body_problem p => [abort_count_inc (ProblemDetails_title p)] | _ => [] end.

Lemma new_error_eq e (s : service St) :
  new_error e s = (Ok (error_response e),
    MkService (sv_world s) (sv_metrics s ++ body_problems (ws_body (error_response e)))).
Proof. destruct e as [d|a|[]]; reflexivity. Qed.

Lemma media_type_header m version :
  exists v, (as_str_for_version m version ≫= header_from_str) = Some v /\
    (header_to_str v ≫= from_str_for_version version) = Some m.
Proof.
  destruct (media_type_round_trip m version "") as (t & Ht & Hr & _).
  destruct (header_str t) as (v & Hv & Hv'); [destruct m; injection Ht as <-; reflexivity|].
  exists v. rewrite Ht, Hv'. done.
Qed.

Definition success_response (resp : DapResponse) (status : N) (v : list byte) : web_response :=
  MkWebResponse status [(CONTENT_TYPE, v)] (Body_bytes (DapResponse_payload resp)).

Lemma new_success_eq resp status (s : service St) :
  exists v, new_success_with_code resp status s = (Ok (success_response resp status v), s) /\
    (header_to_str v ≫= from_str_for_version (DapResponse_version resp)) = Some (DapResponse_media_type resp).
Proof.
  destruct (media_type_header (DapResponse_media_type resp) (DapResponse_version resp)) as (v & Hv & Hr).
  exists v. split; [|done]. unfold new_success_with_code.
  destruct (as_str_for_version _ _) as [t|]; [|done]. cbn in Hv. by rewrite Hv.
Qed.
End Responses.

(** ** Every response *)
Section Accounting.
Context `{BP : BuildProfile} `{PC : PrioCodec} `{PA : PrioAgg} `{VO : !VdafOps} `{Dg : Digest}
  `{HC : HpkeCrypto} `{HK : Hkdf} `{B64 : Base64} `{UP : UrlParser} `{UJ : UrlJoin} `{PF : PineFields}.
Context `{AX : Axum} {AL : AxumLaws AX} `{SG : Signer} {St : Type}.
Context `{DA : !DapAggregator DaphneAuth St} `{DL : !DapLeader DaphneAuth St} `{DS : !DaphneService St}.
Abbreviation web A := (stm (service St) Empty_set A).

(** A problem document is that of an error of a handler; a text is that of a request that does
    not reach a handler (415 and 422 for a command of the routes for tests), or of a signature
    that is no header value. *)
Definition response_ok (resp : web_response) : Prop :=
  match ws_body resp with
  | Body_problem p => exists e, MkWebResponse (ws_status resp) (ws_headers resp) (ws_body resp) = error_response e
  | Body_text _ => ws_status resp ∈ [400; 415; 422; 500]
  | Body_bytes _ | Body_url _ | Body_json _ => ws_status resp = 200 \/ ws_status resp = 201
  | Body_empty => ws_status resp ∈ [200; 202; 404; 405]
  end.

(** The outcome of a handler that started with the metrics [ms]: a response that is [response_ok]
    and whose problem document, if it has one, was counted. *)
Definition answered (ms : list service_event) (out : res Empty_set web_response * service St) : Prop :=
  match out.1 with
  | Ok resp => response_ok resp /\ sv_metrics out.2 = ms ++ body_problems (ws_body resp)
  | _ => True
  end.

Lemma answered_ret ms resp (s : service St) :
  sv_metrics s = ms -> response_ok resp -> body_problems (ws_body resp) = [] -> answered ms ((mret resp : web web_response) s).
Proof. intros <- H E. split; [done|]. by rewrite E, app_nil_r. Qed.

Lemma answered_error ms e (s : service St) : sv_metrics s = ms -> answered ms (new_error e s).
Proof.
  intros <-. rewrite new_error_eq. unfold answered. cbn [fst snd]. split; [|done].
  unfold response_ok. assert (exists p, ws_body (error_response e) = Body_problem p) as [p Hp]
    by (unfold error_response; case_match; by eexists).
  rewrite Hp. exists e. rewrite <-Hp. by destruct (error_response e).
Qed.

Lemma answered_success ms resp status (s : service St) :
  status = 200 \/ status = 201 -> sv_metrics s = ms ->
  answered ms (new_success_with_code resp status s).
Proof.
  intros Hst <-. destruct (new_success_eq resp status s) as (v & -> & _). split; [by cbn|].
  cbn. by rewrite app_nil_r.
Qed.

Lemma answered_from_result ms r status (s : service St) :
  status = 200 \/ status = 201 -> sv_metrics s = ms ->
  answered ms (from_result_with_success_code r status s).
Proof. intros Hst Hs. destruct r; [by apply answered_success|by apply answered_error|done]. Qed.

Lemma answered_attempt {E A} ms (m : stm (World St) E A) k (s : service St) :
  sv_metrics s = ms -> (forall r s', r <> Panic -> sv_metrics s' = ms -> answered ms (k r s')) ->
  answered ms ((attempt m ≫= k) s).
Proof.
  intros Hs Hk. unfold mbind, stm_bind, attempt. destruct (m (sv_world s)) as [[a|e|] w]; [| |done].
  - by apply Hk.
  - by apply Hk.
Qed.

(** The result of a handler, for every handler: [Ok] by [k], an error by its document. *)
Lemma answered_match {E A} ms (m : stm (World St) E A) (into : E -> DapError) (k : A -> web web_response) (s : service St) :
  sv_metrics s = ms -> (forall a s', sv_metrics s' = ms -> answered ms (k a s')) ->
  answered ms ((r ← attempt m; match r with Ok a => k a | Err e => new_error (into e) | Panic => lift Panic end) s).
Proof.
  intros Hs Hk. apply answered_attempt; [done|]. intros [a|e|] s' Hp Hs'; [by apply Hk|by apply answered_error|done].
Qed.

Lemma extract_media_type_status version headers :
  match extract_media_type version headers with Ok _ => True | Err (st, _) => st = 400 | Panic => False end.
Proof.
  unfold extract_media_type. destruct (header_get CONTENT_TYPE headers) as [v|]; [|done].
  destruct (header_to_str v) as [t|]; cbn; [|done]. by destruct (from_str_for_version version t).
Qed.

Lemma path_params_no_panic params : path_params params <> Panic.
Proof.
  assert (forall n v, id_option_deserialize n v <> Panic) as Hid
    by (intros n [s|]; unfold id_option_deserialize; [by destruct (decode_base64url n s)|done]).
  unfold path_params. case_match; [done|]. apply bind_no_panic; [by destruct (path_get _ _)|]. intros v _.
  apply bind_no_panic; [by destruct (DapVersion_from_str v)|]. intros v' _.
  do 3 (apply bind_no_panic; [apply Hid|]; intros ? _). done.
Qed.

(** What the extraction of a request counts: how it is authorized. *)
Definition auth_events (tok : option BearerToken) (tls : option TlsClientAuth) : list service_event :=
  match tok with Some _ => [auth_method_inc AuthMethod_BearerToken] | None => [] end ++
  match tls with Some _ => [auth_method_inc AuthMethod_TlsClientAuth] | None => [] end.

Lemma count_auths {A} (tok : option BearerToken) (tls : option TlsClientAuth) (k : web A) w ms :
  (_ ← match tok with Some _ => count (auth_method_inc AuthMethod_BearerToken) | None => mret tt end;
   _ ← match tls with Some _ => count (auth_method_inc AuthMethod_TlsClientAuth) | None => mret tt end;
   k) (MkService w ms) = k (MkService w (ms ++ auth_events tok tls)).
Proof.
  destruct tok, tls; unfold mbind, stm_bind, count, modify, auth_events; cbn; by rewrite <-?app_assoc, ?app_nil_r.
Qed.

(** Extraction changes nothing else. *)
Lemma from_request_returns params req w ms :
  exists r tok tls, from_request (St:=St) params req (MkService w ms)
      = (Ok r, MkService w (ms ++ auth_events tok tls)) /\
    match r with Ok _ => True | Err (st, _) => st ∈ [400; 415; 422; 500] | Panic => False end.
Proof.
  unfold from_request. pose proof (path_params_no_panic params) as Hp.
  destruct (path_params params) as [[v t a c]|e|]; [| |done].
  - cbv zeta. rewrite count_auths. pose proof (extract_media_type_status v (wr_headers req)) as Hm.
    destruct (extract_media_type v (wr_headers req)) as [mt|[st tx]|]; [| |done].
    + destruct (wr_body req); eexists _, _, _; (split; [done|]); [done|set_solver].
    + eexists _, _, _. split; [done|]. set_solver.
  - eexists _, None, None. split; [by rewrite app_nil_r|set_solver].
Qed.

Lemma with_request_answered f params req w ms :
  (forall r s' ms', sv_metrics s' = ms' -> answered ms' (f r s')) ->
  exists tok tls, answered (ms ++ auth_events tok tls) (with_request f params req (MkService w ms)).
Proof.
  intros Hf. destruct (from_request_returns params req w ms) as (r & tok & tls & E & Hr). exists tok, tls.
  unfold with_request, mbind, stm_bind. rewrite E. destruct r as [r|[st tx]|]; [by apply Hf| |done].
  by apply answered_ret.
Qed.

Definition handler_answered (h : list (string * string) -> web_request -> web web_response) : Prop :=
  forall params req w ms, exists tok tls, answered (ms ++ auth_events tok tls) (h params req (MkService w ms)).

Lemma text_answered st tx (s : service St) ms :
  st ∈ [400; 415; 422; 500] -> sv_metrics s = ms ->
  answered ms ((mret (text_response st tx) : web web_response) s).
Proof. intros Hst Hs. by apply answered_ret. Qed.

Lemma signed_answered ms resp signed (s : service St) :
  sv_metrics s = ms ->
  answered ms ((r ← new_success resp; mret (append_header HPKE_SIGNATURE signed r) : web web_response) s).
Proof.
  intros Hs. unfold mbind, stm_bind, new_success.
  destruct (new_success_eq resp 200 s) as (v & -> & _). unfold append_header.
  destruct (header_from_str signed); apply answered_ret; try done; cbn; [by left|set_solver].
Qed.

Lemma hpke_config_answered : handler_answered hpke_config.
Proof.
  intros params req w ms. unfold hpke_config.
  assert (forall tx, exists tok tls, answered (ms ++ auth_events tok tls)
    ((mret (text_response 400 tx) : web web_response) (MkService w ms))) as Hbad.
  { intros tx. exists None, None. apply text_answered; [set_solver|by rewrite app_nil_r]. }
  destruct (query_param "task_id" (wr_query req)) as [value|]; [|apply Hbad].
  destruct (id_option_deserialize 32 value) as [task_id| |]; [|apply Hbad..].
  apply with_request_answered. intros r s' ms' Hs'. apply answered_attempt; [done|].
  intros [resp|e|] s2 Hp Hs2; [|by apply answered_error|done].
  unfold mbind at 1, stm_bind at 1, get_state.
  destruct (signing_key (w_store (sv_world s2))) as [k|]; cbn [fmap option_fmap option_map].
  - destruct (sign_dap_response k resp) as [signed|e|]; [by apply signed_answered|by apply answered_error|done].
  - apply answered_success; [by left|done].
Qed.

Lemma agg_job_answered rp : handler_answered (agg_job rp).
Proof.
  intros params req w ms. apply with_request_answered. intros r s' ms' Hs'.
  destruct (DapRequest_media_type r) as [[]|]; try (by apply answered_error).
  apply answered_attempt; [done|]. intros x s2 _ Hs2. apply answered_from_result; [by right|done].
Qed.

Lemma agg_share_answered seed : handler_answered (agg_share seed).
Proof.
  intros params req w ms. apply with_request_answered. intros r s' ms' Hs'.
  apply answered_attempt; [done|]. intros x s2 _ Hs2. apply answered_from_result; [by left|done].
Qed.

Lemma upload_answered : handler_answered upload.
Proof.
  intros params req w ms. apply with_request_answered. intros r s' ms' Hs'.
  apply (answered_match _ _ id); [done|]. intros [] s2 Hs2. apply answered_ret; [done| |done]. set_solver.
Qed.

Lemma get_collect_uri_answered : handler_answered get_collect_uri.
Proof.
  intros params req w ms. apply with_request_answered. intros r s' ms' Hs'.
  apply (answered_match _ _ id); [done|]. intros u s2 Hs2. apply answered_ret; [done|by right|done].
Qed.

Lemma collect_answered : handler_answered collect.
Proof.
  intros params req w ms. apply with_request_answered. intros r s' ms' Hs'.
  destruct (get_task_id r) as [tid|e|]; [|by apply answered_error|done].
  destruct (get_collection_job_id r) as [cid|e|]; [|by apply answered_error|done].
  apply answered_attempt; [done|]. intros [[c| |]|e|] s2 Hp Hs2; [| | |by apply answered_error|done].
  - destruct (get_encoded _ c) as [bs|e|]; [|by apply answered_error|done].
    apply answered_success; [by left|done].
  - apply answered_ret; [done| |done]. set_solver.
  - by apply answered_error.
Qed.

Lemma route_answered routes req w ms :
  Forall (fun r => handler_answered r.2.2) routes ->
  exists tok tls, answered (ms ++ auth_events tok tls) (route routes req (MkService w ms)).
Proof.
  intros Hr. unfold route.
  assert (forall b m, find_route routes req = (b, Some m) ->
    exists tok tls, answered (ms ++ auth_events tok tls) (m (MkService w ms))) as Hfind.
  { induction Hr as [|[pat [meth h]] routes Hh _ IH]; intros b m; cbn; [done|].
    destruct (match_path pat (wr_path req)) as [params|]; [|by apply IH].
    destruct (decide (meth = wr_method req)); [intros [= _ <-]; apply Hh|].
    destruct (find_route routes req) as [b' o] eqn:E. cbn. intros [= _ ->]. by apply (IH b'). }
  destruct (find_route routes req) as [b [m|]]; [destruct b; by eapply Hfind|].
  exists None, None. rewrite app_nil_r. destruct b; (apply answered_ret; [done| |done]; set_solver).
Qed.

(** Any routes for tests whose responses are accounted for. *)
Lemma responses_counted role rp seed test_routes req w ms resp s' :
  Forall (fun r => handler_answered r.2.2) test_routes ->
  router_new role rp seed test_routes req (MkService w ms) = (Ok resp, s') ->
  response_ok resp /\
  exists tok tls, sv_metrics s' = ms ++ auth_events tok tls ++ body_problems (ws_body resp)
    ++ [count_http_status_code (ws_status resp)].
Proof.
  intros Ht. unfold router_new, request_metrics. intros H. apply stm_bind_Ok in H as (r & s1 & Hroute & H).
  apply stm_bind_Ok in H as ([] & s2 & [= <-] & [= <- <-]).
  assert (Forall (fun r => handler_answered r.2.2) (aggregator_routes ++
    match role with Role_Leader => leader_routes | Role_Helper => helper_routes rp seed end ++ test_routes)) as Hall.
  { constructor; [apply hpke_config_answered|]. apply Forall_app. split; [|done]. destruct role; repeat constructor; cbn;
      auto using collect_answered, upload_answered, get_collect_uri_answered, agg_job_answered, agg_share_answered. }
  destruct (route_answered _ req w ms Hall) as (tok & tls & Ha). rewrite Hroute in Ha.
  destruct Ha as [Hok Hm]. split; [done|]. exists tok, tls. cbn in *. by rewrite Hm, <-!app_assoc.
Qed.

(** Every response is counted, and says what became of the request. Whatever request reaches
    the service, in either role, the response is one of: a success (200, 201 or 202), no route
    or method (404, 405), a rejected request (a text), or the problem document of the error of a
    handler, with status 400 exactly if it is an abort and nothing but an internal server error
    otherwise.  The metrics then hold, besides how the request was authorized, the title of the
    problem document if there is one, and the status. *)
Theorem every_response_counted role rp seed req w ms resp s' :
  router_new role rp seed [] req (MkService w ms) = (Ok resp, s') ->
  response_ok resp /\
  exists tok tls, sv_metrics s' = ms ++ auth_events tok tls ++ body_problems (ws_body resp)
    ++ [count_http_status_code (ws_status resp)].
Proof. by apply responses_counted. Qed.
End Accounting.

(** ** Headers *)
Section Headers.
Context `{AX : Axum} {AL : AxumLaws AX}.

Lemma header_get_insert name v headers : header_get name (header_insert name v headers) = Some v.
Proof.
  unfold header_get, header_insert. induction headers as [|[n x] headers IH].
  - cbn. by rewrite bool_decide_eq_true_2.
  - rewrite filter_cons. cbn [fst]. case_decide as Hn; [|done]. cbn [app List.find fst].
    by rewrite bool_decide_eq_false_2 by done.
Qed.

Lemma header_get_insert_ne name name' v headers :
  name <> name' -> header_get name (header_insert name' v headers) = header_get name headers.
Proof.
  intros Hne. unfold header_get, header_insert. induction headers as [|[n x] headers IH].
  - cbn. by rewrite bool_decide_eq_false_2 by (intros E; by destruct Hne).
  - rewrite filter_cons. cbn [fst]. cbn [List.find fst]. case_decide as Hn; cbn [app List.find fst].
    + by case_bool_decide.
    + rewrite bool_decide_eq_false_2; [done|]. intros ->. by destruct Hne.
Qed.

(** A header that is inserted can be read, and leaves the others as they are. *)
Lemma insert_header_reads name value msg headers :
  (forall s, value = Some s -> visible s = true) -> header_get name headers = None ->
  exists headers', insert_header name value msg headers = Ok headers' /\
    extract_header_as_string headers' name = value /\
    forall other, other <> name -> header_get other headers' = header_get other headers.
Proof.
  intros Hv Hn. unfold insert_header, extract_header_as_string. destruct value as [s|].
  - destruct (header_str s (Hv s eq_refl)) as (v & Hf & Ht). rewrite Hf. cbn.
    eexists. split; [done|]. rewrite header_get_insert. split; [done|].
    intros other Ho. by apply header_get_insert_ne.
  - exists headers. by rewrite Hn.
Qed.

(** What the Leader puts into the headers of a request, the Helper reads from them. *)
Lemma send_http_headers_read req mt :
  DapRequest_media_type req = Some mt ->
  (forall t, (DapRequest_sender_auth req ≫= auth_bearer_token) = Some t -> visible (BearerToken_raw t) = true) ->
  (forall t, DapRequest_taskprov req = Some t -> visible t = true) ->
  exists headers, send_http_headers req = Ok headers /\
    extract_media_type (DapRequest_version req) headers = Ok (Some mt) /\
    MkBearerToken <$> extract_header_as_string headers DAP_AUTH_TOKEN
    = (DapRequest_sender_auth req ≫= auth_bearer_token) /\
    extract_header_as_string headers X_CLIENT_CERT_VERIFIED = None /\
    extract_header_as_string headers DAP_TASKPROV = DapRequest_taskprov req.
Proof.
  intros Hmt Htok Htp. unfold send_http_headers. rewrite Hmt. cbn [mbind option_bind].
  destruct (media_type_round_trip mt (DapRequest_version req) "") as (ct & Hct & Hr & _). rewrite Hct.
  cbn [ok_or mbind res_bind].
  destruct (insert_header_reads CONTENT_TYPE (Some ct) "failed to construct content-type header" [])
    as (h1 & E1 & R1 & O1); [intros s [= <-]; destruct mt; injection Hct as <-; reflexivity|done|].
  rewrite E1. cbn [mbind res_bind].
  destruct (insert_header_reads DAP_AUTH_TOKEN
    (BearerToken_raw <$> (DapRequest_sender_auth req ≫= auth_bearer_token)) "failed to construct {} header" h1)
    as (h2 & E2 & R2 & O2); [| |].
  { intros s Hs. apply fmap_Some in Hs as (t & Ht & ->). by apply Htok. }
  { by rewrite O1. }
  rewrite E2. cbn [mbind res_bind].
  destruct (insert_header_reads DAP_TASKPROV (DapRequest_taskprov req)
    "failed to construct dap-taskprov header" h2) as (h3 & E3 & R3 & O3); [done| |].
  { by rewrite O2, O1. }
  exists h3. split; [done|]. unfold extract_media_type, extract_header_as_string in *.
  split_and!; [| | |done].
  - rewrite O3, O2 by done. destruct (header_get CONTENT_TYPE h1) as [v|]; [|done]. cbn in R1.
    rewrite R1. cbn. by rewrite Hr.
  - rewrite O3, R2 by done. by destruct (DapRequest_sender_auth req ≫= auth_bearer_token) as [[raw]|].
  - by rewrite O3, O2, O1.
Qed.
End Headers.

(** ** The Helper over HTTP *)

(** [serde_json] and texts: the bytes of a body. *)
Class WebJson : Type := body_bytes : web_body -> list byte.

Section Peer.
Context `{BP : BuildProfile} `{PC : PrioCodec} `{PA : PrioAgg} `{VO : !VdafOps} `{Dg : Digest}
  `{HC : HpkeCrypto} `{HK : Hkdf} `{B64 : Base64} {BL : Base64Laws B64} {B64P : Base64Plain B64}
  `{UP : UrlParser} `{UJ : UrlJoin} `{PF : PineFields} `{UPa : UrlPath} `{WJ : WebJson}.
Context `{AX : Axum} {AL : AxumLaws AX} `{SG : Signer} {St : Type}.
Context `{DA : !DapAggregator DaphneAuth St} `{DL : !DapLeader DaphneAuth St} `{DS : !DaphneService St}.
Context (rp : stm St DapError ReplayProtection) (seed : list byte).
Context (test_routes : list (string * (http_method *
  (list (string * string) -> web_request -> stm (service St) Empty_set web_response)))).

(** A response as the Leader gets it; a panic of the handler closes the connection. *)
Definition as_reply (r : res Empty_set web_response) : option web_reply :=
  match r with
  | Ok resp => Some (MkWebReply (ws_status resp) (ws_headers resp)
                       (Some match ws_body resp with Body_bytes bs => bs | b => body_bytes b end))
  | _ => None
  end.

(** The network between a client and a service: a request is handled by the router. *)
Definition router_network (role : DapRole) : HttpClient (service St) := fun method url headers body s =>
  let '(r, s) := router_new role rp seed test_routes
    (MkWebRequest method (url_path url) (url_query url) headers (Some body)) s in (as_reply r, s).

#[local] Instance helper_network : HttpClient (service St) := router_network Role_Helper.

(** The requests of the Leader, with the path they are sent to and the handler they are for. *)
Inductive helper_call (req : DapRequest DaphneAuth) :
    http_method -> list string -> stm (World St) DapError DapResponse -> Prop :=
| call_agg_job tid jid :
    DapRequest_media_type req = Some MT_AggregationJobInitReq ->
    DapRequest_task_id req = Some tid -> len tid = 32 ->
    DapRequest_resource req = AggregationJob jid -> len jid = 16 ->
    helper_call req PUT
      [DapVersion_as_ref (DapRequest_version req); "tasks"; encode_base64url tid; "aggregation_jobs";
       encode_base64url jid]%string
      (replay_protection ← call rp; handle_agg_job_init_req req replay_protection)
| call_agg_share tid :
    DapRequest_media_type req = Some MT_AggregateShareReq ->
    DapRequest_task_id req = Some tid -> len tid = 32 -> DapRequest_resource req = Undefined ->
    helper_call req POST
      [DapVersion_as_ref (DapRequest_version req); "tasks"; encode_base64url tid; "aggregate_shares"]%string
      (handle_agg_share_req seed req).

Lemma id_plain n id : len id = n -> 0 < n -> plain (encode_base64url id) = true.
Proof. intros <- Hn. apply base64_plain. by intros ->. Qed.

Lemma id_decodes n id : len id = n -> decode_base64url n (encode_base64url id) = Some id.
Proof.
  intros <-. unfold decode_base64url, encode_base64url. rewrite base64_round_trip, N.eqb_refl. done.
Qed.

Lemma version_plain v : plain (DapVersion_as_ref v) = true.
Proof. by destruct v. Qed.

(** The handler of a result: what the Leader reads, and what the Helper counts. *)
Definition peer_result (version : DapVersion) (r : res DapError DapResponse) : res DapError DapResponse :=
  match r with
  | Ok resp => Ok (MkDapResponse version (DapResponse_media_type resp) (DapResponse_payload resp))
  | Err _ => Err (Fatal (Text "request aborted by peer"))
  | Panic => Err (fatal_logged "failed to send request to the helper")
  end.

Abbreviation routes := (aggregator_routes ++ helper_routes rp seed ++ test_routes).

(** The route of a path that is written in segments. *)
Lemma find_route_segments gs pattern method h rest req parts :
  pattern_plain gs = true -> pattern = pattern_of gs -> wr_path req = path_of parts -> forallb plain parts = true ->
  find_route ((pattern, (method, h)) :: rest) req
  = match match_segments gs parts with
    | Some params =>
        if decide (method = wr_method req) then (true, Some (h params req))
        else (true, (find_route (St:=St) rest req).2)
    | None => find_route rest req
    end.
Proof. intros Hg -> Hp Hpl. cbn [find_route]. by rewrite Hp, match_path_plain. Qed.

(** Evaluate the comparison of names. *)
Ltac compare_names :=
  repeat match goal with
  | |- context [bool_decide (?a = ?b :> string)] =>
      let c := eval vm_compute in (bool_decide (a = b :> string)) in
      change (bool_decide (a = b :> string)) with c
  end; cbn -[decode_base64url encode_base64url DapVersion_from_str DapVersion_as_ref].

(** Whether the first route is that of a plain path. *)
Ltac route_step gs wreq parts Hpl :=
  let pattern := eval vm_compute in (pattern_of gs) in
  rewrite (find_route_segments gs pattern _ _ _ wreq parts eq_refl eq_refl eq_refl Hpl);
  unfold parts; cbn [match_segments String.eqb Ascii.eqb Bool.eqb fmap option_fmap option_map];
  rewrite ?decide_True by done.

Lemma path_params_of version tid (jid : option AggregationJobId) :
  len tid = 32 -> (forall id, jid = Some id -> len id = 16) ->
  path_params ([("version"%string, DapVersion_as_ref version); ("task_id"%string, encode_base64url tid)]
    ++ match jid with Some id => [("agg_job_id"%string, encode_base64url id)] | None => [] end)
  = Ok (MkPathParams version (Some tid) jid None).
Proof.
  intros Lt Lj. unfold path_params.
  destruct jid as [jid|]; cbn [app forallb fst]; rewrite !bool_decide_eq_true_2 by set_solver;
    unfold path_get; cbn [List.find fst negb andb]; compare_names; rewrite version_from_as_ref; compare_names;
    rewrite (id_decodes 32 tid Lt); compare_names; [rewrite (id_decodes 16 jid (Lj jid eq_refl))|]; done.
Qed.

(** The route of a request for an aggregate share *)
Lemma agg_share_routed version tid query headers body :
  len tid = 32 ->
  let wreq := MkWebRequest POST (path_of [DapVersion_as_ref version; "tasks"; encode_base64url tid; "aggregate_shares"]%string)
    query headers (Some body) in
  exists params, route routes wreq = agg_share seed params wreq /\
    path_params params = Ok (MkPathParams version (Some tid) None None).
Proof.
  intros Ltid wreq. unfold route, aggregator_routes, helper_routes. cbn [app].
  set (parts := _ : list string) in wreq. assert (forallb plain parts = true) as Hpl
    by (cbn [parts forallb]; rewrite version_plain, ?(id_plain 32) by done; done).
  route_step [Param "version"; Static "hpke_config"] wreq parts Hpl.
  route_step [Param "version"; Static "tasks"; Param "task_id"; Static "aggregation_jobs";
    Param "agg_job_id"] wreq parts Hpl.
  route_step [Param "version"; Static "tasks"; Param "task_id"; Static "aggregate_shares"] wreq parts Hpl.
  eexists. split; [reflexivity|]. by apply (path_params_of _ tid None).
Qed.

(** A request of the Leader is routed to its handler. *)
Lemma helper_call_routed req method parts query h headers body :
  helper_call req method parts h ->
  let wreq := MkWebRequest method (path_of parts) query headers (Some body) in
  exists params k agg_job_id status,
    route routes wreq = with_request k params wreq /\
    path_params params = Ok (MkPathParams (DapRequest_version req) (DapRequest_task_id req) agg_job_id None) /\
    extract_resource (DapRequest_media_type req) agg_job_id None = DapRequest_resource req /\
    k req = (r ← attempt h; from_result_with_success_code r status) /\ (status = 200 \/ status = 201).
Proof.
  intros Hc wreq. unfold route, aggregator_routes, helper_routes. cbn [app].
  destruct Hc as [tid jid Hmt Htid Ltid Hres Ljid|tid Hmt Htid Ltid Hres];
    set (parts := _ : list string) in wreq; assert (forallb plain parts = true) as Hpl
      by (cbn [parts forallb]; rewrite version_plain, ?(id_plain 32), ?(id_plain 16) by done; done).
  all: route_step [Param "version"; Static "hpke_config"] wreq parts Hpl.
  all: route_step [Param "version"; Static "tasks"; Param "task_id"; Static "aggregation_jobs";
    Param "agg_job_id"] wreq parts Hpl.
  - eexists _, _, (Some jid), 201. split; [reflexivity|].
    split; [|split; [by rewrite Hmt, Hres|split; [by rewrite Hmt|by right]]].
    rewrite Htid. apply (path_params_of _ tid (Some jid)); [done|by intros id [= <-]].
  - route_step [Param "version"; Static "tasks"; Param "task_id"; Static "aggregate_shares"] wreq parts Hpl.
    eexists _, _, None, 200. split; [reflexivity|].
    split; [|split; [by rewrite Hmt, Hres|split; [done|by left]]].
    rewrite Htid. by apply (path_params_of _ tid None).
Qed.

Lemma read_success version resp status v :
  status = 200 \/ status = 201 ->
  (header_to_str v ≫= from_str_for_version (DapResponse_version resp)) = Some (DapResponse_media_type resp) ->
  read_reply version (MkWebReply status [(CONTENT_TYPE, v)] (Some (DapResponse_payload resp)))
  = peer_result version (Ok resp).
Proof.
  intros Hst Hv. unfold read_reply, response_media_type, header_get_all.
  cbn [rp_status rp_headers rp_body].
  replace (is_success status) with true by (destruct Hst as [-> | ->]; done).
  rewrite filter_cons_True, filter_nil by done. cbn [fmap list_fmap omap list_omap snd].
  destruct (header_to_str v) as [t|]; [|done]. cbn [mbind option_bind] in Hv. cbn [omap list_omap].
  change (from_str_for_version version t) with (from_str_for_version (DapResponse_version resp) t).
  by rewrite Hv.
Qed.

Lemma read_error version e bs :
  read_reply version (MkWebReply (ws_status (error_response e)) (ws_headers (error_response e)) (Some bs))
  = Err (Fatal (Text "request aborted by peer")).
Proof.
  unfold error_response. destruct (abort_or_fatal e); unfold read_reply; cbn -[String.list_byte_of_string];
    by try case_bool_decide.
Qed.

(** The answer of the Helper to a request it has extracted, and what the Leader reads. *)
Lemma reply_read version (h : stm (World St) DapError DapResponse) status (s : service St) :
  status = 200 \/ status = 201 ->
  let '(r, w) := h (sv_world s) in
  exists out events,
    request_metrics (r ← attempt h; from_result_with_success_code r status) s
    = (out, MkService w (sv_metrics s ++ events)) /\
    (reply ← ok_or (as_reply out) (fatal_logged "failed to send request to the helper"); read_reply version reply)
    = peer_result version r.
Proof.
  intros Hst. unfold request_metrics, mbind, stm_bind, attempt.
  destruct (h (sv_world s)) as [[resp|e|] w]; cbn [from_result_with_success_code].
  - destruct (new_success_eq resp status (MkService w (sv_metrics s))) as (v & -> & Hv).
    eexists _, _. split; [reflexivity|]. by apply read_success.
  - rewrite new_error_eq. eexists _, _. split; [cbn; by rewrite <-app_assoc|].
    cbn [as_reply ok_or res_bind]. apply read_error.
  - exists Panic, []. split; [by rewrite app_nil_r|done].
Qed.

(** The Helper extracts the request the Leader sent. *)
Lemma request_extracted req params wreq headers jid tok w ms :
  path_params params = Ok (MkPathParams (DapRequest_version req) (DapRequest_task_id req) jid None) ->
  wr_headers wreq = headers -> wr_body wreq = Some (DapRequest_payload req) ->
  extract_media_type (DapRequest_version req) headers = Ok (DapRequest_media_type req) ->
  MkBearerToken <$> extract_header_as_string headers DAP_AUTH_TOKEN = tok ->
  extract_header_as_string headers X_CLIENT_CERT_VERIFIED = None ->
  extract_header_as_string headers DAP_TASKPROV = DapRequest_taskprov req ->
  extract_resource (DapRequest_media_type req) jid None = DapRequest_resource req ->
  DapRequest_sender_auth req = Some (MkDaphneAuth tok None) ->
  from_request (St:=St) params wreq (MkService w ms)
  = (Ok (Ok req), MkService w (ms ++ auth_events tok None)).
Proof.
  intros Epp Eh Eb Em Et Ec Ep Eres Hauth. unfold from_request. rewrite Epp. cbv zeta.
  rewrite Eh, Et, Ec. change (MkTlsClientAuth <$> None) with (@None TlsClientAuth).
  rewrite count_auths, Em, Eb, Ep, Eres, <-Hauth. by destruct req.
Qed.

(** C21: a request over HTTP is a call of the Helper. For a request of the Leader for an aggregation
    job or for an aggregate share, sent to the path of its task and job, with a token and a
    Taskprov advertisement that can be written as headers: what the Leader reads is what the
    Helper's handler returns for that very request, with media type and payload; when the
    handler fails, the Leader learns that the peer aborted, and nothing else.  The Helper's
    state is the one the handler leaves. *)
Theorem peer_over_http req method url parts h tok w ms :
  helper_call req method parts h -> url_path url = path_of parts ->
  DapRequest_sender_auth req = Some (MkDaphneAuth tok None) ->
  (forall t, tok = Some t -> visible (BearerToken_raw t) = true) ->
  (forall t, DapRequest_taskprov req = Some t -> visible t = true) ->
  let '(r, w') := h w in
  exists events,
    send_http (HT:=helper_network) req method url (MkService w ms)
    = (peer_result (DapRequest_version req) r, MkService w' (ms ++ events)).
Proof.
  intros Hc Hurl Hauth Htok Htp.
  assert (exists mt, DapRequest_media_type req = Some mt) as [mt Hmt] by (destruct Hc; by eexists).
  destruct (send_http_headers_read req mt Hmt) as (headers & Eh & Em & Et & Ec & Ep);
    [by rewrite Hauth|done|].
  destruct (helper_call_routed req method parts (url_query url) h headers (DapRequest_payload req) Hc)
    as (params & k & jid & status & Er & Epp & Eres & Ek & Hst).
  pose proof (reply_read (DapRequest_version req) h status
    (MkService w (ms ++ auth_events tok None)) Hst) as Hreply. cbn [sv_world sv_metrics] in Hreply.
  destruct (h w) as [r w']. destruct Hreply as (out & events & Eout & Hread).
  exists (auth_events tok None ++ events). unfold send_http, send_request, mbind, stm_bind, lift.
  rewrite Eh. unfold http_send, helper_network, router_network, router_new. rewrite Hurl.
  assert (request_metrics (route routes (MkWebRequest method (path_of parts) (url_query url) headers
    (Some (DapRequest_payload req)))) (MkService w ms)
    = (out, MkService w' (ms ++ auth_events tok None ++ events))) as ->.
  { rewrite Er, app_assoc, <-Eout, <-Ek. unfold request_metrics, with_request, mbind, stm_bind.
    rewrite (request_extracted req params _ headers jid tok w ms Epp); try done; [by rewrite Hmt|by rewrite Et, Hauth]. }
  destruct (as_reply out) as [reply|]; cbn in Hread |- *; by rewrite Hread.
Qed.
End Peer.
