(* ===== verification/Metrics.v ===== *)
(** * Prometheus metrics

    The metrics of the program as they are exported: [DaphnePromMetrics]
    ([src/crates/daphne/src/metrics.rs]), [DaphnePromServiceMetrics]
    ([src/crates/daphne-service-utils/src/metrics.rs]) and the metrics of the storage proxy
    ([src/crates/daphne-worker/src/storage_proxy/metrics.rs]).  The handlers record the calls on
    the traits as [metric_event] and [service_event]; here every call is what it does to the
    collectors of a registry.

    The crate [prometheus] is the class [Prometheus], over the state [P] of a registry and its
    collectors. *)

From stdpp Require Import pretty.
From S2P Require Import Prelude Messages Errors Protocol Pine PineField PineEncoding Router.

(** ** [prometheus] *)

(** A collector without labels has the empty list of labels; a histogram without buckets of its
    own has the default ones. *)
Class Prometheus (P : Type) : Type := {
  Collector : Type;
  PromError : Type;
  exponential_buckets : f64 -> f64 -> N -> option (list f64);
  (** the name, the help and the labels *)
  register_int_counter_vec_with_registry : string -> string -> list string -> stm P PromError Collector;
  register_histogram_vec_with_registry :
    string -> string -> option (list f64) -> list string -> stm P PromError Collector;
  (** [with_label_values(..).inc_by(..)] and [with_label_values(..).observe(..)] *)
  inc_by : Collector -> list string -> N -> stm P Empty_set unit;
  histogram_observe : Collector -> list string -> f64 -> stm P Empty_set unit;
}.

Section Prom.
Context {P : Type} `{PR : Prometheus P}.

(** [.inc()] *)
Definition counter_inc (c : Collector) (labels : list string) : stm P Empty_set unit := inc_by c labels 1.

(** [.map_err(|e| fatal_error!(err = ?e, msg))] *)
Definition fatal_on {A} (msg : string) (m : stm P PromError A) : stm P DapError A := fun p =>
  let '(r, p) := m p in (map_err (fun _ => fatal_logged msg) r, p).

(** ** [daphne] *)
Record DaphnePromMetrics : Type := MkDaphnePromMetrics {
  inbound_request_counter : Collector;
  report_counter : Collector;
  aggregation_job_counter : Collector;
  aggregation_job_batch_size_histogram : Collector;
  aggregation_job_put_span_retry_counter : Collector;
}.

Definition batch_size_buckets : res DapError (list f64) :=
  match exponential_buckets (f64_of_u64 1) (f64_of_u64 2) 8 with
  | Some buckets => Ok buckets
  | None => Panic
  end.

Definition DaphnePromMetrics_register : stm P DapError DaphnePromMetrics :=
  inbound_request_counter ← fatal_on "failed to regsiter inbound_request_counter"
    (register_int_counter_vec_with_registry "inbound_request_counter"
       "Total number of successful inbound requests." ["type"%string]);
  report_counter ← fatal_on "failed to register report_counter"
    (register_int_counter_vec_with_registry "report_counter"
       "Total number reports rejected, aggregated, and collected." ["status"%string]);
  buckets ← lift batch_size_buckets;
  aggregation_job_batch_size_histogram ← fatal_on "failed to register aggregation_job_batch_size"
    (register_histogram_vec_with_registry "aggregation_job_batch_size"
       "Number of records in an incoming AggregationJobInitReq." (Some buckets) []);
  aggregation_job_counter ← fatal_on "failed to register aggregation_job_counter"
    (register_int_counter_vec_with_registry "aggregation_job_counter"
       "Total number of aggregation jobs started and completed." ["status"%string]);
  aggregation_job_put_span_retry_counter ←
    fatal_on "failed to register aggregation_job_put_span_retry_counter"
    (register_int_counter_vec_with_registry "aggregation_job_put_span_retry_counter"
       "Total number of times the aggregation continuation was restarted due to replayed reports" []);
  mret (MkDaphnePromMetrics inbound_request_counter report_counter aggregation_job_counter
          aggregation_job_batch_size_histogram aggregation_job_put_span_retry_counter).

Definition request_type_str (request_type : DaphneRequestType) : string :=
  match request_type with
  | RT_HpkeConfig => "hpke_config"
  | RT_Upload => "upload"
  | RT_Aggregate => "aggregate"
  | RT_Collect => "collect"
  end.

(** [impl DaphneMetrics for DaphnePromMetrics] *)
Definition prom_metric (self : DaphnePromMetrics) (e : metric_event) : stm P Empty_set unit :=
  match e with
  | inbound_req_inc request_type =>
      counter_inc (inbound_request_counter self) [request_type_str request_type]
  | report_inc_by status val => inc_by (report_counter self) [ReportStatus_to_string status] val
  | agg_job_observe_batch_size val =>
      histogram_observe (aggregation_job_batch_size_histogram self) [] (f64_of_u64 val)
  | agg_job_started_inc => counter_inc (aggregation_job_counter self) ["started"%string]
  | agg_job_completed_inc => counter_inc (aggregation_job_counter self) ["completed"%string]
  | agg_job_put_span_retry_inc => counter_inc (aggregation_job_put_span_retry_counter self) []
  end.

(** ** [daphne-service-utils] *)
Record DaphnePromServiceMetrics : Type := MkDaphnePromServiceMetrics {
  service_daphne : DaphnePromMetrics;
  http_status_code_counter : Collector;
  dap_abort_counter : Collector;
  auth_method_counter : Collector;
}.

Definition DaphnePromServiceMetrics_register : stm P DapError DaphnePromServiceMetrics :=
  http_status_code_counter ← fatal_on "failed to register http_status_code"
    (register_int_counter_vec_with_registry "http_status_code" "HTTP response status code." ["code"%string]);
  dap_abort_counter ← fatal_on "failed to register dap_abort"
    (register_int_counter_vec_with_registry "dap_abort" "DAP aborts." ["reason"%string]);
  auth_method ← fatal_on "failed to register dap_abort"
    (register_int_counter_vec_with_registry "auth_method" "The authentication method used" ["method"%string]);
  daphne ← DaphnePromMetrics_register;
  mret (MkDaphnePromServiceMetrics daphne http_status_code_counter dap_abort_counter auth_method).

(** [impl DaphneServiceMetrics for DaphnePromServiceMetrics] *)
Definition prom_service (self : DaphnePromServiceMetrics) (e : service_event) : stm P Empty_set unit :=
  match e with
  | abort_count_inc label => counter_inc (dap_abort_counter self) [label]
  | count_http_status_code status_code =>
      counter_inc (http_status_code_counter self) [pretty status_code]
  | auth_method_inc method => counter_inc (auth_method_counter self) [auth_method_label method]
  end.

(** A call of either trait; those of [DaphneMetrics] are delegated. *)
Definition prom_call (self : DaphnePromServiceMetrics) (e : metric_event + service_event) :
    stm P Empty_set unit :=
  match e with
  | inl e => prom_metric (service_daphne self) e
  | inr e => prom_service self e
  end.

(** Calls one after the other. *)
Fixpoint prom_calls (self : DaphnePromServiceMetrics) (es : list (metric_event + service_event)) :
    stm P Empty_set unit :=
  match es with
  | [] => mret tt
  | e :: es => _ ← prom_call self e; prom_calls self es
  end.

(** ** [daphne-worker]: the storage proxy *)
Record ProxyMetrics : Type := MkProxyMetrics {
  durable_request_retry_count : Collector;
  durable_request_time_seconds : Collector;
  kv_request_time_seconds : Collector;
}.

(** [.unwrap()] of a registration *)
Definition unwrap_on {E A} (m : stm P PromError A) : stm P E A := fun p =>
  match m p with
  | (Ok a, p) => (Ok a, p)
  | (_, p) => (Panic, p)
  end.

Definition Metrics_new {E} : stm P E ProxyMetrics :=
  durable_request_retry_count ← unwrap_on
    (register_int_counter_vec_with_registry "durable_request_retry_count"
       "The number of times a request to a durable object was retried. count = -1 means the number of retries was exhausted"
       ["count"; "object"; "path"]%string);
  durable_request_time_seconds ← unwrap_on
    (register_histogram_vec_with_registry "durable_request_time_seconds"
       "Histogram of durable object request timings" None ["uri"; "outcome"]%string);
  kv_request_time_seconds ← unwrap_on
    (register_histogram_vec_with_registry "kv_request_time_seconds"
       "Histogram of KV request timings" None ["op"; "status"]%string);
  mret (MkProxyMetrics durable_request_retry_count durable_request_time_seconds kv_request_time_seconds).

Definition durable_request_retry_count_inc (self : ProxyMetrics) (number_of_retries : Z)
    (object path : string) : stm P Empty_set unit :=
  counter_inc (durable_request_retry_count self) [pretty number_of_retries; object; path].

(** [Duration::as_secs_f64] of a duration in milliseconds: the seconds, and the nanoseconds of the
    rest over [10^9] *)
Definition f64_add (x y : f64) : f64 := SpecFloat.SFadd 53 1024 x y.

Definition as_secs_f64 (millis : N) : f64 :=
  f64_add (f64_of_u64 (millis / 1000))
    (f64_div (f64_of_u64 (millis mod 1000 * 1000000)) (f64_of_u64 1000000000)).

Definition durable_request_time_seconds_observe (self : ProxyMetrics) (uri status : string) (time : N) :
    stm P Empty_set unit :=
  histogram_observe (durable_request_time_seconds self) [uri; status] (as_secs_f64 time).

Definition kv_request_time_seconds_observe (self : ProxyMetrics) (op status : string) (time : N) :
    stm P Empty_set unit :=
  histogram_observe (kv_request_time_seconds self) [op; status] (as_secs_f64 time).
End Prom.
Arguments DaphnePromMetrics P {PR}.
Arguments DaphnePromServiceMetrics P {PR}.
Arguments ProxyMetrics P {PR}.
