(* ===== verification/MetricsCorrect.v ===== *)
(** * What is exported is what was recorded

    The collectors of [Metrics] count the calls of the handlers: every counter is the number of
    its events, under a label of its own ([exported_counts]); and the counters of the service are
    those of the responses it gave ([exported_responses]).  A registry takes the metrics once
    ([registered_once]). *)

From stdpp Require Import pretty.
From S2P Require Import Prelude Codec Messages TaskprovMessages Errors Config AggShare Hpke.
From S2P Require Import Protocol Pine PineField PineEncoding Taskprov LeaderState Roles Leader Auth Server.
From S2P Require Import Router RouterCorrect Metrics.

(** ** What [prometheus] documents *)

(** Names of metrics and labels: letters, digits and underscores, the first not a digit. *)
Definition name_char (c : Ascii.ascii) : bool :=
  let n := Ascii.N_of_ascii c in
  ((97 <=? n) && (n <=? 122)) || ((65 <=? n) && (n <=? 90)) || (n =? 95).

Definition prom_name (s : string) : bool :=
  match String.list_ascii_of_string s with
  | [] => false
  | c :: cs => name_char c && forallb (fun c => name_char c || ((48 <=? Ascii.N_of_ascii c) && (Ascii.N_of_ascii c <=? 57))) cs
  end.

Fixpoint no_repeats (ss : list string) : bool :=
  match ss with
  | [] => true
  | s :: ss => negb (existsb (String.eqb s) ss) && no_repeats ss
  end.

Definition prom_desc (name : string) (labels : list string) : bool :=
  prom_name name && forallb prom_name labels && no_repeats labels.

(** The names that are registered, the number of labels of a collector, and what it exports. *)
Class PrometheusView {P} (PR : Prometheus P) : Type := {
  names : P -> gset string;
  arity : P -> Collector -> option nat;
  counter_value : P -> Collector -> list string -> N;
  samples : P -> Collector -> list string -> list f64;
  Collector_eq_dec :: EqDecision Collector;
}.

(** A new collector, which has no values; the others stay. *)
Record registered `{PV : PrometheusView P} (name : string) (labels : list string) (p : P) (c : Collector) (p' : P) :
    Prop := {
  reg_names : names p' = {[name]} ∪ names p;
  reg_new : arity p c = None;
  reg_arity : arity p' c = Some (length labels);
  reg_others c' : c' <> c -> arity p' c' = arity p c';
  reg_empty ls : counter_value p' c ls = 0 /\ samples p' c ls = [];
  reg_values c' ls : c' <> c ->
    counter_value p' c' ls = counter_value p c' ls /\ samples p' c' ls = samples p c' ls;
}.

(** What a change of a value leaves alone. *)
Definition same_registry `{PV : PrometheusView P} (p p' : P) : Prop :=
  names p' = names p /\ forall c, arity p' c = arity p c.

Class PrometheusLaws `{PV : PrometheusView P} : Prop := {
  register_counter_law name help labels p :
    prom_desc name labels = true -> name ∉ names p ->
    exists c p', register_int_counter_vec_with_registry name help labels p = (Ok c, p') /\
      registered name labels p c p';
  register_histogram_law name help buckets labels p :
    prom_desc name labels = true -> name ∉ names p ->
    (forall bs, buckets = Some bs -> exists start factor n, exponential_buckets start factor n = Some bs) ->
    exists c p', register_histogram_vec_with_registry name help buckets labels p = (Ok c, p') /\
      registered name labels p c p';
  (** A name is registered once. *)
  register_counter_taken name help labels p :
    name ∈ names p -> exists e, register_int_counter_vec_with_registry name help labels p = (Err e, p);
  register_histogram_taken name help buckets labels p :
    name ∈ names p -> exists e, register_histogram_vec_with_registry name help buckets labels p = (Err e, p);

  (** A counter has 64 bits and wraps around; values for another number of labels are refused. *)
  counter_value_bound p c ls : counter_value p c ls < 2 ^ 64;
  inc_by_law c ls v p :
    arity p c = Some (length ls) -> v < 2 ^ 64 ->
    exists p', inc_by c ls v p = (Ok tt, p') /\ same_registry p p' /\
      counter_value p' c ls = (counter_value p c ls + v) mod 2 ^ 64 /\
      (forall c' ls', (c', ls') <> (c, ls) -> counter_value p' c' ls' = counter_value p c' ls') /\
      (forall c' ls', samples p' c' ls' = samples p c' ls');
  inc_by_arity c ls v p n : arity p c = Some n -> n <> length ls -> (inc_by c ls v p).1 = Panic;
  observe_law c ls x p :
    arity p c = Some (length ls) ->
    exists p', histogram_observe c ls x p = (Ok tt, p') /\ same_registry p p' /\
      samples p' c ls = samples p c ls ++ [x] /\
      (forall c' ls', (c', ls') <> (c, ls) -> samples p' c' ls' = samples p c' ls') /\
      (forall c' ls', counter_value p' c' ls' = counter_value p c' ls');
  (** Exponential buckets: from a positive start, each [factor] times the one before. *)
  exponential_buckets_law start factor n :
    f64_lt f64_zero start = true -> f64_lt (f64_of_u64 1) factor = true -> n <> 0 ->
    exponential_buckets start factor n
      = Some ((fun k => Nat.iter k (fun x => f64_mul x factor) start) <$> seq 0 (N.to_nat n));
}.

Section Exported.
Context {P : Type} `{PR : Prometheus P} `{PV : !PrometheusView PR} {PL : PrometheusLaws}.

(** ** Registration *)

(** Collectors of a registry, with their numbers of labels, that have no values yet. *)
Record unused (p : P) (cs : list (Collector * nat)) : Prop := {
  unused_distinct : NoDup cs.*1;
  unused_arity c n : (c, n) ∈ cs -> arity p c = Some n;
  unused_empty c n ls : (c, n) ∈ cs -> counter_value p c ls = 0 /\ samples p c ls = [];
}.

Lemma unused_nil p : unused p [].
Proof. split; [constructor|set_solver|set_solver]. Qed.

Lemma registered_unused name labels p c p' cs :
  unused p cs -> registered name labels p c p' -> unused p' ((c, length labels) :: cs).
Proof.
  intros [Hd Ha He] [_ Hn Hc Ho Hz Hv].
  assert (forall c' n, (c', n) ∈ cs -> c' <> c) as Hne
    by (intros c' n Hin ->; apply Ha in Hin; congruence).
  split.
  - cbn. constructor; [|done]. intros ([c' n] & -> & Hin)%list_elem_of_fmap. by eapply Hne.
  - intros c' n [[= -> ->]|Hin]%elem_of_cons; [done|]. rewrite Ho by by eapply Hne. by apply Ha.
  - intros c' n ls [[= -> ->]|Hin]%elem_of_cons; [done|].
    destruct (Hv c' ls) as [-> ->]; [by eapply Hne|]. by eapply He.
Qed.

(** In the middle of a registration that started at [p0]: the names that are registered and those
    that are still to be. *)
Record registering (p0 : P) (taken todo : list string) (cs : list (Collector * nat)) (p : P) : Prop := {
  ring_unused : unused p cs;
  ring_names : names p = list_to_set taken ∪ names p0;
  ring_todo : Forall (fun n => n ∉ names p) todo;
  ring_distinct : NoDup todo;
}.

Lemma registering_next p0 taken todo cs p name labels c p' :
  registering p0 taken (name :: todo) cs p -> registered name labels p c p' ->
  registering p0 (name :: taken) todo ((c, length labels) :: cs) p'.
Proof.
  intros [Hu Hn [_ Ht]%Forall_cons [Hx Hd]%NoDup_cons] Hr. split; [by eapply registered_unused| | |done].
  - rewrite (reg_names _ _ _ _ _ Hr), Hn. cbn. set_solver.
  - rewrite (reg_names _ _ _ _ _ Hr). rewrite Forall_forall in *. intros n Hin. specialize (Ht n Hin).
    assert (n <> name) by congruence. set_solver.
Qed.

Section Steps.
Context {A : Type} (msg name help : string) (labels : list string) (k : Collector -> stm P DapError A).
Context (p0 : P) (taken todo : list string) (cs : list (Collector * nat)) (p : P).

Lemma fatal_counter :
  registering p0 taken (name :: todo) cs p -> prom_desc name labels = true ->
  exists c p', registering p0 (name :: taken) todo ((c, length labels) :: cs) p' /\
    (fatal_on msg (register_int_counter_vec_with_registry name help labels) ≫= k) p = k c p'.
Proof using PL.
  intros Hr Hd. destruct (register_counter_law name help labels p Hd) as (c & p' & E & Hr').
  { pose proof (ring_todo _ _ _ _ _ Hr) as [? _]%Forall_cons. done. }
  exists c, p'. split; [by eapply registering_next|]. unfold mbind, stm_bind, fatal_on. by rewrite E.
Qed.

Lemma fatal_histogram bs start factor n :
  registering p0 taken (name :: todo) cs p -> prom_desc name labels = true ->
  exponential_buckets start factor n = Some bs ->
  exists c p', registering p0 (name :: taken) todo ((c, length labels) :: cs) p' /\
    (fatal_on msg (register_histogram_vec_with_registry name help (Some bs) labels) ≫= k) p = k c p'.
Proof using PL.
  intros Hr Hd Hb. destruct (register_histogram_law name help (Some bs) labels p Hd) as (c & p' & E & Hr').
  { pose proof (ring_todo _ _ _ _ _ Hr) as [? _]%Forall_cons. done. }
  { intros ? [= <-]. eauto. }
  exists c, p'. split; [by eapply registering_next|]. unfold mbind, stm_bind, fatal_on. by rewrite E.
Qed.
End Steps.

(** The buckets of the batch sizes: the powers of two up to 128. *)
Lemma batch_size_buckets_eq :
  batch_size_buckets = Ok (f64_of_u64 <$> [1; 2; 4; 8; 16; 32; 64; 128]).
Proof.
  unfold batch_size_buckets. rewrite exponential_buckets_law by done. reflexivity.
Qed.

Definition daphne_names : list string :=
  ["inbound_request_counter"; "report_counter"; "aggregation_job_batch_size"; "aggregation_job_counter";
   "aggregation_job_put_span_retry_counter"]%string.

Definition service_names : list string := (["http_status_code"; "dap_abort"; "auth_method"]%string ++ daphne_names)%list.

(** The collectors in the reverse order of their registration. *)
Definition daphne_collectors (m : DaphnePromMetrics P) : list (Collector * nat) :=
  [(aggregation_job_put_span_retry_counter m, 0%nat); (aggregation_job_counter m, 1%nat);
   (aggregation_job_batch_size_histogram m, 0%nat); (report_counter m, 1%nat); (inbound_request_counter m, 1%nat)].

Definition service_collectors (m : DaphnePromServiceMetrics P) : list (Collector * nat) :=
  daphne_collectors (service_daphne m) ++
  [(auth_method_counter m, 1%nat); (dap_abort_counter m, 1%nat); (http_status_code_counter m, 1%nat)].

(** A step of a registration. *)
Ltac register_step :=
  let c := fresh "c" in let p' := fresh "p" in let Hr := fresh "Hr" in let E := fresh "E" in
  match goal with
  | H : registering ?p0 ?t (_ :: ?todo) ?cs ?p
      |- context [(fatal_on ?m (register_int_counter_vec_with_registry ?n ?h ?l) ≫= ?k) ?p] =>
      destruct (fatal_counter m n h l k p0 t todo cs p H eq_refl) as (c & p' & Hr & E)
  | H : registering ?p0 ?t (_ :: ?todo) ?cs ?p, B : exponential_buckets _ _ _ = Some ?b
      |- context [(fatal_on ?m (register_histogram_vec_with_registry ?n ?h (Some ?b) ?l) ≫= ?k) ?p] =>
      destruct (fatal_histogram m n h l k p0 t todo cs p b _ _ _ H eq_refl B) as (c & p' & Hr & E)
  end; rewrite E; clear E.

Lemma daphne_registers p0 taken cs p :
  registering p0 taken daphne_names cs p ->
  exists m p', DaphnePromMetrics_register p = (Ok m, p') /\
    registering p0 (rev daphne_names ++ taken) [] (daphne_collectors m ++ cs) p'.
Proof.
  intros Hr. unfold daphne_names in Hr. unfold DaphnePromMetrics_register. do 2 register_step.
  pose proof batch_size_buckets_eq as Hb. unfold batch_size_buckets in Hb.
  destruct (exponential_buckets _ _ _) as [bs|] eqn:Hbs; [|done].
  unfold mbind at 1, stm_bind at 1, lift, batch_size_buckets. rewrite Hbs. cbv beta iota. do 3 register_step.
  eexists _, _. done.
Qed.

(** Metrics of the service, with all counters at zero, in a registry that has none of their names. *)
Lemma service_registers p :
  Forall (fun n => n ∉ names p) service_names ->
  exists m p', DaphnePromServiceMetrics_register p = (Ok m, p') /\ unused p' (service_collectors m) /\
    names p' = list_to_set service_names ∪ names p.
Proof.
  intros Hf. assert (registering p [] service_names [] p) as Hr.
  { split; [apply unused_nil|set_solver|done|]. apply (bool_decide_unpack _). by vm_compute. }
  unfold service_names, daphne_names in Hr. unfold DaphnePromServiceMetrics_register. cbn [app] in Hr.
  do 3 register_step.
  match goal with H : registering ?p ?t ?d ?cs ?p' |- _ => destruct (daphne_registers p t cs p' H) as (m & q & E & Hr9) end.
  unfold mbind, stm_bind. rewrite E. eexists _, _. split_and!; [done|apply Hr9|].
  rewrite (ring_names _ _ _ _ _ Hr9). f_equal.
Qed.

(** ** Calls *)

(** The counter a call increments, and by how much; the histogram it adds to. *)
Definition hit (m : DaphnePromServiceMetrics P) (e : metric_event + service_event) :
    option (Collector * list string * N) :=
  let d := service_daphne m in
  match e with
  | inl (inbound_req_inc t) => Some (inbound_request_counter d, [request_type_str t], 1)
  | inl (report_inc_by s v) => Some (report_counter d, [ReportStatus_to_string s], v)
  | inl (agg_job_observe_batch_size _) => None
  | inl agg_job_started_inc => Some (aggregation_job_counter d, ["started"%string], 1)
  | inl agg_job_completed_inc => Some (aggregation_job_counter d, ["completed"%string], 1)
  | inl agg_job_put_span_retry_inc => Some (aggregation_job_put_span_retry_counter d, [], 1)
  | inr (abort_count_inc l) => Some (dap_abort_counter m, [l], 1)
  | inr (count_http_status_code c) => Some (http_status_code_counter m, [pretty c], 1)
  | inr (auth_method_inc a) => Some (auth_method_counter m, [auth_method_label a], 1)
  end.

Definition amount m e (c : Collector) (ls : list string) : N :=
  match hit m e with
  | Some (c', ls', v) => if decide (c' = c /\ ls' = ls) then v else 0
  | None => 0
  end.

(** The sum of [f] over the events. *)
Definition sum_events (f : metric_event + service_event -> N) (es : list (metric_event + service_event)) : N :=
  foldr (fun e n => f e + n) 0 es.

Definition batch_sizes (es : list (metric_event + service_event)) : list N :=
  omap (fun e => match e with inl (agg_job_observe_batch_size v) => Some v | _ => None end) es.

(** A count is a [u64]. *)
Definition event_ok (e : metric_event + service_event) : Prop :=
  match e with inl (report_inc_by _ v) => v < 2 ^ 64 | _ => True end.

(** The collectors after the events [es]. *)
Record counted (m : DaphnePromServiceMetrics P) (es : list (metric_event + service_event)) (p : P) : Prop := {
  counted_arity c n : (c, n) ∈ service_collectors m -> arity p c = Some n;
  counted_values c n ls : (c, n) ∈ service_collectors m ->
    counter_value p c ls = sum_events (fun e => amount m e c ls) es mod 2 ^ 64;
  counted_samples : samples p (aggregation_job_batch_size_histogram (service_daphne m)) []
    = f64_of_u64 <$> batch_sizes es;
}.

Lemma counted_nil m p : unused p (service_collectors m) -> counted m [] p.
Proof.
  intros [_ Ha He]. split; [done| |].
  - intros c n ls Hin. destruct (He c n ls Hin) as [-> _]. done.
  - by apply (He _ 0%nat); cbn; set_solver.
Qed.

Lemma sum_events_app f es es' : sum_events f (es ++ es') = sum_events f es + sum_events f es'.
Proof. unfold sum_events. induction es as [|e es IH]; cbn; [done|]. rewrite IH. lia. Qed.

Lemma hit_collector m e c ls v : hit m e = Some (c, ls, v) -> (c, length ls) ∈ service_collectors m.
Proof. destruct e as [[]|[]]; cbn; intros [= <- <- _]; cbn; set_solver. Qed.

(** A call of a counter. *)
Lemma counted_inc m es p e c ls v :
  counted m es p -> hit m e = Some (c, ls, v) -> v < 2 ^ 64 ->
  exists p', inc_by c ls v p = (Ok tt, p') /\ counted m (es ++ [e]) p'.
Proof.
  intros [Ha Hv Hs] He Hb. pose proof (hit_collector _ _ _ _ _ He) as Hin.
  destruct (inc_by_law c ls v p) as (p' & E & [_ Ha'] & Hc & Ho & Hs'); [by apply Ha|done|].
  exists p'. split; [done|]. split.
  - intros c' n Hc'. rewrite Ha'. by apply Ha.
  - intros c' n ls' Hc'. rewrite sum_events_app. cbn. unfold amount at 2. rewrite He. rewrite N.add_0_r.
    case_decide as Hd.
    + destruct Hd as [<- <-]. rewrite Hc, (Hv c n) by done. by rewrite N.Div0.add_mod_idemp_l.
    + rewrite Ho by naive_solver. rewrite N.add_0_r. by eapply Hv.
  - rewrite Hs', Hs. unfold batch_sizes. rewrite omap_app. destruct e as [[]|[]]; cbn in *; rewrite ?app_nil_r; done.
Qed.

Lemma prom_call_counted m es p e :
  counted m es p -> event_ok e -> exists p', prom_call m e p = (Ok tt, p') /\ counted m (es ++ [e]) p'.
Proof.
  intros Hc He. destruct (hit m e) as [[[c ls] v]|] eqn:Hh.
  - assert (prom_call m e = inc_by c ls v /\ v < 2 ^ 64) as [-> Hb]
      by (destruct e as [[]|[]]; cbn in Hh; simplify_eq; (split; [done|done || lia])).
    by eapply counted_inc.
  - assert (exists v, e = inl (agg_job_observe_batch_size v)) as [v ->] by (destruct e as [[]|[]]; by eauto).
    destruct Hc as [Ha Hv Hs].
    destruct (observe_law (aggregation_job_batch_size_histogram (service_daphne m)) [] (f64_of_u64 v) p)
      as (p' & E & [_ Ha'] & Hc & _ & Hcv); [by apply Ha; cbn; set_solver|].
    exists p'. split; [done|]. split.
    + intros c n Hin. rewrite Ha'. by apply Ha.
    + intros c n ls Hin. rewrite Hcv, sum_events_app. cbn. rewrite N.add_0_r. by eapply Hv.
    + rewrite Hc, Hs. unfold batch_sizes. by rewrite omap_app, fmap_app.
Qed.

Lemma prom_calls_counted m es : forall es0 p, counted m es0 p -> Forall event_ok es ->
  exists p', prom_calls m es p = (Ok tt, p') /\ counted m (es0 ++ es) p'.
Proof.
  induction es as [|e es IH]; intros es0 p Hc Hf; [exists p; by rewrite app_nil_r|].
  apply Forall_cons in Hf as [He Hf]. destruct (prom_call_counted m es0 p e Hc He) as (p1 & E & H1).
  destruct (IH _ p1 H1 Hf) as (p' & E' & H'). exists p'. rewrite <-app_assoc in H'. split; [|done].
  cbn [prom_calls]. unfold mbind, stm_bind. by rewrite E.
Qed.

(** ** Labels *)
#[local] Instance ReportStatus_eq_dec : EqDecision ReportStatus.
Proof. solve_decision. Defined.
#[local] Instance DaphneRequestType_eq_dec : EqDecision DaphneRequestType.
Proof. solve_decision. Defined.
#[local] Instance AuthMethod_eq_dec : EqDecision AuthMethod.
Proof. solve_decision. Defined.

#[local] Instance ReportStatus_to_string_inj : Inj (=) (=) ReportStatus_to_string.
Proof. intros [[]| |] [[]| |]; cbn; intros E; (reflexivity || discriminate E). Qed.
#[local] Instance request_type_str_inj : Inj (=) (=) request_type_str.
Proof. intros [] []; cbn; intros E; (reflexivity || discriminate E). Qed.
#[local] Instance auth_method_label_inj : Inj (=) (=) auth_method_label.
Proof. intros [] []; cbn; intros E; (reflexivity || discriminate E). Qed.

(** What an event counts for. *)
Definition of_request (t : DaphneRequestType) (e : metric_event + service_event) : N :=
  match e with inl (inbound_req_inc t') => if decide (t' = t) then 1 else 0 | _ => 0 end.
Definition of_status (s : ReportStatus) (e : metric_event + service_event) : N :=
  match e with inl (report_inc_by s' v) => if decide (s' = s) then v else 0 | _ => 0 end.
Definition of_job (started : bool) (e : metric_event + service_event) : N :=
  match e with
  | inl agg_job_started_inc => if started then 1 else 0
  | inl agg_job_completed_inc => if started then 0 else 1
  | _ => 0
  end.
Definition of_retry (e : metric_event + service_event) : N :=
  match e with inl agg_job_put_span_retry_inc => 1 | _ => 0 end.
Definition of_code (c : N) (e : metric_event + service_event) : N :=
  match e with inr (count_http_status_code c') => if decide (c' = c) then 1 else 0 | _ => 0 end.
Definition of_abort (l : string) (e : metric_event + service_event) : N :=
  match e with inr (abort_count_inc l') => if decide (l' = l) then 1 else 0 | _ => 0 end.
Definition of_auth (a : AuthMethod) (e : metric_event + service_event) : N :=
  match e with inr (auth_method_inc a') => if decide (a' = a) then 1 else 0 | _ => 0 end.

Lemma sum_events_ext f g es : (forall e, f e = g e) -> sum_events f es = sum_events g es.
Proof. intros H. unfold sum_events. induction es as [|e es IH]; cbn; [done|]. by rewrite H, IH. Qed.

Lemma if_label {A B} `{EqDecision A} `{EqDecision B} (f : A -> B) `{!Inj (=) (=) f} x y (c : Collector) (v : N) :
  (if decide (c = c /\ [f x] = [f y]) then v else 0) = (if decide (x = y) then v else 0).
Proof.
  repeat case_decide; try done.
  - exfalso. naive_solver.
  - exfalso. naive_solver.
Qed.

(** Every counter has the number of its events, modulo [2^64]; the histogram has the batch sizes. *)
Record exports (m : DaphnePromServiceMetrics P) (es : list (metric_event + service_event)) (p : P) : Prop := {
  exports_requests t : counter_value p (inbound_request_counter (service_daphne m)) [request_type_str t]
    = sum_events (of_request t) es mod 2 ^ 64;
  exports_reports s : counter_value p (report_counter (service_daphne m)) [ReportStatus_to_string s]
    = sum_events (of_status s) es mod 2 ^ 64;
  exports_started : counter_value p (aggregation_job_counter (service_daphne m)) ["started"%string]
    = sum_events (of_job true) es mod 2 ^ 64;
  exports_completed : counter_value p (aggregation_job_counter (service_daphne m)) ["completed"%string]
    = sum_events (of_job false) es mod 2 ^ 64;
  exports_retries : counter_value p (aggregation_job_put_span_retry_counter (service_daphne m)) []
    = sum_events of_retry es mod 2 ^ 64;
  exports_sizes : samples p (aggregation_job_batch_size_histogram (service_daphne m)) []
    = f64_of_u64 <$> batch_sizes es;
  exports_codes c : counter_value p (http_status_code_counter m) [pretty c]
    = sum_events (of_code c) es mod 2 ^ 64;
  exports_aborts l : counter_value p (dap_abort_counter m) [l] = sum_events (of_abort l) es mod 2 ^ 64;
  exports_auths a : counter_value p (auth_method_counter m) [auth_method_label a]
    = sum_events (of_auth a) es mod 2 ^ 64;
}.

Lemma if_other (c c' : Collector) (ls ls' : list string) (v : N) :
  c <> c' -> (if decide (c = c' /\ ls = ls') then v else 0) = 0.
Proof. intros H. case_decide as Hd; [by destruct Hd|done]. Qed.

Lemma counted_exports m es p : NoDup (service_collectors m).*1 -> counted m es p -> exports m es p.
Proof.
  intros Hd [_ Hv Hs].
  assert (forall c ls f, c ∈ (service_collectors m).*1 -> (forall e, amount m e c ls = f e) ->
    counter_value p c ls = sum_events f es mod 2 ^ 64) as Hx.
  { intros c ls f ([c' n] & -> & Hin)%list_elem_of_fmap Hf. rewrite (Hv c' n) by done. f_equal. by apply sum_events_ext. }
  cbn in Hd. repeat match goal with H : NoDup (_ :: _) |- _ => apply NoDup_cons in H as [? H] end.
  rewrite !not_elem_of_cons in *. destruct_and!.
  split; intros; [| | | | |exact Hs| | |];
    (apply Hx; [apply list_elem_of_In; cbn; tauto|]); intros [[]|[]]; unfold amount; cbn [hit];
    first [done | by rewrite if_other by congruence | by apply (if_label _) | by apply (if_label id)
      | case_decide; naive_solver].
Qed.

(** C25: what is exported is what was recorded. In a registry that has none of their names, the metrics
    of the service register; and after any calls of the two traits, in any order, every counter has
    the number of its events: the requests of a type, the reports of a status, the jobs started and
    completed, the retries, the responses of a status code, the aborts of a title and the requests
    of an authorization method, each under a label of its own, modulo [2^64]; the histogram has the
    batch sizes in their order. *)
Theorem exported_counts p es :
  Forall (fun n => n ∉ names p) service_names -> Forall event_ok es ->
  exists m p0 p', DaphnePromServiceMetrics_register p = (Ok m, p0) /\
    prom_calls m es p0 = (Ok tt, p') /\ exports m es p'.
Proof.
  intros Hf He. destruct (service_registers p Hf) as (m & p0 & E & Hu & _).
  destruct (prom_calls_counted m es [] p0 (counted_nil m p0 Hu) He) as (p' & E' & Hc).
  exists m, p0, p'. split_and!; [done|done|]. by apply counted_exports; [apply Hu|].
Qed.

(** A registry takes the metrics once: a second registration fails and changes nothing. *)
Lemma registered_once p :
  Forall (fun n => n ∉ names p) service_names ->
  exists m p', DaphnePromServiceMetrics_register p = (Ok m, p') /\
    exists e, DaphnePromServiceMetrics_register p' = (Err e, p').
Proof.
  intros Hf. destruct (service_registers p Hf) as (m & p' & E & _ & Hn). exists m, p'. split; [done|].
  destruct (register_counter_taken "http_status_code" "HTTP response status code." ["code"%string] p') as [e Ee].
  { rewrite Hn. apply elem_of_union_l, elem_of_list_to_set. left. }
  eexists. unfold DaphnePromServiceMetrics_register, mbind, stm_bind, fatal_on. by rewrite Ee.
Qed.

(** *** The responses of the service *)
Section Responses.
Context `{BP : BuildProfile} `{PC : PrioCodec} `{PA : PrioAgg} `{VO : !VdafOps} `{Dg : Digest}
  `{HC : HpkeCrypto} `{HK : Hkdf} `{B64 : Base64} `{UP : UrlParser} `{UJ : UrlJoin} `{PF : PineFields}.
Context `{AX : Axum} {AL : AxumLaws AX} `{SG : Signer} {St : Type}.
Context `{DA : !DapAggregator DaphneAuth St} `{DL : !DapLeader DaphneAuth St} `{DS : !DaphneService St}.
Context (role : DapRole) (rp : stm St DapError ReplayProtection).

(** Requests one after the other, each with the randomness of its encryption. *)
Fixpoint serve (reqs : list (list byte * web_request)) : stm (service St) Empty_set (list web_response) :=
  match reqs with
  | [] => mret []
  | (seed, req) :: reqs =>
      resp ← router_new role rp seed [] req;
      resps ← serve reqs;
      mret (resp :: resps)
  end.

Definition has_status (c : N) (resp : web_response) : bool := ws_status resp =? c.
Definition has_problem (title : string) (resp : web_response) : bool :=
  match ws_body resp with Body_problem p => bool_decide (ProblemDetails_title p = title) | _ => false end.

Definition responses_with (f : web_response -> bool) (resps : list web_response) : N :=
  len (List.filter f resps).

Lemma responses_with_cons f resp resps :
  responses_with f (resp :: resps) = (if f resp then 1 else 0) + responses_with f resps.
Proof. unfold responses_with, len. cbn. destruct (f resp); cbn; lia. Qed.

Lemma auth_events_none tok tls f :
  (forall a, f (inr (auth_method_inc a)) = 0) -> sum_events f (inr <$> auth_events tok tls) = 0.
Proof. intros Hf. destruct tok, tls; cbn; by rewrite ?Hf. Qed.

Lemma serve_counted reqs : forall s resps s',
  serve reqs s = (Ok resps, s') ->
  exists es, sv_metrics s' = sv_metrics s ++ es /\ length resps = length reqs /\
    (forall c, sum_events (of_code c) (inr <$> es) = responses_with (has_status c) resps) /\
    (forall l, sum_events (of_abort l) (inr <$> es) = responses_with (has_problem l) resps).
Proof.
  induction reqs as [|[seed req] reqs IH]; intros [w ms] resps s' H; cbn [serve] in H.
  - injection H as <- <-. exists []. by rewrite app_nil_r.
  - apply stm_bind_Ok in H as (resp & s1 & Hr & H). apply stm_bind_Ok in H as (rs & s2 & Hs & [= <- <-]).
    apply responses_counted in Hr as [_ (tok & tls & Hm)]; [|constructor].
    destruct (IH _ _ _ Hs) as (es & He & Hl & Hc & Ha).
    eexists. rewrite He, Hm, <-app_assoc. split_and!; [done|by cbn; rewrite Hl|..]; intros x;
      rewrite responses_with_cons, !fmap_app, !sum_events_app, auth_events_none by done;
      [rewrite Hc|rewrite Ha]; f_equal; cbn [fmap list_fmap sum_events foldr of_code of_abort].
    + unfold has_status. destruct (ws_body resp); cbn; case_decide; destruct (N.eqb_spec (ws_status resp) x); done.
    + unfold has_problem. destruct (ws_body resp); cbn; try done. case_decide; by case_bool_decide.
Qed.

(** C24: the counters of the service are those of its responses. Any requests are served one after the
    other, in either role, and the calls of the service's metrics are made on the collectors of a
    registry: then the counter of a status code is the number of responses with that status, and the
    counter of an abort the number of problem documents with that title (modulo [2^64]). *)
Theorem exported_responses reqs w resps s' p :
  serve reqs (MkService w []) = (Ok resps, s') -> Forall (fun n => n ∉ names p) service_names ->
  exists m p0 p', DaphnePromServiceMetrics_register p = (Ok m, p0) /\
    prom_calls m (inr <$> sv_metrics s') p0 = (Ok tt, p') /\
    (forall c, counter_value p' (http_status_code_counter m) [pretty c]
      = responses_with (has_status c) resps mod 2 ^ 64) /\
    (forall l, counter_value p' (dap_abort_counter m) [l] = responses_with (has_problem l) resps mod 2 ^ 64).
Proof.
  intros Hs Hf. destruct (serve_counted _ _ _ _ Hs) as (es & He & _ & Hc & Ha). cbn in He. rewrite He.
  destruct (service_registers p Hf) as (m & p0 & E & Hu & _).
  destruct (prom_calls_counted m (inr <$> es) [] p0 (counted_nil m p0 Hu)) as (p' & E' & H').
  { by apply Forall_fmap, Forall_true. }
  apply counted_exports in H'; [|apply Hu]. exists m, p0, p'. split_and!; [done|done|..].
  - intros c. rewrite (exports_codes _ _ _ H' c). by rewrite Hc.
  - intros l. rewrite (exports_aborts _ _ _ H' l). by rewrite Ha.
Qed.
End Responses.
End Exported.
