(* ===== verification/ProxyRouter.v ===== *)
(** * The storage proxy as a service

    [handle_request] of [src/crates/daphne-worker/src/storage_proxy/mod.rs], with the layers of
    [middleware.rs] and the metrics: every request is authorized, goes to the handler of its route
    in [StorageProxy], and is timed.  The state is that of KV ([K]), of the durable objects ([W])
    and of the registry ([P]).

    Routing, the extraction of the body and the header [Authorization] are the class [ProxyAxum];
    the two readings of the clock are arguments. *)

From S2P Require Import Prelude Codec Messages TaskprovMessages Errors Config AggShare.
From S2P Require Import DurableStore DurableRequests StorageProxy Metrics.
From S2P Require Taskprov LeaderState Router.

(** ** Requests and responses *)
Record proxy_request : Type := MkProxyRequest {
  pr_method : HttpMethod;
  pr_path : string;
  (** the values of [Authorization] and of [STORAGE_PROXY_PUT_KV_EXPIRATION] *)
  pr_authorization : list (option string);
  pr_expiration : list (option string);
  pr_body : list byte;
}.

Section Responses.
Context `{PA : PrioAgg}.

Inductive proxy_response : Type :=
| PR_Kv (resp : kv_response)
| PR_Object (resp : store_response)
| PR_Status (code : N)
| PR_Text (code : N).

Definition status_u16 (c : StatusCode) : N :=
  match c with
  | OK => 200
  | NOT_FOUND => 404
  | CONFLICT => 409
  | UNAUTHORIZED => 401
  | INTERNAL_SERVER_ERROR => 500
  end.

Definition proxy_status (resp : proxy_response) : N :=
  match resp with
  | PR_Kv resp => status_u16 (kv_status resp)
  | PR_Object _ => 200
  | PR_Status code | PR_Text code => code
  end.

End Responses.

(** [StatusCode::is_success] *)
Definition is_success (code : N) : bool := (200 <=? code) && (code <? 300).

Class ProxyAxum : Type := {
  (** the rest of a path under a route that ends in [/*path]; a rejection has a status *)
  wildcard : string -> string -> option (res N string);
  (** [TypedHeader<Authorization<Bearer>>] *)
  bearer_header : list (option string) -> option string;
  (** the argument [Bytes] of a handler; a rejection has a status *)
  extract_bytes : list byte -> res N (list byte);
}.

Record proxy_world (K W P : Type) : Type := MkProxyWorld { pw_kv : K; pw_objects : W; pw_prom : P }.
Arguments MkProxyWorld {K W P}.
Arguments pw_kv {K W P}.
Arguments pw_objects {K W P}.
Arguments pw_prom {K W P}.

Section Proxy.
Context `{BP : BuildProfile} `{PC : PrioCodec} `{PA : PrioAgg} `{PV : !PrioVec} `{PE : !PrioElemBytes}.
Context `{DS : DurableStorage} `{CP : Capnp}.
Context `{UP : Taskprov.UrlParser} `{UJ : LeaderState.UrlJoin} `{UR : Router.UrlPath} `{PX : ProxyAxum}.
Context {K W P : Type} `{KV : KvStore K} `{DN : !DurableNamespace W} `{PR : Prometheus P}.

(** ** Requests to durable objects, with their metrics *)

(** The parts of the state. *)
Definition on_kv {E A} (m : stm K E A) : stm (proxy_world K W P) E A := fun w =>
  let '(r, kv) := m (pw_kv w) in (r, MkProxyWorld kv (pw_objects w) (pw_prom w)).

Definition on_objects {E A} (m : stm W E A) : stm (proxy_world K W P) E A := fun w =>
  let '(r, o) := m (pw_objects w) in (r, MkProxyWorld (pw_kv w) o (pw_prom w)).

(** A call of the metrics. *)
Definition on_metrics {E A} (m : stm P Empty_set A) : stm (proxy_world K W P) E A := fun w =>
  let '(r, p) := m (pw_prom w) in
  (match r with Ok a => Ok a | Err e => match e with end | Panic => Panic end,
   MkProxyWorld (pw_kv w) (pw_objects w) p).

(** [i8::try_from(attempt - 1).unwrap()] *)
Definition retries_i8 {E} (attempt : N) : res E Z :=
  n ← u64_sub attempt 1;
  if n <=? 127 then Ok (Z.of_N n) else Panic.

(** One attempt: an error of the stub or of the copy of the request is returned as it is; the
    fetch is counted, under the number of attempts before it, or under -1 when it fails. *)
Definition counted_fetch (metrics : ProxyMetrics P) (binding : string) (id : ObjectIdFrom)
    (uri path : string) (body : list byte) (attempt : N) :
    stm (proxy_world K W P) WorkerError store_response := fun w =>
  match on_objects (get_stub binding id) w with
  | (Ok _, w) =>
      match on_objects (stub_fetch binding id path body) w with
      | (Ok ok, w) =>
          (n ← lift (retries_i8 attempt);
           _ ← on_metrics (durable_request_retry_count_inc metrics n binding uri);
           mret ok) w
      | (Err error, w) =>
          (_ ← on_metrics (durable_request_retry_count_inc metrics (-1) binding uri);
           throw error) w
      | (Panic, w) => (Panic, w)
      end
  | (Err error, w) => (Err error, w)
  | (Panic, w) => (Panic, w)
  end.

(** The path of [Url::parse("https://fake-host/").unwrap().join(&uri).unwrap()] *)
Definition fake_host_path {E} (uri : string) : res E string :=
  match Taskprov.url_parse "https://fake-host/" with
  | None => Panic
  | Some base =>
      match LeaderState.url_join base uri with
      | None => Panic
      | Some url => Ok (Router.url_path url)
      end
  end.

Definition handle_do_request_counted (metrics : ProxyMetrics P) (uri : string) (body : list byte) :
    stm (proxy_world K W P) WorkerError store_response :=
  durable_request ← lift (map_err (fun _ => RustError "invalid format: {e:?}")
                            (DurableRequest_try_from body));
  if u32_max <? len (dr_body durable_request) then throw (RustError "buffer is too long {}")
  else
    path ← lift (fake_host_path uri);
    _ ← lift (request_new (W:=W) path (dr_body durable_request));
    _ ← lift (locate (W:=W) (dr_binding durable_request) (dr_id durable_request));
    retry (counted_fetch metrics (dr_binding durable_request) (dr_id durable_request) uri path
             (dr_body durable_request)).

(** ** Handlers and layers *)
Abbreviation proxy A := (stm (proxy_world K W P) Empty_set A).

(** [Result<impl IntoResponse, Error>] as a response *)
Definition into_response {A} (f : A -> proxy_response) (m : stm (proxy_world K W P) WorkerError A) :
    proxy proxy_response := fun w =>
  match m w with
  | (Ok a, w) => (Ok (f a), w)
  | (Err _, w) => (Ok (PR_Text 500), w)
  | (Panic, w) => (Panic, w)
  end.

(** [Date::now().as_millis() - date.as_millis()] *)
Definition elapsed {E} (start now : N) : res E N := u64_sub now start.

Definition kv_op (method : HttpMethod) : string :=
  match method with
  | GET => "kv_get"
  | POST => "kv_put"
  | PUT => "kv_put_if_not_exists"
  | DELETE => "kv_delete"
  | HEAD | OTHER => "unknown"
  end.

Definition outcome_label (resp : proxy_response) : string :=
  if is_success (proxy_status resp) then "success" else "error".

Definition time_kv_requests (metrics : ProxyMetrics P) (start now : N) (method : HttpMethod)
    (next : proxy proxy_response) : proxy proxy_response :=
  response ← next;
  time ← lift (elapsed start now);
  _ ← on_metrics (kv_request_time_seconds_observe metrics (kv_op method) (outcome_label response) time);
  mret response.

Definition time_do_requests (metrics : ProxyMetrics P) (start now : N) (uri : string)
    (next : proxy proxy_response) : proxy proxy_response :=
  response ← next;
  time ← lift (elapsed start now);
  _ ← on_metrics (durable_request_time_seconds_observe metrics uri (outcome_label response) time);
  mret response.

(** A handler that reads the body. *)
Definition with_bytes (req : proxy_request) (f : list byte -> proxy proxy_response) : proxy proxy_response :=
  match extract_bytes (pr_body req) with
  | Ok body => f body
  | Err code => mret (PR_Text code)
  | Panic => lift Panic
  end.

(** A handler of [kv_route]: that of GET and DELETE do not read the body; the body of a response to
    HEAD is dropped. *)
Definition kv_handler (now_millis : N) (req : proxy_request) (key : string) : option (proxy proxy_response) :=
  let expiration := ExpirationHeader_decode (pr_expiration req) in
  match pr_method req with
  | GET | DELETE =>
      into_response PR_Kv <$> (on_kv <$> kv_route now_millis (pr_method req) expiration key [])
  | HEAD =>
      into_response (fun resp => PR_Kv (MkKvResponse (kv_status resp) []))
        <$> (on_kv <$> kv_route now_millis HEAD expiration key [])
  | POST | PUT =>
      Some (with_bytes req (fun body =>
        match kv_route now_millis (pr_method req) expiration key body with
        | Some m => into_response PR_Kv (on_kv m)
        | None => mret (PR_Status 405)
        end))
  | OTHER => None
  end.

(** ** [handle_request] *)
Section HandleRequest.
(** The clock of the platform when the request arrives and when it is answered, and the routes for
    tests ([storage_purge] and the readiness), with the feature [test-utils]. *)
Context (start now : N) (test_routes : list (string * proxy proxy_response)).

Definition kv_service (metrics : ProxyMetrics P) (req : proxy_request) (key : res N string) :
    proxy proxy_response :=
  let handler :=
    match key with
    | Ok key => kv_handler start req key
    | Err code => (fun _ => mret (PR_Text code)) <$> kv_handler start req EmptyString
    | Panic => Some (lift Panic)
    end in
  match handler with
  | Some m => time_kv_requests metrics start now (pr_method req) m
  | None => mret (PR_Status 405)
  end.

Definition do_service (metrics : ProxyMetrics P) (req : proxy_request) (uri : res N string) :
    proxy proxy_response :=
  match uri with
  | Ok uri =>
      time_do_requests metrics start now uri
        (with_bytes req (fun body => into_response PR_Object (handle_do_request_counted metrics uri body)))
  | Err code => mret (PR_Text code)
  | Panic => lift Panic
  end.

Definition proxy_route (metrics : ProxyMetrics P) (req : proxy_request) : proxy proxy_response :=
  match wildcard (String.append KV_PATH_PREFIX "/*path") (pr_path req) with
  | Some key => kv_service metrics req key
  | None =>
      match wildcard (String.append DO_PATH_PREFIX "/*path") (pr_path req) with
      | Some uri => do_service metrics req uri
      | None =>
          match List.find (fun r => String.eqb r.1 (pr_path req)) test_routes with
          | Some r => r.2
          | None => mret (PR_Status 404)
          end
      end
  end.

(** The layer [bearer_auth] around all routes; a request without a bearer token is rejected. *)
Definition authorized (trusted_token : option string) (req : proxy_request) (next : proxy proxy_response) :
    proxy proxy_response :=
  match bearer_header (pr_authorization req) with
  | None => mret (PR_Text 400)
  | Some bearer => bearer_auth trusted_token bearer (fun code _ => Ok (PR_Text (status_u16 code))) next
  end.

Definition handle_request (trusted_token : option string) (req : proxy_request) : proxy proxy_response :=
  metrics ← (fun w => let '(r, p) := Metrics_new (pw_prom w) in (r, MkProxyWorld (pw_kv w) (pw_objects w) p));
  authorized trusted_token req (proxy_route metrics req).
End HandleRequest.
End Proxy.
