(* ===== verification/ProxyRouterCorrect.v ===== *)
(** * The storage proxy is guarded, and its metrics do not interfere

    Without the trusted token nothing of the storage is reached ([proxy_guarded]).  A request to a
    durable object does what [StorageProxy] says, whatever is counted, and the counts are those
    of the attempts ([attempts_counted]).  Every request to KV is timed once ([kv_requests_timed]);
    a registry serves one call of [handle_request] ([proxy_registry_once]). *)

From stdpp Require Import pretty.
From S2P Require Import Prelude Codec Messages TaskprovMessages Errors Config AggShare.
From S2P Require Import DurableStore DurableRequests StorageProxy Metrics MetricsCorrect ProxyRouter.
From S2P Require Pine PineEncoding Taskprov LeaderState Router.

Section Proxy.
Context `{BP : BuildProfile} `{PC : PrioCodec} `{PA : PrioAgg} `{PV : !PrioVec} `{PE : !PrioElemBytes}.
Context `{DS : DurableStorage} `{CP : Capnp}.
Context `{UP : Taskprov.UrlParser} `{UJ : LeaderState.UrlJoin} `{UR : Router.UrlPath} `{PX : ProxyAxum}.
Context {K W P : Type} `{KV : KvStore K} `{DN : !DurableNamespace W} `{PR : Prometheus P}.
Context `{PW : !PrometheusView PR} {PL : PrometheusLaws}.

(** ** The registry *)
Definition proxy_names : list string :=
  ["durable_request_retry_count"; "durable_request_time_seconds"; "kv_request_time_seconds"]%string.

(** The metrics of the proxy in a registry. *)
Record proxy_live (m : ProxyMetrics P) (p : P) : Prop := {
  live_retry : arity p (durable_request_retry_count m) = Some 3%nat;
  live_do : arity p (durable_request_time_seconds m) = Some 2%nat;
  live_kv : arity p (kv_request_time_seconds m) = Some 2%nat;
  live_do_kv : durable_request_time_seconds m <> kv_request_time_seconds m;
}.

Lemma proxy_live_same m p p' : same_registry p p' -> proxy_live m p -> proxy_live m p'.
Proof. intros [_ Ha] []. split; by rewrite ?Ha. Qed.

Section Steps.
Context {E A : Type} (name help : string) (labels : list string) (k : Collector -> stm P E A).
Context (p0 : P) (taken todo : list string) (cs : list (Collector * nat)) (p : P).

Lemma unwrap_counter :
  registering p0 taken (name :: todo) cs p -> prom_desc name labels = true ->
  exists c p', registering p0 (name :: taken) todo ((c, length labels) :: cs) p' /\
    (unwrap_on (register_int_counter_vec_with_registry name help labels) ≫= k) p = k c p'.
Proof using PL.
  intros Hr Hd. destruct (register_counter_law name help labels p Hd) as (c & p' & H & Hr').
  { pose proof (ring_todo _ _ _ _ _ Hr) as [? _]%Forall_cons. done. }
  exists c, p'. split; [by eapply registering_next|]. unfold mbind, stm_bind, unwrap_on. by rewrite H.
Qed.

Lemma unwrap_histogram :
  registering p0 taken (name :: todo) cs p -> prom_desc name labels = true ->
  exists c p', registering p0 (name :: taken) todo ((c, length labels) :: cs) p' /\
    (unwrap_on (register_histogram_vec_with_registry name help None labels) ≫= k) p = k c p'.
Proof using PL.
  intros Hr Hd. destruct (register_histogram_law name help None labels p Hd) as (c & p' & H & Hr').
  { pose proof (ring_todo _ _ _ _ _ Hr) as [? _]%Forall_cons. done. }
  { by intros ? [=]. }
  exists c, p'. split; [by eapply registering_next|]. unfold mbind, stm_bind, unwrap_on. by rewrite H.
Qed.
End Steps.

Ltac unwrap_step :=
  let c := fresh "c" in let p' := fresh "p" in let Hr := fresh "Hr" in let E := fresh "E" in
  match goal with
  | H : registering ?p0 ?t (_ :: ?todo) ?cs ?p
      |- context [(unwrap_on (register_int_counter_vec_with_registry ?n ?h ?l) ≫= ?k) ?p] =>
      destruct (unwrap_counter n h l k p0 t todo cs p H eq_refl) as (c & p' & Hr & E)
  | H : registering ?p0 ?t (_ :: ?todo) ?cs ?p
      |- context [(unwrap_on (register_histogram_vec_with_registry ?n ?h None ?l) ≫= ?k) ?p] =>
      destruct (unwrap_histogram n h l k p0 t todo cs p H eq_refl) as (c & p' & Hr & E)
  end; rewrite E; clear E.

Lemma Metrics_new_registers {E} p :
  Forall (fun n => n ∉ names p) proxy_names ->
  exists m p', Metrics_new (E:=E) p = (Ok m, p') /\ proxy_live m p' /\ "durable_request_retry_count"%string ∈ names p'.
Proof.
  intros Hf. assert (registering p [] proxy_names [] p) as H0.
  { split; [apply unused_nil|set_solver|done|]. apply (bool_decide_unpack _). by vm_compute. }
  unfold proxy_names in H0. unfold Metrics_new.
  do 3 unwrap_step. match goal with H : registering _ _ [] _ _ |- _ => destruct H as [[Hd Ha _] Hn _ _] end.
  eexists _, _. split; [done|]. split.
  - split; [apply (Ha _ 3%nat)|apply (Ha _ 2%nat)|apply (Ha _ 2%nat)|]; cbn; [set_solver..|].
    cbn in Hd. apply NoDup_cons in Hd as [Hd _]. set_solver.
  - rewrite Hn. set_solver.
Qed.

Lemma Metrics_new_taken {E} p :
  "durable_request_retry_count"%string ∈ names p -> Metrics_new (E:=E) p = (Panic, p).
Proof.
  intros H. unfold Metrics_new, unwrap_on, mbind, stm_bind.
  edestruct register_counter_taken as [e He]; [exact H|]. by rewrite He.
Qed.

(** The metrics are registered at every call: a registry in which they are makes it panic. *)
Lemma proxy_registry_once start now tr trusted req (w : proxy_world K W P) :
  "durable_request_retry_count"%string ∈ names (pw_prom w) ->
  handle_request start now tr trusted req w = (Panic, w).
Proof.
  intros H. unfold handle_request, mbind, stm_bind. rewrite Metrics_new_taken by done. by destruct w.
Qed.

(** ** Access *)

(** C22: the storage proxy is guarded. Whatever the request, without the trusted token in its bearer
    token (or when the proxy has no trusted token) no handler is run: KV and the durable objects are
    untouched, and the answer is a rejection, 400, 401 or 500. *)
Theorem proxy_guarded start now tr trusted req (w w' : proxy_world K W P) r :
  (forall t, trusted = Some t -> bearer_header (pr_authorization req) <> Some t) ->
  Forall (fun n => n ∉ names (pw_prom w)) proxy_names ->
  handle_request start now tr trusted req w = (r, w') ->
  pw_kv w' = pw_kv w /\ pw_objects w' = pw_objects w /\
  exists resp, r = Ok resp /\ proxy_status resp ∈ [400; 401; 500].
Proof.
  intros Ht Hf. destruct (Metrics_new_registers (E:=Empty_set) (pw_prom w) Hf) as (m & p & E & _).
  unfold handle_request. unfold mbind at 1, stm_bind at 1. rewrite E. unfold authorized.
  destruct (bearer_header (pr_authorization req)) as [b|]; [|intros [= <- <-]; eauto 10 with set_solver].
  unfold bearer_auth. destruct trusted as [t|]; [|intros [= <- <-]; eauto 10 with set_solver].
  destruct (constant_time_eq _ _) eqn:Hc; [|intros [= <- <-]; eauto 10 with set_solver].
  apply constant_time_eq_iff in Hc. destruct (Ht t eq_refl). f_equal.
  rewrite <-(String.string_of_list_byte_of_string b), Hc. apply String.string_of_list_byte_of_string.
Qed.

(** ** Attempts *)

(** Of at most [n] attempts, how many fail before one is answered, how many of these have sent
    their request, and the answer. *)
Fixpoint failures {E A} (stub : stm W E unit) (fetch : stm W E A) (n : nat) (o : W) : nat * nat * option A :=
  match n with
  | O => (0%nat, 0%nat, None)
  | S n =>
      match stub o with
      | (Ok _, o) =>
          match fetch o with
          | (Ok a, _) => (0%nat, 0%nat, Some a)
          | (_, o) => let '(k, f, r) := failures stub fetch n o in (S k, S f, r)
          end
      | (_, o) => let '(k, f, r) := failures stub fetch n o in (S k, f, r)
      end
  end.

Lemma failures_S {E A} (stub : stm W E unit) (fetch : stm W E A) n o :
  failures stub fetch (S n) o =
  match stub o with
  | (Ok _, o) =>
      match fetch o with
      | (Ok a, _) => (0%nat, 0%nat, Some a)
      | (_, o) => let '(k, f, r) := failures stub fetch n o in (S k, S f, r)
      end
  | (_, o) => let '(k, f, r) := failures stub fetch n o in (S k, f, r)
  end.
Proof. done. Qed.

Lemma failures_none {E A} (stub : stm W E unit) (fetch : stm W E A) n :
  forall o k f, failures stub fetch n o = (k, f, None) -> k = n.
Proof.
  induction n as [|n IH]; intros o k f; [by intros [= <- _]|]. rewrite failures_S.
  destruct (stub o) as [[u|e|] o1]; [destruct (fetch o1) as [[v|e|] o2]|..]; [done|..];
    match goal with |- context [failures stub fetch n ?x] =>
      destruct (failures stub fetch n x) as [[j g] r] eqn:Hj end; intros [= <- _ ->]; f_equal; by eapply IH.
Qed.

Lemma retry_count_inc m z b uri p :
  proxy_live m p ->
  exists p', durable_request_retry_count_inc m z b uri p = (Ok tt, p') /\ proxy_live m p' /\
    forall ls, counter_value p' (durable_request_retry_count m) ls
      = (counter_value p (durable_request_retry_count m) ls + if decide (ls = [pretty z; b; uri]) then 1 else 0) mod 2 ^ 64.
Proof.
  intros Hl. destruct (inc_by_law (durable_request_retry_count m) [pretty z; b; uri] 1 p) as (p' & E & Hs & Hc & Ho & _);
    [apply Hl|done|].
  exists p'. split_and!; [done|by eapply proxy_live_same|]. intros ls. case_decide as Hd; [by subst|].
  rewrite Ho by congruence. rewrite N.add_0_r, N.mod_small; [done|]. apply counter_value_bound.
Qed.

(** What [k] failed attempts, [f] of which have sent their request, and then an answer if there was
    one, add to the counter of [ls]. *)
Definition attempts_delta (b uri : string) (first : N) (k f : nat) (ok : bool) (ls : list string) : N :=
  (if decide (ls = ["-1"%string; b; uri]) then N.of_nat f else 0) +
  (if ok then if decide (ls = [pretty (Z.of_N (first + N.of_nat k - 1)); b; uri]) then 1 else 0 else 0).

Section Attempts.
Context (m : ProxyMetrics P) (b : string) (id : ObjectIdFrom) (uri path : string) (body : list byte).
Context (Hstub : forall o : W, (get_stub b id o).1 <> Panic).
Context (Hreturns : forall o : W, (stub_fetch b id path body o).1 <> Panic).

(** The value of a counter after [n] more. *)
Definition counts_by (p p' : P) (delta : list string -> N) : Prop :=
  forall ls, counter_value p' (durable_request_retry_count m) ls
    = (counter_value p (durable_request_retry_count m) ls + delta ls) mod 2 ^ 64.

Lemma counts_by_trans p1 p2 p3 d1 d2 d3 :
  counts_by p1 p2 d1 -> counts_by p2 p3 d2 -> (forall ls, d3 ls = d1 ls + d2 ls) -> counts_by p1 p3 d3.
Proof using. intros H1 H2 H3 ls. rewrite H2, H1, H3, N.Div0.add_mod_idemp_l. f_equal. lia. Qed.

Lemma do_attempt_eq o :
  do_attempt b id path body o =
  match get_stub b id o with
  | (Ok _, o) => stub_fetch b id path body o
  | (Err e, o) => (Err e, o)
  | (Panic, o) => (Panic, o)
  end.
Proof using. reflexivity. Qed.

(** An attempt: its outcome is that of the stub and of the fetch; what was sent is counted. *)
Lemma counted_fetch_spec a (w : proxy_world K W P) :
  proxy_live m (pw_prom w) -> 1 <= a <= 128 ->
  exists p', counted_fetch m b id uri path body a w
      = ((do_attempt b id path body (pw_objects w)).1,
         MkProxyWorld (pw_kv w) (do_attempt b id path body (pw_objects w)).2 p') /\ proxy_live m p' /\
    match get_stub b id (pw_objects w) with
    | (Ok _, o) =>
        match stub_fetch b id path body o with
        | (Ok _, _) => counts_by (pw_prom w) p' (attempts_delta b uri a 0 0 true)
        | _ => counts_by (pw_prom w) p' (attempts_delta b uri a 1 1 false)
        end
    | _ => counts_by (pw_prom w) p' (attempts_delta b uri a 1 0 false)
    end.
Proof using PL Hstub Hreturns.
  intros Hl Ha. rewrite do_attempt_eq. unfold counted_fetch, on_objects.
  pose proof (Hstub (pw_objects w)) as Hst.
  destruct (get_stub b id (pw_objects w)) as [[u|e|] o] eqn:Hg; [|clear Hst|by destruct Hst].
  2:{ exists (pw_prom w). split_and!; [done|done|]. intros ls.
      assert (attempts_delta b uri a 1 0 false ls = 0) as -> by (unfold attempts_delta; by case_decide).
      rewrite N.add_0_r, N.mod_small; [done|]. apply counter_value_bound. }
  pose proof (Hreturns o) as Hret. cbn [pw_objects pw_kv pw_prom].
  destruct (stub_fetch b id path body o) as [[v|e|] o'] eqn:Hf; [| |by destruct Hret].
  - destruct (retry_count_inc m (Z.of_N (a - 1)) b uri (pw_prom w) Hl) as (p' & E & Hl' & Hc).
    exists p'. split_and!; [|done|].
    + unfold retries_i8, mbind, stm_bind, lift. rewrite u64_sub_fits by lia. cbn -[durable_request_retry_count_inc].
      replace (a - 1 <=? 127) with true by (symmetry; apply N.leb_le; lia).
      unfold on_metrics. cbn -[durable_request_retry_count_inc]. by rewrite E.
    + intros ls. rewrite Hc. unfold attempts_delta. replace (a + N.of_nat 0 - 1) with (a - 1) by lia.
      by case_decide; case_decide.
  - destruct (retry_count_inc m (-1) b uri (pw_prom w) Hl) as (p' & E & Hl' & Hc).
    exists p'. split_and!; [|done|].
    + unfold mbind, stm_bind, on_metrics. cbn -[durable_request_retry_count_inc]. by rewrite E.
    + intros ls. rewrite Hc. unfold attempts_delta. change (pretty (-1)%Z) with "-1"%string. by rewrite N.add_0_r.
Qed.

(** The loop with its counts, from the attempt [a] on: the same outcome, and the counts. *)
Lemma counted_loop delays : forall a (w : proxy_world K W P),
  proxy_live m (pw_prom w) -> 1 <= a -> a + len delays <= 128 ->
  let '(k, f, ok) := failures (get_stub b id) (stub_fetch b id path body) (S (length delays)) (pw_objects w) in
  exists r o' p', retry_loop (counted_fetch m b id uri path body) a delays w = (r, MkProxyWorld (pw_kv w) o' p') /\
    retry_loop (fun _ => do_attempt b id path body) a delays (pw_objects w) = (r, o') /\
    (f <= k <= S (length delays))%nat /\
    match ok with Some v => r = Ok v /\ (k <= length delays)%nat | None => exists e, r = Err e end /\
    counts_by (pw_prom w) p' (attempts_delta b uri a k f (bool_decide (is_Some ok))).
Proof using PL Hstub Hreturns.
  induction delays as [|d delays IH]; intros a w Hl Ha Hb; unfold len in *; cbn [length] in *;
    (assert (1 <= a <= 128) as Ha' by lia);
    destruct (counted_fetch_spec a w Hl Ha') as (p' & E & Hl' & Hc);
    rewrite failures_S; cbn [retry_loop]; rewrite E; clear E;
    pose proof (Hstub (pw_objects w)) as Hst; rewrite do_attempt_eq;
    (destruct (get_stub b id (pw_objects w)) as [[u|e|] o] eqn:Hg; [| |by destruct Hst]);
    [pose proof (Hreturns o) as Hret; destruct (stub_fetch b id path body o) as [[v|e|] o'] eqn:Hf;
       [| |by destruct Hret]| |pose proof (Hreturns o) as Hret;
     destruct (stub_fetch b id path body o) as [[v|e|] o'] eqn:Hf; [| |by destruct Hret]|];
    cbn [fst snd].
  - eexists _, _, _. split_and!; try done; lia.
  - eexists _, _, _. split_and!; try done; eauto with lia.
  - eexists _, _, _. split_and!; try done; eauto with lia.
  - eexists _, _, _. split_and!; try done; lia.
  - specialize (IH (a + 1) (MkProxyWorld (pw_kv w) o' p') Hl'). cbn [pw_objects pw_kv pw_prom] in IH.
    destruct (failures _ _ _ o') as [[k f] ok]. destruct IH as (r & o2 & p2 & E2 & E2' & Hk & Hok & Hc2); [lia|lia|].
    exists r, o2, p2. split_and!; [done|done|lia|lia|destruct ok; naive_solver lia|].
    eapply counts_by_trans; [done|done|]. intros ls. unfold attempts_delta. cbn [N.add].
    replace (a + N.of_nat (S k) - 1) with (a + 1 + N.of_nat k - 1) by lia. rewrite N.add_0_r, N.add_assoc. f_equal.
    destruct (decide (ls = ["-1"%string; b; uri])); lia.
  - specialize (IH (a + 1) (MkProxyWorld (pw_kv w) o p') Hl'). cbn [pw_objects pw_kv pw_prom] in IH.
    destruct (failures _ _ _ o) as [[k f] ok]. destruct IH as (r & o2 & p2 & E2 & E2' & Hk & Hok & Hc2); [lia|lia|].
    exists r, o2, p2. split_and!; [done|done|lia|lia|destruct ok; naive_solver lia|].
    eapply counts_by_trans; [done|done|]. intros ls. unfold attempts_delta. cbn [N.add].
    replace (a + N.of_nat (S k) - 1) with (a + 1 + N.of_nat k - 1) by lia.
    by destruct (decide (ls = ["-1"%string; b; uri])).
Qed.
End Attempts.

(** C23: the metrics of the proxy do not interfere, and count the attempts that are sent. A request
    to a durable object that is well-formed and can be built and located, on a platform whose calls
    do not panic, has the outcome it has in [handle_do_request], whatever is counted.  Of the [k]
    attempts that fail before one is answered, or of all five, those that have sent their request
    add one each to the counter with the count -1; one that fails before, at the stub of the object
    or the copy of the request, is not counted; an answer adds one to the counter with the count
    [k].  So -1 counts failed requests to the object, not requests whose retries were exhausted. *)
Theorem attempts_counted metrics uri path body dr (w : proxy_world K W P) :
  proxy_live metrics (pw_prom w) ->
  DurableRequest_try_from body = Ok dr -> len (dr_body dr) <= u32_max ->
  fake_host_path (E:=WorkerError) uri = Ok path -> request_new (W:=W) path (dr_body dr) = Ok tt ->
  locate (W:=W) (dr_binding dr) (dr_id dr) = Ok tt ->
  (forall o : W, (get_stub (dr_binding dr) (dr_id dr) o).1 <> Panic) ->
  (forall o : W, (stub_fetch (dr_binding dr) (dr_id dr) path (dr_body dr) o).1 <> Panic) ->
  let '(k, f, ok) := failures (get_stub (dr_binding dr) (dr_id dr))
                       (stub_fetch (dr_binding dr) (dr_id dr) path (dr_body dr)) 5 (pw_objects w) in
  exists r o' p', handle_do_request_counted metrics uri body w = (r, MkProxyWorld (pw_kv w) o' p') /\
    handle_do_request path body (pw_objects w) = (r, o') /\ (f <= k)%nat /\
    match ok with Some v => r = Ok v /\ (k <= 4)%nat | None => (exists e, r = Err e) /\ k = 5%nat end /\
    counts_by metrics (pw_prom w) p'
      (attempts_delta (dr_binding dr) uri 1 k f (bool_decide (is_Some ok))).
Proof.
  intros Hl Hd Hlen Hpath Hnew Hloc Hst Hret.
  pose proof (counted_loop metrics _ _ uri path _ Hst Hret RETRY_DELAYS 1 w Hl) as H.
  unfold handle_do_request_counted, handle_do_request, mbind, stm_bind, lift. rewrite Hd. cbn [map_err].
  replace (u32_max <? len (dr_body dr)) with false by (symmetry; by apply N.ltb_ge).
  rewrite Hpath, Hnew, Hloc. unfold retry. change (S (length RETRY_DELAYS)) with 5%nat in H.
  destruct (failures _ _ 5 (pw_objects w)) as [[k f] ok] eqn:Hk.
  destruct H as (r & o' & p' & E & E' & Hkf & Hok & Hc); [done|done|].
  exists r, o', p'. split_and!; [done|done|lia| |done].
  destruct ok as [v|]; [done|]. split; [done|]. by eapply failures_none.
Qed.

(** ** Timing *)

(** Every request to KV that has a handler is observed once, under its operation and its outcome,
    and the layer changes nothing else. *)
Lemma kv_requests_timed metrics start now method next (w w1 : proxy_world K W P) resp :
  next w = (Ok resp, w1) -> proxy_live metrics (pw_prom w1) -> start <= now ->
  exists p', time_kv_requests metrics start now method next w
      = (Ok resp, MkProxyWorld (pw_kv w1) (pw_objects w1) p') /\
    samples p' (kv_request_time_seconds metrics) [kv_op method; outcome_label resp]
      = samples (pw_prom w1) (kv_request_time_seconds metrics) [kv_op method; outcome_label resp]
        ++ [as_secs_f64 (now - start)] /\
    (forall ls, ls <> [kv_op method; outcome_label resp] ->
      samples p' (kv_request_time_seconds metrics) ls = samples (pw_prom w1) (kv_request_time_seconds metrics) ls) /\
    (forall c ls, counter_value p' c ls = counter_value (pw_prom w1) c ls).
Proof.
  intros Hn Hl Ht. destruct (observe_law (kv_request_time_seconds metrics) [kv_op method; outcome_label resp]
    (as_secs_f64 (now - start)) (pw_prom w1)) as (p' & E & _ & Hs & Ho & Hc); [apply Hl|].
  exists p'. split_and!; [|done|intros ls Hls; apply Ho; congruence|done].
  unfold time_kv_requests, elapsed, mbind, stm_bind, lift. rewrite Hn, u64_sub_fits by done.
  unfold on_metrics, kv_request_time_seconds_observe. by rewrite E.
Qed.
End Proxy.
