(* ===== verification/ServerAdmin.v ===== *)
(** * Provisioning of the service for tests

    [src/crates/daphne-server/src/roles/mod.rs] ([test_utils]) and
    [src/crates/daphne-service-utils/src/test_route_types.rs]: the operations with which a test
    adds tasks and HPKE configurations to a service and clears its state.  The two requests
    they make to the storage proxy besides those of [Kv] are the class [ProxyHttp]. *)

From S2P Require Import Prelude Codec Messages TaskprovMessages Errors Config Pine Taskprov AggShare.
From S2P Require Import Hpke Protocol Auth LeaderState Roles Leader DurableStore DurableRequests Kv Server Router.

(** ** Commands *)
Record InternalTestEndpointForTask : Type := MkEndpointForTask { ep_role : DapRole }.

Record InternalTestVdaf : Type := MkInternalTestVdaf {
  tv_typ : string;
  tv_bits : option string;
  tv_length : option string;
  tv_chunk_length : option string;
}.

Record InternalTestAddTask : Type := MkInternalTestAddTask {
  at_task_id : TaskId;
  at_leader : Url;
  at_helper : Url;
  at_vdaf : InternalTestVdaf;
  at_leader_authentication_token : string;
  at_collector_authentication_token : option string;
  at_role : DapRole;
  at_vdaf_verify_key : string;
  at_query_type : N;
  at_min_batch_size : N;
  at_max_batch_size : option N;
  at_time_precision : Duration;
  at_collector_hpke_config : string;
  at_task_expiration : Time;
}.

Definition parse_field (msg : string) (s : string) : res DapError N :=
  ok_or (parse_u64 s) (fatal_logged msg).

(** The VDAF of a command *)
Definition test_vdaf_config (v : InternalTestVdaf) : res DapError Vdaf.VdafConfig :=
  match tv_bits v, tv_length v, tv_chunk_length v with
  | None, None, None =>
      if String.eqb (tv_typ v) "Prio3Count" then Ok (Vdaf.Prio3 Prio3_Count)
      else Err (Fatal (Text "command failed: unrecognized VDAF"))
  | Some bits, None, None =>
      if String.eqb (tv_typ v) "Prio3Sum" then
        bits ← parse_field "failed to parse bits for Prio3Config::Sum" bits;
        Ok (Vdaf.Prio3 (Prio3_Sum bits))
      else Err (Fatal (Text "command failed: unrecognized VDAF"))
  | Some bits, Some length, Some chunk_length =>
      if String.eqb (tv_typ v) "Prio3SumVec" then
        bits ← parse_field "failed to parse bits fro Prio3Config::SumVec" bits;
        length ← parse_field "failed to parse length fro Prio3Config::SumVec" length;
        chunk_length ← parse_field "failed to parse chunk_length fro Prio3Config::SumVec" chunk_length;
        Ok (Vdaf.Prio3 (Prio3_SumVec bits length chunk_length))
      else Err (Fatal (Text "command failed: unrecognized VDAF"))
  | None, Some length, Some chunk_length =>
      if String.eqb (tv_typ v) "Prio3Histogram" then
        length ← parse_field "failed to parse length fro Prio3Config::Histogram" length;
        chunk_length ← parse_field "failed to parse chunk_length fro Prio3Config::Histogram" chunk_length;
        Ok (Vdaf.Prio3 (Prio3_Histogram length chunk_length))
      else Err (Fatal (Text "command failed: unrecognized VDAF"))
  | _, _, _ => Err (Fatal (Text "command failed: unrecognized VDAF"))
  end.

(** The query configuration of a command *)
Definition test_query_config (query_type : N) (max_batch_size : option N) : res DapError DapQueryConfig :=
  if query_type =? 1 then
    match max_batch_size with
    | None => Ok QC_TimeInterval
    | Some _ => Err (Fatal (Text "command failed: unexpected max batch size"))
    end
  else if query_type =? 2 then Ok (QC_FixedSize max_batch_size)
  else Err (Fatal (Text "command failed: unrecognized query type")).

(** ** Operations *)
Definition PURGE_STORAGE : string := "/v1/purge".
Definition STORAGE_READY : string := "/v1/ready".

(** A request to the proxy without a body, with the bearer token of the proxy: the status, or
    [None] for an error of [reqwest]. *)
Class ProxyHttp (W : Type) : Type := proxy_request : http_method -> string -> W -> option N * W.

Section Admin.
Context `{BP : BuildProfile} `{PC : PrioCodec} `{PA : PrioAgg} `{VO : !VdafOps} `{HX : HexCodec}.
Context `{B64 : Base64} `{UPa : UrlPath}.
Context {W : Type} `{KH : !KvHttp W} `{KJ : KvJson} `{PH : !ProxyHttp W}.
Abbreviation app A := (stm (App (W:=W)) DapError A).

(** [.send().await.map_err(..)?.error_for_status().map_err(..)?] *)
Definition proxy_send (method : http_method) (path : string) (send_msg status_msg : string) : app unit := fun s =>
  let k := app_kv s in
  let '(r, w) := proxy_request method path (kv_world k) in
  (match r with
   | None => Err (fatal_logged send_msg)
   | Some status => if (400 <=? status) && (status <? 600) then Err (fatal_logged status_msg) else Ok tt
   end, set_kv s (MkKvState (kv_cache k) w (kv_clock k))).

Definition internal_delete_all : app unit :=
  _ ← on_leader_state (fun l => (Ok tt, delete_all l));
  _ ← modify (fun s => set_kv s (MkKvState ∅ (kv_world (app_kv s)) (kv_clock (app_kv s))));
  proxy_send DELETE PURGE_STORAGE "failed to send delete request to storage proxy"
    "failed to clear storage proxy".

Definition storage_ready_check : app unit :=
  proxy_send GET STORAGE_READY "failed to send ready check request to storage proxy"
    "storage proxy is not ready".

Definition internal_endpoint_for_task (version : DapVersion) (cmd : InternalTestEndpointForTask) : app string :=
  s ← get_state;
  if decide (sc_role (app_service_config s) = ep_role cmd) then
    base_url ← lift (ok_or (sc_base_url (app_service_config s)) (Fatal (Text "base_url not configured")));
    mret (String.append (url_path base_url) (String.append (DapVersion_as_ref version) "/"))
  else throw (Fatal (Text "role mismatch")).

(** [put_if_not_exists(..)?.is_some()] is an error *)
Definition put_new {A} (msg : string) (m : stm (kv_state W) ProxyError (option A)) (taken : DapError) : app unit :=
  o ← on_kv msg m;
  match o with Some _ => throw taken | None => mret tt end.

(** The tokens of a command *)
Definition add_tokens (cmd : InternalTestAddTask) : app unit :=
  _ ← put_new "failed to fetch leader bearer token"
        (put_if_not_exists LeaderBearerToken (hex_encode (at_task_id cmd))
           (MkBearerToken (at_leader_authentication_token cmd)))
        (Fatal (Text "command failed: token already exists for the given task and bearer role (leader)"));
  match at_role cmd, at_collector_authentication_token cmd with
  | Role_Leader, Some token =>
      put_new "failed to put collector bearer token"
        (put_if_not_exists CollectorBearerToken (hex_encode (at_task_id cmd)) (MkBearerToken token))
        (Fatal (Fmt "command failed: token already exists for the given task ({}) and bearer role (collector)"
           [ArgOpaque]))
  | Role_Leader, None => throw (Fatal (Text "command failed: missing collector authentication token"))
  | Role_Helper, None => mret tt
  | Role_Helper, Some _ => throw (Fatal (Text "command failed: unexpected collector authentication token"))
  end.

Definition internal_add_task (version : DapVersion) (cmd : InternalTestAddTask) : app unit :=
  vdaf ← lift (test_vdaf_config (at_vdaf cmd));
  vdaf_verify_key_data ← lift (ok_or (decode_base64url_vec (at_vdaf_verify_key cmd))
    (Fatal (Text "VDAF verify key is not valid URL-safe base64")));
  vdaf_verify_key ← lift (map_err (fun _ => fatal_logged "failed to decode verify key")
    (get_decoded_verify_key vdaf vdaf_verify_key_data));
  collector_hpke_config_data ← lift (ok_or (decode_base64url_vec (at_collector_hpke_config cmd))
    (Fatal (Text "HPKE collector config is not valid URL-safe base64")));
  collector_hpke_config ← lift (map_err (fun _ => fatal_logged "failed to decode hpke config")
    (get_decoded HpkeConfig_decode collector_hpke_config_data));
  _ ← add_tokens cmd;
  query ← lift (test_query_config (at_query_type cmd) (at_max_batch_size cmd));
  s ← get_state;
  put_new "failed to put task config in kv"
    (put_if_not_exists_with_expiration TaskConfigPrefix (hex_encode (at_task_id cmd))
       (MkDapTaskConfig version (at_leader cmd) (at_helper cmd) (at_time_precision cmd)
          (at_min_batch_size cmd) query vdaf (app_get_current_time s) (at_task_expiration cmd)
          vdaf_verify_key collector_hpke_config Method_Unknown 4) (at_task_expiration cmd))
    (Fatal (Fmt "command failed: config already exists for the given task ({})" [ArgOpaque])).

Definition internal_add_hpke_config (version : DapVersion) (new_receiver : HpkeReceiverConfig) : app unit :=
  o ← on_kv "failed to get hpke config"
        (get_cloned HpkeReceiverConfigSet (DapVersion_as_ref version) KvGetOptions_default);
  let config_list := default [] o in
  if existsb (fun receiver => HpkeConfig_id (HpkeReceiverConfig_config new_receiver)
                              =? HpkeConfig_id (HpkeReceiverConfig_config receiver)) config_list
  then throw (Fatal (Fmt "receiver config with id {} already exists" [ArgOpaque]))
  else
    on_kv "failed to put hpke config"
      (put HpkeReceiverConfigSet (DapVersion_as_ref version) (config_list ++ [new_receiver])).
End Admin.
