(* ===== verification/ServerAdminCorrect.v ===== *)
(** * What provisioning achieves

    A task that was added is served under the configuration of the command and with its tokens
    ([added_task_served]); a command that fails late cannot be repeated
    ([failed_add_task_blocks]); an HPKE configuration that was added decrypts what is
    encrypted to it, and the ones before are used as before ([added_config_decrypts]). *)

From S2P Require Import Prelude Codec Messages TaskprovMessages Errors Config Pine Taskprov AggShare.
From S2P Require Import Hpke Protocol Auth LeaderState Roles Leader DurableStore DurableRequests Kv KvCorrect.
From S2P Require Import Server Router ServerAdmin.

(** ** Fresh lines of the cache *)
Section Cached.
Context {W : Type} `{KH : !KvHttp W} `{KJ : KvJson}.

(** The cache has the value, as of now. *)
Definition cached (k : kv_state W) (P : KvPrefix) (key : string) (v : value_of (PValue P)) : Prop :=
  line_at (kv_cache k) (PREFIX P) (to_key P key) = Some (MkCacheLine (kv_clock k) (Some (to_any v))).

(** The state after a write the proxy accepted. *)
Definition with_value (k : kv_state W) (w : W) (P : KvPrefix) (key : string) (v : value_of (PValue P)) : kv_state W :=
  MkKvState (Cache_put P (kv_clock k) (kv_cache k) (to_key P key) (Some v)) w (kv_clock k).

Lemma with_value_cached k w P key v : cached (with_value k w P key v) P key v.
Proof. unfold cached, with_value. cbn. by rewrite line_at_put, decide_True. Qed.

Lemma with_value_keeps k w P key v P' key' v' :
  PREFIX P' <> PREFIX P -> cached k P' key' v' -> cached (with_value k w P key v) P' key' v'.
Proof. intros Hne H. unfold cached, with_value. cbn. by rewrite line_at_put, decide_False by naive_solver. Qed.

Lemma cached_hit k P key v :
  cached k P key v -> Cache_get P (kv_clock k) (kv_cache k) (to_key P key) = Hit (Some v).
Proof.
  unfold cached, line_at, Cache_get. destruct (kv_cache k !! PREFIX P) as [m|]; [|done]. cbn.
  intros ->. cbn. rewrite N.sub_diag. cbn. by rewrite to_any_downcast.
Qed.

Lemma cached_get_impl k P key v {R} opt (f : value_of (PValue P) -> R) :
  cached k P key v -> get_impl P key opt f k = (Ok (Some (f v)), k).
Proof. intros H. unfold get_impl, mbind, stm_bind, get_state. by rewrite (cached_hit _ _ _ _ H). Qed.

Lemma cached_get_cloned k P key v opt : cached k P key v -> get_cloned P key opt k = (Ok (Some v), k).
Proof.
  intros H. unfold get_cloned, Kv_get, get_mapped, mbind at 1, stm_bind at 1.
  by rewrite (cached_get_impl k P key v opt (fun t => Some t) H).
Qed.

(** A key that was free is taken, with the value. *)
Lemma put_if_not_exists_Ok P key v e k k' :
  put_if_not_exists_internal P key v e k = (Ok None, k') -> exists resp w,
    http_put (to_key P key) (json_to_vec (PValue P) v) e (kv_world k) = (Some resp, w) /\
    (hr_status resp =? 409) = false /\ error_for_status resp = Ok resp /\ k' = with_value k w P key v.
Proof.
  unfold put_if_not_exists_internal. cbv zeta. intros H. apply stm_bind_Ok in H as (resp & k1 & Hs & H).
  unfold send in Hs. destruct (http_put _ _ _ _) as [[x|] w]; [|done]. injection Hs as -> <-.
  destruct (hr_status resp =? 409) eqn:H409; [done|]. apply stm_bind_Ok in H as (x & k1 & He & H).
  unfold lift in He. injection He as He <-. assert (x = resp) as ->
    by (unfold error_for_status in He; case_match; [done|congruence]).
  apply stm_bind_Ok in H as ([] & k2 & [= <-] & [= <-]). by exists resp, w.
Qed.

Lemma put_Ok P key v k k' :
  put P key v k = (Ok tt, k') -> exists w, k' = with_value k w P key v.
Proof.
  unfold put, put_internal. cbv zeta. intros H. apply stm_bind_Ok in H as (resp & k1 & Hs & H).
  unfold send in Hs. destruct (http_post _ _ _ _) as [[x|] w]; [|done]. injection Hs as -> <-.
  apply stm_bind_Ok in H as (x & k1 & [= He <-] & [= <-]). by exists w.
Qed.

(** A read leaves no trace but in the cache. *)
Lemma get_outcome_clock P key opt k r k' : get_outcome P key opt k r k' -> kv_clock k' = kv_clock k.
Proof. by intros []. Qed.
End Cached.

(** ** The service *)
Section Provisioning.
Context `{BP : BuildProfile} `{PC : PrioCodec} `{PA : PrioAgg} `{VO : !VdafOps} `{HX : HexCodec}.
Context `{HC : HpkeCrypto} `{B64 : Base64} `{UPa : UrlPath}.
Context {W : Type} `{KH : !KvHttp W} `{KJ : KvJson} `{PH : !ProxyHttp W}.
Abbreviation state := (App (W:=W)).

Lemma on_kv_cached (s : state) P key v opt msg :
  cached (app_kv s) P key v -> on_kv msg (get_cloned P key opt) s = (Ok (Some v), s).
Proof.
  intros H. unfold on_kv, try_kv, mbind, stm_bind. rewrite (cached_get_cloned _ _ _ _ _ H). by destruct s.
Qed.

Lemma on_kv_peek (s : state) P key v opt msg {R} (f : value_of (PValue P) -> R) :
  cached (app_kv s) P key v -> on_kv msg (peek P key opt f) s = (Ok (Some (f v)), s).
Proof.
  intros H. unfold on_kv, try_kv, peek, mbind, stm_bind. rewrite (cached_get_impl _ _ _ _ _ _ H). by destruct s.
Qed.

Lemma put_new_Ok msg P key v e taken (s s' : state) :
  put_new msg (put_if_not_exists_internal P key v e) taken s = (Ok tt, s') -> exists resp w,
    http_put (to_key P key) (json_to_vec (PValue P) v) e (kv_world (app_kv s)) = (Some resp, w) /\
    (hr_status resp =? 409) = false /\ error_for_status resp = Ok resp /\
    s' = set_kv s (with_value (app_kv s) w P key v).
Proof.
  unfold put_new, on_kv, try_kv, mbind, stm_bind, lift.
  destruct (put_if_not_exists_internal P key v e (app_kv s)) as [[[x|]|e'|] k] eqn:E; try done.
  intros [= <-]. apply put_if_not_exists_Ok in E as (resp & w & H1 & H2 & H3 & ->). by exists resp, w.
Qed.

(** Successful provisioning of the tokens *)
Lemma add_tokens_Ok cmd (s s' : state) :
  add_tokens cmd s = (Ok tt, s') -> exists k,
    s' = set_kv s k /\ kv_clock k = kv_clock (app_kv s) /\
    cached k LeaderBearerToken (hex_encode (at_task_id cmd))
      (MkBearerToken (at_leader_authentication_token cmd)) /\
    (at_role cmd = Role_Leader <-> is_Some (at_collector_authentication_token cmd)) /\
    (forall token, at_collector_authentication_token cmd = Some token ->
       cached k CollectorBearerToken (hex_encode (at_task_id cmd)) (MkBearerToken token)).
Proof.
  unfold add_tokens. intros H. apply stm_bind_Ok in H as ([] & s1 & H1 & H).
  apply put_new_Ok in H1 as (resp & w & _ & _ & _ & ->).
  destruct (at_role cmd) eqn:Hr, (at_collector_authentication_token cmd) as [token|] eqn:Ht; try done.
  - apply put_new_Ok in H as (resp' & w' & _ & _ & _ & ->). eexists. split; [by destruct s|].
    split_and!; [done|..]; [|by split|].
    + apply with_value_keeps; [done|]. apply with_value_cached.
    + intros t [= <-]. apply with_value_cached.
  - injection H as <-. eexists. split; [reflexivity|]. split_and!; [done|..]; [|split; [done|by intros []]|done].
    apply with_value_cached.
Qed.

(** The task of a command that was accepted. *)
Definition added_task (version : DapVersion) (cmd : InternalTestAddTask) (now : Time) (vdaf : Vdaf.VdafConfig)
    (key : VdafVerifyKey) (collector : HpkeConfig) (query : DapQueryConfig) : DapTaskConfig :=
  MkDapTaskConfig version (at_leader cmd) (at_helper cmd) (at_time_precision cmd) (at_min_batch_size cmd)
    query vdaf now (at_task_expiration cmd) key collector Method_Unknown 4.

(** What a command that is accepted has to contain, and what it leaves in the cache. *)
Lemma add_task_Ok version cmd (s s' : state) :
  internal_add_task version cmd s = (Ok tt, s') ->
  exists vdaf key_data key coll_data coll query k,
    test_vdaf_config (at_vdaf cmd) = Ok vdaf /\
    decode_base64url_vec (at_vdaf_verify_key cmd) = Some key_data /\
    get_decoded_verify_key vdaf key_data = Ok key /\
    decode_base64url_vec (at_collector_hpke_config cmd) = Some coll_data /\
    get_decoded HpkeConfig_decode coll_data = Ok coll /\
    test_query_config (at_query_type cmd) (at_max_batch_size cmd) = Ok query /\
    s' = set_kv s k /\
    cached k TaskConfigPrefix (hex_encode (at_task_id cmd))
      (added_task version cmd (app_now s) vdaf key coll query) /\
    cached k LeaderBearerToken (hex_encode (at_task_id cmd)) (MkBearerToken (at_leader_authentication_token cmd)) /\
    (at_role cmd = Role_Leader <-> is_Some (at_collector_authentication_token cmd)) /\
    (forall token, at_collector_authentication_token cmd = Some token ->
       cached k CollectorBearerToken (hex_encode (at_task_id cmd)) (MkBearerToken token)).
Proof.
  unfold internal_add_task. intros H.
  apply stm_bind_Ok in H as (vdaf & s1 & H1 & H). injection H1 as H1 <-.
  apply stm_bind_Ok in H as (kd & s1 & H2 & H). injection H2 as H2 <-. apply ok_or_Ok in H2.
  apply stm_bind_Ok in H as (key & s1 & H3 & H). injection H3 as H3 <-. apply map_err_Ok in H3.
  apply stm_bind_Ok in H as (cd & s1 & H4 & H). injection H4 as H4 <-. apply ok_or_Ok in H4.
  apply stm_bind_Ok in H as (coll & s1 & H5 & H). injection H5 as H5 <-. apply map_err_Ok in H5.
  apply stm_bind_Ok in H as ([] & s1 & H6 & H). apply add_tokens_Ok in H6 as (k & -> & Hclk & Hl & Hrole & Hc).
  apply stm_bind_Ok in H as (query & s1 & H7 & H). injection H7 as H7 <-.
  apply stm_bind_Ok in H as (s2 & s1 & [= <- <-] & H).
  apply put_new_Ok in H as (resp & w & _ & _ & _ & ->).
  eexists vdaf, kd, key, cd, coll, query, _. split_and!; try done.
  - apply with_value_cached.
  - by apply with_value_keeps.
  - intros t Ht. apply with_value_keeps; [done|]. by apply Hc.
Qed.

(** ** Authorization *)

(** The token a command gives to a sender *)
Definition given_token (cmd : InternalTestAddTask) (sender : DapSender) : option string :=
  match sender with
  | Sender_Leader => Some (at_leader_authentication_token cmd)
  | Sender_Collector => at_collector_authentication_token cmd
  | _ => None
  end.

Lemma taskprov_token_other (s : state) c f :
  DapTaskConfig_method c = Method_Unknown -> taskprov_token s c f = Ok None.
Proof. intros H. unfold taskprov_token, method_is_taskprov. rewrite H. by rewrite andb_false_r. Qed.

Lemma leader_token_read (s : state) tid c token :
  DapTaskConfig_method c = Method_Unknown -> cached (app_kv s) LeaderBearerToken (hex_encode tid) token ->
  get_leader_bearer_token_for tid c s = (Ok (Some token), s).
Proof.
  intros Hm H. cbn [get_leader_bearer_token_for app_tokens]. unfold mbind, stm_bind, get_state, lift.
  rewrite (taskprov_token_other s c _ Hm). exact (on_kv_cached s LeaderBearerToken _ token _ _ H).
Qed.

Lemma collector_token_read (s : state) tid c token :
  DapTaskConfig_method c = Method_Unknown -> cached (app_kv s) CollectorBearerToken (hex_encode tid) token ->
  get_collector_bearer_token_for tid c s = (Ok (Some token), s).
Proof.
  intros Hm H. cbn [get_collector_bearer_token_for app_tokens]. unfold mbind, stm_bind, get_state, lift.
  rewrite (taskprov_token_other s c _ Hm). exact (on_kv_cached s CollectorBearerToken _ token _ _ H).
Qed.

(** A token is compared with the one that is read. *)
Lemma check_token_read sender (get_token : stm state DapError (option BearerToken)) reason req got expected s :
  DapRequest_sender req = Some sender -> DapRequest_sender_auth req = Some got ->
  get_token s = (Ok (Some expected), s) ->
  check_token sender get_token reason req s
  = (Ok (Some (if BearerToken_eq got expected then None else Some (Text reason))), s).
Proof.
  intros Hs Ha Hg. unfold check_token. rewrite bool_decide_eq_true_2, Ha by done.
  unfold mbind, stm_bind. by rewrite Hg.
Qed.

Lemma token_decides (s : state) cmd c (req : DapRequest DaphneAuth) sender token raw :
  DapTaskConfig_method c = Method_Unknown ->
  cached (app_kv s) LeaderBearerToken (hex_encode (at_task_id cmd)) (MkBearerToken (at_leader_authentication_token cmd)) ->
  (forall t, at_collector_authentication_token cmd = Some t ->
     cached (app_kv s) CollectorBearerToken (hex_encode (at_task_id cmd)) (MkBearerToken t)) ->
  DapRequest_task_id req = Some (at_task_id cmd) ->
  DapRequest_sender_auth req = Some (MkDaphneAuth (Some token) None) ->
  DapRequest_sender req = Some sender -> given_token cmd sender = Some raw ->
  exists answer, app_unauthorized_reason c req s = (Ok answer, s) /\
    (answer = None <-> token = MkBearerToken raw).
Proof.
  intros Hm Hl Hc Htid Hauth Hs Hraw. exists (if BearerToken_eq token (MkBearerToken raw) then None else
    Some (Text match sender with
      | Sender_Leader => "The indicated bearer token is incorrect for the Leader."
      | _ => "The indicated bearer token is incorrect for the Collector." end)).
  split; [|rewrite <-BearerToken_eq_iff; by destruct (BearerToken_eq _ _)].
  unfold app_unauthorized_reason. rewrite Hauth. unfold token_unauthorized. cbn [auth_bearer_token].
  unfold bearer_token_authorized. cbn [DapRequest_task_id with_token]. rewrite Htid.
  assert (DapRequest_sender (with_token req (Some token)) = Some sender) as Hs' by (by destruct req).
  unfold mbind, stm_bind. destruct sender; try done; cbn in Hraw.
  - assert (check_token Sender_Leader (get_leader_bearer_token_for (at_task_id cmd) c)
      "The indicated bearer token is incorrect for the Leader." (with_token req (Some token)) s = (Ok None, s)) as ->.
    { unfold check_token. by rewrite bool_decide_eq_false_2 by (rewrite Hs'; done). }
    erewrite check_token_read; [|exact Hs'|done|exact (collector_token_read s _ c _ Hm (Hc raw Hraw))].
    by destruct (BearerToken_eq _ _).
  - injection Hraw as <-.
    erewrite check_token_read; [|exact Hs'|done|exact (leader_token_read s _ c _ Hm Hl)].
    by destruct (BearerToken_eq _ _).
Qed.

Lemma decoded_verify_key_ok vdaf bytes key : get_decoded_verify_key vdaf bytes = Ok key -> verify_key_ok vdaf key.
Proof.
  unfold get_decoded_verify_key, array_try_from, verify_key_ok.
  destruct vdaf as [[]| |]; cbn; (case_match eqn:E; [|done]); intros [= <-]; by apply N.eqb_eq.
Qed.

(** C28: A task that was added is served.  When the command to add a task succeeds, the service
    finds the task under its ID, with the version of the route, the VDAF, query, URLs and times
    of the command and a verification key of the length the VDAF takes; it is a Leader's task
    exactly if the command has a token for the Collector.  A request for the task with a token
    of the Leader, or of the Collector of a Leader's task, is let in exactly if the token is
    the one of the command. *)
Theorem added_task_served version cmd (s s' : state) :
  internal_add_task version cmd s = (Ok tt, s') ->
  exists c, app_get_task_config_for (at_task_id cmd) s' = (Ok (Some c), s') /\
    (exists vdaf key coll query,
       test_vdaf_config (at_vdaf cmd) = Ok vdaf /\ verify_key_ok vdaf key /\
       test_query_config (at_query_type cmd) (at_max_batch_size cmd) = Ok query /\
       c = added_task version cmd (app_now s) vdaf key coll query) /\
    (at_role cmd = Role_Leader <-> is_Some (at_collector_authentication_token cmd)) /\
    forall (req : DapRequest DaphneAuth) sender token raw,
      DapRequest_task_id req = Some (at_task_id cmd) ->
      DapRequest_sender_auth req = Some (MkDaphneAuth (Some token) None) ->
      DapRequest_sender req = Some sender -> given_token cmd sender = Some raw ->
      exists answer, app_unauthorized_reason c req s' = (Ok answer, s') /\
        (answer = None <-> token = MkBearerToken raw).
Proof.
  intros H. apply add_task_Ok in H as
    (vdaf & kd & key & cd & coll & query & k & Hv & _ & Hk & _ & _ & Hq & -> & Hcfg & Hl & Hrole & Hc).
  exists (added_task version cmd (app_now s) vdaf key coll query).
  split; [exact (on_kv_cached (set_kv s k) TaskConfigPrefix _ _ _ _ Hcfg)|].
  split; [|split; [done|]].
  - exists vdaf, key, coll, query. split_and!; [done|by eapply decoded_verify_key_ok|done..].
  - intros req sender token raw Htid Hauth Hs Hraw. by eapply token_decides.
Qed.

(** ** A command that fails late *)

(** The command with another query. *)
Definition with_query (cmd : InternalTestAddTask) (query_type : N) (max_batch_size : option N) :
    InternalTestAddTask :=
  MkInternalTestAddTask (at_task_id cmd) (at_leader cmd) (at_helper cmd) (at_vdaf cmd)
    (at_leader_authentication_token cmd) (at_collector_authentication_token cmd) (at_role cmd)
    (at_vdaf_verify_key cmd) query_type (at_min_batch_size cmd) max_batch_size (at_time_precision cmd)
    (at_collector_hpke_config cmd) (at_task_expiration cmd).

(** What the proxy documents of a key that is put if it does not exist, without an expiration:
    it is taken from then on, and cannot be put again. *)
Class KvTaken : Type := {
  taken : W -> string -> Prop;
  put_takes key bs w resp w' :
    http_put key bs None w = (Some resp, w') -> error_for_status resp = Ok resp -> taken w' key;
  taken_kept key key' bs e w : taken w key -> taken (http_put key' bs e w).2 key;
  taken_refused key bs e w resp w' :
    taken w key -> http_put key bs e w = (Some resp, w') -> error_for_status resp <> Ok resp;
}.

Abbreviation leader_key tid := (to_key LeaderBearerToken (hex_encode tid)).

Lemma add_tokens_take `{KT : KvTaken} cmd (s s' : state) :
  add_tokens cmd s = (Ok tt, s') -> taken (kv_world (app_kv s')) (leader_key (at_task_id cmd)).
Proof.
  unfold add_tokens. intros H. apply stm_bind_Ok in H as ([] & s1 & H1 & H).
  apply put_new_Ok in H1 as (resp & w & Hp & _ & He & ->).
  pose proof (put_takes _ _ _ _ _ Hp He) as Ht.
  destruct (at_role cmd), (at_collector_authentication_token cmd) as [token|]; try done.
  - apply put_new_Ok in H as (resp' & w' & Hp' & _ & _ & ->).
    pose proof (taken_kept _ (to_key CollectorBearerToken (hex_encode (at_task_id cmd)))
      (json_to_vec T_BearerToken (MkBearerToken token)) None _ Ht) as Ht'.
    cbn in Hp'. change (PValue CollectorBearerToken) with T_BearerToken in Hp'. rewrite Hp' in Ht'. exact Ht'.
  - by injection H as <-.
Qed.

Lemma add_tokens_taken `{KT : KvTaken} cmd (s s' : state) :
  taken (kv_world (app_kv s)) (leader_key (at_task_id cmd)) -> add_tokens cmd s <> (Ok tt, s').
Proof.
  unfold add_tokens. intros Ht H. apply stm_bind_Ok in H as ([] & s1 & H1 & _).
  apply put_new_Ok in H1 as (resp & w & Hp & _ & He & _). by eapply taken_refused.
Qed.

(** The run of a command up to the query. *)
Lemma add_task_steps version cmd (s s' : state) :
  internal_add_task version cmd s = (Ok tt, s') ->
  exists s1, add_tokens cmd s = (Ok tt, s1) /\ forall qt mbs e,
    test_query_config qt mbs = Err e ->
    internal_add_task version (with_query cmd qt mbs) s = (Err e, s1).
Proof.
  unfold internal_add_task. intros H.
  apply stm_bind_Ok in H as (vdaf & s1 & H1 & H). injection H1 as H1 <-.
  apply stm_bind_Ok in H as (kd & s1 & H2 & H). injection H2 as H2 <-.
  apply stm_bind_Ok in H as (key & s1 & H3 & H). injection H3 as H3 <-.
  apply stm_bind_Ok in H as (cd & s1 & H4 & H). injection H4 as H4 <-.
  apply stm_bind_Ok in H as (coll & s1 & H5 & H). injection H5 as H5 <-.
  apply stm_bind_Ok in H as ([] & s1 & H6 & _). exists s1. split; [done|]. intros qt mbs e He.
  change (add_tokens (with_query cmd qt mbs)) with (add_tokens cmd).
  unfold mbind, stm_bind, lift. cbn [with_query at_vdaf at_vdaf_verify_key at_collector_hpke_config
    at_query_type at_max_batch_size].
  by rewrite H1, H2, H3, H4, H5, H6, He.
Qed.

(** A command that fails late cannot be repeated.  Take a command to add a task that would
    succeed, and give it a query type or a batch size that is refused: it fails, but only after
    it has stored the tokens.  From then on no command for the task succeeds, the corrected one
    included. *)
Theorem failed_add_task_blocks `{KT : KvTaken} version cmd qt mbs e (s s' : state) :
  internal_add_task version cmd s = (Ok tt, s') -> test_query_config qt mbs = Err e ->
  exists s1, internal_add_task version (with_query cmd qt mbs) s = (Err e, s1) /\
    forall version' cmd' s2, at_task_id cmd' = at_task_id cmd ->
      internal_add_task version' cmd' s1 <> (Ok tt, s2).
Proof.
  intros H He. destruct (add_task_steps _ _ _ _ H) as (s1 & Ht & Hfail). exists s1. split; [by apply Hfail|].
  intros version' cmd' s2 Hid H2. destruct (add_task_steps _ _ _ _ H2) as (s3 & Ht3 & _).
  apply (add_tokens_taken cmd' s1 s3); [|done]. rewrite Hid. by apply (add_tokens_take cmd s).
Qed.

(** ** HPKE configurations *)
Abbreviation receiver_id r := (HpkeConfig_id (HpkeReceiverConfig_config r)).

Lemma on_kv_Ok {A} msg (m : stm (kv_state W) ProxyError A) (s s' : state) a :
  on_kv msg m s = (Ok a, s') -> exists k, m (app_kv s) = (Ok a, k) /\ s' = set_kv s k.
Proof.
  unfold on_kv, try_kv, mbind, stm_bind, lift. destruct (m (app_kv s)) as [[x|e|] k]; [|done..].
  intros [= <- <-]. by exists k.
Qed.

Lemma add_hpke_config_Ok version r (s s' : state) :
  internal_add_hpke_config version r s = (Ok tt, s') ->
  exists old k, s' = set_kv s k /\ Forall (fun x => receiver_id x <> receiver_id r) old /\
    cached k HpkeReceiverConfigSet (DapVersion_as_ref version) (old ++ [r]).
Proof.
  unfold internal_add_hpke_config. intros H. apply stm_bind_Ok in H as (o & s1 & H1 & H).
  apply on_kv_Ok in H1 as (k1 & _ & ->). destruct (existsb _ _) eqn:Hex; [done|].
  apply on_kv_Ok in H as (k2 & Hput & ->). apply put_Ok in Hput as (w & ->).
  eexists (default [] o), _. split; [by destruct s|]. split; [|apply with_value_cached].
  apply Forall_forall. intros x Hx E. assert (existsb (fun y => receiver_id r =? receiver_id y) (default [] o) = true);
    [|congruence]. apply existsb_exists. exists x. split; [by apply list_elem_of_In|]. rewrite E. apply N.eqb_refl.
Qed.

(** The configuration a ciphertext is for *)
Lemma find_added (old : list HpkeReceiverConfig) r id :
  Forall (fun x => receiver_id x <> receiver_id r) old ->
  List.find (fun x => receiver_id x =? id) (old ++ [r])
  = if receiver_id r =? id then Some r else List.find (fun x => receiver_id x =? id) old.
Proof.
  induction 1 as [|x old Hx _ IH]; cbn; [done|]. rewrite IH.
  destruct (N.eqb_spec (receiver_id x) id) as [E|]; [|done].
  by rewrite (proj2 (N.eqb_neq _ _)) by congruence.
Qed.

(** A configuration that was added decrypts what is encrypted to it; everything else is decrypted
    as before, by the configurations [old]. *)
Lemma added_config_decrypts version r (s s' : state) :
  internal_add_hpke_config version r s = (Ok tt, s') ->
  exists old, forall tid c info aad ciphertext,
    app_get_task_config_for tid s' = (Ok (Some c), s') -> DapTaskConfig_version c = version ->
    app_hpke_decrypt tid info aad ciphertext s'
    = (if receiver_id r =? HpkeCiphertext_config_id ciphertext
       then HpkeReceiverConfig_decrypt r info aad ciphertext
       else match List.find (fun x => receiver_id x =? HpkeCiphertext_config_id ciphertext) old with
            | Some x => HpkeReceiverConfig_decrypt x info aad ciphertext
            | None => Err (Transition_ HpkeUnknownConfigId)
            end, s').
Proof.
  intros H. apply add_hpke_config_Ok in H as (old & k & -> & Hold & Hc). exists old.
  intros tid c info aad ct Htask Hv. unfold app_hpke_decrypt, app_task, mbind, stm_bind, lift.
  rewrite Htask. cbn [ok_or]. rewrite Hv.
  rewrite (on_kv_peek (set_kv s k) HpkeReceiverConfigSet _ _ _ _ _ Hc), find_added by done.
  destruct (receiver_id r =? _); [done|]. by destruct (List.find _ old).
Qed.
End Provisioning.
