(* ===== verification/ServerApp.v ===== *)
(** * The service as an Aggregator behind its router

    [App] of [src/crates/daphne-server/src/] as an instance of [DapAggregator] and [DapLeader],
    so that the handlers of [Roles] and [Leader] and the routes of [Router] are those of the
    service, and the routes for tests ([router/test_routes.rs]).

    The trait has [hpke_decrypt] read the state only: the configuration a report is decrypted
    with is looked up in the state the handler has, and what the lookup leaves in the cache
    is not kept.  The random batch ID of a new batch and the signing key of the configuration
    are parameters.  The JSON commands of the routes for tests are read by the class
    [TestJson]. *)

From S2P Require Import Prelude Codec Messages TaskprovMessages Errors Config Pine Taskprov AggShare.
From S2P Require Import Hpke Protocol Auth LeaderState Roles Leader DurableStore DurableRequests Kv KvCorrect.
From S2P Require Import Server Router RouterCorrect ServerAdmin.

(** The ways [axum::Json] rejects a request. *)
Inductive JsonRejection : Type := MissingJsonContentType | JsonSyntaxError | JsonDataError.

Definition JsonRejection_status (e : JsonRejection) : N :=
  match e with MissingJsonContentType => 415 | JsonSyntaxError => 400 | JsonDataError => 422 end.

Class TestJson : Type := {
  json_endpoint_for_task : web_request -> res JsonRejection InternalTestEndpointForTask;
  json_add_task : web_request -> res JsonRejection InternalTestAddTask;
  json_hpke_receiver_config : web_request -> res JsonRejection HpkeReceiverConfig;
}.

Section ServerApp.
Context `{BP : BuildProfile} `{PC : PrioCodec} `{PA : PrioAgg} `{VO : !VdafOps} `{Dg : Digest}
  `{HC : HpkeCrypto} `{HK : Hkdf} `{B64 : Base64} `{UP : UrlParser} `{UJ : UrlJoin} `{PF : PineFields}.
Context `{PV : !PrioVec} `{PE : !PrioElemBytes} `{CP : Capnp} `{HX : HexCodec}.
Context `{AX : Axum} `{SG : Signer} `{UPa : UrlPath} `{TJ : TestJson}.
Context {W : Type} `{DH : !DoHttp W} `{KH : !KvHttp W} `{KJ : KvJson} `{PH : !ProxyHttp W} `{HT : !HttpClient W}.
Context (fresh_batch_id : App (W:=W) -> BatchId) (service_signing_key : option SigningKey).

Abbreviation app A := (stm (App (W:=W)) DapError A).

Definition App_new (network : W) (clock : N) (now : Time) (service_config : DaphneServiceConfig) : App (W:=W) :=
  MkApp (MkKvState ∅ network clock) service_config InMemoryLeaderState_default now.

(** A request of [self.http] *)
Definition on_network {A} (m : stm W DapError A) : app A := fun s =>
  let k := app_kv s in
  let '(r, w) := m (kv_world k) in
  (r, set_kv s (MkKvState (kv_cache k) w (kv_clock k))).

#[local] Instance app_aggregator : DapAggregator DaphneAuth (App (W:=W)) := {
  get_hpke_config_for := app_get_hpke_config_for;
  can_hpke_decrypt := app_can_hpke_decrypt;
  hpke_decrypt s := fun task_id info aad ciphertext => (app_hpke_decrypt task_id info aad ciphertext s).1;
  report_initializer := app_initializer;
  unauthorized_reason := app_unauthorized_reason;
  get_global_config := app_get_global_config;
  taskprov_vdaf_verify_key_init := app_taskprov_vdaf_verify_key_init;
  taskprov_collector_hpke_config := app_taskprov_collector_hpke_config;
  taskprov_opt_in := app_taskprov_opt_in;
  taskprov_put := app_taskprov_put;
  get_task_config_for := app_get_task_config_for;
  get_current_time := app_get_current_time;
  is_batch_overlapping := app_is_batch_overlapping;
  batch_exists := app_batch_exists;
  try_put_agg_share_span := app_try_put_agg_share_span;
  get_agg_share := app_get_agg_share;
  mark_collected := app_mark_collected;
}.

#[local] Instance app_leader : DapLeader DaphneAuth (App (W:=W)) := {
  authorize task_id task_config media_type _ := app_authorize task_id task_config media_type;
  DapLeader_put_report report task_id := s ← get_state; app_put_report (fresh_batch_id s) report task_id;
  DapLeader_current_batch := app_current_batch;
  DapLeader_init_collect_job := app_init_collect_job;
  DapLeader_poll_collect_job := app_poll_collect_job;
  DapLeader_dequeue_work := app_dequeue_work;
  DapLeader_enqueue_work := app_enqueue_work;
  DapLeader_finish_collect_job := app_finish_collect_job;
  send_http_post req url := on_network (app_send_http_post req url);
  send_http_put req url := on_network (app_send_http_put req url);
}.

#[local] Instance app_service : DaphneService (App (W:=W)) := fun _ => service_signing_key.

(** ** The routes for tests *)
Abbreviation web A := (stm (service (App (W:=W))) Empty_set A).
Abbreviation handler := (list (string * string) -> web_request -> web web_response).

(** The result of an operation of the service; an error is its problem document. *)
Definition respond {A} (m : stm (World (App (W:=W))) DapError A) (ok : A -> web_response) : web web_response :=
  r ← attempt m;
  match r with
  | Ok a => mret (ok a)
  | Err e => new_error e
  | Panic => lift Panic
  end.

Definition json_response (v : json_value) : web_response :=
  MkWebResponse 200 [(CONTENT_TYPE, String.list_byte_of_string "application/json")] (Body_json v).

Definition check_storage_readyness : handler := fun _ _ =>
  respond (call storage_ready_check) (fun _ => status_only 200).

(** [polls]: the order in which the runtime polls the jobs; [ids] and [seeds]: their randomness *)
Definition leader_process (polls : N -> list nat) (ids : N -> AggregationJobId) (seeds : N -> list byte) : handler := fun _ _ =>
  respond (process polls ids seeds 100) (fun telem => json_response (Json_telemetry telem)).

(** [Path(PathTaskId { task_id })] *)
Definition leader_current_batch : handler := fun params _ =>
  match path_get "task_id" params ≫= decode_base64url 32 with
  | None => mret (text_response 400 (Fmt "{e}" [ArgOpaque]))
  | Some task_id =>
      respond (call (DapLeader_current_batch task_id)) (fun batch_id =>
        MkWebResponse 200 [(CONTENT_TYPE, String.list_byte_of_string "application/octet-stream")]
          (Body_bytes (String.list_byte_of_string (encode_base64url batch_id))))
  end.

Definition delete_all_route : handler := fun _ _ =>
  respond (call internal_delete_all) (fun _ => status_only 200).

(** The argument [Json(cmd)] of a handler *)
Definition with_json {T} (parse : web_request -> res JsonRejection T) (req : web_request)
    (f : T -> web web_response) : web web_response :=
  match parse req with
  | Ok cmd => f cmd
  | Err e => mret (text_response (JsonRejection_status e) (Fmt "{e}" [ArgOpaque]))
  | Panic => lift Panic
  end.

(** The argument [Path(version)] of a handler *)
Definition with_version (params : list (string * string)) (f : DapVersion -> web web_response) : web web_response :=
  match path_get "version" params with
  | Some v =>
      match DapVersion_from_str v with
      | Ok version => f version
      | _ => mret (text_response 400 (Fmt "{e}" [ArgOpaque]))
      end
  | None => mret (text_response 400 (Fmt "{e}" [ArgOpaque]))
  end.

(** [app.service_config.default_version] *)
Definition with_default_version (f : DapVersion -> web web_response) : web web_response :=
  s ← get_state; f (sc_default_version (app_service_config (w_store (sv_world s)))).

Definition endpoint_for_task (version : DapVersion) (cmd : InternalTestEndpointForTask) : web web_response :=
  respond (call (internal_endpoint_for_task version cmd)) (fun path => json_response (Json_endpoint path)).

Definition add_task (version : DapVersion) (cmd : InternalTestAddTask) : web web_response :=
  respond (call (internal_add_task version cmd)) (fun _ => json_response Json_success).

Definition add_hpke_config (version : DapVersion) (hpke : HpkeReceiverConfig) : web web_response :=
  respond (call (internal_add_hpke_config version hpke)) (fun _ => json_response Json_success).

(** A handler with the version in the path, and the one with the default version *)
Definition versioned {T} (parse : web_request -> res JsonRejection T) (f : DapVersion -> T -> web web_response) :
    handler := fun params req => with_version params (fun v => with_json parse req (f v)).
Definition default_versioned {T} (parse : web_request -> res JsonRejection T)
    (f : DapVersion -> T -> web web_response) : handler := fun _ req =>
  with_json parse req (fun cmd => with_default_version (fun v => f v cmd)).

Definition test_routes (role : DapRole) (polls : N -> list nat) (ids : N -> AggregationJobId) (seeds : N -> list byte) :
    list (string * (http_method * handler)) :=
  match role with
  | Role_Leader =>
      [("/internal/process"%string, (POST, leader_process polls ids seeds));
       ("/internal/current_batch/task/:task_id"%string, (GET, leader_current_batch))]
  | Role_Helper => []
  end ++
  [("/internal/delete_all"%string, (POST, delete_all_route));
   ("/internal/test/ready"%string, (POST, check_storage_readyness));
   ("/internal/test/endpoint_for_task"%string, (POST, default_versioned json_endpoint_for_task endpoint_for_task));
   ("/:version/internal/test/endpoint_for_task"%string, (POST, versioned json_endpoint_for_task endpoint_for_task));
   ("/internal/test/add_task"%string, (POST, default_versioned json_add_task add_task));
   ("/:version/internal/test/add_task"%string, (POST, versioned json_add_task add_task));
   ("/internal/test/add_hpke_config"%string, (POST, default_versioned json_hpke_receiver_config add_hpke_config));
   ("/:version/internal/test/add_hpke_config"%string, (POST, versioned json_hpke_receiver_config add_hpke_config))].

(** [router::new(role, app)] with the feature [test-utils] *)
Definition service_router (role : DapRole) (polls : N -> list nat) (ids : N -> AggregationJobId) (seeds : N -> list byte)
    (seed : list byte) (req : web_request) : web web_response :=
  router_new role fetch_replay_protection_override seed (test_routes role polls ids seeds) req.

(** ** Every response of the service is accounted for *)
Section Responses.
Context {AL : AxumLaws AX}.

Lemma respond_answered {A} ms (m : stm (World (App (W:=W))) DapError A) ok (s : service _) :
  sv_metrics s = ms -> (forall a, response_ok (ok a)) -> (forall a, body_problems (ws_body (ok a)) = []) ->
  answered ms (respond m ok s).
Proof.
  intros Hs Hok Hb. apply (answered_match _ _ id); [done|]. intros a s' Hs'. by apply answered_ret.
Qed.

Lemma answered_plain (h : handler) :
  (forall params req s ms, sv_metrics s = ms -> answered ms (h params req s)) -> handler_answered h.
Proof. intros H params req w ms. exists None, None. apply H. by rewrite app_nil_r. Qed.

Lemma with_json_answered {T} parse req f ms (s : service _) :
  sv_metrics s = ms -> (forall cmd, answered ms (f cmd s)) -> answered ms (with_json (T:=T) parse req f s).
Proof.
  intros Hs Hf. unfold with_json. destruct (parse req) as [cmd|e|]; [done| |done].
  apply text_answered; [destruct e; set_solver|done].
Qed.

Lemma versioned_answered {T} parse f :
  (forall v cmd s ms, sv_metrics s = ms -> answered ms (f v cmd s)) -> handler_answered (versioned (T:=T) parse f).
Proof.
  intros Hf. apply answered_plain. intros params req s ms Hs. unfold versioned, with_version.
  assert (answered ms ((mret (text_response 400 (Fmt "{e}" [ArgOpaque])) : web web_response) s)) as Hbad
    by (apply text_answered; [set_solver|done]).
  destruct (path_get "version" params) as [v|]; [|done].
  destruct (DapVersion_from_str v) as [version|e|]; [|done..]. apply with_json_answered; [done|]. intros cmd. by apply Hf.
Qed.

Lemma default_versioned_answered {T} parse f :
  (forall v cmd s ms, sv_metrics s = ms -> answered ms (f v cmd s)) ->
  handler_answered (default_versioned (T:=T) parse f).
Proof.
  intros Hf. apply answered_plain. intros params req s ms Hs. apply with_json_answered; [done|].
  intros cmd. by apply Hf.
Qed.

(** The service with its routes for tests, in the words of [every_response_counted]. *)
Lemma service_responses_counted role polls ids seeds seed req w ms resp s' :
  service_router role polls ids seeds seed req (MkService w ms) = (Ok resp, s') ->
  response_ok resp /\
  exists tok tls, sv_metrics s' = ms ++ auth_events tok tls ++ body_problems (ws_body resp)
    ++ [count_http_status_code (ws_status resp)].
Proof.
  apply responses_counted. unfold test_routes. apply Forall_app. split; [destruct role|]; repeat constructor; cbn.
  all: try (apply versioned_answered || apply default_versioned_answered; intros; apply respond_answered;
    [done|by left|done]).
  all: apply answered_plain; intros params rq s ms' Hs.
  - apply respond_answered; [done|by left|done].
  - unfold leader_current_batch. destruct (path_get "task_id" params ≫= decode_base64url 32) as [tid|].
    + apply respond_answered; [done|by left|done].
    + apply text_answered; [set_solver|done].
  - apply respond_answered; [done| |done]. intros _. set_solver.
  - apply respond_answered; [done| |done]. intros _. set_solver.
Qed.
End Responses.
End ServerApp.
