(* ===== verification/Dapf.v ===== *)
(** * The command-line client

    [src/crates/dapf/src/]: [http_client.rs], [lib.rs], [test_routes.rs] and the actions of
    [main.rs]: fetching an HPKE configuration and checking its signature, the commands for a
    Leader, the rotation of HPKE configurations.  (The acceptance tests are in [Acceptance].)

    A command is a function in the state of the network ([HttpClient]).  What it reads from
    its standard input is an argument, [None] when it cannot be parsed.  X.509 certificates
    ([webpki], [x509_parser]) are the class [Webpki], the JSON of problem documents is the
    class [ProblemJson], and [wrangler], which reads and writes KV, the class [Wrangler]. *)

From S2P Require Import Prelude Codec Messages TaskprovMessages Errors Config AggShare Hpke.
From S2P Require Import Protocol ProtocolCorrect Pine Taskprov LeaderState Roles Leader Auth Server Router.

(** An [anyhow::Error] is its text. *)
Abbreviation anyhow := detail.

(** [Url::path_segments] *)
Class UrlSegments : Type := path_segments : Url -> option (list string).

Class Webpki : Type := {
  certificate : Type;
  (** [std::fs::read_to_string] *)
  read_file : string -> option string;
  (** the first PEM block as an end-entity certificate *)
  read_certificate : string -> option certificate;
  (** [verify_signature(&ECDSA_P256_SHA256, msg, signature)] *)
  verify_signature : certificate -> list byte -> list byte -> bool;
}.

(** [serde_json::from_str::<ProblemDetails>] *)
Class ProblemJson : Type := problem_of_json : list byte -> option ProblemDetails.

(** [wrangler kv:key get] and [put], with the list as JSON; [None] and [false] are failures. *)
Class Wrangler (W : Type) : Type := {
  wrangler_get : string -> W -> option (list HpkeReceiverConfig) * W;
  wrangler_put : string -> list HpkeReceiverConfig -> W -> bool * W;
}.

Section Dapf.
Context `{BP : BuildProfile} `{PC : PrioCodec} `{PA : PrioAgg} `{VO : !VdafOps} `{Dg : Digest}
  `{HC : HpkeCrypto} `{B64 : Base64} `{UP : UrlParser} `{UJ : UrlJoin} `{US : UrlSegments}
  `{AX : Axum} `{WP : Webpki} `{PJ : ProblemJson}.
Context {W : Type} `{HT : !HttpClient W} `{WR : !Wrangler W}.

(** ** [lib.rs] *)
Definition deduce_dap_version_from_url (url : Url) : res anyhow DapVersion :=
  segments ← ok_or (path_segments url) (Text "no version specified in leader url");
  segment ← match segments with s :: _ => Ok s | [] => Panic end;
  match DapVersion_from_str segment with
  | Ok version => Ok version
  | Err _ => Err (Text "failed to parse version parameter from url")
  | Panic => Panic
  end.

Definition response_to_anyhow (resp : web_reply) : anyhow := Fmt "unexpected response: {}" [ArgOpaque].

(** ** [http_client.rs] *)

(** [.send().await]; [context] is that of the error *)
Definition dapf_send (context : string) (method : http_method) (url : Url) (headers : HeaderMap)
    (body : list byte) : stm W anyhow web_reply := fun w =>
  let '(r, w) := http_send method url headers body w in (ok_or r (Text context), w).

(** [base_url.join(path)?] *)
Definition dapf_join (base_url : Url) (path : string) : res anyhow Url :=
  ok_or (url_join base_url path) (Text "url").

(** The check of the signature of a response *)
Definition check_signature (cert_path : string) (maybe_signature : option (list byte)) (bytes : list byte) :
    res anyhow unit :=
  cert ← ok_or (read_file cert_path) (Text "reading the certificate");
  signature ← ok_or maybe_signature (Text "Aggregator did not sign its response");
  signature_bytes ← ok_or (decode_base64url_vec (String.string_of_list_byte signature))
    (Text "decoding the signature");
  cert ← ok_or (read_certificate cert) (Text "parsing PEM certificate");
  if verify_signature cert bytes signature_bytes then Ok tt else Err (Fmt "signature not verified: {}" [ArgOpaque]).

Definition get_hpke_config (base_url : Url) (certificate_file : option string) :
    stm W anyhow HpkeConfigList :=
  url ← lift (dapf_join base_url "hpke_config");
  resp ← dapf_send "request failed" GET url [] [];
  if negb (is_success (rp_status resp)) then throw (response_to_anyhow resp)
  else
    let maybe_signature := header_get HPKE_SIGNATURE (rp_headers resp) in
    hpke_config_bytes ← lift (ok_or (rp_body resp) (Text "failed to read hpke config"));
    _ ← match certificate_file with
        | Some cert_path => lift (check_signature cert_path maybe_signature hpke_config_bytes)
        | None => mret tt
        end;
    lift (map_err (fun _ => Text "decoding") (get_decoded HpkeConfigList_decode hpke_config_bytes)).

(** [hpke_configs.swap_remove(0)] *)
Definition first_config (l : HpkeConfigList) : res anyhow HpkeConfig :=
  match HpkeConfigList_hpke_configs l with c :: _ => Ok c | [] => Panic end.

(** ** [main.rs]: the commands for a Leader *)

(** The header of a media type; [HeaderValue::from_str(..).expect(..)] *)
Definition content_type_headers (media_type : DapMediaType) (version : DapVersion) : res anyhow HeaderMap :=
  t ← ok_or (as_str_for_version media_type version) (Text "invalid content-type for dap version");
  v ← unwrap (header_from_str t);
  Ok (header_insert CONTENT_TYPE v []).

(** A response of status 400 has a problem document. *)
Definition problem_error (resp : web_reply) : res anyhow unit :=
  text ← ok_or (rp_body resp) (Text "body");
  _ ← ok_or (problem_of_json text) (Text "unexpected response");
  Err (Fmt "{problem_details}" [ArgOpaque]).

(** [rid], [shard] and [seeds]: the randomness of the report *)
Definition leader_upload (rid : ReportId) (shard : list byte) (seeds : list byte * list byte)
    (now : Time) (measurement : option DapMeasurement) (leader_url helper_url : Url)
    (vdaf_config : Vdaf.VdafConfig) (certificate_file : option string) (task_id : TaskId) :
    stm W anyhow unit :=
  measurement ← lift (ok_or measurement (Text "failed to parse JSON from stdin"));
  leader_list ← get_hpke_config leader_url certificate_file;
  leader_hpke_config ← lift (first_config leader_list);
  helper_list ← get_hpke_config helper_url certificate_file;
  helper_hpke_config ← lift (first_config helper_list);
  version ← lift (deduce_dap_version_from_url leader_url);
  report ← lift (map_err (fun _ => Text "failed to produce report")
    (produce_report rid shard seeds vdaf_config (leader_hpke_config, helper_hpke_config) now task_id
       measurement version));
  headers ← lift (content_type_headers MT_Report version);
  url ← lift (dapf_join leader_url "upload");
  body ← lift (map_err (fun _ => Text "encoding") (get_encoded (Report_encode version) report));
  resp ← dapf_send "send" POST url headers body;
  if rp_status resp =? 400 then lift (problem_error resp)
  else if negb (rp_status resp =? 200) then throw (response_to_anyhow resp)
  else mret tt.

(** [token] is the variable [LEADER_BEARER_TOKEN]. *)
Definition leader_collect (query : option Query) (token : option string) (leader_url : Url) : stm W anyhow Url :=
  query ← lift (ok_or query (Text "failed to parse JSON from stdin"));
  version ← lift (deduce_dap_version_from_url leader_url);
  headers ← lift (content_type_headers MT_CollectReq version);
  headers ← lift match token with
                 | Some token =>
                     v ← ok_or (header_from_str token) (Text "token"); Ok (header_insert DAP_AUTH_TOKEN v headers)
                 | None => Ok headers
                 end;
  url ← lift (dapf_join leader_url "collect");
  body ← lift (map_err (fun _ => Text "encoding")
    (get_encoded (CollectionReq_encode version) (MkCollectionReq query [])));
  resp ← dapf_send "send" POST url headers body;
  if rp_status resp =? 400 then (_ ← lift (problem_error resp); lift Panic)
  else if negb (rp_status resp =? 303) then throw (response_to_anyhow resp)
  else
    v ← lift (ok_or (header_get "location" (rp_headers resp)) (Text "response is missing Location header"));
    uri_str ← lift (ok_or (header_to_str v) (Text "location"));
    lift (ok_or (url_parse uri_str) (Text "Leader did not respond with valid URI")).

Definition leader_collect_poll (batch_selector : option BatchSelector) (uri : Url) (vdaf_config : Vdaf.VdafConfig)
    (hpke_receiver : option HpkeReceiverConfig) (task_id : TaskId) : stm W anyhow DapAggregateResult :=
  batch_selector ← lift (ok_or batch_selector (Text "failed to parse JSON from stdin"));
  resp ← dapf_send "send" GET uri [] [];
  if rp_status resp =? 202 then throw (Text "aggregate result not ready")
  else if negb (rp_status resp =? 200) then throw (response_to_anyhow resp)
  else
    receiver ← lift (ok_or hpke_receiver
      (Text "received response, but cannot decrypt without HPKE receiver config"));
    version ← lift (deduce_dap_version_from_url uri);
    bytes ← lift (ok_or (rp_body resp) (Text "body"));
    collect_resp ← lift (map_err (fun _ => Text "decoding") (get_decoded (Collection_decode version) bytes));
    lift (map_err (fun _ => Text "consume")
      (consume_encrypted_agg_shares vdaf_config (receiver_decrypter receiver) task_id batch_selector
         (Collection_report_count collect_resp) AggParam_Empty
         [(Collection_encrypted_agg_shares collect_resp).1; (Collection_encrypted_agg_shares collect_resp).2]
         version)).

(** ** [main.rs]: HPKE configurations *)
Definition kv_key_of (dap_version : DapVersion) : string :=
  String.append "hpke_receiver_config_set/" (DapVersion_as_ref dap_version).

Definition get_receiver_config (dap_version : DapVersion) : stm W anyhow (list HpkeReceiverConfig) := fun w =>
  let '(r, w) := wrangler_get (kv_key_of dap_version) w in
  (ok_or r (Text "Failed to get current HPKE receiver config list"), w).

(** The loop over random IDs; [None] when none of [ids] is free. *)
Definition choose_id (ids : list N) (configs : list HpkeReceiverConfig) : option N :=
  List.find (fun id => negb (existsb (fun c => HpkeConfig_id (HpkeReceiverConfig_config c) =? id) configs)) ids.

Definition put_receiver_config (dap_version : DapVersion) (l : list HpkeReceiverConfig) : stm W anyhow unit := fun w =>
  let '(ok, w) := wrangler_put (kv_key_of dap_version) l w in
  (if ok : bool then Ok tt else Err (Text "Failed to put updatedt HPKE receiver config list"), w).

(** [ids] are the draws of the loop, which goes on until a free one: the command does not end
    if there is none ([None]). *)
Definition rotate_receiver_config (ids : list N) (seed : list byte) (dap_version : DapVersion) (kem_alg : HpkeKemId) :
    stm W anyhow (option unit) :=
  hpke_receiver_config_list ← get_receiver_config dap_version;
  match choose_id ids hpke_receiver_config_list with
  | None => mret None
  | Some hpke_config_id =>
      new_hpke_receiver_config ← lift (map_err (fun _ => Text "failed to generate HPKE receiver config")
        (HpkeReceiverConfig_gen seed hpke_config_id kem_alg));
      _ ← put_receiver_config dap_version (new_hpke_receiver_config :: hpke_receiver_config_list);
      mret (Some tt)
  end.

(** ** [test_routes.rs] *)

(** [error_for_status().context(..)?] *)
Definition check_status (context : string) (resp : web_reply) : res anyhow unit :=
  if (400 <=? rp_status resp) && (rp_status resp <? 600) then Err (Text context) else Ok tt.

(** The loop over random configurations: [draws] are the IDs and seeds.  [None] when none has a
    free ID; the command does not end then. *)
Fixpoint gen_fresh (draws : list (N * list byte)) (kem_alg : HpkeKemId) (configs : list HpkeConfig) :
    res anyhow (option HpkeReceiverConfig) :=
  match draws with
  | [] => Ok None
  | (id, seed) :: draws =>
      config ← map_err (fun _ => Text "failed to generate HPKE receiver config")
        (HpkeReceiverConfig_gen seed id kem_alg);
      if forallb (fun c => negb (HpkeConfig_id c =? HpkeConfig_id (HpkeReceiverConfig_config config))) configs
      then Ok (Some config) else gen_fresh draws kem_alg configs
  end.

(** A call of which an error is handled by the caller *)
Definition dapf_try {A} (m : stm W anyhow A) : stm W anyhow (res anyhow A) := fun w =>
  let '(r, w) := m w in (match r with Panic => Panic | r => Ok r end, w).

(** [json] is [RequestBuilder::json]: the headers and the body of a configuration. *)
Definition dapf_add_hpke_config (json : HpkeReceiverConfig -> HeaderMap * list byte)
    (draws : list (N * list byte)) (aggregator_url : Url) (kem_alg : HpkeKemId) : stm W anyhow (option unit) :=
  r ← dapf_try (get_hpke_config aggregator_url None);
  let hpke_configs := match r with Ok l => HpkeConfigList_hpke_configs l | _ => [] end in
  o ← lift (gen_fresh draws kem_alg hpke_configs);
  match o with
  | None => mret None
  | Some receiver_config =>
      url ← lift (unwrap (url_join aggregator_url "internal/test/add_hpke_config"));
      resp ← dapf_send "adding the hpke config" POST url (json receiver_config).1 (json receiver_config).2;
      _ ← lift (check_status "adding the hpke config" resp);
      mret (Some tt)
  end.

Definition delete_all_storage (json : HpkeReceiverConfig -> HeaderMap * list byte)
    (draws : list (N * list byte)) (aggregator_url : Url) (kem_alg : option HpkeKemId) : stm W anyhow (option unit) :=
  url ← lift (unwrap (url_join aggregator_url "/internal/delete_all"));
  resp ← dapf_send "deleting storage" POST url [] [];
  _ ← lift (check_status "deleting storage" resp);
  match kem_alg with
  | Some kem_alg => dapf_add_hpke_config json draws aggregator_url kem_alg
  | None => mret (Some tt)
  end.
End Dapf.
