(* ===== verification/DapfCorrect.v ===== *)
(** * The command-line client against the service

    What the client gets when it asks a service for its HPKE configuration
    ([hpke_config_fetched]), and that its commands for a Leader are for routes the Leader does
    not have ([leader_commands_unserved]); the rotation of HPKE configurations
    ([rotation_keeps_ids]). *)

From Stdlib Require Import Ascii.
From S2P Require Import Prelude Codec Messages TaskprovMessages Errors Config AggShare Hpke.
From S2P Require Import Protocol Pine Taskprov LeaderState Roles Leader Auth Server Router RouterCorrect Dapf.

Lemma plain_visible s : plain s = true -> visible s = true.
Proof.
  unfold plain, visible. intros [_ H]%andb_prop. rewrite forallb_forall in *. intros c Hc%H.
  unfold unreserved in Hc. set (n := N_of_ascii c) in *.
  rewrite !orb_true_iff, !andb_true_iff, !N.leb_le, !N.eqb_eq in Hc. apply andb_true_intro.
  rewrite N.leb_le, N.ltb_lt. lia.
Qed.

Section Fetch.
Context `{BP : BuildProfile} `{PC : PrioCodec} {CL : PrioCodecLaws PC} `{PA : PrioAgg} `{VO : !VdafOps} `{Dg : Digest}
  `{HC : HpkeCrypto} `{HK : Hkdf} `{B64 : Base64} {BL : Base64Laws B64} {B64P : Base64Plain B64}
  `{UP : UrlParser} `{UJ : UrlJoin} `{PF : PineFields} `{UPa : UrlPath} `{WJ : WebJson} `{WP : Webpki}.
Context `{AX : Axum} {AL : AxumLaws AX} `{SG : Signer} {St : Type}.
Context `{DA : !DapAggregator DaphneAuth St} `{DL : !DapLeader DaphneAuth St} `{DS : !DaphneService St}.
Context (rp : stm St DapError ReplayProtection) (seed : list byte).
Context (test_routes : list (string * (http_method *
  (list (string * string) -> web_request -> stm (service St) Empty_set web_response)))).

(** The request the service extracts *)
Definition hpke_request (version : DapVersion) : DapRequest DaphneAuth :=
  MkDapRequest version None None Undefined [] (Some (MkDaphneAuth None None)) None.

(** The response of the route, for the response of the handler *)
Definition signed_response (resp : DapResponse) (key : option SigningKey) (v : list byte) : web_response :=
  match key with
  | None => success_response resp 200 v
  | Some k => append_header HPKE_SIGNATURE (encode_base64url (sign_to_der k (DapResponse_payload resp)))
                (success_response resp 200 v)
  end.

Lemma hpke_route role version url body (s : service St) w' resp :
  url_path url = path_of [DapVersion_as_ref version; "hpke_config"]%string -> url_query url = ""%string ->
  handle_hpke_config_req (hpke_request version) None (sv_world s) = (Ok resp, w') ->
  DapResponse_media_type resp = MT_HpkeConfigList -> body = [] ->
  exists v ms', http_send (HttpClient:=router_network rp seed test_routes role) GET url [] body s
    = (as_reply (Ok (signed_response resp (signing_key (w_store w')) v)), MkService w' ms').
Proof.
  intros Hp Hq Hh Hmt ->. unfold http_send, router_network, router_new. rewrite Hp, Hq.
  unfold route, aggregator_routes. cbn [app].
  rewrite (find_route_segments [Param "version"; Static "hpke_config"] "/:version/hpke_config" _ _ _
    (MkWebRequest GET (path_of [DapVersion_as_ref version; "hpke_config"]%string) "" [] (Some []))
    [DapVersion_as_ref version; "hpke_config"%string] eq_refl eq_refl eq_refl) by (by destruct version).
  cbn [match_segments String.eqb Ascii.eqb Bool.eqb fmap option_fmap option_map]. rewrite decide_True by done.
  unfold request_metrics, hpke_config. cbn [wr_query]. rewrite query_param_none. cbn [id_option_deserialize].
  unfold with_request, from_request.
  assert (path_params [("version"%string, DapVersion_as_ref version)] = Ok (MkPathParams version None None None)) as ->
    by (by destruct version).
  cbn [wr_headers wr_body]. unfold mbind, stm_bind, attempt. cbn -[new_success handle_hpke_config_req].
  change (MkDapRequest version None None Undefined [] (Some (MkDaphneAuth None None)) None) with (hpke_request version).
  change (@None (list byte)) with (@None TaskId). rewrite Hh. unfold get_state. cbn [sv_world].
  destruct (new_success_eq resp 200 (MkService w' (sv_metrics s))) as (v & Hs & _).
  exists v. destruct (signing_key (w_store w')) as [k|]; eexists; cbn [fmap option_fmap option_map].
  - unfold sign_dap_response. rewrite Hmt. unfold new_success. rewrite Hs. reflexivity.
  - unfold new_success. rewrite Hs. reflexivity.
Qed.

(** What the signature of a service has to be for the client to accept it *)
Definition signature_good (cert_path : string) (key : option SigningKey) (bytes : list byte) : Prop :=
  exists pem crt k, read_file cert_path = Some pem /\ read_certificate pem = Some crt /\ key = Some k /\
    verify_signature crt bytes (sign_to_der k bytes) = true.

(** What the law of [p256] is needed for: a signature is not empty. *)
Class SignerLaws : Prop := sign_nonempty k bs : sign_to_der k bs <> [].

(** The status is that of success, and the body and the signature arrive. *)
Lemma signed_response_read `{SL : SignerLaws} resp key v :
  ws_status (signed_response resp key v) = 200 /\
  ws_body (signed_response resp key v) = Body_bytes (DapResponse_payload resp) /\
  header_get HPKE_SIGNATURE (ws_headers (signed_response resp key v))
  = (fun k => String.list_byte_of_string (encode_base64url (sign_to_der k (DapResponse_payload resp)))) <$> key.
Proof.
  destruct key as [k|]; [|done]. unfold signed_response, append_header.
  destruct (header_visible (encode_base64url (sign_to_der k (DapResponse_payload resp)))) as [h Hh];
    [by apply plain_visible, base64_plain, sign_nonempty|].
  rewrite Hh, (header_bytes _ _ Hh). done.
Qed.

Lemma check_signature_iff cert_path key bytes :
  let r := check_signature cert_path
    ((fun k => String.list_byte_of_string (encode_base64url (sign_to_der k bytes))) <$> key) bytes in
  (r = Ok tt /\ signature_good cert_path key bytes) \/ (exists e, r = Err e) /\ ~ signature_good cert_path key bytes.
Proof.
  cbv zeta. unfold check_signature, signature_good.
  destruct (read_file cert_path) as [pem|]; cbn [ok_or mbind res_bind]; [|right; split; [by eexists|naive_solver]].
  destruct key as [k|]; cbn [fmap option_fmap option_map ok_or mbind res_bind]; [|right; split; [by eexists|naive_solver]].
  rewrite String.string_of_list_byte_of_string. unfold decode_base64url_vec, encode_base64url.
  rewrite base64_round_trip. cbn [ok_or mbind res_bind].
  destruct (read_certificate pem) as [crt|] eqn:Hcrt; cbn [ok_or mbind res_bind];
    [|right; split; [by eexists|intros (? & ? & ? & [= <-] & H & _); congruence]].
  destruct (verify_signature crt bytes (sign_to_der k bytes)) eqn:Hv; [left|right].
  - split; [done|]. by exists pem, crt, k.
  - split; [by eexists|]. intros (? & ? & ? & [= <-] & H2 & [= <-] & H4). congruence.
Qed.

Abbreviation fetch role base cert :=
  (get_hpke_config (HT:=router_network rp seed test_routes role) base cert).

(** C27: The HPKE configuration a client fetches is that of the service.  Let the service have the
    configuration [c], and let the client ask it at its base URL.  Without a certificate the
    client gets [c]; with one it gets [c] if the service has signed its response with a key
    whose signature the certificate verifies, and refuses the response otherwise, also when it
    is not signed. *)
Theorem hpke_config_fetched `{SL : SignerLaws} role base url version cert c w s1 ms :
  url_join base "hpke_config" = Some url ->
  url_path url = path_of [DapVersion_as_ref version; "hpke_config"]%string -> url_query url = ""%string ->
  get_hpke_config_for version None (w_store w) = (Ok c, s1) ->
  HpkeConfigList_wf (MkHpkeConfigList [c]) ->
  exists payload s', get_encoded HpkeConfigList_encode (MkHpkeConfigList [c]) = Ok payload /\
    (len payload <= slice_max ->
     exists r, fetch role base cert (MkService w ms) = (r, s') /\
       match cert with
       | None => r = Ok (MkHpkeConfigList [c])
       | Some path =>
           r = Ok (MkHpkeConfigList [c]) /\ signature_good path (signing_key s1) payload \/
           (exists e, r = Err e) /\ ~ signature_good path (signing_key s1) payload
       end).
Proof.
  intros Hj Hp Hq Hc Hwf.
  destruct (codec_round_trips _ _ _ HpkeConfigList_codec _ Hwf) as (payload & He & Hd).
  set (resp := MkDapResponse version MT_HpkeConfigList payload).
  set (w' := MkWorld s1 (w_metrics w ++ [inbound_req_inc RT_HpkeConfig]) (w_audit w)).
  assert (handle_hpke_config_req (hpke_request version) None w = (Ok resp, w')) as Hh.
  { unfold handle_hpke_config_req, mbind, stm_bind, call. cbn [DapRequest_version hpke_request].
    rewrite Hc. unfold lift. cbn. rewrite He. done. }
  destruct (hpke_route role version url [] (MkService w ms) w' resp Hp Hq Hh eq_refl eq_refl) as (v & ms' & Hs).
  exists payload, (MkService w' ms'). split; [done|]. intros Hlen.
  destruct (signed_response_read resp (signing_key s1) v) as (E1 & E2 & E3).
  unfold get_hpke_config, dapf_join, dapf_send, mbind, stm_bind, lift. rewrite Hj. cbn [ok_or].
  change (w_store w') with s1 in Hs. rewrite Hs. cbn [as_reply ok_or rp_status rp_headers rp_body].
  rewrite E1, E2, E3. cbn [is_success negb]. change ((200 <=? 200) && (200 <? 300)) with true. cbn [negb].
  change (DapResponse_payload resp) with payload. destruct cert as [path|]; [|rewrite (Hd Hlen); by eexists].
  destruct (check_signature_iff path (signing_key s1) payload) as [[Hr Hg]|[[e Hr] Hg]]; rewrite Hr;
    [rewrite (Hd Hlen)|]; (eexists; split; [reflexivity|]); [by left|right; split; [by eexists|done]].
Qed.
End Fetch.

(** ** The commands for a Leader *)
Section Unserved.
Context `{BP : BuildProfile} `{PC : PrioCodec} `{PA : PrioAgg} `{VO : !VdafOps} `{Dg : Digest}
  `{HC : HpkeCrypto} `{HK : Hkdf} `{B64 : Base64} `{UP : UrlParser} `{UJ : UrlJoin} `{US : UrlSegments}
  `{PF : PineFields} `{UPa : UrlPath} `{WJ : WebJson} `{WP : Webpki} `{PJ : ProblemJson}.
Context `{AX : Axum} {AL : AxumLaws AX} `{SG : Signer} {St : Type}.
Context `{DA : !DapAggregator DaphneAuth St} `{DL : !DapLeader DaphneAuth St} `{DS : !DaphneService St}.
Context (rp : stm St DapError ReplayProtection) (seed : list byte).
Context {W : Type} `{HT : !HttpClient W}.

(** What is sent to [url] is answered by the routes of a Leader, in some state of it. *)
Definition leader_answers (url : Url) : Prop := forall method headers body w,
  exists s, (http_send method url headers body w).1
    = as_reply (router_new Role_Leader rp seed []
        (MkWebRequest method (url_path url) (url_query url) headers (Some body)) s).1.

(** A path none of the routes of a Leader is for, for the method *)
Lemma leader_route_missing method parts query headers body :
  forallb plain parts = true ->
  match_segments [Param "version"; Static "hpke_config"] parts = None ->
  match_segments [Param "version"; Static "collect"; Static "task"; Param "task_id"; Static "req";
    Param "collect_job_id"] parts = None \/ method <> POST ->
  match_segments [Param "version"; Static "tasks"; Param "task_id"; Static "reports"] parts = None ->
  match_segments [Param "version"; Static "tasks"; Param "task_id"; Static "collection_jobs";
    Param "collect_job_id"] parts = None ->
  exists b, route (aggregator_routes ++ leader_routes ++ [] : list (string * (http_method * (list (string * string) ->
      web_request -> stm (service St) Empty_set web_response))))
    (MkWebRequest method (path_of parts) query headers (Some body)) = mret (status_only (if b : bool then 405 else 404)).
Proof.
  intros Hpl H1 H2 H3 H4. set (wreq := MkWebRequest method (path_of parts) query headers (Some body)).
  unfold route, aggregator_routes, leader_routes. cbn [app].
  rewrite (find_route_segments [Param "version"; Static "hpke_config"] "/:version/hpke_config"
    _ _ _ wreq parts eq_refl eq_refl eq_refl Hpl), H1.
  rewrite (find_route_segments [Param "version"; Static "collect"; Static "task"; Param "task_id"; Static "req";
    Param "collect_job_id"] "/:version/collect/task/:task_id/req/:collect_job_id"
    _ _ _ wreq parts eq_refl eq_refl eq_refl Hpl).
  rewrite (find_route_segments [Param "version"; Static "tasks"; Param "task_id"; Static "reports"]
    "/:version/tasks/:task_id/reports" _ _ _ wreq parts eq_refl eq_refl eq_refl Hpl), H3.
  rewrite (find_route_segments [Param "version"; Static "tasks"; Param "task_id"; Static "collection_jobs";
    Param "collect_job_id"] "/:version/tasks/:task_id/collection_jobs/:collect_job_id"
    _ _ _ wreq parts eq_refl eq_refl eq_refl Hpl), H4.
  cbn [find_route snd]. destruct H2 as [->|Hm]; [by exists false|].
  clear H1 H3 H4. destruct (match_segments _ parts); [|by exists false]. rewrite decide_False by (intros E; by destruct Hm). by exists true.
Qed.

(** The reply to a request without a route *)
Lemma unserved_status url method parts headers body w :
  leader_answers url -> url_path url = path_of parts ->
  (exists b, route (aggregator_routes ++ leader_routes ++ [] : list (string * (http_method * (list (string * string) ->
      web_request -> stm (service St) Empty_set web_response))))
    (MkWebRequest method (path_of parts) (url_query url) headers (Some body))
    = mret (status_only (if b : bool then 405 else 404))) ->
  exists reply w', http_send method url headers body w = (Some reply, w') /\
    (rp_status reply = 405 \/ rp_status reply = 404).
Proof.
  intros Ha Hp [b Hb]. destruct (Ha method headers body w) as [s Hs]. rewrite Hp in Hs.
  unfold router_new, request_metrics, mbind, stm_bind in Hs. rewrite Hb in Hs. cbn in Hs.
  destruct (http_send method url headers body w) as [r w']. cbn in Hs. subst r.
  eexists _, w'. split; [reflexivity|]. cbn. destruct b; auto.
Qed.

(** The path the client asks for the result of a collection *)
Definition collect_path (version : DapVersion) (task_id : TaskId) (collect_id : CollectionJobId) : list string :=
  [DapVersion_as_ref version; "collect"; "task"; encode_base64url task_id; "req"; encode_base64url collect_id]%string.

Lemma bind_not_ok {A B} (m : stm W anyhow A) (k : A -> stm W anyhow B) w y :
  (forall x w', m w = (Ok x, w') -> (k x w').1 <> Ok y) -> ((x ← m; k x) w).1 <> Ok y.
Proof. intros H. unfold mbind, stm_bind. destruct (m w) as [[x|e|] w'] eqn:E; [by apply H|done|done]. Qed.

(** A request without a route, and what the client makes of the status *)
Lemma send_not_ok {B} context method url parts headers body (k : web_reply -> stm W anyhow B) w y :
  leader_answers url -> url_path url = path_of parts ->
  (exists b, route (aggregator_routes ++ leader_routes ++ [] : list (string * (http_method * (list (string * string) ->
      web_request -> stm (service St) Empty_set web_response))))
    (MkWebRequest method (path_of parts) (url_query url) headers (Some body))
    = mret (status_only (if b : bool then 405 else 404))) ->
  (forall resp w', rp_status resp = 405 \/ rp_status resp = 404 -> (k resp w').1 <> Ok y) ->
  ((resp ← dapf_send context method url headers body; k resp) w).1 <> Ok y.
Proof.
  intros Ha Hp Hr Hk. apply bind_not_ok. intros resp w' E.
  destruct (unserved_status url method parts headers body w Ha Hp Hr) as (reply & w1 & Hs & Hst).
  unfold dapf_send in E. rewrite Hs in E. injection E as <- <-. by apply Hk.
Qed.

(** The commands of the client for a Leader are not served by the Leader of this repository.
    It is asked to take a report at [upload] and to collect at [collect], for which it has no
    route, and for a result with [GET], where its route is for [POST]; so [upload],
    [collect] and [collect-poll] never succeed, whatever their arguments and the state of the
    Leader. *)
Theorem leader_commands_unserved base upload_url collect_url poll_url version tid cid w :
  url_join base "upload" = Some upload_url -> url_join base "collect" = Some collect_url ->
  url_path upload_url = path_of [DapVersion_as_ref version; "upload"]%string ->
  url_path collect_url = path_of [DapVersion_as_ref version; "collect"]%string ->
  url_path poll_url = path_of (collect_path version tid cid) ->
  forallb plain (collect_path version tid cid) = true ->
  leader_answers upload_url -> leader_answers collect_url -> leader_answers poll_url ->
  (forall rid shard seeds now m helper vdaf cert task,
     (leader_upload rid shard seeds now m base helper vdaf cert task w).1 <> Ok tt) /\
  (forall query token uri, (leader_collect query token base w).1 <> Ok uri) /\
  (forall selector vdaf receiver task result,
     (leader_collect_poll selector poll_url vdaf receiver task w).1 <> Ok result).
Proof.
  intros Hju Hjc Hpu Hpc Hpp Hpl Au Ac Ap.
  split; [|split]; [intros; unfold leader_upload|intros; unfold leader_collect|intros; unfold leader_collect_poll].
  - do 8 (apply bind_not_ok; intros ? ? _). unfold dapf_join. rewrite Hju.
    apply bind_not_ok; intros ? ? [= <- <-]. apply bind_not_ok; intros ? ? _.
    eapply send_not_ok; [done|done|apply leader_route_missing; by destruct version; auto|].
    intros resp ? [E|E]; rewrite E; done.
  - do 4 (apply bind_not_ok; intros ? ? _). unfold dapf_join. rewrite Hjc.
    apply bind_not_ok; intros ? ? [= <- <-]. apply bind_not_ok; intros ? ? _.
    eapply send_not_ok; [done|done|apply leader_route_missing; by destruct version; auto|].
    intros resp ? [E|E]; rewrite E; done.
  - apply bind_not_ok; intros ? ? _.
    eapply send_not_ok; [done|done|apply leader_route_missing; try done; by right|].
    intros resp ? [E|E]; rewrite E; done.
Qed.
End Unserved.

(** ** Rotation of HPKE configurations *)
Section Rotation.
Context `{HC : HpkeCrypto} {W : Type} `{WR : !Wrangler W}.

Abbreviation config_id c := (HpkeConfig_id (HpkeReceiverConfig_config c)).

Lemma choose_id_fresh ids configs id : choose_id ids configs = Some id -> ~ In id (map (fun c => config_id c) configs).
Proof.
  intros [_ H]%find_some. rewrite negb_true_iff in H. intros (c & <- & Hc)%in_map_iff.
  assert (existsb (fun c' => config_id c' =? config_id c) configs = true) as E; [|congruence].
  apply existsb_exists. exists c. by rewrite N.eqb_refl.
Qed.

Lemma gen_keeps_id s id kem c : HpkeReceiverConfig_gen s id kem = Ok c -> config_id c = id.
Proof.
  unfold HpkeReceiverConfig_gen.
  intros (k & _ & ([sk pk] & _ & [= <-])%bind_Ok)%bind_Ok. done.
Qed.

(** A rotation puts one configuration before the others, which stay usable, and its ID is none
    of theirs: if the IDs were distinct, they still are. *)
Lemma rotation_keeps_ids ids s version kem (w w' : W) :
  rotate_receiver_config ids s version kem w = (Ok (Some tt), w') ->
  exists old c w1, wrangler_get (kv_key_of version) w = (Some old, w1) /\
    wrangler_put (kv_key_of version) (c :: old) w1 = (true, w') /\
    (NoDup (map (fun c => config_id c) old) -> NoDup (map (fun c => config_id c) (c :: old))).
Proof.
  unfold rotate_receiver_config, get_receiver_config, put_receiver_config, mbind, stm_bind, lift.
  destruct (wrangler_get (kv_key_of version) w) as [[old|] w1]; cbn; [|done].
  destruct (choose_id ids old) as [id|] eqn:Hid; [|done].
  destruct (HpkeReceiverConfig_gen s id kem) as [c|e|] eqn:Hc; cbn; [|done|done].
  destruct (wrangler_put (kv_key_of version) (c :: old) w1) as [[] w2] eqn:Hp; [|done]. intros [= <-].
  exists old, c, w1. split_and!; [done|done|]. intros Hnd. cbn [map]. constructor; [|done].
  rewrite (gen_keeps_id _ _ _ _ Hc), list_elem_of_In. by eapply choose_id_fresh.
Qed.
End Rotation.
