(* ===== verification/Reference.v ===== *)
(** * Reference implementations of the dependencies, and a deployment

    Concrete functions for what the program imports (the codec of [prio], the sums of
    [prio], HPKE, HKDF, Base64, URLs), each with the laws the development assumes of it,
    and a deployment of a Leader, a Helper, a Collector and a task, on which the
    definitions run.  The cryptography is a stand-in that has the stated laws and no
    security. *)

From S2P Require Import Prelude Codec Messages TaskprovMessages Errors Config Pine Taskprov.
From S2P Require Import AggShare Hpke Protocol ProtocolCorrect LeaderState Roles HelperCorrect.
From S2P Require Import HandlersCorrect Leader LeaderCorrect Auth InMemory InMemoryCorrect.
From S2P Require Import System.
Export Codec.Reference AggShare.AggReference.

#[global] Instance debug_build : BuildProfile := {| overflow_checks := true |}.

(** ** HPKE: the public key is the private key, and the encapsulated key names it. *)
#[global] Instance hpke_reference : HpkeCrypto := {
  kem_try_from n :=
    if n =? KEM_ID_P256_HKDF_SHA256 then Some DhKemP256
    else if n =? KEM_ID_X25519_HKDF_SHA256 then Some DhKem25519 else None;
  kdf_try_from n := if n =? KDF_ID_HKDF_SHA256 then Some Kdf_HkdfSha256 else None;
  aead_try_from n := if n =? AEAD_ID_AES128GCM then Some Aead_Aes128Gcm else None;
  hpke_seal _ pk _ info aad pt := Some (pk, info ++ aad ++ pt);
  hpke_open _ sk enc info aad ct :=
    if bool_decide (enc = sk /\ take (length (info ++ aad)) ct = info ++ aad)
    then Some (drop (length (info ++ aad)) ct) else None;
  generate_key_pair _ seed := Some (seed, seed);
  kem_derive_base _ sk := Some sk;
}.

#[global] Instance hpke_reference_laws : HpkeCryptoLaws hpke_reference.
Proof.
  split; [done..| |].
  - intros kem seed sk pk [= <- <-]. done.
  - intros kem sk pk seed info aad pt enc ct [= <-] [= <- <-]. simpl.
    rewrite app_assoc, take_app_length, drop_app_length. by rewrite bool_decide_true.
Qed.

(** ** HKDF, Base64, URLs *)
#[global] Instance hkdf_reference : Hkdf := {
  hkdf_extract salt secret := salt ++ secret;
  hkdf_expand prk info n :=
    if n <=? 255 * 32
    then Some (take (N.to_nat n) (prk ++ info ++ replicate (N.to_nat n) Byte.x00)) else None;
}.

#[global] Instance hkdf_reference_laws : HkdfLaws hkdf_reference.
Proof.
  intros prk info n Hn. simpl. rewrite (proj2 (N.leb_le _ _)) by done. eexists. split; [done|].
  unfold len. rewrite length_take, !length_app, length_replicate. lia.
Qed.

#[global] Instance base64_reference : Base64 := {
  URL_SAFE_NO_PAD_encode := String.string_of_list_byte;
  URL_SAFE_NO_PAD_decode s := Some (String.list_byte_of_string s);
}.

#[global] Instance base64_reference_laws : Base64Laws base64_reference.
Proof. intros bs. simpl. by rewrite String.list_byte_of_string_of_list_byte. Qed.

#[global] Instance url_reference : UrlParser := fun s => Some s.
#[global] Instance url_join_reference : UrlJoin := fun u path => Some (String.append u path).

#[global] Instance pine_fields_reference : PineFields := {
  Taskprov.FieldPrio2 := MkField 4293918721 u32_max;
  Taskprov.Field64 := MkField 18446744069414584321 u64_max;
}.

(** ** A VDAF: the sum of numbers, in two additive shares *)
Definition p64 : N := 18446744069414584321.

Definition sum_out (state : list byte) : VdafAggregateShare :=
  VAS_Field64 (PA:=prio_agg_reference) [be_value state].

#[global] Instance vdaf_reference : VdafOps := {
  VdafPrepState := list byte;
  VdafPrepShare := list byte;
  DapMeasurement := N;
  DapAggregateResult := N;
  VdafPrepShare_encode s buf := Ok (buf ++ s);
  VdafAggregateShare_encode s buf :=
    Ok (buf ++ match s with
               | VAS_Field32 v | VAS_Field64 v | VAS_Field128 v => v ≫= be_bytes 8
               end);
  vdaf_shard seed _ m _ :=
    let r := be_value seed mod p64 in
    Ok ([], (be_bytes 8 ((m + (p64 - r)) mod p64), be_bytes 8 r));
  vdaf_prep_init _ _ _ _ _ input := Ok (input, input);
  vdaf_prep_finish_from_shares _ _ state _ peer :=
    if len peer =? 8 then Ok (sum_out state, []) else Err (VdafError_Vdaf (Text "prep share"));
  vdaf_prep_finish _ state _ := Ok (sum_out state);
  vdaf_unshard _ _ shares :=
    Ok (fold_right (fun s acc => (be_value s + acc) mod p64) 0 shares);
}.

(** ** The deployment *)
Definition leader_hpke : HpkeReceiverConfig :=
  MkHpkeReceiverConfig (MkHpkeConfig 1 X25519HkdfSha256 HkdfSha256 Aes128Gcm [Byte.x01]) [Byte.x01].
Definition helper_hpke : HpkeReceiverConfig :=
  MkHpkeReceiverConfig (MkHpkeConfig 2 X25519HkdfSha256 HkdfSha256 Aes128Gcm [Byte.x02]) [Byte.x02].
Definition collector_hpke : HpkeReceiverConfig :=
  MkHpkeReceiverConfig (MkHpkeConfig 3 P256HkdfSha256 HkdfSha256 Aes128Gcm [Byte.x03]) [Byte.x03].

Definition task : TaskId := replicate 32 Byte.x07.
Definition url (s : string) : Url := s.
Definition time_precision : N := 100.
Definition now : Time := 10050.

Definition task_config (query : DapQueryConfig) : DapTaskConfig :=
  MkDapTaskConfig Draft09 "https://leader/" "https://helper/" time_precision 2 query
    (Vdaf.Prio3 Prio3_Count) 1000 20000 (L16 (replicate 16 Byte.x00))
    (HpkeReceiverConfig_config collector_hpke) Method_Unknown 2.

Definition global_config : DapGlobalConfig :=
  MkDapGlobalConfig 1000 20000 20000 [X25519HkdfSha256; P256HkdfSha256] true 2.

Definition leader_token : BearerToken := MkBearerToken "leader".
Definition collector_token : BearerToken := MkBearerToken "collector".

Definition verify_key_init : list byte := replicate 32 Byte.x05.

Definition leader_aggregator (query : DapQueryConfig) : InMemoryAggregator :=
  new_leader now [(task, task_config query)] [leader_hpke] global_config leader_token
    (Some collector_token) (HpkeReceiverConfig_config collector_hpke) verify_key_init leader_token
    (Some collector_token).

Definition helper_aggregator (query : DapQueryConfig) : InMemoryAggregator :=
  new_helper now [(task, task_config query)] [helper_hpke] global_config leader_token
    (HpkeReceiverConfig_config collector_hpke) verify_key_init leader_token.

Definition world {St} (s : St) : World St := MkWorld s [] [].

Definition deployment (query : DapQueryConfig) : World InMemorySystem :=
  world (MkInMemorySystem (leader_aggregator query)
    (world (helper_aggregator query)) []).

(** The [n]-th report, of the measurement [n], at the time [9800 + 80 * n]. *)
Definition report_id (n : N) : ReportId := be_bytes 16 n.
Definition report_time (n : N) : Time := 9800 + 80 * n.
Definition report (n : N) : res DapError Report :=
  produce_report_with_extensions (report_id n) (be_bytes 8 (n * 1000)) ([], [])
    (Vdaf.Prio3 Prio3_Count)
    (HpkeReceiverConfig_config leader_hpke, HpkeReceiverConfig_config helper_hpke)
    (report_time n) task n [] Draft09.

Definition request (m : DapMediaType) (resource : DapResource) (payload : list byte)
    (token : option BearerToken) : DapRequest BearerToken :=
  MkDapRequest Draft09 (Some m) (Some task) resource payload token None.

Definition upload (n : N) : stm (World InMemorySystem) DapError unit :=
  r ← lift (report n);
  bs ← lift (map_err DapError_encoding (get_encoded (Report_encode Draft09) r));
  handle_upload_req (request MT_Report Undefined bs None).

Definition coll_job : CollectionJobId := replicate 16 Byte.x09.
Definition batch : Interval := MkInterval 9800 300.

Definition collect (query : Query) : stm (World InMemorySystem) DapError Url :=
  bs ← lift (map_err DapError_encoding
    (get_encoded (CollectionReq_encode Draft09) (MkCollectionReq query [])));
  handle_coll_job_req (request MT_CollectReq (CollectionJob coll_job) bs (Some collector_token)).

(** Uploads, a collection request, the Leader's work, and what the Collector computes. *)
Definition session (reports : list N) (query : Query) :
    stm (World InMemorySystem) DapError (DapLeaderProcessTelemetry * N) :=
  _ ← foldr (fun n k => _ ← upload n; k) (mret tt) reports;
  _ ← collect query;
  telem ← process (fun _ => [1; 0; 0; 1]%nat) (fun i => be_bytes 16 i) (fun _ => []) 100;
  job ← call (DapLeader_poll_collect_job task coll_job);
  match job with
  | CJ_Done c =>
      let batch_sel := match query with
                       | Query_TimeInterval i => BS_TimeInterval i
                       | _ => match Collection_part_batch_sel c with
                              | PBS_FixedSizeByBatchId id => BS_FixedSizeByBatchId id
                              | PBS_TimeInterval => BS_TimeInterval batch
                              end
                       end in
      result ← lift (consume_encrypted_agg_shares (Vdaf.Prio3 Prio3_Count)
        (receiver_decrypter collector_hpke) task batch_sel (Collection_report_count c)
        AggParam_Empty [(Collection_encrypted_agg_shares c).1; (Collection_encrypted_agg_shares c).2]
        Draft09);
      mret (telem, result)
  | _ => throw (Fatal (Text "not collected"))
  end.

(** ** Evaluation *)
Definition is_ok {E A} (r : res E A) : bool := match r with Ok _ => true | _ => false end.

(** A run that returns has a result, which need not be written out. *)
Lemma ok_res {E A} (r : res E A) : is_ok r = true -> exists a, r = Ok a.
Proof. destruct r; [by eexists|done|done]. Qed.

Lemma ok_run {E A S} (x : res E A * S) : is_ok x.1 = true -> exists a s, x = (Ok a, s).
Proof. destruct x as [[a|e|] s]; [by eexists _, _|done|done]. Qed.

(** Five uploads, of which four are in the batch, are aggregated and collected, and the
    Collector computes the sum of the four measurements. *)
Example session_time_interval :
  (session [0; 1; 2; 3; 5] (Query_TimeInterval batch) (deployment QC_TimeInterval)).1
  = Ok (MkTelemetry 4 4 4, 6).
Proof. vm_compute. reflexivity. Qed.

Example session_fixed_size :
  (session [0; 1; 2; 3; 5] Query_FixedSizeCurrentBatch (deployment (QC_FixedSize None))).1
  = Ok (MkTelemetry 5 5 5, 11).
Proof. vm_compute. reflexivity. Qed.

(** ** An advertised task *)
Definition ascii_bytes : string -> list byte := String.list_byte_of_string.

Definition advertised : TaskConfig :=
  MkTaskConfig (ascii_bytes "task") (MkUrlBytes (ascii_bytes "https://leader/"))
    (MkUrlBytes (ascii_bytes "https://helper/"))
    (MkQueryConfig 3600 1 10 (QueryConfigVar_FixedSize 20)) 5000
    (MkVdafConfig DpConfig_None (VdafTypeVar_Prio2 10)).

Definition advertised_bytes : list byte :=
  match get_encoded (TaskConfig_encode Draft09) advertised with Ok bs => bs | _ => [] end.
Definition advertised_task : TaskId := take 32 (sha256 advertised_bytes).
Definition advertised_init : list byte := verify_key_init.

Definition advertised_request : DapRequest BearerToken :=
  MkDapRequest Draft09 (Some MT_Report) (Some advertised_task) Undefined [] None
    (Some (URL_SAFE_NO_PAD_encode advertised_bytes)).

Lemma advertised_wf : TaskConfig_wf Draft09 advertised.
Proof.
  assert (CodecOk (TaskConfig_wf Draft09) (TaskConfig_encode Draft09) (TaskConfig_decode Draft09))
    as C by apply _.
  apply (codec_canonical _ _ _ C advertised_bytes advertised). vm_compute. reflexivity.
Qed.

(** ** PINE parameters *)
Definition pine_param : PineParam := MkPineParam 1000 100 4 10 10 2 1 10 8.
