(* ===== verification/PineReference.v ===== *)
(** * A field, an XOF and a proof system for PINE

    Instances of the interfaces of [PineField], [PineFlp] and [PineVdaf], small enough to be
    evaluated: the integers modulo 257, whose laws are checked by enumeration, an XOF that
    sums up its input, gadgets that evaluate, and a proof system whose proofs are zero. *)

From Stdlib Require Import ZArith.
From S2P Require Import Prelude Codec Messages TaskprovMessages Errors Pine PineField.
From S2P Require Import PineEncoding PineFlp PineFlpCorrect PineWraparound PineMsg PineVdaf.
From S2P Require Import PineVdafCorrect Reference.

(** ** The integers modulo 257 *)
Module Fp.
Definition p : N := 257.

Record t : Type := Mk { val : N; val_lt : (val <? p) = true }.

Lemma mod_lt n : (n mod p <? p) = true.
Proof. apply N.ltb_lt, N.mod_lt. done. Qed.

(** A proof that evaluates. *)
Definition checked (b : bool) : b = true -> b = true :=
  match b with true => fun _ => eq_refl | false => fun H => H end.

Definition of_N (n : N) : t := Mk (n mod p) (checked _ (mod_lt n)).

Lemma eq x y : val x = val y -> x = y.
Proof.
  destruct x as [x Hx], y as [y Hy]. simpl. intros ->. f_equal. apply (proof_irrel Hx Hy).
Qed.

Lemma val_bound x : val x < p.
Proof. destruct x as [x H]. by apply N.ltb_lt. Qed.

Lemma of_N_val x : of_N (val x) = x.
Proof. apply eq. simpl. apply N.mod_small, val_bound. Qed.

Definition add (x y : t) : t := of_N (val x + val y).
Definition mul (x y : t) : t := of_N (val x * val y).
Definition opp (x : t) : t := of_N (p - val x).
Definition sub (x y : t) : t := add x (opp y).

(** [x^(p-2)] *)
Definition inv_val (x : N) : N := Pos.iter (fun a => (a * x) mod p) 1 255.
#[global] Arguments inv_val : simpl never.
Definition inv (x : t) : t := of_N (inv_val (val x)).

Lemma ring : ring_theory (of_N 0) (of_N 1) add mul sub opp Logic.eq.
Proof.
  assert (forall a b, (a mod p + b) mod p = (a + b) mod p) as Al by (intros; apply N.Div0.add_mod_idemp_l).
  assert (forall a b, (a + b mod p) mod p = (a + b) mod p) as Ar by (intros; apply N.Div0.add_mod_idemp_r).
  assert (forall a b, (a mod p * b) mod p = (a * b) mod p) as Ml by (intros; apply N.Div0.mul_mod_idemp_l).
  assert (forall a b, (a * (b mod p)) mod p = (a * b) mod p) as Mr by (intros; apply N.Div0.mul_mod_idemp_r).
  split; intros; apply eq; unfold sub, add, mul, opp; simpl val;
    rewrite ?Al, ?Ar, ?Ml, ?Mr; rewrite ?Al, ?Ar; try (f_equal; lia).
  - apply N.mod_small, val_bound.
  - change (1 mod p) with 1. rewrite N.mul_1_l. apply N.mod_small, val_bound.
  - pose proof (val_bound x). replace (val x + (p - val x)) with p by lia. done.
Qed.

(** Facts about all elements, by enumeration. *)
Definition all : list N := N.of_nat <$> seq 0 257.

Lemma all_elements (f : N -> bool) x : forallb f all = true -> f (val x) = true.
Proof.
  intros H. rewrite forallb_forall in H. apply H. apply list_elem_of_In, list_elem_of_fmap.
  exists (N.to_nat (val x)). pose proof (val_bound x). unfold p in *. split; [lia|].
  apply elem_of_seq. lia.
Qed.

Definition domain_check (a b : N) : bool := (a =? 0) || (b =? 0) || negb ((a * b) mod p =? 0).

Lemma domain_checks : forallb (fun a => forallb (domain_check a) all) all = true.
Proof. vm_compute. reflexivity. Qed.

Lemma domain x y : mul x y = of_N 0 -> x = of_N 0 \/ y = of_N 0.
Proof.
  intros H. apply (f_equal val) in H. simpl in H.
  pose proof (all_elements _ y (all_elements _ x domain_checks)) as E. unfold domain_check in E.
  rewrite H in E. rewrite orb_false_r in E.
  apply orb_true_iff in E as [E|E]; apply N.eqb_eq in E; [left|right]; by apply eq.
Qed.

Definition inv_check (a : N) : bool := (a =? 0) || ((a * (inv_val a mod p)) mod p =? 1).

Lemma inv_checks : forallb inv_check all = true.
Proof. vm_compute. reflexivity. Qed.

Lemma inv_mul x : x <> of_N 0 -> mul x (inv x) = of_N 1.
Proof.
  intros H. pose proof (all_elements inv_check x inv_checks) as E. unfold inv_check in E.
  apply orb_true_iff in E as [E|E]; apply N.eqb_eq in E; [|by apply eq].
  exfalso. apply H. by apply eq.
Qed.

Definition encode : writer t := fun x buf => Ok (buf ++ be_bytes 2 (val x)).
Definition decode : reader t := fun c =>
  '(bs, c) ← read_exact 2 c;
  if be_value bs <? p then Ok (of_N (be_value bs), c) else Err UnexpectedValue.

Lemma codec : CodecOk (fun _ => True) encode decode.
Proof.
  split.
  - intros x _. exists (be_bytes 2 (val x)). split; [intros buf; done|].
    intros pre post Hm. unfold decode. pose proof (val_bound x).
    rewrite read_exact_decodes' by (done || unfold len; by rewrite length_be_bytes). cbn [mbind res_bind].
    rewrite be_value_bytes by (unfold p in *; change (256 ^ N.of_nat 2) with 65536; lia).
    rewrite (proj2 (N.ltb_lt _ _)) by done. by rewrite of_N_val.
  - intros c x c' H. unfold decode in H. apply bind_Ok in H as ([bs c1] & H1 & H).
    destruct (N.ltb_spec (be_value bs) p) as [Hlt|]; [|done]. injection H as <- <-.
    apply read_exact_consumed in H1 as [Hlen Hc]. split; [done|]. exists bs. split; [done|].
    intros buf. unfold encode. simpl val. rewrite N.mod_small by done. do 2 f_equal.
    rewrite <-(be_bytes_value bs) at 2. f_equal. unfold len in Hlen. lia.
Qed.

Lemma no_panic : NoPanic decode.
Proof.
  intros c. unfold decode. apply bind_no_panic; [apply read_exact_no_panic|].
  intros [bs c1]. by case_match.
Qed.
End Fp.

(** The bits of an integer. *)
Fixpoint fp_bits (n : nat) (x : N) : list Fp.t :=
  match n with
  | O => []
  | S n => (if N.odd x then Fp.of_N 1 else Fp.of_N 0) :: fp_bits n (N.div2 x)
  end.

Fixpoint fp_bits_value (l : list Fp.t) : Fp.t :=
  match l with
  | [] => Fp.of_N 0
  | b :: l => Fp.add b (Fp.add (fp_bits_value l) (fp_bits_value l))
  end.

#[global] Instance fp_field : PrioField := {|
  felem := Fp.t;
  felem_field := MkField Fp.p u32_max;
  FieldError := unit;
  f0 := Fp.of_N 0;
  f1 := Fp.of_N 1;
  fadd := Fp.add;
  fsub := Fp.sub;
  fmul := Fp.mul;
  fopp := Fp.opp;
  finv := Fp.inv;
  of_int := Fp.of_N;
  to_int := Fp.val;
  encode_as_bitvector x l :=
    if (2 ^ l <=? Fp.p) && (x <? 2 ^ l) then Ok (fp_bits (N.to_nat l) x) else Err tt;
  decode_bitvector l := if 2 ^ len l <=? Fp.p then Ok (fp_bits_value l) else Err tt;
  ENCODED_SIZE := 2;
  felem_encode := Fp.encode;
  felem_decode := Fp.decode;
|}.

#[global] Instance fp_laws : PrioFieldLaws fp_field.
Proof.
  split; try done.
  - exact Fp.ring.
  - exact Fp.domain.
  - exact Fp.inv_mul.
  - exact Fp.val_bound.
  - exact Fp.of_N_val.
  - intros n Hn. simpl. by apply N.mod_small.
  - intros x l Hv Hx. unfold valid_integer_bitlength in Hv. simpl in *. rewrite Hv.
    by rewrite (proj2 (N.ltb_lt _ _)).
  - intros x l H. unfold valid_integer_bitlength in H. simpl in *.
    destruct H as [->|H]; [by exists tt|]. rewrite (proj2 (N.ltb_ge _ _)), andb_false_r by done.
    by exists tt.
  - intros l Hv. unfold valid_integer_bitlength in Hv. simpl in *. by rewrite Hv.
  - intros l Hv. unfold valid_integer_bitlength in Hv. simpl in *. rewrite Hv. by exists tt.
  - exact Fp.codec.
  - intros x bs H. specialize (H []). injection H as <-. unfold len. simpl. done.
  - exact Fp.no_panic.
Qed.

(** ** An XOF that sums up its input, with seeds of one byte *)
Definition byte_sum (bs : list byte) : N := fold_left (fun a b => a + Byte.to_N b) bs 0.

#[global] Instance fp_xof : Xof := {|
  XofState := list byte;
  SeedStream := N;
  xof_init seed dst := seed ++ dst;
  xof_update s bs := s ++ bs;
  xof_into_seed s := [byte_of_N (byte_sum s)];
  xof_into_seed_stream s := byte_sum s;
  xof_seed_stream seed dst binder := byte_sum (seed ++ dst ++ binder);
  stream_fill s n := (fun i => byte_of_N (s + 5 * N.of_nat i)) <$> seq 0 (N.to_nat n);
  into_field_vec s n := (fun i => Fp.of_N (s + 7 * N.of_nat i)) <$> seq 0 (N.to_nat n);
  SEED_SIZE := 1;
  Seed_encode := extend_from_slice;
  Seed_decode := read_exact 1;
|}.

#[global] Instance fp_xof_laws : XofLaws fp_xof.
Proof.
  split; try done.
  - intros s n. simpl. unfold len. rewrite length_fmap, length_seq. lia.
  - intros s n. simpl. unfold len. rewrite length_fmap, length_seq. lia.
  - apply array_codec.
  - intros s bs H Hs. specialize (H []). injection H as <-. exact Hs.
  - apply _.
Qed.

(** ** Gadgets that evaluate *)
Inductive main_gadget : Type := MainGadget.
Inductive sne_gadget : Type := SneGadget.

#[global] Instance main_gadget_eval : Gadget main_gadget := fun inp s => (Ok (sum_pairs inp), s).
#[global] Instance sne_gadget_eval : Gadget sne_gadget := fun inp s => (Ok (sum_squares inp), s).

(** ** A proof system whose proofs are zero *)
Definition zeros (n : N) : list Fp.t := replicate (N.to_nat n) (Fp.of_N 0).

#[global] Instance main_flp : Flp PineType := {|
  flp_prove self _ _ _ := Ok (zeros (main_proof_size self));
  flp_query self _ _ _ _ _ := Ok (zeros (2 * PineType_chunk_len self + 2));
  flp_decide _ v := Ok (forallb (fun x => Fp.val x =? 0) v);
|}.

#[global] Instance sne_flp : Flp PineTypeSquaredNormEqual := {|
  flp_prove self _ _ _ := Ok (zeros (sne_proof_size self));
  flp_query self _ _ _ _ _ := Ok (zeros (PineTypeSNE_chunk_len self + 2));
  flp_decide _ v := Ok (forallb (fun x => Fp.val x =? 0) v);
|}.

Lemma zeros_len n : of_len n (zeros n).
Proof. unfold of_len, len, zeros. rewrite length_replicate. lia. Qed.

Lemma add_zeros_zeros n : add_shares (zeros n) (zeros n) = zeros n.
Proof. unfold add_shares, zeros. by rewrite zip_with_replicate. Qed.

Lemma zeros_zero n : forallb (fun x => Fp.val x =? 0) (zeros n) = true.
Proof. unfold zeros. induction (N.to_nat n) as [|k IH]; [done|]. exact IH. Qed.

Lemma fp_flps pine : pine_flps (G1:=main_gadget) (G2:=sne_gadget) pine (fun _ => True).
Proof.
  split; split; simpl.
  - eauto using zeros_len.
  - eauto using zeros_len.
  - intros x0 x1 p0 p1 qr jr v0 v1 _ _ _ _ [= <-] [= <-]. by rewrite add_zeros_zeros.
  - intros x pr jr p qr v _ _ [= <-]. by rewrite zeros_zero.
  - eauto using zeros_len.
  - eauto using zeros_len.
  - intros x0 x1 p0 p1 qr jr v0 v1 _ _ _ _ [= <-] [= <-]. by rewrite add_zeros_zeros.
  - intros x pr jr p qr v _ _ [= <-]. by rewrite zeros_zero.
Qed.

(** ** An instance of PINE: gradients of two coordinates of norm at most 2, in units of 1/2 *)
Definition pine_param : PineParam :=
  MkPineParam 4 2 1 3 2 1 1 2 1.

Definition pine257 : Pine :=
  match Pine_new felem_field pine_param 7 with
  | Ok pine => pine
  | _ => MkPine (MkPineType 0 0 0 0 0 0 0 0 0 0 0 0 0) (MkPineTypeSquaredNormEqual 0 0 0 0 0) 0 0 0 0 0
  end.
