(* ===== verification/Witnesses.v ===== *)
(** * Concrete instances of the theorems

    Every theorem with hypotheses is applied here at a concrete input of [Reference], where
    its hypotheses hold by evaluation. *)

From S2P Require Import Prelude Codec Messages TaskprovMessages Errors Config Pine Taskprov.
From S2P Require Import AggShare Hpke Protocol ProtocolCorrect LeaderState Roles HelperCorrect.
From S2P Require Import HandlersCorrect Leader LeaderCorrect Auth InMemory InMemoryCorrect.
From S2P Require Import LeaderProcess System Reference.

(** ** Messages *)
Definition sample_report : Report :=
  MkReport (MkReportMetadata (report_id 1) 9900) []
    (MkHpkeCiphertext 1 [Byte.x01] [Byte.x05], MkHpkeCiphertext 2 [Byte.x02] [Byte.x06]).

Lemma messages_round_trip_witness :
  exists bs, get_encoded (Report_encode Draft09) sample_report = Ok bs /\
    get_decoded (Report_decode Draft09) bs = Ok sample_report.
Proof.
  destruct (proj1 (messages_round_trip Draft09) sample_report) as (bs & H1 & H2).
  { vm_compute. repeat split; discriminate. }
  exists bs. split; [exact H1|]. apply H2. vm_compute in H1. injection H1 as <-.
  vm_compute. discriminate.
Defined.

Lemma messages_canonical_witness :
  AggregateShare_wf (MkAggregateShare (MkHpkeCiphertext 1 [] [])) /\
  get_encoded AggregateShare_encode (MkAggregateShare (MkHpkeCiphertext 1 [] []))
  = Ok [Byte.x01; Byte.x00; Byte.x00; Byte.x00; Byte.x00; Byte.x00; Byte.x00].
Proof.
  apply (proj1 (proj2 (proj2 (proj2 (proj2 (proj2 (proj2 (messages_canonical Draft09)))))))).
  vm_compute. reflexivity.
Defined.

Lemma messages_decoding_returns_witness :
  get_decoded (Report_decode Draft09) [Byte.x00; Byte.xff] <> Panic.
Proof. apply (messages_decoding_returns Draft09). Defined.

Lemma Extension_decode_truncated_witness :
  Extension_decode Draft09 (Cursor [Byte.xff; Byte.x00; Byte.x00; Byte.x05] 0) = Panic.
Proof.
  apply (Extension_decode_truncated Draft09 [] 5 []); vm_compute; discriminate || reflexivity.
Defined.

Lemma TaskConfig_one_encoding_witness :
  exists bs, get_encoded (TaskConfig_encode Draft09) advertised = Ok bs /\
    (len bs <= slice_max -> get_decoded (TaskConfig_decode Draft09) bs = Ok advertised).
Proof. exact (proj1 (TaskConfig_one_encoding Draft09) advertised advertised_wf). Defined.

(** ** Task configuration *)
Definition tc : DapTaskConfig := task_config QC_TimeInterval.

Lemma tc_ok : DapTaskConfig_ok tc.
Proof. split; reflexivity. Qed.

Lemma batch_ok : batch_sel_ok tc (BS_TimeInterval batch).
Proof. vm_compute. repeat split; discriminate. Qed.

Lemma quantized_time_spec_witness :
  exists l, quantized_time_lower_bound (E:=DapError) tc 9955 = Ok l /\ l <= 9955 < l + 100.
Proof.
  destruct (quantized_time_spec tc 9955) as (l & H1 & H2 & _); [reflexivity|].
  exists l. split; [exact H1|exact H2].
Defined.

Lemma batch_span_exact_witness :
  exists span, batch_span_for_sel tc (BS_TimeInterval batch) = Ok span /\
    exists b, bucket_for (E:=DapError) tc PBS_TimeInterval (report_id 1) 9955 = Ok b /\
      (b ∈ span <-> 9800 <= 9955 < 10100).
Proof.
  destruct (batch_span_exact tc (BS_TimeInterval batch) tc_ok batch_ok) as (span & H1 & H2).
  exists span. split; [exact H1|]. exact (H2 PBS_TimeInterval (report_id 1) 9955 eq_refl).
Defined.

(** ** PINE *)
Lemma Pine_new_lengths_witness :
  exists p, Pine_new Taskprov.Field64 pine_param 1 = Ok p /\
    PineParam_accepted Taskprov.Field64 pine_param /\ Pine_lengths pine_param p.
Proof.
  destruct (ok_res (Pine_new Taskprov.Field64 pine_param 1)) as [p H]; [vm_compute; reflexivity|].
  exists p. split; [exact H|]. refine (Pine_new_lengths _ _ _ _ _ H).
  vm_compute. repeat split; discriminate.
Defined.

Lemma Pine_new_zero_chunk_len_witness :
  is_ok (Pine_new Taskprov.Field64 pine_param 1) = true /\
  Pine_new Taskprov.Field64 (with_chunk_len pine_param 0) 1 = Panic.
Proof.
  split; [vm_compute; reflexivity|].
  destruct (ok_res (Pine_new Taskprov.Field64 pine_param 1)) as [p H]; [vm_compute; reflexivity|].
  exact (Pine_new_zero_chunk_len _ _ _ _ H).
Defined.

(** ** Taskprov *)
Definition coll_config : HpkeConfig := HpkeReceiverConfig_config collector_hpke.

Lemma advertised_task_sound_witness :
  exists n, resolve_advertised_task_config advertised_request advertised_init coll_config
      advertised_task = Ok (Some n) /\
    verify_key_ok (NeedsOptIn_vdaf n) (NeedsOptIn_vdaf_verify_key n).
Proof.
  eassert (resolve_advertised_task_config advertised_request advertised_init coll_config
    advertised_task = Ok (Some _)) as H by (vm_compute; reflexivity).
  eexists. split; [exact H|].
  destruct (advertised_task_sound _ _ _ _ _ H) as (h & bs & msg & Hs).
  apply Hs.
Defined.

Lemma advertisement_round_trip_witness :
  exists n header, resolve_advertised_task_config advertised_request advertised_init coll_config
      advertised_task = Ok (Some n) /\
    resolve_taskprove_advertisement (into_opted_in n (MkOptInParam 5 2)) = Ok (Some header).
Proof.
  eassert (resolve_advertised_task_config advertised_request advertised_init coll_config
    advertised_task = Ok (Some _)) as H by (vm_compute; reflexivity).
  eassert (get_taskprov_task_config advertised_request advertised_task = Ok (Some _)) as G
    by (vm_compute; reflexivity).
  edestruct (advertisement_round_trip _ advertised_request _ _ _ _ _ (MkOptInParam 5 2) G H)
    as [[header E] _]; [eexists; split; [vm_compute|]; reflexivity..|vm_compute; reflexivity|
                        reflexivity|].
  eexists _, header. split; [exact H|exact E].
Defined.

Lemma dp_config_dropped_witness :
  exists n, DapTaskConfigNeedsOptIn_try_from_taskprov Draft09 advertised_task
      (with_dp_config advertised (DpConfig_NotImplemented 5 [Byte.x01])) advertised_init coll_config
    = Ok n /\
    exists adv, TaskConfig_try_from (into_opted_in n (MkOptInParam 5 2)) = Ok adv /\
      adv <> with_dp_config advertised (DpConfig_NotImplemented 5 [Byte.x01]).
Proof.
  destruct (ok_res (DapTaskConfigNeedsOptIn_try_from_taskprov Draft09 advertised_task
    advertised advertised_init coll_config)) as [n H]; [vm_compute; reflexivity|].
  exists n. refine (dp_config_dropped Draft09 advertised_task advertised 5 [Byte.x01]
    advertised_init coll_config n (MkOptInParam 5 2) advertised_wf _ _ H);
    eexists; split; vm_compute; reflexivity.
Defined.

Lemma zero_time_precision_accepted_witness :
  exists n', DapTaskConfigNeedsOptIn_try_from_taskprov Draft09 advertised_task
      (with_time_precision advertised 0) advertised_init coll_config = Ok n' /\
    quantized_time_lower_bound (E:=DapError) (into_opted_in n' (MkOptInParam 5 2)) 12 = Panic.
Proof.
  destruct (ok_res (DapTaskConfigNeedsOptIn_try_from_taskprov Draft09 advertised_task
    advertised advertised_init coll_config)) as [n H]; [vm_compute; reflexivity|].
  exact (zero_time_precision_accepted _ _ _ _ _ _ (MkOptInParam 5 2) 12 H).
Defined.

(** ** Aggregate shares *)
Definition out1 : out_share := (report_id 1, 9880, sum_out [Byte.x05]).
Definition out2 : out_share := (report_id 2, 9960, sum_out [Byte.x07]).

Definition one_share (o : out_share) : DapAggregateShare :=
  MkDapAggregateShare 1 o.1.2 o.1.2 (sha256 o.1.1) (Some o.2).

Lemma one_share_represents o : represents (one_share o) [o].
Proof. destruct o as [[id time] data]. apply represents_one. Qed.

Lemma summable_outs : summable [out1; out2].
Proof. eexists. vm_compute. reflexivity. Qed.

Lemma share_merge_refines_union_witness :
  exists c, DapAggregateShare_merge (one_share out1) (one_share out2) = Ok c /\
    represents c [out1; out2].
Proof.
  apply (proj1 (share_merge_refines_union (one_share out1) (one_share out2) [out1] [out2]
    (one_share_represents out1) (one_share_represents out2)
    ltac:(vm_compute; discriminate)) summable_outs).
Defined.

Lemma aggregate_order_irrelevant_witness :
  aggregate DapAggregateShare_default [out2; out1]
  = aggregate DapAggregateShare_default [out1; out2].
Proof.
  destruct (ok_res (aggregate DapAggregateShare_default [out1; out2])) as [s H];
    [vm_compute; reflexivity|].
  rewrite H. refine (aggregate_order_irrelevant [out1; out2] [out2; out1] s _ _ H).
  - apply perm_swap.
  - vm_compute. discriminate.
Defined.

Definition bucket1 : DapBatchBucket := Bucket_TimeInterval 9800 0.

Lemma bucket1_ok : bucket_for (E:=DapError) tc PBS_TimeInterval (report_id 1) 9880 = Ok bucket1.
Proof. vm_compute. reflexivity. Qed.

Lemma span_add_refines_witness :
  exists span', DapAggregateSpan_add_out_share ∅ tc PBS_TimeInterval (report_id 1) 9880
      (sum_out [Byte.x05]) = Ok span' /\
    span_represents span' [(bucket1, out1)].
Proof.
  apply (span_add_refines tc PBS_TimeInterval ∅ [] (report_id 1) 9880 (sum_out [Byte.x05]) bucket1
    span_represents_empty eq_refl bucket1_ok); [vm_compute; discriminate|].
  eexists. vm_compute. reflexivity.
Defined.

Definition span_of (b : DapBatchBucket) (o : out_share) : DapAggregateSpan DapAggregateShare :=
  {[b := (one_share o, [o.1])]}.

Lemma span_of_represents b o : span_represents (span_of b o) [(b, o)].
Proof.
  intros b'. unfold span_of. rewrite items_of_one. destruct (decide (b = b')) as [->|Hne].
  - rewrite lookup_singleton_eq. split_and!; [done|apply one_share_represents|].
    by destruct o as [[id time] data].
  - by rewrite lookup_singleton_ne.
Qed.

Lemma span_merge_refines_witness :
  exists span', DapAggregateSpan_merge (span_of bucket1 out1) (span_of bucket1 out2) = Ok span' /\
    span_represents span' [(bucket1, out1); (bucket1, out2)].
Proof.
  apply (span_merge_refines _ _ _ _ (span_of_represents bucket1 out1)
    (span_of_represents bucket1 out2)); [vm_compute; discriminate|].
  intros b. rewrite !items_of_one. case_decide; [apply summable_outs|].
  eexists. vm_compute. reflexivity.
Defined.

(** ** HPKE *)
Lemma receiver_config_list_spec_witness :
  exists cs, gen_hpke_receiver_config_list (fun i => be_bytes 1 i) global_config 255 = Ok cs /\
    length cs = 2%nat.
Proof.
  destruct (ok_res (gen_hpke_receiver_config_list (fun i => be_bytes 1 i) global_config 255))
    as [cs H]; [vm_compute; reflexivity|].
  exists cs. split; [exact H|].
  apply (receiver_config_list_spec (fun i => be_bytes 1 i) global_config 255 cs);
    [vm_compute; discriminate|exact H].
Defined.

(** ** The aggregation sub-protocol *)
Definition la : InMemoryAggregator := leader_aggregator QC_TimeInterval.
Definition ha : InMemoryAggregator := helper_aggregator QC_TimeInterval.

Lemma hpke_ok : receiver_ok leader_hpke /\ receiver_ok helper_hpke /\ receiver_ok collector_hpke.
Proof. split_and!; eexists; split; reflexivity. Qed.

Lemma time_ok s time : time < 20000 -> time_accepted (in_memory_initializer s) tc time.
Proof. unfold time_accepted, tc. simpl. unfold u64_max. lia. Qed.

Lemma plaintext_ok bs : len bs <= u32_max ->
  PlaintextInputShare_wf Draft09 (MkPlaintextInputShare [] bs).
Proof. intros H. split; [|exact H]. split; [constructor|]. exists []. split; [constructor|done]. Qed.

Lemma report_reaches_aggregators_witness :
  exists report, produce_report_with_extensions_for_shares ([], []) [] ([Byte.x05], [Byte.x06])
      (HpkeReceiverConfig_config leader_hpke, HpkeReceiverConfig_config helper_hpke) 9880 task
      (report_id 1) [] Draft09 = Ok report /\
    EarlyReportStateConsumed_consume (receiver_decrypter leader_hpke) (in_memory_initializer la)
      true task tc (MkReportShare (Report_report_metadata report) (Report_public_share report)
        (Report_encrypted_input_shares report).1) None
    = Ok (Consumed_Ready (MkReportMetadata (report_id 1) 9880) [] [Byte.x05] None).
Proof.
  destruct (ok_res (produce_report_with_extensions_for_shares ([], []) [] ([Byte.x05], [Byte.x06])
      (HpkeReceiverConfig_config leader_hpke, HpkeReceiverConfig_config helper_hpke) 9880 task
      (report_id 1) [] Draft09)) as [report H]; [vm_compute; reflexivity|].
  exists report. split; [exact H|].
  refine (proj1 (report_reaches_aggregators ([], []) [] [Byte.x05] [Byte.x06] leader_hpke
    helper_hpke 9880 task (report_id 1) (in_memory_initializer la) (in_memory_initializer ha) tc
    report [] _ _ _ _ _ _ _ H)).
  - apply hpke_ok.
  - apply hpke_ok.
  - apply time_ok. reflexivity.
  - apply time_ok. reflexivity.
  - apply plaintext_ok. vm_compute. discriminate.
  - apply plaintext_ok. vm_compute. discriminate.
  - vm_compute. discriminate.
Defined.

Definition sample_reports : list Report :=
  [0; 1; 2] ≫= fun n => match report n with Ok r => [r] | _ => [] end.

(** The Helper's share of the second report, its associated data and its plaintext. *)
Definition share1 : ReportShare :=
  match sample_reports with
  | _ :: r :: _ => MkReportShare (Report_report_metadata r) (Report_public_share r)
                     (Report_encrypted_input_shares r).2
  | _ => MkReportShare (MkReportMetadata [] 0) [] (MkHpkeCiphertext 0 [] [])
  end.
Definition aad1 : list byte :=
  match input_share_aad Draft09 task (ReportShare_report_metadata share1)
          (ReportShare_public_share share1) with
  | Ok aad => aad
  | _ => []
  end.
Definition plain1 : list byte :=
  match in_memory_hpke_decrypt ha task (input_share_info CTX_ROLE_HELPER) aad1
          (ReportShare_encrypted_input_share share1) with
  | Ok plain => plain
  | _ => []
  end.

Lemma extensions_exact_witness :
  exists s, EarlyReportStateConsumed_consume (in_memory_hpke_decrypt ha) (in_memory_initializer ha)
      false task tc share1 None = Ok s /\
    s <> Consumed_Rejected (ReportShare_report_metadata share1) InvalidMessage.
Proof.
  destruct (ok_res (EarlyReportStateConsumed_consume (in_memory_hpke_decrypt ha)
    (in_memory_initializer ha) false task tc share1 None)) as [s H]; [vm_compute; reflexivity|].
  exists s. split; [exact H|].
  destruct (extensions_exact (in_memory_hpke_decrypt ha) (in_memory_initializer ha) false task tc
    share1 None aad1 plain1 [] (be_bytes 8 1000) s) as [[_ E]|[E _]];
    [apply time_ok|..|exact H|exact E|destruct E]; vm_compute; reflexivity.
Defined.

Definition job : DapAggregationJobState * AggregationJobInitReq :=
  match (produce_agg_job_req tc (in_memory_hpke_decrypt la) (in_memory_initializer la) task
           PBS_TimeInterval AggParam_Empty sample_reports []).1 with
  | Ok x => x
  | _ => (MkDapAggregationJobState [] PBS_TimeInterval, MkAggregationJobInitReq [] PBS_TimeInterval [])
  end.

Definition job_reports : list EarlyReportStateInitialized :=
  match consume_agg_job_req tc (in_memory_hpke_decrypt ha) (in_memory_initializer ha) task job.2
          ReplayProtection_Enabled with
  | Ok l => l
  | _ => []
  end.

(** All three reports make it into the job. *)
Example job_reports_ready : Initialized_is_ready <$> job_reports = [true; true; true].
Proof. vm_compute. reflexivity. Qed.

Definition job_resp : DapAggregateSpan DapAggregateShare * AggregationJobResp :=
  match produce_agg_job_resp tc ∅ PBS_TimeInterval job_reports with
  | Ok x => x
  | _ => (∅, MkAggregationJobResp [])
  end.

Lemma job_resp_ok :
  produce_agg_job_resp tc ∅ PBS_TimeInterval job_reports = Ok (job_resp.1, job_resp.2).
Proof.
  destruct (ok_res (produce_agg_job_resp tc ∅ PBS_TimeInterval job_reports)) as [[span resp] H];
    [vm_compute; reflexivity|]. unfold job_resp. by rewrite H.
Qed.

Lemma agg_job_resp_counts_once_witness :
  Transition_report_id <$> AggregationJobResp_transitions job_resp.2
  = [report_id 0; report_id 1; report_id 2].
Proof.
  apply (agg_job_resp_counts_once tc ∅ PBS_TimeInterval job_reports job_resp.1 job_resp.2).
  - vm_compute. discriminate.
  - exact job_resp_ok.
Defined.

Lemma job_consumed :
  exists span m, consume_agg_job_resp tc task job.1 job_resp.2 [] = (Ok span, m).
Proof. apply ok_run. vm_compute. reflexivity. Qed.

Lemma agg_job_resp_matches_state_witness :
  Transition_report_id <$> AggregationJobResp_transitions job_resp.2
  = AJRS_report_id <$> DapAggregationJobState_seq job.1.
Proof.
  destruct job_consumed as (span & m & H).
  apply (agg_job_resp_matches_state tc task job.1 job_resp.2 [] span m);
    [vm_compute; discriminate|exact H].
Defined.

Definition finishes (c : DapTaskConfig) (pair : Transition * AggregationJobReportState) : bool :=
  match Transition_var pair.1 with
  | Continued inbound =>
      match decode_ping_pong_framed inbound PingPong_Finish with
      | Ok prep_msg => is_ok (vdaf_prep_finish (DapTaskConfig_vdaf c) (AJRS_prep_state pair.2) prep_msg)
      | _ => false
      end
  | Failed _ => true
  end.

Lemma finishes_leader_finishes c pairs : forallb (finishes c) pairs = true -> leader_finishes c pairs.
Proof.
  intros H. apply Forall_forall. intros [t s] Hin inbound Ht.
  apply list_elem_of_In in Hin. pose proof (proj1 (forallb_forall _ _) H _ Hin) as E.
  unfold finishes in E. cbn [fst snd] in E. rewrite Ht in E.
  destruct (decode_ping_pong_framed inbound PingPong_Finish) as [prep_msg|e|]; [|done|done].
  apply ok_res in E as [data E]. eauto.
Qed.

Lemma aggregators_agree_witness :
  exists lspan m, consume_agg_job_resp tc task job.1 job_resp.2 [] = (Ok lspan, m) /\
    entries_agree (lspan !! bucket1) (job_resp.1 !! bucket1).
Proof.
  destruct job_consumed as (span & m & H). exists span, m. split; [exact H|].
  refine (aggregators_agree tc PBS_TimeInterval task job.1 job_reports job_resp.1 job_resp.2 [] span
    m _ _ _ job_resp_ok H _ bucket1).
  - vm_compute. reflexivity.
  - vm_compute. reflexivity.
  - vm_compute. discriminate.
  - apply finishes_leader_finishes. vm_compute. reflexivity.
Defined.

Lemma ping_pong_framing_witness :
  decode_ping_pong_framed (frame PingPong_Finish [Byte.x01]) PingPong_Finish = Ok [Byte.x01].
Proof. apply (proj1 ping_pong_framing). split; [reflexivity|vm_compute; discriminate]. Defined.

Lemma collector_recovers_shares_witness :
  exists ct0 ct1,
    produce_leader_encrypted_agg_share [] tc coll_config task (BS_TimeInterval batch) AggParam_Empty
      (one_share out1) Draft09 = Ok ct0 /\
    produce_helper_encrypted_agg_share [] tc coll_config task (BS_TimeInterval batch) AggParam_Empty
      (one_share out2) Draft09 = Ok ct1 /\
    consume_encrypted_agg_shares (DapTaskConfig_vdaf tc) (receiver_decrypter collector_hpke) task
      (BS_TimeInterval batch) 1 AggParam_Empty [ct0; ct1] Draft09 = Ok 12.
Proof.
  destruct (ok_res (produce_leader_encrypted_agg_share [] tc coll_config task
    (BS_TimeInterval batch) AggParam_Empty (one_share out1) Draft09)) as [ct0 H0];
    [vm_compute; reflexivity|].
  destruct (ok_res (produce_helper_encrypted_agg_share [] tc coll_config task
    (BS_TimeInterval batch) AggParam_Empty (one_share out2) Draft09)) as [ct1 H1];
    [vm_compute; reflexivity|].
  exists ct0, ct1. split; [exact H0|]. split; [exact H1|].
  rewrite (collector_recovers_shares tc [] [] collector_hpke task (BS_TimeInterval batch)
    AggParam_Empty (one_share out1) (one_share out2) (sum_out [Byte.x05]) (sum_out [Byte.x07])
    (be_bytes 8 5) (be_bytes 8 7) Draft09 1 ct0 ct1); [vm_compute; reflexivity|apply hpke_ok|
    reflexivity|reflexivity|vm_compute; reflexivity|vm_compute; reflexivity|exact H0|exact H1].
Defined.

(** ** The Helper's storage *)
Definition ready0 : EarlyReportStateInitialized :=
  Initialized_Ready (MkReportMetadata (report_id 0) 9800) [] (Some (be_bytes 8 0)) (be_bytes 8 0)
    (be_bytes 8 0).
Definition out0 : out_share := (report_id 0, 9800, sum_out (be_bytes 8 0)).
Definition bucket0 : DapBatchBucket := Bucket_TimeInterval 9800 0.

Definition span_entries (x : res DapError (DapAggregateSpan DapAggregateShare * AggregationJobResp)) :
    option (list (DapBatchBucket * (DapAggregateShare * list (ReportId * Time)))) :=
  match x with Ok (span, _) => Some (map_to_list span) | _ => None end.

(** Whatever is known of its status, the report is put into its bucket or not at all. *)
Lemma ready0_spans σ :
  exists span resp, produce_agg_job_resp tc σ PBS_TimeInterval [ready0] = Ok (span, resp) /\
    (map_to_list span = [] \/
     map_to_list span = [(bucket0, (one_share out0, [(report_id 0, 9800)]))]).
Proof.
  assert (span_entries (produce_agg_job_resp tc σ PBS_TimeInterval [ready0]) = Some [] \/
    span_entries (produce_agg_job_resp tc σ PBS_TimeInterval [ready0])
    = Some [(bucket0, (one_share out0, [(report_id 0, 9800)]))]) as H.
  { unfold produce_agg_job_resp. cbn [finish_reports]. unfold finish_report.
    change (ReportMetadata_id (Initialized_metadata ready0)) with (report_id 0).
    destruct (σ !! report_id 0) as [[|f]|]; [left|left|right]; vm_compute; reflexivity. }
  destruct (produce_agg_job_resp tc σ PBS_TimeInterval [ready0]) as [[span resp]|e|];
    [|by destruct H..].
  exists span, resp. split; [done|]. destruct H as [H|H]; injection H as H; [left|right]; exact H.
Qed.

(** The bucket of the report is new, or it knows the report. *)
Definition fresh_or_known (s : InMemoryAggregator) : Prop :=
  store_at (ima_agg_store s) task bucket0 = AggregateStore_new \/
  report_id 0 ∈ AggregateStore_reports (store_at (ima_agg_store s) task bucket0).

Lemma put_ready0 a :
  a = AggregateStore_new \/ report_id 0 ∈ AggregateStore_reports a ->
  exists r a', put_bucket a (one_share out0) [(report_id 0, 9800)] = (Ok r, a') /\
    report_id 0 ∈ AggregateStore_reports a' /\ is_other (r, [(report_id 0, 9800)]) = false.
Proof.
  intros [->|H].
  - destruct (ok_run (put_bucket AggregateStore_new (one_share out0) [(report_id 0, 9800)]))
      as (r & a' & E); [vm_compute; reflexivity|].
    exists r, a'. split; [exact E|]. split.
    + assert (a' = (put_bucket AggregateStore_new (one_share out0) [(report_id 0, 9800)]).2) as ->
        by by rewrite E.
      apply (bool_decide_eq_true_1 (report_id 0 ∈ _)). vm_compute. reflexivity.
    + assert (Ok r = (put_bucket AggregateStore_new (one_share out0) [(report_id 0, 9800)]).1) as Hr
        by by rewrite E.
      vm_compute in Hr. by injection Hr as ->.
  - unfold put_bucket. rewrite bool_decide_false.
    + eexists _, _. split; [reflexivity|]. split; [done|reflexivity].
    + intros E. apply (not_elem_of_empty (C:=gset ReportId) (report_id 0)). rewrite <-E.
      rewrite elem_of_list_to_set, list_elem_of_filter. split; [done|]. by left.
Qed.

Lemma takes_ready0 : takes_job task tc PBS_TimeInterval [ready0] fresh_or_known.
Proof.
  intros σ span resp s Hs H. destruct (ready0_spans σ) as (span' & resp' & H' & Hspan).
  rewrite H in H'. injection H' as <- <-. cbn [try_put_agg_share_span in_memory_aggregator].
  unfold on_agg_store, store_try_put. destruct Hspan as [->| ->]; cbn [put_buckets].
  - eexists _, _. split; [reflexivity|]. split; [exact Hs|]. intros b r Hr.
    simpl in Hr. by rewrite lookup_empty in Hr.
  - destruct (for_bucket (ima_agg_store s) task bucket0) as [a m] eqn:Hf.
    apply for_bucket_spec in Hf as [-> Hm].
    destruct (put_ready0 _ Hs) as (r & a' & -> & Hin & Hr).
    eexists _, _. split; [reflexivity|]. split.
    + right. simpl. rewrite store_at_insert, decide_True by done. exact Hin.
    + intros b r' Hb. simpl in Hb. apply lookup_insert_Some in Hb as [[_ <-]|[_ Hb]]; [exact Hr|].
      by rewrite lookup_empty in Hb.
Qed.

Lemma helper_retries_suffice_witness :
  exists resp w', finish_agg_job_and_aggregate task tc PBS_TimeInterval [ready0] (world ha)
    = (Ok resp, w').
Proof.
  apply (helper_retries_suffice fresh_or_known task tc PBS_TimeInterval [ready0] (world ha)).
  - apply NoDup_singleton.
  - vm_compute. discriminate.
  - intros σ. destruct (ready0_spans σ) as (span & resp & H & _). by exists (span, resp).
  - exact takes_ready0.
  - left. reflexivity.
Defined.

Lemma helper_aggregates_what_it_answers_witness :
  exists resp w', finish_agg_job_and_aggregate task tc PBS_TimeInterval job_reports (world ha)
      = (Ok resp, w') /\
    Transition_report_id <$> AggregationJobResp_transitions resp = report_ids job_reports.
Proof.
  destruct (ok_run (finish_agg_job_and_aggregate task tc PBS_TimeInterval job_reports (world ha)))
    as (resp & w' & H); [vm_compute; reflexivity|].
  exists resp, w'. split; [exact H|].
  refine (proj1 (helper_aggregates_what_it_answers task tc PBS_TimeInterval job_reports (world ha)
    resp w' _ _ H)); [|vm_compute; discriminate].
  apply (bool_decide_eq_true_1 (NoDup (report_ids job_reports))). vm_compute. reflexivity.
Defined.

(** ** The Leader's queues *)
Definition put_event (r : Report) : leader_event := Ev_put_report [] task tc r.
Definition queued : InMemoryLeaderState :=
  (leader_exec (put_event sample_report) InMemoryLeaderState_default).2.
Definition init_event : leader_event :=
  Ev_init_collect_job task tc coll_job (BS_TimeInterval batch) AggParam_Empty.

Lemma one_step tid e s :
  leader_run tid s (reports_in tid e (leader_exec e s).1 ++ [])
    (reports_out tid (leader_exec e s).1 ++ []) (leader_exec e s).2.
Proof. eapply run_step; [apply surjective_pairing|constructor]. Qed.

Lemma reports_conserved_witness :
  task_reports InMemoryLeaderState_default task ++ [sample_report] ≡ₚ
  [] ++ task_reports queued task.
Proof.
  exact (reports_conserved task _ _ _ _
    (one_step task (put_event sample_report) InMemoryLeaderState_default)).
Defined.

Lemma coll_job_monotone_witness :
  let s := (leader_exec init_event queued).2 in
  let s' := (leader_exec (Ev_dequeue_work 5) s).2 in
  coll_job_state s task coll_job = Some CJ_Pending /\
  (coll_job_state s' task coll_job = Some CJ_Pending \/
   exists coll, coll_job_state s' task coll_job = Some (CJ_Done coll)).
Proof.
  intros s s'.
  assert (coll_job_state s task coll_job = Some CJ_Pending) as H by (vm_compute; reflexivity).
  split; [exact H|].
  exact (proj2 (coll_job_monotone task task coll_job _ _ _ _ (one_step task (Ev_dequeue_work 5) s)) H).
Defined.

Lemma batch_queued_before_collection_witness :
  exists uri s' jobs, init_collect_job task tc coll_job (BS_TimeInterval batch) AggParam_Empty queued
      = (Ok uri, s') /\
    work_queue s' = work_queue queued ++ jobs ++
      [WI_CollectionJob task coll_job (BS_TimeInterval batch) AggParam_Empty] /\
    sample_report ∈ queued_reports task jobs.
Proof.
  destruct (ok_run (init_collect_job task tc coll_job (BS_TimeInterval batch) AggParam_Empty queued))
    as (uri & s' & H); [vm_compute; reflexivity|].
  destruct (batch_queued_before_collection task tc coll_job batch AggParam_Empty queued uri s')
    as (jobs & Hq & _ & Hr); [|exact tc_ok|exact batch_ok|exact H|].
  - eapply reachable_step; [apply reachable_start| |apply surjective_pairing]. by intros _.
  - exists uri, s', jobs. split; [exact H|]. split; [exact Hq|].
    apply (Hr sample_report); [|vm_compute; split; [discriminate|reflexivity]].
    assert (waiting_reports (per_task_entry queued task) = [sample_report]) as ->
      by (vm_compute; reflexivity). by left.
Defined.

(** ** The handlers of the Helper *)
Lemma check_batch_sound_witness :
  exists u w', check_batch tc task (Query_from (BS_TimeInterval batch)) [] now global_config
      (world ha) = (Ok u, w') /\
    interval_ok global_config tc now batch.
Proof.
  destruct (ok_run (check_batch tc task (Query_from (BS_TimeInterval batch)) [] now global_config
      (world ha))) as (u & w' & H); [vm_compute; reflexivity|].
  exists u, w'. split; [exact H|].
  refine (proj1 (proj2 (check_batch_sound global_config tc task (BS_TimeInterval batch) [] now
    (world ha) u w' _ tc_ok H))).
  vm_compute. split; discriminate.
Defined.

Definition job_payload : list byte :=
  match get_encoded (AggregationJobInitReq_encode Draft09) job.2 with Ok bs => bs | _ => [] end.
Definition job_request : DapRequest BearerToken :=
  request MT_AggregationJobInitReq (AggregationJob (replicate 16 Byte.x01)) job_payload
    (Some leader_token).


(** The Helper after the aggregation job. *)
Definition aggregated : World InMemoryAggregator :=
  (handle_agg_job_req job_request ReplayProtection_Enabled (world ha)).2.
Definition share_request : DapRequest BearerToken :=
  request MT_AggregateShareReq Undefined
    match (get_agg_share task (BS_TimeInterval batch) (w_store aggregated)).1 with
    | Ok share =>
        match get_encoded (AggregateShareReq_encode Draft09)
                (MkAggregateShareReq (BS_TimeInterval batch) []
                   (DapAggregateShare_report_count share) (DapAggregateShare_checksum share)) with
        | Ok bs => bs
        | _ => []
        end
    | _ => []
    end (Some leader_token).

Lemma agg_share_released_witness :
  exists resp w', handle_agg_share_req [] share_request aggregated = (Ok resp, w') /\
    DapResponse_media_type resp = MT_AggregateShare.
Proof.
  destruct (ok_run (handle_agg_share_req [] share_request aggregated)) as (resp & w' & H);
    [vm_compute; reflexivity|].
  exists resp, w'. split; [exact H|].
  destruct (agg_share_released [] share_request aggregated resp w' H)
    as (tid & g & now & c & areq & share & ct & s0 & s1 & s2 & s3 & wa & wb & Hs).
  apply Hs.
Defined.

(** ** The Leader *)
Definition report_payload : list byte :=
  match report 1 with
  | Ok r => match get_encoded (Report_encode Draft09) r with Ok bs => bs | _ => [] end
  | _ => []
  end.

Lemma upload_accepted_witness :
  exists u w' r, handle_upload_req (request MT_Report Undefined report_payload None)
      (deployment QC_TimeInterval) = (Ok u, w') /\
    get_decoded (Report_decode Draft09) report_payload = Ok r.
Proof.
  destruct (ok_run (handle_upload_req (request MT_Report Undefined report_payload None)
      (deployment QC_TimeInterval))) as (u & w' & H); [vm_compute; reflexivity|].
  destruct (upload_accepted _ _ u w' H) as (tid & g & now & c & r & s0 & s1 & _ & _ & Hr & _).
  exists u, w', r. split; [exact H|exact Hr].
Defined.

Lemma collection_interval_covers_witness :
  exists i, collection_interval tc 9855 9960 = Ok i /\
    Interval_start i <= 9855 /\ 9960 < Interval_start i + Interval_duration i.
Proof.
  destruct (collection_interval_covers tc 9855 9960) as (i & H & _ & _ & [H1 _] & [H2 _]);
    [reflexivity|vm_compute; discriminate|vm_compute; discriminate|].
  exists i. split; [exact H|]. split; [exact H1|exact H2].
Defined.

(** The aggregate shares of the system are those of its Leader. *)
Lemma system_put tid c span s r s' :
  try_put_agg_share_span (DapAggregator:=system_aggregator) tid c span s = (r, s') ->
  try_put_agg_share_span tid c span (sys_leader s) = (r, sys_leader s').
Proof.
  change (on_leader (try_put_agg_share_span tid c span) s = (r, s') ->
    try_put_agg_share_span tid c span (sys_leader s) = (r, sys_leader s')).
  unfold on_leader. destruct (try_put_agg_share_span tid c span (sys_leader s)).
  by intros [= -> <-].
Qed.

#[global] Program Instance system_storage : AggShareStorage system_aggregator := {
  bucket s := bucket (sys_leader s);
}.
Next Obligation. intros tid c span s r s' H. exact (put_results _ _ _ _ _ _ (system_put _ _ _ _ _ _ H)). Qed.
Next Obligation. intros tid c span s r s' H. exact (put_other_tasks _ _ _ _ _ _ (system_put _ _ _ _ _ _ H)). Qed.
Next Obligation. intros tid c span s r s' H. exact (put_keeps_collected _ _ _ _ _ _ (system_put _ _ _ _ _ _ H)). Qed.

Lemma run_agg_job_commits_witness :
  exists n w' span put s, run_agg_job (replicate 16 Byte.x01) task tc PBS_TimeInterval AggParam_Empty
      sample_reports (deployment QC_TimeInterval) = (Ok n, w') /\ 0 < n /\
    try_put_agg_share_span task tc span s = (Ok put, w_store w').
Proof.
  destruct (ok_run (run_agg_job (replicate 16 Byte.x01) task tc PBS_TimeInterval AggParam_Empty
      sample_reports (deployment QC_TimeInterval))) as (n & w' & H); [vm_compute; reflexivity|].
  assert (0 < n) as Hn.
  { assert (Ok n = (run_agg_job (replicate 16 Byte.x01) task tc PBS_TimeInterval AggParam_Empty
      sample_reports (deployment QC_TimeInterval)).1) as E by by rewrite H.
    vm_compute in E. injection E as ->. reflexivity. }
  destruct (run_agg_job_commits (replicate 16 Byte.x01) task tc PBS_TimeInterval AggParam_Empty
      sample_reports (deployment QC_TimeInterval) n w') 
    as (tp & state & areq & m1 & data & hresp & w1 & resp & span & items & put & Hr);
    [vm_compute; discriminate|exact H|exact Hn|].
  exists n, w', span, put, (w_store w1). split; [exact H|]. split; [exact Hn|]. apply Hr.
Defined.

(** A test of the value a computation returns. *)
Lemma ok_test {E A} (f : A -> bool) (r : res E A) a :
  r = Ok a -> match r with Ok a => f a | _ => false end = true -> f a = true.
Proof. by intros ->. Qed.

(** The deployment with two reports uploaded and a collection job behind them. *)
Definition queued_world : World InMemorySystem :=
  ((_ ← upload 1; _ ← upload 2; collect (Query_TimeInterval batch)) (deployment QC_TimeInterval)).2.

(** The two jobs of the queue, polled in turns. *)
Definition in_turns (_ : N) : list nat := [0; 1; 0; 1; 1; 0; 0; 1]%nat.

Lemma process_phases_witness :
  exists phs telem w', process in_turns (be_bytes 16) (fun _ => []) 100 queued_world = (Ok telem, w') /\
    telem = MkTelemetry 2 2 2 /\ length (joined task phs) = 2%nat /\ length (collections phs) = 1%nat.
Proof.
  destruct (ok_run (call (DapLeader_dequeue_work 100) queued_world)) as (items & w1 & Hq);
    [vm_compute; reflexivity|].
  destruct (ok_run (process in_turns (be_bytes 16) (fun _ => []) 100 queued_world)) as (telem & w' & H);
    [vm_compute; reflexivity|].
  assert (Ok items = (call (DapLeader_dequeue_work 100) queued_world).1) as Ei by by rewrite Hq.
  assert (Ok telem = (process in_turns (be_bytes 16) (fun _ => []) 100 queued_world).1) as E by by rewrite H.
  assert (total_reports items = 2 /\ length (queued_jobs (be_bytes 16) 0 task items) = 2%nat /\
    length (filter is_collection items) = 1%nat) as (H1 & H2 & H3).
  { vm_compute in Ei. injection Ei as ->. split_and!; vm_compute; reflexivity. }
  destruct (process_phases in_turns (be_bytes 16) (fun _ => []) 100 queued_world items w1 Hq)
    as (phs & _ & Hc & Hj & _); [by rewrite H1|].
  exists phs, telem, w'. split; [exact H|]. rewrite Hc, Hj. split; [|by split].
  vm_compute in E. injection E as ->. reflexivity.
Defined.

(** ** The in-memory storage *)

Lemma collected_batch_final_witness :
  exists span s1, batch_span_for_sel tc (BS_TimeInterval batch) = Ok span /\
    mark_collected task (BS_TimeInterval batch) ha = (Ok tt, s1) /\
    (is_batch_overlapping task (BS_TimeInterval batch) s1).1 = Ok true.
Proof.
  destruct (ok_res (batch_span_for_sel tc (BS_TimeInterval batch))) as [span Hsp];
    [vm_compute; reflexivity|].
  destruct (ok_run (mark_collected task (BS_TimeInterval batch) ha)) as ([] & s1 & Hm);
    [vm_compute; reflexivity|].
  assert (bucket0 ∈ span) as Hb.
  { apply (bool_decide_eq_true_1 (bucket0 ∈ span)).
    apply (ok_test (fun sp => bool_decide (bucket0 ∈ sp)) _ _ Hsp). vm_compute. reflexivity. }
  exists span, s1. split; [exact Hsp|]. split; [exact Hm|].
  refine (proj1 (collected_batch_final ha s1 s1 task tc (BS_TimeInterval batch) span
    (BS_TimeInterval batch) span bucket0 _ Hsp Hsp Hb Hb Hm (rtc_refl _ _))).
  vm_compute. reflexivity.
Defined.

Definition only_out0 (b : DapBatchBucket) : list out_share :=
  if decide (b = bucket0) then [out0] else [].

Lemma only_out0_span : span_of_reports (span_of bucket0 out0) only_out0.
Proof.
  intros b. unfold span_of, only_out0. case_decide as E.
  - subst b. rewrite lookup_singleton_eq.
    split_and!; [apply one_share_represents|done|apply NoDup_singleton].
  - by rewrite lookup_singleton_ne.
Qed.

(** What the buckets hold after one put with the given result. *)
Definition after_put (res : DapAggregateSpan (option MergeAggShareError)) (tid : TaskId)
    (b : DapBatchBucket) : list out_share :=
  if bool_decide (tid = task) && accepted res b then [] ++ only_out0 b else [].

Lemma after_put_len res tid l : (length (l ≫= after_put res tid) <= length l)%nat.
Proof.
  induction l as [|b l IH]; [done|]. cbn [mbind list_bind]. rewrite length_app. simpl.
  assert (length (after_put res tid b) <= 1)%nat; [|lia].
  unfold after_put, only_out0. repeat case_match; simpl; lia.
Qed.

Lemma released_share_exact_witness :
  exists g span share m s', batch_span_for_sel tc (BS_TimeInterval batch) = Ok span /\
    get_agg_share task (BS_TimeInterval batch) (set_agg_store ha m) = (Ok share, s') /\
    represents share (elements span ≫= g task).
Proof.
  destruct (ok_run (store_try_put task (span_of bucket0 out0) ∅)) as (res & m & Hput);
    [vm_compute; reflexivity|].
  destruct (ok_res (batch_span_for_sel tc (BS_TimeInterval batch))) as [span Hsp];
    [vm_compute; reflexivity|].
  destruct (ok_run (get_agg_share task (BS_TimeInterval batch) (set_agg_store ha m)))
    as (share & s' & Hget).
  { change m with (@pair (Prelude.res DapError (DapAggregateSpan (option MergeAggShareError))) _
      (Ok res) m).2. rewrite <-Hput. vm_compute. reflexivity. }
  exists (after_put res), span, share, m, s'. split; [exact Hsp|]. split; [exact Hget|].
  refine (proj1 (released_share_exact (set_agg_store ha m) (after_put res) task tc
    (BS_TimeInterval batch) span share s' _ _ Hsp _ Hget)); [|vm_compute; reflexivity|].
  - refine (run_put ∅ (fun _ _ => []) task (span_of bucket0 out0) only_out0 res m run_new
      only_out0_span _ Hput).
    intros b. unfold only_out0. case_decide; vm_compute; discriminate.
  - pose proof (after_put_len res task (elements span)) as Hl.
    assert ((len (elements span) <=? u64_max) = true) as Hs%N.leb_le.
    { apply (ok_test (fun sp => len (elements sp) <=? u64_max) _ _ Hsp). vm_compute. reflexivity. }
    unfold len in *. lia.
Defined.
