(* ===== verification/PineWitnesses.v ===== *)
(** * Concrete instances of the theorems about PINE

    Every theorem about PINE is applied here to the instance of [PineReference], gradients
    modulo 257, where its hypotheses hold by evaluation. *)

From Stdlib Require Import ZArith SpecFloat.
From S2P Require Import Prelude Codec Messages TaskprovMessages Errors Pine PineField.
From S2P Require Import PineEncoding PineFlp PineFlpCorrect PineWraparound PineMsg PineVdaf.
From S2P Require Import Config PineVdafCorrect PineBatch Mastic Reference PineReference.

Lemma pine_param_wf : PineParam_wf pine_param.
Proof. vm_compute. repeat split; discriminate. Qed.

Lemma pine257_new : Pine_new felem_field pine_param 7 = Ok pine257.
Proof. vm_compute. reflexivity. Qed.

Lemma pine257_circuits :
  pine_circuits (G1:=main_gadget) (G2:=sne_gadget) (Pine_flp pine257) (Pine_flp_sq_norm_equal pine257).
Proof.
  split; [split| | | | | ]; try reflexivity.
  - intros inp s _. by exists s.
  - intros inp s _. by exists s.
Qed.

(** One half, minus one, and one and a half. *)
Definition half : f64 := S754_finite false 4503599627370496 (-53).
Definition minus_one : f64 := S754_finite true 4503599627370496 (-52).
Definition three_halves : f64 := S754_finite false 6755399441055744 (-52).

Lemma coordinate_round_trip_witness :
  exists y, (f ← f64_to_field three_halves (pow2_f64 1); field_to_f64 f (pow2_f64 1)) = Ok y /\
    scaled_is y 1 3 /\ (scaled_is three_halves 1 3 -> y = three_halves).
Proof.
  apply (coordinate_round_trip false 6755399441055744 (-52) 1); vm_compute; done.
Defined.

Lemma pine_messages_codec_witness :
  round_trips (vec_len 2) PineVec_encode (PineVec_decode pine257).
Proof.
  apply (pine_messages_codec pine_param 7 pine257 0 pine_param_wf pine257_new).
Defined.

(** The result of a run that succeeds. *)
Definition get_ok {E A} (d : A) (r : res E A) : A := match r with Ok a => a | _ => d end.

Lemma get_ok_eq {E A} (d : A) (r : res E A) : is_ok r = true -> r = Ok (get_ok d r).
Proof. by destruct r. Qed.

Definition encoded257 : list felem * list felem :=
  get_ok ([], []) (encode_with_wr_joint_rand (Pine_flp pine257) [half; minus_one] [Byte.x03]).

Lemma encoded257_eq :
  encode_with_wr_joint_rand (Pine_flp pine257) [half; minus_one] [Byte.x03] = Ok encoded257.
Proof. apply get_ok_eq. vm_compute. reflexivity. Qed.

Lemma encoded_gradient_valid_witness :
  exists s', PineType_valid (Pine_flp pine257) (encoded257.1 ++ encoded257.2)
    [of_int 3; of_int 5; of_int 7] 1 MainGadget = (Ok f0, s').
Proof.
  apply (encoded_gradient_valid (Pine_flp pine257) (Pine_flp_sq_norm_equal pine257) [half; minus_one]
    [Byte.x03] _ _ (of_int 3) (of_int 5) (of_int 7) MainGadget SneGadget pine257_circuits).
  rewrite encoded257_eq. by destruct encoded257.
Defined.

(** Twenty-six, two and four values of the joint randomness. *)
Definition elements257 (n : nat) : list felem := (fun i => of_int (N.of_nat i)) <$> seq 0 n.

Lemma elements257_NoDup n : (n <= 257)%nat -> NoDup (elements257 n).
Proof.
  intros Hn. apply NoDup_fmap_2_strong; [|apply NoDup_seq]. intros i j Hi Hj H.
  apply elem_of_seq in Hi, Hj. apply (f_equal Fp.val) in H. simpl in H.
  rewrite !N.mod_small in H by (unfold Fp.p; lia). lia.
Qed.

Lemma accepted_measurement_valid_witness :
  exists grad vb ub ts, encoded257.1 ++ encoded257.2 = pine_meas grad vb ub ts /\
    meas_shape (Pine_flp pine257) grad vb ub ts /\ valid_measurement (Pine_flp pine257) grad vb ts.
Proof.
  assert (encode_with_wr_joint_rand (Pine_flp pine257) [half; minus_one] [Byte.x03]
    = Ok (encoded257.1, encoded257.2)) as He by (rewrite encoded257_eq; by destruct encoded257).
  destruct (encoded_valid (G1:=main_gadget) (G2:=sne_gadget) _ _ _ _ _ _ pine257_circuits He)
    as [Hmain Hsne].
  destruct (Hsne SneGadget) as [s' Hs].
  apply (accepted_measurement_valid (G1:=main_gadget) (G2:=sne_gadget) (Pine_flp pine257)
    (Pine_flp_sq_norm_equal pine257) _ (elements257 26) (elements257 2) (elements257 4)
    MainGadget SneGadget s' pine257_circuits).
  - vm_compute. reflexivity.
  - reflexivity.
  - split; reflexivity.
  - reflexivity.
  - vm_compute. discriminate.
  - apply elements257_NoDup. lia.
  - apply elements257_NoDup. lia.
  - apply elements257_NoDup. lia.
  - vm_compute. discriminate.
  - split; vm_compute; discriminate.
  - vm_compute. discriminate.
  - intros r1 r2 r3 _ _ _. apply Hmain.
  - exact Hs.
Defined.

Lemma wr_tests_are_dot_products_witness :
  let rand := wr_rand (Pine_flp pine257) [Byte.x03] 1 in
  run_wr_tests (E:=PrioVdafError) (Pine_flp pine257) [of_int 1; of_int 2] [Byte.x03]
  = Ok ((fun r => dot (coefficients r) [of_int 1; of_int 2]) <$> rand).
Proof.
  apply (wr_tests_are_dot_products (Pine_flp pine257) [of_int 1; of_int 2] [Byte.x03]);
    [reflexivity|]. split; [|split]; vm_compute; reflexivity || discriminate.
Defined.

(** ** A batch of two reports *)
Definition seed257 (b : byte) : ShardRand := MkShardRand [b] [b] [b] [b] [b] [b] [b].

Definition report257_0 : pine_report := MkPineReport (replicate 16 Byte.x01) [half; minus_one] (seed257 Byte.x04).
Definition report257_1 : pine_report := MkPineReport (replicate 16 Byte.x02) [three_halves; half] (seed257 Byte.x09).

Definition vk257 : list byte := [Byte.x07].

Lemma report257_sharded r :
  is_ok (shard_with_rand pine257 (report_gradient r) (report_nonce r) (report_rand r)) = true ->
  is_ok (query_rands (E:=PrioVdafError) pine257 vk257 (report_nonce r)) = true ->
  sharded_report pine257 (fun _ => True) vk257 r.
Proof.
  intros [[pub shares] H1]%ok_res [[qr_s qr] H2]%ok_res. split; [by eexists _, _|].
  exists qr_s, qr. split; [done|]. split; by apply Forall_forall.
Qed.

Lemma pine_report_prepared_witness :
  exists o enc, report_prepared pine257 vk257 report257_0 o /\
    append_encoded_gradient (Pine_flp pine257) [] [half; minus_one] = Ok enc /\
    of_len 2 o.1 /\ of_len 2 o.2 /\ add_shares o.1 o.2 = take 2 enc.
Proof.
  apply (pine_report_prepared pine_param 7 pine257 (fun _ => True) vk257 report257_0 pine_param_wf
    pine257_new (fp_flps pine257) pine257_circuits).
  apply report257_sharded; vm_compute; reflexivity.
Defined.

(** [1/2 + 3/2 = 2] and [-1 + 1/2 = -1/2], in units of one half. *)
Lemma pine_batch_sum_witness :
  exists outs a0 a1 ys, Forall2 (report_prepared pine257 vk257) [report257_0; report257_1] outs /\
    aggregate pine257 outs.*1 = Ok a0 /\ aggregate pine257 outs.*2 = Ok a1 /\
    unshard pine257 [a0; a1] = Ok ys /\ Forall2 (fun y v => scaled_is y 1 v) ys [4; -1]%Z.
Proof.
  apply (pine_batch_sum pine_param 7 pine257 (fun _ => True) vk257 3%Z [report257_0; report257_1]
    [[1; -2]; [3; 1]]%Z pine_param_wf pine257_new (fp_flps pine257) pine257_circuits).
  - reflexivity.
  - constructor; [|constructor; [|constructor]]; apply report257_sharded; vm_compute; reflexivity.
  - lia.
  - reflexivity.
  - reflexivity.
  - constructor; [|constructor; [|constructor]]; split; repeat constructor; vm_compute;
      discriminate || reflexivity.
Defined.

(** ** Mastic: two prefixes, four inputs *)
Definition cool : list byte := ascii_bytes "cool".
Definition trip : list byte := ascii_bytes "trip".

Lemma mastic_counts_prefixes_witness :
  exists leader helper,
    mastic_unshard WC_Count (Param_Mastic [ascii_bytes "co"; trip]) [leader; helper] = Ok [1; 2].
Proof.
  destruct (mastic_counts_prefixes 4 (replicate 16 Byte.x00) [ascii_bytes "co"; trip]
    [(cool, true); (trip, true); (cool, false); (trip, true)]) as (outs & leader & helper & _ & _ & _ & H).
  - reflexivity.
  - repeat constructor.
  - repeat constructor; vm_compute; discriminate.
  - reflexivity.
  - exists leader, helper. exact H.
Defined.
