(* ===== verification/DurableReference.v ===== *)
(** * Reference implementations of the storage platform

    Concrete functions for what the durable objects and the storage proxy import: elements
    and shares of [prio], a storage that may fail according to a schedule, Cap'n Proto
    messages, hexadecimal, and a platform on which requests and answers may get lost.  Each
    has the laws the development assumes of it. *)

From stdpp Require Import countable.
From S2P Require Import Prelude Codec Messages TaskprovMessages Errors Config AggShare.
From S2P Require Import DurableStore DurableChunks DurableStoreCorrect DurableRequests StorageProxy.
From S2P Require Import StorageProxyCorrect.

Module DurableReference.

(** ** Elements: numbers of 4, 8 and 16 bytes, added modulo *)
Definition esize (f : field_kind) : nat :=
  match f with FieldPrio2 => 4 | Field64 => 8 | Field128 => 16 end.
Definition ebound (f : field_kind) : N := 256 ^ N.of_nat (esize f).
Definition elem (f : field_kind) : Type := { n : N | (n <? ebound f) = true }.

Lemma ebound_pos f : ebound f <> 0.
Proof. by destruct f. Qed.

Lemma reduce_lt f n : (n mod ebound f <? ebound f) = true.
Proof. apply N.ltb_lt, N.mod_lt, ebound_pos. Qed.

Definition reduce (f : field_kind) (n : N) : elem f := exist _ (n mod ebound f) (reduce_lt f n).

Lemma elem_eq f (x y : elem f) : proj1_sig x = proj1_sig y -> x = y.
Proof. apply sig_eq_pi. intros. apply _. Qed.

Lemma reduce_elem f (x : elem f) : reduce f (proj1_sig x) = x.
Proof. apply elem_eq. destruct x as [n Hn]. cbn. by apply N.mod_small, N.ltb_lt. Qed.

Definition add (f : field_kind) (x y : elem f) : elem f := reduce f (proj1_sig x + proj1_sig y).

#[global] Instance prio_agg : PrioAgg := {
  prio_agg_share := fun f => list (elem f);
  prio_merge := fun f a b => if (length a =? length b)%nat then Some (zip_with (add f) a b) else None;
}.

Lemma add_comm f x y : add f x y = add f y x.
Proof. unfold add. by rewrite N.add_comm. Qed.

Lemma add_assoc f x y z : add f (add f x y) z = add f x (add f y z).
Proof.
  apply elem_eq. cbn. rewrite N.Div0.add_mod_idemp_l, N.Div0.add_mod_idemp_r. by rewrite N.add_assoc.
Qed.

#[global] Instance prio_agg_laws : PrioAggLaws prio_agg.
Proof.
  assert (forall f a b, zip_with (add f) a b = zip_with (add f) b a) as Hc.
  { intros f a. induction a as [|x a IH]; intros [|y b]; simpl; try done. by rewrite IH, add_comm. }
  assert (forall f a b c, zip_with (add f) (zip_with (add f) a b) c
    = zip_with (add f) a (zip_with (add f) b c)) as Ha.
  { intros f a. induction a as [|x a IH]; intros [|y b] [|z c]; simpl; try done.
    by rewrite IH, add_assoc. }
  split; simpl.
  - intros f a b. rewrite Nat.eqb_sym. case_match; [|done]. by rewrite Hc.
  - intros f a b c.
    destruct (Nat.eqb_spec (length a) (length b)) as [E1|E1],
      (Nat.eqb_spec (length b) (length c)) as [E2|E2]; simpl; rewrite ?length_zip_with.
    + rewrite (proj2 (Nat.eqb_eq _ _)), (proj2 (Nat.eqb_eq _ _)) by lia. by rewrite Ha.
    + by rewrite (proj2 (Nat.eqb_neq _ _)) by lia.
    + by rewrite (proj2 (Nat.eqb_neq _ _)) by lia.
    + done.
Qed.

Definition elem_bytes (f : field_kind) (x : elem f) : list byte := be_bytes (esize f) (proj1_sig x).

#[global] Instance prio_vec : PrioVec := {
  prio_elem := elem;
  agg_to_vec := fun f s => s;
  agg_from_vec := fun f l => l;
  elem_encode := fun f x buf => Ok (buf ++ elem_bytes f x);
  elem_decode := fun f c =>
    '(bs, c) ← read_exact (N.of_nat (esize f)) c; Ok (reduce f (be_value bs), c);
  elem_size := fun f => N.of_nat (esize f);
  agg_encode := fun f s buf => Ok (buf ++ mjoin (elem_bytes f <$> s));
}.

Lemma elem_bytes_len f (x : elem f) : length (elem_bytes f x) = esize f.
Proof. apply length_be_bytes. Qed.

Lemma elem_bytes_value f (x : elem f) : reduce f (be_value (elem_bytes f x)) = x.
Proof.
  unfold elem_bytes. rewrite be_value_bytes; [apply reduce_elem|]. destruct x as [n Hn]. cbn.
  by apply N.ltb_lt.
Qed.

#[global] Instance elem_codec_ok f : CodecOk (fun _ => True) (elem_encode f) (elem_decode f).
Proof.
  split.
  - intros x _. exists (elem_bytes f x). split; [by intros buf|]. intros pre post Hm.
    cbn [elem_decode prio_vec]. rewrite (read_exact_decodes' (N.of_nat (esize f)) (elem_bytes f x)).
    + cbn [mbind res_bind]. by rewrite elem_bytes_value.
    + unfold len. by rewrite elem_bytes_len.
    + done.
  - intros c x c' H. split; [done|]. cbn [elem_decode prio_vec] in H.
    apply bind_Ok in H as ([bs c1] & H1 & [= <- <-]). unfold read_exact in H1.
    destruct (N.leb_spec (N.of_nat (esize f)) (len (remaining c))) as [Hle|]; [|done].
    injection H1 as <- <-. set (bs := take _ (remaining c)).
    assert (length bs = esize f) as Hbs.
    { unfold bs. rewrite length_take. unfold len in Hle. lia. }
    exists bs. split; [split; rewrite Hbs; [unfold bs|]; f_equal; lia|].
    intros buf. cbn. unfold elem_bytes. cbn. rewrite N.mod_small.
    + by rewrite <-Hbs, be_bytes_value.
    + unfold ebound. rewrite <-Hbs. apply be_value_lt.
Qed.

#[global] Instance prio_vec_laws : PrioVecLaws prio_vec.
Proof.
  split; try done.
  - apply _.
  - intros f x bs H. cbn in *. specialize (H []). cbn in H. injection H as <-. unfold len.
    by rewrite elem_bytes_len.
  - by intros [].
  - intros f s bss H buf. cbn in *. do 2 f_equal.
    induction H as [|x b s bss Hb _ IH]; [done|].
    change (mjoin (b :: bss)) with (b ++ mjoin bss). rewrite fmap_cons.
    change (mjoin (elem_bytes f x :: (elem_bytes f <$> s))) with (elem_bytes f x ++ mjoin (elem_bytes f <$> s)).
    rewrite IH. f_equal. specialize (Hb []). cbn in Hb. by injection Hb.
  - intros f a b c. cbn. destruct (Nat.eqb_spec (length a) (length b)) as [E|]; [|done].
    intros [= <-]. rewrite length_zip_with. lia.
Qed.

#[global] Instance prio_elem_bytes : PrioElemBytes := {
  elem_into := elem_bytes;
  elem_try_from := fun f bs =>
    if (length bs =? esize f)%nat then Some (reduce f (be_value bs)) else None;
}.

#[global] Instance prio_elem_bytes_laws : PrioElemBytesLaws prio_elem_bytes.
Proof.
  split; intros f x.
  - cbn [elem_into prio_elem_bytes elem_size prio_vec]. unfold len. by rewrite elem_bytes_len.
  - cbn [elem_into elem_try_from prio_elem_bytes].
    rewrite elem_bytes_len, Nat.eqb_refl. by rewrite elem_bytes_value.
Qed.

(** ** A storage with a schedule of failures *)
Inductive js : Type :=
| JsBytes (bs : list byte)
| JsBool (b : bool)
| JsU8 (n : N)
| JsMeta (m : DapAggregateShareMetadata).

(** What happens to a call: it succeeds, fails without effect, fails after its effect. *)
Inductive fault : Type := Fine | Refused | Late.

Record mem : Type := MkMem { mem_contents : gmap string js; mem_faults : list fault }.

Definition next_fault (s : mem) : fault * mem :=
  match mem_faults s with
  | [] => (Fine, s)
  | f :: fs => (f, MkMem (mem_contents s) fs)
  end.

Definition mem_read {A} (r : gmap string js -> res WorkerError A) : stm mem WorkerError A := fun s =>
  match next_fault s with
  | (Fine, s) => (r (mem_contents s), s)
  | (_, s) => (Err WorkerOther, s)
  end.

Definition mem_write (g : gmap string js -> gmap string js) : stm mem WorkerError unit := fun s =>
  match next_fault s with
  | (Fine, s) => (Ok tt, MkMem (g (mem_contents s)) (mem_faults s))
  | (Refused, s) => (Err WorkerOther, s)
  | (Late, s) => (Err WorkerOther, MkMem (g (mem_contents s)) (mem_faults s))
  end.

Definition meta_safeb (m : DapAggregateShareMetadata) : bool :=
  (meta_report_count m <=? max_safe_integer) && (meta_min_time m <=? max_safe_integer) &&
  (meta_max_time m <=? max_safe_integer) && (len (meta_checksum m) =? 32).

#[global] Instance durable_storage : DurableStorage := {
  JsValue := js;
  storage := mem;
  js_bytes := JsBytes;
  js_to_bytes v := match v with JsBytes bs => Some bs | _ => None end;
  js_bool := JsBool;
  js_to_bool v := match v with JsBool b => Some b | _ => None end;
  js_u8 := JsU8;
  js_to_u8 v := match v with JsU8 n => Some n | _ => None end;
  js_meta m := if meta_safeb m then Some (JsMeta m) else None;
  js_to_meta v := match v with JsMeta m => Some m | _ => None end;
  storage_get k := mem_read (fun m =>
    match m !! k with Some v => Ok v | None => Err (JsError ERR_NO_VALUE) end);
  storage_get_multiple ks := mem_read (fun m => Ok (filter (fun kv => kv.1 ∈ ks) m));
  storage_put k v := mem_write (insert k v);
  storage_put_multiple m := mem_write (union m);
  storage_delete_all := mem_write (fun _ => ∅);
  storage_set_alarm := mem_write (fun m => m);
}.

Lemma mem_read_law {A} (r : gmap string js -> res WorkerError A) s x s' :
  mem_read r s = (x, s') ->
  mem_contents s' = mem_contents s /\ (x = r (mem_contents s) \/ x = Err WorkerOther).
Proof.
  unfold mem_read, next_fault. destruct s as [m [|[] fs]]; cbn; intros [= <- <-]; auto.
Qed.

Lemma mem_write_law g s x s' :
  mem_write g s = (x, s') ->
  write_result x (fun t => mem_contents t = mem_contents s)
    (fun t => mem_contents t = g (mem_contents s)) s'.
Proof.
  unfold mem_write, next_fault. destruct s as [m [|[] fs]]; cbn; intros [= <- <-]; cbn; auto.
Qed.

#[global] Program Instance durable_storage_laws : DurableStorageLaws durable_storage := {
  contents := mem_contents;
}.
Solve Obligations with (try done).
Next Obligation. cbn. intros m v H. destruct (meta_safeb m); [|done]. by injection H as <-. Qed.
Next Obligation.
  cbn. intros m (H1 & H2 & H3 & H4). unfold meta_safeb.
  rewrite !(proj2 (N.leb_le _ _)), (proj2 (N.eqb_eq _ _)) by done. by eexists.
Qed.
Next Obligation.
  cbn. intros k s r s' H. apply mem_read_law in H as [H1 H2]. split; [done|].
  destruct H2 as [->| ->]; [by left|right]. by eexists.
Qed.
Next Obligation.
  cbn. intros ks s r s' H. apply mem_read_law in H as [H1 H2]. split; [done|].
  destruct H2 as [->| ->]; [by left|right]. by eexists.
Qed.
Next Obligation. cbn. intros k v s r s' H. by apply mem_write_law in H. Qed.
Next Obligation. cbn. intros m s r s' H. by apply mem_write_law in H. Qed.
Next Obligation. cbn. intros s r s' H. by apply mem_write_law in H. Qed.
Next Obligation.
  cbn. intros s r s' H. apply mem_write_law in H. destruct r; cbn in H; [done| |done].
  split; [by destruct H|done].
Qed.

(** ** Messages: the number of a value, byte by byte behind a mark *)
Fixpoint mark (bs : list byte) : list byte :=
  match bs with [] => [Byte.x00] | b :: bs => Byte.x01 :: b :: mark bs end.

Fixpoint unmark (bs : list byte) : option (list byte * nat) :=
  match bs with
  | Byte.x00 :: _ => Some ([], 1%nat)
  | Byte.x01 :: b :: bs => '(r, n) ← unmark bs; Some (b :: r, S (S n))
  | _ => None
  end.

Lemma unmark_mark bs post : unmark (mark bs ++ post) = Some (bs, length (mark bs)).
Proof. induction bs as [|b bs IH]; [done|]. cbn. by rewrite IH. Qed.

Section Count.
Context {A : Type} `{Countable A}.

Definition cwrite (x : A) : list byte :=
  let n := N.pos (encode x) in mark (le_bytes (N.to_nat (N.size n)) n).

Definition cread (bs : list byte) : option (A * nat) :=
  '(ds, k) ← unmark bs;
  x ← match le_value ds with N.pos p => decode p | 0 => None end;
  Some (x, k).

Lemma size_bound n : n < 256 ^ N.of_nat (N.to_nat (N.size n)).
Proof.
  rewrite N2Nat.id. eapply N.lt_le_trans; [apply N.size_gt|].
  apply N.pow_le_mono_l. lia.
Qed.

Lemma cread_cwrite x post : cread (cwrite x ++ post) = Some (x, length (cwrite x)).
Proof.
  unfold cread, cwrite. rewrite unmark_mark. cbn [mbind option_bind].
  rewrite le_value_bytes by apply size_bound. by rewrite decode_encode.
Qed.
End Count.

(** Messages as tuples. *)
Definition request_tuple : Type := string * (bool * string) * bool.
Definition of_id (id : ObjectIdFrom) : bool * string :=
  match id with ObjectIdFrom_Name s => (true, s) | ObjectIdFrom_Hex s => (false, s) end.

Definition merge_tuple : Type := list (N * N) * (N * N * N * list byte) * (N * list byte) * bool.
Definition of_data (d : msg_data) : N * list byte :=
  match d with
  | Data_field64 bs => (0, bs)
  | Data_field128 bs => (1, bs)
  | Data_fieldPrio2 bs => (2, bs)
  | Data_none => (3, [])
  end.
Definition to_which (d : N * list byte) : data_which :=
  match d with
  | (0, bs) => Which_Field64 (Ok bs)
  | (1, bs) => Which_Field128 (Ok bs)
  | (2, bs) => Which_FieldPrio2 (Ok bs)
  | (_, _) => Which_None
  end.

#[global] Instance capnp : Capnp := {
  capnp_text := string;
  text_to_string s := Ok s;
  write_durable_request m :=
    cwrite ((drm_binding m, of_id (drm_id m), drm_retry m) : request_tuple);
  read_durable_request c :=
    match cread (A:=request_tuple) (remaining c) with
    | Some ((b, (n, s), r), k) =>
        Ok (MkDurableRequestReader (Ok b)
              (Ok (if n then Which_Name (Ok s) else Which_Hex (Ok s))) r, advance c k)
    | None => Err CapnpOther
    end;
  write_merge_req m :=
    let s := mm_agg_share_delta m in
    Ok (cwrite ((mm_contained_reports m,
          (sm_report_count s, sm_min_time s, sm_max_time s, sm_checksum s), of_data (sm_data s),
          mm_skip_replay_protection m) : merge_tuple));
  read_merge_req c :=
    match cread (A:=merge_tuple) (remaining c) with
    | Some ((rs, (n, mn, mx, sum), d, skip), k) =>
        Ok (MkMergeReqReader (Ok rs) (Ok (MkShareReader n mn mx (Ok sum) (Ok (to_which d)))) (Ok skip),
            advance c k)
    | None => Err CapnpOther
    end;
}.

#[global] Instance capnp_laws : CapnpLaws capnp.
Proof.
  split.
  - intros m post. cbn [read_durable_request write_durable_request capnp]. unfold remaining, cursor_new.
    cbn [get_ref position]. rewrite drop_0, cread_cwrite. destruct m as [b [s|s] r]; cbn.
    + do 2 eexists. split; [done|]. by repeat (split || eexists).
    + do 2 eexists. split; [done|]. by repeat (split || eexists).
  - assert (forall m : merge_tuple, exists c,
      match cread (A:=merge_tuple) (remaining (cursor_new (cwrite m))) with
      | Some (x, k) => x = m /\ c = advance (cursor_new (cwrite m)) k
      | None => False
      end) as Hr.
    { intros m. unfold remaining, cursor_new. cbn [get_ref position]. rewrite drop_0.
      pose proof (cread_cwrite (A:=merge_tuple) m []) as Hr. rewrite app_nil_r in Hr. rewrite Hr. eauto. }
    intros [rs [n mn mx sum d] skip] _. cbn [read_merge_req write_merge_req capnp
      mm_contained_reports mm_agg_share_delta mm_skip_replay_protection
      sm_report_count sm_min_time sm_max_time sm_checksum sm_data].
    destruct (Hr (rs, (n, mn, mx, sum), of_data d, skip)) as (c & H).
    exists (cwrite ((rs, (n, mn, mx, sum), of_data d, skip) : merge_tuple)), c. split; [done|].
    destruct (cread _) as [[x k]|]; [|done]. destruct H as [-> ->]. by destruct d.
Qed.

(** ** Hexadecimal *)
Definition nibble (n : N) : Ascii.ascii := Ascii.ascii_of_N (if n <? 10 then 48 + n else 87 + n).

Fixpoint hex (bs : list byte) : string :=
  match bs with
  | [] => EmptyString
  | b :: bs => String (nibble (Byte.to_N b / 16)) (String (nibble (Byte.to_N b mod 16)) (hex bs))
  end.

#[global] Instance hex_codec : HexCodec := hex.

Lemma nibbles_inj b b' :
  nibble (Byte.to_N b / 16) = nibble (Byte.to_N b' / 16) ->
  nibble (Byte.to_N b mod 16) = nibble (Byte.to_N b' mod 16) -> b = b'.
Proof.
  assert (forall n m, n < 16 -> m < 16 -> nibble n = nibble m -> n = m) as H.
  { intros n m Hn Hm Heq. apply (f_equal Ascii.N_of_ascii) in Heq. unfold nibble in Heq.
    rewrite !Ascii.N_ascii_embedding in Heq by (destruct (N.ltb_spec n 10), (N.ltb_spec m 10); lia).
    destruct (N.ltb_spec n 10), (N.ltb_spec m 10); lia. }
  intros H1 H2. pose proof (Byte.to_N_bounded b) as B. pose proof (Byte.to_N_bounded b') as B'.
  apply H in H1; [|apply N.Div0.div_lt_upper_bound; lia..].
  apply H in H2; [|apply N.mod_lt; lia..].
  assert (Byte.to_N b = Byte.to_N b') as Hb.
  { rewrite (N.div_mod (Byte.to_N b) 16), (N.div_mod (Byte.to_N b') 16) by done. lia. }
  apply (f_equal Byte.of_N) in Hb. rewrite !Byte.of_to_N in Hb. by injection Hb.
Qed.

#[global] Instance hex_laws : HexLaws hex_codec.
Proof.
  split; unfold hex_encode, hex_codec.
  - induction bs as [|b bs IH]; intros [|b' bs']; cbn; try done.
    intros [= H1 H2 H3]. f_equal; [by apply nibbles_inj|by apply IH].
  - induction bs as [|b bs IH]; cbn; [done|]. rewrite IH. lia.
  - assert (forall n, n < 16 -> nibble n <> slash) as H.
    { intros n Hn Heq. apply (f_equal Ascii.N_of_ascii) in Heq. unfold nibble, slash in Heq.
      rewrite !Ascii.N_ascii_embedding in Heq by (destruct (N.ltb_spec n 10); lia).
      destruct (N.ltb_spec n 10); lia. }
    induction bs as [|b bs IH]; [constructor|]. pose proof (Byte.to_N_bounded b) as B.
    constructor; [apply H, N.Div0.div_lt_upper_bound; lia|].
    constructor; [apply H, N.mod_lt; lia|done].
Qed.

(** ** A platform that loses requests and answers, evicts objects, and keeps those that fail *)
Section Platform.
Context `{BP : BuildProfile} `{PC : PrioCodec} {PL : PrioCodecLaws PC}.

Inductive net : Type := Delivered | Lost | AnswerLost | Evicted | NoStub.

Record plat : Type := MkPlat { p_object : ObjectIdFrom -> AggregateStoreDO; p_net : list net }.

Definition p_next (p : plat) : net * plat :=
  match p_net p with
  | [] => (Delivered, p)
  | n :: ns => (n, MkPlat (p_object p) ns)
  end.

Definition p_put (p : plat) (id : ObjectIdFrom) (st : AggregateStoreDO) : plat :=
  MkPlat (fun id' => if decide (id' = id) then st else p_object p id') (p_net p).

Definition p_fetch (id : ObjectIdFrom) (path : string) (body : list byte) :
    stm plat WorkerError store_response := fun p =>
  let '(n, p) := p_next p in
  match n with
  | Lost | NoStub => (Err WorkerOther, p)
  | _ =>
      let st := match n with Evicted => restart (p_object p id) | _ => p_object p id end in
      match http_fetch path body st with
      | (Ok resp, st1) =>
          (match n with AnswerLost => Err WorkerOther | _ => Ok resp end, p_put p id st1)
      | (Err e, st1) => (Err e, p_put p id st1)
      | (Panic, st1) => (Err WorkerOther, p_put p id (restart st1))
      end
  end.

Definition p_stub : stm plat WorkerError unit := fun p =>
  match p_net p with
  | NoStub :: ns => (Err WorkerOther, MkPlat (p_object p) ns)
  | _ => (Ok tt, p)
  end.

#[global] Instance namespace : DurableNamespace plat := {
  request_new _ _ := Ok tt;
  get_stub _ _ := p_stub;
  locate binding _ := if decide (binding = "DAP_AGGREGATE_STORE") then Ok tt else Err WorkerOther;
  stub_fetch _ id path body := p_fetch id path body;
}.

Lemma p_put_same p id st : p_object (p_put p id st) id = st.
Proof. cbn. by rewrite decide_True. Qed.

Lemma p_put_other p id st id' : id' <> id -> p_object (p_put p id st) id' = p_object p id'.
Proof. intros H. cbn. by rewrite decide_False. Qed.

#[global] Program Instance namespace_laws : DurableNamespaceLaws namespace := {
  object_at := p_object;
}.
Next Obligation.
  cbn. intros _ id p r p' H. unfold p_stub in H.
  destruct (p_net p) as [|[] ns]; injection H as <- <-; (split; [done|]); (split; [by left|done]).
Qed.
Next Obligation.
  cbn. intros _ id path body p r p' H. unfold p_fetch in H.
  destruct (p_next p) as [n q] eqn:Hn.
  assert (p_object q = p_object p) as Hq.
  { unfold p_next in Hn. destruct p as [o [|m ms]]; cbn in Hn; by injection Hn as <- <-. }
  destruct n; rewrite <-Hq; [| | | |];
    [|injection H as <- <-; split; [apply delivery_lost; by left|done]| | |
      injection H as <- <-; split; [apply delivery_lost; by left|done]];
    destruct (http_fetch path body _) as [[resp|e|] st1] eqn:Hf; injection H as <- <-;
    (split; [rewrite p_put_same|intros id' Hid; by apply p_put_other]).
  - eapply delivery_answered; [by left|done].
  - eapply delivery_unanswered; [by left|done|by left].
  - eapply delivery_unanswered; [by left|done|by right].
  - eapply delivery_unanswered; [by left|done|by left].
  - eapply delivery_unanswered; [by left|done|by left].
  - eapply delivery_unanswered; [by left|done|by right].
  - eapply delivery_answered; [by right|done].
  - eapply delivery_unanswered; [by right|done|by left].
  - eapply delivery_unanswered; [by right|done|by right].
Qed.
End Platform.
End DurableReference.
