(* ===== verification/DurableWitnesses.v ===== *)
(** * The theorems on the storage, applied

    A bucket on the reference platform of [DurableReference], and for each theorem with
    hypotheses about the storage an instance in which they hold. *)

From S2P Require Import Prelude Codec Messages TaskprovMessages Errors Config AggShare.
From S2P Require Import DurableStore DurableChunks DurableStoreCorrect DurableRun.
From S2P Require Import DurableRequests DurableRequestsCorrect StorageProxy StorageProxyCorrect.
From S2P Require Import DurableReference StateCleaner.
Import Codec.Reference DurableReference.DurableReference.

#[export] Instance checks : BuildProfile := {| overflow_checks := true |}.
#[export] Instance digest : Digest := AggShare.AggReference.digest_reference.
#[export] Instance digest_laws : DigestLaws digest := AggShare.AggReference.digest_reference_laws.

(** Two reports. *)
Definition id1 : ReportId := replicate 16 Byte.x01.
Definition id2 : ReportId := replicate 16 Byte.x02.
Definition data (n : N) : VdafAggregateShare := VAS_Field64 [reduce Field64 n].

Definition out1 : out_share := (id1, 100, data 5).
Definition out2 : out_share := (id2, 120, data 7).

Definition one (o : out_share) : DapAggregateShare :=
  MkDapAggregateShare 1 (out_time o) (out_time o) (sha256 (out_id o)) (Some (out_data o)).

Definition merge_one (o : out_share) : AggregateStoreMergeReq := MkMergeReq [out_id o] (one o) false.

(** An object on an empty storage with the given failures. *)
Definition object (fs : list fault) : AggregateStoreDO := with_state (MkMem ∅ fs).

Definition ok {A} (r : res WorkerError A) : bool := match r with Ok _ => true | _ => false end.

Lemma wp_result {S A} (m : stm S WorkerError A) Q E s :
  wp m Q E s -> ok (m s).1 = true -> exists a, Q a (m s).2.
Proof. unfold wp. destruct (m s) as [[a|e|] t]; [|done..]. eauto. Qed.

Lemma object_coherent fs : coherent (object fs) empty_bucket.
Proof. by apply empty_coherent. Qed.

(** The bucket after the first report. *)
Definition bucket1 : bucket := merged empty_bucket (merge_one out1) (one out1).

Lemma fits_empty : merge_fits empty_bucket (merge_one out1).
Proof.
  split; [by repeat constructor|]. split; [by vm_compute|]. intros _. split; [by vm_compute|].
  vm_compute. repeat split; try discriminate. lia.
Qed.

Lemma fits_second : merge_fits bucket1 (merge_one out2).
Proof.
  split; [by repeat constructor|]. split; [by vm_compute|]. intros _. split; [by vm_compute|].
  vm_compute. repeat split; try discriminate. lia.
Qed.

Lemma represents_out o : represents (one o) [o].
Proof. destruct o as [[id t] d]. apply represents_one. Qed.

Lemma merge_default o : DapAggregateShare_merge DapAggregateShare_default (one o) = Ok (one o).
Proof.
  destruct (merge_represents DapAggregateShare_default (one o) [] [o]) as (c & Hc & Hr).
  - apply represents_default.
  - apply represents_out.
  - by vm_compute.
  - exists (Some (out_data o)). cbn. by destruct (out_data o).
  - rewrite Hc. f_equal. eapply represents_unique; [exact Hr|apply represents_out].
Qed.

Lemma fresh_first : fresh_merge empty_bucket (merge_one out1) (one out1).
Proof.
  unfold fresh_merge. split_and!; try done.
  apply NoDup_cons. split; [apply not_elem_of_nil|constructor].
Qed.

Lemma first_step : spec_merge empty_bucket (merge_one out1) = Some (MergeResp_Ok, bucket1).
Proof.
  destruct (fresh_merge_step _ _ _ fresh_first) as [H _]. cbn [spec_step] in H.
  destruct (spec_merge empty_bucket (merge_one out1)) as [[r a]|]; [|done]. by injection H as -> ->.
Qed.

(** The object after the first merge. *)
Definition object1 (fs : list fault) : AggregateStoreDO := (handle_merge (merge_one out1) (object fs)).2.

Lemma object1_coherent fs :
  ok (handle_merge (merge_one out1) (object fs)).1 = true -> coherent (object1 fs) bucket1.
Proof.
  intros H. destruct (wp_result _ _ _ _ (handle_merge_wp (object fs) empty_bucket (merge_one out1)
    (object_coherent fs) fits_empty) H) as (r & a' & Ha & Hco).
  rewrite first_step in Ha. by injection Ha as <- <-.
Qed.

(** The write of the merge fails after it took place. *)
Definition late : list fault := [Fine; Fine; Fine; Fine; Fine; Fine; Late].

Lemma durable_object_refines_witness :
  coherent (object late) empty_bucket /\ fits empty_bucket (Merge (merge_one out1)) /\
  ok (fetch (Merge (merge_one out1)) (object late)).1 = false /\
  match fetch (Merge (merge_one out1)) (object late) with
  | (Ok resp, st') =>
      exists a', spec_step empty_bucket (Merge (merge_one out1)) = Some (resp, a') /\ coherent st' a'
  | (Err _, st') =>
      coherent (restart st') empty_bucket \/
      exists resp a', spec_step empty_bucket (Merge (merge_one out1)) = Some (resp, a') /\
        coherent (restart st') a'
  | (Panic, _) => False
  end.
Proof.
  split; [apply object_coherent|]. split; [apply fits_empty|]. split; [vm_compute; reflexivity|].
  apply durable_object_refines; [apply object_coherent|apply fits_empty].
Defined.

(** A life of the object: the first merge fails after its write, then the object is started
    anew and the merge is repeated. *)
Definition st_failed : AggregateStoreDO := restart (fetch (Merge (merge_one out1)) (object late)).2.
Definition st_repeated : AggregateStoreDO := (fetch (Merge (merge_one out1)) st_failed).2.

Lemma merge_of_one o : merge_of [o] (Merge (merge_one o)).
Proof.
  split; [apply represents_out|]. split; [done|]. split; [|done].
  apply NoDup_cons. split; [apply not_elem_of_nil|constructor].
Qed.

(** The first report is merged, the write failing after it took place; the object is started
    anew and the merge repeated. *)
Lemma late_fails : exists e, (fetch (Merge (merge_one out1)) (object late)).1 = Err e.
Proof. exists WorkerOther. vm_compute. reflexivity. Qed.

Lemma repeated_answers :
  (fetch (Merge (merge_one out1)) st_failed).1 = Ok (Resp_Merge MergeResp_Ok).
Proof. vm_compute. reflexivity. Qed.

Lemma coherent_failed a : coherent st_failed a -> a = empty_bucket \/ a = bucket1.
Proof.
  intros Ha. destruct late_fails as [e He].
  pose proof (fetch_wp (object late) empty_bucket (Merge (merge_one out1)) (object_coherent late) fits_empty)
    as H. unfold wp in H. unfold st_failed in Ha.
  destruct (fetch (Merge (merge_one out1)) (object late)) as [r t]. cbn in He, Ha. subst r.
  destruct H as [H|(resp & a' & Hs & H)]; apply recoverable_restart in H.
  - left. by eapply coherent_unique.
  - right. cbn [spec_step] in Hs. rewrite first_step in Hs. injection Hs as _ <-. by eapply coherent_unique.
Qed.

Lemma repeated_run : object_run st_repeated [out1; out1] [id1].
Proof.
  assert (object_run st_failed [out1] []) as H.
  { destruct late_fails as [e He].
    apply (run_failed (object late) [] [] (Merge (merge_one out1)) [out1] e).
    - by apply (run_start (DS:=durable_storage) (MkMem ∅ late)).
    - apply merge_of_one.
    - by vm_compute.
    - intros a Ha. assert (a = empty_bucket) as ->; [|apply fits_empty].
      eapply coherent_unique; [exact Ha|apply object_coherent].
    - destruct (fetch (Merge (merge_one out1)) (object late)) as [r t]. cbn in *. by subst r. }
  apply (run_answered st_failed [out1] [] (Merge (merge_one out1)) [out1] (Resp_Merge MergeResp_Ok)).
  - exact H.
  - apply merge_of_one.
  - by vm_compute.
  - intros a Ha. destruct (coherent_failed a Ha) as [->| ->]; [apply fits_empty|].
    apply (fresh_merge_fits _ _ _ fresh_first fits_empty).
  - pose proof repeated_answers as Hr. unfold st_repeated.
    destruct (fetch (Merge (merge_one out1)) st_failed) as [r t]. cbn in *. by subst r.
Qed.

Lemma object_counts_once_witness :
  exists a l, coherent st_repeated a /\ represents (b_share a) l /\ NoDup (out_id <$> l) /\
    b_ids a = list_to_set (out_id <$> l) /\ l `sublist_of` [out1; out1] /\
    (forall id, id ∈ [id1] -> id ∈ out_id <$> l).
Proof. exact (object_counts_once st_repeated [out1; out1] [id1] repeated_run). Defined.

(** Everything in memory, and a storage that refuses the next write. *)
Definition refuse : list fault := [Fine; Fine; Fine; Fine; Fine; Fine; Refused].
Definition st_warm : AggregateStoreDO := object1 refuse.

Definition get_ok {A} (d : A) (r : res DapError A) : A := match r with Ok x => x | _ => d end.
Definition share2 : DapAggregateShare :=
  get_ok DapAggregateShare_default (DapAggregateShare_merge (one out1) (one out2)).

Lemma share2_ok : DapAggregateShare_merge (one out1) (one out2) = Ok share2.
Proof.
  unfold share2. assert (exists s, DapAggregateShare_merge (one out1) (one out2) = Ok s) as [s ->]; [|done].
  destruct (DapAggregateShare_merge (one out1) (one out2)) as [s|e|] eqn:H; [by exists s|exfalso..];
    apply (f_equal (fun r => match r with Ok _ => true | _ => false end)) in H; vm_compute in H; discriminate.
Qed.

Lemma warm_coherent : coherent st_warm bucket1.
Proof. apply object1_coherent. vm_compute. reflexivity. Qed.

Definition loaded {A} (o : option A) : bool := match o with Some _ => true | None => false end.

Lemma cached {A} (o : option A) v : loaded o = true -> caches o v -> o = Some v.
Proof. destruct o as [w|]; [|done]. intros _ H. by rewrite (H w eq_refl). Qed.

Lemma warm_warm : warm st_warm bucket1 (num_chunks (ids_bytes (merge_ids (merge_one out2) (b_ids bucket1)))).
Proof.
  destruct warm_coherent as (n & _ & C1 & C2 & C3 & _). unfold warm.
  apply cached in C1; [|vm_compute; reflexivity]. apply cached in C2; [|vm_compute; reflexivity].
  apply cached in C3; [|vm_compute; reflexivity].
  assert (do_report_id_chunk_key_count st_warm = Some 1) as C4 by (vm_compute; reflexivity).
  assert (num_chunks (ids_bytes (merge_ids (merge_one out2) (b_ids bucket1))) = 1) as ->
    by (vm_compute; reflexivity).
  rewrite <-C1, <-C2, <-C3, <-C4. by destruct st_warm.
Qed.

Lemma warm_refuses : write_fails (do_state st_warm).
Proof.
  assert (mem_faults (do_state st_warm : mem) = [Refused]) as H by (vm_compute; reflexivity).
  generalize dependent (do_state st_warm : mem). intros s H m. exists WorkerOther, (MkMem (mem_contents s) []).
  cbn [storage_put_multiple durable_storage]. unfold mem_write, next_fault. rewrite H. by split.
Qed.

Lemma merges_second : merges bucket1 (merge_one out2).
Proof. split; [done|]. right. vm_compute. reflexivity. Qed.

Lemma failed_write_acknowledged_witness :
  exists e st', handle_merge (merge_one out2) st_warm = (Err e, st') /\
    handle_merge (merge_one out2) st' = (Ok MergeResp_Ok, st') /\
    contents (do_state st') = contents (do_state st_warm) /\ coherent (restart st') bucket1.
Proof.
  apply (failed_write_acknowledged st_warm bucket1 (merge_one out2) share2).
  - apply warm_coherent.
  - apply merges_second.
  - apply fits_second.
  - reflexivity.
  - discriminate.
  - apply NoDup_cons. split; [apply not_elem_of_nil|constructor].
  - reflexivity.
  - apply share2_ok.
  - apply warm_warm.
  - apply warm_refuses.
Defined.

(** A merge through the proxy. *)
Definition task : TaskId := replicate 32 Byte.x07.
Definition window : DapBatchBucket := Bucket_TimeInterval 100 3.

Definition envelope : DurableRequest (list byte) :=
  (DurableRequest_new M_Merge (Draft09, hex_encode task, window)).1.

Lemma sendable_first : sendable (merge_one out1).
Proof. split; [by repeat constructor|]. split_and!; by vm_compute. Qed.

Lemma merge_request_round_trip_witness :
  exists bs, encode_to_bytes (merge_one out1) = Ok bs /\
    DurableRequest_try_from (into_bytes (with_body envelope bs)) = Ok (with_body envelope bs) /\
    decode_from_bytes (dr_body (with_body envelope bs)) = Ok (merge_one out1).
Proof. apply (merge_request_round_trip envelope), sendable_first. Defined.

Lemma bucket_names_distinct_witness : Draft09 = Draft09 /\ task = task /\ window = window.
Proof. exact (bucket_names_distinct Draft09 Draft09 task task window window eq_refl). Defined.

(** The request is lost, then the answer, then the object fails to write; the fourth attempt
    succeeds. *)
Definition platform : plat :=
  MkPlat (fun _ => object late) [Lost; AnswerLost; Evicted; Delivered].

Definition body1 : list byte := match encode_to_bytes (merge_one out1) with Ok bs => bs | _ => [] end.

Lemma body1_ok : encode_to_bytes (merge_one out1) = Ok body1.
Proof.
  destruct (merge_payload_round_trip _ sendable_first) as (bs & H & _). unfold body1. by rewrite H.
Qed.

Lemma proxied_merge_once_witness :
  let '(r, w') := handle_do_request (AggregateStore_to_uri M_Merge)
                    (into_bytes (with_body envelope body1)) platform in
  match r with
  | Ok resp => resp = Resp_Merge MergeResp_Ok /\
      (coherent (object_at w' (dr_id envelope)) (merged empty_bucket (merge_one out1) (one out1)) \/
       kept empty_bucket (merge_one out1) (object_at w' (dr_id envelope)))
  | Err _ => one_of empty_bucket (merge_one out1) (one out1) (object_at w' (dr_id envelope))
  | Panic => False
  end /\ (forall id, id <> dr_id envelope -> object_at w' id = object_at platform id).
Proof.
  apply (proxied_merge_once envelope (merge_one out1) empty_bucket (one out1) body1 platform).
  - apply object_coherent.
  - apply fresh_first.
  - apply fits_empty.
  - apply sendable_first.
  - apply body1_ok.
  - vm_compute. discriminate.
  - discriminate.
  - vm_compute. discriminate.
Defined.

(** It is answered, not given up. *)
Example proxied_merge_answers :
  ok (handle_do_request (AggregateStore_to_uri M_Merge)
        (into_bytes (with_body envelope body1)) platform).1 = true.
Proof. vm_compute. reflexivity. Qed.

(** ** The cleaner of the storage *)

#[local] Instance map_queue : CleanerStorage (gmap string DurableReference) := {
  queue_put k r q := (Ok tt, <[k := r]> q);
  queue_list prefix limit q :=
    let l := filter (fun kv => String.prefix prefix kv.1 = true) (map_to_list q) in
    (Ok match limit with Some n => take (N.to_nat n) l | None => l end, q);
  queue_delete_all q := (Ok tt, ∅);
}.

#[local] Program Instance map_queue_laws : CleanerStorageLaws map_queue := { queue := id }.
Next Obligation. intros k r q res q' [= <- <-]. done. Qed.
Next Obligation.
  intros prefix q l q' [= <- <-]. split; [done|]. intros k r.
  rewrite <-list_elem_of_In, list_elem_of_filter, elem_of_map_to_list. cbn. tauto.
Qed.
Next Obligation. by intros prefix limit q e q' [= <- <-]. Qed.
Next Obligation. intros q res q' [= <- <-]. done. Qed.

Definition no_objects (faults : list call_fault) : fleet (Q:=gmap string DurableReference) := MkFleet ∅ ∅ faults.
Definition empty_mem : mem := MkMem ∅ [].
Definition mark_path : string := "/internal/do/aggregate_store/mark_collected".

(** Two requests to an object, and a purge *)
Definition marked_then_purged : stm (fleet (Q:=gmap string DurableReference)) WorkerError unit :=
  fun fl =>
    let '(_, fl) := test_fetch empty_mem (1, [Byte.x01]) "a" mark_path [] fl in
    let '(_, fl) := test_fetch empty_mem (2, [Byte.x02]) "a" mark_path [] fl in
    cleaner_delete_all empty_mem fl.

Definition contents_after (faults : list call_fault) : res WorkerError unit * list string :=
  let '(r, fl) := marked_then_purged (no_objects faults) in
  (r, (map_to_list (mem_contents (do_state (object_of empty_mem fl "a")))).*1).

(** The purge leaves the mark only; if the registration was refused, it leaves what the second
    request has stored. *)
Example purge_run : contents_after [] = (Ok tt, [DELETE_ALL_IS_SETUP]).
Proof. vm_compute. reflexivity. Qed.

Example purge_misses : exists l, contents_after [Call_Refused] = (Ok tt, l) /\ In COLLECTED_KEY l.
Proof. eexists. split; [vm_compute; reflexivity|]. vm_compute. auto. Qed.
