(* ===== verification/ServerWitnesses.v ===== *)
(** * The theorems on the service, applied

    A service, its storage proxy and the platform behind it, with a network that loses
    requests and answers; and for each theorem on the service with hypotheses an instance in
    which they hold. *)

From S2P Require Import Prelude Codec Messages TaskprovMessages Errors Config Pine Taskprov AggShare.
From S2P Require Import Hpke Protocol Auth LeaderState Roles Leader.
From S2P Require Import DurableStore DurableChunks DurableStoreCorrect DurableRun DurableRequests.
From S2P Require Import DurableRequestsCorrect StorageProxy StorageProxyCorrect Kv KvCorrect Server.
From S2P Require Import ServerCorrect Router ServerAdmin ServerAdminCorrect DurableReference DurableWitnesses.
Import Codec.Reference DurableReference.DurableReference.

(** ** The network *)
Inductive trip : Type := Arrives | RequestLost | ResponseLost | Unavailable.

Record cloud : Type := MkCloud {
  cl_plat : plat;
  cl_pairs : gmap string (list byte);
  cl_trips : list trip;
}.

Definition trip_of (w : cloud) : trip := default Arrives (head (cl_trips w)).
Definition travelled (w : cloud) : cloud := MkCloud (cl_plat w) (cl_pairs w) (tail (cl_trips w)).

Definition on_plat {A} (m : stm plat WorkerError A) : stm cloud WorkerError A := fun w =>
  let '(r, p) := m (cl_plat w) in (r, MkCloud p (cl_pairs w) (cl_trips w)).

#[export] Instance cloud_namespace : DurableNamespace cloud := {
  request_new path body := request_new (W:=plat) path body;
  locate binding id := locate (W:=plat) binding id;
  get_stub binding id := on_plat (get_stub binding id);
  stub_fetch binding id path body := on_plat (stub_fetch binding id path body);
}.

#[export] Program Instance cloud_namespace_laws : DurableNamespaceLaws cloud_namespace := {
  object_at w id := object_at (cl_plat w) id;
}.
Next Obligation.
  intros b id w r w' H. cbn [get_stub cloud_namespace] in H. unfold on_plat in H.
  destruct (get_stub b id (cl_plat w)) as [x p] eqn:Hs. injection H as <- <-.
  exact (get_stub_law b id (cl_plat w) x p Hs).
Qed.
Next Obligation.
  intros b id path body w r w' H. cbn [stub_fetch cloud_namespace] in H. unfold on_plat in H.
  destruct (stub_fetch b id path body (cl_plat w)) as [x p] eqn:Hs. injection H as <- <-.
  exact (stub_fetch_law b id path body (cl_plat w) x p Hs).
Qed.

Fixpoint skip (n : nat) (s : string) : string :=
  match n, s with
  | S n, String _ s => skip n s
  | _, _ => s
  end.

Definition post_do (path : string) (body : list byte) (w : cloud) : option do_reply * cloud :=
  match trip_of w with
  | RequestLost => (None, travelled w)
  | Unavailable => (Some (Reply_status 503), travelled w)
  | ResponseLost =>
      let '(_, w) := handle_do_request (skip 6 path) body w in (None, travelled w)
  | Arrives =>
      let '(r, w) := handle_do_request (skip 6 path) body w in
      (Some match r with Ok v => Reply_ok v | _ => Reply_status 500 end, travelled w)
  end.

#[export] Instance cloud_do : DoHttp cloud := post_do.

Definition reply (w : cloud) (resp : http_response) (pairs : gmap string (list byte)) :
    option http_response * cloud :=
  let w' := travelled (MkCloud (cl_plat w) pairs (cl_trips w)) in
  match trip_of w with
  | RequestLost => (None, travelled w)
  | Unavailable => (Some (MkHttpResponse 503 []), travelled w)
  | ResponseLost => (None, w')
  | Arrives => (Some resp, w')
  end.

Definition response_of (v : option (list byte)) : http_response :=
  match v with Some bs => MkHttpResponse 200 bs | None => MkHttpResponse 404 [] end.

#[export] Instance cloud_kv : KvHttp cloud := {
  http_get key w := reply w (response_of (cl_pairs w !! key)) (cl_pairs w);
  http_post key bs _ w := reply w (MkHttpResponse 200 []) (<[key := bs]> (cl_pairs w));
  http_put key bs _ w :=
    match cl_pairs w !! key with
    | Some _ => reply w (MkHttpResponse 409 []) (cl_pairs w)
    | None => reply w (MkHttpResponse 200 []) (<[key := bs]> (cl_pairs w))
    end;
}.

(** Flags, numbers and tokens have a JSON form here. *)
#[export] Instance json : KvJson := {
  json_to_vec t :=
    match t return value_of t -> list byte with
    | T_bool => fun b => String.list_byte_of_string (if b : bool then "true" else "false")
    | T_NonZeroUsize => fun n => be_bytes 4 n
    | T_BearerToken => fun x => String.list_byte_of_string (BearerToken_raw x)
    | _ => fun _ => []
    end;
  json_of t bs :=
    match t return option (value_of t) with
    | T_bool => Some (bool_decide (bs = String.list_byte_of_string "true"))
    | T_NonZeroUsize => Some (be_value bs)
    | T_BearerToken => Some (MkBearerToken (String.string_of_list_byte bs))
    | _ => None
    end;
}.

#[export] Instance proxy_laws : ProxyLaws.
Proof.
  split.
  - intros uri body w. unfold do_post, cloud_do, post_do.
    change (skip 6 (String.append DO_PATH_PREFIX uri)) with uri.
    destruct (trip_of w); cbn [fst snd];
      [|by apply proxied_lost| |by apply proxied_refused];
      destruct (handle_do_request uri body w) as [r w1] eqn:Hr; cbn [fst snd].
    + destruct r as [v|e|]; [by eapply proxied_answered|by eapply proxied_failed..].
    + by eapply proxied_answer_lost.
  - intros key w. unfold http_get, cloud_kv, reply. by destruct (trip_of w).
Qed.

#[export] Instance vdaf : VdafOps := {
  VdafPrepState := list byte;
  VdafPrepShare := list byte;
  DapMeasurement := N;
  DapAggregateResult := N;
  VdafPrepShare_encode s buf := Ok (buf ++ s);
  Protocol.VdafAggregateShare_encode := agg_share_encode;
  vdaf_shard _ _ m _ := Ok ([], (be_bytes 8 m, be_bytes 8 0));
  vdaf_prep_init _ _ _ _ _ input := Ok (input, input);
  vdaf_prep_finish_from_shares _ _ state _ _ := Ok (data (be_value state), []);
  vdaf_prep_finish _ state _ := Ok (data (be_value state));
  vdaf_unshard _ _ shares := Ok (foldr N.add 0 (be_value <$> shares));
}.

(** ** The service *)
Definition collector_hpke : HpkeConfig :=
  MkHpkeConfig 3 X25519HkdfSha256 HkdfSha256 Aes128Gcm [Byte.x03].

Definition service_task (m : DapTaskConfigMethod) : DapTaskConfig :=
  MkDapTaskConfig Draft09 "https://leader/" "https://helper/" 100 2 QC_TimeInterval
    (Vdaf.Prio3 Prio3_Count) 0 20000 (L16 (replicate 16 Byte.x00)) collector_hpke m 2.

Definition leader_token : BearerToken := MkBearerToken "leader".

Definition service_config : DaphneServiceConfig :=
  MkDaphneServiceConfig Role_Helper
    (MkDapGlobalConfig 1000 20000 20000 [X25519HkdfSha256] true 2) None
    (Some (MkTaskprovConfig collector_hpke (replicate 32 Byte.x05) (MkAuthMethod (Some leader_token)) None))
    Draft09 1000 default_report_storage_max_future_time_skew.

Definition service (w : cloud) : App :=
  MkApp (MkKvState ∅ w 0) service_config InMemoryLeaderState_default 10050.

(** The proxy is unavailable for the read of the override; the merge arrives, its answer is
    lost.  Behind the proxy a request gets lost and a write fails late. *)
Definition bad_day : cloud :=
  MkCloud (MkPlat (fun _ => object late) [Lost]) ∅ [Unavailable; ResponseLost].

Definition entry1 : DapAggregateShare * list (ReportId * Time) := (one out1, [(id1, 100)]).
Definition span1 : DapAggregateSpan DapAggregateShare := {[window := entry1]}.
Definition config1 : DapTaskConfig := service_task Method_Unknown.

Lemma ready_first : ready empty_bucket entry1 (one out1).
Proof.
  split; [apply fresh_first|]. split; [apply fits_empty|]. split; [apply sendable_first|].
  intros bs Hbs. change (put_request entry1) with (merge_one out1) in Hbs. rewrite body1_ok in Hbs.
  injection Hbs as <-. vm_compute. discriminate.
Qed.

Definition overridden : App := (fetch_replay_protection_override (service bad_day)).2.

Lemma server_put_at_most_once_witness :
  exists res s', app_try_put_agg_share_span task config1 span1 (service bad_day) = (Ok res, s') /\
    exists result, res !! window = Some (result, [(id1, 100)]) /\
      put_once empty_bucket entry1 (one out1) result
        (object_at (world s') (bucket_object config1 task window)).
Proof.
  destruct (server_put_at_most_once (W:=cloud)) with (c := config1) (tid := task) (span := span1)
    (s := service bad_day) (s1 := overridden) (pre := fun _ : DapBatchBucket => empty_bucket)
    (post := fun _ : DapBatchBucket => one out1) as (res & s' & H & Hb & _).
  - intros id. discriminate.
  - intros path body. discriminate.
  - reflexivity.
  - intros b e Hb. unfold span1 in Hb. apply lookup_singleton_Some in Hb as [<- <-].
    split; [apply object_coherent|apply ready_first].
  - exists res, s'. split; [exact H|]. specialize (Hb window).
    unfold span1 in Hb. rewrite lookup_singleton_eq in Hb. exact Hb.
Defined.

(** ** Authorization: the Leader of a Taskprov task *)
Definition auth_request : DapRequest DaphneAuth :=
  MkDapRequest Draft09 (Some MT_AggregationJobInitReq) (Some task) Undefined []
    (Some (MkDaphneAuth (Some leader_token) (Some (MkTlsClientAuth "SUCCESS")))) None.

Definition calm : cloud := MkCloud (MkPlat (fun _ => object []) []) ∅ [].
Definition taskprov_config : DapTaskConfig := service_task (Method_Taskprov None).

Lemma server_authorization_witness :
  exists auth, DapRequest_sender_auth auth_request = Some auth /\
    (forall tls, auth_cf_tls_client_auth auth = Some tls -> tls_verified tls = "SUCCESS").
Proof.
  destruct (server_authorization taskprov_config auth_request (service calm) (service calm) eq_refl)
    as (auth & H1 & _ & _ & H2).
  exists auth. split; [exact H1|]. intros tls Htls. exact (proj1 (H2 tls Htls)).
Defined.

(** ** The cache *)
Definition day : list kv_op :=
  [Op_put (GlobalConfigOverride T_bool) (GlobalOverrides_to_string SkipReplayProtection) true None;
   Op_tick 1000000000;
   Op_get (GlobalConfigOverride T_NonZeroUsize) (GlobalOverrides_to_string DefaultNumAggSpanShards)
     (MkKvGetOptions true)].

Definition kv_start : kv_state cloud := MkKvState ∅ calm 5.

Lemma kv_reads_recent_witness :
  exists f, f ∈ facts (day ++ [Op_get (GlobalConfigOverride T_bool)
                    (GlobalOverrides_to_string SkipReplayProtection) KvGetOptions_default]) kv_start /\
    f_value f = Some (to_any (t:=T_bool) true) /\
    kv_clock (run day kv_start) - f_time f < CACHE_VALUE_LIFETIME.
Proof.
  destruct (kv_reads_recent day kv_start (GlobalConfigOverride T_bool)
    (GlobalOverrides_to_string SkipReplayProtection) KvGetOptions_default (Some true)
    (run day kv_start) eq_refl) as (f & H1 & _ & _ & H2 & H3).
  - vm_compute. reflexivity.
  - exists f. split; [exact H1|]. split; [exact H2|exact H3].
Defined.

Lemma kv_cache_typed_witness :
  exists v, Cache_get (GlobalConfigOverride T_bool) 7 (kv_cache (run day kv_start))
    (to_key (GlobalConfigOverride T_bool) (GlobalOverrides_to_string SkipReplayProtection)) = Hit v /\
    Some (to_any (t:=T_bool) true) = to_any <$> v.
Proof.
  apply (kv_cache_typed day kv_start (GlobalConfigOverride T_bool)
    (GlobalOverrides_to_string SkipReplayProtection) 7 (MkCacheLine 5 (Some (to_any (t:=T_bool) true)))).
  - reflexivity.
  - repeat constructor.
  - constructor.
  - vm_compute. reflexivity.
  - vm_compute. reflexivity.
Defined.

(** ** Provisioning *)
#[local] Instance base64_bytes : Base64 := {
  URL_SAFE_NO_PAD_encode := String.string_of_list_byte;
  URL_SAFE_NO_PAD_decode s := Some (String.list_byte_of_string s);
}.

(** A task of a Leader, of which the sum of 7-bit numbers is computed. *)
Definition command : InternalTestAddTask :=
  MkInternalTestAddTask task "https://leader/" "https://helper/" (MkInternalTestVdaf "Prio3Sum" (Some "7") None None)
    "leader" (Some "collector") Role_Leader "sixteen bytes it" 1 10 None 100
    (String.string_of_list_byte match get_encoded HpkeConfig_encode collector_hpke with Ok bs => bs | _ => [] end)
    20000.

Definition provisioned : App := (internal_add_task Draft09 command (service calm)).2.

Definition collector_request : DapRequest DaphneAuth :=
  MkDapRequest Draft09 (Some MT_CollectReq) (Some task) Undefined []
    (Some (MkDaphneAuth (Some (MkBearerToken "collector")) None)) None.

Lemma command_accepted : internal_add_task Draft09 command (service calm) = (Ok tt, provisioned).
Proof.
  unfold provisioned. destruct (internal_add_task Draft09 command (service calm)) as [r s] eqn:E.
  assert ((internal_add_task Draft09 command (service calm)).1 = Ok tt) as H by (vm_compute; reflexivity).
  rewrite E in H. cbn in H. by rewrite H.
Qed.

Lemma added_task_served_witness :
  exists c answer, app_get_task_config_for task provisioned = (Ok (Some c), provisioned) /\
    DapTaskConfig_vdaf c = Vdaf.Prio3 (Prio3_Sum 7) /\
    app_unauthorized_reason c collector_request provisioned = (Ok answer, provisioned) /\ answer = None.
Proof.
  destruct (added_task_served Draft09 command (service calm) provisioned command_accepted)
    as (c & Hc & (vdaf & key & coll & query & Hv & _ & _ & Ec) & _ & Ha).
  destruct (Ha collector_request Sender_Collector (MkBearerToken "collector") "collector"%string
    eq_refl eq_refl eq_refl eq_refl) as (answer & H1 & H2).
  exists c, answer. split; [exact Hc|]. split; [|split; [exact H1|apply H2; reflexivity]].
  rewrite Ec. vm_compute in Hv. injection Hv as <-. reflexivity.
Defined.

#[local] Instance cloud_taken : KvTaken (W:=cloud).
Proof.
  refine {| taken := fun (w : cloud) key => is_Some (cl_pairs w !! key) |}.
  - intros key bs w resp w'. unfold http_put, cloud_kv, reply. destruct (cl_pairs w !! key) as [x|] eqn:E, (trip_of w);
      intros [= <- <-]; cbn; try done; intros _; by rewrite lookup_insert_eq.
  - intros key key' bs e w [x Hx]. unfold http_put, cloud_kv, reply.
    destruct (cl_pairs w !! key') as [y|] eqn:E, (trip_of w); cbn; try (by eexists);
      (destruct (decide (key = key')) as [->|]; [by rewrite lookup_insert_eq|rewrite lookup_insert_ne by done; by eexists]).
  - intros key bs e w resp w' [x Hx]. unfold http_put, cloud_kv, reply. rewrite Hx.
    destruct (trip_of w); intros [= <- <-]; done.
Defined.

(** The query type 3 does not exist; the corrected command comes too late. *)
Lemma failed_add_task_blocks_witness :
  exists e s1, internal_add_task Draft09 (with_query command 3 None) (service calm) = (Err e, s1) /\
    forall s2, internal_add_task Draft09 command s1 <> (Ok tt, s2).
Proof.
  destruct (failed_add_task_blocks Draft09 command 3 None
    (Fatal (Text "command failed: unrecognized query type")) (service calm) provisioned command_accepted eq_refl)
    as (s1 & H1 & H2).
  eexists _, s1. split; [exact H1|]. intros s2. apply H2. reflexivity.
Defined.
