(* ===== verification/RouterWitnesses.v ===== *)
(** * The theorems on the HTTP interface, applied

    A reference implementation of what the interface uses of [axum], [http] and [base64], with
    its laws, a Helper behind the router, and instances of the theorems of [RouterCorrect]. *)

From Stdlib Require Import Ascii.
From S2P Require Import Prelude Codec Messages TaskprovMessages Errors Config Pine Taskprov.
From S2P Require Import AggShare Hpke Protocol LeaderState Roles Leader Auth InMemory Server Router.
From S2P Require Import RouterCorrect Reference Witnesses.

(** ** Paths *)
Definition slash : ascii := "/"%char.

(** The texts between slashes; there is at least one. *)
Fixpoint split_slash (s : string) : string * list string :=
  match s with
  | EmptyString => (EmptyString, [])
  | String c s =>
      let '(p, rest) := split_slash s in
      if Ascii.eqb c slash then (EmptyString, p :: rest) else (String c p, rest)
  end.

Definition parse_segment (s : string) : segment :=
  match s with
  | String c name => if Ascii.eqb c ":"%char then Param name else Static s
  | EmptyString => Static s
  end.

Definition match_path_reference (pattern path : string) : option (list (string * string)) :=
  match_segments (parse_segment <$> (split_slash pattern).2) (split_slash path).2.

#[local] Instance axum_reference : Axum := {
  match_path := match_path_reference;
  query_param key query := Some (if String.eqb query "" then None else Some query);
  header_from_str s := if visible s then Some (String.list_byte_of_string s) else None;
  header_to_str v :=
    let s := String.string_of_list_byte v in if visible s then Some s else None;
}.

Definition slashless (s : string) : bool :=
  forallb (fun c => negb (Ascii.eqb c slash)) (String.list_ascii_of_string s).

Lemma unreserved_is_not c d : unreserved d = false -> unreserved c = true -> Ascii.eqb c d = false.
Proof. intros Hd Hc. destruct (Ascii.eqb_spec c d) as [->|]; [congruence|done]. Qed.

Lemma plain_slashless s : plain s = true -> slashless s = true.
Proof.
  unfold plain, slashless. intros [_ H]%andb_prop. rewrite !forallb_forall in *.
  intros c Hc%H. by rewrite (unreserved_is_not c slash).
Qed.

Lemma split_append p s :
  slashless p = true ->
  split_slash (String.append p s) = (String.append p (split_slash s).1, (split_slash s).2).
Proof.
  induction p as [|c p IH]; [intros _; apply surjective_pairing|].
  intros [Hc Hp]%andb_prop. apply negb_true_iff in Hc.
  change (String.append (String c p) s) with (String c (String.append p s)).
  cbn [split_slash]. rewrite IH by done. by rewrite Hc.
Qed.

Lemma append_empty s : String.append s "" = s.
Proof. induction s as [|c s IH]; [done|]. exact (f_equal (String c) IH). Qed.

Lemma split_path_of parts :
  forallb slashless parts = true -> split_slash (path_of parts) = (EmptyString, parts).
Proof.
  induction parts as [|p parts IH]; [done|]. intros [Hp Hr]%andb_prop.
  change (path_of (p :: parts)) with (String slash (String.append p (path_of parts))).
  cbn [split_slash]. rewrite split_append by done. rewrite IH by done. cbn. by rewrite append_empty.
Qed.

Lemma parse_segment_text g : segment_plain g = true -> parse_segment (segment_text g) = g.
Proof.
  destruct g as [s|name]; [|done]. destruct s as [|c s]; [done|]. intros H.
  apply andb_prop in H as [_ [Hc _]%andb_prop]. unfold parse_segment. cbn [segment_text].
  by rewrite (unreserved_is_not c ":"%char).
Qed.

Lemma segment_slashless g : segment_plain g = true -> slashless (segment_text g) = true.
Proof. destruct g as [s|s]; intros H%plain_slashless; [done|]. by cbn; apply H. Qed.

Lemma forallb_impl {A} (f g : A -> bool) l :
  (forall x, f x = true -> g x = true) -> forallb f l = true -> forallb g l = true.
Proof. intros H. rewrite !forallb_forall. auto. Qed.

#[local] Instance axum_reference_laws : AxumLaws axum_reference.
Proof.
  split.
  - intros gs parts Hg Hp. cbn. unfold match_path_reference, pattern_of.
    assert (forallb segment_plain gs = true) as Hgs by (by destruct gs).
    rewrite !split_path_of; [|exact (forallb_impl _ _ _ plain_slashless Hp)|].
    + cbn. f_equal. clear Hg. induction gs as [|g gs IH]; [done|]. apply andb_prop in Hgs as [Hg Hgs].
      cbn. f_equal; [by apply parse_segment_text|by apply IH].
    + clear Hg. induction gs as [|g gs IH]; [done|]. apply andb_prop in Hgs as [Hg Hgs].
      cbn. rewrite segment_slashless by done. by apply IH.
  - intros s v. cbn. destruct (visible s) eqn:Hv; [|done]. intros [= <-].
    by rewrite String.string_of_list_byte_of_string, Hv.
  - intros s v. cbn. by destruct (visible s); [intros [= <-]|].
  - intros s Hv. cbn. by rewrite Hv.
  - done.
Qed.

(** ** Base64: a letter for each half of a byte *)
Definition letter (n : N) : ascii := ascii_of_N (97 + n).

Fixpoint encode_letters (bs : list byte) : string :=
  match bs with
  | [] => EmptyString
  | b :: bs => String (letter (Byte.to_N b / 16)) (String (letter (Byte.to_N b mod 16)) (encode_letters bs))
  end.

Fixpoint decode_letters (s : string) : option (list byte) :=
  match s with
  | EmptyString => Some []
  | String a (String b s) =>
      x ← Byte.of_N (16 * (N_of_ascii a - 97) + (N_of_ascii b - 97));
      bs ← decode_letters s;
      Some (x :: bs)
  | _ => None
  end.

#[local] Instance base64_letters : Base64 := {
  URL_SAFE_NO_PAD_encode := encode_letters;
  URL_SAFE_NO_PAD_decode := decode_letters;
}.

#[local] Instance base64_letters_laws : Base64Laws base64_letters.
Proof.
  intros bs. cbn. induction bs as [|b bs IH]; [done|]. cbn [encode_letters decode_letters].
  rewrite IH. by destruct b.
Qed.

#[local] Instance base64_letters_plain : Base64Plain base64_letters.
Proof.
  intros bs Hbs. cbn. unfold plain. apply andb_true_intro. split.
  - destruct bs; [done|]. by rewrite bool_decide_eq_false_2.
  - induction bs as [|b bs IH]; [done|]. cbn [encode_letters String.list_ascii_of_string forallb].
    replace (unreserved (letter (Byte.to_N b / 16))) with true by (by destruct b).
    replace (unreserved (letter (Byte.to_N b mod 16))) with true by (by destruct b).
    destruct bs; [done|]. by apply IH.
Qed.

(** ** The rest of the network *)
#[local] Instance signer_reference : Signer := {| SigningKey := unit; sign_to_der _ bs := bs |}.
#[local] Instance unsigned_service : DaphneService InMemoryAggregator := fun _ => None.

(** The path of an URL of the deployment: what follows the host. *)
#[local] Instance url_path_reference : UrlPath := {
  url_path u := path_of (drop 2 (split_slash u).2);
  url_query _ := EmptyString;
}.

#[local] Instance web_json_reference : WebJson := fun _ => [].

(** The in-memory aggregator with the authorization of the service, by token alone, and one HPKE
    configuration for all tasks. *)
#[local] Instance service_aggregator : DapAggregator DaphneAuth InMemoryAggregator := {
  get_hpke_config_for version _ := get_hpke_config_for (DapAggregator:=in_memory_aggregator) version (Some task);
  can_hpke_decrypt := can_hpke_decrypt (DapAggregator:=in_memory_aggregator);
  hpke_decrypt := hpke_decrypt (DapAggregator:=in_memory_aggregator);
  report_initializer := report_initializer (DapAggregator:=in_memory_aggregator);
  unauthorized_reason task_config req :=
    bearer_token_authorized task_config
      (with_token req (DapRequest_sender_auth req ≫= auth_bearer_token));
  get_global_config := get_global_config (DapAggregator:=in_memory_aggregator);
  taskprov_vdaf_verify_key_init := taskprov_vdaf_verify_key_init (DapAggregator:=in_memory_aggregator);
  taskprov_collector_hpke_config := taskprov_collector_hpke_config (DapAggregator:=in_memory_aggregator);
  taskprov_opt_in := taskprov_opt_in (DapAggregator:=in_memory_aggregator);
  taskprov_put req := taskprov_put (with_token req None);
  get_task_config_for := get_task_config_for (DapAggregator:=in_memory_aggregator);
  get_current_time := get_current_time (DapAggregator:=in_memory_aggregator);
  is_batch_overlapping := is_batch_overlapping (DapAggregator:=in_memory_aggregator);
  batch_exists := batch_exists (DapAggregator:=in_memory_aggregator);
  try_put_agg_share_span := try_put_agg_share_span (DapAggregator:=in_memory_aggregator);
  get_agg_share := get_agg_share (DapAggregator:=in_memory_aggregator);
  mark_collected := mark_collected (DapAggregator:=in_memory_aggregator);
}.

(** A Helper is no Leader. *)
#[local] Instance no_leader : DapLeader DaphneAuth InMemoryAggregator := {
  authorize _ _ _ _ s := (Panic, s);
  DapLeader_put_report _ _ s := (Panic, s);
  DapLeader_current_batch _ s := (Panic, s);
  DapLeader_init_collect_job _ _ _ _ s := (Panic, s);
  DapLeader_poll_collect_job _ _ s := (Panic, s);
  DapLeader_dequeue_work _ s := (Panic, s);
  DapLeader_enqueue_work _ s := (Panic, s);
  DapLeader_finish_collect_job _ _ _ s := (Panic, s);
  send_http_post _ _ s := (Panic, s);
  send_http_put _ _ s := (Panic, s);
}.

(** ** The theorems *)
Definition protected : stm InMemoryAggregator DapError ReplayProtection := mret ReplayProtection_Enabled.

Definition helper_world : World InMemoryAggregator := world (helper_aggregator QC_TimeInterval).

Definition job_id : AggregationJobId := replicate 16 Byte.x01.

Definition job_call : DapRequest DaphneAuth :=
  MkDapRequest Draft09 (Some MT_AggregationJobInitReq) (Some task) (AggregationJob job_id) job_payload
    (Some (MkDaphneAuth (Some leader_token) None)) None.

Definition job_parts : list string :=
  ["v09"; "tasks"; encode_base64url task; "aggregation_jobs"; encode_base64url job_id]%string.

Definition job_url : Url := String.append "https://helper" (path_of job_parts).

Lemma peer_over_http_witness :
  exists resp w' events,
    send_http (HT:=helper_network protected [] []) job_call PUT job_url (MkService helper_world [])
    = (Ok resp, MkService w' events) /\
    (rp ← call protected; handle_agg_job_init_req job_call rp) helper_world
    = (Ok resp, w').
Proof.
  pose proof (peer_over_http protected [] [] job_call PUT job_url job_parts
    (rp ← call protected; handle_agg_job_init_req job_call rp) (Some leader_token) helper_world []) as H.
  destruct (ok_run ((rp ← call protected; handle_agg_job_init_req job_call rp) helper_world))
    as (resp & w' & E); [vm_compute; reflexivity|].
  assert (DapResponse_version resp = Draft09) as Hv.
  { apply (f_equal (fun x => match x.1 with Ok r => DapResponse_version r | _ => Draft09 end)) in E.
    cbn [fst] in E. rewrite <-E. vm_compute. reflexivity. }
  rewrite E in H. destruct H as [events H].
  - by apply call_agg_job.
  - vm_compute. reflexivity.
  - reflexivity.
  - intros t [= <-]. reflexivity.
  - done.
  - exists resp, w', events. split; [|exact E]. rewrite H. destruct resp as [v mt p].
    cbn in Hv |- *. by rewrite Hv.
Defined.

(** A job without a token: a problem document, which is counted. *)
Definition tokenless : web_request :=
  MkWebRequest PUT (path_of job_parts) ""
    [(CONTENT_TYPE, ascii_bytes "application/dap-aggregation-job-init-req")] (Some job_payload).

Lemma every_response_counted_witness :
  exists resp s', router_new Role_Helper protected [] [] tokenless (MkService helper_world []) = (Ok resp, s') /\
    ws_status resp = 400 /\ response_ok resp /\
    exists tok tls, sv_metrics s' = auth_events tok tls ++ body_problems (ws_body resp)
      ++ [count_http_status_code (ws_status resp)].
Proof.
  destruct (ok_run (router_new Role_Helper protected [] [] tokenless (MkService helper_world [])))
    as (resp & s' & H); [vm_compute; reflexivity|].
  assert (ws_status resp = 400) as Hst.
  { apply (f_equal (fun x => match x.1 with Ok r => ws_status r | _ => 0 end)) in H.
    cbn [fst] in H. rewrite <-H. vm_compute. reflexivity. }
  exists resp, s'. split; [exact H|]. split; [exact Hst|].
  exact (every_response_counted _ _ _ _ _ _ _ _ H).
Defined.
