(* ===== verification/MetricsWitnesses.v ===== *)
(** * The theorems on the metrics, applied

    A reference implementation of [prometheus] with its laws, in which the registry is the map from
    names to collectors and a collector is its name; some calls of the metrics, and a Helper behind
    its router that answers four requests. *)

From stdpp Require Import pretty.
From S2P Require Import Prelude Codec Messages TaskprovMessages Errors Config Pine PineEncoding Taskprov.
From S2P Require Import AggShare Hpke Protocol LeaderState Roles Leader Auth InMemory Server Router.
From S2P Require Import RouterCorrect Reference Witnesses RouterWitnesses Metrics MetricsCorrect.
#[local] Existing Instances axum_reference axum_reference_laws base64_letters base64_letters_laws
  base64_letters_plain signer_reference unsigned_service service_aggregator no_leader.

(** ** A registry *)
Record family : Type := MkFamily {
  fam_arity : nat;
  fam_counts : gmap (list string) N;
  fam_samples : gmap (list string) (list f64);
}.

Abbreviation registry := (gmap string family).

Inductive prom_error : Type := AlreadyReg | InvalidName.

Definition register_family (name : string) (labels : list string) : stm registry prom_error string := fun p =>
  if negb (prom_desc name labels) then (Err InvalidName, p)
  else match p !! name with
       | Some _ => (Err AlreadyReg, p)
       | None => (Ok name, <[name := MkFamily (length labels) ∅ ∅]> p)
       end.

Definition fam_value (f : family) (ls : list string) : N := default 0 (fam_counts f !! ls) mod 2 ^ 64.
Definition fam_sample (f : family) (ls : list string) : list f64 := default [] (fam_samples f !! ls).

(** A change of the family of a collector, for values of its labels. *)
Definition on_family (c : string) (ls : list string) (change : family -> family) : stm registry Empty_set unit :=
  fun p =>
    match p !! c with
    | Some f => if decide (fam_arity f = length ls) then (Ok tt, <[c := change f]> p) else (Panic, p)
    | None => (Panic, p)
    end.

#[global] Instance prometheus_reference : Prometheus registry := {
  Collector := string;
  PromError := prom_error;
  exponential_buckets start factor n :=
    if f64_lt f64_zero start && f64_lt (f64_of_u64 1) factor && negb (n =? 0)
    then Some ((fun k => Nat.iter k (fun x => f64_mul x factor) start) <$> seq 0 (N.to_nat n))
    else None;
  register_int_counter_vec_with_registry name _ labels := register_family name labels;
  register_histogram_vec_with_registry name _ _ labels := register_family name labels;
  inc_by c ls v := on_family c ls (fun f =>
    MkFamily (fam_arity f) (<[ls := (fam_value f ls + v) mod 2 ^ 64]> (fam_counts f)) (fam_samples f));
  histogram_observe c ls x := on_family c ls (fun f =>
    MkFamily (fam_arity f) (fam_counts f) (<[ls := fam_sample f ls ++ [x]]> (fam_samples f)));
}.

#[global] Instance prometheus_view : PrometheusView prometheus_reference := {
  names p := dom p;
  arity p c := fam_arity <$> p !! c;
  counter_value p c ls := from_option (fun f => fam_value f ls) 0 (p !! c);
  samples p c ls := from_option (fun f => fam_sample f ls) [] (p !! c);
  Collector_eq_dec := String.string_dec : EqDecision string;
}.

Lemma register_family_fresh name labels (p : registry) :
  prom_desc name labels = true -> name ∉ dom p ->
  exists c p', register_family name labels p = (Ok c, p') /\ registered name labels p c p'.
Proof.
  intros Hd Hn%not_elem_of_dom. exists name. eexists. unfold register_family. rewrite Hd, Hn. split; [done|].
  split; cbn.
  - by rewrite dom_insert_L.
  - by rewrite Hn.
  - by rewrite lookup_insert_eq.
  - intros c Hc. by rewrite lookup_insert_ne.
  - intros ls. by rewrite lookup_insert_eq.
  - intros c ls Hc. by rewrite lookup_insert_ne.
Qed.

Lemma register_family_taken name labels (p : registry) :
  name ∈ dom p -> exists e, register_family name labels p = (Err e, p).
Proof.
  intros [f Hf]%elem_of_dom. unfold register_family. destruct (negb _); [by eexists|]. rewrite Hf. by eexists.
Qed.

Lemma arity_family (p : registry) (c : string) n :
  arity p c = Some n -> exists f, p !! c = Some f /\ fam_arity f = n.
Proof. intros (f & Hf & Ha)%fmap_Some. by exists f. Qed.

Lemma on_family_spec (c : string) ls change (p : registry) :
  arity p c = Some (length ls) -> (forall f, fam_arity (change f) = fam_arity f) ->
  exists f, p !! c = Some f /\ on_family c ls change p = (Ok tt, <[c := change f]> p) /\
    same_registry p (<[c := change f]> p).
Proof.
  intros Ha Hc. apply arity_family in Ha as (f & Hf & Ha).
  exists f. split; [done|]. split.
  - unfold on_family. rewrite Hf. by case_decide.
  - split; cbn.
    + rewrite dom_insert_L. apply elem_of_dom_2 in Hf. set_solver.
    + intros c'. destruct (decide (c' = c)) as [->|Hne]; [rewrite lookup_insert_eq, Hf; cbn; by rewrite Hc|].
      by rewrite lookup_insert_ne.
Qed.

#[global] Instance prometheus_laws : PrometheusLaws.
Proof.
  split.
  - intros. by apply register_family_fresh.
  - intros. by apply register_family_fresh.
  - intros. by apply register_family_taken.
  - intros. by apply register_family_taken.
  - intros p c ls. change (from_option (fun f => fam_value f ls) 0 ((p : registry) !! (c : string)) < 2 ^ 64).
    destruct (_ !! _); [by apply N.mod_lt|done].
  - intros c ls v p Ha Hv.
    destruct (on_family_spec c ls (fun f => MkFamily (fam_arity f)
      (<[ls := (fam_value f ls + v) mod 2 ^ 64]> (fam_counts f)) (fam_samples f)) p Ha) as (f & Hf & E & Hs); [done|].
    eexists. split_and!; [exact E|done|..]; cbn.
    + rewrite lookup_insert_eq, Hf. cbn. unfold fam_value at 1. cbn. rewrite lookup_insert_eq. cbn.
      by rewrite N.Div0.mod_mod.
    + intros c' ls' Hne. destruct (decide (c' = c)) as [->|Hc]; [|by rewrite lookup_insert_ne].
      rewrite lookup_insert_eq, Hf. cbn. unfold fam_value at 1. cbn. by rewrite lookup_insert_ne by congruence.
    + intros c' ls'. destruct (decide (c' = c)) as [->|Hc]; [|by rewrite lookup_insert_ne].
      by rewrite lookup_insert_eq, Hf.
  - intros c ls v p n Ha Hne. apply arity_family in Ha as (f & Hf & <-).
    cbn. unfold on_family. rewrite Hf. by case_decide.
  - intros c ls x p Ha.
    destruct (on_family_spec c ls (fun f => MkFamily (fam_arity f) (fam_counts f)
      (<[ls := fam_sample f ls ++ [x]]> (fam_samples f))) p Ha) as (f & Hf & E & Hs); [done|].
    eexists. split_and!; [exact E|done|..]; cbn.
    + rewrite lookup_insert_eq, Hf. cbn. unfold fam_sample at 1. cbn. by rewrite lookup_insert_eq.
    + intros c' ls' Hne. destruct (decide (c' = c)) as [->|Hc]; [|by rewrite lookup_insert_ne].
      rewrite lookup_insert_eq, Hf. cbn. unfold fam_sample at 1. cbn. by rewrite lookup_insert_ne by congruence.
    + intros c' ls'. destruct (decide (c' = c)) as [->|Hc]; [|by rewrite lookup_insert_ne].
      by rewrite lookup_insert_eq, Hf.
  - intros start factor n Hs Hf Hn. cbn -[f64_lt f64_of_u64]. rewrite Hs, Hf. by destruct (N.eqb_spec n 0).
Qed.

(** ** Calls *)
Definition some_calls : list (metric_event + service_event) :=
  [inl agg_job_started_inc; inl (agg_job_observe_batch_size 3); inl (report_inc_by RS_Aggregated 2);
   inl (report_inc_by (RS_Rejected ReportReplayed) 1); inl agg_job_completed_inc;
   inl (inbound_req_inc RT_Aggregate); inr (count_http_status_code 201);
   inr (auth_method_inc AuthMethod_BearerToken); inl (report_inc_by RS_Aggregated 5)].

Lemma new_registry (ns : list string) : Forall (fun n => n ∉ names (∅ : registry)) ns.
Proof. apply Forall_true. intros n. cbn. rewrite dom_empty_L. set_solver. Qed.

Lemma exported_counts_witness :
  exists m p0 p', DaphnePromServiceMetrics_register (∅ : registry) = (Ok m, p0) /\
    prom_calls m some_calls p0 = (Ok tt, p') /\
    counter_value p' (report_counter (service_daphne m)) ["aggregated"%string] = 7.
Proof.
  destruct (exported_counts (∅ : registry) some_calls) as (m & p0 & p' & E & E' & H).
  - apply new_registry.
  - repeat constructor.
  - exists m, p0, p'. split; [exact E|]. split; [exact E'|]. exact (exports_reports _ _ _ H RS_Aggregated).
Defined.

(** The label of a bearer token. *)
Example bearer_token_label :
  match DaphnePromServiceMetrics_register (∅ : registry) with
  | (Ok m, p0) => counter_value (prom_calls m some_calls p0).2 (auth_method_counter m) ["tls_client_auth"%string]
  | _ => 0
  end = 1.
Proof. vm_compute. reflexivity. Qed.

(** A path without a route, a wrong method, and a job without a token. *)
Definition requests : list (list byte * web_request) :=
  [([], MkWebRequest GET "/nothing" "" [] (Some [])); ([], tokenless);
   ([], MkWebRequest DELETE (wr_path tokenless) "" [] (Some [])); ([], tokenless)].

Lemma exported_responses_witness :
  exists resps s' m p0 p', serve Role_Helper protected requests (MkService helper_world []) = (Ok resps, s') /\
    DaphnePromServiceMetrics_register (∅ : registry) = (Ok m, p0) /\
    prom_calls m (inr <$> sv_metrics s') p0 = (Ok tt, p') /\
    counter_value p' (http_status_code_counter m) [pretty 400] = 2.
Proof.
  destruct (ok_run (serve Role_Helper protected requests (MkService helper_world [])))
    as (resps & s' & H); [vm_compute; reflexivity|].
  assert (responses_with (has_status 400) resps = 2) as Hn.
  { apply (f_equal (fun x => match x.1 with Ok r => responses_with (has_status 400) r | _ => 0 end)) in H.
    cbn [fst] in H. rewrite <-H. vm_compute. reflexivity. }
  destruct (exported_responses Role_Helper protected requests helper_world resps s' (∅ : registry) H)
    as (m & p0 & p' & E & E' & Hc & _).
  - apply new_registry.
  - exists resps, s', m, p0, p'. split; [exact H|]. split; [exact E|]. split; [exact E'|]. by rewrite Hc, Hn.
Defined.
