(* ===== verification/ProxyWitnesses.v ===== *)
(** * The theorems on the storage proxy as a service, applied

    The platform of [DurableWitnesses] behind the proxy, KV as a map, and the registry of
    [MetricsWitnesses]. *)

From stdpp Require Import pretty.
From S2P Require Import Prelude Codec Messages TaskprovMessages Errors Config AggShare.
From S2P Require Import DurableStore DurableChunks DurableStoreCorrect DurableRun.
From S2P Require Import DurableRequests DurableRequestsCorrect StorageProxy StorageProxyCorrect.
From S2P Require Import DurableReference DurableWitnesses.
From S2P Require Import Metrics MetricsCorrect MetricsWitnesses ProxyRouter ProxyRouterCorrect.
From S2P Require Taskprov LeaderState Router ServerWitnesses.
Import Codec.Reference DurableReference.DurableReference.

(** ** KV, URLs and routing *)
#[local] Instance kv_map : KvStore (gmap string (list byte)) := {
  kv_binding := Ok tt;
  kv_bytes key := fun kv => (Ok (kv !! key), kv);
  kv_list prefix := fun kv => (Ok (filter (fun k => String.prefix prefix k = true) (elements (dom kv))), kv);
  kv_del key := fun kv => (Ok tt, delete key kv);
  kv_put_bytes _ _ := Ok tt;
  kv_execute key body _ := fun kv => (Ok tt, <[key := body]> kv);
}.

#[local] Instance parses : Taskprov.UrlParser := Some.
#[local] Instance joins : LeaderState.UrlJoin := fun base rel => Some (String.append base rel).
#[local] Instance paths : Router.UrlPath := {
  Router.url_path u := ServerWitnesses.skip 17 u;
  Router.url_query _ := EmptyString;
}.

(** The rest of a path under a route that ends in [*path]. *)
#[local] Instance routing : ProxyAxum := {
  wildcard pattern path :=
    let prefix := String.substring 0 (String.length pattern - 5) pattern in
    if String.prefix prefix path then Some (Ok (ServerWitnesses.skip (String.length prefix) path)) else None;
  bearer_header values :=
    match values with
    | [Some v] => if String.prefix "Bearer " v then Some (ServerWitnesses.skip 7 v) else None
    | _ => None
    end;
  extract_bytes bs := if 2097152 <? len bs then Err 413 else Ok bs;
}.

Definition proxied : Type := proxy_world (gmap string (list byte)) plat registry.
Definition start_world : proxied := MkProxyWorld ∅ platform ∅.

(** ** Access *)
Definition merge_path : string := String.append DO_PATH_PREFIX (AggregateStore_to_uri M_Merge).

Definition merge_call (token : string) : proxy_request :=
  MkProxyRequest POST merge_path [Some (String.append "Bearer " token)] [] (into_bytes (with_body envelope body1)).

Lemma proxy_guarded_witness :
  exists r w', handle_request 10 15 [] (Some "secret"%string) (merge_call "guess") start_world = (r, w') /\
    pw_objects w' = platform /\ exists resp, r = Ok resp /\ proxy_status resp ∈ [400; 401; 500].
Proof.
  destruct (handle_request 10 15 [] (Some "secret"%string) (merge_call "guess") start_world) as [r w'] eqn:H.
  exists r, w'. split; [reflexivity|].
  apply (proxy_guarded 10 15 [] (Some "secret"%string) (merge_call "guess") start_world w' r);
    [|apply new_registry|exact H].
  intros t [= <-]. vm_compute. discriminate.
Defined.

(** ** Attempts *)
Definition proxy_metrics : ProxyMetrics registry := MkProxyMetrics
  "durable_request_retry_count" "durable_request_time_seconds" "kv_request_time_seconds"%string.

(** The platform has no stub for the first attempt. *)
Definition stubless : plat := MkPlat (p_object platform) (NoStub :: p_net platform).
Definition registered_world : proxied := MkProxyWorld ∅ stubless (Metrics_new (E:=Empty_set) ∅).2.

(** [DO_PATH_PREFIX] and the slash are not part of the parameter of the route. *)
Definition merge_uri : string := ServerWitnesses.skip 1 (AggregateStore_to_uri M_Merge).

Lemma stub_returns b id path body (p : plat) : (stub_fetch b id path body p).1 <> Panic.
Proof.
  destruct (stub_fetch b id path body p) as [r p'] eqn:H. apply stub_fetch_law in H as [H _]. by destruct H.
Qed.

Lemma stub_found b id (p : plat) : (get_stub b id p).1 <> Panic.
Proof. destruct (get_stub b id p) as [r p'] eqn:H. by apply get_stub_law in H as [H _]. Qed.

Lemma attempts_counted_witness :
  exists r o' p', handle_do_request_counted proxy_metrics merge_uri (into_bytes (with_body envelope body1)) registered_world
      = (r, MkProxyWorld ∅ o' p') /\
    handle_do_request (AggregateStore_to_uri M_Merge) (into_bytes (with_body envelope body1)) stubless = (r, o') /\
    counter_value p' (durable_request_retry_count proxy_metrics) ["-1"; dr_binding envelope; merge_uri]%string = 2 /\
    counter_value p' (durable_request_retry_count proxy_metrics) ["3"; dr_binding envelope; merge_uri]%string = 1.
Proof.
  pose proof (attempts_counted proxy_metrics merge_uri (AggregateStore_to_uri M_Merge)
    (into_bytes (with_body envelope body1)) (with_body envelope body1) registered_world) as H.
  match type of H with context [failures ?stub ?fetch 5 ?o] =>
    assert (let '(k, f, ok) := failures stub fetch 5 o in k = 3%nat /\ f = 2%nat /\ bool_decide (is_Some ok) = true)
      as Hk by (vm_compute; auto);
    destruct (failures stub fetch 5 o) as [[k f] ok]
  end.
  destruct Hk as (-> & -> & Hok).
  rewrite Hok in H.
  destruct H as (r & o' & p' & E & E' & _ & _ & Hc).
  - split; reflexivity || (vm_compute; discriminate).
  - vm_compute. reflexivity.
  - vm_compute. discriminate.
  - vm_compute. reflexivity.
  - reflexivity.
  - reflexivity.
  - intros o. apply stub_found.
  - intros o. apply stub_returns.
  - exists r, o', p'. split; [exact E|]. split; [exact E'|].
    split; rewrite Hc; vm_compute; reflexivity.
Defined.

(** The whole request with the token: the merge is answered. *)
Example merge_through_proxy :
  match handle_request 10 15 [] (Some "secret"%string) (merge_call "secret") start_world with
  | (Ok resp, w) => (proxy_status resp, samples (pw_prom w) "durable_request_time_seconds"%string [merge_uri; "success"%string])
  | _ => (0, [])
  end = (200, [as_secs_f64 5]).
Proof. vm_compute. reflexivity. Qed.
