(* ===== verification/JobTest.v ===== *)
(** * The aggregation flow, from measurements to the aggregate result

    [AggregationJobTest] of [src/crates/daphne/src/testing/mod.rs], built with the feature
    [test-utils]: the Clients, the Leader, the Helper and the Collector of one task, in one
    process.  [roundtrip] runs the whole flow.  Its methods unwrap the results of the protocol,
    so an error is a panic.  The randomness a call draws is an argument of the call, the wall
    clock an argument of [new], and the metrics of the Leader are the state. *)

From S2P Require Import Prelude Codec Messages TaskprovMessages Errors Config AggShare Hpke.
From S2P Require Import Protocol ProtocolCorrect Pine Taskprov InMemory.

(** [Result::unwrap] *)
Definition unwrap_res {E E' A} (r : res E A) : res E' A :=
  match r with Ok a => Ok a | Err _ | Panic => Panic end.

(** [.unwrap()] of a call that counts metrics *)
Definition unwrap_stm {S E E' A} (m : stm S E A) : stm S E' A := fun s =>
  let '(r, s) := m s in (unwrap_res r, s).

(** [VdafConfig::gen_verify_key]; [rand] is what [rng.fill] writes over the zeros. *)
Definition gen_verify_key (rand : list byte) (self : Vdaf.VdafConfig) : VdafVerifyKey :=
  VdafVerifyKey_fill (uninitialized_verify_key self) rand.

(** The randomness of [new]: the task ID, the verification key, and of every receiver the ID
    and the seed of its key pair. *)
Record new_rand : Type := MkNewRand {
  nr_task_id : TaskId;
  nr_verify_key : list byte;
  nr_leader : N * list byte;
  nr_helper : N * list byte;
  nr_collector : N * list byte;
}.

(** The randomness of a report: its ID, that of the VDAF and that of the two encryptions. *)
Record report_rand : Type := MkReportRand {
  rr_report_id : ReportId;
  rr_shard : list byte;
  rr_seeds : list byte * list byte;
}.

Record AggregationJobTest : Type := MkAggregationJobTest {
  ajt_task_id : TaskId;
  ajt_task_config : DapTaskConfig;
  ajt_leader_hpke_receiver_config : HpkeReceiverConfig;
  ajt_helper_hpke_receiver_config : HpkeReceiverConfig;
  ajt_client_hpke_config_list : HpkeConfig * HpkeConfig;
  ajt_collector_hpke_receiver_config : HpkeReceiverConfig;
  ajt_replay_protection : ReplayProtection;
  ajt_now : Time;
  ajt_valid_report_range : Time * Time;
}.

Section Job.
Context `{BP : BuildProfile} `{PC : PrioCodec} `{PA : PrioAgg} `{VO : !VdafOps} `{D : Digest}
  `{HC : HpkeCrypto}.

Definition AggregationJobTest_new {E} (rand : new_rand) (now : Time) (vdaf : Vdaf.VdafConfig)
    (kem_id : HpkeKemId) (version : DapVersion) : res E AggregationJobTest :=
  let task_id := nr_task_id rand in
  let vdaf_verify_key := gen_verify_key (nr_verify_key rand) vdaf in
  let gen r := unwrap_res (HpkeReceiverConfig_gen r.2 r.1 kem_id) in
  leader ← gen (nr_leader rand);
  helper ← gen (nr_helper rand);
  collector ← gen (nr_collector rand);
  range_start ← u64_sub now 60;
  range_end ← u64_add now 60;
  not_after ← u64_add now 500;
  Ok (MkAggregationJobTest task_id
        (MkDapTaskConfig version "http://leader.com/" "https://helper.org/" 500 10 QC_TimeInterval vdaf
           now not_after vdaf_verify_key (HpkeReceiverConfig_config collector) Method_Unknown 3)
        leader helper (HpkeReceiverConfig_config leader, HpkeReceiverConfig_config helper) collector
        ReplayProtection_Enabled now (range_start, range_end)).

Definition disable_replay_protection (self : AggregationJobTest) : AggregationJobTest :=
  let 'MkAggregationJobTest tid c l h cl co _ now range := self in
  MkAggregationJobTest tid c l h cl co ReplayProtection_InsecureDisabled now range.

Definition change_vdaf (rand : list byte) (self : AggregationJobTest) (vdaf : Vdaf.VdafConfig) :
    AggregationJobTest :=
  let 'MkAggregationJobTest tid c l h cl co rp now range := self in
  let 'MkDapTaskConfig version leader_url helper_url time_precision min_batch_size query _ not_before
        not_after _ collector_hpke_config method shards := c in
  MkAggregationJobTest tid
    (MkDapTaskConfig version leader_url helper_url time_precision min_batch_size query vdaf not_before
       not_after (gen_verify_key rand vdaf) collector_hpke_config method shards)
    l h cl co rp now range.

(** ** Client *)
Definition job_produce_report {E} (rand : report_rand) (self : AggregationJobTest)
    (measurement : DapMeasurement) : res E Report :=
  unwrap_res (produce_report (rr_report_id rand) (rr_shard rand) (rr_seeds rand)
    (DapTaskConfig_vdaf (ajt_task_config self)) (ajt_client_hpke_config_list self) (ajt_now self)
    (ajt_task_id self) measurement (DapTaskConfig_version (ajt_task_config self))).

(** The [i]-th draw of [rand] is that of the [i]-th report. *)
Fixpoint produce_reports {E} (rand : nat -> report_rand) (self : AggregationJobTest)
    (measurements : list DapMeasurement) : res E (list Report) :=
  match measurements with
  | [] => Ok []
  | measurement :: measurements =>
      report ← job_produce_report (rand 0%nat) self measurement;
      reports ← produce_reports (fun i => rand (S i)) self measurements;
      Ok (report :: reports)
  end.

(** An endless iterator over one report: what [take(n)] yields. *)
Definition produce_repeated_reports {E} (rand : report_rand) (self : AggregationJobTest)
    (measurement : DapMeasurement) : res E (nat -> list Report) :=
  report ← job_produce_report rand self measurement;
  Ok (fun n => replicate n report).

(** ** Aggregators *)
Definition job_initializer (self : AggregationJobTest) : DapReportInitializer :=
  MkDapReportInitializer (ajt_valid_report_range self) initialize_all.

Definition job_produce_agg_job_req {E} (self : AggregationJobTest) (agg_param : DapAggregationParam)
    (reports : list Report) : stm metrics E (DapAggregationJobState * AggregationJobInitReq) :=
  unwrap_stm (produce_agg_job_req_impl (ajt_task_config self)
    (receiver_decrypter (ajt_leader_hpke_receiver_config self)) (job_initializer self)
    (ajt_task_id self) PBS_TimeInterval agg_param reports (ajt_replay_protection self)).

Definition job_handle_agg_job_req {E} (self : AggregationJobTest) (agg_job_init_req : AggregationJobInitReq) :
    res E (DapAggregateSpan DapAggregateShare * AggregationJobResp) :=
  initialized ← unwrap_res (consume_agg_job_req (ajt_task_config self)
    (receiver_decrypter (ajt_helper_hpke_receiver_config self)) (job_initializer self)
    (ajt_task_id self) agg_job_init_req (ajt_replay_protection self));
  unwrap_res (produce_agg_job_resp (ajt_task_config self) ∅
    (AggregationJobInitReq_part_batch_sel agg_job_init_req) initialized).

Definition job_consume_agg_job_resp {E} (self : AggregationJobTest) (leader_state : DapAggregationJobState)
    (agg_job_resp : AggregationJobResp) : stm metrics E (DapAggregateSpan DapAggregateShare) :=
  unwrap_stm (consume_agg_job_resp (ajt_task_config self) (ajt_task_id self) leader_state agg_job_resp).

(** [expect_err] *)
Definition consume_agg_job_resp_expect_err {E} (self : AggregationJobTest)
    (leader_state : DapAggregationJobState) (agg_job_resp : AggregationJobResp) :
    stm metrics E DapError := fun s =>
  let '(r, s) := consume_agg_job_resp (ajt_task_config self) (ajt_task_id self) leader_state agg_job_resp s in
  (match r with Err e => Ok e | Ok _ | Panic => Panic end, s).

(** ** Aggregate shares *)
Definition job_produce_leader_encrypted_agg_share {E} (seed : list byte) (self : AggregationJobTest)
    (batch_selector : BatchSelector) (agg_param : DapAggregationParam) (agg_share : DapAggregateShare) :
    res E HpkeCiphertext :=
  unwrap_res (produce_leader_encrypted_agg_share seed (ajt_task_config self)
    (DapTaskConfig_collector_hpke_config (ajt_task_config self)) (ajt_task_id self) batch_selector
    agg_param agg_share (DapTaskConfig_version (ajt_task_config self))).

Definition job_produce_helper_encrypted_agg_share {E} (seed : list byte) (self : AggregationJobTest)
    (batch_selector : BatchSelector) (agg_param : DapAggregationParam) (agg_share : DapAggregateShare) :
    res E HpkeCiphertext :=
  unwrap_res (produce_helper_encrypted_agg_share seed (ajt_task_config self)
    (DapTaskConfig_collector_hpke_config (ajt_task_config self)) (ajt_task_id self) batch_selector
    agg_param agg_share (DapTaskConfig_version (ajt_task_config self))).

Definition job_consume_encrypted_agg_shares {E} (self : AggregationJobTest) (batch_selector : BatchSelector)
    (report_count : N) (agg_param : DapAggregationParam) (enc_agg_shares : list HpkeCiphertext) :
    res E DapAggregateResult :=
  unwrap_res (consume_encrypted_agg_shares (DapTaskConfig_vdaf (ajt_task_config self))
    (receiver_decrypter (ajt_collector_hpke_receiver_config self)) (ajt_task_id self) batch_selector
    report_count agg_param enc_agg_shares (DapTaskConfig_version (ajt_task_config self))).

(** ** The flow *)
Definition roundtrip (rand : nat -> report_rand) (seeds : list byte * list byte)
    (self : AggregationJobTest) (agg_param : DapAggregationParam) (measurements : list DapMeasurement) :
    stm metrics DapError DapAggregateResult :=
  let batch_selector := BS_TimeInterval (MkInterval (ajt_now self) 3600) in
  reports ← lift (produce_reports rand self measurements);
  '(leader_state, agg_job_init_req) ← job_produce_agg_job_req self agg_param reports;
  '(helper_agg_span, agg_job_resp) ← lift (job_handle_agg_job_req self agg_job_init_req);
  leader_agg_span ← job_consume_agg_job_resp self leader_state agg_job_resp;
  let report_count := DapAggregateSpan_report_count leader_agg_span in
  leader_agg_share ← lift (DapAggregateSpan_collapsed leader_agg_span);
  leader_encrypted_agg_share ←
    lift (job_produce_leader_encrypted_agg_share seeds.1 self batch_selector agg_param leader_agg_share);
  helper_agg_share ← lift (DapAggregateSpan_collapsed helper_agg_span);
  helper_encrypted_agg_share ←
    lift (job_produce_helper_encrypted_agg_share seeds.2 self batch_selector agg_param helper_agg_share);
  lift (job_consume_encrypted_agg_shares self batch_selector report_count agg_param
    [leader_encrypted_agg_share; helper_encrypted_agg_share]).
End Job.
