(* ===== verification/JobTestCorrect.v ===== *)
(** * The whole flow computes the aggregate result

    [roundtrip] of [JobTest], composed of the theorems about its steps: measurements whose
    reports the VDAF can prepare come out of it as the result the VDAF computes from the sums
    of the output shares ([roundtrip_exact]).  Every step is followed forwards: that it
    returns, and what. *)

From Stdlib Require Import ZArith.
From S2P Require Import Prelude Codec Messages TaskprovMessages Errors Config Pine Taskprov AggShare Hpke.
From S2P Require Import PineField PineEncoding PineFlp PineFlpCorrect PineWraparound PineMsg PineVdaf.
From S2P Require Import PineVdafCorrect PineBatch Protocol ProtocolCorrect InMemory DurableStore VdafDispatch.
From S2P Require Import VdafDispatchCorrect VdafDispatchPine JobTest.

(** ** Collapsing a span *)
Section Collapse.
Context `{BP : BuildProfile} `{PA : PrioAgg} `{D : Digest} {PL : PrioAggLaws PA} {DL : DigestLaws D}.

Lemma summable_items b (items : list (DapBatchBucket * out_share)) :
  summable items.*2 -> summable (items_of b items).
Proof.
  intros H. unfold items_of. eapply (summable_app_l _ (filter (fun i => ~ i.1 = b) items).*2).
  eapply summable_perm; [|exact H]. rewrite <-fmap_app. apply fmap_Permutation.
  clear. induction items as [|[b' o] items IH]; [done|]. rewrite !filter_cons. cbn.
  destruct (decide (b' = b)) as [->|Hb].
  - rewrite decide_False by tauto. by apply perm_skip.
  - rewrite decide_True by done. by apply Permutation_cons_app.
Qed.

(** Taken bucket by bucket, the reports are the same. *)
Lemma items_by_bucket (bs : list DapBatchBucket) (items : list (DapBatchBucket * out_share)) :
  NoDup bs -> (forall i, i ∈ items -> i.1 ∈ bs) -> mjoin ((fun b => items_of b items) <$> bs) ≡ₚ items.*2.
Proof.
  intros Hnd. revert items. induction Hnd as [|b bs Hb _ IH]; intros items Hin.
  - destruct items as [|i items]; [done|]. by specialize (Hin i ltac:(left)) as ?%not_elem_of_nil.
  - cbn [fmap list_fmap mjoin list_join].
    assert ((fun b => items_of b items) <$> bs
      = (fun b' => items_of b' (filter (fun i => ~ i.1 = b) items)) <$> bs) as E.
    { apply list_fmap_ext. intros k b' Hb'%list_elem_of_lookup_2. unfold items_of.
      rewrite list_filter_filter. f_equal. apply list_filter_iff. intros [b'' o]. cbn.
      split; [|tauto]. intros ->. split; [done|]. by intros ->. }
    change (list_fmap _ _ ?f bs) with (f <$> bs). rewrite E, IH.
    + unfold items_of. rewrite <-fmap_app. apply fmap_Permutation.
      clear. induction items as [|[b' o] items IH]; [done|]. rewrite !filter_cons. cbn.
      destruct (decide (b' = b)) as [->|Hb'].
      * rewrite decide_False by tauto. cbn. by apply perm_skip.
      * rewrite decide_True by done. symmetry. by apply Permutation_cons_app.
    + intros i [Hi1 Hi2]%list_elem_of_filter. specialize (Hin i Hi2) as [Hc|?]%elem_of_cons; done.
Qed.

Lemma merge_all_represents s l0 (shares : list DapAggregateShare) ls :
  represents s l0 -> Forall2 represents shares ls ->
  len (l0 ++ mjoin ls) <= u64_max -> summable (l0 ++ mjoin ls) ->
  exists s', merge_all s shares = Ok s' /\ represents s' (l0 ++ mjoin ls).
Proof.
  intros Hs HF. revert s l0 Hs. induction HF as [|x l shares ls Hx _ IH]; intros s l0 Hs Hmax Hsum; cbn.
  - exists s. by rewrite app_nil_r.
  - cbn in Hmax, Hsum. rewrite app_assoc in *.
    destruct (merge_represents s x l0 l) as (s1 & -> & Hs1); [done|done| | |].
    + rewrite !len_app in Hmax. lia.
    + by eapply summable_app_l.
    + by apply IH.
Qed.

(** The shares of a span represent the reports of their buckets, which together are all. *)
Lemma span_shares span items :
  span_represents span items ->
  DapAggregateSpan_report_count span = len items /\
  exists ls, Forall2 represents ((fun e => e.2.1) <$> map_to_list span) ls /\ mjoin ls ≡ₚ items.*2.
Proof.
  intros Hs.
  assert (mjoin ((fun b => items_of b items) <$> (map_to_list span).*1) ≡ₚ items.*2) as Hp.
  { apply items_by_bucket; [apply NoDup_fst_map_to_list|]. intros [b o] Hin.
    specialize (Hs b). destruct (span !! b) as [x|] eqn:E.
    - apply list_elem_of_fmap. exists (b, x). split; [done|]. by apply elem_of_map_to_list.
    - apply elem_of_items_of in Hin. rewrite Hs in Hin. by apply not_elem_of_nil in Hin. }
  rewrite <-list_fmap_compose in Hp.
  assert (forall e, e ∈ map_to_list span -> represents e.2.1 (items_of e.1 items) /\
    len e.2.2 = len (items_of e.1 items)) as He.
  { intros [b [x r]] He%elem_of_map_to_list. specialize (Hs b). rewrite He in Hs.
    destruct Hs as (_ & Hx & ->). split; [done|]. cbn [fst snd]. unfold len. by rewrite length_fmap. }
  split.
  - assert (len items = len (mjoin ((fun b => items_of b items) ∘ fst <$> map_to_list span))) as ->.
    { unfold len. rewrite Hp. by rewrite length_fmap. }
    unfold DapAggregateSpan_report_count. clear Hp.
    induction (map_to_list span) as [|e es IH]; [done|]. cbn. rewrite len_app.
    destruct (He e ltac:(left)) as [_ ->]. f_equal. apply IH. intros e' He'. apply He. by right.
  - eexists. split; [|exact Hp]. clear Hp. induction (map_to_list span) as [|e es IH]; constructor.
    + by apply He; left.
    + apply IH. intros e' He'. apply He. by right.
Qed.

(** [collapsed] gives the share of all reports, and [report_count] their number. *)
Lemma collapsed_represents span items :
  span_represents span items -> len items <= u64_max -> summable items.*2 ->
  DapAggregateSpan_report_count span = len items /\
  exists s, DapAggregateSpan_collapsed span = Ok s /\ represents s items.*2.
Proof.
  intros Hs Hmax Hsum. destruct (span_shares _ _ Hs) as (Hc & ls & HF & Hp). split; [done|].
  assert (len (mjoin ls) = len items) as Hcount by (unfold len; rewrite Hp; by rewrite length_fmap).
  unfold DapAggregateSpan_collapsed. destruct HF as [|x l shares ls Hx HF].
  - exists DapAggregateShare_default. split; [done|].
    eapply represents_perm; [exact Hp|apply represents_default].
  - change (mjoin (l :: ls)) with (l ++ mjoin ls) in *.
    destruct (merge_all_represents x l shares ls Hx HF) as (s & -> & Hr).
    + by rewrite Hcount.
    + eapply summable_perm; [symmetry; exact Hp|done].
    + exists s. split; [done|]. by eapply represents_perm.
Qed.

(** A merge that succeeds gives the share of all reports. *)
Lemma merge_all_Ok_represents s l0 (shares : list DapAggregateShare) ls s' :
  represents s l0 -> Forall2 represents shares ls -> len (l0 ++ mjoin ls) <= u64_max ->
  merge_all s shares = Ok s' -> represents s' (l0 ++ mjoin ls).
Proof.
  intros Hs HF. revert s l0 Hs. induction HF as [|x l shares ls Hx _ IH]; intros s l0 Hs Hmax; cbn [merge_all].
  - intros [= <-]. cbn. by rewrite app_nil_r.
  - intros (s1 & Hm & H)%bind_Ok. change (mjoin (l :: ls)) with (l ++ mjoin ls) in *. rewrite app_assoc in *.
    apply (IH s1); [|done|done]. eapply merge_Ok_represents; [exact Hs|exact Hx| |exact Hm].
    rewrite !len_app in Hmax. lia.
Qed.
End Collapse.

(** ** Encryption returns *)

(** AES-128-GCM encrypts at most this many bytes. *)
Definition aead_max : N := 68719476704.

(** What [hpke_rs] documents besides [HpkeCryptoLaws]: there is a key pair for every seed, and
    sealing to a public key of the suite succeeds. *)
Class HpkeSeals (H : HpkeCrypto) : Prop := {
  generates kem seed : is_Some (generate_key_pair kem seed);
  seals kem sk pk seed info aad pt :
    kem_derive_base kem sk = Some pk -> len pt <= aead_max ->
    is_Some (hpke_seal kem pk seed info aad pt);
}.

Section Encryption.
Context `{BP : BuildProfile} `{PC : PrioCodec} {L : PrioCodecLaws PC}.
Context `{HC : HpkeCrypto} {HL : HpkeCryptoLaws HC} {HS : HpkeSeals HC}.

Lemma encrypt_ok r seed info aad pt :
  receiver_ok r -> len pt <= aead_max ->
  exists ct, HpkeConfig_encrypt seed (HpkeReceiverConfig_config r) info aad pt = Ok ct.
Proof.
  intros (kem & Hsuite & Hk) Hlen. unfold HpkeConfig_encrypt. rewrite Hsuite. cbn [mbind res_bind].
  destruct (seals kem _ _ seed info aad pt Hk Hlen) as [[enc ct] ->]. by eexists.
Qed.

Lemma gen_returns seed id kem_id :
  kem_id = P256HkdfSha256 \/ kem_id = X25519HkdfSha256 ->
  exists r, HpkeReceiverConfig_gen seed id kem_id = Ok r.
Proof.
  intros H. unfold HpkeReceiverConfig_gen. destruct H as [-> | ->]; cbn [mbind res_bind].
  - destruct (generates DhKemP256 seed) as [[sk pk] ->]. by eexists.
  - destruct (generates DhKem25519 seed) as [[sk pk] ->]. by eexists.
Qed.

Lemma input_share_aad_ok version tid md pub :
  ReportMetadata_time md <= u64_max -> len pub <= u32_max ->
  exists aad, input_share_aad version tid md pub = Ok aad.
Proof.
  intros Ht Hp. unfold input_share_aad, id_encode, extend_from_slice, ReportMetadata_encode.
  cbn [map_err mbind res_bind]. unfold id_encode, extend_from_slice. cbn [map_err mbind res_bind].
  rewrite (int_encode_be W64 _ Ht _). cbn [map_err mbind res_bind].
  eexists. apply map_err_Ok. exact (encode_bytes_writes W32 u32_max pub eq_refl Hp _).
Qed.

Lemma agg_share_aad_ok version tid agg_param start :
  start <= u64_max ->
  exists aad, agg_share_aad version tid agg_param (BS_TimeInterval (MkInterval start 3600)) = Ok aad.
Proof.
  intros Hs. unfold agg_share_aad, id_encode, extend_from_slice. cbn [map_err mbind res_bind].
  rewrite (encode_len_prefixed_writes W32 version _ []
    (fun buf => f_equal Ok (eq_sym (app_nil_r buf))) ltac:(done) _ : encode_u32_prefixed _ _ _ = _).
  cbn [map_err mbind res_bind]. unfold BatchSelector_encode, Interval_encode.
  rewrite (int_encode_be W8 QUERY_TYPE_TIME_INTERVAL ltac:(done) _). cbn [mbind res_bind].
  rewrite (int_encode_be W64 _ (Hs : start <= width_max W64) _). cbn [mbind res_bind].
  rewrite (int_encode_be W64 3600 ltac:(done) _). by eexists.
Qed.

(** An input share without extensions. *)
Lemma input_share_encodes version s :
  len s <= u32_max ->
  PlaintextInputShare_wf version (MkPlaintextInputShare [] s) /\
  exists bs, get_encoded (PlaintextInputShare_encode version) (MkPlaintextInputShare [] s) = Ok bs /\
    len bs <= aead_max.
Proof.
  intros Hs.
  assert (PlaintextInputShare_wf version (MkPlaintextInputShare [] s)) as Hwf.
  { split; [|done]. split; [by constructor|]. exists []. split; [by constructor|done]. }
  split; [done|]. unfold PlaintextInputShare_encode. rewrite get_encoded_spec.
  cbn [PlaintextInputShare_extensions PlaintextInputShare_payload].
  rewrite (encode_items_writes W16 _ [] [] ltac:(constructor) ltac:(done) []). cbn [mbind res_bind].
  eexists. split; [exact (encode_bytes_writes W32 u32_max s eq_refl Hs _)|].
  unfold len, aead_max, u32_max in *. rewrite !length_app, !length_be_bytes. cbn. lia.
Qed.
End Encryption.

(** ** The parties *)
Section Flow.
Context `{BP : BuildProfile} `{PC : PrioCodec} {L : PrioCodecLaws PC}.
Context `{PA : PrioAgg} {PL : PrioAggLaws PA} `{VO : !VdafOps} `{D : Digest} {DL : DigestLaws D}.
Context `{HC : HpkeCrypto} {HL : HpkeCryptoLaws HC} {HS : HpkeSeals HC}.

(** What [new] makes sure of. *)
Record job_ok (self : AggregationJobTest) : Prop := {
  jo_leader : receiver_ok (ajt_leader_hpke_receiver_config self);
  jo_helper : receiver_ok (ajt_helper_hpke_receiver_config self);
  jo_collector : receiver_ok (ajt_collector_hpke_receiver_config self);
  jo_clients : ajt_client_hpke_config_list self
    = (HpkeReceiverConfig_config (ajt_leader_hpke_receiver_config self),
       HpkeReceiverConfig_config (ajt_helper_hpke_receiver_config self));
  jo_collector_config : DapTaskConfig_collector_hpke_config (ajt_task_config self)
    = HpkeReceiverConfig_config (ajt_collector_hpke_receiver_config self);
  jo_time : time_accepted (job_initializer self) (ajt_task_config self) (ajt_now self);
  jo_now : ajt_now self <= u64_max;
  jo_method : method_is_taskprov (ajt_task_config self) = false;
  jo_query : DapTaskConfig_query (ajt_task_config self) = QC_TimeInterval;
  jo_precision : 0 < DapTaskConfig_time_precision (ajt_task_config self);
}.

Lemma new_ok (rand : new_rand) now vdaf kem_id version :
  kem_id = P256HkdfSha256 \/ kem_id = X25519HkdfSha256 ->
  60 <= now -> now + 500 <= u64_max ->
  exists self, AggregationJobTest_new (E:=DapError) rand now vdaf kem_id version = Ok self /\
    job_ok self /\ DapTaskConfig_vdaf (ajt_task_config self) = vdaf /\
    DapTaskConfig_vdaf_verify_key (ajt_task_config self) = gen_verify_key (nr_verify_key rand) vdaf.
Proof.
  intros Hkem Hlo Hhi.
  destruct (gen_returns (nr_leader rand).2 (nr_leader rand).1 kem_id Hkem) as (l & Hl).
  destruct (gen_returns (nr_helper rand).2 (nr_helper rand).1 kem_id Hkem) as (h & Hh).
  destruct (gen_returns (nr_collector rand).2 (nr_collector rand).1 kem_id Hkem) as (c & Hc).
  unfold AggregationJobTest_new. rewrite Hl, Hh, Hc. cbn [unwrap_res mbind res_bind].
  rewrite u64_sub_fits by done. cbn [mbind res_bind]. rewrite !u64_add_fits by lia. cbn [mbind res_bind].
  eexists. split; [done|]. split; [|done].
  apply gen_ok in Hl as [Hl _]. apply gen_ok in Hh as [Hh _]. apply gen_ok in Hc as [Hc _].
  split; try done; cbn; try lia. unfold time_accepted. cbn. lia.
Qed.

(** A report whose preparation ends, with its messages: [dap_run] with the existentials
    named. *)
Record honest : Type := MkHonest {
  h_rand : report_rand;
  h_meas : DapMeasurement;
  h_pub : list byte;
  h_i0 : list byte;
  h_i1 : list byte;
  h_st0 : VdafPrepState;
  h_s0 : VdafPrepShare;
  h_st1 : VdafPrepState;
  h_s1 : VdafPrepShare;
  h_share : list byte;
  h_msg : list byte;
  h_a0 : VdafAggregateShare;
  h_a1 : VdafAggregateShare;
}.

Abbreviation h_id h := (rr_report_id (h_rand h)).

Record honest_ok (config : Vdaf.VdafConfig) (key : VdafVerifyKey) (h : honest) : Prop := {
  ho_shard : vdaf_shard (rr_shard (h_rand h)) config (h_meas h) (h_id h) = Ok (h_pub h, (h_i0 h, h_i1 h));
  ho_init0 : vdaf_prep_init config key 0 (h_id h) (h_pub h) (h_i0 h) = Ok (h_st0 h, h_s0 h);
  ho_init1 : vdaf_prep_init config key 1 (h_id h) (h_pub h) (h_i1 h) = Ok (h_st1 h, h_s1 h);
  ho_share : writes VdafPrepShare_encode (h_s0 h) (h_share h);
  ho_finish1 : vdaf_prep_finish_from_shares config 1 (h_st1 h) (h_s1 h) (h_share h) = Ok (h_a1 h, h_msg h);
  ho_finish0 : vdaf_prep_finish config (h_st0 h) (h_msg h) = Ok (h_a0 h);
  ho_fit : Forall (fun bs => len bs <= u32_max) [h_pub h; h_i0 h; h_i1 h; h_share h; h_msg h];
}.

Lemma dap_run_honest config key rand m a0 a1 :
  dap_run config key (rr_shard rand) m (rr_report_id rand) a0 a1 ->
  exists h, honest_ok config key h /\ h_rand h = rand /\ h_meas h = m /\ h_a0 h = a0 /\ h_a1 h = a1.
Proof.
  intros (pub & i0 & i1 & st0 & s0 & st1 & s1 & share & msg & H1 & H2 & H3 & H4 & H5 & H6 & H7).
  exists (MkHonest rand m pub i0 i1 st0 s0 st1 s1 share msg a0 a1). split; [by split|done].
Qed.

(** ** Reports *)
Section Parties.
Context (self : AggregationJobTest) (JO : job_ok self).
Abbreviation c := (ajt_task_config self).
Abbreviation tid := (ajt_task_id self).
Abbreviation leader := (receiver_decrypter (ajt_leader_hpke_receiver_config self)).
Abbreviation helper := (receiver_decrypter (ajt_helper_hpke_receiver_config self)).
Abbreviation ok := (honest_ok (DapTaskConfig_vdaf c) (DapTaskConfig_vdaf_verify_key c)).

Definition h_metadata (h : honest) : ReportMetadata := MkReportMetadata (h_id h) (ajt_now self).

(** [rep] is the report of [h]: the Aggregators get the input shares out of it. *)
Definition reported (h : honest) (rep : Report) : Prop :=
  Report_report_metadata rep = h_metadata h /\ Report_public_share rep = h_pub h /\
  EarlyReportStateConsumed_consume leader (job_initializer self) true tid c
    (MkReportShare (h_metadata h) (h_pub h) (Report_encrypted_input_shares rep).1) None
  = Ok (Consumed_Ready (h_metadata h) (h_pub h) (h_i0 h) None) /\
  EarlyReportStateConsumed_consume helper (job_initializer self) false tid c
    (MkReportShare (h_metadata h) (h_pub h) (Report_encrypted_input_shares rep).2)
    (Some (frame PingPong_Initialize (h_share h)))
  = Ok (Consumed_Ready (h_metadata h) (h_pub h) (h_i1 h) (Some (h_share h))).

Lemma produce_report_ok h :
  ok h -> exists rep, job_produce_report (E:=DapError) (h_rand h) self (h_meas h) = Ok rep /\ reported h rep.
Proof.
  intros [Hs _ _ _ _ _ Hfit]. rewrite !Forall_cons in Hfit. destruct Hfit as (Fp & F0 & F1 & Fs & _).
  destruct (input_share_encodes (DapTaskConfig_version c) (h_i0 h) F0) as (W0 & b0 & E0 & L0).
  destruct (input_share_encodes (DapTaskConfig_version c) (h_i1 h) F1) as (W1 & b1 & E1 & L1).
  destruct (input_share_aad_ok (DapTaskConfig_version c) tid (h_metadata h) (h_pub h)
    (jo_now _ JO) Fp) as (aad & Haad).
  destruct (encrypt_ok _ (rr_seeds (h_rand h)).1 (input_share_info CTX_ROLE_LEADER) aad b0
    (jo_leader _ JO) L0) as (ct0 & C0).
  destruct (encrypt_ok _ (rr_seeds (h_rand h)).2 (input_share_info CTX_ROLE_HELPER) aad b1
    (jo_helper _ JO) L1) as (ct1 & C1).
  assert (produce_report_with_extensions_for_shares (rr_seeds (h_rand h)) (h_pub h) (h_i0 h, h_i1 h)
    (ajt_client_hpke_config_list self) (ajt_now self) tid (h_id h) [] (DapTaskConfig_version c)
    = Ok (MkReport (h_metadata h) (h_pub h) (ct0, ct1))) as Hp.
  { unfold produce_report_with_extensions_for_shares. cbv zeta. fold (h_metadata h).
    rewrite Haad, (jo_clients _ JO). cbn [mbind res_bind fst snd]. rewrite E0. cbn [map_err mbind res_bind].
    rewrite C0. cbn [mbind res_bind]. rewrite E1. cbn [map_err mbind res_bind]. by rewrite C1. }
  exists (MkReport (h_metadata h) (h_pub h) (ct0, ct1)). split.
  - unfold job_produce_report, produce_report, produce_report_with_extensions, produce_input_shares.
    rewrite Hs. cbn [map_err mbind res_bind]. by rewrite Hp.
  - assert (required_extensions c = []) as Hext by (unfold required_extensions; by rewrite (jo_method _ JO)).
    rewrite (jo_clients _ JO) in Hp. rewrite <-Hext in Hp, W0, W1.
    destruct (report_reaches_aggregators _ _ _ _ _ _ _ _ _ _ _ _ _ (h_share h) (jo_leader _ JO)
      (jo_helper _ JO) (jo_time _ JO) (jo_time _ JO) W0 W1 Fs Hp) as [R0 R1]. done.
Qed.

Lemma produce_reports_ok (hs : list honest) (rand : nat -> report_rand) :
  Forall ok hs -> (forall i h, hs !! i = Some h -> rand i = h_rand h) ->
  exists reps, produce_reports (E:=DapError) rand self (h_meas <$> hs) = Ok reps /\ Forall2 reported hs reps.
Proof.
  intros Hok. revert rand. induction Hok as [|h hs Hh _ IH]; intros rand Hr; cbn.
  - by exists [].
  - destruct (produce_report_ok h Hh) as (rep & E & R). rewrite (Hr 0%nat h eq_refl), E. cbn [mbind res_bind].
    destruct (IH (fun i => rand (S i))) as (reps & E' & R').
    { intros i h' Hi. by apply (Hr (S i)). }
    change (list_fmap _ _ h_meas hs) with (h_meas <$> hs). rewrite E'. cbn [mbind res_bind].
    eexists. split; [done|]. by constructor.
Qed.

(** ** The Leader's request *)

(** The reports with what they are made from. *)
Abbreviation pairs := (list (honest * Report)).
Definition h_ct (p : honest * Report) : HpkeCiphertext := (Report_encrypted_input_shares p.2).2.

Lemma reported_pairs hs reps :
  Forall2 reported hs reps ->
  exists ps : pairs, ps.*1 = hs /\ ps.*2 = reps /\ Forall (fun p => reported p.1 p.2) ps.
Proof.
  induction 1 as [|h rep hs reps H _ (ps & <- & <- & IH)]; [by exists []|].
  exists ((h, rep) :: ps). split_and!; [done|done|by constructor].
Qed.

Lemma consume_reports_ok (ps : pairs) rp processed :
  Forall (fun p => reported p.1 p.2) ps ->
  NoDup ((fun h => h_id h) <$> ps.*1) -> (forall p, p ∈ ps -> h_id p.1 ∉ processed) ->
  consume_reports leader (job_initializer self) tid c rp processed ps.*2
  = Ok ((fun p => (Consumed_Ready (h_metadata p.1) (h_pub p.1) (h_i0 p.1) None, h_ct p)) <$> ps).
Proof.
  intros Hr. revert processed. induction Hr as [|[h rep] ps (Hm & Hp & Hl & _) _ IH]; intros processed Hnd Hnot;
    [done|]. cbn [fmap list_fmap fst snd] in *. inversion Hnd as [|? ? Hh Hnd']; subst.
  cbn [consume_reports]. rewrite Hm. cbn [h_metadata ReportMetadata_id].
  rewrite bool_decide_eq_false_2 by (apply (Hnot (h, rep)); left). rewrite andb_false_r.
  unfold h_ct at 1. cbn [snd]. destruct (Report_encrypted_input_shares rep) as [ct0 ct1]. cbn [fst snd] in *.
  rewrite Hp, Hl. cbn [mbind res_bind]. change (list_fmap _ _ snd ps) with (ps.*2). rewrite IH; [done|done|].
  intros p Hin [Heq%elem_of_singleton|Hin']%elem_of_union.
  - apply Hh. apply list_elem_of_fmap. exists p.1. split; [done|]. apply list_elem_of_fmap. by exists p.
  - apply (Hnot p); [by right|done].
Qed.

Lemma initialize_all_ok {A} is_leader agg_param (f : A -> EarlyReportStateConsumed) g (l : list A) :
  (forall x, x ∈ l -> EarlyReportStateInitialized_initialize is_leader (DapTaskConfig_vdaf_verify_key c)
    (DapTaskConfig_vdaf c) agg_param (f x) = Ok (g x)) ->
  initialize_all is_leader c agg_param (f <$> l) = Ok (g <$> l).
Proof.
  induction l as [|x l IH]; intros H; [done|]. cbn [fmap list_fmap initialize_all].
  rewrite (H x) by left. cbn [mbind res_bind]. change (list_fmap _ _ f l) with (f <$> l).
  rewrite IH; [done|]. intros y Hy. apply H. by right.
Qed.

Definition h_leader_ready (h : honest) : EarlyReportStateInitialized :=
  Initialized_Ready (h_metadata h) (h_pub h) None (h_s0 h) (h_st0 h).

Definition h_state (h : honest) : AggregationJobReportState :=
  MkAggregationJobReportState (h_st0 h) (ajt_now self) (h_id h).

Definition h_prep_init (p : honest * Report) : PrepareInit :=
  MkPrepareInit (MkReportShare (h_metadata p.1) (h_pub p.1) (h_ct p)) (frame PingPong_Initialize (h_share p.1)).

Lemma initialize_payload_ok h : ok h -> initialize_payload (h_s0 h) = Ok (frame PingPong_Initialize (h_share h)).
Proof.
  intros [_ _ _ Hw _ _ Hfit]. rewrite !Forall_cons in Hfit. destruct Hfit as (_ & _ & _ & Fs & _).
  unfold initialize_payload. apply map_err_Ok.
  rewrite (encode_items_writes W32 _ [h_s0 h] [h_share h]); [|by repeat constructor|].
  - cbn. by rewrite app_nil_r.
  - cbn. by rewrite app_nil_r.
Qed.

Lemma prepare_reports_ok (ps : pairs) m :
  Forall ok ps.*1 ->
  prepare_reports ((fun p => (h_leader_ready p.1, h_ct p)) <$> ps) m
  = (Ok ((fun p => (h_state p.1, h_prep_init p)) <$> ps), m).
Proof.
  induction ps as [|p ps IH]; intros Hok; [done|]. inversion Hok as [|? ? Hp Hps]; subst.
  cbn [fmap list_fmap prepare_reports h_leader_ready]. rewrite (initialize_payload_ok _ Hp).
  unfold mbind, stm_bind, lift. cbn. change (list_fmap _ _ ?f ps) with (f <$> ps).
  by rewrite (IH Hps).
Qed.

Lemma produce_agg_job_req_ok (ps : pairs) rp agg_param m :
  Forall ok ps.*1 -> Forall (fun p => reported p.1 p.2) ps -> NoDup ((fun h => h_id h) <$> ps.*1) ->
  produce_agg_job_req_impl c leader (job_initializer self) tid PBS_TimeInterval agg_param ps.*2 rp m
  = (Ok (MkDapAggregationJobState (h_state <$> ps.*1) PBS_TimeInterval,
         MkAggregationJobInitReq [] PBS_TimeInterval (h_prep_init <$> ps)), m).
Proof.
  intros Hok Hr Hnd. unfold produce_agg_job_req_impl, lift.
  rewrite (consume_reports_ok ps rp ∅ Hr Hnd) by (intros; set_solver).
  unfold mbind at 1, stm_bind at 1. rewrite <-!list_fmap_compose. unfold compose. cbn [fst snd].
  change (initialize_reports (job_initializer self)) with (initialize_all (VO:=VO)).
  rewrite (initialize_all_ok true agg_param _ (fun p => h_leader_ready p.1) ps).
  2:{ intros p Hp. assert (ok p.1) as [_ Hi _ _ _ _ _].
      { rewrite Forall_forall in Hok. apply Hok, list_elem_of_fmap. by exists p. }
      unfold EarlyReportStateInitialized_initialize. cbn [h_metadata ReportMetadata_id]. by rewrite Hi. }
  unfold mbind at 1, stm_bind at 1. unfold len at 1 2. rewrite !length_fmap, N.eqb_refl.
  unfold mbind at 1, stm_bind at 1. rewrite zip_with_fmap_l, zip_with_fmap_r, zip_with_diag.
  unfold mbind at 1, stm_bind at 1. rewrite (prepare_reports_ok ps m Hok).
  unfold mbind at 1, stm_bind at 1. rewrite get_encoded_spec. cbn.
  rewrite <-!list_fmap_compose. done.
Qed.

(** ** The Helper's response *)
Definition h_helper_ready (h : honest) : EarlyReportStateInitialized :=
  Initialized_Ready (h_metadata h) (h_pub h) (Some (h_share h)) (h_s1 h) (h_st1 h).

Lemma consume_prep_inits_ok (ps : pairs) rp processed :
  Forall (fun p => reported p.1 p.2) ps ->
  NoDup ((fun h => h_id h) <$> ps.*1) -> (forall p, p ∈ ps -> h_id p.1 ∉ processed) ->
  consume_prep_inits helper (job_initializer self) tid c rp processed (h_prep_init <$> ps)
  = Ok ((fun p => Consumed_Ready (h_metadata p.1) (h_pub p.1) (h_i1 p.1) (Some (h_share p.1))) <$> ps).
Proof.
  intros Hr. revert processed. induction Hr as [|[h rep] ps (_ & _ & _ & Hh) _ IH]; intros processed Hnd Hnot;
    [done|]. cbn [fmap list_fmap fst snd] in *. inversion Hnd as [|? ? Hin Hnd']; subst.
  cbn [consume_prep_inits].
  rewrite bool_decide_eq_false_2 by (apply (Hnot (h, rep)); left). rewrite andb_false_r.
  rewrite (Hh : EarlyReportStateConsumed_consume _ _ _ _ _ (PrepareInit_report_share (h_prep_init (h, rep)))
    (Some (PrepareInit_payload (h_prep_init (h, rep)))) = _). cbn [mbind res_bind].
  change (list_fmap _ _ h_prep_init ps) with (h_prep_init <$> ps). rewrite IH; [done|done|].
  intros p Hp [Heq%elem_of_singleton|Hin']%elem_of_union.
  - apply Hin. apply list_elem_of_fmap. exists p.1. split; [done|]. apply list_elem_of_fmap. by exists p.
  - apply (Hnot p); [by right|done].
Qed.

Lemma consume_agg_job_req_ok (ps : pairs) rp :
  Forall ok ps.*1 -> Forall (fun p => reported p.1 p.2) ps -> NoDup ((fun h => h_id h) <$> ps.*1) ->
  consume_agg_job_req c helper (job_initializer self) tid
    (MkAggregationJobInitReq [] PBS_TimeInterval (h_prep_init <$> ps)) rp
  = Ok (h_helper_ready <$> ps.*1).
Proof.
  intros Hok Hr Hnd. unfold consume_agg_job_req.
  cbn [AggregationJobInitReq_prep_inits AggregationJobInitReq_agg_param].
  rewrite (consume_prep_inits_ok ps rp ∅ Hr Hnd) by (intros; set_solver). cbn [mbind res_bind].
  rewrite get_decoded_spec. cbn [DapAggregationParam_decode mret mbind res_bind].
  change (initialize_reports (job_initializer self)) with (initialize_all (VO:=VO)).
  rewrite <-list_fmap_compose. apply initialize_all_ok. intros p Hp.
  assert (ok p.1) as [_ _ Hi _ _ _ _].
  { rewrite Forall_forall in Hok. apply Hok, list_elem_of_fmap. by exists p. }
  unfold EarlyReportStateInitialized_initialize. cbn [h_metadata ReportMetadata_id]. by rewrite Hi.
Qed.

(** The bucket of the reports of [h], and what is aggregated for them. *)
Definition h_bucket (h : honest) : DapBatchBucket :=
  Bucket_TimeInterval
    (DapTaskConfig_time_precision c * (ajt_now self / DapTaskConfig_time_precision c))
    (ReportId_shard (h_id h) (DapTaskConfig_num_agg_span_shards c)).

Definition h_item (data : honest -> VdafAggregateShare) (h : honest) : DapBatchBucket * out_share :=
  (h_bucket h, (h_id h, ajt_now self, data h)).

Lemma h_bucket_for h : bucket_for (E:=DapError) c PBS_TimeInterval (h_id h) (ajt_now self) = Ok (h_bucket h).
Proof. unfold bucket_for. by rewrite (quantized_lower_eq c _ (jo_precision _ JO)). Qed.

(** One report is added to a span. *)
Lemma add_item span items data h rest :
  span_represents span items -> len (items ++ h_item data h :: rest) <= u64_max ->
  summable (items ++ h_item data h :: rest).*2 ->
  exists span', DapAggregateSpan_add_out_share span c PBS_TimeInterval (h_id h) (ajt_now self) (data h) = Ok span' /\
    span_represents span' (items ++ [h_item data h]).
Proof.
  intros Hs Hmax Hsum. rewrite (cons_middle (h_item data h) items rest), app_assoc in *.
  apply span_add_represents; [done|by rewrite (jo_query _ JO)|apply h_bucket_for| |].
  - rewrite !len_app in Hmax. unfold len in *. cbn in Hmax. lia.
  - rewrite fmap_app in Hsum. apply summable_app_l, (summable_items (h_bucket h)) in Hsum.
    rewrite items_of_app in Hsum. unfold h_item in Hsum. rewrite items_of_one, decide_True in Hsum by done. done.
Qed.

Definition h_transition (h : honest) : Transition :=
  MkTransition (h_id h) (Continued (frame PingPong_Finish (h_msg h))).

Lemma finish_payload_ok h : ok h -> finish_payload (h_msg h) = Ok (frame PingPong_Finish (h_msg h)).
Proof.
  intros [_ _ _ _ _ _ Hfit]. rewrite !Forall_cons in Hfit. destruct Hfit as (_ & _ & _ & _ & Fm & _).
  unfold finish_payload. apply map_err_Ok.
  exact (encode_bytes_writes W32 u32_max (h_msg h) eq_refl Fm
    [byte_of_N (PingPongMessageType_as_u8 PingPong_Finish)]).
Qed.

Lemma finish_reports_ok (hs : list honest) span items :
  Forall ok hs -> span_represents span items ->
  len (items ++ (h_item h_a1 <$> hs)) <= u64_max -> summable (items ++ (h_item h_a1 <$> hs)).*2 ->
  exists span', finish_reports c ∅ PBS_TimeInterval span (h_helper_ready <$> hs)
    = Ok (span', h_transition <$> hs) /\ span_represents span' (items ++ (h_item h_a1 <$> hs)).
Proof.
  intros Hok. revert span items. induction Hok as [|h hs Hh _ IH]; intros span items Hs Hmax Hsum.
  - exists span. by rewrite app_nil_r.
  - change (h_item h_a1 <$> h :: hs) with (h_item h_a1 h :: (h_item h_a1 <$> hs)) in *.
    destruct (add_item span items h_a1 h _ Hs Hmax Hsum) as (span1 & E & Hs1).
    rewrite (cons_middle (h_item h_a1 h) items), app_assoc in Hmax, Hsum |- *.
    destruct (IH span1 _ Hs1 Hmax Hsum) as (span' & E' & Hs').
    exists span'. split; [|done]. rewrite !fmap_cons. cbn [finish_reports]. unfold finish_report.
    cbn [h_helper_ready Initialized_metadata h_metadata ReportMetadata_id ReportMetadata_time].
    rewrite lookup_empty, (ho_finish1 _ _ _ Hh), E. cbn [mbind res_bind]. rewrite (finish_payload_ok h Hh).
    cbn [mbind res_bind]. by rewrite E'.
Qed.

(** ** The Leader's span *)
Lemma consume_transitions_ok (hs : list honest) span items m :
  Forall ok hs -> span_represents span items ->
  len (items ++ (h_item h_a0 <$> hs)) <= u64_max -> summable (items ++ (h_item h_a0 <$> hs)).*2 ->
  exists span', consume_transitions c tid PBS_TimeInterval span (zip (h_transition <$> hs) (h_state <$> hs)) m
    = (Ok span', m) /\ span_represents span' (items ++ (h_item h_a0 <$> hs)).
Proof.
  intros Hok. revert span items. induction Hok as [|h hs Hh _ IH]; intros span items Hs Hmax Hsum.
  - exists span. by rewrite app_nil_r.
  - change (h_item h_a0 <$> h :: hs) with (h_item h_a0 h :: (h_item h_a0 <$> hs)) in *.
    destruct (add_item span items h_a0 h _ Hs Hmax Hsum) as (span1 & E & Hs1).
    rewrite (cons_middle (h_item h_a0 h) items), app_assoc in Hmax, Hsum |- *.
    destruct (IH span1 _ Hs1 Hmax Hsum) as (span' & E' & Hs').
    exists span'. split; [|done]. rewrite !fmap_cons. cbn [zip zip_with consume_transitions].
    cbn [h_transition h_state Transition_report_id Transition_var AJRS_report_id AJRS_prep_state AJRS_time].
    rewrite bool_decide_eq_true_2 by done. cbn [negb].
    pose proof (ho_fit _ _ _ Hh) as Hfit. rewrite !Forall_cons in Hfit. destruct Hfit as (_ & _ & _ & _ & Fm & _).
    rewrite (decode_frame PingPong_Finish _ Fm), (ho_finish0 _ _ _ Hh), E.
    unfold mbind, stm_bind, lift. exact E'.
Qed.

Lemma job_handle_agg_job_req_ok (ps : pairs) :
  Forall ok ps.*1 -> Forall (fun p => reported p.1 p.2) ps -> NoDup ((fun h => h_id h) <$> ps.*1) ->
  len ps <= u64_max -> summable (h_item h_a1 <$> ps.*1).*2 ->
  exists span, job_handle_agg_job_req (E:=DapError) self
      (MkAggregationJobInitReq [] PBS_TimeInterval (h_prep_init <$> ps))
    = Ok (span, MkAggregationJobResp (h_transition <$> ps.*1)) /\
    span_represents span (h_item h_a1 <$> ps.*1).
Proof.
  intros Hok Hr Hnd Hmax Hsum. unfold job_handle_agg_job_req.
  rewrite (consume_agg_job_req_ok ps _ Hok Hr Hnd). cbn [unwrap_res mbind res_bind].
  destruct (finish_reports_ok ps.*1 ∅ [] Hok span_represents_empty) as (span & E & Hs); [|done|].
  { cbn [app]. unfold len in *. by rewrite !length_fmap. }
  exists span. split; [|done]. unfold produce_agg_job_resp. cbn [AggregationJobInitReq_part_batch_sel].
  by rewrite E.
Qed.

Lemma job_consume_agg_job_resp_ok (hs : list honest) m :
  Forall ok hs -> len hs <= u64_max -> summable (h_item h_a0 <$> hs).*2 ->
  exists span, job_consume_agg_job_resp (E:=DapError) self
      (MkDapAggregationJobState (h_state <$> hs) PBS_TimeInterval)
      (MkAggregationJobResp (h_transition <$> hs)) m = (Ok span, m) /\
    span_represents span (h_item h_a0 <$> hs).
Proof.
  intros Hok Hmax Hsum. unfold job_consume_agg_job_resp, unwrap_stm, consume_agg_job_resp.
  cbn [AggregationJobResp_transitions DapAggregationJobState_seq DapAggregationJobState_part_batch_sel].
  unfold len at 1 2. rewrite !length_fmap, N.eqb_refl. cbn [negb].
  destruct (consume_transitions_ok hs ∅ [] m Hok span_represents_empty) as (span & E & Hs); [|done|].
  { cbn [app]. unfold len in *. by rewrite length_fmap. }
  exists span. by rewrite E.
Qed.

(** ** Aggregate shares *)
Abbreviation selector := (BS_TimeInterval (MkInterval (ajt_now self) 3600)).

Lemma encrypted_share_ok seed is_leader agg_param share d e :
  DapAggregateShare_data share = Some d -> get_encoded VdafAggregateShare_encode d = Ok e ->
  len e <= aead_max ->
  exists ct, produce_encrypted_agg_share seed is_leader
    (HpkeReceiverConfig_config (ajt_collector_hpke_receiver_config self)) tid selector agg_param share
    (DapTaskConfig_version c) = Ok ct.
Proof.
  intros Hd He Hlen. unfold produce_encrypted_agg_share. rewrite Hd. cbn [ok_or mbind res_bind].
  rewrite He. cbn [map_err mbind res_bind].
  destruct (agg_share_aad_ok (DapTaskConfig_version c) tid agg_param _ (jo_now _ JO)) as (aad & ->).
  cbn [mbind res_bind]. by apply encrypt_ok; [apply (jo_collector _ JO)|].
Qed.

Lemma item_data data (hs : list honest) : out_data <$> (h_item data <$> hs).*2 = data <$> hs.
Proof. by rewrite <-!list_fmap_compose. Qed.

(** What the collapsed span of a party holds. *)
Lemma collapsed_data span data (hs : list honest) d :
  span_represents span (h_item data <$> hs) -> len hs <= u64_max -> data_sum (data <$> hs) = Ok (Some d) ->
  DapAggregateSpan_report_count span = len hs /\
  exists s, DapAggregateSpan_collapsed span = Ok s /\ DapAggregateShare_data s = Some d.
Proof.
  intros Hs Hmax Hd. destruct (collapsed_represents span _ Hs) as (Hc & s & E & [_ _ _ Hr]).
  - unfold len in *. by rewrite length_fmap.
  - exists (Some d). by rewrite item_data.
  - split; [rewrite Hc; unfold len; by rewrite length_fmap|]. exists s. split; [done|].
    rewrite item_data, Hd in Hr. by injection Hr.
Qed.

Lemma roundtrip_ok (hs : list honest) rand seeds agg_param d0 d1 e0 e1 r m :
  Forall ok hs -> (forall i h, hs !! i = Some h -> rand i = h_rand h) ->
  NoDup ((fun h => h_id h) <$> hs) -> len hs <= u64_max ->
  data_sum (h_a0 <$> hs) = Ok (Some d0) -> data_sum (h_a1 <$> hs) = Ok (Some d1) ->
  get_encoded VdafAggregateShare_encode d0 = Ok e0 -> len e0 <= aead_max ->
  get_encoded VdafAggregateShare_encode d1 = Ok e1 -> len e1 <= aead_max ->
  vdaf_unshard (DapTaskConfig_vdaf c) (len hs) [e0; e1] = Ok r ->
  roundtrip rand seeds self agg_param (h_meas <$> hs) m = (Ok r, m).
Proof.
  intros Hok Hrand Hnd Hmax Hd0 Hd1 He0 Hl0 He1 Hl1 Hu.
  destruct (produce_reports_ok hs rand Hok Hrand) as (reps & Er & Hr).
  destruct (reported_pairs hs reps Hr) as (ps & <- & <- & Hps).
  assert (len ps <= u64_max) as Hmax' by (unfold len in *; by rewrite length_fmap in Hmax).
  destruct (job_handle_agg_job_req_ok ps Hok Hps Hnd Hmax') as (hspan & Eh & Hh).
  { exists (Some d1). by rewrite item_data. }
  destruct (job_consume_agg_job_resp_ok ps.*1 m Hok Hmax) as (lspan & El & Hl).
  { exists (Some d0). by rewrite item_data. }
  destruct (collapsed_data lspan h_a0 _ d0 Hl Hmax Hd0) as (Hcount & s0 & Es0 & D0).
  destruct (collapsed_data hspan h_a1 _ d1 Hh Hmax Hd1) as (_ & s1 & Es1 & D1).
  destruct (encrypted_share_ok seeds.1 true agg_param s0 d0 e0 D0 He0 Hl0) as (ct0 & C0).
  destruct (encrypted_share_ok seeds.2 false agg_param s1 d1 e1 D1 He1 Hl1) as (ct1 & C1).
  pose proof (collector_recovers_shares c seeds.1 seeds.2 _ tid selector agg_param s0 s1 d0 d1 e0 e1 _
    (len ps.*1) ct0 ct1 (jo_collector _ JO) D0 D1 He0 He1 C0 C1) as Hcoll.
  unfold roundtrip, job_produce_agg_job_req, unwrap_stm, job_produce_leader_encrypted_agg_share,
    job_produce_helper_encrypted_agg_share, job_consume_encrypted_agg_shares,
    produce_leader_encrypted_agg_share, produce_helper_encrypted_agg_share.
  rewrite (jo_collector_config _ JO), Er. unfold mbind, stm_bind, lift.
  rewrite (produce_agg_job_req_ok ps _ agg_param m Hok Hps Hnd). cbn [unwrap_res].
  rewrite Eh, El, Es0, C0. cbn [unwrap_res]. rewrite Es1, C1, Hcount. cbn [unwrap_res].
  by rewrite Hcoll, Hu.
Qed.
End Parties.

(** The draws of a run, as a list of its reports. *)
Lemma honest_list config key (rand : nat -> report_rand) ms (shares : list (VdafAggregateShare * VdafAggregateShare)) :
  length shares = length ms ->
  (forall i m a, ms !! i = Some m -> shares !! i = Some a ->
     dap_run config key (rr_shard (rand i)) m (rr_report_id (rand i)) a.1 a.2) ->
  exists hs, Forall (honest_ok config key) hs /\ h_meas <$> hs = ms /\
    (forall i h, hs !! i = Some h -> rand i = h_rand h) /\
    h_a0 <$> hs = shares.*1 /\ h_a1 <$> hs = shares.*2 /\
    (fun h => h_id h) <$> hs = (fun i => rr_report_id (rand i)) <$> seq 0 (length ms).
Proof.
  revert rand shares. induction ms as [|m ms IH]; intros rand [|a shares] Hlen Hrun; try done.
  - by exists [].
  - destruct (dap_run_honest _ _ (rand 0%nat) m a.1 a.2 (Hrun 0%nat m a eq_refl eq_refl))
      as (h & Hh & Hr & Hm & H0 & H1).
    destruct (IH (fun i => rand (S i)) shares) as (hs & Hhs & Hms & Hrs & H0s & H1s & Hids).
    { by injection Hlen. }
    { intros i m' a' Hi Ha. by apply (Hrun (S i)). }
    exists (h :: hs). rewrite !fmap_cons, Hm, Hms, H0, H0s, H1, H1s. split_and!; try done.
    + by constructor.
    + intros [|i] h' Hi; [by injection Hi as <-|by apply Hrs].
    + cbn [length seq fmap list_fmap]. rewrite Hr. f_equal. rewrite Hids, <-seq_shift.
      by rewrite <-list_fmap_compose.
Qed.

(** The flow, for parties that [new] set up. *)
Lemma roundtrip_returns self (rand : nat -> report_rand) seeds agg_param ms
    (shares : list (VdafAggregateShare * VdafAggregateShare)) d0 d1 e0 e1 r m :
  job_ok self -> length shares = length ms -> len ms <= u64_max ->
  (forall i x a, ms !! i = Some x -> shares !! i = Some a ->
     dap_run (DapTaskConfig_vdaf (ajt_task_config self)) (DapTaskConfig_vdaf_verify_key (ajt_task_config self))
       (rr_shard (rand i)) x (rr_report_id (rand i)) a.1 a.2) ->
  NoDup ((fun i => rr_report_id (rand i)) <$> seq 0 (length ms)) ->
  data_sum shares.*1 = Ok (Some d0) -> data_sum shares.*2 = Ok (Some d1) ->
  get_encoded VdafAggregateShare_encode d0 = Ok e0 -> len e0 <= aead_max ->
  get_encoded VdafAggregateShare_encode d1 = Ok e1 -> len e1 <= aead_max ->
  vdaf_unshard (DapTaskConfig_vdaf (ajt_task_config self)) (len ms) [e0; e1] = Ok r ->
  roundtrip rand seeds self agg_param ms m = (Ok r, m).
Proof.
  intros JO Hlen Hmax Hrun Hnd Hd0 Hd1 He0 Hl0 He1 Hl1 Hu.
  destruct (honest_list _ _ _ _ _ Hlen Hrun) as (hs & Hok & Hms & Hrs & H0 & H1 & Hids).
  assert (len ms = len hs) as El by (unfold len; by rewrite <-Hms, length_fmap).
  rewrite <-Hms. eapply (roundtrip_ok self JO hs rand seeds agg_param d0 d1 e0 e1); try done.
  - by rewrite Hids.
  - by rewrite <-El.
  - by rewrite H0.
  - by rewrite H1.
  - by rewrite <-El.
Qed.

(** C3: the whole flow computes the aggregate result. When a task is set up for the
    measurements [ms], every report is one whose preparation ends with the output shares
    [shares], no two have the same ID, and the VDAF unshards the encoded sums of the output
    shares to [r], then the flow from the Clients over the two Aggregators to the Collector
    returns [r]: no step fails or panics, and no report is rejected. *)
Theorem roundtrip_exact new_rand now vdaf kem_id version (rand : nat -> report_rand) seeds agg_param ms
    (shares : list (VdafAggregateShare * VdafAggregateShare)) d0 d1 e0 e1 r m :
  kem_id = P256HkdfSha256 \/ kem_id = X25519HkdfSha256 -> 60 <= now -> now + 500 <= u64_max ->
  length shares = length ms -> len ms <= u64_max ->
  (forall i x a, ms !! i = Some x -> shares !! i = Some a ->
     dap_run vdaf (gen_verify_key (nr_verify_key new_rand) vdaf) (rr_shard (rand i)) x
       (rr_report_id (rand i)) a.1 a.2) ->
  NoDup ((fun i => rr_report_id (rand i)) <$> seq 0 (length ms)) ->
  data_sum shares.*1 = Ok (Some d0) -> data_sum shares.*2 = Ok (Some d1) ->
  get_encoded VdafAggregateShare_encode d0 = Ok e0 -> len e0 <= aead_max ->
  get_encoded VdafAggregateShare_encode d1 = Ok e1 -> len e1 <= aead_max ->
  vdaf_unshard vdaf (len ms) [e0; e1] = Ok r ->
  exists self, AggregationJobTest_new (E:=DapError) new_rand now vdaf kem_id version = Ok self /\
    roundtrip rand seeds self agg_param ms m = (Ok r, m).
Proof.
  intros Hkem Hlo Hhi Hlen Hmax Hrun Hnd Hd0 Hd1 He0 Hl0 He1 Hl1 Hu.
  destruct (new_ok new_rand now vdaf kem_id version Hkem Hlo Hhi) as (self & Hnew & JO & Hv & Hk).
  exists self. split; [done|]. rewrite <-Hk, <-Hv in Hrun. rewrite <-Hv in Hu.
  by eapply (roundtrip_returns self rand seeds agg_param ms shares d0 d1 e0 e1).
Qed.
End Flow.

(** ** With PINE *)

Section PineFlow.
Context `{BP : BuildProfile} `{PC : PrioCodec} {L : PrioCodecLaws PC}.
Context `{PA : PrioAgg} {AL : PrioAggLaws PA} `{PV : !PrioVec} `{VS : !PrioVdafs}.
Context `{P32 : !PineBackend FieldPrio2} `{P64 : !PineBackend Field64}.
Context `{D : Digest} {DL : DigestLaws D} `{HC : HpkeCrypto} {HL : HpkeCryptoLaws HC} {HS : HpkeSeals HC}.

(** Merging shares one after the other computes their sum. *)
Lemma merge_shares_sum l0 acc l d :
  data_sum l0 = Ok acc -> merge_shares acc l = Ok d -> data_sum (l0 ++ l) = Ok d.
Proof.
  revert l0 acc. induction l as [|x l IH]; intros l0 acc H0 H; cbn [merge_shares] in H.
  - injection H as <-. by rewrite app_nil_r.
  - apply bind_Ok in H as (acc' & Hx & H). rewrite (cons_middle x l0 l), app_assoc.
    apply (IH _ acc'); [|done]. apply data_sum_app. exists acc, (Some x).
    split_and!; [done|apply merge_data_None_r|done].
Qed.

(** The reports of the gradients, with the randomness of the Clients. *)
Definition drawn_reports (rand : nat -> report_rand) (gradients : list (list f64)) : list dap_report :=
  imap (fun i g => MkDapReport (rr_shard (rand i)) g (rr_report_id (rand i))) gradients.

Lemma drawn_lookup rand gradients i g :
  gradients !! i = Some g ->
  drawn_reports rand gradients !! i = Some (MkDapReport (rr_shard (rand i)) g (rr_report_id (rand i))).
Proof. intros H. unfold drawn_reports. by rewrite list_lookup_imap, H. Qed.

(** C37: PINE end to end, over either field, for an instance with less than 31 fractional bits whose
    messages fit their length prefixes.  There are [n] reports, one or more, of gradients whose
    coordinates, in units of [2^-frac_bits], are at most [B] in magnitude, with [(n + 1) * B] below
    [2^53] and below half of the modulus.  Every Client draws enough bytes, sharding succeeds (a
    gradient whose norm is too large, or with too few successful wraparound tests, is refused
    there), the randomness of the queries is good for the proof system, and no two reports have the
    same ID.  On a proof system, XOF, HPKE and field that do what their packages document, the whole
    flow, from the Clients' uploads over the preparation by both Aggregators and their encrypted
    aggregate shares to the Collector, returns exactly the sum of the gradients rounded down to the
    units. *)
Theorem pine_roundtrip config f (PB : PineBackend f) param id as_agg pine
    {G1 G2 : Type} `{GA1 : !Gadget (H:=pb_field (f:=f)) G1} `{GA2 : !Gadget (H:=pb_field (f:=f)) G2}
    good B new_rand now kem_id version (rand : nat -> report_rand) seeds agg_param gradients vss m :
  pine_at config f PB param id as_agg ->
  PineBackendLaws f PB -> PrioFieldLaws (pb_field (f:=f)) -> XofLaws (pb_xof (f:=f)) ->
  PineParam_wf param -> Pine_new (felem_field (PrioField:=pb_field (f:=f))) param id = Ok pine ->
  pine_flps (PF:=pb_field (f:=f)) (G1:=G1) (G2:=G2) pine good ->
  pine_circuits (G1:=G1) (G2:=G2) (Pine_flp pine) (Pine_flp_sq_norm_equal pine) ->
  pine_total (PF:=pb_field (f:=f)) pine -> messages_fit (PF:=pb_field (f:=f)) pine -> PineType_frac_bits (Pine_flp pine) < 31 ->
  kem_id = P256HkdfSha256 \/ kem_id = X25519HkdfSha256 -> 60 <= now -> now + 500 <= u64_max ->
  len (nr_verify_key new_rand) = 32 -> gradients <> [] -> len gradients <= u64_max ->
  Forall (dap_sharded (PF:=pb_field (f:=f)) pine good (nr_verify_key new_rand)) (drawn_reports rand gradients) ->
  NoDup ((fun i => rr_report_id (rand i)) <$> seq 0 (length gradients)) ->
  (0 <= B)%Z -> (Z.of_nat (S (length gradients)) * B < 2 ^ 53)%Z ->
  (2 * (Z.of_nat (S (length gradients)) * B)
     < Z.of_N (Field_modulus (felem_field (PrioField:=pb_field (f:=f)))))%Z ->
  Forall2 (fun g v => Forall2 (fixed_point (PineType_frac_bits (Pine_flp pine))) g v /\
    Forall (fun x => Z.abs x <= B)%Z v) gradients vss ->
  exists self ys,
    AggregationJobTest_new (E:=DapError) new_rand now (Vdaf.Pine config) kem_id version = Ok self /\
    roundtrip rand seeds self agg_param (Meas_F64Vec <$> gradients) m = (Ok (Result_F64Vec ys), m) /\
    Forall2 (fun y v => scaled_is y (PineType_frac_bits (Pine_flp pine)) v) ys
      (sum_vectors (N.to_nat (PineType_dimension (Pine_flp pine))) vss).
Proof.
  intros At BL PL XL W Hnew LF Hcirc HT Hfit Hk Hkem Hlo Hhi Hkey Hne Hmax Hr Hnd HB Hb Hm Hv.
  assert (length (drawn_reports rand gradients) = length gradients) as Hlen by apply length_imap.
  destruct (pine_dap_batch config f PB param id as_agg pine good (nr_verify_key new_rand)
    (L32 (nr_verify_key new_rand)) B (len gradients) (drawn_reports rand gradients) vss At BL PL XL W
    Hnew LF Hcirc HT Hfit Hk)
    as (shares & d0 & d1 & e0 & e1 & ys & Hrun & M0 & M1 & E0 & L0 & E1 & L1 & Hu & Hs);
    [| |done|done|by rewrite Hlen|by rewrite Hlen| |].
  - cbn. unfold array_try_from. by rewrite Hkey.
  - intros E. apply (f_equal length) in E. rewrite Hlen in E. by destruct gradients.
  - apply Forall2_lookup. intros i. pose proof (proj1 (Forall2_lookup _ _ _) Hv i) as Hi.
    unfold drawn_reports. rewrite list_lookup_imap. by destruct Hi; constructor.
  - destruct (new_ok new_rand now (Vdaf.Pine config) kem_id version Hkem Hlo Hhi) as (self & E & JO & Hvd & Hkd).
    exists self, ys. split_and!; [done| |done].
    eapply (roundtrip_returns (VO:=dispatch) self rand seeds agg_param (Meas_F64Vec <$> gradients) shares
      d0 d1 e0 e1 (Result_F64Vec ys) m);
      rewrite ?Hvd, ?Hkd; try done.
    + apply Forall2_length in Hrun. by rewrite length_fmap, <-Hlen.
    + unfold len in *. by rewrite length_fmap.
    + intros i x a Hx Ha. apply list_lookup_fmap_Some in Hx as (g & -> & Hg).
      by pose proof (Forall2_lookup_lr _ _ _ _ _ _ Hrun (drawn_lookup rand gradients i g Hg) Ha).
    + by rewrite length_fmap.
    + by apply (merge_shares_sum [] None).
    + by apply (merge_shares_sum [] None).
    + unfold aead_max, u32_max in *. lia.
    + unfold aead_max, u32_max in *. lia.
Qed.
End PineFlow.
