(* ===== verification/Acceptance.v ===== *)
(** * The acceptance test of a Helper

    [src/crates/dapf/src/acceptance/]: a test that plays the Clients and the Leader of a task
    it advertises itself, against a Helper behind HTTP; the parameters of such a task
    ([DapTaskParameters] of [src/crates/daphne/src/lib.rs]) and the generator of its reports
    ([src/crates/daphne/src/testing/report_generator.rs]).

    The state of a test is the network, the metrics it counts and the report it may replay,
    which is a static of the process.  Randomness is an argument.  The jobs of a batch are
    futures that run together: each gets ready, waits for the others at a barrier, and sends
    its request.  Here all get ready, and those the barrier lets go ([released]) then go on one
    after the other; a batch whose last jobs are never let go does not end ([None]).  The
    durations the test measures are not modelled. *)

From S2P Require Import Prelude Codec Messages TaskprovMessages Errors Config AggShare Hpke.
From S2P Require Import Protocol ProtocolCorrect Pine Taskprov LeaderState InMemory Leader Auth Server Router.
From S2P Require Import JobTest DurableStore VdafDispatch Dapf.

(** [hex::decode] *)
Class HexDecode : Type := hex_decode : string -> option (list byte).

(** [VdafConfig::gen_measurement] *)
Class GenMeasurement `{VdafOps} : Type := gen_measurement : Vdaf.VdafConfig -> res DapError DapMeasurement.

(** ** The parameters of a task *)
Record DapTaskParameters : Type := MkDapTaskParameters {
  DapTaskParameters_version : DapVersion;
  DapTaskParameters_leader_url : Url;
  DapTaskParameters_helper_url : Url;
  DapTaskParameters_time_precision : Duration;
  DapTaskParameters_lifetime : Duration;
  DapTaskParameters_min_batch_size : N;
  DapTaskParameters_query : DapQueryConfig;
  DapTaskParameters_vdaf : Vdaf.VdafConfig;
  DapTaskParameters_num_agg_span_shards : N;
}.

(** ** Control of the load *)
Record LoadControlStride : Type := MkLoadControlStride { stride_len : N; stride_wait_millis : N }.

Record LoadControlParams : Type := MkLoadControlParams {
  max_concurrent_requests : option N;
  min_requests_before_starting : N;
  stride : option LoadControlStride;
}.

Definition max_requests_before_starting {E} (reports_per_batch reports_per_agg_job : N) : res E N :=
  q ← u64_div reports_per_batch reports_per_agg_job;
  Ok (q + (if reports_per_batch mod reports_per_agg_job =? 0 then 0 else 1)).

(** [LoadControlParamsCli::into_params]; the waiting time is in milliseconds. *)
Definition into_params {E} (stride_wait_time stride_length min_requests max_concurrent : option N)
    (reports_per_agg_job reports_per_batch : N) : res E LoadControlParams :=
  min_requests ← match min_requests with
                 | Some n => Ok n
                 | None => max_requests_before_starting reports_per_batch reports_per_agg_job
                 end;
  Ok (MkLoadControlParams max_concurrent min_requests
        match stride_length, stride_wait_time with
        | Some len, Some wait_time => Some (MkLoadControlStride len wait_time)
        | Some len, None => Some (MkLoadControlStride len 1000)
        | None, _ => None
        end).

(** [tokio::sync::Barrier]: [wait] of one more task, when [waiting] wait already.  The [n]-th lets
    all go; a barrier for no task is one for one. *)
Definition barrier_wait (n waiting : N) : N * N :=
  if N.max 1 n <=? waiting + 1 then (0, waiting + 1) else (waiting + 1, 0).

(** How many tasks are let go when [jobs] arrive, and how many are left waiting *)
Fixpoint barrier_run (n : N) (jobs : nat) (waiting : N) : N * N :=
  match jobs with
  | O => (0, waiting)
  | S jobs =>
      let '(waiting, gone) := barrier_wait n waiting in
      let '(rest, waiting) := barrier_run n jobs waiting in (gone + rest, waiting)
  end.

(** How many of [jobs] get through [LoadControl::wait].  A semaphore without permits lets none
    go; with one it is acquired by each in turn. *)
Definition released (lc : LoadControlParams) (jobs : nat) : nat :=
  match max_concurrent_requests lc with
  | Some 0 => 0%nat
  | _ => N.to_nat (barrier_run (min_requests_before_starting lc) jobs 0).1
  end.

(** The time in milliseconds the [id]-th job sleeps; [Duration * u32] *)
Definition stride_sleep {E} (lc : LoadControlParams) (id : N) : res E N :=
  match stride lc with
  | None => Ok 0
  | Some (MkLoadControlStride len wait_time) =>
      batch_number ← u64_div id len;
      if u32_max <? batch_number then Panic
      else if u64_max <? wait_time * batch_number / 1000 then Panic
      else Ok (wait_time * batch_number)
  end.

(** [(0..(total / chunk_length)).map(|_| chunk_length).chain(..)] *)
Definition distribute_reports_in_chunks {E} (total chunk_length : N) : res E (list N) :=
  if total <? chunk_length then Panic
  else
    q ← u64_div total chunk_length;
    Ok (replicate (N.to_nat q) chunk_length ++
        (if 0 <? total mod chunk_length then [total mod chunk_length] else [])).

(** ** The load test: [load_testing.rs] *)
Record MeasurementParameters : Type := MkMeasurementParameters {
  mp_reports_per_batch : N;
  mp_reports_per_agg_job : N;
  mp_vdaf_config : Vdaf.VdafConfig;
}.

Definition reports_per_batch_params : list N := [500; 1000; 10000].
Definition jobs_per_batch : list N := [1; 10; 20; 30; 40; 50; 100].

Definition vdaf_config_params : list Vdaf.VdafConfig :=
  [Vdaf.Prio2 99992;
   Vdaf.Prio3 (Prio3_SumVecField64MultiproofHmacSha256Aes128 1 100000 320 2);
   Vdaf.Prio3 (Prio3_SumVecField64MultiproofHmacSha256Aes128 1 100000 320 3)].

Definition measurement_parameters : list MeasurementParameters :=
  List.filter (fun params => mp_reports_per_agg_job params <=? mp_reports_per_batch params)
    (flat_map (fun '(reports_per_batch, vdaf_config) =>
        map (fun jobs_per_batch =>
          MkMeasurementParameters reports_per_batch (reports_per_batch / jobs_per_batch) vdaf_config) jobs_per_batch)
      (flat_map (fun vdaf_config => map (fun reports_per_batch => (reports_per_batch, vdaf_config)) reports_per_batch_params)
        vdaf_config_params)).

(** The control of the load for one combination, in [execute_multiple_combinations] *)
Definition combination_load {E} (lc : LoadControlParams) (params : MeasurementParameters) : res E LoadControlParams :=
  q ← u64_div (mp_reports_per_batch params) (mp_reports_per_agg_job params);
  Ok (MkLoadControlParams (max_concurrent_requests lc) (N.max (min_requests_before_starting lc) q) (stride lc)).

(** ** The durations of runs: [test_durations.rs], [load_testing.rs] *)

(** A [std::time::Duration], in nanoseconds; its seconds have 64 bits. *)
Definition duration_max : N := u64_max * 1000000000 + 999999999.

Definition duration_add {E} (a b : N) : res E N := if a + b <=? duration_max then Ok (a + b) else Panic.

Record TestDurations : Type := MkTestDurations {
  hpke_config_fetch : N;
  aggregate_init_req : N;
  aggregate_share_req : N;
}.

Definition TestDurations_default : TestDurations := MkTestDurations 0 0 0.

Definition TestDurations_add {E} (self rhs : TestDurations) : res E TestDurations :=
  a ← duration_add (hpke_config_fetch self) (hpke_config_fetch rhs);
  b ← duration_add (aggregate_init_req self) (aggregate_init_req rhs);
  c ← duration_add (aggregate_share_req self) (aggregate_share_req rhs);
  Ok (MkTestDurations a b c).

Definition TestDurations_div {E} (self : TestDurations) (rhs : N) : res E TestDurations :=
  a ← u64_div (hpke_config_fetch self) rhs;
  b ← u64_div (aggregate_init_req self) rhs;
  c ← u64_div (aggregate_share_req self) rhs;
  Ok (MkTestDurations a b c).

Definition total_service_time {E} (self : TestDurations) : res E N :=
  s ← duration_add (hpke_config_fetch self) (aggregate_init_req self);
  duration_add s (aggregate_share_req self).

(** The [fold] of [average]: the total and the number, which has 32 bits *)
Fixpoint durations_total {E} (l : list TestDurations) (total : TestDurations) (count : N) :
    res E (TestDurations * N) :=
  match l with
  | [] => Ok (total, count)
  | t :: l => total ← TestDurations_add total t; durations_total l total (count + 1)
  end.

Definition average {E} (l : list TestDurations) : res E (option TestDurations) :=
  '(total, count) ← durations_total l TestDurations_default 0;
  if 0 <? count then avg ← TestDurations_div total count; Ok (Some avg) else Ok None.

(** The [fold] of [measurements_of]: least, sum, greatest and number *)
Fixpoint fold_measurements {E} (l : list N) (acc : option N * N * N * N) : res E (option N * N * N * N) :=
  match l with
  | [] => Ok acc
  | time :: l =>
      let '(min, sum, max, count) := acc in
      sum ← duration_add sum time;
      fold_measurements l (Some (N.min time (default time min)), sum, N.max max time, count + 1)
  end.

(** [tests] are the durations, or [None] for a run that failed. *)
Definition measurements_of {E} (mapper : TestDurations -> N) (tests : list (option TestDurations)) :
    res E (N * N * N) :=
  '(min, sum, max, count) ← fold_measurements (mapper <$> omap id tests) (None, 0, 0, 0);
  Ok (default 0 min, if count =? 0 then 0 else sum / count, max).

Definition success_rate (tests : list (option TestDurations)) : N :=
  len (List.filter (fun t => match t with Some _ => true | None => false end) tests).

(** ** The state of a test *)
Inductive test_event : Type :=
| report_counter_inc (status : ReportStatus) (val : N)
| test_success_set (using_mtls using_bearer_token success : bool).

Record acceptance (W : Type) : Type := MkAcceptance {
  acc_net : W;
  acc_events : list test_event;
  (** [LAST_REPORT] of the generator, a static *)
  acc_last_report : option Report;
}.
Arguments MkAcceptance {W}. Arguments acc_net {W}. Arguments acc_events {W}. Arguments acc_last_report {W}.

(** [impl DaphneMetrics for TestMetrics] *)
Definition counted (e : metric_event) : list test_event :=
  match e with report_inc_by status val => [report_counter_inc status val] | _ => [] end.

Record Test : Type := MkTest {
  t_helper_url : Url;
  t_bearer_token : option BearerToken;
  t_vdaf_verify_init : list byte;
  t_using_mtls : bool;
  t_vdaf_config : Vdaf.VdafConfig;
  t_hpke_signing_certificate_path : option string;
  t_load_control : LoadControlParams;
  t_replay_reports : bool;
}.

Record TestTaskConfig : Type := MkTestTaskConfig {
  ttc_task_id : TaskId;
  ttc_hpke_config_list : HpkeConfig * HpkeConfig;
  ttc_fake_leader_hpke_receiver_config : HpkeReceiverConfig;
  ttc_task_config : DapTaskConfig;
  ttc_taskprov_advertisement : option string;
}.

Section Acceptance.
Context `{BP : BuildProfile} `{PC : PrioCodec} `{PA : PrioAgg} `{VO : !VdafOps} `{Dg : Digest}
  `{HC : HpkeCrypto} `{HK : Hkdf} `{B64 : Base64} `{UP : UrlParser} `{UJ : UrlJoin} `{US : UrlSegments}
  `{PF : PineFields} `{AX : Axum} `{WP : Webpki} `{PJ : ProblemJson} `{HD : HexDecode} `{GM : !GenMeasurement}.
Context {W : Type} `{HT : !HttpClient W}.

Record TestOptions : Type := MkTestOptions {
  opt_reports_per_batch : N;
  opt_reports_per_agg_job : N;
  opt_measurement : option DapMeasurement;
  opt_helper_hpke_config : option HpkeConfig;
}.

Definition TestOptions_default : TestOptions := MkTestOptions 50 17 None None.

Definition Test_new (helper_url : Url) (vdaf_verify_init : string) (using_mtls : bool)
    (vdaf_config : Vdaf.VdafConfig) (load_control : LoadControlParams) (replay_reports : bool) : res anyhow Test :=
  bytes ← ok_or (hex_decode vdaf_verify_init) (Text "vdaf_verify_init is not encoded in valid hex");
  if negb (len bytes =? 32) then
    Err (Fmt "incorrect length of vdaf verify init: got {}; want 32" [ArgNum (len bytes)])
  else Ok (MkTest helper_url None bytes using_mtls vdaf_config None load_control replay_reports).

(** [from_env]; the variables are arguments. *)
Definition Test_from_env (replay_reports leader_bearer_token vdaf_verify_init : option string)
    (helper_url : Url) (vdaf_config : Vdaf.VdafConfig) (hpke_signing_certificate_path : option string)
    (using_mtls : bool) (load_control : LoadControlParams) : res anyhow Test :=
  let replay := match replay_reports with Some s => String.eqb s "1" | None => false end in
  vdaf_verify_init ← ok_or vdaf_verify_init (Fmt "failed to load {VDAF_VERIFY_INIT_VAR}" [ArgOpaque]);
  test ← Test_new helper_url vdaf_verify_init using_mtls vdaf_config load_control replay;
  Ok (MkTest (t_helper_url test) (MkBearerToken <$> leader_bearer_token) (t_vdaf_verify_init test)
        (t_using_mtls test) (t_vdaf_config test) hpke_signing_certificate_path (t_load_control test)
        (t_replay_reports test)).

(** A call that counts metrics, and one that uses the network *)
Definition acc_counts {A} (context : string) (m : stm metrics DapError A) : stm (acceptance W) anyhow A := fun s =>
  let '(r, events) := m [] in
  (map_err (fun _ => Text context) r,
   MkAcceptance (acc_net s) (acc_events s ++ events ≫= counted) (acc_last_report s)).

Definition acc_call {A} (m : stm W anyhow A) : stm (acceptance W) anyhow A := fun s =>
  let '(r, w) := m (acc_net s) in (r, MkAcceptance w (acc_events s) (acc_last_report s)).

(** ** [DapTaskParameters::to_config_with_taskprov] *)

(** The advertised configuration *)
Definition parameters_message (self : DapTaskParameters) (task_info : list byte) (now : Time) :
    res DapError TaskConfig :=
  min_batch_size ← unwrap (if DapTaskParameters_min_batch_size self <=? u32_max
                           then Some (DapTaskParameters_min_batch_size self) else None);
  query_var ← QueryConfigVar_try_from (DapTaskParameters_query self);
  task_expiration ← u64_add now (86400 * 14);
  vdaf_var ← VdafTypeVar_try_from (DapTaskParameters_vdaf self);
  Ok (MkTaskConfig task_info
    (MkUrlBytes (String.list_byte_of_string (DapTaskParameters_leader_url self)))
    (MkUrlBytes (String.list_byte_of_string (DapTaskParameters_helper_url self)))
    (MkQueryConfig (DapTaskParameters_time_precision self) 1 min_batch_size query_var)
    task_expiration (MkVdafConfig DpConfig_None vdaf_var)).

Definition to_config_with_taskprov (self : DapTaskParameters) (task_info : list byte) (now : Time)
    (vdaf_verify_key_init : list byte) (collector_hpke_config : HpkeConfig) :
    res DapError (DapTaskConfig * TaskId * string) :=
  taskprov_config ← parameters_message self task_info now;
  encoded_taskprov_config ← map_err DapError_encoding
    (get_encoded (TaskConfig_encode (DapTaskParameters_version self)) taskprov_config);
  let task_id := compute_task_id encoded_taskprov_config in
  needs_opt_in ← unwrap_res (DapTaskConfigNeedsOptIn_try_from_taskprov (DapTaskParameters_version self) task_id
    taskprov_config vdaf_verify_key_init collector_hpke_config);
  Ok (into_opted_in needs_opt_in (MkOptInParam now (DapTaskParameters_num_agg_span_shards self)),
      task_id, encode_base64url encoded_taskprov_config).

(** ** The reports of a job: [report_generator.rs] *)

(** [Uniform::from(now - 36h..now - 24h)], and a sample of it *)
Definition report_time_dist {E} (now : Time) : res E (Time * Time) :=
  low ← u64_sub now (60 * 60 * 36);
  high ← u64_sub now (60 * 60 * 24);
  if low <? high then Ok (low, high) else Panic.

Definition sample_time (dist : Time * Time) (draw : N) : Time := dist.1 + draw mod (dist.2 - dist.1).

(** What is drawn for a report: its time and its randomness *)
Abbreviation report_draw := (N * report_rand)%type.

Section Generator.
Context (vdaf : Vdaf.VdafConfig) (hpke_config_list : HpkeConfig * HpkeConfig) (task_id : TaskId)
  (measurement : DapMeasurement) (version : DapVersion) (dist : Time * Time) (extensions : list Extension)
  (replay_reports : bool).

Definition generate_report (draw : report_draw) : res DapError Report :=
  produce_report_with_extensions (rr_report_id draw.2) (rr_shard draw.2) (rr_seeds draw.2) vdaf hpke_config_list
    (sample_time dist draw.1) task_id measurement extensions version.

(** One report; with [replay_reports] it is that of the process, which is made if there is
    none, and an error then panics. *)
Definition next_report (draw : report_draw) : stm (acceptance W) DapError Report := fun s =>
  if replay_reports then
    match acc_last_report s with
    | Some report => (Ok report, s)
    | None =>
        match generate_report draw with
        | Ok report => (Ok report, MkAcceptance (acc_net s) (acc_events s) (Some report))
        | _ => (Panic, s)
        end
    end
  else (generate_report draw, s).

(** The reports the stream yields: it ends early at an error, which is logged. *)
Fixpoint generate_reports (draws : list report_draw) : stm (acceptance W) anyhow (list Report) :=
  match draws with
  | [] => mret []
  | draw :: draws => fun s =>
      match next_report draw s with
      | (Ok report, s) => (reports ← generate_reports draws; mret (report :: reports)) s
      | (Err _, s) => (Ok [], s)
      | (Panic, s) => (Panic, s)
      end
  end.
End Generator.

(** ** Requests *)
Definition header_of (value : string) : res anyhow (list byte) :=
  ok_or (header_from_str value) (Text "failed to parse header value").

Definition insert_opt (name : string) (value : option string) (headers : HeaderMap) : res anyhow HeaderMap :=
  match value with
  | Some value => v ← header_of value; Ok (header_insert name v headers)
  | None => Ok headers
  end.

Definition construct_request_headers (media_type taskprov : option string) (bearer_token : option BearerToken) :
    res anyhow HeaderMap :=
  headers ← insert_opt CONTENT_TYPE media_type [];
  headers ← insert_opt DAP_TASKPROV taskprov headers;
  insert_opt DAP_AUTH_TOKEN (BearerToken_raw <$> bearer_token) headers.

(** [send]: four tries, until there is a response that is not that of a bad gateway *)
Fixpoint send_tries (tries : nat) (method : http_method) (url : Url) (headers : HeaderMap) (body : list byte) :
    stm W anyhow web_reply := fun w =>
  let '(resp, w) := http_send method url headers body w in
  let done := (ok_or resp (Text "request failed"), w) in
  match resp, tries with
  | Some r, S tries => if negb (rp_status r =? 502) then done else send_tries tries method url headers body w
  | None, S tries => send_tries tries method url headers body w
  | _, O => done
  end.

Definition acc_send (method : http_method) (url : Url) (headers : HeaderMap) (body : list byte) :
    stm (acceptance W) anyhow web_reply := acc_call (send_tries 3 method url headers body).

(** The statuses that end a job or a collection *)
Definition check_reply (resp : web_reply) : res anyhow unit :=
  if rp_status resp =? 400 then
    text ← ok_or (rp_body resp) (Text "body");
    _ ← ok_or (problem_of_json text) (Text "400 Bad Request: failed to parse problem details document");
    Err (Fmt "400 Bad Request: {problem_details:?}" [ArgOpaque])
  else if rp_status resp =? 500 then
    _ ← ok_or (rp_body resp) (Text "body"); Err (Fmt "500 Internal Server Error: {}" [ArgOpaque])
  else if negb (is_success (rp_status resp)) then Err (Text "while running an AggregateInitReq")
  else Ok tt.

(** ** Aggregation jobs *)
Section Jobs.
Context (self : Test) (cfg : TestTaskConfig) (part_batch_sel : PartialBatchSelector).

(** What a job has when it waits for the others *)
Record ready_job : Type := MkReadyJob {
  rj_report_count : N;
  rj_state : DapAggregationJobState;
  rj_req : AggregationJobInitReq;
  rj_headers : HeaderMap;
  rj_url : Url;
}.

(** [DapReportInitializer] *)
Definition test_initializer : DapReportInitializer := MkDapReportInitializer (0, u64_max) initialize_all.

(** [run_agg_job] before it waits; [report_count] is the length of the generator. *)
Definition run_agg_job_before (agg_job_id : AggregationJobId) (report_count : N) (reports : list Report) :
    stm (acceptance W) anyhow ready_job :=
  let version := DapTaskConfig_version (ttc_task_config cfg) in
  '(agg_job_state, agg_job_init_req) ← acc_counts "producing agg job init request"
    (produce_agg_job_req_impl (ttc_task_config cfg)
       (receiver_decrypter (ttc_fake_leader_hpke_receiver_config cfg)) test_initializer (ttc_task_id cfg)
       part_batch_sel AggParam_Empty reports
       (if t_replay_reports self then ReplayProtection_InsecureDisabled else ReplayProtection_Enabled));
  headers ← lift (map_err (fun _ => Text "constructing request headers for AggregationJobInitReq")
    (construct_request_headers (as_str_for_version MT_AggregationJobInitReq version)
       (ttc_taskprov_advertisement cfg) (t_bearer_token self)));
  url ← lift (dapf_join (t_helper_url self)
    ("tasks/" ++ encode_base64url (ttc_task_id cfg) ++ "/aggregation_jobs/" ++ encode_base64url agg_job_id)%string);
  mret (MkReadyJob report_count agg_job_state agg_job_init_req headers url).

(** The rest of [run_agg_job] *)
Definition run_agg_job_after (job : ready_job) : stm (acceptance W) anyhow (DapAggregateSpan DapAggregateShare) :=
  let version := DapTaskConfig_version (ttc_task_config cfg) in
  body ← lift (unwrap_res (get_encoded (AggregationJobInitReq_encode version) (rj_req job)));
  resp ← acc_send PUT (rj_url job) (rj_headers job) body;
  _ ← lift (check_reply resp);
  bytes ← lift (ok_or (rp_body resp) (Text "transfering bytes from the AggregateInitReq"));
  agg_job_resp ← lift (map_err (fun _ => Text "failed to parse response to AggregateInitReq from Helper")
    (get_decoded AggregationJobResp_decode bytes));
  agg_share_span ← acc_counts "consume" (consume_agg_job_resp (ttc_task_config cfg) (ttc_task_id cfg)
    (rj_state job) agg_job_resp);
  let aggregated_report_count := DapAggregateSpan_report_count agg_share_span in
  if aggregated_report_count <? rj_report_count job then
    throw (Fmt "aggregated report count ({aggregated_report_count}) < expected count ({report_count})"
             [ArgNum aggregated_report_count; ArgNum (rj_report_count job)])
  else mret agg_share_span.

(** All jobs up to the barrier: of every one its ID and the draws of its reports *)
Fixpoint jobs_before (generator : list report_draw -> stm (acceptance W) anyhow (list Report))
    (jobs : list (N * (AggregationJobId * list report_draw))) : stm (acceptance W) anyhow (list ready_job) :=
  match jobs with
  | [] => mret []
  | (report_count, (agg_job_id, draws)) :: jobs =>
      reports ← generator draws;
      job ← run_agg_job_before agg_job_id report_count reports;
      rest ← jobs_before generator jobs;
      mret (job :: rest)
  end.

(** The jobs that are let go; [id] counts them. *)
Fixpoint jobs_after (id : N) (jobs : list ready_job) : stm (acceptance W) anyhow (list (DapAggregateShare)) :=
  match jobs with
  | [] => mret []
  | job :: jobs =>
      _ ← lift (stride_sleep (t_load_control self) id);
      span ← run_agg_job_after job;
      rest ← jobs_after (id + 1) jobs;
      mret (((fun e => e.2.1) <$> map_to_list span) ++ rest)
  end.

(** [reduce(..).unwrap()], where a merge that fails panics *)
Definition reduce_shares_unwrap {E} (shares : list DapAggregateShare) : res E DapAggregateShare :=
  match shares with [] => Panic | acc :: shares => unwrap_res (merge_all acc shares) end.

(** The [i]-th of [draws] is of the [i]-th job; [take] gives a job as many draws as it has
    reports. *)
Definition run_agg_jobs (draws : nat -> AggregationJobId * (nat -> report_draw))
    (generator : list report_draw -> stm (acceptance W) anyhow (list Report))
    (report_count reports_per_agg_job : N) : stm (acceptance W) anyhow (option DapAggregateShare) :=
  chunks ← lift (distribute_reports_in_chunks report_count reports_per_agg_job);
  ready ← jobs_before generator
    (imap (fun i n => (n, ((draws i).1, (draws i).2 <$> seq 0 (N.to_nat n)))) chunks);
  let gone := released (t_load_control self) (length ready) in
  shares ← jobs_after 0 (take gone ready);
  if (gone <? length ready)%nat then mret None
  else share ← lift (reduce_shares_unwrap shares); mret (Some share).
End Jobs.

(** ** The test *)
Section Run.
Context (self : Test).

Definition test_get_hpke_config (aggregator : Url) : stm (acceptance W) anyhow HpkeConfig :=
  l ← acc_call (get_hpke_config aggregator (t_hpke_signing_certificate_path self));
  lift (first_config l).

(** [seeds] are those of the two key pairs. *)
Definition generate_task_config (seeds : list byte * list byte) (version : DapVersion)
    (helper_hpke_config : option HpkeConfig) (reports_per_batch : N) (now : Time) :
    stm (acceptance W) anyhow TestTaskConfig :=
  leader ← lift (map_err (fun _ => Text "failed to generate Leader HPKE receiver config")
    (HpkeReceiverConfig_gen seeds.1 17 P256HkdfSha256));
  collector ← lift (map_err (fun _ => Text "failed to generate Leader HPKE receiver config")
    (HpkeReceiverConfig_gen seeds.2 23 P256HkdfSha256));
  helper_hpke_config ← match helper_hpke_config with
                       | Some c => mret c
                       | None => test_get_hpke_config (t_helper_url self)
                       end;
  leader_url ← lift (unwrap (url_parse "https://exampe.com/"));
  '(task_config, task_id, taskprov_advertisement) ← lift (map_err (fun _ => Text "to_config_with_taskprov")
    (to_config_with_taskprov
       (MkDapTaskParameters version leader_url (t_helper_url self) 3600 60 reports_per_batch
          (QC_FixedSize (Some reports_per_batch)) (t_vdaf_config self) 1)
       (String.list_byte_of_string "cool task") now (t_vdaf_verify_init self)
       (HpkeReceiverConfig_config collector)));
  mret (MkTestTaskConfig task_id (HpkeReceiverConfig_config leader, helper_hpke_config) leader task_config
          (Some taskprov_advertisement)).

Definition get_aggregate_share (leader_agg_share : DapAggregateShare) (batch_id : BatchId) (version : DapVersion)
    (taskprov_advertisement : option string) (task_id : TaskId) : stm (acceptance W) anyhow unit :=
  let agg_share_req := MkAggregateShareReq (BS_FixedSizeByBatchId batch_id) []
    (DapAggregateShare_report_count leader_agg_share) (DapAggregateShare_checksum leader_agg_share) in
  headers ← lift (construct_request_headers (as_str_for_version MT_AggregateShareReq version)
    taskprov_advertisement (t_bearer_token self));
  url ← lift (dapf_join (t_helper_url self) ("tasks/" ++ encode_base64url task_id ++ "/aggregate_shares")%string);
  body ← lift (unwrap_res (get_encoded (AggregateShareReq_encode version) agg_share_req));
  resp ← acc_send POST url headers body;
  lift (check_reply resp).

(** The randomness of a test: the seeds of the key pairs, the batch and the jobs *)
Record test_rand : Type := MkTestRand {
  tr_seeds : list byte * list byte;
  tr_batch_id : BatchId;
  tr_jobs : nat -> AggregationJobId * (nat -> report_draw);
}.

Definition test_helper_impl (rand : test_rand) (now : Time) (opt : TestOptions) :
    stm (acceptance W) anyhow (option unit) :=
  version ← lift (deduce_dap_version_from_url (t_helper_url self));
  cfg ← generate_task_config (tr_seeds rand) version None (opt_reports_per_batch opt) now;
  measurement ← lift match opt_measurement opt with
                     | Some m => Ok m
                     | None => unwrap_res (gen_measurement (t_vdaf_config self))
                     end;
  dist ← lift (report_time_dist now);
  o ← run_agg_jobs self cfg (PBS_FixedSizeByBatchId (tr_batch_id rand)) (tr_jobs rand)
    (generate_reports (DapTaskConfig_vdaf (ttc_task_config cfg)) (ttc_hpke_config_list cfg) (ttc_task_id cfg)
       measurement version dist [Extension_Taskprov] (t_replay_reports self))
    (opt_reports_per_batch opt) (opt_reports_per_agg_job opt);
  match o with
  | None => mret None
  | Some leader_agg_share =>
      _ ← get_aggregate_share leader_agg_share (tr_batch_id rand) version (ttc_taskprov_advertisement cfg)
        (ttc_task_id cfg);
      mret (Some tt)
  end.

(** One run of [execute_single_combination_from_env] *)
Definition single_combination_run (rand : test_rand) (system_now : Time) (measurement : DapMeasurement)
    (reports_per_batch reports_per_agg_job : N) : stm (acceptance W) anyhow (option unit) :=
  cfg ← generate_task_config (tr_seeds rand) Latest None reports_per_batch system_now;
  dist ← lift (report_time_dist system_now);
  o ← run_agg_jobs self cfg (PBS_FixedSizeByBatchId (tr_batch_id rand)) (tr_jobs rand)
    (generate_reports (DapTaskConfig_vdaf (ttc_task_config cfg)) (ttc_hpke_config_list cfg) (ttc_task_id cfg)
       measurement Latest dist [Extension_Taskprov] (t_replay_reports self))
    reports_per_batch reports_per_agg_job;
  match o with
  | None => mret None
  | Some leader_agg_share =>
      _ ← get_aggregate_share leader_agg_share (tr_batch_id rand) Latest (ttc_taskprov_advertisement cfg)
        (ttc_task_id cfg);
      mret (Some tt)
  end.

Definition set_sucess_metric_to (success : bool) : stm (acceptance W) anyhow unit :=
  modify (fun s => MkAcceptance (acc_net s)
    (acc_events s ++ [test_success_set (t_using_mtls self)
                        match t_bearer_token self with Some _ => true | None => false end success])
    (acc_last_report s)).

(** A test that does not end sets no metric. *)
Definition test_helper (rand : test_rand) (now : Time) (opt : TestOptions) :
    stm (acceptance W) anyhow (option unit) := fun s =>
  match test_helper_impl rand now opt s with
  | (Ok None, s) => (Ok None, s)
  | (Ok (Some _), s) => (_ ← set_sucess_metric_to true; mret (Some tt)) s
  | (Err e, s) => (_ ← set_sucess_metric_to false; throw e) s
  | (Panic, s) => (Panic, s)
  end.
End Run.
End Acceptance.

(** ** [VdafConfig::gen_measurement], for the measurements of the VDAFs *)
Section Measurement.
Context `{BP : BuildProfile} `{PC : PrioCodec} `{PA : PrioAgg} `{PV : !PrioVec} `{VS : !PrioVdafs}.
Context `{P32 : !PineBackend AggShare.FieldPrio2} `{P64 : !PineBackend AggShare.Field64}.

#[global] Instance dispatch_gen_measurement : GenMeasurement := fun self =>
  match self with
  | Vdaf.Prio2 dimension => Ok (Meas_U32Vec (replicate (N.to_nat dimension) 1))
  | Vdaf.Prio3 (Prio3_SumVecField64MultiproofHmacSha256Aes128 _ length _ _) =>
      Ok (Meas_U64Vec (replicate (N.to_nat length) 0))
  | _ => Err (Fatal (Fmt "gen_measurement_for currently does not support {self:?}" [ArgOpaque]))
  end.
End Measurement.
