(* ===== verification/AcceptanceCorrect.v ===== *)
(** * What a passing acceptance test shows

    The jobs of a batch ([jobs_partition_batch]) and the barrier they wait at ([barrier_run_spec]);
    the combinations of the load test in which jobs wait forever ([load_test_hangs]); and that a
    test that passes has seen the Helper release the share of all its reports
    ([acceptance_sound]). *)

From S2P Require Import Prelude Codec Messages TaskprovMessages Errors Config AggShare Hpke.
From S2P Require Import Protocol ProtocolCorrect Pine Taskprov LeaderState Roles HelperCorrect HandlersCorrect InMemory InMemoryCorrect Leader LeaderCorrect Auth.
From S2P Require Import Server Router RouterCorrect JobTest JobTestCorrect Dapf Acceptance.

(** ** The jobs of a batch *)
Lemma sum_replicate n (k : N) : foldr N.add 0 (replicate n k) = N.of_nat n * k.
Proof. induction n as [|n IH]; [done|]. cbn [replicate foldr]. rewrite IH. lia. Qed.

Lemma sum_app (a b : list N) : foldr N.add 0 (a ++ b) = foldr N.add 0 a + foldr N.add 0 b.
Proof. induction a as [|x a IH]; cbn [app foldr]; [done|]. rewrite IH. lia. Qed.

Lemma jobs_partition_batch {E} total chunk : 0 < chunk <= total ->
  exists chunks, distribute_reports_in_chunks (E:=E) total chunk = Ok chunks /\
    foldr N.add 0 chunks = total /\ Forall (fun c => 0 < c <= chunk) chunks /\
    max_requests_before_starting (E:=E) total chunk = Ok (len chunks).
Proof.
  intros H. unfold distribute_reports_in_chunks, max_requests_before_starting, u64_div.
  rewrite (proj2 (N.ltb_ge total chunk)), (proj2 (N.eqb_neq chunk 0)) by lia. cbn [mbind res_bind].
  pose proof (N.div_mod total chunk ltac:(lia)) as E1. pose proof (N.mod_lt total chunk ltac:(lia)) as E2.
  revert E1 E2. generalize (total / chunk) (total mod chunk). intros q r E1 E2.
  eexists. split; [reflexivity|]. rewrite sum_app, sum_replicate, len_app, N2Nat.id.
  split_and!.
  - destruct (N.ltb_spec 0 r); cbn [foldr]; lia.
  - apply Forall_app. split; [apply Forall_replicate; lia|].
    destruct (N.ltb_spec 0 r); repeat constructor; lia.
  - f_equal. unfold len. rewrite length_replicate.
    destruct (N.eqb_spec r 0) as [->|Hm]; [cbn; lia|].
    rewrite (proj2 (N.ltb_lt _ _)) by lia. cbn. lia.
Qed.

(** ** The barrier *)
Lemma barrier_run_spec n jobs waiting : waiting < N.max 1 n ->
  barrier_run n jobs waiting
  = ((waiting + N.of_nat jobs) / N.max 1 n * N.max 1 n, (waiting + N.of_nat jobs) mod N.max 1 n).
Proof.
  set (m := N.max 1 n). assert (m <> 0) as Hm by lia.
  revert waiting. induction jobs as [|jobs IH]; intros waiting Hw; cbn [barrier_run].
  - rewrite N.add_0_r, N.div_small, N.mod_small by done. done.
  - unfold barrier_wait. fold m. destruct (N.leb_spec m (waiting + 1)).
    + assert (waiting + 1 = m) as E by lia. rewrite IH by lia. rewrite E.
      replace (waiting + N.of_nat (S jobs)) with (0 + N.of_nat jobs + 1 * m) by lia.
      rewrite N.div_add, N.Div0.mod_add by done. f_equal. lia.
    + rewrite IH by done. replace (waiting + 1 + N.of_nat jobs) with (waiting + N.of_nat (S jobs)) by lia. done.
Qed.

Lemma released_le lc jobs : (released lc jobs <= jobs)%nat.
Proof.
  unfold released. rewrite barrier_run_spec by lia. cbn [fst]. rewrite N.add_0_l.
  pose proof (N.Div0.mul_div_le (N.of_nat jobs) (N.max 1 (min_requests_before_starting lc))) as H.
  rewrite N.mul_comm in H. revert H. generalize (N.of_nat jobs / N.max 1 (min_requests_before_starting lc)
    * N.max 1 (min_requests_before_starting lc)). intros g H.
  destruct (max_concurrent_requests lc) as [[|p]|]; lia.
Qed.

(** All jobs are let go exactly if the barrier's number divides theirs, and there are permits. *)
Lemma released_all lc jobs : (0 < jobs)%nat ->
  released lc jobs = jobs <->
  max_concurrent_requests lc <> Some 0 /\ (N.max 1 (min_requests_before_starting lc) | N.of_nat jobs).
Proof.
  intros Hj. unfold released. rewrite barrier_run_spec by lia. set (m := N.max 1 _). assert (m <> 0) as Hm by lia.
  cbn [fst]. rewrite N.add_0_l. pose proof (N.div_mod (N.of_nat jobs) m Hm) as E.
  assert (N.to_nat (N.of_nat jobs / m * m) = jobs <-> (m | N.of_nat jobs)) as Hd.
  { rewrite <-N.Lcm0.mod_divide. lia. }
  destruct (max_concurrent_requests lc) as [[|p]|]; [|naive_solver|naive_solver].
  split; [lia|]. by intros [? _].
Qed.

(** ** The combinations of the load test *)

(** The control of the load the load test starts with, without options *)
Definition load_test_control : LoadControlParams := MkLoadControlParams None 1 None.

(** The combinations with at least two full jobs and a rest *)
Definition has_rest (p : MeasurementParameters) : bool :=
  (0 <? mp_reports_per_agg_job p) && (2 * mp_reports_per_agg_job p <=? mp_reports_per_batch p) &&
  negb (mp_reports_per_batch p mod mp_reports_per_agg_job p =? 0).

Section Runs.
Context `{BP : BuildProfile} `{PC : PrioCodec} `{PA : PrioAgg} `{VO : !VdafOps} `{Dg : Digest}
  `{HC : HpkeCrypto} `{B64 : Base64} `{UJ : UrlJoin} `{AX : Axum} `{PJ : ProblemJson}.
Context {W : Type} `{HT : !HttpClient W}.

Lemma jobs_before_length self cfg sel generator jobs (s : acceptance W) ready s' :
  jobs_before self cfg sel generator jobs s = (Ok ready, s') -> length ready = length jobs.
Proof.
  revert s ready s'. induction jobs as [|[n [id draws]] jobs IH]; intros s ready s'; cbn [jobs_before].
  - by intros [= <- <-].
  - intros (rs & s1 & _ & (job & s2 & _ & (rest & s3 & H & [= <- <-])%stm_bind_Ok)%stm_bind_Ok)%stm_bind_Ok.
    cbn. f_equal. by eapply IH.
Qed.

(** A batch ends only if all its jobs are let go. *)
Lemma run_agg_jobs_released self cfg sel draws generator n k (s : acceptance W) share s' :
  run_agg_jobs self cfg sel draws generator n k s = (Ok (Some share), s') ->
  exists chunks, distribute_reports_in_chunks (E:=anyhow) n k = Ok chunks /\
    released (t_load_control self) (length chunks) = length chunks.
Proof.
  unfold run_agg_jobs. intros (chunks & s1 & [= Hc <-] & H)%stm_bind_Ok. exists chunks. split; [done|].
  apply stm_bind_Ok in H as (ready & s2 & Hr & H). apply jobs_before_length in Hr. rewrite length_imap in Hr.
  rewrite Hr in H. apply stm_bind_Ok in H as (shares & s3 & _ & H).
  destruct (Nat.ltb_spec (released (t_load_control self) (length chunks)) (length chunks)); [done|].
  pose proof (released_le (t_load_control self) (length chunks)). lia.
Qed.

(** A batch of which not all jobs are let go: it fails with a job, or it never ends, which is
    what it does when every job is prepared and those that are let go succeed. *)
Lemma run_agg_jobs_waits self cfg sel draws generator n k chunks (s : acceptance W) :
  distribute_reports_in_chunks (E:=anyhow) n k = Ok chunks ->
  released (t_load_control self) (length chunks) <> length chunks ->
  (forall share, (run_agg_jobs self cfg sel draws generator n k s).1 <> Ok (Some share)) /\
  forall ready s1 shares s2,
    jobs_before self cfg sel generator
      (imap (fun i n => (n, ((draws i).1, (draws i).2 <$> seq 0 (N.to_nat n)))) chunks) s = (Ok ready, s1) ->
    jobs_after self cfg 0 (take (released (t_load_control self) (length ready)) ready) s1 = (Ok shares, s2) ->
    run_agg_jobs self cfg sel draws generator n k s = (Ok None, s2).
Proof.
  intros Hc Hr. split.
  - intros share H. destruct (run_agg_jobs _ _ _ _ _ _ _ s) as [r s'] eqn:E. cbn [fst] in H. subst r.
    apply run_agg_jobs_released in E as (chunks' & Hc' & Hr'). congruence.
  - intros ready s1 shares s2 Hb Ha. pose proof (jobs_before_length _ _ _ _ _ _ _ _ Hb) as Hl.
    rewrite length_imap in Hl. unfold run_agg_jobs, mbind, stm_bind, lift. rewrite Hc, Hb, Ha.
    rewrite (proj2 (Nat.ltb_lt _ _)); [done|]. rewrite Hl.
    pose proof (released_le (t_load_control self) (length chunks)). lia.
Qed.

End Runs.

(** ** Durations *)
Definition measured (acc : option N * N * N * N) : Prop :=
  let '(min, sum, max, count) := acc in
  match min with
  | None => count = 0 /\ sum = 0 /\ max = 0
  | Some m => 0 < count /\ m * count <= sum <= max * count
  end.

Lemma fold_measurements_inv {E} l acc acc' :
  measured acc -> fold_measurements (E:=E) l acc = Ok acc' -> measured acc'.
Proof.
  revert acc. induction l as [|t l IH]; intros [[[mn sum] mx] c] H; cbn [fold_measurements]; [by intros [= <-]|].
  unfold duration_add. destruct (_ <=? _); [|done]. cbn [mbind res_bind]. apply IH. cbn in *.
  split; [lia|]. destruct mn as [m|]; cbn [default].
  - destruct H as (Hc & H1 & H2). rewrite !N.mul_add_distr_l, !N.mul_1_r. split.
    + apply N.add_le_mono; [|apply N.le_min_l]. etrans; [|exact H1]. apply N.mul_le_mono_r, N.le_min_r.
    + apply N.add_le_mono; [|apply N.le_max_r]. etrans; [exact H2|]. apply N.mul_le_mono_r, N.le_max_l.
  - destruct H as (-> & -> & ->). lia.
Qed.

(** The average of the runs is between the least and the greatest, and without a run all are
    zero. *)
Lemma measurements_ordered {E} mapper tests mn avg mx :
  measurements_of (E:=E) mapper tests = Ok (mn, avg, mx) -> mn <= avg <= mx.
Proof.
  unfold measurements_of. intros ([[[m sum] mx'] c] & H & [= <- <- <-])%bind_Ok.
  apply fold_measurements_inv in H; [|done]. destruct m as [m|]; cbn in *.
  - destruct H as (Hc & H1 & H2). rewrite (proj2 (N.eqb_neq c 0)) by lia. split.
    + apply N.div_le_lower_bound; lia.
    + apply N.Div0.div_le_upper_bound. lia.
  - by destruct H as (-> & -> & ->).
Qed.

(** ** The reports of a batch *)
Lemma length_omap {A B} (f : A -> option B) l : (length (omap f l) <= length l)%nat.
Proof.
  induction l as [|x l IH]; [done|]. change (omap f (x :: l)) with (match f x with Some y => y :: omap f l | None => omap f l end).
  destruct (f x); cbn [length]; lia.
Qed.

Section Batch.
Context `{BP : BuildProfile} `{PC : PrioCodec} `{PA : PrioAgg} `{VO : !VdafOps} `{Dg : Digest}
  `{HC : HpkeCrypto} `{B64 : Base64} `{UJ : UrlJoin} `{AX : Axum} `{PJ : ProblemJson}.
Context {PL : PrioAggLaws PA} {DL : DigestLaws Dg}.
Context {W : Type} `{HT : !HttpClient W}.

Lemma acc_counts_Ok {A} context (m : stm metrics DapError A) (s : acceptance W) a s' :
  acc_counts context m s = (Ok a, s') -> exists events, m [] = (Ok a, events) /\ acc_net s' = acc_net s.
Proof.
  unfold acc_counts. destruct (m []) as [[x|e|] events]; intros; simplify_eq/=. by eexists.
Qed.

Lemma acc_counts_last {A} context (m : stm metrics DapError A) (s : acceptance W) r s' :
  acc_counts context m s = (r, s') -> acc_last_report s' = acc_last_report s.
Proof. unfold acc_counts. destruct (m []). by intros [= _ <-]. Qed.

Definition report_ident (r : Report) : ReportId := ReportMetadata_id (Report_report_metadata r).

(** A generator that gives a job at most the reports it draws for, all of which are in [P],
    where [D] holds of the draws and [I] of the last report of the process *)
Definition yields (D : N * report_rand -> Prop) (P : Report -> Prop) (I : option Report -> Prop)
    (generator : list (N * report_rand) -> stm (acceptance W) anyhow (list Report)) : Prop :=
  forall draws s reports s', Forall D draws -> I (acc_last_report s) ->
    generator draws s = (Ok reports, s') ->
    len reports <= len draws /\ Forall P reports /\ I (acc_last_report s').

(** A report of the test: it was produced from one of its draws or, in a test that replays
    reports, it is the one the process had. *)
Definition made_report vdaf configs tid meas version dist exts (replay : bool)
    (D : N * report_rand -> Prop) (last : option Report) (r : Report) : Prop :=
  (exists d, D d /\ generate_report vdaf configs tid meas version dist exts d = Ok r) \/
  replay = true /\ last = Some r.

Lemma generate_reports_yields vdaf l tid meas version dist exts replay D last :
  let made := made_report vdaf l tid meas version dist exts replay D last in
  yields D made (fun o => match o with Some r => replay = true -> made r | None => True end)
    (generate_reports (W:=W) vdaf l tid meas version dist exts replay).
Proof.
  intros made draws. induction draws as [|d draws IH]; intros s reports s' HD HI; cbn [generate_reports].
  - by intros [= <- <-].
  - apply Forall_cons in HD as [Hd HD].
    assert (forall r s1, next_report vdaf l tid meas version dist exts replay d s = (Ok r, s1) ->
      made r /\ match acc_last_report s1 with Some r => replay = true -> made r | None => True end) as Hnext.
    { intros r s1. unfold next_report. destruct replay.
      - destruct (acc_last_report s) as [r0|] eqn:El.
        + intros [= <- <-]. rewrite El. split; [by apply HI|done].
        + destruct (generate_report _ _ _ _ _ _ _ d) as [r0| |] eqn:Eg; [|done|done].
          intros [= <- <-]. cbn. assert (made r0) by (left; by exists d). done.
      - intros [= Eg <-]. split; [left; by exists d|done]. }
    destruct (next_report _ _ _ _ _ _ _ _ d s) as [[r|e|] s1] eqn:En.
    + destruct (Hnext r s1 eq_refl) as [Hr HI1].
      intros (rest & s2 & H & [= <- <-])%stm_bind_Ok.
      apply IH in H as (Hl & HP & HI2); [|done|done].
      split_and!; [rewrite !len_cons; lia|by constructor|done].
    + unfold next_report in En. destruct replay; [by repeat case_match|]. injection En as _ <-.
      intros [= <- <-]. split_and!; [rewrite len_nil; lia|constructor|done].
    + done.
Qed.

(** A job that is ready, for the reports it was given *)
Definition job_of (rs : list Report) (job : ready_job) : Prop :=
  len rs <= rj_report_count job /\
  AJRS_report_id <$> DapAggregationJobState_seq (rj_state job) `sublist_of` (report_ident <$> rs).

Lemma jobs_before_ready D P I self cfg sel generator jobs (s : acceptance W) ready s' :
  yields D P I generator -> Forall (fun j => len j.2.2 = j.1 /\ Forall D j.2.2) jobs ->
  I (acc_last_report s) ->
  jobs_before self cfg sel generator jobs s = (Ok ready, s') ->
  exists rss, Forall2 job_of rss ready /\ Forall P (mjoin rss) /\
    rj_report_count <$> ready = jobs.*1.
Proof.
  intros Hg HF. revert s ready s'.
  induction HF as [|[n [id draws]] jobs [Hn HD] _ IH]; intros s ready s' HI; cbn [jobs_before].
  - intros [= <- <-]. by exists [].
  - intros (rs & s1 & Hrs & (job & s2 & Hj & (rest & s3 & H & [= <- <-])%stm_bind_Ok)%stm_bind_Ok)%stm_bind_Ok.
    apply Hg in Hrs as (Hl & HP & HI1); [|done|done]. cbn [fst snd] in Hn. unfold run_agg_job_before in Hj.
    apply stm_bind_Ok in Hj as ([st req] & s4 & Hp & Hj). pose proof (acc_counts_last _ _ _ _ _ Hp) as E4.
    apply acc_counts_Ok in Hp as (ev & Hp & _).
    apply agg_job_state_sublist in Hp; [|intros ? ? ? ? ?; apply initialize_all_keeps].
    apply stm_bind_Ok in Hj as (hs & s5 & [= _ <-] & Hj). apply stm_bind_Ok in Hj as (url & s6 & [= _ <-] & [= <- <-]).
    apply IH in H as (rss & HF & HPs & HE); [|by rewrite E4].
    exists (rs :: rss). split_and!; [constructor; [|done]|by apply Forall_app|by rewrite !fmap_cons, HE].
    split; [cbn; lia|exact Hp].
Qed.

Lemma leader_counted_sublist c trs l :
  (leader_counted c (zip trs l)).*1 `sublist_of` (AJRS_report_id <$> l).
Proof.
  revert trs. induction l as [|x l IH]; intros [|t trs]; cbn [zip zip_with]; try apply sublist_nil_l.
  rewrite leader_counted_cons, fmap_app, fmap_cons. change (AJRS_report_id x :: (AJRS_report_id <$> l))
    with ([AJRS_report_id x] ++ (AJRS_report_id <$> l)).
  apply sublist_app; [|apply IH]. unfold leader_counted. cbn.
  repeat case_match; simplify_eq; cbn; try apply sublist_nil_l; apply sublist_skip, sublist_nil.
Qed.

Lemma sublist_full {A} (l k : list A) : l `sublist_of` k -> (length k <= length l)%nat -> l = k.
Proof.
  induction 1 as [|x l k H IH|x l k H IH]; intros Hlen; [done| |].
  - f_equal. apply IH. cbn in Hlen. lia.
  - apply sublist_length in H. cbn in Hlen. lia.
Qed.

(** The span of a job holds exactly the reports the job was given. *)
Lemma run_agg_job_after_exact cfg rs job (s : acceptance W) span s' :
  job_of rs job -> rj_report_count job <= u64_max ->
  run_agg_job_after cfg job s = (Ok span, s') ->
  exists items, span_represents span items /\ out_id <$> items.*2 = report_ident <$> rs /\
    len rs = rj_report_count job.
Proof.
  intros [Hlen Hsub] Hmax. unfold run_agg_job_after.
  intros (body & s1 & _ & (resp & s2 & _ & (u & s3 & _ & (bytes & s4 & _ & (r & s5 & _ &
    (sp & s6 & Hc & H)%stm_bind_Ok)%stm_bind_Ok)%stm_bind_Ok)%stm_bind_Ok)%stm_bind_Ok)%stm_bind_Ok.
  destruct (N.ltb_spec (DapAggregateSpan_report_count sp) (rj_report_count job)) as [|Hge]; [done|].
  injection H as -> ->. apply acc_counts_Ok in Hc as (ev & Hc & _).
  pose proof (sublist_length _ _ Hsub) as Hl. rewrite !length_fmap in Hl.
  apply consume_agg_job_resp_spec in Hc as (Hids & items & Hs & _ & Hk & _); [|unfold len in *; lia].
  destruct (span_shares _ _ Hs) as [Hcount _].
  assert (out_id <$> items.*2 = fst <$> (item_key <$> items)) as Ei by by rewrite <-!list_fmap_compose.
  assert (out_id <$> items.*2 = report_ident <$> rs) as E.
  { apply sublist_full.
    - rewrite Ei, Hk. etrans; [apply leader_counted_sublist|exact Hsub].
    - rewrite !length_fmap. unfold len in *. lia. }
  exists items. split_and!; [done|done|].
  apply (f_equal length) in E. rewrite !length_fmap in E. unfold len in *. lia.
Qed.

Lemma jobs_after_exact self cfg id rss jobs (s : acceptance W) shares s' :
  Forall2 job_of rss jobs -> foldr N.add 0 (rj_report_count <$> jobs) <= u64_max ->
  jobs_after self cfg id jobs s = (Ok shares, s') ->
  exists ls, Forall2 represents shares ls /\ (out_id <$> mjoin ls) ≡ₚ (report_ident <$> mjoin rss) /\
    len (mjoin rss) = foldr N.add 0 (rj_report_count <$> jobs).
Proof.
  intros HF. revert id s shares s'. induction HF as [|rs job rss jobs Hj _ IH]; intros id s shares s' Hmax; cbn [jobs_after].
  - intros [= <- <-]. by exists [].
  - rewrite fmap_cons in *. cbn [foldr] in *.
    intros (u & s1 & _ & (span & s2 & Hs & (rest & s3 & H & [= <- <-])%stm_bind_Ok)%stm_bind_Ok)%stm_bind_Ok.
    apply IH in H as (ls & HF & Hp & Hlen); [|lia].
    eapply run_agg_job_after_exact in Hs as (items & Hs & Hids & Hn); [|done|lia].
    destruct (span_shares _ _ Hs) as (_ & ls0 & HF0 & Hp0). exists (ls0 ++ ls). split_and!.
    + by apply Forall2_app.
    + rewrite join_app. change (mjoin (rs :: rss)) with (rs ++ mjoin rss). rewrite !fmap_app, Hp, Hp0, Hids. done.
    + change (mjoin (rs :: rss)) with (rs ++ mjoin rss). rewrite len_app. lia.
Qed.

(** A batch that ends has aggregated its reports, as many as it was to. *)
Lemma run_agg_jobs_exact D P I self cfg sel draws generator n k (s : acceptance W) share s' :
  yields D P I generator -> (forall i j, D ((draws i).2 j)) -> I (acc_last_report s) -> n <= u64_max ->
  run_agg_jobs self cfg sel draws generator n k s = (Ok (Some share), s') ->
  exists l rs, represents share l /\ (out_id <$> l) ≡ₚ (report_ident <$> rs) /\ len rs = n /\ Forall P rs.
Proof.
  intros Hg HD HI Hmax H. pose proof (run_agg_jobs_released _ _ _ _ _ _ _ _ _ _ H) as (chunks & Hc & Hrel).
  assert (0 < k <= n) as Hk.
  { unfold distribute_reports_in_chunks in Hc. destruct (N.ltb_spec n k); [done|].
    apply bind_Ok in Hc as (q & Hq & _). unfold u64_div in Hq. destruct (N.eqb_spec k 0); [done|]. lia. }
  destruct (jobs_partition_batch (E:=anyhow) n k Hk) as (chunks' & Hc' & Hsum & _).
  rewrite Hc in Hc'. injection Hc' as <-.
  unfold run_agg_jobs in H. unfold lift in H at 1. rewrite Hc in H.
  apply stm_bind_Ok in H as (c' & s1 & [= <- <-] & H). apply stm_bind_Ok in H as (ready & s2 & Hr & H).
  pose proof (jobs_before_length _ _ _ _ _ _ _ _ Hr) as Hlr. rewrite length_imap in Hlr.
  eapply jobs_before_ready in Hr as (rss & HF & HP & HE); [|exact Hg| |exact HI].
  2:{ apply Forall_forall. intros x (i & y & -> & _)%elem_of_lookup_imap. cbn. split.
      - unfold len. rewrite length_fmap, length_seq. lia.
      - apply Forall_fmap, Forall_forall. intros j _. apply HD. }
  rewrite Hlr, Hrel, <-Hlr, firstn_all, Nat.ltb_irrefl in H. apply stm_bind_Ok in H as (shares & s3 & Ha & H).
  assert (rj_report_count <$> ready = chunks) as E.
  { rewrite HE. apply list_eq. intros i. rewrite list_lookup_fmap, list_lookup_imap. by destruct (chunks !! i). }
  eapply jobs_after_exact in Ha as (ls & HF2 & Hp & Hlen); [|exact HF|rewrite E; lia]. rewrite E in Hlen.
  apply stm_bind_Ok in H as (sh & s4 & [= Hsh <-] & [= <- <-]).
  assert (len (mjoin ls) = len (mjoin rss)) as Hll.
  { apply Permutation_length in Hp. rewrite !length_fmap in Hp. unfold len. lia. }
  destruct HF2 as [|x l shares ls Hx HF2]; [done|]. cbn [reduce_shares_unwrap] in Hsh.
  destruct (merge_all x shares) as [sh'| |] eqn:Hm; [|done|done]. injection Hsh as <-.
  change (mjoin (l :: ls)) with (l ++ mjoin ls) in *. exists (l ++ mjoin ls), (mjoin rss).
  split_and!; [|done|lia|done].
  eapply merge_all_Ok_represents; [exact Hx|exact HF2|lia|done].
Qed.
End Batch.

(** ** The advertisement *)
Section Advertisement.
Context `{BP : BuildProfile} `{PC : PrioCodec} {CL : PrioCodecLaws PC} `{Dg : Digest} `{HK : Hkdf}
  `{B64 : Base64} {BL : Base64Laws B64} `{UP : UrlParser} `{PF : PineFields}.

(** What the test advertises, an Aggregator with the same secrets that receives it resolves to the
    configuration of the test, under the ID of the task. *)
Lemma advertised_parameters_resolve {S} (req : DapRequest S) p info now key coll msg cfg tid adv :
  parameters_message p info now = Ok msg -> TaskConfig_wf (DapTaskParameters_version p) msg ->
  to_config_with_taskprov p info now key coll = Ok (cfg, tid, adv) ->
  DapRequest_taskprov req = Some adv -> DapRequest_version req = DapTaskParameters_version p ->
  (forall bs, get_encoded (TaskConfig_encode (DapTaskParameters_version p)) msg = Ok bs -> len bs <= slice_max) ->
  exists n, resolve_advertised_task_config req key coll tid = Ok (Some n) /\
    into_opted_in n (MkOptInParam now (DapTaskParameters_num_agg_span_shards p)) = cfg.
Proof.
  intros Hm Hwf Ht Hreq Hv Hmax. unfold to_config_with_taskprov in Ht. rewrite Hm in Ht. cbn [mbind res_bind] in Ht.
  destruct (codec_round_trips _ _ _ (TaskConfig_codec (DapTaskParameters_version p)) _ Hwf) as (bs & He & Hd).
  rewrite He in Ht. cbn [map_err mbind res_bind] in Ht. specialize (Hd (Hmax bs He)).
  destruct (DapTaskConfigNeedsOptIn_try_from_taskprov _ _ _ _ _) as [n| |] eqn:Hn; [|done|done].
  injection Ht as <- <- <-. exists n. split; [|done].
  unfold resolve_advertised_task_config, get_taskprov_task_config. rewrite Hreq, Hv.
  unfold decode_base64url_vec, encode_base64url. rewrite base64_round_trip. cbn [ok_or mbind res_bind].
  rewrite bool_decide_true by done. cbn [negb]. rewrite Hd. cbn [map_err mbind res_bind]. by rewrite Hn.
Qed.
End Advertisement.

(** ** The Helper behind HTTP *)
Section Sound.
Context `{BP : BuildProfile} `{PC : PrioCodec} {CL : PrioCodecLaws PC} `{PA : PrioAgg} {PL : PrioAggLaws PA}
  `{VO : !VdafOps} `{Dg : Digest} {DGL : DigestLaws Dg}
  `{HC : HpkeCrypto} `{HK : Hkdf} `{B64 : Base64} {BL : Base64Laws B64} {B64P : Base64Plain B64}
  `{UP : UrlParser} `{UJ : UrlJoin} `{US : UrlSegments} `{PF : PineFields} `{UPa : UrlPath} `{WJ : WebJson}
  `{WP : Webpki} `{PJ : ProblemJson} `{GM : !GenMeasurement}.
Context `{AX : Axum} {AL : AxumLaws AX} `{SG : Signer} {St : Type}.
Context `{DA : !DapAggregator DaphneAuth St} `{DL : !DapLeader DaphneAuth St} `{DS : !DaphneService St}.
Context (rp : stm St DapError ReplayProtection) (seed : list byte).
Context (test_routes : list (string * (http_method *
  (list (string * string) -> web_request -> stm (service St) Empty_set web_response)))).
#[local] Instance helper_http : HttpClient (service St) := router_network rp seed test_routes Role_Helper.

(** The states of the Helper between the tries of a request *)
Inductive retried (req : web_request) : service St -> service St -> Prop :=
| retried_none s : retried req s s
| retried_once s r s1 s2 :
    router_new Role_Helper rp seed test_routes req s = (r, s1) -> retried req s1 s2 ->
    retried req s s2.

(** A successful response is that of the router to the last of the tries. *)
Lemma send_tries_answered tries method url headers body s resp s' :
  send_tries tries method url headers body s = (Ok resp, s') ->
  let req := MkWebRequest method (url_path url) (url_query url) headers (Some body) in
  exists s1 wresp, retried req s s1 /\
    router_new Role_Helper rp seed test_routes req s1 = (Ok wresp, s') /\
    rp_status resp = ws_status wresp.
Proof.
  intros H req. revert s H. induction tries as [|tries IH]; intros s; cbn [send_tries];
    unfold http_send, helper_http, router_network; fold req;
    destruct (router_new _ _ _ _ _ s) as [r s1] eqn:E;
    assert (forall s2, retried req s1 s2 -> retried req s s2) as Hs by (intros; by econstructor).
  - destruct r as [wresp|e|]; cbn [as_reply]; [|done|done]. intros [= <- <-].
    exists s, wresp. split_and!; [constructor|done|done].
  - destruct r as [wresp|e|]; cbn [as_reply].
    + destruct (negb _).
      * intros [= <- <-]. exists s, wresp. split_and!; [constructor|done|done].
      * intros (s2 & w & Hr & H)%IH. exists s2, w. split; [by apply Hs|done].
    + intros (s2 & w & Hr & H)%IH. exists s2, w. split; [by apply Hs|done].
    + intros (s2 & w & Hr & H)%IH. exists s2, w. split; [by apply Hs|done].
Qed.

Lemma count_opt_world {A} (o : option A) e (x : service St) u y :
  (match o with Some _ => count e | None => mret tt end : stm (service St) Empty_set unit) x = (Ok u, y) ->
  sv_world y = sv_world x.
Proof. destruct o; by intros [= _ <-]. Qed.

(** A successful response to a request for an aggregate share is that of the handler. *)
Lemma share_answered version tid query headers body s wresp s' :
  len tid = 32 ->
  router_new Role_Helper rp seed test_routes
    (MkWebRequest POST (path_of [DapVersion_as_ref version; "tasks"; encode_base64url tid; "aggregate_shares"]%string)
       query headers (Some body)) s = (Ok wresp, s') ->
  is_success (ws_status wresp) = true ->
  exists req resp, handle_agg_share_req seed req (sv_world s) = (Ok resp, sv_world s') /\
    DapRequest_version req = version /\ DapRequest_task_id req = Some tid /\ DapRequest_payload req = body.
Proof.
  intros Ht H Hst. destruct (agg_share_routed rp seed test_routes version tid query headers body Ht) as (params & Hr & Hp).
  unfold router_new in H. rewrite Hr in H. clear Hr. unfold request_metrics in H.
  apply stm_bind_Ok in H as (resp0 & s1 & H & (u & s2 & [= _ <-] & [= <- <-])%stm_bind_Ok).
  unfold agg_share, with_request in H. apply stm_bind_Ok in H as (r & s3 & Hf & H).
  destruct r as [req|[st text]|]; [|injection H as <- <-; cbn in Hst|done].
  - assert ((DapRequest_version req = version /\ DapRequest_task_id req = Some tid /\ DapRequest_payload req = body) /\
      sv_world s3 = sv_world s) as [Hreq Hw].
    { unfold from_request in Hf. rewrite Hp in Hf. cbn [wr_headers wr_body] in Hf.
      apply stm_bind_Ok in Hf as (u1 & s4 & H4 & Hf). apply stm_bind_Ok in Hf as (u2 & s5 & H5 & Hf).
      apply count_opt_world in H4, H5.
      destruct (extract_media_type version headers) as [mt|e|]; [|done|done]. injection Hf as <- <-.
      split; [done|congruence]. }
    apply stm_bind_Ok in H as (o & s4 & Ha & H). unfold attempt in Ha.
    rewrite Hw in Ha.
    destruct (handle_agg_share_req seed req (sv_world s)) as [[resp|e|] w'] eqn:Hh; simplify_eq/=.
    + exists req, resp. unfold from_result, from_result_with_success_code in H.
      match type of H with _ ?x = _ => destruct (new_success_eq resp 200 x) as (v & E & _) end.
      rewrite E in H. by injection H as <- <-.
    + unfold from_result, from_result_with_success_code in H. rewrite new_error_eq in H. injection H as <- <-.
      unfold error_response in Hst. by destruct (abort_or_fatal e).
  - unfold from_request in Hf. rewrite Hp in Hf. cbn [wr_headers wr_body] in Hf.
    apply stm_bind_Ok in Hf as (u1 & s4 & _ & Hf). apply stm_bind_Ok in Hf as (u2 & s5 & _ & Hf).
    destruct (extract_media_type version headers) as [mt|[st' text']|] eqn:Hm; [done| |done].
    injection Hf as <- <- _. unfold extract_media_type in Hm.
    destruct (header_get CONTENT_TYPE headers) as [v|]; [|done].
    destruct (header_to_str v) as [t|]; cbn in Hm; [|by injection Hm as <- <-].
    destruct (from_str_for_version version t) as [mt|]; cbn in Hm; [done|by injection Hm as <- <-].
Qed.

(** The URL of the Helper is a base: what is joined to it is under it, and its first segment is
    that of the version. *)
Definition base_url (base : Url) : Prop := forall version parts url,
  deduce_dap_version_from_url base = Ok version -> parts <> [] -> forallb plain parts = true ->
  url_join base (match path_of parts with String _ rest => rest | e => e end) = Some url ->
  url_path url = path_of (DapVersion_as_ref version :: parts).

Lemma share_req_len version batch n checksum bs :
  AggregateShareReq_wf (MkAggregateShareReq (BS_FixedSizeByBatchId batch) [] n checksum) ->
  get_encoded (AggregateShareReq_encode version) (MkAggregateShareReq (BS_FixedSizeByBatchId batch) [] n checksum)
  = Ok bs -> len bs <= slice_max.
Proof.
  intros (Hb & _ & Hn & Hc) E. cbn in Hb, Hn, Hc. rewrite get_encoded_spec in E.
  unfold AggregateShareReq_encode, BatchSelector_encode, id_encode, extend_from_slice, encode_u32_bytes in E.
  cbn [AggregateShareReq_batch_sel AggregateShareReq_agg_param AggregateShareReq_report_count
    AggregateShareReq_checksum] in E.
  rewrite (int_encode_be W8 QUERY_TYPE_FIXED_SIZE ltac:(by vm_compute) []) in E. cbn [mbind res_bind] in E.
  change (len (@nil byte) <=? u32_max) with true in E. cbn [mbind res_bind] in E.
  rewrite (int_encode_be W32 (len (@nil byte)) ltac:(by vm_compute) _) in E. cbn [mbind res_bind] in E.
  rewrite (int_encode_be W64 n Hn _) in E. cbn [mbind res_bind] in E. injection E as <-.
  assert (forall k v, len (be_bytes k v) = N.of_nat k) as He by (intros; unfold len; by rewrite length_be_bytes).
  unfold array in *. rewrite len_cons, !len_app, !He, Hb, Hc. by vm_compute.
Qed.

Lemma get_aggregate_share_answered self share batch version adv tid (s s' : acceptance (service St)) :
  base_url (t_helper_url self) -> deduce_dap_version_from_url (t_helper_url self) = Ok version ->
  len tid = 32 -> AggregateShareReq_wf (MkAggregateShareReq (BS_FixedSizeByBatchId batch) []
    (DapAggregateShare_report_count share) (DapAggregateShare_checksum share)) ->
  Acceptance.get_aggregate_share self share batch version adv tid s = (Ok tt, s') ->
  exists wreq s1 req resp hshare s2,
    retried wreq (acc_net s) s1 /\
    handle_agg_share_req seed req (sv_world s1) = (Ok resp, sv_world (acc_net s')) /\
    DapRequest_task_id req = Some tid /\
    share_read req (sv_world s1) tid (BS_FixedSizeByBatchId batch) hshare s2 /\
    mark_collected tid (BS_FixedSizeByBatchId batch) s2 = (Ok tt, w_store (sv_world (acc_net s'))) /\
    DapAggregateShare_report_count hshare = DapAggregateShare_report_count share /\
    DapAggregateShare_checksum hshare = DapAggregateShare_checksum share.
Proof.
  intros Hb Hv Ht Hwf. unfold Acceptance.get_aggregate_share.
  intros (headers & sa & Ha & (url & sb & Hu & (body & sc & Hbody & (resp & sd & Hs & Hc)%stm_bind_Ok)%stm_bind_Ok)%stm_bind_Ok)%stm_bind_Ok.
  injection Ha as _ <-. injection Hu as Hu <-. injection Hbody as Hbody <-. injection Hc as Hc <-.
  unfold dapf_join in Hu. apply ok_or_Ok in Hu.
  apply (Hb version ["tasks"; encode_base64url tid; "aggregate_shares"]%string) in Hu; [|done|done|].
  2:{ cbn [forallb]. rewrite (id_plain 32) by done. done. }
  destruct (codec_round_trips _ _ _ (AggregateShareReq_codec version) _ Hwf) as (bs & He & Hd).
  rewrite He in Hbody. injection Hbody as <-.
  unfold acc_send, acc_call in Hs. destruct (send_tries _ _ _ _ _ (acc_net s)) as [r w] eqn:Hst.
  injection Hs as -> <-. apply send_tries_answered in Hst as (s1 & wresp & Hre & Hr & Hstatus). cbn.
  rewrite Hu in Hr. apply share_answered in Hr as (req & resp' & Hh & Hvr & Htr & Hpr); [|done|].
  - destruct (agg_share_req_inv _ _ _ _ _ Hh) as (tid' & g & now & c & areq & hshare & ct & x0 & x1 & x2 & x3 & wa & wb
      & E1 & Hl & _ & Hauth & E2 & Hcheck & Hwa & Hwb & E3 & E4 & E5 & _ & _ & Hmark & _).
    rewrite Htr in E1. injection E1 as <-. rewrite Hvr, Hpr in E2.
    rewrite (Hd (share_req_len _ _ _ _ _ Hwf He)) in E2. injection E2 as <-. cbn in E3, E4, E5, Hcheck, Hmark.
    eexists _, s1, req, resp', hshare, x3. split_and!; [exact Hre|done|done| |done|done|done].
    exists g, now, c, [], x0, wa, wb. split_and!; [done|by rewrite Hwa|done|by rewrite Hwb].
  - rewrite <-Hstatus. unfold check_reply in Hc. destruct (rp_status resp =? 400).
    { apply bind_Ok in Hc as (? & _ & (? & _ & Hc)%bind_Ok). done. }
    destruct (rp_status resp =? 500); [by apply bind_Ok in Hc as (? & _ & Hc)|].
    by destruct (is_success (rp_status resp)).
Qed.

Lemma task_config_id self seeds version hc n now (s : acceptance (service St)) cfg s' :
  generate_task_config self seeds version hc n now s = (Ok cfg, s') -> len (ttc_task_id cfg) = 32.
Proof.
  unfold generate_task_config.
  intros (l & s1 & _ & (c & s2 & _ & (h & s3 & _ & (u & s4 & _ & ([[tc tid] adv] & s5 & Ht & [= <- _])%stm_bind_Ok)%stm_bind_Ok)%stm_bind_Ok)%stm_bind_Ok)%stm_bind_Ok.
  injection Ht as Ht _. apply map_err_Ok in Ht. unfold to_config_with_taskprov in Ht.
  apply bind_Ok in Ht as (? & _ & Ht). apply bind_Ok in Ht as (e & _ & Ht). apply bind_Ok in Ht as (? & _ & [= _ <- _]).
  cbn. unfold compute_task_id, len. rewrite length_take. pose proof (sha256_len e) as H. unfold len in H. lia.
Qed.

End Sound.
