(* ===== verification/DapfMain.v ===== *)
(** * The program [dapf]

    [src/crates/dapf/src/main.rs] around the commands of [Dapf] and [Acceptance]: the values of
    arguments and how they are parsed, the actions and their dispatch, and the loops of the load
    test ([acceptance/load_testing.rs]); of [http_client.rs], the identity of the client.

    [clap], which makes a [Cli] of the arguments, and the formats of standard input and output are
    dependencies: [CliJson] parses, and a command returns what it prints ([output]).  The environment is a
    function, and randomness and the clock are arguments ([main_rand]).  A command that does not end
    returns [None]; the load test is run for a number of rounds.  What it prints is not modelled.
    The last part shows which commands end. *)

From S2P Require Import Prelude Codec Messages TaskprovMessages Errors Config AggShare Hpke.
From S2P Require Import Protocol ProtocolCorrect Pine Taskprov LeaderState InMemory Leader Auth Server Router.
From S2P Require Import JobTest DurableStore VdafDispatch Dapf Acceptance AcceptanceCorrect.

(** ** Values of arguments *)

(** [ValueEnum::from_str(s, false)] of [clap]: the first variant with that name *)
Definition value_enum_from_str {A} (value_variants : list A) (to_possible_value : A -> string) (s : string) :
    res string A :=
  match List.find (fun v => String.eqb (to_possible_value v) s) value_variants with
  | Some v => Ok v
  | None => Err (String.append "invalid variant: " s)
  end.

Inductive DefaultVdafConfigs : Type := Prio2Dimension99k | Prio3NumProofs2 | Prio3NumProofs3.

Definition DefaultVdafConfigs_value_variants : list DefaultVdafConfigs :=
  [Prio2Dimension99k; Prio3NumProofs2; Prio3NumProofs3].

Definition DefaultVdafConfigs_to_possible_value (self : DefaultVdafConfigs) : string :=
  match self with
  | Prio2Dimension99k => "prio2-dimension-99k"
  | Prio3NumProofs2 => "prio3-num-proofs-2"
  | Prio3NumProofs3 => "prio3-num-proofs-3"
  end.

Definition DefaultVdafConfigs_into_vdaf (self : DefaultVdafConfigs) : Vdaf.VdafConfig :=
  match self with
  | Prio2Dimension99k => Vdaf.Prio2 99992
  | Prio3NumProofs2 => Vdaf.Prio3 (Prio3_SumVecField64MultiproofHmacSha256Aes128 1 100000 320 2)
  | Prio3NumProofs3 => Vdaf.Prio3 (Prio3_SumVecField64MultiproofHmacSha256Aes128 1 100000 320 3)
  end.

Inductive CliVdafConfig : Type :=
| CliVdaf_Default (d : DefaultVdafConfigs)
| CliVdaf_Custom (v : Vdaf.VdafConfig).

Definition CliVdafConfig_into_vdaf (self : CliVdafConfig) : Vdaf.VdafConfig :=
  match self with
  | CliVdaf_Default d => DefaultVdafConfigs_into_vdaf d
  | CliVdaf_Custom v => v
  end.

(** [s.contains(c)] *)
Definition string_contains (c : Ascii.ascii) (s : string) : bool :=
  existsb (Ascii.eqb c) (String.list_ascii_of_string s).

(** [struct KemAlg(HpkeKemId)] *)
Definition KemAlg_value_variants : list HpkeKemId := [X25519HkdfSha256; P256HkdfSha256].

(** [NotImplemented] is unreachable: it is not a variant. *)
Definition KemAlg_to_possible_value (self : HpkeKemId) : string :=
  match self with
  | X25519HkdfSha256 => "x25519_hkdf_sha256"
  | P256HkdfSha256 => "p256_hkdf_sha256"
  | KemId_NotImplemented _ => EmptyString
  end.

Definition KemAlg_from_str : string -> res string HpkeKemId :=
  value_enum_from_str KemAlg_value_variants KemAlg_to_possible_value.

Record LoadControlParamsCli : Type := MkLoadControlParamsCli {
  cli_stride_wait_time : option N;
  cli_stride_len : option N;
  cli_min_requests_before_starting : option N;
  cli_max_concurrent_requests : option N;
}.

(** [self.into_params(reports_per_agg_job, reports_per_batch)] *)
Definition cli_into_params {E} (self : LoadControlParamsCli) (reports_per_agg_job reports_per_batch : N) :
    res E LoadControlParams :=
  into_params (cli_stride_wait_time self) (cli_stride_len self) (cli_min_requests_before_starting self)
    (cli_max_concurrent_requests self) reports_per_agg_job reports_per_batch.

(** ** Actions *)
Inductive LeaderAction : Type :=
| Leader_Upload (leader_url helper_url : Url) (vdaf_config : CliVdafConfig) (certificate_file : option string)
    (task_id : TaskId)
| Leader_Collect (leader_url : Url) (task_id : TaskId)
| Leader_CollectPoll (uri : Url) (vdaf_config : CliVdafConfig) (hpke_receiver : option HpkeReceiverConfig)
    (task_id : TaskId).

Inductive LoadTestParameters : Type :=
| LoadTest_Multiple
| LoadTest_Single (reports_per_batch reports_per_agg_job : N) (vdaf_config : CliVdafConfig).

Inductive HelperAction : Type :=
| Helper_Aggregate (helper_url : Url) (vdaf_config : CliVdafConfig) (hpke_signing_certificate_path : option string)
    (reports_per_batch reports_per_agg_job : N) (load_control : LoadControlParamsCli)
| Helper_LoadTest (helper_url : Url) (load_control : LoadControlParamsCli) (params : LoadTestParameters).

(** The configuration and the environment of [wrangler] are part of its state. *)
Inductive HpkeAction : Type :=
| Hpke_Get (aggregator_url : Url) (certificate_file : option string)
| Hpke_GetReceiverConfig (dap_version : DapVersion)
| Hpke_GenerateReceiverConfig (kem_alg : HpkeKemId)
| Hpke_RotateReceiverConfig (dap_version : DapVersion) (kem_alg : HpkeKemId).

Inductive TestAction : Type :=
| Test_AddHpkeConfig (aggregator_url : Url) (kem_alg : HpkeKemId)
| Test_ClearStorage (aggregator_url : Url) (set_hpke_key : option HpkeKemId).

Inductive Action : Type :=
| Action_Leader (leader : LeaderAction)
| Action_Helper (helper : HelperAction)
| Action_Hpke (hpke : HpkeAction)
| Action_TestRoutes (test : TestAction).

(** [sentry_dsn], for the reporting of errors, is left out. *)
Record Cli : Type := MkCli {
  cli_action : Action;
  cli_no_reuse_http_client : bool;
  cli_enable_ssl_key_log_file : bool;
}.

(** ** The HTTP client: [http_client.rs] *)

(** An item of a PEM file *)
Inductive pem_item (C K : Type) : Type :=
| Item_X509Certificate (cert : C)
| Item_Pkcs1Key (key : K)
| Item_Pkcs8Key (key : K)
| Item_Sec1Key (key : K)
| Item_other.
Arguments Item_X509Certificate {C K}. Arguments Item_Pkcs1Key {C K}. Arguments Item_Pkcs8Key {C K}.
Arguments Item_Sec1Key {C K}. Arguments Item_other {C K}.

(** [rustls], [rustls_pemfile] and [rustls_native_certs] *)
Class Rustls : Type := {
  CertificateDer : Type;
  PrivateKeyDer : Type;
  RootCertStore : Type;
  ClientConfig : Type;
  (** [None] is an error, [Some None] the end of the file. *)
  read_one_from_slice : string -> option (option (pem_item CertificateDer PrivateKeyDer));
  load_native_certs : option RootCertStore;
  with_client_auth_cert : RootCertStore -> CertificateDer -> PrivateKeyDer -> option ClientConfig;
  with_no_client_auth : RootCertStore -> ClientConfig;
  with_key_log : ClientConfig -> ClientConfig;
}.

Section Client.
Context `{RL : Rustls}.

Inductive HttpClientInner : Type := NoReuse (tls : ClientConfig) | Reuse (tls : ClientConfig).

Record DapfHttpClient : Type := MkDapfHttpClient {
  client_using_mtls : bool;
  client_inner : HttpClientInner;
}.

Context (env : string -> option string).

(** [keys.iter().find_map(|key| env::var(key).ok())] *)
Definition find_env (keys : list string) : option string := head (omap env keys).

Definition TLS_CLIENT_CERT_VAR : list string := ["TLS_CLIENT_CERT"; "LEADER_TLS_CLIENT_CERT"]%string.
Definition TLS_CLIENT_KEY_VAR : list string := ["TLS_CLIENT_KEY"; "LEADER_TLS_CLIENT_KEY"]%string.

Definition newline : string := String (Ascii.ascii_of_nat 10) EmptyString.

(** [if !pem.ends_with('\n') { pem.push('\n') }] *)
Definition end_line (pem : string) : string :=
  match last (String.list_ascii_of_string pem) with
  | Some c => if Ascii.eqb c (Ascii.ascii_of_nat 10) then pem else String.append pem newline
  | None => newline
  end.

Definition load_identity : res anyhow (option (CertificateDer * PrivateKeyDer)) :=
  match find_env TLS_CLIENT_CERT_VAR, find_env TLS_CLIENT_KEY_VAR with
  | Some cert, Some key =>
      item ← ok_or (read_one_from_slice (end_line cert)) (Text "failed to read cert");
      cert ← match item with Some (Item_X509Certificate cert) => Ok cert | _ => Panic end;
      item ← ok_or (read_one_from_slice (end_line key)) (Text "failed to read key");
      key ← match item with
            | Some (Item_Pkcs1Key key) | Some (Item_Pkcs8Key key) | Some (Item_Sec1Key key) => Ok key
            | _ => Panic
            end;
      Ok (Some (cert, key))
  | None, None => Ok None
  | Some _, None => Err (Text "{TLS_CLIENT_KEY_VAR:?} is not set")
  | None, Some _ => Err (Text "{TLS_CLIENT_CERT_VAR:?} is not set")
  end.

Definition setup_tls (enable_ssl_key_log_file : bool) : res anyhow (ClientConfig * bool) :=
  store ← unwrap load_native_certs;
  identity ← load_identity;
  tls ← match identity with
        | Some (cert, key) => ok_or (with_client_auth_cert store cert key) (Text "client certificate")
        | None => Ok (with_no_client_auth store)
        end;
  let using_mtls := match identity with Some _ => true | None => false end in
  Ok (if enable_ssl_key_log_file then with_key_log tls else tls, using_mtls).

(** [HttpClient::new] and [HttpClient::new_no_reuse] *)
Definition HttpClient_new (enable_ssl_key_log_file : bool) : res anyhow DapfHttpClient :=
  '(tls, using_mtls) ← setup_tls enable_ssl_key_log_file;
  Ok (MkDapfHttpClient using_mtls (Reuse tls)).

Definition HttpClient_new_no_reuse (enable_ssl_key_log_file : bool) : res anyhow DapfHttpClient :=
  '(tls, using_mtls) ← setup_tls enable_ssl_key_log_file;
  Ok (MkDapfHttpClient using_mtls (NoReuse tls)).

(** The client that [main] makes *)
Definition main_client (cli : Cli) : res anyhow DapfHttpClient :=
  if cli_no_reuse_http_client cli then HttpClient_new (cli_enable_ssl_key_log_file cli)
  else HttpClient_new_no_reuse (cli_enable_ssl_key_log_file cli).
End Client.

(** ** The commands *)

(** What commands read: [serde_json::from_str] of a measurement, a query, a batch selector and a
    VDAF configuration, with the text of its error *)
Class CliJson `{VdafOps} : Type := {
  measurement_of_json : string -> option DapMeasurement;
  query_of_json : string -> option Query;
  batch_selector_of_json : string -> option BatchSelector;
  vdaf_of_json : string -> res string Vdaf.VdafConfig;
}.

Section Main.
Context `{BP : BuildProfile} `{PC : PrioCodec} `{PA : PrioAgg} `{VO : !VdafOps} `{Dg : Digest}
  `{HC : HpkeCrypto} `{HK : Hkdf} `{B64 : Base64} `{UP : UrlParser} `{UJ : UrlJoin} `{US : UrlSegments}
  `{PF : PineFields} `{AX : Axum} `{WP : Webpki} `{PJ : ProblemJson} `{HD : HexDecode} `{GM : !GenMeasurement}
  `{RL : Rustls} `{CJ : !CliJson}.
Context {W : Type} `{HT : !HttpClient W} `{WR : !Wrangler W}.

(** [CliVdafConfig::from_str] *)
Definition CliVdafConfig_from_str (s : string) : res string CliVdafConfig :=
  match value_enum_from_str DefaultVdafConfigs_value_variants DefaultVdafConfigs_to_possible_value s with
  | Ok d => Ok (CliVdaf_Default d)
  | Err default_err =>
      match vdaf_of_json s with
      | Ok v => Ok (CliVdaf_Custom v)
      | Err json_err => Err (if string_contains (Ascii.ascii_of_nat 123) s then json_err else default_err)
      | Panic => Panic
      end
  | Panic => Panic
  end.

Definition parse_id (id_str : string) : res anyhow TaskId :=
  ok_or (decode_base64url 32 id_str) (Text "failed to decode ID").

(** What a command prints on standard output *)
Inductive output : Type :=
| Out_nothing
| Out_uri (uri : Url)
| Out_result (agg_res : DapAggregateResult)
| Out_configs (hpke_configs : list HpkeConfig)
| Out_receivers (configs : list HpkeReceiverConfig)
| Out_receiver (config : HpkeReceiverConfig)
| Out_metrics (events : list test_event).

(** The draws of a command and the clock: those of a report, of an HPKE configuration, of the loops
    that look for a free ID, and of the runs of a test with the time of each *)
Record main_rand : Type := MkMainRand {
  mr_now : Time;
  mr_report : report_rand;
  mr_config : N * list byte;
  mr_ids : list N;
  mr_draws : list (N * list byte);
  mr_runs : nat -> test_rand * Time;
}.

Context (env : string -> option string) (stdin : string).
(** [RequestBuilder::json] of a receiver configuration *)
Context (json : HpkeReceiverConfig -> HeaderMap * list byte).

Abbreviation cmd := (stm (acceptance W) anyhow (option output)).

(** *** Leader *)
Definition handle_leader_actions (rand : main_rand) (leader : LeaderAction) : cmd :=
  match leader with
  | Leader_Upload leader_url helper_url vdaf_config certificate_file task_id =>
      _ ← acc_call (leader_upload (rr_report_id (mr_report rand)) (rr_shard (mr_report rand)) (rr_seeds (mr_report rand))
            (mr_now rand) (measurement_of_json stdin) leader_url helper_url (CliVdafConfig_into_vdaf vdaf_config)
            certificate_file task_id);
      mret (Some Out_nothing)
  | Leader_Collect leader_url _ =>
      uri ← acc_call (leader_collect (query_of_json stdin) (env "LEADER_BEARER_TOKEN") leader_url);
      mret (Some (Out_uri uri))
  | Leader_CollectPoll uri vdaf_config hpke_receiver task_id =>
      agg_res ← acc_call (leader_collect_poll (batch_selector_of_json stdin) uri (CliVdafConfig_into_vdaf vdaf_config)
                  hpke_receiver task_id);
      mret (Some (Out_result agg_res))
  end.

(** *** The load test *)

(** [Test::from_env] with the variables of the environment *)
Definition test_from_env (helper_url : Url) (vdaf_config : Vdaf.VdafConfig) (hpke_signing_certificate_path : option string)
    (http_client : DapfHttpClient) (load_control : LoadControlParams) : res anyhow Test :=
  Test_from_env (env "REPLAY_REPORTS") (env "LEADER_BEARER_TOKEN") (env "VDAF_VERIFY_INIT") helper_url vdaf_config
    hpke_signing_certificate_path (client_using_mtls http_client) load_control.

Abbreviation test_results := (list (res anyhow unit)).

(** A run with its error as a value; one that does not end runs into the timeout of thirty minutes,
    and one that ends is taken to end before. *)
Definition run_with_timeout (m : stm (acceptance W) anyhow (option unit)) : stm (acceptance W) anyhow test_results := fun s =>
  match m s with
  | (Ok (Some _), s) => (Ok [Ok tt], s)
  | (Ok None, s) => (Ok [Err (Text "job {i} timedout")], s)
  | (Err e, s) => (Ok [Err e], s)
  | (Panic, s) => (Panic, s)
  end.

(** [TestResults::RUNS] is one. *)
Definition execute (t : Test) (run : test_rand * Time) (test_config : TestOptions) : stm (acceptance W) anyhow test_results :=
  run_with_timeout (test_helper t run.1 run.2 test_config).

(** [t.vdaf_config = ..; t.load_control.min_requests_before_starting = ..] *)
Definition with_combination (t : Test) (vdaf_config : Vdaf.VdafConfig) (load_control : LoadControlParams) : Test :=
  MkTest (t_helper_url t) (t_bearer_token t) (t_vdaf_verify_init t) (t_using_mtls t) vdaf_config
    (t_hpke_signing_certificate_path t) load_control (t_replay_reports t).

(** The body of the loop of [execute_multiple_combinations]; [t] has the load control of the start. *)
Definition execute_combination (t : Test) (config : HpkeConfig) (run : test_rand * Time) (params : MeasurementParameters) :
    stm (acceptance W) anyhow test_results :=
  measurement ← lift (unwrap_res (gen_measurement (mp_vdaf_config params)));
  load_control ← lift (combination_load (t_load_control t) params);
  execute (with_combination t (mp_vdaf_config params) load_control) run
    (MkTestOptions (mp_reports_per_batch params) (mp_reports_per_agg_job params) (Some measurement) (Some config)).

(** [combos] one after the other; the map of the source collects the results of a combination over the
    rounds *)
Fixpoint execute_combinations (t : Test) (config : HpkeConfig) (runs : nat -> test_rand * Time)
    (combos : list MeasurementParameters) : stm (acceptance W) anyhow (list (MeasurementParameters * test_results)) :=
  match combos with
  | [] => mret []
  | params :: combos =>
      results ← execute_combination t config (runs 0%nat) params;
      rest ← execute_combinations t config (fun i => runs (S i)) combos;
      mret ((params, results) :: rest)
  end.

(** [rounds] rounds of the loop; [.expect(..)] makes an error a panic. *)
Definition execute_multiple_combinations (rounds : nat) (runs : nat -> test_rand * Time) (helper_url : Url)
    (http_client : DapfHttpClient) (load_control : LoadControlParams) :
    stm (acceptance W) anyhow (list (MeasurementParameters * test_results)) :=
  t ← lift (unwrap_res (test_from_env helper_url (Vdaf.Prio2 44) None http_client load_control));
  config ← unwrap_stm (test_get_hpke_config t (t_helper_url t));
  execute_combinations t config runs (mjoin (replicate rounds measurement_parameters)).

(** The loop of [execute_single_combination_from_env] *)
Fixpoint single_rounds (rounds : nat) (t : Test) (runs : nat -> test_rand * Time) (system_now : Time)
    (measurement : DapMeasurement) (reports_per_batch reports_per_agg_job : N) :
    stm (acceptance W) anyhow test_results := fun s =>
  match rounds with
  | O => (Ok [], s)
  | S rounds =>
      match single_combination_run t (runs 0%nat).1 system_now measurement reports_per_batch reports_per_agg_job s with
      | (Ok None, s) => (Ok [], s)
      | (Panic, s) => (Panic, s)
      | (Ok (Some _), s) =>
          (rest ← single_rounds rounds t (fun i => runs (S i)) system_now measurement reports_per_batch reports_per_agg_job;
           mret (Ok tt :: rest)) s
      | (Err e, s) =>
          (rest ← single_rounds rounds t (fun i => runs (S i)) system_now measurement reports_per_batch reports_per_agg_job;
           mret (Err e :: rest)) s
      end
  end.

Definition execute_single_combination_from_env (rounds : nat) (runs : nat -> test_rand * Time) (system_now : Time)
    (helper_url : Url) (vdaf_config : Vdaf.VdafConfig) (reports_per_batch reports_per_agg_job : N)
    (http_client : DapfHttpClient) (load_control : LoadControlParams) : stm (acceptance W) anyhow test_results :=
  t ← lift (unwrap_res (test_from_env helper_url vdaf_config None http_client load_control));
  measurement ← lift (unwrap_res (gen_measurement (t_vdaf_config t)));
  single_rounds rounds t runs system_now measurement reports_per_batch reports_per_agg_job.

(** *** Helper *)

(** The metrics are printed whatever the result of the test; they are the events of the state. *)
Definition handle_helper_actions (rounds : nat) (rand : main_rand) (http_client : DapfHttpClient) (helper : HelperAction) : cmd :=
  match helper with
  | Helper_Aggregate helper_url vdaf_config hpke_signing_certificate_path reports_per_batch reports_per_agg_job load_control =>
      load_control ← lift (cli_into_params load_control reports_per_agg_job reports_per_batch);
      t ← lift (test_from_env helper_url (CliVdafConfig_into_vdaf vdaf_config) hpke_signing_certificate_path
                  http_client load_control);
      o ← test_helper t (mr_runs rand 0%nat).1 (mr_runs rand 0%nat).2
            (MkTestOptions reports_per_batch reports_per_agg_job None None);
      match o with
      | None => mret None
      | Some _ => s ← get_state; mret (Some (Out_metrics (acc_events s)))
      end
  | Helper_LoadTest helper_url load_control LoadTest_Multiple =>
      load_control ← lift (cli_into_params load_control u64_max 1);
      _ ← execute_multiple_combinations rounds (mr_runs rand) helper_url http_client load_control;
      mret None
  | Helper_LoadTest helper_url load_control (LoadTest_Single reports_per_batch reports_per_agg_job vdaf_config) =>
      load_control ← lift (cli_into_params load_control reports_per_agg_job reports_per_batch);
      _ ← execute_single_combination_from_env rounds (mr_runs rand) (mr_now rand) helper_url
            (CliVdafConfig_into_vdaf vdaf_config) reports_per_batch reports_per_agg_job http_client load_control;
      mret None
  end.

(** *** HPKE configurations *)
Definition handle_hpke_actions (rand : main_rand) (hpke : HpkeAction) : cmd :=
  match hpke with
  | Hpke_Get aggregator_url certificate_file =>
      hpke_config ← acc_call (get_hpke_config aggregator_url certificate_file);
      mret (Some (Out_configs (HpkeConfigList_hpke_configs hpke_config)))
  | Hpke_GetReceiverConfig dap_version =>
      config ← acc_call (get_receiver_config dap_version);
      mret (Some (Out_receivers config))
  | Hpke_GenerateReceiverConfig kem_alg =>
      receiver_config ← lift (map_err (fun _ => Text "failed to generate HPKE receiver config")
        (HpkeReceiverConfig_gen (mr_config rand).2 (mr_config rand).1 kem_alg));
      mret (Some (Out_receiver receiver_config))
  | Hpke_RotateReceiverConfig dap_version kem_alg =>
      o ← acc_call (rotate_receiver_config (mr_ids rand) (mr_config rand).2 dap_version kem_alg);
      mret ((fun _ => Out_nothing) <$> o)
  end.

(** [main], after the arguments are parsed *)
Definition dapf_main (rounds : nat) (rand : main_rand) (cli : Cli) : cmd :=
  http_client ← lift (main_client env cli);
  match cli_action cli with
  | Action_Leader leader => handle_leader_actions rand leader
  | Action_Hpke hpke => handle_hpke_actions rand hpke
  | Action_Helper helper => handle_helper_actions rounds rand http_client helper
  | Action_TestRoutes (Test_AddHpkeConfig aggregator_url kem_alg) =>
      o ← acc_call (dapf_add_hpke_config json (mr_draws rand) aggregator_url kem_alg);
      mret ((fun _ => Out_nothing) <$> o)
  | Action_TestRoutes (Test_ClearStorage aggregator_url set_hpke_key) =>
      o ← acc_call (delete_all_storage json (mr_draws rand) aggregator_url set_hpke_key);
      mret ((fun _ => Out_nothing) <$> o)
  end.

(** ** What is parsed *)
Lemma default_config_parses d :
  CliVdafConfig_from_str (DefaultVdafConfigs_to_possible_value d) = Ok (CliVdaf_Default d).
Proof. by destruct d. Qed.

Lemma parse_id_round_trip `{BL : !Base64Laws B64} (id : TaskId) : len id = 32 ->
  parse_id (URL_SAFE_NO_PAD_encode id) = Ok id.
Proof. intros H. unfold parse_id, decode_base64url. rewrite base64_round_trip. by rewrite H. Qed.

(** ** Which commands end *)

(** Jobs that wait for as many as there are all go, if there is a permit. *)
Lemma own_number_released lc n k chunks :
  max_requests_before_starting (E:=anyhow) n k = Ok (min_requests_before_starting lc) ->
  distribute_reports_in_chunks (E:=anyhow) n k = Ok chunks ->
  max_concurrent_requests lc <> Some 0 ->
  released lc (length chunks) = length chunks.
Proof.
  intros Hm Hc Hp. assert (0 < k <= n) as Hk.
  { revert Hm Hc. unfold max_requests_before_starting, distribute_reports_in_chunks, u64_div.
    destruct (N.eqb_spec k 0), (N.ltb_spec n k); try done. lia. }
  destruct (jobs_partition_batch (E:=anyhow) n k Hk) as (chunks' & Hc' & Hs & _ & Hm').
  rewrite Hc in Hc'. injection Hc' as <-. rewrite Hm in Hm'. injection Hm' as Hl.
  assert (0 < length chunks)%nat by (destruct chunks; cbn in *; lia).
  apply released_all; [done|]. split; [done|]. rewrite Hl. unfold len.
  rewrite N.max_r by lia. apply N.divide_refl.
Qed.

Lemma run_agg_jobs_ends self cfg sel draws generator n k (s s' : acceptance W) :
  max_requests_before_starting (E:=anyhow) n k = Ok (min_requests_before_starting (t_load_control self)) ->
  max_concurrent_requests (t_load_control self) <> Some 0 ->
  run_agg_jobs self cfg sel draws generator n k s <> (Ok None, s').
Proof.
  intros Hm Hp. unfold run_agg_jobs. intros (chunks & s1 & [= Hc <-] & H)%stm_bind_Ok.
  apply stm_bind_Ok in H as (ready & s2 & Hr & H). apply jobs_before_length in Hr. rewrite length_imap in Hr.
  rewrite Hr in H. rewrite (own_number_released _ n k) in H by done.
  rewrite Nat.ltb_irrefl in H. apply stm_bind_Ok in H as (shares & s3 & _ & H).
  by apply stm_bind_Ok in H as (share & s4 & _ & [=]).
Qed.

(** The result of a test is that of its jobs: it does not end if they do not. *)
Lemma test_helper_jobs self rand now opt (s s' : acceptance W) o :
  test_helper self rand now opt s = (Ok o, s') ->
  exists cfg sel draws generator s1 s2 share,
    run_agg_jobs self cfg sel draws generator (opt_reports_per_batch opt) (opt_reports_per_agg_job opt) s1 = (Ok share, s2) /\
    (o = None <-> share = None).
Proof.
  unfold test_helper. destruct (test_helper_impl self rand now opt s) as [r s0] eqn:E. intros H.
  assert (exists o', r = Ok o' /\ (o = None <-> o' = None)) as (o' & -> & Ho).
  { destruct r as [[u|]|e|]; [|by injection H as <- _; exists None| |discriminate H].
    - apply stm_bind_Ok in H as (v & s1 & _ & [= <- _]). by exists (Some u).
    - by apply stm_bind_Ok in H as (v & s1 & _ & [=]). }
  unfold test_helper_impl in E.
  apply stm_bind_Ok in E as (version & s2 & _ & E). apply stm_bind_Ok in E as (cfg & s3 & _ & E).
  apply stm_bind_Ok in E as (m & s4 & _ & E). apply stm_bind_Ok in E as (dist & s5 & _ & E).
  apply stm_bind_Ok in E as (share & s6 & Hr & E). eexists _, _, _, _, _, _, share. split; [exact Hr|].
  rewrite Ho. destruct share as [share|]; [|injection E as <- _; done].
  by apply stm_bind_Ok in E as (v & s7 & _ & [= <- _]).
Qed.

(** A test that is made from the environment has the load control it is made with. *)
Lemma test_from_env_load url v path client lc t :
  test_from_env url v path client lc = Ok t -> t_load_control t = lc.
Proof.
  unfold test_from_env, Test_from_env, Test_new.
  intros (init & _ & (test & (bytes & _ & Ht)%bind_Ok & [= <-])%bind_Ok)%bind_Ok.
  destruct (negb _); [done|]. by injection Ht as <-.
Qed.

(** The command [dapf helper aggregate] runs a test with the load control of its options. *)
Lemma aggregate_command_test rounds rand client url v path n k lc (s s' : acceptance W) o :
  handle_helper_actions rounds rand client (Helper_Aggregate url v path n k lc) s = (Ok o, s') ->
  exists t cfg sel draws generator s1 s2 share,
    cli_into_params (E:=anyhow) lc k n = Ok (t_load_control t) /\
    run_agg_jobs t cfg sel draws generator n k s1 = (Ok share, s2) /\ (o = None <-> share = None).
Proof.
  unfold handle_helper_actions. intros E. apply stm_bind_Ok in E as (lc' & s1 & [= Hlc <-] & E).
  apply stm_bind_Ok in E as (t & s2 & [= Ht <-] & E). apply stm_bind_Ok in E as (o' & s3 & Hr & E).
  apply test_from_env_load in Ht as <-.
  apply test_helper_jobs in Hr as (cfg & sel & draws & generator & s4 & s5 & share & Hr & Ho).
  exists t, cfg, sel, draws, generator, s4, s5, share. split_and!; [done..|]. rewrite <-Ho.
  destruct o' as [u|]; [|injection E as <- _; done]. by apply stm_bind_Ok in E as (st & s6 & _ & [= <- _]).
Qed.

(** It ends, whatever the Helper answers, unless an option says how many requests are to wait for
    each other, or allows none at a time. *)
Theorem aggregate_command_ends rounds rand client url v path n k lc (s : acceptance W) :
  cli_min_requests_before_starting lc = None -> cli_max_concurrent_requests lc <> Some 0 ->
  (handle_helper_actions rounds rand client (Helper_Aggregate url v path n k lc) s).1 <> Ok None.
Proof.
  intros Hm Hp H. destruct (handle_helper_actions _ _ _ _ s) as [r s'] eqn:E. cbn [fst] in H. subst r.
  apply aggregate_command_test in E as (t & cfg & sel & draws & gen & s1 & s2 & share & Hlc & Hr & [Hn _]).
  rewrite (Hn eq_refl) in Hr. revert Hr. unfold cli_into_params, into_params in Hlc. rewrite Hm in Hlc.
  apply bind_Ok in Hlc as (m & Hq & [= Hlc]). by apply run_agg_jobs_ends; rewrite <-Hlc.
Qed.

(** If it allows none at a time, it does not succeed. *)
Theorem aggregate_without_permits rounds rand client url v path n k lc (s : acceptance W) out :
  cli_max_concurrent_requests lc = Some 0 -> 0 < k <= n ->
  (handle_helper_actions rounds rand client (Helper_Aggregate url v path n k lc) s).1 <> Ok (Some out).
Proof.
  intros Hp Hk H. destruct (handle_helper_actions _ _ _ _ s) as [r s'] eqn:E. cbn [fst] in H. subst r.
  apply aggregate_command_test in E as (t & cfg & sel & draws & gen & s1 & s2 & share & Hlc & Hr & [_ Hn]).
  destruct share as [share|]; [|by discriminate (Hn eq_refl)].
  apply run_agg_jobs_released in Hr as (chunks & Hc & Hr).
  destruct (jobs_partition_batch (E:=anyhow) n k Hk) as (chunks' & Hc' & Hs & _).
  rewrite Hc in Hc'. injection Hc' as <-. unfold cli_into_params, into_params in Hlc.
  apply bind_Ok in Hlc as (m & _ & [= Hlc]). rewrite <-Hlc in Hr. unfold released in Hr.
  cbn [max_concurrent_requests] in Hr. rewrite Hp in Hr. destruct chunks; cbn in *; lia.
Qed.
End Main.

(** ** Arguments *)

(** A key encapsulation that is parsed is one that HPKE implements. *)
Lemma kem_alg_parses s k :
  KemAlg_from_str s = Ok k <-> In k KemAlg_value_variants /\ s = KemAlg_to_possible_value k.
Proof.
  split; [|by intros [[<-|[<-|[]]] ->]].
  unfold KemAlg_from_str, value_enum_from_str. cbn [List.find KemAlg_value_variants KemAlg_to_possible_value].
  destruct (String.eqb_spec "x25519_hkdf_sha256" s) as [<-|_]; [intros [= <-]; cbn; auto|].
  destruct (String.eqb_spec "p256_hkdf_sha256" s) as [<-|_]; [intros [= <-]; cbn; auto|done].
Qed.

(** The option is inverted: with [--no-reuse-http-client] the client is reused. *)
Lemma no_reuse_inverted `{RL : Rustls} env cli c : main_client env cli = Ok c ->
  exists tls, client_inner c = if cli_no_reuse_http_client cli then Reuse tls else NoReuse tls.
Proof.
  unfold main_client, HttpClient_new, HttpClient_new_no_reuse.
  destruct (cli_no_reuse_http_client cli); intros ([tls m] & _ & [= <-])%bind_Ok; by exists tls.
Qed.
