(* ===== verification/DapfWitnesses.v ===== *)
(** * The theorems on the command-line client, applied

    A reference implementation of signatures and certificates, a Helper that signs its HPKE
    configuration, a Leader behind its router, and instances of the theorems of [DapfCorrect];
    a Helper that learns of a task from the advertisement of an acceptance test, and a test that
    passes. *)

From S2P Require Import Prelude Codec Messages TaskprovMessages Errors Config Pine Taskprov.
From S2P Require Import AggShare Hpke Protocol LeaderState Roles Leader Auth InMemory Server Router.
From S2P Require Import RouterCorrect JobTest Dapf DapfCorrect Reference Witnesses RouterWitnesses.
From S2P Require Import Acceptance AcceptanceCorrect.
#[local] Existing Instances axum_reference axum_reference_laws base64_letters base64_letters_laws
  base64_letters_plain url_path_reference web_json_reference service_aggregator no_leader.

(** A signature is the key's byte and the text; a certificate is a key's byte. *)
#[local] Instance tagging : Signer := {| SigningKey := byte; sign_to_der k bs := k :: bs |}.
#[local] Instance tagging_laws : SignerLaws := fun k bs => not_eq_sym (@nil_cons byte k bs).
#[local] Instance tags : Webpki := {
  certificate := byte;
  read_file path := if String.eqb path "cert.pem" then Some "PEM"%string else None;
  read_certificate _ := Some Byte.x07;
  verify_signature crt bs sig := bool_decide (sig = crt :: bs);
}.
#[local] Instance signed_service : DaphneService InMemoryAggregator := fun _ => Some Byte.x07.
#[local] Instance segments_reference : UrlSegments := fun u => Some (drop 2 (split_slash u).2).
#[local] Instance no_problem : ProblemJson := fun _ => None.

Definition helper_base : Url := "https://helper/v09/".

(** The client gets the Helper's configuration, whose signature its certificate verifies. *)
Lemma hpke_config_fetched_witness :
  exists s', get_hpke_config (HT:=router_network protected [] [] Role_Helper) helper_base (Some "cert.pem"%string)
    (MkService helper_world []) = (Ok (MkHpkeConfigList [HpkeReceiverConfig_config helper_hpke]), s').
Proof.
  destruct (hpke_config_fetched protected [] [] Role_Helper helper_base
    "https://helper/v09/hpke_config" Draft09 (Some "cert.pem"%string) (HpkeReceiverConfig_config helper_hpke)
    helper_world (w_store helper_world) [])
    as (payload & s' & Hp & H); [reflexivity|vm_compute; reflexivity|reflexivity|reflexivity| |].
  { assert (HpkeConfig_wf (HpkeReceiverConfig_config helper_hpke)) as Hwf by (split_and!; vm_compute; done).
    destruct (codec_is_complete (w:=HpkeConfig_encode) (d:=HpkeConfig_decode) _ Hwf) as (bs & Hw & _).
    pose proof (Hw []) as E. vm_compute in E. injection E as <-.
    split; [by constructor|]. eexists. split; [by constructor|vm_compute; done]. }
  exists s'. destruct H as (r & Hr & [[-> _]|[_ Hn]]); [|exact Hr|].
  - vm_compute in Hp. injection Hp as <-. vm_compute. done.
  - destruct Hn. exists "PEM"%string, Byte.x07, Byte.x07. split_and!; try done.
    cbn. by apply bool_decide_eq_true_2.
Defined.

(** ** The commands for a Leader *)

(** A Leader that answers every URL *)
#[local] Instance leader_network : HttpClient (service InMemoryAggregator) :=
  router_network protected [] [] Role_Leader.

Definition leader_base : Url := "https://leader/v09/".

Definition poll_url : Url :=
  String.append "https://leader" (path_of (collect_path Draft09 task (replicate 16 Byte.x01))).

Lemma leader_answers_all url : leader_answers protected [] url.
Proof.
  intros method headers body w. exists w. unfold http_send, leader_network, router_network.
  by destruct (router_new _ _ _ _ _ _).
Qed.

Lemma leader_commands_unserved_witness :
  (leader_collect (Some (Query_TimeInterval (MkInterval 0 3600))) None leader_base
     (MkService helper_world [])).1 = Err (Fmt "unexpected response: {}" [ArgOpaque]) /\
  forall uri, (leader_collect (Some (Query_TimeInterval (MkInterval 0 3600))) None leader_base
     (MkService helper_world [])).1 <> Ok uri.
Proof.
  split; [vm_compute; reflexivity|]. intros uri.
  eapply (leader_commands_unserved protected [] leader_base "https://leader/v09/upload"
    "https://leader/v09/collect" poll_url Draft09 task (replicate 16 Byte.x01));
    solve [reflexivity|vm_compute; reflexivity|apply leader_answers_all].
Defined.

(** ** The acceptance test *)

#[local] Instance some_measurement : GenMeasurement := fun _ => Ok 7.

Definition test_time : Time := 1000000.

Definition tested_helper : service InMemoryAggregator :=
  MkService (world (new_helper test_time [] [helper_hpke] global_config leader_token
    (HpkeReceiverConfig_config collector_hpke) verify_key_init leader_token)) [].

Definition helper_test : Test :=
  MkTest helper_base (Some leader_token) verify_key_init false (Vdaf.Prio2 10) (Some "cert.pem"%string)
    (MkLoadControlParams (Some 2) 2 None) false.

Definition five_reports : TestOptions := MkTestOptions 5 3 None None.

Definition test_draws : test_rand :=
  MkTestRand ([Byte.x11], [Byte.x12]) (replicate 32 Byte.x33)
    (fun j => (be_bytes 16 (N.of_nat j), fun i => (1000 * N.of_nat i,
       MkReportRand (be_bytes 16 (N.of_nat (100 * j + i))) (be_bytes 8 (N.of_nat i)) ([], [])))).

Lemma helper_base_ok : base_url helper_base.
Proof.
  intros version parts url Hv Hne Hpl Hj. vm_compute in Hv. injection Hv as <-.
  destruct parts as [|p parts]; [done|]. injection Hj as <-.
  set (rest := path_of (p :: parts)).
  assert (split_slash (String.append "https:" (path_of (""%string :: "helper"%string :: "v09"%string :: p :: parts)))
    = ("https:"%string, ""%string :: "helper"%string :: "v09"%string :: p :: parts)) as E.
  { rewrite split_append by done. rewrite split_path_of; [done|]. cbn [forallb].
    apply (forallb_impl plain slashless (p :: parts)) in Hpl; [|apply plain_slashless]. exact Hpl. }
  change (url_path (String.append "https:" (path_of (""%string :: "helper"%string :: "v09"%string :: p :: parts)))
    = path_of ("v09"%string :: p :: parts)).
  unfold url_path, url_path_reference. by rewrite E.
Qed.


(** ** The load test *)

(** Five reports in jobs of two: the jobs wait until two are ready, and there are three. *)
Definition small_combination : MeasurementParameters := MkMeasurementParameters 5 2 (Vdaf.Prio2 10).

Definition load_test : Test :=
  MkTest helper_base (Some leader_token) verify_key_init false (Vdaf.Prio2 10) None
    (MkLoadControlParams None 2 None) false.

(** The configuration of the task, the state after it, and the jobs up to the barrier *)
Definition load_config : stm (acceptance (service InMemoryAggregator)) anyhow TestTaskConfig :=
  generate_task_config (HT:=router_network protected [] [] Role_Helper) load_test (tr_seeds test_draws) Draft09 None 5
    test_time.

Definition load_generator (cfg : TestTaskConfig) :
    list (N * report_rand) -> stm (acceptance (service InMemoryAggregator)) anyhow (list Report) :=
  generate_reports (Vdaf.Prio2 10) (ttc_hpke_config_list cfg) (ttc_task_id cfg) 7 Draft09 (900000, 950000)
    [Extension_Taskprov] false.

Definition load_run (cfg : TestTaskConfig) :
    stm (acceptance (service InMemoryAggregator)) anyhow (option DapAggregateShare) :=
  run_agg_jobs (HT:=router_network protected [] [] Role_Helper) load_test cfg
    (PBS_FixedSizeByBatchId (tr_batch_id test_draws)) (tr_jobs test_draws)
    (load_generator cfg) 5 2.

