(* ===== verification/VdafWitnesses.v ===== *)
(** * Concrete instances of the theorems about the dispatch

    The instance of PINE of [PineReference] over both fields, and in place of Prio2 and Prio3 a
    VDAF that shares a number modulo 257 and proves nothing. *)

From Stdlib Require Import ZArith SpecFloat.
From S2P Require Import Prelude Codec Messages TaskprovMessages Errors Config Pine Taskprov AggShare.
From S2P Require Import PineField PineEncoding PineFlp PineFlpCorrect PineWraparound PineMsg PineVdaf.
From S2P Require Import PineVdafCorrect PineBatch Reference PineReference PineWitnesses.
From S2P Require Import Hpke Protocol DurableStore VdafDispatch VdafDispatchCorrect VdafDispatchPine.
From S2P Require Import JobTest JobTestCorrect.

(** ** Aggregate shares: vectors modulo 257 *)
#[local] Instance vec_agg : PrioAgg := {
  prio_agg_share _ := list Fp.t;
  prio_merge _ a b := if (length a =? length b)%nat then Some (zip_with Fp.add a b) else None;
}.

Lemma add_vec_comm (a b : list Fp.t) : zip_with Fp.add a b = zip_with Fp.add b a.
Proof.
  revert b. induction a as [|x a IH]; intros [|y b]; try done. cbn. rewrite IH. f_equal.
  apply (Ring_theory.Radd_comm Fp.ring).
Qed.

Lemma add_vec_assoc (a b c : list Fp.t) :
  zip_with Fp.add (zip_with Fp.add a b) c = zip_with Fp.add a (zip_with Fp.add b c).
Proof.
  revert b c. induction a as [|x a IH]; intros [|y b] [|z c]; try done. cbn. rewrite IH. f_equal.
  symmetry. apply (Ring_theory.Radd_assoc Fp.ring).
Qed.

#[local] Instance vec_agg_laws : PrioAggLaws vec_agg.
Proof.
  split; cbn.
  - intros _ a b. rewrite Nat.eqb_sym. case_match; [|done]. by rewrite add_vec_comm.
  - intros _ a b c.
    destruct (Nat.eqb_spec (length a) (length b)) as [E1|E1],
      (Nat.eqb_spec (length b) (length c)) as [E2|E2]; cbn; rewrite ?length_zip_with.
    + rewrite (proj2 (Nat.eqb_eq _ _)), (proj2 (Nat.eqb_eq _ _)) by lia. by rewrite add_vec_assoc.
    + by rewrite (proj2 (Nat.eqb_neq _ _)) by lia.
    + by rewrite (proj2 (Nat.eqb_neq _ _)) by lia.
    + done.
Qed.

#[local] Instance reference_seals : HpkeSeals hpke_reference.
Proof. split; by eexists. Qed.

#[local] Instance vec_vec : PrioVec := {
  prio_elem _ := Fp.t;
  agg_to_vec _ v := v;
  agg_from_vec _ v := v;
  elem_encode _ := Fp.encode;
  elem_decode _ := Fp.decode;
  elem_size _ := 2;
  agg_encode _ := encode_each Fp.encode;
}.

(** ** A VDAF that shares a number *)
Definition empty_encode : writer unit := fun _ buf => Ok buf.

Definition sum_kind : vdaf_kind :=
  MkVdafKind unit Fp.t Fp.t unit unit Fp.t (list Fp.t) empty_encode Fp.encode empty_encode
    (fun _ => mret tt) empty_encode (fun _ => mret tt).

Definition sum_vdaf {M R} (to_N : M -> N) (of_N : N -> R) : vdaf sum_kind M R :=
  MkVdaf sum_kind M R
    (fun rand m _ => let r := Fp.of_N (byte_sum rand) in Ok (tt, [Fp.sub (Fp.of_N (to_N m)) r; r]))
    (mret tt) (fun _ => Fp.decode)
    (fun _ _ _ _ share => Ok (share, tt))
    (fun _ => Ok tt)
    (fun state _ => Ok (Transition_Finish state))
    (fun outs => Ok [fold_left Fp.add outs (Fp.of_N 0)])
    (x ← Fp.decode; mret [x])
    (fun shares _ => Ok (of_N (Fp.val (fold_left Fp.add (mjoin shares) (Fp.of_N 0))))).

#[local] Instance sum_vdafs : PrioVdafs := {
  prio3_public _ := unit;
  prio3_input _ := Fp.t;
  prio3_state _ := Fp.t;
  prio3_share _ := unit;
  prio3_message _ := unit;
  prio3_output _ := Fp.t;
  prio3_public_encode _ := empty_encode;
  prio3_input_encode _ := Fp.encode;
  prio3_share_encode _ := empty_encode;
  prio3_share_decode _ _ := mret tt;
  prio3_message_encode _ := empty_encode;
  prio3_message_decode _ _ := mret tt;
  prio2_input := Fp.t;
  prio2_state := Fp.t;
  prio2_share := unit;
  prio2_output := Fp.t;
  prio2_input_encode := Fp.encode;
  prio2_share_encode := empty_encode;
  prio2_share_decode _ := mret tt;
  unit_encode := empty_encode;
  sum_vec := unit;
  SumVec_new _ _ _ := Ok tt;
  Prio3_new_count _ := Ok (sum_vdaf (fun b : bool => if b then 1 else 0) id);
  Prio3_new_histogram _ _ _ := Ok (sum_vdaf id (fun n => [n]));
  Prio3_new_sum _ _ := Ok (sum_vdaf id id);
  Prio3_new_sum_vec _ _ _ _ := Ok (sum_vdaf (default 0 ∘ head) (fun n => [n]));
  Prio3_new _ _ _ _ := Ok (sum_vdaf (default 0 ∘ head) (fun n => [n]));
  Prio2_new _ := Ok {|
    v_shard rand m nonce := v_shard (sum_vdaf (default 0 ∘ head) (fun n => [n])) rand m nonce;
    v_public_decode := unit_decode;
    v_input_decode _ := Fp.decode;
    v_prepare_init _ _ _ _ share := Ok (share, tt);
    v_prepare_shares_to_prepare_message _ := Ok tt;
    v_prepare_next state _ := Ok (Transition_Finish state);
    v_aggregate outs := Ok [fold_left Fp.add outs (Fp.of_N 0)];
    v_aggregate_decode := (x ← Fp.decode; mret [x]);
    v_unshard shares _ := Ok [Fp.val (fold_left Fp.add (mjoin shares) (Fp.of_N 0))];
  |};
}.

(** ** PINE over both fields *)
#[local] Instance backend (f : field_kind) : PineBackend f := {
  pb_field := fp_field;
  pb_xof := fp_xof;
  pb_flp := main_flp;
  pb_flp_sne := sne_flp;
  agg_share_from v := v;
}.

Lemma backend_laws f : PineBackendLaws f (backend f).
Proof.
  split.
  - intros u v H%Nat.eqb_eq. cbn in u, v, H |- *. by rewrite H.
  - done.
Qed.

(** ** One bit, counted *)
Definition count_vdaf : vdaf (Prio3 P3_Field64_16) bool N := sum_vdaf (fun b : bool => if b then 1 else 0) id.

Lemma empty_encoded : encoded_as empty_encode (mret tt) tt.
Proof. exists []. split_and!; [intros buf; by rewrite app_nil_r|reflexivity|done]. Qed.

Lemma number_encoded x :
  get_decoded Fp.decode (be_bytes 2 (Fp.val x)) = Ok x -> encoded_as Fp.encode Fp.decode x.
Proof. intros H. exists (be_bytes 2 (Fp.val x)). split_and!; [by intros buf|done|]. unfold len. by rewrite length_be_bytes. Qed.

Lemma dispatch_run_witness :
  let key := replicate 16 Byte.x01 in
  exists a0 a1,
    dap_run (VO:=dispatch) (Vdaf.Prio3 Prio3_Count) (L16 key) [Byte.x05] (Meas_U64 1) [Byte.x02] a0 a1.
Proof.
  intros key. eexists _, _.
  eapply (dispatch_run (Vdaf.Prio3 Prio3_Count) (Meas_U64 1) _ _ _
    count_vdaf true (one_share count_vdaf VAS_Field64) Result_U64 key (L16 key)
    [Byte.x05] [Byte.x02] (Fp.of_N 253) (Fp.of_N 5)).
  - apply (dispatched_count count_vdaf true). reflexivity.
  - reflexivity.
  - eexists tt, (Fp.of_N 253), (Fp.of_N 5), _, tt, _, tt, tt. split.
    + split_and!; reflexivity.
    + split_and!; [exact empty_encoded|apply number_encoded; reflexivity..|exact empty_encoded|exact empty_encoded].
  - reflexivity.
  - reflexivity.
Defined.

(** ** PINE *)
Definition pine257_32 : Pine :=
  get_ok pine257 (Pine_new felem_field pine_param VDAF_TYPE_PINE_FIELD32_HMAC_SHA256_AES128).

Lemma pine257_32_new :
  Pine_new felem_field pine_param VDAF_TYPE_PINE_FIELD32_HMAC_SHA256_AES128 = Ok pine257_32.
Proof. apply get_ok_eq. vm_compute. reflexivity. Qed.

Lemma pine257_32_circuits :
  pine_circuits (G1:=main_gadget) (G2:=sne_gadget) (Pine_flp pine257_32) (Pine_flp_sq_norm_equal pine257_32).
Proof.
  split; [split| | | | | ]; try (vm_compute; reflexivity); intros inp s _; by exists s.
Qed.

Lemma pine257_32_total : pine_total pine257_32.
Proof. split; split; intros; try exact I; apply zeros_len. Qed.

Definition config257 : PineConfig := Pine_Field32HmacSha256Aes128 pine_param.
Definition key257 : list byte := replicate 32 Byte.x07.

Lemma dap257_sharded r :
  len (dap_rand r) = 7 ->
  is_ok (shard_with_rand pine257_32 (dap_gradient r) (dap_nonce r) (shard_rand (dap_rand r))) = true ->
  is_ok (query_rands (E:=PrioVdafError) pine257_32 key257 (dap_nonce r)) = true ->
  dap_sharded pine257_32 (fun _ => True) key257 r.
Proof.
  intros Hlen [[pub shares] H1]%ok_res [[qr_s qr] H2]%ok_res. split; [exact Hlen|].
  split; [by eexists _, _|]. exists qr_s, qr. split; [done|]. split; by apply Forall_forall.
Qed.

(** ** The whole flow *)

(** The draws of the setup: the HPKE seeds are the keys. *)
Definition setup (verify_key : list byte) : new_rand :=
  MkNewRand (replicate 32 Byte.x00) verify_key (1, [Byte.x0a]) (2, [Byte.x0b]) (3, [Byte.x0c]).

(** Three bits: 1, 0 and 1. *)
Definition count_rand (i : nat) : report_rand :=
  let b := byte_of_N (N.of_nat i) in MkReportRand (replicate 16 b) [b] ([b], [b]).

Definition count_key : list byte := replicate 16 Byte.x01.
Definition count_shares (x i : N) : VdafAggregateShare * VdafAggregateShare :=
  let r := Fp.of_N i in (VAS_Field64 (PA:=vec_agg) [Fp.sub (Fp.of_N x) r], VAS_Field64 (PA:=vec_agg) [r]).

Lemma count_run (b : bool) i :
  (i < 3)%nat ->
  dap_run (VO:=dispatch) (Vdaf.Prio3 Prio3_Count) (L16 count_key) (rr_shard (count_rand i))
    (Meas_U64 (if b then 1 else 0)) (rr_report_id (count_rand i))
    (count_shares (if b then 1 else 0) (N.of_nat i)).1 (count_shares (if b then 1 else 0) (N.of_nat i)).2.
Proof.
  intros Hi. pose (r := Fp.of_N (N.of_nat i)). pose (l := Fp.sub (Fp.of_N (if b then 1 else 0)) r).
  exists [], (be_bytes 2 (Fp.val l)), (be_bytes 2 (Fp.val r)), (PrepState_Prio3Field64 (VS:=sum_vdafs) l),
    (PrepareShare_Prio3Field64 (VS:=sum_vdafs) tt), (PrepState_Prio3Field64 (VS:=sum_vdafs) r), (PrepareShare_Prio3Field64 (VS:=sum_vdafs) tt), [], [].
  split_and!; [..|intros buf; by rewrite app_nil_r| | |by repeat constructor].
  all: destruct i as [|[|[|i]]]; [..|lia]; destruct b; reflexivity.
Qed.
Lemma roundtrip_exact_witness :
  exists self,
    AggregationJobTest_new (E:=DapError) (setup count_key) 1000 (Vdaf.Prio3 Prio3_Count) X25519HkdfSha256
      Draft09 = Ok self /\
    roundtrip (VO:=dispatch) count_rand ([Byte.x01], [Byte.x02]) self AggParam_Empty
      [Meas_U64 1; Meas_U64 0; Meas_U64 1] [] = (Ok (Result_U64 2), []).
Proof.
  apply (roundtrip_exact (VO:=dispatch) (setup count_key) 1000 (Vdaf.Prio3 Prio3_Count) X25519HkdfSha256 Draft09
    count_rand ([Byte.x01], [Byte.x02]) AggParam_Empty [Meas_U64 1; Meas_U64 0; Meas_U64 1]
    [count_shares 1 0; count_shares 0 1; count_shares 1 2] (VAS_Field64 (PA:=vec_agg) [Fp.of_N 256])
    (VAS_Field64 (PA:=vec_agg) [Fp.of_N 3])
    [Byte.x01; Byte.x00] [Byte.x00; Byte.x03] (Result_U64 2) []).
  - by right.
  - lia.
  - unfold u64_max. lia.
  - reflexivity.
  - unfold u64_max. by vm_compute.
  - intros i x a Hx Ha. destruct i as [|[|[|i]]]; [..|done]; injection Hx as <-; injection Ha as <-.
    + by apply (count_run true 0); lia.
    + by apply (count_run false 1); lia.
    + by apply (count_run true 2); lia.
  - apply (bool_decide_unpack _). vm_compute. exact I.
  - vm_compute. reflexivity.
  - vm_compute. reflexivity.
  - vm_compute. reflexivity.
  - by vm_compute.
  - vm_compute. reflexivity.
  - by vm_compute.
  - vm_compute. reflexivity.
Defined.

(** Two gradients, over the field of 257 elements. *)
Definition pine_rand (i : nat) : report_rand :=
  match i with
  | O => MkReportRand (replicate 16 Byte.x01) (replicate 7 Byte.x04) ([], [])
  | _ => MkReportRand (replicate 16 Byte.x02) (replicate 7 Byte.x09) ([], [])
  end.

Lemma pine_roundtrip_witness :
  exists self ys,
    AggregationJobTest_new (E:=DapError) (setup key257) 1000 (Vdaf.Pine config257) P256HkdfSha256 Latest
    = Ok self /\
    roundtrip (VO:=dispatch) pine_rand ([], []) self AggParam_Empty
      (Meas_F64Vec <$> [[half; minus_one]; [three_halves; half]]) [] = (Ok (Result_F64Vec ys), []) /\
    Forall2 (fun y v => scaled_is y 1 v) ys [4; -1]%Z.
Proof.
  apply (pine_roundtrip config257 FieldPrio2 (backend FieldPrio2) pine_param
    VDAF_TYPE_PINE_FIELD32_HMAC_SHA256_AES128 VAS_Field32 pine257_32 (fun _ => True) 3%Z (setup key257) 1000
    P256HkdfSha256 Latest pine_rand ([], []) AggParam_Empty [[half; minus_one]; [three_halves; half]]
    [[1; -2]; [3; 1]]%Z [] (pine_at_32 pine_param) (backend_laws FieldPrio2)
    fp_laws fp_xof_laws pine_param_wf pine257_32_new (fp_flps pine257_32) pine257_32_circuits
    pine257_32_total).
  - vm_compute. discriminate.
  - reflexivity.
  - by left.
  - lia.
  - unfold u64_max. lia.
  - reflexivity.
  - discriminate.
  - by vm_compute.
  - constructor; [|constructor; [|constructor]]; apply dap257_sharded; vm_compute; reflexivity.
  - apply (bool_decide_unpack _). vm_compute. exact I.
  - lia.
  - reflexivity.
  - reflexivity.
  - constructor; [|constructor; [|constructor]]; split; repeat constructor; vm_compute;
      discriminate || reflexivity.
Defined.

