(* ===== verification/ProtocolTests.v ===== *)
(** * The tests of the aggregation sub-protocol

    The module [test] of [src/crates/daphne/src/protocol/mod.rs]: the tests of one aggregation job,
    on the harness [AggregationJobTest] of [JobTest.v].  A test panics when an assertion does not
    hold, as in the source.  Its state is the metrics of the Leader and the number of the next draw
    of [rand], a function of that number and of the number of bytes; the clock is [now].  The VDAFs
    are those of [VdafDispatch.v].  [RolesTests.v] runs the tests. *)

From S2P Require Import Prelude Codec Messages TaskprovMessages Errors Config AggShare Hpke.
From S2P Require Import Protocol ProtocolCorrect Pine PineField PineEncoding PineFlp PineMsg PineVdaf Taskprov.
From S2P Require Import InMemory JobTest Metrics MetricsCorrect DurableStore VdafDispatch.

(** ** Assertions *)
Section Assertions.
Context {S : Type}.
Abbreviation tst A := (stm S Empty_set A).

Definition test_panic {A} : tst A := fun s => (Panic, s).

(** [assert!] *)
Definition test_assert (b : bool) : tst unit := if b then mret tt else test_panic.

(** [.unwrap()] and [.unwrap_err()] *)
Definition test_unwrap {E A} (r : res E A) : tst A :=
  match r with Ok a => mret a | _ => test_panic end.

Definition test_unwrap_err {E A} (r : res E A) : tst E :=
  match r with Err e => mret e | _ => test_panic end.

Definition test_some {A} (o : option A) : tst A :=
  match o with Some a => mret a | None => test_panic end.
End Assertions.

(** ** Metrics *)
Section Registry.
Context {P : Type} `{PR : Prometheus P} `{PV : !PrometheusView PR} (registry0 : P).

(** [assert_metrics_include!]: the values of counters, by collector and label *)
Definition assert_metrics_include {S} (events : metrics)
    (expected : list ((DaphnePromMetrics P -> Collector) * string * N)) : stm S Empty_set unit :=
  match DaphnePromMetrics_register registry0 with
  | (Ok m, p) =>
      let p := fold_left (fun p e => (prom_metric m e p).2) events p in
      test_assert (forallb (fun '(c, label, n) => counter_value p (c m) [label] =? n) expected)
  | _ => test_panic
  end.

End Registry.

(** ** The harness *)
Section Tests.
Context `{BP : BuildProfile} `{PC : PrioCodec} `{PA : PrioAgg} `{PVec : !PrioVec} `{VS : !PrioVdafs}.
Context `{P32 : !PineBackend AggShare.FieldPrio2} `{P64 : !PineBackend AggShare.Field64}.
Context `{Dg : Digest} `{HC : HpkeCrypto}.
Context {P : Type} `{PR : Prometheus P} `{PV : !PrometheusView PR} (registry0 : P).
Context (rand : N -> nat -> list byte) (now : Time).
Abbreviation pt A := (stm (metrics * N) Empty_set A).

Definition TEST_VDAF : Vdaf.VdafConfig := Vdaf.Prio3 Prio3_Count.

(** [rng.gen()] *)
Definition pt_gen (n : nat) : pt (list byte) := fun '(m, k) => (Ok (rand k n), (m, k + 1)).

Definition pt_gen_u8 : pt N := bs ← pt_gen 1; mret (be_value bs).

(** A call that counts metrics of the Leader. *)
Definition count_leader {A} (f : stm metrics Empty_set A) : pt A := fun '(m, k) => let '(r, m) := f m in (r, (m, k)).

(** The randomness of [AggregationJobTest::new] and of a report, drawn *)
Definition draw_receiver : pt (N * list byte) := id ← pt_gen_u8; seed ← pt_gen 32; mret (id, seed).

Definition draw_new : pt new_rand :=
  task_id ← pt_gen 32;
  verify_key ← pt_gen 32;
  leader ← draw_receiver;
  helper ← draw_receiver;
  collector ← draw_receiver;
  mret (MkNewRand task_id verify_key leader helper collector).

Definition draw_report : pt report_rand :=
  report_id ← pt_gen 16;
  seed ← pt_gen 256;
  seed1 ← pt_gen 32;
  seed2 ← pt_gen 32;
  mret (MkReportRand report_id seed (seed1, seed2)).

(** [AggregationJobTest::new(TEST_VDAF, HpkeKemId::X25519HkdfSha256, version)] *)
Definition test_job (version : DapVersion) : pt AggregationJobTest :=
  r ← draw_new;
  lift (AggregationJobTest_new r now TEST_VDAF X25519HkdfSha256 version).

(** [t.produce_reports(measurements)] *)
Fixpoint test_reports (t : AggregationJobTest) (measurements : list Measurement) : pt (list Report) :=
  match measurements with
  | [] => mret []
  | measurement :: measurements =>
      r ← draw_report;
      report ← lift (job_produce_report r t measurement);
      reports ← test_reports t measurements;
      mret (report :: reports)
  end.

(** [t.task_config.vdaf.produce_report_with_extensions(.., time, .., DapMeasurement::U64(1), extensions, ..)] *)
Definition report_with_extensions (t : AggregationJobTest) (hpke_config_list : HpkeConfig * HpkeConfig) (time : Time)
    (extensions : list Extension) : pt (res DapError Report) :=
  r ← draw_report;
  mret (produce_report_with_extensions (rr_report_id r) (rr_shard r) (rr_seeds r)
    (DapTaskConfig_vdaf (ajt_task_config t)) hpke_config_list time (ajt_task_id t) (Meas_U64 1) extensions
    (DapTaskConfig_version (ajt_task_config t))).

(** A report of the time [time] *)
Definition report_at (t : AggregationJobTest) (time : Time) : pt Report :=
  r ← report_with_extensions t (ajt_client_hpke_config_list t) time []; test_unwrap r.

Definition test_req (t : AggregationJobTest) (reports : list Report) :
    pt (DapAggregationJobState * AggregationJobInitReq) :=
  count_leader (job_produce_agg_job_req t AggParam_Empty reports).

Definition test_resp (t : AggregationJobTest) (req : AggregationJobInitReq) :
    pt (DapAggregateSpan DapAggregateShare * AggregationJobResp) :=
  lift (job_handle_agg_job_req t req).

(** [x ^= mask] on the first byte *)
Definition xor_first (mask : N) (bs : list byte) : pt (list byte) :=
  match bs with
  | b :: bs => mret (byte_of_N (N.lxor (Byte.to_N b) mask) :: bs)
  | [] => test_panic
  end.

Definition xor_payload (ct : HpkeCiphertext) : pt HpkeCiphertext :=
  payload ← xor_first 1 (HpkeCiphertext_payload ct);
  mret (MkHpkeCiphertext (HpkeCiphertext_config_id ct) (HpkeCiphertext_enc ct) payload).

Definition xor_config_id (ct : HpkeCiphertext) : pt HpkeCiphertext :=
  mret (MkHpkeCiphertext (N.lxor (HpkeCiphertext_config_id ct) 1) (HpkeCiphertext_enc ct) (HpkeCiphertext_payload ct)).

(** A change of [report.encrypted_input_shares[0]], and of [report.encrypted_input_shares[1]] *)
Definition on_leader_share (f : HpkeCiphertext -> pt HpkeCiphertext) (report : Report) : pt Report :=
  let '(leader, helper) := Report_encrypted_input_shares report in
  leader ← f leader;
  mret (MkReport (Report_report_metadata report) (Report_public_share report) (leader, helper)).

Definition on_helper_share (f : HpkeCiphertext -> pt HpkeCiphertext) (report : Report) : pt Report :=
  let '(leader, helper) := Report_encrypted_input_shares report in
  helper ← f helper;
  mret (MkReport (Report_report_metadata report) (Report_public_share report) (leader, helper)).

(** [t.valid_report_range = range] *)
Definition with_range (t : AggregationJobTest) (range : Time * Time) : AggregationJobTest :=
  let 'MkAggregationJobTest tid c l h cl co rp now _ := t in MkAggregationJobTest tid c l h cl co rp now range.

(** [assert_metrics_include!(t.leader_registry, { report_counter{.., status=label}: n })] *)
Definition leader_registry_counts (label : string) (n : N) : pt unit := fun '(m, k) =>
  assert_metrics_include registry0 m [(report_counter, label, n)] (m, k).

(** The tests of the Leader: none of the reports is in the job, and the counter of rejections with
    the label [label] is [n]. *)
Definition leader_rejects (t : AggregationJobTest) (reports : list Report) (label : string) (n : N) : pt unit :=
  '(agg_job_state, _) ← test_req t reports;
  _ ← test_assert (DapAggregationJobState_report_count agg_job_state =? 0);
  leader_registry_counts label n.

(** [assert_matches!(agg_job_resp.transitions[i].var, TransitionVar::Failed(failure))] for each, and
    the number of transitions *)
Definition all_failed (resp : AggregationJobResp) (failures : list TransitionFailure) : pt unit :=
  _ ← test_assert (len (AggregationJobResp_transitions resp) =? len failures);
  test_assert (bool_decide (Transition_var <$> AggregationJobResp_transitions resp = Failed <$> failures)).

(** The tests of the Helper: it rejects the report, which the Leader takes. *)
Definition helper_rejects (t leader : AggregationJobTest) (report : Report) (failure : TransitionFailure) : pt unit :=
  '(_, agg_job_init_req) ← test_req leader [report];
  '(_, agg_job_resp) ← test_resp t agg_job_init_req;
  all_failed agg_job_resp [failure].

(** [assert_matches!(t.consume_agg_job_resp_expect_err(..), DapError::Abort(DapAbort::InvalidMessage { .. }))] *)
Definition leader_aborts (t : AggregationJobTest) (leader_state : DapAggregationJobState) (resp : AggregationJobResp) : pt unit :=
  e ← count_leader (consume_agg_job_resp_expect_err t leader_state resp);
  test_assert (match e with Abort_ (Abort_InvalidMessage _ _) => true | _ => false end).

(** [EarlyReportStateConsumed::consume(..)] of a share of a report *)
Definition test_consume (t : AggregationJobTest) (is_leader : bool) (report : Report) : pt EarlyReportStateConsumed :=
  let receiver := if is_leader then ajt_leader_hpke_receiver_config t else ajt_helper_hpke_receiver_config t in
  let shares := Report_encrypted_input_shares report in
  test_unwrap (EarlyReportStateConsumed_consume (receiver_decrypter receiver) (job_initializer t) is_leader
    (ajt_task_id t) (ajt_task_config t)
    (MkReportShare (Report_report_metadata report) (Report_public_share report) (if is_leader then shares.1 else shares.2))
    None).

(** [let EarlyReportStateInitialized::Ready { prep_share, prep_state, .. } = .. else { panic! }] *)
Definition test_initialize (t : AggregationJobTest) (is_leader : bool) (consumed : EarlyReportStateConsumed) :
    pt (PrepState * PrepareShare) :=
  initialized ← test_unwrap (EarlyReportStateInitialized_initialize is_leader
    (DapTaskConfig_vdaf_verify_key (ajt_task_config t)) (DapTaskConfig_vdaf (ajt_task_config t)) AggParam_Empty consumed);
  match initialized with
  | Initialized_Ready _ _ _ prep_share prep_state => mret (prep_state, prep_share)
  | Initialized_Rejected _ _ => test_panic
  end.

(** *** Reports that are not valid *)

(** A report of the shares of [measurement] after a change [f] *)
Definition produce_invalid_report (t : AggregationJobTest) (measurement : Measurement) (version : DapVersion)
    (f : list byte * (list byte * list byte) -> pt (list byte * (list byte * list byte))) : pt Report :=
  r ← draw_report;
  shares ← test_unwrap (produce_input_shares (rr_shard r) (DapTaskConfig_vdaf (ajt_task_config t)) measurement (rr_report_id r));
  '(invalid_public_share, invalid_input_shares) ← f shares;
  test_unwrap (produce_report_with_extensions_for_shares (rr_seeds r) invalid_public_share invalid_input_shares
    (ajt_client_hpke_config_list t) (ajt_now t) (ajt_task_id t) (rr_report_id r) [] version).

Definition produce_invalid_report_vdaf_prep_failure (t : AggregationJobTest) (measurement : Measurement)
    (version : DapVersion) : pt Report :=
  produce_invalid_report t measurement version (fun '(public, (leader, helper)) =>
    helper ← xor_first 1 helper; mret (public, (leader, helper))).

Definition produce_invalid_report_public_share_decode_failure (t : AggregationJobTest) (measurement : Measurement)
    (version : DapVersion) : pt Report :=
  produce_invalid_report t measurement version (fun '(public, shares) => mret (public ++ [Byte.x01], shares)).

Definition produce_invalid_report_input_share_decode_failure (t : AggregationJobTest) (measurement : Measurement)
    (version : DapVersion) : pt Report :=
  produce_invalid_report t measurement version (fun '(public, (leader, helper)) =>
    mret (public, (leader ++ [Byte.x01], helper ++ [Byte.x01]))).

(** ** The tests *)
Abbreviation count_vdaf := (vdaf (VdafDispatch.Prio3 P3_Field64_16) bool N).

(** [assert_matches!(vdaf.prepare_next(..).unwrap(), PrepareTransition::Finish(out_share) => out_share)],
    and [vdaf.aggregate(&(), [out_share]).unwrap()] *)
Definition finish_and_aggregate (vdaf : count_vdaf) (step : prio3_state P3_Field64_16)
    (message : prio3_message P3_Field64_16) : pt (prio_agg_share AggShare.Field64) :=
  transition ← test_unwrap (v_prepare_next vdaf step message);
  match transition with
  | Transition_Finish out_share => test_unwrap (v_aggregate vdaf [out_share])
  | Transition_Continue => test_panic
  end.

Definition test_roundtrip_report (version : DapVersion) : pt unit :=
  t ← test_job version;
  report ← report_at t (ajt_now t);
  consumed ← test_consume t true report;
  '(leader_prep_state, leader_prep_share) ← test_initialize t true consumed;
  consumed ← test_consume t false report;
  '(helper_prep_state, helper_prep_share) ← test_initialize t false consumed;
  match leader_prep_state, helper_prep_state, leader_prep_share, helper_prep_share with
  | PrepState_Prio3Field64 leader_step, PrepState_Prio3Field64 helper_step,
    PrepareShare_Prio3Field64 leader_share, PrepareShare_Prio3Field64 helper_share =>
      test_unwrap (Prio3_new_count 2) ≫= fun vdaf : count_vdaf =>
      message ← test_unwrap (v_prepare_shares_to_prepare_message vdaf [leader_share; helper_share]);
      leader_agg_share ← finish_and_aggregate vdaf leader_step message;
      helper_agg_share ← finish_and_aggregate vdaf helper_step message;
      sum ← test_unwrap (v_unshard vdaf [leader_agg_share; helper_agg_share] 1);
      test_assert (sum =? 1)
  | _, _, _, _ => test_panic
  end.

Definition test_roundtrip_report_unsupported_hpke_suite (version : DapVersion) : pt unit :=
  t ← test_job version;
  id ← pt_gen_u8;
  let unsupported := MkHpkeConfig id (KemId_NotImplemented 999) HkdfSha256 Aes128Gcm
    (String.list_byte_of_string "some KEM public key") in
  res ← report_with_extensions t ((ajt_client_hpke_config_list t).1, unsupported) (ajt_now t) [];
  test_assert (match res with
    | Err (Fatal (Fmt s [ArgNum kem; ArgNum kdf; ArgNum aead])) =>
        String.eqb s "HPKE ciphersuite not implemented ({}, {}, {})" &&
        ((kem =? 999) && (kdf =? 1) && (aead =? 1))
    | _ => false
    end).

Definition test_produce_agg_job_req (version : DapVersion) : pt unit :=
  t ← test_job version;
  reports ← test_reports t [Meas_U64 1; Meas_U64 0; Meas_U64 0];
  '(agg_job_state, agg_job_init_req) ← test_req t reports;
  _ ← test_assert (DapAggregationJobState_report_count agg_job_state =? 3);
  _ ← test_assert (len (AggregationJobInitReq_agg_param agg_job_init_req) =? 0);
  _ ← test_assert (len (AggregationJobInitReq_prep_inits agg_job_init_req) =? 3);
  _ ← test_assert (bool_decide (Forall2 eq
        ((fun p => ReportMetadata_id (ReportShare_report_metadata (PrepareInit_report_share p))) <$>
           AggregationJobInitReq_prep_inits agg_job_init_req)
        ((fun r => ReportMetadata_id (Report_report_metadata r)) <$> reports)));
  '(agg_span, agg_job_resp) ← test_resp t agg_job_init_req;
  _ ← test_assert (DapAggregateSpan_report_count agg_span =? 3);
  test_assert (len (AggregationJobResp_transitions agg_job_resp) =? 3).

Definition test_produce_agg_job_req_skip_hpke_decrypt_err (version : DapVersion) : pt unit :=
  t ← test_job version;
  report ← report_at t (ajt_now t);
  report ← on_leader_share xor_payload report;
  leader_rejects t [report] "rejected_hpke_decrypt_error" 1.

Definition test_produce_agg_job_req_skip_time_too_stale (version : DapVersion) : pt unit :=
  t ← test_job version;
  time ← lift (u64_sub (ajt_valid_report_range t).1 1);
  report ← report_at t time;
  leader_rejects t [report] "rejected_report_dropped" 1.

Definition test_produce_agg_job_req_skip_time_too_early (version : DapVersion) : pt unit :=
  t ← test_job version;
  time ← lift (u64_add (ajt_valid_report_range t).2 1);
  report ← report_at t time;
  leader_rejects t [report] "rejected_report_too_early" 1.

Definition test_produce_agg_job_req_skip_hpke_unknown_config_id (version : DapVersion) : pt unit :=
  t ← test_job version;
  report ← report_at t (ajt_now t);
  report ← on_leader_share xor_config_id report;
  leader_rejects t [report] "rejected_hpke_unknown_config_id" 1.

Definition test_produce_agg_job_req_skip_vdaf_prep_error (version : DapVersion) : pt unit :=
  t ← test_job version;
  report0 ← produce_invalid_report_public_share_decode_failure t (Meas_U64 1) version;
  report1 ← produce_invalid_report_input_share_decode_failure t (Meas_U64 1) version;
  leader_rejects t [report0; report1] "rejected_vdaf_prep_error" 2.

Definition test_handle_agg_job_req_hpke_decrypt_err (version : DapVersion) : pt unit :=
  t ← test_job version;
  report ← report_at t (ajt_now t);
  report ← on_helper_share xor_payload report;
  helper_rejects t t report HpkeDecryptError.

Definition test_handle_agg_job_req_skip_time_too_stale (version : DapVersion) : pt unit :=
  t ← test_job version;
  time ← lift (u64_sub (ajt_valid_report_range t).1 1);
  report ← report_at t time;
  helper_rejects t (with_range t (0, u64_max)) report ReportDropped.

Definition test_handle_agg_job_req_skip_time_too_early (version : DapVersion) : pt unit :=
  t ← test_job version;
  time ← lift (u64_add (ajt_valid_report_range t).2 1);
  report ← report_at t time;
  helper_rejects t (with_range t (0, u64_max)) report ReportTooEarly.

Definition test_handle_agg_job_req_hpke_unknown_config_id (version : DapVersion) : pt unit :=
  t ← test_job version;
  report ← report_at t (ajt_now t);
  report ← on_helper_share xor_config_id report;
  helper_rejects t t report HpkeUnknownConfigId.

Definition test_handle_agg_job_req_vdaf_prep_error (version : DapVersion) : pt unit :=
  t ← test_job version;
  report0 ← produce_invalid_report_public_share_decode_failure t (Meas_U64 1) version;
  report1 ← produce_invalid_report_input_share_decode_failure t (Meas_U64 1) version;
  let prep_init report := MkPrepareInit
    (MkReportShare (Report_report_metadata report) (Report_public_share report) (Report_encrypted_input_shares report).2)
    (String.list_byte_of_string "malformed payload") in
  '(_, agg_job_resp) ← test_resp t (MkAggregationJobInitReq [] PBS_TimeInterval [prep_init report0; prep_init report1]);
  all_failed agg_job_resp [VdafPrepError; VdafPrepError].

(** The Helper's response to a job with [n] reports after a change [f] is one the Leader aborts on. *)
Definition resp_aborts (version : DapVersion) (n : nat) (f : list Transition -> pt (list Transition)) : pt unit :=
  t ← test_job version;
  reports ← test_reports t (replicate n (Meas_U64 1));
  '(leader_state, agg_job_init_req) ← test_req t reports;
  '(_, agg_job_resp) ← test_resp t agg_job_init_req;
  transitions ← f (AggregationJobResp_transitions agg_job_resp);
  leader_aborts t leader_state (MkAggregationJobResp transitions).

Definition test_agg_job_resp_abort_transition_out_of_order (version : DapVersion) : pt unit :=
  resp_aborts version 2 (fun transitions =>
    match transitions with
    | t0 :: t1 :: rest => mret (t1 :: t0 :: rest)
    | _ => test_panic
    end).

Definition test_agg_job_resp_abort_report_id_repeated (version : DapVersion) : pt unit :=
  resp_aborts version 2 (fun transitions =>
    repeated_transition ← test_some (head transitions);
    mret (transitions ++ [repeated_transition])).

Definition test_agg_job_resp_abort_unrecognized_report_id (version : DapVersion) : pt unit :=
  resp_aborts version 2 (fun transitions =>
    report_id ← pt_gen 16;
    mret (transitions ++ [MkTransition report_id (Continued (String.list_byte_of_string "whatever"))])).

Definition test_agg_job_resp_abort_invalid_transition (version : DapVersion) : pt unit :=
  resp_aborts version 1 (fun transitions =>
    match transitions with
    | MkTransition id var :: rest => id ← xor_first 1 id; mret (MkTransition id var :: rest)
    | [] => test_panic
    end).

(** [let VdafAggregateShare::Field64(share) = span.collapsed().data.unwrap() else { panic! }] *)
Definition field64_share (span : DapAggregateSpan DapAggregateShare) : pt (prio_agg_share AggShare.Field64) :=
  share ← test_unwrap (DapAggregateSpan_collapsed span);
  data ← test_some (DapAggregateShare_data share);
  match data with VAS_Field64 share => mret share | _ => test_panic end.

Definition test_finish_agg_job (version : DapVersion) : pt unit :=
  t ← test_job version;
  reports ← test_reports t [Meas_U64 1; Meas_U64 1; Meas_U64 0; Meas_U64 0; Meas_U64 1];
  '(leader_state, agg_job_init_req) ← test_req t reports;
  '(helper_agg_span, agg_job_resp) ← test_resp t agg_job_init_req;
  leader_agg_span ← count_leader (job_consume_agg_job_resp t leader_state agg_job_resp);
  _ ← test_assert (DapAggregateSpan_report_count leader_agg_span =? 5);
  let num_measurements := DapAggregateSpan_report_count leader_agg_span in
  leader_agg_share ← field64_share leader_agg_span;
  helper_agg_share ← field64_share helper_agg_span;
  test_unwrap (Prio3_new_count 2) ≫= fun vdaf : count_vdaf =>
  sum ← test_unwrap (v_unshard vdaf [leader_agg_share; helper_agg_share] num_measurements);
  test_assert (sum =? 3).

Definition test_agg_job_init_req_skip_vdaf_prep_error_draft09 : pt unit :=
  t ← test_job Draft09;
  reports ← test_reports t [Meas_U64 1; Meas_U64 1];
  invalid ← produce_invalid_report_vdaf_prep_failure t (Meas_U64 1) Draft09;
  let reports := take 1 reports ++ [invalid] ++ drop 1 reports in
  '(leader_state, agg_job_init_req) ← test_req t reports;
  let prep_init_ids :=
    (fun p => ReportMetadata_id (ReportShare_report_metadata (PrepareInit_report_share p))) <$>
      AggregationJobInitReq_prep_inits agg_job_init_req in
  '(helper_agg_span, agg_job_resp) ← test_resp t agg_job_init_req;
  _ ← test_assert (DapAggregateSpan_report_count helper_agg_span =? 2);
  _ ← test_assert (len (AggregationJobResp_transitions agg_job_resp) =? 3);
  _ ← test_assert (forallb (fun '(transition, prep_init_id) => bool_decide (Transition_report_id transition = prep_init_id))
        (zip (AggregationJobResp_transitions agg_job_resp) prep_init_ids));
  leader_agg_span ← count_leader (job_consume_agg_job_resp t leader_state agg_job_resp);
  test_assert (DapAggregateSpan_report_count leader_agg_span =? 2).

Definition test_encrypted_agg_share (version : DapVersion) : pt unit :=
  t ← test_job version;
  let agg_share n := MkDapAggregateShare 50 1637359200 1637359200 (replicate 32 Byte.x00)
    (Some (VAS_Field64 (agg_share_from (f:=AggShare.Field64) [of_int n]))) in
  let batch_selector := BS_TimeInterval (MkInterval 1637359200 7200) in
  seed ← pt_gen 32;
  leader ← lift (job_produce_leader_encrypted_agg_share seed t batch_selector AggParam_Empty (agg_share 23));
  seed ← pt_gen 32;
  helper ← lift (job_produce_helper_encrypted_agg_share seed t batch_selector AggParam_Empty (agg_share 9));
  agg_res ← lift (job_consume_encrypted_agg_shares t batch_selector 50 AggParam_Empty [leader; helper]);
  test_assert (match (agg_res : AggregateResult) with Result_U64 x => x =? 32 | _ => false end).

(** The Leader rejects a report with these extensions. *)
Definition extensions_rejected (version : DapVersion) (extensions : list Extension) : pt unit :=
  t ← test_job version;
  r ← report_with_extensions t (ajt_client_hpke_config_list t) (ajt_now t) extensions;
  report ← test_unwrap r;
  consumed_report ← test_consume t true report;
  _ ← test_assert (bool_decide (Consumed_metadata consumed_report = Report_report_metadata report));
  test_assert (negb (Consumed_is_ready consumed_report)).

Definition test_handle_unrecognized_report_extensions (version : DapVersion) : pt unit :=
  extensions_rejected version [Extension_NotImplemented 65535 (String.list_byte_of_string "some extension data")].

Definition test_handle_repeated_report_extensions (version : DapVersion) : pt unit :=
  extensions_rejected version
    [Extension_NotImplemented 23 (String.list_byte_of_string "this payload shouldn't be interpretd yet");
     Extension_NotImplemented 23 (String.list_byte_of_string "nor should this payload")].

(** The tests by their names: [test_versions!] and [async_test_versions!] run them for each version. *)
Definition protocol_tests : list (string * (DapVersion -> pt unit)) :=
  [("roundtrip_report", test_roundtrip_report);
   ("roundtrip_report_unsupported_hpke_suite", test_roundtrip_report_unsupported_hpke_suite);
   ("produce_agg_job_req", test_produce_agg_job_req);
   ("produce_agg_job_req_skip_hpke_decrypt_err", test_produce_agg_job_req_skip_hpke_decrypt_err);
   ("produce_agg_job_req_skip_time_too_stale", test_produce_agg_job_req_skip_time_too_stale);
   ("produce_agg_job_req_skip_time_too_early", test_produce_agg_job_req_skip_time_too_early);
   ("produce_agg_job_req_skip_hpke_unknown_config_id", test_produce_agg_job_req_skip_hpke_unknown_config_id);
   ("produce_agg_job_req_skip_vdaf_prep_error", test_produce_agg_job_req_skip_vdaf_prep_error);
   ("handle_agg_job_req_hpke_decrypt_err", test_handle_agg_job_req_hpke_decrypt_err);
   ("handle_agg_job_req_skip_time_too_stale", test_handle_agg_job_req_skip_time_too_stale);
   ("handle_agg_job_req_skip_time_too_early", test_handle_agg_job_req_skip_time_too_early);
   ("handle_agg_job_req_hpke_unknown_config_id", test_handle_agg_job_req_hpke_unknown_config_id);
   ("handle_agg_job_req_vdaf_prep_error", test_handle_agg_job_req_vdaf_prep_error);
   ("agg_job_resp_abort_transition_out_of_order", test_agg_job_resp_abort_transition_out_of_order);
   ("agg_job_resp_abort_report_id_repeated", test_agg_job_resp_abort_report_id_repeated);
   ("agg_job_resp_abort_unrecognized_report_id", test_agg_job_resp_abort_unrecognized_report_id);
   ("agg_job_resp_abort_invalid_transition", test_agg_job_resp_abort_invalid_transition);
   ("finish_agg_job", test_finish_agg_job);
   ("agg_job_init_req_skip_vdaf_prep_error_draft09", fun _ => test_agg_job_init_req_skip_vdaf_prep_error_draft09);
   ("encrypted_agg_share", test_encrypted_agg_share);
   ("handle_unrecognized_report_extensions", test_handle_unrecognized_report_extensions);
   ("handle_repeated_report_extensions", test_handle_repeated_report_extensions)]%string.

Definition failed_protocol_tests (version : DapVersion) : list string :=
  fst <$> List.filter (fun t => match (t.2 version ([], 0)).1 with Ok _ => false | _ => true end) protocol_tests.
End Tests.
