(* ===== verification/RolesTests.v ===== *)
(** * The tests of the roles

    The module [test] of [src/crates/daphne/src/roles/mod.rs]: the harness [TestData] and [Test]
    ([RoleTest] here), which set up a Leader and its Helper in memory, and the tests of the handlers.  A test is a
    function of the harness that panics when an assertion does not hold, as in the source; a
    deployment at the end of the file runs them.

    Random bytes are the draws of [rand], a function of the number of the draw and the number of
    bytes; the clock is [now].  [DapMeasurement::U64] is [u64_measurement]. *)

From S2P Require Import Prelude Codec Messages TaskprovMessages Errors Config AggShare Hpke.
From S2P Require Import Protocol Pine PineField PineEncoding PineFlp PineMsg PineVdaf Taskprov LeaderState Roles.
From S2P Require Import Leader Auth InMemory System JobTest Metrics MetricsCorrect Acceptance ProtocolTests.
From S2P Require Import Reference DurableStore VdafDispatch.
From S2P Require Router PineReference RouterWitnesses MetricsWitnesses.

(** The patterns of [assert_matches!] *)
Definition is_unauthorized (e : DapError) : bool :=
  match e with Abort_ (UnauthorizedRequest _ _) => true | _ => false end.
Definition is_query_mismatch (e : DapError) : bool :=
  match e with Abort_ (QueryMismatch _ _) => true | _ => false end.
Definition is_batch_invalid (e : DapError) : bool :=
  match e with Abort_ (BatchInvalid _ _) => true | _ => false end.
Definition is_batch_overlap (e : DapError) : bool :=
  match e with Abort_ (BatchOverlap _ _) => true | _ => false end.
Definition is_missing_task_id (e : DapError) : bool :=
  match e with Abort_ MissingTaskId => true | _ => false end.
Definition is_unrecognized_task (id : TaskId) (e : DapError) : bool :=
  match e with Abort_ (UnrecognizedTask id') => bool_decide (id' = id) | _ => false end.
Definition is_too_late (id : ReportId) (e : DapError) : bool :=
  match e with Abort_ (ReportTooLate id') => bool_decide (id' = id) | _ => false end.
Definition is_bad_request (msg : string) (e : DapError) : bool :=
  match e with Abort_ (BadRequest (Text t)) => String.eqb t msg | _ => false end.

Section Harness.
Context `{BP : BuildProfile} `{PC : PrioCodec} `{PA : PrioAgg} `{VO : !VdafOps} `{Dg : Digest}
  `{HC : HpkeCrypto} `{HK : Hkdf} `{B64 : Base64} `{UP : UrlParser} `{PF : PineFields} `{UJ : UrlJoin}.
Context (rand : N -> nat -> list byte) (now : Time) (u64_measurement : N -> DapMeasurement).

(** ** [TestData] *)
Record TestData : Type := MkTestData {
  td_now : Time;
  td_global_config : DapGlobalConfig;
  td_collector_token : BearerToken;
  td_taskprov_collector_token : BearerToken;
  td_time_interval_task_id : TaskId;
  td_fixed_size_task_id : TaskId;
  td_expired_task_id : TaskId;
  td_tasks : list (TaskId * DapTaskConfig);
  td_leader_token : BearerToken;
  td_collector_hpke_receiver_config : HpkeReceiverConfig;
  td_taskprov_vdaf_verify_key_init : list byte;
  td_taskprov_leader_token : BearerToken;
}.

Definition TASK_TIME_PRECISION : N := 3600.

(** [rng.gen()]; the state is the number of draws so far. *)
Definition rng_gen (n : nat) : stm N Empty_set (list byte) := fun k => (Ok (rand k n), k + 1).

Definition rng_gen_u8 : stm N Empty_set N := bs ← rng_gen 1; mret (be_value bs).

(** [gen_hpke_receiver_config_list(thread_rng().gen()).expect(..)] *)
Definition gen_config_list (global_config : DapGlobalConfig) : stm N Empty_set (list HpkeReceiverConfig) :=
  first ← rng_gen_u8;
  k ← get_state;
  _ ← put_state (k + len (DapGlobalConfig_supported_hpke_kems global_config));
  test_unwrap (gen_hpke_receiver_config_list (fun i => rand (k + i) 32) global_config first).

(** A task of the list; [not_after] and the query differ. *)
Definition test_task (version : DapVersion) (leader_url helper_url : Url) (collector : HpkeConfig)
    (not_after : Time) (query : DapQueryConfig) (num_shards : N) :
    stm N Empty_set DapTaskConfig :=
  let vdaf_config := Vdaf.Prio3 Prio3_Count in
  key ← rng_gen 32;
  mret (MkDapTaskConfig version leader_url helper_url TASK_TIME_PRECISION 1 query vdaf_config
          now not_after (gen_verify_key key vdaf_config) collector Method_Unknown num_shards).

Definition TestData_new (version : DapVersion) : stm N Empty_set TestData :=
  let global_config := MkDapGlobalConfig 360000 259200 259200 [X25519HkdfSha256] true 4 in
  let num_shards := DapGlobalConfig_default_num_agg_span_shards global_config in
  leader_url ← test_some (url_parse "https://leader.com/v02/");
  helper_url ← test_some (url_parse "http://helper.org:8788/v02/");
  id ← rng_gen_u8;
  seed ← rng_gen 32;
  collector ← test_unwrap (HpkeReceiverConfig_gen seed id X25519HkdfSha256);
  time_interval_task_id ← rng_gen 32;
  fixed_size_task_id ← rng_gen 32;
  expired_task_id ← rng_gen 32;
  let task := test_task version leader_url helper_url (HpkeReceiverConfig_config collector) in
  time_interval ← task (now + TASK_TIME_PRECISION) QC_TimeInterval num_shards;
  fixed_size ← task (now + TASK_TIME_PRECISION) (QC_FixedSize (Some 2)) num_shards;
  expired ← task now QC_TimeInterval num_shards;
  init ← rng_gen 32;
  mret (MkTestData now global_config (MkBearerToken "collector_token")
          (MkBearerToken "taskprov_collector_token") time_interval_task_id fixed_size_task_id expired_task_id
          [(time_interval_task_id, time_interval); (fixed_size_task_id, fixed_size); (expired_task_id, expired)]
          (MkBearerToken "leader_token") collector init (MkBearerToken "taskprov_leader_token")).

Definition TestData_new_helper (self : TestData) : stm N Empty_set InMemoryAggregator :=
  configs ← gen_config_list (td_global_config self);
  mret (new_helper now (td_tasks self) configs (td_global_config self) (td_leader_token self)
          (HpkeReceiverConfig_config (td_collector_hpke_receiver_config self))
          (td_taskprov_vdaf_verify_key_init self) (td_taskprov_leader_token self)).

(** ** [RoleTest]: the Leader is the store of the world, and [helper] is its peer. *)
Record RoleTest : Type := MkRoleTest {
  t_now : Time;
  t_collector_token : BearerToken;
  t_taskprov_collector_token : BearerToken;
  t_time_interval_task_id : TaskId;
  t_fixed_size_task_id : TaskId;
  t_expired_task_id : TaskId;
}.

(** The draws the Leader and its peer make later are set aside. *)
Definition TestData_with_leader (self : TestData) (helper : InMemoryAggregator) :
    stm N Empty_set (RoleTest * World InMemorySystem) :=
  configs ← gen_config_list (td_global_config self);
  k ← get_state;
  _ ← put_state (k + 32);
  let leader := new_leader now (td_tasks self) configs (td_global_config self) (td_leader_token self)
    (Some (td_collector_token self))
    (HpkeReceiverConfig_config (td_collector_hpke_receiver_config self))
    (td_taskprov_vdaf_verify_key_init self) (td_taskprov_leader_token self)
    (Some (td_taskprov_collector_token self)) in
  mret (MkRoleTest (td_now self) (td_collector_token self) (td_taskprov_collector_token self)
          (td_time_interval_task_id self) (td_fixed_size_task_id self) (td_expired_task_id self),
        MkWorld (MkInMemorySystem leader (MkWorld helper [] [])
                   ((fun i => rand (k + N.of_nat i) 32) <$> seq 0 32)) [] []).

Definition RoleTest_new (version : DapVersion) : stm N Empty_set (RoleTest * World InMemorySystem) :=
  data ← TestData_new version;
  helper ← TestData_new_helper data;
  TestData_with_leader data helper.

(** ** Steps of a test *)
Abbreviation tst A := (stm (World InMemorySystem * N) Empty_set A).

(** [thread_rng().gen()] *)
Definition test_gen (n : nat) : tst (list byte) := fun '(w, k) => (Ok (rand k n), (w, k + 1)).

(** The result of a call of the Leader, and of the Helper. *)
Definition leader_do {A} (m : stm (World InMemorySystem) DapError A) : tst (res DapError A) := fun '(w, k) =>
  let '(r, w) := m w in (match r with Panic => Panic | r => Ok r end, (w, k)).

Definition helper_do {A} (m : stm (World InMemoryAggregator) DapError A) : tst (res DapError A) := fun '(w, k) =>
  let s := w_store w in
  let '(r, peer) := m (sys_peer s) in
  (match r with Panic => Panic | r => Ok r end,
   (MkWorld (MkInMemorySystem (sys_leader s) peer (sys_rng s)) (w_metrics w) (w_audit w), k)).

(** [t.leader.unchecked_get_task_config(task_id)] *)
Definition leader_task_config (task_id : TaskId) : tst DapTaskConfig :=
  r ← leader_do (call (on_leader (unchecked_get_task_config task_id)));
  test_unwrap r.

Definition helper_task_config (task_id : TaskId) : tst DapTaskConfig :=
  r ← helper_do (call (unchecked_get_task_config task_id));
  test_unwrap r.

(** The state of the Leader. *)
Definition test_leader : tst InMemoryAggregator := fun '(w, k) => (Ok (sys_leader (w_store w)), (w, k)).

(** [t.helper.audit_log.invocations()] *)
Definition helper_invocations : tst N := fun '(w, k) => (Ok (len (w_audit (sys_peer (w_store w)))), (w, k)).

Definition with_sender_auth (auth : option BearerToken) (req : DapRequest BearerToken) : DapRequest BearerToken :=
  MkDapRequest (DapRequest_version req) (DapRequest_media_type req) (DapRequest_task_id req)
    (DapRequest_resource req) (DapRequest_payload req) auth (DapRequest_taskprov req).

(** ** The methods of [RoleTest] *)
Definition gen_test_upload_req (self : RoleTest) (report : Report) (task_id : TaskId) : tst (DapRequest BearerToken) :=
  task_config ← leader_task_config task_id;
  let version := DapTaskConfig_version task_config in
  payload ← test_unwrap (get_encoded (Report_encode version) report);
  mret (MkDapRequest version (Some MT_Report) (Some task_id) Undefined payload None None).

(** [msg] is the encoding of the message for a version. *)
Definition leader_authorized_req (self : RoleTest) (task_id : TaskId) (task_config : DapTaskConfig)
    (agg_job_id : option AggregationJobId) (media_type : DapMediaType)
    (msg : DapVersion -> res CodecError (list byte)) : tst (DapRequest BearerToken) :=
  payload ← test_unwrap (msg (DapTaskConfig_version task_config));
  r ← leader_do (call (authorize task_id task_config media_type payload));
  sender_auth ← test_unwrap r;
  mret (MkDapRequest (DapTaskConfig_version task_config) (Some media_type) (Some task_id)
          (match agg_job_id with Some id => AggregationJob id | None => Undefined end)
          payload (Some sender_auth) None).

Definition collector_authorized_req (self : RoleTest) (task_id : TaskId) (task_config : DapTaskConfig)
    (media_type : DapMediaType) (msg : DapVersion -> res CodecError (list byte)) : tst (DapRequest BearerToken) :=
  coll_job_id ← test_gen 16;
  let sender_auth := if method_is_taskprov task_config then t_taskprov_collector_token self
                     else t_collector_token self in
  payload ← test_unwrap (msg (DapTaskConfig_version task_config));
  mret (MkDapRequest (DapTaskConfig_version task_config) (Some media_type) (Some task_id)
          (CollectionJob coll_job_id) payload (Some sender_auth) None).

Definition encoded_collection_req (query : Query) (agg_param : list byte) (version : DapVersion) :
    res CodecError (list byte) :=
  get_encoded (CollectionReq_encode version) (MkCollectionReq query agg_param).

Definition gen_test_coll_job_req_for_collection (self : RoleTest) (query : Query)
    (agg_param : DapAggregationParam) (task_id : TaskId) : tst (DapRequest BearerToken) :=
  task_config ← leader_task_config task_id;
  encoded ← test_unwrap (get_encoded DapAggregationParam_encode agg_param);
  collector_authorized_req self task_id task_config MT_CollectReq (encoded_collection_req query encoded).

Definition gen_test_coll_job_req (self : RoleTest) (query : Query) (task_id : TaskId) : tst (DapRequest BearerToken) :=
  gen_test_coll_job_req_for_collection self query AggParam_Empty task_id.

Definition gen_test_agg_job_init_req (self : RoleTest) (task_id : TaskId) (agg_param : DapAggregationParam)
    (reports : list Report) : tst (DapAggregationJobState * DapRequest BearerToken) :=
  task_config ← leader_task_config task_id;
  part_batch_sel ← match DapTaskConfig_query task_config with
                   | QC_TimeInterval => mret PBS_TimeInterval
                   | QC_FixedSize _ => id ← test_gen 32; mret (PBS_FixedSizeByBatchId id)
                   end;
  agg_job_id ← test_gen 16;
  leader ← test_leader;
  r ← leader_do (with_metrics (produce_agg_job_req task_config (hpke_decrypt leader) (report_initializer leader)
        task_id part_batch_sel agg_param reports));
  '(leader_state, agg_job_init_req) ← test_unwrap r;
  req ← leader_authorized_req self task_id task_config (Some agg_job_id) MT_AggregationJobInitReq
          (fun version => get_encoded (AggregationJobInitReq_encode version) agg_job_init_req);
  mret (leader_state, req).

Definition encoded_agg_share_req (batch_sel : BatchSelector) (report_count : N) (checksum : list byte)
    (version : DapVersion) : res CodecError (list byte) :=
  get_encoded (AggregateShareReq_encode version) (MkAggregateShareReq batch_sel [] report_count checksum).

Definition gen_test_agg_share_req (self : RoleTest) (report_count : N) (checksum : list byte) :
    tst (DapRequest BearerToken) :=
  let task_id := t_time_interval_task_id self in
  task_config ← leader_task_config task_id;
  leader_authorized_req self task_id task_config None MT_AggregateShareReq
    (encoded_agg_share_req BatchSelector_default report_count checksum).

(** The randomness of a report: its ID, and the seeds of the VDAF and of the two encryptions. *)
Definition test_hpke_configs (version : DapVersion) (task_id : TaskId) : tst (HpkeConfig * HpkeConfig) :=
  l ← leader_do (call (get_hpke_config_for version (Some task_id)));
  leader_config ← test_unwrap l;
  h ← helper_do (call (get_hpke_config_for version (Some task_id)));
  helper_config ← test_unwrap h;
  mret (leader_config, helper_config).

Definition gen_test_report_for_measurement (self : RoleTest) (task_id : TaskId) (measurement : DapMeasurement) :
    tst Report :=
  task_config ← leader_task_config task_id;
  hpke_config_list ← test_hpke_configs (DapTaskConfig_version task_config) task_id;
  report_id ← test_gen 16;
  seed ← test_gen 256;
  seed1 ← test_gen 32;
  seed2 ← test_gen 32;
  test_unwrap (produce_report report_id seed (seed1, seed2) (DapTaskConfig_vdaf task_config) hpke_config_list
    (t_now self) task_id measurement (DapTaskConfig_version task_config)).

Definition gen_test_report (self : RoleTest) (task_id : TaskId) : tst Report :=
  task_config ← leader_task_config task_id;
  _ ← test_assert (match DapTaskConfig_vdaf task_config with Vdaf.Prio3 Prio3_Count => true | _ => false end);
  gen_test_report_for_measurement self task_id (u64_measurement 1).

(** *** Calls of the handlers *)
Definition upload_unwrap (req : DapRequest BearerToken) : tst unit :=
  r ← leader_do (handle_upload_req req); test_unwrap r.

Definition coll_job_unwrap (req : DapRequest BearerToken) : tst Url :=
  r ← leader_do (handle_coll_job_req req); test_unwrap r.

Definition coll_job_err (req : DapRequest BearerToken) : tst DapError :=
  r ← leader_do (handle_coll_job_req req); test_unwrap_err r.

Definition agg_job_do (req : DapRequest BearerToken) : tst (res DapError DapResponse) :=
  helper_do (handle_agg_job_req req ReplayProtection_Enabled).

Definition agg_share_do (req : DapRequest BearerToken) : tst (res DapError DapResponse) :=
  seed ← test_gen 32; helper_do (handle_agg_share_req seed req).

Definition test_expect_err (p : DapError -> bool) {A} (r : res DapError A) : tst unit :=
  e ← test_unwrap_err r; test_assert (p e).

(** [leader::process(&*t.leader, "leader.com", 100).await.unwrap()]; it draws the IDs of the jobs and
    the randomness of the encryptions. *)
Definition process_unwrap : tst DapLeaderProcessTelemetry := fun '(w, k) =>
  (r ← leader_do (process (fun _ => []) (fun i => rand (k + i) 16) (fun i => rand (k + 1000 + i) 32) 100); test_unwrap r) (w, k + 2000).

Definition dequeue_unwrap (n : N) : tst (list WorkItem) :=
  r ← leader_do (call (DapLeader_dequeue_work n)); test_unwrap r.

Definition poll_unwrap (task_id : TaskId) (coll_job_id : CollectionJobId) : tst DapCollectionJob :=
  r ← leader_do (call (DapLeader_poll_collect_job task_id coll_job_id)); test_unwrap r.

(** ** The tests *)
Definition with_test (version : DapVersion) (body : RoleTest -> tst unit) : stm N Empty_set unit := fun k =>
  match RoleTest_new version k with
  | (Ok (t, w), k) => let '(r, (_, k)) := body t (w, k) in (r, k)
  | (Err e, k) => (Err e, k)
  | (Panic, k) => (Panic, k)
  end.

Definition FixedSize_random : tst PartialBatchSelector := id ← test_gen 32; mret (PBS_FixedSizeByBatchId id).

(** The Helper handles the batch parameter of an aggregation job. *)
Definition test_handle_agg_job_req_invalid_batch_sel (t : RoleTest) : tst unit :=
  let task_id := t_time_interval_task_id t in
  task_config ← leader_task_config task_id;
  agg_job_id ← test_gen 16;
  part_batch_sel ← FixedSize_random;
  req ← leader_authorized_req t task_id task_config (Some agg_job_id) MT_AggregationJobInitReq
          (fun version => get_encoded (AggregationJobInitReq_encode version)
             (MkAggregationJobInitReq [] part_batch_sel []));
  r ← agg_job_do req;
  _ ← test_expect_err is_query_mismatch r;
  n ← helper_invocations;
  test_assert (n =? 0).

Definition incorrect_token : BearerToken := MkBearerToken "incorrect auth token!".

Definition test_handle_agg_job_init_req_unauthorized_request (t : RoleTest) : tst unit :=
  report ← gen_test_report t (t_time_interval_task_id t);
  '(_, req) ← gen_test_agg_job_init_req t (t_time_interval_task_id t) AggParam_Empty [report];
  r ← agg_job_do (with_sender_auth None req);
  _ ← test_expect_err is_unauthorized r;
  r ← agg_job_do (with_sender_auth (Some incorrect_token) req);
  _ ← test_expect_err is_unauthorized r;
  n ← helper_invocations;
  test_assert (n =? 0).

Definition test_handle_hpke_config_req_unrecognized_task (version : DapVersion) (t : RoleTest) : tst unit :=
  task_id ← test_gen 32;
  let req := MkDapRequest version (Some MT_HpkeConfigList) (Some task_id) Undefined [] None None in
  r ← leader_do (handle_hpke_config_req req (Some task_id));
  test_expect_err (is_unrecognized_task task_id) r.

Definition test_handle_hpke_config_req_missing_task_id (version : DapVersion) (t : RoleTest) : tst unit :=
  let req := MkDapRequest version (Some MT_HpkeConfigList) (Some (t_time_interval_task_id t)) Undefined [] None None in
  r ← leader_do (handle_hpke_config_req req None);
  test_expect_err is_missing_task_id r.

Definition test_handle_agg_share_req_unauthorized_request (t : RoleTest) : tst unit :=
  req ← gen_test_agg_share_req t 0 (replicate 32 Byte.x00);
  r ← agg_share_do (with_sender_auth None req);
  _ ← test_expect_err is_unauthorized r;
  r ← agg_share_do (with_sender_auth (Some incorrect_token) req);
  test_expect_err is_unauthorized r.

(** One request of the next test: a random batch ID for a task. *)
Definition agg_share_random_batch (t : RoleTest) (task_id : TaskId) (expected : DapError -> bool) : tst unit :=
  task_config ← leader_task_config task_id;
  id ← test_gen 32;
  req ← leader_authorized_req t task_id task_config None MT_AggregateShareReq
          (encoded_agg_share_req (BS_FixedSizeByBatchId id) 0 (replicate 32 Byte.x00));
  r ← agg_share_do req;
  test_expect_err expected r.

Definition test_handle_agg_share_req_invalid_batch_sel (t : RoleTest) : tst unit :=
  _ ← agg_share_random_batch t (t_time_interval_task_id t) is_query_mismatch;
  agg_share_random_batch t (t_fixed_size_task_id t) is_batch_invalid.

Definition test_handle_coll_job_req_unauthorized_request (t : RoleTest) : tst unit :=
  let task_id := t_time_interval_task_id t in
  task_config ← leader_task_config task_id;
  collect_job_id ← test_gen 16;
  let version := DapTaskConfig_version task_config in
  payload ← test_unwrap (encoded_collection_req Query_default [] version);
  let req auth := MkDapRequest version (Some MT_CollectReq) (Some task_id) (CollectionJob collect_job_id)
                    payload auth None in
  e ← coll_job_err (req None);
  _ ← test_assert (is_unauthorized e);
  e ← coll_job_err (req (Some incorrect_token));
  test_assert (is_unauthorized e).

(** The first transition of an aggregation job. *)
Definition first_transition (t : RoleTest) (report : Report) : tst TransitionVar :=
  '(_, req) ← gen_test_agg_job_init_req t (t_time_interval_task_id t) AggParam_Empty [report];
  r ← agg_job_do req;
  resp ← test_unwrap r;
  agg_job_resp ← test_unwrap (get_decoded AggregationJobResp_decode (DapResponse_payload resp));
  transition ← test_some (head (AggregationJobResp_transitions agg_job_resp));
  mret (Transition_var transition).

(** [payload[0] ^= 0xff] *)
Definition flip_first (ct : HpkeCiphertext) : tst HpkeCiphertext :=
  match HpkeCiphertext_payload ct with
  | b :: bs => mret (MkHpkeCiphertext (HpkeCiphertext_config_id ct) (HpkeCiphertext_enc ct)
                       (byte_of_N (N.lxor (Byte.to_N b) 255) :: bs))
  | [] => test_panic
  end.

Definition test_handle_agg_job_req_failure_hpke_decrypt_error (t : RoleTest) : tst unit :=
  report ← gen_test_report t (t_time_interval_task_id t);
  helper_share ← flip_first (Report_encrypted_input_shares report).2;
  var ← first_transition t (MkReport (Report_report_metadata report) (Report_public_share report)
          ((Report_encrypted_input_shares report).1, helper_share));
  test_assert (match var with Failed HpkeDecryptError => true | _ => false end).

Definition test_handle_agg_job_req_transition_continue (t : RoleTest) : tst unit :=
  report ← gen_test_report t (t_time_interval_task_id t);
  var ← first_transition t report;
  test_assert (match var with Continued _ => true | _ => false end).

(** *** With metrics *)

(** [leader::handle_upload_req(.., &t.gen_test_upload_req(report, task_id).await).await.unwrap()] *)
Definition test_upload (t : RoleTest) (report : Report) (task_id : TaskId) : tst unit :=
  req ← gen_test_upload_req t report task_id; upload_unwrap req.

Definition test_collect (t : RoleTest) (query : Query) (task_id : TaskId) : tst unit :=
  req ← gen_test_coll_job_req t query task_id; _ ← coll_job_unwrap req; mret tt.

(** A change of the Helper's [agg_store.for_bucket(task_id, &bucket)], where the bucket is that of a
    report. *)
Definition helper_bucket (task_id : TaskId) (task_config : DapTaskConfig) (report : Report) (time : Time)
    (f : AggregateStore -> AggregateStore) : tst unit :=
  batch_window ← test_unwrap (quantized_time_lower_bound (E:=DapError) task_config time);
  let bucket := Bucket_TimeInterval batch_window
    (ReportId_shard (ReportMetadata_id (Report_report_metadata report)) (DapTaskConfig_num_agg_span_shards task_config)) in
  r ← helper_do (call (on_agg_store (fun m =>
        let '(a, m) := for_bucket m task_id bucket in (Ok tt, <[(task_id, bucket) := f a]> m))));
  test_unwrap r.

Section Counted.
Context {P : Type} `{PR : Prometheus P} `{PV : !PrometheusView PR} (registry0 : P).

Definition leader_registry_includes (expected : list ((DaphnePromMetrics P -> Collector) * string * N)) : tst unit :=
  fun '(w, k) => assert_metrics_include registry0 (w_metrics w) expected (w, k).

Definition helper_registry_includes (expected : list ((DaphnePromMetrics P -> Collector) * string * N)) : tst unit :=
  fun '(w, k) => assert_metrics_include registry0 (w_metrics (sys_peer (w_store w))) expected (w, k).

Definition test_handle_agg_job_req_failure_report_replayed (t : RoleTest) : tst unit :=
  let task_id := t_time_interval_task_id t in
  task_config ← helper_task_config task_id;
  report ← gen_test_report t task_id;
  _ ← test_upload t report task_id;
  query ← test_unwrap (query_for_current_batch_window (E:=DapError) task_config (t_now t));
  _ ← test_collect t query task_id;
  _ ← helper_bucket task_id task_config report (t_now t) (fun a =>
        MkAggregateStore (AggregateStore_agg_share a) (AggregateStore_collected a)
          ({[ReportMetadata_id (Report_report_metadata report)]} ∪ AggregateStore_reports a));
  _ ← process_unwrap;
  _ ← leader_registry_includes [(report_counter, "rejected_report_replayed"%string, 1)];
  helper_registry_includes
    [(report_counter, "rejected_report_replayed"%string, 1); (inbound_request_counter, "aggregate"%string, 1);
     (aggregation_job_counter, "started"%string, 1)].

Definition test_handle_agg_job_req_failure_batch_collected (t : RoleTest) : tst unit :=
  let task_id := t_time_interval_task_id t in
  task_config ← helper_task_config task_id;
  report ← gen_test_report t task_id;
  _ ← test_upload t report task_id;
  _ ← helper_bucket task_id task_config report (t_now t) (fun a =>
        MkAggregateStore (AggregateStore_agg_share a) true (AggregateStore_reports a));
  query ← test_unwrap (query_for_current_batch_window (E:=DapError) task_config (t_now t));
  _ ← test_collect t query task_id;
  _ ← process_unwrap;
  _ ← leader_registry_includes [(report_counter, "rejected_batch_collected"%string, 1)];
  helper_registry_includes
    [(report_counter, "rejected_batch_collected"%string, 1); (inbound_request_counter, "aggregate"%string, 1);
     (aggregation_job_counter, "started"%string, 1)].

(** *** Uploads *)
Definition test_handle_upload_req_fail_send_invalid_report (t : RoleTest) : tst unit :=
  let task_id := t_time_interval_task_id t in
  task_config ← leader_task_config task_id;
  report_invalid_task_id ← gen_test_report t task_id;
  let version := DapTaskConfig_version task_config in
  payload ← test_unwrap (get_encoded (Report_encode version) report_invalid_task_id);
  let zero := replicate 32 Byte.x00 in
  r ← leader_do (handle_upload_req (MkDapRequest version (Some MT_Report) (Some zero) Undefined payload None None));
  test_expect_err (is_unrecognized_task zero) r.

Definition test_handle_upload_req_task_expired (version : DapVersion) (t : RoleTest) : tst unit :=
  let task_id := t_expired_task_id t in
  task_config ← leader_task_config task_id;
  report ← gen_test_report t task_id;
  payload ← test_unwrap (get_encoded (Report_encode version) report);
  r ← leader_do (handle_upload_req
        (MkDapRequest (DapTaskConfig_version task_config) (Some MT_Report) (Some task_id) Undefined payload None None));
  test_expect_err (is_too_late (ReportMetadata_id (Report_report_metadata report))) r.

Definition test_handle_upload_req (t : RoleTest) : tst unit :=
  let task_id := t_time_interval_task_id t in
  report ← gen_test_report t task_id;
  test_upload t report task_id.

(** *** The work queue *)
Fixpoint upload_many (t : RoleTest) (task_id : TaskId) (n : nat) : tst unit :=
  match n with
  | O => mret tt
  | S n => report ← gen_test_report t task_id; _ ← test_upload t report task_id; upload_many t task_id n
  end.

Definition test_dequeue_work_empty (t : RoleTest) : tst unit :=
  let task_id := t_time_interval_task_id t in
  task_config ← leader_task_config task_id;
  _ ← upload_many t task_id 10;
  query ← test_unwrap (query_for_current_batch_window (E:=DapError) task_config (t_now t));
  _ ← test_collect t query task_id;
  work_items ← dequeue_unwrap 1;
  _ ← match work_items with
      | [WI_AggregationJob returned_task_id _ _ reports] =>
          test_assert ((len reports =? 10) && bool_decide (returned_task_id = task_id))
      | _ => test_panic
      end;
  work_items ← dequeue_unwrap 1;
  _ ← match work_items with
      | [WI_CollectionJob returned_task_id _ _ _] => test_assert (bool_decide (returned_task_id = task_id))
      | _ => test_panic
      end;
  work_items ← dequeue_unwrap 1;
  test_assert (len work_items =? 0).

(** The collection job that [dequeue_work(1)] returns. *)
Definition dequeue_coll_job : tst (CollectionJobId * BatchSelector * DapAggregationParam) :=
  work_items ← dequeue_unwrap 1;
  match last work_items with
  | Some (WI_CollectionJob _ coll_job_id batch_sel agg_param) => mret (coll_job_id, batch_sel, agg_param)
  | _ => test_panic
  end.

(** A request of the Collector for a query. *)
Definition collector_req (t : RoleTest) (task_id : TaskId) (task_config : DapTaskConfig) (query : Query) :
    tst (DapRequest BearerToken) :=
  collector_authorized_req t task_id task_config MT_CollectReq (encoded_collection_req query []).

Definition test_poll_collect_job_test_results (t : RoleTest) : tst unit :=
  let task_id := t_time_interval_task_id t in
  task_config ← leader_task_config task_id;
  query ← test_unwrap (query_for_current_batch_window (E:=DapError) task_config (t_now t));
  req ← collector_req t task_id task_config query;
  _ ← coll_job_unwrap req;
  job ← poll_unwrap task_id (replicate 16 Byte.x00);
  _ ← test_assert (match job with CJ_Unknown => true | _ => false end);
  '(coll_job_id, _, _) ← dequeue_coll_job;
  let ciphertext := MkHpkeCiphertext 0 [] [] in
  let collection := MkCollection PBS_TimeInterval 0 (MkInterval 0 2000000000) (ciphertext, ciphertext) in
  job ← poll_unwrap task_id coll_job_id;
  _ ← test_assert (match job with CJ_Pending => true | _ => false end);
  r ← leader_do (call (DapLeader_finish_collect_job task_id coll_job_id collection));
  _ ← test_unwrap r;
  job ← poll_unwrap task_id coll_job_id;
  test_assert (match job with CJ_Done _ => true | _ => false end).

(** *** Collection requests *)

(** A request for an interval, whose start and duration are computed in 64 bits. *)
Definition interval_err (t : RoleTest) (start duration : res DapError N) : tst DapError :=
  let task_id := t_time_interval_task_id t in
  task_config ← leader_task_config task_id;
  start ← test_unwrap start;
  duration ← test_unwrap duration;
  req ← collector_req t task_id task_config (Query_TimeInterval (MkInterval start duration));
  coll_job_err req.

Definition test_handle_coll_job_req_fail_invalid_batch_interval (t : RoleTest) : tst unit :=
  let task_id := t_time_interval_task_id t in
  task_config ← leader_task_config task_id;
  leader ← test_leader;
  let g := ima_global_config leader in
  let precision := DapTaskConfig_time_precision task_config in
  start ← test_unwrap (quantized_time_lower_bound (E:=DapError) task_config (t_now t));
  e ← interval_err t (Ok start) (u64_add (DapGlobalConfig_max_batch_duration g) precision);
  _ ← test_assert (is_bad_request "batch interval too large" e);
  e ← interval_err t (s ← u64_sub start (DapGlobalConfig_min_batch_interval_start g); u64_sub s precision)
        (u64_mul precision 2);
  _ ← test_assert (is_bad_request "batch interval too far into past" e);
  e ← interval_err t (s ← u64_add start (DapGlobalConfig_max_batch_interval_end g); u64_sub s precision)
        (u64_mul precision 2);
  test_assert (is_bad_request "batch interval too far into future" e).

Definition test_handle_coll_job_req_succeed_max_batch_interval (t : RoleTest) : tst unit :=
  let task_id := t_time_interval_task_id t in
  task_config ← leader_task_config task_id;
  leader ← test_leader;
  let duration := DapGlobalConfig_max_batch_duration (ima_global_config leader) in
  lower ← test_unwrap (quantized_time_lower_bound (E:=DapError) task_config (t_now t));
  start ← test_unwrap (u64_sub (E:=DapError) lower (duration / 2));
  req ← collector_req t task_id task_config (Query_TimeInterval (MkInterval start duration));
  _ ← coll_job_unwrap req;
  mret tt.

Definition test_handle_coll_job_req_fail_overlapping_batch_interval (t : RoleTest) : tst unit :=
  let task_id := t_time_interval_task_id t in
  task_config ← leader_task_config task_id;
  report ← gen_test_report t task_id;
  _ ← test_upload t report task_id;
  query ← test_unwrap (query_for_current_batch_window (E:=DapError) task_config (t_now t));
  req ← gen_test_coll_job_req t query task_id;
  _ ← coll_job_unwrap req;
  _ ← process_unwrap;
  e ← coll_job_err req;
  test_assert (is_batch_overlap e).

Definition test_handle_coll_job_req_fail_unrecongized_batch (t : RoleTest) : tst unit :=
  let task_id := t_fixed_size_task_id t in
  id ← test_gen 32;
  req ← gen_test_coll_job_req t (Query_FixedSizeByBatchId id) task_id;
  e ← coll_job_err req;
  test_assert (is_batch_invalid e).

(** One request of the next test. *)
Definition query_random_batch (t : RoleTest) (task_id : TaskId) (expected : DapError -> bool) : tst unit :=
  task_config ← leader_task_config task_id;
  id ← test_gen 32;
  req ← collector_req t task_id task_config (Query_FixedSizeByBatchId id);
  e ← coll_job_err req;
  test_assert (expected e).

Definition test_handle_coll_job_req_invalid_query (t : RoleTest) : tst unit :=
  _ ← query_random_batch t (t_time_interval_task_id t) is_query_mismatch;
  query_random_batch t (t_fixed_size_task_id t) is_batch_invalid.

Definition test_handle_coll_job_req_success `{AX : Router.Axum} `{UR : Router.UrlPath} (t : RoleTest) : tst unit :=
  let task_id := t_time_interval_task_id t in
  task_config ← leader_task_config task_id;
  query ← test_unwrap (query_for_current_batch_window (E:=DapError) task_config (t_now t));
  req ← collector_req t task_id task_config query;
  url ← coll_job_unwrap req;
  '(leader_collect_id, leader_batch_sel, leader_agg_param) ← dequeue_coll_job;
  _ ← test_assert (bool_decide (query = Query_from leader_batch_sel));
  encoded ← test_unwrap (get_encoded DapAggregationParam_encode leader_agg_param);
  _ ← test_assert (bool_decide (encoded = []));
  params ← test_some (Router.match_path "/:version/collect/task/:task_id/req/:collect_id" (Router.url_path url));
  collector_collect_id ← test_some (snd <$> List.find (fun p => String.eqb p.1 "collect_id") params);
  test_assert (String.eqb collector_collect_id (encode_base64url leader_collect_id)).

(** *** End to end *)

(** What a task of one report leaves in the metrics, [n] times. *)
Definition e2e_metrics (n : N) : tst unit :=
  _ ← helper_registry_includes
    [(inbound_request_counter, "aggregate"%string, n); (inbound_request_counter, "collect"%string, n);
     (report_counter, "aggregated"%string, n); (report_counter, "collected"%string, n);
     (aggregation_job_counter, "started"%string, n); (aggregation_job_counter, "completed"%string, n)];
  leader_registry_includes [(report_counter, "aggregated"%string, n); (report_counter, "collected"%string, n)].

(** The requests of a time-interval task; the window is computed with the other task. *)
Definition time_interval_requests (t : RoleTest) : tst unit :=
  let task_id := t_time_interval_task_id t in
  task_config ← leader_task_config (t_fixed_size_task_id t);
  report ← gen_test_report t task_id;
  _ ← test_upload t report task_id;
  query ← test_unwrap (query_for_current_batch_window (E:=DapError) task_config (t_now t));
  test_collect t query task_id.

Definition fixed_size_requests (t : RoleTest) : tst unit :=
  let task_id := t_fixed_size_task_id t in
  report ← gen_test_report t task_id;
  _ ← test_upload t report task_id;
  test_collect t Query_FixedSizeCurrentBatch task_id.

Definition test_e2e_time_interval (t : RoleTest) : tst unit :=
  _ ← time_interval_requests t;
  _ ← process_unwrap;
  e2e_metrics 1.

Definition test_e2e_fixed_size (t : RoleTest) : tst unit :=
  _ ← fixed_size_requests t;
  _ ← process_unwrap;
  e2e_metrics 1.

Definition test_multi_task (t : RoleTest) : tst unit :=
  _ ← time_interval_requests t;
  _ ← fixed_size_requests t;
  _ ← process_unwrap;
  e2e_metrics 2.

(** [DapTaskParameters::default()] *)
Definition DapTaskParameters_default : DapTaskParameters :=
  MkDapTaskParameters Draft09 "https://leader.example.com/" "https://helper.example.com/" 3600 (86400 * 14) 10
    QC_TimeInterval (Vdaf.Prio2 10) 1.

(** The Clients of a task: as many reports as the batch needs. *)
Fixpoint upload_taskprov (t : RoleTest) (version : DapVersion) (task_config : DapTaskConfig) (task_id : TaskId)
    (advertisement : string) (configs : HpkeConfig * HpkeConfig) (measurement : DapMeasurement) (n : nat) : tst unit :=
  match n with
  | O => mret tt
  | S n =>
      report_id ← test_gen 16;
      seed ← test_gen 256;
      seed1 ← test_gen 32;
      seed2 ← test_gen 32;
      report ← test_unwrap (produce_report_with_extensions report_id seed (seed1, seed2) (DapTaskConfig_vdaf task_config)
        configs (t_now t) task_id measurement [Extension_Taskprov] (DapTaskConfig_version task_config));
      payload ← test_unwrap (get_encoded (Report_encode version) report);
      _ ← upload_unwrap (MkDapRequest version (Some MT_Report) (Some task_id) Undefined payload None
            (Some advertisement));
      upload_taskprov t version task_config task_id advertisement configs measurement n
  end.

Definition test_e2e_taskprov (version : DapVersion) (vdaf_config : Vdaf.VdafConfig)
    (test_measurement : DapMeasurement) (t : RoleTest) : tst unit :=
  leader ← test_leader;
  init ← test_some (taskprov_vdaf_verify_key_init leader);
  collector ← test_some (taskprov_collector_hpke_config leader);
  let d := DapTaskParameters_default in
  '(task_config, task_id, taskprov_advertisement) ← test_unwrap
    (to_config_with_taskprov
       (MkDapTaskParameters version (DapTaskParameters_leader_url d) (DapTaskParameters_helper_url d)
          (DapTaskParameters_time_precision d) (DapTaskParameters_lifetime d) 1 (QC_FixedSize (Some 2)) vdaf_config
          (DapTaskParameters_num_agg_span_shards d))
       (String.list_byte_of_string "cool task") (t_now t) init collector);
  configs ← test_hpke_configs version task_id;
  _ ← upload_taskprov t version task_config task_id taskprov_advertisement configs test_measurement
        (N.to_nat (DapTaskConfig_min_batch_size task_config));
  _ ← test_collect t Query_FixedSizeCurrentBatch task_id;
  _ ← process_unwrap;
  e2e_metrics 1.
End Counted.
End Harness.

(** ** All tests *)
Section Run.
Context `{BP : BuildProfile} `{PC : PrioCodec} `{PA : PrioAgg} `{VO : !VdafOps} `{Dg : Digest}
  `{HC : HpkeCrypto} `{HK : Hkdf} `{B64 : Base64} `{UP : UrlParser} `{PF : PineFields} `{UJ : UrlJoin}.
Context (rand : N -> nat -> list byte) (now : Time) (u64_measurement : N -> DapMeasurement).
Context (u32_vec u64_vec : list N -> DapMeasurement) (f64_vec : list f64 -> DapMeasurement).
Context {P : Type} `{PR : Prometheus P} `{PV : !PrometheusView PR} (registry0 : P).
Context `{AX : Router.Axum} `{UR : Router.UrlPath}.

(** The tasks of [e2e_taskprov_prio2] and the like, with the measurement of each. *)
Definition taskprov_tasks : list (string * Vdaf.VdafConfig * DapMeasurement) :=
  [("e2e_taskprov_prio2"%string, Vdaf.Prio2 10, u32_vec (replicate 10 1));
   ("e2e_taskprov_prio3_sum_vec_field64_multiproof_hmac_sha256_aes128"%string,
    Vdaf.Prio3 (Prio3_SumVecField64MultiproofHmacSha256Aes128 1 10 2 3), u64_vec (replicate 10 1));
   ("e2e_taskprov_pine32_hmac_sha256_aes128"%string,
    Vdaf.Pine (Pine_Field32HmacSha256Aes128 (MkPineParam 16 10 4 10 10 5 1 100 100)), f64_vec (replicate 10 f64_zero));
   ("e2e_taskprov_pine64_hmac_sha256_aes128"%string,
    Vdaf.Pine (Pine_Field64HmacSha256Aes128 (MkPineParam 16 10 4 10 10 2 1 100 100)), f64_vec (replicate 10 f64_zero))].

(** The tests by their names. *)
Definition role_tests (version : DapVersion) : list (string * (RoleTest -> stm (World InMemorySystem * N) Empty_set unit)) :=
  [("handle_agg_job_req_invalid_batch_sel", test_handle_agg_job_req_invalid_batch_sel rand);
   ("handle_agg_job_init_req_unauthorized_request", test_handle_agg_job_init_req_unauthorized_request rand u64_measurement);
   ("handle_hpke_config_req_unrecognized_task", test_handle_hpke_config_req_unrecognized_task rand version);
   ("handle_hpke_config_req_missing_task_id", test_handle_hpke_config_req_missing_task_id version);
   ("handle_agg_share_req_unauthorized_request", test_handle_agg_share_req_unauthorized_request rand);
   ("handle_agg_share_req_invalid_batch_sel", test_handle_agg_share_req_invalid_batch_sel rand);
   ("handle_coll_job_req_unauthorized_request", test_handle_coll_job_req_unauthorized_request rand);
   ("handle_agg_job_req_failure_hpke_decrypt_error", test_handle_agg_job_req_failure_hpke_decrypt_error rand u64_measurement);
   ("handle_agg_job_req_transition_continue", test_handle_agg_job_req_transition_continue rand u64_measurement);
   ("handle_agg_job_req_failure_report_replayed", test_handle_agg_job_req_failure_report_replayed rand u64_measurement registry0);
   ("handle_agg_job_req_failure_batch_collected", test_handle_agg_job_req_failure_batch_collected rand u64_measurement registry0);
   ("handle_upload_req_fail_send_invalid_report", test_handle_upload_req_fail_send_invalid_report rand u64_measurement);
   ("handle_upload_req_task_expired", test_handle_upload_req_task_expired rand u64_measurement version);
   ("dequeue_work_empty", test_dequeue_work_empty rand u64_measurement);
   ("poll_collect_job_test_results", test_poll_collect_job_test_results rand);
   ("handle_coll_job_req_fail_invalid_batch_interval", test_handle_coll_job_req_fail_invalid_batch_interval rand);
   ("handle_coll_job_req_succeed_max_batch_interval", test_handle_coll_job_req_succeed_max_batch_interval rand);
   ("handle_coll_job_req_fail_overlapping_batch_interval", test_handle_coll_job_req_fail_overlapping_batch_interval rand u64_measurement);
   ("handle_coll_job_req_fail_unrecongized_batch", test_handle_coll_job_req_fail_unrecongized_batch rand);
   ("handle_coll_job_req_success", test_handle_coll_job_req_success rand);
   ("handle_coll_job_req_invalid_query", test_handle_coll_job_req_invalid_query rand);
   ("handle_upload_req", test_handle_upload_req rand u64_measurement);
   ("e2e_time_interval", test_e2e_time_interval rand u64_measurement registry0);
   ("e2e_fixed_size", test_e2e_fixed_size rand u64_measurement registry0);
   ("multi_task", test_multi_task rand u64_measurement registry0)]%string ++
  ((fun '(name, vdaf, measurement) => (name, test_e2e_taskprov rand registry0 version vdaf measurement)) <$> taskprov_tasks).

(** A test passes if it does not panic. *)
Definition passes (version : DapVersion) (test : RoleTest -> stm (World InMemorySystem * N) Empty_set unit) : bool :=
  match (with_test rand now version test 0).1 with Ok _ => true | _ => false end.

(** Those of [names] that fail. *)
Definition failed_tests (names : list string) (version : DapVersion) : list string :=
  fst <$> List.filter (fun t => if existsb (String.eqb t.1) names then negb (passes version t.2) else false) (role_tests version).

Definition test_names : list string := (role_tests Draft09).*1.
End Run.

(** ** The deployment in which they are run

    PINE over the two fields of the source: integers modulo a prime *)
#[local] Existing Instances RouterWitnesses.axum_reference RouterWitnesses.base64_letters
  RouterWitnesses.url_path_reference.

Section Prime.
Context (p : N) (size : nat).

Definition prime_encode : writer N := fun x buf => Ok (buf ++ be_bytes size x).
Definition prime_decode : reader N := fun c =>
  '(bs, c) ← read_exact (N.of_nat size) c;
  if be_value bs <? p then Ok (be_value bs, c) else Err UnexpectedValue.

Definition prime_sum (xs : list N) : N := fold_left (fun a x => (a + x) mod p) xs 0.

Fixpoint prime_power (x : N) (e : positive) : N :=
  match e with
  | xH => x mod p
  | xO e => let y := prime_power x e in (y * y) mod p
  | xI e => let y := prime_power x e in (((y * y) mod p) * x) mod p
  end.

Definition bit_list (n : nat) (x : N) : list N := (fun i => if N.testbit x (N.of_nat i) then 1 else 0) <$> seq 0 n.
Definition bit_value (l : list N) : N := foldr (fun b v => (b + 2 * v) mod p) 0 l.

#[local] Instance prime_field : PrioField := {|
  felem := N;
  felem_field := MkField p (2 ^ (8 * N.of_nat size) - 1);
  FieldError := unit;
  f0 := 0;
  f1 := 1;
  fadd x y := (x + y) mod p;
  fsub x y := (x + (p - y)) mod p;
  fmul x y := (x * y) mod p;
  fopp x := (p - x) mod p;
  finv x := prime_power x (Pos.pred (Pos.pred (N.succ_pos (N.pred p))));
  of_int n := n mod p;
  to_int x := x;
  encode_as_bitvector x l :=
    if (2 ^ l <=? p) && (x <? 2 ^ l) then Ok (bit_list (N.to_nat l) x) else Err tt;
  decode_bitvector l := if 2 ^ len l <=? p then Ok (bit_value l) else Err tt;
  ENCODED_SIZE := N.of_nat size;
  felem_encode := prime_encode;
  felem_decode := prime_decode;
|}.

(** An XOF with seeds of 32 bytes. *)
Definition prime_xof : Xof (H:=prime_field) := {|
  XofState := list byte;
  SeedStream := N;
  xof_init seed dst := seed ++ dst;
  xof_update s bs := s ++ bs;
  xof_into_seed s := be_bytes 32 (PineReference.byte_sum s);
  xof_into_seed_stream s := PineReference.byte_sum s;
  xof_seed_stream seed dst binder := PineReference.byte_sum (seed ++ dst ++ binder);
  stream_fill s n := (fun i => byte_of_N (s + 5 * N.of_nat i)) <$> seq 0 (N.to_nat n);
  into_field_vec s n := (fun i => (s + 7 * N.of_nat i) mod p) <$> seq 0 (N.to_nat n);
  SEED_SIZE := 32;
  Seed_encode := extend_from_slice;
  Seed_decode := read_exact 32;
|}.

(** A proof system whose proofs are zero. *)
Definition prime_flp {T} (proof_size verifier_size : T -> N) : Flp (H:=prime_field) T := {|
  flp_prove self _ _ _ := Ok (replicate (N.to_nat (proof_size self)) 0);
  flp_query self _ _ _ _ _ := Ok (replicate (N.to_nat (verifier_size self)) 0);
  flp_decide _ v := Ok (forallb (fun x => x =? 0) v);
|}.

(** *** In place of Prio2 and Prio3, additive shares of a vector

    The preparation shares are the shares themselves, and the preparation fails unless the
    vector they sum up to is valid. *)
Definition vec_encode : writer (list N) := fun xs buf => Ok (buf ++ (xs ≫= be_bytes size)).

Fixpoint vec_decode (n : nat) : reader (list N) :=
  match n with
  | O => mret []
  | S n => x ← prime_decode; xs ← vec_decode n; mret (x :: xs)
  end.

Definition vec_add (xs ys : list N) : list N := zip_with (fun x y => (x + y) mod p) xs ys.
Definition vec_total (n : nat) (xss : list (list N)) : list N := fold_left vec_add xss (replicate n 0).

Definition nothing_encode : writer unit := fun _ buf => Ok buf.

Definition share_kind : vdaf_kind :=
  MkVdafKind unit (list N) (list N) (list N) unit (list N) (list N) nothing_encode vec_encode vec_encode
    (fun state => vec_decode (length state)) nothing_encode (fun _ => mret tt).

Definition share_vdaf {M R} (n : nat) (valid : list N -> bool) (to_vec : M -> list N) (of_vec : list N -> R) : vdaf share_kind M R :=
  MkVdaf share_kind M R
    (fun rand m _ =>
       let r := (fun i => (be_value rand + N.of_nat i) mod p) <$> seq 0 n in
       Ok (tt, [zip_with (fun x y => (x + (p - y)) mod p) (to_vec m) r; r]))
    (mret tt) (fun _ => vec_decode n)
    (fun _ _ _ _ share => Ok (share, share))
    (fun shares => if valid (vec_total n shares) then Ok tt else Err (Text "verification failed"))
    (fun state _ => Ok (Transition_Finish state))
    (fun outs => Ok (vec_total n outs))
    (vec_decode n)
    (fun shares _ => Ok (of_vec (vec_total n shares))).
End Prime.

Definition size_of (f : field_kind) : nat :=
  match f with AggShare.FieldPrio2 => 4%nat | AggShare.Field64 => 8%nat | AggShare.Field128 => 16%nat end.

#[local] Instance prime_vec : PrioVec := {
  prio_elem _ := N;
  agg_to_vec _ v := v;
  agg_from_vec _ v := v;
  elem_encode f := prime_encode (size_of f);
  elem_decode f := prime_decode (AggReference.modulus f) (size_of f);
  elem_size f := N.of_nat (size_of f);
  agg_encode f := vec_encode (size_of f);
}.

Definition in_field {M R} (f : field_kind) (n : N) (valid : list N -> bool) (to_vec : M -> list N) (of_vec : list N -> R) :
    res detail (vdaf (share_kind (AggReference.modulus f) (size_of f)) M R) :=
  Ok (share_vdaf (AggReference.modulus f) (size_of f) (N.to_nat n) valid to_vec of_vec).

(** Every element is less than a bound. *)
Definition below (b : N) (xs : list N) : bool := forallb (fun x => x <? b) xs.

#[local] Instance share_vdafs : PrioVdafs := {
  prio3_public _ := unit;
  prio3_input _ := list N;
  prio3_state _ := list N;
  prio3_share _ := list N;
  prio3_message _ := unit;
  prio3_output _ := list N;
  prio3_public_encode _ := nothing_encode;
  prio3_input_encode k := vec_encode (size_of (prio3_field k));
  prio3_share_encode k := vec_encode (size_of (prio3_field k));
  prio3_share_decode k state := vec_decode (AggReference.modulus (prio3_field k)) (size_of (prio3_field k)) (length state);
  prio3_message_encode _ := nothing_encode;
  prio3_message_decode _ _ := mret tt;
  prio2_input := list N;
  prio2_state := list N;
  prio2_share := list N;
  prio2_output := list N;
  prio2_input_encode := vec_encode 4;
  prio2_share_encode := vec_encode 4;
  prio2_share_decode state := vec_decode (AggReference.modulus AggShare.FieldPrio2) 4 (length state);
  unit_encode := nothing_encode;
  sum_vec := N * N;
  SumVec_new bits length _ := Ok (bits, length);
  Prio3_new_count _ := in_field AggShare.Field64 1 (below 2) (fun b : bool => [if b then 1 else 0]) (default 0 ∘ head);
  Prio3_new_histogram _ length _ :=
    in_field AggShare.Field128 length (fun xs => below 2 xs && (fold_left N.add xs 0 =? 1)) (fun i => (fun j => if N.of_nat j =? i then 1 else 0) <$> seq 0 (N.to_nat length)) id;
  Prio3_new_sum _ bits := in_field AggShare.Field128 1 (below (2 ^ bits)) (fun n => [n]) (default 0 ∘ head);
  Prio3_new_sum_vec _ bits length _ := in_field AggShare.Field128 length (below (2 ^ bits)) id id;
  Prio3_new _ _ _ typ := in_field AggShare.Field64 typ.2 (below (2 ^ typ.1)) id id;
  Prio2_new dimension := in_field AggShare.FieldPrio2 dimension (below 2) id id;
}.

#[local] Instance prime_backend (f : field_kind) : PineBackend f := {
  pb_field := prime_field (AggReference.modulus f) (size_of f);
  pb_xof := prime_xof (AggReference.modulus f) (size_of f);
  pb_flp := prime_flp (AggReference.modulus f) (size_of f) main_proof_size (fun t => 2 * PineType_chunk_len t + 2);
  pb_flp_sne := prime_flp (AggReference.modulus f) (size_of f) sne_proof_size (fun t => PineTypeSNE_chunk_len t + 2);
  agg_share_from v := v;
}.

(** The draws are the numbers from one on. *)
Definition draws (k : N) (n : nat) : list byte := be_bytes n (k + 1).

Definition names : list string :=
  test_names (VO:=dispatch) draws Meas_U64 Meas_U32Vec Meas_U64Vec Meas_F64Vec (∅ : MetricsWitnesses.registry).

Definition failed (names : list string) (version : DapVersion) : list string :=
  failed_tests (VO:=dispatch) draws 1700000000 Meas_U64 Meas_U32Vec Meas_U64Vec Meas_F64Vec
    (∅ : MetricsWitnesses.registry) names version.

(** Three tests take the kernel minutes: one with a batch of a hundred windows, and two with PINE. *)
Definition slow : list string :=
  ["handle_coll_job_req_succeed_max_batch_interval"; "e2e_taskprov_pine32_hmac_sha256_aes128";
   "e2e_taskprov_pine64_hmac_sha256_aes128"]%string.

Definition quick : list string := List.filter (fun n => negb (existsb (String.eqb n) slow)) names.

(** The 26 others pass, for both versions. *)
Example role_tests_pass : length quick = 26%nat /\ failed quick Draft09 = [] /\ failed quick Latest = [].
Proof. split_and!; vm_compute; reflexivity. Qed.

(** The 22 tests of the sub-protocol pass, for both versions. *)
Example protocol_tests_pass :
  length (protocol_tests (∅ : MetricsWitnesses.registry) draws 1700000000) = 22%nat /\
  failed_protocol_tests (∅ : MetricsWitnesses.registry) draws 1700000000 Draft09 = [] /\
  failed_protocol_tests (∅ : MetricsWitnesses.registry) draws 1700000000 Latest = [].
Proof. split_and!; vm_compute; reflexivity. Qed.
