(* ===== verification/UnitTests.v ===== *)
(** * Unit tests

    The unit tests of the messages ([messages/mod.rs], [messages/taskprov.rs]), of taskprov
    ([taskprov.rs]), of media types ([constants.rs]), of HPKE ([hpke.rs]), of the names of durable
    objects ([durable_requests/bindings/mod.rs] of [daphne-service-utils]) and of the VDAFs
    ([vdaf/prio2.rs], [vdaf/prio3.rs]), as executable definitions that the kernel runs.  Some of them
    compare with bytes that are part of the test, also with the output of SHA-256 and HKDF: the
    first part of the file implements these two, with their laws. *)

From S2P Require Import Prelude Codec Messages TaskprovMessages Errors Config Pine Taskprov AggShare Hpke.
From S2P Require Import Protocol JobTest DurableRequests DurableStore VdafDispatch ProtocolTests.
From S2P Require Import Reference DurableReference RolesTests.
From S2P Require RouterWitnesses.

(** ** SHA-256 and HKDF *)

(** *** SHA-256 (FIPS 180-4) *)
Definition word_mask : N := 0xffffffff.
Definition word_add (x y : N) : N := N.land (x + y) word_mask.
Definition rotr (n x : N) : N := N.lor (N.shiftr x n) (N.land (N.shiftl x (32 - n)) word_mask).

Definition small_primes : list N :=
  List.filter (fun n => forallb (fun k => negb (n mod N.of_nat k =? 0)) (seq 2 (N.to_nat (N.sqrt n) - 1)))
    (N.of_nat <$> seq 2 310).

(** The largest number below [r + 2 ^ i] whose cube is at most [x], bit by bit *)
Fixpoint cube_root (x : N) (i : nat) (r : N) : N :=
  match i with
  | O => r
  | S i => let r' := r + N.shiftl 1 (N.of_nat i) in cube_root x i (if r' * r' * r' <=? x then r' else r)
  end.

(** The constants are the first 32 bits of the fractions of the cube roots, and of the square roots,
    of the first primes. *)
Definition round_constants : list N := (fun p => N.land (cube_root (N.shiftl p 96) 35 0) word_mask) <$> small_primes.

Definition root_bits (p : N) : N := N.land (N.sqrt (N.shiftl p 64)) word_mask.

(** The eight words of the state *)
Record sha_state : Type := MkShaState { sa : N; sb : N; sc : N; sd : N; se : N; sf : N; sg : N; sh : N }.

Definition sha_init : sha_state :=
  MkShaState (root_bits 2) (root_bits 3) (root_bits 5) (root_bits 7) (root_bits 11) (root_bits 13) (root_bits 17)
    (root_bits 19).

Definition sha_round (s : sha_state) (kw : N * N) : sha_state :=
  let '(MkShaState a b c d e f g h) := s in
  let s1 := N.lxor (rotr 6 e) (N.lxor (rotr 11 e) (rotr 25 e)) in
  let ch := N.lxor (N.land e f) (N.land (N.lxor e word_mask) g) in
  let t1 := h + s1 + ch + kw.1 + kw.2 in
  let s0 := N.lxor (rotr 2 a) (N.lxor (rotr 13 a) (rotr 22 a)) in
  let maj := N.lxor (N.land a b) (N.lxor (N.land a c) (N.land b c)) in
  MkShaState (word_add t1 (s0 + maj)) a b c (word_add d t1) e f g.

(** The message schedule; [w] are the last sixteen words, the latest first. *)
Fixpoint sha_schedule (n : nat) (w : list N) : list N :=
  match n, w with
  | S n, w1 :: w2 :: w3 :: w4 :: w5 :: w6 :: w7 :: w8 :: w9 :: w10 :: w11 :: w12 :: w13 :: w14 :: w15 :: w16 :: _ =>
      let s0 := N.lxor (rotr 7 w15) (N.lxor (rotr 18 w15) (N.shiftr w15 3)) in
      let s1 := N.lxor (rotr 17 w2) (N.lxor (rotr 19 w2) (N.shiftr w2 10)) in
      sha_schedule n (word_add (w16 + s0) (w7 + s1) :: w)
  | _, _ => reverse w
  end.

Fixpoint words (n : nat) (bs : list byte) : list N :=
  match n with O => [] | S n => be_value (take 4 bs) :: words n (drop 4 bs) end.

Definition sha_block (s : sha_state) (block : list byte) : sha_state :=
  let '(MkShaState a b c d e f g h) := s in
  let '(MkShaState a' b' c' d' e' f' g' h') :=
    fold_left sha_round (zip round_constants (sha_schedule 48 (reverse (words 16 block)))) s in
  MkShaState (word_add a a') (word_add b b') (word_add c c') (word_add d d')
    (word_add e e') (word_add f f') (word_add g g') (word_add h h').

Definition sha_pad (bs : list byte) : list byte :=
  bs ++ [Byte.x80] ++ replicate (N.to_nat ((119 - len bs mod 64) mod 64)) Byte.x00 ++ be_bytes 8 (8 * len bs).

Fixpoint sha_blocks (n : nat) (s : sha_state) (bs : list byte) : sha_state :=
  match n with O => s | S n => sha_blocks n (sha_block s (take 64 bs)) (drop 64 bs) end.

Definition sha256_spec (bs : list byte) : list byte :=
  let padded := sha_pad bs in
  let '(MkShaState a b c d e f g h) := sha_blocks (length padded / 64) sha_init padded in
  [a; b; c; d; e; f; g; h] ≫= be_bytes 4.

Lemma sha256_spec_len bs : len (sha256_spec bs) = 32.
Proof.
  unfold sha256_spec. destruct (sha_blocks _ _ _). unfold len.
  cbn [mbind list_bind]. rewrite !length_app, !length_be_bytes. done.
Qed.

#[local] Instance sha256_digest : Digest := sha256_spec.
#[local] Instance sha256_digest_laws : DigestLaws sha256_digest := sha256_spec_len.

(** *** HMAC (RFC 2104) and HKDF (RFC 5869) *)
Definition xor_all (mask : byte) (bs : list byte) : list byte :=
  (fun b => byte_of_N (N.lxor (Byte.to_N b) (Byte.to_N mask))) <$> bs.

Definition hmac (key msg : list byte) : list byte :=
  let key := if 64 <? len key then sha256_spec key else key in
  let key := key ++ replicate (64 - length key) Byte.x00 in
  sha256_spec (xor_all Byte.x5c key ++ sha256_spec (xor_all Byte.x36 key ++ msg)).

(** [n] blocks after the block [t], the first with the number [i] *)
Fixpoint hkdf_blocks (prk info t : list byte) (i : N) (n : nat) : list byte :=
  match n with
  | O => []
  | S n => let t := hmac prk (t ++ info ++ [byte_of_N i]) in t ++ hkdf_blocks prk info t (i + 1) n
  end.

#[local] Instance hkdf_sha256 : Hkdf := {
  hkdf_extract salt secret := hmac salt secret;
  hkdf_expand prk info n :=
    if n <=? 255 * 32 then Some (take (N.to_nat n) (hkdf_blocks prk info [] 1 (N.to_nat ((n + 31) / 32)))) else None;
}.

Lemma hkdf_blocks_length prk info t i n : length (hkdf_blocks prk info t i n) = (32 * n)%nat.
Proof.
  revert t i. induction n as [|n IH]; intros t i; [done|]. cbn [hkdf_blocks].
  rewrite length_app, IH. unfold hmac. pose proof (sha256_spec_len
    (xor_all Byte.x5c ((if 64 <? len prk then sha256_spec prk else prk)
       ++ replicate (64 - length (if 64 <? len prk then sha256_spec prk else prk)) Byte.x00)
     ++ sha256_spec (xor_all Byte.x36 ((if 64 <? len prk then sha256_spec prk else prk)
       ++ replicate (64 - length (if 64 <? len prk then sha256_spec prk else prk)) Byte.x00)
     ++ t ++ info ++ [byte_of_N i]))) as H. unfold len in H at 1. lia.
Qed.

#[local] Instance hkdf_sha256_laws : HkdfLaws hkdf_sha256.
Proof.
  intros prk info n Hn. simpl. rewrite (proj2 (N.leb_le _ _)) by done. eexists. split; [done|].
  unfold len. rewrite length_take, hkdf_blocks_length.
  pose proof (N.div_mod (n + 31) 32 ltac:(lia)). pose proof (N.mod_lt (n + 31) 32 ltac:(lia)). lia.
Qed.

(** The salt of taskprov is what its comment says. *)
Example taskprov_salt : sha256_spec (String.list_byte_of_string "dap-taskprov") = TASKPROV_SALT.
Proof. vm_compute. reflexivity. Qed.

(** ** Messages: [messages/mod.rs] *)
#[local] Instance Report_eq_dec : EqDecision Report. Proof. solve_decision. Defined.
#[local] Instance ReportShare_eq_dec : EqDecision ReportShare. Proof. solve_decision. Defined.
#[local] Instance PrepareInit_eq_dec : EqDecision PrepareInit. Proof. solve_decision. Defined.
#[local] Instance AggregationJobInitReq_eq_dec : EqDecision AggregationJobInitReq. Proof. solve_decision. Defined.
#[local] Instance AggregationJobResp_eq_dec : EqDecision AggregationJobResp. Proof. solve_decision. Defined.
#[local] Instance AggregateShareReq_eq_dec : EqDecision AggregateShareReq. Proof. solve_decision. Defined.
#[local] Instance HpkeKemId_eq_dec : EqDecision HpkeKemId. Proof. solve_decision. Defined.
#[local] Instance HpkeKdfId_eq_dec : EqDecision HpkeKdfId. Proof. solve_decision. Defined.
#[local] Instance HpkeAeadId_eq_dec : EqDecision HpkeAeadId. Proof. solve_decision. Defined.
#[local] Instance HpkeConfig_eq_dec : EqDecision HpkeConfig. Proof. solve_decision. Defined.
#[local] Instance PineParam_eq_dec : EqDecision PineParam. Proof. solve_decision. Defined.
#[local] Instance VdafTypeVar_eq_dec : EqDecision VdafTypeVar. Proof. solve_decision. Defined.
#[local] Instance DpConfig_eq_dec : EqDecision DpConfig. Proof. solve_decision. Defined.
#[local] Instance VdafConfig_eq_dec : EqDecision VdafConfig. Proof. solve_decision. Defined.
#[local] Instance UrlBytes_eq_dec : EqDecision UrlBytes. Proof. solve_decision. Defined.
#[local] Instance QueryConfigVar_eq_dec : EqDecision QueryConfigVar. Proof. solve_decision. Defined.
#[local] Instance QueryConfig_eq_dec : EqDecision QueryConfig. Proof. solve_decision. Defined.
#[local] Instance TaskConfig_eq_dec : EqDecision TaskConfig. Proof. solve_decision. Defined.

(** A string of bytes, and bytes as numbers *)
Abbreviation b s := (String.list_byte_of_string s).
Definition raw_bytes (xs : list N) : list byte := byte_of_N <$> xs.

(** [assert_eq!(T::get_decoded(bytes).unwrap(), want)], and of the encoding of [want] *)
Definition decodes_to {E A} `{EqDecision A} (got : res E A) (want : A) : bool :=
  match got with Ok got => bool_decide (got = want) | _ => false end.

Section UnitTests.
Context `{BP : BuildProfile} `{PC : PrioCodec} `{Dg : Digest} `{HK : Hkdf} `{B64 : Base64} `{UP : UrlParser}
  `{PF : PineFields} `{HC : HpkeCrypto} `{HX : HexCodec}.

Definition message_round_trips {A} `{EqDecision A} (encode : writer A) (decode : N -> reader A) (want : A) : bool :=
  match get_encoded encode want with
  | Ok encoded => decodes_to (get_decoded (decode (len encoded)) encoded) want
  | _ => false
  end.

Definition test_read_report (version : DapVersion) : bool :=
  message_round_trips (Report_encode version) (fun _ => Report_decode version)
    (MkReport (MkReportMetadata (replicate 16 (byte_of_N 23)) 1637364244) (b "public share")
       (MkHpkeCiphertext 23 (b "leader encapsulated key") (b "leader ciphertext"),
        MkHpkeCiphertext 119 (b "helper encapsulated key") (b "helper ciphertext"))).

(** The message of the next two tests *)
Definition want_agg_job_init_req : AggregationJobInitReq :=
  MkAggregationJobInitReq (b "this is an aggregation parameter") (PBS_FixedSizeByBatchId (replicate 32 Byte.x00))
    [MkPrepareInit (MkReportShare (MkReportMetadata (replicate 16 (byte_of_N 99)) 1637361337) (b "public share")
       (MkHpkeCiphertext 23 (b "encapsulated key") (b "ciphertext"))) (b "prep share");
     MkPrepareInit (MkReportShare (MkReportMetadata (replicate 16 (byte_of_N 17)) 163736423) (b "public share")
       (MkHpkeCiphertext 0 [] (b "ciphertext"))) (b "prep share")].

Definition agg_job_init_req_data : list N :=
  [0; 0; 0; 32; 116; 104; 105; 115; 32; 105; 115; 32; 97; 110; 32; 97; 103; 103; 114; 101; 103; 97; 116; 105;
   111; 110; 32; 112; 97; 114; 97; 109; 101; 116; 101; 114; 2; 0; 0; 0; 0; 0; 0; 0; 0; 0; 0; 0; 0; 0; 0; 0; 0;
   0; 0; 0; 0; 0; 0; 0; 0; 0; 0; 0; 0; 0; 0; 0; 0; 0; 0; 0; 158; 99; 99; 99; 99; 99; 99; 99; 99; 99; 99; 99;
   99; 99; 99; 99; 99; 0; 0; 0; 0; 97; 152; 38; 185; 0; 0; 0; 12; 112; 117; 98; 108; 105; 99; 32; 115; 104; 97;
   114; 101; 23; 0; 16; 101; 110; 99; 97; 112; 115; 117; 108; 97; 116; 101; 100; 32; 107; 101; 121; 0; 0; 0;
   10; 99; 105; 112; 104; 101; 114; 116; 101; 120; 116; 0; 0; 0; 10; 112; 114; 101; 112; 32; 115; 104; 97; 114;
   101; 17; 17; 17; 17; 17; 17; 17; 17; 17; 17; 17; 17; 17; 17; 17; 17; 0; 0; 0; 0; 9; 194; 107; 103; 0; 0; 0;
   12; 112; 117; 98; 108; 105; 99; 32; 115; 104; 97; 114; 101; 0; 0; 0; 0; 0; 0; 10; 99; 105; 112; 104; 101;
   114; 116; 101; 120; 116; 0; 0; 0; 10; 112; 114; 101; 112; 32; 115; 104; 97; 114; 101].

Definition test_read_agg_job_init_req (version : DapVersion) : bool :=
  decodes_to (get_decoded (AggregationJobInitReq_decode version) (raw_bytes agg_job_init_req_data)) want_agg_job_init_req.

Definition test_roundtrip_agg_job_init_req (version : DapVersion) : bool :=
  message_round_trips (AggregationJobInitReq_encode version) (fun _ => AggregationJobInitReq_decode version) want_agg_job_init_req.

Definition agg_job_resp_data : list N :=
  [0; 0; 0; 147; 22; 22; 22; 22; 22; 22; 22; 22; 22; 22; 22; 22; 22; 22; 22; 22; 0; 0; 0; 0; 31; 116; 104; 105;
   115; 32; 105; 115; 32; 97; 32; 86; 68; 65; 70; 45; 115; 112; 101; 99; 105; 102; 105; 99; 32; 109; 101; 115;
   115; 97; 103; 101; 255; 255; 255; 255; 255; 255; 255; 255; 255; 255; 255; 255; 255; 255; 255; 255; 0; 0; 0;
   0; 56; 98; 101; 108; 105; 101; 118; 101; 32; 105; 116; 32; 111; 114; 32; 110; 111; 116; 32; 116; 104; 105;
   115; 32; 105; 115; 32; 42; 97; 108; 115; 111; 42; 32; 97; 32; 86; 68; 65; 70; 45; 115; 112; 101; 99; 105;
   102; 105; 99; 32; 109; 101; 115; 115; 97; 103; 101; 17; 17; 17; 17; 17; 17; 17; 17; 17; 17; 17; 17; 17; 17;
   17; 17; 2; 7].

Definition test_read_agg_job_resp : bool :=
  decodes_to (get_decoded AggregationJobResp_decode (raw_bytes agg_job_resp_data))
    (MkAggregationJobResp
       [MkTransition (replicate 16 (byte_of_N 22)) (Continued (b "this is a VDAF-specific message"));
        MkTransition (replicate 16 (byte_of_N 255))
          (Continued (b "believe it or not this is *also* a VDAF-specific message"));
        MkTransition (replicate 16 (byte_of_N 17)) (Failed TaskExpired)]).

Definition test_read_agg_share_req : bool :=
  message_round_trips (AggregateShareReq_encode Draft09) (fun _ => AggregateShareReq_decode Draft09)
    (MkAggregateShareReq (BS_FixedSizeByBatchId (replicate 32 (byte_of_N 23))) (b "this is an aggregation parameter")
       100 (replicate 32 Byte.x00)).

Definition test_read_hpke_config : bool :=
  decodes_to (get_decoded HpkeConfig_decode (raw_bytes
    [23; 0; 32; 0; 1; 0; 1; 0; 20; 116; 104; 105; 115; 32; 105; 115; 32; 97; 32; 112; 117; 98; 108; 105; 99;
     32; 107; 101; 121]))
    (MkHpkeConfig 23 X25519HkdfSha256 HkdfSha256 Aes128Gcm (b "this is a public key")).

Definition test_read_unsupported_hpke_config : bool :=
  decodes_to (get_decoded HpkeConfig_decode (raw_bytes
    [23; 0; 99; 0; 99; 0; 99; 0; 20; 116; 104; 105; 115; 32; 105; 115; 32; 97; 32; 112; 117; 98; 108; 105; 99;
     32; 107; 101; 121]))
    (MkHpkeConfig 23 (KemId_NotImplemented 99) (KdfId_NotImplemented 99) (AeadId_NotImplemented 99)
       (b "this is a public key")).

(** [id] is drawn. *)
Definition test_test_base64url (id : list byte) : bool :=
  bool_decide (decode_base64url 32 (encode_base64url id) = Some id) &&
  bool_decide (decode_base64url_vec (encode_base64url id) = Some id).

(** The five types of IDs differ in their length. *)
Definition test_roundtrip_id_base64url : bool :=
  forallb (fun n => bool_decide (decode_base64url n (encode_base64url (replicate (N.to_nat n) (byte_of_N 7)))
    = Some (replicate (N.to_nat n) (byte_of_N 7)))) [16; 32; 16; 16; 32].

(** ** Advertisements: [messages/taskprov.rs] *)
Definition test_read_task_config (version : DapVersion) : bool :=
  decodes_to (get_decoded (TaskConfig_decode version) (raw_bytes
    [20; 116; 104; 105; 115; 32; 105; 115; 32; 97; 32; 99; 111; 111; 108; 32; 116; 97; 115; 107; 33; 0; 22;
     104; 116; 116; 112; 58; 47; 47; 101; 120; 109; 97; 112; 108; 101; 46; 99; 111; 109; 47; 118; 48; 50; 0;
     42; 104; 116; 116; 112; 115; 58; 47; 47; 115; 111; 109; 101; 115; 101; 114; 118; 105; 99; 101; 46; 99;
     108; 111; 117; 100; 102; 108; 97; 114; 101; 114; 101; 115; 101; 97; 114; 99; 104; 46; 99; 111; 109; 0; 19;
     0; 0; 0; 0; 0; 188; 79; 242; 5; 57; 0; 0; 0; 55; 2; 0; 0; 0; 57; 0; 0; 0; 5; 104; 191; 187; 40; 0; 11; 0;
     1; 1; 255; 255; 0; 0; 0; 1; 134; 159]))
    (MkTaskConfig (b "this is a cool task!") (MkUrlBytes (b "http://exmaple.com/v02"))
       (MkUrlBytes (b "https://someservice.cloudflareresearch.com"))
       (MkQueryConfig 12341234 1337 55 (QueryConfigVar_FixedSize 57)) 23232232232
       (MkVdafConfig DpConfig_None (VdafTypeVar_Prio2 99999))).

Definition query_round_trips (version : DapVersion) (var : QueryConfigVar) : bool :=
  message_round_trips (QueryConfig_encode version) (fun n => QueryConfig_decode version (Some n))
    (MkQueryConfig 12345678 1337 12345678 var).

Definition test_roundtrip_query_config (version : DapVersion) : bool :=
  query_round_trips version QueryConfigVar_TimeInterval && query_round_trips version (QueryConfigVar_FixedSize 12345678).

Definition test_roundtrip_query_config_not_implemented (version : DapVersion) : bool :=
  query_round_trips version (QueryConfigVar_NotImplemented 0 (b "query config param")).

Definition dp_round_trips (version : DapVersion) : DpConfig -> bool :=
  message_round_trips DpConfig_encode (fun n => DpConfig_decode version (Some n)).

Definition test_roundtrip_dp_config (version : DapVersion) : bool := dp_round_trips version DpConfig_None.

Definition test_roundtrip_dp_config_not_implemented (version : DapVersion) : bool :=
  dp_round_trips version (DpConfig_NotImplemented 0 (b "dp mechanism param")).

Definition test_roundtrip_vdaf_config_prio2 (version : DapVersion) : bool :=
  message_round_trips (VdafConfig_encode version) (fun _ => VdafConfig_decode version None)
    (MkVdafConfig DpConfig_None (VdafTypeVar_Prio2 1337)).

Definition vdaf_round_trips (version : DapVersion) (var : VdafTypeVar) : bool :=
  message_round_trips (VdafConfig_encode version) (fun n => VdafConfig_decode version (Some n)) (MkVdafConfig DpConfig_None var).

Definition test_roundtrip_vdaf_config_prio3_sum_vec_field64_multiproof_hmac_sha256_aes128 (version : DapVersion) : bool :=
  vdaf_round_trips version (VdafTypeVar_Prio3SumVecField64MultiproofHmacSha256Aes128 1337 23 42 99).

Definition test_roundtrip_vdaf_config_pine32_hmac_sha256_aes128 (version : DapVersion) : bool :=
  vdaf_round_trips version (VdafTypeVar_Pine32HmacSha256Aes128 (MkPineParam 1337 1000000 15 999 1400 15 1 50 17)).

Definition test_roundtrip_vdaf_config_pine64_hmac_sha256_aes128 (version : DapVersion) : bool :=
  vdaf_round_trips version (VdafTypeVar_Pine64HmacSha256Aes128 (MkPineParam 1337 1000000 15 999 1400 15 17 50 17)).

Definition test_roundtrip_vdaf_config_not_implemented (version : DapVersion) : bool :=
  vdaf_round_trips version (VdafTypeVar_NotImplemented 1337 (b "vdaf type param")).

(** ** Taskprov: [taskprov.rs] *)

(** The configuration of the tests, which differ in the expiration and the VDAF *)
Definition cool_task (task_expiration : Time) (vdaf_config : VdafConfig) : TaskConfig :=
  MkTaskConfig (b "cool task") (MkUrlBytes (b "https://leader.com/")) (MkUrlBytes (b "http://helper.org:8788/"))
    (MkQueryConfig 3600 1 1 (QueryConfigVar_FixedSize 2)) task_expiration vdaf_config.

(** [seed] is that of the Collector's key pair. *)
Definition test_try_from_taskprov (seed : list byte) (version : DapVersion) : bool :=
  let taskprov_config := cool_task 1337 (MkVdafConfig DpConfig_None (VdafTypeVar_Prio2 10)) in
  match get_encoded (TaskConfig_encode version) taskprov_config, HpkeReceiverConfig_gen seed 23 P256HkdfSha256 with
  | Ok encoded, Ok receiver =>
      match DapTaskConfigNeedsOptIn_try_from_taskprov version (compute_task_id encoded) taskprov_config
              (replicate 32 Byte.x00) (HpkeReceiverConfig_config receiver) with
      | Ok needs_opt_in =>
          decodes_to (TaskConfig_try_from (into_opted_in needs_opt_in (MkOptInParam 0 1))) taskprov_config
      | _ => false
      end
  | _, _ => false
  end.

Definition test_check_vdaf_key_computation (version : DapVersion) : bool :=
  let task_id := raw_bytes
    [180; 118; 155; 176; 99; 168; 179; 49; 42; 247; 66; 151; 243; 15; 219; 248; 224; 183; 28; 46; 178; 72; 31;
     89; 29; 29; 125; 230; 106; 76; 227; 79] in
  let verify_key_init := raw_bytes
    [26; 42; 63; 27; 235; 180; 187; 228; 85; 234; 172; 238; 41; 26; 15; 50; 215; 225; 188; 108; 117; 16; 5; 96;
     123; 129; 218; 195; 167; 218; 118; 29] in
  let expected := raw_bytes
    [251; 209; 125; 181; 57; 15; 148; 158; 227; 45; 38; 52; 220; 73; 159; 91; 145; 40; 123; 204; 49; 124; 7;
     97; 221; 4; 232; 53; 194; 171; 19; 51] in
  match compute_vdaf_verify_key (E:=Empty_set) version verify_key_init task_id (Vdaf.Prio2 10) with
  | Ok (L32 bytes) => bool_decide (bytes = expected)
  | _ => false
  end.

(** [resolve_advertised_task_config] on a request that advertises the task *)
Definition resolve_cool_task (seed : list byte) (version : DapVersion) (vdaf_config : VdafConfig) :
    option (res DapAbort (option DapTaskConfigNeedsOptIn)) :=
  match get_encoded (TaskConfig_encode version) (cool_task 0 vdaf_config), HpkeReceiverConfig_gen seed 23 X25519HkdfSha256 with
  | Ok encoded, Ok receiver =>
      let task_id := compute_task_id encoded in
      Some (resolve_advertised_task_config
        (MkDapRequest (S:=unit) version None (Some task_id) Undefined [] None (Some (encode_base64url encoded)))
        (replicate 32 Byte.x00) (HpkeReceiverConfig_config receiver) task_id)
  | _, _ => None
  end.

Definition test_resolve_advertised_task_config_expect_abort_unrecognized_vdaf (seed : list byte) (version : DapVersion) : bool :=
  match resolve_cool_task seed version (MkVdafConfig DpConfig_None (VdafTypeVar_NotImplemented 1337 (b "vdaf type param"))) with
  | Some (Err (InvalidTask (Fmt s [ArgNum typ]) _)) => String.eqb s "unimplemented VDAF type ({typ})" && (typ =? 1337)
  | _ => false
  end.

Definition test_resolve_advertised_task_config_ignore_unimplemented_dp_ocnfig (seed : list byte) (version : DapVersion) : bool :=
  match resolve_cool_task seed version
          (MkVdafConfig (DpConfig_NotImplemented 99 (b "Just, do it!")) (VdafTypeVar_Prio2 1337)) with
  | Some (Ok _) => true
  | _ => false
  end.

(** ** Media types: [constants.rs] *)
Definition test_from_str_for_version : bool :=
  forallb (fun '(s, want) => bool_decide (from_str_for_version Draft09 s = want))
    [("application/dap-hpke-config-list", Some MT_HpkeConfigList);
     ("application/dap-aggregation-job-init-req", Some MT_AggregationJobInitReq);
     ("application/dap-aggregation-job-resp", Some MT_AggregationJobResp);
     ("application/dap-aggregate-share-req", Some MT_AggregateShareReq);
     ("application/dap-aggregate-share", Some MT_AggregateShare);
     ("application/dap-collect-req", Some MT_CollectReq);
     ("application/dap-collection", Some MT_Collection);
     ("blah-blah-blah", None)]%string.

Definition test_round_trip (version : DapVersion) : bool :=
  forallb (fun media_type =>
      match as_str_for_version media_type version with
      | Some content_type => bool_decide (from_str_for_version version content_type = Some media_type)
      | None => true
      end)
    [MT_AggregationJobInitReq; MT_AggregationJobResp; MT_AggregateShareReq; MT_AggregateShare; MT_CollectReq;
     MT_Collection; MT_HpkeConfigList; MT_Report].

Definition test_media_type_parsing_ignores_content_type_paramters (version : DapVersion) : bool :=
  bool_decide (from_str_for_version version "application/dap-aggregation-job-init-req;version=09"
    = Some MT_AggregationJobInitReq).

(** ** HPKE: [hpke.rs] *)

(** [seeds] are those of the key pair and of the encryption. *)
Definition encrypt_round_trips (seeds : list byte * list byte) (kem_id : HpkeKemId) : bool :=
  match HpkeReceiverConfig_gen seeds.1 23 kem_id with
  | Ok config =>
      match HpkeConfig_encrypt seeds.2 (HpkeReceiverConfig_config config) (b "info string") (b "associated raw_bytes") (b "plaintext") with
      | Ok ciphertext =>
          decodes_to (HpkeReceiverConfig_decrypt config (b "info string") (b "associated raw_bytes") ciphertext) (b "plaintext")
      | _ => false
      end
  | _ => false
  end.

Definition test_encrypt_roundtrip_x25519_hkdf_sha256 (seeds : list byte * list byte) : bool :=
  encrypt_round_trips seeds X25519HkdfSha256.

Definition test_encrypt_roundtrip_p256_hkdf_sha256 (seeds : list byte * list byte) : bool :=
  encrypt_round_trips seeds P256HkdfSha256.

Definition test_hpke_receiver_config_try_from (seed : list byte) : bool :=
  match generate_key_pair DhKemP256 seed with
  | Some (private_key, public_key) =>
      let config := MkHpkeConfig 0 P256HkdfSha256 HkdfSha256 Aes128Gcm in
      let is_err key sk :=
        match HpkeReceiverConfig_try_from (config key) sk with Err _ => true | _ => false end in
      match HpkeReceiverConfig_try_from (config public_key) private_key with
      | Ok _ => is_err (replicate 20 Byte.x00) private_key && is_err public_key (replicate 20 Byte.x00)
      | _ => false
      end
  | None => false
  end.

(** ** Names of durable objects: [durable_requests/bindings/mod.rs] *)
Definition test_bucket_display : bool :=
  forallb (fun '(want, bucket) => String.eqb want (DapBatchBucket_to_string bucket))
    [("batch/1111111111111111111111111111111111111111111111111111111111111111",
      Bucket_FixedSize (replicate 32 (byte_of_N 17)) 0);
     ("window/1337", Bucket_TimeInterval 1337 0);
     ("batch/1111111111111111111111111111111111111111111111111111111111111111/shard/2323",
      Bucket_FixedSize (replicate 32 (byte_of_N 17)) 2323);
     ("window/1337/shard/99", Bucket_TimeInterval 1337 99)]%string.

(** ** All of them *)
Definition unit_tests (seed : list byte) (version : DapVersion) : list (string * bool) :=
  [("read_report", test_read_report version);
   ("read_agg_job_init_req", test_read_agg_job_init_req version);
   ("roundtrip_agg_job_init_req", test_roundtrip_agg_job_init_req version);
   ("read_agg_job_resp", test_read_agg_job_resp);
   ("read_agg_share_req", test_read_agg_share_req);
   ("read_hpke_config", test_read_hpke_config);
   ("read_unsupported_hpke_config", test_read_unsupported_hpke_config);
   ("test_base64url", test_test_base64url seed);
   ("roundtrip_id_base64url", test_roundtrip_id_base64url);
   ("read_task_config", test_read_task_config version);
   ("roundtrip_query_config", test_roundtrip_query_config version);
   ("roundtrip_query_config_not_implemented", test_roundtrip_query_config_not_implemented version);
   ("roundtrip_dp_config", test_roundtrip_dp_config version);
   ("roundtrip_dp_config_not_implemented", test_roundtrip_dp_config_not_implemented version);
   ("roundtrip_vdaf_config_prio2", test_roundtrip_vdaf_config_prio2 version);
   ("roundtrip_vdaf_config_prio3_sum_vec_field64_multiproof_hmac_sha256_aes128",
    test_roundtrip_vdaf_config_prio3_sum_vec_field64_multiproof_hmac_sha256_aes128 version);
   ("roundtrip_vdaf_config_pine32_hmac_sha256_aes128", test_roundtrip_vdaf_config_pine32_hmac_sha256_aes128 version);
   ("roundtrip_vdaf_config_pine64_hmac_sha256_aes128", test_roundtrip_vdaf_config_pine64_hmac_sha256_aes128 version);
   ("roundtrip_vdaf_config_not_implemented", test_roundtrip_vdaf_config_not_implemented version);
   ("try_from_taskprov", test_try_from_taskprov seed version);
   ("check_vdaf_key_computation", test_check_vdaf_key_computation version);
   ("resolve_advertised_task_config_expect_abort_unrecognized_vdaf",
    test_resolve_advertised_task_config_expect_abort_unrecognized_vdaf seed version);
   ("resolve_advertised_task_config_ignore_unimplemented_dp_ocnfig",
    test_resolve_advertised_task_config_ignore_unimplemented_dp_ocnfig seed version);
   ("from_str_for_version", test_from_str_for_version);
   ("round_trip", test_round_trip version);
   ("media_type_parsing_ignores_content_type_paramters", test_media_type_parsing_ignores_content_type_paramters version);
   ("encrypt_roundtrip_x25519_hkdf_sha256", test_encrypt_roundtrip_x25519_hkdf_sha256 (seed, seed));
   ("encrypt_roundtrip_p256_hkdf_sha256", test_encrypt_roundtrip_p256_hkdf_sha256 (seed, seed));
   ("hpke_receiver_config_try_from", test_hpke_receiver_config_try_from seed);
   ("bucket_display", test_bucket_display)]%string.
End UnitTests.

(** ** The VDAFs: [vdaf/prio2.rs], [vdaf/prio3.rs] *)
#[local] Instance f64_eq_dec : EqDecision f64. Proof. solve_decision. Defined.
#[local] Instance AggregateResult_eq_dec : EqDecision AggregateResult. Proof. solve_decision. Defined.

Section VdafTests.
Context `{BP : BuildProfile} `{PC : PrioCodec} `{PA : PrioAgg} `{PVec : !PrioVec} `{VS : !PrioVdafs}.
Context `{P32 : !PineBackend AggShare.FieldPrio2} `{P64 : !PineBackend AggShare.Field64}.
Context `{Dg : Digest} `{HC : HpkeCrypto}.
Context (rand : N -> nat -> list byte) (now : Time).

(** [AggregationJobTest::new(vdaf, HpkeKemId::X25519HkdfSha256, version).roundtrip(DapAggregationParam::Empty,
    measurements)] is [want]. *)
Definition job_results (version : DapVersion) (vdaf : Vdaf.VdafConfig) (measurements : list Measurement)
    (want : AggregateResult) : bool :=
  match AggregationJobTest_new (E:=DapError)
          (MkNewRand (rand 0 32) (rand 1 32) (be_value (rand 2 1), rand 3 32) (be_value (rand 4 1), rand 5 32)
             (be_value (rand 6 1), rand 7 32)) now vdaf X25519HkdfSha256 version with
  | Ok t =>
      let draws i := MkReportRand (rand (8 + 4 * N.of_nat i) 16) (rand (9 + 4 * N.of_nat i) 256)
        (rand (10 + 4 * N.of_nat i) 32, rand (11 + 4 * N.of_nat i) 32) in
      match (roundtrip draws (rand 8 32, rand 9 32) t AggParam_Empty measurements []).1 with
      | Ok got => bool_decide ((got : AggregateResult) = want)
      | _ => false
      end
  | _ => false
  end.

Definition test_prio2_roundtrip (version : DapVersion) : bool :=
  job_results version (Vdaf.Prio2 5)
    [Meas_U32Vec [1; 1; 0; 0; 1]; Meas_U32Vec [1; 1; 0; 0; 1]; Meas_U32Vec [1; 0; 0; 0; 1]; Meas_U32Vec [0; 1; 0; 0; 1];
     Meas_U32Vec [0; 0; 1; 0; 1]] (Result_U32Vec [3; 3; 1; 0; 5]).

Definition test_roundtrip_count (version : DapVersion) : bool :=
  job_results version (Vdaf.Prio3 Prio3_Count) [Meas_U64 0; Meas_U64 1; Meas_U64 1; Meas_U64 1; Meas_U64 0] (Result_U64 3).

Definition test_roundtrip_sum (version : DapVersion) : bool :=
  job_results version (Vdaf.Prio3 (Prio3_Sum 23)) [Meas_U64 0; Meas_U64 1; Meas_U64 1337; Meas_U64 4; Meas_U64 0] (Result_U128 1342).

Definition test_roundtrip_sum_vec (version : DapVersion) : bool :=
  job_results version (Vdaf.Prio3 (Prio3_SumVec 23 2 1))
    [Meas_U128Vec [1337; 0]; Meas_U128Vec [0; 1337]; Meas_U128Vec [1; 1]] (Result_U128Vec [1338; 1338]).

Definition test_roundtrip_histogram (version : DapVersion) : bool :=
  job_results version (Vdaf.Prio3 (Prio3_Histogram 3 1))
    [Meas_U64 0; Meas_U64 1; Meas_U64 2; Meas_U64 2; Meas_U64 2] (Result_U128Vec [1; 1; 3]).

Definition test_roundtrip_sum_vec_field64_multiproof_hmac_sha256_aes128 (version : DapVersion) : bool :=
  job_results version (Vdaf.Prio3 (Prio3_SumVecField64MultiproofHmacSha256Aes128 23 2 1 4))
    [Meas_U64Vec [1337; 0]; Meas_U64Vec [0; 1337]; Meas_U64Vec [1; 1]] (Result_U64Vec [1338; 1338]).

Definition vdaf_tests (version : DapVersion) : list (string * bool) :=
  [("prio2::roundtrip", test_prio2_roundtrip version);
   ("prio3::roundtrip_count", test_roundtrip_count version);
   ("prio3::roundtrip_sum", test_roundtrip_sum version);
   ("prio3::roundtrip_sum_vec", test_roundtrip_sum_vec version);
   ("prio3::roundtrip_histogram", test_roundtrip_histogram version);
   ("prio3::roundtrip_sum_vec_field64_multiproof_hmac_sha256_aes128",
    test_roundtrip_sum_vec_field64_multiproof_hmac_sha256_aes128 version)]%string.
End VdafTests.

(** ** They pass

    The digest and HKDF are those of this file; the codec, the fields and the VDAFs those of the
    deployment of [RolesTests]. *)
#[local] Existing Instances RouterWitnesses.base64_letters RolesTests.prime_vec RolesTests.share_vdafs
  RolesTests.prime_backend.

Definition failing (tests : list (string * bool)) : list string := (List.filter (fun t => negb t.2) tests).*1.

Example unit_tests_pass : forall version, failing (unit_tests (replicate 32 Byte.x2a) version) = [].
Proof. intros []; vm_compute; reflexivity. Qed.

Example vdaf_tests_pass : forall version, failing (vdaf_tests draws 1700000000 version) = [].
Proof. intros []; vm_compute; reflexivity. Qed.
